(* ===== verification/_CoqProject ===== *)
-Q . S2P
Prelude.v
Bits.v
Bitmap.v
Queue.v
Message.v
Btable.v
IndexTable.v
NhIface.v
Nexthop.v
RouteReq.v
NexthopAdd.v
NexthopAddProofs.v
NexthopLife.v
Mtrie.v
MtrieSpec.v
MtrieProofs.v
MtrieExamples.v
Hash.v
Htable.v
HtableMap.v
Bridge.v
Route.v
RouteExamples.v
Mpls.v
Vxlan.v
Pool.v
Qos.v
QosProofs.v
Mirror.v
MirrorProofs.v
Fragment.v
FragmentProofs.v
FragmentExamples.v
VrfAssign.v
VrfAssignProofs.v
FlowEntry.v
FlowInfo.v
FlowTable.v
VifBridge.v
FatFlow.v
FatFlowProofs.v
VifState.v
Vif.v
VifReq.v
VifInv.v
VifDrivers.v
VifRefs.v
VifTable.v
VifSub.v
VifVlan.v
VifDelete.v
VifAdd.v
VifRequest.v
VifRead.v
VifSafe.v
VifReach.v
VifExamples.v
Stats.v
StatsProofs.v
Csum.v
FlowPacket.v
FlowNatProofs.v
FlowState.v
FlowTcp.v
Flow.v
FlowWork.v
FlowInv.v
FlowProofs.v
FlowWorkProofs.v
FlowSetProofs.v
FlowReach.v
FlowEvict.v
FlowTcpProofs.v
FlowRun.v
TableExamples.v
Vrouter.v
VrouterProofs.v
VrouterTables.v
VrouterRun.v
VrouterExamples.v
