(* ===== verification/Prelude.v ===== *)
(** * A verified model of the Contrail vRouter forwarding tables

    The vRouter is the data path of Contrail: a module that runs in a host (Linux,
    FreeBSD, Windows, DPDK) and forwards packets from tables that an agent programs
    with request messages.  This library models the tables, the objects they refer to
    and the messages that change them, as they are written in [src/dp-core] and
    [src/include], and proves that they do what a forwarding table should.

    ** The parts and how they interact

    An agent request arrives as a sandesh message.  Its handler looks up nexthops,
    changes a table and queues a response.  A route request goes to the route trie of
    its VRF (IPv4, IPv6) or to the bridge table (MAC addresses), a label request to the
    label table, a VXLAN request to the identifier table.  The tables hold counted
    references to nexthops; a nexthop that loses its last reference is freed after a
    grace period, in which packets in flight may still use it.  A route may carry the
    index of the bridge entry of its MAC.  The bridge table is a hash table with
    overflow chains, the VXLAN table is an index table (a radix tree of fixed depth),
    the nexthop and label tables are block tables (arrays over several allocations).

    Packets meet further tables on their way: mirrors say where copies go, QoS maps give
    code points a forwarding class, service interfaces give VLAN tags a VRF, and the
    fragment tables carry the ports of the first fragment of a packet to the others.  A
    block of these tables that a packet may still read is freed by a deferred call; a
    fragment that comes too early waits with an assembler thread.

    Interfaces are the ends of all this: a table of records with counted references, of
    several kinds that differ in their drivers.  A host interface and the physical interface
    under it point to each other; VLAN sub-interfaces are found by their parent in an array
    by tag, or in a hash table by tag and address.

    The flow table, a hash table, decides about each packet: a packet whose flow is new
    waits on hold while the agent is asked, others are dropped, forwarded or translated.
    The packets of a TCP connection drive the state of its two flows, and the flows of a
    connection that is over are evicted.  A change of a flow schedules work, which lets
    waiting packets go and defers what must wait for packets in flight.

    Each of these parts is a module of the router, which starts them in order, tears them
    down in reverse order, and resets them.  Every CPU counts the packets it drops and the
    memory it allocates for itself; requests show the sums.

    ** Files

    - [Prelude.v]: machine integers, arrays, memory, error codes; shared lemmas.
    - [Bitmap.v]: dp-core/vr_bitmap.c, sequential and with interleaved threads.
    - [Queue.v]: dp-core/vr_queue.c, a linked list in a heap.
    - [Message.v]: dp-core/vr_message.c and the encoders of dp-core/vr_sandesh.c.
    - [Btable.v]: dp-core/vr_btable.c, include/vr_btable.h.
    - [IndexTable.v]: dp-core/vr_index_table.c.
    - [NhIface.v]: what the tables ask of the nexthops, as type classes: operations
      ([NhOps]), their laws ([NhLaws]) and the account of references ([NhRefs]).
    - [Nexthop.v]: dp-core/vr_nexthop.c, the table, the reference counts and the
      deferred release; it gives the instances of those classes.
    - [NexthopAdd.v], [NexthopAddProofs.v], [NexthopLife.v]: requests that create or
      change a nexthop of each type, their outcomes, and the whole life of the table as
      a step relation.
    - [RouteReq.v]: the route request, include/vr_route.h.
    - [Mtrie.v], [MtrieSpec.v], [MtrieProofs.v]: dp-core/vr_ip_mtrie.c, the abstract
      route table with longest prefix match, and the refinement.
    - [Hash.v]: include/vr_hash.h.
    - [Htable.v], [HtableMap.v]: dp-core/vr_htable.c, and its refinement of finite maps.
    - [Bridge.v]: the table part of dp-core/vr_bridge.c.
    - [Route.v]: dp-core/vr_route.c, requests over both kinds of route tables.
    - [Mpls.v], [Vxlan.v]: the tables and requests of dp-core/vr_mpls.c and vr_vxlan.c.
    - [Pool.v]: tables of pointers to blocks that are freed later (shared lemmas).
    - [Qos.v], [QosProofs.v]: dp-core/vr_qos.c, maps and forwarding classes.
    - [Mirror.v], [MirrorProofs.v]: dp-core/vr_mirror.c, the table, the metadata of flows
      and the copy of a packet.
    - [Fragment.v], [FragmentProofs.v]: dp-core/vr_fragment.c, the table of ports, the
      assembler and its queues, with the work of linux/vr_fragment_assembler.c and of
      dpdk/vr_dpdk_fragment_assembler.c.
    - [VrfAssign.v], [VrfAssignProofs.v]: dp-core/vr_vrf_assign.c and the VLAN table of
      dp-core/vr_interface.c.
    - [FlowEntry.v], [FlowInfo.v], [FlowState.v]: the entries of include/vr_flow.h, the
      counters and the bitmap of ports of dp-core/vr_flow.c, and the state of the module.
    - [FlowTable.v]: what the flow module asks of its table, as type classes ([FlowStore],
      [FlowTable] and their laws), and the hash table as an instance.
    - [FlowTcp.v], [FlowTcpProofs.v]: the state of TCP connections (dp-core/vr_flow.c).
    - [Flow.v], [FlowWork.v]: the rest of dp-core/vr_flow.c: the life of an entry, eviction,
      look-up and actions, work and deferred calls, requests, set-up and tear-down.
    - [FlowInv.v], [FlowProofs.v], [FlowWorkProofs.v], [FlowSetProofs.v], [FlowReach.v],
      [FlowEvict.v]: the invariant of the flow module, that every operation keeps it, what
      holds in every state that is reached, and how a pair of flows is evicted.
    - [FatFlow.v], [FatFlowProofs.v]: the ports whose flows are merged
      (dp-core/vr_interface.c).
    - [VifBridge.v]: dp-core/vr_vif_bridge.c, with the class ([SubTable], [SubTableLaws]) of
      what interfaces ask of a table of sub-interfaces.
    - [VifState.v], [Vif.v], [VifReq.v]: the rest of dp-core/vr_interface.c but for packets:
      the state and programs that may fault, the table, the references and the drivers, the
      requests that add, change, delete and read.
    - [VifInv.v], [VifDrivers.v], [VifRefs.v], [VifTable.v], [VifSub.v], [VifVlan.v],
      [VifDelete.v], [VifAdd.v], [VifRequest.v], [VifRead.v], [VifSafe.v], [VifReach.v]: the
      invariant of the interface module, its weakest preconditions operation by operation,
      the abstract router and what holds in every state that is reached.
    - [Stats.v], [StatsProofs.v]: dp-core/vr_stats.c, with the allocator of
      linux/vrouter_mod.c that counts.
    - [Vrouter.v], [VrouterProofs.v]: dp-core/vrouter.c for any list of modules, and what it
      does when the modules keep the promises of two classes ([StartLaws], [ResetLaws]).
    - [VrouterTables.v], [VrouterRun.v]: a router made of the modules of nexthops, labels,
      mirrors, identifiers and code points, with their own functions; it keeps the promises.
    - [Bits.v], [Csum.v], [FlowPacket.v], [FlowNatProofs.v]: flags and bytes, checksums, the
      key of a packet and address translation (dp-core/vr_proto_ip.c, vr_proto_ip6.c,
      include/vr_packet.h).
    - [MtrieExamples.v], [RouteExamples.v], [TableExamples.v], [FragmentExamples.v],
      [FlowRun.v], [VifExamples.v], [VrouterExamples.v]: concrete states at which the
      theorems are applied, and inputs on which the code departs from its comments.

    A definition has the name of the C function it models; a function whose loop or
    inner block is a definition of its own names it next to it.

    ** State and effects

    A structure is a record, a pointer to a shared object is an integer that indexes a
    map (the nexthop heap, the queue elements, the allocator [mem]); a tree that only its
    owner reaches is a tree.  A function takes the state it changes and returns it.
    Error codes are the negated integers of the source.  Memory is exact: [mem] knows
    every live block, so that leaks and double frees are statements about it.  What the
    host decides (whether an allocation, a deferral or the scheduling of work succeeds)
    is read from an oracle, a list of answers that the theorems quantify over; an
    exhausted oracle answers yes.

    ** What is proved

    - Routes: adding and deleting routes through the request handlers refines insertion
      and deletion in the abstract table, and a look-up is the longest prefix match;
      every request is answered once.
    - Nexthops: reference counts are exact in every reachable state, no freed nexthop is
      touched, dropping a reference terminates; a request puts the nexthop it describes,
      field by field, in its slot, is refused without a trace, or fails for a stated reason
      and empties the slot.  The requests are those whose values fit ([fits]: a byte for the
      type, less than 65536 components, not both of the tunnel kinds GRE and UDP) and whose
      changes are safe ([safe_change]: a change that is not refused keeps the type and makes
      no other tunnel a UDP tunnel over IPv6); [NexthopLife.v] shows what the code does with
      others.
    - Mirrors and QoS maps: no block is read after it is freed, freed twice or lost; the
      table holds one reference per mirror; a copy has the metadata that its mirror asks
      for before the captured bytes, and is never copied again; a packet gets the class that
      the last request gave to its code point.
    - Fragments: every fragment after its head gets the ports of the head and the entry
      goes with the last (with no earlier entry of the packet, and neither the timer nor
      other packets in between); the assembler keeps, sends on or frees each packet exactly once,
      in order, with the queue taken away at any moment; timers visit every entry.
    - VLANs: the receive function never finds the table gone, whatever order requests and
      changes of the service flag come in.
    - Interfaces: whatever order requests, references, shut-downs and set-ups come in and
      whatever the host answers, no operation follows a null or stale pointer or leaves an
      array; every pointer between interfaces leads where it should, counts cover the
      references; the requests refine a finite map from indices to configurations, and a
      request to read shows that map and the sums of the statistics.  A request to add is
      served under stated conditions ([add_ok]); what goes wrong without them is shown.
    - Flows: the number of flows on hold, with which new flows are limited, is exact in
      every reachable state; no queue of packets is used after it was freed; a refused
      request leaves no trace; dead flows are given back in pairs.  TCP flows are marked
      dead only after a reset or two FINs, and always after two that are acknowledged with
      no SYN or other FIN between a FIN and its acknowledgement.  Address translation keeps
      checksums correct and is undone for replies, whatever is translated; requests set
      exactly the ports that they list.
    - Statistics: when the set-up found its memory, then with allocations and releases on any
      CPUs a request shows exactly the blocks that are not freed, in the field of their kind,
      and the packets dropped since the last reset, by reason.
    - The router of the five modules of [VrouterTables.v]: a start with a host present leaves
      every table there or, with the first error of the module that failed reported, nothing;
      a reset drops every reference that a table holds.
    - Hash, bridge, index, label and VXLAN tables implement finite maps, and hold
      exactly one reference per entry where they hold references.
    - Bit map, block table, queue and messages: allocation is unique (also with threads),
      entries are in bounds and disjoint, the queue is first in first out, dumps stay in
      their page.
    - Where the code departs from what it should do, the theorem says how, on a concrete
      input, and the positive theorems state the condition under which all is well.

    ** Bounds and fuel

    Integers are kept at their width with the functions [u8], [u16], [u32], [s16], [s32].
    Recursion that the source bounds by the depth of a tree recurses on the number of
    levels.  Three loops have fuel: dropping a nexthop reference (one more than the number
    of composites that still hold components, which is proved to be enough), the walk of
    an overflow chain (the number of entries of the table, enough in every well-formed
    table) and the response to a failed response (two, enough when the bare response can
    be encoded).  A theorem about such a function is about its result with that fuel.

    ** What is not modelled

    Packets but for their IP and transport headers, tunnels and link headers, and so the
    functions of interfaces and nexthops that receive and send them; the hosts but for the
    assembler threads (the host of the interface module is a parameter that may answer
    anything); the utilities; the code that is generated from the message schema (its encoder is a parameter with stated
    laws); the initial values of the run-time parameters and the choice between the requests
    of dp-core/vrouter.c.  The set-up of the route tables is not modelled, and the router of
    [VrouterTables.v] has no modules of statistics, interfaces, routes and flows, whose
    models have states of their own.  What the host does with the packet that a mirror copies (cloning, head room,
    link header) and what sending a waiting fragment on does to the fragment table are
    parameters.  Compare-and-swap loops are read as one thread runs them, except in
    [Bitmap.v], which interleaves threads at every shared access, and in the queue of
    [Fragment.v], where the assembler may take the list between any two accesses.  The
    theorems on reachable states of the interface module suppose that memory does not run
    out; the examples show what happens when it does.  Those of the flow module take every handler as one step, with
    work and deferred calls in any order, and a host that grants every deferred call;
    requests for memory may fail. *)

From stdpp Require Export base tactics list gmap numbers option fin_maps sorting.
From Stdlib Require Export ZArith Lia Bool.

Declare Scope vr_scope.
Delimit Scope vr_scope with vr.
Open Scope Z_scope.

(** ** Machine integers

    The C code works on [unsigned char], [unsigned short], [unsigned int] and
    [int]; their conversions are written out at every place where the source
    stores into a narrower or wrapping location. *)

Definition u8 (z : Z) : Z := z mod 256.
Definition u16 (z : Z) : Z := z mod 65536.
Definition u32 (z : Z) : Z := z mod 4294967296.
Definition s16 (z : Z) : Z := (z + 32768) mod 65536 - 32768.
Definition s32 (z : Z) : Z := (z + 2147483648) mod 4294967296 - 2147483648.

Abbreviation UINT_MAX := 4294967295.

Lemma u32_small z : 0 <= z <= UINT_MAX -> u32 z = z.
Proof. intros. unfold u32. apply Z.mod_small. lia. Qed.

Lemma u32_range z : 0 <= u32 z <= UINT_MAX.
Proof. unfold u32. pose proof (Z.mod_pos_bound z 4294967296). lia. Qed.

Lemma s32_u32 z : -2147483648 <= z < 2147483648 -> s32 (u32 z) = z.
Proof. intros Hz. unfold s32, u32. rewrite Zplus_mod_idemp_l, Z.mod_small by lia. lia. Qed.

Lemma u16_small z : 0 <= z < 65536 -> u16 z = z.
Proof. intros. unfold u16. by apply Z.mod_small. Qed.

Lemma u8_small z : 0 <= z < 256 -> u8 z = z.
Proof. intros. unfold u8. by apply Z.mod_small. Qed.

(** [errno] values, negated by the code when returned. *)

Definition ENOENT : Z := 2.
Definition ENOMEM : Z := 12.
Definition EOPNOTSUPP : Z := 95.
Definition ENODEV : Z := 19.
Definition EINVAL : Z := 22.

(** Address families (the kernel's numbering). *)

Definition AF_INET : Z := 2.
Definition AF_BRIDGE : Z := 7.
Definition AF_INET6 : Z := 10.

(** ** Arrays indexed by C integers

    An array is a list; [zget] and [zset] are a load and a store at a C index.
    A load out of range has no value and a store out of range changes nothing:
    the bounds that the source needs are theorems about the components. *)

Definition zget {A} (l : list A) (i : Z) : option A :=
  if decide (0 <= i) then l !! Z.to_nat i else None.

Definition zset {A} (l : list A) (i : Z) (x : A) : list A :=
  if decide (0 <= i) then <[Z.to_nat i := x]> l else l.

Definition zlen {A} (l : list A) : Z := Z.of_nat (length l).

Section zarrays.
Context {A : Type}.
Implicit Types (l : list A) (i j : Z) (x y : A).

Lemma zget_is_Some l i : 0 <= i < zlen l -> is_Some (zget l i).
Proof.
  unfold zget, zlen. intros. case_decide; [|lia].
  apply lookup_lt_is_Some. lia.
Qed.

Lemma zget_range l i x : zget l i = Some x -> 0 <= i < zlen l.
Proof.
  unfold zget, zlen. case_decide; [|done].
  intros H1%lookup_lt_Some. lia.
Qed.

Lemma zget_None l i : zlen l <= i -> zget l i = None.
Proof.
  unfold zget, zlen. intros. case_decide; [|done].
  apply lookup_ge_None. lia.
Qed.

Lemma zlen_zset l i x : zlen (zset l i x) = zlen l.
Proof. unfold zlen, zset. case_decide; [|done]. by rewrite length_insert. Qed.

Lemma zget_zset_eq l i x : 0 <= i < zlen l -> zget (zset l i x) i = Some x.
Proof.
  unfold zlen, zget, zset. intros. repeat case_decide; try lia.
  apply list_lookup_insert_eq. lia.
Qed.

Lemma zget_zset_ne l i j x : i <> j -> zget (zset l i x) j = zget l j.
Proof.
  unfold zget, zset. intros. repeat case_decide; try done.
  apply list_lookup_insert_ne. lia.
Qed.

Lemma zget_zset l i j x :
  zget (zset l i x) j =
    if decide (i = j /\ 0 <= i < zlen l) then Some x else zget l j.
Proof.
  case_decide as H.
  - destruct H as [<- ?]. by apply zget_zset_eq.
  - destruct (decide (i = j)) as [<-|]; [|by apply zget_zset_ne].
    unfold zget, zset, zlen in *. case_decide; [|done].
    rewrite list_insert_ge by lia. done.
Qed.

Lemma zset_zset l i x y : zset (zset l i x) i y = zset l i y.
Proof. unfold zset. case_decide; [|done]. apply list_insert_insert_eq. Qed.

Lemma zget_replicate (n : nat) x i :
  0 <= i < Z.of_nat n -> zget (replicate n x) i = Some x.
Proof.
  unfold zget. intros. case_decide; [|lia].
  apply lookup_replicate_2. lia.
Qed.

Lemma zget_replicate_default (n : nat) x i : default x (zget (replicate n x) i) = x.
Proof.
  unfold zget. case_decide; [|done].
  destruct (replicate n x !! _) eqn:E; [|done]. by apply lookup_replicate in E as [-> _].
Qed.

Lemma zlen_replicate (n : nat) x : zlen (replicate n x) = Z.of_nat n.
Proof. unfold zlen. by rewrite length_replicate. Qed.

Lemma zget_cons_0 x l : zget (x :: l) 0 = Some x.
Proof. done. Qed.

Lemma zget_cons_succ x l i : 0 <= i -> zget (x :: l) (i + 1) = zget l i.
Proof.
  unfold zget. intros. repeat case_decide; try lia.
  by replace (Z.to_nat (i + 1)) with (S (Z.to_nat i)) by lia.
Qed.

Lemma zget_ext l1 l2 :
  zlen l1 = zlen l2 -> (forall i, 0 <= i < zlen l1 -> zget l1 i = zget l2 i) -> l1 = l2.
Proof.
  unfold zlen, zget. intros Hl H. apply list_eq. intros i.
  destruct (decide (i < length l1)%nat).
  - specialize (H (Z.of_nat i)). case_decide; [|lia].
    rewrite Nat2Z.id in H. apply H. lia.
  - rewrite !(proj2 (lookup_ge_None _ _)) by lia. done.
Qed.
End zarrays.

Create HintDb vr.
#[export] Hint Rewrite @zlen_zset @zlen_replicate : vr.

(** Replacing one element of a list changes one block of a concatenation. *)
Lemma bind_insert_perm {A B} (f : A -> list B) (l : list A) t p :
  l !! t = Some p ->
  exists rest, forall p', (<[t := p']> l ≫= f) ≡ₚ f p' ++ rest.
Proof.
  intros Hp%lookup_lt_Some.
  exists ((take t l ≫= f) ++ (drop (S t) l ≫= f)). intros p'.
  rewrite insert_take_drop by done. rewrite bind_app, bind_cons.
  rewrite !(assoc_L (++)). by rewrite (Permutation_app_comm (take t l ≫= f)).
Qed.

(** ** Memory

    The host supplies [vr_zalloc], [vr_page_alloc] and [vr_free].  A pointer is a
    block and an offset; the allocator hands out fresh blocks, and the list
    [m_oracle] says which of the coming requests succeed (all of them once it is
    exhausted). *)

Record mem := mk_mem { m_next : Z; m_live : gmap Z Z; m_oracle : list bool }.

Definition m_alloc (size : Z) (m : mem) : option Z * mem :=
  match m_oracle m with
  | false :: o => (None, mk_mem (m_next m) (m_live m) o)
  | o => (Some (m_next m),
          mk_mem (m_next m + 1) (<[m_next m := size]> (m_live m)) (tail o))
  end.

Definition m_free (blk : Z) (m : mem) : mem :=
  mk_mem (m_next m) (delete blk (m_live m)) (m_oracle m).

Definition m_frees (blks : list Z) (m : mem) : mem := foldr m_free m blks.

(** Blocks are never reused. *)
Definition mem_ok (m : mem) : Prop := forall b, is_Some (m_live m !! b) -> b < m_next m.

Definition mem0 : mem := mk_mem 1 ∅ [].

Lemma m_alloc_spec size m r m' :
  mem_ok m -> m_alloc size m = (r, m') ->
  mem_ok m' /\
  match r with
  | Some b => b = m_next m /\ m_next m' = m_next m + 1 /\ m_live m !! b = None /\
              m_live m' = <[b := size]> (m_live m)
  | None => m_live m' = m_live m /\ m_next m' = m_next m
  end.
Proof.
  intros Hok Ha. unfold m_alloc in Ha.
  assert (Hf : m_live m !! m_next m = None).
  { destruct (m_live m !! m_next m) eqn:E; [|done].
    assert (m_next m < m_next m) by (apply Hok; eauto). lia. }
  assert (Hins : forall o, mem_ok (mk_mem (m_next m + 1) (<[m_next m := size]> (m_live m)) o)).
  { intros o b; cbn. rewrite lookup_insert_is_Some'. intros [->|H%Hok]; lia. }
  destruct (m_oracle m) as [|[] o]; simplify_eq; eauto 10.
Qed.

Lemma mem_ok_free b m : mem_ok m -> mem_ok (m_free b m).
Proof. intros H c; cbn. intros [? [_ Hc]%lookup_delete_Some]. eauto. Qed.

Lemma mem0_ok : mem_ok mem0.
Proof. intros b [x Hx]. cbn in Hx. by rewrite lookup_empty in Hx. Qed.

#[export] Hint Resolve mem_ok_free mem0_ok : vr.

Lemma seqZ_1 i : seqZ i 1 = [i].
Proof. done. Qed.

Lemma seqZ_snoc i n : 0 <= n -> seqZ i (n + 1) = seqZ i n ++ [i + n].
Proof. intros. by rewrite seqZ_app, seqZ_1 by lia. Qed.

Lemma zget_seqZ i n k : 0 <= k < n -> zget (seqZ i n) k = Some (i + k).
Proof.
  intros. unfold zget. case_decide; [|lia]. apply lookup_seqZ.
  rewrite Z2Nat.id by lia. lia.
Qed.

Lemma zget_fmap {A B} (f : A -> B) (l : list A) i : zget (f <$> l) i = f <$> zget l i.
Proof. unfold zget. case_decide; [|done]. apply list_lookup_fmap. Qed.

Lemma zget_app {A} (l1 l2 : list A) i :
  zget (l1 ++ l2) i = if decide (i < zlen l1) then zget l1 i else zget l2 (i - zlen l1).
Proof.
  unfold zget, zlen. repeat case_decide; try lia; try done.
  - rewrite lookup_app_l by lia. done.
  - rewrite lookup_app_r by lia. f_equal. lia.
Qed.

Lemma zlen_app {A} (l1 l2 : list A) : zlen (l1 ++ l2) = zlen l1 + zlen l2.
Proof. unfold zlen. rewrite length_app. lia. Qed.

Lemma zlen_fmap_seqZ {A} (f : Z -> A) i n : 0 <= n -> zlen (f <$> seqZ i n) = n.
Proof. intros. unfold zlen. rewrite length_fmap, length_seqZ. lia. Qed.

Lemma zget_fmap_seqZ {A} (f : Z -> A) n i :
  zget (f <$> seqZ 0 n) i = if decide (0 <= i < n) then Some (f i) else None.
Proof.
  rewrite zget_fmap. case_decide as H.
  - rewrite zget_seqZ by lia. done.
  - unfold zget. case_decide; [|done]. rewrite (proj2 (lookup_ge_None _ _)); [done|].
    rewrite length_seqZ. lia.
Qed.
