(* ===== verification/Bits.v ===== *)
(** * Flags and sets of bits

    [has] is the test of a flag word; an array of bytes as a set of numbers is what the
    source uses for sets of ports. *)

From S2P Require Import Prelude.

(** [flags & bits] as a condition. *)
Definition has (bits flags : Z) : bool := negb (Z.land flags bits =? 0).

Lemma has_lor bits f g : has bits (Z.lor f g) = has bits f || has bits g.
Proof.
  unfold has. rewrite Z.land_lor_distr_l.
  destruct (Z.eqb_spec (Z.land f bits) 0) as [E1|E1], (Z.eqb_spec (Z.land g bits) 0) as [E2|E2]; cbn;
    rewrite ?negb_true_iff, ?negb_false_iff, ?Z.eqb_eq, ?Z.eqb_neq.
  - by rewrite E1, E2.
  - by rewrite E1, Z.lor_0_l.
  - by rewrite E2, Z.lor_0_r.
  - by intros [? ?]%Z.lor_eq_0_iff.
Qed.

Lemma has_land bits f m : Z.land m bits = bits -> has bits (Z.land f m) = has bits f.
Proof. intros E. unfold has. by rewrite <- Z.land_assoc, E. Qed.

Lemma has_land_0 bits f m : Z.land m bits = 0 -> has bits (Z.land f m) = false.
Proof. intros E. unfold has. by rewrite <- Z.land_assoc, E, Z.land_0_r. Qed.

Lemma has_ldiff bits f m : Z.land m bits = 0 -> has bits (Z.ldiff f m) = has bits f.
Proof.
  intros E. unfold has. f_equal. f_equal. apply Z.bits_inj'. intros n Hn.
  rewrite !Z.land_spec, Z.ldiff_spec. assert (Hb : Z.testbit (Z.land m bits) n = false) by (by rewrite E, Z.bits_0).
  rewrite Z.land_spec in Hb. by destruct (Z.testbit f n), (Z.testbit m n), (Z.testbit bits n).
Qed.

Lemma has_ldiff_self bits f m : Z.land m bits = bits -> has bits (Z.ldiff f m) = false.
Proof.
  intros E. unfold has. apply negb_false_iff, Z.eqb_eq, Z.bits_inj'. intros n Hn.
  rewrite Z.land_spec, Z.ldiff_spec, Z.bits_0.
  assert (Hb : Z.testbit (Z.land m bits) n = Z.testbit bits n) by (by rewrite E).
  rewrite Z.land_spec in Hb. by destruct (Z.testbit f n), (Z.testbit m n), (Z.testbit bits n).
Qed.

(** Flipping a flag that is set takes it away, and nothing else. *)
Lemma lxor_clears k f : 0 <= k -> has (2 ^ k) f = true -> Z.lxor f (2 ^ k) = Z.ldiff f (2 ^ k).
Proof.
  intros Hk. unfold has. rewrite negb_true_iff, Z.eqb_neq. intros Hh. apply Z.bits_inj'. intros n Hn.
  rewrite Z.lxor_spec, Z.ldiff_spec. destruct (decide (n = k)) as [->|Hne].
  - rewrite Z.pow2_bits_true by done. destruct (Z.testbit f k) eqn:E; [done|]. contradict Hh.
    apply Z.bits_inj'. intros m Hm. rewrite Z.land_spec, Z.bits_0. destruct (decide (m = k)) as [->|Hmk]; [by rewrite E|].
    rewrite Z.pow2_bits_false by done. by rewrite andb_false_r.
  - rewrite Z.pow2_bits_false by done. by rewrite xorb_false_r, andb_true_r.
Qed.

(** ** Bytes *)

(** The bytes of a number in memory. *)
Definition le_bytes (n : nat) (x : Z) : list Z := (fun i => Z.land (Z.shiftr x (8 * Z.of_nat i)) 255) <$> seq 0 n.

Lemma length_le_bytes n x : length (le_bytes n x) = n.
Proof. unfold le_bytes. by rewrite length_fmap, length_seq. Qed.

Lemma u8_testbit x n : 0 <= n -> Z.testbit (u8 x) n = (n <? 8) && Z.testbit x n.
Proof.
  intros Hn. unfold u8. change 256 with (2 ^ 8). destruct (Z.ltb_spec n 8).
  - by rewrite Z.mod_pow2_bits_low by lia.
  - by rewrite Z.mod_pow2_bits_high by lia.
Qed.

(** [bytes[n / 8] & (1 << (n % 8))] and the stores that set and clear the bit. *)
Definition bit_test (l : list Z) (n : Z) : bool :=
  has (Z.shiftl 1 (n mod 8)) (default 0 (zget l (n / 8))).
Definition bit_set (l : list Z) (n : Z) : list Z :=
  zset l (n / 8) (u8 (Z.lor (default 0 (zget l (n / 8))) (Z.shiftl 1 (n mod 8)))).
Definition bit_clear (l : list Z) (n : Z) : list Z :=
  zset l (n / 8) (u8 (Z.land (default 0 (zget l (n / 8))) (Z.lnot (Z.shiftl 1 (n mod 8))))).

Lemma has_testbit x k : 0 <= k -> has (Z.shiftl 1 k) x = Z.testbit x k.
Proof.
  intros Hk. unfold has. rewrite Z.shiftl_1_l. destruct (Z.testbit x k) eqn:E.
  - apply negb_true_iff, Z.eqb_neq. intros H0.
    assert (Z.testbit (Z.land x (2 ^ k)) k = true) as H1 by (by rewrite Z.land_spec, E, Z.pow2_bits_true).
    by rewrite H0, Z.bits_0 in H1.
  - apply negb_false_iff, Z.eqb_eq, Z.bits_inj'. intros m Hm. rewrite Z.land_spec, Z.bits_0.
    destruct (decide (m = k)) as [->|]; [by rewrite E|]. rewrite Z.pow2_bits_false by done. apply andb_false_r.
Qed.

Lemma bit_test_testbit l n : bit_test l n = Z.testbit (default 0 (zget l (n / 8))) (n mod 8).
Proof. apply has_testbit. pose proof (Z.mod_pos_bound n 8). lia. Qed.

Lemma bit_store l n m x :
  0 <= n < 8 * zlen l -> 0 <= m ->
  bit_test (zset l (n / 8) x) m = if decide (n / 8 = m / 8) then Z.testbit x (m mod 8) else bit_test l m.
Proof.
  intros Hn Hm. rewrite !bit_test_testbit.
  assert (0 <= n / 8 < zlen l) by (split; [apply Z.div_pos; lia|apply Z.div_lt_upper_bound; lia]).
  rewrite zget_zset. destruct (decide (n / 8 = m / 8)) as [E|E].
  - by rewrite decide_True.
  - rewrite decide_False by naive_solver. done.
Qed.

Lemma same_bit n m : n / 8 = m / 8 -> (m mod 8 =? n mod 8) = (m =? n).
Proof.
  intros E. pose proof (Z.div_mod n 8). pose proof (Z.div_mod m 8).
  destruct (Z.eqb_spec (m mod 8) (n mod 8)), (Z.eqb_spec m n); try done; exfalso; subst; lia.
Qed.

Lemma bit_test_set l n m :
  0 <= n < 8 * zlen l -> 0 <= m -> bit_test (bit_set l n) m = (m =? n) || bit_test l m.
Proof.
  intros Hn Hm. unfold bit_set. rewrite bit_store by done. pose proof (Z.mod_pos_bound n 8). pose proof (Z.mod_pos_bound m 8).
  destruct (decide (n / 8 = m / 8)) as [E|E].
  - rewrite u8_testbit, (proj2 (Z.ltb_lt _ _)) by lia. cbn [andb].
    rewrite Z.lor_spec, Z.shiftl_1_l, Z.pow2_bits_eqb, Z.eqb_sym, same_bit by (done || lia).
    rewrite bit_test_testbit, E. apply orb_comm.
  - destruct (Z.eqb_spec m n); [by subst|done].
Qed.

Lemma bit_test_clear l n m :
  0 <= n < 8 * zlen l -> 0 <= m -> bit_test (bit_clear l n) m = negb (m =? n) && bit_test l m.
Proof.
  intros Hn Hm. unfold bit_clear. rewrite bit_store by done. pose proof (Z.mod_pos_bound n 8). pose proof (Z.mod_pos_bound m 8).
  destruct (decide (n / 8 = m / 8)) as [E|E].
  - rewrite u8_testbit, (proj2 (Z.ltb_lt _ _)) by lia. cbn [andb].
    rewrite Z.land_spec, Z.lnot_spec, Z.shiftl_1_l, Z.pow2_bits_eqb, Z.eqb_sym, same_bit by (done || lia).
    rewrite bit_test_testbit, E. apply andb_comm.
  - destruct (Z.eqb_spec m n); [by subst|done].
Qed.

Lemma zlen_bit_set l n : zlen (bit_set l n) = zlen l.
Proof. apply zlen_zset. Qed.
Lemma zlen_bit_clear l n : zlen (bit_clear l n) = zlen l.
Proof. apply zlen_zset. Qed.

Lemma bit_test_zero n m : bit_test (replicate n 0) m = false.
Proof. rewrite bit_test_testbit, zget_replicate_default. apply Z.bits_0. Qed.

(** ** 64 bits *)

Definition u64 (z : Z) : Z := z mod 18446744073709551616.
Definition s64 (z : Z) : Z := (z + 9223372036854775808) mod 18446744073709551616 - 9223372036854775808.

(** Two numbers that are one in 64 bits. *)
Lemma s64_eq a b : s64 a = s64 b <-> a mod 18446744073709551616 = b mod 18446744073709551616.
Proof.
  unfold s64. split; intros E.
  - assert (E1 : (a + 9223372036854775808) mod 18446744073709551616 = (b + 9223372036854775808) mod 18446744073709551616) by lia.
    apply (f_equal (fun x => (x - 9223372036854775808) mod 18446744073709551616)) in E1.
    rewrite !Zminus_mod_idemp_l in E1. replace a with (a + 9223372036854775808 - 9223372036854775808) by lia.
    replace b with (b + 9223372036854775808 - 9223372036854775808) by lia. done.
  - f_equal. rewrite <- (Zplus_mod_idemp_l a), E, Zplus_mod_idemp_l. done.
Qed.

Lemma s64_mod a : s64 a mod 18446744073709551616 = a mod 18446744073709551616.
Proof. unfold s64. rewrite Zminus_mod_idemp_l. f_equal. lia. Qed.

Lemma s64_add a b : s64 (s64 a + b) = s64 (a + b).
Proof. apply s64_eq. rewrite <- Zplus_mod_idemp_l, s64_mod, Zplus_mod_idemp_l. done. Qed.

Lemma s64_add_r a b : s64 (a + s64 b) = s64 (a + b).
Proof. rewrite Z.add_comm, s64_add. f_equal. lia. Qed.

Lemma s64_sub a b : s64 (s64 a - b) = s64 (a - b).
Proof. apply s64_add. Qed.

Lemma s64_idem a : s64 (s64 a) = s64 a.
Proof. apply s64_eq, s64_mod. Qed.

Lemma s64_u64 a b : s64 (a + u64 b) = s64 (a + b).
Proof. apply s64_eq. unfold u64. apply Zplus_mod_idemp_r. Qed.
