(* ===== verification/Bitmap.v ===== *)
(** * Bit maps ([dp-core/vr_bitmap.c])

    A bit map hands out bit numbers.  [vr_bitmap] is the C structure, with its
    trailing array as a list of 32-bit strides; the operations are the six
    functions of the file.  The second half is the concurrent reading of the
    code: threads interleave at the granularity of the loads, the
    compare-and-swap and the atomic adds of the source. *)

From S2P Require Import Prelude.

Module Bitmap.

Definition VR_BITMAP_STRIDE_LEN : Z := 32.

Record vr_bitmap := mk_bitmap {
  bmap_bits : Z;
  bmap_size : Z;
  bmap_last_free_stride : Z;
  bmap_used_bits : Z;
  bmap_data : list Z
}.

Definition set_last_free (b : vr_bitmap) (s : Z) : vr_bitmap :=
  mk_bitmap (bmap_bits b) (bmap_size b) s (bmap_used_bits b) (bmap_data b).
Definition set_used (b : vr_bitmap) (n : Z) : vr_bitmap :=
  mk_bitmap (bmap_bits b) (bmap_size b) (bmap_last_free_stride b) n (bmap_data b).
Definition set_data (b : vr_bitmap) (d : list Z) : vr_bitmap :=
  mk_bitmap (bmap_bits b) (bmap_size b) (bmap_last_free_stride b) (bmap_used_bits b) d.

(** [bmap->bmap_data[i]]; the array is as long as [bmap_size] says. *)
Definition stride (b : vr_bitmap) (i : Z) : Z := default 0 (zget (bmap_data b) i).

(** [__builtin_ffs]: one plus the position of the lowest set bit, 0 for none. *)
Fixpoint ffs_from (n : nat) (i x : Z) : Z :=
  match n with
  | O => 0
  | S n' => if Z.testbit x i then i + 1 else ffs_from n' (i + 1) x
  end.
Definition vr_ffs_32 (x : Z) : Z := ffs_from 32 0 x.

Definition vr_bitmap_used_bits (b : option vr_bitmap) : Z :=
  match b with
  | Some bmap => bmap_used_bits bmap
  | None => 0
  end.

(** One round of the inner loop on stride [s]: read, find a free bit, swap it in.
    [None] when the stride has no free bit left to try. *)
Fixpoint try_stride (j : nat) (b : vr_bitmap) (s : Z) : option (Z * vr_bitmap) :=
  match j with
  | O => None
  | S j' =>
      let data := stride b s in
      if data =? UINT_MAX then None
      else
        let free_bit := vr_ffs_32 (u32 (Z.lnot data)) in
        if free_bit =? 0 then None
        else
          let free_bit := free_bit - 1 in
          if stride b s =? data (* the compare of the compare-and-swap *)
          then
            let b := set_data b (zset (bmap_data b) s (Z.lor data (Z.shiftl 1 free_bit))) in
            let b := set_last_free b s in
            let b := set_used b (u32 (bmap_used_bits b + 1)) in
            Some (s * VR_BITMAP_STRIDE_LEN + free_bit, b)
          else try_stride j' b s
  end.

(** The outer loop: at most [bmap_size] strides, starting at [stride_num] and
    wrapping to 0. *)
Fixpoint alloc_scan (i : nat) (stride_num : Z) (b : vr_bitmap) : Z * vr_bitmap :=
  match i with
  | O => (-1, b)
  | S i' =>
      let stride_num := if bmap_size b <=? stride_num then 0 else stride_num in
      match try_stride 32 b stride_num with
      | Some r => r
      | None => alloc_scan i' (stride_num + 1) b
      end
  end.

Definition vr_bitmap_alloc_bit (b : option vr_bitmap) : Z * option vr_bitmap :=
  match b with
  | None => (-1, None)
  | Some bmap =>
      if u32 (bmap_bits bmap - bmap_used_bits bmap) =? 0 then (-1, b)
      else
        let '(r, bmap') :=
          alloc_scan (Z.to_nat (bmap_size bmap)) (bmap_last_free_stride bmap) bmap in
        (r, Some bmap')
  end.

Definition vr_bitmap_is_set_bit (b : vr_bitmap) (bit : Z) : bool :=
  let bit_data := stride b (bit / 8) in
  negb (Z.land bit_data (Z.shiftl 1 (bit mod 8)) =? 0).

Definition vr_bitmap_clear_bit (b : option vr_bitmap) (bit : Z) : bool * option vr_bitmap :=
  match b with
  | None => (false, None)
  | Some bmap =>
      if bmap_bits bmap <=? bit then (false, b)
      else
        let i := bit / VR_BITMAP_STRIDE_LEN in
        let d := Z.land (stride bmap i)
                   (u32 (Z.lnot (Z.shiftl 1 (bit mod VR_BITMAP_STRIDE_LEN)))) in
        let bmap := set_data bmap (zset (bmap_data bmap) i d) in
        let bmap := set_used bmap (u32 (bmap_used_bits bmap - 1)) in
        (true, Some bmap)
  end.

(** [vr_zalloc] may fail: [mem] says whether it does not. *)
Definition vr_bitmap_create (mem : bool) (nbits : Z) : option vr_bitmap :=
  let bitmap_size := Z.land (u32 (nbits + 64)) (u32 (Z.lnot 64)) in
  let bitmap_size := bitmap_size / 8 in
  if mem then
    let size := bitmap_size / 4 in
    Some (mk_bitmap nbits size 0 0 (replicate (Z.to_nat size) 0))
  else None.

(** ** Well-formedness and the set of allocated bits *)

Definition bit_set (b : vr_bitmap) (k : Z) : bool :=
  Z.testbit (stride b (k / 32)) (k mod 32).

Record wf (b : vr_bitmap) : Prop := {
  wf_len : zlen (bmap_data b) = bmap_size b;
  wf_word : forall i, 0 <= stride b i <= UINT_MAX;
  wf_last : 0 <= bmap_last_free_stride b
}.

Lemma ffs_from_spec n i x :
  let r := ffs_from n i x in
  (r = 0 /\ forall k, i <= k < i + Z.of_nat n -> Z.testbit x k = false) \/
  (i < r <= i + Z.of_nat n /\ Z.testbit x (r - 1) = true).
Proof.
  revert i. induction n as [|n IH]; intros i; cbn -[Z.of_nat].
  { left. split; [done|lia]. }
  destruct (Z.testbit x i) eqn:E.
  { right. split; [lia|]. by replace (i + 1 - 1) with i by lia. }
  destruct (IH (i + 1)) as [[-> H]|[H1 H2]]; [left|right]; (split; [lia || done|]); [|done].
  intros k Hk. destruct (decide (k = i)) as [->|]; [done|]. apply H. lia.
Qed.

Lemma testbit_ge_32 x k : 0 <= x <= UINT_MAX -> 32 <= k -> Z.testbit x k = false.
Proof.
  intros Hx Hk. destruct (decide (x = 0)) as [->|]; [apply Z.testbit_0_l|].
  apply Z.bits_above_log2; [lia|].
  apply Z.lt_le_trans with 32; [|done]. apply Z.log2_lt_pow2; lia.
Qed.

(** A stride other than all-ones has a free bit, and [ffs] of its complement
    names it. *)
Lemma free_bit_spec d :
  0 <= d <= UINT_MAX -> d <> UINT_MAX ->
  let f := vr_ffs_32 (u32 (Z.lnot d)) - 1 in
  0 <= f < 32 /\ Z.testbit d f = false.
Proof.
  intros Hd Hne f. subst f. unfold vr_ffs_32.
  assert (Hbits : forall k, 0 <= k < 32 ->
            Z.testbit (u32 (Z.lnot d)) k = negb (Z.testbit d k)).
  { intros k Hk. unfold u32. change 4294967296 with (2 ^ 32).
    rewrite Z.mod_pow2_bits_low by lia. apply Z.lnot_spec. lia. }
  destruct (ffs_from_spec 32 0 (u32 (Z.lnot d))) as [[_ H]|[Hr Hb]].
  - exfalso. apply Hne. apply Z.bits_inj'. intros k Hk.
    destruct (decide (k < 32)).
    + specialize (H k ltac:(lia)). rewrite Hbits in H by lia.
      destruct (Z.testbit d k); [|done].
      change UINT_MAX with (Z.ones 32). by rewrite Z.ones_spec_low by lia.
    + rewrite !testbit_ge_32 by lia. done.
  - split; [lia|]. rewrite Hbits in Hb by lia. by destruct (Z.testbit d _).
Qed.

Lemma lor_bit_range d f : 0 <= d <= UINT_MAX -> 0 <= f < 32 ->
  0 <= Z.lor d (Z.shiftl 1 f) <= UINT_MAX.
Proof.
  intros Hd Hf. assert (H0 : 0 <= Z.lor d (Z.shiftl 1 f)).
  { apply Z.lor_nonneg. rewrite Z.shiftl_nonneg. lia. }
  split; [done|].
  destruct (decide (Z.lor d (Z.shiftl 1 f) = 0)); [lia|].
  enough (Z.lor d (Z.shiftl 1 f) < 2 ^ 32) by lia.
  apply Z.log2_lt_pow2; [lia|]. rewrite Z.log2_lor by (rewrite ?Z.shiftl_nonneg; lia).
  apply Z.max_lub_lt.
  - destruct (decide (d = 0)) as [->|]; [done|]. apply Z.log2_lt_pow2; lia.
  - rewrite Z.log2_shiftl by lia. cbn. lia.
Qed.

Lemma stride_out b i : zlen (bmap_data b) <= i -> stride b i = 0.
Proof. intros. unfold stride. by rewrite zget_None. Qed.

Lemma stride_set_data b s d i :
  0 <= s < zlen (bmap_data b) ->
  stride (set_data b (zset (bmap_data b) s d)) i = if decide (s = i) then d else stride b i.
Proof.
  intros Hs. unfold stride; cbn. rewrite zget_zset. repeat case_decide; naive_solver.
Qed.

(** Storing a word into one stride changes the bits of that stride only. *)
Lemma bit_set_set_data b s d k :
  0 <= s < zlen (bmap_data b) ->
  bit_set (set_data b (zset (bmap_data b) s d)) k =
    if decide (s = k / 32) then Z.testbit d (k mod 32) else bit_set b k.
Proof. intros. unfold bit_set. rewrite stride_set_data by done. by case_decide. Qed.

Lemma bit_set_set_used b n k : bit_set (set_used b n) k = bit_set b k.
Proof. done. Qed.

Lemma bit_set_lor b s f k :
  wf b -> 0 <= s < bmap_size b -> 0 <= f < 32 -> 0 <= k ->
  bit_set (set_data b (zset (bmap_data b) s (Z.lor (stride b s) (Z.shiftl 1 f)))) k =
    (k =? s * 32 + f) || bit_set b k.
Proof.
  intros Hwf Hs Hf Hk. rewrite bit_set_set_data by (rewrite wf_len by done; lia).
  pose proof (Z.mod_pos_bound k 32). pose proof (Z.div_mod k 32).
  case_decide as E.
  - rewrite Z.lor_spec, Z.shiftl_1_l, Z.pow2_bits_eqb by lia. unfold bit_set. rewrite <- E.
    rewrite orb_comm. f_equal. apply eq_true_iff_eq. rewrite !Z.eqb_eq. lia.
  - destruct (Z.eqb_spec k (s * 32 + f)) as [->|]; [|done].
    exfalso. apply E. rewrite Z.div_add_l, Z.div_small; lia.
Qed.

Lemma wf_set_data b s d :
  wf b -> 0 <= d <= UINT_MAX -> wf (set_data b (zset (bmap_data b) s d)).
Proof.
  intros [? Hw ?] ?. split; cbn; try done.
  - by rewrite zlen_zset.
  - intros i. unfold stride; cbn. rewrite zget_zset. case_decide; [done|apply Hw].
Qed.

Lemma wf_set_last b s : wf b -> 0 <= s -> wf (set_last_free b s).
Proof. intros [? ? ?] ?. by split. Qed.

Lemma wf_set_used b n : wf b -> wf (set_used b n).
Proof. intros [? ? ?]. by split. Qed.

#[local] Hint Resolve wf_set_data wf_set_last wf_set_used lor_bit_range : vr.

(** What a successful allocation does. *)
Definition allocated (b : vr_bitmap) (r : Z) (b' : vr_bitmap) : Prop :=
  0 <= r < 32 * bmap_size b /\ bit_set b r = false /\
  (forall k, 0 <= k -> bit_set b' k = (k =? r) || bit_set b k) /\
  wf b' /\ bmap_used_bits b' = u32 (bmap_used_bits b + 1) /\
  bmap_bits b' = bmap_bits b /\ bmap_size b' = bmap_size b.

Lemma try_stride_spec b s :
  wf b -> 0 <= s < bmap_size b ->
  match try_stride 32 b s with
  | Some (r, b') => allocated b r b'
  | None => stride b s = UINT_MAX
  end.
Proof.
  intros Hwf Hs. pose proof (wf_word b Hwf s) as Hw.
  change 32%nat with (S 31). cbn [try_stride].
  destruct (Z.eqb_spec (stride b s) UINT_MAX) as [|Hne]; [done|].
  destruct (free_bit_spec (stride b s) Hw Hne) as [Hf Ht].
  set (f := vr_ffs_32 (u32 (Z.lnot (stride b s))) - 1) in *.
  destruct (Z.eqb_spec (vr_ffs_32 (u32 (Z.lnot (stride b s)))) 0); [lia|].
  rewrite Z.eqb_refl. change VR_BITMAP_STRIDE_LEN with 32.
  split_and!; cbn; try done; try lia.
  - unfold bit_set. rewrite Z.div_add_l, Z.div_small, Z.add_0_r by lia.
    rewrite Z.add_comm, Z.mod_add, Z.mod_small by lia. done.
  - intros k Hk. apply bit_set_lor; try done.
  - apply wf_set_used, wf_set_last; [|lia]. auto with vr.
Qed.

Definition norm_stride (b : vr_bitmap) (s : Z) : Z := if bmap_size b <=? s then 0 else s.

Lemma alloc_scan_spec i s b :
  wf b -> 0 <= s -> 0 < bmap_size b ->
  let '(r, b') := alloc_scan i s b in
  allocated b r b' \/
  (r = -1 /\ b' = b /\
   forall t, 0 <= t < Z.of_nat i -> stride b ((norm_stride b s + t) mod bmap_size b) = UINT_MAX).
Proof.
  intros Hwf. revert s. induction i as [|i IH]; intros s Hs Hpos; cbn [alloc_scan].
  { right. split_and!; [done|done|lia]. }
  fold (norm_stride b s). set (s' := norm_stride b s).
  assert (Hs' : 0 <= s' < bmap_size b).
  { subst s'. unfold norm_stride. destruct (Z.leb_spec (bmap_size b) s); lia. }
  pose proof (try_stride_spec b s' Hwf Hs') as Htry.
  destruct (try_stride 32 b s') as [[r b']|]; [by left|].
  specialize (IH (s' + 1) ltac:(lia) Hpos).
  destruct (alloc_scan i (s' + 1) b) as [r b'].
  destruct IH as [?|(-> & -> & IH)]; [by left|right].
  split_and!; [done|done|]. intros t Ht.
  destruct (decide (t = 0)) as [->|].
  { rewrite Z.add_0_r, Z.mod_small by lia. done. }
  rewrite <- (IH (t - 1)) by lia. f_equal.
  unfold norm_stride. destruct (Z.leb_spec (bmap_size b) (s' + 1)).
  - replace (s' + t) with (t - 1 + 1 * bmap_size b) by lia.
    by rewrite Z.mod_add by lia.
  - f_equal. lia.
Qed.

(** ** Correctness of the operations *)

(** Whenever [vr_bitmap_alloc_bit] returns a bit, that bit lies in the data
    array and was free, and the call sets it, changes no other bit, and counts
    it. *)
Theorem alloc_bit_sound b r b' :
  wf b -> vr_bitmap_alloc_bit (Some b) = (r, Some b') -> r <> -1 ->
  allocated b r b'.
Proof.
  intros Hwf. cbn. destruct (u32 _ =? 0); [naive_solver|].
  destruct (decide (0 < bmap_size b)).
  - pose proof (alloc_scan_spec (Z.to_nat (bmap_size b)) (bmap_last_free_stride b) b Hwf
                  (wf_last b Hwf) ltac:(lia)) as H.
    destruct (alloc_scan _ _ b). naive_solver.
  - rewrite (Z2Nat.nonpos (bmap_size b)) by lia. cbn. naive_solver.
Qed.

(** [vr_bitmap_alloc_bit] fails only when the map counts as full or has no
    clear bit anywhere: the search visits every stride, whatever stride it
    starts at. *)
Theorem alloc_bit_complete b k :
  wf b -> u32 (bmap_bits b - bmap_used_bits b) <> 0 ->
  0 <= k < 32 * bmap_size b -> bit_set b k = false ->
  exists r b', vr_bitmap_alloc_bit (Some b) = (r, Some b') /\ 0 <= r.
Proof.
  intros Hwf Hroom Hk Hfree. cbn. rewrite (proj2 (Z.eqb_neq _ _) Hroom).
  pose proof (alloc_scan_spec (Z.to_nat (bmap_size b)) (bmap_last_free_stride b) b Hwf
                (wf_last b Hwf) ltac:(lia)) as H.
  destruct (alloc_scan _ _ b) as [r b']. exists r, b'. split; [done|].
  destruct H as [(? & _)|(_ & _ & H)]; [lia|exfalso].
  set (s := norm_stride b (bmap_last_free_stride b)) in *.
  specialize (H ((k / 32 - s) mod bmap_size b)).
  rewrite Z2Nat.id, Zplus_mod_idemp_r in H by lia.
  replace (s + (k / 32 - s)) with (k / 32) in H by lia.
  pose proof (Z.mod_pos_bound (k / 32 - s) (bmap_size b)).
  assert (0 <= k / 32 < bmap_size b) by (split; [apply Z.div_pos|apply Z.div_lt_upper_bound]; lia).
  rewrite (Z.mod_small (k / 32)) in H by lia.
  unfold bit_set in Hfree. rewrite H in Hfree by lia.
  change UINT_MAX with (Z.ones 32) in Hfree.
  rewrite Z.ones_spec_low in Hfree by (apply Z.mod_pos_bound; lia). done.
Qed.

(** What a successful release does. *)
Definition cleared (b : vr_bitmap) (k : Z) (b' : vr_bitmap) : Prop :=
  (forall j, 0 <= j -> bit_set b' j = negb (j =? k) && bit_set b j) /\
  wf b' /\ bmap_used_bits b' = u32 (bmap_used_bits b - 1) /\
  bmap_bits b' = bmap_bits b /\ bmap_size b' = bmap_size b.

Lemma land_mask_testbit d f j :
  0 <= f < 32 -> 0 <= j < 32 ->
  Z.testbit (Z.land d (u32 (Z.lnot (Z.shiftl 1 f)))) j = negb (j =? f) && Z.testbit d j.
Proof.
  intros. rewrite Z.land_spec. unfold u32. change 4294967296 with (2 ^ 32).
  rewrite Z.mod_pow2_bits_low, Z.lnot_spec by lia.
  rewrite Z.shiftl_1_l, Z.pow2_bits_eqb by lia. rewrite (Z.eqb_sym f j). apply andb_comm.
Qed.

Lemma land_range d m : 0 <= d <= UINT_MAX -> 0 <= m -> 0 <= Z.land d m <= UINT_MAX.
Proof.
  intros Hd Hm. split; [apply Z.land_nonneg; lia|].
  transitivity d; [|lia]. apply Z.ldiff_le; [lia|].
  apply Z.bits_inj'. intros n Hn. rewrite Z.ldiff_spec, Z.land_spec, Z.bits_0.
  by destruct (Z.testbit d n), (Z.testbit m n).
Qed.

(** [vr_bitmap_clear_bit] refuses a bit beyond [bmap_bits], and otherwise
    clears that bit, leaves every other bit alone and uncounts it. *)
Lemma clear_bit_spec b k :
  wf b -> 0 <= k < 32 * bmap_size b ->
  match vr_bitmap_clear_bit (Some b) k with
  | (true, Some b') => k < bmap_bits b /\ cleared b k b'
  | (false, b') => bmap_bits b <= k /\ b' = Some b
  | _ => False
  end.
Proof.
  intros Hwf Hk. cbn. destruct (Z.leb_spec (bmap_bits b) k) as [|Hlt]; [done|].
  split; [done|]. change VR_BITMAP_STRIDE_LEN with 32.
  assert (Hi : 0 <= k / 32 < bmap_size b)
    by (split; [apply Z.div_pos|apply Z.div_lt_upper_bound]; lia).
  pose proof (Z.mod_pos_bound k 32 ltac:(lia)).
  split_and!; cbn; try done.
  - intros j Hj. rewrite bit_set_set_used, bit_set_set_data by (rewrite wf_len by done; lia).
    pose proof (Z.mod_pos_bound j 32 ltac:(lia)).
    pose proof (Z.div_mod k 32). pose proof (Z.div_mod j 32).
    case_decide as E.
    + rewrite land_mask_testbit by lia. unfold bit_set. rewrite E. f_equal. f_equal.
      apply eq_true_iff_eq. rewrite !Z.eqb_eq. lia.
    + destruct (Z.eqb_spec j k) as [->|]; done.
  - apply wf_set_used, wf_set_data; [done|]. apply land_range; [by apply wf_word|].
    apply u32_range.
Qed.

(** Releasing the bit that was just allocated restores every bit and the
    count: the pair is a round trip. *)
Theorem alloc_clear_roundtrip b r b' :
  wf b -> 0 <= bmap_used_bits b < UINT_MAX ->
  vr_bitmap_alloc_bit (Some b) = (r, Some b') -> 0 <= r < bmap_bits b ->
  exists b'', vr_bitmap_clear_bit (Some b') r = (true, Some b'') /\ wf b'' /\
    (forall k, 0 <= k -> bit_set b'' k = bit_set b k) /\
    bmap_used_bits b'' = bmap_used_bits b.
Proof.
  intros Hwf Hused Halloc Hr.
  assert (Ha : allocated b r b').
  { revert Halloc. cbn. destruct (u32 _ =? 0); [intros [= <- _]; lia|].
    pose proof (alloc_scan_spec (Z.to_nat (bmap_size b)) (bmap_last_free_stride b) b Hwf
                  (wf_last b Hwf)) as H.
    destruct (decide (0 < bmap_size b)) as [Hp|].
    - specialize (H Hp). destruct (alloc_scan _ _ b). intros [= <- <-].
      destruct H as [?|(-> & _)]; [done|lia].
    - rewrite (Z2Nat.nonpos (bmap_size b)) by lia. cbn. intros [= <- _]. lia. }
  destruct Ha as (Hrange & Hfree & Hbits & Hwf' & Hu & Hb & Hs).
  pose proof (clear_bit_spec b' r Hwf') as Hc. rewrite Hs in Hc. specialize (Hc Hrange).
  destruct (vr_bitmap_clear_bit (Some b') r) as [[] [b''|]]; [|done|destruct Hc; lia..].
  destruct Hc as (_ & Hc1 & Hc2 & Hc3 & _). exists b''. split_and!; try done.
  - intros k Hk. rewrite Hc1, Hbits by done.
    destruct (Z.eqb_spec k r) as [->|]; [|done]. by rewrite Hfree.
  - rewrite Hc3, Hu, (u32_small (_ + 1)) by lia. rewrite u32_small; lia.
Qed.

(** ** Sizing *)

Lemma land_pow2 x n : 0 <= n -> Z.land x (2 ^ n) = 2 ^ n * Z.b2z (Z.testbit x n).
Proof.
  intros. apply Z.bits_inj'. intros k Hk. rewrite Z.land_spec, Z.pow2_bits_eqb by lia.
  destruct (Z.testbit x n) eqn:E; cbn [Z.b2z]; rewrite ?Z.mul_1_r, ?Z.mul_0_r, ?Z.bits_0,
    ?Z.pow2_bits_eqb by lia; destruct (Z.eqb_spec n k); subst;
    by rewrite ?E, ?andb_false_r, ?andb_true_r.
Qed.

Lemma mask64_spec x :
  0 <= x <= UINT_MAX -> Z.land x (u32 (Z.lnot 64)) = x - 64 * ((x / 64) mod 2).
Proof.
  intros Hx. replace (Z.land x (u32 (Z.lnot 64))) with (Z.ldiff x (Z.land x 64)).
  - rewrite <- Z.sub_nocarry_ldiff.
    + f_equal. pose proof (land_pow2 x 6 ltac:(lia)) as H. rewrite Z.testbit_spec' in H by lia. done.
    + apply Z.bits_inj'. intros n Hn. rewrite Z.ldiff_spec, Z.land_spec, Z.bits_0.
      by destruct (Z.testbit x n), (Z.testbit 64 n).
  - apply Z.bits_inj'. intros n Hn. rewrite Z.ldiff_spec, !Z.land_spec.
    destruct (decide (n < 32)).
    + unfold u32. change 4294967296 with (2 ^ 32).
      rewrite Z.mod_pow2_bits_low, Z.lnot_spec by lia. by destruct (Z.testbit x n), (Z.testbit 64 n).
    + rewrite (testbit_ge_32 x) by lia. done.
Qed.

Lemma bitmap_create_spec nbits b :
  0 <= nbits <= UINT_MAX - 64 -> vr_bitmap_create true nbits = Some b ->
  wf b /\ bmap_size b = (nbits + 64 - 64 * (((nbits + 64) / 64) mod 2)) / 32 /\
  bmap_bits b = nbits /\ bmap_used_bits b = 0 /\ forall k, bit_set b k = false.
Proof.
  intros Hn. unfold vr_bitmap_create. rewrite (u32_small (nbits + 64)), mask64_spec by lia.
  set (m := nbits + 64 - _). rewrite Z.div_div by lia. change (8 * 4) with 32.
  assert (0 <= m) by (pose proof (Z.mod_pos_bound ((nbits + 64) / 64) 2); lia).
  assert (0 <= m / 32) by (apply Z.div_pos; lia).
  set (b0 := mk_bitmap _ _ _ _ _). intros [= <-].
  assert (Hz : forall i, stride b0 i = 0).
  { intros i. unfold stride, zget; cbn. case_decide; [|done].
    destruct (replicate _ _ !! _) eqn:E; [|done]. by apply lookup_replicate in E as [-> _]. }
  split_and!; try done.
  - split; cbn; [rewrite zlen_replicate; lia|intros i; rewrite Hz; lia|done].
  - intros k. unfold bit_set. rewrite Hz. apply Z.bits_0.
Qed.

(** [vr_bitmap_create] makes an empty, well-formed map; it has room for all
    the bits it is asked for exactly when their number is 0 modulo 128, or its
    remainder modulo 32 is 0 below 64, or its remainder modulo 128 is at least 64. *)
Theorem create_capacity nbits b :
  0 <= nbits <= UINT_MAX - 64 -> vr_bitmap_create true nbits = Some b ->
  wf b /\ bmap_used_bits b = 0 /\ (forall k, bit_set b k = false) /\
  (nbits <= 32 * bmap_size b <-> nbits mod 32 = 0 \/ 64 <= nbits mod 128).
Proof.
  intros Hn Hc. destruct (bitmap_create_spec nbits b Hn Hc) as (Hwf & Hs & _ & Hu & Hb).
  split_and!; try done. rewrite Hs. clear -Hn.
  Z.to_euclidean_division_equations. lia.
Qed.

(** ** Behaviour outside the intended range *)

Fixpoint alloc_n (n : nat) (b : option vr_bitmap) : option vr_bitmap :=
  match n with
  | O => b
  | S n' => alloc_n n' (vr_bitmap_alloc_bit b).2
  end.

(** The allocator can hand out a bit that the release function refuses.  A
    map of 64 bits gets four strides; once 64 bits are out and one of them is
    released, the next search starts at the stride used last and runs on into
    the strides beyond [bmap_bits]: it returns bit 64, and
    [vr_bitmap_clear_bit] does not take bit 64 back. *)
Theorem alloc_beyond_bits :
  let full := alloc_n 64 (vr_bitmap_create true 64) in
  let freed := (vr_bitmap_clear_bit full 0).2 in
  let '(r, b) := vr_bitmap_alloc_bit freed in
  r = 64 /\ (vr_bitmap_clear_bit b r).1 = false.
Proof. vm_compute. done. Qed.

(** [vr_bitmap_is_set_bit] indexes 32-bit strides as if they were bytes, so
    it reports a bit that is set as clear: after 33 allocations bit 32 is taken,
    the function looks for it in stride 4. *)
Theorem is_set_bit_misreads :
  exists b, alloc_n 33 (vr_bitmap_create true 64) = Some b /\
    bit_set b 32 = true /\ vr_bitmap_is_set_bit b 32 = false.
Proof. eexists. split; [vm_compute; reflexivity|]. by vm_compute. Qed.

(** ** Concurrent allocation and release

    A thread is at one of the points between two accesses to the shared map; the
    integers are the locals [i], [stride_num], [j], [data] and [free_bit] of
    [vr_bitmap_alloc_bit]. *)

Inductive pc :=
| P_idle
| P_head (i s : Z)                  (* test of the outer loop *)
| P_guard (i s j : Z)               (* test of the inner loop: loads the stride *)
| P_body (i s j : Z)                (* [data = bmap->bmap_data[stride_num]] *)
| P_cas (i s j data f : Z)          (* the compare-and-swap *)
| P_swapped (s bit : Z)             (* the store to [bmap_last_free_stride] *)
| P_stored (bit : Z)                (* the atomic increment of [bmap_used_bits] *)
| P_anded (bit : Z).                (* the atomic decrement, in [vr_bitmap_clear_bit] *)

(** [handed] is the list of bits that callers hold. *)
Record sys := mk_sys { sh : vr_bitmap; pcs : list pc; handed : list Z }.

Definition goto (g : sys) (t : nat) (p : pc) : sys :=
  mk_sys (sh g) (<[t := p]> (pcs g)) (handed g).
Definition with_sh (g : sys) (b : vr_bitmap) : sys := mk_sys b (pcs g) (handed g).
Definition with_handed (g : sys) (l : list Z) : sys := mk_sys (sh g) (pcs g) l.

Inductive step (g : sys) (t : nat) : sys -> Prop :=
| S_call_full :
    pcs g !! t = Some P_idle ->
    u32 (bmap_bits (sh g) - bmap_used_bits (sh g)) = 0 ->
    step g t g
| S_call_alloc :
    pcs g !! t = Some P_idle ->
    u32 (bmap_bits (sh g) - bmap_used_bits (sh g)) <> 0 ->
    step g t (goto g t (P_head 0 (bmap_last_free_stride (sh g))))
| S_head_enter i s :
    pcs g !! t = Some (P_head i s) -> i < bmap_size (sh g) ->
    step g t (goto g t (P_guard i (norm_stride (sh g) s) 0))
| S_head_fail i s :
    pcs g !! t = Some (P_head i s) -> bmap_size (sh g) <= i ->
    step g t (goto g t P_idle)
| S_guard_enter i s j :
    pcs g !! t = Some (P_guard i s j) -> stride (sh g) s <> UINT_MAX -> j < 32 ->
    step g t (goto g t (P_body i s j))
| S_guard_next i s j :
    pcs g !! t = Some (P_guard i s j) -> stride (sh g) s = UINT_MAX \/ 32 <= j ->
    step g t (goto g t (P_head (i + 1) (s + 1)))
| S_body_none i s j :
    pcs g !! t = Some (P_body i s j) -> vr_ffs_32 (u32 (Z.lnot (stride (sh g) s))) = 0 ->
    step g t (goto g t (P_head (i + 1) (s + 1)))
| S_body_bit i s j f :
    pcs g !! t = Some (P_body i s j) ->
    vr_ffs_32 (u32 (Z.lnot (stride (sh g) s))) = f -> f <> 0 ->
    step g t (goto g t (P_cas i s j (stride (sh g) s) (f - 1)))
| S_cas_lost i s j d f :
    pcs g !! t = Some (P_cas i s j d f) -> stride (sh g) s <> d ->
    step g t (goto g t (P_guard i s (j + 1)))
| S_cas_won i s j d f :
    pcs g !! t = Some (P_cas i s j d f) -> stride (sh g) s = d ->
    step g t (goto (with_sh g (set_data (sh g)
                (zset (bmap_data (sh g)) s (Z.lor d (Z.shiftl 1 f))))) t
                (P_swapped s (s * VR_BITMAP_STRIDE_LEN + f)))
| S_last s bit :
    pcs g !! t = Some (P_swapped s bit) ->
    step g t (goto (with_sh g (set_last_free (sh g) s)) t (P_stored bit))
| S_count bit :
    pcs g !! t = Some (P_stored bit) ->
    step g t (goto (with_handed (with_sh g (set_used (sh g) (u32 (bmap_used_bits (sh g) + 1))))
                (bit :: handed g)) t P_idle)
| S_call_clear bit rest :
    pcs g !! t = Some P_idle -> Permutation (handed g) (bit :: rest) ->
    bit < bmap_bits (sh g) ->
    step g t (goto (with_handed (with_sh g (set_data (sh g)
                (zset (bmap_data (sh g)) (bit / VR_BITMAP_STRIDE_LEN)
                   (Z.land (stride (sh g) (bit / VR_BITMAP_STRIDE_LEN))
                      (u32 (Z.lnot (Z.shiftl 1 (bit mod VR_BITMAP_STRIDE_LEN)))))))) rest) t
                (P_anded bit))
| S_uncount bit :
    pcs g !! t = Some (P_anded bit) ->
    step g t (goto (with_sh g (set_used (sh g) (u32 (bmap_used_bits (sh g) - 1)))) t P_idle).

Inductive reachable (b : vr_bitmap) (n : nat) : sys -> Prop :=
| R_init : reachable b n (mk_sys b (replicate n P_idle) [])
| R_step g t g' : reachable b n g -> step g t g' -> reachable b n g'.

(** The bits a thread has taken but not yet returned, and its part of the
    bookkeeping that is still outstanding. *)
Definition inflight (p : pc) : list Z :=
  match p with P_swapped _ bit | P_stored bit => [bit] | _ => [] end.
Definition uncounted (p : pc) : list unit :=
  match p with P_anded _ => [tt] | _ => [] end.

Definition tokens (g : sys) : list Z := (pcs g ≫= inflight) ++ handed g.

Definition pc_ok (b : vr_bitmap) (p : pc) : Prop :=
  match p with
  | P_head i s => 0 <= i /\ 0 <= s
  | P_guard i s _ | P_body i s _ => 0 <= i /\ 0 <= s < bmap_size b
  | P_cas i s _ d f =>
      (0 <= i /\ 0 <= s < bmap_size b) /\ 0 <= f < 32 /\ Z.testbit d f = false
  | P_swapped s _ => 0 <= s
  | _ => True
  end.

Record inv (b0 : vr_bitmap) (g : sys) : Prop := {
  inv_wf : wf (sh g);
  inv_size : bmap_size (sh g) = bmap_size b0;
  inv_nodup : NoDup (tokens g);
  inv_bits : forall k, 0 <= k -> bit_set (sh g) k = true <-> k ∈ tokens g;
  inv_range : Forall (fun k => 0 <= k < 32 * bmap_size b0) (tokens g);
  inv_pcs : Forall (pc_ok b0) (pcs g);
  inv_used : bmap_used_bits (sh g) =
             u32 (zlen (handed g) + zlen (pcs g ≫= uncounted))
}.

Lemma tokens_goto g t p :
  pcs g !! t = Some p ->
  exists rest, tokens g ≡ₚ inflight p ++ rest /\
    forall b p', tokens (goto (with_sh g b) t p') ≡ₚ inflight p' ++ rest.
Proof.
  intros Hp. destruct (bind_insert_perm inflight (pcs g) t p Hp) as [rest H].
  exists (rest ++ handed g). unfold tokens. split.
  - rewrite <- (list_insert_id (pcs g) t p Hp) at 1. by rewrite H, app_assoc.
  - intros b p'. cbn. by rewrite H, app_assoc.
Qed.

Lemma uncounted_goto g t p :
  pcs g !! t = Some p ->
  exists n, zlen (pcs g ≫= uncounted) = zlen (uncounted p) + n /\
    forall p', zlen (<[t := p']> (pcs g) ≫= uncounted) = zlen (uncounted p') + n.
Proof.
  intros Hp. destruct (bind_insert_perm uncounted (pcs g) t p Hp) as [rest H].
  exists (zlen rest). split.
  - rewrite <- (list_insert_id (pcs g) t p Hp) at 1. unfold zlen. rewrite H, length_app. lia.
  - intros p'. unfold zlen. rewrite H, length_app. lia.
Qed.

(** A step that only moves the program counter of a thread. *)
Lemma inv_goto b0 g t p p' :
  inv b0 g -> pcs g !! t = Some p -> inflight p' = inflight p -> uncounted p' = uncounted p ->
  pc_ok b0 p' -> inv b0 (goto g t p').
Proof.
  intros [? ? Hnd Hbits Hr Hpcs Hu] Hp Hi Hc Hok.
  destruct (tokens_goto g t p Hp) as (rest & E1 & E2). specialize (E2 (sh g) p').
  change (goto (with_sh g (sh g)) t p') with (goto g t p') in E2.
  rewrite Hi, <- E1 in E2.
  destruct (uncounted_goto g t p Hp) as (n & U1 & U2).
  split; cbn; try done.
  - by rewrite E2.
  - intros k Hk. rewrite E2. by apply Hbits.
  - by rewrite E2.
  - by apply Forall_insert.
  - rewrite U2, Hc, <- U1. done.
Qed.

(** A step that changes the map but no bit of it. *)
Lemma inv_with_sh b0 g b :
  inv b0 g -> wf b -> bmap_size b = bmap_size (sh g) ->
  (forall k, bit_set b k = bit_set (sh g) k) -> bmap_used_bits b = bmap_used_bits (sh g) ->
  inv b0 (with_sh g b).
Proof.
  intros [? ? Hnd Hbits Hr Hpcs Hu] Hwf Hs Hb Hus. split; cbn; try done.
  - by rewrite Hs.
  - intros k Hk. rewrite Hb. by apply Hbits.
  - by rewrite Hus.
Qed.

Lemma inv_cas_won b0 g t i s j f :
  inv b0 g -> pcs g !! t = Some (P_cas i s j (stride (sh g) s) f) ->
  inv b0 (goto (with_sh g (set_data (sh g)
            (zset (bmap_data (sh g)) s (Z.lor (stride (sh g) s) (Z.shiftl 1 f))))) t
            (P_swapped s (s * VR_BITMAP_STRIDE_LEN + f))).
Proof.
  intros [Hwf Hsz Hnd Hbits Hr Hpcs Hu] Hp. change VR_BITMAP_STRIDE_LEN with 32.
  pose proof (Forall_lookup_1 _ _ _ _ Hpcs Hp) as ([_ Hs] & Hf & Ht).
  destruct (tokens_goto g t _ Hp) as (rest & E1 & E2). cbn in E1.
  destruct (uncounted_goto g t _ Hp) as (n & U1 & U2).
  assert (Hfresh : bit_set (sh g) (s * 32 + f) = false).
  { unfold bit_set. rewrite Z.div_add_l, Z.div_small, Z.add_0_r by lia.
    by rewrite Z.add_comm, Z.mod_add, Z.mod_small by lia. }
  split; cbn -[tokens]; try done.
  - apply wf_set_data; [done|]. apply lor_bit_range; [by apply wf_word|done].
  - rewrite E2, <- E1. cbn. apply NoDup_cons. split; [|done].
    rewrite <- Hbits by lia. by rewrite Hfresh.
  - intros k Hk. rewrite bit_set_lor by (rewrite ?Hsz; lia || done).
    rewrite E2, <- E1. cbn. rewrite elem_of_cons, <- Hbits, orb_true_iff, Z.eqb_eq by done. done.
  - rewrite E2, <- E1. cbn. constructor; [lia|done].
  - apply Forall_insert; [done|]. cbn. lia.
  - rewrite U2, Hu, U1. done.
Qed.

Lemma inv_count b0 g t bit :
  inv b0 g -> pcs g !! t = Some (P_stored bit) ->
  inv b0 (goto (with_handed (with_sh g (set_used (sh g) (u32 (bmap_used_bits (sh g) + 1))))
            (bit :: handed g)) t P_idle).
Proof.
  intros [Hwf Hsz Hnd Hbits Hr Hpcs Hu] Hp.
  destruct (bind_insert_perm inflight (pcs g) t _ Hp) as [rest H].
  destruct (uncounted_goto g t _ Hp) as (n & U1 & U2).
  assert (E : (<[t := P_idle]> (pcs g) ≫= inflight) ++ bit :: handed g ≡ₚ tokens g).
  { unfold tokens. rewrite <- (list_insert_id (pcs g) t _ Hp) at 2. rewrite !H. cbn.
    by rewrite Permutation_middle. }
  split; cbn; try done.
  - by apply wf_set_used.
  - unfold tokens; cbn. by rewrite E.
  - intros k Hk. unfold tokens; cbn. rewrite E. by apply Hbits.
  - unfold tokens; cbn. by rewrite E.
  - by apply Forall_insert.
  - rewrite U2, Hu, U1. unfold zlen, u32; cbn [length uncounted].
    rewrite Zplus_mod_idemp_l. f_equal. lia.
Qed.

Lemma inv_clear b0 g t bit rest :
  inv b0 g -> pcs g !! t = Some P_idle -> Permutation (handed g) (bit :: rest) ->
  inv b0 (goto (with_handed (with_sh g (set_data (sh g)
            (zset (bmap_data (sh g)) (bit / VR_BITMAP_STRIDE_LEN)
               (Z.land (stride (sh g) (bit / VR_BITMAP_STRIDE_LEN))
                  (u32 (Z.lnot (Z.shiftl 1 (bit mod VR_BITMAP_STRIDE_LEN)))))))) rest) t
            (P_anded bit)).
Proof.
  intros [Hwf Hsz Hnd Hbits Hr Hpcs Hu] Hp Hperm. change VR_BITMAP_STRIDE_LEN with 32.
  destruct (bind_insert_perm inflight (pcs g) t _ Hp) as [fl H].
  destruct (uncounted_goto g t _ Hp) as (n & U1 & U2).
  assert (E : tokens g ≡ₚ bit :: (<[t := P_anded bit]> (pcs g) ≫= inflight) ++ rest).
  { unfold tokens. rewrite <- (list_insert_id (pcs g) t _ Hp) at 1. rewrite !H, Hperm. cbn.
    by rewrite Permutation_middle. }
  rewrite E in Hnd, Hr. apply NoDup_cons in Hnd as [Hni Hnd].
  apply Forall_cons in Hr as [Hbit Hr].
  assert (Hi : 0 <= bit / 32 < bmap_size (sh g))
    by (split; [apply Z.div_pos|apply Z.div_lt_upper_bound]; lia).
  pose proof (Z.mod_pos_bound bit 32 ltac:(lia)).
  split; cbn -[tokens]; try done.
  - apply wf_set_data; [done|]. apply land_range; [by apply wf_word|apply u32_range].
  - intros k Hk. rewrite bit_set_set_data by (rewrite wf_len by done; lia).
    change (tokens _) with ((<[t := P_anded bit]> (pcs g) ≫= inflight) ++ rest).
    assert (Hk' : k ∈ (<[t := P_anded bit]> (pcs g) ≫= inflight) ++ rest <->
                  k <> bit /\ bit_set (sh g) k = true).
    { rewrite Hbits, E, elem_of_cons by done. split; [|naive_solver]. intros Hin. split; [|by right].
      by intros ->. }
    rewrite Hk'. pose proof (Z.mod_pos_bound k 32 ltac:(lia)).
    pose proof (Z.div_mod bit 32). pose proof (Z.div_mod k 32).
    case_decide as Ed.
    + rewrite land_mask_testbit by lia. unfold bit_set. rewrite <- Ed.
      rewrite andb_true_iff, negb_true_iff, Z.eqb_neq. intuition lia.
    + split; [|naive_solver]. intros; split; [|done]. by intros ->.
  - apply Forall_insert; [done|]. done.
  - rewrite U2, Hu, U1. unfold zlen. rewrite Hperm. cbn [length uncounted]. f_equal. lia.
Qed.

Lemma inv_uncount b0 g t bit :
  inv b0 g -> pcs g !! t = Some (P_anded bit) ->
  inv b0 (goto (with_sh g (set_used (sh g) (u32 (bmap_used_bits (sh g) - 1)))) t P_idle).
Proof.
  intros [Hwf Hsz Hnd Hbits Hr Hpcs Hu] Hp.
  destruct (tokens_goto g t _ Hp) as (rest & E1 & E2).
  destruct (uncounted_goto g t _ Hp) as (n & U1 & U2).
  specialize (E2 (set_used (sh g) (u32 (bmap_used_bits (sh g) - 1))) P_idle).
  cbn in E1. rewrite <- E1 in E2.
  split; cbn -[tokens]; try done.
  - by apply wf_set_used.
  - by rewrite E2.
  - intros k Hk. rewrite E2. by apply Hbits.
  - by rewrite E2.
  - by apply Forall_insert.
  - rewrite U2, Hu, U1. unfold zlen, u32; cbn [length uncounted].
    rewrite Zminus_mod_idemp_l. f_equal. lia.
Qed.

Lemma inv_step b0 g t g' : inv b0 g -> step g t g' -> inv b0 g'.
Proof.
  intros Hi Hs.
  assert (Hpc : forall p, pcs g !! t = Some p -> pc_ok b0 p)
    by (intros p; apply Forall_lookup_1, Hi).
  pose proof (inv_size b0 g Hi) as Hsz. pose proof (inv_wf b0 g Hi) as Hwf.
  destruct Hs as [| ? | i s Hp Hlt | | i s j Hp | i s j Hp | i s j Hp | i s j f Hp Hf Hf0
                 | i s j d f Hp | i s j d f Hp <- | s bit Hp | | |];
    eauto using inv_count, inv_clear, inv_uncount, inv_cas_won.
  all: try (eapply inv_goto; [done..|]; cbn).
  - split; [done|by apply wf_last].
  - pose proof (Hpc _ Hp) as Hok; cbn in Hok. unfold norm_stride.
    destruct (Z.leb_spec (bmap_size (sh g)) s); rewrite <- ?Hsz; lia.
  - done.
  - by apply (Hpc _ Hp).
  - pose proof (Hpc _ Hp) as Hok; cbn in Hok. lia.
  - pose proof (Hpc _ Hp) as Hok; cbn in Hok. lia.
  - split; [by apply (Hpc _ Hp)|].
    destruct (ffs_from_spec 32 0 (u32 (Z.lnot (stride (sh g) s)))) as [[E _]|[Hr Hb]];
      [unfold vr_ffs_32 in *; congruence|].
    fold (vr_ffs_32 (u32 (Z.lnot (stride (sh g) s)))) in Hr, Hb. rewrite Hf in Hr, Hb.
    split; [lia|]. revert Hb. unfold u32. change 4294967296 with (2 ^ 32).
    rewrite Z.mod_pow2_bits_low, Z.lnot_spec by lia. by destruct (Z.testbit _ _).
  - by apply (Hpc _ Hp).
  - change (goto (with_sh g ?b) t ?p) with (with_sh (goto g t p) b).
    pose proof (Hpc _ Hp) as Hok; cbn in Hok.
    apply inv_with_sh; cbn; try done; [|by apply wf_set_last].
    by eapply inv_goto.
Qed.

Lemma bind_replicate_idle {A} (f : pc -> list A) n :
  f P_idle = [] -> replicate n P_idle ≫= f = [].
Proof. intros Hf. induction n as [|m IH]; [done|]. cbn. by rewrite Hf, IH. Qed.

Lemma reachable_inv b n g :
  wf b -> (forall k, bit_set b k = false) -> bmap_used_bits b = 0 -> reachable b n g ->
  inv b g.
Proof.
  intros Hwf Hempty Hused Hr. induction Hr; [|by eapply inv_step].
  assert (Ht : tokens (mk_sys b (replicate n P_idle) []) = []).
  { unfold tokens; cbn. by rewrite bind_replicate_idle. }
  split; rewrite ?Ht; cbn; try done.
  - constructor.
  - intros k Hk. rewrite Hempty. split; [done|by intros []%not_elem_of_nil].
  - by apply Forall_replicate.
  - by rewrite bind_replicate_idle.
Qed.

(** C40: threads that allocate and release bits concurrently, interleaved at every
    shared access, never hold the same bit twice; the set bits are exactly the
    bits that are held or being returned, each of them lies in the array, and
    once every thread has returned the usage count is the number of bits held. *)
Theorem concurrent_alloc_unique b n g :
  wf b -> (forall k, bit_set b k = false) -> bmap_used_bits b = 0 -> reachable b n g ->
  NoDup (tokens g) /\
  (forall k, 0 <= k -> bit_set (sh g) k = true <-> k ∈ tokens g) /\
  Forall (fun k => 0 <= k < 32 * bmap_size b) (handed g) /\
  (Forall (fun p => p = P_idle) (pcs g) -> bmap_used_bits (sh g) = u32 (zlen (handed g))).
Proof.
  intros Hwf Hempty Hused Hr.
  destruct (reachable_inv b n g Hwf Hempty Hused Hr) as [_ _ Hnd Hbits Hrange _ Hu].
  split_and!; try done.
  - unfold tokens in Hrange. by apply Forall_app in Hrange as [_ ?].
  - intros Hidle. rewrite Hu. f_equal.
    enough (pcs g ≫= uncounted = []) as -> by (unfold zlen; cbn; lia).
    clear -Hidle. induction Hidle as [|p l -> _ IH]; [done|]. cbn. by rewrite IH.
Qed.

(** ** The theorems at a concrete map *)

Definition bm128 : vr_bitmap := mk_bitmap 128 4 0 0 [0; 0; 0; 0].
Definition bm128_1 : vr_bitmap := mk_bitmap 128 4 0 1 [1; 0; 0; 0].

Lemma bm128_create :
  wf bm128 /\ bmap_size bm128 = 4 /\ bmap_bits bm128 = 128 /\ bmap_used_bits bm128 = 0 /\
  forall k, bit_set bm128 k = false.
Proof. by apply (bitmap_create_spec 128 bm128). Qed.

Lemma bm128_1_wf : wf bm128_1.
Proof.
  destruct bm128_create as (Hwf & _).
  apply (wf_set_used (set_data bm128 (zset (bmap_data bm128) 0 1)) 1).
  apply wf_set_data; [done|lia].
Qed.

Lemma alloc_bit_sound_witness : allocated bm128 0 bm128_1.
Proof. apply (alloc_bit_sound bm128 0 bm128_1); [apply bm128_create|reflexivity|lia]. Defined.

Lemma alloc_bit_complete_witness :
  exists r b', vr_bitmap_alloc_bit (Some bm128_1) = (r, Some b') /\ 0 <= r.
Proof.
  apply (alloc_bit_complete bm128_1 1); [apply bm128_1_wf|by vm_compute|cbn; lia|reflexivity].
Defined.

Lemma clear_bit_spec_witness :
  match vr_bitmap_clear_bit (Some bm128_1) 0 with
  | (true, Some b') => 0 < bmap_bits bm128_1 /\ cleared bm128_1 0 b'
  | (false, b') => bmap_bits bm128_1 <= 0 /\ b' = Some bm128_1
  | _ => False
  end.
Proof. apply (clear_bit_spec bm128_1 0); [apply bm128_1_wf|cbn; lia]. Defined.

Lemma alloc_clear_roundtrip_witness :
  exists b'', vr_bitmap_clear_bit (Some bm128_1) 0 = (true, Some b'') /\ wf b'' /\
    (forall k, 0 <= k -> bit_set b'' k = bit_set bm128 k) /\
    bmap_used_bits b'' = bmap_used_bits bm128.
Proof.
  apply (alloc_clear_roundtrip bm128 0 bm128_1);
    [apply bm128_create|cbn; lia|reflexivity|cbn; lia].
Defined.

Lemma create_capacity_witness :
  wf bm128 /\ bmap_used_bits bm128 = 0 /\ (forall k, bit_set bm128 k = false) /\
  (128 <= 32 * bmap_size bm128 <-> 128 mod 32 = 0 \/ 64 <= 128 mod 128).
Proof. apply (create_capacity 128 bm128); [lia|reflexivity]. Defined.

(** Thread 0 runs one allocation to its end while thread 1 has just lost a
    compare-and-swap on the same stride. *)
Definition two_threads : sys :=
  mk_sys bm128_1 [P_idle; P_guard 0 0 1] [0].

(** Extend a run by one step of thread [t]. *)
Ltac sched H t c :=
  let H' := fresh "H" in
  eassert (H' : reachable bm128 2 _) by
    (eapply (R_step _ _ _ t _ H); eapply c; first [reflexivity | by vm_compute | lia]);
  clear H; rename H' into H; cbn in H.

Lemma two_threads_reachable : reachable bm128 2 two_threads.
Proof.
  pose proof (R_init bm128 2) as H.
  sched H 0%nat S_call_alloc. sched H 1%nat S_call_alloc.
  sched H 0%nat S_head_enter. sched H 1%nat S_head_enter.
  sched H 0%nat S_guard_enter. sched H 1%nat S_guard_enter.
  sched H 0%nat S_body_bit. sched H 1%nat S_body_bit.
  sched H 0%nat S_cas_won. sched H 1%nat S_cas_lost.
  sched H 0%nat S_last. sched H 0%nat S_count.
  exact H.
Qed.

Lemma concurrent_alloc_unique_witness :
  NoDup (tokens two_threads) /\
  (forall k, 0 <= k -> bit_set (sh two_threads) k = true <-> k ∈ tokens two_threads) /\
  Forall (fun k => 0 <= k < 32 * bmap_size bm128) (handed two_threads) /\
  (Forall (fun p => p = P_idle) (pcs two_threads) ->
   bmap_used_bits (sh two_threads) = u32 (zlen (handed two_threads))).
Proof.
  apply (concurrent_alloc_unique bm128 2 two_threads);
    [apply bm128_create|apply bm128_create|reflexivity|apply two_threads_reachable].
Defined.
End Bitmap.
