(* ===== verification/Queue.v ===== *)
(** * Queues (dp-core/vr_queue.c)

    A singly linked list that threads through the elements themselves: [vr_qheap] is
    the [q_next] field of every element.  The theorem is that the list is a FIFO
    queue. *)

From S2P Require Import Prelude.

Module Queue.

Abbreviation vr_qheap := (gmap Z (option Z)).

Record vr_qhead := mk_qhead { q_first : option Z }.

Definition q_next (h : vr_qheap) (e : Z) : option Z := h !! e ≫= id.

Definition vr_queue_init : vr_qhead := mk_qhead None.

(** [while (elem && elem->q_next) elem = elem->q_next;] *)
Fixpoint queue_last (fuel : nat) (h : vr_qheap) (elem : Z) : Z :=
  match fuel with
  | O => elem
  | S fuel' => match q_next h elem with Some n => queue_last fuel' h n | None => elem end
  end.

Definition vr_queue_enqueue (q : vr_qhead) (h : vr_qheap) (p : Z) : vr_qhead * vr_qheap :=
  let h1 := <[p := None]> h in
  match q_first q with
  | None => (mk_qhead (Some p), h1)
  | Some elem => (q, <[queue_last (size h1) h1 elem := Some p]> h1)
  end.

Definition vr_queue_dequeue (q : vr_qhead) (h : vr_qheap) : option Z * vr_qhead :=
  match q_first q with
  | Some elem => (Some elem, mk_qhead (q_next h elem))
  | None => (None, q)
  end.

Definition vr_queue_empty (q : vr_qhead) : bool :=
  match q_first q with Some _ => false | None => true end.

(** ** The list a queue holds *)

Fixpoint path (h : vr_qheap) (o : option Z) (l : list Z) : Prop :=
  match l with
  | [] => o = None
  | e :: l' => o = Some e /\ is_Some (h !! e) /\ path h (q_next h e) l'
  end.

Definition holds (q : vr_qhead) (h : vr_qheap) (l : list Z) : Prop := NoDup l /\ path h (q_first q) l.

Lemma path_insert h o l p v : p ∉ l -> path h o l -> path (<[p := v]> h) o l.
Proof.
  revert o. induction l as [|e l IH]; intros o Hp; [done|]. cbn. intros (Ho & Hs & Hl).
  assert (p <> e) by set_solver. unfold q_next. rewrite lookup_insert_ne by done.
  split_and!; [done|done|]. apply IH; [set_solver|done].
Qed.

(** The last of a non-empty list. *)
Fixpoint queue_end (e : Z) (l : list Z) : Z :=
  match l with [] => e | x :: l' => queue_end x l' end.

Lemma queue_end_in e l : queue_end e l ∈ e :: l.
Proof. revert e. induction l as [|x l IH]; intros e; cbn; [set_solver|]. specialize (IH x). set_solver. Qed.

(** The walk of an insertion needs no more steps than there are elements. *)
Lemma queue_last_spec h l e fuel :
  path h (Some e) (e :: l) -> (length l <= fuel)%nat -> queue_last fuel h e = queue_end e l.
Proof.
  revert e fuel. induction l as [|e' l IH]; intros e fuel Hp Hf; cbn in Hp.
  - destruct Hp as (_ & _ & Hn). destruct fuel; cbn; [done|]. by rewrite Hn.
  - destruct Hp as (_ & _ & Hn & Hp). destruct fuel as [|fuel]; [cbn in Hf; lia|]. cbn [queue_last queue_end].
    rewrite Hn. apply IH; [done|cbn in Hf; lia].
Qed.

Lemma path_size h o l : NoDup l -> path h o l -> (length l <= size h)%nat.
Proof.
  intros Hnd Hp. assert (Hd : forall e, e ∈ l -> e ∈ dom h).
  { clear Hnd. revert o Hp. induction l as [|e l IH]; intros o Hp x Hx; [by apply not_elem_of_nil in Hx|].
    destruct Hp as (_ & Hs & Hl). apply elem_of_cons in Hx as [->|Hx]; [by apply elem_of_dom|by eapply IH]. }
  rewrite <- size_dom. rewrite <- (size_list_to_set (C := gset Z) l) by done. apply subseteq_size.
  intros x Hx%elem_of_list_to_set. auto.
Qed.

Lemma path_snoc h e l p :
  NoDup (e :: l) -> p ∉ e :: l -> path h (Some e) (e :: l) -> h !! p = Some None ->
  path (<[queue_end e l := Some p]> h) (Some e) ((e :: l) ++ [p]).
Proof.
  revert e. induction l as [|e' l IH]; intros e Hnd Hp Hpath Hh.
  - cbn. unfold q_next. rewrite lookup_insert_eq. rewrite lookup_insert_ne by set_solver. rewrite Hh. cbn.
    split_and!; eauto.
  - apply NoDup_cons in Hnd as [He Hnd]. destruct Hpath as (_ & Hs & Hn). pose proof Hn as [Hne _].
    assert (Hle : queue_end e' l <> e) by (pose proof (queue_end_in e' l); set_solver).
    cbn [app path queue_end]. split; [done|]. unfold q_next. rewrite lookup_insert_ne by done. split; [done|].
    fold (q_next h e). rewrite Hne in Hn |- *. apply (IH e'); [done|set_solver|done|done].
Qed.

Lemma enqueue_holds q h l p :
  holds q h l -> p ∉ l -> holds (vr_queue_enqueue q h p).1 (vr_queue_enqueue q h p).2 (l ++ [p]).
Proof.
  intros [Hnd Hp] Hpl. split; [apply NoDup_app; split_and!; [done|set_solver|apply NoDup_singleton]|].
  unfold vr_queue_enqueue. assert (Hp1 : path (<[p := None]> h) (q_first q) l) by (by apply path_insert).
  destruct l as [|e l]; cbn in Hp.
  - rewrite Hp. cbn. unfold q_next. rewrite lookup_insert_eq. eauto.
  - destruct Hp as (E & _). rewrite E in Hp1 |- *. cbn [fst snd q_first].
    rewrite (queue_last_spec _ l e); [|done|].
    + rewrite E. apply path_snoc; try done. by rewrite lookup_insert_eq.
    + pose proof (path_size _ _ _ Hnd Hp1). cbn in *. lia.
Qed.

Lemma dequeue_holds q h l :
  holds q h l -> (vr_queue_dequeue q h).1 = head l /\ holds (vr_queue_dequeue q h).2 h (tail l).
Proof.
  intros [Hnd Hp]. unfold vr_queue_dequeue. destruct l as [|e l]; cbn in Hp; [rewrite Hp; by split; [|split]|].
  destruct Hp as (-> & _ & Hl). apply NoDup_cons in Hnd as [_ Hnd]. by split; [|split].
Qed.

Lemma empty_holds q h l : holds q h l -> vr_queue_empty q = bool_decide (l = []).
Proof. intros [_ Hp]. unfold vr_queue_empty. destruct l; cbn in Hp; [by rewrite Hp|by destruct Hp as [-> _]]. Qed.

(** ** Runs of operations *)

Inductive qop := Enq (p : Z) | Deq.

(** What a run of operations dequeues. *)
Fixpoint run (ops : list qop) (q : vr_qhead) (h : vr_qheap) : list (option Z) :=
  match ops with
  | [] => []
  | Enq p :: ops' => let '(q1, h1) := vr_queue_enqueue q h p in run ops' q1 h1
  | Deq :: ops' => let '(o, q1) := vr_queue_dequeue q h in o :: run ops' q1 h
  end.

(** The same run on a list; none when an element is inserted that is in the queue. *)
Fixpoint run_spec (ops : list qop) (l : list Z) : option (list (option Z)) :=
  match ops with
  | [] => Some []
  | Enq p :: ops' => if bool_decide (p ∈ l) then None else run_spec ops' (l ++ [p])
  | Deq :: ops' => cons (head l) <$> run_spec ops' (tail l)
  end.

(** The queue is first in, first out.  Whatever insertions and removals are made,
    as long as no element is inserted while it is in the queue, the elements come out
    in the order of a list that is appended to at one end and taken from at the
    other. *)
Theorem queue_fifo ops out : run_spec ops [] = Some out -> run ops vr_queue_init ∅ = out.
Proof.
  assert (Hg : forall q h l, holds q h l -> run_spec ops l = Some out -> run ops q h = out);
    [|apply Hg; split; [constructor|done]].
  revert out. induction ops as [|[p|] ops IH]; intros out q h l Hq; cbn.
  - congruence.
  - case_bool_decide as Hp; [done|]. intros Hr. pose proof (enqueue_holds q h l p Hq Hp) as Hq'.
    destruct (vr_queue_enqueue q h p) as [q1 h1]. by apply (IH out q1 h1 (l ++ [p])).
  - intros (out' & Hr & ->)%fmap_Some. destruct (dequeue_holds q h l Hq) as [Ho Hq'].
    destruct (vr_queue_dequeue q h) as [o q1]. cbn in Ho, Hq'. subst o. f_equal. by apply (IH out' q1 h (tail l)).
Qed.

Lemma queue_fifo_witness :
  run [Enq 7; Enq 9; Deq; Enq 7; Deq; Deq; Deq] vr_queue_init ∅ = [Some 7; Some 9; Some 7; None].
Proof. apply queue_fifo. reflexivity. Defined.

End Queue.
