(* ===== verification/Message.v ===== *)
(** * Messages to and from the agent (dp-core/vr_message.c, dp-core/vr_sandesh.c)

    Requests are decoded and responses encoded by a protocol (sandesh) in buffers that
    the transport supplies.  A response is put on a queue; the result of a dump is
    written object by object to a page that is queued when it is full or the dump is
    over.

    [sandesh_encode], [sandesh_decode] and the sizes of the generated message types are
    not part of the repository: they are the class [Sandesh] and a parameter.  [contents]
    is the abstract state, the list of the queued messages. *)

From stdpp Require Import gmap.
From S2P Require Import Prelude Queue.
Import Queue.

Definition VR_MESSAGE_DUMP_INCOMPLETE : Z := 1073741824.
Definition VR_MESSAGE_PAGE_SIZE : Z := 3968.
Definition ENETRESET : Z := 102.
Definition EEXIST : Z := 17.

Definition VR_NULL_OBJECT_ID : Z := 0.
Definition VR_INTERFACE_OBJECT_ID : Z := 1.
Definition VR_NEXTHOP_OBJECT_ID : Z := 2.
Definition VR_ROUTE_OBJECT_ID : Z := 3.
Definition VR_MPLS_OBJECT_ID : Z := 4.
Definition VR_MIRROR_OBJECT_ID : Z := 5.
Definition VR_RESPONSE_OBJECT_ID : Z := 7.
Definition VR_VRF_ASSIGN_OBJECT_ID : Z := 8.
Definition VR_VXLAN_OBJECT_ID : Z := 11.
Definition VR_QOS_MAP_OBJECT_ID : Z := 15.
Definition VR_FC_MAP_OBJECT_ID : Z := 16.

(** The operations that a request may ask for. *)
Inductive sandesh_op := SANDESH_OP_ADD | SANDESH_OP_GET | SANDESH_OP_DEL | SANDESH_OP_DUMP | SANDESH_OP_RESPONSE | SANDESH_OP_RESET.

(** What the encoder is given: a response code, or an object of a type. *)
Inductive sobj (Obj : Type) := SResponse (code : Z) | SObject (object_type : Z) (o : Obj).
Arguments SResponse {Obj} code.
Arguments SObject {Obj} object_type o.

(** [sandesh_encode x len] is the number of bytes written, the error code and the
    bytes; [obj_len] and [obj_get_size] are the columns of [sandesh_md]. *)
Class Sandesh (Obj : Type) := {
  sandesh_encode : sobj Obj -> Z -> Z * Z * list Z;
  obj_len : Z -> Z;
  obj_get_size : Z -> option Obj -> Z
}.

Class SandeshLaws (Obj : Type) `{Sandesh Obj} := {
  (* without an error, something was written and it fits *)
  encode_fits : forall x len off bytes, sandesh_encode x len = (off, 0, bytes) ->
    0 < off <= len /\ zlen bytes = off;
  (* a response code fits in the space that is set aside for it *)
  encode_code : forall code len, obj_len VR_RESPONSE_OBJECT_ID <= len ->
    exists off bytes, sandesh_encode (SResponse code) len = (off, 0, bytes);
  (* sizes are far from the range of an unsigned int *)
  obj_len_range : forall t, 0 <= obj_len t < 1073741824;
  obj_get_size_range : forall t o, 0 <= obj_get_size t o < 1073741824
}.

Module Message.

Section message.
Context {Obj : Type} `{Sandesh Obj}.

(** ** The protocol: vr_sandesh.c *)

(** The object types for which [sandesh_md] has [obj_get_size]. *)
Definition has_get_size (object_type : Z) : bool :=
  (object_type =? VR_INTERFACE_OBJECT_ID) || (object_type =? VR_NEXTHOP_OBJECT_ID) ||
  (object_type =? VR_QOS_MAP_OBJECT_ID).

Definition sandesh_proto_buf_len (object_type : Z) (object : option Obj) : Z :=
  if match object with None => negb (object_type =? VR_RESPONSE_OBJECT_ID) | Some _ => false end then 0
  else if has_get_size object_type then obj_get_size object_type object
  else obj_len object_type.

Definition sandesh_proto_encode (len object_type : Z) (object : option Obj) : Z * list Z :=
  match object with
  | None => (0, [])
  | Some o =>
      let '(off, error, bytes) := sandesh_encode (SObject object_type o) len in
      if error =? 0 then (off, bytes) else (-1, [])
  end.

Definition sandesh_proto_encode_response (len object_type : Z) (object : option Obj) (ret : Z) : Z * list Z :=
  let '(off, _, bytes) := sandesh_encode (SResponse ret) len in
  if off <? 0 then (off, [])
  else
    let '(error, bytes') := sandesh_proto_encode (u32 (len - off)) object_type object in
    if error <? 0 then (error, []) else (off + error, bytes ++ bytes').

(** ** Buffers and responses *)

(** [vr_message_buf] is the block of the buffer, [vr_message_data] what it holds. *)
Record vr_message := mk_message {
  vr_message_buf : option Z;
  vr_message_data : list Z;
  vr_message_len : Z
}.

(** [message_h], with the memory it uses: the links of the queued responses and the
    responses themselves are indexed by their blocks.  A protocol or a transport is
    named by its address. *)
Record vr_message_handler := mk_handler {
  vm_proto : option Z;
  vm_trans : option Z;
  vm_response_queue : vr_qhead;
  vm_links : gmap Z (option Z);
  vm_responses : gmap Z vr_message;
  vm_mem : mem;
  vr_not_ready : bool
}.

Definition set_mem (m : mem) (h : vr_message_handler) : vr_message_handler :=
  mk_handler (vm_proto h) (vm_trans h) (vm_response_queue h) (vm_links h) (vm_responses h) m (vr_not_ready h).

Definition set_queue (q : vr_qhead) (links : gmap Z (option Z)) (r : gmap Z vr_message)
    (h : vr_message_handler) : vr_message_handler :=
  mk_handler (vm_proto h) (vm_trans h) q links r (vm_mem h) (vr_not_ready h).

Definition ready (h : vr_message_handler) : bool :=
  match vm_proto h, vm_trans h with Some _, Some _ => true | _, _ => false end.

Definition alloc (size : Z) (h : vr_message_handler) : option Z * vr_message_handler :=
  let '(b, m) := m_alloc size (vm_mem h) in (b, set_mem m h).

Definition free (b : Z) (h : vr_message_handler) : vr_message_handler := set_mem (m_free b (vm_mem h)) h.

Definition vr_mtrans_alloc (size : Z) (h : vr_message_handler) : option Z * vr_message_handler :=
  match vm_trans h with None => (None, h) | Some _ => alloc size h end.

Definition vr_mtrans_free (buf : option Z) (h : vr_message_handler) : vr_message_handler :=
  match vm_trans h, buf with Some _, Some b => free b h | _, _ => h end.

Definition vr_message_queue_response (buf : Z) (data : list Z) (len : Z) (h : vr_message_handler)
    : Z * vr_message_handler :=
  match alloc 24 h with
  | (None, h1) => (- ENOMEM, h1)
  | (Some response, h1) =>
      let '(q, links) := vr_queue_enqueue (vm_response_queue h1) (vm_links h1) response in
      (0, set_queue q links (<[response := mk_message (Some buf) data len]> (vm_responses h1)) h1)
  end.

Definition vr_message_dequeue_response (h : vr_message_handler) : option Z * vr_message_handler :=
  let '(elem, q) := vr_queue_dequeue (vm_response_queue h) (vm_links h) in
  (elem, set_queue q (vm_links h) (vm_responses h) h).

Definition vr_response_queue_empty (h : vr_message_handler) : bool := vr_queue_empty (vm_response_queue h).

Definition vr_message_free (message : option Z) (h : vr_message_handler) : vr_message_handler :=
  match message with
  | None => h
  | Some p => free p (vr_mtrans_free (vm_responses h !! p ≫= vr_message_buf) h)
  end.

(** A failure to encode is reported by a bare response, by the same function: [None]
    when the recursion is cut off. *)
Fixpoint vr_message_response (fuel : nat) (object_type : Z) (object : option Obj) (ret : Z)
    (h : vr_message_handler) : option (Z * vr_message_handler) :=
  match fuel with
  | O => None
  | S fuel' =>
      if negb (ready h) then Some (0, h)
      else
        let len := u32 (sandesh_proto_buf_len object_type object + sandesh_proto_buf_len VR_RESPONSE_OBJECT_ID None) in
        match alloc len h with
        | (None, h1) => Some (- ENOMEM, h1)
        | (Some buf, h1) =>
            let '(n, data) := sandesh_proto_encode_response len object_type object ret in
            if n <? 0 then
              '(_, h2) ← vr_message_response fuel' VR_NULL_OBJECT_ID None n (free buf h1);
              Some (n, h2)
            else Some (vr_message_queue_response buf data n h1)
        end
  end.

Definition vr_send_response (fuel : nat) (code : Z) (h : vr_message_handler) : option (Z * vr_message_handler) :=
  vr_message_response fuel VR_NULL_OBJECT_ID None code h.

(** ** Requests *)

Section requests.
(** [mproto_decode]: the generated decoder runs the handler of the request it finds. *)
Variable mproto_decode : list Z -> vr_message_handler -> Z * vr_message_handler.

Definition vr_message_request (data : list Z) (h : vr_message_handler) : Z * vr_message_handler :=
  match vm_proto h with
  | None => (0, h)
  | Some _ =>
      if vr_not_ready h then (- ENETRESET, h)
      else
        let '(ret, h1) := mproto_decode data h in
        if ret <? 0 then (ret, h1) else (0, h1)
  end.

Definition vr_message_make_request (object_type : Z) (object : option Obj) (h : vr_message_handler)
    : Z * vr_message_handler :=
  if negb (ready h) then (0, h)
  else
    let len := sandesh_proto_buf_len object_type object in
    match alloc len h with
    | (None, h1) => (- ENOMEM, h1)
    | (Some buf, h1) =>
        let '(ret, data) := sandesh_proto_encode len object_type object in
        if ret <? 0 then (ret, free buf h1)
        else (ret, free buf (vr_message_request data h1).2)
    end.

(** The loop ends when the queue is empty; [None] when it is cut off. *)
Fixpoint process_loop (fuel : nat) (h : vr_message_handler) : option vr_message_handler :=
  match vr_message_dequeue_response h with
  | (None, h1) => Some h1
  | (Some p, h1) =>
      match fuel with
      | O => None
      | S fuel' =>
          let data := from_option vr_message_data [] (vm_responses h1 !! p) in
          process_loop fuel' (vr_message_free (Some p) (mproto_decode data h1).2)
      end
  end.

Definition vr_message_process_response (fuel : nat) (h : vr_message_handler) : option vr_message_handler :=
  if negb (ready h) then Some h else process_loop fuel h.
End requests.

(** ** Dumps *)

(** [dump_data] is what the buffer holds up to [dump_offset]; [dump_self] is the block
    of the dumper. *)
Record vr_message_dumper := mk_dumper {
  dump_self : Z;
  dump_req : Obj;
  dump_been_to_marker : Z;
  dump_num_dumped : Z;
  dump_buffer : Z;
  dump_data : list Z;
  dump_buf_len : Z;
  dump_offset : Z
}.

Definition set_marker (v : Z) (d : vr_message_dumper) : vr_message_dumper :=
  mk_dumper (dump_self d) (dump_req d) v (dump_num_dumped d) (dump_buffer d) (dump_data d) (dump_buf_len d)
    (dump_offset d).

Definition set_dumped (num : Z) (data : list Z) (off : Z) (d : vr_message_dumper) : vr_message_dumper :=
  mk_dumper (dump_self d) (dump_req d) (dump_been_to_marker d) num (dump_buffer d) data (dump_buf_len d) off.

Definition vr_message_dump_object (h : vr_message_handler) (dumper : vr_message_dumper) (object_type : Z) (object : Obj)
    : Z * vr_message_dumper :=
  if negb (ready h) then (0, dumper)
  else
    let '(ret, bytes) :=
      sandesh_proto_encode (u32 (dump_buf_len dumper - dump_offset dumper)) object_type (Some object) in
    if ret <? 0 then
      (ret, set_dumped (Z.lor (dump_num_dumped dumper) VR_MESSAGE_DUMP_INCOMPLETE) (dump_data dumper)
              (dump_offset dumper) dumper)
    else
      (ret, set_dumped (u32 (dump_num_dumped dumper + 1)) (dump_data dumper ++ bytes)
              (u32 (dump_offset dumper + ret)) dumper).

Definition vr_message_dump_exit (fuel : nat) (context : option vr_message_dumper) (ret0 : Z) (h : vr_message_handler)
    : option vr_message_handler :=
  if negb (ready h) then Some h
  else
    let ret := match context with Some dumper => dump_num_dumped dumper | None => ret0 end in
    '(_, h1) ← vr_send_response fuel ret h;
    match context with
    | None => Some h1
    | Some dumper =>
        let h2 := if dump_offset dumper =? 0 then free (dump_buffer dumper) h1
                  else (vr_message_queue_response (dump_buffer dumper) (dump_data dumper) (dump_offset dumper) h1).2 in
        Some (free (dump_self dumper) h2)
    end.

Definition vr_message_dump_init (req : Obj) (h : vr_message_handler) : option vr_message_dumper * vr_message_handler :=
  if negb (ready h) then (None, h)
  else
    match alloc 48 h with
    | (None, h1) => (None, h1)
    | (Some self, h1) =>
        match alloc VR_MESSAGE_PAGE_SIZE h1 with
        | (None, h2) => (None, free self h2)
        | (Some buf, h2) => (Some (mk_dumper self req 0 0 buf [] VR_MESSAGE_PAGE_SIZE 0), h2)
        end
    end.

(** ** Registration *)

Definition set_handlers (p t : option Z) (h : vr_message_handler) : vr_message_handler :=
  mk_handler p t (vm_response_queue h) (vm_links h) (vm_responses h) (vm_mem h) (vr_not_ready h).

Definition vr_message_transport_unregister (trans : Z) (h : vr_message_handler) : vr_message_handler :=
  if bool_decide (vm_trans h = Some trans) then set_handlers (vm_proto h) None h else h.

Definition vr_message_transport_register (trans : Z) (h : vr_message_handler) : Z * vr_message_handler :=
  (0, set_handlers (vm_proto h) (Some trans) h).

Definition vr_message_proto_unregister (proto : Z) (h : vr_message_handler) : vr_message_handler :=
  if bool_decide (vm_proto h = Some proto) then set_handlers None (vm_trans h) h else h.

Definition vr_message_proto_register (proto : Z) (h : vr_message_handler) : Z * vr_message_handler :=
  match vm_proto h with
  | Some _ => (- EEXIST, h)
  | None => (0, set_handlers (Some proto) (vm_trans h) h)
  end.

(** ** The queued messages *)

Definition contents (h : vr_message_handler) (l : list vr_message) : Prop :=
  mem_ok (vm_mem h) /\
  exists ps, holds (vm_response_queue h) (vm_links h) ps /\
    Forall2 (fun p m => p < m_next (vm_mem h) /\ vm_responses h !! p = Some m) ps l.

Lemma m_alloc_succeeds size m :
  m_oracle m = [] -> mem_ok m ->
  exists m', m_alloc size m = (Some (m_next m), m') /\ m_oracle m' = [] /\ mem_ok m' /\ m_next m' = m_next m + 1.
Proof.
  intros Ho Hok. destruct (m_alloc size m) as [r m'] eqn:E.
  destruct (m_alloc_spec _ _ _ _ Hok E) as [Hok' Hr]. unfold m_alloc in E. rewrite Ho in E. simplify_eq.
  eexists. split; [done|]. split; [done|]. by split.
Qed.

(** Blocks that are taken or freed do not touch the queue. *)
Lemma contents_mem h l m :
  contents h l -> mem_ok m -> m_next (vm_mem h) <= m_next m -> contents (set_mem m h) l.
Proof.
  intros (_ & ps & Hq & Hf) Hm Hn. split; [done|]. exists ps. split; [done|]. cbn.
  eapply Forall2_impl; [exact Hf|]. cbn. intros p x [? ?]. split; [lia|done].
Qed.

Lemma queue_response_spec buf data len h l :
  contents h l -> m_oracle (vm_mem h) = [] ->
  exists h', vr_message_queue_response buf data len h = (0, h') /\
    contents h' (l ++ [mk_message (Some buf) data len]) /\ m_oracle (vm_mem h') = [] /\ ready h' = ready h.
Proof.
  intros (Hok & ps & Hq & Hf) Ho. unfold vr_message_queue_response, alloc.
  destruct (m_alloc_succeeds 24 (vm_mem h) Ho Hok) as (m' & -> & Ho' & Hok' & Hn). cbn [vm_response_queue vm_links vm_responses set_mem].
  set (r := m_next (vm_mem h)) in *.
  assert (Hr : r ∉ ps).
  { intros Hin%list_elem_of_lookup. destruct Hin as [i Hi]. destruct (Forall2_lookup_l _ _ _ _ _ Hf Hi) as (m & _ & Hlt & _). lia. }
  pose proof (enqueue_holds _ _ _ r Hq Hr) as Hq'.
  destruct (vr_queue_enqueue (vm_response_queue h) (vm_links h) r) as [q links]. cbn [fst snd] in Hq'.
  eexists. split; [done|]. split; [|done]. split; [exact Hok'|]. exists (ps ++ [r]). split; [done|]. cbn.
  apply Forall2_app.
  - apply Forall2_same_length_lookup. split; [by eapply Forall2_length|]. intros i p x Hp Hx.
    destruct (Forall2_lookup_lr _ _ _ _ _ _ Hf Hp Hx) as [Hlt Hm].
    split; [lia|]. rewrite lookup_insert_ne; [done|]. intros <-. lia.
  - constructor; [|constructor]. split; [lia|]. by rewrite lookup_insert_eq.
Qed.

Lemma free_contents b h l : contents h l -> contents (free b h) l.
Proof. intros Hc. apply contents_mem; [done|apply mem_ok_free; apply Hc|cbn; lia]. Qed.

Lemma alloc_succeeds size h l :
  contents h l -> m_oracle (vm_mem h) = [] ->
  exists b h', alloc size h = (Some b, h') /\ contents h' l /\ m_oracle (vm_mem h') = [] /\ ready h' = ready h.
Proof.
  intros Hc Ho. destruct (m_alloc_succeeds size (vm_mem h) Ho (proj1 Hc)) as (m' & Ha & Ho' & Hok' & Hn).
  unfold alloc. rewrite Ha. do 2 eexists. split; [done|]. split; [|done]. apply contents_mem; [done|done|lia].
Qed.

Section laws.
Context `{!SandeshLaws Obj}.

Lemma proto_encode_fits len t o n bytes :
  sandesh_proto_encode len t o = (n, bytes) -> 0 <= n -> n <= Z.max 0 len /\ zlen bytes = n.
Proof.
  unfold sandesh_proto_encode. destruct o as [o|]; [|intros [= <- <-]; split; [lia|done]].
  destruct (sandesh_encode (SObject t o) len) as [[off error] b] eqn:E.
  destruct (error =? 0) eqn:Ee; intros [= <- <-] Hn; [|lia]. apply Z.eqb_eq in Ee. subst error.
  apply encode_fits in E. lia.
Qed.

Lemma encode_response_fits len t o code n bytes :
  obj_len VR_RESPONSE_OBJECT_ID <= len <= UINT_MAX ->
  sandesh_proto_encode_response len t o code = (n, bytes) -> 0 <= n -> 0 < n <= len /\ zlen bytes = n.
Proof.
  intros Hl. destruct (encode_code (Obj := Obj) code len) as (off & b & E); [lia|].
  pose proof (encode_fits _ _ _ _ E) as [Hr Hb]. unfold sandesh_proto_encode_response. rewrite E.
  rewrite (proj2 (Z.ltb_ge _ _)) by lia. rewrite u32_small by lia.
  destruct (sandesh_proto_encode (len - off) t o) as [n' b'] eqn:E'.
  destruct (n' <? 0) eqn:Hn'; intros [= <- <-] Hn; [apply Z.ltb_lt in Hn'; lia|]. apply Z.ltb_ge in Hn'.
  apply proto_encode_fits in E' as [? ?]; [|done]. rewrite zlen_app. lia.
Qed.

(** A bare response is always encoded. *)
Lemma encode_response_null len t code :
  obj_len VR_RESPONSE_OBJECT_ID <= len -> 0 <= (sandesh_proto_encode_response len t None code).1.
Proof.
  intros Hl. destruct (encode_code (Obj := Obj) code len Hl) as (off & bytes & E).
  pose proof (encode_fits _ _ _ _ E) as [Hr _]. unfold sandesh_proto_encode_response. rewrite E.
  rewrite (proj2 (Z.ltb_ge _ _)) by lia. cbn. lia.
Qed.

(** The length of the buffer for a response. *)
Definition response_len (t : Z) (o : option Obj) : Z :=
  u32 (sandesh_proto_buf_len t o + sandesh_proto_buf_len VR_RESPONSE_OBJECT_ID None).

Lemma response_len_range t o : obj_len VR_RESPONSE_OBJECT_ID <= response_len t o <= UINT_MAX.
Proof.
  unfold response_len. pose proof (obj_len_range (Obj := Obj) VR_RESPONSE_OBJECT_ID).
  assert (Hb : 0 <= sandesh_proto_buf_len t o < 1073741824).
  { unfold sandesh_proto_buf_len. destruct (match o with Some _ => _ | None => _ end); [lia|].
    destruct (has_get_size t); [apply obj_get_size_range|apply obj_len_range]. }
  change (sandesh_proto_buf_len VR_RESPONSE_OBJECT_ID None) with (obj_len VR_RESPONSE_OBJECT_ID).
  rewrite u32_small by lia. lia.
Qed.

Lemma response_step fuel t o ret h l :
  contents h l -> m_oracle (vm_mem h) = [] -> ready h = true ->
  let '(n, data) := sandesh_proto_encode_response (response_len t o) t o ret in
  if n <? 0 then
    exists h1, contents h1 l /\ m_oracle (vm_mem h1) = [] /\ ready h1 = true /\
      vr_message_response (S fuel) t o ret h =
        ('(_, h2) ← vr_message_response fuel VR_NULL_OBJECT_ID None n h1; Some (n, h2))
  else exists h1 buf, vr_message_response (S fuel) t o ret h = Some (0, h1) /\
    contents h1 (l ++ [mk_message (Some buf) data n]) /\ m_oracle (vm_mem h1) = [] /\ ready h1 = true.
Proof.
  intros Hc Ho Hr. cbn [vr_message_response]. rewrite Hr. cbn [negb]. fold (response_len t o).
  destruct (alloc_succeeds (response_len t o) h l Hc Ho) as (b & h1 & -> & Hc1 & Ho1 & Hr1).
  destruct (sandesh_proto_encode_response (response_len t o) t o ret) as [n data]. destruct (n <? 0).
  - exists (free b h1). split_and!; [by apply free_contents|done| |done]. cbn. rewrite <- Hr. exact Hr1.
  - destruct (queue_response_spec b data n h1 l Hc1 Ho1) as (h2 & -> & Hc2 & Ho2 & Hr2).
    exists h2, b. split_and!; try done. congruence.
Qed.

Lemma send_response_spec fuel code h l :
  contents h l -> m_oracle (vm_mem h) = [] -> ready h = true ->
  exists h' buf, vr_send_response (S fuel) code h = Some (0, h') /\ m_oracle (vm_mem h') = [] /\ ready h' = true /\
    let data := (sandesh_proto_encode_response (response_len VR_NULL_OBJECT_ID None) VR_NULL_OBJECT_ID None code).2 in
    contents h' (l ++ [mk_message (Some buf) data (zlen data)]).
Proof.
  intros Hc Ho Hr. pose proof (response_step fuel VR_NULL_OBJECT_ID None code h l Hc Ho Hr) as Hs.
  pose proof (response_len_range VR_NULL_OBJECT_ID None) as Hl.
  pose proof (encode_response_null _ VR_NULL_OBJECT_ID code (proj1 Hl)) as Hn.
  destruct (sandesh_proto_encode_response _ _ _ code) as [n data] eqn:E. cbn [fst] in Hn.
  rewrite (proj2 (Z.ltb_ge _ _)) in Hs by lia. destruct Hs as (h1 & buf & Hs & Hc1 & Ho1 & Hr1).
  destruct (encode_response_fits _ _ _ _ _ _ Hl E Hn) as [_ Hz].
  exists h1, buf. split_and!; try done. cbn. by rewrite Hz.
Qed.

(** Every request is answered once.  With a protocol and a transport registered
    and memory at hand, [vr_message_response] ends, and exactly one message is added at
    the end of the queue: the response code followed by the object if they can be
    encoded in the space that was set aside; otherwise a bare response that carries
    the error of the encoder, which is also what is returned. *)
Theorem message_response_once object_type object ret h l :
  contents h l -> m_oracle (vm_mem h) = [] -> ready h = true ->
  exists r h' buf data, vr_message_response 2 object_type object ret h = Some (r, h') /\
    contents h' (l ++ [mk_message (Some buf) data (zlen data)]) /\
    let '(n, bytes) := sandesh_proto_encode_response (response_len object_type object) object_type object ret in
    if n <? 0 then r = n /\ data =
      (sandesh_proto_encode_response (response_len VR_NULL_OBJECT_ID None) VR_NULL_OBJECT_ID None n).2
    else r = 0 /\ data = bytes.
Proof.
  intros Hc Ho Hr. pose proof (response_step 1 object_type object ret h l Hc Ho Hr) as Hs.
  destruct (sandesh_proto_encode_response _ object_type object ret) as [n bytes] eqn:En.
  destruct (n <? 0) eqn:Hn.
  - destruct Hs as (h1 & Hc1 & Ho1 & Hr1 & Hs).
    destruct (send_response_spec 0 n h1 l Hc1 Ho1 Hr1) as (h2 & buf & Hsend & _ & _ & Hc2).
    unfold vr_send_response in Hsend. rewrite Hsend in Hs. cbn in Hs. by exists n, h2, buf; eexists.
  - destruct Hs as (h1 & buf & Hs & Hc1 & _). apply Z.ltb_ge in Hn.
    destruct (encode_response_fits _ _ _ _ _ _ (response_len_range _ _) En Hn) as [_ Hz].
    exists 0, h1, buf, bytes. by rewrite Hz.
Qed.

(** ** Dumps *)

(** The objects are written one after the other until one does not fit. *)
Fixpoint dump_objects (h : vr_message_handler) (object_type : Z) (objs : list Obj) (d : vr_message_dumper) : vr_message_dumper :=
  match objs with
  | [] => d
  | o :: objs' =>
      let '(ret, d1) := vr_message_dump_object h d object_type o in
      if ret <=? 0 then d1 else dump_objects h object_type objs' d1
  end.

(** The bytes of the objects [objs], one after the other, in a buffer with [room]
    bytes: how many of them fit, and what is written. *)
Fixpoint fitting (object_type : Z) (objs : list Obj) (room : Z) : Z * list Z :=
  match objs with
  | [] => (0, [])
  | o :: objs' =>
      let '(n, bytes) := sandesh_proto_encode room object_type (Some o) in
      if n <? 0 then (0, []) else let '(k, rest) := fitting object_type objs' (room - n) in (k + 1, bytes ++ rest)
  end.

Definition dump_ok (d : vr_message_dumper) : Prop :=
  0 <= dump_offset d <= dump_buf_len d /\ dump_buf_len d <= UINT_MAX /\ zlen (dump_data d) = dump_offset d.

Lemma proto_encode_pos len t o n bytes : sandesh_proto_encode len t (Some o) = (n, bytes) -> 0 <= n -> 0 < n.
Proof.
  unfold sandesh_proto_encode. destruct (sandesh_encode (SObject t o) len) as [[off error] b] eqn:E.
  destruct (error =? 0) eqn:Ee; intros [= <- <-] Hn; [|lia]. apply Z.eqb_eq in Ee. subst error.
  apply encode_fits in E. lia.
Qed.

Lemma dump_object_spec h d t o :
  ready h = true -> dump_ok d -> 0 <= dump_num_dumped d < UINT_MAX ->
  let '(n, bytes) := sandesh_proto_encode (dump_buf_len d - dump_offset d) t (Some o) in
  let '(ret, d1) := vr_message_dump_object h d t o in
  ret = n /\ dump_buf_len d1 = dump_buf_len d /\ dump_ok d1 /\
  if n <? 0 then dump_data d1 = dump_data d /\
    dump_num_dumped d1 = Z.lor (dump_num_dumped d) VR_MESSAGE_DUMP_INCOMPLETE
  else 0 < n /\ dump_offset d1 = dump_offset d + n /\ dump_data d1 = dump_data d ++ bytes /\
    dump_num_dumped d1 = dump_num_dumped d + 1.
Proof.
  intros Hr (Ho & Hl & Hz) Hnum. unfold vr_message_dump_object. rewrite Hr. cbn [negb].
  rewrite (u32_small (dump_buf_len d - dump_offset d)) by lia.
  destruct (sandesh_proto_encode _ t (Some o)) as [n bytes] eqn:E. destruct (n <? 0) eqn:Hn.
  - unfold dump_ok. cbn. split_and!; try done; lia.
  - apply Z.ltb_ge in Hn. destruct (proto_encode_fits _ _ _ _ _ E Hn) as [Hf Hb].
    pose proof (proto_encode_pos _ _ _ _ _ E Hn). unfold dump_ok. cbn.
    rewrite !u32_small by lia. rewrite zlen_app. split_and!; try done; lia.
Qed.

(** A dump stays in its page and says when it is cut short.  Writing objects to a
    dumper until one of them does not fit leaves in the page, after what was there, the
    encodings of the longest prefix of the objects that fits; the page is never
    overrun; the counter grows by the number of objects written, and the incomplete
    bit is set exactly when some object was left out. *)
Theorem message_dump_prefix h object_type objs d :
  ready h = true -> dump_ok d -> 0 <= dump_num_dumped d ->
  dump_num_dumped d + Z.of_nat (length objs) < VR_MESSAGE_DUMP_INCOMPLETE ->
  let d' := dump_objects h object_type objs d in
  let '(k, bytes) := fitting object_type objs (dump_buf_len d - dump_offset d) in
  dump_ok d' /\ dump_buf_len d' = dump_buf_len d /\ dump_data d' = dump_data d ++ bytes /\
  dump_num_dumped d' =
    (if k =? Z.of_nat (length objs) then dump_num_dumped d + k
     else Z.lor (dump_num_dumped d + k) VR_MESSAGE_DUMP_INCOMPLETE).
Proof.
  revert d. induction objs as [|o objs IH]; intros d Hr Hd H0 Hn; cbn [dump_objects fitting].
  - cbn. rewrite app_nil_r, Z.add_0_r. by split_and!.
  - pose proof (dump_object_spec h d object_type o Hr Hd) as Hs. unfold VR_MESSAGE_DUMP_INCOMPLETE in *. cbn [length] in *.
    specialize (Hs ltac:(lia)).
    destruct (sandesh_proto_encode _ object_type (Some o)) as [n bytes].
    destruct (vr_message_dump_object h d object_type o) as [ret d1]. destruct Hs as (-> & Hl1 & Hd1 & Hs).
    destruct (n <? 0) eqn:En; [apply Z.ltb_lt in En|apply Z.ltb_ge in En].
    + rewrite (proj2 (Z.leb_le _ _)) by lia. destruct Hs as [Hdt Hnd]. rewrite app_nil_r.
      rewrite (proj2 (Z.eqb_neq _ _)) by lia. rewrite Z.add_0_r. by split_and!.
    + destruct Hs as (Hpos & Hoff & Hdt & Hnd). rewrite (proj2 (Z.leb_gt _ _)) by lia.
      specialize (IH d1 Hr Hd1 ltac:(lia) ltac:(lia)). rewrite Hl1, Hoff in IH.
      replace (dump_buf_len d - (dump_offset d + n)) with (dump_buf_len d - dump_offset d - n) in IH by lia.
      destruct (fitting object_type objs _) as [k rest]. destruct IH as (I1 & I2 & I3 & I4).
      split_and!; [done|congruence|by rewrite I3, Hdt, app_assoc|]. rewrite I4, Hnd.
      rewrite Nat2Z.inj_succ, <- Z.add_1_r.
      replace (k + 1 =? Z.of_nat (length objs) + 1) with (k =? Z.of_nat (length objs))
        by (apply eq_true_iff_eq; rewrite !Z.eqb_eq; lia).
      replace (dump_num_dumped d + 1 + k) with (dump_num_dumped d + (k + 1)) by lia. done.
Qed.

End laws.

End message.
Arguments vr_message_dumper : clear implicits.

(** ** A small protocol

    Objects are integers; a code takes two bytes and an object three. *)

Definition toy_bytes (x : sobj Z) : list Z :=
  match x with SResponse code => [1; code] | SObject t o => [2; t; o] end.

#[local] Instance toy : Sandesh Z := {
  sandesh_encode x len := if zlen (toy_bytes x) <=? len then (zlen (toy_bytes x), 0, toy_bytes x) else (0, 22, []);
  obj_len _ := 2;
  obj_get_size _ _ := 3
}.

#[local] Instance toy_laws : SandeshLaws Z.
Proof.
  split.
  - intros x len off bytes. cbn. destruct (zlen (toy_bytes x) <=? len) eqn:E; [|done]. apply Z.leb_le in E.
    intros [= <- <-]. split; [|done]. unfold zlen in *; destruct x; cbn in *; lia.
  - intros code len Hl. cbn in *. rewrite (proj2 (Z.leb_le _ _)) by done. eauto.
  - cbn. lia.
  - cbn. lia.
Qed.

Definition toy_handler (oracle : list bool) : vr_message_handler :=
  mk_handler (Some 1) (Some 1) vr_queue_init ∅ ∅ (mk_mem 1 ∅ oracle) false.

Lemma toy_contents : contents (toy_handler []) [].
Proof. split; [apply mem0_ok|]. exists []. split; [split; [constructor|done]|constructor]. Qed.

(** An object of three bytes does not fit in the two that are set aside for it: the
    agent gets the code -1. *)
Lemma message_response_once_witness :
  exists r h' buf data, vr_message_response 2 VR_ROUTE_OBJECT_ID (Some 9) 0 (toy_handler []) = Some (r, h') /\
    contents h' ([] ++ [mk_message (Some buf) data (zlen data)]) /\ r = -1 /\ data = [1; -1].
Proof.
  destruct (message_response_once VR_ROUTE_OBJECT_ID (Some 9) 0 (toy_handler []) [] toy_contents eq_refl eq_refl)
    as (r & h' & buf & data & Hr & Hc & Hd).
  exists r, h', buf, data. split; [exact Hr|]. split; [exact Hc|]. vm_compute in Hd. exact Hd.
Defined.

(** Three objects for a page of seven bytes. *)
Lemma message_dump_prefix_witness :
  let d := mk_dumper 1 0 0 0 2 [] 7 0 in
  let d' := dump_objects (toy_handler []) VR_VXLAN_OBJECT_ID [5; 6; 7] d in
  dump_ok d' /\ dump_buf_len d' = 7 /\ dump_data d' = [2; 11; 5; 2; 11; 6] /\
  dump_num_dumped d' = VR_MESSAGE_DUMP_INCOMPLETE + 2.
Proof.
  pose proof (message_dump_prefix (toy_handler []) VR_VXLAN_OBJECT_ID [5; 6; 7] (mk_dumper 1 0 0 0 2 [] 7 0)) as Hp.
  cbn zeta in Hp |- *.
  replace (fitting VR_VXLAN_OBJECT_ID [5; 6; 7] _) with (2, [2; 11; 5; 2; 11; 6]) in Hp by reflexivity.
  apply Hp; [reflexivity|repeat split; cbn; lia|cbn; lia|reflexivity].
Defined.

(** The buffer of a response is leaked when there is no memory for the queue
    element: [vr_message_response] returns the error of [vr_message_queue_response]
    without freeing the buffer it took. *)
Theorem message_response_leaks_buffer :
  match vr_message_response 2 VR_NULL_OBJECT_ID (None : option Z) 0 (toy_handler [true; false]) with
  | Some (ret, h) => ret = - ENOMEM /\ vr_response_queue_empty h = true /\ m_live (vm_mem h) = {[1 := 2]}
  | None => False
  end.
Proof. vm_compute. auto. Qed.

End Message.
