(* ===== verification/Btable.v ===== *)
(** * Big tables ([dp-core/vr_btable.c], [include/vr_btable.h])

    A big table is an array of fixed-size entries over several separately
    allocated partitions.  [vr_btable] is the C structure; [vb_self] is the
    block that holds the structure itself, [vb_mem] the block of each partition.
    The theorems say that [vr_btable_get] of a table that [vr_btable_alloc]
    returned stays inside the partitions and never overlaps two entries, which
    is what lets the other components treat a table as a list. *)

From S2P Require Import Prelude.

Module Btable.

Definition VB_FLAG_MEMORY_ATTACHED : Z := 1.
Definition VR_SINGLE_ALLOC_LIMIT : Z := 4 * 1024 * 1024.

Record vr_btable_partition := mk_part { vb_offset : Z; vb_mem_size : Z }.

Record vr_btable := mk_btable {
  vb_self : Z;
  vb_entries : Z;
  vb_esize : Z;
  vb_partitions : Z;
  vb_flags : Z;
  vb_alloc_limit : Z;
  vb_mem : list Z;
  vb_table_info : list vr_btable_partition
}.

Definition vr_btable_get_partition (table : vr_btable) (partition : Z) : option vr_btable_partition :=
  if vb_partitions table <=? partition then None else zget (vb_table_info table) partition.

(** An address is a block and an offset into it. *)
Fixpoint get_address_loop (n : nat) (table : vr_btable) (i offset : Z) : option (Z * Z) :=
  match n with
  | O => None
  | S n' =>
      match vr_btable_get_partition table i with
      | None => None
      | Some partition =>
          if (vb_offset partition <=? offset) &&
             (offset <? u32 (vb_offset partition + vb_mem_size partition))
          then
            match zget (vb_mem table) i with
            | Some base => Some (base, u32 (offset - vb_offset partition))
            | None => None
            end
          else get_address_loop n' table (i + 1) offset
      end
  end.

Definition vr_btable_get_address (table : vr_btable) (offset : Z) : option (Z * Z) :=
  get_address_loop (Z.to_nat (vb_partitions table)) table 0 offset.

Definition vr_btable_free (table : option vr_btable) (m : mem) : mem :=
  match table with
  | None => m
  | Some table =>
      let m :=
        if Z.land (vb_flags table) VB_FLAG_MEMORY_ATTACHED =? 0
        then m_frees (take (Z.to_nat (vb_partitions table)) (vb_mem table)) m
        else m in
      m_free (vb_self table) m
  end.

Definition add_part (table : vr_btable) (blk size offset : Z) : vr_btable :=
  mk_btable (vb_self table) (vb_entries table) (vb_esize table)
    (u16 (vb_partitions table + 1)) (vb_flags table) (vb_alloc_limit table)
    (vb_mem table ++ [blk]) (vb_table_info table ++ [mk_part offset size]).

(** The loop over the full partitions; [None] is the jump to [exit_alloc]. *)
Fixpoint alloc_parts (n : nat) (offset : Z) (table : vr_btable) (m : mem)
  : vr_btable * option Z * mem :=
  match n with
  | O => (table, Some offset, m)
  | S n' =>
      match m_alloc VR_SINGLE_ALLOC_LIMIT m with
      | (None, m) => (table, None, m)
      | (Some blk, m) =>
          alloc_parts n' (u32 (offset + VR_SINGLE_ALLOC_LIMIT))
            (add_part table blk VR_SINGLE_ALLOC_LIMIT offset) m
      end
  end.

(** [sizeof(struct vr_btable)], [sizeof(void * )] and
    [sizeof(struct vr_btable_partition)] on a 64-bit host. *)
Definition btable_alloc_size (parts : Z) : Z := u32 (32 + parts * 8 + parts * 8).

Definition vr_btable_alloc (num_entries entry_size : Z) (m : mem) : option vr_btable * mem :=
  (* the product is formed in 32 bits before it is widened *)
  let total_mem := u32 (num_entries * entry_size) in
  let num_parts := total_mem / VR_SINGLE_ALLOC_LIMIT in
  let remainder := total_mem mod VR_SINGLE_ALLOC_LIMIT in
  let total_parts := if remainder =? 0 then num_parts else num_parts + 1 in
  if negb (num_parts =? 0) && negb (VR_SINGLE_ALLOC_LIMIT mod entry_size =? 0) then (None, m)
  else if total_parts =? 0 then (None, m)
  else
    match m_alloc (btable_alloc_size total_parts) m with
    | (None, m) => (None, m)
    | (Some self, m) =>
        let table := mk_btable self 0 0 0 0 VR_SINGLE_ALLOC_LIMIT [] [] in
        match alloc_parts (Z.to_nat num_parts) 0 table m with
        | (table, None, m) => (None, vr_btable_free (Some table) m)
        | (table, Some offset, m) =>
            let finish table m :=
              (Some (mk_btable (vb_self table) num_entries (u16 entry_size) (vb_partitions table)
                       (vb_flags table) (vb_alloc_limit table) (vb_mem table)
                       (vb_table_info table)), m) in
            if remainder =? 0 then finish table m
            else
              match m_alloc remainder m with
              | (None, m) => (None, vr_btable_free (Some table) m)
              | (Some blk, m) => finish (add_part table blk remainder offset) m
              end
        end
    end.

(** The loop of [vr_btable_attach] over the vectors ([struct iovec]: a block and
    its length).  [None] is the jump to [error], with the table as it is then. *)
Fixpoint attach_parts (iov : list (Z * Z)) (i n offset total : Z) (table : vr_btable)
  : vr_btable * option Z :=
  match iov with
  | [] => (table, Some total)
  | (base, len) :: iov' =>
      let table := mk_btable (vb_self table) (vb_entries table) (vb_esize table)
                     (vb_partitions table) (vb_flags table) (vb_alloc_limit table)
                     (vb_mem table ++ [base]) (vb_table_info table) in
      if negb (len =? vb_alloc_limit table) && negb (i =? n - 1) then (table, None)
      else
        let table := mk_btable (vb_self table) (vb_entries table) (vb_esize table)
                       (vb_partitions table) (vb_flags table) (vb_alloc_limit table)
                       (vb_mem table) (vb_table_info table ++ [mk_part offset (u32 len)]) in
        attach_parts iov' (i + 1) n (u32 (offset + len)) (u32 (total + len)) table
  end.

Definition vr_btable_attach (iov : list (Z * Z)) (esize : Z) (m : mem) : option vr_btable * mem :=
  match iov with
  | [] => (None, m)
  | (_, len0) :: _ =>
      if negb (len0 mod esize =? 0) then (None, m)
      else
        let n := zlen iov in
        match m_alloc (btable_alloc_size n) m with
        | (None, m) => (None, m)
        | (Some self, m) =>
            let table := mk_btable self 0 esize (u16 n) 0 (u32 len0) [] [] in
            match attach_parts iov 0 n 0 0 table with
            | (table, None) => (None, vr_btable_free (Some table) m)
            | (table, Some total) =>
                if negb (total mod esize =? 0) then (None, vr_btable_free (Some table) m)
                else (Some (mk_btable self (total / esize) esize (vb_partitions table)
                              (Z.lor (vb_flags table) VB_FLAG_MEMORY_ATTACHED)
                              (vb_alloc_limit table) (vb_mem table) (vb_table_info table)), m)
            end
        end
  end.

Definition vr_btable_size (table : vr_btable) : Z := u32 (vb_entries table * vb_esize table).

Definition vr_btable_get (table : vr_btable) (entry : Z) : option (Z * Z) :=
  if vb_entries table <=? entry then None
  else
    let t_index := u32 (entry * vb_esize table) / vb_alloc_limit table in
    let t_offset := u32 (entry * vb_esize table) mod vb_alloc_limit table in
    if vb_partitions table <=? t_index then None
    else match zget (vb_mem table) t_index with
         | Some base => Some (base, t_offset)
         | None => None
         end.

(** ** The layout of an allocated table *)

Lemma m_frees_lookup l m b :
  m_live (m_frees l m) !! b = if decide (b ∈ l) then None else m_live m !! b.
Proof.
  induction l as [|c l IH]; cbn.
  { case_decide as H; [by apply not_elem_of_nil in H|done]. }
  change (foldr m_free m l) with (m_frees l m).
  destruct (decide (b = c)) as [->|].
  - rewrite lookup_delete_eq, decide_True; [done|]. apply elem_of_cons. by left.
  - rewrite lookup_delete_ne, IH by done.
    repeat case_decide; rewrite ?elem_of_cons in *; naive_solver.
Qed.

(** [full_parts m0 k t m]: [t] was started with the memory [m0] and has [k] full
    partitions so far; their blocks are the [k] blocks after the one that holds
    [t]. *)
Record full_parts (m0 : mem) (hdr k : Z) (t : vr_btable) (m : mem) : Prop := {
  fp_self : vb_self t = m_next m0;
  fp_mem : vb_mem t = seqZ (m_next m0 + 1) k;
  fp_info : vb_table_info t =
            (fun i => mk_part (i * VR_SINGLE_ALLOC_LIMIT) VR_SINGLE_ALLOC_LIMIT) <$> seqZ 0 k;
  fp_parts : vb_partitions t = k;
  fp_flags : vb_flags t = 0;
  fp_limit : vb_alloc_limit t = VR_SINGLE_ALLOC_LIMIT;
  fp_next : m_next m = m_next m0 + 1 + k;
  fp_ok : mem_ok m;
  fp_live : forall b, m_live m !! b =
      if decide (b < m_next m0) then m_live m0 !! b
      else if decide (b = m_next m0) then Some hdr
      else if decide (b <= m_next m0 + k) then Some VR_SINGLE_ALLOC_LIMIT else None
}.

Lemma full_parts_add m0 hdr k t m blk m' :
  0 <= k < 1024 -> full_parts m0 hdr k t m ->
  m_alloc VR_SINGLE_ALLOC_LIMIT m = (Some blk, m') ->
  full_parts m0 hdr (k + 1)
    (add_part t blk VR_SINGLE_ALLOC_LIMIT (k * VR_SINGLE_ALLOC_LIMIT)) m'.
Proof.
  intros Hk [] Ha. apply m_alloc_spec in Ha as (Hok & -> & Hn & Hf & Hl); [|done].
  split; cbn [add_part vb_self vb_mem vb_table_info vb_partitions vb_flags vb_alloc_limit]; try done.
  - rewrite fp_mem0, seqZ_snoc by lia. f_equal. f_equal. lia.
  - by rewrite fp_info0, seqZ_snoc, fmap_app by lia.
  - rewrite fp_parts0. apply u16_small. lia.
  - lia.
  - intros b. rewrite Hl. destruct (decide (b = m_next m)) as [->|].
    + rewrite lookup_insert_eq. repeat case_decide; lia || done.
    + rewrite lookup_insert_ne, fp_live0 by done. repeat case_decide; lia || done.
Qed.

Lemma m_alloc_None_full m0 hdr k t m size m' :
  full_parts m0 hdr k t m -> m_alloc size m = (None, m') -> full_parts m0 hdr k t m'.
Proof.
  intros [] Ha. apply m_alloc_spec in Ha as (Hok & Hl & Hn); [|done].
  split; rewrite ?Hl, ?Hn; done.
Qed.

Lemma alloc_parts_spec n : forall m0 hdr k t m,
  0 <= k -> k + Z.of_nat n <= 1024 -> full_parts m0 hdr k t m ->
  match alloc_parts n (u32 (k * VR_SINGLE_ALLOC_LIMIT)) t m with
  | (t', Some off, m') =>
      full_parts m0 hdr (k + Z.of_nat n) t' m' /\
      off = u32 ((k + Z.of_nat n) * VR_SINGLE_ALLOC_LIMIT)
  | (t', None, m') => exists k', full_parts m0 hdr k' t' m'
  end.
Proof.
  induction n as [|n IH]; intros m0 hdr k t m Hk Hn Hf; cbn [alloc_parts].
  { rewrite Z.add_0_r. done. }
  destruct (m_alloc VR_SINGLE_ALLOC_LIMIT m) as [[blk|] m'] eqn:Ha.
  - assert (Hadd : u32 (u32 (k * VR_SINGLE_ALLOC_LIMIT) + VR_SINGLE_ALLOC_LIMIT) =
                   u32 ((k + 1) * VR_SINGLE_ALLOC_LIMIT)).
    { unfold u32. rewrite Zplus_mod_idemp_l. f_equal. lia. }
    rewrite Hadd. rewrite (u32_small (k * _)) by (unfold VR_SINGLE_ALLOC_LIMIT; lia).
    assert (Hk1 : 0 <= k < 1024) by lia.
    specialize (IH m0 hdr (k + 1) _ m' ltac:(lia) ltac:(lia)
                  (full_parts_add _ _ _ _ _ _ _ Hk1 Hf Ha)).
    replace (k + Z.of_nat (S n)) with (k + 1 + Z.of_nat n) by lia. done.
  - eauto using m_alloc_None_full.
Qed.

(** Freeing a partially built table gives back exactly what it took. *)
Lemma free_full_parts m0 hdr k t m :
  mem_ok m0 -> full_parts m0 hdr k t m -> m_live (vr_btable_free (Some t) m) = m_live m0.
Proof.
  intros H0 []. unfold vr_btable_free. rewrite fp_flags0, fp_mem0, fp_parts0, fp_self0.
  change (Z.land 0 VB_FLAG_MEMORY_ATTACHED =? 0) with true. cbn -[m_frees].
  apply map_eq. intros b.
  rewrite take_ge by (rewrite length_seqZ; lia).
  destruct (decide (b = m_next m0)) as [->|].
  - rewrite lookup_delete_eq. destruct (m_live m0 !! m_next m0) eqn:E; [|done].
    assert (m_next m0 < m_next m0) by (apply H0; eauto). lia.
  - rewrite lookup_delete_ne, m_frees_lookup, fp_live0 by done.
    repeat case_decide; rewrite ?elem_of_seqZ in *; try lia; try done.
    all: destruct (m_live m0 !! b) eqn:E; [|done]; exfalso;
      assert (b < m_next m0) by (apply H0; eauto); lia.
Qed.

(** What a table of [n] entries of [e] bytes looks like in memory: [blk i] is the
    block of partition [i] and has room for all entries that fall into it. *)
Definition part_size (n e i : Z) : Z :=
  if i <? n * e / VR_SINGLE_ALLOC_LIMIT then VR_SINGLE_ALLOC_LIMIT
  else n * e mod VR_SINGLE_ALLOC_LIMIT.

Definition part_count (n e : Z) : Z :=
  n * e / VR_SINGLE_ALLOC_LIMIT + (if n * e mod VR_SINGLE_ALLOC_LIMIT =? 0 then 0 else 1).

Record layout (n e : Z) (base : Z) (t : vr_btable) (live : gmap Z Z) : Prop := {
  ly_entries : vb_entries t = n;
  ly_esize : vb_esize t = e;
  ly_parts : vb_partitions t = part_count n e;
  ly_limit : vb_alloc_limit t = VR_SINGLE_ALLOC_LIMIT;
  ly_mem : vb_mem t = seqZ (base + 1) (part_count n e);
  ly_info : vb_table_info t =
     (fun i => mk_part (i * VR_SINGLE_ALLOC_LIMIT) (part_size n e i)) <$> seqZ 0 (part_count n e);
  ly_live : forall i, 0 <= i < part_count n e -> live !! (base + 1 + i) = Some (part_size n e i);
  ly_align : n * e / VR_SINGLE_ALLOC_LIMIT <> 0 -> VR_SINGLE_ALLOC_LIMIT mod e = 0
}.

Lemma layout_finish n e m0 hdr t m :
  0 <= n -> 0 < e < 65536 -> n * e <= UINT_MAX ->
  (n * e / VR_SINGLE_ALLOC_LIMIT <> 0 -> VR_SINGLE_ALLOC_LIMIT mod e = 0) ->
  n * e mod VR_SINGLE_ALLOC_LIMIT = 0 ->
  full_parts m0 hdr (n * e / VR_SINGLE_ALLOC_LIMIT) t m ->
  layout n e (m_next m0)
    (mk_btable (vb_self t) n (u16 e) (vb_partitions t) (vb_flags t) (vb_alloc_limit t)
       (vb_mem t) (vb_table_info t)) (m_live m).
Proof.
  intros Hn He Ht Hal Hr []. 
  assert (Hc : part_count n e = n * e / VR_SINGLE_ALLOC_LIMIT)
    by (unfold part_count; rewrite Hr; cbn; lia).
  assert (Hs : forall i, i < n * e / VR_SINGLE_ALLOC_LIMIT -> part_size n e i = VR_SINGLE_ALLOC_LIMIT).
  { intros i Hi. unfold part_size. by rewrite (proj2 (Z.ltb_lt _ _) Hi). }
  split; rewrite ?Hc; cbn; try done.
  - apply u16_small. lia.
  - rewrite fp_info0. apply list_fmap_ext. intros j x Hx%list_elem_of_lookup_2%elem_of_seqZ.
    rewrite Hs by lia. done.
  - intros i Hi. rewrite fp_live0, Hs by lia. repeat case_decide; lia || done.
Qed.

Lemma layout_finish_rem n e m0 hdr t m blk m' :
  0 <= n -> 0 < e < 65536 -> n * e <= UINT_MAX ->
  (n * e / VR_SINGLE_ALLOC_LIMIT <> 0 -> VR_SINGLE_ALLOC_LIMIT mod e = 0) ->
  n * e mod VR_SINGLE_ALLOC_LIMIT <> 0 ->
  full_parts m0 hdr (n * e / VR_SINGLE_ALLOC_LIMIT) t m ->
  m_alloc (n * e mod VR_SINGLE_ALLOC_LIMIT) m = (Some blk, m') ->
  let t' := add_part t blk (n * e mod VR_SINGLE_ALLOC_LIMIT)
              (n * e / VR_SINGLE_ALLOC_LIMIT * VR_SINGLE_ALLOC_LIMIT) in
  layout n e (m_next m0)
    (mk_btable (vb_self t') n (u16 e) (vb_partitions t') (vb_flags t') (vb_alloc_limit t')
       (vb_mem t') (vb_table_info t')) (m_live m').
Proof.
  intros Hn He Ht Hal Hr [] Ha. apply m_alloc_spec in Ha as (Hok & -> & Hnx & Hf & Hl); [|done].
  set (q := n * e / VR_SINGLE_ALLOC_LIMIT) in *. set (r := n * e mod VR_SINGLE_ALLOC_LIMIT) in *.
  assert (Hq : 0 <= q <= 1024).
  { subst q. unfold VR_SINGLE_ALLOC_LIMIT.
    split; [apply Z.div_pos; lia|]. apply Z.div_le_upper_bound; lia. }
  assert (Hc : part_count n e = q + 1).
  { unfold part_count. fold q r. by rewrite (proj2 (Z.eqb_neq _ _) Hr). }
  assert (Hs : forall i, part_size n e i = if i <? q then VR_SINGLE_ALLOC_LIMIT else r) by done.
  split; rewrite ?Hc; cbn [add_part vb_self vb_mem vb_table_info vb_partitions vb_flags vb_alloc_limit vb_entries vb_esize]; try done.
  - apply u16_small. lia.
  - rewrite fp_parts0. apply u16_small. lia.
  - rewrite fp_mem0, seqZ_snoc by lia. f_equal. f_equal. lia.
  - rewrite seqZ_snoc, fmap_app, fp_info0 by lia. f_equal.
    + apply list_fmap_ext. intros j x Hx%list_elem_of_lookup_2%elem_of_seqZ.
      by rewrite Hs, (proj2 (Z.ltb_lt x q)) by lia.
    + cbn. by rewrite Hs, Z.ltb_irrefl.
  - intros i Hi. rewrite Hl, Hs. destruct (Z.ltb_spec i q).
    + rewrite lookup_insert_ne, fp_live0 by lia. repeat case_decide; lia || done.
    + replace i with q by lia. rewrite fp_next0. by rewrite lookup_insert_eq.
Qed.

Lemma start_full_parts m hdr self m' :
  mem_ok m -> m_alloc hdr m = (Some self, m') ->
  full_parts m hdr 0 (mk_btable self 0 0 0 0 VR_SINGLE_ALLOC_LIMIT [] []) m'.
Proof.
  intros Hok Ha. apply m_alloc_spec in Ha as (Hok' & -> & Hn & Hf & Hl); [|done].
  split; cbn; try done; [lia|]. intros b. rewrite Hl.
  destruct (decide (b = m_next m)) as [->|].
  - rewrite lookup_insert_eq. repeat case_decide; lia || done.
  - rewrite lookup_insert_ne by done. repeat case_decide; try lia; [done|].
    destruct (m_live m !! b) eqn:E; [|done].
    assert (b < m_next m) by (apply Hok; eauto). lia.
Qed.

(** The outcome of [vr_btable_alloc], when the size of the table fits 32 bits. *)
Lemma alloc_outcome n e m :
  mem_ok m -> 0 <= n -> 0 < e < 65536 -> n * e <= UINT_MAX ->
  match vr_btable_alloc n e m with
  | (Some t, m') => layout n e (m_next m) t (m_live m')
  | (None, m') => m_live m' = m_live m
  end.
Proof.
  intros Hok Hn He Ht. unfold vr_btable_alloc.
  rewrite (u32_small (n * e)) by nia.
  set (q := n * e / VR_SINGLE_ALLOC_LIMIT). set (r := n * e mod VR_SINGLE_ALLOC_LIMIT).
  assert (Hq : 0 <= q <= 1024).
  { subst q. unfold VR_SINGLE_ALLOC_LIMIT.
    split; [apply Z.div_pos; nia|]. apply Z.div_le_upper_bound; lia. }
  destruct (negb (q =? 0) && negb (VR_SINGLE_ALLOC_LIMIT mod e =? 0)) eqn:Hal; [done|].
  destruct ((if r =? 0 then q else q + 1) =? 0); [done|].
  destruct (m_alloc _ m) as [[self|] m1] eqn:Ha; [|by apply m_alloc_spec in Ha as (_ & ? & _)].
  pose proof (start_full_parts _ _ _ _ Hok Ha) as Hs.
  pose proof (alloc_parts_spec (Z.to_nat q) _ _ 0 _ _ ltac:(lia) ltac:(lia) Hs) as Hp.
  change (u32 (0 * VR_SINGLE_ALLOC_LIMIT)) with 0 in Hp. rewrite Z.add_0_l, Z2Nat.id in Hp by lia.
  destruct (alloc_parts _ 0 _ m1) as [[t [off|]] m2];
    [|destruct Hp as [k Hp]; by eapply free_full_parts].
  destruct Hp as [Hp ->].
  assert (Halign : q <> 0 -> VR_SINGLE_ALLOC_LIMIT mod e = 0).
  { intros Hq0. rewrite (proj2 (Z.eqb_neq _ _) Hq0) in Hal. cbn in Hal.
    apply negb_false_iff, Z.eqb_eq in Hal. done. }
  destruct (Z.eqb_spec r 0) as [Hr|Hr].
  - by eapply layout_finish.
  - rewrite u32_small.
    2:{ pose proof (Z.mul_div_le (n * e) VR_SINGLE_ALLOC_LIMIT).
        unfold VR_SINGLE_ALLOC_LIMIT in *. nia. }
    destruct (m_alloc r m2) as [[blk|] m3] eqn:Hb.
    + by eapply layout_finish_rem.
    + eapply free_full_parts; [done|]. by eapply m_alloc_None_full.
Qed.

(** The address of entry [i] is byte [i * e] of the concatenated partitions, and
    the whole entry lies in one of them. *)
Lemma layout_get n e base t live i :
  layout n e base t live -> 0 < e < 65536 -> n * e <= UINT_MAX -> 0 <= i < n ->
  let k := i * e / VR_SINGLE_ALLOC_LIMIT in
  let off := i * e mod VR_SINGLE_ALLOC_LIMIT in
  vr_btable_get t i = Some (base + 1 + k, off) /\
  0 <= k < part_count n e /\ 0 <= off /\ off + e <= part_size n e k.
Proof.
  intros [] He Ht Hi k off. 
  set (L := VR_SINGLE_ALLOC_LIMIT) in *. assert (HL : L = 4194304) by done.
  assert (Hie : i * e + e <= n * e) by nia.
  pose proof (Z.div_mod (i * e) L ltac:(lia)) as Hdm. pose proof (Z.mod_pos_bound (i * e) L ltac:(lia)).
  pose proof (Z.div_mod (n * e) L ltac:(lia)) as Hdn. pose proof (Z.mod_pos_bound (n * e) L ltac:(lia)).
  fold k off in Hdm, H. set (q := n * e / L) in *. set (r := n * e mod L) in *.
  assert (Hk0 : 0 <= k) by (apply Z.div_pos; nia).
  assert (Hkq : k <= q) by nia.
  assert (Hkq' : k = q -> off + e <= r) by nia.
  assert (Hcount : part_count n e = q + if r =? 0 then 0 else 1) by done.
  assert (Hk : 0 <= k < part_count n e).
  { rewrite Hcount. destruct (Z.eqb_spec r 0); nia. }
  split_and!; try lia.
  - unfold vr_btable_get. rewrite ly_entries0, ly_esize0, ly_limit0, ly_parts0, ly_mem0. fold L.
    rewrite (proj2 (Z.leb_gt n i)), u32_small by nia. fold k off.
    rewrite (proj2 (Z.leb_gt _ k)), zget_seqZ by lia. done.
  - unfold part_size. fold L q r. destruct (Z.ltb_spec k q) as [Hlt|]; [|apply Hkq'; lia].
    assert (Hmod : L mod e = 0) by (apply ly_align0; lia).
    assert (Hoff : off mod e = 0).
    { replace off with (i * e - L / e * k * e).
      - rewrite <- Z.mul_sub_distr_r. apply Z.mod_mul. lia.
      - pose proof (Z.div_mod L e). nia. }
    pose proof (Z.div_mod L e ltac:(lia)) as H1. pose proof (Z.div_mod off e ltac:(lia)) as H2.
    rewrite Hmod in H1. rewrite Hoff in H2.
    assert (Hc : off / e < L / e) by (apply (Z.mul_lt_mono_pos_l e); lia).
    pose proof (Z.mul_le_mono_nonneg_l (off / e + 1) (L / e) e ltac:(lia) ltac:(lia)). lia.
Qed.

(** Every entry of a table that [vr_btable_alloc] returned is found by
    [vr_btable_get], and all its bytes lie inside one live partition. *)
Theorem get_in_bounds n e m t m' i :
  mem_ok m -> 0 < e < 65536 -> n * e <= UINT_MAX ->
  vr_btable_alloc n e m = (Some t, m') -> 0 <= i < n ->
  exists blk off size, vr_btable_get t i = Some (blk, off) /\
    m_live m' !! blk = Some size /\ 0 <= off /\ off + e <= size.
Proof.
  intros Hok He Ht Ha Hi. pose proof (alloc_outcome n e m Hok ltac:(lia) He Ht) as H.
  rewrite Ha in H. destruct (layout_get _ _ _ _ _ i H He Ht Hi) as (Hg & Hk & Ho & Hs).
  eexists _, _, _. split_and!; [done|by apply (ly_live _ _ _ _ _ H)|done|done].
Qed.

(** Two different entries of an allocated table never share a byte. *)
Theorem get_disjoint n e m t m' i j :
  mem_ok m -> 0 < e < 65536 -> n * e <= UINT_MAX ->
  vr_btable_alloc n e m = (Some t, m') -> 0 <= i < n -> 0 <= j < n -> i <> j ->
  match vr_btable_get t i, vr_btable_get t j with
  | Some (b1, o1), Some (b2, o2) => b1 <> b2 \/ o1 + e <= o2 \/ o2 + e <= o1
  | _, _ => False
  end.
Proof.
  intros Hok He Ht Ha Hi Hj Hij. pose proof (alloc_outcome n e m Hok ltac:(lia) He Ht) as H.
  rewrite Ha in H.
  destruct (layout_get _ _ _ _ _ i H He Ht Hi) as (-> & _).
  destruct (layout_get _ _ _ _ _ j H He Ht Hj) as (-> & _).
  pose proof (Z.div_mod (i * e) VR_SINGLE_ALLOC_LIMIT ltac:(done)).
  pose proof (Z.div_mod (j * e) VR_SINGLE_ALLOC_LIMIT ltac:(done)).
  destruct (decide (i * e / VR_SINGLE_ALLOC_LIMIT = j * e / VR_SINGLE_ALLOC_LIMIT)) as [E|];
    [right|left; lia]. rewrite E in *. nia.
Qed.

Lemma get_address_loop_spec n e base t live k off i j :
  layout n e base t live -> 0 <= n -> 0 < e -> n * e <= UINT_MAX ->
  0 <= k < part_count n e -> 0 <= off < part_size n e k -> 0 <= i <= k -> k < i + Z.of_nat j ->
  get_address_loop j t i (k * VR_SINGLE_ALLOC_LIMIT + off) = Some (base + 1 + k, off).
Proof.
  intros Hly Hn He Ht Hk Hoff. revert i. destruct Hly.
  set (L := VR_SINGLE_ALLOC_LIMIT) in *. assert (HL : L = 4194304) by done.
  pose proof (Z.div_mod (n * e) L ltac:(lia)) as Hdn. pose proof (Z.mod_pos_bound (n * e) L ltac:(lia)).
  assert (Hsum : forall i, 0 <= i < part_count n e -> 0 <= i * L /\ i * L + part_size n e i <= UINT_MAX /\
     (i < k -> part_size n e i = L)).
  { intros i Hi. unfold part_size, part_count in *. fold L in Hi, Hk |- *.
    destruct (Z.ltb_spec i (n * e / L)), (Z.eqb_spec (n * e mod L) 0); nia. }
  induction j as [|j IH]; intros i Hi Hj; [lia|]. cbn [get_address_loop].
  unfold vr_btable_get_partition. rewrite ly_parts0, (proj2 (Z.leb_gt _ i)) by lia.
  rewrite ly_info0, zget_fmap, zget_seqZ by lia. cbn. rewrite Z.add_0_l.
  destruct (Hsum i ltac:(lia)) as (H1 & H2 & H3).
  assert (Hsz : 0 < part_size n e k) by lia.
  destruct (decide (i = k)) as [->|].
  - rewrite (proj2 (Z.leb_le _ _)) by lia. cbn.
    rewrite (u32_small (_ + _)), (proj2 (Z.ltb_lt _ _)) by lia.
    rewrite ly_mem0, zget_seqZ by lia. f_equal. f_equal. rewrite u32_small; lia.
  - destruct (Z.ltb_spec (k * L + off) (u32 (i * L + part_size n e i))) as [Hlt|].
    + exfalso. rewrite H3, u32_small in Hlt by (rewrite ?H3 in H2; nia). nia.
    + rewrite andb_false_r. apply IH; lia.
Qed.

(** [vr_btable_get] and [vr_btable_get_address] agree: the address of an entry
    is the address of its byte offset in the table. *)
Theorem get_address_agrees n e m t m' i :
  mem_ok m -> 0 < e < 65536 -> n * e <= UINT_MAX ->
  vr_btable_alloc n e m = (Some t, m') -> 0 <= i < n ->
  vr_btable_get_address t (i * e) = vr_btable_get t i.
Proof.
  intros Hok He Ht Ha Hi. pose proof (alloc_outcome n e m Hok ltac:(lia) He Ht) as H.
  rewrite Ha in H. destruct (layout_get _ _ _ _ _ i H He Ht Hi) as (Hg & Hk & Ho & Hs).
  rewrite Hg. unfold vr_btable_get_address. rewrite (ly_parts _ _ _ _ _ H).
  rewrite (Z.div_mod (i * e) VR_SINGLE_ALLOC_LIMIT) at 1 by done. rewrite (Z.mul_comm VR_SINGLE_ALLOC_LIMIT).
  eapply get_address_loop_spec; [done|lia..].
Qed.

Lemma free_remainder m0 hdr k t m size blk m' off :
  mem_ok m0 -> 0 <= k <= 1024 -> full_parts m0 hdr k t m -> m_alloc size m = (Some blk, m') ->
  m_live (vr_btable_free (Some (add_part t blk size off)) m') = m_live m0.
Proof.
  intros H0 Hk Hf Ha. rewrite <- (free_full_parts m0 hdr k t m H0 Hf).
  apply m_alloc_spec in Ha as (_ & -> & _ & Hfresh & Hl); [|apply Hf]. destruct Hf.
  unfold vr_btable_free, add_part. cbn [vb_flags vb_self vb_mem vb_partitions].
  rewrite fp_flags0, fp_self0, fp_mem0, fp_parts0.
  change (Z.land 0 VB_FLAG_MEMORY_ATTACHED =? 0) with true. cbn -[m_frees take]. f_equal.
  apply map_eq. intros b. rewrite u16_small by lia.
  rewrite !take_ge by (rewrite ?length_app, length_seqZ; cbn; lia).
  rewrite !m_frees_lookup, Hl. destruct (decide (b = m_next m)) as [->|].
  - rewrite decide_True, Hfresh by (apply elem_of_app; right; by apply list_elem_of_singleton).
    by case_decide.
  - rewrite lookup_insert_ne by done.
    repeat case_decide; try done; rewrite elem_of_app, list_elem_of_singleton in *; naive_solver.
Qed.

(** Allocation never leaks. When [vr_btable_alloc] fails part way it has
    given back every partition; when it succeeds, [vr_btable_free] gives back
    exactly the blocks it took. *)
Theorem alloc_free_no_leak n e m :
  mem_ok m -> 0 <= n -> 0 < e < 65536 -> n * e <= UINT_MAX ->
  match vr_btable_alloc n e m with
  | (Some t, m') => m_live (vr_btable_free (Some t) m') = m_live m
  | (None, m') => m_live m' = m_live m
  end.
Proof.
  intros Hok Hn He Ht. pose proof (alloc_outcome n e m Hok Hn He Ht) as Hout.
  destruct (vr_btable_alloc n e m) as [[t|] m'] eqn:Halloc; [clear Hout|done]. revert Halloc.
  unfold vr_btable_alloc. rewrite (u32_small (n * e)) by nia.
  set (q := n * e / VR_SINGLE_ALLOC_LIMIT). set (r := n * e mod VR_SINGLE_ALLOC_LIMIT).
  assert (Hq : 0 <= q <= 1024).
  { subst q. unfold VR_SINGLE_ALLOC_LIMIT.
    split; [apply Z.div_pos; nia|]. apply Z.div_le_upper_bound; lia. }
  destruct (_ && _); [done|]. destruct ((if r =? 0 then q else q + 1) =? 0); [done|].
  destruct (m_alloc _ m) as [[self|] m1] eqn:Ha; [|done].
  pose proof (start_full_parts _ _ _ _ Hok Ha) as Hs.
  pose proof (alloc_parts_spec (Z.to_nat q) _ _ 0 _ _ ltac:(lia) ltac:(lia) Hs) as Hp.
  change (u32 (0 * VR_SINGLE_ALLOC_LIMIT)) with 0 in Hp. rewrite Z.add_0_l, Z2Nat.id in Hp by lia.
  destruct (alloc_parts _ 0 _ m1) as [[t' [off|]] m2]; [|done]. destruct Hp as [Hp _].
  destruct (Z.eqb_spec r 0).
  - intros [= <- <-]. exact (free_full_parts _ _ _ _ _ Hok Hp).
  - destruct (m_alloc r m2) as [[blk|] m3] eqn:Hb; [|done]. intros [= <- <-].
    exact (free_remainder _ _ _ _ _ _ _ _ off Hok Hq Hp Hb).
Qed.

(** ** Behaviour outside the intended range *)

(** The size of the table is formed in 32 bits.  Asked for [2 ^ 26 + 1] entries
    of 64 bytes, [vr_btable_alloc] succeeds with a single partition of 64 bytes,
    and [vr_btable_get] then gives entry 1 an address just past its end. *)
Theorem alloc_size_wraps :
  exists t m' blk off, vr_btable_alloc (2 ^ 26 + 1) 64 mem0 = (Some t, m') /\
    vr_btable_get t 1 = Some (blk, off) /\ m_live m' !! blk = Some 64 /\ off = 64.
Proof. eexists _, _, _, _. split_and!; [vm_compute; reflexivity..|done]. Qed.

(** A failing [vr_btable_attach] releases memory it does not own.  The flag that
    marks the partitions as attached is set only at the end, so the error path
    hands the caller's blocks to the page allocator: with two vectors whose total
    is not a multiple of the entry size, both blocks are gone afterwards. *)
Theorem attach_error_frees_caller :
  let m := mk_mem 3 (<[1 := 64]> (<[2 := 40]> ∅)) [] in
  let '(t, m') := vr_btable_attach [(1, 64); (2, 40)] 64 m in
  t = None /\ m_live m !! 1 = Some 64 /\ m_live m' !! 1 = None /\ m_live m' !! 2 = None.
Proof. by vm_compute. Qed.

(** ** The theorems at a concrete table: 70000 entries of 64 bytes take two
    partitions. *)

Definition bt_t : vr_btable := default (mk_btable 0 0 0 0 0 0 [] []) (vr_btable_alloc 70000 64 mem0).1.
Definition bt_m : mem := (vr_btable_alloc 70000 64 mem0).2.

Lemma get_in_bounds_witness :
  exists blk off size, vr_btable_get bt_t 69999 = Some (blk, off) /\
    m_live bt_m !! blk = Some size /\ 0 <= off /\ off + 64 <= size.
Proof.
  apply (get_in_bounds 70000 64 mem0 bt_t bt_m 69999); [apply mem0_ok|lia|lia|by vm_compute|lia].
Defined.

Lemma get_disjoint_witness :
  match vr_btable_get bt_t 65535, vr_btable_get bt_t 65536 with
  | Some (b1, o1), Some (b2, o2) => b1 <> b2 \/ o1 + 64 <= o2 \/ o2 + 64 <= o1
  | _, _ => False
  end.
Proof.
  apply (get_disjoint 70000 64 mem0 bt_t bt_m 65535 65536); [apply mem0_ok|lia|lia|by vm_compute|lia..].
Defined.

Lemma get_address_agrees_witness :
  vr_btable_get_address bt_t (65536 * 64) = vr_btable_get bt_t 65536.
Proof.
  apply (get_address_agrees 70000 64 mem0 bt_t bt_m 65536); [apply mem0_ok|lia|lia|by vm_compute|lia].
Defined.

Lemma alloc_free_no_leak_witness :
  match vr_btable_alloc 70000 64 (mk_mem 1 ∅ [true; true; false]) with
  | (Some t, m') => m_live (vr_btable_free (Some t) m') = ∅
  | (None, m') => m_live m' = ∅
  end.
Proof.
  apply (alloc_free_no_leak 70000 64 (mk_mem 1 ∅ [true; true; false])); [|lia..].
  intros b [x Hx]. cbn in Hx. by rewrite lookup_empty in Hx.
Defined.
End Btable.
