(* ===== verification/IndexTable.v ===== *)
(** * Index tables ([dp-core/vr_index_table.c])

    An index table maps an index of up to 32 bits to a pointer through a fixed
    number of strides, each of which resolves some of the index bits.  A slot of
    a stride is NULL, user data (last stride) or the next stride; a stride keeps
    the block it was allocated in.  The abstract view of a table is the function
    [vr_itable_get]: the theorems say how every operation changes it, that
    deletion gives back strides that become empty, and in which order a traversal
    visits the entries. *)

From S2P Require Import Prelude.

Module IndexTable.

Section model.
Context {V : Type}.

Inductive slot :=
| SNull
| SData (v : V)
| SStride (blk : Z) (ptr : list slot).

(** [stride_len] and [stride_shift] are arrays of [stride_cnt] elements. *)
Record vr_itbl := mk_itbl {
  it_self : Z;
  stride_cnt : Z;
  index_len : Z;
  stride_len_blk : Z;
  stride_len : list Z;
  stride_shift_blk : Z;
  stride_shift : list Z;
  it_data : slot
}.

Definition with_data (t : vr_itbl) (d : slot) : vr_itbl :=
  mk_itbl (it_self t) (stride_cnt t) (index_len t) (stride_len_blk t) (stride_len t)
    (stride_shift_blk t) (stride_shift t) d.

(** The two arrays side by side: one (shift, length) pair per stride. *)
Definition strides (t : vr_itbl) : list (Z * Z) := zip (stride_shift t) (stride_len t).

Definition is_null (s : slot) : bool := match s with SNull => true | _ => false end.

(** [(index >> shift) & (len - 1)] *)
Definition stride_id (st : Z * Z) (index : Z) : Z :=
  Z.land (Z.shiftr index st.1) (st.2 - 1).

Definition vr_stride_empty (ptr : list slot) : bool := forallb is_null ptr.

(** *** Lookup *)

Fixpoint get_loop (sts : list (Z * Z)) (index : Z) (ptr : slot) : slot :=
  match sts, ptr with
  | st :: sts', SStride _ l => get_loop sts' index (default SNull (zget l (stride_id st index)))
  | _, _ => ptr
  end.

Definition vr_itable_get (t : option vr_itbl) (index : Z) : slot :=
  match t with
  | None => SNull
  | Some table => get_loop (strides table) index (it_data table)
  end.

(** *** Insertion *)

(** The value of [vr_itable_set]: [None] is [VR_ITABLE_ERR_PTR]. *)
Definition it_result : Type := option slot.

Definition new_stride (blk len : Z) : slot := SStride blk (replicate (Z.to_nat len) SNull).

(** The child of a slot on the way down: the one there, or a fresh stride. *)
Definition descend_child (st' : Z * Z) (c : slot) (m : mem) : option slot * mem :=
  match c with
  | SNull =>
      match m_alloc (st'.2 * 8) m with
      | (Some b, m) => (Some (new_stride b st'.2), m)
      | (None, m) => (None, m)
      end
  | c => (Some c, m)
  end.

Fixpoint set_loop (sts : list (Z * Z)) (index : Z) (data : slot) (ptr : slot) (m : mem)
  : it_result * slot * mem :=
  match sts, ptr with
  | [st], SStride blk l =>
      let id := stride_id st index in
      (Some (default SNull (zget l id)), SStride blk (zset l id data), m)
  | st :: ((st' :: _) as sts'), SStride blk l =>
      let id := stride_id st index in
      let '(child, m) := descend_child st' (default SNull (zget l id)) m in
      match child with
      | None => (None, ptr, m)
      | Some c =>
          let '(r, c', m) := set_loop sts' index data c m in
          (r, SStride blk (zset l id c'), m)
      end
  | _, _ => (None, ptr, m)
  end.

Definition vr_itable_set (t : option vr_itbl) (index : Z) (data : slot) (m : mem)
  : it_result * option vr_itbl * mem :=
  match t with
  | None => (None, None, m)
  | Some table =>
      let '(root, m) :=
        match it_data table with
        | SNull =>
            let len0 := default 0 (zget (stride_len table) 0) in
            match m_alloc (len0 * 8) m with
            | (Some b, m) => (Some (new_stride b len0), m)
            | (None, m) => (None, m)
            end
        | d => (Some d, m)
        end in
      match root with
      | None => (None, t, m)
      | Some d =>
          let '(r, d', m) := set_loop (strides table) index data d m in
          (r, Some (with_data table d'), m)
      end
  end.

(** *** Deletion *)

(** [__vr_itable_del]: the old slot, the stride afterwards, whether the stride was
    given back (the C function's return value 1), and the memory. *)
Fixpoint __vr_itable_del (sts : list (Z * Z)) (index : Z) (ptr : slot) (m : mem)
  : slot * slot * bool * mem :=
  match sts, ptr with
  | [st], SStride blk l =>
      let id := stride_id st index in
      let old := default SNull (zget l id) in
      if is_null old then (old, ptr, false, m)
      else
        let l := zset l id SNull in
        if vr_stride_empty l then (old, SNull, true, m_free blk m)
        else (old, SStride blk l, false, m)
  | st :: sts', SStride blk l =>
      let id := stride_id st index in
      let child := default SNull (zget l id) in
      if is_null child then (SNull, ptr, false, m)
      else
        let '(old, child', freed, m) := __vr_itable_del sts' index child m in
        if freed then
          let l := zset l id SNull in
          if vr_stride_empty l then (old, SNull, true, m_free blk m)
          else (old, SStride blk l, false, m)
        else (old, SStride blk (zset l id child'), false, m)
  | _, _ => (SNull, ptr, false, m)
  end.

Definition vr_itable_del (t : option vr_itbl) (index : Z) (m : mem)
  : slot * option vr_itbl * mem :=
  match t with
  | None => (SNull, None, m)
  | Some table =>
      let '(old, d, _, m) := __vr_itable_del (strides table) index (it_data table) m in
      (old, Some (with_data table d), m)
  end.

(** *** Traversal *)

Section trav.
Context {S : Type} (func : Z -> V -> S -> Z * S).

(** The loop over the slots of a stride, from slot [i] on; [visit] handles a slot
    that is not NULL, given the result so far.  A result that is not positive ends
    the walk. *)
Fixpoint dump_slots (visit : Z -> slot -> Z -> S -> Z * S) (i : Z) (l : list slot) (res : Z) (s : S)
  : Z * S :=
  match l with
  | [] => (res, s)
  | c :: l' =>
      if is_null c then dump_slots visit (i + 1) l' res s
      else
        let '(res, s) := visit i c res s in
        if res <=? 0 then (res, s) else dump_slots visit (i + 1) l' res s
  end.

Fixpoint __vr_itable_dump (sts : list (Z * Z)) (ptr : slot) (index marker : Z) (s : S) : Z * S :=
  match sts, ptr with
  | [st], SStride _ l =>
      dump_slots (fun j c res s =>
        let tmp := Z.lor index (u32 (Z.shiftl j st.1)) in
        match c with
        | SData v => if marker <=? tmp then func tmp v s else (res, s)
        | _ => (res, s)
        end) 0 l 1 s
  | st :: sts', SStride _ l =>
      dump_slots (fun i c _ s =>
        __vr_itable_dump sts' c (Z.lor index (u32 (Z.shiftl i st.1))) marker s) 0 l 1 s
  | _, _ => (1, s)
  end.

Definition vr_itable_trav (t : vr_itbl) (marker : Z) (s : S) : Z * S :=
  __vr_itable_dump (strides t) (it_data t) 0 marker s.
End trav.

(** *** Destruction and creation *)

Section destroy.
Context {S : Type} (func : Z -> V -> S -> S).

Fixpoint exit_slots (visit : Z -> slot -> S * mem -> S * mem) (i : Z) (l : list slot) (sm : S * mem)
  : S * mem :=
  match l with
  | [] => sm
  | c :: l' => exit_slots visit (i + 1) l' (if is_null c then sm else visit i c sm)
  end.

(** [top] is the test [cnt == 0].  A stride between the first and the last is
    dropped by its parent, which clears the slot and then frees NULL. *)
Fixpoint __vr_itable_exit (sts : list (Z * Z)) (top : bool) (ptr : slot) (index : Z) (sm : S * mem)
  : S * mem :=
  match sts, ptr with
  | [st], SStride blk l =>
      let '(s, m) :=
        exit_slots (fun j c sm =>
          match c with
          | SData v => (func (Z.lor index (u32 (Z.shiftl j st.1))) v sm.1, sm.2)
          | _ => sm
          end) 0 l sm in
      (s, m_free blk m)
  | st :: sts', SStride blk l =>
      let '(s, m) :=
        exit_slots (fun i c sm =>
          __vr_itable_exit sts' false c (Z.lor index (u32 (Z.shiftl i st.1))) sm) 0 l sm in
      if top then (s, m_free blk m) else (s, m)
  | _, _ => sm
  end.

Definition vr_itable_delete (t : option vr_itbl) (s : S) (m : mem) : S * mem :=
  match t with
  | None => (s, m)
  | Some table =>
      let '(s, m) := __vr_itable_exit (strides table) true (it_data table) 0 (s, m) in
      (s, m_free (it_self table) (m_free (stride_shift_blk table) (m_free (stride_len_blk table) m)))
  end.
End destroy.

(** The loop of [vr_itable_create] over the variable arguments (the number of bits
    of each stride): the lengths, the shifts and the bits consumed. *)
Fixpoint create_strides (page_shift index_len tot : Z) (vargs : list Z)
  : option (list Z * list Z * Z) :=
  match vargs with
  | [] => Some ([], [], tot)
  | b :: vargs' =>
      if page_shift <? b then None
      else
        let tot := u32 (tot + b) in
        if index_len <? tot then None
        else
          match create_strides page_shift index_len tot vargs' with
          | Some (lens, shifts, tot') => Some (Z.shiftl 1 b :: lens, index_len - tot :: shifts, tot')
          | None => None
          end
  end.

(** [page_shift] is [get_page_shift()] of the platform, [vargs] the [stride_cnt]
    variable arguments.  [sizeof(struct vr_itbl)] is 32. *)
Definition vr_itable_create (page_shift index_len : Z) (vargs : list Z) (m : mem)
  : option vr_itbl * mem :=
  let cnt := zlen vargs in
  if 32 <? index_len then (None, m)
  else if cnt <? 2 then (None, m)
  else
    match m_alloc 32 m with
    | (None, m) => (None, m)
    | (Some self, m) =>
        match m_alloc (cnt * 4) m with
        | (None, m) => (None, m_free self m)
        | (Some bshift, m) =>
            match m_alloc (cnt * 4) m with
            | (None, m) => (None, m_free self (m_free bshift m))
            | (Some blen, m) =>
                let fail := (None, m_free self (m_free blen (m_free bshift m))) in
                match create_strides page_shift index_len 0 vargs with
                | None => fail
                | Some (lens, shifts, tot) =>
                    if negb (tot =? index_len) then fail
                    else (Some (mk_itbl self cnt index_len blen lens bshift shifts SNull), m)
                end
            end
        end
    end.
End model.

Arguments slot : clear implicits.
Arguments vr_itbl : clear implicits.
Arguments it_result : clear implicits.

(** ** Well-formed tables

    The strides resolve the index from its top bit down to bit 0, and every stride
    array has the length its level says. *)

Inductive strides_ok : Z -> list (Z * Z) -> Prop :=
| strides_nil : strides_ok 0 []
| strides_cons b s sts :
    0 <= b -> 0 <= s -> strides_ok s sts -> strides_ok (s + b) ((s, 2 ^ b) :: sts).

Fixpoint slot_ok {V} (sts : list (Z * Z)) (p : slot V) : Prop :=
  match sts, p with
  | _, SNull => True
  | [], SData _ => True
  | st :: sts', SStride _ l => zlen l = st.2 /\ Forall (slot_ok sts') l
  | _, _ => False
  end.

Record table_ok {V} (t : vr_itbl V) : Prop := {
  ok_strides : strides_ok (index_len t) (strides t);
  ok_cnt : (2 <= length (strides t))%nat;
  ok_arrays : length (stride_len t) = length (stride_shift t);
  ok_data : slot_ok (strides t) (it_data t)
}.

(** Indices that the table does not tell apart: it ignores the bits above
    [index_len]. *)
Definition same_index (top i j : Z) : Prop := i mod 2 ^ top = j mod 2 ^ top.
#[export] Instance same_index_dec top i j : Decision (same_index top i j).
Proof. unfold same_index. apply _. Defined.

Lemma stride_id_spec b s i : 0 <= b -> 0 <= s -> stride_id (s, 2 ^ b) i = (i / 2 ^ s) mod 2 ^ b.
Proof.
  intros. unfold stride_id; cbn. rewrite Z.shiftr_div_pow2 by done.
  rewrite Z.sub_1_r, <- Z.ones_equiv. by rewrite Z.land_ones by done.
Qed.

Lemma stride_id_range b s i : 0 <= b -> 0 <= s -> 0 <= stride_id (s, 2 ^ b) i < 2 ^ b.
Proof. intros. rewrite stride_id_spec by done. apply Z.mod_pos_bound, Z.pow_pos_nonneg; lia. Qed.

Lemma index_split b s i :
  0 <= b -> 0 <= s -> i mod 2 ^ (s + b) = i mod 2 ^ s + 2 ^ s * stride_id (s, 2 ^ b) i.
Proof.
  intros. rewrite stride_id_spec, Z.pow_add_r by done.
  apply Z.rem_mul_r; [apply Z.pow_nonzero; lia|apply Z.pow_pos_nonneg; lia].
Qed.

(** Two indices agree on a level and below it exactly when they agree on both. *)
Lemma same_index_split b s i j :
  0 <= b -> 0 <= s ->
  same_index (s + b) i j <->
  stride_id (s, 2 ^ b) i = stride_id (s, 2 ^ b) j /\ same_index s i j.
Proof.
  intros Hb Hs. unfold same_index. rewrite !index_split by done.
  pose proof (Z.mod_pos_bound i (2 ^ s) ltac:(apply Z.pow_pos_nonneg; lia)).
  pose proof (Z.mod_pos_bound j (2 ^ s) ltac:(apply Z.pow_pos_nonneg; lia)).
  split; [|by intros [-> ->]]. intros E.
  assert (stride_id (s, 2 ^ b) i = stride_id (s, 2 ^ b) j) as E' by nia.
  rewrite E' in E. split; [done|lia].
Qed.

Lemma same_index_0 i j : same_index 0 i j.
Proof. unfold same_index. by rewrite !Z.mod_1_r. Qed.

Section facts.
Context {V : Type}.
Implicit Types (p c : slot V) (l : list (slot V)).

Lemma slot_zset l a b c :
  0 <= a < zlen l ->
  default SNull (zget (zset l a c) b) = if decide (a = b) then c else default SNull (zget l b).
Proof. intros. rewrite zget_zset. repeat case_decide; naive_solver. Qed.

Lemma slot_ok_null sts : slot_ok sts (SNull : slot V).
Proof. by destruct sts. Qed.

Lemma slot_ok_child sts l i : Forall (slot_ok sts) l -> slot_ok sts (default SNull (zget l i)).
Proof.
  intros Hl. destruct (zget l i) eqn:E; cbn; [|apply slot_ok_null].
  unfold zget in E. case_decide; [|done]. by eapply Forall_lookup_1.
Qed.

Lemma slot_ok_zset sts l i c : Forall (slot_ok sts) l -> slot_ok sts c -> Forall (slot_ok sts) (zset l i c).
Proof. intros. unfold zset. case_decide; [|done]. by apply Forall_insert. Qed.

Lemma slot_ok_new sts blk b s :
  0 <= b -> slot_ok ((s, 2 ^ b) :: sts) (new_stride blk (2 ^ b) : slot V).
Proof.
  intros. cbn. split.
  - rewrite zlen_replicate. rewrite Z2Nat.id; [done|]. apply Z.pow_nonneg. lia.
  - apply Forall_replicate, slot_ok_null.
Qed.

Lemma get_null sts i : get_loop sts i (SNull : slot V) = SNull.
Proof. by destruct sts. Qed.

Lemma get_new st sts blk n i : get_loop (st :: sts) i (new_stride blk n : slot V) = SNull.
Proof.
  unfold new_stride. cbn [get_loop]. rewrite zget_replicate_default. apply get_null.
Qed.

#[local] Hint Resolve slot_ok_null slot_ok_child slot_ok_zset slot_ok_new : vr.

Lemma set_loop_cons st st' sts i (d : slot V) blk l m :
  set_loop (st :: st' :: sts) i d (SStride blk l) m =
    let id := stride_id st i in
    let '(child, m) := descend_child st' (default SNull (zget l id)) m in
    match child with
    | None => (None, SStride blk l, m)
    | Some c =>
        let '(r, c', m) := set_loop (st' :: sts) i d c m in (r, SStride blk (zset l id c'), m)
    end.
Proof. reflexivity. Qed.

Lemma get_loop_cons st sts j blk l :
  get_loop (st :: sts) j (SStride blk l) = get_loop sts j (default SNull (zget l (stride_id st j))).
Proof. reflexivity. Qed.

(** What [vr_itable_set] does to a stride that exists: the view changes at the
    index alone when it succeeds, and nowhere when an allocation fails. *)
Lemma set_loop_spec sts : forall top i d p m r p' m',
  strides_ok top sts -> sts <> [] -> slot_ok sts p -> is_null p = false -> slot_ok [] d ->
  set_loop sts i d p m = (r, p', m') ->
  slot_ok sts p' /\ is_null p' = false /\
  match r with
  | None => forall j, get_loop sts j p' = get_loop sts j p
  | Some old => old = get_loop sts i p /\
      forall j, get_loop sts j p' = if decide (same_index top i j) then d else get_loop sts j p
  end.
Proof.
  induction sts as [|st sts IH]; intros top i d p m r p' m' Hst Hne Hp Hnn Hd Hset; [done|].
  destruct p as [| |blk l]; cbn in Hp, Hnn; [done..|]. destruct Hp as [Hlen Hall].
  inversion Hst as [|b s sts' Hb Hs Hst']; subst. cbn in Hlen.
  assert (Hid : 0 <= stride_id (s, 2 ^ b) i < zlen l) by (rewrite Hlen; by apply stride_id_range).
  destruct sts as [|st' sts].
  - inversion Hst'; subst. cbn in Hset. simplify_eq. cbn [slot_ok get_loop is_null].
    split; [split; [by rewrite zlen_zset|exact (slot_ok_zset [] _ _ _ Hall Hd)]|]. split; [done|].
    split; [done|]. intros j. rewrite slot_zset by done.
    pose proof (same_index_0 i j). pose proof (same_index_split b 0 i j Hb Hs).
    repeat case_decide; naive_solver.
  - rewrite set_loop_cons in Hset. cbn zeta in Hset.
    set (id := stride_id (s, 2 ^ b) i) in *. set (c0 := default SNull (zget l id)) in *.
    assert (Hc0 : slot_ok (st' :: sts) c0) by (subst c0; auto with vr).
    assert (Hdc : match descend_child st' c0 m with
                  | (Some c, _) => slot_ok (st' :: sts) c /\ is_null c = false /\
                       forall j, get_loop (st' :: sts) j c = get_loop (st' :: sts) j c0
                  | (None, _) => True
                  end).
    { unfold descend_child. destruct c0; [|done..].
      destruct (m_alloc _ m) as [[nb|] m1]; [|done].
      inversion Hst'; subst. split_and!; [by apply slot_ok_new|done|]. intros j. by rewrite get_new. }
    destruct (descend_child st' c0 m) as [[c|] m1]; [|by simplify_eq].
    destruct Hdc as (Hc & Hcn & Hcget).
    destruct (set_loop (st' :: sts) i d c m1) as [[r1 c1] m2] eqn:Hrec. simplify_eq.
    apply (IH s) in Hrec as (Hok & Hn & Hr); try done.
    split; [split; [by rewrite zlen_zset|by apply slot_ok_zset]|]. split; [done|].
    assert (Hother : forall j, get_loop ((s, 2 ^ b) :: st' :: sts) j (SStride blk (zset l id c1)) =
              if decide (id = stride_id (s, 2 ^ b) j) then get_loop (st' :: sts) j c1
              else get_loop ((s, 2 ^ b) :: st' :: sts) j (SStride blk l)).
    { intros j. rewrite !get_loop_cons, slot_zset by done. by case_decide. }
    destruct r as [old|].
    + destruct Hr as [-> Hr]. split; [by rewrite get_loop_cons|]. intros j. rewrite Hother.
      rewrite (decide_ext (same_index (s + b) i j) _ _ _ (same_index_split b s i j Hb Hs)).
      fold id. destruct (decide (id = stride_id (s, 2 ^ b) j)) as [E|E].
      * rewrite Hr, get_loop_cons, Hcget, <- E. repeat case_decide; naive_solver.
      * rewrite decide_False; [done|naive_solver].
    + intros j. rewrite Hother. case_decide as E; [|done].
      by rewrite Hr, get_loop_cons, Hcget, <- E.
Qed.

(** No stride is kept that holds nothing. *)
Fixpoint tight (sts : list (Z * Z)) (p : slot V) : Prop :=
  match sts, p with
  | _ :: sts', SStride _ l => vr_stride_empty l = false /\ Forall (tight sts') l
  | _, _ => True
  end.

Lemma tight_null sts : tight sts SNull.
Proof. by destruct sts. Qed.

Lemma tight_child sts l i : Forall (tight sts) l -> tight sts (default SNull (zget l i)).
Proof.
  intros Hl. destruct (zget l i) eqn:E; cbn; [|apply tight_null].
  unfold zget in E. case_decide; [|done]. by eapply Forall_lookup_1.
Qed.

Lemma tight_zset sts l i c : Forall (tight sts) l -> tight sts c -> Forall (tight sts) (zset l i c).
Proof. intros. unfold zset. case_decide; [|done]. by apply Forall_insert. Qed.

Lemma stride_empty_get l k : vr_stride_empty l = true -> default SNull (zget l k) = SNull.
Proof.
  unfold vr_stride_empty. rewrite forallb_forall. intros H.
  destruct (zget l k) as [c|] eqn:E; [|done]. cbn.
  unfold zget in E. case_decide; [|done].
  apply list_elem_of_lookup_2, list_elem_of_In, H in E. by destruct c.
Qed.

Lemma stride_nonempty l k : is_null (default SNull (zget l k)) = false -> vr_stride_empty l = false.
Proof.
  intros H. destruct (vr_stride_empty l) eqn:E; [|done].
  by rewrite stride_empty_get in H.
Qed.

Lemma del_loop_cons st st' sts i blk l m :
  __vr_itable_del (st :: st' :: sts) i (SStride blk l) m =
    let id := stride_id st i in
    let child := default SNull (zget l id) in
    if is_null child then (SNull, SStride blk l, false, m)
    else
      let '(old, child', freed, m) := __vr_itable_del (st' :: sts) i child m in
      if freed then
        let l := zset l id SNull in
        if vr_stride_empty l then (old, SNull, true, m_free blk m)
        else (old, SStride blk l, false, m)
      else (old, SStride blk (zset l id child'), false, m).
Proof. reflexivity. Qed.

(** Clearing a slot and giving the stride back when nothing is left in it. *)
Lemma clear_slot_spec b s sts i blk l c j :
  0 <= b -> 0 <= s -> zlen l = 2 ^ b ->
  (vr_stride_empty (zset l (stride_id (s, 2 ^ b) i) c) = true ->
   get_loop ((s, 2 ^ b) :: sts) j (SNull : slot V) =
   get_loop ((s, 2 ^ b) :: sts) j (SStride blk (zset l (stride_id (s, 2 ^ b) i) c))) /\
  get_loop ((s, 2 ^ b) :: sts) j (SStride blk (zset l (stride_id (s, 2 ^ b) i) c)) =
    if decide (stride_id (s, 2 ^ b) i = stride_id (s, 2 ^ b) j) then get_loop sts j c
    else get_loop ((s, 2 ^ b) :: sts) j (SStride blk l).
Proof.
  intros Hb Hs Hlen. rewrite !get_loop_cons. split.
  - intros He. rewrite stride_empty_get by done. by rewrite !get_null.
  - rewrite slot_zset by (rewrite Hlen; by apply stride_id_range). by case_decide.
Qed.

(** What deletion does to a slot: the view loses the index and nothing else, a
    stride goes away exactly when it is reported as given back, and no empty
    stride appears. *)
Lemma del_loop_spec sts : forall top i p m old p' freed m',
  strides_ok top sts -> sts <> [] -> slot_ok sts p ->
  __vr_itable_del sts i p m = (old, p', freed, m') ->
  slot_ok sts p' /\ old = get_loop sts i p /\
  (forall j, get_loop sts j p' = if decide (same_index top i j) then SNull else get_loop sts j p) /\
  (if freed then p' = SNull else is_null p' = is_null p) /\ (tight sts p -> tight sts p').
Proof.
  induction sts as [|st sts IH]; intros top i p m old p' freed m' Hst Hne Hp Hdel; [done|].
  destruct p as [| |blk l]; cbn in Hp; [|done|].
  { destruct sts; cbn in Hdel; simplify_eq; split_and!; try done;
      intros j; cbn; by case_decide. }
  destruct Hp as [Hlen Hall]. inversion Hst as [|b s sts' Hb Hs Hst']; subst. cbn in Hlen.
  assert (Hid : 0 <= stride_id (s, 2 ^ b) i < zlen l) by (rewrite Hlen; by apply stride_id_range).
  set (id := stride_id (s, 2 ^ b) i) in *.
  pose proof (fun j => decide_ext (same_index (s + b) i j) _ (SNull : slot V)
                (get_loop ((s, 2 ^ b) :: sts) j (SStride blk l))
                (same_index_split b s i j Hb Hs)) as Hdec.
  destruct sts as [|st' sts].
  - inversion Hst'; subst. cbn -[get_loop slot_ok] in Hdel. fold id in Hdel.
    pose proof (fun j => clear_slot_spec b 0 [] i blk l SNull j Hb Hs Hlen) as Hclr. fold id in Hclr.
    destruct (is_null (default SNull (zget l id))) eqn:En.
    + simplify_eq. split_and!; try done. intros j. rewrite Hdec. case_decide as E; [|done].
      rewrite get_loop_cons. destruct E as [<- _]. fold id. by destruct (default _ _).
    + assert (Hview : forall j, get_loop [(0, 2 ^ b)] j (SStride blk (zset l id SNull)) =
         if decide (same_index (0 + b) i j) then SNull else get_loop [(0, 2 ^ b)] j (SStride blk l)).
      { intros j. rewrite Hdec, (proj2 (Hclr j)). fold id. pose proof (same_index_0 i j).
        repeat case_decide; naive_solver. }
      destruct (vr_stride_empty (zset l id SNull)) eqn:Ee; simplify_eq.
      * split_and!; try done. intros j. rewrite <- Hview. by apply Hclr.
      * split_and!; try done.
        -- split; [by rewrite zlen_zset|]. exact (slot_ok_zset [] _ _ _ Hall (slot_ok_null [])).
        -- intros [_ Ht]. split; [done|]. exact (tight_zset [] _ _ _ Ht (tight_null [])).
  - rewrite del_loop_cons in Hdel. cbn zeta in Hdel. fold id in Hdel.
    destruct (is_null (default SNull (zget l id))) eqn:En.
    { simplify_eq. split_and!; try done.
      - rewrite get_loop_cons. fold id. destruct (default _ _); [by rewrite get_null|done..].
      - intros j. rewrite Hdec. case_decide as E; [|done]. rewrite get_loop_cons.
        destruct E as [<- _]. fold id. destruct (default _ _); [by rewrite get_null|done..]. }
    destruct (__vr_itable_del (st' :: sts) i (default SNull (zget l id)) m)
      as [[[old1 c1] fr1] m1] eqn:Hrec.
    apply (IH s) in Hrec as (Hok & -> & Hview & Hfr & Hti); try done; [|by apply slot_ok_child].
    assert (Hc : if fr1 then c1 = SNull else is_null c1 = false) by (destruct fr1; [done|congruence]).
    pose proof (fun j => clear_slot_spec b s (st' :: sts) i blk l c1 j Hb Hs Hlen) as Hclr. fold id in Hclr.
    assert (Hall1 : forall j, get_loop ((s, 2 ^ b) :: st' :: sts) j (SStride blk (zset l id c1)) =
       if decide (same_index (s + b) i j) then SNull
       else get_loop ((s, 2 ^ b) :: st' :: sts) j (SStride blk l)).
    { intros j. rewrite Hdec, (proj2 (Hclr j)). fold id. rewrite Hview, get_loop_cons.
      destruct (decide (id = stride_id (s, 2 ^ b) j)) as [E|E].
      - rewrite <- E. destruct (decide (same_index s i j)).
        + by rewrite decide_True.
        + rewrite decide_False; [done|]. by intros [_ ?].
      - rewrite decide_False; [done|]. by intros [? _]. }
    assert (Hti1 : tight ((s, 2 ^ b) :: st' :: sts) (SStride blk l) -> Forall (tight (st' :: sts)) (zset l id c1)).
    { intros [_ Ht]. apply tight_zset; [done|]. apply Hti. by apply tight_child. }
    destruct fr1.
    + subst c1. destruct (vr_stride_empty (zset l id SNull)) eqn:Ee; simplify_eq.
      * split_and!; try done. intros j. rewrite <- Hall1. by apply Hclr.
      * split_and!; try done; [|by split; [|apply Hti1]].
        split; [by rewrite zlen_zset|]. by apply slot_ok_zset.
    + simplify_eq. split_and!; try done.
      * split; [by rewrite zlen_zset|]. by apply slot_ok_zset.
      * intros Ht. split; [|by apply Hti1]. apply (stride_nonempty _ id).
        by rewrite slot_zset, decide_True by done.
Qed.

(** Lookup does not see the bits above the strides. *)
Lemma get_loop_same sts top i j p :
  strides_ok top sts -> same_index top i j -> get_loop sts i p = get_loop sts j p.
Proof.
  intros Hst. revert p. induction Hst as [|b s sts Hb Hs Hst IH]; intros p Hij; [done|].
  apply same_index_split in Hij as [E Hij]; [|done..].
  destruct p; [done..|]. rewrite !get_loop_cons, E. by apply IH.
Qed.

(** ** Enumeration *)

Fixpoint entry_slots (f : Z -> slot V -> list (Z * V)) (i : Z) (l : list (slot V)) : list (Z * V) :=
  match l with
  | [] => []
  | c :: l' => f i c ++ entry_slots f (i + 1) l'
  end.

(** The entries under a slot in index order; [base] is the index of its first. *)
Fixpoint entries (sts : list (Z * Z)) (p : slot V) (base : Z) : list (Z * V) :=
  match sts, p with
  | [], SData v => [(base, v)]
  | st :: sts', SStride _ l => entry_slots (fun k c => entries sts' c (base + k * 2 ^ st.1)) 0 l
  | _, _ => []
  end.

Lemma entries_null sts base : entries sts SNull base = [].
Proof. by destruct sts. Qed.

Lemma entry_slots_elem f l : forall i x,
  x ∈ entry_slots f i l <-> exists k c, zget l k = Some c /\ x ∈ f (i + k) c.
Proof.
  induction l as [|c l IH]; intros i x; cbn.
  { split; [by intros []%not_elem_of_nil|]. intros (k & c & Hk & _).
    apply zget_range in Hk. unfold zlen in Hk. cbn in Hk. lia. }
  rewrite elem_of_app, IH. split.
  - intros [Hx|(k & c' & Hk & Hx)].
    + exists 0, c. by rewrite Z.add_0_r.
    + exists (k + 1), c'. rewrite zget_cons_succ by (apply zget_range in Hk; lia).
      by replace (i + (k + 1)) with (i + 1 + k) by lia.
  - intros (k & c' & Hk & Hx). pose proof (zget_range _ _ _ Hk).
    destruct (decide (k = 0)) as [->|].
    + left. rewrite zget_cons_0 in Hk. rewrite Z.add_0_r in Hx. by simplify_eq.
    + right. exists (k - 1), c'. replace k with (k - 1 + 1) in Hk by lia.
      rewrite zget_cons_succ in Hk by lia. by replace (i + 1 + (k - 1)) with (i + k) by lia.
Qed.

Lemma strides_top_nonneg top sts : strides_ok top sts -> 0 <= top.
Proof. induction 1; lia. Qed.

(** The entries are exactly what lookup finds. *)
Lemma entries_elem sts : forall top p base k v,
  strides_ok top sts -> slot_ok sts p ->
  (k, v) ∈ entries sts p base <->
  exists i, 0 <= i < 2 ^ top /\ k = base + i /\ get_loop sts i p = SData v.
Proof.
  induction sts as [|st sts IH]; intros top p base k v Hst Hp.
  { inversion Hst; subst. destruct p; cbn in *; try done.
    - split; [by intros []%not_elem_of_nil|]. by intros (? & _ & _ & ?).
    - rewrite list_elem_of_singleton. split.
      + intros [= -> ->]. exists 0. by rewrite Z.add_0_r.
      + intros (i & ? & -> & [= ->]). f_equal. lia. }
  inversion Hst as [|b s sts' Hb Hs Hst']; subst.
  pose proof (Z.pow_pos_nonneg 2 b ltac:(lia) Hb). pose proof (Z.pow_pos_nonneg 2 s ltac:(lia) Hs).
  destruct p as [| |blk l]; cbn in Hp; [|done|].
  { cbn. split; [by intros []%not_elem_of_nil|]. by intros (? & _ & _ & ?). }
  destruct Hp as [Hlen Hall]. cbn [entries]. rewrite entry_slots_elem, Z.pow_add_r by done.
  split.
  - intros (a & c & Ha & Hin). rewrite Z.add_0_l in Hin. pose proof (zget_range _ _ _ Ha).
    apply (IH s) in Hin as (i & Hi & -> & Hget); try done.
    2:{ pose proof (slot_ok_child sts l a Hall) as Hc. by rewrite Ha in Hc. }
    exists (a * 2 ^ s + i). cbn in *. split_and!; [nia|nia|lia|].
    assert (Hid : stride_id (s, 2 ^ b) (a * 2 ^ s + i) = a).
    { rewrite stride_id_spec, Z.div_add_l, Z.div_small, Z.add_0_r by lia. apply Z.mod_small. lia. }
    rewrite Hid, Ha. cbn. rewrite <- Hget. apply (get_loop_same _ s); [done|].
    unfold same_index. by rewrite Z.add_comm, Z.mod_add by lia.
  - intros (i & Hi & -> & Hget). cbn in Hget.
    set (a := stride_id (s, 2 ^ b) i) in *.
    assert (Ha : 0 <= a < zlen l) by (rewrite Hlen; by apply stride_id_range).
    destruct (zget_is_Some l a Ha) as [c Hc]. exists a, c. split; [done|].
    rewrite Hc in Hget. cbn in Hget. rewrite Z.add_0_l. apply (IH s); [done| |].
    { pose proof (slot_ok_child sts l a Hall) as Hok. by rewrite Hc in Hok. }
    exists (i mod 2 ^ s). pose proof (Z.mod_pos_bound i (2 ^ s) ltac:(lia)).
    split_and!; [lia|lia| |].
    + pose proof (index_split b s i Hb Hs) as E. fold a in E.
      rewrite Z.mod_small in E by (rewrite Z.pow_add_r by done; lia). cbn. lia.
    + rewrite <- Hget. apply (get_loop_same _ s); [done|]. unfold same_index. apply Z.mod_mod. lia.
Qed.

Lemma entries_bound sts top p base x :
  strides_ok top sts -> slot_ok sts p -> x ∈ entries sts p base -> base <= x.1 < base + 2 ^ top.
Proof.
  intros Hst Hp Hx. destruct x as [k v]. apply (entries_elem _ top) in Hx as (i & ? & -> & _); [|done..].
  cbn. lia.
Qed.

Lemma entry_slots_sorted (f : Z -> slot V -> list (Z * V)) w base l : 0 <= w -> forall i,
  Forall (fun c => forall k, StronglySorted (fun x y => x.1 < y.1) (f k c) /\
                             forall x, x ∈ f k c -> base + k * w <= x.1 < base + k * w + w) l ->
  StronglySorted (fun x y => x.1 < y.1) (entry_slots f i l) /\
  forall x, x ∈ entry_slots f i l -> base + i * w <= x.1.
Proof.
  intros Hw. induction l as [|c l IH]; intros i Hl; cbn.
  { split; [constructor|by intros x []%not_elem_of_nil]. }
  apply Forall_cons in Hl as [Hc Hl]. destruct (Hc i) as [Hs Hb]. destruct (IH (i + 1) Hl) as [Hs' Hb'].
  split.
  - apply StronglySorted_app_2; [|done..]. intros x y Hx%Hb Hy%Hb'. lia.
  - intros x [Hx%Hb|Hx%Hb']%elem_of_app; lia.
Qed.

(** The entries come in strictly increasing index order. *)
Lemma entries_sorted sts : forall top p base,
  strides_ok top sts -> slot_ok sts p -> StronglySorted (fun x y => x.1 < y.1) (entries sts p base).
Proof.
  induction sts as [|st sts IH]; intros top p base Hst Hp.
  { destruct p; cbn; repeat constructor. }
  inversion Hst as [|b s sts' Hb Hs Hst']; subst.
  destruct p as [| |blk l]; cbn in Hp; [constructor|done|]. destruct Hp as [_ Hall].
  apply (entry_slots_sorted _ (2 ^ s) base); [by apply Z.pow_nonneg|].
  eapply Forall_impl; [exact Hall|]. intros c Hc k. split; [by eapply IH|].
  intros x Hx. by eapply entries_bound.
Qed.

(** *** Traversal *)

Section run.
Context {S : Type} (func : Z -> V -> S -> Z * S).

(** A callback applied to a list of entries until it returns something that is
    not positive. *)
Fixpoint run (es : list (Z * V)) (s : S) : option Z * S :=
  match es with
  | [] => (None, s)
  | (i, v) :: es' =>
      let '(r, s) := func i v s in if r <=? 0 then (Some r, s) else run es' s
  end.

Lemma run_app es1 es2 s :
  run (es1 ++ es2) s =
    match run es1 s with (None, s') => run es2 s' | stopped => stopped end.
Proof.
  revert s. induction es1 as [|[i v] es1 IH]; intros s; cbn; [done|].
  destruct (func i v s) as [r s']. destruct (r <=? 0); [done|apply IH].
Qed.

(** [dump_is (res, s') es s]: the walk that returned [res] and [s'] is the run over
    the entries [es] from [s]. *)
Definition dump_is (out : Z * S) (es : list (Z * V)) (s : S) : Prop :=
  match run es s with
  | (Some r, s') => out = (r, s') /\ r <= 0
  | (None, s') => 0 < out.1 /\ out.2 = s'
  end.

Lemma dump_slots_is visit f marker l : forall i res s,
  0 < res ->
  (forall k c res s, zget l k = Some c -> 0 < res -> is_null c = false ->
     dump_is (visit (i + k) c res s) (filter (fun x => marker <= x.1) (f (i + k) c)) s) ->
  (forall k, f k SNull = []) ->
  dump_is (dump_slots visit i l res s) (filter (fun x => marker <= x.1) (entry_slots f i l)) s.
Proof.
  induction l as [|c l IH]; intros i res s Hres Hl Hnull; cbn; [done|].
  assert (IH' : forall res s, 0 < res ->
     dump_is (dump_slots visit (i + 1) l res s)
       (filter (fun x => marker <= x.1) (entry_slots f (i + 1) l)) s).
  { intros. apply IH; try done. intros k c' res' s' Hk.
    replace (i + 1 + k) with (i + (k + 1)) by lia. apply Hl.
    rewrite zget_cons_succ; [done|]. apply zget_range in Hk. lia. }
  rewrite filter_app. unfold dump_is. rewrite run_app. destruct (is_null c) eqn:En.
  { destruct c; [|done..]. rewrite Hnull. cbn. by apply IH'. }
  specialize (Hl 0 c res s eq_refl Hres En). rewrite Z.add_0_r in Hl. unfold dump_is in Hl.
  destruct (run (filter _ (f i c)) s) as [[r|] s1].
  - destruct Hl as [-> Hr]. by rewrite (proj2 (Z.leb_le r 0) Hr).
  - destruct (visit i c res s) as [res1 s2]; cbn in Hl. destruct Hl as [Hr ->].
    rewrite (proj2 (Z.leb_gt res1 0) Hr). by apply IH'.
Qed.

(** The index a level builds with [|] is the sum, since the bits are disjoint. *)
Lemma level_index b s base k :
  0 <= b -> 0 <= s -> s + b <= 32 -> 0 <= k < 2 ^ b -> base mod 2 ^ (s + b) = 0 -> 0 <= base ->
  Z.lor base (u32 (Z.shiftl k s)) = base + k * 2 ^ s.
Proof.
  intros Hb Hs Htop Hk Hbase Hpos. rewrite Z.shiftl_mul_pow2 by done.
  pose proof (Z.pow_pos_nonneg 2 s ltac:(lia) Hs).
  assert (Hlt : k * 2 ^ s < 2 ^ (s + b)) by (rewrite Z.pow_add_r by done; nia).
  assert (2 ^ (s + b) <= 2 ^ 32) by (apply Z.pow_le_mono_r; lia).
  rewrite u32_small by nia. symmetry. apply Z.add_nocarry_lor.
  apply Z.bits_inj'. intros n Hn. rewrite Z.land_spec, Z.bits_0.
  destruct (decide (n < s + b)).
  - replace (Z.testbit base n) with false; [done|].
    rewrite <- (Z.mod_pow2_bits_low base (s + b)) by lia. by rewrite Hbase, Z.bits_0.
  - destruct (decide (k = 0)) as [->|]; [by rewrite Z.mul_0_l, Z.bits_0, andb_false_r|].
    rewrite (Z.bits_above_log2 (k * 2 ^ s)); [by rewrite andb_false_r|nia|].
    apply Z.lt_le_trans with (s + b); [|lia]. apply Z.log2_lt_pow2; nia.
Qed.

Lemma dump_spec marker sts : forall top p base s,
  strides_ok top sts -> sts <> [] -> top <= 32 -> slot_ok sts p ->
  0 <= base -> base mod 2 ^ top = 0 ->
  dump_is (__vr_itable_dump func sts p base marker s)
    (filter (fun x => marker <= x.1) (entries sts p base)) s.
Proof.
  induction sts as [|st sts IH]; intros top p base s Hst Hne Htop Hp Hb0 Hbm; [done|].
  destruct p as [| |blk l]; cbn in Hp; [by destruct sts|done|]. destruct Hp as [Hlen Hall].
  inversion Hst as [|b sh sts' Hb Hs Hst']; subst. cbn in Hlen.
  pose proof (Z.pow_pos_nonneg 2 sh ltac:(lia) Hs). pose proof (strides_top_nonneg _ _ Hst').
  assert (Hidx : forall k, 0 <= k < 2 ^ b -> Z.lor base (u32 (Z.shiftl k sh)) = base + k * 2 ^ sh)
    by (intros; apply (level_index b); done || lia).
  assert (Hrange : forall k c, zget l k = Some c -> 0 <= k < 2 ^ b)
    by (intros k c Hk%zget_range; lia).
  destruct sts as [|st' sts].
  - cbn [__vr_itable_dump entries]. apply dump_slots_is; [lia| |done].
    intros k c res s' Hk Hres Hn. rewrite Z.add_0_l, Hidx by eauto. cbn [fst].
    pose proof (slot_ok_child [] l k Hall) as Hc. rewrite Hk in Hc.
    destruct c as [|v|]; [done| |done]. cbn [entries].
    unfold dump_is. rewrite filter_cons, filter_nil. cbn [fst].
    case_decide as Hm.
    + rewrite (proj2 (Z.leb_le _ _) Hm). cbn. destruct (func _ v s') as [r s1].
      destruct (Z.leb_spec r 0); done.
    + rewrite (proj2 (Z.leb_gt _ _)) by lia. done.
  - change (entries ((sh, 2 ^ b) :: st' :: sts) (SStride blk l) base) with
      (entry_slots (fun k c => entries (st' :: sts) c (base + k * 2 ^ sh)) 0 l).
    change (__vr_itable_dump func ((sh, 2 ^ b) :: st' :: sts) (SStride blk l) base marker s) with
      (dump_slots (fun i c _ s => __vr_itable_dump func (st' :: sts) c
                     (Z.lor base (u32 (Z.shiftl i sh))) marker s) 0 l 1 s).
    apply dump_slots_is; [lia| |intros; apply entries_null].
    intros k c res s' Hk Hres Hn. rewrite Z.add_0_l, Hidx by eauto.
    pose proof (slot_ok_child (st' :: sts) l k Hall) as Hc. rewrite Hk in Hc.
    specialize (Hrange _ _ Hk). apply (IH sh); try done; [lia|nia|].
    rewrite Z.mod_add by lia. rewrite Z.pow_add_r in Hbm by done.
    pose proof (Z.pow_pos_nonneg 2 b ltac:(lia) Hb).
    apply Z.mod_divide in Hbm as [q ->]; [|nia]. apply Z.mod_divide; [lia|].
    exists (q * 2 ^ b). lia.
Qed.
End run.

(** *** Destruction *)

Section exit_facts.
Context {S : Type} (func : Z -> V -> S -> S).

Definition calls (es : list (Z * V)) (s : S) : S := foldl (fun s x => func x.1 x.2 s) s es.

Lemma exit_slots_calls visit f l : forall i sm,
  (forall k c sm, zget l k = Some c -> is_null c = false ->
     (visit (i + k) c sm).1 = calls (f (i + k) c) sm.1) ->
  (forall k, f k SNull = []) ->
  (exit_slots visit i l sm).1 = calls (entry_slots f i l) sm.1.
Proof.
  induction l as [|c l IH]; intros i sm Hl Hnull; cbn; [done|].
  rewrite IH; [|intros k c' sm' Hk; replace (i + 1 + k) with (i + (k + 1)) by lia;
                apply Hl; rewrite zget_cons_succ; [done|apply zget_range in Hk; lia]|done].
  unfold calls. rewrite foldl_app. f_equal. destruct (is_null c) eqn:En.
  - destruct c; [|done..]. by rewrite Hnull.
  - specialize (Hl 0 c sm eq_refl En). by rewrite Z.add_0_r in Hl.
Qed.

Lemma exit_calls sts : forall top tp p base sm,
  strides_ok top sts -> sts <> [] -> top <= 32 -> slot_ok sts p ->
  0 <= base -> base mod 2 ^ top = 0 ->
  (__vr_itable_exit func sts tp p base sm).1 = calls (entries sts p base) sm.1.
Proof.
  induction sts as [|st sts IH]; intros top tp p base sm Hst Hne Htop Hp Hb0 Hbm; [done|].
  destruct p as [| |blk l]; cbn in Hp; [by destruct sts|done|]. destruct Hp as [Hlen Hall].
  inversion Hst as [|b sh sts' Hb Hs Hst']; subst. cbn in Hlen.
  pose proof (Z.pow_pos_nonneg 2 sh ltac:(lia) Hs). pose proof (strides_top_nonneg _ _ Hst').
  assert (Hidx : forall k c, zget l k = Some c ->
     Z.lor base (u32 (Z.shiftl k sh)) = base + k * 2 ^ sh)
    by (intros k c Hk%zget_range; apply (level_index b); done || lia).
  destruct sts as [|st' sts].
  - change (entries [(sh, 2 ^ b)] (SStride blk l) base) with
      (entry_slots (fun k c => entries [] c (base + k * 2 ^ sh)) 0 l).
    cbn [__vr_itable_exit].
    match goal with |- context [exit_slots ?v 0 l sm] =>
      pose proof (exit_slots_calls v (fun k c => entries [] c (base + k * 2 ^ sh)) l 0 sm) as He;
      destruct (exit_slots v 0 l sm) as [s1 m1] end.
    cbn [fst] in *. apply He; [|done]. clear He. intros k c [s2 m2] Hk Hn.
    rewrite Z.add_0_l, (Hidx k c Hk).
    pose proof (slot_ok_child [] l k Hall) as Hc. rewrite Hk in Hc. by destruct c.
  - change (entries ((sh, 2 ^ b) :: st' :: sts) (SStride blk l) base) with
      (entry_slots (fun k c => entries (st' :: sts) c (base + k * 2 ^ sh)) 0 l).
    change (__vr_itable_exit func ((sh, 2 ^ b) :: st' :: sts) tp (SStride blk l) base sm) with
      (let '(s, m) := exit_slots (fun i c sm => __vr_itable_exit func (st' :: sts) false c
                        (Z.lor base (u32 (Z.shiftl i sh))) sm) 0 l sm in
       if tp then (s, m_free blk m) else (s, m)).
    match goal with |- context [exit_slots ?v 0 l sm] =>
      pose proof (exit_slots_calls v (fun k c => entries (st' :: sts) c (base + k * 2 ^ sh)) l 0 sm) as He;
      destruct (exit_slots v 0 l sm) as [s1 m1] end.
    assert (Hgoal : s1 = calls (entry_slots (fun k c => entries (st' :: sts) c (base + k * 2 ^ sh)) 0 l) sm.1).
    2:{ by destruct tp. }
    apply He; [|intros; apply entries_null]. intros k c sm' Hk Hn.
    rewrite Z.add_0_l, (Hidx k c Hk).
    pose proof (slot_ok_child (st' :: sts) l k Hall) as Hc. rewrite Hk in Hc.
    apply zget_range in Hk. apply (IH sh); try done; [lia|nia|].
    rewrite Z.mod_add by lia. rewrite Z.pow_add_r in Hbm by done.
    pose proof (Z.pow_pos_nonneg 2 b ltac:(lia) Hb).
    apply Z.mod_divide in Hbm as [q ->]; [|nia]. apply Z.mod_divide; [lia|].
    exists (q * 2 ^ b). lia.
Qed.

(** The stride blocks of a two-stride table. *)
Definition child_blk (c : slot V) : list Z := match c with SStride b _ => [b] | _ => [] end.
Definition blocks2 (p : slot V) : list Z :=
  match p with SStride blk l => blk :: (l ≫= child_blk) | _ => [] end.

Lemma exit_slots_keep (visit : Z -> slot V -> S * mem -> S * mem) l : forall i sm,
  (forall k c sm, (visit k c sm).2 = sm.2) -> (exit_slots visit i l sm).2 = sm.2.
Proof.
  induction l as [|c l IH]; intros i sm Hv; cbn; [done|]. rewrite IH by done.
  by destruct (is_null c).
Qed.

Lemma exit_slots_mem (visit : Z -> slot V -> S * mem -> S * mem) l : forall i (sm : S * mem) x,
  (forall k c (sm : S * mem) x, is_null c = false ->
     m_live (visit k c sm).2 !! x = if decide (x ∈ child_blk c) then None else m_live sm.2 !! x) ->
  m_live (exit_slots visit i l sm).2 !! x =
    if decide (x ∈ l ≫= child_blk) then None else m_live sm.2 !! x.
Proof.
  induction l as [|c l IH]; intros i sm x Hv; cbn.
  { rewrite decide_False by apply not_elem_of_nil. done. }
  rewrite IH by done. destruct (is_null c) eqn:En.
  - by destruct c.
  - rewrite Hv by done. repeat case_decide; rewrite elem_of_app in *; naive_solver.
Qed.

Lemma exit_frees st st' p base s m x :
  slot_ok [st; st'] p ->
  m_live (__vr_itable_exit func [st; st'] true p base (s, m)).2 !! x =
    if decide (x ∈ blocks2 p) then None else m_live m !! x.
Proof.
  intros Hp. destruct p as [| |blk l].
  { cbn. rewrite decide_False by apply not_elem_of_nil. done. }
  { done. }
  change (__vr_itable_exit func [st; st'] true (SStride blk l) base (s, m)) with
    (let '(s1, m1) := exit_slots (fun i c sm => __vr_itable_exit func [st'] false c
                      (Z.lor base (u32 (Z.shiftl i st.1))) sm) 0 l (s, m) in (s1, m_free blk m1)).
  match goal with |- context [exit_slots ?v 0 l (s, m)] =>
    pose proof (exit_slots_mem v l 0 (s, m) x) as He; destruct (exit_slots v 0 l (s, m)) as [s1 m1] end.
  cbn [snd m_free m_live] in *. unfold blocks2. cbn in Hp. destruct Hp as [_ Hall].
  destruct (decide (x = blk)) as [->|].
  { rewrite lookup_delete_eq, decide_True; [done|]. apply elem_of_cons. by left. }
  rewrite lookup_delete_ne by done. rewrite He; clear He.
  - repeat case_decide; rewrite elem_of_cons in *; naive_solver.
  - intros k c [s2 m2] y Hn. destruct c as [|v|cb cl]; cbn -[exit_slots].
    + done.
    + rewrite decide_False by apply not_elem_of_nil. done.
    + match goal with |- context [exit_slots ?v 0 cl (s2, m2)] =>
        pose proof (exit_slots_keep v cl 0 (s2, m2)) as Hc;
        destruct (exit_slots v 0 cl (s2, m2)) as [s3 m3] end.
      cbn [snd] in Hc. rewrite Hc by (intros ? [] ?; done). cbn.
      destruct (decide (y = cb)) as [->|].
      * rewrite lookup_delete_eq, decide_True; [done|]. by apply list_elem_of_singleton.
      * rewrite lookup_delete_ne, decide_False; [done|by rewrite list_elem_of_singleton|done].
Qed.
End exit_facts.
End facts.

(** ** The operations on tables *)

Section tables.
Context {V : Type}.
Implicit Types (t : vr_itbl V).

Lemma root_stride t : table_ok t -> exists b s st' sts,
  0 <= b /\ strides t = (s, 2 ^ b) :: st' :: sts /\ zget (stride_len t) 0 = Some (2 ^ b).
Proof.
  intros [Hst Hcnt Harr _]. unfold strides in *.
  destruct (stride_shift t) as [|s shifts]; [cbn in Hcnt; lia|].
  destruct (stride_len t) as [|n lens]; [cbn in Hcnt; lia|]. cbn in *.
  inversion Hst as [|b s' sts Hb Hs Hst' Htop Heq]; subst.
  destruct (zip shifts lens) as [|st' sts]; [cbn in Hcnt; lia|]. eauto 10.
Qed.

(** The root stride [vr_itable_set] works on: the one there or a fresh one. *)
Lemma table_ok_with_data t d : table_ok t -> slot_ok (strides t) d -> table_ok (with_data t d).
Proof. intros [] Hd. split; done. Qed.

(** [vr_itable_set] returns the entry that was there and changes the table at
    that index only; when an allocation fails on the way it returns the error
    pointer and lookups see no change. *)
Lemma itbl_set_spec t i d m r t' m' :
  table_ok t -> slot_ok [] d -> vr_itable_set (Some t) i d m = (r, Some t', m') ->
  table_ok t' /\ index_len t' = index_len t /\
  match r with
  | None => forall j, vr_itable_get (Some t') j = vr_itable_get (Some t) j
  | Some old => old = vr_itable_get (Some t) i /\
      forall j, vr_itable_get (Some t') j =
        if decide (same_index (index_len t) i j) then d else vr_itable_get (Some t) j
  end.
Proof.
  intros Hok Hd Hset. destruct (root_stride t Hok) as (b & s & st' & sts & Hb & Hsts & Hlen0).
  pose proof (ok_strides t Hok) as Hst. pose proof (ok_data t Hok) as Hdata.
  assert (Hgo : forall p m1, slot_ok (strides t) p -> is_null p = false ->
     (forall j, get_loop (strides t) j p = vr_itable_get (Some t) j) ->
     (let '(r, d', m) := set_loop (strides t) i d p m1 in (r, Some (with_data t d'), m))
       = (r, Some t', m') ->
     table_ok t' /\ index_len t' = index_len t /\
     match r with
     | None => forall j, vr_itable_get (Some t') j = vr_itable_get (Some t) j
     | Some old => old = vr_itable_get (Some t) i /\
         forall j, vr_itable_get (Some t') j =
           if decide (same_index (index_len t) i j) then d else vr_itable_get (Some t) j
     end).
  { intros p m1 Hp Hn Hview Heq. destruct (set_loop _ _ _ _ _) as [[r1 d1] m2] eqn:Hloop.
    simplify_eq. eapply set_loop_spec in Hloop as (Hd1 & _ & Hr); [|done|by rewrite Hsts|done..].
    split; [by apply table_ok_with_data|]. split; [done|].
    destruct r as [old|]; cbn.
    - destruct Hr as [-> Hr]. split; [apply Hview|]. intros j. rewrite Hr, Hview. done.
    - intros j. rewrite Hr. apply Hview. }
  revert Hset. unfold vr_itable_set. rewrite Hlen0. cbn [default id].
  destruct (it_data t) as [|v|blk l] eqn:Edata.
  - destruct (m_alloc _ m) as [[nb|] m1]; [|intros [= <- <- _]; by split_and!].
    apply Hgo; [by rewrite Hsts; apply slot_ok_new|done|].
    intros j. rewrite Hsts, get_new. cbn. by rewrite Edata, get_null.
  - rewrite Hsts in Hdata. done.
  - apply Hgo; [done|done|]. intros j. cbn. by rewrite Edata.
Qed.

(** [vr_itable_del] returns the entry at the index, removes it and nothing
    else, and keeps the table free of empty strides, down to giving back the
    first stride when the last entry goes. *)
Lemma itbl_del_spec t i m old t' m' :
  table_ok t -> vr_itable_del (Some t) i m = (old, Some t', m') ->
  table_ok t' /\ index_len t' = index_len t /\ old = vr_itable_get (Some t) i /\
  (forall j, vr_itable_get (Some t') j =
     if decide (same_index (index_len t) i j) then SNull else vr_itable_get (Some t) j) /\
  (tight (strides t) (it_data t) -> tight (strides t') (it_data t')).
Proof.
  intros Hok. cbn. destruct (root_stride t Hok) as (b & s & st' & sts & Hb & Hsts & _).
  destruct (__vr_itable_del _ _ _ _) as [[[old1 d1] fr] m1] eqn:Hloop. intros [= <- <- <-].
  eapply del_loop_spec in Hloop as (Hd1 & -> & Hview & _ & Hti);
    [|by apply ok_strides|by rewrite Hsts|by apply ok_data].
  split_and!; try done. by apply table_ok_with_data.
Qed.

(** A traversal calls its function on exactly the entries of the table whose
    index is not below the marker, each once and in increasing index order, until
    the function returns something that is not positive. *)
Theorem itable_trav_spec {S} (func : Z -> V -> S -> Z * S) t marker s :
  table_ok t -> index_len t <= 32 ->
  let es := entries (strides t) (it_data t) 0 in
  dump_is func (vr_itable_trav func t marker s) (filter (fun x => marker <= x.1) es) s /\
  StronglySorted (fun x y => x.1 < y.1) es /\
  (forall i v, (i, v) ∈ es <-> 0 <= i < 2 ^ index_len t /\ vr_itable_get (Some t) i = SData v).
Proof.
  intros Hok Hlen es. destruct (root_stride t Hok) as (b & sh & st' & sts & Hb & Hsts & _).
  pose proof (ok_strides t Hok) as Hst. pose proof (ok_data t Hok) as Hdata.
  split; [|split].
  - eapply dump_spec; try done. by rewrite Hsts.
  - by eapply entries_sorted.
  - intros i v. unfold es. rewrite entries_elem by done. cbn. split.
    + intros (i' & ? & -> & ?). done.
    + intros [? ?]. by exists i.
Qed.

(** Destroying a table calls the clean-up function once per entry in index
    order, and for a table of two strides (the only kind the program creates)
    gives back every stride, the two arrays and the table itself, and no other
    block. *)
Theorem itable_delete_spec {S} (func : Z -> V -> S -> S) t s m st st' :
  table_ok t -> index_len t <= 32 -> strides t = [st; st'] ->
  let '(s', m') := vr_itable_delete func (Some t) s m in
  s' = calls func (entries (strides t) (it_data t) 0) s /\
  forall x, m_live m' !! x =
    if decide (x ∈ [it_self t; stride_shift_blk t; stride_len_blk t] ++ blocks2 (it_data t))
    then None else m_live m !! x.
Proof.
  intros Hok Hlen Hsts. cbn.
  pose proof (ok_strides t Hok) as Hst. pose proof (ok_data t Hok) as Hdata.
  pose proof (exit_calls func (strides t) (index_len t) true (it_data t) 0 (s, m) Hst
                ltac:(by rewrite Hsts) Hlen Hdata ltac:(lia) ltac:(done)) as Hs.
  pose proof (fun x => exit_frees func st st' (it_data t) 0 s m x
                ltac:(by rewrite <- Hsts)) as Hm. rewrite <- Hsts in Hm.
  destruct (__vr_itable_exit _ _ _ _ _ _) as [s1 m1]. cbn in Hs, Hm. split; [done|].
  intros x. cbn [m_free m_live]. rewrite !lookup_delete, Hm.
  assert (Hiff : x ∈ [it_self t; stride_shift_blk t; stride_len_blk t] ++ blocks2 (it_data t) <->
    it_self t = x \/ stride_shift_blk t = x \/ stride_len_blk t = x \/ x ∈ blocks2 (it_data t))
    by set_solver.
  repeat case_decide; naive_solver.
Qed.

(** *** Creation *)

Lemma create_strides_spec ps len vargs : forall tot lens shifts,
  0 <= ps <= 31 -> len <= 32 -> 0 <= tot <= len -> Forall (fun b => 0 <= b) vargs ->
  create_strides ps len tot vargs = Some (lens, shifts, len) ->
  strides_ok (len - tot) (zip shifts lens) /\
  length lens = length vargs /\ length shifts = length vargs.
Proof.
  induction vargs as [|b vargs IH]; intros tot lens shifts Hps Hlen Htot Hv; cbn.
  { intros [= <- <- ->]. rewrite Z.sub_diag. repeat constructor. }
  apply Forall_cons in Hv as [Hb Hv]. destruct (Z.ltb_spec ps b); [done|].
  rewrite u32_small by lia. destruct (Z.ltb_spec len (tot + b)); [done|].
  destruct (create_strides _ _ _ _) as [[[ls ss] tt]|] eqn:E; [|done]. intros [= <- <- ->].
  apply IH in E as (Hok & Hl1 & Hl2); [|lia..|done]. cbn. split; [|by rewrite Hl1, Hl2].
  rewrite Z.shiftl_1_l. replace (len - tot) with ((len - (tot + b)) + b) by lia.
  constructor; [done|lia|done].
Qed.

(** [vr_itable_create] makes a well-formed, empty table of the requested
    index length; when it refuses or runs out of memory, it leaks nothing. *)
Lemma itbl_create_spec ps len vargs m :
  mem_ok m -> 0 <= ps <= 31 -> 0 <= len -> Forall (fun b => 0 <= b) vargs ->
  match vr_itable_create (V := V) ps len vargs m with
  | (Some t, m') => table_ok t /\ index_len t = len /\ stride_cnt t = zlen vargs /\
                    forall i, vr_itable_get (Some t) i = SNull
  | (None, m') => m_live m' = m_live m
  end.
Proof.
  intros Hm Hps Hlen Hv. unfold vr_itable_create.
  destruct (Z.ltb_spec 32 len); [done|]. destruct (Z.ltb_spec (zlen vargs) 2); [done|].
  destruct (m_alloc 32 m) as [[self|] m1] eqn:H1;
    apply m_alloc_spec in H1; [|done| |done]; [|by destruct H1 as (_ & ? & _)].
  destruct H1 as (Hm1 & Hself & Hn1 & Hf1 & Hl1).
  destruct (m_alloc _ m1) as [[bsh|] m2] eqn:H2; apply m_alloc_spec in H2; [|done| |done].
  2:{ destruct H2 as (_ & Hl2 & _). cbn. rewrite Hl2, Hl1. by rewrite delete_insert_id. }
  destruct H2 as (Hm2 & Hbsh & Hn2 & Hf2 & Hl2).
  destruct (m_alloc _ m2) as [[blen|] m3] eqn:H3; apply m_alloc_spec in H3; [|done| |done].
  2:{ destruct H3 as (_ & Hl3 & _). cbn. rewrite Hl3, Hl2, delete_insert_id by done.
      by rewrite Hl1, delete_insert_id. }
  destruct H3 as (Hm3 & Hblen & Hn3 & Hf3 & Hl3).
  assert (Hfail : m_live (m_free self (m_free blen (m_free bsh m3))) = m_live m).
  { cbn. rewrite Hl3, (delete_delete _ blen bsh), delete_insert_id by done.
    rewrite Hl2, delete_insert_id by done. by rewrite Hl1, delete_insert_id. }
  destruct (create_strides ps len 0 vargs) as [[[lens shifts] tot]|] eqn:Hc; [|done].
  destruct (Z.eqb_spec tot len) as [->|]; [|done]. cbn [negb].
  apply create_strides_spec in Hc as (Hok & Hll & Hls); [|lia..|done].
  rewrite Z.sub_0_r in Hok.
  split; [|split; [done|]]; [|split; [done|]; intros i; apply get_null].
  split; cbn; try done.
  - unfold strides; cbn. rewrite length_zip_with. unfold zlen in *. lia.
  - congruence.
  - apply slot_ok_null.
Qed.
(** An insertion goes through when there is memory for the strides it needs. *)
Lemma set_loop_succeeds (sts : list (Z * Z)) : forall top i (d p : slot V) m,
  strides_ok top sts -> sts <> [] -> slot_ok sts p -> is_null p = false -> m_oracle m = [] ->
  let '(r, _, m') := set_loop sts i d p m in is_Some r /\ m_oracle m' = [].
Proof.
  induction sts as [|st sts IH]; intros top i d p m Hst Hne Hp Hnn Hm; [done|].
  destruct p as [| |blk l]; cbn in Hp, Hnn; [done..|]. destruct Hp as [Hlen Hall].
  inversion Hst as [|b s sts' Hb Hs Hst']; subst. destruct sts as [|st' sts]; [by cbn|].
  rewrite set_loop_cons. cbn zeta. set (c := default SNull (zget l (stride_id (s, 2 ^ b) i))).
  assert (Hc : slot_ok (st' :: sts) c).
  { unfold c. destruct (zget l _) eqn:E; cbn; [|done]. unfold zget in E. case_decide; [|done].
    by eapply Forall_lookup_1 in Hall. }
  assert (Hd : exists c' m1, descend_child st' c m = (Some c', m1) /\ slot_ok (st' :: sts) c' /\ is_null c' = false /\
    m_oracle m1 = []).
  { unfold descend_child. destruct c as [|v|bl l2]; [|by exists (SData v), m|by exists (SStride bl l2), m].
    unfold m_alloc. rewrite Hm. do 2 eexists. split; [done|]. split_and!; try done.
    inversion Hst' as [|b' s' sts'' Hb' Hs' Hst'']; subst. cbn. split.
    - rewrite zlen_replicate, Z2Nat.id; [done|]. apply Z.pow_nonneg. lia.
    - apply Forall_replicate. by destruct sts. }
  destruct Hd as (c' & m1 & -> & Hc' & Hn' & Hm1).
  pose proof (IH s i d c' m1 Hst' ltac:(done) Hc' Hn' Hm1) as Hr.
  destruct (set_loop (st' :: sts) i d c' m1) as [[r c''] m2]. exact Hr.
Qed.

Lemma itbl_set_succeeds t i d m :
  table_ok t -> m_oracle m = [] ->
  let '(r, t', m') := vr_itable_set (Some t) i d m in is_Some r /\ is_Some t' /\ m_oracle m' = [].
Proof.
  intros Hok Hm. destruct (root_stride t Hok) as (b & s & st' & sts & Hb & Hsts & Hlen0).
  pose proof (ok_strides t Hok) as Hst. pose proof (ok_data t Hok) as Hdata.
  assert (Hgo : forall p m1, slot_ok (strides t) p -> is_null p = false -> m_oracle m1 = [] ->
    let '(r, t', m') := let '(r, d', m) := set_loop (strides t) i d p m1 in (r, Some (with_data t d'), m) in
    is_Some r /\ is_Some t' /\ m_oracle m' = []).
  { intros p m1 Hp Hn Hm1. pose proof (set_loop_succeeds (strides t) (index_len t) i d p m1 Hst ltac:(by rewrite Hsts) Hp Hn Hm1) as Hr.
    destruct (set_loop (strides t) i d p m1) as [[r d'] m']. destruct Hr. eauto. }
  cbn. destruct (it_data t) as [|v|bl l] eqn:Ed; [|by apply Hgo..].
  unfold m_alloc. rewrite Hm, Hlen0. cbn [default from_option]. apply Hgo; [|done|done].
  rewrite Hsts. cbn. split.
  - rewrite zlen_replicate, Z2Nat.id; [done|]. apply Z.pow_nonneg. lia.
  - apply Forall_replicate. done.
Qed.

(** Deletions ask for no memory. *)
Lemma del_loop_oracle sts : forall i (p : slot V) m, m_oracle (__vr_itable_del sts i p m).2 = m_oracle m.
Proof.
  induction sts as [|st sts IH]; intros i p m; [done|].
  destruct p as [| |blk l]; [by destruct sts..|]. destruct sts as [|st' sts].
  - cbn. by repeat case_match.
  - cbn [__vr_itable_del] in IH |- *. destruct (is_null _); [done|].
    specialize (IH i (default SNull (zget l (stride_id st i))) m).
    match type of IH with m_oracle ?x.2 = _ => destruct x as [[[old c] fr] m1] end. cbn in IH.
    by destruct fr; [destruct (vr_stride_empty _)|].
Qed.

(** ** Index tables implement finite maps *)

(** The table holds the map [m]; the bits of an index above [index_len] do not count. *)
Definition irep t (m : gmap Z V) : Prop :=
  table_ok t /\ (forall i, vr_itable_get (Some t) i =
    match m !! (i mod 2 ^ index_len t) with Some v => SData v | None => SNull end) /\
  map_Forall (fun k _ => 0 <= k < 2 ^ index_len t) m.

Lemma index_mod_range t i : table_ok t -> 0 <= i mod 2 ^ index_len t < 2 ^ index_len t.
Proof.
  intros Hok. apply Z.mod_pos_bound, Z.pow_pos_nonneg; [lia|].
  destruct (ok_strides t Hok); lia.
Qed.

(** The operations, with what they do to the map and the slot they return. *)
Inductive itable_step : vr_itbl V * mem * gmap Z V -> option (option V) -> vr_itbl V * mem * gmap Z V -> Prop :=
| istep_set t i v a old t' a' m :
    vr_itable_set (Some t) i (SData v) a = (Some old, Some t', a') ->
    itable_step (t, a, m) (match old with SNull => Some None | SData w => Some (Some w) | SStride _ _ => None end)
      (t', a', <[i mod 2 ^ index_len t := v]> m)
| istep_set_fails t i v a t' a' m :
    vr_itable_set (Some t) i (SData v) a = (None, Some t', a') -> itable_step (t, a, m) None (t', a', m)
| istep_del t i a old t' a' m :
    vr_itable_del (Some t) i a = (old, Some t', a') ->
    itable_step (t, a, m) (match old with SNull => Some None | SData w => Some (Some w) | SStride _ _ => None end)
      (t', a', delete (i mod 2 ^ index_len t) m).

Lemma irep_insert t t' i v m :
  irep t m -> table_ok t' -> index_len t' = index_len t ->
  (forall j, vr_itable_get (Some t') j = if decide (same_index (index_len t) i j) then SData v else vr_itable_get (Some t) j) ->
  irep t' (<[i mod 2 ^ index_len t := v]> m).
Proof.
  intros (Hok & Hr & Hk) Hok' Hl Hg. split; [done|]. split.
  2: { rewrite Hl. apply map_Forall_insert_2; [by apply index_mod_range|done]. }
  intros j. rewrite Hg, Hl, Hr. unfold same_index. case_decide as E.
  - by rewrite E, lookup_insert_eq.
  - by rewrite lookup_insert_ne.
Qed.

Lemma irep_delete t t' i m :
  irep t m -> table_ok t' -> index_len t' = index_len t ->
  (forall j, vr_itable_get (Some t') j = if decide (same_index (index_len t) i j) then SNull else vr_itable_get (Some t) j) ->
  irep t' (delete (i mod 2 ^ index_len t) m).
Proof.
  intros (Hok & Hr & Hk) Hok' Hl Hg. split; [done|]. split; [|rewrite Hl; by apply map_Forall_delete].
  intros j. rewrite Hg, Hl, Hr. unfold same_index. case_decide as E.
  - by rewrite E, lookup_delete_eq.
  - by rewrite lookup_delete_ne.
Qed.

(** One operation, and what it returns: the value that was in the map. *)
Lemma itable_step_rep t a m r t' a' m' :
  itable_step (t, a, m) r (t', a', m') -> irep t m ->
  irep t' m' /\ index_len t' = index_len t /\
  forall o, r = Some o -> exists i, o = m !! (i mod 2 ^ index_len t).
Proof.
  intros Hst Hrep. pose proof Hrep as (Hok & Hr & Hk). inversion Hst as [? i v ? old ? ? ? Hset|? i v ? ? ? ? Hset|? i ? old ? ? ? Hdel]; subst.
  - destruct (itbl_set_spec t i (SData v) a (Some old) t' a' Hok ltac:(done) Hset) as (Hok' & Hl & -> & Hg).
    split; [by apply (irep_insert t)|]. split; [done|]. intros o. rewrite Hr. exists i.
    destruct (m !! _); congruence.
  - destruct (itbl_set_spec t i (SData v) a None t' a' Hok ltac:(done) Hset) as (Hok' & Hl & Hg).
    split; [|done]. split; [done|]. rewrite Hl. split; [|done]. intros j. by rewrite Hg, Hr.
  - destruct (itbl_del_spec t i a old t' a' Hok Hdel) as (Hok' & Hl & -> & Hg & _).
    split; [by apply (irep_delete t)|]. split; [done|]. intros o. rewrite Hr. exists i. destruct (m !! _); congruence.
Qed.

(** The entries of the table are those of the map. *)
Lemma irep_entries t m : irep t m -> entries (strides t) (it_data t) 0 ≡ₚ map_to_list m.
Proof.
  intros (Hok & Hr & Hk). pose proof (ok_strides t Hok) as Hst. pose proof (ok_data t Hok) as Hd.
  assert (Hs : StronglySorted (fun x y => x.1 < y.1) (entries (strides t) (it_data t) 0)) by (by eapply entries_sorted).
  apply NoDup_Permutation.
  - clear -Hs. induction Hs as [|x l _ IH Hx]; constructor; [|done]. intros Hin.
    rewrite Forall_forall in Hx. specialize (Hx x Hin). lia.
  - apply NoDup_map_to_list.
  - intros [i v]. rewrite elem_of_map_to_list, entries_elem by done. split.
    + intros (i' & Hi & -> & Hg). change (vr_itable_get (Some t) i' = SData v) in Hg. rewrite Hr in Hg.
      rewrite Z.mod_small in Hg by lia. replace (0 + i') with i' by lia. by destruct (m !! i'); simplify_eq.
    + intros Hv. pose proof (Hk i v Hv) as Hi. cbn in Hi. exists i. split; [done|]. split; [lia|].
      change (vr_itable_get (Some t) i = SData v). rewrite Hr, Z.mod_small by lia. by rewrite Hv.
Qed.

(** C23: an index table is a finite map.  A table is created empty or not at all; and
    after any sequence of insertions and deletions on it, also when an insertion fails
    for want of memory, every index holds what the operations that went through put
    there last; two indices that agree in the low [index_len] bits are one. *)
Theorem itable_refines_map ps len vargs a :
  mem_ok a -> 0 <= ps <= 31 -> 0 <= len -> Forall (fun b => 0 <= b) vargs ->
  match vr_itable_create (V := V) ps len vargs a with
  | (Some t, a1) => index_len t = len /\
      forall t' a' m, rtc (fun x y => exists r, itable_step x r y) (t, a1, ∅) (t', a', m) ->
        index_len t' = len /\
        forall i, vr_itable_get (Some t') i = match m !! (i mod 2 ^ len) with Some v => SData v | None => SNull end
  | (None, a1) => m_live a1 = m_live a
  end.
Proof.
  intros Ha Hps Hlen Hv. pose proof (itbl_create_spec ps len vargs a Ha Hps Hlen Hv) as Hc.
  destruct (vr_itable_create ps len vargs a) as [[t|] a1]; [|done]. destruct Hc as (Hok & Hl & _ & Hg). split; [done|].
  intros t' a' m Hst. assert (Hgen : forall x y, rtc (fun x y => exists r, itable_step x r y) x y ->
    irep x.1.1 x.2 -> irep y.1.1 y.2 /\ index_len y.1.1 = index_len x.1.1).
  { intros x y Hxy. induction Hxy as [|[[t1 a2] m1] [[t2 a3] m2] z [r Hs] _ IH]; [done|]. intros Hx. cbn in Hx |- *.
    destruct (itable_step_rep _ _ _ _ _ _ _ Hs Hx) as (H2 & Hl2 & _). destruct (IH H2) as [H3 Hl3]. split; [done|]. cbn in Hl3. congruence. }
  destruct (Hgen _ _ Hst) as [(_ & Hr & _) Hl'];
    [split; [done|]; split; [intros i; cbn [fst snd]; by rewrite lookup_empty, Hg|apply map_Forall_empty]|]. cbn [fst snd] in Hr, Hl'.
  rewrite Hl in Hl'. split; [done|]. intros i. by rewrite Hr, Hl'.
Qed.

End tables.

(** ** A concrete table: four index bits in two strides *)

Definition tiny : vr_itbl Z := mk_itbl 1 2 4 3 [4; 4] 2 [2; 0] SNull.
Definition tiny_mem : mem := mk_mem 4 (<[1 := 32]> (<[2 := 8]> (<[3 := 8]> ∅))) [].
Definition tiny_row : slot Z := SStride 5 [SNull; SData 70; SNull; SNull].
(** Index 9 (binary 10 01) holds 70. *)
Definition tiny9 : vr_itbl Z :=
  mk_itbl 1 2 4 3 [4; 4] 2 [2; 0] (SStride 4 [SNull; SNull; tiny_row; SNull]).
Definition tiny9_mem : mem :=
  mk_mem 6 (<[1 := 32]> (<[2 := 8]> (<[3 := 8]> (<[4 := 32]> (<[5 := 32]> ∅))))) [].

Lemma tiny_strides_ok : strides_ok 4 [(2, 4); (0, 4)].
Proof. apply (strides_cons 2 2); [lia..|]. apply (strides_cons 2 0); [lia..|]. constructor. Qed.

Lemma tiny_ok : table_ok tiny.
Proof. split; cbn; [apply tiny_strides_ok|lia|done|done]. Qed.

Lemma tiny9_ok : table_ok tiny9.
Proof. split; cbn; [apply tiny_strides_ok|lia|done|]. split; [done|]. by repeat constructor. Qed.

Lemma itable_refines_map_witness :
  match vr_itable_create (V := Z) 13 24 [12; 12] mem0 with
  | (Some t, a1) => index_len t = 24 /\
      forall t' a' m, rtc (fun x y => exists r, itable_step x r y) (t, a1, ∅) (t', a', m) ->
        index_len t' = 24 /\
        forall i, vr_itable_get (Some t') i = match m !! (i mod 2 ^ 24) with Some v => SData v | None => SNull end
  | (None, a1) => m_live a1 = m_live mem0
  end.
Proof.
  apply (itable_refines_map (V := Z) 13 24 [12; 12] mem0);
    [apply mem0_ok|lia|lia|repeat constructor; lia].
Defined.

Lemma itable_trav_spec_witness :
  let func := fun i v (s : list (Z * Z)) => (1, (i, v) :: s) in
  let es := entries (strides tiny9) (it_data tiny9) 0 in
  dump_is func (vr_itable_trav func tiny9 4 []) (filter (fun x => 4 <= x.1) es) [] /\
  StronglySorted (fun x y => x.1 < y.1) es /\
  (forall i v, (i, v) ∈ es <-> 0 <= i < 2 ^ 4 /\ vr_itable_get (Some tiny9) i = SData v).
Proof.
  apply (itable_trav_spec (fun i v (s : list (Z * Z)) => (1, (i, v) :: s)) tiny9 4 []);
    [apply tiny9_ok|cbn; lia].
Defined.

Lemma itable_delete_spec_witness :
  let func := fun i v (s : list (Z * Z)) => (i, v) :: s in
  let '(s', m') := vr_itable_delete func (Some tiny9) [] tiny9_mem in
  s' = calls func (entries (strides tiny9) (it_data tiny9) 0) [] /\
  forall x, m_live m' !! x =
    if decide (x ∈ [1; 2; 3] ++ blocks2 (it_data tiny9)) then None else m_live tiny9_mem !! x.
Proof.
  apply (itable_delete_spec (fun i v (s : list (Z * Z)) => (i, v) :: s) tiny9 [] tiny9_mem (2, 4) (0, 4));
    [apply tiny9_ok|cbn; lia|done].
Defined.

(** Destroying a table of three strides leaks the middle ones: the parent
    clears the slot before it frees what the slot held.  After one insertion and
    the destruction of the table, the block of the middle stride is still live. *)
Theorem itable_delete_leaks_middle :
  match vr_itable_create (V := Z) 13 6 [2; 2; 2] mem0 with
  | (Some t, m) =>
      let '(_, t', m) := vr_itable_set (Some t) 0 (SData 7) m in
      let '(_, m) := vr_itable_delete (fun _ _ (s : unit) => s) t' tt m in
      map_to_list (m_live m) = [(5, 32)]
  | _ => False
  end.
Proof. vm_compute. reflexivity. Qed.
End IndexTable.
