(* ===== verification/NhIface.v ===== *)
(** * The nexthop interface

    The route tables, the label table and the VXLAN table hold counted references
    to nexthops.  [NhOps] is what they call ([vrouter_get_nexthop],
    [vrouter_put_nexthop] and the fields they read); [NhLaws] is what they rely
    on.  [Nexthop.v] gives the instance that models [dp-core/vr_nexthop.c]. *)

From S2P Require Import Prelude.

(** A nexthop pointer. *)
Abbreviation nhp := Z (only parsing).

Definition NH_DISCARD_ID : Z := 0.

Definition NH_ENCAP : Z := 2.
Definition NH_TUNNEL : Z := 3.
Definition NH_DISCARD : Z := 5.
Definition NH_COMPOSITE : Z := 6.
Definition NH_L2_RCV : Z := 8.
Definition NH_FLAG_MCAST : Z := 32.

Class NhOps (S : Type) := {
  (* vrouter_get_nexthop(rid, index): looks up and takes a reference *)
  nh_get : Z -> Z -> S -> option nhp * S;
  (* vrouter_put_nexthop(nh): drops a reference *)
  nh_put : option nhp -> S -> S;
  (* nh->nh_rid, nh->nh_id, nh->nh_type, nh->nh_flags, nh->nh_family *)
  nh_rid_of : S -> nhp -> Z;
  nh_id_of : S -> nhp -> Z;
  nh_type_of : S -> nhp -> Z;
  nh_flags_of : S -> nhp -> Z;
  nh_family_of : S -> nhp -> Z
}.

(** What a client can observe of the nexthops, reference counts apart. *)
Record same_nhs {S} `{NhOps S} (s1 s2 : S) : Prop := {
  same_lookup : forall rid id, (nh_get rid id s2).1 = (nh_get rid id s1).1;
  same_rid : forall p, nh_rid_of s2 p = nh_rid_of s1 p;
  same_id : forall p, nh_id_of s2 p = nh_id_of s1 p;
  same_type : forall p, nh_type_of s2 p = nh_type_of s1 p
}.

#[export] Instance same_nhs_equiv {S} `{NhOps S} : Equivalence same_nhs.
Proof.
  split.
  - intros s. by split.
  - intros s1 s2 []. by split.
  - intros s1 s2 s3 [] []. split; intros; congruence.
Qed.

Class NhLaws (S : Type) `{NhOps S} := {
  (* taking or dropping a reference changes nothing but counts *)
  nh_get_same : forall rid id (s : S), same_nhs s (nh_get rid id s).2;
  nh_put_same : forall p (s : S), same_nhs s (nh_put p s);
  (* there is one router: every identifier names it *)
  nh_get_rid : forall rid rid' id (s : S), (nh_get rid id s).1 = (nh_get rid' id s).1
}.

(** Every nexthop is listed under the identifier it carries. *)
Definition nh_table_ok {S} `{NhOps S} (s : S) : Prop :=
  forall rid id p, (nh_get rid id s).1 = Some p -> nh_id_of s p = id.

#[export] Instance nh_table_ok_proper {S} `{NhOps S} : Proper (same_nhs ==> iff) nh_table_ok.
Proof.
  intros s1 s2 [Hl Hr Hi _]. unfold nh_table_ok.
  split; intros Hx rid id p Hp; [rewrite Hi|rewrite <- Hi]; eapply Hx;
    [rewrite <- Hl|rewrite Hl]; exact Hp.
Qed.

#[export] Hint Resolve nh_get_same nh_put_same : vr.

(** A nexthop that the table still lists under its identifier. *)
Definition nh_live {S} `{NhOps S} (s : S) (p : nhp) : Prop :=
  (nh_get (nh_rid_of s p) (nh_id_of s p) s).1 = Some p.

#[export] Instance nh_live_proper {S} `{NhOps S} : Proper (same_nhs ==> eq ==> iff) nh_live.
Proof.
  intros s1 s2 [Hl Hr Hi _] p q <-. unfold nh_live. by rewrite Hl, Hr, Hi.
Qed.

Lemma same_nhs_live {S} `{NhOps S} (s1 s2 : S) p : same_nhs s1 s2 -> nh_live s1 p -> nh_live s2 p.
Proof. intros Hs. by rewrite Hs. Qed.

Lemma nh_get_live {S} `{NhLaws S} (s : S) rid id p :
  nh_table_ok s -> (nh_get rid id s).1 = Some p -> nh_live s p.
Proof.
  intros Hok Hp. unfold nh_live. rewrite (Hok _ _ _ Hp).
  by rewrite (nh_get_rid _ rid).
Qed.

(** ** References

    [refs_held l s]: the references that the clients hold are those in [l], each as often
    as it is listed, and every count is exact.  [refs_room]: one more can be taken
    without a count running over. *)

Class NhRefs (S : Type) `{NhOps S} := {
  refs_held : list nhp -> S -> Prop;
  refs_room : list nhp -> S -> Prop;
  refs_perm : forall l l' (s : S), l ≡ₚ l' -> refs_held l s -> refs_held l' s;
  refs_get : forall l rid id (s s' : S) p,
    refs_held l s -> refs_room l s -> nh_get rid id s = (Some p, s') -> refs_held (p :: l) s';
  refs_get_none : forall l rid id (s s' : S),
    refs_held l s -> nh_get rid id s = (None, s') -> refs_held l s';
  refs_put : forall l (s : S) p, refs_held (p :: l) s -> refs_held l (nh_put (Some p) s)
}.

(** A reference that may be absent is dropped. *)
Definition drop_nh {S} `{NhOps S} (s : S) (nh : option nhp) : S :=
  match nh with Some p => nh_put (Some p) s | None => s end.

Lemma drop_nh_same {S} `{NhLaws S} (s : S) nh : same_nhs s (drop_nh s nh).
Proof. destruct nh; cbn; [auto with vr|reflexivity]. Qed.

Section refs.
Context {S : Type} `{NhRefs S}.

Lemma drop_refs l nh (s : S) : refs_held (option_list nh ++ l) s -> refs_held l (drop_nh s nh).
Proof. destruct nh; cbn; [apply refs_put|done]. Qed.

(** Dropping what the slots of a table hold. *)
Lemma drop_all_refs (slots : list (option nhp)) l (s : S) :
  refs_held (omap id slots ++ l) s -> refs_held l (foldl drop_nh s slots).
Proof.
  revert s. induction slots as [|[p|] slots IH]; intros s Hs; cbn in *; [done|apply IH; by apply refs_put|by apply IH].
Qed.
End refs.

(** The references of a table after one slot has changed. *)
Lemma omap_zset_perm (l : list (option nhp)) i o o' :
  zget l i = Some o ->
  exists rest, omap id l ≡ₚ option_list o ++ rest /\ omap id (zset l i o') ≡ₚ option_list o' ++ rest.
Proof.
  unfold zget, zset. case_decide as Hi; [|done]. intros Ho.
  pose proof (lookup_lt_Some _ _ _ Ho) as Hlt. exists (omap id (take (Z.to_nat i) l) ++ omap id (drop (S (Z.to_nat i)) l)). split.
  - rewrite <- (take_drop_middle l _ _ Ho) at 1. rewrite omap_app. cbn. destruct o; cbn; [|done].
    by rewrite <- Permutation_middle.
  - rewrite insert_take_drop by done. rewrite omap_app. cbn. destruct o'; cbn; [|done].
    by rewrite <- Permutation_middle.
Qed.
