(* ===== verification/Nexthop.v ===== *)
(** * Nexthop lifecycle (dp-core/vr_nexthop.c)

    The nexthop table of the router, the reference counts that keep nexthops
    alive, and the deferred free that lets packets in flight finish with a
    nexthop that has lost its last reference.  A nexthop is an object of
    [nh_heap]; freeing it puts its address in [nh_freed], and any later access
    sets [nh_fault].  The theorems show that the counts are exact, that no
    operation of the life cycle touches freed memory, and that dropping a
    reference to a composite terminates. *)

From S2P Require Import Prelude NhIface.

Definition NH_FLAG_VALID : Z := 1.
Definition NH_FLAG_TUNNEL_UDP : Z := 16.

Module Nexthop.

(** [struct vr_component_nh] *)
Record vr_component_nh := mk_component {
  cnh : option nhp;
  cnh_label : Z;
  cnh_ecmp_index : Z
}.

(** The functions that [nh_reach_nh] can point to; the null pointer is [R_null]. *)
Inductive nh_reach :=
  | R_null | R_discard | R_resolve | R_l2_rcv | R_l3_rcv | R_vrf_translate | R_encap_l2 | R_encap_l3
  | R_udp_tunnel | R_vxlan_tunnel | R_mpls_udp_tunnel | R_gre_tunnel | R_composite_mcast_l2
  | R_composite_ecmp | R_composite_fabric | R_composite_evpn | R_composite_encap | R_composite_tor.

(** The functions that [nh_validate_src] can point to. *)
Inductive nh_validate :=
  | V_null | V_encap_l3 | V_gre_tunnel | V_mpls_udp_tunnel | V_composite_mcast | V_composite_ecmp.

(** The member of the union [nh_u] that was written last; [U_zero] is the union as
    [vr_zalloc] leaves it, which every member reads as zero. *)
Inductive nh_member := U_zero | U_encap | U_gre_tun | U_udp_tun | U_udp_tun6 | U_composite.

#[export] Instance nh_member_eq_dec : EqDecision nh_member.
Proof. solve_decision. Defined.

(** The part of [struct vr_nexthop] that describes how packets leave: the scalar
    members of the union (the three kinds of tunnels share theirs), the bytes of the
    encapsulation that follow the structure, and the forwarding functions. *)
Record nh_info := mk_info {
  nh_u : nh_member;
  nh_encap_family : Z;
  nh_encap_len : Z;
  nh_tun_sip : Z;
  nh_tun_dip : Z;
  nh_tun_sport : Z;
  nh_tun_dport : Z;
  nh_tun_encap_len : Z;
  nh_data_size : Z;
  nh_data : list Z;
  nh_reach_nh : nh_reach;
  nh_validate_src : nh_validate
}.

Definition info0 : nh_info := mk_info U_zero 0 0 0 0 0 0 0 0 [] R_discard V_null.

(** [struct vr_nexthop]: the members of the union are separate fields; [nh_u] says which
    of them holds what was written last. *)
Record vr_nexthop := mk_nexthop {
  nh_type : Z;
  nh_family : Z;
  nh_flags : Z;
  nh_vrf : Z;
  nh_id : Z;
  nh_rid : Z;
  nh_users : Z;
  nh_component_cnt : Z;
  nh_component_nh : option (list vr_component_nh);
  nh_component_ecmp_cnt : Z;
  nh_component_ecmp : option (list vr_component_nh);
  nh_udp_tun6_sip : option (list Z);
  nh_udp_tun6_dip : option (list Z);
  nh_dev : option Z;
  nh_rest : nh_info
}.

(** The member of the union that a release reads, and whether it is the one that was
    written.  Reading another one would take addresses or lengths for pointers. *)
Definition read_member (nh : vr_nexthop) : option nh_member :=
  if nh_type nh =? NH_COMPOSITE then Some U_composite
  else if (nh_type nh =? NH_TUNNEL) && negb (Z.land (nh_flags nh) NH_FLAG_TUNNEL_UDP =? 0) &&
          (nh_family nh =? AF_INET6) then Some U_udp_tun6
  else None.

Definition u_ok (nh : vr_nexthop) : bool :=
  match read_member nh with
  | None => true
  | Some m => bool_decide (nh_u (nh_rest nh) = U_zero) || bool_decide (nh_u (nh_rest nh) = m)
  end.

(** The interfaces that exist, by index, and the log of references to them that
    were taken ([true]) and dropped. *)
Record vif_state := mk_vifs {
  vr_interfaces : list bool;
  vif_log : list (bool * Z)
}.

(** The part of [struct vrouter] this file reads, with the heap it lives in. *)
Record router := mk_router {
  nh_heap : gmap Z vr_nexthop;
  nh_freed : gset Z;
  vr_nexthops : option (list (option nhp));
  vr_max_nexthops : Z;
  ip4_default_nh : option nhp;
  vr_not_ready : bool;
  nh_deferred : list nhp;
  nh_next : Z;
  nh_oracle : list bool;
  nh_vifs : vif_state;
  nh_fault : bool
}.

Definition set_heap (h : gmap Z vr_nexthop) (s : router) : router :=
  mk_router h (nh_freed s) (vr_nexthops s) (vr_max_nexthops s) (ip4_default_nh s)
    (vr_not_ready s) (nh_deferred s) (nh_next s) (nh_oracle s) (nh_vifs s) (nh_fault s).

Definition set_table (t : option (list (option nhp))) (max : Z) (s : router) : router :=
  mk_router (nh_heap s) (nh_freed s) t max (ip4_default_nh s)
    (vr_not_ready s) (nh_deferred s) (nh_next s) (nh_oracle s) (nh_vifs s) (nh_fault s).

Definition set_default (p : option nhp) (s : router) : router :=
  mk_router (nh_heap s) (nh_freed s) (vr_nexthops s) (vr_max_nexthops s) p
    (vr_not_ready s) (nh_deferred s) (nh_next s) (nh_oracle s) (nh_vifs s) (nh_fault s).

Definition set_fault (s : router) : router :=
  mk_router (nh_heap s) (nh_freed s) (vr_nexthops s) (vr_max_nexthops s) (ip4_default_nh s)
    (vr_not_ready s) (nh_deferred s) (nh_next s) (nh_oracle s) (nh_vifs s) true.

Definition set_deferred (d : list nhp) (s : router) : router :=
  mk_router (nh_heap s) (nh_freed s) (vr_nexthops s) (vr_max_nexthops s) (ip4_default_nh s)
    (vr_not_ready s) d (nh_next s) (nh_oracle s) (nh_vifs s) (nh_fault s).

(** [vr_free] of a nexthop; the other allocations are the oracle's. *)
Definition free_object (p : nhp) (s : router) : router :=
  mk_router (nh_heap s) ({[ p ]} ∪ nh_freed s) (vr_nexthops s) (vr_max_nexthops s)
    (ip4_default_nh s) (vr_not_ready s) (nh_deferred s) (nh_next s) (nh_oracle s)
    (nh_vifs s) (nh_fault s).

Definition host_alloc (s : router) : bool * router :=
  (match nh_oracle s with [] => true | b :: _ => b end,
   mk_router (nh_heap s) (nh_freed s) (vr_nexthops s) (vr_max_nexthops s) (ip4_default_nh s)
     (vr_not_ready s) (nh_deferred s) (nh_next s) (tail (nh_oracle s)) (nh_vifs s)
     (nh_fault s)).

Definition set_vifs (v : vif_state) (s : router) : router :=
  mk_router (nh_heap s) (nh_freed s) (vr_nexthops s) (vr_max_nexthops s) (ip4_default_nh s)
    (vr_not_ready s) (nh_deferred s) (nh_next s) (nh_oracle s) v (nh_fault s).

Definition log_vif (e : bool * Z) (s : router) : router :=
  set_vifs (mk_vifs (vr_interfaces (nh_vifs s)) (vif_log (nh_vifs s) ++ [e])) s.

(** [vrouter_put_interface] and [vrouter_get_interface] (dp-core/vr_interface.c): what
    they do to the count of the interface is in the log. *)
Definition vrouter_put_interface (d : Z) (s : router) : router := log_vif (false, d) s.

Definition vrouter_get_interface (idx : Z) (s : router) : option Z * router :=
  if default false (zget (vr_interfaces (nh_vifs s)) idx) then (Some idx, log_vif (true, idx) s)
  else (None, s).

(** A load through a nexthop pointer, and a store. *)
Definition nh_load (p : nhp) (s : router) : option vr_nexthop :=
  if decide (p ∈ nh_freed s) then None else nh_heap s !! p.

Definition nh_store (p : nhp) (nh : vr_nexthop) (s : router) : router :=
  set_heap (<[p := nh]> (nh_heap s)) s.

Definition with_users (u : Z) (nh : vr_nexthop) : vr_nexthop :=
  mk_nexthop (nh_type nh) (nh_family nh) (nh_flags nh) (nh_vrf nh) (nh_id nh) (nh_rid nh) u
    (nh_component_cnt nh) (nh_component_nh nh) (nh_component_ecmp_cnt nh)
    (nh_component_ecmp nh) (nh_udp_tun6_sip nh) (nh_udp_tun6_dip nh) (nh_dev nh) (nh_rest nh).

Definition with_components (cnt : Z) (l : option (list vr_component_nh)) (nh : vr_nexthop) : vr_nexthop :=
  mk_nexthop (nh_type nh) (nh_family nh) (nh_flags nh) (nh_vrf nh) (nh_id nh) (nh_rid nh)
    (nh_users nh) cnt l (nh_component_ecmp_cnt nh)
    (nh_component_ecmp nh) (nh_udp_tun6_sip nh) (nh_udp_tun6_dip nh) (nh_dev nh) (nh_rest nh).

Definition with_ecmp (cnt : Z) (l : option (list vr_component_nh)) (nh : vr_nexthop) : vr_nexthop :=
  mk_nexthop (nh_type nh) (nh_family nh) (nh_flags nh) (nh_vrf nh) (nh_id nh) (nh_rid nh)
    (nh_users nh) (nh_component_cnt nh) (nh_component_nh nh) cnt l
    (nh_udp_tun6_sip nh) (nh_udp_tun6_dip nh) (nh_dev nh) (nh_rest nh).

Definition with_tun6 (sip dip : option (list Z)) (nh : vr_nexthop) : vr_nexthop :=
  mk_nexthop (nh_type nh) (nh_family nh) (nh_flags nh) (nh_vrf nh) (nh_id nh) (nh_rid nh)
    (nh_users nh) (nh_component_cnt nh) (nh_component_nh nh) (nh_component_ecmp_cnt nh)
    (nh_component_ecmp nh) sip dip (nh_dev nh) (nh_rest nh).

(** The union is read through [read_member]. *)
Definition check_u (nh : vr_nexthop) (s : router) : router := if u_ok nh then s else set_fault s.

(** ** Operations *)

Definition __vrouter_get_nexthop (index : Z) (s : router) : option nhp :=
  if vr_max_nexthops s <=? index then None
  else match vr_nexthops s with
       | Some t => default None (zget t index)
       | None => None
       end.

(** [vrouter_get(rid)] is the one router for every [rid]. *)
Definition vrouter_get_nexthop (rid index : Z) (s : router) : option nhp * router :=
  match __vrouter_get_nexthop index s with
  | None => (None, s)
  | Some p =>
      match nh_load p s with
      | None => (Some p, set_fault s)
      | Some nh => (Some p, nh_store p (with_users (u32 (nh_users nh + 1)) nh) s)
      end
  end.

Definition __vrouter_set_nexthop (index : Z) (p : option nhp) (s : router) : Z * router :=
  match vr_nexthops s with
  | None => (- EINVAL, s)
  | Some t =>
      match zget t index with
      | None => (- EINVAL, s)
      | Some _ => (0, set_table (Some (zset t index p)) (vr_max_nexthops s) s)
      end
  end.

Definition vrouter_free_nexthop (p : nhp) (s : router) : router :=
  match nh_load p s with
  | None => set_fault s
  | Some nh =>
      let nh1 :=
        if nh_type nh =? NH_COMPOSITE then
          let nh0 := with_components (nh_component_cnt nh) None nh in
          match nh_component_ecmp nh0 with
          | Some _ => with_ecmp 0 None nh0
          | None => nh0
          end
        else if (nh_type nh =? NH_TUNNEL) &&
                negb (Z.land (nh_flags nh) NH_FLAG_TUNNEL_UDP =? 0) &&
                (nh_family nh =? AF_INET6) then
          with_tun6 None None nh
        else nh in
      let s1 := nh_store p nh1 (check_u nh s) in
      let s2 := match nh_dev nh with Some d => vrouter_put_interface d s1 | None => s1 end in
      free_object p s2
  end.

(** The data of a deferred call is the nexthop to free. *)
Definition vrouter_free_nexthop_cb (vdd : option nhp) (s : router) : router :=
  match vdd with
  | None => s
  | Some p => vrouter_free_nexthop p s
  end.

Definition vrouter_free_nexthop_defer (p : nhp) (s : router) : Z * router :=
  let '(ok, s1) := host_alloc s in
  if ok then (0, set_deferred (nh_deferred s1 ++ [p]) s1) else (- ENOMEM, s1).

(** The host runs the oldest deferred call. *)
Definition run_deferred (s : router) : router :=
  match nh_deferred s with
  | [] => s
  | p :: d => vrouter_free_nexthop_cb (Some p) (set_deferred d s)
  end.

(** One turn of the loop over the components. *)
Definition put_component (put : nhp -> router -> router) (p : nhp) (i : Z) (s : router) : router :=
  match nh_load p s with
  | None => set_fault s
  | Some nh =>
      match nh_component_nh nh with
      | None => set_fault s
      | Some l =>
          match zget l i with
          | None => set_fault s
          | Some c =>
              match cnh c with
              | None => s
              | Some q =>
                  put q (nh_store p (with_components (nh_component_cnt nh)
                    (Some (zset l i (mk_component None (cnh_label c) (cnh_ecmp_index c)))) nh) s)
              end
          end
      end
  end.

Fixpoint put_components (put : nhp -> router -> router) (p : nhp) (idx : list Z) (s : router) : router :=
  match idx with
  | [] => s
  | i :: idx' => put_components put p idx' (put_component put p i s)
  end.

(** The end of [vrouter_put_nexthop]: free now or after a grace period. *)
Definition release_nexthop (p : nhp) (s : router) : router :=
  if vr_not_ready s then vrouter_free_nexthop p s
  else let '(ret, s1) := vrouter_free_nexthop_defer p s in
       if ret =? 0 then s1 else vrouter_free_nexthop p s1.

Fixpoint put_nexthop (fuel : nat) (p : nhp) (s : router) : router :=
  match fuel with
  | O => s
  | S fuel' =>
      match nh_load p s with
      | None => set_fault s
      | Some nh =>
          let ref_cnt := if nh_users nh =? 0 then 0 else u32 (nh_users nh - 1) in
          let nh1 := with_users ref_cnt nh in
          let s1 := nh_store p nh1 s in
          if ref_cnt =? 0 then
            let s2 :=
              if nh_type nh1 =? NH_COMPOSITE then
                put_components (put_nexthop fuel') p (seqZ 0 (nh_component_cnt nh1))
                  (nh_store p (with_components 0 (nh_component_nh nh1) nh1)
                    (check_u nh1 s1))
              else s1 in
            release_nexthop p s2
          else s1
      end
  end.

(** Composites that still hold components: each nested release empties one. *)
Definition composite_pending (nh : vr_nexthop) : Prop :=
  nh_type nh = NH_COMPOSITE /\ 0 < nh_component_cnt nh.

#[export] Instance composite_pending_dec nh : Decision (composite_pending nh).
Proof. unfold composite_pending. apply _. Defined.

Definition pending (s : router) : gset Z :=
  dom (filter (fun kv : Z * vr_nexthop => composite_pending kv.2) (nh_heap s)).

Definition put_fuel (s : router) : nat := S (size (pending s)).

Definition vrouter_put_nexthop (nh : option nhp) (s : router) : router :=
  match nh with
  | None => s
  | Some p => put_nexthop (put_fuel s) p s
  end.

Definition vrouter_add_nexthop (p : nhp) (s : router) : Z * router :=
  match nh_load p s with
  | None => (0, set_fault s)
  | Some nh =>
      if vr_max_nexthops s <=? nh_id nh then (- EINVAL, s)
      else match __vrouter_get_nexthop (nh_id nh) s with
           | Some _ => (0, s)
           | None =>
               __vrouter_set_nexthop (nh_id nh) (Some p)
                 (nh_store p (with_users (u32 (nh_users nh + 1)) nh) s)
           end
  end.

Definition nh_del (p : nhp) (s : router) : router :=
  match nh_load p s with
  | None => set_fault s
  | Some nh =>
      if vr_max_nexthops s <=? nh_id nh then s
      else vrouter_put_nexthop (Some p) (__vrouter_set_nexthop (nh_id nh) None s).2
  end.

(** Returns the code handed to [vr_send_response]; every destructor is [nh_del]. *)
Definition vr_nexthop_delete (rid id : Z) (s : router) : Z * router :=
  match vrouter_get_nexthop rid id s with
  | (None, s1) => (- EINVAL, s1)
  | (Some p, s1) => (0, nh_del p (vrouter_put_nexthop (Some p) s1))
  end.

Definition discard_nexthop : vr_nexthop :=
  mk_nexthop NH_DISCARD AF_INET NH_FLAG_VALID 0 NH_DISCARD_ID 0 0 0 None 0 None None None None info0.

(** [vr_zalloc] of a nexthop whose fields the caller fills in. *)
Definition new_object (nh : vr_nexthop) (s : router) : option nhp * router :=
  let '(ok, s1) := host_alloc s in
  if ok then
    (Some (nh_next s1),
     mk_router (<[nh_next s1 := nh]> (nh_heap s1)) (nh_freed s1) (vr_nexthops s1)
       (vr_max_nexthops s1) (ip4_default_nh s1) (vr_not_ready s1) (nh_deferred s1)
       (nh_next s1 + 1) (nh_oracle s1) (nh_vifs s1) (nh_fault s1))
  else (None, s1).

Definition nh_allocate_discard (s : router) : Z * router :=
  match new_object discard_nexthop s with
  | (None, s1) => (- ENOMEM, set_default None s1)
  | (Some p, s1) => vrouter_add_nexthop p (set_default (Some p) s1)
  end.

(** [nexthops] is the module parameter [vr_nexthops]. *)
Definition nh_table_init (nexthops : Z) (s : router) : Z * router :=
  let '(ret, s1) :=
    if vr_max_nexthops s =? 0 then
      let '(ok, s0) := host_alloc s in
      if ok then (0, set_table (Some (replicate (Z.to_nat nexthops) None)) nexthops s0)
      else (- ENOMEM, set_table None nexthops s0)
    else (0, s) in
  if ret =? 0 then
    match ip4_default_nh s1 with
    | None => nh_allocate_discard s1
    | Some _ => (0, s1)
    end
  else (ret, s1).

Definition nh_table_exit_step (soft_reset : bool) (s : router) (i : Z) : router :=
  if soft_reset && (i =? NH_DISCARD_ID) then s
  else match __vrouter_get_nexthop i s with
       | Some p => nh_del p s
       | None => s
       end.

Definition nh_table_exit (soft_reset : bool) (s : router) : router :=
  match vr_nexthops s with
  | None => s
  | Some _ =>
      let s1 := foldl (nh_table_exit_step soft_reset) s (seqZ 0 (vr_max_nexthops s)) in
      if soft_reset then s1
      else set_table None 0 (set_default None s1)
  end.


(** ** What a release leaves alone *)

Definition static (nh : vr_nexthop) : Z * Z * Z * Z * Z :=
  (nh_type nh, nh_family nh, nh_flags nh, nh_id nh, nh_rid nh).

Record evolves (s s' : router) : Prop := {
  ev_table : vr_nexthops s' = vr_nexthops s;
  ev_max : vr_max_nexthops s' = vr_max_nexthops s;
  ev_default : ip4_default_nh s' = ip4_default_nh s;
  ev_static : forall p, static <$> nh_heap s' !! p = static <$> nh_heap s !! p;
  ev_pending : pending s' ⊆ pending s
}.

#[export] Instance evolves_preorder : PreOrder evolves.
Proof.
  split; [by split|]. intros s1 s2 s3 [] []. split; try congruence. set_solver.
Qed.

Lemma elem_of_pending s p :
  p ∈ pending s <-> exists nh, nh_heap s !! p = Some nh /\ composite_pending nh.
Proof.
  unfold pending. rewrite elem_of_dom. split.
  - intros [nh Hnh]. apply map_lookup_filter_Some in Hnh. eauto.
  - intros (nh & Hnh & Hc). exists nh. by apply map_lookup_filter_Some.
Qed.

Lemma store_evolves p nh nh' s :
  nh_heap s !! p = Some nh -> static nh' = static nh ->
  (composite_pending nh' -> composite_pending nh) ->
  evolves s (nh_store p nh' s).
Proof.
  intros Hp Hs Hc. split; try done.
  - intros q. cbn. destruct (decide (p = q)) as [<-|].
    + by rewrite lookup_insert_eq, Hp; cbn; rewrite Hs.
    + by rewrite lookup_insert_ne.
  - intros q. rewrite !elem_of_pending. cbn. destruct (decide (p = q)) as [<-|].
    + rewrite lookup_insert_eq. naive_solver.
    + by rewrite lookup_insert_ne.
Qed.

Lemma nh_load_heap p s nh : nh_load p s = Some nh -> nh_heap s !! p = Some nh.
Proof. unfold nh_load. by case_decide. Qed.

Lemma fault_evolves s : evolves s (set_fault s).
Proof. by split. Qed.

Lemma check_evolves nh s : evolves s (check_u nh s).
Proof. unfold check_u. destruct (u_ok nh); [done|apply fault_evolves]. Qed.

Lemma check_heap nh s : nh_heap (check_u nh s) = nh_heap s.
Proof. unfold check_u. by destruct (u_ok nh). Qed.

Lemma check_u_ok nh s : u_ok nh = true -> check_u nh s = s.
Proof. unfold check_u. by intros ->. Qed.

Lemma free_evolves p s : evolves s (vrouter_free_nexthop p s).
Proof.
  unfold vrouter_free_nexthop. destruct (nh_load p s) as [nh|] eqn:Hp; [|apply fault_evolves].
  apply nh_load_heap in Hp.
  etrans; [apply (check_evolves nh)|].
  match goal with |- evolves _ (free_object _ (match _ with Some _ => _ | None => nh_store _ ?x _ end)) =>
    trans (nh_store p x (check_u nh s)); [apply (store_evolves _ nh); [by rewrite check_heap|..]|] end.
  - repeat case_match; done.
  - unfold composite_pending. repeat case_match; cbn; done.
  - destruct (nh_dev nh); by split.
Qed.

Lemma release_evolves p s : evolves s (release_nexthop p s).
Proof.
  unfold release_nexthop, vrouter_free_nexthop_defer, host_alloc.
  destruct (vr_not_ready s); [apply free_evolves|].
  destruct (match nh_oracle s with [] => true | b :: _ => b end); cbn; [by split|].
  etrans; [|apply free_evolves]. by split.
Qed.

Lemma put_components_evolves put p idx s :
  (forall q s, evolves s (put q s)) -> evolves s (put_components put p idx s).
Proof.
  intros Hput. revert s. induction idx as [|i idx IH]; intros s; [done|]. cbn [put_components].
  etrans; [|apply IH]. unfold put_component.
  destruct (nh_load p s) as [nh|] eqn:Hp; [|apply fault_evolves].
  apply nh_load_heap in Hp.
  repeat case_match; try apply fault_evolves; [|done].
  etrans; [|apply Hput]. apply (store_evolves _ nh); done.
Qed.

Lemma put_evolves n p s : evolves s (put_nexthop n p s).
Proof.
  revert p s. induction n as [|n IH]; intros p s; [done|]. cbn [put_nexthop].
  destruct (nh_load p s) as [nh|] eqn:Hp; [|apply fault_evolves].
  apply nh_load_heap in Hp.
  set (u := if nh_users nh =? 0 then 0 else u32 (nh_users nh - 1)).
  assert (H1 : evolves s (nh_store p (with_users u nh) s)) by (by apply (store_evolves _ nh)).
  destruct (u =? 0); [|done].
  etrans; [|apply release_evolves]. case_match; [|done].
  etrans; [exact H1|]. etrans; [|by apply put_components_evolves].
  etrans; [apply (check_evolves (with_users u nh))|].
  apply (store_evolves _ (with_users u nh)); [by rewrite check_heap; cbn; rewrite lookup_insert_eq|done|].
  unfold composite_pending. cbn. lia.
Qed.

(** Emptying a composite before visiting its components bounds the recursion. *)
Lemma pending_shrinks p nh s :
  nh_heap s !! p = Some nh -> composite_pending nh ->
  (size (pending (nh_store p (with_components 0 (nh_component_nh nh) nh) s)) < size (pending s))%nat.
Proof.
  intros Hp Hc. apply subset_size. apply strict_spec_alt. split.
  - apply (store_evolves p nh); [done|done|]. unfold composite_pending. cbn. lia.
  - intros Heq.
    assert (Hin : p ∈ pending s) by (apply elem_of_pending; eauto).
    rewrite <- Heq in Hin. apply elem_of_pending in Hin as (nh' & Hl & _ & Hpos).
    cbn in Hl. rewrite lookup_insert_eq in Hl. simplify_eq. cbn in Hpos. lia.
Qed.

Lemma put_components_ext put1 put2 p idx s k :
  (forall q s, (size (pending s) < k)%nat -> put1 q s = put2 q s) ->
  (forall q s, evolves s (put1 q s)) -> (size (pending s) < k)%nat ->
  put_components put1 p idx s = put_components put2 p idx s.
Proof.
  intros Hext Hev. revert s. induction idx as [|i idx IH]; intros s Hk; [done|].
  cbn [put_components].
  assert (Hstep : put_component put1 p i s = put_component put2 p i s /\
                  evolves s (put_component put1 p i s)).
  { unfold put_component. destruct (nh_load p s) as [nh|] eqn:Hp; [|split; [done|apply fault_evolves]].
    apply nh_load_heap in Hp.
    repeat case_match; try (split; [done|apply fault_evolves]); [|done].
    match goal with |- put1 _ ?x = _ /\ _ => assert (Hx : evolves s x) by (by apply (store_evolves _ nh)) end.
    split; [apply Hext|etrans; [exact Hx|apply Hev]].
    eapply Nat.le_lt_trans; [apply subseteq_size, Hx|done]. }
  destruct Hstep as [<- Hs]. apply IH.
  eapply Nat.le_lt_trans; [apply subseteq_size, Hs|done].
Qed.

Lemma put_fuel_irrelevant n m p s :
  (size (pending s) < n)%nat -> (size (pending s) < m)%nat ->
  put_nexthop n p s = put_nexthop m p s.
Proof.
  revert m p s. induction n as [|n IH]; intros m p s Hn Hm; [lia|].
  destruct m as [|m]; [lia|]. cbn [put_nexthop].
  destruct (nh_load p s) as [nh|] eqn:Hp; [|done]. apply nh_load_heap in Hp.
  set (u := if nh_users nh =? 0 then 0 else u32 (nh_users nh - 1)).
  destruct (u =? 0); [|done]. f_equal.
  destruct (nh_type (with_users u nh) =? NH_COMPOSITE) eqn:Ht; [|done].
  cbn in Ht. apply Z.eqb_eq in Ht. cbn [nh_component_cnt nh_component_nh with_users].
  destruct (decide (0 < nh_component_cnt nh)) as [Hc|Hc].
  2: { assert (Hnil : seqZ 0 (nh_component_cnt nh) = []).
       { unfold seqZ. rewrite Z2Nat.nonpos by lia. done. }
       by rewrite Hnil. }
  set (s1 := check_u (with_users u nh) (nh_store p (with_users u nh) s)).
  assert (Hp1 : nh_heap s1 !! p = Some (with_users u nh)).
  { unfold s1. rewrite check_heap. cbn. apply lookup_insert_eq. }
  assert (Hpend : (size (pending s1) <= size (pending s))%nat).
  { apply subseteq_size. unfold s1. etrans; [apply check_evolves|]. by apply (store_evolves p nh). }
  pose proof (pending_shrinks p _ s1 Hp1) as Hlt. cbn [nh_component_nh with_users] in Hlt.
  assert (Hlt' := Hlt (conj Ht Hc)). clear Hlt.
  apply (put_components_ext _ _ _ _ _ (Nat.min n m)); [|by intros; apply put_evolves|lia].
  intros q s' Hs'. apply IH; lia.
Qed.

(** ** Reference counts *)

Definition occ (p : Z) (l : list Z) : Z := Z.of_nat (length (filter (eq p) l)).

Lemma occ_nil p : occ p [] = 0.
Proof. done. Qed.

Lemma occ_app p l1 l2 : occ p (l1 ++ l2) = occ p l1 + occ p l2.
Proof. unfold occ. rewrite filter_app, length_app. lia. Qed.

Lemma occ_perm p l1 l2 : l1 ≡ₚ l2 -> occ p l1 = occ p l2.
Proof. intros H. unfold occ. by rewrite H. Qed.

Lemma occ_nonneg p l : 0 <= occ p l.
Proof. unfold occ. lia. Qed.

Lemma occ_cons_eq p l : occ p (p :: l) = 1 + occ p l.
Proof. unfold occ. rewrite filter_cons_True by done. cbn. lia. Qed.

Lemma occ_cons_ne p q l : p <> q -> occ p (q :: l) = occ p l.
Proof. intros. unfold occ. by rewrite filter_cons_False. Qed.

Lemma occ_zero p l : occ p l = 0 <-> p ∉ l.
Proof.
  split.
  - intros H Hin. induction l as [|q l IH]; [by apply not_elem_of_nil in Hin|].
    destruct (decide (p = q)) as [<-|Hne].
    + rewrite occ_cons_eq in H. pose proof (occ_nonneg p l). lia.
    + rewrite occ_cons_ne in H by done. set_solver.
  - intros Hn. induction l as [|q l IH]; [done|].
    rewrite occ_cons_ne by set_solver. apply IH. set_solver.
Qed.

Lemma occ_le_length p l : occ p l <= zlen l.
Proof. unfold occ, zlen. pose proof (length_filter (eq p) l). lia. Qed.

(** The references a composite holds, those the table holds, and all of them
    with the ones clients hold ([ext]). *)
Definition edges_of (nh : vr_nexthop) : list nhp :=
  if decide (nh_type nh = NH_COMPOSITE) then
    omap cnh (take (Z.to_nat (nh_component_cnt nh)) (default [] (nh_component_nh nh)))
  else [].

Definition heap_edges (h : gmap Z vr_nexthop) : list nhp :=
  map_to_list h ≫= (fun kv => edges_of kv.2).

Definition table_refs (t : option (list (option nhp))) : list nhp := omap id (default [] t).

Definition refs (ext : list nhp) (s : router) : list nhp :=
  table_refs (vr_nexthops s) ++ heap_edges (nh_heap s) ++ ext.

Definition alive (s : router) (p : nhp) : Prop :=
  is_Some (nh_heap s !! p) /\ p ∉ nh_freed s /\ p ∉ nh_deferred s.

Definition comp_wf (nh : vr_nexthop) : Prop :=
  nh_type nh = NH_COMPOSITE -> 0 < nh_component_cnt nh ->
  exists l, nh_component_nh nh = Some l /\ nh_component_cnt nh <= zlen l.

(** The union is read through the member that was written, and the encapsulation has
    the room that [nh_data_size] says. *)
Definition obj_ok (nh : vr_nexthop) : Prop :=
  u_ok nh = true /\ nh_data_size (nh_rest nh) <= zlen (nh_data (nh_rest nh)) /\ 0 <= nh_component_cnt nh.

Lemma obj_ok_emptied l nh : obj_ok nh -> obj_ok (with_components 0 l nh).
Proof. by intros (? & ? & _). Qed.

Record inv (ext : list nhp) (s : router) : Prop := {
  inv_users : forall p nh, nh_heap s !! p = Some nh -> alive s p ->
    nh_users nh = occ p (refs ext s);
  inv_alive : forall p, p ∈ refs ext s -> alive s p;
  inv_comp : forall p nh, nh_heap s !! p = Some nh -> alive s p -> comp_wf nh;
  inv_deferred : NoDup (nh_deferred s) /\
    forall p, p ∈ nh_deferred s -> exists nh, nh_heap s !! p = Some nh /\ p ∉ nh_freed s /\
      edges_of nh = [];
  inv_small : zlen (refs ext s) <= UINT_MAX;
  inv_ids : forall t i p, vr_nexthops s = Some t -> zget t i = Some (Some p) ->
    exists nh, nh_heap s !! p = Some nh /\ nh_id nh = i;
  inv_max : forall t, vr_nexthops s = Some t -> zlen t = vr_max_nexthops s;
  inv_next : forall p, is_Some (nh_heap s !! p) \/ p ∈ nh_freed s -> p < nh_next s;
  inv_fault : nh_fault s = false;
  inv_obj : forall p nh, nh_heap s !! p = Some nh -> p ∉ nh_freed s -> obj_ok nh
}.

Lemma inv_perm ext ext' s : ext ≡ₚ ext' -> inv ext s -> inv ext' s.
Proof.
  intros Hp [Hu Ha Hc Hd Hs Hi Hm Hn Hf Hobj].
  assert (Hr : refs ext' s ≡ₚ refs ext s) by (unfold refs; by rewrite Hp).
  split; try done.
  - intros p nh Hh Hal. rewrite (occ_perm _ _ _ Hr). eauto.
  - intros p. rewrite Hr. apply Ha.
  - unfold zlen in *. by rewrite Hr.
Qed.

Lemma heap_edges_insert h p nh : heap_edges (<[p := nh]> h) ≡ₚ edges_of nh ++ heap_edges (delete p h).
Proof.
  unfold heap_edges. rewrite <- insert_delete_eq.
  rewrite map_to_list_insert by apply lookup_delete_eq. done.
Qed.

Lemma heap_edges_lookup h p nh : h !! p = Some nh -> heap_edges h ≡ₚ edges_of nh ++ heap_edges (delete p h).
Proof. intros Hp. by rewrite <- heap_edges_insert, insert_id. Qed.

Lemma refs_store ext ext' dropped s p nh nh' :
  nh_heap s !! p = Some nh ->
  edges_of nh' ++ ext' ++ dropped ≡ₚ edges_of nh ++ ext ->
  refs ext s ≡ₚ refs ext' (nh_store p nh' s) ++ dropped.
Proof.
  intros Hp He. unfold refs. cbn. set (T := table_refs _).
  rewrite heap_edges_insert, (heap_edges_lookup _ _ _ Hp).
  set (D := heap_edges (delete p (nh_heap s))).
  rewrite <- !(assoc_L (++)). apply Permutation_app_head.
  trans (D ++ edges_of nh ++ ext).
  { rewrite !(assoc_L (++)). apply Permutation_app_tail, Permutation_app_comm. }
  rewrite <- He. rewrite !(assoc_L (++)). do 2 apply Permutation_app_tail.
  apply Permutation_app_comm.
Qed.

(** A store that moves references between a nexthop and the clients, or drops
    references to the nexthop itself, keeps the invariant; the number of a nexthop
    stays that of its slot. *)
Lemma inv_store_id ext ext' dropped s p nh nh' :
  inv ext s -> nh_heap s !! p = Some nh -> alive s p ->
  edges_of nh' ++ ext' ++ dropped ≡ₚ edges_of nh ++ ext ->
  (forall q, q ∈ dropped -> q = p) ->
  nh_users nh' = nh_users nh - occ p dropped ->
  (forall t i, vr_nexthops s = Some t -> zget t i = Some (Some p) -> nh_id nh' = i) ->
  comp_wf nh' -> (obj_ok nh -> obj_ok nh') ->
  inv ext' (nh_store p nh' s).
Proof.
  intros [Hu Ha Hc [Hd1 Hd2] Hs Hi Hm Hn Hf Hobj] Hp Hal He Hdr Hus Hid Hwf Hob.
  pose proof (refs_store ext ext' dropped s p nh nh' Hp He) as Hr.
  assert (Halive : forall q, alive (nh_store p nh' s) q <-> alive s q).
  { intros q. unfold alive. cbn. rewrite lookup_insert_is_Some'.
    destruct Hal as [? ?]. naive_solver. }
  split.
  - intros q nhq Hq Hqa. rewrite Halive in Hqa. cbn in Hq.
    assert (Hocc := occ_perm q _ _ Hr). rewrite occ_app in Hocc.
    destruct (decide (p = q)) as [<-|Hne].
    + rewrite lookup_insert_eq in Hq. simplify_eq. rewrite Hus, (Hu _ _ Hp Hal). lia.
    + rewrite lookup_insert_ne in Hq by done. rewrite (Hu _ _ Hq Hqa).
      assert (occ q dropped = 0) by (apply occ_zero; intros ?%Hdr; done). lia.
  - intros q Hq. apply Halive, Ha. rewrite Hr. apply elem_of_app. by left.
  - intros q nhq Hq Hqa. rewrite Halive in Hqa. cbn in Hq. destruct (decide (p = q)) as [<-|Hne].
    + rewrite lookup_insert_eq in Hq. by simplify_eq.
    + rewrite lookup_insert_ne in Hq by done. eauto.
  - cbn. split; [done|]. intros q Hq. destruct (Hd2 q Hq) as (nhq & Hq1 & Hq2 & Hq3).
    exists nhq. split; [|done]. rewrite lookup_insert_ne; [done|].
    intros <-. by destruct Hal as (_ & _ & ?).
  - unfold zlen in *. apply Permutation_length in Hr. rewrite length_app in Hr. lia.
  - intros t i q Ht Hq. destruct (Hi t i q Ht Hq) as (nhq & Hq1 & Hq2). cbn.
    destruct (decide (p = q)) as [<-|Hne].
    + exists nh'. rewrite lookup_insert_eq. split; [done|]. by apply (Hid t).
    + exists nhq. by rewrite lookup_insert_ne.
  - done.
  - intros q. cbn. rewrite lookup_insert_is_Some'. intros [[<-|?]|?]; apply Hn; eauto.
  - done.
  - intros q nhq Hq Hqf. cbn in Hq, Hqf. destruct (decide (p = q)) as [<-|Hne].
    + rewrite lookup_insert_eq in Hq. simplify_eq. eauto.
    + rewrite lookup_insert_ne in Hq by done. eauto.
Qed.

Lemma inv_store ext ext' dropped s p nh nh' :
  inv ext s -> nh_heap s !! p = Some nh -> alive s p ->
  edges_of nh' ++ ext' ++ dropped ≡ₚ edges_of nh ++ ext ->
  (forall q, q ∈ dropped -> q = p) ->
  nh_users nh' = nh_users nh - occ p dropped ->
  nh_id nh' = nh_id nh -> comp_wf nh' -> (obj_ok nh -> obj_ok nh') ->
  inv ext' (nh_store p nh' s).
Proof.
  intros Hinv Hp Hal He Hdr Hus Hid. apply (inv_store_id ext ext' dropped s p nh nh'); try done.
  intros t i Ht Hi. destruct (inv_ids _ _ Hinv t i p Ht Hi) as (nh2 & Hp2 & <-). congruence.
Qed.

Lemma alive_load s p : alive s p -> nh_load p s = nh_heap s !! p.
Proof. intros (_ & Hf & _). unfold nh_load. by rewrite decide_False. Qed.

(** The objects that nothing refers to are out of reach of a release. *)
Definition untouched (R : list nhp) (s s' : router) : Prop :=
  forall r, r ∉ R -> nh_heap s' !! r = nh_heap s !! r /\
    (r ∈ nh_freed s' <-> r ∈ nh_freed s) /\ (r ∈ nh_deferred s' <-> r ∈ nh_deferred s).

Lemma untouched_trans R1 R2 s1 s2 s3 :
  untouched R1 s1 s2 -> untouched R2 s2 s3 -> (forall r, r ∈ R2 -> r ∈ R1) -> untouched R1 s1 s3.
Proof.
  intros H1 H2 Hsub r Hr. destruct (H1 r Hr) as (? & ? & ?).
  destruct (H2 r (fun h => Hr (Hsub r h))) as (? & ? & ?). split; [congruence|]. naive_solver.
Qed.

(** Retiring an object nothing refers to, whatever the way it is retired. *)
Lemma inv_retire ext s s' p nh nh' :
  inv ext s -> nh_heap s !! p = Some nh -> p ∉ refs ext s ->
  edges_of nh = [] -> edges_of nh' = [] -> nh_id nh' = nh_id nh -> (obj_ok nh -> obj_ok nh') ->
  vr_nexthops s' = vr_nexthops s -> vr_max_nexthops s' = vr_max_nexthops s ->
  nh_heap s' = <[p := nh']> (nh_heap s) -> nh_next s' = nh_next s ->
  (forall q, alive s' q <-> alive s q /\ q <> p) ->
  (forall q, q ∈ nh_freed s' -> q = p \/ q ∈ nh_freed s) -> nh_freed s ⊆ nh_freed s' ->
  NoDup (nh_deferred s') ->
  (forall q, q ∈ nh_deferred s' -> q ∉ nh_freed s' /\ (q = p \/ q ∈ nh_deferred s)) ->
  nh_fault s' = nh_fault s ->
  inv ext s'.
Proof.
  intros [Hu Ha Hc [Hd1 Hd2] Hs Hi Hm Hn Hf Hobj] Hp Hnr He He' Hid Hob Ht Hmx Hh Hnx Hal Hfr Hfs Hnd Hdf Hfl.
  assert (Hr : refs ext s' ≡ₚ refs ext s).
  { unfold refs. rewrite Ht, Hh, heap_edges_insert, (heap_edges_lookup _ _ _ Hp), He, He'. done. }
  split.
  - intros q nhq Hq [Hqa Hne]%Hal. rewrite (occ_perm _ _ _ Hr).
    rewrite Hh, lookup_insert_ne in Hq by done. eauto.
  - intros q Hq. rewrite Hr in Hq. apply Hal. split; [by apply Ha|]. by intros ->.
  - intros q nhq Hq [Hqa Hne]%Hal. rewrite Hh, lookup_insert_ne in Hq by done. eauto.
  - split; [done|]. intros q Hq. destruct (Hdf q Hq) as [Hq1 [->|Hq2]].
    + exists nh'. by rewrite Hh, lookup_insert_eq.
    + destruct (decide (p = q)) as [<-|Hne]; [exists nh'; by rewrite Hh, lookup_insert_eq|].
      destruct (Hd2 q Hq2) as (nhq & ? & ? & ?). exists nhq. by rewrite Hh, lookup_insert_ne.
  - unfold zlen in *. by rewrite Hr.
  - intros t i q Htb Hq. rewrite Ht in Htb. destruct (Hi t i q Htb Hq) as (nhq & Hq1 & Hq2).
    rewrite Hh. destruct (decide (p = q)) as [<-|Hne].
    + exists nh'. rewrite lookup_insert_eq. split; [done|]. by simplify_eq.
    + exists nhq. by rewrite lookup_insert_ne.
  - intros t. rewrite Ht, Hmx. apply Hm.
  - intros q. rewrite Hh, Hnx, lookup_insert_is_Some'.
    intros [[<-|?]|[->|?]%Hfr]; apply Hn; eauto.
  - congruence.
  - intros q nhq. rewrite Hh. intros Hq Hqf. destruct (decide (p = q)) as [<-|Hne].
    + rewrite lookup_insert_eq in Hq. simplify_eq. apply Hob, (Hobj p); [done|]. set_solver.
    + rewrite lookup_insert_ne in Hq by done. apply (Hobj q); [done|]. set_solver.
Qed.

(** What freeing writes. *)
Lemma free_shape p nh s :
  nh_load p s = Some nh -> obj_ok nh ->
  exists nh', edges_of nh = [] -> edges_of nh' = [] /\ nh_id nh' = nh_id nh /\ obj_ok nh' /\
    let s' := vrouter_free_nexthop p s in
    nh_heap s' = <[p := nh']> (nh_heap s) /\ nh_freed s' = {[ p ]} ∪ nh_freed s /\
    vr_nexthops s' = vr_nexthops s /\ vr_max_nexthops s' = vr_max_nexthops s /\
    nh_next s' = nh_next s /\ nh_deferred s' = nh_deferred s /\ nh_fault s' = nh_fault s.
Proof.
  intros Hl Hob. unfold vrouter_free_nexthop. rewrite Hl, check_u_ok by apply Hob.
  match goal with |- context [free_object _ (match _ with Some _ => _ | None => nh_store _ ?x _ end)] =>
    exists x; set (nh1 := x) end.
  intros He. split; [|split; [|split; [|destruct (nh_dev nh); done]]].
  - unfold nh1. revert He. unfold edges_of. repeat case_match; cbn; intros He;
      repeat case_decide; try done; by rewrite take_nil.
  - unfold nh1. repeat case_match; done.
  - unfold nh1. repeat case_match; exact Hob.
Qed.

Lemma release_inv ext s p nh :
  inv ext s -> nh_heap s !! p = Some nh -> alive s p -> edges_of nh = [] -> p ∉ refs ext s ->
  inv ext (release_nexthop p s) /\ untouched [p] s (release_nexthop p s).
Proof.
  intros Hinv Hp Hal He Hnr. pose proof Hal as (_ & Hnf & Hnd).
  assert (Hfree : forall s1, nh_heap s1 = nh_heap s -> nh_freed s1 = nh_freed s ->
    vr_nexthops s1 = vr_nexthops s -> vr_max_nexthops s1 = vr_max_nexthops s ->
    nh_next s1 = nh_next s -> nh_deferred s1 = nh_deferred s -> nh_fault s1 = nh_fault s ->
    inv ext (vrouter_free_nexthop p s1) /\ untouched [p] s (vrouter_free_nexthop p s1)).
  { intros s1 E1 E2 E3 E4 E5 E6 E7.
    destruct (free_shape p nh s1) as [nh' Hsh].
    { unfold nh_load. rewrite E1, E2. by rewrite decide_False. }
    { by apply (inv_obj _ _ Hinv p). }
    destruct (Hsh He) as (He' & Hid & Hob & Hh & Hf & Ht & Hm & Hn & Hd & Hfl).
    rewrite E1 in Hh; rewrite E2 in Hf; rewrite E3 in Ht; rewrite E4 in Hm; rewrite E5 in Hn;
      rewrite E6 in Hd; rewrite E7 in Hfl.
    split.
    - apply (inv_retire ext s _ p nh nh'); try done.
      + intros q. unfold alive. rewrite Hh, Hf, Hd, lookup_insert_is_Some'. set_solver.
      + set_solver.
      + set_solver.
      + rewrite Hd. apply Hinv.
      + intros q. rewrite Hd, Hf. intros Hq. destruct (inv_deferred _ _ Hinv) as [_ Hx].
        destruct (Hx q Hq) as (? & _ & ? & _). split; [|by right]. set_solver.
    - intros r Hr. rewrite Hh, Hf, Hd, lookup_insert_ne by set_solver. set_solver. }
  unfold release_nexthop, vrouter_free_nexthop_defer, host_alloc.
  destruct (vr_not_ready s); [by apply Hfree|].
  destruct (match nh_oracle s with [] => true | b :: _ => b end); cbn; [|by apply Hfree].
  split.
  - apply (inv_retire ext s _ p nh nh); try done; cbn.
    + by rewrite insert_id.
    + intros q. unfold alive. cbn. set_solver.
    + set_solver.
    + apply NoDup_app. destruct (inv_deferred _ _ Hinv) as [? _]. split; [done|].
      split; [set_solver|apply NoDup_singleton].
    + intros q. destruct (inv_deferred _ _ Hinv) as [_ Hx].
      rewrite elem_of_app, list_elem_of_singleton. intros [Hq| ->]; [|by eauto].
      destruct (Hx q Hq) as (? & _ & ? & _). eauto.
  - intros r Hr. cbn. set_solver.
Qed.

(** A release creates no references. *)
Lemma untouched_refs e2 e3 s2 s3 :
  inv e2 s2 -> inv e3 s3 -> untouched (refs e2 s2) s2 s3 ->
  forall r, r ∈ refs e3 s3 -> r ∈ refs e2 s2.
Proof.
  intros H2 H3 Hun r Hr. destruct (decide (r ∈ refs e2 s2)) as [|Hn]; [done|exfalso].
  destruct (Hun r Hn) as (Hh & Hf & Hd).
  pose proof (inv_alive _ _ H3 r Hr) as Hal.
  assert (Hal2 : alive s2 r) by (unfold alive in *; rewrite <- Hh, <- Hf, <- Hd; done).
  pose proof Hal2 as [[nh Hnh] _].
  pose proof (inv_users _ _ H2 r nh Hnh Hal2) as E2.
  rewrite <- Hh in Hnh. pose proof (inv_users _ _ H3 r nh Hnh Hal) as E3.
  apply occ_zero in Hn. rewrite Hn in E2. rewrite E2 in E3. symmetry in E3.
  by apply occ_zero in E3.
Qed.

Definition comps_at (l : list vr_component_nh) (idx : list Z) : list nhp :=
  omap (fun i => zget l i ≫= cnh) idx.

Lemma comps_at_cons l i idx :
  comps_at l (i :: idx) = match zget l i ≫= cnh with Some q => q :: comps_at l idx | None => comps_at l idx end.
Proof. done. Qed.

Lemma comps_at_zset l i c idx : i ∉ idx -> comps_at (zset l i c) idx = comps_at l idx.
Proof.
  intros Hi. induction idx as [|j idx IH]; [done|]. rewrite !comps_at_cons.
  rewrite zget_zset_ne by set_solver. rewrite IH by set_solver. done.
Qed.

Definition put_correct (put : nhp -> router -> router) (n : nat) : Prop :=
  forall p ext s, (size (pending s) < n)%nat -> inv (p :: ext) s ->
    inv ext (put p s) /\ untouched (refs (p :: ext) s) s (put p s).

(** A composite that has lost its last reference, while its components go. *)
Record dying (p : nhp) (ext : list nhp) (idx : list Z) (s : router) : Prop := {
  dy_nh : exists nh l, nh_heap s !! p = Some nh /\ nh_type nh = NH_COMPOSITE /\
    nh_component_cnt nh = 0 /\ nh_component_nh nh = Some l /\
    (forall i, i ∈ idx -> 0 <= i < zlen l) /\
    inv (comps_at l idx ++ ext) s /\ p ∉ refs (comps_at l idx ++ ext) s;
  dy_alive : alive s p
}.

Lemma edges_of_emptied nh : nh_component_cnt nh = 0 -> edges_of nh = [].
Proof. intros E. unfold edges_of. case_decide; [|done]. by rewrite E. Qed.

Lemma comp_wf_emptied nh : nh_component_cnt nh = 0 -> comp_wf nh.
Proof. intros E _ Hp. lia. Qed.

Lemma put_component_inv put n p ext i idx s :
  put_correct put n -> (size (pending s) < n)%nat -> i ∉ idx ->
  dying p ext (i :: idx) s ->
  dying p ext idx (put_component put p i s) /\
  forall nh l nh' l', nh_heap s !! p = Some nh -> nh_component_nh nh = Some l ->
    nh_heap (put_component put p i s) !! p = Some nh' -> nh_component_nh nh' = Some l' ->
    untouched (p :: refs (comps_at l (i :: idx) ++ ext) s) s (put_component put p i s) /\
    forall r, r ∈ refs (comps_at l' idx ++ ext) (put_component put p i s) ->
      r ∈ refs (comps_at l (i :: idx) ++ ext) s.
Proof.
  intros Hput Hn Hi [(nh & l & Hp & Hty & Hcnt & Hl & Hidx & Hinv & Hnr) Hal].
  unfold put_component. rewrite (alive_load _ _ Hal), Hp, Hl.
  destruct (zget_is_Some l i) as [c Hc]; [apply Hidx; set_solver|]. rewrite Hc.
  rewrite comps_at_cons in Hinv, Hnr. rewrite Hc in Hinv, Hnr. cbn in Hinv, Hnr.
  destruct (cnh c) as [q|] eqn:Hq.
  2: { split.
       - split; [|done]. exists nh, l. split_and!; try done. intros; apply Hidx; set_solver.
       - intros nh1 l1 nh2 l2 E1 E2 E3 E4. simplify_eq. rewrite comps_at_cons, Hc. cbn. rewrite Hq.
         split; [by intros ?|done]. }
  set (c' := mk_component None (cnh_label c) (cnh_ecmp_index c)).
  set (nh1 := with_components (nh_component_cnt nh) (Some (zset l i c')) nh).
  set (s1 := nh_store p nh1 s).
  assert (He : edges_of nh1 = edges_of nh) by (by rewrite !edges_of_emptied).
  assert (Hinv1 : inv (q :: comps_at l idx ++ ext) s1).
  { apply (inv_store (q :: comps_at l idx ++ ext) _ [] s p nh nh1); try done.
    - rewrite He, app_nil_r. done.
    - set_solver.
    - rewrite occ_nil. cbn. lia.
    - by apply comp_wf_emptied. }
  assert (Hr1 : refs (q :: comps_at l idx ++ ext) s ≡ₚ refs (q :: comps_at l idx ++ ext) s1).
  { rewrite (refs_store _ (q :: comps_at l idx ++ ext) [] s p nh nh1); [by rewrite app_nil_r|done|].
    rewrite He, app_nil_r. done. }
  assert (Hn1 : (size (pending s1) < n)%nat).
  { eapply Nat.le_lt_trans; [apply subseteq_size|done]. by apply (store_evolves p nh). }
  destruct (Hput q _ s1 Hn1 Hinv1) as [Hinv2 Hun2].
  set (s2 := put q s1) in *.
  assert (Hp1 : p ∉ refs (q :: comps_at l idx ++ ext) s1) by (by rewrite <- Hr1).
  destruct (Hun2 p Hp1) as (Hh2 & Hf2 & Hd2).
  assert (Hp2 : nh_heap s2 !! p = Some nh1) by (rewrite Hh2; cbn; apply lookup_insert_eq).
  pose proof (untouched_refs _ _ _ _ Hinv1 Hinv2 Hun2) as Hsub.
  split.
  - split.
    + exists nh1, (zset l i c'). rewrite comps_at_zset by done.
      split_and!; try done; [intros; rewrite zlen_zset; apply Hidx; set_solver|].
      intros Hin. by apply Hp1, Hsub.
    + destruct Hal as (_ & ? & ?). unfold alive. rewrite Hp2, Hf2, Hd2. by eauto.
  - intros nha la nhb lb E1 E2 E3 E4. rewrite Hp2 in E3. simplify_eq. cbn in E4. simplify_eq.
    rewrite comps_at_zset by done. rewrite comps_at_cons, Hc. cbn [mbind option_bind]. rewrite Hq. split.
    + intros r Hr. apply not_elem_of_cons in Hr as [Hrp Hr].
      change ((q :: comps_at l idx) ++ ext) with (q :: comps_at l idx ++ ext) in Hr.
      rewrite Hr1 in Hr. destruct (Hun2 r Hr) as (Hh & ? & ?).
      rewrite Hh. cbn. rewrite lookup_insert_ne by done. done.
    + intros r Hr. apply Hsub in Hr. change ((q :: comps_at l idx) ++ ext) with (q :: comps_at l idx ++ ext).
      by rewrite Hr1.
Qed.

Lemma put_components_inv put n p ext idx s :
  put_correct put n -> (forall q s, evolves s (put q s)) -> (size (pending s) < n)%nat ->
  NoDup idx -> dying p ext idx s ->
  dying p ext [] (put_components put p idx s) /\
  forall nh l, nh_heap s !! p = Some nh -> nh_component_nh nh = Some l ->
    untouched (p :: refs (comps_at l idx ++ ext) s) s (put_components put p idx s).
Proof.
  intros Hput Hev. revert s. induction idx as [|i idx IH]; intros s Hn Hnd Hdy.
  { split; [done|]. intros. by intros ?. }
  apply NoDup_cons in Hnd as [Hi Hnd]. cbn [put_components].
  destruct (put_component_inv put n p ext i idx s Hput Hn Hi Hdy) as [Hdy1 Hfr].
  set (s1 := put_component put p i s) in *.
  assert (Hev1 : evolves s s1) by (apply (put_components_evolves put p [i] s Hev)).
  destruct (IH s1) as [Hdy2 Hfr2]; [|done|done|].
  { eapply Nat.le_lt_trans; [apply subseteq_size, Hev1|done]. }
  split; [done|]. intros nh l Hp Hl.
  destruct (dy_nh _ _ _ _ Hdy1) as (nh1 & l1 & Hp1 & _ & _ & Hl1 & _).
  destruct (Hfr nh l nh1 l1 Hp Hl Hp1 Hl1) as [Hun Hsub].
  eapply untouched_trans; [exact Hun|exact (Hfr2 nh1 l1 Hp1 Hl1)|].
  intros r. rewrite !elem_of_cons. intros [->|Hr]; [by left|right; by apply Hsub].
Qed.

Lemma take_comps_at l (k : nat) :
  (k <= length l)%nat -> omap cnh (take k l) = comps_at l (seqZ 0 (Z.of_nat k)).
Proof.
  induction k as [|k IH]; intros Hk; [done|].
  destruct (lookup_lt_is_Some_2 l k) as [c Hc]; [lia|].
  rewrite (take_S_r _ _ _ Hc), omap_app, IH by lia.
  replace (Z.of_nat (S k)) with (Z.of_nat k + 1) by lia. rewrite seqZ_snoc by lia.
  unfold comps_at. rewrite omap_app, Z.add_0_l. f_equal.
  assert (Hz : zget l (Z.of_nat k) = Some c).
  { unfold zget. rewrite decide_True by lia. by rewrite Nat2Z.id. }
  cbn. by rewrite Hz.
Qed.

Lemma edges_of_comps nh l :
  nh_type nh = NH_COMPOSITE -> nh_component_nh nh = Some l -> 0 <= nh_component_cnt nh <= zlen l ->
  edges_of nh = comps_at l (seqZ 0 (nh_component_cnt nh)).
Proof.
  intros Ht Hl Hc. unfold edges_of. rewrite decide_True by done. rewrite Hl. cbn.
  rewrite take_comps_at by (unfold zlen in *; lia). by rewrite Z2Nat.id by lia.
Qed.

(** The first half of a release: the count goes down. *)
Lemma put_decrement ext p s nh :
  inv (p :: ext) s -> nh_heap s !! p = Some nh -> alive s p ->
  let u := if nh_users nh =? 0 then 0 else u32 (nh_users nh - 1) in
  inv ext (nh_store p (with_users u nh) s) /\ u = occ p (refs ext (nh_store p (with_users u nh) s)).
Proof.
  intros Hinv Hp Hal u.
  pose proof (inv_users _ _ Hinv p nh Hp Hal) as Hu.
  pose proof (inv_small _ _ Hinv) as Hs. pose proof (occ_le_length p (refs (p :: ext) s)).
  assert (1 <= nh_users nh).
  { rewrite Hu. unfold refs. rewrite !occ_app, occ_cons_eq.
    pose proof (occ_nonneg p (table_refs (vr_nexthops s))).
    pose proof (occ_nonneg p (heap_edges (nh_heap s))). pose proof (occ_nonneg p ext). lia. }
  assert (Eu : u = nh_users nh - 1).
  { unfold u. rewrite (proj2 (Z.eqb_neq _ _)) by lia. apply u32_small. lia. }
  assert (Hinv' : inv ext (nh_store p (with_users u nh) s)).
  { apply (inv_store (p :: ext) ext [p] s p nh); try done.
    - change (edges_of (with_users u nh)) with (edges_of nh).
      by rewrite (Permutation_app_comm ext [p]).
    - set_solver.
    - rewrite occ_cons_eq, occ_nil. cbn. lia.
    - apply (inv_comp _ _ Hinv p nh Hp Hal). }
  split; [done|]. apply (inv_users _ _ Hinv' p (with_users u nh)).
  - cbn. apply lookup_insert_eq.
  - unfold alive. cbn. rewrite lookup_insert_eq. destruct Hal. eauto.
Qed.

Lemma untouched_store p nh R s : p ∈ R -> untouched R s (nh_store p nh s).
Proof. intros Hp r Hr. cbn. rewrite lookup_insert_ne by set_solver. done. Qed.

(** Emptying a composite hands its references to the loop. *)
Lemma begin_dying p ext s nh l :
  inv ext s -> nh_heap s !! p = Some nh -> alive s p -> nh_type nh = NH_COMPOSITE ->
  0 < nh_component_cnt nh <= zlen l -> nh_component_nh nh = Some l -> p ∉ refs ext s ->
  let s2 := nh_store p (with_components 0 (nh_component_nh nh) nh) s in
  dying p ext (seqZ 0 (nh_component_cnt nh)) s2 /\
  refs ext s ≡ₚ refs (comps_at l (seqZ 0 (nh_component_cnt nh)) ++ ext) s2.
Proof.
  intros Hinv Hp Hal Hty Hc Hl Hnr s2.
  set (nh2 := with_components 0 (nh_component_nh nh) nh).
  assert (He2 : edges_of nh2 = []) by (by apply edges_of_emptied).
  assert (Hperm : edges_of nh2 ++ (comps_at l (seqZ 0 (nh_component_cnt nh)) ++ ext) ++ [] ≡ₚ
                  edges_of nh ++ ext).
  { rewrite He2, app_nil_r. rewrite (edges_of_comps nh l) by (done || lia). done. }
  assert (Hr : refs ext s ≡ₚ refs (comps_at l (seqZ 0 (nh_component_cnt nh)) ++ ext) s2).
  { rewrite (refs_store ext _ [] s p nh nh2 Hp Hperm). by rewrite app_nil_r. }
  split; [|done]. split.
  - exists nh2, l. split_and!; try done.
    + cbn. apply lookup_insert_eq.
    + intros i Hi%elem_of_seqZ. lia.
    + apply (inv_store ext _ [] s p nh nh2 Hinv Hp Hal Hperm); [set_solver| |done|by apply comp_wf_emptied|apply obj_ok_emptied].
      rewrite occ_nil. cbn. lia.
    + by rewrite <- Hr.
  - unfold alive. cbn. rewrite lookup_insert_eq. destruct Hal. eauto.
Qed.

(** A composite without components, and any other nexthop, goes at once. *)
Lemma release_emptied ext p nh nh2 s :
  inv ext s -> nh_heap s !! p = Some nh -> alive s p -> p ∉ refs ext s ->
  edges_of nh = [] -> edges_of nh2 = [] -> comp_wf nh2 ->
  nh_users nh2 = nh_users nh -> nh_id nh2 = nh_id nh -> (obj_ok nh -> obj_ok nh2) ->
  inv ext (release_nexthop p (nh_store p nh2 s)) /\
  untouched [p] s (release_nexthop p (nh_store p nh2 s)).
Proof.
  intros Hinv Hp Hal Hnr He He2 Hwf Hus Hid Hob.
  assert (Hperm : edges_of nh2 ++ ext ++ [] ≡ₚ edges_of nh ++ ext) by (by rewrite He, He2, app_nil_r).
  assert (Hinv2 : inv ext (nh_store p nh2 s)).
  { apply (inv_store ext ext [] s p _ nh2 Hinv Hp Hal Hperm); [set_solver| |done|done|done].
    rewrite occ_nil. lia. }
  pose proof (refs_store ext ext [] s p _ nh2 Hp Hperm) as Hr2. rewrite app_nil_r in Hr2.
  destruct (release_inv ext (nh_store p nh2 s) p nh2) as [Hi Hu]; [done|..|done| |].
  - cbn. apply lookup_insert_eq.
  - unfold alive. cbn. rewrite lookup_insert_eq. destruct Hal. eauto.
  - by rewrite <- Hr2.
  - split; [done|]. eapply untouched_trans; [apply (untouched_store p nh2); set_solver|exact Hu|done].
Qed.

(** A composite with components: the loop drops them, then it goes. *)
Lemma release_composite n p ext nh s :
  put_correct (put_nexthop n) n -> (size (pending s) <= n)%nat ->
  inv ext s -> nh_heap s !! p = Some nh -> alive s p -> p ∉ refs ext s ->
  composite_pending nh ->
  let s' := release_nexthop p (put_components (put_nexthop n) p (seqZ 0 (nh_component_cnt nh))
              (nh_store p (with_components 0 (nh_component_nh nh) nh) s)) in
  inv ext s' /\ untouched (p :: refs ext s) s s'.
Proof.
  intros IH Hn Hinv Hp Hal Hnr [Ht Hc].
  destruct (inv_comp _ _ Hinv p _ Hp Hal Ht Hc) as (l & Hl & Hlen).
  destruct (begin_dying p ext s _ l Hinv Hp Hal Ht (conj Hc Hlen) Hl Hnr) as [Hdy Hr2].
  pose proof (pending_shrinks p _ s Hp (conj Ht Hc)) as Hlt.
  set (s2 := nh_store p _ s) in *.
  destruct (put_components_inv (put_nexthop n) n p ext _ s2 IH (put_evolves n)
    ltac:(lia) (NoDup_seqZ _ _) Hdy) as [Hdy3 Hfr3].
  set (s3 := put_components _ _ _ s2) in *.
  specialize (Hfr3 (with_components 0 (nh_component_nh nh) nh) l (lookup_insert_eq _ _ _) Hl).
  destruct Hdy3 as [(nh3 & l3 & Hp3 & Hty3 & Hcnt3 & Hl3 & _ & Hinv3 & Hnr3) Hal3]. cbn in Hinv3, Hnr3.
  destruct (release_inv ext s3 p nh3 Hinv3 Hp3 Hal3 (edges_of_emptied _ Hcnt3) Hnr3) as [Hi Hu].
  split; [done|].
  eapply untouched_trans; [apply (untouched_store p (with_components 0 (nh_component_nh nh) nh)); set_solver| |exact (fun r h => h)].
  eapply untouched_trans with (R2 := [p]); [|exact Hu|set_solver].
  intros r Hrn. apply Hfr3. rewrite <- Hr2. done.
Qed.

(** The second half of a release: nothing refers to the nexthop any more. *)
Lemma put_last n p ext nh s :
  put_correct (put_nexthop n) n -> (size (pending s) <= n)%nat ->
  inv ext s -> nh_heap s !! p = Some nh -> alive s p -> p ∉ refs ext s ->
  let s' := release_nexthop p
              (if nh_type nh =? NH_COMPOSITE then
                 put_components (put_nexthop n) p (seqZ 0 (nh_component_cnt nh))
                   (nh_store p (with_components 0 (nh_component_nh nh) nh) (check_u nh s))
               else s) in
  inv ext s' /\ untouched (p :: refs ext s) s s'.
Proof.
  intros IH Hn Hinv Hp Hal Hnr.
  assert (Hwide : forall s', inv ext s' /\ untouched [p] s s' ->
    inv ext s' /\ untouched (p :: refs ext s) s s').
  { intros s' [Hi Hu]. split; [done|]. intros r Hr. apply Hu. set_solver. }
  rewrite check_u_ok by (apply (inv_obj _ _ Hinv p nh Hp), Hal).
  destruct (nh_type nh =? NH_COMPOSITE) eqn:Ht.
  2: { apply Hwide. apply (release_inv ext s p _ Hinv Hp Hal); [|done].
       unfold edges_of. apply Z.eqb_neq in Ht. by rewrite decide_False. }
  apply Z.eqb_eq in Ht.
  destruct (decide (0 < nh_component_cnt nh)) as [Hc|Hc].
  { by apply release_composite. }
  assert (Hz : seqZ 0 (nh_component_cnt nh) = []).
  { unfold seqZ. rewrite Z2Nat.nonpos by lia. done. }
  rewrite Hz. apply Hwide, (release_emptied ext p nh);
    [done|done|done|done| |by apply edges_of_emptied|by apply comp_wf_emptied|done|done|apply obj_ok_emptied].
  unfold edges_of. case_decide; [|done]. by rewrite Z2Nat.nonpos by lia.
Qed.

Lemma put_inv n : put_correct (put_nexthop n) n.
Proof.
  induction n as [|n IH]; intros p ext s Hn Hinv; [lia|]. cbn [put_nexthop].
  assert (Hin : p ∈ refs (p :: ext) s) by (unfold refs; set_solver).
  pose proof (inv_alive _ _ Hinv p Hin) as Hal. pose proof Hal as [[nh Hp] _].
  rewrite (alive_load _ _ Hal), Hp.
  destruct (put_decrement ext p s nh Hinv Hp Hal) as [Hinv1 Hu1].
  set (u := if nh_users nh =? 0 then 0 else u32 (nh_users nh - 1)) in *.
  set (s1 := nh_store p (with_users u nh) s) in *.
  pose proof (untouched_store p (with_users u nh) _ s Hin) as Hun1. fold s1 in Hun1.
  pose proof (untouched_refs _ _ _ _ Hinv Hinv1 Hun1) as Hsub1.
  destruct (u =? 0) eqn:Eu; [|done]. apply Z.eqb_eq in Eu.
  assert (Hp1 : nh_heap s1 !! p = Some (with_users u nh)) by (cbn; apply lookup_insert_eq).
  destruct (put_last n p ext (with_users u nh) s1) as [Hi Hu]; [done| |done|done| | |].
  - transitivity (size (pending s)); [|lia]. apply subseteq_size. by apply (store_evolves p nh).
  - unfold alive. rewrite Hp1. destruct Hal; eauto.
  - apply occ_zero; lia.
  - split; [done|]. eapply untouched_trans; [exact Hun1|exact Hu|].
    intros r. rewrite elem_of_cons. intros [->|Hr]; auto.
Qed.

(** ** The table *)

Lemma table_refs_zset t i o :
  zget t i = Some o ->
  exists rest, table_refs (Some t) ≡ₚ option_list o ++ rest /\
    forall o', table_refs (Some (zset t i o')) ≡ₚ option_list o' ++ rest.
Proof.
  intros Ho. pose proof (zget_range _ _ _ Ho) as Hi. unfold zget in Ho.
  rewrite decide_True in Ho by lia. apply list_elem_of_split_length in Ho as (l1 & l2 & -> & Hlen).
  exists (omap id l1 ++ omap id l2).
  assert (Hom : forall o' : option nhp, omap id (l1 ++ o' :: l2) ≡ₚ option_list o' ++ omap id l1 ++ omap id l2).
  { intros o'. rewrite omap_app. rewrite Permutation_app_comm.
    rewrite (Permutation_app_comm (omap id l1)), (assoc_L (++)).
    apply Permutation_app_tail. by destruct o'. }
  split; [apply Hom|]. intros o'. unfold table_refs, zset. rewrite decide_True by lia. cbn [default].
  rewrite Hlen, insert_app_r_alt, Nat.sub_diag by lia. cbn. apply Hom.
Qed.

Lemma inv_table ext ext' s t i o o' :
  inv ext s -> vr_nexthops s = Some t -> zget t i = Some o ->
  (forall p, o' = Some p -> exists nh, nh_heap s !! p = Some nh /\ nh_id nh = i) ->
  option_list o' ++ ext' ≡ₚ option_list o ++ ext ->
  inv ext' (set_table (Some (zset t i o')) (vr_max_nexthops s) s).
Proof.
  intros [Hu Ha Hc Hd Hs Hi Hm Hn Hf Hobj] Ht Ho Hid Hperm.
  destruct (table_refs_zset t i o Ho) as (rest & Hr1 & Hr2).
  assert (Hr : refs ext' (set_table (Some (zset t i o')) (vr_max_nexthops s) s) ≡ₚ refs ext s).
  { unfold refs. cbn [vr_nexthops set_table nh_heap]. rewrite Ht, Hr1, Hr2.
    set (E := heap_edges (nh_heap s)).
    rewrite !(Permutation_app_comm E), !(Permutation_app_comm _ rest).
    rewrite <- !(assoc_L (++)). apply Permutation_app_head. rewrite !(assoc_L (++)).
    by rewrite Hperm. }
  split; try done.
  - intros p nh Hp Hal. rewrite (occ_perm _ _ _ Hr). eauto.
  - intros p. rewrite Hr. apply Ha.
  - unfold zlen in *. by rewrite Hr.
  - intros t' j p Et Hp. cbn in Et. simplify_eq. rewrite zget_zset in Hp. case_decide as Hx; [|eauto].
    destruct Hx as [<- _]. simplify_eq. eauto.
  - intros t' Et. cbn in Et. simplify_eq. cbn. rewrite zlen_zset. eauto.
Qed.

Lemma put_top_inv ext p s :
  inv (p :: ext) s ->
  inv ext (vrouter_put_nexthop (Some p) s) /\
  untouched (refs (p :: ext) s) s (vrouter_put_nexthop (Some p) s).
Proof. intros Hinv. cbn [vrouter_put_nexthop]. apply put_inv; [unfold put_fuel; lia|done]. Qed.

Lemma nh_del_inv ext s t i p :
  inv ext s -> vr_nexthops s = Some t -> zget t i = Some (Some p) ->
  inv ext (nh_del p s) /\ vr_nexthops (nh_del p s) = Some (zset t i None) /\
  vr_max_nexthops (nh_del p s) = vr_max_nexthops s /\
  ip4_default_nh (nh_del p s) = ip4_default_nh s.
Proof.
  intros Hinv Ht Hp.
  destruct (inv_ids _ _ Hinv t i p Ht Hp) as (nh & Hnh & Hid).
  assert (Hal : alive s p).
  { apply (inv_alive _ _ Hinv). unfold refs. apply elem_of_app. left.
    destruct (table_refs_zset t i _ Hp) as (rest & Hr & _). rewrite Ht, Hr. set_solver. }
  unfold nh_del. rewrite (alive_load _ _ Hal), Hnh, Hid.
  pose proof (inv_max _ _ Hinv t Ht) as Hmax. pose proof (zget_range _ _ _ Hp).
  rewrite (proj2 (Z.leb_gt _ _)) by lia.
  unfold __vrouter_set_nexthop. rewrite Ht, Hp. cbn [snd].
  assert (Hinv1 : inv (p :: ext) (set_table (Some (zset t i None)) (vr_max_nexthops s) s)).
  { by apply (inv_table ext (p :: ext) s t i (Some p) None). }
  destruct (put_top_inv _ _ _ Hinv1) as [Hi _].
  split; [done|]. cbn [vrouter_put_nexthop].
  match goal with |- context [put_nexthop ?n p ?x] => destruct (put_evolves n p x) as [E1 E2 E3 _ _] end.
  by rewrite E1, E2, E3.
Qed.

Lemma get_found s i p :
  __vrouter_get_nexthop i s = Some p ->
  exists t, vr_nexthops s = Some t /\ zget t i = Some (Some p) /\ i < vr_max_nexthops s.
Proof.
  unfold __vrouter_get_nexthop. destruct (vr_max_nexthops s <=? i) eqn:Hm; [done|].
  apply Z.leb_gt in Hm. destruct (vr_nexthops s) as [t|]; [|done].
  destruct (zget t i) as [[q|]|] eqn:Hz; cbn; try done. intros [= ->]. eauto.
Qed.

Lemma table_ref_in ext s t i p :
  vr_nexthops s = Some t -> zget t i = Some (Some p) -> p ∈ refs ext s.
Proof.
  intros Ht Hp. unfold refs. apply elem_of_app. left.
  destruct (table_refs_zset t i _ Hp) as (rest & Hr & _). rewrite Ht, Hr. set_solver.
Qed.

(** Adding one to a count that is exact stays exact: the new reference is
    accounted to [q]. *)
Lemma inv_increment ext s p nh :
  inv ext s -> nh_heap s !! p = Some nh -> alive s p -> zlen (refs ext s) < UINT_MAX ->
  inv (p :: ext) (nh_store p (with_users (u32 (nh_users nh + 1)) nh) s).
Proof.
  intros Hinv Hp Hal Hlt. pose proof Hinv as [Hu Ha Hc [Hd1 Hd2] Hs Hi Hm Hn Hf Hobj].
  set (nh' := with_users (u32 (nh_users nh + 1)) nh).
  assert (Hr : refs (p :: ext) (nh_store p nh' s) ≡ₚ p :: refs ext s).
  { trans (refs (p :: ext) s).
    - rewrite (refs_store (p :: ext) (p :: ext) [] s p nh nh' Hp); by rewrite app_nil_r.
    - unfold refs. rewrite !(assoc_L (++)). by rewrite <- Permutation_middle. }
  assert (Halive : forall q, alive (nh_store p nh' s) q <-> alive s q).
  { intros q. unfold alive. cbn. rewrite lookup_insert_is_Some'. destruct Hal as [? ?]. naive_solver. }
  split.
  - intros q nhq Hq Hqa. rewrite Halive in Hqa. cbn in Hq. rewrite (occ_perm _ _ _ Hr).
    destruct (decide (p = q)) as [<-|Hne].
    + rewrite lookup_insert_eq in Hq. simplify_eq. rewrite occ_cons_eq. cbn.
      rewrite (Hu _ _ Hp Hal). pose proof (occ_le_length p (refs ext s)).
      pose proof (occ_nonneg p (refs ext s)). rewrite u32_small; lia.
    + rewrite lookup_insert_ne in Hq by done. rewrite occ_cons_ne by done. eauto.
  - intros q. rewrite Hr, elem_of_cons, Halive. intros [->|]; [done|]. by apply Ha.
  - intros q nhq Hq Hqa. rewrite Halive in Hqa. cbn in Hq. destruct (decide (p = q)) as [<-|Hne].
    + rewrite lookup_insert_eq in Hq. simplify_eq. exact (Hc _ _ Hp Hal).
    + rewrite lookup_insert_ne in Hq by done. eauto.
  - cbn. split; [done|]. intros q Hq. destruct (Hd2 q Hq) as (nhq & Hq1 & Hq2).
    exists nhq. rewrite lookup_insert_ne; [done|]. intros <-. by destruct Hal as (_ & _ & ?).
  - unfold zlen in *. rewrite Hr. cbn. lia.
  - intros t i q Ht Hq. destruct (Hi t i q Ht Hq) as (nhq & Hq1 & Hq2). cbn.
    destruct (decide (p = q)) as [<-|Hne]; [exists nh'|exists nhq].
    + rewrite lookup_insert_eq. simplify_eq. done.
    + by rewrite lookup_insert_ne.
  - done.
  - intros q. cbn. rewrite lookup_insert_is_Some'. intros [[<-|?]|?]; apply Hn; eauto.
  - done.
  - intros q nhq Hq Hqf. cbn in Hq, Hqf. destruct (decide (p = q)) as [<-|Hne].
    + rewrite lookup_insert_eq in Hq. simplify_eq. exact (Hobj p nh Hp Hqf).
    + rewrite lookup_insert_ne in Hq by done. eauto.
Qed.

Lemma get_inv ext rid i s p s' :
  inv ext s -> zlen (refs ext s) < UINT_MAX ->
  vrouter_get_nexthop rid i s = (Some p, s') ->
  inv (p :: ext) s' /\ vr_nexthops s' = vr_nexthops s /\ vr_max_nexthops s' = vr_max_nexthops s /\
  __vrouter_get_nexthop i s = Some p.
Proof.
  intros Hinv Hlt Hg. unfold vrouter_get_nexthop in Hg.
  destruct (__vrouter_get_nexthop i s) as [q|] eqn:Hf; [|done].
  destruct (get_found _ _ _ Hf) as (t & Ht & Hz & _).
  pose proof (inv_alive _ _ Hinv q (table_ref_in ext s t i q Ht Hz)) as Hal.
  rewrite (alive_load _ _ Hal) in Hg. pose proof Hal as [[nh Hnh] _]. rewrite Hnh in Hg.
  simplify_eq. split; [|done]. by apply inv_increment.
Qed.

Lemma delete_inv ext rid i s :
  inv ext s -> zlen (refs ext s) < UINT_MAX ->
  inv ext (vr_nexthop_delete rid i s).2 /\
  __vrouter_get_nexthop i (vr_nexthop_delete rid i s).2 = None /\
  ((vr_nexthop_delete rid i s).1 = 0 <-> is_Some (__vrouter_get_nexthop i s)).
Proof.
  intros Hinv Hlt. unfold vr_nexthop_delete.
  destruct (vrouter_get_nexthop rid i s) as [[p|] s1] eqn:Hg.
  - destruct (get_inv ext rid i s p s1 Hinv Hlt Hg) as (Hinv1 & Et & Em & Hf).
    destruct (get_found _ _ _ Hf) as (t & Ht & Hz & Hi).
    destruct (put_top_inv ext p s1 Hinv1) as [Hinv2 _].
    set (s2 := vrouter_put_nexthop (Some p) s1) in *.
    assert (Hev : evolves s1 s2) by apply put_evolves.
    assert (Ht2 : vr_nexthops s2 = Some t) by (by rewrite (ev_table _ _ Hev), Et).
    destruct (nh_del_inv ext s2 t i p Hinv2 Ht2 Hz) as (Hinv3 & Ht3 & Hm3 & _). cbn [fst snd].
    split; [done|]. rewrite Hf. split; [|by split; eauto].
    unfold __vrouter_get_nexthop. rewrite Ht3. case_match; [done|].
    rewrite zget_zset_eq; [done|]. by apply zget_range in Hz.
  - unfold vrouter_get_nexthop in Hg.
    destruct (__vrouter_get_nexthop i s) as [p|] eqn:Hf; [by case_match|]. simplify_eq. cbn [fst snd].
    split; [done|]. split; [done|]. split; [done|]. by intros [].
Qed.

Lemma run_deferred_inv ext s : inv ext s -> inv ext (run_deferred s).
Proof.
  intros Hinv. unfold run_deferred. destruct (nh_deferred s) as [|p d] eqn:Hd; [done|].
  cbn [vrouter_free_nexthop_cb].
  destruct (inv_deferred _ _ Hinv) as [Hnd Hx]. rewrite Hd in Hnd, Hx.
  apply NoDup_cons in Hnd as [Hpd Hnd].
  destruct (Hx p) as (nh & Hp & Hnf & He); [set_solver|].
  destruct (free_shape p nh (set_deferred d s)) as [nh' Hsh].
  { unfold nh_load. cbn. by rewrite decide_False. }
  { by apply (inv_obj _ _ Hinv p). }
  destruct (Hsh He) as (He' & Hid & Hob & Hh & Hf & Ht & Hm & Hn & Hdf & Hfl). cbn in Hh, Hf, Ht, Hm, Hn, Hdf, Hfl.
  apply (inv_retire ext s _ p nh nh'); try done.
  - intros Hin. destruct (inv_alive _ _ Hinv p Hin) as (_ & _ & Hn'). rewrite Hd in Hn'. set_solver.
  - intros q. unfold alive. rewrite Hh, Hf, Hdf, lookup_insert_is_Some', Hd. set_solver.
  - set_solver.
  - set_solver.
  - by rewrite Hdf.
  - intros q. rewrite Hdf, Hf, Hd. intros Hq. destruct (Hx q) as (? & _ & ? & _); [set_solver|].
    split; [|set_solver]. set_solver.
Qed.

Lemma inv_same ext s s' :
  nh_heap s' = nh_heap s -> nh_freed s' = nh_freed s -> vr_nexthops s' = vr_nexthops s ->
  vr_max_nexthops s' = vr_max_nexthops s -> nh_deferred s' = nh_deferred s ->
  nh_next s' = nh_next s -> nh_fault s' = nh_fault s -> inv ext s -> inv ext s'.
Proof.
  intros E1 E2 E3 E4 E5 E6 E7 [Hu Ha Hc Hd Hs Hi Hm Hn Hf Hobj].
  assert (Er : forall e, refs e s' = refs e s) by (intros; unfold refs; by rewrite E1, E3).
  assert (Ea : forall q, alive s' q <-> alive s q) by (intros; unfold alive; by rewrite E1, E2, E5).
  split; rewrite ?Er, ?E1, ?E2, ?E3, ?E4, ?E5, ?E6, ?E7; try done;
    intros ?; rewrite ?Ea; try done; intros ?; rewrite ?Ea; eauto.
Qed.

(** A fresh nexthop enters with no references; a composite takes over the ones
    its builder held. *)
Lemma new_object_inv ext ext' nh s p s' :
  inv ext s -> new_object nh s = (Some p, s') ->
  nh_users nh = 0 -> comp_wf nh -> obj_ok nh -> edges_of nh ++ ext' ≡ₚ ext ->
  inv ext' s' /\ alive s' p /\ nh_heap s' !! p = Some nh /\ p ∉ refs ext' s' /\
  vr_nexthops s' = vr_nexthops s /\ vr_max_nexthops s' = vr_max_nexthops s /\
  zlen (refs ext' s') = zlen (refs ext s).
Proof.
  intros [Hu Ha Hc [Hd1 Hd2] Hs Hi Hm Hn Hf Hobj] Hnew Hus Hwf Hob Hperm.
  unfold new_object, host_alloc in Hnew.
  destruct (match nh_oracle s with [] => true | b :: _ => b end); [|done].
  cbn in Hnew. injection Hnew as <- <-. set (p := nh_next s). set (s' := mk_router _ _ _ _ _ _ _ _ _ _ _).
  assert (Hfresh : nh_heap s !! p = None).
  { destruct (nh_heap s !! p) eqn:E; [|done]. assert (p < nh_next s) by (apply Hn; eauto). lia. }
  assert (Hnf : p ∉ nh_freed s) by (intros Hin; assert (p < nh_next s) by (apply Hn; eauto); lia).
  assert (Hndf : p ∉ nh_deferred s).
  { intros Hin. destruct (Hd2 p Hin) as (? & Hx & _). congruence. }
  assert (Hr : refs ext' s' ≡ₚ refs ext s).
  { unfold refs. cbn. rewrite heap_edges_insert, delete_id by done.
    apply Permutation_app_head. rewrite <- Hperm. set (D := heap_edges _).
    rewrite <- (assoc_L (++)). rewrite !(assoc_L (++)).
    apply Permutation_app_tail, Permutation_app_comm. }
  assert (Hnr : p ∉ refs ext s).
  { intros Hin. destruct (Ha p Hin) as [[? Hx] _]. congruence. }
  assert (Halive : forall q, alive s' q <-> q = p \/ alive s q).
  { intros q. unfold alive. cbn. rewrite lookup_insert_is_Some'. naive_solver. }
  assert (Hinv' : inv ext' s').
  { split.
    - intros q nhq Hq Hqa. rewrite (occ_perm _ _ _ Hr). cbn in Hq.
      destruct (decide (p = q)) as [<-|Hne].
      + fold p in Hq. rewrite lookup_insert_eq in Hq. simplify_eq. rewrite Hus. symmetry. by apply occ_zero.
      + fold p in Hq. rewrite lookup_insert_ne in Hq by done. apply Hu; [done|]. by apply Halive in Hqa as [->|].
    - intros q. rewrite Hr, Halive. eauto.
    - intros q nhq Hq Hqa. cbn in Hq. fold p in Hq. destruct (decide (p = q)) as [<-|Hne].
      + rewrite lookup_insert_eq in Hq. by simplify_eq.
      + rewrite lookup_insert_ne in Hq by done. apply Halive in Hqa as [->|]; [done|]. eauto.
    - cbn. split; [done|]. intros q Hq. destruct (Hd2 q Hq) as (nhq & ? & ?). exists nhq.
      rewrite lookup_insert_ne; [done|]. by intros <-.
    - unfold zlen in *. by rewrite Hr.
    - intros t i q Ht Hq. destruct (Hi t i q Ht Hq) as (nhq & ? & ?). exists nhq. cbn.
      rewrite lookup_insert_ne; [done|]. fold p. intros <-. congruence.
    - done.
    - intros q. cbn. rewrite lookup_insert_is_Some'. intros [[<-|Hx]|Hx]; [lia|..];
        assert (q < nh_next s) by (apply Hn; eauto); lia.
    - done.
    - intros q nhq Hq Hqf. cbn in Hq, Hqf. fold p in Hq. destruct (decide (p = q)) as [<-|Hne].
      + rewrite lookup_insert_eq in Hq. by simplify_eq.
      + rewrite lookup_insert_ne in Hq by done. eauto. }
  split; [done|]. split; [apply Halive; by left|]. split; [cbn; apply lookup_insert_eq|].
  split; [by rewrite Hr|]. split; [done|]. split; [done|]. unfold zlen. by rewrite Hr.
Qed.

Lemma add_inv ext p nh t s :
  inv ext s -> nh_heap s !! p = Some nh -> alive s p -> 0 <= nh_id nh ->
  (vr_nexthops s = Some t \/ vr_max_nexthops s <= nh_id nh) -> zlen (refs ext s) < UINT_MAX ->
  inv ext (vrouter_add_nexthop p s).2 /\
  ((vrouter_add_nexthop p s).1 = 0 <-> nh_id nh < vr_max_nexthops s).
Proof.
  intros Hinv Hp Hal Hid Ht Hlt. unfold vrouter_add_nexthop. rewrite (alive_load _ _ Hal), Hp.
  destruct (vr_max_nexthops s <=? nh_id nh) eqn:Hm.
  { apply Z.leb_le in Hm. cbn. split; [done|]. unfold EINVAL. lia. }
  apply Z.leb_gt in Hm. destruct Ht as [Ht|Ht]; [|lia].
  destruct (__vrouter_get_nexthop (nh_id nh) s) as [q|] eqn:Hg; [cbn; split; [done|lia]|].
  set (s1 := nh_store p (with_users (u32 (nh_users nh + 1)) nh) s).
  assert (Hinv1 : inv (p :: ext) s1) by (by apply inv_increment).
  unfold __vrouter_set_nexthop. change (vr_nexthops s1) with (vr_nexthops s). rewrite Ht.
  pose proof (inv_max _ _ Hinv t Ht) as Hmax.
  destruct (zget_is_Some t (nh_id nh)) as [o Ho]; [lia|]. rewrite Ho. cbn [fst snd].
  assert (o = None) as ->.
  { unfold __vrouter_get_nexthop in Hg. rewrite Ht, Ho in Hg. rewrite (proj2 (Z.leb_gt _ _)) in Hg by lia.
    done. }
  split; [|split; [done|done]].
  apply (inv_table (p :: ext) ext s1 t (nh_id nh) None (Some p)); [done|done|done| |done].
  intros q [= <-]. eexists. split; [cbn; apply lookup_insert_eq|done].
Qed.

(** ** Table set up and tear down *)

Lemma allocate_discard_inv ext s :
  inv ext s -> is_Some (vr_nexthops s) \/ vr_max_nexthops s <= 0 ->
  zlen (refs ext s) < UINT_MAX -> inv ext (nh_allocate_discard s).2.
Proof.
  intros Hi1 Ht1 Hl1. unfold nh_allocate_discard.
  destruct (new_object discard_nexthop s) as [[p|] s2] eqn:Hnew.
  - destruct (new_object_inv ext ext discard_nexthop s p s2 Hi1 Hnew) as (Hi2 & Ha2 & Hp2 & _ & Ht2 & Hm2 & Hl2);
      [done|by apply comp_wf_emptied|by split_and!|by rewrite edges_of_emptied|].
    assert (Hi2' : inv ext (set_default (Some p) s2)) by (by apply (inv_same ext s2)).
    apply (add_inv ext p discard_nexthop (default [] (vr_nexthops s2))); try done.
    + destruct Ht1 as [[t Ht1]|Ht1]; [left; cbn|right; cbn; unfold NH_DISCARD_ID; lia].
      rewrite Ht2, Ht1. done.
    + change (refs ext (set_default (Some p) s2)) with (refs ext s2). lia.
  - unfold new_object, host_alloc in Hnew.
    destruct (match nh_oracle s with [] => true | b :: _ => b end); [done|].
    simplify_eq. by apply (inv_same ext s).
Qed.

(** A router without a table takes a new one, empty. *)
Lemma new_table_inv ext t nexthops s :
  inv ext s -> vr_max_nexthops s = 0 -> table_refs t = [] ->
  (forall t', t = Some t' -> zlen t' = nexthops /\ forall i p, zget t' i <> Some (Some p)) ->
  let s' := set_table t nexthops (host_alloc s).2 in
  inv ext s' /\ zlen (refs ext s') = zlen (refs ext s).
Proof.
  intros [Hu Ha Hc Hd Hs Hi Hm Hnx Hf Hobj] Hz Htr Hlen s'.
  assert (Hold : table_refs (vr_nexthops s) = []).
  { destruct (vr_nexthops s) as [t0|] eqn:Ht; [|done].
    pose proof (Hm t0 eq_refl). destruct t0; [done|]. unfold zlen in *. cbn in *. lia. }
  assert (Er : refs ext s' = refs ext s).
  { unfold refs, s'. cbn [vr_nexthops set_table host_alloc snd nh_heap]. by rewrite Htr, Hold. }
  split; [|by rewrite Er]. split; rewrite ?Er; try done.
  - intros t' i p Et Hx. cbn in Et. destruct (Hlen t' Et) as [_ Hno]. by apply Hno in Hx.
  - intros t' Et. cbn in Et. cbn. by apply Hlen.
Qed.

Lemma init_inv ext nexthops s :
  inv ext s -> 0 <= nexthops -> (vr_max_nexthops s = 0 \/ is_Some (vr_nexthops s)) ->
  zlen (refs ext s) < UINT_MAX ->
  inv ext (nh_table_init nexthops s).2.
Proof.
  intros Hinv Hn Hcase Hlt. unfold nh_table_init.
  set (tab := replicate (Z.to_nat nexthops) (@None nhp)).
  assert (Hnil : table_refs (Some tab) = []).
  { unfold table_refs, tab. cbn. induction (Z.to_nat nexthops); [done|]. by cbn. }
  assert (Hrep : forall t', Some tab = Some t' -> zlen t' = nexthops /\ forall i p, zget t' i <> Some (Some p)).
  { intros t' [= <-]. split; [unfold tab; rewrite zlen_replicate; lia|].
    intros i p Hx. pose proof (zget_replicate_default (Z.to_nat nexthops) (@None nhp) i) as Hd.
    fold tab in Hd. rewrite Hx in Hd. done. }
  destruct (vr_max_nexthops s =? 0) eqn:Hz.
  - apply Z.eqb_eq in Hz.
    destruct (new_table_inv ext (Some tab) nexthops s Hinv Hz Hnil Hrep) as [Hi1 Hl1].
    destruct (new_table_inv ext None nexthops s Hinv Hz) as [Hi2 _]; [done|done|].
    destruct (host_alloc s) as [[] s0]; cbn [fst snd] in *; [|done].
    rewrite Z.eqb_refl. destruct (ip4_default_nh _); [done|].
    apply allocate_discard_inv; [done|left; cbn; eauto|lia].
  - rewrite Z.eqb_refl. destruct (ip4_default_nh s); [done|]. apply Z.eqb_neq in Hz.
    apply allocate_discard_inv; [done|left; by destruct Hcase|done].
Qed.

(** One turn of the tear-down loop empties its slot. *)
Lemma exit_step_inv ext soft s t i :
  inv ext s -> vr_nexthops s = Some t -> 0 <= i < zlen t ->
  exists t', inv ext (nh_table_exit_step soft s i) /\
    vr_nexthops (nh_table_exit_step soft s i) = Some t' /\
    vr_max_nexthops (nh_table_exit_step soft s i) = vr_max_nexthops s /\
    t' = if soft && (i =? NH_DISCARD_ID) then t else zset t i None.
Proof.
  intros Hinv Ht Hi. unfold nh_table_exit_step.
  destruct (soft && (i =? NH_DISCARD_ID)); [by exists t|].
  destruct (zget_is_Some t i Hi) as [o Ho]. pose proof (inv_max _ _ Hinv t Ht) as Hm.
  assert (Hg : __vrouter_get_nexthop i s = o).
  { unfold __vrouter_get_nexthop. rewrite Ht, Ho, (proj2 (Z.leb_gt _ _)) by lia. done. }
  rewrite Hg. destruct o as [p|].
  - destruct (nh_del_inv ext s t i p Hinv Ht Ho) as (? & ? & ? & _). eauto.
  - exists t. split_and!; try done. apply zget_ext; [by rewrite zlen_zset|].
    intros j Hj. rewrite zget_zset. case_decide as Hc; [|done]. destruct Hc as [<- _]. done.
Qed.

Lemma exit_loop_inv ext soft s t (k : nat) :
  inv ext s -> vr_nexthops s = Some t -> (k <= length t)%nat ->
  let s' := foldl (nh_table_exit_step soft) s (seqZ 0 (Z.of_nat k)) in
  exists t', inv ext s' /\ vr_nexthops s' = Some t' /\ vr_max_nexthops s' = vr_max_nexthops s /\
    zlen t' = zlen t /\
    forall i, zget t' i = if decide (0 <= i < Z.of_nat k /\ ~ (soft = true /\ i = NH_DISCARD_ID))
                          then Some None else zget t i.
Proof.
  intros Hinv Ht. induction k as [|k IH]; intros Hk.
  { exists t. split_and!; try done. intros i. rewrite decide_False; [done|]. lia. }
  destruct IH as (t1 & Hi1 & Ht1 & Hm1 & Hl1 & Hz1); [lia|].
  replace (Z.of_nat (S k)) with (Z.of_nat k + 1) by lia. rewrite seqZ_snoc by lia.
  cbn zeta. rewrite foldl_app. cbn [foldl]. rewrite Z.add_0_l.
  set (s1 := foldl _ s (seqZ 0 (Z.of_nat k))) in *.
  destruct (exit_step_inv ext soft s1 t1 (Z.of_nat k) Hi1 Ht1) as (t2 & Hi2 & Ht2 & Hm2 & E2).
  { unfold zlen in *. lia. }
  exists t2. split_and!; [done|done|congruence| |].
  - rewrite E2. case_match; [done|]. by rewrite zlen_zset.
  - intros i. rewrite E2.
    destruct (soft && (Z.of_nat k =? NH_DISCARD_ID)) eqn:Hs.
    + rewrite Hz1. apply andb_true_iff in Hs as [-> Hs]. apply Z.eqb_eq in Hs.
      apply decide_ext. lia.
    + rewrite zget_zset, Hz1. unfold zlen in *.
      assert (~ (soft = true /\ Z.of_nat k = NH_DISCARD_ID)).
      { intros [-> E]. rewrite E, Z.eqb_refl in Hs. done. }
      repeat case_decide; try done; exfalso; naive_solver lia.
Qed.

Lemma table_exit_inv ext soft s : inv ext s -> inv ext (nh_table_exit soft s).
Proof.
  intros Hinv. unfold nh_table_exit. destruct (vr_nexthops s) as [t|] eqn:Ht; [|done].
  pose proof (inv_max _ _ Hinv t Ht) as Hm.
  destruct (exit_loop_inv ext soft s t (length t) Hinv Ht) as (t' & Hi & Ht' & Hm' & Hl & Hz); [lia|].
  unfold zlen in Hm. rewrite <- Hm. destruct soft; [done|].
  set (s1 := foldl _ _ _) in *.
  assert (Hnil : table_refs (Some t') = []).
  { assert (Hall : forall o, o ∈ t' -> o = None).
    { intros o [i Ho]%list_elem_of_lookup_1. specialize (Hz (Z.of_nat i)).
      pose proof (lookup_lt_Some _ _ _ Ho). unfold zget in Hz at 1. unfold zlen in Hl.
      rewrite decide_True in Hz by lia. rewrite Nat2Z.id, Ho in Hz.
      rewrite decide_True in Hz; [by simplify_eq|]. split; [lia|]. by intros []. }
    unfold table_refs. cbn. clear -Hall. induction t' as [|o t' IH]; [done|]. cbn.
    rewrite (Hall o) by set_solver. cbn. apply IH. set_solver. }
  destruct Hi as [Hu Ha Hc Hd Hs Hids Hmx Hn Hf Hobj].
  assert (Er : refs ext (set_table None 0 (set_default None s1)) = refs ext s1).
  { unfold refs. cbn [vr_nexthops set_table set_default nh_heap]. by rewrite Ht', Hnil. }
  split; rewrite ?Er; done.
Qed.

Lemma release_retires p s : ~ alive (release_nexthop p s) p.
Proof.
  assert (Hfree : forall s, ~ alive (vrouter_free_nexthop p s) p).
  { clear s. intros s (Hs & Hf & _). unfold vrouter_free_nexthop, nh_load in Hs, Hf.
    case_decide as Hd; [done|].
    destruct (nh_heap s !! p) as [nh|] eqn:Hp; [destruct (nh_dev nh); set_solver|].
    cbn in Hs. rewrite Hp in Hs. by destruct Hs. }
  unfold release_nexthop. destruct (vr_not_ready s); [apply Hfree|].
  unfold vrouter_free_nexthop_defer, host_alloc.
  destruct (match nh_oracle s with [] => true | b :: _ => b end); cbn; [|apply Hfree].
  intros (_ & _ & Hd). cbn in Hd. set_solver.
Qed.

(** ** The life cycle as a transition system

    [ext] is the multiset of references that the rest of the data path holds:
    the routes, labels and packets in flight. *)

Inductive step : list nhp * router -> list nhp * router -> Prop :=
  | step_get ext s rid id p s' :
      zlen (refs ext s) < UINT_MAX -> vrouter_get_nexthop rid id s = (Some p, s') ->
      step (ext, s) (p :: ext, s')
  | step_put ext ext' s p :
      ext ≡ₚ p :: ext' -> step (ext, s) (ext', vrouter_put_nexthop (Some p) s)
  | step_create ext ext' s nh p s' :
      zlen (refs ext s) < UINT_MAX -> nh_users nh = 0 -> comp_wf nh -> obj_ok nh -> 0 <= nh_id nh ->
      is_Some (vr_nexthops s) -> edges_of nh ++ ext' ≡ₚ ext ->
      new_object nh s = (Some p, s') ->
      step (ext, s) (ext', (vrouter_add_nexthop p s').2)
  | step_delete ext s rid id :
      zlen (refs ext s) < UINT_MAX -> step (ext, s) (ext, (vr_nexthop_delete rid id s).2)
  | step_deferred ext s : step (ext, s) (ext, run_deferred s)
  | step_init ext s nexthops :
      zlen (refs ext s) < UINT_MAX -> 0 <= nexthops ->
      (vr_max_nexthops s = 0 \/ is_Some (vr_nexthops s)) ->
      step (ext, s) (ext, (nh_table_init nexthops s).2)
  | step_exit ext s soft : step (ext, s) (ext, nh_table_exit soft s)
  | step_ready ext s b :
      step (ext, s) (ext, mk_router (nh_heap s) (nh_freed s) (vr_nexthops s) (vr_max_nexthops s)
        (ip4_default_nh s) b (nh_deferred s) (nh_next s) (nh_oracle s) (nh_vifs s) (nh_fault s)).

Definition router0 (oracle : list bool) : router :=
  mk_router ∅ ∅ None 0 None true [] 1 oracle (mk_vifs [] []) false.

Lemma router0_inv oracle : inv [] (router0 oracle).
Proof.
  assert (Er : refs [] (router0 oracle) = []) by done.
  split; rewrite ?Er; cbn; try done.
  - intros p Hp. by apply not_elem_of_nil in Hp.
  - split; [constructor|]. intros p Hp. by apply not_elem_of_nil in Hp.
  - intros p [[nh Hp]|Hp]; [by rewrite lookup_empty in Hp|set_solver].
Qed.

Lemma step_inv c c' : step c c' -> inv c.1 c.2 -> inv c'.1 c'.2.
Proof.
  intros Hst Hinv. destruct Hst as [ext s rid id p s' Hlt Hg|ext ext' s p Hperm
    |ext ext' s nh p s' Hlt Hu Hwf Hob Hid [t Ht] Hperm Hnew|ext s rid id Hlt|ext s
    |ext s nx Hlt Hn Hc|ext s soft|ext s b]; cbn [fst snd] in *.
  - eapply get_inv; eauto.
  - apply put_top_inv. by apply (inv_perm ext).
  - destruct (new_object_inv ext ext' nh s p s' Hinv Hnew Hu Hwf Hob Hperm)
      as (Hi & Ha & Hp & _ & Ht' & _ & Hl).
    apply (add_inv ext' p nh t); try done; [left; congruence|lia].
  - by apply delete_inv.
  - by apply run_deferred_inv.
  - by apply init_inv.
  - by apply table_exit_inv.
  - by apply (inv_same ext s).
Qed.

Lemma steps_inv c c' : rtc step c c' -> inv c.1 c.2 -> inv c'.1 c'.2.
Proof. induction 1; eauto using step_inv. Qed.

(** C22: dropping a reference terminates, however deep composites nest and even
    when they refer to each other: a recursion depth of one more than the number of
    composites that still hold components is enough, and more changes nothing. *)
Theorem put_nexthop_terminates n p s :
  (put_fuel s <= n)%nat -> put_nexthop n p s = vrouter_put_nexthop (Some p) s.
Proof. intros Hn. unfold vrouter_put_nexthop. apply put_fuel_irrelevant; unfold put_fuel in *; lia. Qed.

(** [vrouter_put_nexthop] drops exactly the caller's reference: the counts
    stay exact, the nexthop survives if and only if it was not the last
    reference, and no object outside the ones referred to changes. *)
Theorem put_nexthop_spec ext p s :
  inv (p :: ext) s ->
  let s' := vrouter_put_nexthop (Some p) s in
  inv ext s' /\ (alive s' p <-> 1 < occ p (refs (p :: ext) s)) /\
  untouched (refs (p :: ext) s) s s'.
Proof.
  intros Hinv s'. destruct (put_top_inv ext p s Hinv) as [Hi Hu]. split; [done|]. split; [|done].
  assert (Hin : p ∈ refs (p :: ext) s) by (unfold refs; set_solver).
  pose proof (inv_alive _ _ Hinv p Hin) as Hal. pose proof Hal as [[nh Hp] _].
  pose proof (inv_users _ _ Hinv p nh Hp Hal) as Hus.
  pose proof (inv_small _ _ Hinv). pose proof (occ_le_length p (refs (p :: ext) s)).
  assert (occ p (refs (p :: ext) s) <> 0) by (intros E%occ_zero; done).
  pose proof (occ_nonneg p (refs (p :: ext) s)).
  unfold s', vrouter_put_nexthop, put_fuel. cbn [put_nexthop].
  rewrite (alive_load _ _ Hal), Hp, (proj2 (Z.eqb_neq (nh_users nh) 0)), u32_small by lia.
  destruct (nh_users nh - 1 =? 0) eqn:E.
  - apply Z.eqb_eq in E. split; [|lia]. intros Ha. by apply release_retires in Ha.
  - apply Z.eqb_neq in E. split; [lia|]. intros _. unfold alive. cbn.
    rewrite lookup_insert_eq. destruct Hal. eauto.
Qed.

(** Deleting a nexthop empties its table slot and keeps every count exact;
    the response is 0 when the slot held a nexthop and [-EINVAL] otherwise. *)
Theorem nexthop_delete_spec ext rid id s :
  inv ext s -> zlen (refs ext s) < UINT_MAX ->
  let r := vr_nexthop_delete rid id s in
  inv ext r.2 /\ __vrouter_get_nexthop id r.2 = None /\
  (r.1 = 0 <-> is_Some (__vrouter_get_nexthop id s)).
Proof. intros. by apply delete_inv. Qed.

(** A soft reset keeps the discard nexthop and empties every other slot; a
    full exit leaves no table.  Both keep every count exact. *)
Theorem table_exit_spec ext s t :
  inv ext s -> vr_nexthops s = Some t ->
  (inv ext (nh_table_exit true s) /\
   forall i, 0 <= i < vr_max_nexthops s ->
     __vrouter_get_nexthop i (nh_table_exit true s) =
       if decide (i = NH_DISCARD_ID) then __vrouter_get_nexthop i s else None) /\
  (inv ext (nh_table_exit false s) /\ vr_nexthops (nh_table_exit false s) = None /\
   vr_max_nexthops (nh_table_exit false s) = 0).
Proof.
  intros Hinv Ht. split; [split; [by apply table_exit_inv|]|split; [by apply table_exit_inv|]].
  - intros i Hi. unfold nh_table_exit. rewrite Ht.
    pose proof (inv_max _ _ Hinv t Ht) as Hm. rewrite <- Hm. unfold zlen.
    destruct (exit_loop_inv ext true s t (length t) Hinv Ht) as (t' & _ & Ht' & Hm' & _ & Hz); [lia|].
    unfold __vrouter_get_nexthop. rewrite Hm', Ht', Ht, Hz.
    rewrite (proj2 (Z.leb_gt _ _)) by lia. unfold zlen in Hm.
    repeat case_decide; try done; exfalso; naive_solver lia.
  - unfold nh_table_exit. by rewrite Ht.
Qed.

(** ** A concrete run

    A table of four nexthops; nexthop 1 is created and looked up, composite 2 takes
    the reference over as its component and is looked up, then both are deleted. *)

Definition demo_encap : vr_nexthop :=
  mk_nexthop NH_ENCAP AF_INET NH_FLAG_VALID 0 1 0 0 0 None 0 None None None (Some 7) info0.
Definition demo_composite (q : nhp) : vr_nexthop :=
  mk_nexthop NH_COMPOSITE AF_INET NH_FLAG_VALID 0 2 0 0 1 (Some [mk_component (Some q) 16 0]) 0
    None None None None info0.

Definition demo1 : router := Eval vm_compute in (nh_table_init 4 (router0 [])).2.
Definition demo2 : router := Eval vm_compute in (new_object demo_encap demo1).2.
Definition demo3 : router := Eval vm_compute in (vrouter_add_nexthop 2 demo2).2.
Definition demo4 : router := Eval vm_compute in (vrouter_get_nexthop 0 1 demo3).2.
Definition demo5 : router := Eval vm_compute in (new_object (demo_composite 2) demo4).2.
Definition demo6 : router := Eval vm_compute in (vrouter_add_nexthop 3 demo5).2.
Definition demo7 : router := Eval vm_compute in (vrouter_get_nexthop 0 2 demo6).2.
Definition demo8 : router := Eval vm_compute in (vr_nexthop_delete 0 1 demo7).2.
Definition demo9 : router := Eval vm_compute in (vr_nexthop_delete 0 2 demo8).2.

Lemma demo_reach7 : rtc step ([], router0 []) ([3], demo7).
Proof.
  apply (rtc_l _ _ ([], demo1)).
  { replace demo1 with (nh_table_init 4 (router0 [])).2 by (by vm_compute).
    apply step_init; [by vm_compute|done|by left]. }
  apply (rtc_l _ _ ([], demo3)).
  { replace demo3 with (vrouter_add_nexthop 2 demo2).2 by (by vm_compute).
    apply (step_create [] [] demo1 demo_encap); try by vm_compute. eexists; reflexivity. }
  apply (rtc_l _ _ ([2], demo4)).
  { apply (step_get [] demo3 0 1); by vm_compute. }
  apply (rtc_l _ _ ([], demo6)).
  { replace demo6 with (vrouter_add_nexthop 3 demo5).2 by (by vm_compute).
    apply (step_create [2] [] demo4 (demo_composite 2)); try by vm_compute.
    - intros _ _. by eexists.
    - eexists; reflexivity. }
  apply (rtc_l _ _ ([3], demo7)); [|done].
  apply (step_get [] demo6 0 2); by vm_compute.
Qed.

Lemma demo_reach9 : rtc step ([], router0 []) ([3], demo9).
Proof.
  eapply rtc_r; [eapply rtc_r; [exact demo_reach7|]|].
  - replace demo8 with (vr_nexthop_delete 0 1 demo7).2 by (by vm_compute).
    apply (step_delete [3] demo7 0 1). by vm_compute.
  - replace demo9 with (vr_nexthop_delete 0 2 demo8).2 by (by vm_compute).
    apply (step_delete [3] demo8 0 2). by vm_compute.
Qed.

Lemma demo7_inv : inv [3] demo7.
Proof. exact (steps_inv _ _ demo_reach7 (router0_inv [])). Qed.

Lemma demo9_inv : inv [3] demo9.
Proof. exact (steps_inv _ _ demo_reach9 (router0_inv [])). Qed.

Lemma put_nexthop_terminates_witness :
  put_nexthop 5 3 demo9 = vrouter_put_nexthop (Some 3) demo9.
Proof. apply (put_nexthop_terminates 5 3 demo9). vm_compute. lia. Defined.

Lemma put_nexthop_spec_witness :
  let s' := vrouter_put_nexthop (Some 3) demo9 in
  inv [] s' /\ (alive s' 3 <-> 1 < occ 3 (refs [3] demo9)) /\ untouched (refs [3] demo9) demo9 s'.
Proof. exact (put_nexthop_spec [] 3 demo9 demo9_inv). Defined.

Lemma nexthop_delete_spec_witness :
  let r := vr_nexthop_delete 0 1 demo7 in
  inv [3] r.2 /\ __vrouter_get_nexthop 1 r.2 = None /\
  (r.1 = 0 <-> is_Some (__vrouter_get_nexthop 1 demo7)).
Proof. apply (nexthop_delete_spec [3] 0 1 demo7 demo7_inv). by vm_compute. Defined.

Lemma table_exit_spec_witness :
  (inv [3] (nh_table_exit true demo7) /\
   forall i, 0 <= i < vr_max_nexthops demo7 ->
     __vrouter_get_nexthop i (nh_table_exit true demo7) =
       if decide (i = NH_DISCARD_ID) then __vrouter_get_nexthop i demo7 else None) /\
  (inv [3] (nh_table_exit false demo7) /\ vr_nexthops (nh_table_exit false demo7) = None /\
   vr_max_nexthops (nh_table_exit false demo7) = 0).
Proof. exact (table_exit_spec [3] demo7 [Some 1; Some 2; Some 3; None] demo7_inv eq_refl). Defined.

(** Dropping the last reference frees the composite and its component. *)
Example demo_end :
  nh_freed (vrouter_put_nexthop (Some 3) demo9) = {[ 2; 3 ]} /\
  vif_log (nh_vifs (vrouter_put_nexthop (Some 3) demo9)) = [(false, 7)].
Proof. by vm_compute. Qed.

(** ** The interface the tables use *)

Definition nh_field (f : vr_nexthop -> Z) (s : router) (p : nhp) : Z :=
  default 0 (f <$> nh_heap s !! p).

#[global] Instance router_ops : NhOps router := {
  nh_get := vrouter_get_nexthop;
  nh_put := vrouter_put_nexthop;
  nh_rid_of := nh_field nh_rid;
  nh_id_of := nh_field nh_id;
  nh_type_of := nh_field nh_type;
  nh_flags_of := nh_field nh_flags;
  nh_family_of := nh_field nh_family
}.

Lemma nh_field_static f g s s' p :
  (forall nh, f nh = g (static nh)) ->
  static <$> nh_heap s' !! p = static <$> nh_heap s !! p -> nh_field f s' p = nh_field f s p.
Proof.
  intros Hf Hs. unfold nh_field.
  assert (Hx : forall o : option vr_nexthop, f <$> o = g <$> (static <$> o)) by (intros [nh|]; cbn; by rewrite ?Hf).
  by rewrite !Hx, Hs.
Qed.

Lemma evolves_same s s' : evolves s s' -> same_nhs s s'.
Proof.
  intros [Ht Hm _ Hs _]. split; cbn.
  - intros rid id. unfold vrouter_get_nexthop, __vrouter_get_nexthop. rewrite Ht, Hm.
    repeat case_match; simplify_eq/=; done.
  - intros p. by apply (nh_field_static _ (fun x => x.2)).
  - intros p. by apply (nh_field_static _ (fun x => x.1.2)).
  - intros p. by apply (nh_field_static _ (fun x => x.1.1.1.1)).
Qed.

Lemma get_evolves rid i s : evolves s (vrouter_get_nexthop rid i s).2.
Proof.
  unfold vrouter_get_nexthop. destruct (__vrouter_get_nexthop i s) as [p|]; [|done].
  destruct (nh_load p s) as [nh|] eqn:Hp; [|apply fault_evolves].
  apply nh_load_heap in Hp. by apply (store_evolves _ nh).
Qed.

#[global] Instance router_laws : NhLaws router.
Proof.
  split; cbn.
  - intros rid id s. apply evolves_same, get_evolves.
  - intros [p|] s; [|done]. apply evolves_same, put_evolves.
  - done.
Qed.

Lemma inv_table_ok ext s : inv ext s -> nh_table_ok s.
Proof.
  intros Hinv rid id p Hg. cbn in Hg. unfold vrouter_get_nexthop in Hg.
  destruct (__vrouter_get_nexthop id s) as [q|] eqn:Hf; [|done].
  assert (q = p) as -> by (repeat case_match; by simplify_eq/=).
  destruct (get_found _ _ _ Hf) as (t & Ht & Hz & _).
  destruct (inv_ids _ _ Hinv t id p Ht Hz) as (nh & Hp & <-). cbn. unfold nh_field. by rewrite Hp.
Qed.

(** The counts of the nexthop table are exact. *)
#[global] Program Instance router_refs : NhRefs router := {
  refs_held := inv;
  refs_room l s := zlen (refs l s) < UINT_MAX
}.
Next Obligation. cbn. intros l l' s Hp. by apply inv_perm. Qed.
Next Obligation. cbn. intros l rid id s s' p Hinv Hlt Hg. by apply (get_inv l rid id s). Qed.
Next Obligation.
  cbn. intros l rid i s s' Hinv Hg. unfold vrouter_get_nexthop in Hg.
  destruct (__vrouter_get_nexthop i s) as [q|] eqn:Hf; [|congruence].
  destruct (get_found _ _ _ Hf) as (t & Ht & Hz & _).
  pose proof (inv_alive _ _ Hinv q (table_ref_in l s t i q Ht Hz)) as Hal.
  rewrite (alive_load _ _ Hal) in Hg. destruct Hal as [[nh Hnh] _]. by rewrite Hnh in Hg.
Qed.
Next Obligation. cbn. intros l s p Hinv. by apply (put_top_inv l p s). Qed.

End Nexthop.
