(* ===== verification/RouteReq.v ===== *)
(** * Route requests

    [struct vr_route_req] (include/vr_route.h) wraps the [vr_route_req] message
    that the agent sends (sandesh/vr.sandesh) with the nexthop that the data path
    resolved for it.  The route tables read and write it in place; here every
    function that writes it returns the new record. *)

From S2P Require Import Prelude NhIface.

Definition VR_RT_LABEL_VALID_FLAG : Z := 1.
Definition VR_BE_INVALID_INDEX : Z := UINT_MAX.
Definition VR_ETHER_ALEN : Z := 6.
Definition MTRIE_INVALID_LABEL : Z := 1048575.

(** [rtr_index] holds a C [int] that the code compares as [unsigned]; it is kept
    in unsigned form. *)
Record vr_route_req := mk_req {
  rtr_vrf_id : Z;
  rtr_family : Z;
  rtr_prefix : list Z;
  rtr_prefix_len : Z;
  rtr_rid : Z;
  rtr_label_flags : Z;
  rtr_label : Z;
  rtr_nh_id : Z;
  rtr_mac : list Z;
  rtr_mac_size : Z;
  rtr_replace_plen : Z;
  rtr_index : Z;
  rtr_nh : option nhp
}.

Definition with_prefix (p : list Z) (len : Z) (r : vr_route_req) : vr_route_req :=
  mk_req (rtr_vrf_id r) (rtr_family r) p len (rtr_rid r) (rtr_label_flags r) (rtr_label r)
    (rtr_nh_id r) (rtr_mac r) (rtr_mac_size r) (rtr_replace_plen r) (rtr_index r) (rtr_nh r).

Definition with_nh (nh : option nhp) (r : vr_route_req) : vr_route_req :=
  mk_req (rtr_vrf_id r) (rtr_family r) (rtr_prefix r) (rtr_prefix_len r) (rtr_rid r)
    (rtr_label_flags r) (rtr_label r) (rtr_nh_id r) (rtr_mac r) (rtr_mac_size r)
    (rtr_replace_plen r) (rtr_index r) nh.

Definition with_nh_id (id : Z) (r : vr_route_req) : vr_route_req :=
  mk_req (rtr_vrf_id r) (rtr_family r) (rtr_prefix r) (rtr_prefix_len r) (rtr_rid r)
    (rtr_label_flags r) (rtr_label r) id (rtr_mac r) (rtr_mac_size r)
    (rtr_replace_plen r) (rtr_index r) (rtr_nh r).

Definition with_label (flags label : Z) (r : vr_route_req) : vr_route_req :=
  mk_req (rtr_vrf_id r) (rtr_family r) (rtr_prefix r) (rtr_prefix_len r) (rtr_rid r)
    flags label (rtr_nh_id r) (rtr_mac r) (rtr_mac_size r)
    (rtr_replace_plen r) (rtr_index r) (rtr_nh r).

Definition with_index (i : Z) (r : vr_route_req) : vr_route_req :=
  mk_req (rtr_vrf_id r) (rtr_family r) (rtr_prefix r) (rtr_prefix_len r) (rtr_rid r)
    (rtr_label_flags r) (rtr_label r) (rtr_nh_id r) (rtr_mac r) (rtr_mac_size r)
    (rtr_replace_plen r) i (rtr_nh r).

Definition with_mac (mac : list Z) (size : Z) (r : vr_route_req) : vr_route_req :=
  mk_req (rtr_vrf_id r) (rtr_family r) (rtr_prefix r) (rtr_prefix_len r) (rtr_rid r)
    (rtr_label_flags r) (rtr_label r) (rtr_nh_id r) mac size
    (rtr_replace_plen r) (rtr_index r) (rtr_nh r).

Definition IS_MAC_ZERO (mac : list Z) : bool := forallb (Z.eqb 0) (take 6 mac).

Definition label_valid (flags : Z) : bool := negb (Z.land flags VR_RT_LABEL_VALID_FLAG =? 0).

(** The label a table keeps for a request: all ones when none is given. *)
Definition req_label (r : vr_route_req) : Z :=
  if label_valid (rtr_label_flags r) then Z.land (rtr_label r) 1048575 else MTRIE_INVALID_LABEL.
