(* ===== verification/NexthopAdd.v ===== *)
(** * Nexthop requests (dp-core/vr_nexthop.c)

    A request of the agent creates a nexthop or changes one in place: the object keeps
    its address, its references and its encapsulation area, and everything else is
    written again from the request.  A composite drops the references to its old
    components and takes references to the new ones.

    The theorems of [NexthopAddProofs.v] say what every request does, as long as its
    values fit and a change that is not refused keeps the type and makes no other tunnel a
    UDP tunnel over IPv6; [NexthopLife.v] has requests that break it. *)

From stdpp Require Import gmap.
From S2P Require Import Prelude NhIface Queue Message Nexthop RouteReq.

Definition NH_RCV : Z := 1.
Definition NH_RESOLVE : Z := 4.
Definition NH_VRF_TRANSLATE : Z := 7.
Definition NH_MAX : Z := 9.

Definition NH_FLAG_ENCAP_L2 : Z := 4.
Definition NH_FLAG_TUNNEL_GRE : Z := 8.
Definition NH_FLAG_TUNNEL_UDP_MPLS : Z := 64.
Definition NH_FLAG_TUNNEL_VXLAN : Z := 128.
Definition NH_FLAG_COMPOSITE_FABRIC : Z := 512.
Definition NH_FLAG_COMPOSITE_ECMP : Z := 1024.
Definition NH_FLAG_COMPOSITE_L2 : Z := 2048.
Definition NH_FLAG_COMPOSITE_EVPN : Z := 4096.
Definition NH_FLAG_COMPOSITE_ENCAP : Z := 8192.
Definition NH_FLAG_COMPOSITE_TOR : Z := 16384.

Definition VR_IP6_ADDRESS_LEN : Z := 16.

Module NexthopAdd.
Import Nexthop Message.

(** ** The request *)

(** [vr_nexthop_req] of the message schema.  A list field is a pointer with a size; the
    pointers to the IPv6 addresses are tested without their sizes. *)
Record vr_nexthop_req := mk_nhr {
  nhr_type : Z;
  nhr_family : Z;
  nhr_id : Z;
  nhr_rid : Z;
  nhr_encap_oif_id : Z;
  nhr_encap_family : Z;
  nhr_vrf : Z;
  nhr_tun_sip : Z;
  nhr_tun_dip : Z;
  nhr_tun_sport : Z;
  nhr_tun_dport : Z;
  nhr_ref_cnt : Z;
  nhr_marker : Z;
  nhr_flags : Z;
  nhr_encap : list Z;
  nhr_nh_list : list Z;
  nhr_label_list : list Z;
  nhr_nh_count : Z;
  nhr_tun_sip6 : option (list Z);
  nhr_tun_dip6 : option (list Z)
}.

Definition has (flag flags : Z) : bool := negb (Z.land flags flag =? 0).

Definition nhr_valid (req : vr_nexthop_req) : bool := has NH_FLAG_VALID (nhr_flags req).

(** ** Writing the fields of a nexthop in place *)

Definition modify (p : nhp) (f : vr_nexthop -> vr_nexthop) (s : router) : router :=
  match nh_load p s with
  | Some nh => nh_store p (f nh) s
  | None => set_fault s
  end.

Definition with_info (i : nh_info) (nh : vr_nexthop) : vr_nexthop :=
  mk_nexthop (nh_type nh) (nh_family nh) (nh_flags nh) (nh_vrf nh) (nh_id nh) (nh_rid nh)
    (nh_users nh) (nh_component_cnt nh) (nh_component_nh nh) (nh_component_ecmp_cnt nh)
    (nh_component_ecmp nh) (nh_udp_tun6_sip nh) (nh_udp_tun6_dip nh) (nh_dev nh) i.

Definition with_dev (d : option Z) (nh : vr_nexthop) : vr_nexthop :=
  mk_nexthop (nh_type nh) (nh_family nh) (nh_flags nh) (nh_vrf nh) (nh_id nh) (nh_rid nh)
    (nh_users nh) (nh_component_cnt nh) (nh_component_nh nh) (nh_component_ecmp_cnt nh)
    (nh_component_ecmp nh) (nh_udp_tun6_sip nh) (nh_udp_tun6_dip nh) d (nh_rest nh).

Definition with_flags (f : Z) (nh : vr_nexthop) : vr_nexthop :=
  mk_nexthop (nh_type nh) (nh_family nh) f (nh_vrf nh) (nh_id nh) (nh_rid nh)
    (nh_users nh) (nh_component_cnt nh) (nh_component_nh nh) (nh_component_ecmp_cnt nh)
    (nh_component_ecmp nh) (nh_udp_tun6_sip nh) (nh_udp_tun6_dip nh) (nh_dev nh) (nh_rest nh).

Definition info_reach (r : nh_reach) (i : nh_info) : nh_info :=
  mk_info (nh_u i) (nh_encap_family i) (nh_encap_len i) (nh_tun_sip i) (nh_tun_dip i)
    (nh_tun_sport i) (nh_tun_dport i) (nh_tun_encap_len i) (nh_data_size i) (nh_data i) r (nh_validate_src i).

Definition with_reach (r : nh_reach) (nh : vr_nexthop) : vr_nexthop :=
  with_info (info_reach r (nh_rest nh)) nh.

Definition info_validate (v : nh_validate) (i : nh_info) : nh_info :=
  mk_info (nh_u i) (nh_encap_family i) (nh_encap_len i) (nh_tun_sip i) (nh_tun_dip i)
    (nh_tun_sport i) (nh_tun_dport i) (nh_tun_encap_len i) (nh_data_size i) (nh_data i) (nh_reach_nh i) v.

Definition with_validate (v : nh_validate) (nh : vr_nexthop) : vr_nexthop :=
  with_info (info_validate v (nh_rest nh)) nh.

Definition with_member (m : nh_member) (nh : vr_nexthop) : vr_nexthop :=
  let i := nh_rest nh in
  with_info (mk_info m (nh_encap_family i) (nh_encap_len i) (nh_tun_sip i) (nh_tun_dip i)
    (nh_tun_sport i) (nh_tun_dport i) (nh_tun_encap_len i) (nh_data_size i) (nh_data i) (nh_reach_nh i) (nh_validate_src i)) nh.

(** Writing a scalar member of the union overwrites the pointers of the others. *)
Definition overwrite (m : nh_member) (nh : vr_nexthop) : vr_nexthop :=
  with_member m (with_tun6 None None (with_components 0 None (with_ecmp 0 None nh))).

Definition with_encap (family len : Z) (nh : vr_nexthop) : vr_nexthop :=
  let nh1 := overwrite U_encap nh in
  let i := nh_rest nh1 in
  with_info (mk_info (nh_u i) family len (nh_tun_sip i) (nh_tun_dip i) (nh_tun_sport i)
    (nh_tun_dport i) (nh_tun_encap_len i) (nh_data_size i) (nh_data i) (nh_reach_nh i) (nh_validate_src i)) nh1.

Definition info_tun (sip dip sport dport len : Z) (i : nh_info) : nh_info :=
  mk_info (nh_u i) (nh_encap_family i) (nh_encap_len i) sip dip sport dport len
    (nh_data_size i) (nh_data i) (nh_reach_nh i) (nh_validate_src i).

Definition with_tun (m : nh_member) (sip dip sport dport len : Z) (nh : vr_nexthop) : vr_nexthop :=
  let nh1 := overwrite m nh in with_info (info_tun sip dip sport dport len (nh_rest nh1)) nh1.

(** [memcpy] to the encapsulation area, which must have the room. *)
Definition write_data (p : nhp) (bytes : list Z) (s : router) : router :=
  match nh_load p s with
  | None => set_fault s
  | Some nh =>
      let i := nh_rest nh in
      if zlen bytes <=? zlen (nh_data i) then
        nh_store p (with_info (mk_info (nh_u i) (nh_encap_family i) (nh_encap_len i) (nh_tun_sip i)
          (nh_tun_dip i) (nh_tun_sport i) (nh_tun_dport i) (nh_tun_encap_len i) (nh_data_size i)
          (bytes ++ drop (length bytes) (nh_data i)) (nh_reach_nh i) (nh_validate_src i)) nh) s
      else set_fault s
  end.

Definition put_vif (d : option Z) (s : router) : router :=
  match d with Some d => vrouter_put_interface d s | None => s end.

(** ** One function per type *)

Definition nh_resolve_add (p : nhp) (req : vr_nexthop_req) (s : router) : Z * router :=
  (0, modify p (with_reach R_resolve) s).

Definition nh_l2_rcv_add (p : nhp) (req : vr_nexthop_req) (s : router) : Z * router :=
  (0, modify p (with_reach R_l2_rcv) s).

Definition nh_vrf_translate_add (p : nhp) (req : vr_nexthop_req) (s : router) : Z * router :=
  (0, modify p (with_reach R_vrf_translate) s).

Definition nh_rcv_add (p : nhp) (req : vr_nexthop_req) (s : router) : Z * router :=
  let '(vif, s1) := vrouter_get_interface (u32 (nhr_encap_oif_id req)) s in
  match vif, nh_load p s1 with
  | None, _ => (- ENODEV, s1)
  | Some _, None => (0, set_fault s1)
  | Some d, Some nh =>
      (0, put_vif (nh_dev nh) (nh_store p (with_reach R_l3_rcv (with_dev (Some d) nh)) s1))
  end.

Definition nh_encap_add (p : nhp) (req : vr_nexthop_req) (s : router) : Z * router :=
  let '(vif, s1) := vrouter_get_interface (u32 (nhr_encap_oif_id req)) s in
  let size := zlen (nhr_encap req) in
  match vif, nh_load p s1 with
  | None, _ => (- ENODEV, s1)
  | Some _, None => (0, set_fault s1)
  | Some d, Some nh =>
      if has NH_FLAG_ENCAP_L2 (nhr_flags req) && (size <? VR_ETHER_ALEN) then
        (- EINVAL, vrouter_put_interface d s1)
      else
        let nh0 := if has NH_FLAG_ENCAP_L2 (nhr_flags req) then with_reach R_encap_l2 nh
                   else with_validate V_encap_l3 (with_reach R_encap_l3 nh) in
        let s2 := nh_store p (with_encap (u16 (nhr_encap_family req)) (u16 size)
                    (with_dev (Some d) nh0)) s1 in
        let s3 := if u16 size =? 0 then s2 else write_data p (take (Z.to_nat (u16 size)) (nhr_encap req)) s2 in
        (0, put_vif (nh_dev nh) s3)
  end.

Definition nh_discard_add (p : nhp) (req : vr_nexthop_req) (s : router) : Z * router :=
  (0, modify p (fun nh => with_reach R_discard
        (mk_nexthop NH_DISCARD (u8 (nhr_family req)) (nh_flags nh) (nh_vrf nh) (nh_id nh) (nh_rid nh)
           (nh_users nh) (nh_component_cnt nh) (nh_component_nh nh) (nh_component_ecmp_cnt nh)
           (nh_component_ecmp nh) (nh_udp_tun6_sip nh) (nh_udp_tun6_dip nh) (nh_dev nh) (nh_rest nh))) s).

(** The two halves of the IPv6 branch: an address buffer is allocated when there is
    none. *)
Definition tun6_buffer (old : option (list Z)) (s : router) : bool * router :=
  match old with Some _ => (true, s) | None => host_alloc s end.

Definition with_addr6 (sip : bool) (a : list Z) (nh : vr_nexthop) : vr_nexthop :=
  let b := Some (take (Z.to_nat VR_IP6_ADDRESS_LEN) a) in
  with_member U_udp_tun6
    (if sip then with_tun6 b (nh_udp_tun6_dip nh) nh else with_tun6 (nh_udp_tun6_sip nh) b nh).

Definition udp_tunnel6_add (p : nhp) (sip6 dip6 : list Z) (sport dport len : Z) (nh : vr_nexthop) (s : router)
    : Z * router :=
  let s0 := check_u nh s in
  let '(ok, s1) := tun6_buffer (nh_udp_tun6_sip nh) s0 in
  if negb ok then (- ENOMEM, s1)
  else
    let nh1 := with_addr6 true sip6 nh in
    let s2 := nh_store p nh1 s1 in
    let '(ok, s3) := tun6_buffer (nh_udp_tun6_dip nh1) s2 in
    if negb ok then (- ENOMEM, s3)
    else
      let nh2 := with_addr6 false dip6 nh1 in
      let i := nh_rest nh2 in
      (0, nh_store p (with_info (info_tun (nh_tun_sip i) (nh_tun_dip i) sport dport len i) nh2) s3).

(** The branches of [nh_tunnel_add] on the kind of tunnel, up to the copy of the
    encapsulation.  The ports of the last two kinds are left as they are; nothing
    reads them. *)
Definition tunnel_branch (p : nhp) (req : vr_nexthop_req) (vif : option Z) (nh : vr_nexthop) (s : router)
    : Z * router :=
  let len := u16 (zlen (nhr_encap req)) in
  let i := nh_rest nh in
  let sip := nhr_tun_sip req in
  let dip := nhr_tun_dip req in
  if has NH_FLAG_TUNNEL_GRE (nh_flags nh) then
    match vif with
    | None => (- ENODEV, s)
    | Some _ =>
        (0, nh_store p (with_reach R_gre_tunnel (with_dev vif (with_validate V_gre_tunnel
              (with_tun U_gre_tun sip dip (nh_tun_sport i) (nh_tun_dport i) len nh)))) s)
    end
  else if has NH_FLAG_TUNNEL_UDP (nh_flags nh) then
    let '(ret, s1) :=
      if nhr_family req =? AF_INET then
        (0, nh_store p (with_tun U_udp_tun sip dip (u16 (nhr_tun_sport req)) (u16 (nhr_tun_dport req)) len nh) s)
      else if nhr_family req =? AF_INET6 then
        udp_tunnel6_add p (default [] (nhr_tun_sip6 req)) (default [] (nhr_tun_dip6 req))
          (u16 (nhr_tun_sport req)) (u16 (nhr_tun_dport req)) len nh s
      else (- EINVAL, s) in
    if negb (ret =? 0) then (ret, s1) else (0, put_vif vif (modify p (with_reach R_udp_tunnel) s1))
  else if has NH_FLAG_TUNNEL_UDP_MPLS (nh_flags nh) then
    match vif with
    | None => (- ENODEV, s)
    | Some _ =>
        (0, nh_store p (with_reach R_mpls_udp_tunnel (with_dev vif (with_validate V_mpls_udp_tunnel
              (with_tun U_udp_tun sip dip (nh_tun_sport i) (nh_tun_dport i) len nh)))) s)
    end
  else if has NH_FLAG_TUNNEL_VXLAN (nh_flags nh) then
    match vif with
    | None => (- ENODEV, s)
    | Some _ =>
        (0, nh_store p (with_reach R_vxlan_tunnel (with_dev vif
              (with_tun U_udp_tun sip dip (nh_tun_sport i) (nh_tun_dport i) len nh))) s)
    end
  else (- EINVAL, put_vif vif s).

Definition nh_tunnel_add (p : nhp) (req : vr_nexthop_req) (s : router) : Z * router :=
  let missing :=
    if nhr_family req =? AF_INET6 then
      match nhr_tun_sip6 req, nhr_tun_dip6 req with Some _, Some _ => false | _, _ => true end
    else (nhr_tun_sip req =? 0) || (nhr_tun_dip req =? 0) in
  if missing then (- EINVAL, s)
  else
    match nh_load p s with
    | None => (0, set_fault s)
    | Some nh =>
        let '(vif, s1) := vrouter_get_interface (u32 (nhr_encap_oif_id req)) s in
        let '(ret, s2) := tunnel_branch p req vif nh s1 in
        if negb (ret =? 0) then (ret, s2)
        else (0, put_vif (nh_dev nh) (write_data p (nhr_encap req) s2))
    end.

(** ** Composites *)

(** What the components have to be, by the kind of the composite: [None] when a
    component that was freed is read. *)
Fixpoint validate_tunnels (tor : bool) (l : list vr_component_nh) (s : router) : option bool :=
  match l with
  | [] => Some true
  | c :: l' =>
      match cnh c with
      | None => validate_tunnels tor l' s
      | Some q =>
          tmp ← nh_load q s;
          if negb (nh_type tmp =? NH_TUNNEL) then Some false
          else if has NH_FLAG_TUNNEL_UDP (nh_flags tmp) then Some false
          else if tor && negb (has NH_FLAG_TUNNEL_VXLAN (nh_flags tmp)) then Some false
          else validate_tunnels tor l' s
      end
  end.

Fixpoint validate_encaps (l2_seen l3_seen : bool) (l : list vr_component_nh) (s : router) : option bool :=
  match l with
  | [] => Some true
  | c :: l' =>
      match cnh c with
      | None => validate_encaps l2_seen l3_seen l' s
      | Some q =>
          tmp ← nh_load q s;
          if negb (nh_type tmp =? NH_ENCAP) then Some false
          else if has NH_FLAG_COMPOSITE_L2 (nh_flags tmp) then
            if has NH_FLAG_MCAST (nh_flags tmp) then Some false
            else if l3_seen then Some false
            else validate_encaps true l3_seen l' s
          else if l2_seen then Some false
          else validate_encaps l2_seen true l' s
      end
  end.

Fixpoint validate_l2 (l : list vr_component_nh) (s : router) : option bool :=
  match l with
  | [] => Some true
  | c :: l' =>
      match cnh c with
      | None => validate_l2 l' s
      | Some q =>
          tmp ← nh_load q s;
          if negb (nh_type tmp =? NH_COMPOSITE) then Some false
          else if Z.land (nh_flags tmp)
                    (Z.lor NH_FLAG_COMPOSITE_FABRIC (Z.lor NH_FLAG_COMPOSITE_EVPN
                      (Z.lor NH_FLAG_COMPOSITE_TOR NH_FLAG_COMPOSITE_ENCAP))) =? 0 then Some false
          else validate_l2 l' s
      end
  end.

Definition nh_composite_mcast_validate (req : vr_nexthop_req) (l : list vr_component_nh) (s : router)
    : option bool :=
  let flags := nhr_flags req in
  ok1 ← if has (Z.lor NH_FLAG_COMPOSITE_FABRIC (Z.lor NH_FLAG_COMPOSITE_EVPN NH_FLAG_COMPOSITE_TOR)) flags
        then validate_tunnels (has NH_FLAG_COMPOSITE_TOR flags) l s else Some true;
  if negb ok1 then Some false
  else
    ok2 ← if has NH_FLAG_COMPOSITE_ENCAP flags then validate_encaps false false l s else Some true;
    if negb ok2 then Some false
    else if has NH_FLAG_COMPOSITE_L2 flags then
      if negb (has NH_FLAG_MCAST flags) then Some false else validate_l2 l s
    else Some true.

(** The components are released one by one; the array still names them meanwhile. *)
Definition put_listed (p : nhp) (s : router) (i : Z) : router :=
  match nh_load p s with
  | None => set_fault s
  | Some nh =>
      match nh_component_nh nh ≫= (fun l => zget l i) with
      | None => set_fault s
      | Some c => vrouter_put_nexthop (cnh c) s
      end
  end.

(** The arrays are freed.  The count of active components is not reset. *)
Definition drop_arrays (nh : vr_nexthop) : vr_nexthop :=
  with_components 0 None
    (match nh_component_ecmp nh with
     | Some _ => with_ecmp (nh_component_ecmp_cnt nh) None nh
     | None => nh
     end).

Definition drop_components (p : nhp) (n : Z) (s : router) : router :=
  modify p drop_arrays (foldl (put_listed p) s (seqZ 0 n)).

(** One turn of the loop that looks the components up. *)
Definition get_component (p : nhp) (req : vr_nexthop_req) (s : router) (i : Z) : router :=
  let '(q, s1) := vrouter_get_nexthop (nhr_rid req) (u32 (default 0 (zget (nhr_nh_list req) i))) s in
  match nh_load p s1 with
  | None => set_fault s1
  | Some nh =>
      match nh_component_nh nh with
      | None => set_fault s1
      | Some l =>
          let c := mk_component q (default 0 (zget (nhr_label_list req) i))
                     (if has NH_FLAG_COMPOSITE_ECMP (nhr_flags req) then i else -1) in
          nh_store p (with_components (nh_component_cnt nh) (Some (zset l i c)) nh) s1
      end
  end.

Definition active_components (l : list vr_component_nh) : list vr_component_nh :=
  filter (fun c => is_Some (cnh c)) l.

Definition composite_reach (flags : Z) (old : nh_reach) : nh_reach :=
  if has NH_FLAG_COMPOSITE_L2 flags then R_composite_mcast_l2
  else if has NH_FLAG_COMPOSITE_ECMP flags then R_composite_ecmp
  else if has NH_FLAG_COMPOSITE_FABRIC flags then R_composite_fabric
  else if has NH_FLAG_COMPOSITE_EVPN flags then R_composite_evpn
  else if has NH_FLAG_COMPOSITE_ENCAP flags then R_composite_encap
  else if has NH_FLAG_COMPOSITE_TOR flags then R_composite_tor
  else old.

Definition composite_validate (flags : Z) (old : nh_validate) : nh_validate :=
  if has NH_FLAG_COMPOSITE_L2 flags then V_composite_mcast
  else if has NH_FLAG_COMPOSITE_ECMP flags then V_composite_ecmp
  else old.

(** The end of [nh_composite_add], once the components are in place: [l] is the array. *)
Definition composite_finish (p : nhp) (req : vr_nexthop_req) (l : list vr_component_nh) (s : router)
    : Z * router :=
  let flags := nhr_flags req in
  let error s := (- EINVAL, drop_components p (zlen (nhr_nh_list req)) s) in
  match nh_composite_mcast_validate req l s with
  | None => (0, set_fault s)
  | Some false => error s
  | Some true =>
      let s1 := modify p (fun nh =>
                  with_validate (composite_validate flags (nh_validate_src (nh_rest nh)))
                    (with_reach (composite_reach flags (nh_reach_nh (nh_rest nh))) nh)) s in
      let active := active_components l in
      if negb (has NH_FLAG_COMPOSITE_L2 flags) && has NH_FLAG_COMPOSITE_ECMP flags &&
         negb (zlen active =? 0) then
        let '(ok, s2) := host_alloc s1 in
        if ok then (0, modify p (with_ecmp (u16 (zlen active)) (Some active)) s2) else error s2
      else (0, s1)
  end.

Definition nh_composite_add (p : nhp) (req : vr_nexthop_req) (s : router) : Z * router :=
  let n := zlen (nhr_nh_list req) in
  match nh_load p s with
  | None => (0, set_fault s)
  | Some nh =>
      let s0 := check_u nh (nh_store p (with_validate V_null nh) s) in
      let s1 :=
        match nh_component_nh nh with
        | Some _ => if nh_component_cnt nh =? 0 then s0 else drop_components p (nh_component_cnt nh) s0
        | None => s0
        end in
      if negb (n =? zlen (nhr_label_list req)) then (- EINVAL, s1)
      else if n =? 0 then (0, s1)
      else
        let '(ok, s2) := host_alloc s1 in
        if negb ok then (- ENOMEM, modify p (fun nh => with_components (nh_component_cnt nh) None nh) s2)
        else
          let s3 := modify p (fun nh => with_member U_composite
                      (with_components (nh_component_cnt nh) (Some (replicate (Z.to_nat n) (mk_component None 0 0))) nh)) s2 in
          let s4 := foldl (get_component p req) s3 (seqZ 0 n) in
          let s5 := modify p (fun nh => with_components (u16 n) (nh_component_nh nh) nh) s4 in
          match nh_load p s5 with
          | None => (0, set_fault s5)
          | Some nh5 => composite_finish p req (default [] (nh_component_nh nh5)) s5
          end
  end.

(** ** The request handler *)

Definition vr_nexthop_valid_request (req : vr_nexthop_req) (s : router) : bool :=
  (u32 (nhr_id req) <? vr_max_nexthops s) && (u32 (nhr_type req) <? NH_MAX).

(** The bytes after the structure. *)
Definition vr_nexthop_size (req : vr_nexthop_req) : Z :=
  if (nhr_type req =? NH_ENCAP) || (nhr_type req =? NH_TUNNEL) then zlen (nhr_encap req) else 0.

Definition vr_nexthop_valid_change (req : vr_nexthop_req) (nh : vr_nexthop) : bool :=
  if negb (nhr_valid req) then true
  else if negb (nhr_type req =? nh_type nh) then false
  else if negb (zlen (nhr_encap req) =? 0) && negb (zlen (nhr_encap req) =? nh_data_size (nh_rest nh)) then false
  else true.

Definition new_nexthop (req : vr_nexthop_req) : vr_nexthop :=
  mk_nexthop 0 0 0 0 0 0 0 0 None 0 None None None None
    (mk_info U_zero 0 0 0 0 0 0 0 (u16 (vr_nexthop_size req)) (replicate (Z.to_nat (vr_nexthop_size req)) 0) R_null V_null).

(** The fields that every type has. *)
Definition set_header (req : vr_nexthop_req) (flags : Z) (nh : vr_nexthop) : vr_nexthop :=
  with_reach R_discard
    (mk_nexthop (u8 (nhr_type req)) (u8 (nhr_family req)) flags (nhr_vrf req) (u32 (nhr_id req)) (u32 (nhr_rid req))
       (nh_users nh) (nh_component_cnt nh) (nh_component_nh nh) (nh_component_ecmp_cnt nh)
       (nh_component_ecmp nh) (nh_udp_tun6_sip nh) (nh_udp_tun6_dip nh) (nh_dev nh) (nh_rest nh)).

Definition add_by_type (p : nhp) (req : vr_nexthop_req) (s : router) : Z * router :=
  let t := u8 (nhr_type req) in
  if t =? NH_ENCAP then nh_encap_add p req s
  else if t =? NH_TUNNEL then nh_tunnel_add p req s
  else if t =? NH_RCV then nh_rcv_add p req s
  else if t =? NH_L2_RCV then nh_l2_rcv_add p req s
  else if t =? NH_RESOLVE then nh_resolve_add p req s
  else if t =? NH_DISCARD then nh_discard_add p req s
  else if t =? NH_COMPOSITE then nh_composite_add p req s
  else if t =? NH_VRF_TRANSLATE then nh_vrf_translate_add p req s
  else (- EINVAL, s).

(** The common end of creation and change. *)
Definition cook (p : nhp) (invalid_to_valid : bool) (req : vr_nexthop_req) (s : router) : Z * router :=
  let flags := if invalid_to_valid then Z.ldiff (nhr_flags req) NH_FLAG_VALID else nhr_flags req in
  let s1 := modify p (set_header req flags) s in
  let '(ret, s2) := if nhr_valid req then add_by_type p req s1 else (0, s1) in
  if negb (ret =? 0) then (ret, nh_del p s2)
  else
    let s3 := if invalid_to_valid then modify p (fun nh => with_flags (Z.lor (nh_flags nh) NH_FLAG_VALID) nh) s2
              else s2 in
    let '(ret, s4) := vrouter_add_nexthop p s3 in
    if negb (ret =? 0) then (ret, nh_del p s4) else (ret, s4).

(** Up to the response. *)
Definition nexthop_add (req : vr_nexthop_req) (s : router) : Z * router :=
  if negb (vr_nexthop_valid_request req s) then (- EINVAL, s)
  else
    match __vrouter_get_nexthop (u32 (nhr_id req)) s with
    | None =>
        match new_object (new_nexthop req) s with
        | (None, s1) => (- ENOMEM, s1)
        | (Some p, s1) => cook p false req s1
        end
    | Some p =>
        match nh_load p s with
        | None => (0, set_fault s)
        | Some nh =>
            if negb (vr_nexthop_valid_change req nh) then (- EINVAL, s)
            else
              let invalid_to_valid := nhr_valid req && negb (has NH_FLAG_VALID (nh_flags nh)) in
              let nh1 := if negb (nhr_valid req) && has NH_FLAG_VALID (nh_flags nh)
                         then with_flags (nhr_flags req) nh else nh in
              cook p invalid_to_valid req (nh_store p (with_reach R_discard nh1) s)
        end
    end.

Definition vr_nexthop_add `{Sandesh vr_nexthop_req} (req : vr_nexthop_req) (s : router) (h : vr_message_handler)
    : option (Z * router * vr_message_handler) :=
  let '(ret, s1) := nexthop_add req s in
  '(ret', h1) ← vr_send_response (Obj := vr_nexthop_req) 2 ret h;
  Some (ret', s1, h1).

End NexthopAdd.
