(* ===== verification/NexthopAddProofs.v ===== *)
(** * What a nexthop request does

    The invariant of [Nexthop.v] is kept by every request of [NexthopAdd.v], and the
    nexthop that it leaves is the one that the request describes, field by field.  The one
    difficulty is that a composite is rebuilt in place: while its old components are
    released its array still names them.  The frame lemma [put_frame] says that a
    release which does not retire a nexthop neither reads nor changes its array, so the
    loop does what it would do with the names erased first. *)

From stdpp Require Import gmap.
From S2P Require Import Prelude NhIface Queue Message Nexthop RouteReq NexthopAdd.

Module NexthopAddProofs.
Import Nexthop NexthopAdd.

(** ** The frame of a release *)

Definition retired (p : nhp) (s : router) : Prop := p ∈ nh_freed s \/ p ∈ nh_deferred s.

Lemma release_monotone q s p : retired p s -> retired p (release_nexthop q s).
Proof.
  assert (Hf : forall s, retired p s -> retired p (vrouter_free_nexthop q s)).
  { clear s. intros s Hr. unfold vrouter_free_nexthop, retired in *. destruct (nh_load q s) as [nh|]; [|done].
    unfold check_u. destruct (nh_dev nh), (u_ok nh); cbn; set_solver. }
  intros Hr. unfold release_nexthop, vrouter_free_nexthop_defer, host_alloc.
  destruct (vr_not_ready s); [by apply Hf|].
  destruct (match nh_oracle s with [] => true | b :: _ => b end); cbn; [|by apply Hf].
  unfold retired in *. cbn. set_solver.
Qed.

Lemma components_monotone put p q idx s :
  (forall q s, retired p s -> retired p (put q s)) ->
  retired p s -> retired p (put_components put q idx s).
Proof.
  intros Hput. revert s. induction idx as [|i idx IH]; intros s Hr; [done|]. cbn [put_components].
  apply IH. unfold put_component. repeat case_match; try done. apply Hput. done.
Qed.

Lemma put_monotone n q s p : retired p s -> retired p (put_nexthop n q s).
Proof.
  revert q s. induction n as [|n IH]; intros q s Hr; [done|]. cbn [put_nexthop].
  destruct (nh_load q s) as [nh|]; [|done].
  destruct ((if nh_users nh =? 0 then 0 else u32 (nh_users nh - 1)) =? 0); [|done].
  apply release_monotone. case_match; [|done].
  apply components_monotone; [done|]. unfold check_u. by destruct (u_ok _).
Qed.

(** The array of [p] replaced. *)
Definition relist (o : option (list vr_component_nh)) (nh : vr_nexthop) : vr_nexthop :=
  with_components (nh_component_cnt nh) o nh.

Definition over (p : nhp) (o : option (list vr_component_nh)) (s : router) : router :=
  set_heap (alter (relist o) p (nh_heap s)) s.

Lemma over_store_ne p o q nh s : q <> p -> nh_store q nh (over p o s) = over p o (nh_store q nh s).
Proof. intros Hne. unfold nh_store, over, set_heap. cbn. by rewrite alter_insert_ne. Qed.

Lemma over_store_eq p o nh s : nh_store p (relist o nh) (over p o s) = over p o (nh_store p nh s).
Proof.
  unfold nh_store, over, set_heap. cbn. rewrite alter_insert_eq. f_equal.
  apply map_eq. intros i. destruct (decide (i = p)) as [->|].
  - by rewrite !lookup_insert_eq.
  - rewrite !lookup_insert_ne, lookup_alter_ne by done. done.
Qed.

Lemma load_over_ne p o q s : q <> p -> nh_load q (over p o s) = nh_load q s.
Proof. intros Hne. unfold nh_load, over. cbn. by rewrite lookup_alter_ne. Qed.

Lemma load_over_eq p o s : nh_load p (over p o s) = relist o <$> nh_load p s.
Proof. unfold nh_load, over. cbn. case_decide; [done|]. by rewrite lookup_alter_eq. Qed.

Lemma over_fault p o s : set_fault (over p o s) = over p o (set_fault s).
Proof. done. Qed.

Lemma over_check p o nh s : check_u nh (over p o s) = over p o (check_u nh s).
Proof. unfold check_u. by destruct (u_ok nh). Qed.

Lemma release_over p o q s : q <> p -> release_nexthop q (over p o s) = over p o (release_nexthop q s).
Proof.
  intros Hne.
  assert (Hf : forall s, vrouter_free_nexthop q (over p o s) = over p o (vrouter_free_nexthop q s)).
  { clear s. intros s. unfold vrouter_free_nexthop. rewrite load_over_ne by done.
    destruct (nh_load q s) as [nh|]; [|done]. rewrite over_check, over_store_ne by done.
    by destruct (nh_dev nh). }
  unfold release_nexthop, vrouter_free_nexthop_defer, host_alloc.
  change (vr_not_ready (over p o s)) with (vr_not_ready s).
  change (nh_oracle (over p o s)) with (nh_oracle s).
  destruct (vr_not_ready s); [apply Hf|].
  destruct (match nh_oracle s with [] => true | b :: _ => b end); cbn -[vrouter_free_nexthop]; [done|].
  change (- ENOMEM =? 0) with false. cbv iota.
  exact (Hf (mk_router (nh_heap s) _ _ _ _ _ _ _ _ _ _)).
Qed.

(** What a release leaves of a nexthop it does not retire: the count may change. *)
Definition kept (p : nhp) (s s' : router) : Prop :=
  exists u, nh_heap s' !! p = with_users u <$> nh_heap s !! p.

Lemma kept_refl p s : kept p s s.
Proof.
  destruct (nh_heap s !! p) as [nh|] eqn:E; [exists (nh_users nh)|exists 0]; rewrite E; [|done].
  by destruct nh.
Qed.

Lemma kept_trans p s1 s2 s3 : kept p s1 s2 -> kept p s2 s3 -> kept p s1 s3.
Proof. intros [u E1] [v E2]. exists v. rewrite E2, E1. by destruct (nh_heap s1 !! p). Qed.

Lemma kept_store p q nh s : q <> p -> kept p s (nh_store q nh s).
Proof.
  intros Hne. destruct (kept_refl p s) as [u E]. exists u. cbn. by rewrite lookup_insert_ne.
Qed.

Definition framed (p : nhp) (o : option (list vr_component_nh)) (put : nhp -> router -> router) : Prop :=
  forall q s, ~ retired p (put q s) -> kept p s (put q s) /\ put q (over p o s) = over p o (put q s).

Lemma release_kept p q s : q <> p -> kept p s (release_nexthop q s).
Proof.
  intros Hne. destruct (kept_refl p s) as [u E]. exists u. rewrite <- E. clear u E.
  assert (Hf : forall s, nh_heap (vrouter_free_nexthop q s) !! p = nh_heap s !! p).
  { clear s. intros s. unfold vrouter_free_nexthop. destruct (nh_load q s) as [nh|]; [|done].
    destruct (nh_dev nh); cbn; rewrite lookup_insert_ne, check_heap by done; done. }
  unfold release_nexthop, vrouter_free_nexthop_defer, host_alloc.
  destruct (vr_not_ready s); [apply Hf|].
  destruct (match nh_oracle s with [] => true | b :: _ => b end); cbn -[vrouter_free_nexthop]; [done|].
  change (- ENOMEM =? 0) with false. cbv iota. by rewrite Hf.
Qed.

Lemma components_frame p o put q idx s :
  q <> p -> framed p o put -> (forall q s, retired p s -> retired p (put q s)) ->
  ~ retired p (put_components put q idx s) ->
  kept p s (put_components put q idx s) /\
  put_components put q idx (over p o s) = over p o (put_components put q idx s).
Proof.
  intros Hne Hfr Hmono. revert s. induction idx as [|i idx IH]; intros s Hr.
  { split; [apply kept_refl|done]. }
  cbn [put_components] in *.
  assert (Hr1 : ~ retired p (put_component put q i s)) by (intros H; apply Hr; by apply components_monotone).
  enough (kept p s (put_component put q i s) /\
          put_component put q i (over p o s) = over p o (put_component put q i s)) as [Hk Eo].
  { rewrite Eo. destruct (IH (put_component put q i s) Hr) as [Hk2 Eo2]. split; [by eapply kept_trans|done]. }
  clear IH Hr. unfold put_component in *. rewrite load_over_ne by done.
  destruct (nh_load q s) as [nh|] eqn:Hq; [|split; [exact (kept_refl p s)|done]].
  destruct (nh_component_nh nh) as [l|]; [|split; [exact (kept_refl p s)|done]].
  destruct (zget l i) as [c|]; [|split; [exact (kept_refl p s)|done]].
  destruct (cnh c) as [r|]; [|split; [exact (kept_refl p s)|done]].
  rewrite over_store_ne by done. destruct (Hfr r _ Hr1) as [Hk Eo]. split; [|done].
  eapply kept_trans; [by apply kept_store|done].
Qed.

Lemma evolves_some s s' p : evolves s s' -> is_Some (nh_heap s !! p) -> is_Some (nh_heap s' !! p).
Proof.
  intros [_ _ _ Hs _] [nh Hp]. specialize (Hs p). rewrite Hp in Hs.
  destruct (nh_heap s' !! p); [eauto|done].
Qed.

Lemma put_frame n p o : framed p o (put_nexthop n).
Proof.
  induction n as [|n IH]; intros q s Hr; [split; [apply kept_refl|done]|].
  pose proof (put_evolves (S n) q s) as Hev. cbn [put_nexthop] in *.
  destruct (decide (q = p)) as [->|Hne].
  - rewrite load_over_eq. destruct (nh_load p s) as [nh|] eqn:Hp; [|split; [exact (kept_refl p s)|done]].
    cbn [fmap option_fmap option_map]. change (nh_users (relist o nh)) with (nh_users nh).
    set (u := if nh_users nh =? 0 then 0 else u32 (nh_users nh - 1)) in *.
    destruct (u =? 0).
    + exfalso. match type of Hr with ~ retired p (release_nexthop p ?x) => set (s2 := x) in * end.
      assert (Hn : is_Some (nh_heap (release_nexthop p s2) !! p)).
      { apply (evolves_some s); [done|]. apply nh_load_heap in Hp. eauto. }
      apply (release_retires p s2). split; [done|]. unfold retired in Hr. tauto.
    + split.
      * exists u. cbn. apply nh_load_heap in Hp. by rewrite lookup_insert_eq, Hp.
      * change (with_users u (relist o nh)) with (relist o (with_users u nh)). apply over_store_eq.
  - rewrite load_over_ne by done. destruct (nh_load q s) as [nh|] eqn:Hq; [|split; [exact (kept_refl p s)|done]].
    set (u := if nh_users nh =? 0 then 0 else u32 (nh_users nh - 1)) in *.
    rewrite over_store_ne by done. destruct (u =? 0); [|split; [by apply kept_store|done]].
    set (s1 := nh_store q (with_users u nh) s) in *.
    assert (Hk1 : kept p s s1) by (by apply kept_store).
    destruct (nh_type (with_users u nh) =? NH_COMPOSITE).
    2: { rewrite release_over by done. split; [|done]. eapply kept_trans; [done|by apply release_kept]. }
    rewrite over_check, over_store_ne by done.
    set (s2 := nh_store q _ (check_u _ s1)) in *.
    assert (Hk2 : kept p s1 s2).
    { destruct (kept_refl p s1) as [v E]. exists v. rewrite <- E. unfold s2. cbn.
      by rewrite lookup_insert_ne, check_heap by done. }
    destruct (components_frame p o (put_nexthop n) q (seqZ 0 (nh_component_cnt (with_users u nh))) s2)
      as [Hk3 Eo]; [done|done|by intros; apply put_monotone| |].
    { intros H. apply Hr. by apply release_monotone. }
    rewrite Eo, release_over by done. split; [|done].
    eapply kept_trans; [exact Hk1|]. eapply kept_trans; [exact Hk2|].
    eapply kept_trans; [exact Hk3|]. by apply release_kept.
Qed.

Lemma pending_over p o s : pending (over p o s) = pending s.
Proof.
  apply set_eq. intros q. rewrite !elem_of_pending. unfold over. cbn.
  destruct (decide (q = p)) as [->|Hne].
  - rewrite lookup_alter_eq. destruct (nh_heap s !! p) as [nh|]; cbn; [|done].
    split; intros (x & [= <-] & Hc); eauto.
  - by rewrite lookup_alter_ne.
Qed.

Lemma put_over p o q s :
  ~ retired p (vrouter_put_nexthop (Some q) s) ->
  kept p s (vrouter_put_nexthop (Some q) s) /\
  vrouter_put_nexthop (Some q) (over p o s) = over p o (vrouter_put_nexthop (Some q) s).
Proof.
  intros Hr. cbn [vrouter_put_nexthop] in *. unfold put_fuel. rewrite pending_over.
  by apply put_frame.
Qed.

(** ** A release takes references away *)

Definition sheds (s s' : router) : Prop := heap_edges (nh_heap s') ⊆+ heap_edges (nh_heap s).

#[local] Instance sheds_preorder : PreOrder sheds.
Proof. split; unfold sheds; [intros a; reflexivity|]. intros a b c H1 H2. by etrans. Qed.

Ltac sheds_refl := unfold sheds; cbn; reflexivity.

Lemma store_sheds p nh nh' s :
  nh_heap s !! p = Some nh -> edges_of nh' ⊆+ edges_of nh -> sheds s (nh_store p nh' s).
Proof.
  intros Hp He. unfold sheds. cbn. rewrite heap_edges_insert, (heap_edges_lookup _ _ _ Hp).
  by apply submseteq_skips_r.
Qed.

Lemma emptied_sheds nh nh' : nh_component_cnt nh' = 0 -> edges_of nh' ⊆+ edges_of nh.
Proof. intros H. rewrite edges_of_emptied by done. apply submseteq_nil_l. Qed.

Lemma free_sheds p s : sheds s (vrouter_free_nexthop p s).
Proof.
  unfold vrouter_free_nexthop. destruct (nh_load p s) as [nh|] eqn:Hp; [|sheds_refl].
  apply nh_load_heap in Hp.
  match goal with |- sheds _ (free_object _ (match _ with Some _ => _ | None => nh_store _ ?x _ end)) =>
    set (nh1 := x) end.
  trans (nh_store p nh1 s); [apply (store_sheds p nh); [done|]|].
  - unfold nh1. unfold edges_of. repeat (case_match; cbn); repeat case_decide; try done;
      rewrite ?take_nil; apply submseteq_nil_l.
  - unfold sheds. destruct (nh_dev nh); cbn; by rewrite check_heap.
Qed.

Lemma release_sheds p s : sheds s (release_nexthop p s).
Proof.
  unfold release_nexthop, vrouter_free_nexthop_defer, host_alloc.
  destruct (vr_not_ready s); [apply free_sheds|].
  destruct (match nh_oracle s with [] => true | b :: _ => b end); cbn; [sheds_refl|].
  etrans; [|apply free_sheds]. sheds_refl.
Qed.

Lemma omap_clear l i c (n : nat) :
  cnh c = None -> omap cnh (take n (zset l i c)) ⊆+ omap cnh (take n l).
Proof.
  intros Hc. unfold zset. case_decide; [|done]. generalize (Z.to_nat i) as j. clear i H.
  revert n. induction l as [|x l IH]; intros n j; [done|].
  destruct j as [|j], n as [|n]; cbn; try done.
  - rewrite Hc. destruct (cnh x); [by apply submseteq_cons|done].
  - destruct (cnh x); [apply submseteq_skip|]; apply IH.
Qed.

Lemma components_shed put p idx s :
  (forall q s, sheds s (put q s)) -> sheds s (put_components put p idx s).
Proof.
  intros Hput. revert s. induction idx as [|i idx IH]; intros s; [done|]. cbn [put_components].
  etrans; [|apply IH]. unfold put_component.
  destruct (nh_load p s) as [nh|] eqn:Hp; [|sheds_refl]. apply nh_load_heap in Hp.
  destruct (nh_component_nh nh) as [l|] eqn:Hl; [|sheds_refl].
  destruct (zget l i) as [c|]; [|sheds_refl]. destruct (cnh c) as [q|]; [|done].
  etrans; [|apply Hput]. apply (store_sheds p nh); [done|].
  unfold edges_of. cbn. case_decide; [|done]. rewrite Hl. cbn. by apply omap_clear.
Qed.

Lemma put_sheds n p s : sheds s (put_nexthop n p s).
Proof.
  revert p s. induction n as [|n IH]; intros p s; [done|]. cbn [put_nexthop].
  destruct (nh_load p s) as [nh|] eqn:Hp; [|sheds_refl]. apply nh_load_heap in Hp.
  set (u := if nh_users nh =? 0 then 0 else u32 (nh_users nh - 1)).
  assert (H1 : sheds s (nh_store p (with_users u nh) s)) by (by apply (store_sheds p nh)).
  destruct (u =? 0); [|done]. etrans; [|apply release_sheds]. case_match; [|done].
  etrans; [|by apply components_shed]. etrans; [exact H1|].
  trans (check_u (with_users u nh) (nh_store p (with_users u nh) s)); [unfold sheds; by rewrite check_heap|].
  apply (store_sheds p (with_users u nh)); [by rewrite check_heap; cbn; rewrite lookup_insert_eq|].
  by apply emptied_sheds.
Qed.

Lemma sheds_refs ext s s' :
  vr_nexthops s' = vr_nexthops s -> sheds s s' -> zlen (refs ext s') <= zlen (refs ext s).
Proof.
  intros Ht Hs. unfold refs, zlen. rewrite Ht, !length_app. apply submseteq_length in Hs. lia.
Qed.

(** ** Nexthops that survive

    A nexthop that is in the table, or that nothing refers to yet, is not retired by the
    release of another reference. *)

Definition anchored (ext : list nhp) (s : router) (p : nhp) : Prop :=
  p ∈ table_refs (vr_nexthops s) \/ p ∉ refs ext s.

Lemma alive_not_retired s p : alive s p -> ~ retired p s.
Proof. intros (_ & Hf & Hd) [?|?]; done. Qed.

Lemma put_anchored ext p q s :
  inv (q :: ext) s -> alive s p -> anchored (q :: ext) s p ->
  let s' := vrouter_put_nexthop (Some q) s in
  inv ext s' /\ alive s' p /\ anchored ext s' p /\ evolves s s' /\ sheds s s'.
Proof.
  intros Hinv Hal Hanc s'. destruct (put_top_inv ext q s Hinv) as [Hi Hu].
  assert (Hev : evolves s s' /\ sheds s s') by (split; [apply put_evolves|apply put_sheds]).
  split; [done|]. destruct Hanc as [Ht|Hn].
  - assert (p ∈ table_refs (vr_nexthops s')) by (by rewrite (ev_table _ _ (proj1 Hev))).
    split; [|split; [by left|done]]. apply (inv_alive _ _ Hi). unfold refs. set_solver.
  - destruct (Hu p Hn) as (Eh & Ef & Ed). split; [|split; [right|done]].
    + unfold alive in *. fold s' in Eh, Ef, Ed. by rewrite Eh, Ef, Ed.
    + intros Hp. apply Hn. by apply (untouched_refs _ _ _ _ Hinv Hi Hu).
Qed.

Lemma anchored_perm ext ext' s p : ext ≡ₚ ext' -> anchored ext s p -> anchored ext' s p.
Proof. intros Hp. unfold anchored, refs. by rewrite Hp. Qed.

(** ** Releasing the components of a composite *)

Definition clear_component (c : vr_component_nh) : vr_component_nh :=
  mk_component None (cnh_label c) (cnh_ecmp_index c).

Definition cleared (k : nat) (l : list vr_component_nh) : list vr_component_nh :=
  (clear_component <$> take k l) ++ drop k l.

Lemma cleared_lookup k l c :
  l !! k = Some c -> zset (cleared k l) (Z.of_nat k) (clear_component c) = cleared (S k) l.
Proof.
  intros Hc. unfold cleared, zset. rewrite decide_True, Nat2Z.id by lia.
  pose proof (lookup_lt_Some _ _ _ Hc). rewrite (drop_S _ _ _ Hc).
  rewrite insert_app_r_alt by (rewrite length_fmap, length_take; lia).
  rewrite length_fmap, length_take, Nat.min_l, Nat.sub_diag by lia. cbn.
  rewrite (take_S_r _ _ _ Hc), fmap_app, <- app_assoc. done.
Qed.

Lemma cleared_length k l : length (cleared k l) = length l.
Proof. unfold cleared. rewrite length_app, length_fmap, length_take, length_drop. lia. Qed.

Lemma cleared_edges k n l :
  (k <= n <= length l)%nat -> omap cnh (take n (cleared k l)) = omap cnh (take (n - k) (drop k l)).
Proof.
  intros Hk. unfold cleared. rewrite take_app, length_fmap, length_take, Nat.min_l by lia.
  rewrite take_ge by (rewrite length_fmap, length_take; lia). rewrite omap_app.
  replace (omap cnh (clear_component <$> take k l)) with (@nil nhp); [done|].
  induction (take k l); [done|]. cbn. done.
Qed.

(** The array of a composite with some components cleared. *)
Lemma composite_edges nh l n :
  nh_type nh = NH_COMPOSITE -> nh_component_cnt nh = Z.of_nat n -> nh_component_nh nh = Some l ->
  edges_of nh = omap cnh (take n l).
Proof. intros Ht Hc Hl. unfold edges_of. rewrite decide_True by done. by rewrite Hc, Hl, Nat2Z.id. Qed.

Lemma over_over p o o' s : over p o (over p o' s) = over p o s.
Proof.
  unfold over, set_heap. cbn. f_equal. apply map_eq. intros i. destruct (decide (i = p)) as [->|].
  - rewrite !lookup_alter_eq. by destruct (nh_heap s !! p).
  - by rewrite !lookup_alter_ne.
Qed.

Lemma over_same p o nh s : nh_heap s !! p = Some nh -> over p o (nh_store p (relist o nh) s) = over p o s.
Proof.
  intros Hp. unfold over, nh_store, set_heap. cbn. f_equal. apply map_eq. intros i.
  destruct (decide (i = p)) as [->|].
  - by rewrite !lookup_alter_eq, lookup_insert_eq, Hp.
  - by rewrite !lookup_alter_ne, lookup_insert_ne.
Qed.

Lemma over_absorb p o o' nh s :
  nh_heap s !! p = Some nh -> over p o (nh_store p (relist o' nh) s) = over p o s.
Proof.
  intros Hp. unfold over, nh_store, set_heap. cbn. f_equal. apply map_eq. intros i.
  destruct (decide (i = p)) as [->|].
  - by rewrite !lookup_alter_eq, lookup_insert_eq, Hp.
  - by rewrite !lookup_alter_ne, lookup_insert_ne.
Qed.

Lemma drop_step p ext lf n k nh t :
  (k < n <= length lf)%nat -> inv ext t -> alive t p -> anchored ext t p ->
  nh_heap t !! p = Some nh -> nh_type nh = NH_COMPOSITE -> nh_component_cnt nh = Z.of_nat n ->
  nh_component_nh nh = Some (cleared k lf) ->
  exists t' u, put_listed p (over p (Some lf) t) (Z.of_nat k) = over p (Some lf) t' /\
    inv ext t' /\ alive t' p /\ anchored ext t' p /\ evolves t t' /\ sheds t t' /\
    nh_heap t' !! p = Some (with_users u (relist (Some (cleared (S k) lf)) nh)).
Proof.
  intros Hk Hinv Hal Hanc Hp Hty Hcnt Hl.
  destruct (lookup_lt_is_Some_2 lf k) as [c Hc]; [lia|].
  assert (Hz : zget lf (Z.of_nat k) = Some c).
  { unfold zget. rewrite decide_True by lia. by rewrite Nat2Z.id. }
  unfold put_listed. rewrite load_over_eq, (alive_load _ _ Hal), Hp. cbn [fmap option_fmap option_map].
  cbn [relist nh_component_nh with_components mbind option_bind]. rewrite Hz.
  set (nh1 := relist (Some (cleared (S k) lf)) nh). set (t1 := nh_store p nh1 t).
  pose proof (composite_edges nh _ n Hty Hcnt Hl) as He.
  pose proof (composite_edges nh1 (cleared (S k) lf) n Hty Hcnt eq_refl) as He1.
  rewrite cleared_edges in He, He1 by lia.
  rewrite (drop_S _ _ _ Hc) in He. replace (n - k)%nat with (S (n - S k)) in He by lia. cbn in He.
  assert (Hperm : edges_of nh1 ++ (option_list (cnh c) ++ ext) ++ [] ≡ₚ edges_of nh ++ ext).
  { rewrite He, He1, app_nil_r. destruct (cnh c); cbn; [|done].
    by rewrite Permutation_middle. }
  assert (Hinv1 : inv (option_list (cnh c) ++ ext) t1).
  { apply (inv_store ext _ [] t p nh nh1 Hinv Hp Hal Hperm); [set_solver|rewrite occ_nil; cbn; lia|done| |done].
    intros _ _. exists (cleared (S k) lf). split; [done|]. cbn. unfold zlen. rewrite cleared_length. lia. }
  assert (Hr1 : refs ext t ≡ₚ refs (option_list (cnh c) ++ ext) t1).
  { rewrite (refs_store ext _ [] t p nh nh1 Hp Hperm). by rewrite app_nil_r. }
  assert (Hp1 : nh_heap t1 !! p = Some nh1) by (cbn; apply lookup_insert_eq).
  assert (Hal1 : alive t1 p) by (unfold alive; rewrite Hp1; destruct Hal; eauto).
  assert (Hanc1 : anchored (option_list (cnh c) ++ ext) t1 p).
  { destruct Hanc as [?|Hn]; [by left|right]. by rewrite <- Hr1. }
  assert (Hev1 : evolves t t1) by (apply (store_evolves p nh); done).
  assert (Hsh1 : sheds t t1).
  { apply (store_sheds p nh); [done|]. rewrite He, He1. destruct (cnh c); [by apply submseteq_cons|done]. }
  rewrite <- (over_absorb p (Some lf) (Some (cleared (S k) lf)) nh t Hp). fold nh1 t1.
  destruct (cnh c) as [q|] eqn:Hq.
  - destruct (put_anchored ext p q t1 Hinv1 Hal1 Hanc1) as (Hi2 & Ha2 & Hn2 & Hev2 & Hsh2).
    destruct (put_over p (Some lf) q t1 (alive_not_retired _ _ Ha2)) as [[u Hkept] Eo].
    exists (vrouter_put_nexthop (Some q) t1), u. split_and!; try done; [by etrans|by etrans|].
    rewrite Hkept, Hp1. done.
  - exists t1, (nh_users nh). by split_and!.
Qed.

Lemma drop_loop p ext lf n k nh t :
  (k <= n <= length lf)%nat -> inv ext t -> alive t p -> anchored ext t p ->
  nh_heap t !! p = Some nh -> nh_type nh = NH_COMPOSITE -> nh_component_cnt nh = Z.of_nat n ->
  nh_component_nh nh = Some (cleared k lf) ->
  exists t' u, foldl (put_listed p) (over p (Some lf) t) (seqZ (Z.of_nat k) (Z.of_nat n - Z.of_nat k)) =
      over p (Some lf) t' /\
    inv ext t' /\ alive t' p /\ anchored ext t' p /\ evolves t t' /\ sheds t t' /\
    nh_heap t' !! p = Some (with_users u (relist (Some (cleared n lf)) nh)).
Proof.
  intros Hk. remember (n - k)%nat as d eqn:Hd. revert k nh t Hk Hd.
  induction d as [|d IH]; intros k nh t Hk Hd Hinv Hal Hanc Hp Hty Hcnt Hl.
  - assert (k = n) as -> by lia. rewrite Z.sub_diag. exists t, (nh_users nh).
    split_and!; try done. rewrite Hp. destruct nh; cbn in *. by rewrite Hl.
  - rewrite seqZ_cons by lia. cbn [foldl].
    destruct (drop_step p ext lf n k nh t) as (t1 & u & -> & Hi1 & Ha1 & Hn1 & Hev1 & Hsh1 & Hp1); try done; [lia|].
    replace (Z.succ (Z.of_nat k)) with (Z.of_nat (S k)) by lia.
    replace (Z.pred (Z.of_nat n - Z.of_nat k)) with (Z.of_nat n - Z.of_nat (S k)) by lia.
    destruct (IH (S k) _ t1 ltac:(lia) ltac:(lia) Hi1 Ha1 Hn1 Hp1) as (t' & v & E & Hi & Ha & Hn & Hev & Hsh & Hp');
      [done|done|done|].
    exists t', v. split_and!; try done; by etrans.
Qed.

(** A composite whose components are released keeps its place, with no components. *)
Lemma drop_components_inv p ext n nh l s :
  (n <= length l)%nat -> inv ext s -> alive s p -> anchored ext s p ->
  nh_heap s !! p = Some nh -> nh_type nh = NH_COMPOSITE -> nh_component_cnt nh = Z.of_nat n ->
  nh_component_nh nh = Some l ->
  let s' := drop_components p (Z.of_nat n) s in
  inv ext s' /\ alive s' p /\ anchored ext s' p /\ vr_nexthops s' = vr_nexthops s /\
  vr_max_nexthops s' = vr_max_nexthops s /\ zlen (refs ext s') <= zlen (refs ext s) /\
  exists u, nh_heap s' !! p = Some (with_users u (drop_arrays nh)).
Proof.
  intros Hn Hinv Hal Hanc Hp Hty Hcnt Hl s'.
  destruct (drop_loop p ext l n 0 nh s) as (t & u & E & Hi & Ha & Hnc & Hev & Hsh & Ht); try done; [lia|].
  assert (Eo : over p (Some l) s = s).
  { unfold over, set_heap. destruct s. cbn in *. f_equal. apply map_eq. intros i.
    destruct (decide (i = p)) as [->|]; [|by rewrite lookup_alter_ne].
    rewrite lookup_alter_eq, Hp. cbn. destruct nh. cbn in *. by rewrite Hl. }
  rewrite Eo in E. change (Z.of_nat 0) with 0 in E. rewrite Z.sub_0_r in E.
  unfold s', drop_components, modify. rewrite E, load_over_eq, (alive_load _ _ Ha), Ht.
  cbn [fmap option_fmap option_map].
  set (nh1 := with_users u (relist (Some (cleared n l)) nh)) in *.
  assert (Es : nh_store p (drop_arrays (relist (Some l) nh1)) (over p (Some l) t) =
               nh_store p (with_users u (drop_arrays nh)) t).
  { unfold nh_store, over, set_heap. cbn. f_equal. apply map_eq. intros i.
    destruct (decide (i = p)) as [->|].
    - rewrite !lookup_insert_eq. unfold drop_arrays, nh1. cbn. by destruct (nh_component_ecmp nh).
    - by rewrite !lookup_insert_ne, lookup_alter_ne. }
  rewrite Es. set (nh2 := with_users u (drop_arrays nh)).
  assert (He1 : edges_of nh1 = []).
  { rewrite (composite_edges nh1 (cleared n l) n) by done. rewrite cleared_edges by lia.
    by rewrite Nat.sub_diag. }
  assert (Hc2 : nh_component_cnt nh2 = 0) by done.
  assert (Hperm : edges_of nh2 ++ ext ++ [] ≡ₚ edges_of nh1 ++ ext).
  { by rewrite He1, (edges_of_emptied nh2 Hc2), app_nil_r. }
  assert (Hob : obj_ok nh1 -> obj_ok nh2).
  { intros (? & ? & _). unfold nh2, drop_arrays. by destruct (nh_component_ecmp nh). }
  split_and!.
  - apply (inv_store ext ext [] t p nh1 nh2 Hi Ht Ha Hperm); [set_solver| | |by apply comp_wf_emptied|done].
    + rewrite occ_nil. unfold nh2, drop_arrays. destruct (nh_component_ecmp nh); cbn; lia.
    + unfold nh2, drop_arrays. by destruct (nh_component_ecmp nh).
  - unfold alive. cbn. rewrite lookup_insert_eq. destruct Ha. eauto.
  - destruct Hnc as [?|Hnr]; [by left|right].
    rewrite (refs_store ext ext [] t p nh1 nh2 Ht Hperm), app_nil_r in Hnr. done.
  - apply Hev.
  - apply Hev.
  - apply sheds_refs; [apply Hev|]. etrans; [exact Hsh|]. apply (store_sheds p nh1); [done|].
    by apply emptied_sheds.
  - exists u. cbn. by rewrite lookup_insert_eq.
Qed.

(** ** A nexthop that is being written

    [at_work ext tab mx r p nh s]: the invariant holds, [p] is the nexthop [nh] and will
    not go away, the table is [tab], and there are at most [r] references. *)

Record at_work (ext : list nhp) (tab : list (option nhp)) (mx r : Z) (p : nhp) (nh : vr_nexthop)
    (s : router) : Prop := {
  aw_inv : inv ext s;
  aw_heap : nh_heap s !! p = Some nh;
  aw_alive : alive s p;
  aw_anch : anchored ext s p;
  aw_tab : vr_nexthops s = Some tab;
  aw_max : vr_max_nexthops s = mx;
  aw_room : zlen (refs ext s) <= r
}.

(** A change of a nexthop that the invariant does not see. *)
Definition benign (nh nh' : vr_nexthop) : Prop :=
  edges_of nh' = edges_of nh /\ nh_users nh' = nh_users nh /\
  (comp_wf nh -> comp_wf nh') /\ (obj_ok nh -> obj_ok nh').

(** What a request writes in every nexthop. *)
Definition header (nh : vr_nexthop) : Z * Z * Z * Z * Z :=
  (nh_family nh, nh_flags nh, nh_vrf nh, nh_id nh, nh_rid nh).

Lemma header_id nh nh' : header nh' = header nh -> nh_id nh' = nh_id nh.
Proof. intros [=]. done. Qed.

(** ** What a request describes

    The nexthop that a successful request leaves in its slot, field by field, and the
    reasons for which a request fails.  [old] is the nexthop that was there, or the
    zeroed block of a new one; what is said of [nh] does not depend on its count. *)

Definition vif_of (vifs : list bool) (req : vr_nexthop_req) : option Z :=
  let d := u32 (nhr_encap_oif_id req) in
  if default false (zget vifs d) then Some d else None.

(** Bytes copied over the start of an area. *)
Definition overlay (bytes area : list Z) : list Z := bytes ++ drop (length bytes) area.

Definition with_data (bytes : list Z) (nh : vr_nexthop) : vr_nexthop :=
  let i := nh_rest nh in
  with_info (mk_info (nh_u i) (nh_encap_family i) (nh_encap_len i) (nh_tun_sip i) (nh_tun_dip i) (nh_tun_sport i)
    (nh_tun_dport i) (nh_tun_encap_len i) (nh_data_size i) bytes (nh_reach_nh i) (nh_validate_src i)) nh.

Definition with_udp6 (sip6 dip6 : list Z) (sport dport len : Z) (nh : vr_nexthop) : vr_nexthop :=
  let nh2 := with_addr6 false dip6 (with_addr6 true sip6 nh) in
  let i := nh_rest nh2 in
  with_info (info_tun (nh_tun_sip i) (nh_tun_dip i) sport dport len i) nh2.

Definition encap_made (req : vr_nexthop_req) (vif : option Z) (old nh : vr_nexthop) : Prop :=
  let len := u16 (zlen (nhr_encap req)) in
  let l2 := has NH_FLAG_ENCAP_L2 (nhr_flags req) in
  nh_dev nh = vif /\ nh_u (nh_rest nh) = U_encap /\
  nh_encap_family (nh_rest nh) = u16 (nhr_encap_family req) /\ nh_encap_len (nh_rest nh) = len /\
  nh_data (nh_rest nh) = overlay (take (Z.to_nat len) (nhr_encap req)) (nh_data (nh_rest old)) /\
  nh_reach_nh (nh_rest nh) = (if l2 then R_encap_l2 else R_encap_l3) /\
  nh_validate_src (nh_rest nh) = (if l2 then nh_validate_src (nh_rest old) else V_encap_l3).

Definition rcv_made (vif : option Z) (old nh : vr_nexthop) : Prop :=
  nh_dev nh = vif /\ nh_reach_nh (nh_rest nh) = R_l3_rcv /\
  nh_data (nh_rest nh) = nh_data (nh_rest old) /\ nh_validate_src (nh_rest nh) = nh_validate_src (nh_rest old).

(** The types that only choose how packets are handled. *)
Definition reach_made (reach : nh_reach) (old nh : vr_nexthop) : Prop :=
  nh_rest nh = info_reach reach (nh_rest old) /\ nh_dev nh = nh_dev old /\
  nh_component_cnt nh = nh_component_cnt old /\ nh_component_nh nh = nh_component_nh old /\
  nh_udp_tun6_sip nh = nh_udp_tun6_sip old /\ nh_udp_tun6_dip nh = nh_udp_tun6_dip old.

Inductive tunnel_kind := T_gre | T_udp | T_udp6 | T_mpls_udp | T_vxlan.

Definition tunnel_kind_of (req : vr_nexthop_req) : option tunnel_kind :=
  if has NH_FLAG_TUNNEL_GRE (nhr_flags req) then Some T_gre
  else if has NH_FLAG_TUNNEL_UDP (nhr_flags req) then
    if nhr_family req =? AF_INET then Some T_udp else if nhr_family req =? AF_INET6 then Some T_udp6 else None
  else if has NH_FLAG_TUNNEL_UDP_MPLS (nhr_flags req) then Some T_mpls_udp
  else if has NH_FLAG_TUNNEL_VXLAN (nhr_flags req) then Some T_vxlan
  else None.

Definition tunnel_ends (req : vr_nexthop_req) (nh : vr_nexthop) : Prop :=
  nh_tun_sip (nh_rest nh) = nhr_tun_sip req /\ nh_tun_dip (nh_rest nh) = nhr_tun_dip req.

Definition tunnel_ports (req : vr_nexthop_req) (nh : vr_nexthop) : Prop :=
  nh_tun_sport (nh_rest nh) = u16 (nhr_tun_sport req) /\ nh_tun_dport (nh_rest nh) = u16 (nhr_tun_dport req).

Definition forwards (u : nh_member) (dev : option Z) (reach : nh_reach) (v : nh_validate) (nh : vr_nexthop) : Prop :=
  nh_u (nh_rest nh) = u /\ nh_dev nh = dev /\ nh_reach_nh (nh_rest nh) = reach /\ nh_validate_src (nh_rest nh) = v.

Definition address6 (a : option (list Z)) : option (list Z) :=
  Some (take (Z.to_nat VR_IP6_ADDRESS_LEN) (default [] a)).

Definition tunnel_made (req : vr_nexthop_req) (vif : option Z) (old nh : vr_nexthop) : Prop :=
  let v := nh_validate_src (nh_rest old) in
  nh_data (nh_rest nh) = overlay (nhr_encap req) (nh_data (nh_rest old)) /\
  nh_tun_encap_len (nh_rest nh) = u16 (zlen (nhr_encap req)) /\
  match tunnel_kind_of req with
  | Some T_gre => tunnel_ends req nh /\ forwards U_gre_tun vif R_gre_tunnel V_gre_tunnel nh
  | Some T_udp => tunnel_ends req nh /\ tunnel_ports req nh /\ forwards U_udp_tun (nh_dev old) R_udp_tunnel v nh
  | Some T_udp6 =>
      nh_udp_tun6_sip nh = address6 (nhr_tun_sip6 req) /\ nh_udp_tun6_dip nh = address6 (nhr_tun_dip6 req) /\
      tunnel_ports req nh /\ forwards U_udp_tun6 (nh_dev old) R_udp_tunnel v nh
  | Some T_mpls_udp => tunnel_ends req nh /\ forwards U_udp_tun vif R_mpls_udp_tunnel V_mpls_udp_tunnel nh
  | Some T_vxlan => tunnel_ends req nh /\ forwards U_udp_tun vif R_vxlan_tunnel v nh
  | None => False
  end.

(** The components that a request names, looked up in the table. *)
Definition component_of (tab : list (option nhp)) (req : vr_nexthop_req) (i : Z) : vr_component_nh :=
  mk_component (default None (zget tab (u32 (default 0 (zget (nhr_nh_list req) i)))))
    (default 0 (zget (nhr_label_list req) i))
    (if has NH_FLAG_COMPOSITE_ECMP (nhr_flags req) then i else -1).

Definition components_of (tab : list (option nhp)) (req : vr_nexthop_req) : list vr_component_nh :=
  component_of tab req <$> seqZ 0 (zlen (nhr_nh_list req)).

(** An array of the components that exist is built for the choice among equal paths. *)
Definition spreads (req : vr_nexthop_req) (comps : list vr_component_nh) : bool :=
  negb (has NH_FLAG_COMPOSITE_L2 (nhr_flags req)) && has NH_FLAG_COMPOSITE_ECMP (nhr_flags req) &&
  negb (zlen (active_components comps) =? 0).

Definition composite_made (req : vr_nexthop_req) (comps : list vr_component_nh) (old nh : vr_nexthop) : Prop :=
  let flags := nhr_flags req in
  nh_dev nh = nh_dev old /\ nh_data (nh_rest nh) = nh_data (nh_rest old) /\
  if decide (comps = []) then
    nh_component_cnt nh = 0 /\ nh_reach_nh (nh_rest nh) = R_discard /\ nh_validate_src (nh_rest nh) = V_null
  else
    nh_u (nh_rest nh) = U_composite /\ nh_component_cnt nh = zlen comps /\ nh_component_nh nh = Some comps /\
    nh_reach_nh (nh_rest nh) = composite_reach flags R_discard /\
    nh_validate_src (nh_rest nh) = composite_validate flags V_null /\
    (spreads req comps = true ->
       nh_component_ecmp_cnt nh = zlen (active_components comps) /\
       nh_component_ecmp nh = Some (active_components comps)).

(** The nexthop made of a valid request, by its type. *)
Definition made (req : vr_nexthop_req) (vif : option Z) (comps : list vr_component_nh) (old nh : vr_nexthop) : Prop :=
  let t := nhr_type req in
  if t =? NH_ENCAP then encap_made req vif old nh
  else if t =? NH_TUNNEL then tunnel_made req vif old nh
  else if t =? NH_RCV then rcv_made vif old nh
  else if t =? NH_COMPOSITE then composite_made req comps old nh
  else if t =? NH_L2_RCV then reach_made R_l2_rcv old nh
  else if t =? NH_RESOLVE then reach_made R_resolve old nh
  else if t =? NH_VRF_TRANSLATE then reach_made R_vrf_translate old nh
  else if t =? NH_DISCARD then reach_made R_discard old nh
  else False.

(** The code a request is answered with because of what it says. *)
Definition needs_vif (vif : option Z) : Z := match vif with Some _ => 0 | None => - ENODEV end.

Definition addresses_missing (req : vr_nexthop_req) : bool :=
  if nhr_family req =? AF_INET6 then
    match nhr_tun_sip6 req, nhr_tun_dip6 req with Some _, Some _ => false | _, _ => true end
  else (nhr_tun_sip req =? 0) || (nhr_tun_dip req =? 0).

Definition checks (req : vr_nexthop_req) (vif : option Z) : Z :=
  let t := nhr_type req in
  if t =? NH_ENCAP then
    if negb (needs_vif vif =? 0) then - ENODEV
    else if has NH_FLAG_ENCAP_L2 (nhr_flags req) && (zlen (nhr_encap req) <? VR_ETHER_ALEN) then - EINVAL else 0
  else if t =? NH_TUNNEL then
    if addresses_missing req then - EINVAL
    else match tunnel_kind_of req with
         | None => - EINVAL
         | Some T_udp | Some T_udp6 => 0
         | Some _ => needs_vif vif
         end
  else if t =? NH_RCV then needs_vif vif
  else if t =? NH_COMPOSITE then
    if zlen (nhr_nh_list req) =? zlen (nhr_label_list req) then 0 else - EINVAL
  else if (t =? NH_L2_RCV) || (t =? NH_RESOLVE) || (t =? NH_VRF_TRANSLATE) || (t =? NH_DISCARD) then 0
  else - EINVAL.

(** The components of a composite are of the kinds its flags ask for. *)
Definition fitting (req : vr_nexthop_req) (comps : list vr_component_nh) (s : router) : Prop :=
  nhr_type req = NH_COMPOSITE -> comps <> [] -> nh_composite_mcast_validate req comps s = Some true.

(** Why a valid request fails: its own contents; no memory for the IPv6 addresses of a
    tunnel or for the components of a composite; components of the wrong kind, or no
    memory for the array of those that exist, which are answered alike. *)
Definition failure (req : vr_nexthop_req) (vif : option Z) (comps : list vr_component_nh) (s : router) (ret : Z) : Prop :=
  (checks req vif <> 0 /\ ret = checks req vif) \/
  (checks req vif = 0 /\ nhr_type req = NH_TUNNEL /\ tunnel_kind_of req = Some T_udp6 /\
     ret = - ENOMEM /\ false ∈ nh_oracle s) \/
  (checks req vif = 0 /\ nhr_type req = NH_COMPOSITE /\ comps <> [] /\
     (ret = - ENOMEM /\ false ∈ nh_oracle s \/
      ret = - EINVAL /\ nh_composite_mcast_validate req comps s = Some false \/
      ret = - EINVAL /\ spreads req comps = true /\ false ∈ nh_oracle s)).

Lemma has_ldiff_valid flag f : Z.land flag NH_FLAG_VALID = 0 -> has flag (Z.ldiff f NH_FLAG_VALID) = has flag f.
Proof.
  intros H0. unfold has. do 2 f_equal. apply Z.bits_inj'. intros k Hk.
  assert (Hb : Z.testbit (Z.land flag NH_FLAG_VALID) k = false) by (by rewrite H0, Z.bits_0).
  rewrite Z.land_spec in Hb. rewrite !Z.land_spec, Z.ldiff_spec.
  destruct (Z.testbit flag k), (Z.testbit NH_FLAG_VALID k), (Z.testbit f k); done.
Qed.

Lemma lor_ldiff_valid f : has NH_FLAG_VALID f = true -> Z.lor (Z.ldiff f NH_FLAG_VALID) NH_FLAG_VALID = f.
Proof.
  intros Hv. assert (H0 : Z.testbit f 0 = true).
  { revert Hv. unfold has. change NH_FLAG_VALID with (Z.ones 1). rewrite Z.land_ones by lia.
    rewrite Z.bit0_odd. change (2 ^ 1) with 2. rewrite Zmod_odd. by destruct (Z.odd f). }
  apply Z.bits_inj'. intros k Hk. rewrite Z.lor_spec, Z.ldiff_spec.
  destruct (decide (k = 0)) as [->|Hne]; [by rewrite H0|].
  replace (Z.testbit NH_FLAG_VALID k) with false; [by rewrite andb_true_r, orb_false_r|].
  symmetry. apply (Z.bits_above_log2 1 k); cbn; lia.
Qed.

Section work.
Context (ext : list nhp) (tab : list (option nhp)) (mx r : Z) (p : nhp).

Abbreviation working := (at_work ext tab mx r p).

Lemma aw_load nh s : working nh s -> nh_load p s = Some nh.
Proof. intros Hw. rewrite (alive_load _ _ (aw_alive _ _ _ _ _ _ _ Hw)). apply Hw. Qed.

Lemma aw_store_id nh nh' s :
  working nh s -> benign nh nh' -> (forall i, zget tab i = Some (Some p) -> nh_id nh' = i) ->
  working nh' (nh_store p nh' s).
Proof.
  intros [Hi Hh Ha Hn Ht Hm Hr] (He & Hu & Hc & Ho) Hid.
  assert (Hperm : edges_of nh' ++ ext ++ [] ≡ₚ edges_of nh ++ ext) by (by rewrite He, app_nil_r).
  pose proof (refs_store ext ext [] s p nh nh' Hh Hperm) as Hrf. rewrite app_nil_r in Hrf.
  split; try done.
  - apply (inv_store_id ext ext [] s p nh nh' Hi Hh Ha Hperm); [set_solver|rewrite occ_nil; lia| | |done].
    + intros t i Et. rewrite Et in Ht. simplify_eq. apply Hid.
    + by apply Hc, (inv_comp _ _ Hi p).
  - cbn. apply lookup_insert_eq.
  - unfold alive. cbn. rewrite lookup_insert_eq. destruct Ha. eauto.
  - destruct Hn as [?|Hn]; [by left|right; by rewrite <- Hrf].
  - unfold zlen in *. by rewrite <- Hrf.
Qed.

Lemma aw_store nh nh' s :
  working nh s -> benign nh nh' -> nh_id nh' = nh_id nh -> working nh' (nh_store p nh' s).
Proof.
  intros Hw Hb Hid. apply (aw_store_id nh); [done|done|]. intros i Hz.
  destruct (inv_ids _ _ (aw_inv _ _ _ _ _ _ _ Hw) tab i p) as (nh2 & Hp2 & <-); [apply Hw|done|].
  pose proof (aw_heap _ _ _ _ _ _ _ Hw). congruence.
Qed.

Lemma aw_modify nh f s :
  working nh s -> benign nh (f nh) -> nh_id (f nh) = nh_id nh -> working (f nh) (modify p f s).
Proof. intros Hw Hb Hid. unfold modify. rewrite (aw_load nh s Hw). by apply (aw_store nh). Qed.

Lemma aw_same nh s s' :
  working nh s -> nh_heap s' = nh_heap s -> nh_freed s' = nh_freed s -> vr_nexthops s' = vr_nexthops s ->
  vr_max_nexthops s' = vr_max_nexthops s -> nh_deferred s' = nh_deferred s ->
  nh_next s' = nh_next s -> nh_fault s' = nh_fault s -> working nh s'.
Proof.
  intros [Hi Hh Ha Hn Ht Hm Hr] E1 E2 E3 E4 E5 E6 E7.
  assert (Er : refs ext s' = refs ext s) by (unfold refs; by rewrite E1, E3).
  split; rewrite ?E1, ?E3, ?E4; try done.
  - by apply (inv_same ext s).
  - unfold alive in *. by rewrite E1, E2, E5.
  - unfold anchored in *. by rewrite E3, Er.
  - by rewrite Er.
Qed.

Lemma aw_put_vif nh d s : working nh s -> working nh (put_vif d s).
Proof. intros Hw. destruct d; [|done]. by apply (aw_same nh s). Qed.

Lemma aw_get_vif nh i s o s' : working nh s -> vrouter_get_interface i s = (o, s') -> working nh s'.
Proof.
  intros Hw Hg. unfold vrouter_get_interface in Hg.
  destruct (default false _); simplify_eq; [by apply (aw_same nh s)|done].
Qed.

Lemma aw_host_alloc nh s : working nh s -> working nh (host_alloc s).2.
Proof. intros Hw. by apply (aw_same nh s). Qed.

(** The encapsulation has the room it was allocated with. *)
Lemma aw_write_data nh bytes s :
  working nh s -> zlen bytes <= zlen (nh_data (nh_rest nh)) ->
  working (with_data (overlay bytes (nh_data (nh_rest nh))) nh) (write_data p bytes s).
Proof.
  intros Hw Hb. unfold write_data. rewrite (aw_load nh s Hw), (proj2 (Z.leb_le _ _) Hb).
  apply (aw_store nh); [done| |done].
  split_and!; try done. intros [Hu Hs]. split; [done|]. cbn in *. unfold zlen in *.
  rewrite length_app, length_drop. lia.
Qed.

(** ** The functions per type *)

(** What the function of a type leaves, started in [s] with the nexthop [nh]: the nexthop
    is in place; on success it is what the request describes, and a failure has its
    reason. *)
Definition handled (req : vr_nexthop_req) (vif : option Z) (comps : list vr_component_nh)
    (nh : vr_nexthop) (s : router) (res : Z * router) : Prop :=
  exists nh', working nh' res.2 /\ header nh' = header nh /\ nh_type nh' = nh_type nh /\
    (res.1 = 0 -> checks req vif = 0 /\ fitting req comps s /\ made req vif comps nh nh') /\
    (res.1 <> 0 -> failure req vif comps s res.1).

Lemma handled_ok req vif comps nh nh' s s' :
  working nh' s' -> header nh' = header nh -> nh_type nh' = nh_type nh ->
  nhr_type req <> NH_COMPOSITE ->
  checks req vif = 0 -> made req vif comps nh nh' -> handled req vif comps nh s (0, s').
Proof. intros. exists nh'. split_and!; try done. intros _. split_and!; try done. by intros ?. Qed.

Lemma handled_refused req vif comps nh nh' s s' ret :
  working nh' s' -> header nh' = header nh -> nh_type nh' = nh_type nh ->
  checks req vif = ret -> ret <> 0 -> handled req vif comps nh s (ret, s').
Proof. intros ? ? ? <- ?. exists nh'. split_and!; try done. intros _. by left. Qed.

Lemma get_interface_eq req s :
  exists s1, vrouter_get_interface (u32 (nhr_encap_oif_id req)) s = (vif_of (vr_interfaces (nh_vifs s)) req, s1).
Proof. unfold vrouter_get_interface, vif_of. by destruct (default false _); eexists. Qed.

Lemma host_alloc_memory s b s' :
  host_alloc s = (b, s') -> (b = false -> false ∈ nh_oracle s) /\ nh_oracle s' ⊆ nh_oracle s.
Proof.
  unfold host_alloc. intros E. simplify_eq. cbn. destruct (nh_oracle s) as [|b l]; [done|].
  split; [intros ->; by left|intros x Hx; by right].
Qed.

Lemma with_data_id nh : with_data (nh_data (nh_rest nh)) nh = nh.
Proof. by destruct nh as [? ? ? ? ? ? ? ? ? ? ? ? ? ? []]. Qed.

Lemma not_composite_edges nh : nh_type nh <> NH_COMPOSITE -> edges_of nh = [].
Proof. intros H. unfold edges_of. by rewrite decide_False. Qed.

(** Writing a nexthop that is no composite. *)
Lemma benign_simple nh nh' :
  nh_type nh <> NH_COMPOSITE -> nh_type nh' = nh_type nh -> nh_users nh' = nh_users nh ->
  nh_data_size (nh_rest nh') = nh_data_size (nh_rest nh) -> nh_data (nh_rest nh') = nh_data (nh_rest nh) ->
  (0 <= nh_component_cnt nh -> 0 <= nh_component_cnt nh') ->
  (u_ok nh = true -> u_ok nh' = true) -> benign nh nh'.
Proof.
  intros Hn Ht Hu Hs Hd Hc Hok. split_and!.
  - by rewrite !not_composite_edges by congruence.
  - done.
  - intros _ Hty. congruence.
  - intros (? & ? & ?). split_and!; [auto| |auto]. by rewrite Hs, Hd.
Qed.

Lemma benign_reach reach nh : benign nh (with_reach reach nh).
Proof. by split_and!. Qed.

Lemma benign_validate v nh : benign nh (with_validate v nh).
Proof. by split_and!. Qed.

Lemma benign_trans nh1 nh2 nh3 : benign nh1 nh2 -> benign nh2 nh3 -> benign nh1 nh3.
Proof. intros (? & ? & ? & ?) (? & ? & ? & ?). split_and!; [congruence|congruence|auto|auto]. Qed.

(** The types that only choose a function. *)
Lemma reach_add_inv req vif comps reach nh s :
  working nh s -> nhr_type req <> NH_COMPOSITE -> checks req vif = 0 -> (forall nh', reach_made reach nh nh' -> made req vif comps nh nh') ->
  handled req vif comps nh s (0, modify p (with_reach reach) s).
Proof.
  intros Hw Hn Hc Hm. apply (handled_ok _ _ _ nh (with_reach reach nh)); try done; [|by apply Hm].
  apply aw_modify; [done|apply benign_reach|done].
Qed.

Lemma rcv_add_inv req comps nh s :
  working nh s -> nh_type nh = NH_RCV -> nhr_type req = NH_RCV ->
  handled req (vif_of (vr_interfaces (nh_vifs s)) req) comps nh s (nh_rcv_add p req s).
Proof.
  intros Hw Ht Hreq. unfold nh_rcv_add. destruct (get_interface_eq req s) as [s1 Hg]. rewrite Hg.
  pose proof (aw_get_vif nh _ s _ s1 Hw Hg) as Hw1. rewrite (aw_load nh s1 Hw1). clear Hg.
  destruct (vif_of _ req) as [d|].
  2: { apply (handled_refused _ _ _ _ nh); try done. unfold checks. by rewrite Hreq. }
  set (nh1 := with_reach R_l3_rcv (with_dev (Some d) nh)).
  apply (handled_ok _ _ _ nh nh1); try done.
  - apply aw_put_vif, (aw_store nh); [done| |done]. apply benign_simple; try done. by rewrite Ht.
  - by rewrite Hreq.
  - unfold checks. by rewrite Hreq.
  - unfold made. rewrite Hreq. by split_and!.
Qed.

Lemma encap_add_inv req comps nh s :
  working nh s -> nh_type nh = NH_ENCAP -> nhr_type req = NH_ENCAP ->
  zlen (nhr_encap req) <= zlen (nh_data (nh_rest nh)) ->
  handled req (vif_of (vr_interfaces (nh_vifs s)) req) comps nh s (nh_encap_add p req s).
Proof.
  intros Hw Ht Hreq Hroom. unfold nh_encap_add. destruct (get_interface_eq req s) as [s1 Hg]. rewrite Hg.
  pose proof (aw_get_vif nh _ s _ s1 Hw Hg) as Hw1. rewrite (aw_load nh s1 Hw1). clear Hg.
  destruct (vif_of _ req) as [d|].
  2: { apply (handled_refused _ _ _ _ nh); try done. unfold checks. by rewrite Hreq. }
  assert (Hchk : checks req (Some d) = if has NH_FLAG_ENCAP_L2 (nhr_flags req) && (zlen (nhr_encap req) <? VR_ETHER_ALEN)
    then - EINVAL else 0) by (unfold checks; by rewrite Hreq).
  destruct (has _ _ && _).
  { apply (handled_refused _ _ _ _ nh); try done. by apply (aw_put_vif nh (Some d)). }
  set (len := u16 (zlen (nhr_encap req))) in *. set (nh1 := with_encap _ _ _).
  assert (Hd1 : nh_data (nh_rest nh1) = nh_data (nh_rest nh)) by (unfold nh1; by case_match).
  assert (Hw2 : working nh1 (nh_store p nh1 s1)).
  { apply (aw_store nh); [done| |unfold nh1; by case_match].
    apply benign_simple; try (unfold nh1; case_match; done); [by rewrite Ht|].
    unfold nh1. case_match; unfold u_ok, read_member; cbn; by rewrite Ht. }
  set (bytes := take (Z.to_nat len) (nhr_encap req)). set (s3 := if len =? 0 then _ else _).
  set (nh2 := with_data (overlay bytes (nh_data (nh_rest nh1))) nh1).
  assert (Hw3 : working nh2 s3).
  { unfold s3. destruct (Z.eqb_spec len 0) as [E0|_].
    - replace nh2 with nh1; [done|]. unfold nh2, bytes. rewrite E0. symmetry. apply with_data_id.
    - apply aw_write_data; [done|]. rewrite Hd1. etrans; [|exact Hroom]. unfold bytes, zlen. rewrite length_take. lia. }
  apply (handled_ok _ _ _ nh nh2); [by apply aw_put_vif|unfold nh2, nh1; by case_match..|by rewrite Hreq|done|].
  unfold made. rewrite Hreq. unfold encap_made. cbn [Z.eqb Pos.eqb]. fold len bytes.
  replace (nh_data (nh_rest nh2)) with (overlay bytes (nh_data (nh_rest nh))) by (unfold nh2; by rewrite Hd1).
  unfold nh2, nh1. destruct (has NH_FLAG_ENCAP_L2 (nhr_flags req)); by split_and!.
Qed.

(** An IPv6 tunnel: its addresses are read before they are written. *)
Lemma udp6_add_inv sip6 dip6 sport dport len nh s :
  working nh s -> nh_type nh = NH_TUNNEL -> u_ok nh = true ->
  exists nh', working nh' (udp_tunnel6_add p sip6 dip6 sport dport len nh s).2 /\
    header nh' = header nh /\ nh_type nh' = nh_type nh /\
    let ret := (udp_tunnel6_add p sip6 dip6 sport dport len nh s).1 in
    (ret = 0 /\ nh' = with_udp6 sip6 dip6 sport dport len nh \/ ret = - ENOMEM /\ false ∈ nh_oracle s).
Proof.
  intros Hw Ht Hok. unfold udp_tunnel6_add. rewrite check_u_ok by done.
  assert (Hbuf : forall o nh s, working nh s -> working nh (tun6_buffer o s).2).
  { intros o nh0 s0 Hw0. destruct o; [done|]. by apply aw_host_alloc. }
  assert (Hmem : forall o s b s', tun6_buffer o s = (b, s') -> (b = false -> false ∈ nh_oracle s) /\ nh_oracle s' ⊆ nh_oracle s).
  { intros o s0 b s' E. destruct o; [by simplify_eq/=|by apply host_alloc_memory]. }
  assert (Hb : forall b a nh0, nh_type nh0 = NH_TUNNEL -> benign nh0 (with_addr6 b a nh0)).
  { intros b a nh0 Ht0. apply benign_simple; destruct b; try done; try (by rewrite Ht0);
      intros _; unfold u_ok, read_member; cbn; rewrite Ht0; cbn; by destruct (_ && _). }
  pose proof (Hbuf (nh_udp_tun6_sip nh) nh s Hw) as Hw1.
  destruct (tun6_buffer (nh_udp_tun6_sip nh) s) as [b1 s1] eqn:E1. destruct (Hmem _ _ _ _ E1) as [M1 O1].
  destruct b1; cbn [negb snd fst] in *; [|exists nh; split_and!; try done; right; split; [done|by apply M1]].
  set (nh1 := with_addr6 true sip6 nh).
  assert (Hw2 : working nh1 (nh_store p nh1 s1)) by (apply (aw_store nh); [done|by apply Hb|done]).
  pose proof (Hbuf (nh_udp_tun6_dip nh1) nh1 _ Hw2) as Hw3.
  destruct (tun6_buffer (nh_udp_tun6_dip nh1) _) as [b2 s3] eqn:E3. destruct (Hmem _ _ _ _ E3) as [M3 _].
  destruct b2; cbn [negb snd fst] in *.
  2: { exists nh1. split_and!; try done. right. split; [done|]. apply O1. by apply M3. }
  eexists. split; [apply (aw_store nh1); [exact Hw3| |done]|split_and!; [done|done|by left]].
  destruct (Hb false dip6 nh1 Ht) as (F1 & F2 & F3 & F4). by split_and!.
Qed.

(** A request that asks for one kind of tunnel. *)
Definition one_tunnel (req : vr_nexthop_req) : Prop :=
  has NH_FLAG_TUNNEL_GRE (nhr_flags req) = true -> has NH_FLAG_TUNNEL_UDP (nhr_flags req) = false.

Lemma no_read_ok nh nh' :
  nh_type nh' = nh_type nh -> nh_flags nh' = nh_flags nh -> nh_family nh' = nh_family nh ->
  read_member nh = None -> u_ok nh' = true.
Proof. unfold u_ok, read_member. by intros -> -> -> ->. Qed.

(** A tunnel whose union is not read through a pointer may be rewritten. *)
Lemma tun_benign nh nh' :
  nh_type nh = NH_TUNNEL -> read_member nh = None -> header nh' = header nh -> nh_type nh' = nh_type nh ->
  nh_users nh' = nh_users nh -> nh_data_size (nh_rest nh') = nh_data_size (nh_rest nh) ->
  nh_data (nh_rest nh') = nh_data (nh_rest nh) -> nh_component_cnt nh' = 0 -> benign nh nh'.
Proof.
  intros Ht Hr [= Hf Hfl _ _ _] Ht' Hu Hs Hd Hc.
  apply benign_simple; [by rewrite Ht|done..|by rewrite Hc|]. intros _. by apply (no_read_ok nh).
Qed.

Lemma tunnel_no_read nh : has NH_FLAG_TUNNEL_UDP (nh_flags nh) = false -> nh_type nh = NH_TUNNEL ->
  read_member nh = None.
Proof. unfold has, read_member. intros -> ->. done. Qed.

Lemma tunnel_v4_no_read nh : nh_family nh <> AF_INET6 -> nh_type nh = NH_TUNNEL -> read_member nh = None.
Proof.
  unfold read_member. intros Hf ->. cbn. rewrite (proj2 (Z.eqb_neq _ _) Hf), andb_false_r. done.
Qed.

(** The branches before the encapsulation is copied. *)
Definition tunnel_set (req : vr_nexthop_req) (vif : option Z) (s : router) (nh nh' : vr_nexthop) (ret : Z) : Prop :=
  header nh' = header nh /\ nh_type nh' = nh_type nh /\
  (ret = 0 -> checks req vif = 0 /\ nh_data (nh_rest nh') = nh_data (nh_rest nh) /\
     tunnel_made req vif nh (with_data (overlay (nhr_encap req) (nh_data (nh_rest nh))) nh')) /\
  (ret <> 0 -> failure req vif [] s ret).

Lemma tunnel_checks req vif k :
  nhr_type req = NH_TUNNEL -> addresses_missing req = false -> tunnel_kind_of req = k ->
  checks req vif = match k with
                   | None => - EINVAL | Some T_udp | Some T_udp6 => 0 | Some _ => needs_vif vif
                   end.
Proof. intros Hreq Hmis <-. unfold checks. by rewrite Hreq, Hmis. Qed.

(** A branch that is refused. *)
Lemma tunnel_refused req vif nh s s' ret :
  working nh s' -> checks req vif = ret -> ret <> 0 ->
  exists nh', working nh' s' /\ tunnel_set req vif s nh nh' ret.
Proof. intros Hw <- Hne. exists nh. unfold tunnel_set. split_and!; try done. intros _. by left. Qed.

(** A branch that writes the nexthop as a whole. *)
Lemma tunnel_stored req vif nh nh1 s s' :
  working nh s -> nh_type nh = NH_TUNNEL -> read_member nh = None ->
  (header nh1 = header nh /\ nh_type nh1 = nh_type nh /\ nh_users nh1 = nh_users nh /\
   nh_data_size (nh_rest nh1) = nh_data_size (nh_rest nh) /\
   nh_data (nh_rest nh1) = nh_data (nh_rest nh) /\ nh_component_cnt nh1 = 0) ->
  checks req vif = 0 ->
  tunnel_made req vif nh (with_data (overlay (nhr_encap req) (nh_data (nh_rest nh))) nh1) ->
  working nh1 (nh_store p nh1 s) /\ tunnel_set req vif s' nh nh1 0.
Proof.
  intros Hw Ht Hr (Hh & Hty & Hu & Hs & Hd & Hc) H0 Hm. unfold tunnel_set. split; [|by split_and!].
  apply (aw_store nh); [done|by apply tun_benign|by apply header_id].
Qed.

Lemma tunnel_udp_inv req vif nh s :
  working nh s -> nh_type nh = NH_TUNNEL -> nhr_type req = NH_TUNNEL -> u_ok nh = true ->
  addresses_missing req = false -> has NH_FLAG_TUNNEL_GRE (nhr_flags req) = false ->
  has NH_FLAG_TUNNEL_UDP (nhr_flags req) = true -> (nhr_family req = AF_INET -> nh_family nh <> AF_INET6) ->
  let len := u16 (zlen (nhr_encap req)) in
  let res :=
    if nhr_family req =? AF_INET then
      (0, nh_store p (with_tun U_udp_tun (nhr_tun_sip req) (nhr_tun_dip req)
            (u16 (nhr_tun_sport req)) (u16 (nhr_tun_dport req)) len nh) s)
    else if nhr_family req =? AF_INET6 then
      udp_tunnel6_add p (default [] (nhr_tun_sip6 req)) (default [] (nhr_tun_dip6 req))
        (u16 (nhr_tun_sport req)) (u16 (nhr_tun_dport req)) len nh s
    else (- EINVAL, s) in
  exists nh', working nh' res.2 /\ header nh' = header nh /\
    (res.1 = 0 -> tunnel_set req vif s nh (with_reach R_udp_tunnel nh') 0) /\
    (res.1 <> 0 -> tunnel_set req vif s nh nh' res.1).
Proof.
  intros Hw Ht Hreq Hok Hmis Hg Hu Hfam len. unfold tunnel_set.
  assert (Hk : tunnel_kind_of req =
    if nhr_family req =? AF_INET then Some T_udp else if nhr_family req =? AF_INET6 then Some T_udp6 else None).
  { unfold tunnel_kind_of. by rewrite Hg, Hu. }
  pose proof (tunnel_checks req vif _ Hreq Hmis Hk) as Hc.
  destruct (Z.eqb_spec (nhr_family req) AF_INET) as [E4|N4]; cbn [fst snd].
  { set (nh1 := with_tun _ _ _ _ _ _ _). exists nh1. split; [|split; [done|]].
    - apply (aw_store nh); [done| |done]. apply tun_benign; try done. apply tunnel_v4_no_read; auto.
    - split; [|done]. intros _. split_and!; try done. intros _. split_and!; try done.
      unfold tunnel_made. rewrite Hk. by split_and!. }
  destruct (nhr_family req =? AF_INET6); cbn [fst snd].
  2: { exists nh. split_and!; try done. intros _. split_and!; try done. intros _. left. by rewrite Hc. }
  destruct (udp6_add_inv (default [] (nhr_tun_sip6 req)) (default [] (nhr_tun_dip6 req))
    (u16 (nhr_tun_sport req)) (u16 (nhr_tun_dport req)) len nh s Hw Ht Hok) as (x & Hwx & Ex & Tx & Hret).
  exists x. split_and!; [done|done| |].
  - intros H0. destruct Hret as [[_ ->]|[E _]]; [|by rewrite E in H0]. split_and!; try done. intros _.
    split_and!; try done. unfold tunnel_made. rewrite Hk. by split_and!.
  - intros Hne. destruct Hret as [[? _]|[-> Hm]]; [done|]. split_and!; try done. intros _. right. left. by split_and!.
Qed.

Lemma tunnel_branch_inv req vif nh s :
  working nh s -> nh_type nh = NH_TUNNEL -> nhr_type req = NH_TUNNEL -> u_ok nh = true ->
  addresses_missing req = false ->
  (forall b, Z.land b NH_FLAG_VALID = 0 -> has b (nh_flags nh) = has b (nhr_flags req)) -> one_tunnel req ->
  (nhr_family req = AF_INET -> nh_family nh <> AF_INET6) ->
  exists nh', working nh' (tunnel_branch p req vif nh s).2 /\
    tunnel_set req vif s nh nh' (tunnel_branch p req vif nh s).1.
Proof.
  intros Hw Ht Hreq Hok Hmis Hfl Hone Hfam. unfold tunnel_branch. pose proof (Hfl NH_FLAG_TUNNEL_UDP eq_refl) as Hud.
  rewrite !Hfl by done. pose proof (fun k => tunnel_checks req vif k Hreq Hmis) as Hc.
  destruct (has NH_FLAG_TUNNEL_GRE (nhr_flags req)) eqn:Hg.
  { assert (Hk : tunnel_kind_of req = Some T_gre) by (unfold tunnel_kind_of; by rewrite Hg).
    destruct vif as [d|]; cbn [fst snd]; [|apply tunnel_refused; [done|by rewrite (Hc _ Hk)|done]].
    eexists. apply tunnel_stored; try done.
    - apply tunnel_no_read; [rewrite Hud; by apply Hone|done].
    - by rewrite (Hc _ Hk).
    - unfold tunnel_made. rewrite Hk. by split_and!. }
  destruct (has NH_FLAG_TUNNEL_UDP (nhr_flags req)) eqn:Hu.
  { destruct (tunnel_udp_inv req vif nh s Hw Ht Hreq Hok Hmis Hg Hu Hfam) as (x & Hwx & Hx & H0 & H1).
    destruct (if nhr_family req =? AF_INET then _ else _) as [ret s1]. cbn [fst snd] in *.
    destruct (Z.eqb_spec ret 0) as [->|Hne]; cbn [negb fst snd].
    - exists (with_reach R_udp_tunnel x). split; [|by apply H0].
      apply aw_put_vif, aw_modify; [done|apply benign_reach|done].
    - exists x. split; [done|by apply H1]. }
  assert (Hr : read_member nh = None) by (apply tunnel_no_read; congruence).
  destruct (has NH_FLAG_TUNNEL_UDP_MPLS (nhr_flags req)) eqn:Hm.
  { assert (Hk : tunnel_kind_of req = Some T_mpls_udp) by (unfold tunnel_kind_of; by rewrite Hg, Hu, Hm).
    destruct vif as [d|]; cbn [fst snd]; [|apply tunnel_refused; [done|by rewrite (Hc _ Hk)|done]].
    eexists. apply tunnel_stored; try done; [by rewrite (Hc _ Hk)|]. unfold tunnel_made. rewrite Hk. by split_and!. }
  destruct (has NH_FLAG_TUNNEL_VXLAN (nhr_flags req)) eqn:Hv.
  { assert (Hk : tunnel_kind_of req = Some T_vxlan) by (unfold tunnel_kind_of; by rewrite Hg, Hu, Hm, Hv).
    destruct vif as [d|]; cbn [fst snd]; [|apply tunnel_refused; [done|by rewrite (Hc _ Hk)|done]].
    eexists. apply tunnel_stored; try done; [by rewrite (Hc _ Hk)|]. unfold tunnel_made. rewrite Hk. by split_and!. }
  apply tunnel_refused; [by apply aw_put_vif| |done]. rewrite (Hc None); [done|].
  unfold tunnel_kind_of. by rewrite Hg, Hu, Hm, Hv.
Qed.

Lemma failure_tunnel req vif comps s s' ret :
  nhr_type req = NH_TUNNEL -> nh_oracle s = nh_oracle s' -> failure req vif [] s ret -> failure req vif comps s' ret.
Proof.
  unfold failure. intros Hreq Ho. rewrite <- Ho. intros [H|[H|(_ & H & _)]]; [by left|by right; left|].
  rewrite Hreq in H. done.
Qed.

Lemma tunnel_add_inv req comps nh s :
  working nh s -> nh_type nh = NH_TUNNEL -> nhr_type req = NH_TUNNEL -> u_ok nh = true ->
  zlen (nhr_encap req) <= zlen (nh_data (nh_rest nh)) ->
  (forall b, Z.land b NH_FLAG_VALID = 0 -> has b (nh_flags nh) = has b (nhr_flags req)) -> one_tunnel req ->
  (nhr_family req = AF_INET -> nh_family nh <> AF_INET6) ->
  handled req (vif_of (vr_interfaces (nh_vifs s)) req) comps nh s (nh_tunnel_add p req s).
Proof.
  intros Hw Ht Hreq Hok Hroom Hfl Hone Hfam. unfold nh_tunnel_add. fold (addresses_missing req).
  destruct (addresses_missing req) eqn:Hmis.
  { apply (handled_refused _ _ _ _ nh); try done. unfold checks. by rewrite Hreq, Hmis. }
  rewrite (aw_load nh s Hw). destruct (get_interface_eq req s) as [s1 Hg]. rewrite Hg.
  pose proof (aw_get_vif nh _ s _ s1 Hw Hg) as Hw1. set (vif := vif_of _ req) in *.
  assert (Ho : nh_oracle s1 = nh_oracle s).
  { revert Hg. unfold vrouter_get_interface. destruct (default false _); intros; by simplify_eq. }
  destruct (tunnel_branch_inv req vif nh s1 Hw1 Ht Hreq Hok Hmis Hfl Hone Hfam) as (nh2 & Hw2 & E1 & E2 & E3 & E4).
  destruct (tunnel_branch p req vif nh s1) as [ret s2]. cbn [fst snd] in *.
  destruct (Z.eqb_spec ret 0) as [->|Hne]; cbn [negb].
  2: { exists nh2. split_and!; try done. intros _. apply (failure_tunnel _ _ _ s1); auto. }
  destruct (E3 eq_refl) as (H0 & Hd & Hm). rewrite <- Hd in Hm.
  apply (handled_ok _ _ _ nh (with_data (overlay (nhr_encap req) (nh_data (nh_rest nh2))) nh2)); try done.
  - apply aw_put_vif, aw_write_data; [done|]. by rewrite Hd.
  - by rewrite Hreq.
  - unfold made. by rewrite Hreq.
Qed.

End work.

(** ** Composites *)

(** What the release and the look-up of components leave: the kind of every nexthop, and
    the answers the host still has for allocations. *)
Record stable (s s' : router) : Prop := {
  st_static : forall q, static <$> nh_heap s' !! q = static <$> nh_heap s !! q;
  st_oracle : nh_oracle s' ⊆ nh_oracle s
}.

#[export] Instance stable_preorder : PreOrder stable.
Proof. split; [by split|]. intros s1 s2 s3 [] []. split; [congruence|by etrans]. Qed.

Lemma store_stable p nh nh' s :
  nh_heap s !! p = Some nh -> static nh' = static nh -> stable s (nh_store p nh' s).
Proof.
  intros Hp Hs. split; [|done]. intros q. cbn. destruct (decide (p = q)) as [<-|].
  - by rewrite lookup_insert_eq, Hp; cbn; rewrite Hs.
  - by rewrite lookup_insert_ne.
Qed.

Lemma modify_stable p f s : (forall nh, static (f nh) = static nh) -> stable s (modify p f s).
Proof.
  intros Hf. unfold modify. destruct (nh_load p s) as [nh|] eqn:Hp; [|by split].
  apply nh_load_heap in Hp. by apply (store_stable p nh).
Qed.

Lemma release_oracle q s : nh_oracle (release_nexthop q s) ⊆ nh_oracle s.
Proof.
  assert (Hf : forall s, nh_oracle (vrouter_free_nexthop q s) = nh_oracle s).
  { clear s. intros s. unfold vrouter_free_nexthop. destruct (nh_load q s) as [nh|]; [|done].
    unfold check_u. by destruct (nh_dev nh), (u_ok nh). }
  unfold release_nexthop, vrouter_free_nexthop_defer. destruct (vr_not_ready s); [by rewrite Hf|].
  destruct (host_alloc s) as [ok s1] eqn:E. apply host_alloc_memory in E as [_ E].
  destruct ok; [done|]. change (- ENOMEM =? 0) with false. cbv iota. by rewrite Hf.
Qed.

Lemma put_oracle n q s : nh_oracle (put_nexthop n q s) ⊆ nh_oracle s.
Proof.
  revert q s. induction n as [|n IH]; intros q s; [reflexivity|]. cbn [put_nexthop].
  destruct (nh_load q s) as [nh|]; [|reflexivity]. set (u := if nh_users nh =? 0 then _ else _).
  destruct (u =? 0); [|reflexivity]. etrans; [apply release_oracle|].
  case_match; [|reflexivity]. set (s1 := nh_store q _ (check_u _ _)).
  assert (E1 : nh_oracle s1 = nh_oracle s) by (unfold s1, check_u; by destruct (u_ok _)).
  rewrite <- E1. clear E1. generalize s1. clear s1.
  induction (seqZ 0 _) as [|i idx IHi]; intros s1; [reflexivity|]. cbn [put_components]. etrans; [apply IHi|].
  unfold put_component. repeat case_match; try reflexivity. etrans; [apply IH|reflexivity].
Qed.

Lemma put_stable o s : stable s (vrouter_put_nexthop o s).
Proof. destruct o; [|done]. split; [apply put_evolves|apply put_oracle]. Qed.

Lemma foldl_stable (f : router -> Z -> router) idx s : (forall s i, stable s (f s i)) -> stable s (foldl f s idx).
Proof. intros Hf. revert s. induction idx as [|i idx IH]; intros s; [reflexivity|]. cbn. etrans; [apply Hf|apply IH]. Qed.

Lemma drop_stable p n s : stable s (drop_components p n s).
Proof.
  unfold drop_components. etrans; [|apply modify_stable].
  - apply foldl_stable. intros s1 i. unfold put_listed. repeat case_match; try apply put_stable; by split.
  - intros nh. unfold drop_arrays. by destruct (nh_component_ecmp nh).
Qed.

Lemma get_component_stable p req s i : stable s (get_component p req s i).
Proof.
  unfold get_component. destruct (vrouter_get_nexthop _ _ s) as [q s1] eqn:Hg.
  trans s1.
  { split.
    - pose proof (get_evolves (nhr_rid req) (u32 (default 0 (zget (nhr_nh_list req) i))) s) as He. rewrite Hg in He. apply He.
    - unfold vrouter_get_nexthop in Hg. repeat case_match; by simplify_eq. }
  destruct (nh_load p s1) as [nh|] eqn:Hp; [|by split]. apply nh_load_heap in Hp.
  destruct (nh_component_nh nh); [|by split]. by apply (store_stable p nh).
Qed.

(** The validation reads the type and the flags of the components, and of the flags not
    whether they are valid. *)
Definition kind (nh : vr_nexthop) : Z * Z := (nh_type nh, Z.ldiff (nh_flags nh) NH_FLAG_VALID).

Definition same_kinds (l : list vr_component_nh) (s s' : router) : Prop :=
  forall q, q ∈ omap cnh l -> kind <$> nh_load q s' = kind <$> nh_load q s.

Lemma kind_inv nh nh' :
  kind nh' = kind nh -> nh_type nh' = nh_type nh /\
  forall b, Z.land b NH_FLAG_VALID = 0 -> has b (nh_flags nh') = has b (nh_flags nh).
Proof.
  intros [= Ht Hf]. split; [done|]. intros b Hb.
  by rewrite <- (has_ldiff_valid b (nh_flags nh')), <- (has_ldiff_valid b (nh_flags nh)), Hf.
Qed.

Lemma validate_kinds req l s s' :
  same_kinds l s s' -> nh_composite_mcast_validate req l s' = nh_composite_mcast_validate req l s.
Proof.
  intros Hk.
  assert (Hq : forall c l0, same_kinds (c :: l0) s s' -> same_kinds l0 s s' /\
    match cnh c with
    | None => True
    | Some q => (nh_load q s' = None /\ nh_load q s = None) \/
        exists x y, nh_load q s' = Some y /\ nh_load q s = Some x /\ nh_type y = nh_type x /\
          forall b, Z.land b NH_FLAG_VALID = 0 -> has b (nh_flags y) = has b (nh_flags x)
    end).
  { intros c l0 H0. split.
    - intros q Hin. apply H0. cbn. destruct (cnh c); [by right|done].
    - destruct (cnh c) as [q|] eqn:Ec; [|done]. assert (Hin : q ∈ omap cnh (c :: l0)) by (cbn; rewrite Ec; by left).
      pose proof (H0 q Hin) as E. destruct (nh_load q s') as [y|], (nh_load q s) as [x|]; cbn in E; [|done|done|by left].
      apply (inj Some), kind_inv in E as [E1 E2]. right. by exists x, y. }
  assert (H1 : forall tor, validate_tunnels tor l s' = validate_tunnels tor l s).
  { intros tor. induction l as [|c l0 IH]; [done|]. cbn. destruct (Hq _ _ Hk) as [Hk0 Hc].
    destruct (cnh c) as [q|]; [|by apply IH]. destruct Hc as [[-> ->]|(x & y & -> & -> & Et & Hf)]; [done|]. cbn.
    rewrite Et, !Hf by done. repeat case_match; try done. by apply IH. }
  assert (H2 : forall a b, validate_encaps a b l s' = validate_encaps a b l s).
  { clear H1. induction l as [|c l0 IH]; [done|]. intros a b. cbn. destruct (Hq _ _ Hk) as [Hk0 Hc].
    destruct (cnh c) as [q|]; [|by apply IH]. destruct Hc as [[-> ->]|(x & y & -> & -> & Et & Hf)]; [done|]. cbn.
    rewrite Et, !Hf by done. repeat case_match; try done; by apply IH. }
  assert (H3 : validate_l2 l s' = validate_l2 l s).
  { clear H1 H2. induction l as [|c l0 IH]; [done|]. cbn. destruct (Hq _ _ Hk) as [Hk0 Hc].
    destruct (cnh c) as [q|]; [|by apply IH]. destruct Hc as [[-> ->]|(x & y & -> & -> & Et & Hf)]; [done|]. cbn. rewrite Et.
    set (m := Z.lor NH_FLAG_COMPOSITE_FABRIC _). assert (Em : forall f, (Z.land f m =? 0) = negb (has m f)).
    { intros f. unfold has. by rewrite negb_involutive. }
    rewrite !Em, Hf by done. repeat case_match; try done. by apply IH. }
  unfold nh_composite_mcast_validate. by rewrite H1, H2, H3.
Qed.

Lemma aw_perm ext ext' tab mx r p nh s :
  ext ≡ₚ ext' -> at_work ext tab mx r p nh s -> at_work ext' tab mx r p nh s.
Proof.
  intros Hp [Hi Hh Ha Hn Ht Hm Hr]. split; try done.
  - by apply (inv_perm ext).
  - by apply (anchored_perm ext).
  - unfold refs, zlen in *. by rewrite <- Hp.
Qed.

Lemma aw_weaken ext tab mx r r' p nh s : r <= r' -> at_work ext tab mx r p nh s -> at_work ext tab mx r' p nh s.
Proof. intros Hle [Hi Hh Ha Hn Ht Hm Hr]. split; try done. lia. Qed.

Lemma drop_components_work ext tab mx r p nh l s :
  at_work ext tab mx r p nh s -> nh_type nh = NH_COMPOSITE -> nh_component_nh nh = Some l ->
  exists u, at_work ext tab mx r p (with_users u (drop_arrays nh)) (drop_components p (nh_component_cnt nh) s).
Proof.
  intros Hw Ht Hl. pose proof Hw as [Hi Hh Ha Hn Htab Hm Hr].
  destruct (decide (0 < nh_component_cnt nh)) as [Hc|Hc].
  - destruct (inv_comp _ _ Hi p nh Hh Ha Ht Hc) as (l' & Hl' & Hle). simplify_eq.
    destruct (drop_components_inv p ext (Z.to_nat (nh_component_cnt nh)) nh l s)
      as (Hi2 & Ha2 & Hn2 & Ht2 & Hm2 & Hr2 & u & Hp2); try done; [unfold zlen in *; lia|lia|].
    rewrite Z2Nat.id in * by lia. exists u. split; try done; [congruence|lia].
  - exists (nh_users nh). unfold drop_components. unfold seqZ. rewrite Z2Nat.nonpos by lia. cbn [seq fmap list_fmap foldl].
    assert (E : with_users (nh_users nh) (drop_arrays nh) = drop_arrays nh).
    { unfold drop_arrays. by destruct (nh_component_ecmp nh). }
    rewrite E. apply (aw_modify ext tab mx r p nh); [done| |].
    + split_and!.
      * rewrite (edges_of_emptied (drop_arrays nh)) by done. unfold edges_of.
        case_decide; [|done]. by rewrite Z2Nat.nonpos by lia.
      * unfold drop_arrays. by destruct (nh_component_ecmp nh).
      * intros _. by apply comp_wf_emptied.
      * intros (? & ? & _). unfold drop_arrays. by destruct (nh_component_ecmp nh).
    + unfold drop_arrays. by destruct (nh_component_ecmp nh).
Qed.

(** A reference is taken while a nexthop is being written. *)
Lemma get_work ext tab mx r p nh s rid i o s1 :
  at_work ext tab mx r p nh s -> r < UINT_MAX -> vrouter_get_nexthop rid i s = (o, s1) ->
  exists u, at_work (option_list o ++ ext) tab mx (r + 1) p (with_users u nh) s1.
Proof.
  intros [Hi Hh Ha Hn Ht Hm Hr] Hlt Hg. destruct o as [q|].
  2: { unfold vrouter_get_nexthop in Hg. destruct (__vrouter_get_nexthop i s); [by case_match|]. simplify_eq.
       exists (nh_users nh). cbn [option_list app]. replace (with_users (nh_users nh) nh) with nh by (by destruct nh).
       split; try done. change (option_list None ++ ext) with ext. lia. }
  destruct (get_inv ext rid i s q s1 Hi ltac:(lia) Hg) as (Hi1 & Ht1 & Hm1 & Hf).
  destruct (get_found _ _ _ Hf) as (t & Et & Hz & _).
  pose proof (table_ref_in ext s t i q Et Hz) as Hqin.
  pose proof (inv_alive _ _ Hi q Hqin) as Hqa. pose proof Hqa as [[nq Hq] _].
  unfold vrouter_get_nexthop in Hg. rewrite Hf, (alive_load _ _ Hqa), Hq in Hg. simplify_eq.
  set (nq' := with_users (u32 (nh_users nq + 1)) nq) in *.
  assert (Hrf : refs (q :: ext) (nh_store q nq' s) ≡ₚ q :: refs ext s).
  { trans (refs (q :: ext) s).
    - rewrite (refs_store (q :: ext) (q :: ext) [] s q nq nq' Hq); by rewrite app_nil_r.
    - unfold refs. rewrite !(assoc_L (++)). by rewrite <- Permutation_middle. }
  exists (if decide (q = p) then u32 (nh_users nq + 1) else nh_users nh). split; try done.
  - cbn. case_decide as E.
    + subst q. rewrite lookup_insert_eq. assert (nq = nh) as -> by congruence. done.
    + rewrite lookup_insert_ne by done. rewrite Hh. by destruct nh.
  - unfold alive. cbn. rewrite lookup_insert_is_Some'. destruct Ha as (? & ? & ?). eauto.
  - destruct Hn as [?|Hn]; [by left|right]. cbn [option_list app]. rewrite Hrf. set_solver.
  - cbn [option_list app]. unfold zlen in *. rewrite Hrf. cbn. lia.
Qed.

Lemma take_zset (l : list vr_component_nh) k c :
  (k < length l)%nat -> take (S k) (zset l (Z.of_nat k) c) = take k l ++ [c].
Proof.
  intros Hk. unfold zset. rewrite decide_True, Nat2Z.id by lia.
  rewrite (take_S_r _ _ c) by (by rewrite list_lookup_insert_eq). by rewrite take_insert_ge.
Qed.

(** The components are the ones the table holds. *)
Lemma get_pointer ext tab rid i s :
  inv ext s -> vr_nexthops s = Some tab -> 0 <= i ->
  (vrouter_get_nexthop rid i s).1 = default None (zget tab i).
Proof.
  intros Hi Ht H0. pose proof (inv_max _ _ Hi tab Ht) as Hm. unfold vrouter_get_nexthop, __vrouter_get_nexthop.
  rewrite Ht. destruct (Z.leb_spec (vr_max_nexthops s) i) as [Hle|Hlt].
  - destruct (zget tab i) as [o|] eqn:E; [|done]. apply zget_range in E. lia.
  - destruct (default None (zget tab i)) as [q|]; [|done]. by destruct (nh_load q s).
Qed.

Lemma get_component_work ext tab mx r p req nh l k s :
  let l' := zset l (Z.of_nat k) (component_of tab req (Z.of_nat k)) in
  at_work (omap cnh (take k l) ++ ext) tab mx r p nh s -> r < UINT_MAX ->
  nh_component_cnt nh = 0 -> nh_component_nh nh = Some l -> (k < length l)%nat ->
  exists u, at_work (omap cnh (take (S k) l') ++ ext) tab mx (r + 1) p
    (with_users u (relist (Some l') nh)) (get_component p req s (Z.of_nat k)).
Proof.
  intros l' Hw Hlt Hc Hl Hk. unfold get_component.
  destruct (vrouter_get_nexthop _ _ s) as [q s1] eqn:Hg.
  pose proof (get_pointer _ tab (nhr_rid req) (u32 (default 0 (zget (nhr_nh_list req) (Z.of_nat k)))) s
    (aw_inv _ _ _ _ _ _ _ Hw) (aw_tab _ _ _ _ _ _ _ Hw)) as Hq.
  rewrite Hg in Hq. cbn [fst] in Hq. destruct (get_work _ tab mx r p nh s _ _ q s1 Hw Hlt Hg) as [u Hw1].
  rewrite (aw_load _ _ _ _ _ _ _ Hw1). change (nh_component_nh (with_users u nh)) with (nh_component_nh nh).
  rewrite Hl. assert (Ec : mk_component q (default 0 (zget (nhr_label_list req) (Z.of_nat k)))
    (if has NH_FLAG_COMPOSITE_ECMP (nhr_flags req) then Z.of_nat k else -1) = component_of tab req (Z.of_nat k)).
  { unfold component_of. rewrite <- Hq; [done|]. unfold u32. by apply Z.mod_pos_bound. }
  rewrite Ec. set (c := component_of _ _ _) in *. exists u. unfold l'.
  rewrite take_zset by done. rewrite omap_app. cbn [omap list_omap].
  apply (aw_perm (option_list q ++ omap cnh (take k l) ++ ext)).
  { rewrite (assoc_L (++)). apply Permutation_app_tail. rewrite Permutation_app_comm.
    apply Permutation_app_head. rewrite <- Ec. by destruct q. }
  apply (aw_store _ _ _ _ _ (with_users u nh)); [done| |done].
  split_and!; try done; [by rewrite !edges_of_emptied|]. intros _. by apply comp_wf_emptied.
Qed.

Lemma get_loop_work ext tab mx req p n d k : forall r nh l s,
  (k + d = n)%nat -> at_work (omap cnh (take k l) ++ ext) tab mx r p nh s -> r + Z.of_nat d <= UINT_MAX ->
  nh_component_cnt nh = 0 -> nh_component_nh nh = Some l -> length l = n ->
  take k l = component_of tab req <$> seqZ 0 (Z.of_nat k) ->
  exists u, let l' := component_of tab req <$> seqZ 0 (Z.of_nat n) in
    at_work (omap cnh l' ++ ext) tab mx (r + Z.of_nat d) p (with_users u (relist (Some l') nh))
      (foldl (get_component p req) s (seqZ (Z.of_nat k) (Z.of_nat d))).
Proof.
  revert k. induction d as [|d IH]; intros k r nh l s Hn Hw Hlt Hc Hl Hlen Htk.
  - exists (nh_users nh). assert (k = n) as -> by lia. cbn [Z.of_nat] in *. rewrite Z.add_0_r, <- Htk.
    rewrite take_ge in * by lia. cbn. destruct nh. cbn in *. by subst.
  - rewrite (seqZ_cons (Z.of_nat k)) by lia. cbn [foldl].
    destruct (get_component_work ext tab mx r p req nh l k s) as (u & Hw1); try done; [lia|lia|].
    replace (Z.succ (Z.of_nat k)) with (Z.of_nat (S k)) by lia.
    replace (Z.pred (Z.of_nat (S d))) with (Z.of_nat d) by lia.
    destruct (IH (S k) (r + 1) _ _ _ ltac:(lia) Hw1 ltac:(lia)) as (v & Hw2); try done.
    { unfold zset. rewrite decide_True by lia. by rewrite length_insert. }
    { rewrite take_zset, Htk by lia. replace (Z.of_nat (S k)) with (Z.of_nat k + 1) by lia.
      by rewrite seqZ_app, fmap_app by lia. }
    exists v. replace (r + Z.of_nat (S d)) with (r + 1 + Z.of_nat d) by lia. exact Hw2.
Qed.

(** The components become part of the composite. *)
Lemma adopt_work ext tab mx r p nh l s :
  at_work (omap cnh l ++ ext) tab mx r p nh s -> nh_type nh = NH_COMPOSITE ->
  nh_component_cnt nh = 0 -> nh_component_nh nh = Some l ->
  at_work ext tab mx r p (with_components (zlen l) (Some l) nh) (nh_store p (with_components (zlen l) (Some l) nh) s).
Proof.
  intros [Hi Hh Ha Hn Ht Hm Hr] Hty Hc Hl. set (nh' := with_components (zlen l) (Some l) nh).
  assert (He : edges_of nh' = omap cnh l).
  { rewrite (composite_edges nh' l (length l)) by done. by rewrite take_ge. }
  assert (Hperm : edges_of nh' ++ ext ++ [] ≡ₚ edges_of nh ++ omap cnh l ++ ext).
  { by rewrite He, (edges_of_emptied nh Hc), app_nil_r. }
  pose proof (refs_store _ ext [] s p nh nh' Hh Hperm) as Hrf. rewrite app_nil_r in Hrf.
  split; try done.
  - apply (inv_store _ ext [] s p nh nh' Hi Hh Ha Hperm); [set_solver|rewrite occ_nil; cbn; lia|done| |].
    + intros _ _. by exists l.
    + intros (? & ? & _). split_and!; [done..|]. cbn. unfold zlen. lia.
  - cbn. apply lookup_insert_eq.
  - unfold alive. cbn. rewrite lookup_insert_eq. destruct Ha. eauto.
  - destruct Hn as [?|Hn]; [by left|right; by rewrite <- Hrf].
  - unfold zlen in *. by rewrite <- Hrf.
Qed.

(** The validation reads live nexthops only. *)
Lemma validate_some req l s :
  (forall q, q ∈ omap cnh l -> is_Some (nh_load q s)) -> is_Some (nh_composite_mcast_validate req l s).
Proof.
  intros Hl.
  assert (H1 : forall tor, is_Some (validate_tunnels tor l s)).
  { intros tor. revert Hl. induction l as [|c l IH]; intros Hl; [by eexists|]. cbn in *.
    destruct (cnh c) as [q|]; [|by apply IH]. destruct (Hl q) as [x Hx]; [set_solver|]. rewrite Hx. cbn.
    repeat (case_match; [by eexists|]). apply IH. set_solver. }
  assert (H2 : forall a b, is_Some (validate_encaps a b l s)).
  { clear H1. revert Hl. induction l as [|c l IH]; intros Hl a b; [by eexists|]. cbn in *.
    destruct (cnh c) as [q|]; [|by apply IH]. destruct (Hl q) as [x Hx]; [set_solver|]. rewrite Hx. cbn.
    assert (IH' : forall a b, is_Some (validate_encaps a b l s)) by (apply IH; set_solver).
    repeat (case_match; try by eexists); apply IH'. }
  assert (H3 : is_Some (validate_l2 l s)).
  { clear H1 H2. revert Hl. induction l as [|c l IH]; intros Hl; [by eexists|]. cbn in *.
    destruct (cnh c) as [q|]; [|by apply IH]. destruct (Hl q) as [x Hx]; [set_solver|]. rewrite Hx. cbn.
    repeat (case_match; [by eexists|]). apply IH. set_solver. }
  unfold nh_composite_mcast_validate.
  set (o1 := if has _ (nhr_flags req) then validate_tunnels _ l s else Some true).
  assert (is_Some o1) as [b1 ->] by (unfold o1; case_match; [apply H1|by eexists]). cbn.
  destruct b1; cbn; [|by eexists].
  set (o2 := if has _ (nhr_flags req) then validate_encaps _ _ l s else Some true).
  assert (is_Some o2) as [b2 ->] by (unfold o2; case_match; [apply H2|by eexists]). cbn.
  destruct b2; cbn; [|by eexists]. repeat (case_match; try by eexists). done.
Qed.

(** The end of a composite: the functions are chosen and the array for equal paths is
    built, or everything is dropped again. *)
Definition finished (req : vr_nexthop_req) (l : list vr_component_nh) (nh x : vr_nexthop) : Prop :=
  let flags := nhr_flags req in
  nh_dev x = nh_dev nh /\ nh_data (nh_rest x) = nh_data (nh_rest nh) /\
  nh_u (nh_rest x) = nh_u (nh_rest nh) /\
  nh_component_cnt x = nh_component_cnt nh /\ nh_component_nh x = nh_component_nh nh /\
  nh_reach_nh (nh_rest x) = composite_reach flags (nh_reach_nh (nh_rest nh)) /\
  nh_validate_src (nh_rest x) = composite_validate flags (nh_validate_src (nh_rest nh)) /\
  (spreads req l = true ->
     nh_component_ecmp_cnt x = u16 (zlen (active_components l)) /\ nh_component_ecmp x = Some (active_components l)).

Lemma finish_work ext tab mx r p req nh l s :
  at_work ext tab mx r p nh s -> nh_type nh = NH_COMPOSITE -> nh_component_nh nh = Some l ->
  nh_component_cnt nh = zlen l -> zlen (nhr_nh_list req) = zlen l ->
  let res := composite_finish p req l s in
  exists x, at_work ext tab mx r p x res.2 /\ header x = header nh /\ nh_type x = nh_type nh /\
    (res.1 = 0 -> nh_composite_mcast_validate req l s = Some true /\ finished req l nh x) /\
    (res.1 <> 0 -> res.1 = - EINVAL /\
       (nh_composite_mcast_validate req l s = Some false \/ spreads req l = true /\ false ∈ nh_oracle s)).
Proof.
  intros Hw Ht Hl Hc Hn. unfold composite_finish. rewrite Hn, <- Hc.
  assert (Hdrop : forall nh' s', at_work ext tab mx r p nh' s' -> nh_type nh' = NH_COMPOSITE ->
    nh_component_nh nh' = Some l -> nh_component_cnt nh' = nh_component_cnt nh -> header nh' = header nh ->
    exists x, at_work ext tab mx r p x (drop_components p (nh_component_cnt nh) s') /\ header x = header nh /\
      nh_type x = nh_type nh).
  { intros nh' s' Hw' Ht' Hl' Hc' Hid'. rewrite <- Hc'.
    destruct (drop_components_work ext tab mx r p nh' l s' Hw' Ht' Hl') as [u Hu].
    eexists. split; [exact Hu|]. unfold drop_arrays. destruct (nh_component_ecmp nh'); (split; [exact Hid'|cbn; congruence]). }
  destruct (validate_some req l s) as [b Hb].
  { intros q Hq. pose proof Hw as [Hi Hh Ha _ _ _ _].
    assert (Hin : q ∈ refs ext s).
    { unfold refs. apply elem_of_app. right. apply elem_of_app. left.
      rewrite (heap_edges_lookup _ _ _ Hh), (composite_edges nh l (length l)) by done.
      rewrite take_ge by done. set_solver. }
    pose proof (inv_alive _ _ Hi q Hin) as Hqa. rewrite (alive_load _ _ Hqa). apply Hqa. }
  rewrite Hb. destruct b; cbn [fst snd].
  2: { destruct (Hdrop nh s) as (x & Hx & E1 & E2); try done. exists x. split_and!; try done. intros _. by split; [|left]. }
  set (f := fun nh0 => with_validate (composite_validate (nhr_flags req) (nh_validate_src (nh_rest nh0)))
    (with_reach (composite_reach (nhr_flags req) (nh_reach_nh (nh_rest nh0))) nh0)).
  assert (Hw1 : at_work ext tab mx r p (f nh) (modify p f s)).
  { apply (aw_modify ext tab mx r p nh); [done| |done].
    eapply benign_trans; [apply benign_reach|apply benign_validate]. }
  fold (spreads req l). destruct (spreads req l) eqn:Hs.
  2: { exists (f nh). split_and!; try done. intros _. split; [done|]. unfold finished. rewrite Hs. by split_and!. }
  pose proof (aw_host_alloc ext tab mx r p _ _ Hw1) as Hw2.
  destruct (host_alloc (modify p f s)) as [ok s2] eqn:Ha. apply host_alloc_memory in Ha as [Hm _].
  assert (Ho : nh_oracle (modify p f s) ⊆ nh_oracle s) by (by apply modify_stable).
  destruct ok; cbn [fst snd] in *.
  - exists (with_ecmp (u16 (zlen (active_components l))) (Some (active_components l)) (f nh)).
    split; [apply (aw_modify ext tab mx r p (f nh)); [done| |done]; by split_and!|].
    split; [done|]. split; [done|]. split; [|done].
    intros _. split; [done|]. unfold finished. by split_and!.
  - destruct (Hdrop (f nh) s2) as (x & Hx & E1 & E2); try done. exists x. split_and!; try done.
    intros _. split; [done|]. right. split; [done|]. apply Ho. by apply Hm.
Qed.

(** A composite that is rewritten while it has no components. *)
Lemma benign_emptied nh nh' :
  nh_component_cnt nh = 0 -> nh_component_cnt nh' = 0 -> nh_users nh' = nh_users nh ->
  nh_data_size (nh_rest nh') = nh_data_size (nh_rest nh) -> nh_data (nh_rest nh') = nh_data (nh_rest nh) ->
  (u_ok nh = true -> u_ok nh' = true) -> benign nh nh'.
Proof.
  intros Hc Hc' Hu Hs Hd Hok. split_and!; [by rewrite !edges_of_emptied|done|intros _; by apply comp_wf_emptied|].
  intros (? & ? & ?). split_and!; [auto| |by rewrite Hc']. by rewrite Hs, Hd.
Qed.

Lemma components_length tab req : zlen (components_of tab req) = zlen (nhr_nh_list req).
Proof. unfold components_of, zlen. rewrite length_fmap, length_seqZ. lia. Qed.

(** The components that are looked up are live in every state that has the table. *)
Lemma components_load ext tab req s q :
  inv ext s -> vr_nexthops s = Some tab -> q ∈ omap cnh (components_of tab req) -> alive s q.
Proof.
  intros Hi Ht Hq. apply (inv_alive _ _ Hi). apply list_elem_of_omap in Hq as (c & Hc & Ec).
  apply list_elem_of_fmap in Hc as (i & -> & _). cbn in Ec.
  destruct (zget tab _) as [o|] eqn:Hz; cbn in Ec; [|done]. subst o. exact (table_ref_in ext s tab _ q Ht Hz).
Qed.

Lemma stable_kinds ext tab req s s' :
  inv ext s -> inv ext s' -> vr_nexthops s = Some tab -> vr_nexthops s' = Some tab -> stable s s' ->
  same_kinds (components_of tab req) s s'.
Proof.
  intros Hi Hi' Ht Ht' [Hst _] q Hq. pose proof (components_load ext tab req s q Hi Ht Hq) as Ha.
  pose proof (components_load ext tab req s' q Hi' Ht' Hq) as Ha'. rewrite (alive_load _ _ Ha), (alive_load _ _ Ha').
  pose proof (Hst q) as E. destruct Ha as [[x Hx] _], Ha' as [[y Hy] _]. rewrite Hx, Hy in *. cbn in *.
  injection E as E1 _ E2 _ _. unfold kind. by rewrite E1, E2.
Qed.

(** What the composite held is released. *)
Lemma empty_work ext tab mx r p nh s :
  at_work ext tab mx r p nh s -> nh_type nh = NH_COMPOSITE ->
  let s' := match nh_component_nh nh with
            | Some _ => if nh_component_cnt nh =? 0 then s else drop_components p (nh_component_cnt nh) s
            | None => s
            end in
  stable s s' /\
  exists nh', at_work ext tab mx r p nh' s' /\ header nh' = header nh /\ nh_type nh' = NH_COMPOSITE /\
    nh_component_cnt nh' = 0 /\ nh_dev nh' = nh_dev nh /\ nh_rest nh' = nh_rest nh.
Proof.
  intros Hw Ht. pose proof Hw as [Hi Hh Ha _ _ _ _].
  destruct (nh_component_nh nh) as [l|] eqn:Hl; cbn zeta.
  - destruct (nh_component_cnt nh =? 0) eqn:Hc; [split; [done|]; apply Z.eqb_eq in Hc; by exists nh|].
    split; [apply drop_stable|]. destruct (drop_components_work ext tab mx r p nh l s Hw Ht Hl) as [u Hu].
    eexists. split; [exact Hu|]. unfold drop_arrays. by destruct (nh_component_ecmp nh).
  - split; [done|]. exists nh. split_and!; try done. destruct (inv_obj _ _ Hi p nh Hh ltac:(apply Ha)) as (_ & _ & Hc0).
    destruct (decide (0 < nh_component_cnt nh)) as [Hc|]; [|lia].
    destruct (inv_comp _ _ Hi p nh Hh Ha Ht Hc) as (l & Hx & _). congruence.
Qed.

(** The array is allocated, filled, and becomes part of the composite. *)
Lemma fill_work ext tab mx r p req nh s :
  let n := zlen (nhr_nh_list req) in
  let l := components_of tab req in
  let g := fun nh => with_member U_composite
             (with_components (nh_component_cnt nh) (Some (replicate (Z.to_nat n) (mk_component None 0 0))) nh) in
  let s' := modify p (fun nh => with_components (u16 n) (nh_component_nh nh) nh)
              (foldl (get_component p req) (modify p g s) (seqZ 0 n)) in
  at_work ext tab mx r p nh s -> nh_type nh = NH_COMPOSITE -> nh_component_cnt nh = 0 ->
  n < 65536 -> r + n <= UINT_MAX ->
  stable s s' /\ exists u, at_work ext tab mx (r + n) p
    (with_components (zlen l) (Some l) (with_users u (relist (Some l) (g nh)))) s'.
Proof.
  intros n l g s' Hw Ht Hc Hn Hroom. assert (0 <= n) by (unfold n, zlen; lia). split.
  { unfold s'. etrans; [by apply (modify_stable p g)|]. etrans; [|by apply modify_stable].
    apply foldl_stable. intros. apply get_component_stable. }
  set (l0 := replicate (Z.to_nat n) (mk_component None 0 0)) in *.
  assert (Hw3 : at_work (omap cnh (take 0 l0) ++ ext) tab mx r p (g nh) (modify p g s)).
  { apply (aw_modify ext tab mx r p nh g); [done| |done]. apply benign_emptied; try done.
    unfold u_ok, read_member. cbn. by rewrite Ht. }
  assert (Hl0 : length l0 = Z.to_nat n) by (unfold l0; by rewrite length_replicate).
  destruct (get_loop_work ext tab mx req p (Z.to_nat n) (Z.to_nat n) 0 r (g nh) l0 (modify p g s))
    as (u & Hw4); try done; [lia|].
  rewrite !Z2Nat.id in Hw4 by lia. change (Z.of_nat 0) with 0 in *. cbn zeta in Hw4. fold n in Hw4.
  change (component_of tab req <$> seqZ 0 n) with l in Hw4. exists u.
  set (nh4 := with_users u (relist (Some l) (g nh))) in *.
  assert (Hln : u16 n = zlen l).
  { unfold l. rewrite components_length, u16_small by lia. done. }
  unfold s', modify at 1. rewrite (aw_load _ _ _ _ _ _ _ Hw4), Hln.
  exact (adopt_work ext tab mx (r + n) p nh4 l _ Hw4 Ht Hc eq_refl).
Qed.

(** A composite that was emptied, filled and finished is the one described. *)
Lemma finished_made req l nh nh5 x :
  zlen l < 65536 -> l <> [] -> nh_dev nh5 = nh_dev nh -> nh_data (nh_rest nh5) = nh_data (nh_rest nh) ->
  nh_u (nh_rest nh5) = U_composite -> nh_component_cnt nh5 = zlen l -> nh_component_nh nh5 = Some l ->
  nh_reach_nh (nh_rest nh5) = R_discard -> nh_validate_src (nh_rest nh5) = V_null ->
  finished req l nh5 x -> composite_made req l nh x.
Proof.
  intros Hn Hne Hd Hda Hu Hc Hl Hr Hv (F1 & F2 & F3 & F4 & F5 & F6 & F7 & F8).
  unfold composite_made. rewrite decide_False by done. rewrite Hr in F6. rewrite Hv in F7.
  split_and!; try congruence. intros Hs. destruct (F8 Hs) as [-> ->]. split; [|done]. apply u16_small.
  assert (length (active_components l) <= length l)%nat by apply length_filter. unfold zlen in *. lia.
Qed.

(** A composite is rebuilt: what it held is released, what the request names is taken. *)
Lemma composite_add_work ext tab mx r p req vif nh s :
  at_work ext tab mx r p nh s -> nh_type nh = NH_COMPOSITE -> nhr_type req = NH_COMPOSITE ->
  nh_reach_nh (nh_rest nh) = R_discard ->
  zlen (nhr_nh_list req) < 65536 -> r + zlen (nhr_nh_list req) <= UINT_MAX ->
  handled ext tab mx (r + zlen (nhr_nh_list req)) p req vif (components_of tab req) nh s (nh_composite_add p req s).
Proof.
  intros Hw0 Ht Hreq Hdis Hn Hroom. unfold nh_composite_add.
  assert (Hok : u_ok nh = true) by (apply (inv_obj _ _ (aw_inv _ _ _ _ _ _ _ Hw0) p); [apply Hw0|apply (aw_alive _ _ _ _ _ _ _ Hw0)]).
  rewrite (aw_load _ _ _ _ _ _ _ Hw0), check_u_ok by done.
  pose proof (aw_store ext tab mx r p nh (with_validate V_null nh) s Hw0 (benign_validate _ _) eq_refl) as Hw.
  pose proof (store_stable p nh (with_validate V_null nh) s (aw_heap _ _ _ _ _ _ _ Hw0) eq_refl) as Hs0.
  set (n := zlen (nhr_nh_list req)) in *. set (l := components_of tab req). assert (0 <= n) by (unfold n, zlen; lia).
  destruct (empty_work ext tab mx r p _ _ Hw Ht) as [Hs1 (nh1 & Hw1 & Hid1 & Ht1 & Hc1 & Hd1 & Hr1)].
  change (nh_component_nh (with_validate V_null nh)) with (nh_component_nh nh) in *.
  change (nh_component_cnt (with_validate V_null nh)) with (nh_component_cnt nh) in *.
  set (s1 := match nh_component_nh nh with Some _ => _ | None => _ end) in *.
  assert (Hchk : checks req vif = if n =? zlen (nhr_label_list req) then 0 else - EINVAL) by (unfold checks; by rewrite Hreq).
  assert (Hlen : zlen l = n) by apply components_length.
  destruct (n =? zlen (nhr_label_list req)); cbn [negb].
  2: { apply (handled_refused _ _ _ _ _ _ _ _ _ nh1); try done; [by apply (aw_weaken _ _ _ r); [lia|]|by rewrite Ht1]. }
  destruct (Z.eqb_spec n 0) as [Hn0|Hn0].
  { assert (El : l = []) by (apply length_zero_iff_nil; unfold zlen in Hlen; lia).
    exists nh1. cbn [fst snd]. split_and!; try done; [by apply (aw_weaken _ _ _ r); [lia|]|by rewrite Ht1|].
    intros _. split_and!; [done|by intros _ ?|]. unfold made. rewrite Hreq. unfold composite_made. cbn -[l].
    rewrite decide_True, Hd1, Hr1 by done. by split_and!. }
  assert (Hne : l <> []) by (intros ->; unfold zlen in Hlen; cbn in Hlen; lia).
  pose proof (aw_host_alloc ext tab mx r p _ _ Hw1) as Hw2.
  destruct (host_alloc s1) as [ok s2] eqn:Hal. destruct (host_alloc_memory _ _ _ Hal) as [Hm Ho2].
  destruct ok; cbn [negb fst snd] in *.
  2: { set (f := fun nh0 => with_components (nh_component_cnt nh0) None nh0). exists (f nh1). cbn [fst snd]. split_and!.
       - apply (aw_weaken _ _ _ r); [lia|]. apply (aw_modify ext tab mx r p nh1 f); [done| |done]. by apply benign_emptied.
       - done.
       - by rewrite Ht.
       - done.
       - intros _. right. right. split_and!; try done. left. split; [done|]. apply Hs0, Hs1. by apply Hm. }
  assert (Hs2 : stable s1 s2) by (split; [by unfold host_alloc in Hal; simplify_eq|done]).
  destruct (fill_work ext tab mx r p req nh1 s2 Hw2 Ht1 Hc1 Hn Hroom) as [Hs5 [u Hw5]]. fold n l in Hs5, Hw5.
  set (s5 := modify p _ (foldl _ _ _)) in *. set (nh5 := with_components (zlen l) (Some l) _) in *.
  rewrite (aw_load _ _ _ _ _ _ _ Hw5). change (default [] (nh_component_nh nh5)) with l.
  assert (Hst : stable s s5) by (etrans; [exact Hs0|]; etrans; [exact Hs1|]; by etrans).
  assert (Hv : nh_composite_mcast_validate req l s5 = nh_composite_mcast_validate req l s).
  { apply validate_kinds, (stable_kinds ext); try done; [apply Hw0|apply Hw5|apply Hw0|apply Hw5]. }
  destruct (finish_work ext tab mx (r + n) p req nh5 l s5 Hw5 Ht1 eq_refl eq_refl) as (x & Hx & E1 & E2 & F0 & F1);
    [by rewrite Hlen|].
  exists x. split; [exact Hx|]. split; [rewrite E1; exact Hid1|]. split; [by rewrite E2, Ht|]. rewrite Hv in *. split.
  - intros H0. destruct (F0 H0) as [Hfit Hfin]. split_and!; [done|by intros _ _|].
    unfold made. rewrite Hreq. apply (finished_made req l nh nh5); try done; first [by rewrite Hlen|by cbn; rewrite Hr1|exact Hd1].
  - intros H0. right. right. destruct (F1 H0) as [-> [Hbad|[Hsp Hbad]]]; split_and!; try done; right.
    + by left.
    + right. split_and!; [done|done|]. by apply Hst.
Qed.

(** ** The request handler *)

Lemma handled_weaken ext tab mx r r' p req vif comps nh s res :
  r <= r' -> handled ext tab mx r p req vif comps nh s res -> handled ext tab mx r' p req vif comps nh s res.
Proof. intros Hr (x & Hx & ?). exists x. split; [by apply (aw_weaken _ _ _ r)|done]. Qed.

(** The function of the type keeps the nexthop in place, and makes it what the request
    describes. *)
Lemma by_type_work ext tab mx r p req nh s :
  at_work ext tab mx r p nh s -> u8 (nhr_type req) = nhr_type req ->
  nh_type nh = nhr_type req -> nh_family nh = u8 (nhr_family req) -> nh_reach_nh (nh_rest nh) = R_discard ->
  (nh_type nh = NH_ENCAP \/ nh_type nh = NH_TUNNEL -> zlen (nhr_encap req) <= zlen (nh_data (nh_rest nh))) ->
  (forall b, Z.land b NH_FLAG_VALID = 0 -> has b (nh_flags nh) = has b (nhr_flags req)) -> one_tunnel req ->
  zlen (nhr_nh_list req) < 65536 -> r + zlen (nhr_nh_list req) <= UINT_MAX ->
  handled ext tab mx (r + zlen (nhr_nh_list req)) p req (vif_of (vr_interfaces (nh_vifs s)) req)
    (components_of tab req) nh s (add_by_type p req s).
Proof.
  intros Hw Hu8 Ht Hf Hdis Hroom Hfl Hone Hn Hr. unfold add_by_type. rewrite Hu8.
  assert (Hok : u_ok nh = true) by (apply (inv_obj _ _ (aw_inv _ _ _ _ _ _ _ Hw) p); [apply Hw|apply (aw_alive _ _ _ _ _ _ _ Hw)]).
  assert (Hle : r <= r + zlen (nhr_nh_list req)) by (unfold zlen; lia).
  repeat match goal with |- context [if ?a =? ?b then _ else _] => destruct (Z.eqb_spec a b) as [E|] end.
  all: try (apply composite_add_work; [done|by rewrite Ht|done..]).
  all: apply (handled_weaken _ _ _ r); [done|].
  all: try (apply reach_add_inv; [done|by rewrite E|unfold checks; by rewrite E|intros nh' Hm; unfold made; by rewrite E]).
  - apply encap_add_inv; [done|congruence|done|]. apply Hroom. left. congruence.
  - apply tunnel_add_inv; [done|congruence|done|done|apply Hroom; right; congruence|done|done|]. intros E4 E6. rewrite Hf, E4 in E6. done.
  - apply rcv_add_inv; congruence.
  - set (nh1 := with_reach R_discard nh).
    apply (handled_ok _ _ _ _ _ _ _ _ nh nh1); try done; [|by rewrite E|unfold checks; by rewrite E|unfold made; by rewrite E].
    replace (modify p _ s) with (modify p (with_reach R_discard) s).
    + apply aw_modify; [done|apply benign_reach|done].
    + unfold modify. rewrite (aw_load _ _ _ _ _ _ _ Hw). f_equal. rewrite <- Hf, <- E, <- Ht. by destruct nh.
  - apply (handled_refused _ _ _ _ _ _ _ _ _ nh); try done. unfold checks.
    repeat match goal with H : nhr_type req <> ?x |- _ => rewrite (proj2 (Z.eqb_neq (nhr_type req) x) H); clear H end. done.
Qed.


(** Dropping a nexthop that nothing refers to. *)
Lemma put_unreferenced ext p nh s :
  inv ext s -> nh_heap s !! p = Some nh -> alive s p -> p ∉ refs ext s ->
  inv ext (vrouter_put_nexthop (Some p) s).
Proof.
  intros Hi Hp Ha Hn. cbn [vrouter_put_nexthop put_fuel put_nexthop].
  assert (Hu : nh_users nh = 0) by (rewrite (inv_users _ _ Hi p nh Hp Ha); by apply occ_zero).
  rewrite (alive_load _ _ Ha), Hp, Hu. cbn [Z.eqb].
  replace (with_users 0 nh) with nh by (destruct nh; cbn in *; by subst).
  replace (nh_store p nh s) with s.
  2: { unfold nh_store, set_heap. rewrite insert_id by done. by destruct s. }
  destruct (put_last (size (pending s)) p ext nh s (put_inv _) ltac:(done) Hi Hp Ha Hn) as [Hl _].
  exact Hl.
Qed.

(** A nexthop whose reference is dropped is still referred to, or gone. *)
Lemma put_gone ext p nh s :
  let s' := vrouter_put_nexthop (Some p) s in
  inv ext s' -> nh_heap s !! p = Some nh -> alive s p -> p ∈ refs ext s' \/ retired p s'.
Proof.
  cbn [vrouter_put_nexthop put_fuel put_nexthop]. intros Hi Hp Ha. revert Hi. rewrite (alive_load _ _ Ha), Hp.
  set (u := if nh_users nh =? 0 then 0 else u32 (nh_users nh - 1)). destruct (Z.eqb_spec u 0) as [E|Hne]; intros Hi.
  - right. revert Hi. generalize (if nh_type (with_users u nh) =? NH_COMPOSITE then
      put_components (put_nexthop (size (pending s))) p (seqZ 0 (nh_component_cnt (with_users u nh)))
        (nh_store p (with_components 0 (nh_component_nh (with_users u nh)) (with_users u nh))
          (check_u (with_users u nh) (nh_store p (with_users u nh) s)))
      else nh_store p (with_users u nh) s). intros t Hi. pose proof (inv_fault _ _ Hi) as Hf. revert Hf. clear.
    assert (Hx : forall t, nh_fault (vrouter_free_nexthop p t) = false -> retired p (vrouter_free_nexthop p t)).
    { clear t. intros t. unfold vrouter_free_nexthop. destruct (nh_load p t) as [nh|]; [|done].
      intros _. left. destruct (nh_dev nh); cbn; set_solver. }
    unfold release_nexthop, vrouter_free_nexthop_defer. destruct (vr_not_ready t); [apply Hx|].
    destruct (host_alloc t) as [[] t1]; [|change (- ENOMEM =? 0) with false; cbv iota; apply Hx].
    intros _. right. cbn. set_solver.
  - left. set (s' := nh_store p (with_users u nh) s) in *.
    assert (Hp' : nh_heap s' !! p = Some (with_users u nh)) by apply lookup_insert_eq.
    pose proof (inv_users _ _ Hi p _ Hp') as Hu. destruct (decide (p ∈ refs ext s')) as [|Hn]; [done|].
    exfalso. apply Hne. change u with (nh_users (with_users u nh)). rewrite Hu; [by apply occ_zero|].
    unfold alive. rewrite Hp'. destruct Ha. eauto.
Qed.

Section cook.
Context (ext : list nhp) (tab : list (option nhp)) (mx : Z) (p : nhp) (i : Z).

(** The slot of the request holds the nexthop that is written, or nothing. *)
Definition slot_of : Prop :=
  zget tab i = Some (Some p) \/ (zget tab i = Some None /\ p ∉ table_refs (Some tab)).

Lemma del_work r nh s :
  slot_of -> at_work ext tab mx r p nh s -> nh_id nh = i ->
  inv ext (nh_del p s) /\ vr_nexthops (nh_del p s) = Some (zset tab i None) /\
  vr_max_nexthops (nh_del p s) = mx /\ (p ∈ refs ext (nh_del p s) \/ retired p (nh_del p s)).
Proof.
  intros Hslot Hw Hid. pose proof Hw as [Hi Hh Ha Hn Ht Hm Hr].
  enough (Hd : inv ext (nh_del p s) /\ vr_nexthops (nh_del p s) = Some (zset tab i None) /\
    vr_max_nexthops (nh_del p s) = mx).
  { destruct Hd as (D1 & D2 & D3). split_and!; try done. revert D1. unfold nh_del.
    rewrite (aw_load _ _ _ _ _ _ _ Hw), Hid. pose proof (inv_max _ _ Hi tab Ht) as Hmax.
    assert (0 <= i < zlen tab) by (destruct Hslot as [Hz|[Hz _]]; by apply zget_range in Hz).
    rewrite (proj2 (Z.leb_gt _ _)) by lia. intros D1. apply (put_gone ext p nh); [done| |].
    all: unfold __vrouter_set_nexthop; repeat case_match; done. }
  destruct Hslot as [Hz|[Hz Hnt]].
  { destruct (nh_del_inv ext s tab i p Hi Ht Hz) as (? & ? & ? & _). by split_and!; congruence. }
  unfold nh_del. rewrite (aw_load _ _ _ _ _ _ _ Hw), Hid.
  pose proof (inv_max _ _ Hi tab Ht) as Hmax. pose proof (zget_range _ _ _ Hz).
  rewrite (proj2 (Z.leb_gt _ _)) by lia. unfold __vrouter_set_nexthop. rewrite Ht, Hz. cbn [snd].
  assert (Hi1 : inv ext (set_table (Some (zset tab i None)) (vr_max_nexthops s) s)).
  { by apply (inv_table ext ext s tab i None None). }
  assert (Hnr : p ∉ refs ext (set_table (Some (zset tab i None)) (vr_max_nexthops s) s)).
  { destruct Hn as [Hn|Hn]; [by rewrite Ht in Hn|]. revert Hn. unfold refs. rewrite Ht. cbn [vr_nexthops set_table nh_heap].
    destruct (table_refs_zset tab i _ Hz) as (rest & Hr1 & Hr2). by rewrite (Hr2 None), Hr1. }
  pose proof (put_unreferenced ext p nh _ Hi1 Hh Ha Hnr) as Hi2.
  cbn [vrouter_put_nexthop] in *.
  match goal with |- context [put_nexthop ?n p ?x] => destruct (put_evolves n p x) as [E1 E2 E3 _ _] end.
  rewrite E1, E2. split_and!; done.
Qed.

(** The nexthop is put in its slot, or stays there. *)
Lemma install_work r nh s :
  slot_of -> at_work ext tab mx r p nh s -> nh_id nh = i -> r < UINT_MAX ->
  exists s', vrouter_add_nexthop p s = (0, s') /\ inv ext s' /\
    vr_nexthops s' = Some (zset tab i (Some p)) /\ vr_max_nexthops s' = mx /\
    exists u, nh_load p s' = Some (with_users u nh).
Proof.
  intros Hslot Hw Hid Hlt. pose proof Hw as [Hi Hh Ha Hn Ht Hm Hr].
  pose proof (inv_max _ _ Hi tab Ht) as Hmax.
  assert (0 <= i < zlen tab) by (destruct Hslot as [Hz|[Hz _]]; by apply zget_range in Hz).
  destruct (add_inv ext p nh tab s) as [Hi2 Hret]; try done; [lia|by left|lia|].
  revert Hi2 Hret. unfold vrouter_add_nexthop. rewrite (aw_load _ _ _ _ _ _ _ Hw), Hid.
  rewrite (proj2 (Z.leb_gt _ _)) by lia. unfold __vrouter_get_nexthop.
  rewrite (proj2 (Z.leb_gt _ _)) by lia. rewrite Ht. destruct Hslot as [Hz|[Hz Hnt]]; rewrite Hz; cbn [default].
  - intros Hi2 _. exists s. split_and!; try done.
    + rewrite Ht. f_equal. apply zget_ext; [by rewrite zlen_zset|]. intros j Hj. rewrite zget_zset.
      case_decide as Hc; [|done]. by destruct Hc as [<- _].
    + exists (nh_users nh). rewrite (aw_load _ _ _ _ _ _ _ Hw). by destruct nh.
  - unfold __vrouter_set_nexthop. cbn [vr_nexthops nh_store set_heap]. rewrite Ht, Hz. intros Hi2 _.
    eexists. split_and!; [done|done|done|done|]. exists (u32 (nh_users nh + 1)).
    destruct Ha as (_ & Hf & _). unfold nh_load. cbn. by rewrite decide_False, lookup_insert_eq.
Qed.

(** The nexthop that a successful request leaves.  A request without the valid flag writes
    the header alone. *)
Definition described (req : vr_nexthop_req) (vif : option Z) (comps : list vr_component_nh)
    (hs : router) (old nh : vr_nexthop) : Prop :=
  nh_type nh = nhr_type req /\
  header nh = (u8 (nhr_family req), nhr_flags req, nhr_vrf req, u32 (nhr_id req), u32 (nhr_rid req)) /\
  (nhr_valid req = true -> checks req vif = 0 /\ fitting req comps hs /\ made req vif comps old nh) /\
  (nhr_valid req = false -> exists u, nh = with_users u (set_header req (nhr_flags req) old)).

(** What a request that is not refused leaves: the slot holds the nexthop it describes, or
    nothing.  [hs] is the state with the header of the request written over [old]. *)
Definition answered (req : vr_nexthop_req) (hs : router) (old : vr_nexthop) (res : Z * router) : Prop :=
  let vif := vif_of (vr_interfaces (nh_vifs hs)) req in
  let comps := components_of tab req in
  inv ext res.2 /\ vr_max_nexthops res.2 = mx /\
  (res.1 = 0 /\ vr_nexthops res.2 = Some (zset tab i (Some p)) /\
   (exists nh, nh_load p res.2 = Some nh /\ described req vif comps hs old nh) \/
   res.1 <> 0 /\ nhr_valid req = true /\ failure req vif comps hs res.1 /\
   vr_nexthops res.2 = Some (zset tab i None) /\ (p ∈ refs ext res.2 \/ retired p res.2)).

(** The two states in which the header is written differ in nothing a request sees. *)
Record same_start (s hs : router) : Prop := {
  ss_kinds : forall q, kind <$> nh_load q s = kind <$> nh_load q hs;
  ss_oracle : nh_oracle s ⊆ nh_oracle hs;
  ss_vifs : vr_interfaces (nh_vifs s) = vr_interfaces (nh_vifs hs)
}.

Lemma start_validate req l s hs :
  same_start s hs -> nh_composite_mcast_validate req l s = nh_composite_mcast_validate req l hs.
Proof. intros Hss. apply validate_kinds. intros q _. apply Hss. Qed.

Lemma start_failure req vif comps s hs ret :
  same_start s hs -> failure req vif comps s ret -> failure req vif comps hs ret.
Proof.
  intros Hss. unfold failure. rewrite (start_validate _ _ _ _ Hss). pose proof (ss_oracle _ _ Hss false). tauto.
Qed.

(** The valid bit is written after the rest when the nexthop was not valid. *)
Definition validated (itv : bool) (nh : vr_nexthop) : vr_nexthop :=
  if itv then with_flags (Z.lor (nh_flags nh) NH_FLAG_VALID) nh else nh.

Lemma validated_work r itv nh s :
  at_work ext tab mx r p nh s ->
  at_work ext tab mx r p (validated itv nh)
    (if itv then modify p (fun nh => with_flags (Z.lor (nh_flags nh) NH_FLAG_VALID) nh) s else s).
Proof.
  intros Hw. destruct itv; [|done]. cbn [validated].
  apply (aw_modify _ _ _ _ _ nh (fun nh => with_flags (Z.lor (nh_flags nh) NH_FLAG_VALID) nh)); [done| |done].
  split_and!; try done. intros (O1 & O2). split; [|done]. revert O1. unfold u_ok, read_member. cbn.
  replace (Z.land (Z.lor (nh_flags nh) NH_FLAG_VALID) NH_FLAG_TUNNEL_UDP)
    with (Z.land (nh_flags nh) NH_FLAG_TUNNEL_UDP); [done|].
  by rewrite Z.land_lor_distr_l, Z.lor_0_r.
Qed.

Lemma made_validated req vif comps f old itv u nh :
  made req vif comps (set_header req f old) nh -> made req vif comps old (with_users u (validated itv nh)).
Proof. intros Hm. unfold made in *. destruct itv; repeat case_match; exact Hm. Qed.

Lemma header_validated req (itv : bool) old nh :
  (itv = true -> nhr_valid req = true) ->
  header nh = header (set_header req (if itv then Z.ldiff (nhr_flags req) NH_FLAG_VALID else nhr_flags req) old) ->
  header (validated itv nh) = (u8 (nhr_family req), nhr_flags req, nhr_vrf req, u32 (nhr_id req), u32 (nhr_rid req)).
Proof.
  intros Hv [= F1 F2 F3 F4 F5]. destruct itv; unfold header; cbn; rewrite F1, F2, F3, F4, F5; [|done].
  by rewrite lor_ldiff_valid by (by apply Hv).
Qed.

Lemma cook_work r (itv : bool) req nh s hs :
  let flags := if itv then Z.ldiff (nhr_flags req) NH_FLAG_VALID else nhr_flags req in
  let n := zlen (nhr_nh_list req) in
  slot_of -> i = u32 (nhr_id req) -> u8 (nhr_type req) = nhr_type req -> (itv = true -> nhr_valid req = true) ->
  at_work ext tab mx r p (set_header req flags nh) (modify p (set_header req flags) s) ->
  same_start (modify p (set_header req flags) s) hs ->
  (nhr_valid req = true -> nhr_type req = NH_ENCAP \/ nhr_type req = NH_TUNNEL ->
   zlen (nhr_encap req) <= zlen (nh_data (nh_rest nh))) ->
  one_tunnel req -> n < 65536 -> r + n < UINT_MAX ->
  answered req hs nh (cook p itv req s).
Proof.
  intros flags n Hslot Hi Hty Hitv Hw Hss Hroom Hone Hn Hr. unfold cook. fold flags.
  set (s1 := modify p (set_header req flags) s) in *. set (nh1 := set_header req flags nh) in *.
  assert (Hx : exists nh2, at_work ext tab mx (r + n) p nh2 (if nhr_valid req then add_by_type p req s1 else (0, s1)).2 /\
    let ret := (if nhr_valid req then add_by_type p req s1 else (0, s1)).1 in
    let vif := vif_of (vr_interfaces (nh_vifs hs)) req in
    header nh2 = header nh1 /\ nh_type nh2 = nh_type nh1 /\
    (ret = 0 -> (nhr_valid req = true -> checks req vif = 0 /\ fitting req (components_of tab req) hs /\
       made req vif (components_of tab req) nh1 nh2) /\ (nhr_valid req = false -> nh2 = nh1)) /\
    (ret <> 0 -> nhr_valid req = true /\ failure req vif (components_of tab req) hs ret)).
  { rewrite <- (ss_vifs _ _ Hss). destruct (nhr_valid req) eqn:Hv.
    - destruct (by_type_work ext tab mx r p req nh1 s1) as (x & Hx & E1 & E2 & H0 & H1);
        [done|done|exact Hty|done|done|intros Hc; apply Hroom; [done|by rewrite <- Hty]| |done|done|lia|].
      { intros b Hb. change (nh_flags nh1) with flags. unfold flags. destruct itv; [by apply has_ldiff_valid|done]. }
      exists x. split; [done|]. cbn zeta. split_and!; try done.
      + intros Hz. destruct (H0 Hz) as (C1 & C2 & C3). split; [|done]. intros _. split_and!; [done| |done].
        intros Ht Hne. rewrite <- (start_validate _ _ _ _ Hss). by apply C2.
      + intros Hz. split; [done|]. by apply (start_failure _ _ _ s1), H1.
    - exists nh1. cbn [fst snd]. split; [|done]. apply (aw_weaken _ _ _ r); [unfold n, zlen; lia|done]. }
  destruct (if nhr_valid req then _ else _) as [ret s2]. cbn [fst snd] in Hx.
  destruct Hx as (nh2 & Hw2 & E1 & E2 & H0 & H1). pose proof (header_id _ _ E1) as Hid.
  destruct (Z.eqb_spec ret 0) as [->|Hne]; cbn [negb].
  2: { destruct (H1 Hne) as [Hv Hf].
       destruct (del_work (r + n) nh2 s2) as (D1 & D2 & D3 & D4); [done|done|by rewrite Hid, Hi|].
       split_and!; [done|done|]. right. by split_and!. }
  destruct (H0 eq_refl) as [Hv1 Hv0]. pose proof (validated_work (r + n) itv nh2 s2 Hw2) as Hw3.
  pose proof (header_validated req itv nh nh2 Hitv E1) as Hh3.
  assert (Hid3 : nh_id (validated itv nh2) = i) by (by injection Hh3 as ? ? ? -> ?).
  destruct (install_work (r + n) _ _ Hslot Hw3 Hid3 Hr) as (s4 & -> & I1 & I2 & I3 & u & I4).
  cbn [Z.eqb negb]. split_and!; [done|done|]. left. split_and!; [done|done|]. exists (with_users u (validated itv nh2)).
  split; [done|]. split_and!.
  - rewrite <- Hty. change (u8 (nhr_type req)) with (nh_type nh1). rewrite <- E2. by destruct itv.
  - exact Hh3.
  - intros Hv. destruct (Hv1 Hv) as (C1 & C2 & C3). split_and!; [done|done|]. by apply (made_validated _ _ _ flags).
  - intros Hv. rewrite (Hv0 Hv). exists u. destruct itv; [by rewrite Hitv in Hv|]. done.
Qed.

End cook.

(** ** Requests keep the counts exact *)

(** The ranges of the message: a type is a byte, at most 65535 components (the count is
    stored in 16 bits), and at most one of the kinds GRE and UDP. *)
Definition fits (req : vr_nexthop_req) : Prop :=
  -128 <= nhr_type req < 128 /\ zlen (nhr_nh_list req) < 65536 /\ one_tunnel req.

(** A request that changes a nexthop and is not refused keeps its type, and does not make
    the union be read as what it does not hold: the union of a tunnel is read when it is
    a UDP tunnel over IPv6, so another tunnel does not become one. *)
Definition safe_change (req : vr_nexthop_req) (s : router) : Prop :=
  forall p nh, __vrouter_get_nexthop (u32 (nhr_id req)) s = Some p -> nh_load p s = Some nh ->
    vr_nexthop_valid_change req nh = true ->
    u8 (nhr_type req) = nh_type nh /\ u_ok (set_header req (nhr_flags req) nh) = true.

Lemma valid_type req s :
  fits req -> vr_nexthop_valid_request req s = true ->
  u32 (nhr_id req) < vr_max_nexthops s /\ u8 (nhr_type req) = nhr_type req.
Proof.
  intros (Hb & _ & _) [Hi Ht]%andb_true_iff. apply Z.ltb_lt in Hi, Ht. split; [done|].
  unfold NH_MAX in Ht. destruct (decide (0 <= nhr_type req)); [by apply u8_small; lia|].
  assert (u32 (nhr_type req) = nhr_type req + 4294967296); [|lia].
  unfold u32. symmetry. apply (Zmod_unique _ _ (-1)); lia.
Qed.

Lemma header_u_ok req (b : bool) nh :
  u_ok (set_header req (if b then Z.ldiff (nhr_flags req) NH_FLAG_VALID else nhr_flags req) nh) =
  u_ok (set_header req (nhr_flags req) nh).
Proof.
  destruct b; [|done]. unfold u_ok, read_member. cbn.
  pose proof (has_ldiff_valid NH_FLAG_TUNNEL_UDP (nhr_flags req) eq_refl) as Hh. unfold has in Hh. by rewrite Hh.
Qed.

Lemma valid_change_room req nh :
  vr_nexthop_valid_change req nh = true -> nhr_valid req = true ->
  nh_data_size (nh_rest nh) <= zlen (nh_data (nh_rest nh)) ->
  zlen (nhr_encap req) <= zlen (nh_data (nh_rest nh)).
Proof.
  unfold vr_nexthop_valid_change. intros Hc Hv Hd. rewrite Hv in Hc. cbn in Hc. destruct (_ =? nh_type nh); [|done]. cbn in Hc.
  destruct (Z.eqb_spec (zlen (nhr_encap req)) 0) as [->|_]; [unfold zlen; lia|].
  destruct (Z.eqb_spec (zlen (nhr_encap req)) (nh_data_size (nh_rest nh))) as [->|_]; done.
Qed.

(** The header of the request written over [old] at [p]. *)
Definition header_state (p : nhp) (req : vr_nexthop_req) (old : vr_nexthop) (s : router) : router :=
  nh_store p (set_header req (nhr_flags req) old) s.

(** A nexthop that did not exist. *)
Lemma create_work ext tab req s p s1 :
  inv ext s -> vr_nexthops s = Some tab -> zlen (refs ext s) + zlen (nhr_nh_list req) < UINT_MAX ->
  fits req -> u8 (nhr_type req) = nhr_type req -> zget tab (u32 (nhr_id req)) = Some None ->
  new_object (new_nexthop req) s = (Some p, s1) ->
  answered ext tab (vr_max_nexthops s) p (u32 (nhr_id req)) req
    (header_state p req (new_nexthop req) s) (new_nexthop req) (cook p false req s1).
Proof.
  intros Hi Ht Hr (_ & Hn & Hone) Hty Hz Hnew.
  set (sz := vr_nexthop_size req). assert (0 <= sz) by (unfold sz, vr_nexthop_size; case_match; unfold zlen; lia).
  assert (Hlen : zlen (nh_data (nh_rest (new_nexthop req))) = sz) by (cbn; rewrite zlen_replicate; lia).
  destruct (new_object_inv ext ext (new_nexthop req) s p s1 Hi Hnew)
    as (Hi1 & Ha1 & Hp1 & Hnr1 & Ht1 & Hm1 & Hl1); [done|by apply comp_wf_emptied| |by rewrite edges_of_emptied|].
  { split_and!; [done| |done]. rewrite Hlen. cbn. fold sz. by apply Z.mod_le. }
  assert (Hnt : p ∉ table_refs (Some tab)).
  { intros Hx. apply Hnr1. unfold refs. rewrite Ht1, Ht. set_solver. }
  assert (Hw : at_work ext tab (vr_max_nexthops s) (zlen (refs ext s1)) p (new_nexthop req) s1).
  { split; try done; [by right|congruence]. }
  assert (Em : modify p (set_header req (nhr_flags req)) s1 =
    nh_store p (set_header req (nhr_flags req) (new_nexthop req)) s1).
  { unfold modify. by rewrite (aw_load _ _ _ _ _ _ _ Hw). }
  apply (cook_work ext tab (vr_max_nexthops s) p _ (zlen (refs ext s1)) false req (new_nexthop req));
    [by right|done|done|done| | | |done|done|lia].
  - rewrite Em. apply (aw_store_id _ _ _ _ _ (new_nexthop req)); [done| |].
    + apply benign_emptied; try done. intros _. unfold u_ok. by destruct (read_member _).
    + intros j Hj. exfalso. apply Hnt. destruct (table_refs_zset tab j _ Hj) as (rest & Hr1 & _).
      rewrite Hr1. set_solver.
  - rewrite Em. revert Hnew. unfold new_object. destruct (host_alloc s) as [ok s0] eqn:Ho.
    destruct (host_alloc_memory _ _ _ Ho) as [_ Hsub]. unfold host_alloc in Ho. destruct ok; [|done].
    intros Hnew. simplify_eq. split; [|exact Hsub|done]. intros q. unfold nh_load. cbn. by rewrite insert_insert_eq.
  - intros _ Hc. rewrite Hlen. unfold sz, vr_nexthop_size. destruct Hc as [-> | ->]; done.
Qed.

(** A nexthop that is changed in place. *)
Lemma change_work ext tab req s p nh nh1 :
  let itv := nhr_valid req && negb (has NH_FLAG_VALID (nh_flags nh)) in
  inv ext s -> vr_nexthops s = Some tab -> zlen (refs ext s) + zlen (nhr_nh_list req) < UINT_MAX ->
  fits req -> u8 (nhr_type req) = nhr_type req ->
  zget tab (u32 (nhr_id req)) = Some (Some p) -> nh_heap s !! p = Some nh ->
  vr_nexthop_valid_change req nh = true ->
  u8 (nhr_type req) = nh_type nh -> u_ok (set_header req (nhr_flags req) nh) = true ->
  (forall f, set_header req f nh1 = set_header req f nh) ->
  answered ext tab (vr_max_nexthops s) p (u32 (nhr_id req)) req
    (header_state p req nh s) nh (cook p itv req (nh_store p nh1 s)).
Proof.
  intros itv Hi Ht Hr (_ & Hn & Hone) Hu8 Hz Hh Hvc Hty Hok Hsame.
  pose proof (inv_alive _ _ Hi p (table_ref_in ext s tab _ p Ht Hz)) as Ha.
  assert (Hw : at_work ext tab (vr_max_nexthops s) (zlen (refs ext s)) p nh s).
  { split; try done. left. rewrite Ht. destruct (table_refs_zset tab _ _ Hz) as (rest & -> & _). set_solver. }
  pose proof (inv_obj _ _ Hi p nh Hh ltac:(apply Ha)) as (_ & Hd & Hc).
  assert (Em : forall f, modify p (set_header req f) (nh_store p nh1 s) = nh_store p (set_header req f nh) s).
  { intros f. unfold modify. assert (Hl : nh_load p (nh_store p nh1 s) = Some nh1).
    { unfold nh_load. cbn. rewrite decide_False by apply Ha. apply lookup_insert_eq. }
    rewrite Hl, Hsame. unfold nh_store, set_heap. cbn. by rewrite insert_insert_eq. }
  apply (cook_work ext tab (vr_max_nexthops s) p _ (zlen (refs ext s)) itv req nh);
    [by left|done|done|by intros [? _]%andb_true_iff| | | |done|done|lia]; rewrite ?Em.
  - apply (aw_store_id _ _ _ _ _ nh); [done| |].
    + split_and!; [unfold edges_of; cbn; by rewrite Hty|done|unfold comp_wf; cbn; by rewrite Hty|].
      intros _. split_and!; [|done|done]. by rewrite header_u_ok.
    + intros j Hj. destruct (inv_ids _ _ Hi tab j p Ht Hj) as (x & Hx & <-).
      destruct (inv_ids _ _ Hi tab _ p Ht Hz) as (y & Hy & E). cbn. congruence.
  - split; [|done|done]. intros q. unfold header_state, nh_load. cbn. case_decide; [done|].
    destruct (decide (p = q)) as [<-|]; [|by rewrite !lookup_insert_ne]. rewrite !lookup_insert_eq. cbn. f_equal.
    unfold kind. cbn. f_equal. destruct itv; [|done]. apply Z.bits_inj'. intros k Hk. rewrite !Z.ldiff_spec.
    by destruct (Z.testbit (nhr_flags req) k), (Z.testbit NH_FLAG_VALID k).
  - intros Hv _. by apply valid_change_room.
Qed.

(** ** The answer and the state after a request *)

(** The nexthop a request is about: the one in its slot, or a new one. *)
Definition subject (tab : list (option nhp)) (req : vr_nexthop_req) (s : router) (p : nhp) (old : vr_nexthop) : Prop :=
  let i := u32 (nhr_id req) in
  zget tab i = Some (Some p) /\ nh_load p s = Some old \/
  zget tab i = Some None /\ p = nh_next s /\ old = new_nexthop req.

(** A request that is refused before anything is done. *)
Definition refused (tab : list (option nhp)) (req : vr_nexthop_req) (s : router) : Prop :=
  vr_nexthop_valid_request req s = false \/
  exists p old, zget tab (u32 (nhr_id req)) = Some (Some p) /\ nh_load p s = Some old /\
    vr_nexthop_valid_change req old = false.

Definition add_outcome (ext : list nhp) (tab : list (option nhp)) (req : vr_nexthop_req) (s : router)
    (res : Z * router) : Prop :=
  let i := u32 (nhr_id req) in
  let vif := vif_of (vr_interfaces (nh_vifs s)) req in
  let comps := components_of tab req in
  let '(ret, s') := res in
  inv ext s' /\ vr_max_nexthops s' = vr_max_nexthops s /\
  ((* refused *)
   refused tab req s /\ ret = - EINVAL /\ s' = s \/
   (* no memory for a new nexthop *)
   ~ refused tab req s /\ zget tab i = Some None /\ false ∈ nh_oracle s /\ ret = - ENOMEM /\ s' = (host_alloc s).2 \/
   (* done *)
   ~ refused tab req s /\
   (exists p old nh, subject tab req s p old /\ ret = 0 /\ vr_nexthops s' = Some (zset tab i (Some p)) /\
      nh_load p s' = Some nh /\ described req vif comps (header_state p req old s) old nh) \/
   (* failed on the way *)
   ~ refused tab req s /\
   (exists p old, subject tab req s p old /\ ret <> 0 /\ nhr_valid req = true /\
      failure req vif comps (header_state p req old s) ret /\
      vr_nexthops s' = Some (zset tab i None) /\ (p ∈ refs ext s' \/ retired p s'))).

Lemma answered_outcome ext tab p req old s res :
  subject tab req s p old -> ~ refused tab req s ->
  answered ext tab (vr_max_nexthops s) p (u32 (nhr_id req)) req (header_state p req old s) old res ->
  add_outcome ext tab req s res.
Proof.
  destruct res as [ret s']. intros Hsub Hnr (A1 & A2 & [(A3 & A4 & nh & A5 & A6)|(A3 & A4 & A5 & A6 & A7)]); cbn in *.
  - split_and!; [done|done|]. right. right. left. split; [done|]. by exists p, old, nh.
  - split_and!; [done|done|]. right. right. right. split; [done|]. by exists p, old.
Qed.

Lemma refused_outcome ext tab req s : inv ext s -> refused tab req s -> add_outcome ext tab req s (- EINVAL, s).
Proof. intros Hi Hr. split_and!; [done|done|]. by left. Qed.

Lemma nexthop_add_outcome ext tab req s :
  inv ext s -> vr_nexthops s = Some tab -> zlen (refs ext s) + zlen (nhr_nh_list req) < UINT_MAX ->
  fits req -> safe_change req s ->
  add_outcome ext tab req s (nexthop_add req s).
Proof.
  intros Hi Ht Hr Hfit Hsafe. set (i := u32 (nhr_id req)). unfold nexthop_add.
  destruct (vr_nexthop_valid_request req s) eqn:Hv; cbn [negb]; [|apply refused_outcome; [done|by left]].
  destruct (valid_type req s Hfit Hv) as [Hid Hty]. pose proof (inv_max _ _ Hi tab Ht) as Hmax.
  assert (0 <= i) by (unfold i, u32; apply Z.mod_pos_bound; lia).
  destruct (zget_is_Some tab i) as [o Ho]; [lia|].
  assert (Hg : __vrouter_get_nexthop i s = o).
  { unfold __vrouter_get_nexthop. rewrite Ht, Ho, (proj2 (Z.leb_gt _ _)) by lia. done. }
  fold i. pose proof (Hsafe) as Hs. unfold safe_change in Hs. fold i in Hs. rewrite Hg in *. destruct o as [p|].
  - pose proof (inv_alive _ _ Hi p (table_ref_in ext s tab i p Ht Ho)) as Ha. pose proof Ha as [[nh Hh] _].
    pose proof (alive_load _ _ Ha) as Hl. rewrite Hh in Hl. rewrite Hl.
    destruct (vr_nexthop_valid_change req nh) eqn:Hvc; cbn [negb].
    2: { apply refused_outcome; [done|]. right. by exists p, nh. }
    destruct (Hs p nh eq_refl Hl Hvc) as [S1 S2]. apply (answered_outcome ext tab p req nh); [by left| |].
    + intros [Hx|(p' & nh' & E1 & E2 & E3)]; [congruence|]. fold i in E1. simplify_eq. congruence.
    + apply change_work; try done. intros f. by case_match.
  - assert (Hnr : ~ refused tab req s).
    { intros [Hx|(p' & nh' & E1 & _)]; [congruence|]. fold i in E1. congruence. }
    destruct (new_object (new_nexthop req) s) as [[p|] s1] eqn:Hnew.
    { apply (answered_outcome ext tab p req (new_nexthop req)); [|done|by apply create_work].
      right. split_and!; [done| |done]. unfold new_object, host_alloc in Hnew. by case_match; simplify_eq. }
    unfold new_object in Hnew. destruct (host_alloc s) as [ok s2] eqn:Hal.
    destruct (host_alloc_memory _ _ _ Hal) as [Hm _]. destruct ok; [done|]. simplify_eq.
    unfold host_alloc in Hal. simplify_eq. split_and!; [by apply (inv_same ext s)|done|].
    right. left. split_and!; [done|done|by apply Hm|done|done].
Qed.

(** C5: what a request that creates or changes a nexthop does, in a state where the
    counts are exact.  The conditions on the request are [fits] (the type is a byte, there
    are less than 65536 components and not both of the tunnel kinds GRE and UDP) and
    [safe_change] (a change that is not refused keeps the type, and does not make another
    tunnel a UDP tunnel over IPv6, whose union holds pointers); [NexthopLife] has
    requests outside them that break the counts.
    A request that is refused (identifier or type out of range, a valid change of the type
    or of the size of the encapsulation) changes nothing; without memory for a new nexthop
    nothing changes either.  Otherwise the request succeeds exactly as [described]: the
    slot holds the object that was there, or the new one, with the header of the request
    and, by type, its encapsulation bytes, addresses and ports, interface, components with
    their labels, and forwarding functions; or it fails for one of the reasons of
    [failure] with that reason's code, the slot is empty, and the nexthop is gone unless
    something still refers to it.  On every path the counts stay exact and no freed memory
    is touched. *)
Theorem nexthop_add_spec ext tab req s :
  inv ext s -> vr_nexthops s = Some tab -> zlen (refs ext s) + zlen (nhr_nh_list req) < UINT_MAX ->
  fits req -> safe_change req s ->
  add_outcome ext tab req s (nexthop_add req s).
Proof. apply nexthop_add_outcome. Qed.

End NexthopAddProofs.
