(* ===== verification/NexthopLife.v ===== *)
(** * The life cycle of nexthops under requests (dp-core/vr_nexthop.c)

    The transition system of the whole component: what the data path does with
    references, the requests of the agent, the deferred frees of the host and the
    interfaces that come and go.  Its theorem is that no interleaving touches a freed
    nexthop or miscounts a reference, as long as the values of the requests fit and the
    changes are safe ones.  The examples run it, and show the requests outside those that
    break it. *)

From stdpp Require Import gmap.
From S2P Require Import Prelude NhIface Nexthop NexthopAdd NexthopAddProofs.

Module NexthopLife.
Import Nexthop NexthopAdd NexthopAddProofs.

(** A request is handled as one step: the agent's messages are handled one at a time,
    and the packets that are in flight meanwhile hold their references in [ext]. *)
Inductive life : list nhp * router -> list nhp * router -> Prop :=
  | life_step c c' : step c c' -> life c c'
  | life_request ext s req :
      is_Some (vr_nexthops s) -> zlen (refs ext s) + zlen (nhr_nh_list req) < UINT_MAX ->
      fits req -> safe_change req s -> life (ext, s) (ext, (nexthop_add req s).2)
  | life_vifs ext s v : life (ext, s) (ext, set_vifs v s).

Lemma request_inv ext req s :
  inv ext s -> is_Some (vr_nexthops s) -> zlen (refs ext s) + zlen (nhr_nh_list req) < UINT_MAX ->
  fits req -> safe_change req s -> inv ext (nexthop_add req s).2.
Proof.
  intros Hi [tab Ht] Hr Hf Hs. pose proof (nexthop_add_outcome ext tab req s Hi Ht Hr Hf Hs) as Ho.
  unfold add_outcome in Ho. destruct (nexthop_add req s) as [ret s']. apply Ho.
Qed.

Lemma life_inv c c' : life c c' -> inv c.1 c.2 -> inv c'.1 c'.2.
Proof.
  intros [c1 c2 Hst|ext s req Ht Hr Hf Hs|ext s v] Hi; cbn [fst snd] in *.
  - by apply (step_inv c1).
  - by apply request_inv.
  - by apply (inv_same ext s).
Qed.

Lemma lives_inv c c' : rtc life c c' -> inv c.1 c.2 -> inv c'.1 c'.2.
Proof. induction 1; eauto using life_inv. Qed.

(** C4: in every state that look-ups, releases, deletions, table set ups and tear downs,
    deferred frees, interfaces that come and go and requests of the agent can reach, in
    any order, no freed nexthop was accessed and no union was read as what it does not
    hold, every reference held by the table, by a composite or by a client points to a
    nexthop that is neither freed nor waiting to be freed, and its count [nh_users] is
    exactly the number of those references.  The requests are those of [life_request]:
    their values fit ([fits]: the type is a byte, less than 65536 components, not both of
    the tunnel kinds GRE and UDP), and a change that is not refused keeps the type of the
    nexthop and makes no other tunnel a UDP tunnel over IPv6 ([safe_change]).  The code
    accepts requests outside these and then it does not hold: see
    [tunnel_family_change_faults] and [invalid_type_change_leaks]. *)
Theorem nexthop_no_use_after_free oracle ext s :
  rtc life ([], router0 oracle) (ext, s) ->
  nh_fault s = false /\
  forall p, p ∈ refs ext s ->
    exists nh, nh_load p s = Some nh /\ p ∉ nh_deferred s /\ nh_users nh = occ p (refs ext s).
Proof.
  intros Hr. pose proof (lives_inv _ _ Hr (router0_inv oracle)) as Hinv. cbn in Hinv.
  split; [apply Hinv|]. intros p Hp. pose proof (inv_alive _ _ Hinv p Hp) as Hal.
  pose proof Hal as ([nh Hnh] & _ & Hd). exists nh. rewrite (alive_load _ _ Hal).
  split_and!; [done|done|]. by apply (inv_users _ _ Hinv).
Qed.

(** ** A run

    Nexthop 1 sends out of interface 0, composite 2 spreads over 1 and over a nexthop
    that does not exist; a packet holds the composite while nexthop 1 is deleted and the
    composite is changed to one without components. *)

Definition encap_req (id : Z) : vr_nexthop_req :=
  mk_nhr NH_ENCAP AF_INET id 0 0 0 0 0 0 0 0 0 0 NH_FLAG_VALID (replicate 14 170) [] [] 0 None None.

Definition composite_req (id : Z) (nhs labels : list Z) : vr_nexthop_req :=
  mk_nhr NH_COMPOSITE AF_INET id 0 0 0 0 0 0 0 0 0 0 (Z.lor NH_FLAG_VALID NH_FLAG_COMPOSITE_ECMP) []
    nhs labels 0 None None.

Definition one_vif : vif_state := mk_vifs [true] [].

Definition run1 : router := Eval vm_compute in (nh_table_init 4 (router0 [])).2.
Definition run2 : router := Eval vm_compute in set_vifs one_vif run1.
Definition run3 : router := Eval vm_compute in (nexthop_add (encap_req 1) run2).2.
Definition run4 : router := Eval vm_compute in (nexthop_add (composite_req 2 [1; 3] [16; 17]) run3).2.
Definition run5 : router := Eval vm_compute in (vrouter_get_nexthop 0 2 run4).2.
Definition run6 : router := Eval vm_compute in (vr_nexthop_delete 0 1 run5).2.
Definition run7 : router := Eval vm_compute in (nexthop_add (composite_req 2 [] []) run6).2.

Lemma safe_fresh req s : __vrouter_get_nexthop (u32 (nhr_id req)) s = None -> safe_change req s.
Proof. intros Hn p nh Hp. congruence. Qed.

Lemma safe_at req s p nh :
  __vrouter_get_nexthop (u32 (nhr_id req)) s = Some p -> nh_load p s = Some nh ->
  u8 (nhr_type req) = nh_type nh -> u_ok (set_header req (nhr_flags req) nh) = true -> safe_change req s.
Proof. intros Hp Hl ? ? p' nh' Hp' Hl' _. simplify_eq. done. Qed.

Lemma run_reach6 : rtc life ([], router0 []) ([3], run6).
Proof.
  apply (rtc_l _ _ ([], run1)).
  { replace run1 with (nh_table_init 4 (router0 [])).2 by (by vm_compute).
    apply life_step, step_init; [by vm_compute|done|by left]. }
  apply (rtc_l _ _ ([], run2)); [apply (life_vifs [] run1 one_vif)|].
  apply (rtc_l _ _ ([], run3)).
  { replace run3 with (nexthop_add (encap_req 1) run2).2 by (by vm_compute).
    apply life_request; [by eexists|by vm_compute|by split_and!; vm_compute|by apply safe_fresh; vm_compute]. }
  apply (rtc_l _ _ ([], run4)).
  { replace run4 with (nexthop_add (composite_req 2 [1; 3] [16; 17]) run3).2 by (by vm_compute).
    apply life_request; [by eexists|by vm_compute|by split_and!; vm_compute|by apply safe_fresh; vm_compute]. }
  apply (rtc_l _ _ ([3], run5)); [apply life_step, (step_get [] run4 0 2); by vm_compute|].
  apply (rtc_l _ _ ([3], run6)); [|done].
  replace run6 with (vr_nexthop_delete 0 1 run5).2 by (by vm_compute).
  apply life_step, step_delete. by vm_compute.
Qed.

Lemma run6_safe : safe_change (composite_req 2 [] []) run6.
Proof. by eapply safe_at; vm_compute. Qed.

Lemma run_reach : rtc life ([], router0 []) ([3], run7).
Proof.
  eapply rtc_r; [exact run_reach6|].
  replace run7 with (nexthop_add (composite_req 2 [] []) run6).2 by (by vm_compute).
  apply life_request; [by eexists|by vm_compute|by split_and!; vm_compute|exact run6_safe].
Qed.

Lemma nexthop_no_use_after_free_witness :
  nh_fault run7 = false /\
  forall p, p ∈ refs [3] run7 ->
    exists nh, nh_load p run7 = Some nh /\ p ∉ nh_deferred run7 /\ nh_users nh = occ p (refs [3] run7).
Proof. exact (nexthop_no_use_after_free [] [3] run7 run_reach). Defined.

Lemma nexthop_add_spec_witness :
  add_outcome [3] [Some 1; None; Some 3; None] (composite_req 2 [] []) run6
    (nexthop_add (composite_req 2 [] []) run6).
Proof.
  apply (nexthop_add_spec [3] [Some 1; None; Some 3; None] (composite_req 2 [] []) run6).
  - exact (lives_inv _ _ run_reach6 (router0_inv [])).
  - reflexivity.
  - by vm_compute.
  - by split_and!; vm_compute.
  - exact run6_safe.
Defined.

(** ** Requests that go wrong *)

Definition request (s : router) (req : vr_nexthop_req) : router := (nexthop_add req s).2.

Definition requests (reqs : list vr_nexthop_req) : router := foldl request run2 reqs.

Definition tunnel_req (family flags oif : Z) (sip6 dip6 : option (list Z)) : vr_nexthop_req :=
  mk_nhr NH_TUNNEL family 1 0 oif 0 0 167772161 167772162 0 0 0 0 (Z.lor NH_FLAG_VALID flags) [] [] [] 0 sip6 dip6.

(** The count of active components survives the array it counts: an ECMP composite is
    changed to one whose components do not exist, and [nh_component_ecmp_cnt] still says
    one component while [nh_component_ecmp] is null. *)
Theorem composite_ecmp_count_stale :
  let s := requests [encap_req 1; composite_req 2 [1] [16]; composite_req 2 [3] [16]] in
  exists nh, nh_load 3 s = Some nh /\ nh_reach_nh (nh_rest nh) = R_composite_ecmp /\
    nh_component_ecmp_cnt nh = 1 /\ nh_component_ecmp nh = None.
Proof. vm_compute. eexists. split_and!; reflexivity. Qed.

(** A valid change of a UDP tunnel from IPv4 to IPv6 takes the IPv4 addresses for the
    pointers to the IPv6 addresses. *)
Theorem tunnel_family_change_faults :
  let v4 := tunnel_req AF_INET NH_FLAG_TUNNEL_UDP 0 None None in
  let v6 := tunnel_req AF_INET6 NH_FLAG_TUNNEL_UDP 0 (Some (replicate 16 1)) (Some (replicate 16 2)) in
  (nexthop_add v6 (requests [v4])).1 = 0 /\ nh_fault (requests [v4]) = false /\ nh_fault (requests [v4; v6]) = true.
Proof. by vm_compute. Qed.

(** A request without the valid flag may change the type: the references of a composite
    are then never dropped.  Nexthop 1 is deleted and nothing refers to it, but it stays. *)
Theorem invalid_type_change_leaks :
  let off := mk_nhr NH_DISCARD AF_INET 2 0 0 0 0 0 0 0 0 0 0 0 [] [] [] 0 None None in
  let s := requests [encap_req 1; composite_req 2 [1] [16]; off] in
  let s' := (vr_nexthop_delete 0 1 (vr_nexthop_delete 0 2 s).2).2 in
  nh_deferred s' = [] /\ nh_freed s' = {[ 3 ]} /\ table_refs (vr_nexthops s') = [1] /\
  exists nh, nh_load 2 s' = Some nh /\ nh_users nh = 1.
Proof. vm_compute. split_and!; [reflexivity..|]. eexists. split; reflexivity. Qed.

Definition vif_count (d : Z) (s : router) : Z :=
  let log := vif_log (nh_vifs s) in
  Z.of_nat (length (filter (eq (true, d)) log)) - Z.of_nat (length (filter (eq (false, d)) log)).

(** A GRE tunnel that becomes a UDP tunnel releases its interface and keeps the pointer:
    deleting it releases the interface again. *)
Theorem tunnel_change_double_put :
  let gre := tunnel_req AF_INET NH_FLAG_TUNNEL_GRE 0 None None in
  let udp := tunnel_req AF_INET NH_FLAG_TUNNEL_UDP 0 None None in
  vif_count 0 (requests [gre]) = 1 /\ vif_count 0 (requests [gre; udp]) = 0 /\
  (exists nh, nh_load 2 (requests [gre; udp]) = Some nh /\ nh_dev nh = Some 0) /\
  vif_count 0 (vr_nexthop_delete 0 1 (requests [gre; udp])).2 = -1.
Proof. vm_compute. split_and!; [reflexivity..| |reflexivity]. eexists. split; reflexivity. Qed.

(** A UDP tunnel of another family is refused with the interface still held. *)
Theorem tunnel_refused_leaks_vif :
  let req := tunnel_req AF_BRIDGE NH_FLAG_TUNNEL_UDP 0 None None in
  (nexthop_add req run2).1 = - EINVAL /\ nh_freed (request run2 req) = {[ 2 ]} /\
  vif_count 0 (request run2 req) = 1.
Proof. by vm_compute. Qed.

End NexthopLife.
