(* ===== verification/Mtrie.v ===== *)
(** * The route table (dp-core/vr_ip_mtrie.c)

    One multi-bit trie per VRF and family: an entry is a nexthop or a bucket of 256
    entries, one per value of the next address byte.  An entry also carries the
    length of the longest route that covers its whole block.  This file has the
    operations; [MtrieSpec.v] has the abstract route table and [MtrieProofs.v] the
    refinement. *)

From S2P Require Import Prelude NhIface RouteReq.

Module Mtrie.

Definition IP4_PREFIX_LEN : Z := 32.
Definition IP6_PREFIX_LEN : Z := 128.
Definition IPBUCKET_LEVEL_BITS : Z := 8.
Definition IPBUCKET_LEVEL_SIZE : Z := 256.
Definition IPBUCKET_LEVEL_MASK : Z := 255.

(** [struct ip_bucket_entry]: the low bit of the pointer tells a bucket from a
    nexthop.  Either pointer may be null: the tag alone is [Bkt None]. *)
Inductive ip_bucket_entry :=
  | Entry (data : entry_data) (prefix_len label_flags label bridge_index : Z)
with entry_data :=
  | Nh (nh : option nhp)
  | Bkt (bkt : option (list ip_bucket_entry)).

Definition data_of (e : ip_bucket_entry) : entry_data := let '(Entry d _ _ _ _) := e in d.
Definition entry_prefix_len (e : ip_bucket_entry) : Z := let '(Entry _ p _ _ _) := e in p.
Definition entry_label_flags (e : ip_bucket_entry) : Z := let '(Entry _ _ f _ _) := e in f.
Definition entry_label (e : ip_bucket_entry) : Z := let '(Entry _ _ _ l _) := e in l.
Definition entry_bridge_index (e : ip_bucket_entry) : Z := let '(Entry _ _ _ _ b) := e in b.

Definition with_data (d : entry_data) (e : ip_bucket_entry) : ip_bucket_entry :=
  Entry d (entry_prefix_len e) (entry_label_flags e) (entry_label e) (entry_bridge_index e).
(* the bit fields are 8, 4 and 20 bits wide *)
Definition with_plen (p : Z) (e : ip_bucket_entry) : ip_bucket_entry :=
  Entry (data_of e) (u8 p) (entry_label_flags e) (entry_label e) (entry_bridge_index e).
Definition with_labels (f l : Z) (e : ip_bucket_entry) : ip_bucket_entry :=
  Entry (data_of e) (entry_prefix_len e) (f mod 16) (l mod 1048576) (entry_bridge_index e).
Definition with_bridge (b : Z) (e : ip_bucket_entry) : ip_bucket_entry :=
  Entry (data_of e) (entry_prefix_len e) (entry_label_flags e) (entry_label e) (u32 b).

Definition ENTRY_IS_BUCKET (e : ip_bucket_entry) : bool :=
  match data_of e with Bkt _ => true | Nh _ => false end.
Definition ENTRY_IS_NEXTHOP (e : ip_bucket_entry) : bool := negb (ENTRY_IS_BUCKET e).

Definition entry_nh_p (e : ip_bucket_entry) : option nhp :=
  match data_of e with Nh o => o | Bkt _ => None end.
Definition entry_to_bucket (e : ip_bucket_entry) : option (list ip_bucket_entry) :=
  match data_of e with Bkt o => o | Nh _ => None end.

(** [struct mtrie_bkt_info] and its initialisation *)
Record mtrie_bkt_info := mk_bkt_info {
  bi_bits : Z; bi_shift : Z; bi_pfx_len : Z; bi_mask : Z; bi_size : Z }.

Fixpoint bkt_info_levels (levels : nat) (prev : mtrie_bkt_info) : list mtrie_bkt_info :=
  match levels with
  | O => []
  | S n =>
      let bi := mk_bkt_info IPBUCKET_LEVEL_BITS (u8 (bi_shift prev - IPBUCKET_LEVEL_BITS))
                  (u8 (bi_pfx_len prev + IPBUCKET_LEVEL_BITS))
                  IPBUCKET_LEVEL_MASK IPBUCKET_LEVEL_SIZE in
      bi :: bkt_info_levels n bi
  end.

Definition mtrie_ip_bkt_info_init (pfx_len : Z) : list mtrie_bkt_info :=
  let bi0 := mk_bkt_info IPBUCKET_LEVEL_BITS (u8 (pfx_len - IPBUCKET_LEVEL_BITS))
               IPBUCKET_LEVEL_BITS IPBUCKET_LEVEL_MASK IPBUCKET_LEVEL_SIZE in
  bi0 :: bkt_info_levels (Z.to_nat (pfx_len / IPBUCKET_LEVEL_BITS - 1)) bi0.

Definition ip_bkt_info_get (family : Z) : list mtrie_bkt_info :=
  if family =? AF_INET6 then mtrie_ip_bkt_info_init IP6_PREFIX_LEN
  else mtrie_ip_bkt_info_init IP4_PREFIX_LEN.

Definition ip_bkt_get_max_level (family : Z) : Z :=
  if family =? AF_INET6 then IP6_PREFIX_LEN / IPBUCKET_LEVEL_BITS
  else IP4_PREFIX_LEN / IPBUCKET_LEVEL_BITS.

(** [ip_bkt_info[level].bi_pfx_len]; every level has the same size and bits *)
Definition pfx_len_at (family level : Z) : Z :=
  default 0 (bi_pfx_len <$> zget (ip_bkt_info_get family) level).

Definition rt_to_index (rt : vr_route_req) (level : Z) : Z :=
  default 0 (zget (rtr_prefix rt) level).

Section ops.
Context {NS : Type} `{NhOps NS}.

(** What the operations change besides the trie: the nexthops, the buckets whose
    free is deferred, the number of buckets allocated and not freed. *)
Record mst := mk_mst {
  ms_nhs : NS;
  ms_oracle : list bool;
  ms_not_ready : bool;
  ms_deferred : list (list ip_bucket_entry);
  ms_buckets : Z;
  ms_fault : bool
}.

Definition on_nhs (f : NS -> NS) (s : mst) : mst :=
  mk_mst (f (ms_nhs s)) (ms_oracle s) (ms_not_ready s) (ms_deferred s) (ms_buckets s) (ms_fault s).

Definition set_mfault (s : mst) : mst :=
  mk_mst (ms_nhs s) (ms_oracle s) (ms_not_ready s) (ms_deferred s) (ms_buckets s) true.

Definition count_bucket (k : Z) (s : mst) : mst :=
  mk_mst (ms_nhs s) (ms_oracle s) (ms_not_ready s) (ms_deferred s) (ms_buckets s + k) (ms_fault s).

Definition ask_alloc (s : mst) : bool * mst :=
  (match ms_oracle s with [] => true | b :: _ => b end,
   mk_mst (ms_nhs s) (tail (ms_oracle s)) (ms_not_ready s) (ms_deferred s) (ms_buckets s)
     (ms_fault s)).

Definition put_nh (o : option nhp) (s : mst) : mst := on_nhs (nh_put o) s.

Definition get_nh (rid id : Z) (s : mst) : option nhp * mst :=
  let '(o, n) := nh_get rid id (ms_nhs s) in (o, on_nhs (fun _ => n) s).

Definition set_entry_to_bucket (ent : ip_bucket_entry) (bkt : option (list ip_bucket_entry))
    (s : mst) : ip_bucket_entry * mst :=
  match data_of ent with
  | Bkt _ => (with_data (Bkt bkt) ent, set_mfault s)
  | Nh old => (with_data (Bkt bkt) ent, put_nh old s)
  end.

Definition set_entry_to_nh (ent : ip_bucket_entry) (nh : option nhp) (s : mst) : ip_bucket_entry * mst :=
  match nh with
  | None => (ent, set_mfault s)
  | Some p =>
      let rid := nh_rid_of (ms_nhs s) p in
      let '(tmp, s1) := get_nh rid (nh_id_of (ms_nhs s) p) s in
      let '(new, s2) :=
        if decide (tmp = Some p) then (Some p, s1)
        else get_nh rid NH_DISCARD_ID (match tmp with Some _ => put_nh tmp s1 | None => s1 end) in
      (with_data (Nh new) ent,
       match data_of ent with
       | Nh (Some old) => put_nh (Some old) s2
       | _ => s2
       end)
  end.

Fixpoint mtrie_free_entry (ent : ip_bucket_entry) (s : mst) : ip_bucket_entry * mst :=
  match ent with
  | Entry (Nh o) p f l b => (Entry (Nh None) p f l b, put_nh o s)
  | Entry (Bkt None) p f l b => (ent, s)
  | Entry (Bkt (Some bkt)) p f l b =>
      let s1 := (fix loop (es : list ip_bucket_entry) (s : mst) : mst :=
                   match es with
                   | [] => s
                   | e :: es' => loop es' (mtrie_free_entry e s).2
                   end) bkt s in
      (Entry (Nh None) p f l b, count_bucket (-1) s1)
  end.

Definition mtrie_free_bkt (bkt : list ip_bucket_entry) (s : mst) : mst :=
  count_bucket (-1) (foldl (fun s e => (mtrie_free_entry e s).2) s bkt).

Definition mtrie_free_bkt_cb (vdd : option (list ip_bucket_entry)) (s : mst) : mst :=
  match vdd with None => s | Some bkt => mtrie_free_bkt bkt s end.

Definition mtrie_free_bkt_defer (bkt : list ip_bucket_entry) (s : mst) : Z * mst :=
  let '(ok, s1) := ask_alloc s in
  if ok then
    (0, mk_mst (ms_nhs s1) (ms_oracle s1) (ms_not_ready s1) (ms_deferred s1 ++ [bkt])
          (ms_buckets s1) (ms_fault s1))
  else (- ENOMEM, s1).

(** The three fields that an entry takes from a request. *)
Definition set_route_fields (rt : vr_route_req) (ent : ip_bucket_entry) : ip_bucket_entry :=
  with_bridge (rtr_index rt) (with_labels (rtr_label_flags rt) (rtr_label rt) ent).

Definition mtrie_delete_bkt (ent : ip_bucket_entry) (rt : vr_route_req) (s : mst) : ip_bucket_entry * mst :=
  match data_of ent with
  | Nh o => (with_data (Nh None) ent, put_nh o s)
  | Bkt b =>
      let '(ent1, s1) := set_entry_to_nh ent (rtr_nh rt) s in
      let ent2 := set_route_fields rt ent1 in
      let free s := match b with Some bkt => mtrie_free_bkt bkt s | None => set_mfault s end in
      if ms_not_ready s1 then (ent2, free s1)
      else let '(ret, s2) := mtrie_free_bkt_defer (default [] b) s1 in
           if ret =? 0 then (ent2, s2) else (ent2, free s2)
  end.

(** The entries of a new bucket all start as copies of the parent. *)
Fixpoint fill_bucket (n : nat) (parent : ip_bucket_entry) (s : mst) : list ip_bucket_entry * mst :=
  match n with
  | O => ([], s)
  | S n' =>
      let '(e, s1) := set_entry_to_nh (Entry (Nh None) 0 0 0 0) (entry_nh_p parent) s in
      let e1 := with_bridge (entry_bridge_index parent)
                  (with_labels (entry_label_flags parent) (entry_label parent)
                    (with_plen (entry_prefix_len parent) e)) in
      let '(es, s2) := fill_bucket n' parent s1 in
      (e1 :: es, s2)
  end.

Definition mtrie_alloc_bucket (parent : ip_bucket_entry) (s : mst) : option (list ip_bucket_entry) * mst :=
  let '(ok, s1) := ask_alloc s in
  if ok then
    let '(es, s2) := fill_bucket (Z.to_nat IPBUCKET_LEVEL_SIZE) parent (count_bucket 1 s1) in
    (Some es, s2)
  else (None, s1).

(** A loop that updates the entries of a bucket at the given indices, in order. *)
Fixpoint update_entries (f : ip_bucket_entry -> mst -> ip_bucket_entry * mst) (idx : list Z)
    (bkt : list ip_bucket_entry) (s : mst) : list ip_bucket_entry * mst :=
  match idx with
  | [] => (bkt, s)
  | i :: idx' =>
      match zget bkt i with
      | None => update_entries f idx' bkt (set_mfault s)
      | Some e => let '(e', s1) := f e s in update_entries f idx' (zset bkt i e') s1
      end
  end.

(** [add_to_tree] at [level = max_level - 1 - below]. *)
Fixpoint add_to_tree (below : nat) (rt : vr_route_req) (ent : ip_bucket_entry) (s : mst)
    : ip_bucket_entry * mst :=
  if rtr_prefix_len rt <? entry_prefix_len ent then (ent, s)
  else
    let ent1 := with_plen (rtr_prefix_len rt) ent in
    match data_of ent1 with
    | Nh _ =>
        let '(ent2, s1) := set_entry_to_nh ent1 (rtr_nh rt) s in
        (set_route_fields rt ent2, s1)
    | Bkt b =>
        match below with
        | O => (ent1, s)
        | S below' =>
            match b with
            | None => (ent1, set_mfault s)
            | Some bkt =>
                let '(bkt', s1) := update_entries (add_to_tree below' rt)
                                     (seqZ 0 IPBUCKET_LEVEL_SIZE) bkt s in
                (with_data (Bkt (Some bkt')) ent1, s1)
            end
        end
    end.

(** [cp_ent] is the entry before the nexthop is put back. *)
Definition mtrie_reset_entry (ent : ip_bucket_entry) (nh : option nhp) (s : mst) : ip_bucket_entry * mst :=
  let '(ent1, s1) := match nh with Some _ => set_entry_to_nh ent nh s | None => (ent, s) end in
  match entry_to_bucket ent with
  | None => (ent1, s1)
  | Some bkt =>
      if ms_not_ready s1 then (ent1, (mtrie_free_entry ent s1).2)
      else match nh with
           | None => (ent1, set_mfault s1)
           | Some _ =>
               let '(ret, s2) := mtrie_free_bkt_defer bkt s1 in
               if ret =? 0 then (ent1, s2) else (ent1, (mtrie_free_entry ent s2).2)
           end
  end.

(** The indices [__mtrie_add] covers in the bucket where the route ends: an
    [unsigned char] counter starts at [index] and is stepped [fin] times. *)
Definition add_range (plen pfx_len index : Z) : list Z :=
  let fin := if (pfx_len - IPBUCKET_LEVEL_BITS <? plen) && (plen <=? pfx_len)
             then Z.shiftl 1 (pfx_len - plen) else IPBUCKET_LEVEL_SIZE in
  (fun k => u8 (index + k)) <$> seqZ 0 fin.

(** One level of [__mtrie_add] once the entry is known to be a bucket or a failed
    allocation: go down to the child, or cover the entries of this bucket.  [rec] is
    the next turn of the loop; [nh] is the nexthop of the last nexthop entry
    passed. *)
Definition mtrie_add_level (rec : ip_bucket_entry -> option nhp -> mst -> Z * ip_bucket_entry * mst)
    (below : nat) (level : Z) (rt : vr_route_req) (ent : ip_bucket_entry) (nh : option nhp) (s : mst)
    : Z * ip_bucket_entry * mst :=
  match entry_to_bucket ent with
  | None => (- ENOMEM, ent, s)
  | Some bkt =>
      let index := rt_to_index rt level in
      let pfx_len := pfx_len_at (rtr_family rt) level in
      if pfx_len <? rtr_prefix_len rt then
        match zget bkt index with
        | None => (0, ent, set_mfault s)
        | Some child =>
            let nh' := if ENTRY_IS_NEXTHOP child then entry_nh_p child else nh in
            let '(ret, child', s') := rec child nh' s in
            (ret, with_data (Bkt (Some (zset bkt index child'))) ent, s')
        end
      else
        let '(bkt', s') := update_entries (add_to_tree below rt)
                             (add_range (rtr_prefix_len rt) pfx_len index) bkt s in
        (0, with_data (Bkt (Some bkt')) ent, s')
  end.

(** The loop of [__mtrie_add], at [level = max_level - rem].  [err_set] tells that an
    entry above is the one to reset when an allocation fails; the entry that is
    [mine] resets itself when the failure comes back to it. *)
Fixpoint mtrie_add_loop (rem : nat) (level : Z) (rt : vr_route_req) (err_set : bool)
    (ent : ip_bucket_entry) (nh : option nhp) (s : mst) : Z * ip_bucket_entry * mst :=
  match rem with
  | O => (0, ent, s)
  | S rem' =>
      if ENTRY_IS_BUCKET ent then
        mtrie_add_level (mtrie_add_loop rem' (level + 1) rt err_set) rem' level rt ent nh s
      else
        let '(bkt, s0) := mtrie_alloc_bucket ent s in
        let '(ent1, s1) := set_entry_to_bucket ent bkt s0 in
        let '(ret, ent2, s2) :=
          mtrie_add_level (mtrie_add_loop rem' (level + 1) rt true) rem' level rt ent1 nh s1 in
        if negb (ret =? 0) && negb err_set then
          let '(ent3, s3) := mtrie_reset_entry ent2 nh s2 in (ret, ent3, s3)
        else (ret, ent2, s2)
  end.

Definition max_levels (family : Z) : nat := Z.to_nat (ip_bkt_get_max_level family).

Definition __mtrie_add (root : ip_bucket_entry) (rt : vr_route_req) (s : mst) : Z * ip_bucket_entry * mst :=
  mtrie_add_loop (max_levels (rtr_family rt)) 0 rt false root (entry_nh_p root) s.

(** [memcmp] of two entries of one bucket: two buckets are never the same. *)
Definition entry_same (a b : ip_bucket_entry) : bool :=
  match data_of a, data_of b with
  | Nh x, Nh y => bool_decide (x = y)
  | Bkt None, Bkt None => true
  | _, _ => false
  end && (entry_prefix_len a =? entry_prefix_len b) &&
  (entry_label_flags a =? entry_label_flags b) && (entry_label a =? entry_label b) &&
  (entry_bridge_index a =? entry_bridge_index b).

Definition bucket_uniform (bkt : list ip_bucket_entry) : bool :=
  match bkt with
  | [] => true
  | e :: es => forallb (fun e' => entry_same e' e) es
  end.

Definition del_range (plen pfx_len index : Z) : list Z :=
  let '(first, n) :=
    if (pfx_len - IPBUCKET_LEVEL_BITS <? plen) && (plen <=? pfx_len) then
      let fin := Z.shiftl 1 (pfx_len - plen) in (Z.ldiff index (fin - 1), fin)
    else (0, IPBUCKET_LEVEL_SIZE) in
  let fin := Z.min (n + first) IPBUCKET_LEVEL_SIZE in
  seqZ first (fin - first).

(** One turn of the loop of [__mtrie_delete]; [del] is the recursive call. *)
Definition delete_entry (del : ip_bucket_entry -> mst -> ip_bucket_entry * mst) (rt : vr_route_req)
    (e : ip_bucket_entry) (s : mst) : ip_bucket_entry * mst :=
  if entry_prefix_len e =? rtr_prefix_len rt then
    let e1 := with_plen (rtr_replace_plen rt) (with_labels (rtr_label_flags rt) (rtr_label rt) e) in
    if ENTRY_IS_NEXTHOP e1 then
      let '(e2, s1) := set_entry_to_nh e1 (rtr_nh rt) s in (with_bridge (rtr_index rt) e2, s1)
    else del e1 s
  else (e, s).

(** The first half of [__mtrie_delete]: go down to the child on the way, or replace
    the route in the entries it covers. *)
Definition delete_children (del : ip_bucket_entry -> mst -> ip_bucket_entry * mst) (level : Z)
    (rt : vr_route_req) (bkt : list ip_bucket_entry) (s : mst) : list ip_bucket_entry * mst :=
  let index := rt_to_index rt level in
  let pfx_len := pfx_len_at (rtr_family rt) level in
  if pfx_len <? rtr_prefix_len rt then update_entries del [index] bkt s
  else update_entries (delete_entry del rt) (del_range (rtr_prefix_len rt) pfx_len index) bkt s.

(** [__mtrie_delete] at [level = max_level - rem].  No caller looks at its return
    value, which is left out. *)
Fixpoint __mtrie_delete (rem : nat) (level : Z) (rt : vr_route_req) (ent : ip_bucket_entry) (s : mst)
    : ip_bucket_entry * mst :=
  match rem with
  | O => (ent, s)
  | S rem' =>
      match data_of ent with
      | Nh _ => (ent, s)
      | Bkt None => (ent, set_mfault s)
      | Bkt (Some bkt) =>
          let '(bkt1, s1) := delete_children (__mtrie_delete rem' (level + 1) rt) level rt bkt s in
          let ent1 := with_data (Bkt (Some bkt1)) ent in
          if bucket_uniform bkt1 then mtrie_delete_bkt ent1 rt s1 else (ent1, s1)
      end
  end.

(** The loop of [__mtrie_lookup] over the indices [is]; [sub] is the recursive
    call one level down.  The variable [bkt] is assigned in the loop body, so after
    a bucket was searched in vain the loop goes on in {e that} bucket.  (The shift
    in [limit] is undefined in C from 31 on.) *)
Definition lookup_limit (plen pfx_len : Z) : Z :=
  if pfx_len <? plen then IPBUCKET_LEVEL_SIZE else u32 (Z.shiftl 1 (pfx_len - plen)).

Definition take_entry (ent : ip_bucket_entry) (o : option nhp) (rt : vr_route_req) : vr_route_req :=
  with_nh o (with_index (entry_bridge_index ent)
    (with_label (entry_label_flags ent) (entry_label ent)
      (with_prefix (rtr_prefix rt) (entry_prefix_len ent) rt))).

Fixpoint lookup_loop (sub : option (list ip_bucket_entry) -> vr_route_req -> option nhp * vr_route_req)
    (index limit : Z) (idx : list Z) (bkt : list ip_bucket_entry) (rt : vr_route_req)
    : option nhp * vr_route_req :=
  match idx with
  | [] => (None, rt)
  | i :: idx' =>
      match zget bkt ((index + i) mod IPBUCKET_LEVEL_SIZE) with
      | None => (None, rt)
      | Some ent =>
          match data_of ent with
          | Nh o =>
              if (limit <=? i) && (rtr_prefix_len rt <=? entry_prefix_len ent) then
                lookup_loop sub index limit idx' bkt rt
              else if rtr_prefix_len rt <? entry_prefix_len ent then
                lookup_loop sub index limit idx' bkt rt
              else (o, take_entry ent o rt)
          | Bkt b =>
              match sub b rt with
              | (Some p, rt') => (Some p, rt')
              | (None, rt') =>
                  match b with
                  | None => (None, rt')
                  | Some bkt' => lookup_loop sub index limit idx' bkt' rt'
                  end
              end
          end
      end
  end.

Fixpoint __mtrie_lookup (rem : nat) (level : Z) (bkt : option (list ip_bucket_entry)) (rt : vr_route_req)
    : option nhp * vr_route_req :=
  match rem, bkt with
  | S rem', Some l =>
      lookup_loop (__mtrie_lookup rem' (level + 1)) (rt_to_index rt level)
        (lookup_limit (rtr_prefix_len rt) (pfx_len_at (rtr_family rt) level))
        (seqZ 0 IPBUCKET_LEVEL_SIZE) l rt
  | _, _ => (None, rt)
  end.

(** ** The tables of all VRFs *)

Record vrf_tables := mk_tables {
  vr_vrfs : Z;
  vn_rtable4 : list (option ip_bucket_entry);
  vn_rtable6 : list (option ip_bucket_entry)
}.

Definition vn_rtable (family : Z) (t : vrf_tables) : list (option ip_bucket_entry) :=
  if family =? AF_INET6 then vn_rtable6 t else vn_rtable4 t.

Definition set_vn_rtable (family : Z) (l : list (option ip_bucket_entry)) (t : vrf_tables) : vrf_tables :=
  if family =? AF_INET6 then mk_tables (vr_vrfs t) (vn_rtable4 t) l
  else mk_tables (vr_vrfs t) l (vn_rtable6 t).

Definition vrfid_to_mtrie (vrf_id family : Z) (t : vrf_tables) : option ip_bucket_entry :=
  if vr_vrfs t <=? vrf_id then None else default None (zget (vn_rtable family t) vrf_id).

Definition mtrie_lookup (default_nh : option nhp) (vrf_id : Z) (t : vrf_tables) (rt : vr_route_req)
    : option nhp * vr_route_req :=
  match vrfid_to_mtrie vrf_id (rtr_family rt) t with
  | None => (default_nh, with_nh default_nh rt)
  | Some ent =>
      match data_of ent with
      | Nh None => (default_nh, with_nh default_nh rt)
      | Nh (Some p) => (Some p, take_entry ent (Some p) rt)
      | Bkt None => (default_nh, with_nh default_nh rt)
      | Bkt (Some bkt) =>
          let '(r, rt') := __mtrie_lookup (max_levels (rtr_family rt)) 0 (Some bkt) rt in
          let r' := match r with Some p => Some p | None => default_nh end in
          (r', with_nh r' rt')
      end
  end.

Definition mtrie_alloc_vrf (vrf_id family : Z) (t : vrf_tables) (s : mst)
    : option ip_bucket_entry * vrf_tables * mst :=
  let '(ok, s1) := ask_alloc s in
  if ok then
    let '(nh, s2) := get_nh 0 NH_DISCARD_ID s1 in
    let root := Entry (Nh nh) 0 0 MTRIE_INVALID_LABEL VR_BE_INVALID_INDEX in
    (Some root, set_vn_rtable family (zset (vn_rtable family t) vrf_id (Some root)) t, s2)
  else (None, t, s1).

(** [vr_bridge_lookup] is a function pointer the bridge sets. *)
Variable vr_bridge_lookup : Z -> vr_route_req -> option nhp * vr_route_req.

(** The part that [mtrie_add] and [mtrie_delete] share: the bridge index of the
    MAC in the request. *)
Definition req_bridge_index (rt : vr_route_req) : option Z :=
  if (rtr_mac_size rt =? VR_ETHER_ALEN) && negb (IS_MAC_ZERO (rtr_mac rt)) then
    match vr_bridge_lookup (rtr_vrf_id rt)
            (with_index VR_BE_INVALID_INDEX (with_mac (rtr_mac rt) VR_ETHER_ALEN rt)) with
    | (None, _) => None
    | (Some _, tmp_req) => Some (rtr_index tmp_req)
    end
  else Some VR_BE_INVALID_INDEX.

Definition mtrie_add (rt : vr_route_req) (t : vrf_tables) (s : mst) : Z * vrf_tables * mst :=
  let vrf_id := rtr_vrf_id rt in
  let '(mtrie, t1, s1) :=
    match vrfid_to_mtrie vrf_id (rtr_family rt) t with
    | Some m => (Some m, t, s)
    | None => mtrie_alloc_vrf vrf_id (rtr_family rt) t s
    end in
  match mtrie with
  | None => (- ENOMEM, t1, s1)
  | Some root =>
      let '(nh, s2) := get_nh (rtr_rid rt) (rtr_nh_id rt) s1 in
      match nh with
      | None => (- ENOENT, t1, s2)
      | Some p =>
          if negb (label_valid (rtr_label_flags rt)) && (nh_type_of (ms_nhs s2) p =? NH_TUNNEL) then
            (- EINVAL, t1, put_nh nh s2)
          else
            match req_bridge_index rt with
            | None => (- ENOENT, t1, s2)
            | Some index =>
                let rt1 := with_label (rtr_label_flags rt) (req_label rt)
                             (with_index index (with_nh nh rt)) in
                let '(ret, root', s3) := __mtrie_add root rt1 s2 in
                (ret, set_vn_rtable (rtr_family rt)
                        (zset (vn_rtable (rtr_family rt) t1) vrf_id (Some root')) t1,
                 put_nh nh s3)
            end
      end
  end.

Definition mtrie_delete (rt : vr_route_req) (t : vrf_tables) (s : mst) : Z * vrf_tables * mst :=
  let vrf_id := rtr_vrf_id rt in
  match vrfid_to_mtrie vrf_id (rtr_family rt) t with
  | None => (- ENOENT, t, s)
  | Some root =>
      let '(nh, s1) := get_nh (rtr_rid rt) (rtr_nh_id rt) s in
      match nh with
      | None => (- ENOENT, t, s1)
      | Some _ =>
          match req_bridge_index rt with
          | None => (- ENOENT, t, s1)
          | Some index =>
              let rt1 := with_label (rtr_label_flags rt) (req_label rt)
                           (with_index index (with_nh nh rt)) in
              let '(root', s2) := __mtrie_delete (max_levels (rtr_family rt)) 0 rt1 root s1 in
              (0, set_vn_rtable (rtr_family rt)
                    (zset (vn_rtable (rtr_family rt) t) vrf_id (Some root')) t,
               put_nh nh s2)
          end
      end
  end.

Definition mtrie_get (default_nh : option nhp) (vrf_id : Z) (t : vrf_tables) (rt : vr_route_req) (s : mst)
    : vr_route_req :=
  let '(nh, rt1) := mtrie_lookup default_nh vrf_id t rt in
  let rt2 := with_nh_id (match nh with Some p => nh_id_of (ms_nhs s) p | None => -1 end) rt1 in
  if rtr_index rt2 =? VR_BE_INVALID_INDEX then with_mac [] 0 rt2
  else
    let breq := with_mac (replicate 6 0) VR_ETHER_ALEN rt2 in
    with_mac (rtr_mac (vr_bridge_lookup (rtr_vrf_id rt2) breq).2) VR_ETHER_ALEN rt2.

Definition free_vrf_table (family vrf_id : Z) (t : vrf_tables) (s : mst) : vrf_tables * mst :=
  match default None (zget (vn_rtable family t) vrf_id) with
  | None => (t, s)
  | Some root =>
      (set_vn_rtable family (zset (vn_rtable family t) vrf_id None) t, (mtrie_free_entry root s).2)
  end.

Definition mtrie_free_vrf (vrf_id : Z) (t : vrf_tables) (s : mst) : vrf_tables * mst :=
  let '(t1, s1) := free_vrf_table AF_INET vrf_id t s in
  free_vrf_table AF_INET6 vrf_id t1 s1.

End ops.

Arguments mst : clear implicits.
End Mtrie.
