(* ===== verification/MtrieSpec.v ===== *)
(** * Longest prefix match, and what it means for a trie to hold a route table

    The abstract route table is a finite map from prefixes to routes.  A prefix of
    [n] bits is the pair of [n] and the [n]-bit number it spells; its ancestor of
    [k] bits is that number shifted right.  [best] is the longest prefix match, and
    [repr] relates a trie entry to the part of the table under its block. *)

From S2P Require Import Prelude NhIface RouteReq Mtrie.

Module MtrieSpec.
Import Mtrie.

Record info := mk_info { ri_nh : nhp; ri_flags : Z; ri_label : Z; ri_index : Z }.

Abbreviation rtable := (gmap (nat * Z) info).

(** The [k]-bit ancestor of the [n]-bit prefix [v]. *)
Definition anc (n : nat) (v : Z) (k : nat) : Z := v / 2 ^ Z.of_nat (n - k).

Fixpoint best (R : rtable) (n : nat) (v : Z) : option (nat * info) :=
  match R !! (n, v) with
  | Some i => Some (n, i)
  | None => match n with O => None | S n' => best R n' (v / 2) end
  end.

Lemma anc_self n v : anc n v n = v.
Proof. unfold anc. rewrite Nat.sub_diag. apply Z.div_1_r. Qed.

Lemma anc_anc n v k j : (j <= k <= n)%nat -> anc k (anc n v k) j = anc n v j.
Proof.
  intros. unfold anc. rewrite Z.div_div by lia.
  rewrite <- Z.pow_add_r by lia. do 2 f_equal. lia.
Qed.

Lemma anc_S n v k : (k <= n)%nat -> anc (S n) v k = anc n (v / 2) k.
Proof.
  intros. rewrite <- (anc_anc (S n) v n k) by lia. f_equal.
  unfold anc. by replace (S n - n)%nat with 1%nat by lia.
Qed.

Lemma anc_child n v b k : (k <= n)%nat -> 0 <= b < 256 -> anc (8 + n) (v * 256 + b) k = anc n v k.
Proof.
  intros. rewrite <- (anc_anc (8 + n) _ n k) by lia. f_equal. unfold anc.
  replace (8 + n - n)%nat with 8%nat by lia. change (2 ^ Z.of_nat 8) with 256.
  rewrite Z.div_add_l by lia. rewrite Z.div_small by lia. lia.
Qed.

(** ** Longest prefix match *)

Lemma best_spec R n v k i :
  best R n v = Some (k, i) <->
  (k <= n)%nat /\ R !! (k, anc n v k) = Some i /\
  forall j, (k < j <= n)%nat -> R !! (j, anc n v j) = None.
Proof.
  revert v. induction n as [|n IH]; intros v; cbn.
  - destruct (R !! (0%nat, v)) as [i'|] eqn:E.
    + split; [intros [= <- <-]; rewrite anc_self; split_and!; [lia|done|lia]|].
      intros (? & Hk & _). replace k with 0%nat in * by lia. rewrite anc_self in Hk. congruence.
    + split; [done|]. intros (? & Hk & _). replace k with 0%nat in * by lia.
      rewrite anc_self in Hk. congruence.
  - destruct (R !! (S n, v)) as [i'|] eqn:E.
    + split; [intros [= <- <-]; rewrite anc_self; split_and!; [lia|done|lia]|].
      intros (? & Hk & Hno). destruct (decide (k = S n)) as [->|Hne].
      * rewrite anc_self in Hk. congruence.
      * specialize (Hno (S n)). rewrite anc_self in Hno. rewrite Hno in E by lia. done.
    + rewrite IH. split; intros (? & Hk & Hno).
      * split; [lia|]. rewrite anc_S by lia. split; [done|]. intros j Hj.
        destruct (decide (j = S n)) as [->|Hne]; [by rewrite anc_self|].
        rewrite anc_S by lia. apply Hno. lia.
      * assert (k <> S n) by (intros ->; rewrite anc_self in Hk; congruence).
        split; [lia|]. rewrite anc_S in Hk by lia. split; [done|]. intros j Hj.
        rewrite <- anc_S by lia. apply Hno. lia.
Qed.

Lemma best_skip R n v m :
  (m <= n)%nat -> (forall j, (m < j <= n)%nat -> R !! (j, anc n v j) = None) ->
  best R n v = best R m (anc n v m).
Proof.
  intros Hm Hno. destruct (best R m (anc n v m)) as [[k i]|] eqn:E.
  - apply best_spec in E as (? & Hk & Hn). rewrite anc_anc in Hk by lia.
    apply best_spec. split; [lia|]. split; [done|]. intros j Hj.
    destruct (decide (j <= m)%nat); [|apply Hno; lia].
    specialize (Hn j). rewrite anc_anc in Hn by lia. apply Hn. lia.
  - destruct (best R n v) as [[k i]|] eqn:E'; [|done].
    apply best_spec in E' as (? & Hk & Hn).
    assert (k <= m)%nat. { destruct (decide (k <= m)%nat); [done|]. rewrite Hno in Hk by lia. done. }
    assert (best R m (anc n v m) = Some (k, i)); [|congruence].
    apply best_spec. rewrite anc_anc by lia. split_and!; [done|done|].
    intros j Hj. rewrite anc_anc by lia. apply Hn. lia.
Qed.

Lemma best_mono R n w m j i j' i' :
  (m <= n)%nat -> best R m (anc n w m) = Some (j, i) -> best R n w = Some (j', i') -> (j <= j')%nat.
Proof.
  intros Hm (? & Hj & _)%best_spec (? & _ & Hno)%best_spec.
  rewrite anc_anc in Hj by lia. destruct (decide (j <= j')%nat); [done|].
  rewrite Hno in Hj by lia. done.
Qed.

Lemma best_insert_cover R n v j i0 k u i :
  best R n v = Some (j, i0) -> (j <= k <= n)%nat -> anc n v k = u ->
  best (<[(k, u) := i]> R) n v = Some (k, i).
Proof.
  intros (? & Hj & Hno)%best_spec Hk <-. apply best_spec. split; [lia|].
  split; [apply lookup_insert_eq|]. intros j' Hj'. rewrite lookup_insert_ne by naive_solver lia.
  apply Hno. lia.
Qed.

Lemma best_insert_other R n v j i0 k u i :
  best R n v = Some (j, i0) -> ((n < k)%nat \/ anc n v k <> u \/ (k < j)%nat) ->
  best (<[(k, u) := i]> R) n v = Some (j, i0).
Proof.
  intros (? & Hj & Hno)%best_spec Hk. apply best_spec. split; [done|]. split.
  - destruct (decide ((k, u) = (j, anc n v j))) as [[= -> ->]|Hne]; [naive_solver lia|].
    by rewrite lookup_insert_ne.
  - intros j' Hj'. rewrite lookup_insert_ne; [by apply Hno|].
    intros [= -> ->]. naive_solver lia.
Qed.

Lemma best_delete_other R n v j i0 k u :
  best R n v = Some (j, i0) -> (j <> k \/ anc n v k <> u) ->
  best (delete (k, u) R) n v = Some (j, i0).
Proof.
  intros (? & Hj & Hno)%best_spec Hk. apply best_spec. split; [done|]. split.
  - rewrite lookup_delete_ne; [done|]. naive_solver.
  - intros j' Hj'. apply lookup_delete_None. right. by apply Hno.
Qed.

(** A route table as the data path has it: there is always a default. *)
Definition info_wf (i : info) : Prop :=
  0 <= ri_flags i < 16 /\ 0 <= ri_label i < 1048576 /\ 0 <= ri_index i <= UINT_MAX.

(** No route is strictly inside the block of the [n]-bit prefix [v]. *)
Definition no_inside (R : rtable) (n : nat) (v : Z) : Prop :=
  forall m w, (n < m)%nat -> anc m w n = v -> R !! (m, w) = None.

(** ** Tries that hold a table

    An entry [d] levels down, for the block [v] of [8 * d] bits, with [rem] levels
    below it: it carries the length of the best route for its block; a nexthop entry
    is that route, and nothing more specific exists. *)
Definition leaf_is (i : info) (e : ip_bucket_entry) : Prop :=
  entry_nh_p e = Some (ri_nh i) /\ entry_label_flags e = ri_flags i /\
  entry_label e = ri_label i /\ entry_bridge_index e = ri_index i.

Fixpoint repr (R : rtable) (rem d : nat) (v : Z) (e : ip_bucket_entry) : Prop :=
  exists k i, best R (8 * d) v = Some (k, i) /\ entry_prefix_len e = Z.of_nat k /\
  match data_of e with
  | Nh _ => leaf_is i e /\ no_inside R (8 * d) v
  | Bkt None => False
  | Bkt (Some l) =>
      match rem with
      | O => False
      | S rem' => zlen l = 256 /\ forall b c, zget l b = Some c -> repr R rem' (S d) (v * 256 + b) c
      end
  end.

(** Two tables that agree on every block under [v]. *)
Definition agree (R R' : rtable) (n : nat) (v : Z) : Prop :=
  forall m w, (n <= m)%nat -> anc m w n = v ->
    (forall x, best R m w = Some x -> best R' m w = Some x) /\
    ((n < m)%nat -> R !! (m, w) = R' !! (m, w)).

Lemma agree_child R R' n v b :
  0 <= b < 256 -> agree R R' n v -> agree R R' (8 + n) (v * 256 + b).
Proof.
  intros Hb Ha m w Hm Hw. destruct (Ha m w) as [H1 H2]; [lia| |].
  - rewrite <- (anc_anc m w (8 + n) n) by lia. rewrite Hw, anc_child by lia. apply anc_self.
  - split; [done|]. intros. apply H2. lia.
Qed.

Lemma repr_agree R R' rem d v e :
  agree R R' (8 * d) v -> repr R rem d v e -> repr R' rem d v e.
Proof.
  revert d v e. induction rem as [|rem IH]; intros d v e Ha (k & i & Hb & Hp & Hd);
    exists k, i; (split; [apply (Ha (8 * d)%nat v); [lia|apply anc_self|done]|]);
    (split; [done|]); destruct (data_of e) as [o|[l|]]; try done.
  - destruct Hd as [Hl Hn]. split; [done|]. intros m w Hm Hw.
    destruct (Ha m w) as [_ Hx]; [lia|done|]. rewrite <- Hx by done. by apply Hn.
  - destruct Hd as [Hl Hn]. split; [done|]. intros m w Hm Hw.
    destruct (Ha m w) as [_ Hx]; [lia|done|]. rewrite <- Hx by done. by apply Hn.
  - destruct Hd as [Hl Hc]. split; [done|]. intros b c Hz. apply IH; [|by apply Hc].
    replace (8 * S d)%nat with (8 + 8 * d)%nat by lia. apply agree_child; [|done].
    apply zget_range in Hz. lia.
Qed.

(** Routes that miss a block, or that a longer route hides there, leave it alone. *)
Lemma agree_insert_disjoint R n v k u i :
  (n <= k)%nat -> anc k u n <> v -> agree R (<[(k, u) := i]> R) n v.
Proof.
  intros Hk Hne m w Hm Hw. split.
  - intros [j i0] Hb. apply best_insert_other; [done|].
    destruct (decide (m < k)%nat); [by left|]. right; left. intros <-.
    rewrite anc_anc in Hne by lia. done.
  - intros Hlt. rewrite lookup_insert_ne; [done|]. intros [= -> ->]. done.
Qed.

Lemma agree_insert_outside R n v k u i :
  (k <= n)%nat -> anc n v k <> u -> agree R (<[(k, u) := i]> R) n v.
Proof.
  intros Hk Hne m w Hm Hw. split.
  - intros [j i0] Hb. apply best_insert_other; [done|]. right; left.
    rewrite <- (anc_anc m w n k) by lia. by rewrite Hw.
  - intros Hlt. rewrite lookup_insert_ne; [done|]. intros [= -> ->]. lia.
Qed.

Lemma agree_insert_hidden R n v k u i j i0 :
  (k <= n)%nat -> best R n v = Some (j, i0) -> (k < j)%nat -> agree R (<[(k, u) := i]> R) n v.
Proof.
  intros Hk Hj Hlt m w Hm Hw. split.
  - intros [j' i'] Hb. apply best_insert_other; [done|]. right; right.
    rewrite <- Hw in Hj. pose proof (best_mono _ _ _ _ _ _ _ _ Hm Hj Hb). lia.
  - intros Hn. rewrite lookup_insert_ne; [done|]. intros [= -> ->]. lia.
Qed.

Lemma agree_delete_disjoint R n v k u :
  (n <= k)%nat -> anc k u n <> v -> agree R (delete (k, u) R) n v.
Proof.
  intros Hk Hne m w Hm Hw. split.
  - intros [j i0] Hb. apply best_delete_other; [done|].
    apply best_spec in Hb as (Hj & _). destruct (decide (j = k)) as [->|]; [|by left].
    right. intros <-. rewrite anc_anc in Hne by lia. done.
  - intros Hlt. rewrite lookup_delete_ne; [done|]. intros [= -> ->]. done.
Qed.

Lemma agree_delete_outside R n v k u :
  (k <= n)%nat -> anc n v k <> u -> agree R (delete (k, u) R) n v.
Proof.
  intros Hk Hne m w Hm Hw. split.
  - intros [j i0] Hb. apply best_delete_other; [done|]. right.
    rewrite <- (anc_anc m w n k) by lia. by rewrite Hw.
  - intros Hlt. rewrite lookup_delete_ne; [done|]. intros [= -> ->]. lia.
Qed.

Lemma agree_delete_hidden R n v k u j i0 :
  (k <= n)%nat -> best R n v = Some (j, i0) -> (k < j)%nat -> agree R (delete (k, u) R) n v.
Proof.
  intros Hk Hj Hlt m w Hm Hw. split.
  - intros [j' i'] Hb. apply best_delete_other; [done|]. left.
    rewrite <- Hw in Hj. pose proof (best_mono _ _ _ _ _ _ _ _ Hm Hj Hb). lia.
  - intros Hn. rewrite lookup_delete_ne; [done|]. intros [= -> ->]. lia.
Qed.

(** ** Removing a route

    The default cannot go: removing it replaces it by [i]. *)
Definition remove (R : rtable) (k : nat) (u : Z) (i : info) : rtable :=
  match k with O => <[(0%nat, u) := i]> R | S _ => delete (k, u) R end.

Lemma remove_other R k u i m w : (m, w) <> (k, u) -> remove R k u i !! (m, w) = R !! (m, w).
Proof. intros. destruct k; cbn; [by rewrite lookup_insert_ne|by rewrite lookup_delete_ne]. Qed.

Lemma remove_absent R k u i : (0 < k)%nat -> R !! (k, u) = None -> remove R k u i = R.
Proof. intros Hk Hn. destruct k; [lia|]. by apply delete_id. Qed.

Lemma agree_refl R n v : agree R R n v.
Proof. by split. Qed.

Lemma agree_remove_disjoint R n v k u i :
  (n <= k)%nat -> anc k u n <> v -> agree R (remove R k u i) n v.
Proof. destruct k; [apply agree_insert_disjoint|apply agree_delete_disjoint]. Qed.

Lemma agree_remove_outside R n v k u i :
  (k <= n)%nat -> anc n v k <> u -> agree R (remove R k u i) n v.
Proof. destruct k; [apply agree_insert_outside|apply agree_delete_outside]. Qed.

(** A block whose best route is not the removed one keeps its routes. *)
Lemma agree_remove_other_best R n v k u i j i0 :
  (k <= n)%nat -> anc n v k = u -> best R n v = Some (j, i0) -> j <> k ->
  agree R (remove R k u i) n v.
Proof.
  intros Hk Hu Hb Hne. destruct (decide (k < j)%nat) as [Hlt|Hge].
  - destruct k; [by apply (agree_insert_hidden _ _ _ _ _ _ j i0)|by apply (agree_delete_hidden _ _ _ _ _ j i0)].
  - apply best_spec in Hb as (_ & _ & Hno). rewrite remove_absent; [apply agree_refl|lia|].
    rewrite <- Hu. apply Hno. lia.
Qed.

(** Where the removed route was the best one, its replacement takes over. *)
Lemma best_remove_here R n v k u i x i0 :
  (k <= n)%nat -> anc n v k = u -> best R n v = Some (k, i0) ->
  best (remove R k u i) k u = x -> best (remove R k u i) n v = x.
Proof.
  intros Hk Hu (_ & _ & Hno)%best_spec <-. rewrite (best_skip _ n v k), Hu; [done|done|].
  intros j Hj. rewrite remove_other; [by apply Hno|]. intros [= -> _]. lia.
Qed.

Lemma best_remove_longer R n v k u i j i0 :
  (n < k)%nat -> best R n v = Some (j, i0) -> best (remove R k u i) n v = Some (j, i0).
Proof.
  intros Hn Hb. destruct k; [lia|]. apply best_delete_other; [done|]. left.
  apply best_spec in Hb as (? & _). lia.
Qed.

Lemma no_inside_remove R n v k u i : (k <= n)%nat -> no_inside R n v -> no_inside (remove R k u i) n v.
Proof. intros Hk Hno m w Hm Hw. rewrite remove_other; [by apply Hno|]. intros [= -> ->]. lia. Qed.

(** All the children of a block have the same best route, and it is longer than the
    block: the block is tiled by copies of one more specific route. *)
Definition tiled (R : rtable) (n : nat) (v : Z) : Prop :=
  exists j i, (n < j)%nat /\ forall b, 0 <= b < 256 -> best R (8 + n) (v * 256 + b) = Some (j, i).

Definition untiled (R : rtable) : Prop := forall d v, ~ tiled R (8 * d) v.

(** Children that all have the block's own best route leave nothing inside it. *)
Lemma no_inside_children R n v j i :
  (j <= n)%nat -> (forall b, 0 <= b < 256 -> best R (8 + n) (v * 256 + b) = Some (j, i)) ->
  (forall b, 0 <= b < 256 -> no_inside R (8 + n) (v * 256 + b)) ->
  no_inside R n v /\ best R n v = Some (j, i).
Proof.
  intros Hj Hb Hc. split.
  - intros m w Hm Hw. destruct (decide (8 + n < m)%nat) as [Hlt|Hge].
    + set (c := anc m w (8 + n)).
      assert (Hcv : anc (8 + n) c n = v) by (unfold c; rewrite anc_anc by lia; done).
      unfold anc in Hcv. replace (8 + n - n)%nat with 8%nat in Hcv by lia.
      change (2 ^ Z.of_nat 8) with 256 in Hcv.
      apply (Hc (c mod 256)); [apply Z.mod_pos_bound; lia|lia|]. fold c.
      pose proof (Z.div_mod c 256). lia.
    + set (e := Z.of_nat (8 + n - m)). set (c := w * 2 ^ e).
      assert (Hw' : anc (8 + n) c m = w).
      { unfold anc, c. fold e. apply Z.div_mul. apply Z.pow_nonzero; lia. }
      assert (Hcv : c / 256 = v).
      { rewrite <- Hw, <- Hw', anc_anc by lia. unfold anc.
        replace (8 + n - n)%nat with 8%nat by lia. done. }
      destruct (proj1 (best_spec _ _ _ _ _) (Hb (c mod 256) (Z.mod_pos_bound c 256 ltac:(lia)))) as (_ & _ & Hno).
      replace (v * 256 + c mod 256) with c in Hno by (pose proof (Z.div_mod c 256); lia).
      rewrite <- Hw'. apply Hno. lia.
  - pose proof (Hb 0 ltac:(lia)) as Hb0. rewrite <- Hb0. symmetry.
    rewrite (best_skip _ (8 + n) _ n); [rewrite anc_child, anc_self by lia; done|lia|].
    apply best_spec in Hb0 as (_ & _ & Hno). intros m Hm. apply Hno. lia.
Qed.

(** ** Addresses as bytes *)

(** The number spelled by the first [d] bytes. *)
Definition pathv (bytes : list Z) (d : nat) : Z := foldl (fun a b => a * 256 + b) 0 (take d bytes).

Definition bytes_ok (bytes : list Z) (n : nat) : Prop :=
  (n <= length bytes)%nat /\ Forall (fun b => 0 <= b < 256) bytes.

(** The key of the route that a request names: its first [k] bits. *)
Definition route_key (bytes : list Z) (levels k : nat) : nat * Z :=
  (k, anc (8 * levels) (pathv bytes levels) k).

Lemma pathv_S bytes d b : bytes !! d = Some b -> pathv bytes (S d) = pathv bytes d * 256 + b.
Proof. intros Hb. unfold pathv. rewrite (take_S_r _ _ _ Hb), foldl_app. done. Qed.

Lemma bytes_ok_lookup bytes n d :
  bytes_ok bytes n -> (d < n)%nat -> exists b, bytes !! d = Some b /\ 0 <= b < 256.
Proof.
  intros [Hl Hf] Hd. destruct (lookup_lt_is_Some_2 bytes d) as [b Hb]; [lia|].
  exists b. split; [done|]. by apply (Forall_lookup_1 _ _ _ _ Hf Hb).
Qed.

Lemma pathv_anc bytes n d :
  bytes_ok bytes n -> (d <= n)%nat -> anc (8 * n) (pathv bytes n) (8 * d) = pathv bytes d.
Proof.
  intros Hok. revert d. induction n as [|n IH]; intros d Hd.
  { replace d with 0%nat by lia. apply anc_self. }
  destruct (decide (d = S n)) as [->|Hne]; [apply anc_self|].
  destruct (bytes_ok_lookup bytes (S n) n Hok) as (b & Hb & Hr); [lia|].
  rewrite (pathv_S _ _ _ Hb). replace (8 * S n)%nat with (8 + 8 * n)%nat by lia.
  rewrite anc_child by lia. apply IH; [|lia]. destruct Hok. split; [lia|done].
Qed.

End MtrieSpec.
