(* ===== verification/MtrieProofs.v ===== *)
(** * The trie implements longest prefix match

    Refinement of the operations of [Mtrie.v] against the abstract table of
    [MtrieSpec.v]: adding a route inserts it, deleting one removes it and lets the
    next shorter route show, a look-up of an address is the longest prefix match,
    and a failed allocation leaves the table as it was. *)

From S2P Require Import Prelude NhIface RouteReq Mtrie MtrieSpec Nexthop.

Module MtrieProofs.
Import Mtrie MtrieSpec.

Section proofs.
Context {NS : Type} `{NhLaws NS}.
Implicit Types s : mst NS.

(** ** State that the trie only passes through *)

Record same_m s1 s2 : Prop := {
  sm_nhs : same_nhs (ms_nhs s1) (ms_nhs s2);
  sm_fault : ms_fault s2 = ms_fault s1;
  sm_ready : ms_not_ready s2 = ms_not_ready s1;
  sm_oracle : ms_oracle s1 = [] -> ms_oracle s2 = []
}.

#[local] Instance same_m_preorder : PreOrder same_m.
Proof.
  split; [by split|]. intros s1 s2 s3 [] []. split; [by etrans|congruence..|auto].
Qed.

Lemma put_nh_same o s : same_m s (put_nh o s).
Proof. split; cbn; auto with vr. Qed.

Lemma get_nh_same rid id s : same_m s (get_nh rid id s).2 /\ (get_nh rid id s).1 = (nh_get rid id (ms_nhs s)).1.
Proof.
  pose proof (nh_get_same rid id (ms_nhs s)) as Hs. unfold get_nh.
  destruct (nh_get rid id (ms_nhs s)) as [o n]. cbn in *. split; [by split|done].
Qed.

Lemma ask_alloc_same s : same_m s (ask_alloc s).2.
Proof. split; cbn; try done. by intros ->. Qed.

Lemma count_bucket_same k s : same_m s (count_bucket k s).
Proof. by split. Qed.

Lemma free_defer_same bkt s : same_m s (mtrie_free_bkt_defer bkt s).2.
Proof.
  unfold mtrie_free_bkt_defer. pose proof (ask_alloc_same s) as Ha.
  destruct (ask_alloc s) as [[] s1]; cbn in *; [|done]. etrans; [exact Ha|]. by split.
Qed.

Hint Resolve put_nh_same ask_alloc_same count_bucket_same free_defer_same : mtrie.

Fixpoint free_entry_same (ent : ip_bucket_entry) : forall s, same_m s (mtrie_free_entry ent s).2.
Proof.
  intros s. destruct ent as [[o|[bkt|]] p f l b]; cbn; [apply put_nh_same| |done].
  etrans; [|apply count_bucket_same]. revert s.
  induction bkt as [|e es IH]; intros s; [done|].
  etrans; [apply free_entry_same|]. apply IH.
Qed.

Lemma free_bkt_same bkt s : same_m s (mtrie_free_bkt bkt s).
Proof.
  unfold mtrie_free_bkt. etrans; [|apply count_bucket_same]. revert s.
  induction bkt as [|e es IH]; intros s; [done|]. cbn. etrans; [apply free_entry_same|]. apply IH.
Qed.

Hint Resolve free_entry_same free_bkt_same : mtrie.

(** Storing a nexthop that the table lists. *)
Lemma set_entry_to_nh_live ent p s :
  nh_live (ms_nhs s) p ->
  exists s', set_entry_to_nh ent (Some p) s = (with_data (Nh (Some p)) ent, s') /\ same_m s s'.
Proof.
  intros Hl. unfold set_entry_to_nh.
  destruct (get_nh_same (nh_rid_of (ms_nhs s) p) (nh_id_of (ms_nhs s) p) s) as [Hs He].
  destruct (get_nh _ _ s) as [o s1]. cbn in *. rewrite Hl in He. subst o.
  rewrite decide_True by done. eexists. split; [done|].
  etrans; [exact Hs|]. destruct (data_of ent) as [[old|]|]; [apply put_nh_same|done..].
Qed.

Lemma same_m_live s1 s2 p : same_m s1 s2 -> nh_live (ms_nhs s1) p -> nh_live (ms_nhs s2) p.
Proof. intros [Hs _ _ _]. by apply same_nhs_live. Qed.

(** ** Loops over a bucket *)

Lemma update_entries_spec f (I : mst NS -> Prop) (P : Z -> ip_bucket_entry -> ip_bucket_entry -> Prop) idx l s :
  NoDup idx -> (forall i, i ∈ idx -> 0 <= i < zlen l) -> I s ->
  (forall i e s, i ∈ idx -> zget l i = Some e -> I s -> P i e (f e s).1 /\ I (f e s).2) ->
  let r := update_entries f idx l s in
  zlen r.1 = zlen l /\ I r.2 /\
  forall i e', zget r.1 i = Some e' ->
    exists e, zget l i = Some e /\ if decide (i ∈ idx) then P i e e' else e' = e.
Proof.
  revert l s. induction idx as [|i idx IH]; intros l s Hnd Hr Hs Hf.
  { cbn. split_and!; try done. intros i e' He. exists e'. split; [done|].
    rewrite decide_False; [done|]. apply not_elem_of_nil. }
  apply NoDup_cons in Hnd as [Hi Hnd]. cbn [update_entries].
  destruct (zget_is_Some l i) as [e He]; [apply Hr; set_solver|]. rewrite He.
  destruct (Hf i e s) as [HP HI]; [set_solver|done|done|].
  destruct (f e s) as [e1 s1]. cbn [fst snd] in HP, HI.
  destruct (IH (zset l i e1) s1) as (Hl & HI' & Hall); [done| |done| |].
  - intros j Hj. rewrite zlen_zset. apply Hr. set_solver.
  - intros j e0 s0 Hj Hz HI0. rewrite zget_zset_ne in Hz by set_solver. apply Hf; [set_solver|done|done].
  - cbn zeta. rewrite Hl, zlen_zset. split_and!; [done|done|].
    intros j e' Hj. destruct (Hall j e' Hj) as (e0 & Hz & Hc).
    destruct (decide (i = j)) as [<-|Hne].
    + rewrite decide_False in Hc by done. subst e'.
      rewrite zget_zset_eq in Hz by (by apply zget_range in He). simplify_eq.
      exists e. split; [done|]. rewrite decide_True by set_solver. done.
    + rewrite zget_zset_ne in Hz by done. exists e0. split; [done|].
      destruct (decide (j ∈ idx)); [rewrite decide_True by set_solver|rewrite decide_False by set_solver]; done.
Qed.

(** ** Tables whose nexthops exist *)

Definition routes_ok (n : NS) (R : rtable) : Prop :=
  forall key i, R !! key = Some i -> info_wf i /\ nh_live n (ri_nh i).

Lemma routes_ok_same s1 s2 R : same_m s1 s2 -> routes_ok (ms_nhs s1) R -> routes_ok (ms_nhs s2) R.
Proof. intros Hs Hok key i Hk. destruct (Hok key i Hk). eauto using same_m_live. Qed.

Lemma best_ok n R m v k i : routes_ok n R -> best R m v = Some (k, i) -> info_wf i /\ nh_live n (ri_nh i).
Proof. intros Hok (_ & Hk & _)%best_spec. by apply (Hok _ _ Hk). Qed.

(** The route a request carries to the nexthop [p]. *)
Definition info_of (rt : vr_route_req) (p : nhp) : info :=
  mk_info p (rtr_label_flags rt mod 16) (rtr_label rt mod 1048576) (u32 (rtr_index rt)).

Lemma info_of_wf rt p : info_wf (info_of rt p).
Proof.
  unfold info_wf, info_of. cbn.
  pose proof (Z.mod_pos_bound (rtr_label_flags rt) 16). pose proof (Z.mod_pos_bound (rtr_label rt) 1048576).
  pose proof (u32_range (rtr_index rt)). lia.
Qed.

Lemma leaf_is_route rt p e : leaf_is (info_of rt p) (set_route_fields rt (with_data (Nh (Some p)) e)).
Proof. done. Qed.

(** ** Buckets *)

Lemma fill_bucket_spec n parent p s :
  entry_nh_p parent = Some p -> nh_live (ms_nhs s) p ->
  0 <= entry_prefix_len parent < 256 -> 0 <= entry_label_flags parent < 16 ->
  0 <= entry_label parent < 1048576 -> 0 <= entry_bridge_index parent <= UINT_MAX ->
  (fill_bucket n parent s).1 = replicate n (with_data (Nh (Some p)) parent) /\
  same_m s (fill_bucket n parent s).2.
Proof.
  intros Hp Hl H1 H2 H3 H4. revert s Hl. induction n as [|n IH]; intros s Hl; [done|].
  cbn [fill_bucket replicate]. rewrite Hp.
  destruct (set_entry_to_nh_live (Entry (Nh None) 0 0 0 0) p s Hl) as (s1 & -> & Hs1).
  destruct (IH s1) as [E1 E2]; [by eapply same_m_live|].
  destruct (fill_bucket n parent s1) as [es s2]. cbn [fst snd] in *.
  split; [|by etrans]. rewrite E1. f_equal. destruct parent as [d a b c x]. cbn in *.
  unfold with_data, with_bridge, with_labels, with_plen. cbn.
  rewrite u8_small, u32_small, (Z.mod_small b), (Z.mod_small c) by lia. done.
Qed.

(** A leaf that turns into a bucket holds the same table. *)
Lemma split_leaf R rem d v e (l : list ip_bucket_entry) p :
  repr R (S rem) d v e -> ENTRY_IS_BUCKET e = false -> entry_nh_p e = Some p ->
  zlen l = 256 -> (forall b c, zget l b = Some c -> c = with_data (Nh (Some p)) e) ->
  repr R (S rem) d v (with_data (Bkt (Some l)) e).
Proof.
  intros (k & i & Hb & Hp & Hd) He Hnh Hl256 Hall. exists k, i. split; [done|]. split; [done|].
  destruct e as [[o|o] a f lb bi]; [|done]. cbn [ENTRY_IS_BUCKET entry_nh_p data_of] in He, Hnh, Hd. subst o.
  destruct Hd as [Hleaf Hno]. cbn [data_of with_data]. split; [done|]. intros b c Hz.
  pose proof (zget_range _ _ _ Hz) as Hbr. rewrite (Hall _ _ Hz). clear Hz.
  assert (Hb' : best R (8 * S d) (v * 256 + b) = Some (k, i)).
  { rewrite (best_skip _ _ _ (8 * d)); [|lia|].
    - replace (8 * S d)%nat with (8 + 8 * d)%nat by lia. rewrite anc_child, anc_self by lia. done.
    - intros j Hj. apply Hno; [lia|]. rewrite anc_anc by lia.
      replace (8 * S d)%nat with (8 + 8 * d)%nat by lia. rewrite anc_child, anc_self by lia. done. }
  assert (Hno' : no_inside R (8 * S d) (v * 256 + b)).
  { intros m w Hm Hw. apply Hno; [lia|]. rewrite <- (anc_anc m w (8 * S d) (8 * d)) by lia. rewrite Hw.
    replace (8 * S d)%nat with (8 + 8 * d)%nat by lia. rewrite anc_child, anc_self by lia. done. }
  destruct rem; exists k, i; done.
Qed.

Lemma NoDup_seqZ_size : NoDup (seqZ 0 IPBUCKET_LEVEL_SIZE).
Proof. apply NoDup_seqZ. Qed.

(** ** Adding a route to the entries it covers *)

Lemma add_to_tree_skip below rt ent s :
  rtr_prefix_len rt < entry_prefix_len ent -> add_to_tree below rt ent s = (ent, s).
Proof. intros Hlt%Z.ltb_lt. destruct below; cbn; by rewrite Hlt. Qed.

Lemma add_to_tree_leaf below rt ent o s :
  entry_prefix_len ent <= rtr_prefix_len rt -> data_of ent = Nh o ->
  add_to_tree below rt ent s =
    (let '(e, s1) := set_entry_to_nh (with_plen (rtr_prefix_len rt) ent) (rtr_nh rt) s in
     (set_route_fields rt e, s1)).
Proof.
  intros Hge%Z.ltb_ge Hd. destruct ent as [d a f l b]. cbn in Hd, Hge. subst d.
  destruct below; cbn; by rewrite Hge.
Qed.

Lemma add_to_tree_bucket below rt ent bkt s :
  entry_prefix_len ent <= rtr_prefix_len rt -> data_of ent = Bkt (Some bkt) ->
  add_to_tree (S below) rt ent s =
    (let '(bkt', s1) := update_entries (add_to_tree below rt) (seqZ 0 IPBUCKET_LEVEL_SIZE) bkt s in
     (with_data (Bkt (Some bkt')) (with_plen (rtr_prefix_len rt) ent), s1)).
Proof.
  intros Hge%Z.ltb_ge Hd. destruct ent as [d a f l b]. cbn in Hd, Hge. subst d.
  cbn [add_to_tree]. cbn [entry_prefix_len]. by rewrite Hge.
Qed.

Lemma repr_leaf R rem d v k i e :
  best R (8 * d) v = Some (k, i) -> entry_prefix_len e = Z.of_nat k -> leaf_is i e ->
  no_inside R (8 * d) v -> repr R rem d v e.
Proof.
  intros Hb Hp Hl Hno. destruct e as [[o|o] a f lb bi]; [|by destruct Hl].
  destruct rem; exists k, i; done.
Qed.

Lemma repr_bucket R rem d v k i e l :
  best R (8 * d) v = Some (k, i) -> entry_prefix_len e = Z.of_nat k ->
  data_of e = Bkt (Some l) -> zlen l = 256 ->
  (forall b c, zget l b = Some c -> repr R rem (S d) (v * 256 + b) c) -> repr R (S rem) d v e.
Proof. intros Hb Hp Hd Hl Hc. exists k, i. by rewrite Hd. Qed.

(** Every entry is a leaf or, while levels are left, a bucket. *)
Lemma repr_cases R rem d v e :
  repr R rem d v e ->
  exists k i, best R (8 * d) v = Some (k, i) /\ entry_prefix_len e = Z.of_nat k /\ (k <= 8 * d)%nat /\
    ((exists o, data_of e = Nh o /\ leaf_is i e /\ no_inside R (8 * d) v) \/
     (exists l rem', rem = S rem' /\ data_of e = Bkt (Some l) /\ zlen l = 256 /\
        forall b c, zget l b = Some c -> repr R rem' (S d) (v * 256 + b) c)).
Proof.
  intros Hr. pose proof Hr as Hr'.
  destruct rem; destruct Hr as (k & i & Hb & Hp & Hd); exists k, i;
    (split; [done|]); (split; [done|]); pose proof Hb as (? & _)%best_spec; (split; [done|]);
    destruct (data_of e) as [o|[l|]] eqn:E; try done; naive_solver.
Qed.

Lemma add_to_tree_spec R below d v ent rt p k u s :
  rtr_prefix_len rt = Z.of_nat k -> rtr_nh rt = Some p -> nh_live (ms_nhs s) p ->
  (k <= 8 * d)%nat -> anc (8 * d) v k = u -> (d + below <= 16)%nat ->
  repr R below d v ent ->
  repr (<[(k, u) := info_of rt p]> R) below d v (add_to_tree below rt ent s).1 /\
  same_m s (add_to_tree below rt ent s).2.
Proof.
  intros Hk Hnh. revert d v ent s. induction below as [below IH] using lt_wf_ind.
  intros d v ent s Hl Hkd Hu Hd Hrep. set (R' := <[(k, u) := info_of rt p]> R).
  pose proof (repr_cases _ _ _ _ _ Hrep) as (j & i & Hb & Hp & Hjd & Hcase).
  destruct (decide (k < j)%nat) as [Hlt|Hge].
  { rewrite add_to_tree_skip by lia. split; [|done]. apply (repr_agree R); [|done].
    by apply (agree_insert_hidden _ _ _ _ _ _ j i). }
  assert (Hb' : best R' (8 * d) v = Some (k, info_of rt p)).
  { apply (best_insert_cover R _ _ j i); [done|lia|done]. }
  assert (Hpl : u8 (Z.of_nat k) = Z.of_nat k) by (apply u8_small; lia).
  destruct Hcase as [(o & Hdat & _ & Hno)|(l & below' & -> & Hdat & Hlen & Hch)].
  - rewrite (add_to_tree_leaf _ _ _ o) by (done || lia). rewrite Hnh, Hk.
    destruct (set_entry_to_nh_live (with_plen (Z.of_nat k) ent) p s Hl) as (s1 & -> & Hs1).
    split; [|done]. apply (repr_leaf _ _ _ _ k (info_of rt p)); [done|exact Hpl|done|].
    intros m w Hm Hw. unfold R'. rewrite lookup_insert_ne by (intros [= -> ->]; lia). by apply Hno.
  - rewrite (add_to_tree_bucket _ _ _ l) by (done || lia).
    destruct (update_entries_spec (add_to_tree below' rt) (same_m s)
      (fun b _ e' => repr R' below' (S d) (v * 256 + b) e') (seqZ 0 IPBUCKET_LEVEL_SIZE) l s)
      as (Hl' & Hs' & Hall); [apply NoDup_seqZ_size| |done| |].
    + intros b Hb0%elem_of_seqZ. unfold IPBUCKET_LEVEL_SIZE in *. lia.
    + intros b e s0 Hb0%elem_of_seqZ He Hs0. unfold IPBUCKET_LEVEL_SIZE in *.
      destruct (IH below' ltac:(lia) (S d) (v * 256 + b) e s0) as [H1 H2];
        [by eapply same_m_live|lia| |lia|by apply Hch|split; [done|by etrans]].
      replace (8 * S d)%nat with (8 + 8 * d)%nat by lia. rewrite anc_child; [done|done|lia].
    + destruct (update_entries _ _ l s) as [l' s']. cbn [fst snd] in *. split; [|done].
      apply (repr_bucket _ _ _ _ k (info_of rt p) _ l'); [done| |done|lia|].
      * cbn. by rewrite Hk.
      * intros b c Hz. destruct (Hall b c Hz) as (e & _ & Hc). rewrite decide_True in Hc; [done|].
        apply elem_of_seqZ. apply zget_range in Hz. unfold IPBUCKET_LEVEL_SIZE. lia.
Qed.

(** ** New buckets *)

Lemma alloc_bucket_spec R rem d v e s :
  routes_ok (ms_nhs s) R -> repr R (S rem) d v e -> ENTRY_IS_BUCKET e = false -> (8 * d < 256)%nat ->
  let r := mtrie_alloc_bucket e s in
  same_m s r.2 /\ (ms_oracle s = [] -> is_Some r.1) /\
  match r.1 with
  | None => True
  | Some l => repr R (S rem) d v (with_data (Bkt (Some l)) e)
  end.
Proof.
  intros Hok Hrep He Hd. unfold mtrie_alloc_bucket.
  pose proof (ask_alloc_same s) as Ha. destruct (ask_alloc s) as [ok s1] eqn:Hask. cbn [snd] in Ha.
  destruct ok; cbn [fst snd].
  2: { split; [done|]. split; [|done]. intros Ho. unfold ask_alloc in Hask. by rewrite Ho in Hask. }
  pose proof Hrep as (k & i & Hb & Hp & Hdata).
  destruct e as [[o|o] a f lb bi]; [|done]. cbn [data_of] in Hdata.
  destruct Hdata as [(E1 & E2 & E3 & E4) _]. cbn in E1, E2, E3, E4, Hp.
  destruct (best_ok _ _ _ _ _ _ Hok Hb) as [(W1 & W2 & W3) Hlive].
  pose proof Hb as (Hkd & _)%best_spec.
  destruct (fill_bucket_spec (Z.to_nat IPBUCKET_LEVEL_SIZE) (Entry (Nh o) a f lb bi) (ri_nh i)
    (count_bucket 1 s1)) as [Ef Hs2]; try (cbn; lia).
  - done.
  - apply (same_m_live s1); [apply count_bucket_same|]. by apply (same_m_live s).
  - destruct (fill_bucket _ _ _) as [es s2]. cbn [fst snd] in *. split.
    { etrans; [exact Ha|]. etrans; [apply count_bucket_same|exact Hs2]. }
    split; [by eauto|]. rewrite Ef.
    apply (split_leaf _ _ _ _ _ _ (ri_nh i)); [done|done|done| |].
    + by rewrite zlen_replicate.
    + intros b c Hz. pose proof (zget_range _ _ _ Hz) as Hr. rewrite zlen_replicate in Hr.
      rewrite zget_replicate in Hz by lia. by injection Hz as <-.
Qed.

(** ** The index ranges *)

Lemma pfx_len_at_spec family level :
  0 <= level < ip_bkt_get_max_level family -> pfx_len_at family level = 8 * (level + 1).
Proof.
  unfold ip_bkt_get_max_level, pfx_len_at, ip_bkt_info_get. intros Hl.
  assert (H4 : Forall (fun l => default 0 (bi_pfx_len <$> zget (mtrie_ip_bkt_info_init IP4_PREFIX_LEN) l)
    = 8 * (l + 1)) (seqZ 0 4)) by (repeat constructor).
  assert (H6 : Forall (fun l => default 0 (bi_pfx_len <$> zget (mtrie_ip_bkt_info_init IP6_PREFIX_LEN) l)
    = 8 * (l + 1)) (seqZ 0 16)) by (repeat constructor).
  rewrite Forall_forall in H4. rewrite Forall_forall in H6.
  change (IP6_PREFIX_LEN / IPBUCKET_LEVEL_BITS) with 16 in Hl.
  change (IP4_PREFIX_LEN / IPBUCKET_LEVEL_BITS) with 4 in Hl.
  destruct (family =? AF_INET6).
  - apply H6, elem_of_seqZ. lia.
  - apply H4, elem_of_seqZ. lia.
Qed.

(** Two children of one bucket have the same [k]-bit ancestor when they fall in the
    same aligned group of [2 ^ (8 - ..)]. *)
Lemma anc_siblings d v b b' k :
  (k <= 8 * S d)%nat -> (8 * d <= k)%nat -> 0 <= b < 256 -> 0 <= b' < 256 ->
  let w := 2 ^ (Z.of_nat (8 * S d) - Z.of_nat k) in
  anc (8 * S d) (v * 256 + b) k = anc (8 * S d) (v * 256 + b') k <-> b / w = b' / w.
Proof.
  intros H1 H2 Hb Hb' w. unfold anc. rewrite Nat2Z.inj_sub by done. fold w.
  assert (Hw : exists q, 256 = q * w /\ 0 < w).
  { set (e := Z.of_nat (8 * S d) - Z.of_nat k). exists (2 ^ (8 - e)).
    assert (0 <= e <= 8) by lia. unfold w. fold e. rewrite <- Z.pow_add_r by lia.
    replace (8 - e + e) with 8 by lia. split; [done|]. apply Z.pow_pos_nonneg; lia. }
  destruct Hw as (q & Hq & Hpos). rewrite Hq.
  replace (v * (q * w) + b) with (v * q * w + b) by ring.
  replace (v * (q * w) + b') with (v * q * w + b') by ring.
  rewrite !Z.div_add_l by lia. lia.
Qed.

Lemma group_range b0 w :
  0 < w -> 0 <= b0 < 256 -> (exists q, 256 = q * w) ->
  forall b, b / w = b0 / w <-> b0 - b0 mod w <= b < b0 - b0 mod w + w.
Proof.
  intros Hw Hb0 [q Hq] b. rewrite Z.mod_eq by lia.
  pose proof (Z.div_mod b w ltac:(lia)). pose proof (Z.mod_pos_bound b w Hw).
  pose proof (Z.div_mod b0 w ltac:(lia)). pose proof (Z.mod_pos_bound b0 w Hw). nia.
Qed.

Lemma pow2_divides_256 e : 0 <= e <= 8 -> exists q, 256 = q * 2 ^ e /\ 0 < 2 ^ e <= 256.
Proof.
  intros He. exists (2 ^ (8 - e)). rewrite <- Z.pow_add_r by lia.
  replace (8 - e + e) with 8 by lia. split; [done|]. split; [apply Z.pow_pos_nonneg; lia|].
  change 256 with (2 ^ 8). apply Z.pow_le_mono_r; lia.
Qed.

(** The width of the range: the last branch of the code is the default route. *)
Lemma range_width d k :
  (k <= 8 * S d)%nat -> (8 * d < k)%nat \/ (d = 0 /\ k = 0)%nat ->
  (if (8 * (Z.of_nat d + 1) - IPBUCKET_LEVEL_BITS <? Z.of_nat k) && (Z.of_nat k <=? 8 * (Z.of_nat d + 1))
   then Z.shiftl 1 (8 * (Z.of_nat d + 1) - Z.of_nat k) else IPBUCKET_LEVEL_SIZE)
  = 2 ^ (Z.of_nat (8 * S d) - Z.of_nat k).
Proof.
  intros H1 H2. unfold IPBUCKET_LEVEL_BITS.
  destruct H2 as [H2|[-> ->]]; [|done].
  rewrite (proj2 (Z.ltb_lt _ _)), (proj2 (Z.leb_le _ _)) by lia. cbn [andb].
  rewrite Z.shiftl_1_l. f_equal. lia.
Qed.

Lemma add_range_spec d k v b0 :
  (k <= 8 * S d)%nat -> (8 * d < k)%nat \/ (d = 0 /\ k = 0)%nat -> 0 <= b0 < 256 ->
  b0 mod 2 ^ (Z.of_nat (8 * S d) - Z.of_nat k) = 0 ->
  let r := add_range (Z.of_nat k) (8 * (Z.of_nat d + 1)) b0 in
  NoDup r /\ (forall b, b ∈ r -> 0 <= b < 256) /\
  (forall b, 0 <= b < 256 ->
     b ∈ r <-> anc (8 * S d) (v * 256 + b) k = anc (8 * S d) (v * 256 + b0) k).
Proof.
  intros H1 H2 Hb0 Hal. unfold add_range. rewrite (range_width d k H1 H2).
  set (w := 2 ^ (Z.of_nat (8 * S d) - Z.of_nat k)) in *.
  destruct (pow2_divides_256 (Z.of_nat (8 * S d) - Z.of_nat k)) as (q & Hq & Hw); [lia|].
  fold w in Hq, Hw.
  assert (Hfit : b0 + w <= 256).
  { pose proof (Z.div_mod b0 w ltac:(lia)).
    assert (b0 / w < q) by (apply Z.div_lt_upper_bound; lia). nia. }
  assert (Hin : forall b, b ∈ ((fun j => u8 (b0 + j)) <$> seqZ 0 w) <-> b0 <= b < b0 + w).
  { intros b. rewrite list_elem_of_fmap. split.
    - intros (j & -> & Hj%elem_of_seqZ). rewrite u8_small; lia.
    - intros Hb. exists (b - b0). split; [rewrite u8_small; lia|]. apply elem_of_seqZ. lia. }
  cbn zeta. split_and!.
  - apply NoDup_fmap_2_strong; [|apply NoDup_seqZ].
    intros x y Hx%elem_of_seqZ Hy%elem_of_seqZ. rewrite !u8_small by lia. lia.
  - intros b. rewrite Hin. lia.
  - intros b Hb. rewrite Hin, anc_siblings by (done || lia). fold w.
    rewrite (group_range b0 w) by (eauto || lia). lia.
Qed.

Lemma del_range_spec d k v b0 :
  (k <= 8 * S d)%nat -> (8 * d < k)%nat \/ (d = 0 /\ k = 0)%nat -> 0 <= b0 < 256 ->
  let r := del_range (Z.of_nat k) (8 * (Z.of_nat d + 1)) b0 in
  NoDup r /\ (forall b, b ∈ r -> 0 <= b < 256) /\
  (forall b, 0 <= b < 256 ->
     b ∈ r <-> anc (8 * S d) (v * 256 + b) k = anc (8 * S d) (v * 256 + b0) k).
Proof.
  intros H1 H2 Hb0. set (w := 2 ^ (Z.of_nat (8 * S d) - Z.of_nat k)).
  destruct (pow2_divides_256 (Z.of_nat (8 * S d) - Z.of_nat k)) as (q & Hq & Hw); [lia|].
  fold w in Hq, Hw.
  assert (Hq0 : b0 / w < q) by (apply Z.div_lt_upper_bound; lia).
  assert (0 <= b0 / w) by (apply Z.div_pos; lia).
  assert (Hfit : b0 - b0 mod w + w <= 256).
  { pose proof (Z.div_mod b0 w ltac:(lia)). nia. }
  assert (Hr : del_range (Z.of_nat k) (8 * (Z.of_nat d + 1)) b0 = seqZ (b0 - b0 mod w) w).
  { pose proof (range_width d k H1 H2) as Hrw. fold w in Hrw. unfold del_range.
    pose proof (Z.mod_pos_bound b0 w ltac:(lia)). pose proof (Z.div_mod b0 w ltac:(lia)).
    destruct (_ && _) eqn:E.
    - rewrite Hrw. replace (Z.ldiff b0 (w - 1)) with (b0 - b0 mod w).
      + unfold IPBUCKET_LEVEL_SIZE. rewrite Z.min_l by lia. f_equal. lia.
      + unfold w.
        replace (2 ^ (Z.of_nat (8 * S d) - Z.of_nat k) - 1) with (Z.ones (Z.of_nat (8 * S d) - Z.of_nat k))
          by (rewrite Z.ones_equiv; lia).
        rewrite Z.ldiff_ones_r, Z.shiftl_mul_pow2, Z.shiftr_div_pow2 by lia. fold w. lia.
    - rewrite <- Hrw. unfold IPBUCKET_LEVEL_SIZE in *. rewrite Z.mod_small by lia.
      rewrite Z.sub_diag. done. }
  rewrite Hr. cbn zeta. pose proof (group_range b0 w ltac:(lia) Hb0 (ex_intro _ q Hq)) as Hg.
  pose proof (Z.mod_pos_bound b0 w ltac:(lia)). pose proof (Z.div_mod b0 w ltac:(lia)).
  split_and!; [apply NoDup_seqZ| |].
  - intros b Hb%elem_of_seqZ. nia.
  - intros b Hb. rewrite elem_of_seqZ, anc_siblings by (done || lia). fold w. by rewrite Hg.
Qed.

(** ** Requests *)

(** A request for a prefix of [k] bits in a family of [D] levels that was resolved
    to the nexthop [p]. *)
Record route_req (rt : vr_route_req) (D k : nat) (p : nhp) : Prop := {
  rq_levels : max_levels (rtr_family rt) = D;
  rq_plen : rtr_prefix_len rt = Z.of_nat k;
  rq_fits : (k <= 8 * D)%nat;
  rq_bytes : bytes_ok (rtr_prefix rt) D;
  rq_nh : rtr_nh rt = Some p
}.

(** The bits of the prefix after the first [k] are zero. *)
Definition canonical (rt : vr_route_req) (D k : nat) : Prop :=
  pathv (rtr_prefix rt) D mod 2 ^ (Z.of_nat (8 * D) - Z.of_nat k) = 0.

Lemma levels_bound family : (max_levels family = 4 \/ max_levels family = 16)%nat.
Proof. unfold max_levels, ip_bkt_get_max_level. destruct (family =? AF_INET6); [by right|by left]. Qed.

Lemma max_level_max_levels family : ip_bkt_get_max_level family = Z.of_nat (max_levels family).
Proof. unfold max_levels, ip_bkt_get_max_level. by destruct (family =? AF_INET6). Qed.

Section request.
Context (rt : vr_route_req) (D k : nat) (p : nhp) (Hrq : route_req rt D k p).
#[local] Notation path := (pathv (rtr_prefix rt)).
#[local] Notation u := (anc (8 * D) (path D) k).

Lemma req_pfx_len d : (d < D)%nat -> pfx_len_at (rtr_family rt) (Z.of_nat d) = Z.of_nat (8 * S d).
Proof.
  intros Hd. destruct Hrq as [Hl _ _ _ _]. rewrite pfx_len_at_spec; [lia|].
  rewrite max_level_max_levels, Hl. lia.
Qed.

Lemma req_index d :
  (d < D)%nat -> 0 <= rt_to_index rt (Z.of_nat d) < 256 /\
  path (S d) = path d * 256 + rt_to_index rt (Z.of_nat d).
Proof.
  intros Hd. destruct Hrq as [_ _ _ Hb _].
  destruct (bytes_ok_lookup _ _ d Hb Hd) as (b & Hl & Hr).
  assert (E : rt_to_index rt (Z.of_nat d) = b).
  { unfold rt_to_index, zget. rewrite decide_True by lia. by rewrite Nat2Z.id, Hl. }
  rewrite E. split; [done|]. by apply pathv_S.
Qed.

Lemma key_below d : (d < D)%nat -> (8 * S d <= k)%nat -> anc k u (8 * S d) = path (S d).
Proof.
  intros Hd Hk. destruct Hrq as [_ _ Hf Hb _]. rewrite anc_anc by lia. apply pathv_anc; [done|lia].
Qed.

Lemma key_above d : (d < D)%nat -> (k <= 8 * S d)%nat -> anc (8 * S d) (path (S d)) k = u.
Proof.
  intros Hd Hk. destruct Hrq as [_ _ Hf Hb _].
  rewrite <- (pathv_anc _ D (S d) Hb) by lia. apply anc_anc. lia.
Qed.

Lemma canonical_index d :
  canonical rt D k -> (d < D)%nat -> (8 * d <= k <= 8 * S d)%nat ->
  rt_to_index rt (Z.of_nat d) mod 2 ^ (Z.of_nat (8 * S d) - Z.of_nat k) = 0.
Proof.
  intros Hc Hd Hk. destruct (req_index d Hd) as [Hi Hp]. destruct Hrq as [_ _ Hf Hb _].
  unfold canonical in Hc.
  set (w := 2 ^ (Z.of_nat (8 * S d) - Z.of_nat k)).
  set (x := Z.of_nat (8 * D) - Z.of_nat (8 * S d)).
  assert (Hw : 0 < w) by (apply Z.pow_pos_nonneg; lia).
  assert (Hx : 0 < 2 ^ x) by (apply Z.pow_pos_nonneg; lia).
  assert (Hsplit : 2 ^ (Z.of_nat (8 * D) - Z.of_nat k) = 2 ^ x * w).
  { unfold w, x. rewrite <- Z.pow_add_r by lia. f_equal. lia. }
  rewrite Hsplit in Hc. apply Z.mod_divide in Hc as [m Hm]; [|lia].
  pose proof (pathv_anc _ D (S d) Hb ltac:(lia)) as Ha. unfold anc in Ha.
  rewrite Nat2Z.inj_sub in Ha by lia. fold x in Ha.
  rewrite Hm in Ha. replace (m * (2 ^ x * w)) with (m * w * 2 ^ x) in Ha by ring.
  rewrite Z.div_mul in Ha by lia. rewrite Hp in Ha.
  destruct (pow2_divides_256 (Z.of_nat (8 * S d) - Z.of_nat k)) as (q & Hq & _); [lia|]. fold w in Hq.
  apply Z.mod_divide; [lia|]. exists (m - path d * q).
  rewrite Z.mul_sub_distr_r. rewrite <- Z.mul_assoc, <- Hq. lia.
Qed.

(** ** Adding *)

Definition add_result (R R' : rtable) (rem d : nat) (ent : ip_bucket_entry) (err : bool) s
    (r : Z * ip_bucket_entry * mst NS) : Prop :=
  same_m s r.2 /\ (ms_oracle s = [] -> r.1.1 = 0) /\
  r.1.2 = with_data (data_of r.1.2) ent /\
  ((r.1.1 = 0 /\ repr R' rem d (path d) r.1.2) \/
   (r.1.1 = - ENOMEM /\ (err = false -> repr R rem d (path d) r.1.2))).

Lemma with_data_twice x y e : with_data x (with_data y e) = with_data x e.
Proof. done. Qed.

Lemma with_data_self e : with_data (data_of e) e = e.
Proof. by destruct e. Qed.

(** The end of the descent: the route ends in this bucket. *)
Lemma add_level_cover R rec rem d ent nh err s :
  canonical rt D k -> (S rem + d = D)%nat ->
  (k <= 8 * S d)%nat -> (8 * d < k)%nat \/ (d = 0 /\ k = 0)%nat ->
  nh_live (ms_nhs s) p -> ENTRY_IS_BUCKET ent = true -> repr R (S rem) d (path d) ent ->
  add_result R (<[(k, u) := info_of rt p]> R) (S rem) d ent err s
    (mtrie_add_level rec rem (Z.of_nat d) rt ent nh s).
Proof.
  intros Hcan HD Hk1 Hk2 Hl Hbk Hrep. pose proof Hrq as [Hlv Hpl Hf Hby Hnh].
  pose proof (repr_cases _ _ _ _ _ Hrep) as (j & i & Hb & Hp & Hjd & Hcase).
  destruct Hcase as [(o & Hdat & _)|(l & rem' & [= <-] & Hdat & Hlen & Hch)].
  { unfold ENTRY_IS_BUCKET in Hbk. by rewrite Hdat in Hbk. }
  unfold mtrie_add_level, entry_to_bucket. rewrite Hdat, req_pfx_len, Hpl by lia.
  rewrite (proj2 (Z.ltb_ge _ _)) by lia.
  destruct (req_index d ltac:(lia)) as [Hi Hpath]. set (b0 := rt_to_index rt (Z.of_nat d)) in *.
  destruct (add_range_spec d k (path d) b0 Hk1 Hk2 Hi) as (Hnd & Hrg & Hin).
  { apply canonical_index; [done|lia|lia]. }
  replace (8 * (Z.of_nat d + 1)) with (Z.of_nat (8 * S d)) in * by lia.
  set (rg := add_range (Z.of_nat k) (Z.of_nat (8 * S d)) b0) in *.
  pose proof (levels_bound (rtr_family rt)) as Hlb.
  assert (Hup : anc (8 * S d) (path d * 256 + b0) k = u) by (rewrite <- Hpath; apply key_above; lia).
  set (R' := <[(k, u) := info_of rt p]> R).
  destruct (update_entries_spec (add_to_tree rem rt) (same_m s)
    (fun b _ e' => repr R' rem (S d) (path d * 256 + b) e') rg l s) as (Hl' & Hs' & Hall);
    [done|intros; rewrite Hlen; auto|done| |].
  { intros b e s0 Hbr Hz Hs0.
    destruct (add_to_tree_spec R rem (S d) (path d * 256 + b) e rt p k u s0) as [H1 H2];
      [done|done|by eapply same_m_live|done| |lia|by apply Hch|split; [done|by etrans]].
    rewrite <- Hup. apply Hin; auto. }
  destruct (update_entries _ _ l s) as [l' s']. cbn [fst snd] in *.
  split; [done|]. split; [done|]. split; [done|]. left. split; [done|].
  assert (Hbest : exists i', best R' (8 * d) (path d) = Some (j, i')).
  { destruct Hk2 as [Hk2|[-> ->]].
    - exists i. apply best_insert_other; [done|]. left. lia.
    - replace j with 0%nat in * by lia. exists (info_of rt p).
      apply (best_insert_cover R _ _ 0 i); [done|lia|]. rewrite anc_self.
      rewrite <- (pathv_anc _ D 0 Hby) by lia. done. }
  destruct Hbest as (i' & Hbest).
  apply (repr_bucket _ _ _ _ j i' _ l'); [done|done|done|lia|].
  intros b c Hz. destruct (Hall b c Hz) as (e & He & Hc). pose proof (zget_range _ _ _ He) as Hbr.
  case_decide as Hx; [done|]. subst c. apply (repr_agree R); [|by apply Hch].
  apply agree_insert_outside; [done|]. rewrite <- Hup. intros E. apply Hx, Hin; [lia|done].
Qed.

(** The descent continues in one child. *)
Lemma add_level_descend R rec rem d ent nh err s :
  (S rem + d = D)%nat -> (8 * S d < k)%nat ->
  ENTRY_IS_BUCKET ent = true -> repr R (S rem) d (path d) ent ->
  (forall child nh', repr R rem (S d) (path (S d)) child ->
     (ENTRY_IS_NEXTHOP child = true -> nh' = entry_nh_p child) ->
     add_result R (<[(k, u) := info_of rt p]> R) rem (S d) child err s (rec child nh' s)) ->
  add_result R (<[(k, u) := info_of rt p]> R) (S rem) d ent err s
    (mtrie_add_level rec rem (Z.of_nat d) rt ent nh s).
Proof.
  intros HD Hk Hbk Hrep Hrec. pose proof Hrq as [Hlv Hpl Hf Hby Hnh].
  pose proof (repr_cases _ _ _ _ _ Hrep) as (j & i & Hb & Hp & Hjd & Hcase).
  destruct Hcase as [(o & Hdat & _)|(l & rem' & [= <-] & Hdat & Hlen & Hch)].
  { unfold ENTRY_IS_BUCKET in Hbk. by rewrite Hdat in Hbk. }
  unfold mtrie_add_level, entry_to_bucket. rewrite Hdat, req_pfx_len, Hpl by lia.
  rewrite (proj2 (Z.ltb_lt _ _)) by lia.
  destruct (req_index d ltac:(lia)) as [Hi Hpath]. set (b0 := rt_to_index rt (Z.of_nat d)) in *.
  destruct (zget_is_Some l b0) as [child Hz]; [lia|]. rewrite Hz.
  set (R' := <[(k, u) := info_of rt p]> R) in *.
  destruct (Hrec child (if ENTRY_IS_NEXTHOP child then entry_nh_p child else nh)) as (Hs & Ho & Hd & Hr).
  { rewrite Hpath. by apply Hch. }
  { by intros ->. }
  destruct (rec child _ s) as [[ret child'] s']. cbn [fst snd] in *.
  assert (Hkids : forall R1, (R1 = R \/ R1 = R') -> repr R1 rem (S d) (path (S d)) child' ->
    repr R1 (S rem) d (path d) (with_data (Bkt (Some (zset l b0 child'))) ent)).
  { intros R1 HR1 Hc'. apply (repr_bucket _ _ _ _ j i _ (zset l b0 child')); [|done|done|by rewrite zlen_zset|].
    - destruct HR1 as [-> | ->]; [done|]. apply best_insert_other; [done|]. left. lia.
    - intros b c Hbc. rewrite zget_zset in Hbc. case_decide as Hx.
      + destruct Hx as [<- _]. injection Hbc as <-. by rewrite <- Hpath.
      + pose proof (zget_range _ _ _ Hbc). assert (b <> b0) by (intros ->; apply Hx; lia).
        destruct HR1 as [-> | ->]; [by apply Hch|]. apply (repr_agree R); [|by apply Hch].
        apply agree_insert_disjoint; [lia|]. rewrite key_below by lia. rewrite Hpath. lia. }
  split; [done|]. split; [done|]. split; [done|].
  destruct Hr as [[-> Hr]|[-> Hr]]; [left|right]; (split; [done|]); [auto|]. intros He. auto.
Qed.

Lemma reset_entry_spec ent q s :
  nh_live (ms_nhs s) q ->
  (mtrie_reset_entry ent (Some q) s).1 = with_data (Nh (Some q)) ent /\
  same_m s (mtrie_reset_entry ent (Some q) s).2.
Proof.
  intros Hl. unfold mtrie_reset_entry.
  destruct (set_entry_to_nh_live ent q s Hl) as (s1 & -> & Hs1).
  destruct (entry_to_bucket ent) as [bkt|]; [|done].
  destruct (ms_not_ready s1); cbn [fst snd].
  { split; [done|]. etrans; [exact Hs1|apply free_entry_same]. }
  pose proof (free_defer_same bkt s1) as Hd.
  destruct (mtrie_free_bkt_defer bkt s1) as [ret s2]. cbn [snd] in Hd.
  destruct (ret =? 0); cbn [fst snd]; (split; [done|]).
  - by etrans.
  - etrans; [exact Hs1|]. etrans; [exact Hd|apply free_entry_same].
Qed.

(** One turn of the loop, the next ones being right. *)
Lemma add_level_spec R rem d ent nh err s :
  canonical rt D k -> (S rem + d = D)%nat -> (8 * d < k)%nat \/ d = 0%nat ->
  nh_live (ms_nhs s) p -> ENTRY_IS_BUCKET ent = true -> repr R (S rem) d (path d) ent ->
  (forall child nh', (8 * S d < k)%nat -> repr R rem (S d) (path (S d)) child ->
     (ENTRY_IS_NEXTHOP child = true -> nh' = entry_nh_p child) ->
     add_result R (<[(k, u) := info_of rt p]> R) rem (S d) child err s
       (mtrie_add_loop rem (Z.of_nat (S d)) rt err child nh' s)) ->
  add_result R (<[(k, u) := info_of rt p]> R) (S rem) d ent err s
    (mtrie_add_level (mtrie_add_loop rem (Z.of_nat d + 1) rt err) rem (Z.of_nat d) rt ent nh s).
Proof.
  intros Hc HD Hk Hl Hb Hr Hrec. replace (Z.of_nat d + 1) with (Z.of_nat (S d)) by lia.
  destruct (decide (8 * S d < k)%nat) as [Hlt|Hge].
  - apply add_level_descend; auto.
  - apply add_level_cover; try done; [lia|]. destruct Hk as [?| ->]; [by left|].
    destruct (decide (k = 0)%nat); [by right|left; lia].
Qed.

Lemma add_loop_spec R rem d ent nh err s :
  canonical rt D k -> (rem + d = D)%nat -> (8 * d < k)%nat \/ d = 0%nat ->
  nh_live (ms_nhs s) p -> routes_ok (ms_nhs s) R -> repr R rem d (path d) ent ->
  (ENTRY_IS_NEXTHOP ent = true -> nh = entry_nh_p ent) ->
  add_result R (<[(k, u) := info_of rt p]> R) rem d ent err s
    (mtrie_add_loop rem (Z.of_nat d) rt err ent nh s).
Proof.
  intros Hcan. pose proof Hrq as [Hlv Hpl Hf Hby Hnh]. pose proof (levels_bound (rtr_family rt)) as Hlb.
  revert d ent nh err s. induction rem as [|rem IH]; intros d ent nh err s HD Hk Hl Hok Hrep Hlf; [lia|].
  cbn [mtrie_add_loop]. destruct (ENTRY_IS_BUCKET ent) eqn:Hbk.
  { apply add_level_spec; try done. intros child nh' Hlt Hc Hn. apply IH; try done; lia. }
  pose proof (alloc_bucket_spec R rem d (path d) ent s Hok Hrep Hbk ltac:(lia)) as (Hs0 & Ho & Hbkt).
  pose proof (repr_cases _ _ _ _ _ Hrep) as (j & i & Hb & Hp & Hjd & Hcase).
  destruct Hcase as [(o & Hdat & Hleaf & _)|(l & ? & _ & Hdat & _)];
    [|unfold ENTRY_IS_BUCKET in Hbk; by rewrite Hdat in Hbk].
  assert (Hnhe : nh = Some (ri_nh i)).
  { rewrite Hlf by (unfold ENTRY_IS_NEXTHOP; by rewrite Hbk). apply Hleaf. }
  assert (Hself : with_data (Nh (Some (ri_nh i))) ent = ent).
  { destruct ent as [[x|x] a f lb bi]; [|done]. destruct Hleaf as (E & _). cbn in E. by subst x. }
  destruct (best_ok _ _ _ _ _ _ Hok Hb) as [_ Hlive].
  destruct (mtrie_alloc_bucket ent s) as [bkt s0]. cbn [fst snd] in *.
  unfold set_entry_to_bucket. rewrite Hdat. set (s1 := put_nh o s0).
  assert (Hs1 : same_m s s1) by (etrans; [exact Hs0|apply put_nh_same]).
  assert (Hreset : forall e2 s2, same_m s s2 -> e2 = with_data (data_of e2) ent ->
    add_result R (<[(k, u) := info_of rt p]> R) (S rem) d ent err s
      (if negb (- ENOMEM =? 0) && negb err then
         let '(ent3, s3) := mtrie_reset_entry e2 nh s2 in (- ENOMEM, ent3, s3)
       else (- ENOMEM, e2, s2)) \/ ms_oracle s = []).
  { intros e2 s2 Hs2 He2. destruct (ms_oracle s) as [|x y] eqn:Hor; [by right|left].
    assert (Hno : ms_oracle s = [] -> - ENOMEM = 0) by (by rewrite Hor).
    destruct err; cbn [negb andb Z.eqb ENOMEM Z.opp]; [split; [done|split; [done|split; [done|by right]]]|].
    destruct (reset_entry_spec e2 (ri_nh i) s2) as [E3 Hs3]; [by eapply same_m_live|].
    rewrite Hnhe. destruct (mtrie_reset_entry e2 _ s2) as [e3 s3]. cbn [fst snd] in *.
    assert (e3 = ent) as -> by (by rewrite E3, He2, with_data_twice).
    split; [by etrans|]. split; [done|]. split; [by rewrite with_data_self|by right]. }
  destruct bkt as [l|].
  - destruct (add_level_spec R rem d (with_data (Bkt (Some l)) ent) nh true s1) as (Hs2 & Ho2 & Hd2 & Hr2);
      try done; [by eapply same_m_live| |].
    { intros child nh' Hlt Hc Hn. apply IH; try done; [lia|lia|by eapply same_m_live|by eapply routes_ok_same]. }
    destruct (mtrie_add_level _ rem _ rt _ nh s1) as [[ret e2] s2]. cbn [fst snd] in *.
    assert (Hs02 : same_m s s2) by (by etrans).
    destruct Hr2 as [[-> Hr2]|[-> _]].
    + cbn [Z.eqb negb andb]. split; [done|]. split; [done|]. split; [exact Hd2|by left].
    + destruct (Hreset e2 s2 Hs02 Hd2) as [?|Hor]; [done|].
      assert (- ENOMEM = 0) by (apply Ho2, Hs1, Hor). done.
  - unfold mtrie_add_level at 1, entry_to_bucket. cbn [data_of with_data].
    destruct (Hreset (with_data (Bkt None) ent) s1 Hs1 eq_refl) as [?|Hor]; [done|].
    by destruct (Ho Hor).
Qed.

(** ** Deleting *)

#[local] Notation ri := (info_of rt p).

(** One entry of the range: replaced if the deleted route was its best. *)
Lemma delete_entry_spec R rk rem d v e s del :
  rtr_replace_plen rt = Z.of_nat rk -> (rk <= k)%nat -> nh_live (ms_nhs s) p ->
  best (remove R k u ri) k u = Some (rk, ri) ->
  (k <= 8 * d)%nat -> anc (8 * d) v k = u -> (d + rem <= 16)%nat -> repr R rem d v e ->
  (forall e1 l rem', rem = S rem' -> data_of e1 = Bkt (Some l) -> zlen l = 256 ->
     (forall b c, zget l b = Some c -> repr R rem' (S d) (v * 256 + b) c) ->
     entry_prefix_len e1 = Z.of_nat rk -> (exists i0, best R (8 * d) v = Some (k, i0)) ->
     repr (remove R k u ri) rem d v (del e1 s).1 /\ same_m s (del e1 s).2) ->
  repr (remove R k u ri) rem d v (delete_entry del rt e s).1 /\
  same_m s (delete_entry del rt e s).2.
Proof.
  intros Hrk Hrkk Hl Hbr Hkd Hu Hd Hrep Hdel. pose proof Hrq as [Hlv Hpl Hf Hby Hnh].
  pose proof (repr_cases _ _ _ _ _ Hrep) as (j & i & Hb & Hp & Hjd & Hcase).
  unfold delete_entry. rewrite Hp, Hpl. destruct (decide (j = k)) as [->|Hne].
  2: { rewrite (proj2 (Z.eqb_neq _ _)) by lia. split; [|done]. apply (repr_agree R); [|done].
       by apply (agree_remove_other_best _ _ _ _ _ _ j i). }
  rewrite Z.eqb_refl. set (e1 := with_plen _ _).
  assert (Hp1 : entry_prefix_len e1 = Z.of_nat rk) by (cbn; rewrite Hrk; apply u8_small; lia).
  destruct Hcase as [(o & Hdat & _ & Hno)|(l & rem' & -> & Hdat & Hlen & Hch)].
  - unfold ENTRY_IS_NEXTHOP, ENTRY_IS_BUCKET. cbn [e1 data_of with_plen with_labels]. rewrite Hdat. cbn [negb].
    rewrite Hnh. destruct (set_entry_to_nh_live e1 p s Hl) as (s1 & Hset & Hs1).
    fold e1. rewrite Hset. cbn [fst snd]. split; [|done].
    apply (repr_leaf _ _ _ _ rk ri); [by apply (best_remove_here _ _ _ _ _ _ _ i)|exact Hp1|done|].
    by apply no_inside_remove.
  - unfold ENTRY_IS_NEXTHOP, ENTRY_IS_BUCKET. cbn [e1 data_of with_plen with_labels]. rewrite Hdat. cbn [negb].
    fold e1. apply (Hdel e1 l rem'); eauto.
Qed.

Lemma entry_same_leaf e e' o :
  data_of e = Nh o -> entry_same e' e = true ->
  data_of e' = Nh o /\ entry_prefix_len e' = entry_prefix_len e /\
  entry_label_flags e' = entry_label_flags e /\ entry_label e' = entry_label e /\
  entry_bridge_index e' = entry_bridge_index e.
Proof.
  intros Hd. unfold entry_same. rewrite Hd. rewrite !andb_true_iff, !Z.eqb_eq.
  destruct (data_of e') as [x|[x|]]; intros [[[[Ht ?] ?] ?] ?]; try done.
  apply bool_decide_eq_true in Ht. by subst.
Qed.

Lemma entry_same_bucket e e' l : data_of e = Bkt (Some l) -> entry_same e' e = false.
Proof. intros Hd. unfold entry_same. rewrite Hd. by destruct (data_of e') as [x|[x|]]. Qed.

(** A uniform bucket is one leaf repeated. *)
Lemma bucket_uniform_leaf R rem d v l :
  zlen l = 256 -> (forall b c, zget l b = Some c -> repr R rem (S d) (v * 256 + b) c) ->
  bucket_uniform l = true ->
  exists j i, forall b, 0 <= b < 256 ->
    best R (8 + 8 * d) (v * 256 + b) = Some (j, i) /\ no_inside R (8 + 8 * d) (v * 256 + b).
Proof.
  intros Hlen Hch Hun. destruct l as [|e es]; [done|]. cbn in Hun.
  assert (Hsame : forall b c, zget (e :: es) b = Some c -> b = 0 /\ c = e \/ entry_same c e = true).
  { intros b c Hz. destruct (decide (b = 0)) as [->|]; [left; split; [done|by injection Hz]|right].
    rewrite forallb_forall in Hun. apply Hun, list_elem_of_In.
    pose proof (zget_range _ _ _ Hz). replace b with ((b - 1) + 1) in Hz by lia.
    rewrite zget_cons_succ in Hz by lia. unfold zget in Hz. rewrite decide_True in Hz by lia.
    by eapply list_elem_of_lookup_2. }
  replace (8 * S d)%nat with (8 + 8 * d)%nat in * by lia.
  pose proof (repr_cases _ _ _ _ _ (Hch 0 e eq_refl)) as (j & i & Hb & Hp & _ & Hcase).
  replace (8 * S d)%nat with (8 + 8 * d)%nat in * by lia.
  destruct Hcase as [(o & Hdat & Hleaf & Hno)|(l & ? & _ & Hdat & _)].
  2: { exfalso. destruct (zget_is_Some (e :: es) 1) as [c Hz]; [lia|].
       destruct (Hsame 1 c Hz) as [[? _]|Hs]; [done|]. by rewrite (entry_same_bucket _ _ l) in Hs. }
  exists j, i. intros b Hbr. destruct (zget_is_Some (e :: es) b) as [c Hz]; [lia|].
  destruct (Hsame b c Hz) as [[-> ->]|Hs]; [done|].
  destruct (entry_same_leaf e c o Hdat Hs) as (D1 & D2 & D3 & D4 & D5).
  pose proof (repr_cases _ _ _ _ _ (Hch b c Hz)) as (j' & i' & Hb' & Hp' & _ & Hcase').
  replace (8 * S d)%nat with (8 + 8 * d)%nat in * by lia.
  destruct Hcase' as [(o' & Hdat' & Hleaf' & Hno')|(l & ? & _ & Hdat' & _)]; [|congruence].
  split; [|done]. rewrite Hb'. f_equal. assert (j' = j) as -> by lia.
  destruct Hleaf as (L1 & L2 & L3 & L4), Hleaf' as (M1 & M2 & M3 & M4).
  unfold entry_nh_p in L1, M1. rewrite Hdat in L1. rewrite Hdat' in M1.
  destruct i, i'. cbn in *. f_equal. f_equal; congruence.
Qed.

Lemma delete_bkt_spec ent bkt s :
  nh_live (ms_nhs s) p -> data_of ent = Bkt (Some bkt) ->
  (mtrie_delete_bkt ent rt s).1 = set_route_fields rt (with_data (Nh (Some p)) ent) /\
  same_m s (mtrie_delete_bkt ent rt s).2.
Proof.
  intros Hl Hd. unfold mtrie_delete_bkt. destruct Hrq as [_ _ _ _ Hnh]. rewrite Hd, Hnh.
  destruct (set_entry_to_nh_live ent p s Hl) as (s1 & -> & Hs1).
  destruct (ms_not_ready s1); cbn [fst snd].
  { split; [done|]. etrans; [exact Hs1|apply free_bkt_same]. }
  pose proof (free_defer_same (default [] (Some bkt)) s1) as Hf.
  destruct (mtrie_free_bkt_defer _ s1) as [ret s2]. cbn [snd] in Hf.
  destruct (ret =? 0); cbn [fst snd]; (split; [done|]).
  - by etrans.
  - etrans; [exact Hs1|]. etrans; [exact Hf|apply free_bkt_same].
Qed.

(** Where the deleted prefix lies with respect to the block [v] of depth [d]. *)
Definition del_mode (R : rtable) (d : nat) (v : Z) : Prop :=
  (v = path d /\ ((8 * d < k)%nat \/ (d = 0 /\ k = 0)%nat)) \/
  ((k <= 8 * d)%nat /\ anc (8 * d) v k = u /\ exists i0, best R (8 * d) v = Some (k, i0)).

Lemma collapse_spec R rk rem d v ent l s :
  nh_live (ms_nhs s) p -> (d < D)%nat -> untiled (remove R k u ri) -> del_mode R d v ->
  best (remove R k u ri) k u = Some (rk, ri) ->
  data_of ent = Bkt (Some l) -> zlen l = 256 ->
  (forall b c, zget l b = Some c -> repr (remove R k u ri) rem (S d) (v * 256 + b) c) ->
  (exists k0 i0, best (remove R k u ri) (8 * d) v = Some (k0, i0) /\ entry_prefix_len ent = Z.of_nat k0) ->
  let r := if bucket_uniform l then mtrie_delete_bkt ent rt s else (ent, s) in
  repr (remove R k u ri) (S rem) d v r.1 /\ same_m s r.2.
Proof.
  intros Hl HdD Hunt Hmode Hbr Hdat Hlen Hch (k0 & i0 & Hb0 & Hp0). set (R' := remove R k u ri) in *.
  destruct (bucket_uniform l) eqn:Hun; cbn [fst snd].
  2: { split; [|done]. by apply (repr_bucket _ _ _ _ k0 i0 _ l). }
  destruct (delete_bkt_spec ent l s Hl Hdat) as [-> Hs]. split; [|done].
  destruct (bucket_uniform_leaf R' rem d v l Hlen Hch Hun) as (j & i & Hall).
  assert (Hj : (j <= 8 * d)%nat).
  { destruct (decide (j <= 8 * d)%nat); [done|exfalso]. apply (Hunt d v). exists j, i.
    split; [lia|]. intros b Hb. by apply Hall. }
  destruct (no_inside_children R' (8 * d) v j i Hj (fun b h => proj1 (Hall b h)) (fun b h => proj2 (Hall b h)))
    as [Hno Hbv].
  assert (Heq : best R' (8 * d) v = Some (rk, ri)).
  { destruct Hmode as [[-> [Hk|[-> Hk0]]]|(Hk & Hu & i1 & Hi1)].
    - rewrite <- Hbr. destruct Hrq as [_ _ Hf Hby _].
      assert (Hau : anc k u (8 * d) = path d) by (rewrite anc_anc by lia; apply pathv_anc; [done|lia]).
      rewrite (best_skip R' k u (8 * d)); [by rewrite Hau|lia|].
      intros m Hm. apply Hno; [lia|]. rewrite anc_anc by lia. done.
    - rewrite <- Hbr. destruct Hrq as [_ _ Hf Hby _]. rewrite Hk0.
      rewrite <- (pathv_anc _ D 0 Hby) by lia. done.
    - by apply (best_remove_here _ _ _ _ _ _ _ i1). }
  apply (repr_leaf _ _ _ _ rk ri); [done| |done|done].
  cbn. rewrite Hp0. rewrite Hb0 in Heq. by injection Heq as -> _.
Qed.

(** The range covers the children that the deleted prefix covers. *)
Lemma del_range_mode R d v :
  (d < D)%nat -> (k <= 8 * S d)%nat -> del_mode R d v ->
  let r := del_range (Z.of_nat k) (Z.of_nat (8 * S d)) (rt_to_index rt (Z.of_nat d)) in
  NoDup r /\ (forall b, b ∈ r -> 0 <= b < 256) /\
  (forall b, 0 <= b < 256 -> b ∈ r <-> anc (8 * S d) (v * 256 + b) k = u).
Proof.
  intros Hd Hk Hmode. destruct (req_index d Hd) as [Hi Hpath].
  replace (Z.of_nat (8 * S d)) with (8 * (Z.of_nat d + 1)) by lia.
  destruct Hmode as [[-> Hk2]|(Hk2 & Hu & _)].
  - destruct (del_range_spec d k (path d) _ Hk Hk2 Hi) as (Hnd & Hrg & Hin). split_and!; [done|done|].
    intros b Hb. rewrite Hin by done. rewrite <- Hpath. by rewrite key_above.
  - unfold del_range, IPBUCKET_LEVEL_BITS.
    rewrite (proj2 (Z.ltb_ge (8 * (Z.of_nat d + 1) - 8) (Z.of_nat k))) by lia. cbn [andb].
    change (Z.min (IPBUCKET_LEVEL_SIZE + 0) IPBUCKET_LEVEL_SIZE - 0) with 256.
    split_and!; [apply NoDup_seqZ|intros b Hb%elem_of_seqZ; lia|].
    intros b Hb. rewrite elem_of_seqZ. replace (8 * S d)%nat with (8 + 8 * d)%nat by lia.
    rewrite anc_child by lia. split; [done|lia].
Qed.

(** A child that is not a bucket is not descended into. *)
Lemma delete_leaf rem level ent o s : data_of ent = Nh o -> __mtrie_delete rem level rt ent s = (ent, s).
Proof. intros Hd. destruct rem; [done|]. cbn. by rewrite Hd. Qed.

(** What the recursive call has to do for a child bucket. *)
Definition del_correct (R : rtable) (rk rem d : nat) s (del : ip_bucket_entry -> mst NS -> ip_bucket_entry * mst NS) : Prop :=
  (forall e o s1, data_of e = Nh o -> del e s1 = (e, s1)) /\
  forall v e l rem1 s1, same_m s s1 -> rem = S rem1 -> data_of e = Bkt (Some l) -> zlen l = 256 ->
    (forall b c, zget l b = Some c -> repr R rem1 (S (S d)) (v * 256 + b) c) ->
    (exists k0 i0, best (remove R k u ri) (8 * S d) v = Some (k0, i0) /\ entry_prefix_len e = Z.of_nat k0) ->
    del_mode R (S d) v ->
    repr (remove R k u ri) rem (S d) v (del e s1).1 /\ same_m s1 (del e s1).2.

Lemma delete_children_spec R rk rem d v l s del :
  rtr_replace_plen rt = Z.of_nat rk -> (rk <= k)%nat -> nh_live (ms_nhs s) p ->
  best (remove R k u ri) k u = Some (rk, ri) ->
  (S rem + d = D)%nat -> zlen l = 256 ->
  (forall b c, zget l b = Some c -> repr R rem (S d) (v * 256 + b) c) ->
  del_mode R d v -> del_correct R rk rem d s del ->
  let r := delete_children del (Z.of_nat d) rt l s in
  zlen r.1 = 256 /\ same_m s r.2 /\
  forall b c, zget r.1 b = Some c -> repr (remove R k u ri) rem (S d) (v * 256 + b) c.
Proof.
  intros Hrk Hrkk Hlv Hbr HD Hlen Hch Hmode [Hdl Hdb]. pose proof Hrq as [Hlev Hpl Hf Hby Hnh].
  pose proof (levels_bound (rtr_family rt)) as Hlb. set (R' := remove R k u ri) in *.
  destruct (req_index d ltac:(lia)) as [Hi Hpath]. set (b0 := rt_to_index rt (Z.of_nat d)) in *.
  unfold delete_children. fold b0. rewrite req_pfx_len, Hpl by lia.
  destruct (decide (8 * S d < k)%nat) as [Hlt|Hge].
  - rewrite (proj2 (Z.ltb_lt _ _)) by lia.
    destruct Hmode as [[-> _]|(? & _)]; [|lia].
    destruct (update_entries_spec del (same_m s)
      (fun b _ e' => b = b0 -> repr R' rem (S d) (path (S d)) e') [b0] l s) as (Hl1 & Hs1 & Hall);
      [apply NoDup_singleton|intros i ->%list_elem_of_singleton; lia|done| |].
    { intros i e s0 ->%list_elem_of_singleton Hz Hs0.
      pose proof (Hch _ _ Hz) as Hre. rewrite <- Hpath in Hre.
      pose proof (repr_cases _ _ _ _ _ Hre) as (j & i & Hb & Hp & Hjd & Hcase).
      destruct Hcase as [(o & Hdat & _ & Hno)|(l1 & rem1 & Er & Hdat & Hlen1 & Hch1)].
      - rewrite (Hdl e o s0 Hdat). cbn [fst snd]. split; [|done]. intros _. unfold R'.
        rewrite remove_absent; [done|lia|]. apply Hno; [lia|]. apply key_below; lia.
      - destruct (Hdb (path (S d)) e l1 rem1 s0) as [H1 H2]; try done.
        + exists j, i. split; [|done]. apply best_remove_longer; [lia|done].
        + left. split; [done|by left].
        + split; [done|by etrans]. }
    cbn zeta. rewrite Hl1. split_and!; [done|done|]. intros b c Hz.
    destruct (Hall b c Hz) as (e & He & Hc). pose proof (zget_range _ _ _ He).
    case_decide as Hx; [apply list_elem_of_singleton in Hx as ->; rewrite <- Hpath; auto|subst c].
    apply (repr_agree R); [|by apply Hch]. apply agree_remove_disjoint; [lia|].
    rewrite key_below by lia. rewrite Hpath. intros E. apply Hx, list_elem_of_singleton. lia.
  - rewrite (proj2 (Z.ltb_ge _ _)) by lia.
    destruct (del_range_mode R d v) as (Hnd & Hrg & Hin); [lia|lia|done|]. fold b0 in Hnd, Hrg, Hin.
    set (rg := del_range _ _ b0) in *.
    destruct (update_entries_spec (delete_entry del rt) (same_m s)
      (fun b _ e' => repr R' rem (S d) (v * 256 + b) e') rg l s) as (Hl1 & Hs1 & Hall);
      [done|intros; rewrite Hlen; auto|done| |].
    { intros b e s0 Hbr' Hz Hs0.
      destruct (delete_entry_spec R rk rem (S d) (v * 256 + b) e s0 del) as [H1 H2];
        [done|done|by eapply same_m_live|done|lia|apply Hin; auto|lia|by apply Hch| |split; [done|by etrans]].
      intros e1 l1 rem1 Er Hdat Hlen1 Hch1 Hp1 [i0 Hi0].
      assert (Hcov : anc (8 * S d) (v * 256 + b) k = u) by (apply Hin; auto).
      apply (Hdb (v * 256 + b) e1 l1 rem1); try done.
      - exists rk, ri. split; [|done]. apply (best_remove_here _ _ _ _ _ _ _ i0); [lia|done|done|done].
      - right. split; [lia|]. split; [done|by exists i0]. }
    cbn zeta. rewrite Hl1. split_and!; [done|done|]. intros b c Hz.
    destruct (Hall b c Hz) as (e & He & Hc). pose proof (zget_range _ _ _ He).
    case_decide as Hx; [done|subst c]. apply (repr_agree R); [|by apply Hch].
    apply agree_remove_outside; [lia|]. intros E. apply Hx, Hin; [lia|done].
Qed.

Lemma delete_spec R rk rem d v ent l s :
  rtr_replace_plen rt = Z.of_nat rk -> (rk <= k)%nat -> nh_live (ms_nhs s) p ->
  untiled (remove R k u ri) -> best (remove R k u ri) k u = Some (rk, ri) ->
  (S rem + d = D)%nat -> data_of ent = Bkt (Some l) -> zlen l = 256 ->
  (forall b c, zget l b = Some c -> repr R rem (S d) (v * 256 + b) c) ->
  (exists k0 i0, best (remove R k u ri) (8 * d) v = Some (k0, i0) /\ entry_prefix_len ent = Z.of_nat k0) ->
  del_mode R d v ->
  let r := __mtrie_delete (S rem) (Z.of_nat d) rt ent s in
  repr (remove R k u ri) (S rem) d v r.1 /\ same_m s r.2.
Proof.
  intros Hrk Hrkk Hlv Hunt Hbr. revert d v ent l s Hlv.
  induction rem as [rem IH] using lt_wf_ind. intros d v ent l s Hlv HD Hdat Hlen Hch Hplen Hmode.
  cbn [__mtrie_delete]. rewrite Hdat. replace (Z.of_nat d + 1) with (Z.of_nat (S d)) by lia.
  destruct (delete_children_spec R rk rem d v l s (__mtrie_delete rem (Z.of_nat (S d)) rt)) as (Hl1 & Hs1 & Hc1);
    try done.
  { split; [intros e o s1 He; by apply (delete_leaf _ _ _ o)|].
    intros v1 e1 l1 rem1 s1 Hs -> Hd1 Hlen1 Hch1 Hp1 Hm1.
    apply (IH rem1 ltac:(lia) (S d) v1 e1 l1 s1); try done; [by eapply same_m_live|lia]. }
  destruct (delete_children _ _ rt l s) as [l1 s1]. cbn [fst snd] in *.
  destruct (collapse_spec R rk rem d v (with_data (Bkt (Some l1)) ent) l1 s1) as [H1 H2];
    [by eapply same_m_live|lia|done|done|done|done|done|done|done|].
  split; [exact H1|]. by etrans.
Qed.

(** The whole deletion, from the root. *)
Lemma delete_root_spec R rk root s :
  rtr_replace_plen rt = Z.of_nat rk -> (rk <= k)%nat -> nh_live (ms_nhs s) p ->
  untiled (remove R k u ri) -> best (remove R k u ri) k u = Some (rk, ri) ->
  (0 < k)%nat \/ ENTRY_IS_BUCKET root = true -> repr R D 0 0 root ->
  repr (remove R k u ri) D 0 0 (__mtrie_delete D 0 rt root s).1 /\
  same_m s (__mtrie_delete D 0 rt root s).2.
Proof.
  intros Hrk Hrkk Hl Hunt Hbest Hdef Hm. pose proof Hrq as [_ _ Hf Hby _].
  pose proof (repr_cases _ _ _ _ _ Hm) as (j & i & Hb & Hp & Hjd & Hcase).
  pose proof (pathv_anc _ D 0 Hby ltac:(lia)) as Hz.
  destruct Hcase as [(o & Hdat & Hleaf & Hno)|(l & rem & Erem & Hdat & Hlen & Hch)].
  - rewrite (delete_leaf _ _ _ o) by done. split; [|done].
    destruct Hdef as [Hk|Hbk]; [|unfold ENTRY_IS_BUCKET in Hbk; by rewrite Hdat in Hbk].
    rewrite remove_absent; [done|done|]. apply Hno; [lia|]. rewrite anc_anc by lia. exact Hz.
  - assert (Hplen : exists k0 i0, best (remove R k u ri) (8 * 0) 0 = Some (k0, i0) /\
      entry_prefix_len root = Z.of_nat k0).
    { destruct (decide (k = 0)%nat) as [Hk0|Hk0].
      - exists rk, ri. assert (rk = j) as -> by lia. split; [|done].
        rewrite <- Hbest, Hk0. change (8 * 0)%nat with 0%nat in Hz. by rewrite Hz.
      - exists j, i. split; [|done]. apply best_remove_longer; [lia|done]. }
    assert (Hmode : del_mode R 0 0).
    { left. split; [done|]. destruct (decide (k = 0)%nat); [by right|left; lia]. }
    pose proof (delete_spec R rk rem 0 0 root l s Hrk Hrkk Hl Hunt Hbest ltac:(lia) Hdat Hlen Hch Hplen Hmode)
      as Hd. rewrite <- Erem in Hd. exact Hd.
Qed.

End request.

(** ** Looking up *)

(** The request as a look-up leaves it: what the route says, and its length. *)
Definition answer (k : nat) (i : info) (rt : vr_route_req) : vr_route_req :=
  with_nh (Some (ri_nh i)) (with_index (ri_index i)
    (with_label (ri_flags i) (ri_label i) (with_prefix (rtr_prefix rt) (Z.of_nat k) rt))).

(** A request for the whole address. *)
Record lookup_req (rt : vr_route_req) (D : nat) : Prop := {
  lq_levels : max_levels (rtr_family rt) = D;
  lq_plen : rtr_prefix_len rt = Z.of_nat (8 * D);
  lq_bytes : bytes_ok (rtr_prefix rt) D
}.

Lemma lookup_limit_pos plen pfx_len : 0 <= plen <= 128 -> 0 <= pfx_len - plen <= 8 \/ pfx_len < plen ->
  1 <= lookup_limit plen pfx_len.
Proof.
  intros Hp Hd. unfold lookup_limit. destruct (pfx_len <? plen) eqn:E; [done|].
  apply Z.ltb_ge in E. destruct Hd as [Hd|]; [|lia]. rewrite Z.shiftl_1_l.
  destruct (pow2_divides_256 (pfx_len - plen) Hd) as (_ & _ & Hw). rewrite u32_small; lia.
Qed.

Lemma __lookup_spec R rt D rem d l v :
  lookup_req rt D -> (S rem + d = D)%nat -> v = pathv (rtr_prefix rt) d -> zlen l = 256 ->
  (forall b c, zget l b = Some c -> repr R rem (S d) (v * 256 + b) c) ->
  exists k i, best R (8 * D) (pathv (rtr_prefix rt) D) = Some (k, i) /\
    __mtrie_lookup (S rem) (Z.of_nat d) (Some l) rt = (Some (ri_nh i), answer k i rt).
Proof.
  intros Hlq. pose proof Hlq as [Hlv Hpl Hby]. pose proof (levels_bound (rtr_family rt)) as Hlb.
  assert (Hrq : route_req (with_nh (Some 0) rt) D (8 * D) 0) by (split; [done|done|lia|done|done]).
  revert d l v. induction rem as [rem IH] using lt_wf_ind. intros d l v HD -> Hlen Hch.
  cbn [__mtrie_lookup].
  destruct (req_index _ _ _ _ Hrq d ltac:(lia)) as [Hi Hpath].
  pose proof (req_pfx_len _ _ _ _ Hrq d ltac:(lia)) as Hpfx. cbn [rtr_prefix rtr_family with_nh] in Hpath, Hpfx.
  change (rt_to_index (with_nh (Some 0) rt)) with (rt_to_index rt) in Hi, Hpath.
  set (b0 := rt_to_index rt (Z.of_nat d)) in *. rewrite Hpfx, Hpl.
  assert (Hlim : 1 <= lookup_limit (Z.of_nat (8 * D)) (Z.of_nat (8 * S d))) by (apply lookup_limit_pos; lia).
  set (lim := lookup_limit _ _) in *.
  replace (seqZ 0 IPBUCKET_LEVEL_SIZE) with (0 :: seqZ 1 255) by done. cbn [lookup_loop].
  rewrite Z.add_0_r. replace (b0 mod IPBUCKET_LEVEL_SIZE) with b0 by (symmetry; by apply Z.mod_small).
  destruct (zget_is_Some l b0) as [c Hz]; [lia|]. rewrite Hz.
  pose proof (Hch _ _ Hz) as Hre. rewrite <- Hpath in Hre.
  pose proof (repr_cases _ _ _ _ _ Hre) as (j & i & Hb & Hp & Hjd & Hcase).
  destruct Hcase as [(o & Hdat & Hleaf & Hno)|(l1 & rem1 & -> & Hdat & Hlen1 & Hch1)]; rewrite Hdat.
  - rewrite (proj2 (Z.leb_gt lim 0)) by lia. cbn [andb]. rewrite Hpl, Hp.
    rewrite (proj2 (Z.ltb_ge _ _)) by lia. exists j, i. split.
    + rewrite (best_skip R (8 * D) _ (8 * S d)); [|lia|].
      * rewrite pathv_anc by (done || lia). done.
      * intros m Hm. apply Hno; [lia|]. rewrite anc_anc by lia. apply pathv_anc; [done|lia].
    + destruct Hleaf as (L1 & L2 & L3 & L4). unfold entry_nh_p in L1. rewrite Hdat in L1. subst o.
      unfold take_entry, answer. by rewrite Hp, L2, L3, L4.
  - destruct (IH rem1 ltac:(lia) (S d) l1 _ ltac:(lia) eq_refl Hlen1 Hch1) as (k & i' & Hb' & Hlook).
    exists k, i'. split; [done|]. replace (Z.of_nat d + 1) with (Z.of_nat (S d)) by lia. by rewrite Hlook.
Qed.

(** ** The tables of the VRFs *)

(** A VRF without a trie behaves as one whose only route is the default to the
    discard nexthop. *)
Definition fresh_table (pd : nhp) : rtable :=
  {[ (0%nat, 0) := mk_info pd 0 MTRIE_INVALID_LABEL VR_BE_INVALID_INDEX ]}.

Definition vrf_holds (n : NS) (t : vrf_tables) (vrf family : Z) (R : rtable) : Prop :=
  0 <= vrf < vr_vrfs t /\ zlen (vn_rtable family t) = vr_vrfs t /\
  match vrfid_to_mtrie vrf family t with
  | Some root => repr R (max_levels family) 0 0 root
  | None => exists pd, (nh_get 0 NH_DISCARD_ID n).1 = Some pd /\ R = fresh_table pd
  end.

Lemma vrfid_in t vrf family :
  0 <= vrf < vr_vrfs t -> vrfid_to_mtrie vrf family t = default None (zget (vn_rtable family t) vrf).
Proof. intros Hv. unfold vrfid_to_mtrie. by rewrite (proj2 (Z.leb_gt _ _)) by lia. Qed.

Lemma vn_rtable_set f l t : vn_rtable f (set_vn_rtable f l t) = l.
Proof. unfold vn_rtable, set_vn_rtable. by destruct (f =? AF_INET6). Qed.

Lemma vr_vrfs_set f l t : vr_vrfs (set_vn_rtable f l t) = vr_vrfs t.
Proof. unfold set_vn_rtable. by destruct (f =? AF_INET6). Qed.

(** Storing a root in its slot. *)
Lemma vrf_store n t vrf family root R :
  0 <= vrf < vr_vrfs t -> zlen (vn_rtable family t) = vr_vrfs t ->
  repr R (max_levels family) 0 0 root ->
  vrf_holds n (set_vn_rtable family (zset (vn_rtable family t) vrf (Some root)) t) vrf family R.
Proof.
  intros Hv Hl Hr. unfold vrf_holds. rewrite vr_vrfs_set, vn_rtable_set, zlen_zset.
  split; [done|]. split; [done|]. rewrite vrfid_in by (by rewrite vr_vrfs_set).
  rewrite vn_rtable_set, zget_zset_eq by lia. done.
Qed.

Lemma vrf_store_other t vrf family root vrf' :
  vrf' <> vrf ->
  vrfid_to_mtrie vrf' family (set_vn_rtable family (zset (vn_rtable family t) vrf root) t) =
  vrfid_to_mtrie vrf' family t.
Proof.
  intros Hne. unfold vrfid_to_mtrie. rewrite vr_vrfs_set, vn_rtable_set.
  by rewrite zget_zset_ne by done.
Qed.

(** A fresh root holds the fresh table. *)
Lemma fresh_root rem pd :
  repr (fresh_table pd) rem 0 0 (Entry (Nh (Some pd)) 0 0 MTRIE_INVALID_LABEL VR_BE_INVALID_INDEX).
Proof.
  apply (repr_leaf _ _ _ _ 0 (mk_info pd 0 MTRIE_INVALID_LABEL VR_BE_INVALID_INDEX)); [|done|done|].
  - cbn. unfold fresh_table. by rewrite lookup_singleton_eq.
  - intros m w Hm _. unfold fresh_table. rewrite lookup_singleton_ne; [done|]. intros [= <- _]. lia.
Qed.

(** The trie a request works on: the VRF's, or a new one. *)
Lemma open_vrf n t vrf family R s :
  vrf_holds n t vrf family R -> same_nhs n (ms_nhs s) ->
  let '(m, t1, s1) :=
    match vrfid_to_mtrie vrf family t with
    | Some m => (Some m, t, s)
    | None => mtrie_alloc_vrf vrf family t s
    end in
  same_m s s1 /\ (ms_oracle s = [] -> is_Some m) /\ vrf_holds n t1 vrf family R /\
  (forall vrf', vrf' <> vrf -> vrfid_to_mtrie vrf' family t1 = vrfid_to_mtrie vrf' family t) /\
  match m with
  | Some root => repr R (max_levels family) 0 0 root
  | None => True
  end.
Proof.
  intros (Hv & Hl & Hr) Hn. destruct (vrfid_to_mtrie vrf family t) as [root|] eqn:Ht.
  { split; [done|]. split; [by eauto|]. split; [|done]. split; [done|]. split; [done|]. by rewrite Ht. }
  destruct Hr as (pd & Hpd & ->). unfold mtrie_alloc_vrf.
  pose proof (ask_alloc_same s) as Ha. destruct (ask_alloc s) as [ok s1] eqn:Hask. cbn [snd] in Ha.
  destruct ok.
  - destruct (get_nh_same 0 NH_DISCARD_ID s1) as [Hs2 Hg]. destruct (get_nh 0 NH_DISCARD_ID s1) as [o s2].
    cbn [fst snd] in *.
    assert (Ho : o = Some pd).
    { rewrite Hg, (same_lookup _ _ (sm_nhs _ _ Ha)), (same_lookup _ _ Hn). done. }
    clear Hg; subst o. pose proof (fresh_root (max_levels family) pd) as Hf.
    split; [by etrans|]. split; [by eauto|]. split; [apply vrf_store; [exact Hv|exact Hl|exact Hf]|]. split; [|done].
    intros vrf' Hne. by apply vrf_store_other.
  - split; [done|]. split; [intros Ho; unfold ask_alloc in Hask; by rewrite Ho in Hask|].
    split; [|done]. split; [done|]. split; [done|]. rewrite Ht. eauto.
Qed.

Section tables.
Variable bridge : Z -> vr_route_req -> option nhp * vr_route_req.

(** A well formed request to change a route: a prefix of [k] bits with the bits
    after it zero, a nexthop [p] that exists, and a bridge index for its MAC. *)
Record change_req (n : NS) (rt : vr_route_req) (k : nat) (p index : Z) : Prop := {
  cr_plen : rtr_prefix_len rt = Z.of_nat k;
  cr_fits : (k <= 8 * max_levels (rtr_family rt))%nat;
  cr_bytes : bytes_ok (rtr_prefix rt) (max_levels (rtr_family rt));
  cr_canon : canonical rt (max_levels (rtr_family rt)) k;
  cr_nh : (nh_get (rtr_rid rt) (rtr_nh_id rt) n).1 = Some p;
  cr_index : req_bridge_index bridge rt = Some index
}.

Definition req_info (rt : vr_route_req) (p index : Z) : info :=
  mk_info p (rtr_label_flags rt mod 16) (req_label rt) (u32 index).

Lemma req_label_small rt : req_label rt mod 1048576 = req_label rt.
Proof.
  unfold req_label. destruct (label_valid _); [|done].
  change 1048575 with (Z.ones 20). rewrite Z.land_ones by lia. change (2 ^ 20) with 1048576. by rewrite Z.mod_mod.
Qed.

(** The request as the two operations hand it to the trie. *)
Lemma change_req_route n rt k p index :
  change_req n rt k p index ->
  let rt1 := with_label (rtr_label_flags rt) (req_label rt) (with_index index (with_nh (Some p) rt)) in
  route_req rt1 (max_levels (rtr_family rt)) k p /\ canonical rt1 (max_levels (rtr_family rt)) k /\
  info_of rt1 p = req_info rt p index.
Proof.
  intros [H1 H2 H3 H4 H5 H6] rt1. split; [by split|]. split; [done|].
  unfold info_of, req_info. cbn. by rewrite req_label_small.
Qed.

Definition key_of (rt : vr_route_req) (k : nat) : nat * Z :=
  route_key (rtr_prefix rt) (max_levels (rtr_family rt)) k.

(** Adding a route inserts exactly that route: after [mtrie_add] the trie holds
    the table with the route inserted, or, when memory for a bucket or for the trie
    itself could not be had, the table as it was, with [-ENOMEM].  The other VRFs
    are left alone. *)
Lemma mtrie_add_refines rt k p index t s R :
  change_req (ms_nhs s) rt k p index -> nh_table_ok (ms_nhs s) ->
  label_valid (rtr_label_flags rt) = true \/ nh_type_of (ms_nhs s) p <> NH_TUNNEL ->
  vrf_holds (ms_nhs s) t (rtr_vrf_id rt) (rtr_family rt) R -> routes_ok (ms_nhs s) R ->
  let '(ret, t', s') := mtrie_add bridge rt t s in
  ((ret = 0 /\ vrf_holds (ms_nhs s) t' (rtr_vrf_id rt) (rtr_family rt)
                 (<[key_of rt k := req_info rt p index]> R)) \/
   (ret = - ENOMEM /\ vrf_holds (ms_nhs s) t' (rtr_vrf_id rt) (rtr_family rt) R)) /\
  (ms_oracle s = [] -> ret = 0) /\ same_m s s' /\
  (forall vrf', vrf' <> rtr_vrf_id rt ->
     vrfid_to_mtrie vrf' (rtr_family rt) t' = vrfid_to_mtrie vrf' (rtr_family rt) t).
Proof.
  intros Hreq Htab Hlab Hvrf Hok. pose proof Hreq as [_ _ _ _ Hnh Hidx].
  unfold mtrie_add. pose proof (open_vrf _ _ _ _ _ s Hvrf ltac:(done)) as Hopen.
  destruct (match vrfid_to_mtrie _ _ t with Some _ => _ | None => _ end) as [[m t1] s1].
  destruct Hopen as (Hs1 & Hor & Hv1 & Hoth & Hm). destruct m as [root|].
  2: { split; [by right|]. split; [intros Ho; by destruct (Hor Ho)|done]. }
  destruct (get_nh_same (rtr_rid rt) (rtr_nh_id rt) s1) as [Hs2 Hg].
  destruct (get_nh (rtr_rid rt) (rtr_nh_id rt) s1) as [o s2]. cbn [fst snd] in *.
  rewrite (same_lookup _ _ (sm_nhs _ _ Hs1)), Hnh in Hg. subst o.
  assert (Hs02 : same_m s s2) by (by etrans).
  rewrite (same_type _ _ (sm_nhs _ _ Hs02)).
  assert (Hno : negb (label_valid (rtr_label_flags rt)) && (nh_type_of (ms_nhs s) p =? NH_TUNNEL) = false).
  { apply andb_false_iff. destruct Hlab as [-> |Hl]; [by left|right; by apply Z.eqb_neq]. }
  rewrite Hno, Hidx. destruct (change_req_route _ _ _ _ _ Hreq) as (Hrq & Hcan & Hinfo).
  set (rt1 := with_label _ _ _) in *.
  assert (Hlive : nh_live (ms_nhs s2) p).
  { apply (same_m_live s); [done|]. by eapply nh_get_live. }
  pose proof (add_loop_spec rt1 _ k p Hrq R (max_levels (rtr_family rt)) 0 root (entry_nh_p root) false s2
    Hcan ltac:(lia) ltac:(by right) Hlive (routes_ok_same _ _ _ Hs02 Hok) Hm ltac:(done)) as Hadd.
  unfold __mtrie_add. change (rtr_family rt1) with (rtr_family rt). change (Z.of_nat 0) with 0 in Hadd.
  destruct (mtrie_add_loop _ 0 rt1 false root _ s2) as [[ret root'] s3].
  destruct Hadd as (Hs3 & Ho3 & _ & Hr). cbn [fst snd] in *. rewrite Hinfo in Hr.
  destruct Hv1 as (Hv & Hl & _).
  split; [|split; [|split]].
  - destruct Hr as [[-> Hr]|[-> Hr]]; [left|right]; (split; [done|]); apply vrf_store; auto.
  - intros Ho. by apply Ho3, Hs02.
  - etrans; [exact Hs02|]. etrans; [exact Hs3|apply put_nh_same].
  - intros vrf' Hne. rewrite vrf_store_other by done. auto.
Qed.

(** Deleting a route removes exactly that route and lets the best of the
    remaining ones show, when the request names that route as the replacement and no
    block is left tiled by copies of one more specific route.  (The default route can
    be replaced only while the root is a bucket.) *)
Lemma mtrie_delete_refines rt k p index rk t s R root :
  change_req (ms_nhs s) rt k p index -> nh_table_ok (ms_nhs s) ->
  vrfid_to_mtrie (rtr_vrf_id rt) (rtr_family rt) t = Some root ->
  (0 < k)%nat \/ ENTRY_IS_BUCKET root = true ->
  vrf_holds (ms_nhs s) t (rtr_vrf_id rt) (rtr_family rt) R ->
  rtr_replace_plen rt = Z.of_nat rk ->
  let R' := remove R k (key_of rt k).2 (req_info rt p index) in
  best R' k (key_of rt k).2 = Some (rk, req_info rt p index) -> untiled R' ->
  let '(ret, t', s') := mtrie_delete bridge rt t s in
  ret = 0 /\ vrf_holds (ms_nhs s) t' (rtr_vrf_id rt) (rtr_family rt) R' /\ same_m s s' /\
  (forall vrf', vrf' <> rtr_vrf_id rt ->
     vrfid_to_mtrie vrf' (rtr_family rt) t' = vrfid_to_mtrie vrf' (rtr_family rt) t).
Proof.
  intros Hreq Htab Hroot Hdef Hvrf Hrk R' Hbest Hunt. pose proof Hreq as [_ _ _ _ Hnh Hidx].
  unfold mtrie_delete. rewrite Hroot.
  destruct Hvrf as (Hv & Hl & Hm). rewrite Hroot in Hm.
  destruct (get_nh_same (rtr_rid rt) (rtr_nh_id rt) s) as [Hs1 Hg].
  destruct (get_nh (rtr_rid rt) (rtr_nh_id rt) s) as [o s1]. cbn [fst snd] in *.
  rewrite Hnh in Hg. subst o. rewrite Hidx.
  destruct (change_req_route _ _ _ _ _ Hreq) as (Hrq & Hcan & Hinfo).
  set (rt1 := with_label _ _ _) in *.
  assert (Hlive : nh_live (ms_nhs s1) p).
  { apply (same_m_live s); [done|]. by eapply nh_get_live. }
  assert (Hrkk : (rk <= k)%nat) by (by apply best_spec in Hbest as (? & _)).
  subst R'. rewrite <- Hinfo in Hbest, Hunt.
  assert (Hdel : repr (remove R k (key_of rt k).2 (info_of rt1 p)) (max_levels (rtr_family rt)) 0 0
      (__mtrie_delete (max_levels (rtr_family rt)) 0 rt1 root s1).1 /\
      same_m s1 (__mtrie_delete (max_levels (rtr_family rt)) 0 rt1 root s1).2)
    by (by apply (delete_root_spec rt1 _ k p Hrq R rk)).
  destruct (__mtrie_delete _ 0 rt1 root s1) as [root' s2]. cbn [fst snd] in Hdel. destruct Hdel as [Hrep Hs2].
  split; [done|]. split; [apply vrf_store; [done|done|by rewrite <- Hinfo]|]. split.
  - etrans; [exact Hs1|]. etrans; [exact Hs2|apply put_nh_same].
  - intros vrf' Hne. by apply vrf_store_other.
Qed.

(** C3: a look-up of a whole address returns the longest prefix match: the nexthop,
    label, flags, bridge index and length of the longest route that covers it. *)
Theorem mtrie_lookup_is_lpm default_nh n vrf rt t R root :
  lookup_req rt (max_levels (rtr_family rt)) ->
  vrfid_to_mtrie vrf (rtr_family rt) t = Some root -> vrf_holds n t vrf (rtr_family rt) R ->
  exists k i,
    best R (8 * max_levels (rtr_family rt)) (pathv (rtr_prefix rt) (max_levels (rtr_family rt))) = Some (k, i) /\
    mtrie_lookup default_nh vrf t rt = (Some (ri_nh i), answer k i rt).
Proof.
  intros Hlq Hroot (_ & _ & Hm). rewrite Hroot in Hm. unfold mtrie_lookup. rewrite Hroot.
  pose proof (levels_bound (rtr_family rt)) as Hlb.
  pose proof (repr_cases _ _ _ _ _ Hm) as (j & i & Hb & Hp & Hjd & Hcase).
  destruct Hcase as [(o & Hdat & Hleaf & Hno)|(l & rem & Erem & Hdat & Hlen & Hch)]; rewrite Hdat.
  - destruct Hleaf as (L1 & L2 & L3 & L4). unfold entry_nh_p in L1. rewrite Hdat in L1. subst o.
    exists j, i. split.
    + destruct Hlq as [_ _ Hby]. pose proof (pathv_anc _ _ 0 Hby ltac:(lia)) as Ha.
      rewrite (best_skip R _ _ (8 * 0)); [by rewrite Ha|lia|].
      intros m Hm'. apply Hno; [lia|]. rewrite anc_anc by lia. exact Ha.
    + unfold take_entry, answer. by rewrite Hp, L2, L3, L4.
  - destruct (__lookup_spec R rt _ rem 0 l 0 Hlq ltac:(lia) eq_refl Hlen Hch) as (k & i' & Hb' & Hlook).
    exists k, i'. split; [done|]. rewrite Erem. change (Z.of_nat 0) with 0 in Hlook. by rewrite Hlook.
Qed.

End tables.
End proofs.
End MtrieProofs.
