(* ===== verification/MtrieExamples.v ===== *)
(** * Concrete route tables

    Runs of the trie on the nexthop table of [Nexthop.v]: instances of the
    refinement theorems, and the inputs on which the code departs from what its
    comments promise. *)

From S2P Require Import Prelude NhIface RouteReq Mtrie MtrieSpec MtrieProofs Nexthop.

Module MtrieExamples.
Import Mtrie MtrieSpec MtrieProofs.

(** A router with the discard nexthop (address 1) and two others: nexthop 1 at
    address 2 and nexthop 2 at address 3. *)
Definition encap (id : Z) : Nexthop.vr_nexthop :=
  Nexthop.mk_nexthop NH_ENCAP AF_INET NH_FLAG_VALID 0 id 0 0 0 None 0 None None None None Nexthop.info0.

Definition router1 : Nexthop.router := Eval vm_compute in (Nexthop.nh_table_init 4 (Nexthop.router0 [])).2.
Definition router2 : Nexthop.router := Eval vm_compute in (Nexthop.new_object (encap 1) router1).2.
Definition router3 : Nexthop.router := Eval vm_compute in (Nexthop.vrouter_add_nexthop 2 router2).2.
Definition router4 : Nexthop.router := Eval vm_compute in (Nexthop.new_object (encap 2) router3).2.
Definition router5 : Nexthop.router := Eval vm_compute in (Nexthop.vrouter_add_nexthop 3 router4).2.

Lemma router5_reach : rtc Nexthop.step ([], Nexthop.router0 []) ([], router5).
Proof.
  apply (rtc_l _ _ ([], router1)).
  { replace router1 with (Nexthop.nh_table_init 4 (Nexthop.router0 [])).2 by (by vm_compute).
    apply Nexthop.step_init; [by vm_compute|done|by left]. }
  apply (rtc_l _ _ ([], router3)).
  { replace router3 with (Nexthop.vrouter_add_nexthop 2 router2).2 by (by vm_compute).
    apply (Nexthop.step_create [] [] router1 (encap 1)); try by vm_compute. eexists; reflexivity. }
  apply (rtc_l _ _ ([], router5)); [|done].
  replace router5 with (Nexthop.vrouter_add_nexthop 3 router4).2 by (by vm_compute).
  apply (Nexthop.step_create [] [] router3 (encap 2)); try by vm_compute. eexists; reflexivity.
Qed.

Lemma router5_ok : nh_table_ok router5.
Proof. apply (Nexthop.inv_table_ok []), (Nexthop.steps_inv _ _ router5_reach (Nexthop.router0_inv [])). Qed.

Definition m0 : mst Nexthop.router := mk_mst router5 [] true [] 0 false.
Definition tables0 : vrf_tables := mk_tables 2 [None; None] [None; None].

(** No MAC is ever found. *)
Definition no_bridge (vrf : Z) (rt : vr_route_req) : option nhp * vr_route_req := (None, rt).

Definition route (bytes : list Z) (plen nh replace_plen : Z) : vr_route_req :=
  mk_req 0 AF_INET bytes plen 0 0 0 nh [] 0 replace_plen 0 None.

Definition lookup_of (bytes : list Z) : vr_route_req := route bytes 32 0 0.

Lemma fresh_ok : routes_ok router5 (fresh_table 1).
Proof.
  intros key i Hk. unfold fresh_table in Hk. apply lookup_singleton_Some in Hk as [_ <-].
  split; [|done]. unfold info_wf. cbn. unfold MTRIE_INVALID_LABEL, VR_BE_INVALID_INDEX. lia.
Qed.

Lemma fresh_holds : vrf_holds router5 tables0 0 AF_INET (fresh_table 1).
Proof. split; [by vm_compute|]. split; [done|]. by exists 1. Qed.

Definition route8 : vr_route_req := route [10; 0; 0; 0] 8 1 0.

Lemma bytes_ok_10 : bytes_ok [10; 0; 0; 0] 4.
Proof. split; [cbn; lia|]. repeat constructor; lia. Qed.

Lemma route8_change : change_req no_bridge router5 route8 8 2 VR_BE_INVALID_INDEX.
Proof. split; [done|vm_compute; lia|exact bytes_ok_10|done|done|done]. Qed.

Lemma mtrie_add_refines_witness :
  let '(ret, t', s') := mtrie_add no_bridge route8 tables0 m0 in
  ((ret = 0 /\ vrf_holds router5 t' 0 AF_INET
                 (<[key_of route8 8 := req_info route8 2 VR_BE_INVALID_INDEX]> (fresh_table 1))) \/
   (ret = - ENOMEM /\ vrf_holds router5 t' 0 AF_INET (fresh_table 1))) /\
  (ms_oracle m0 = [] -> ret = 0) /\ same_m m0 s' /\
  (forall vrf', vrf' <> 0 -> vrfid_to_mtrie vrf' AF_INET t' = vrfid_to_mtrie vrf' AF_INET tables0).
Proof.
  apply (mtrie_add_refines no_bridge route8 8 2 VR_BE_INVALID_INDEX tables0 m0 (fresh_table 1)).
  - exact route8_change.
  - exact router5_ok.
  - right. by vm_compute.
  - exact fresh_holds.
  - exact fresh_ok.
Defined.

(** The trie after the first route. *)
Definition root0 : ip_bucket_entry := Entry (Nh (Some 1)) 0 0 MTRIE_INVALID_LABEL VR_BE_INVALID_INDEX.
Definition route8_nh : vr_route_req :=
  with_label 0 (req_label route8) (with_index VR_BE_INVALID_INDEX (with_nh (Some 2) route8)).
Definition root8 : ip_bucket_entry := (__mtrie_add root0 route8_nh m0).1.2.
Definition tables8 : vrf_tables := mk_tables 2 [Some root8; None] [None; None].
Definition table8 : rtable := <[key_of route8 8 := req_info route8 2 VR_BE_INVALID_INDEX]> (fresh_table 1).

Lemma root8_repr : repr table8 4 0 0 root8.
Proof.
  destruct (change_req_route no_bridge router5 route8 8 2 VR_BE_INVALID_INDEX route8_change) as (Hrq & Hcan & Hinfo).
  pose proof (add_loop_spec route8_nh 4 8 2 Hrq (fresh_table 1) 4 0 root0 (Some 1) false m0 Hcan eq_refl
    ltac:(by right) ltac:(by vm_compute) fresh_ok (fresh_root 4 1) ltac:(done)) as (_ & Ho & _ & Hr).
  destruct Hr as [[_ Hr]|[Hr _]]; [exact Hr|]. rewrite (Ho eq_refl) in Hr. done.
Qed.

Lemma tables8_holds : vrf_holds router5 tables8 0 AF_INET table8.
Proof. split; [by vm_compute|]. split; [done|]. exact root8_repr. Qed.

Definition delete8 : vr_route_req := route [10; 0; 0; 0] 8 0 0.

Lemma delete8_change : change_req no_bridge router5 delete8 8 1 VR_BE_INVALID_INDEX.
Proof. split; [done|vm_compute; lia|exact bytes_ok_10|done|done|done]. Qed.

Lemma delete8_table : remove table8 8 (key_of delete8 8).2 (req_info delete8 1 VR_BE_INVALID_INDEX) = fresh_table 1.
Proof. by vm_compute. Qed.

Lemma fresh_untiled pd : untiled (fresh_table pd).
Proof.
  intros d v (j & i & Hj & Hall). pose proof (Hall 0 ltac:(lia)) as (_ & Hk & _)%best_spec.
  unfold fresh_table in Hk. apply lookup_singleton_Some in Hk as [[= <- _] _]. lia.
Qed.

Lemma mtrie_delete_refines_witness :
  let '(ret, t', s') := mtrie_delete no_bridge delete8 tables8 m0 in
  ret = 0 /\
  vrf_holds router5 t' 0 AF_INET
    (remove table8 8 (key_of delete8 8).2 (req_info delete8 1 VR_BE_INVALID_INDEX)) /\ same_m m0 s' /\
  (forall vrf', vrf' <> 0 -> vrfid_to_mtrie vrf' AF_INET t' = vrfid_to_mtrie vrf' AF_INET tables8).
Proof.
  apply (mtrie_delete_refines no_bridge delete8 8 1 VR_BE_INVALID_INDEX 0 tables8 m0 table8 root8).
  - exact delete8_change.
  - exact router5_ok.
  - done.
  - left. lia.
  - exact tables8_holds.
  - done.
  - by vm_compute.
  - rewrite delete8_table. apply fresh_untiled.
Defined.

Lemma mtrie_lookup_is_lpm_witness :
  exists k i, best table8 32 (pathv [10; 1; 2; 3] 4) = Some (k, i) /\
    mtrie_lookup (Some 1) 0 tables8 (lookup_of [10; 1; 2; 3]) = (Some (ri_nh i), answer k i (lookup_of [10; 1; 2; 3])).
Proof.
  apply (mtrie_lookup_is_lpm (Some 1) router5 0 (lookup_of [10; 1; 2; 3]) tables8 table8 root8).
  - split; [done|done|]. split; [vm_compute; lia|]. repeat constructor; lia.
  - done.
  - exact tables8_holds.
Defined.

(** ** Where the code departs from its comments *)

(** Runs a list of requests, [true] for an addition. *)
Definition run (ops : list (bool * vr_route_req)) (ts : vrf_tables * mst Nexthop.router)
    : vrf_tables * mst Nexthop.router :=
  foldl (fun '(t, s) '(add, rt) =>
    let '(_, t', s') := if add : bool then mtrie_add no_bridge rt t s else mtrie_delete no_bridge rt t s in
    (t', s')) ts ops.

Definition nexthop_for (bytes : list Z) (ops : list (bool * vr_route_req)) : option nhp :=
  (mtrie_lookup (Some 1) 0 (run ops (tables0, m0)).1 (lookup_of bytes)).1.

(** The bucket collapse of [__mtrie_delete] forgets routes: two /9 routes to one
    nexthop tile 10/8, and deleting 10/8 itself drops both of them, so 10.1.1.1 goes to
    the discard nexthop although 10.0.0.0/9 was never deleted. *)
Theorem mtrie_delete_drops_tiling :
  let adds := [(true, route [10; 0; 0; 0] 8 1 0); (true, route [10; 0; 0; 0] 9 2 0);
               (true, route [10; 128; 0; 0] 9 2 0)] in
  nexthop_for [10; 1; 1; 1] adds = Some 3 /\
  nexthop_for [10; 1; 1; 1] (adds ++ [(false, route [10; 0; 0; 0] 8 0 0)]) = Some 1.
Proof. by vm_compute. Qed.

(** Once a collapse has turned the root into a nexthop entry, deleting the
    default route has no effect: [mtrie_delete] returns 0 and every look-up still finds
    it. *)
Theorem mtrie_default_undeletable :
  let ops := [(true, route [0; 0; 0; 0] 0 1 0); (true, route [10; 0; 0; 0] 8 2 0);
              (false, route [10; 0; 0; 0] 8 1 0)] in
  let ts := run ops (tables0, m0) in
  (mtrie_delete no_bridge (route [0; 0; 0; 0] 0 0 0) ts.1 ts.2).1.1 = 0 /\
  nexthop_for [1; 2; 3; 4] (ops ++ [(false, route [0; 0; 0; 0] 0 0 0)]) = Some 2.
Proof. by vm_compute. Qed.

(** A prefix with bits set after its length wraps around in its bucket:
    1.1.1.200/25 captures 1.1.1.10, which it does not cover, and misses 1.1.1.130, which
    it does. *)
Theorem mtrie_add_wraps :
  let ops := [(true, route [1; 1; 1; 200] 25 1 0)] in
  nexthop_for [1; 1; 1; 10] ops = Some 2 /\ nexthop_for [1; 1; 1; 130] ops = Some 1.
Proof. by vm_compute. Qed.

(** A look-up of a short prefix that has a more specific route everywhere below
    it goes on in the wrong bucket, because the loop overwrites [bkt], and misses the
    shorter route that the comment in the code says it finds: with 0/0 to nexthop 1 and all of
    1.0/16 to 1.255/16 present, 1/8 resolves to the caller's default. *)
Theorem mtrie_lookup_wrong_bucket :
  let ops := (true, route [0; 0; 0; 0] 0 1 0) ::
             ((fun b => (true, route [1; b; 0; 0] 16 2 0)) <$> seqZ 0 256) in
  (mtrie_lookup (Some 1) 0 (run ops (tables0, m0)).1 (route [1; 0; 0; 0] 8 0 0)).1 = Some 1 /\
  (mtrie_lookup (Some 1) 0 (run ops (tables0, m0)).1 (route [2; 0; 0; 0] 8 0 0)).1 = Some 2.
Proof. by vm_compute. Qed.

(** When the MAC of a request is not in the bridge table, [mtrie_add] returns
    [-ENOENT] without dropping the reference it took: the nexthop has one user too
    many from then on. *)
Theorem mtrie_add_leaks_reference :
  let rt := with_mac [2; 0; 0; 0; 0; 1] 6 (route [10; 0; 0; 0] 8 1 0) in
  let users (s : mst Nexthop.router) := Nexthop.nh_users <$> Nexthop.nh_load 2 (ms_nhs s) in
  users m0 = Some 1 /\
  (mtrie_add no_bridge rt tables0 m0).1.1 = - ENOENT /\
  users (mtrie_add no_bridge rt tables0 m0).2 = Some 2.
Proof. by vm_compute. Qed.

End MtrieExamples.
