(* ===== verification/Hash.v ===== *)
(** * The hash function (include/vr_hash.h)

    Bob Jenkins' hash over a byte string, in 32-bit arithmetic.  The hash tables use
    it to choose a bucket. *)

From S2P Require Import Prelude.

Module Hash.

Definition VR_HASH_INITVAL : Z := 3735928559.

Definition rolword (x k : Z) : Z := Z.lor (u32 (Z.shiftl x k)) (Z.shiftr x (32 - k)).

(** One line of the macros: [a -= c; a ^= rolword(c, k); c += b]. *)
Definition mix_line (k : Z) '(a, b, c) : Z * Z * Z :=
  let a1 := Z.lxor (u32 (a - c)) (rolword c k) in
  (a1, b, u32 (c + b)).

(** The six lines rotate the roles of the three words. *)
Definition rotate '(a, b, c) : Z * Z * Z := (b, c, a).

Definition __vr_hash_mix (w : Z * Z * Z) : Z * Z * Z :=
  let line k w := rotate (mix_line k w) in
  line 4 (line 19 (line 16 (line 8 (line 6 (line 4 w))))).

(** [x ^= y; x -= rolword(y, k)] *)
Definition final_line (k x y : Z) : Z := u32 (Z.lxor x y - rolword y k).

Definition __vr_hash_final '(a, b, c) : Z :=
  let c := final_line 14 c b in
  let a := final_line 11 a c in
  let b := final_line 25 b a in
  let c := final_line 16 c b in
  let a := final_line 4 a c in
  let b := final_line 14 b a in
  final_line 24 c b.

Definition byte_at (k : list Z) (i : Z) : Z := default 0 (zget k i).

Definition __get_unaligned_word (k : list Z) : Z :=
  byte_at k 0 + Z.shiftl (byte_at k 1) 8 + Z.shiftl (byte_at k 2) 16 + Z.shiftl (byte_at k 3) 24.

(** The bytes that are left are added at their place in the last three words. *)
Definition tail_word (k : list Z) (from length : Z) : Z :=
  foldr Z.add 0 ((fun j => if from + j <? length then Z.shiftl (byte_at k (from + j)) (8 * j) else 0)
                 <$> [0; 1; 2; 3]).

Fixpoint vr_hash_loop (fuel : nat) (k : list Z) (length : Z) (w : Z * Z * Z) : Z :=
  let '(a, b, c) := w in
  match fuel with
  | S fuel' =>
      if 12 <? length then
        vr_hash_loop fuel' (drop 12 k) (length - 12)
          (__vr_hash_mix (u32 (a + __get_unaligned_word k), u32 (b + __get_unaligned_word (drop 4 k)),
                          u32 (c + __get_unaligned_word (drop 8 k))))
      else if length =? 0 then c
      else __vr_hash_final (u32 (a + tail_word k 0 length), u32 (b + tail_word k 4 length),
                            u32 (c + tail_word k 8 length))
  | O => c
  end.

Definition vr_hash (key : list Z) (length initval : Z) : Z :=
  let x := u32 (VR_HASH_INITVAL + length + initval) in
  vr_hash_loop (S (Z.to_nat (length / 12))) key length (x, x, x).

(** ** Mixing is reversible *)

Definition words_ok '(a, b, c) : Prop := 0 <= a <= UINT_MAX /\ 0 <= b <= UINT_MAX /\ 0 <= c <= UINT_MAX.

Definition unmix_line (k : Z) '(a, b, c) : Z * Z * Z :=
  let c1 := u32 (c - b) in
  (u32 (Z.lxor a (rolword c1 k) + c1), b, c1).

Definition unrotate '(a, b, c) : Z * Z * Z := (c, a, b).

Definition __vr_hash_unmix (w : Z * Z * Z) : Z * Z * Z :=
  let unline k w := unmix_line k (unrotate w) in
  unline 4 (unline 6 (unline 8 (unline 16 (unline 19 (unline 4 w))))).

Lemma u32_lxor_range x y : 0 <= x <= UINT_MAX -> 0 <= y <= UINT_MAX -> 0 <= Z.lxor x y <= UINT_MAX.
Proof.
  intros Hx Hy. split; [apply Z.lxor_nonneg; lia|].
  assert (Z.lxor x y < 2 ^ 32); [|lia].
  destruct (decide (Z.lxor x y = 0)) as [->|Hne]; [lia|].
  apply Z.log2_lt_pow2; [assert (0 <= Z.lxor x y) by (apply Z.lxor_nonneg; lia); lia|].
  eapply Z.le_lt_trans; [apply Z.log2_lxor; lia|].
  assert (forall z, 0 <= z <= UINT_MAX -> Z.log2 z < 32) as Hlog.
  { intros z Hz. destruct (decide (z = 0)) as [->|]; [done|]. apply Z.log2_lt_pow2; lia. }
  apply Z.max_lub_lt; auto.
Qed.

Lemma rolword_range x k : 0 <= x <= UINT_MAX -> 0 <= k <= 32 -> 0 <= rolword x k <= UINT_MAX.
Proof.
  intros Hx Hk. unfold rolword. pose proof (u32_range (Z.shiftl x k)) as Hl.
  assert (Hr : 0 <= Z.shiftr x (32 - k) <= UINT_MAX).
  { rewrite Z.shiftr_div_pow2 by lia. assert (0 < 2 ^ (32 - k)) by (apply Z.pow_pos_nonneg; lia).
    split; [apply Z.div_pos; lia|]. apply Z.div_le_upper_bound; [lia|]. nia. }
  split; [apply Z.lor_nonneg; lia|].
  assert (Z.lor (u32 (Z.shiftl x k)) (Z.shiftr x (32 - k)) < 2 ^ 32); [|lia].
  set (z := Z.lor _ _). destruct (decide (z = 0)) as [->|Hne]; [lia|].
  assert (0 <= z) by (apply Z.lor_nonneg; lia).
  apply Z.log2_lt_pow2; [lia|]. unfold z. rewrite Z.log2_lor by lia.
  assert (forall z, 0 <= z <= UINT_MAX -> Z.log2 z < 32) as Hlog.
  { intros y Hy. destruct (decide (y = 0)) as [->|]; [done|]. apply Z.log2_lt_pow2; lia. }
  apply Z.max_lub_lt; auto.
Qed.

Lemma mix_line_ok k w : 0 <= k <= 32 -> words_ok w -> words_ok (mix_line k w).
Proof.
  destruct w as [[a b] c]. intros Hk (Ha & Hb & Hc). unfold mix_line, words_ok.
  split; [|split; [done|apply u32_range]]. apply u32_lxor_range; [apply u32_range|by apply rolword_range].
Qed.

Lemma unmix_mix_line k w : 0 <= k <= 32 -> words_ok w -> unmix_line k (mix_line k w) = w.
Proof.
  destruct w as [[a b] c]. intros Hk (Ha & Hb & Hc). unfold mix_line, unmix_line.
  assert (Ec : u32 (u32 (c + b) - b) = c).
  { unfold u32. rewrite Zminus_mod_idemp_l. rewrite Z.mod_small; lia. }
  rewrite Ec. rewrite Z.lxor_assoc, Z.lxor_nilpotent, Z.lxor_0_r.
  assert (Ea : u32 (u32 (a - c) + c) = a).
  { unfold u32. rewrite Zplus_mod_idemp_l. rewrite Z.mod_small; lia. }
  by rewrite Ea.
Qed.

Lemma rotate_ok w : words_ok w -> words_ok (rotate w).
Proof. destruct w as [[a b] c]. unfold words_ok, rotate. tauto. Qed.

Lemma unrotate_rotate w : unrotate (rotate w) = w.
Proof. by destruct w as [[a b] c]. Qed.

(** Mixing the three words of the hash state loses nothing, as its comment says:
    every state of three 32-bit words can be recovered from its image. *)
Theorem hash_mix_reversible w : words_ok w -> __vr_hash_unmix (__vr_hash_mix w) = w.
Proof.
  intros Hw. unfold __vr_hash_unmix, __vr_hash_mix.
  rewrite !unrotate_rotate, !unmix_mix_line;
    repeat (rewrite unrotate_rotate || rewrite unmix_mix_line);
    repeat first [done | lia | apply rotate_ok | apply mix_line_ok].
Qed.

Lemma hash_mix_reversible_witness : __vr_hash_unmix (__vr_hash_mix (1, 2, 3)) = (1, 2, 3).
Proof. apply (hash_mix_reversible (1, 2, 3)). unfold words_ok. lia. Defined.

Lemma final_range w : 0 <= __vr_hash_final w <= UINT_MAX.
Proof. destruct w as [[a b] c]. apply u32_range. Qed.

Lemma vr_hash_nonneg key length : 0 <= vr_hash key length 0 <= UINT_MAX.
Proof.
  unfold vr_hash. set (x := u32 _). assert (Hx : 0 <= x <= UINT_MAX) by apply u32_range.
  assert (Hw : words_ok (x, x, x)) by (unfold words_ok; tauto). revert Hw. generalize (x, x, x). clear x Hx.
  generalize (S (Z.to_nat (length / 12))). intros n. revert key length.
  induction n as [|n IH]; intros key length [[a b] c] Hw; cbn [vr_hash_loop]; [apply Hw|].
  destruct (12 <? length).
  - apply IH. unfold __vr_hash_mix. repeat first [apply rotate_ok | apply mix_line_ok; [lia|]].
    unfold words_ok. split; [apply u32_range|]. split; apply u32_range.
  - destruct (length =? 0); [apply Hw|apply final_range].
Qed.

End Hash.
