(* ===== verification/Htable.v ===== *)
(** * Hash tables (dp-core/vr_htable.c)

    A table of buckets of a few entries each, with a pool of overflow entries that are
    chained to the last entry of a full bucket.  Entries are addressed by index: the
    main table first, then the overflow table.  A released overflow entry stays in its
    chain, marked, until work scheduled for its bucket unlinks it; it goes back to the
    free list after a grace period.  Each compare-and-swap is the step it performs when
    no other thread interferes.

    The client keeps its own data in every entry ([hentry_data]) and [ht_get_key] reads
    the key from it.  The theorems show that the table is a finite map from keys to
    entries, and that no overflow entry is lost to, or shared by, two chains. *)

From S2P Require Import Prelude Hash.

Module Htable.

Definition VR_INVALID_HENTRY_INDEX : Z := UINT_MAX.
Definition VR_HENTRIES_PER_BUCKET : Z := 4.
Definition VR_HENTRY_FLAG_VALID : Z := 1.
Definition VR_HENTRY_FLAG_DELETE_MARKED : Z := 2.
Definition VR_HENTRY_FLAG_DELETE_PROCESSED : Z := 4.
Definition VR_HENTRY_FLAG_UNDER_DELETION : Z := 6.
Definition VR_HENTRY_FLAG_IN_FREE_LIST : Z := 8.

Section htable.
Context {D : Type}.
(** [ht_get_key]: the key of an entry, none when the client calls it unused. *)
Variable ht_get_key : D -> option (list Z).

(** [vr_hentry_t] with the client's part; [hentry_next] is the index of the next
    entry. *)
Record vr_hentry := mk_hentry {
  hentry_next : option Z;
  hentry_index : Z;
  hentry_bucket_index : Z;
  hentry_next_index : Z;
  hentry_flags : Z;
  hentry_data : D
}.

Record vr_hentry_delete_data := mk_dd { hd_index : Z; hd_count : Z; hd_scheduled : Z }.

(** [struct vr_htable], with the host state it uses: [ht_work] are the buckets whose
    deletion is scheduled, [ht_deferred] the entries waiting for a grace period. *)
Record vr_htable := mk_htable {
  ht_hentries : Z;
  ht_oentries : Z;
  ht_key_size : Z;
  ht_bucket_size : Z;
  ht_entries : list vr_hentry;
  ht_dtable : list vr_hentry_delete_data;
  ht_free_oentry_head : option Z;
  ht_used_oentries : Z;
  ht_used_entries : Z;
  ht_work : list Z;
  ht_deferred : list Z;
  ht_not_ready : bool;
  ht_oracle : list bool
}.

Definition set_entries (es : list vr_hentry) (t : vr_htable) : vr_htable :=
  mk_htable (ht_hentries t) (ht_oentries t) (ht_key_size t) (ht_bucket_size t) es (ht_dtable t)
    (ht_free_oentry_head t) (ht_used_oentries t) (ht_used_entries t) (ht_work t) (ht_deferred t)
    (ht_not_ready t) (ht_oracle t).

Definition set_dtable (dt : list vr_hentry_delete_data) (t : vr_htable) : vr_htable :=
  mk_htable (ht_hentries t) (ht_oentries t) (ht_key_size t) (ht_bucket_size t) (ht_entries t) dt
    (ht_free_oentry_head t) (ht_used_oentries t) (ht_used_entries t) (ht_work t) (ht_deferred t)
    (ht_not_ready t) (ht_oracle t).

Definition set_free (h : option Z) (used : Z) (t : vr_htable) : vr_htable :=
  mk_htable (ht_hentries t) (ht_oentries t) (ht_key_size t) (ht_bucket_size t) (ht_entries t)
    (ht_dtable t) h (u32 used) (ht_used_entries t) (ht_work t) (ht_deferred t)
    (ht_not_ready t) (ht_oracle t).

Definition set_used (used : Z) (t : vr_htable) : vr_htable :=
  mk_htable (ht_hentries t) (ht_oentries t) (ht_key_size t) (ht_bucket_size t) (ht_entries t)
    (ht_dtable t) (ht_free_oentry_head t) (ht_used_oentries t) (u32 used) (ht_work t)
    (ht_deferred t) (ht_not_ready t) (ht_oracle t).

Definition set_queues (work deferred : list Z) (oracle : list bool) (t : vr_htable) : vr_htable :=
  mk_htable (ht_hentries t) (ht_oentries t) (ht_key_size t) (ht_bucket_size t) (ht_entries t)
    (ht_dtable t) (ht_free_oentry_head t) (ht_used_oentries t) (ht_used_entries t) work deferred
    (ht_not_ready t) oracle.

(** Stores to the fields of the entry at an index. *)
Definition upd (i : Z) (f : vr_hentry -> vr_hentry) (t : vr_htable) : vr_htable :=
  match zget (ht_entries t) i with
  | Some e => set_entries (zset (ht_entries t) i (f e)) t
  | None => t
  end.

Definition with_next (n : option Z) (e : vr_hentry) : vr_hentry :=
  mk_hentry n (hentry_index e) (hentry_bucket_index e) (hentry_next_index e) (hentry_flags e) (hentry_data e).
Definition with_bucket_index (b : Z) (e : vr_hentry) : vr_hentry :=
  mk_hentry (hentry_next e) (hentry_index e) b (hentry_next_index e) (hentry_flags e) (hentry_data e).
Definition with_next_index (b : Z) (e : vr_hentry) : vr_hentry :=
  mk_hentry (hentry_next e) (hentry_index e) (hentry_bucket_index e) b (hentry_flags e) (hentry_data e).
Definition with_flags (f : Z) (e : vr_hentry) : vr_hentry :=
  mk_hentry (hentry_next e) (hentry_index e) (hentry_bucket_index e) (hentry_next_index e) f (hentry_data e).
Definition with_hdata (d : D) (e : vr_hentry) : vr_hentry :=
  mk_hentry (hentry_next e) (hentry_index e) (hentry_bucket_index e) (hentry_next_index e) (hentry_flags e) d.

Definition has_flag (f : Z) (e : vr_hentry) : bool := negb (Z.land (hentry_flags e) f =? 0).

(** ** The free list of overflow entries *)

Definition vr_htable_get_free_oentry (t : vr_htable) : option Z * vr_htable :=
  match ht_free_oentry_head t with
  | None => (None, t)
  | Some i =>
      match zget (ht_entries t) i with
      | None => (None, t)
      | Some ent =>
          let t1 := set_free (hentry_next ent) (ht_used_oentries t + 1) t in
          (Some i, upd i (fun e => with_flags (Z.ldiff (hentry_flags e) VR_HENTRY_FLAG_IN_FREE_LIST)
                                     (with_next None e)) t1)
      end
  end.

Definition vr_htable_put_free_oentry (i : Z) (t : vr_htable) : vr_htable :=
  match zget (ht_entries t) i with
  | None => t
  | Some ent =>
      if hentry_index ent <? ht_hentries t then t
      else if has_flag VR_HENTRY_FLAG_IN_FREE_LIST ent then t
      else set_free (Some i) (ht_used_oentries t - 1)
             (upd i (fun e => with_next (ht_free_oentry_head t)
                (with_flags (Z.lor (hentry_flags e) VR_HENTRY_FLAG_IN_FREE_LIST) e)) t)
  end.

(** ** Entries by index *)

Definition __vr_htable_get_hentry_by_index (t : vr_htable) (index : Z) : option vr_hentry :=
  if index <? ht_hentries t then zget (ht_entries t) index
  else if index <? ht_oentries t + ht_hentries t then zget (ht_entries t) index
  else None.

Definition vr_htable_get_hentry_by_index (t : vr_htable) (index : Z) : option vr_hentry :=
  match __vr_htable_get_hentry_by_index t index with
  | Some ent => if has_flag VR_HENTRY_FLAG_VALID ent then Some ent else None
  | None => None
  end.

(** [cb] sees every entry from the marker on; it threads its own state. *)
Definition vr_htable_trav {S} (cb : option vr_hentry -> Z -> S -> S) (marker : Z) (t : vr_htable) (s : S) : S :=
  foldl (fun s i => cb (vr_htable_get_hentry_by_index t i) i s) s
    (seqZ marker (ht_hentries t + ht_oentries t - marker)).

Definition vr_htable_oentry_invalidate (i : Z) (t : vr_htable) : vr_htable :=
  match zget (ht_entries t) i with
  | None => t
  | Some ent =>
      if hentry_index ent <? ht_hentries t then t
      else
        vr_htable_put_free_oentry i
          (upd i (fun e => with_next None (with_next_index VR_INVALID_HENTRY_INDEX
             (with_bucket_index VR_INVALID_HENTRY_INDEX
               (with_flags (Z.land (hentry_flags e) VR_HENTRY_FLAG_IN_FREE_LIST) e)))) t)
  end.

(** The end of the grace period of the oldest waiting entry. *)
Definition vr_htable_hentry_defer_delete (t : vr_htable) : vr_htable :=
  match ht_deferred t with
  | [] => t
  | i :: d =>
      let t1 := set_queues (ht_work t) d (ht_oracle t) t in
      match __vr_htable_get_hentry_by_index t1 i with
      | None => t1
      | Some _ => vr_htable_oentry_invalidate i t1
      end
  end.

(** [vr_get_defer_data] and [vr_schedule_work] may fail. *)
Definition ask_host (t : vr_htable) : bool * vr_htable :=
  (match ht_oracle t with [] => true | b :: _ => b end,
   set_queues (ht_work t) (ht_deferred t) (tail (ht_oracle t)) t).

(** The walk over the chain; one entry is passed at every turn. *)
Fixpoint delete_walk (fuel : nat) (count : Z) (prev : Z) (ent : option Z) (t : vr_htable) : vr_htable :=
  match fuel with
  | O => t
  | S fuel' =>
      if count =? 0 then t
      else match ent with
      | None => t
      | Some i =>
          match zget (ht_entries t) i with
          | None => t
          | Some e =>
              let '(count1, t1) :=
                if has_flag VR_HENTRY_FLAG_DELETE_MARKED e then
                  let next_index :=
                    match hentry_next e with
                    | Some n => match zget (ht_entries t) n with Some en => hentry_index en | None => 0 end
                    | None => VR_INVALID_HENTRY_INDEX
                    end in
                  (count - 1,
                   upd i (fun e => with_flags (Z.lor (Z.ldiff (hentry_flags e) VR_HENTRY_FLAG_DELETE_MARKED)
                                                 VR_HENTRY_FLAG_DELETE_PROCESSED) e)
                     (upd prev (fun p => with_next_index next_index (with_next (hentry_next e) p)) t))
                else (count, t) in
              let next := hentry_next e in
              let flags1 := from_option hentry_flags 0 (zget (ht_entries t1) i) in
              if negb (Z.land flags1 VR_HENTRY_FLAG_DELETE_PROCESSED =? 0) then
                if ht_not_ready t1 then
                  delete_walk fuel' count1 prev next (vr_htable_oentry_invalidate i t1)
                else
                  let '(ok, t2) := ask_host t1 in
                  let t3 := if ok then set_queues (ht_work t2) (ht_deferred t2 ++ [hentry_index e]) (ht_oracle t2) t2
                            else t2 in
                  delete_walk fuel' count1 prev next t3
              else
                delete_walk fuel' count1
                  (if Z.land flags1 VR_HENTRY_FLAG_UNDER_DELETION =? 0 then i else prev) next t1
          end
      end
  end.

(** The oldest scheduled work item, the delete data of a bucket, is run. *)
Definition vr_htable_hentry_scheduled_delete (t : vr_htable) : vr_htable :=
  match ht_work t with
  | [] => t
  | k :: work =>
      let t0 := set_queues work (ht_deferred t) (ht_oracle t) t in
      match zget (ht_dtable t0) k with
      | None => t0
      | Some dd =>
          match __vr_htable_get_hentry_by_index t0 (hd_index dd) with
          | None => t0
          | Some head =>
              let count := hd_count dd in
              let t1 := set_dtable (zset (ht_dtable t0) k (mk_dd (hd_index dd) (u16 (hd_count dd - count)) 0)) t0 in
              delete_walk (length (ht_entries t)) count (hd_index dd) (hentry_next head) t1
          end
      end
  end.

Definition vr_htable_release_hentry (i : Z) (t : vr_htable) : vr_htable :=
  match zget (ht_entries t) i with
  | None => t
  | Some ent =>
      if negb (has_flag VR_HENTRY_FLAG_VALID ent) then t
      else
        let t1 := upd i (fun e => with_flags (Z.ldiff (hentry_flags e) VR_HENTRY_FLAG_VALID) e)
                    (set_used (ht_used_entries t - 1) t) in
        if hentry_index ent <? ht_hentries t then t1
        else if ht_not_ready t then t1
        else
          let t2 := upd i (fun e => with_flags (Z.lor (hentry_flags e) VR_HENTRY_FLAG_DELETE_MARKED) e) t1 in
          match __vr_htable_get_hentry_by_index t2 (hentry_bucket_index ent) with
          | None => t2
          | Some head =>
              let k := hentry_index head / ht_bucket_size t2 in
              match zget (ht_dtable t2) k with
              | None => t2
              | Some dd =>
                  let dd1 := mk_dd (hd_index dd) (u16 (hd_count dd + 1)) (hd_scheduled dd) in
                  if hd_scheduled dd1 =? 0 then
                    let '(ok, t3) := ask_host t2 in
                    let sched := if ok then 1 else 0 in
                    let t4 := if ok then set_queues (ht_work t3 ++ [k]) (ht_deferred t3) (ht_oracle t3) t3 else t3 in
                    set_dtable (zset (ht_dtable t4) k (mk_dd (hentry_index head) (hd_count dd1) sched)) t4
                  else set_dtable (zset (ht_dtable t2) k dd1) t2
              end
          end
  end.

(** ** Finding and claiming entries *)

(** The first entry of the bucket of a key. *)
Definition bucket_start (key : list Z) (key_size : Z) (t : vr_htable) : Z :=
  Z.ldiff (Hash.vr_hash key key_size 0 mod ht_hentries t) (ht_bucket_size t - 1).

(** The loop over the entries of a bucket that looks for an invalid one. *)
Fixpoint find_invalid (idx : list Z) (t : vr_htable) : option Z :=
  match idx with
  | [] => None
  | i :: idx' =>
      match zget (ht_entries t) i with
      | Some e => if has_flag VR_HENTRY_FLAG_VALID e then find_invalid idx' t else Some i
      | None => None
      end
  end.

(** An overflow entry is linked in front of the chain of the entry [last]. *)
Definition link_oentry (o last : Z) (t : vr_htable) : vr_htable :=
  let head_next := zget (ht_entries t) last ≫= hentry_next in
  let next_index :=
    match head_next with
    | Some n => match zget (ht_entries t) n with Some en => hentry_index en | None => 0 end
    | None => VR_INVALID_HENTRY_INDEX
    end in
  let t2 := upd o (fun e => with_next head_next (with_next_index next_index
              (with_bucket_index last (with_flags VR_HENTRY_FLAG_VALID e)))) t in
  let o_index := from_option hentry_index 0 (zget (ht_entries t2) o) in
  upd last (fun e => with_next_index o_index (with_next (Some o) e)) t2.

Definition vr_htable_find_free_hentry (key : list Z) (key_size0 : Z) (t : vr_htable) : option Z * vr_htable :=
  let key_size := if key_size0 =? 0 then ht_key_size t else key_size0 in
  if key_size =? 0 then (None, t)
  else
    let tmp_hash := bucket_start key key_size t in
    match find_invalid (seqZ tmp_hash (ht_bucket_size t)) t with
    | Some i =>
        (Some i, set_used (ht_used_entries t + 1)
          (upd i (fun e => with_bucket_index VR_INVALID_HENTRY_INDEX (with_flags VR_HENTRY_FLAG_VALID e)) t))
    | None =>
        let last := tmp_hash + ht_bucket_size t - 1 in
        if ht_oentries t =? 0 then (None, t)
        else
          match vr_htable_get_free_oentry t with
          | (None, t1) => (None, t1)
          | (Some o, t1) =>
              let t3 := link_oentry o last t1 in
              (Some o, set_used (ht_used_entries t3 + 1) t3)
          end
    end.

(** Does the entry hold the key? *)
Definition hentry_matches (key : list Z) (key_len : Z) (e : vr_hentry) : bool :=
  has_flag VR_HENTRY_FLAG_VALID e &&
  match ht_get_key (hentry_data e) with
  | Some k => (zlen k =? key_len) && bool_decide (take (Z.to_nat key_len) k = take (Z.to_nat key_len) key)
  | None => false
  end.

Fixpoint find_bucket (key : list Z) (key_len : Z) (idx : list Z) (t : vr_htable) : option Z :=
  match idx with
  | [] => None
  | i :: idx' =>
      match zget (ht_entries t) i with
      | Some e => if hentry_matches key key_len e then Some i else find_bucket key key_len idx' t
      | None => None
      end
  end.

Fixpoint find_chain (fuel : nat) (key : list Z) (key_len : Z) (o : option Z) (t : vr_htable) : option Z :=
  match fuel, o with
  | S fuel', Some i =>
      match zget (ht_entries t) i with
      | Some e => if hentry_matches key key_len e then Some i else find_chain fuel' key key_len (hentry_next e) t
      | None => None
      end
  | _, _ => None
  end.

Definition vr_htable_find_hentry (key : list Z) (key_len0 : Z) (t : vr_htable) : option Z :=
  let key_len := if key_len0 =? 0 then ht_key_size t else key_len0 in
  if key_len =? 0 then None
  else
    let tmp_hash := bucket_start key key_len t in
    match find_bucket key key_len (seqZ tmp_hash (ht_bucket_size t)) t with
    | Some i => Some i
    | None =>
        find_chain (length (ht_entries t)) key key_len
          (zget (ht_entries t) (tmp_hash + ht_bucket_size t - 1) ≫= hentry_next) t
    end.

Definition vr_htable_used_oflow_entries (t : vr_htable) : Z := ht_used_oentries t.
Definition vr_htable_used_total_entries (t : vr_htable) : Z := ht_used_entries t.

(** ** Reset and creation *)

(** The chain of a head entry is taken apart. *)
Fixpoint reset_chain (fuel : nat) (o : option Z) (t : vr_htable) : vr_htable :=
  match fuel, o with
  | S fuel', Some i =>
      match zget (ht_entries t) i with
      | None => t
      | Some e =>
          let t1 := if has_flag VR_HENTRY_FLAG_VALID e then
                      set_used (ht_used_entries t - 1)
                        (upd i (fun e => with_flags (Z.ldiff (hentry_flags e) VR_HENTRY_FLAG_VALID) e) t)
                    else t in
          reset_chain fuel' (hentry_next e) (vr_htable_oentry_invalidate i t1)
      end
  | _, _ => t
  end.

(** [cb] is handed the entry and the table, as in the code. *)
Definition reset_step {S} (cb : Z -> vr_htable -> S -> vr_htable * S) (ts : vr_htable * S) (i : Z) : vr_htable * S :=
  let '(t0, s1) := cb i ts.1 ts.2 in
  match zget (ht_entries t0) i with
  | None => (t0, s1)
  | Some ent =>
      let t1 := if has_flag VR_HENTRY_FLAG_VALID ent then
                  set_used (ht_used_entries t0 - 1)
                    (upd i (fun e => with_flags (Z.ldiff (hentry_flags e) VR_HENTRY_FLAG_VALID) e) t0)
                else t0 in
      match hentry_next ent with
      | Some n =>
          if i <? ht_hentries t1 then
            (reset_chain (length (ht_entries t1)) (Some n)
               (upd i (fun e => with_next_index VR_INVALID_HENTRY_INDEX (with_next None e)) t1), s1)
          else (t1, s1)
      | None => (t1, s1)
      end
  end.

Definition vr_htable_reset {S} (cb : Z -> vr_htable -> S -> vr_htable * S) (t : vr_htable) (s : S) : vr_htable * S :=
  foldl (reset_step cb) (t, s) (seqZ 0 (ht_hentries t + ht_oentries t)).

(** [d0] is zeroed client data.  [mem] tells which of the requests for the table
    record, the main, the overflow and the delete tables succeed: when one of them does
    not, what was allocated is freed and nothing is returned.  The entries of the
    overflow table are threaded on the free list in order. *)
Definition __vr_htable_create (entries0 oentries entry_size key_size bucket_size0 : Z) (d0 : D)
    (not_ready : bool) (oracle : list bool) (mem : bool * bool * bool * bool) : option vr_htable :=
  let '(mem_table, mem_htable, mem_otable, mem_dtable) := mem in
  if (entry_size =? 0) || (entries0 =? 0) then None
  else if negb (mem_table && mem_htable && ((oentries =? 0) || (mem_otable && mem_dtable))) then None
  else
    let bucket_size := if bucket_size0 =? 0 then VR_HENTRIES_PER_BUCKET else bucket_size0 in
    let entries := u32 (u32 (entries0 + bucket_size - 1) / bucket_size * bucket_size) in
    let main := (fun i => mk_hentry None i 0 VR_INVALID_HENTRY_INDEX 0 d0) <$> seqZ 0 entries in
    let oflow := (fun i => mk_hentry (if i =? oentries - 1 then None else Some (entries + i + 1))
                             (entries + i) 0 VR_INVALID_HENTRY_INDEX VR_HENTRY_FLAG_IN_FREE_LIST d0)
                 <$> seqZ 0 oentries in
    let dtable := if oentries =? 0 then [] else replicate (Z.to_nat (entries / bucket_size)) (mk_dd 0 0 0) in
    Some (mk_htable entries oentries key_size bucket_size (main ++ oflow) dtable
            (if oentries =? 0 then None else Some entries) 0 0 [] [] not_ready oracle).

(** ** Chains *)

Implicit Types (t : vr_htable) (es : list vr_hentry).

Definition nxt es (i : Z) : option Z := zget es i ≫= hentry_next.

(** [l] are the entries reached from [p] by following [hentry_next]. *)
Fixpoint linked es (p : option Z) (l : list Z) : Prop :=
  match l with
  | [] => p = None
  | i :: l' => p = Some i /\ linked es (nxt es i) l'
  end.

Lemma linked_ext es es' p l :
  (forall i, i ∈ l -> nxt es' i = nxt es i) -> linked es p l -> linked es' p l.
Proof.
  revert p. induction l as [|i l IH]; intros p Hx; [done|]. cbn. intros [-> Hl]. split; [done|].
  rewrite Hx by set_solver. apply IH; [set_solver|done].
Qed.

(** The last entry of a chain that hangs off [a]. *)
Definition last_of (a : Z) (l : list Z) : Z := default a (last l).

Lemma last_of_cons a i l : last_of a (i :: l) = last_of i l.
Proof. unfold last_of. rewrite last_cons. by destruct (last l). Qed.

Lemma last_of_snoc a l i : last_of a (l ++ [i]) = i.
Proof. unfold last_of. by rewrite last_snoc. Qed.

Lemma last_of_in a l : last_of a l ∈ a :: l.
Proof.
  revert a. induction l as [|i l IH]; intros a; [set_solver|]. rewrite last_of_cons.
  specialize (IH i). set_solver.
Qed.

Lemma linked_suffix es a pre rest :
  linked es (nxt es a) (pre ++ rest) -> linked es (nxt es (last_of a pre)) rest.
Proof.
  revert a. induction pre as [|i pre IH]; intros a; [done|]. cbn. intros [_ Hl].
  rewrite last_of_cons. by apply IH.
Qed.

(** Replacing what follows the last entry of a prefix. *)
Lemma linked_splice es es' a pre rest rest' :
  NoDup (a :: pre) -> linked es (nxt es a) (pre ++ rest) ->
  (forall x, x ∈ a :: pre -> x <> last_of a pre -> nxt es' x = nxt es x) ->
  linked es' (nxt es' (last_of a pre)) rest' -> linked es' (nxt es' a) (pre ++ rest').
Proof.
  revert a. induction pre as [|i pre IH]; intros a Hnd Hl Hx Hr; [done|].
  cbn in Hl. destruct Hl as [Ha Hl]. rewrite last_of_cons in *.
  apply NoDup_cons in Hnd as [Hai Hnd].
  assert (a <> last_of i pre). { pose proof (last_of_in i pre). set_solver. }
  cbn. split; [rewrite Hx by set_solver; done|].
  apply IH; [done|done| |done]. intros x Hin Hne. apply Hx; [set_solver|done].
Qed.

Lemma zget_upd t i f j :
  zget (ht_entries (upd i f t)) j = if decide (i = j) then f <$> zget (ht_entries t) j else zget (ht_entries t) j.
Proof.
  unfold upd. destruct (zget (ht_entries t) i) as [e|] eqn:E; cbn.
  - rewrite zget_zset. pose proof (zget_range _ _ _ E).
    destruct (decide (i = j)) as [<-|Hne]; [rewrite decide_True by done; by rewrite E|].
    rewrite decide_False; [done|]. naive_solver.
  - case_decide as Hd; [|done]. subst. by rewrite E.
Qed.

Lemma nxt_upd t i f j :
  nxt (ht_entries (upd i f t)) j =
    if decide (i = j) then (f <$> zget (ht_entries t) j) ≫= hentry_next else nxt (ht_entries t) j.
Proof. unfold nxt. rewrite zget_upd. by case_decide. Qed.

Lemma zlen_upd t i f : zlen (ht_entries (upd i f t)) = zlen (ht_entries t).
Proof. unfold upd. destruct (zget _ i); [cbn; apply zlen_zset|done]. Qed.

(** An update changes nothing but the entries. *)
Lemma upd_frame t i f :
  ht_hentries (upd i f t) = ht_hentries t /\ ht_oentries (upd i f t) = ht_oentries t /\
  ht_key_size (upd i f t) = ht_key_size t /\ ht_bucket_size (upd i f t) = ht_bucket_size t /\
  ht_free_oentry_head (upd i f t) = ht_free_oentry_head t /\ ht_deferred (upd i f t) = ht_deferred t /\
  ht_not_ready (upd i f t) = ht_not_ready t.
Proof. unfold upd. by destruct (zget _ i). Qed.

Lemma upd_work t i f : ht_work (upd i f t) = ht_work t /\ ht_dtable (upd i f t) = ht_dtable t.
Proof. unfold upd. by destruct (zget _ i). Qed.

(** ** Well formed tables

    [free] is the free list and [chain b] the overflow chain of bucket [b].  The flags
    say where an overflow entry is: 8 on the free list, 0, 1 or 2 on a chain, 4 on its
    way from a chain to the free list. *)

Definition nbuckets t : Z := ht_hentries t / ht_bucket_size t.
Definition tail_of t (b : Z) : Z := b * ht_bucket_size t + ht_bucket_size t - 1.

Record wf t (free : list Z) (chain : Z -> list Z) : Prop := {
  wf_len : zlen (ht_entries t) = ht_hentries t + ht_oentries t;
  wf_pos : 0 < ht_hentries t /\ 0 <= ht_oentries t;
  wf_bs : exists e, 0 <= e /\ ht_bucket_size t = 2 ^ e;
  wf_div : ht_hentries t mod ht_bucket_size t = 0;
  wf_index : forall i e, zget (ht_entries t) i = Some e -> hentry_index e = i;
  wf_main : forall i e, i < ht_hentries t -> zget (ht_entries t) i = Some e ->
    hentry_flags e = 0 \/ hentry_flags e = 1;
  wf_free : linked (ht_entries t) (ht_free_oentry_head t) free;
  wf_free_nodup : NoDup free;
  wf_free_in : forall i, i ∈ free -> ht_hentries t <= i /\
    exists e, zget (ht_entries t) i = Some e /\ hentry_flags e = 8;
  wf_chain : forall b, 0 <= b < nbuckets t ->
    linked (ht_entries t) (nxt (ht_entries t) (tail_of t b)) (chain b);
  wf_chain_nodup : forall b, NoDup (chain b);
  wf_chain_in : forall b i, 0 <= b < nbuckets t -> i ∈ chain b -> ht_hentries t <= i /\
    exists e, zget (ht_entries t) i = Some e /\ hentry_bucket_index e = tail_of t b /\
      (hentry_flags e = 0 \/ hentry_flags e = 1 \/ hentry_flags e = 2);
  wf_deferred : NoDup (ht_deferred t) /\
    forall i, i ∈ ht_deferred t -> ht_hentries t <= i /\
      exists e, zget (ht_entries t) i = Some e /\ hentry_flags e = 4
}.

Lemma bucket_size_pos t free chain : wf t free chain -> 0 < ht_bucket_size t.
Proof. intros Hw. destruct (wf_bs _ _ _ Hw) as (e & He & ->). apply Z.pow_pos_nonneg; lia. Qed.

Lemma hentries_buckets t free chain : wf t free chain -> ht_hentries t = nbuckets t * ht_bucket_size t.
Proof.
  intros Hw. pose proof (bucket_size_pos _ _ _ Hw). unfold nbuckets.
  pose proof (Z.div_mod (ht_hentries t) (ht_bucket_size t) ltac:(lia)) as Hd. rewrite (wf_div _ _ _ Hw) in Hd. lia.
Qed.

(** The bucket of a key, by number. *)
Definition bucket_no t (key : list Z) : Z :=
  bucket_start key (ht_key_size t) t / ht_bucket_size t.

Lemma bucket_no_spec t free chain key :
  wf t free chain -> 0 <= bucket_no t key < nbuckets t /\
  bucket_start key (ht_key_size t) t = bucket_no t key * ht_bucket_size t.
Proof.
  intros Hw. pose proof (bucket_size_pos _ _ _ Hw) as Hbs. pose proof (hentries_buckets _ _ _ Hw) as Hh.
  destruct (wf_pos _ _ _ Hw) as [Hpos _]. destruct (wf_bs _ _ _ Hw) as (e & He & Eb).
  unfold bucket_no, bucket_start. set (x := Hash.vr_hash key (ht_key_size t) 0 mod ht_hentries t).
  assert (Hx : 0 <= x < ht_hentries t) by (apply Z.mod_pos_bound; lia).
  assert (El : Z.ldiff x (ht_bucket_size t - 1) = x / ht_bucket_size t * ht_bucket_size t).
  { rewrite Eb. replace (2 ^ e - 1) with (Z.ones e) by (rewrite Z.ones_equiv; lia).
    rewrite Z.ldiff_ones_r, Z.shiftl_mul_pow2, Z.shiftr_div_pow2 by lia. done. }
  rewrite El, Z.div_mul by lia. split; [|done]. split; [apply Z.div_pos; lia|].
  unfold nbuckets. apply Z.div_lt_upper_bound; [lia|]. fold (nbuckets t). nia.
Qed.

(** ** Look-up *)

Definition match_at t (key : list Z) (i : Z) : bool :=
  from_option (hentry_matches key (ht_key_size t)) false (zget (ht_entries t) i).

(** The entries a look-up of bucket [b] visits, in order. *)
Definition cands t (chain : Z -> list Z) (b : Z) : list Z :=
  seqZ (b * ht_bucket_size t) (ht_bucket_size t) ++ chain b.

Definition first_match t (key : list Z) (l : list Z) : option Z := head (filter (fun i => match_at t key i) l).

Lemma first_match_app t key l1 l2 :
  first_match t key (l1 ++ l2) = match first_match t key l1 with Some i => Some i | None => first_match t key l2 end.
Proof. unfold first_match. rewrite filter_app. by destruct (filter _ l1). Qed.

Lemma first_match_cons t key i l :
  first_match t key (i :: l) = if match_at t key i then Some i else first_match t key l.
Proof. unfold first_match. rewrite filter_cons. destruct (match_at t key i) eqn:E; cbn; [done|]. done. Qed.

Lemma find_bucket_spec t key idx :
  (forall i, i ∈ idx -> is_Some (zget (ht_entries t) i)) ->
  find_bucket key (ht_key_size t) idx t = first_match t key idx.
Proof.
  induction idx as [|i idx IH]; intros Hin; [done|]. cbn [find_bucket]. rewrite first_match_cons.
  destruct (Hin i) as [e He]; [set_solver|]. rewrite He. unfold match_at. rewrite He. cbn.
  destruct (hentry_matches key (ht_key_size t) e); [done|]. apply IH. set_solver.
Qed.

Lemma find_chain_spec t key fuel p l :
  linked (ht_entries t) p l -> (forall i, i ∈ l -> is_Some (zget (ht_entries t) i)) -> (length l <= fuel)%nat ->
  find_chain fuel key (ht_key_size t) p t = first_match t key l.
Proof.
  revert fuel p. induction l as [|i l IH]; intros fuel p Hl Hin Hf; cbn in Hl.
  { subst p. by destruct fuel. }
  destruct Hl as [-> Hl]. destruct fuel as [|fuel]; [cbn in Hf; lia|]. cbn [find_chain].
  rewrite first_match_cons. destruct (Hin i) as [e He]; [set_solver|]. rewrite He. unfold match_at.
  rewrite He. cbn. destruct (hentry_matches key (ht_key_size t) e); [done|].
  apply IH; [|set_solver|cbn in Hf; lia]. unfold nxt in Hl. by rewrite He in Hl.
Qed.

Lemma chain_range t free chain b i :
  wf t free chain -> 0 <= b < nbuckets t -> i ∈ chain b -> is_Some (zget (ht_entries t) i) /\
  ht_hentries t <= i < ht_hentries t + ht_oentries t.
Proof.
  intros Hw Hb Hi. destruct (wf_chain_in _ _ _ Hw b i Hb Hi) as (Hh & e & He & _).
  split; [by eauto|]. apply zget_range in He. rewrite (wf_len _ _ _ Hw) in He. lia.
Qed.

Lemma chain_short t free chain b :
  wf t free chain -> 0 <= b < nbuckets t -> (length (chain b) <= length (ht_entries t))%nat.
Proof.
  intros Hw Hb. transitivity (length (seqZ (ht_hentries t) (ht_oentries t))).
  - apply submseteq_length, NoDup_submseteq; [apply (wf_chain_nodup _ _ _ Hw)|].
    intros i Hi. destruct (chain_range _ _ _ _ _ Hw Hb Hi) as [_ Hr]. apply elem_of_seqZ. lia.
  - rewrite length_seqZ. pose proof (wf_len _ _ _ Hw) as Hl. destruct (wf_pos _ _ _ Hw). unfold zlen in Hl. lia.
Qed.

Lemma main_some t free chain b i :
  wf t free chain -> 0 <= b < nbuckets t ->
  i ∈ seqZ (b * ht_bucket_size t) (ht_bucket_size t) ->
  is_Some (zget (ht_entries t) i) /\ 0 <= i < ht_hentries t.
Proof.
  intros Hw Hb Hi%elem_of_seqZ. pose proof (bucket_size_pos _ _ _ Hw) as Hbs.
  pose proof (hentries_buckets _ _ _ Hw) as Hh. destruct (wf_pos _ _ _ Hw) as [_ Ho].
  assert (0 <= i < ht_hentries t) by nia. split; [|done].
  apply zget_is_Some. rewrite (wf_len _ _ _ Hw). lia.
Qed.

(** The look-up finds the first match among the candidates. *)
Lemma find_hentry_spec t free chain key :
  wf t free chain -> ht_key_size t <> 0 ->
  vr_htable_find_hentry key 0 t = first_match t key (cands t chain (bucket_no t key)).
Proof.
  intros Hw Hk. destruct (bucket_no_spec t free chain key Hw) as [Hb Hstart].
  unfold vr_htable_find_hentry. cbn [Z.eqb]. rewrite (proj2 (Z.eqb_neq _ _)) by done. rewrite Hstart.
  unfold cands. rewrite first_match_app.
  rewrite find_bucket_spec by (intros i Hi; by apply (main_some t free chain (bucket_no t key))).
  destruct (first_match t key (seqZ _ _)); [done|].
  apply find_chain_spec.
  - exact (wf_chain _ _ _ Hw _ Hb).
  - intros i Hi. by apply (chain_range t free chain (bucket_no t key)).
  - by apply (chain_short t free chain).
Qed.

Lemma first_match_spec t key l i : first_match t key l = Some i -> i ∈ l /\ match_at t key i = true.
Proof.
  unfold first_match. intros Hh%head_Some_elem_of%list_elem_of_filter. destruct Hh as [H1 H2].
  split; [done|by apply Is_true_true_1].
Qed.

Lemma first_match_ext t t' key l :
  (forall i, i ∈ l -> match_at t' key i = match_at t key i) -> first_match t' key l = first_match t key l.
Proof.
  intros Hx. induction l as [|i l IH]; [done|]. rewrite !first_match_cons, Hx by set_solver.
  destruct (match_at t key i); [done|]. apply IH. set_solver.
Qed.

Lemma first_match_none t key l i : first_match t key l = None -> i ∈ l -> match_at t key i = false.
Proof.
  unfold first_match. intros Hh Hi. destruct (match_at t key i) eqn:E; [|done].
  assert (Hf : i ∈ filter (fun i => match_at t key i) l) by (apply list_elem_of_filter; by rewrite E).
  destruct (filter _ l); [by apply not_elem_of_nil in Hf|done].
Qed.

(** ** Steps that keep a table well formed *)

Lemma wf_same t t' free chain :
  ht_hentries t' = ht_hentries t -> ht_oentries t' = ht_oentries t -> ht_bucket_size t' = ht_bucket_size t ->
  ht_entries t' = ht_entries t -> ht_free_oentry_head t' = ht_free_oentry_head t ->
  ht_deferred t' = ht_deferred t -> wf t free chain -> wf t' free chain.
Proof.
  intros E1 E2 E3 E4 E5 E6 [].
  split; unfold nbuckets, tail_of in *; rewrite ?E1, ?E2, ?E3, ?E4, ?E5, ?E6; done.
Qed.

(** A store that leaves an entry where it is. *)
Definition stays t (i : Z) (f : vr_hentry -> vr_hentry) : Prop :=
  forall e, zget (ht_entries t) i = Some e ->
    hentry_next (f e) = hentry_next e /\ hentry_index (f e) = hentry_index e /\
    (i < ht_hentries t -> hentry_flags (f e) = 0 \/ hentry_flags (f e) = 1) /\
    (ht_hentries t <= i -> hentry_bucket_index (f e) = hentry_bucket_index e /\
       (hentry_flags (f e) = hentry_flags e \/
        ((hentry_flags e = 0 \/ hentry_flags e = 1 \/ hentry_flags e = 2) /\
         (hentry_flags (f e) = 0 \/ hentry_flags (f e) = 1 \/ hentry_flags (f e) = 2)))).

Lemma wf_upd t free chain i f : wf t free chain -> stays t i f -> wf (upd i f t) free chain.
Proof.
  intros [Hl Hp Hbs Hd Hi Hm Hf Hfn Hfi Hc Hcn Hci Hdf] Hst.
  destruct (upd_frame t i f) as (E1 & E2 & E3 & E4 & E5 & E6 & E7).
  assert (Hn : forall j, nxt (ht_entries (upd i f t)) j = nxt (ht_entries t) j).
  { intros j. rewrite nxt_upd. case_decide as Hj; [|done]. subst j. unfold nxt.
    destruct (zget (ht_entries t) i) as [e|] eqn:E; [|done]. cbn. by apply Hst. }
  assert (Hz : forall j e', zget (ht_entries (upd i f t)) j = Some e' ->
    exists e, zget (ht_entries t) j = Some e /\ ((j <> i /\ e' = e) \/ (j = i /\ e' = f e))).
  { intros j e'. rewrite zget_upd. case_decide as Hj; [|eauto 10]. subst j.
    destruct (zget (ht_entries t) i) as [e|]; [|done]. cbn. intros [= <-]. eauto 10. }
  assert (Hz' : forall j e, zget (ht_entries t) j = Some e ->
    exists e', zget (ht_entries (upd i f t)) j = Some e' /\ ((j <> i /\ e' = e) \/ (j = i /\ e' = f e))).
  { intros j e He. rewrite zget_upd. case_decide as Hj; [subst j; rewrite He; cbn; eauto 10|eauto 10]. }
  split; unfold nbuckets, tail_of in *; rewrite ?E1, ?E2, ?E3, ?E4, ?E5, ?E6; try done.
  - by rewrite zlen_upd.
  - intros j e' He'. destruct (Hz j e' He') as (e & He & [[_ ->]|[-> ->]]); [eauto|].
    destruct (Hst e He) as (_ & -> & _). eauto.
  - intros j e' Hj He'. destruct (Hz j e' He') as (e & He & [[_ ->]|[-> ->]]); [eauto|]. by apply Hst.
  - apply (linked_ext (ht_entries t)); [|done]. intros; apply Hn.
  - intros j Hj. destruct (Hfi j Hj) as (Hh & e & He & Hfl). split; [done|].
    destruct (Hz' j e He) as (e' & He' & Hx). exists e'. split; [done|].
    destruct Hx as [[_ ->]|[-> ->]]; [done|]. destruct (Hst e He) as (_ & _ & _ & Hover).
    destruct (Hover Hh) as [_ [?|[? _]]]; lia.
  - intros b Hb. rewrite Hn. apply (linked_ext (ht_entries t)); [intros; apply Hn|auto].
  - intros b j Hb Hj. destruct (Hci b j Hb Hj) as (Hh & e & He & Hbi & Hfl). split; [done|].
    destruct (Hz' j e He) as (e' & He' & Hx). exists e'. split; [done|].
    destruct Hx as [[_ ->]|[-> ->]]; [done|]. destruct (Hst e He) as (_ & _ & _ & Hover).
    destruct (Hover Hh) as [-> Hfl']. split; [done|]. destruct Hfl' as [-> |[_ ?]]; done.
  - destruct Hdf as [Hdn Hdi]. split; [done|]. intros j Hj. destruct (Hdi j Hj) as (Hh & e & He & Hfl).
    split; [done|]. destruct (Hz' j e He) as (e' & He' & Hx). exists e'. split; [done|].
    destruct Hx as [[_ ->]|[-> ->]]; [done|]. destruct (Hst e He) as (_ & _ & _ & Hover).
    destruct (Hover Hh) as [_ [?|[? _]]]; lia.
Qed.

Lemma find_invalid_spec t idx :
  (forall i, i ∈ idx -> is_Some (zget (ht_entries t) i)) ->
  match find_invalid idx t with
  | Some i => i ∈ idx /\ exists e, zget (ht_entries t) i = Some e /\ has_flag VR_HENTRY_FLAG_VALID e = false
  | None => True
  end.
Proof.
  induction idx as [|i idx IH]; intros Hin; [done|]. cbn.
  destruct (Hin i) as [e He]; [set_solver|]. rewrite He.
  destruct (has_flag VR_HENTRY_FLAG_VALID e) eqn:Hv.
  - assert (Hx := IH ltac:(set_solver)). destruct (find_invalid idx t); [|done]. destruct Hx as [? ?]. set_solver.
  - split; [set_solver|eauto].
Qed.

Lemma link_entries t o last j :
  o <> last ->
  zget (ht_entries (link_oentry o last t)) j =
    if decide (j = last) then
      with_next_index (from_option hentry_index 0 (zget (ht_entries t) o)) ∘ with_next (Some o) <$> zget (ht_entries t) j
    else if decide (j = o) then
      with_next (nxt (ht_entries t) last) ∘ with_next_index
        (match nxt (ht_entries t) last with
         | Some n => match zget (ht_entries t) n with Some en => hentry_index en | None => 0 end
         | None => VR_INVALID_HENTRY_INDEX
         end) ∘ with_bucket_index last ∘ with_flags VR_HENTRY_FLAG_VALID <$> zget (ht_entries t) j
    else zget (ht_entries t) j.
Proof.
  intros Hne. unfold link_oentry. rewrite zget_upd, !zget_upd. rewrite (decide_True (P := o = o)) by done.
  destruct (decide (last = j)) as [<-|H1].
  - rewrite (decide_True (P := last = last)), (decide_False (P := o = last)) by done.
    destruct (zget (ht_entries t) o); done.
  - rewrite (decide_False (P := j = last)) by congruence.
    destruct (decide (o = j)) as [<-|H2]; [by rewrite (decide_True (P := o = o))|].
    by rewrite (decide_False (P := j = o)) by congruence.
Qed.

Lemma get_free_spec t free chain :
  wf t free chain ->
  match free with
  | [] => vr_htable_get_free_oentry t = (None, t)
  | o :: free' => exists t1, vr_htable_get_free_oentry t = (Some o, t1) /\
      ht_hentries t1 = ht_hentries t /\ ht_oentries t1 = ht_oentries t /\
      ht_key_size t1 = ht_key_size t /\ ht_bucket_size t1 = ht_bucket_size t /\
      ht_deferred t1 = ht_deferred t /\ ht_free_oentry_head t1 = nxt (ht_entries t) o /\
      (forall j, zget (ht_entries t1) j =
         if decide (j = o) then (fun e => with_flags 0 (with_next None e)) <$> zget (ht_entries t) j
         else zget (ht_entries t) j)
  end.
Proof.
  intros Hw. pose proof (wf_free _ _ _ Hw) as Hl. unfold vr_htable_get_free_oentry.
  destruct free as [|o free']; cbn in Hl; [by rewrite Hl|]. destruct Hl as [-> Hl].
  destruct (wf_free_in _ _ _ Hw o) as (Hh & e & He & Hfl); [set_solver|]. rewrite He.
  eexists. split; [done|].
  match goal with |- context [upd o ?f ?t0] => destruct (upd_frame t0 o f) as (-> & -> & -> & -> & -> & -> & _);
    set (ff := f); set (t00 := t0) end.
  split_and!; try done; [unfold nxt; by rewrite He|].
  intros j. rewrite zget_upd. cbn [t00 ht_entries set_free].
  destruct (decide (o = j)) as [<-|Hne]; [|by rewrite decide_False by congruence].
  rewrite decide_True by done. rewrite He. cbn. unfold ff. cbn. by rewrite Hfl.
Qed.

Lemma tail_of_range t free chain b :
  wf t free chain -> 0 <= b < nbuckets t -> 0 <= tail_of t b < ht_hentries t.
Proof.
  intros Hw Hb. pose proof (bucket_size_pos _ _ _ Hw). pose proof (hentries_buckets _ _ _ Hw).
  unfold tail_of. nia.
Qed.

Lemma tail_of_inj t free chain b b' : wf t free chain -> tail_of t b = tail_of t b' -> b = b'.
Proof. intros Hw. pose proof (bucket_size_pos _ _ _ Hw). unfold tail_of. nia. Qed.

(** An entry is on one list only. *)
Lemma chain_not_free t free chain b i :
  wf t free chain -> 0 <= b < nbuckets t -> i ∈ chain b -> i ∉ free.
Proof.
  intros Hw Hb Hi Hf. destruct (wf_chain_in _ _ _ Hw b i Hb Hi) as (_ & e & He & _ & Hfl).
  destruct (wf_free_in _ _ _ Hw i Hf) as (_ & e' & He' & Hfl'). simplify_eq. lia.
Qed.

Lemma chain_disjoint t free chain b b' i :
  wf t free chain -> 0 <= b < nbuckets t -> 0 <= b' < nbuckets t -> i ∈ chain b -> i ∈ chain b' -> b = b'.
Proof.
  intros Hw Hb Hb' Hi Hi'. destruct (wf_chain_in _ _ _ Hw b i Hb Hi) as (_ & e & He & H1 & _).
  destruct (wf_chain_in _ _ _ Hw b' i Hb' Hi') as (_ & e' & He' & H2 & _). simplify_eq.
  apply (tail_of_inj t free chain); [done|]. congruence.
Qed.

Definition push_chain (chain : Z -> list Z) (b o : Z) : Z -> list Z :=
  fun b' => if decide (b' = b) then o :: chain b else chain b'.

Lemma link_frame t o last :
  ht_hentries (link_oentry o last t) = ht_hentries t /\ ht_oentries (link_oentry o last t) = ht_oentries t /\
  ht_key_size (link_oentry o last t) = ht_key_size t /\ ht_bucket_size (link_oentry o last t) = ht_bucket_size t /\
  ht_free_oentry_head (link_oentry o last t) = ht_free_oentry_head t /\
  ht_deferred (link_oentry o last t) = ht_deferred t /\
  zlen (ht_entries (link_oentry o last t)) = zlen (ht_entries t).
Proof.
  unfold link_oentry. set (t2 := upd o _ t). set (f := fun e => with_next_index _ (with_next (Some o) e)).
  destruct (upd_frame t2 last f) as (-> & -> & -> & -> & -> & -> & _).
  rewrite zlen_upd. unfold t2 at 7. rewrite zlen_upd.
  unfold t2. match goal with |- context [upd o ?g t] => destruct (upd_frame t o g) as (-> & -> & -> & -> & -> & -> & _) end.
  done.
Qed.

(** What taking [o] from the free list and linking it at [last] changes. *)
Record linked_in t t3 (o last : Z) : Prop := {
  li_h : ht_hentries t3 = ht_hentries t;
  li_o : ht_oentries t3 = ht_oentries t;
  li_key : ht_key_size t3 = ht_key_size t;
  li_bs : ht_bucket_size t3 = ht_bucket_size t;
  li_head : ht_free_oentry_head t3 = nxt (ht_entries t) o;
  li_def : ht_deferred t3 = ht_deferred t;
  li_len : zlen (ht_entries t3) = zlen (ht_entries t);
  li_other : forall j, j <> o -> j <> last -> zget (ht_entries t3) j = zget (ht_entries t) j;
  li_new : exists e, zget (ht_entries t3) o = Some e /\ hentry_next e = nxt (ht_entries t) last /\
    hentry_index e = o /\ hentry_bucket_index e = last /\ hentry_flags e = 1;
  li_last : forall e, zget (ht_entries t) last = Some e ->
    exists e', zget (ht_entries t3) last = Some e' /\ hentry_next e' = Some o /\
      hentry_index e' = hentry_index e /\ hentry_flags e' = hentry_flags e /\ hentry_data e' = hentry_data e
}.

Lemma link_linked_in t t1 free o chain b :
  wf t (o :: free) chain -> 0 <= b < nbuckets t -> vr_htable_get_free_oentry t = (Some o, t1) ->
  linked_in t (link_oentry o (tail_of t b) t1) o (tail_of t b).
Proof.
  intros Hw Hb Hg.
  destruct (get_free_spec t (o :: free) chain Hw) as (t1' & Hg' & F1 & F2 & F3 & F4 & F5 & F6 & Hz1).
  rewrite Hg in Hg'. injection Hg' as <-. set (last := tail_of t b).
  pose proof (tail_of_range t _ _ b Hw Hb) as Hlast. fold last in Hlast.
  destruct (wf_free_in _ _ _ Hw o) as (Hoh & eo & Heo & Hfo); [set_solver|].
  assert (Hol : o <> last) by lia.
  assert (Hlast1 : zget (ht_entries t1) last = zget (ht_entries t) last) by (rewrite Hz1; by rewrite decide_False by lia).
  destruct (link_frame t1 o last) as (E1 & E2 & E3 & E4 & E5 & E6 & E7).
  split; try congruence.
  - rewrite E7. unfold vr_htable_get_free_oentry in Hg.
    destruct (ht_free_oentry_head t) as [z|]; [|done]. destruct (zget (ht_entries t) z) as [ez|]; [|done].
    simplify_eq. rewrite zlen_upd. done.
  - intros j H1 H2. rewrite link_entries by done. rewrite !decide_False by done. rewrite Hz1. by rewrite decide_False.
  - rewrite link_entries by done. rewrite decide_False, decide_True by done. rewrite Hz1, decide_True, Heo by done.
    cbn. eexists. split; [done|]. cbn. unfold nxt at 1. rewrite Hlast1.
    rewrite (wf_index _ _ _ Hw o eo Heo). done.
  - intros e He. rewrite link_entries by done. rewrite decide_True, Hlast1, He by done. cbn. eauto 10.
Qed.

Lemma wf_linked_in t t3 free o chain b :
  wf t (o :: free) chain -> 0 <= b < nbuckets t -> linked_in t t3 o (tail_of t b) ->
  wf t3 free (push_chain chain b o).
Proof.
  intros Hw Hb [E1 E2 E3 E4 E5 E6 E7 Hoth (eo & Heo & Hn & Hi' & Hbi & Hfl) Hlst].
  pose proof (tail_of_range t _ _ b Hw Hb) as Hlast. set (last := tail_of t b) in *.
  destruct (wf_free_in _ _ _ Hw o) as (Hoh & eo0 & Heo0 & Hfo); [set_solver|].
  pose proof Hw as [Hl Hp Hbs Hd Hi Hm Hf Hfn Hfi Hc Hcn Hci Hdf].
  apply NoDup_cons in Hfn as [Hof Hfn]. cbn in Hf. destruct Hf as [_ Hf].
  destruct (zget_is_Some (ht_entries t) last) as [el Hel]; [lia|].
  destruct (Hlst el Hel) as (el' & Hel' & Hln & Hli & Hlf & _).
  assert (Hnx : forall j, j <> o -> j <> last -> nxt (ht_entries t3) j = nxt (ht_entries t) j).
  { intros j H1 H2. unfold nxt. by rewrite Hoth. }
  assert (Hpull : forall j e', zget (ht_entries t3) j = Some e' -> j <> o -> exists e,
    zget (ht_entries t) j = Some e /\ hentry_index e' = hentry_index e /\ hentry_flags e' = hentry_flags e).
  { intros j e' He' Hjo. destruct (decide (j = last)) as [->|]; [simplify_eq; eauto|].
    rewrite Hoth in He' by done. eauto. }
  assert (Hco : forall b' j, 0 <= b' < nbuckets t -> j ∈ chain b' -> j <> o /\ j <> last).
  { intros b' j Hb' Hj. split; [|destruct (chain_range _ _ _ _ _ Hw Hb' Hj); lia].
    intros ->. apply (chain_not_free _ _ _ _ _ Hw Hb' Hj). set_solver. }
  assert (Hfo' : forall j, j ∈ free -> j <> o /\ j <> last).
  { intros j Hj. split; [by intros ->|]. destruct (Hfi j); [set_solver|lia]. }
  split; unfold nbuckets, tail_of in *; rewrite ?E1, ?E2, ?E4, ?E5, ?E6, ?E7; try done.
  - intros j e' He'. destruct (decide (j = o)) as [->|Hjo]; [by simplify_eq|].
    destruct (Hpull j e' He' Hjo) as (e & He & -> & _). eauto.
  - intros j e' Hj He'. destruct (Hpull j e' He') as (e & He & _ & ->); [lia|]. eauto.
  - apply (linked_ext (ht_entries t)); [|done]. intros j Hj. destruct (Hfo' j Hj). by apply Hnx.
  - intros j Hj. destruct (Hfi j) as (Hh & e & He & Hfe); [set_solver|]. split; [done|]. exists e.
    destruct (Hfo' j Hj). by rewrite Hoth.
  - intros b' Hb'. unfold push_chain. case_decide as Hbb.
    + subst b'. fold last. unfold nxt at 1. rewrite Hel'. cbn. split; [done|]. unfold nxt. rewrite Heo. cbn.
      rewrite Hn. apply (linked_ext (ht_entries t)); [|by apply Hc].
      intros j Hj. destruct (Hco b j Hb Hj). by apply Hnx.
    + rewrite Hnx; [|pose proof (tail_of_range t _ _ b' Hw Hb'); unfold tail_of in *; lia|
        intros E; apply Hbb; apply (tail_of_inj t _ _ b' b Hw); exact E].
      apply (linked_ext (ht_entries t)); [|by apply Hc]. intros j Hj. destruct (Hco b' j Hb' Hj). by apply Hnx.
  - intros b'. unfold push_chain. case_decide as Hbb; [|apply Hcn]. apply NoDup_cons. split; [|apply Hcn].
    intros Hin. by destruct (Hco b o Hb Hin).
  - intros b' j Hb' Hj. unfold push_chain in Hj.
    assert (Hcase : (j = o /\ b' = b) \/ j ∈ chain b').
    { destruct (decide (b' = b)) as [->|]; [apply elem_of_cons in Hj as [->|]; auto|by right]. }
    destruct Hcase as [[-> ->]|Hjc]; [split; [done|]; exists eo; rewrite Hfl; auto|].
    destruct (Hci b' j Hb' Hjc) as (Hh & e & He & Hbe & Hfe). split; [done|]. exists e.
    destruct (Hco b' j Hb' Hjc). by rewrite Hoth.
  - destruct Hdf as [Hdn Hdi]. split; [done|]. intros j Hj. destruct (Hdi j Hj) as (Hh & e & He & Hfe).
    split; [done|]. exists e. rewrite Hoth; [done| |lia]. intros ->. simplify_eq. lia.
Qed.

(** ** The table as a finite map *)

(** Two tables of the same shape: keys have the same buckets. *)
Definition same_shape t t' : Prop :=
  ht_hentries t' = ht_hentries t /\ ht_key_size t' = ht_key_size t /\ ht_bucket_size t' = ht_bucket_size t.

Lemma same_shape_bucket t t' key : same_shape t t' -> bucket_no t' key = bucket_no t key.
Proof. intros (E1 & E2 & E3). unfold bucket_no, bucket_start. by rewrite E1, E2, E3. Qed.

Definition others (i : Z) (l : list Z) : list Z := filter (fun j => j <> i) l.

Lemma first_match_others t key i l :
  match_at t key i = false -> first_match t key l = first_match t key (others i l).
Proof.
  intros Hi. induction l as [|j l IH]; [done|]. unfold others. rewrite filter_cons, first_match_cons.
  case_decide as Hj; [rewrite first_match_cons, IH; done|].
  assert (j = i) as -> by (destruct (decide (j = i)); naive_solver). by rewrite Hi, IH.
Qed.

Lemma first_match_only t key i l :
  i ∈ l -> match_at t key i = true -> (forall j, j ∈ l -> j <> i -> match_at t key j = false) ->
  first_match t key l = Some i.
Proof.
  intros Hi Hm Ho. destruct (first_match t key l) as [j|] eqn:E.
  - apply first_match_spec in E as [Hj Hmj]. destruct (decide (j = i)) as [->|Hne]; [done|].
    by rewrite Ho in Hmj.
  - by rewrite (first_match_none _ _ _ i E Hi) in Hm.
Qed.

(** What claiming an entry for a key does. *)
Record claimed t t1 (free : list Z) (chain : Z -> list Z) (key : list Z) (i : Z)
    (free' : list Z) (chain' : Z -> list Z) : Prop := {
  cl_wf : wf t1 free' chain';
  cl_shape : same_shape t t1;
  cl_in : i ∈ cands t1 chain' (bucket_no t key);
  cl_valid : exists e, zget (ht_entries t1) i = Some e /\ hentry_flags e = 1;
  cl_unused : forall k, match_at t k i = false;
  cl_same : forall k j, j <> i -> match_at t1 k j = match_at t k j;
  cl_others : forall b, others i (cands t1 chain' b) = others i (cands t chain b)
}.

Lemma match_at_data t t' key j e e' :
  ht_key_size t' = ht_key_size t ->
  zget (ht_entries t) j = Some e -> zget (ht_entries t') j = Some e' ->
  hentry_flags e' = hentry_flags e -> hentry_data e' = hentry_data e -> match_at t' key j = match_at t key j.
Proof.
  intros Hk He He' Hf Hd. unfold match_at. rewrite He, He', Hk. cbn.
  unfold hentry_matches, has_flag. by rewrite Hf, Hd.
Qed.

Lemma match_at_invalid t key j e :
  zget (ht_entries t) j = Some e -> has_flag VR_HENTRY_FLAG_VALID e = false -> match_at t key j = false.
Proof. intros He Hv. unfold match_at. rewrite He. cbn. unfold hentry_matches. by rewrite Hv. Qed.

Lemma claim_main t free chain key i e :
  wf t free chain -> i ∈ seqZ (bucket_no t key * ht_bucket_size t) (ht_bucket_size t) ->
  zget (ht_entries t) i = Some e -> has_flag VR_HENTRY_FLAG_VALID e = false ->
  claimed t (set_used (ht_used_entries t + 1)
    (upd i (fun e => with_bucket_index VR_INVALID_HENTRY_INDEX (with_flags VR_HENTRY_FLAG_VALID e)) t))
    free chain key i free chain.
Proof.
  intros Hw Hi He Hv. destruct (bucket_no_spec t free chain key Hw) as [Hb _].
  destruct (main_some t free chain _ i Hw Hb Hi) as [_ Hr].
  set (f := fun e => with_bucket_index VR_INVALID_HENTRY_INDEX (with_flags VR_HENTRY_FLAG_VALID e)).
  destruct (upd_frame t i f) as (E1 & E2 & E3 & E4 & E5 & E6 & E7).
  assert (Hw1 : wf (upd i f t) free chain).
  { apply wf_upd; [done|]. intros e0 He0. split_and!; try done; [by right|lia]. }
  split.
  - by apply (wf_same (upd i f t)).
  - split; [done|]. split; done.
  - unfold cands. cbn [ht_bucket_size set_used]. rewrite E4. apply elem_of_app. by left.
  - cbn. rewrite zget_upd, decide_True, He by done. by eexists.
  - intros k. by apply (match_at_invalid _ _ _ e).
  - intros k j Hj. unfold match_at. cbn [ht_entries set_used ht_key_size]. rewrite zget_upd, E3.
    by rewrite decide_False by done.
  - intros b. unfold cands. cbn [ht_bucket_size set_used]. by rewrite E4.
Qed.

Lemma others_push (i : Z) l1 l2 : others i (l1 ++ i :: l2) = others i (l1 ++ l2).
Proof.
  unfold others. rewrite !filter_app, filter_cons. rewrite decide_False; [done|]. intros H1. by apply H1.
Qed.

Lemma find_free_claims t free chain key i t1 :
  wf t free chain -> ht_key_size t <> 0 -> vr_htable_find_free_hentry key 0 t = (Some i, t1) ->
  exists free' chain', claimed t t1 free chain key i free' chain'.
Proof.
  intros Hw Hk Hff. destruct (bucket_no_spec t free chain key Hw) as [Hb Hstart].
  unfold vr_htable_find_free_hentry in Hff. cbn [Z.eqb] in Hff.
  rewrite (proj2 (Z.eqb_neq _ _)) in Hff by done. rewrite Hstart in Hff.
  pose proof (find_invalid_spec t (seqZ (bucket_no t key * ht_bucket_size t) (ht_bucket_size t))
    (fun i Hi => proj1 (main_some t free chain _ i Hw Hb Hi))) as Hfi.
  destruct (find_invalid _ t) as [j|].
  { destruct Hfi as (Hj & e & He & Hv). injection Hff as <- <-. exists free, chain. by apply (claim_main _ _ _ _ _ e). }
  destruct (ht_oentries t =? 0); [done|].
  pose proof (get_free_spec t free chain Hw) as Hg.
  destruct free as [|o free']; [by rewrite Hg in Hff|].
  destruct Hg as (t2 & Hg & _). rewrite Hg in Hff. injection Hff as <- <-.
  change (bucket_no t key * ht_bucket_size t + ht_bucket_size t - 1) with (tail_of t (bucket_no t key)).
  pose proof (link_linked_in t t2 free' o chain _ Hw Hb Hg) as Hli.
  set (t3 := link_oentry o (tail_of t (bucket_no t key)) t2) in *.
  exists free', (push_chain chain (bucket_no t key) o).
  destruct (wf_free_in _ _ _ Hw o) as (Hoh & eo & Heo & Hfo); [set_solver|].
  pose proof (wf_linked_in t t3 free' o chain _ Hw Hb Hli) as Hw3.
  destruct Hli as [E1 E2 E3 E4 E5 E6 E7 Hoth (e3 & He3 & _ & _ & _ & Hf3) Hlst].
  split.
  - by apply (wf_same t3).
  - by split.
  - unfold cands, push_chain. rewrite decide_True by done. set_solver.
  - exists e3. split; [exact He3|done].
  - intros k. apply (match_at_invalid _ _ _ eo Heo). unfold has_flag. by rewrite Hfo.
  - intros k j Hj. cbn. destruct (decide (j = tail_of t (bucket_no t key))) as [->|Hjl].
    + pose proof (tail_of_range t _ _ _ Hw Hb).
      destruct (zget_is_Some (ht_entries t) (tail_of t (bucket_no t key))) as [el Hel].
      { rewrite (wf_len _ _ _ Hw). destruct (wf_pos _ _ _ Hw). lia. }
      destruct (Hlst el Hel) as (el' & Hel' & _ & _ & Hfl & Hdl).
      by apply (match_at_data t (set_used (ht_used_entries t3 + 1) t3) k _ el el').
    + unfold match_at. cbn [ht_entries set_used ht_key_size]. by rewrite E3, Hoth.
  - intros b. unfold cands. cbn [ht_bucket_size set_used]. rewrite E4. unfold push_chain.
    case_decide as Hbb; [subst b; apply others_push|done].
Qed.

(** The data the client stores does not move the entry. *)
Lemma stays_data t i d free chain : wf t free chain -> stays t i (with_hdata d).
Proof. intros Hw e He. cbn. split_and!; try done; [|auto]. intros Hi. by apply (wf_main _ _ _ Hw i e). Qed.

Lemma match_at_key t key i e k :
  zget (ht_entries t) i = Some e -> hentry_flags e = 1 -> ht_get_key (hentry_data e) = Some k ->
  zlen k = ht_key_size t -> zlen key = ht_key_size t ->
  match_at t key i = bool_decide (k = key).
Proof.
  intros He Hf Hk Hl Hl'. unfold match_at, hentry_matches, has_flag. rewrite He. cbn. rewrite Hf, Hk, Hl. cbn.
  rewrite Z.eqb_refl. cbn. rewrite !take_ge by (unfold zlen in *; lia). done.
Qed.

(** ** Entries on no list *)

Record loose t (free : list Z) (chain : Z -> list Z) (i : Z) : Prop := {
  lo_range : ht_hentries t <= i;
  lo_free : i ∉ free;
  lo_chain : forall b, 0 <= b < nbuckets t -> i ∉ chain b;
  lo_def : i ∉ ht_deferred t
}.

Lemma wf_upd_loose t free chain i f :
  wf t free chain -> loose t free chain i -> (forall e, hentry_index (f e) = hentry_index e) ->
  wf (upd i f t) free chain /\ loose (upd i f t) free chain i.
Proof.
  intros Hw Hlo Hidx. pose proof Hw as [Hl Hp Hbs Hd Hi Hm Hf Hfn Hfi Hc Hcn Hci Hdf].
  destruct Hlo as [Hr Hlf Hlc Hld].
  destruct (upd_frame t i f) as (E1 & E2 & E3 & E4 & E5 & E6 & E7).
  assert (Hz : forall j, j <> i -> zget (ht_entries (upd i f t)) j = zget (ht_entries t) j).
  { intros j Hj. rewrite zget_upd. by rewrite decide_False by congruence. }
  assert (Hn : forall j, j <> i -> nxt (ht_entries (upd i f t)) j = nxt (ht_entries t) j).
  { intros j Hj. unfold nxt. by rewrite Hz. }
  split; [|split; unfold nbuckets in *; rewrite ?E1, ?E4, ?E6; done].
  split; unfold nbuckets, tail_of in *; rewrite ?E1, ?E2, ?E3, ?E4, ?E5, ?E6; try done.
  - by rewrite zlen_upd.
  - intros j e. rewrite zget_upd. case_decide as Hj; [|apply Hi].
    subst j. destruct (zget (ht_entries t) i) as [e0|] eqn:E; [|done]. cbn. intros [= <-]. rewrite Hidx. eauto.
  - intros j e Hj He. rewrite Hz in He by lia. eauto.
  - apply (linked_ext (ht_entries t)); [|done]. intros j Hj. apply Hn. by intros ->.
  - intros j Hj. rewrite Hz by (by intros ->). auto.
  - intros b Hb. rewrite Hn; [|pose proof (tail_of_range t _ _ b Hw Hb); unfold tail_of in *; lia].
    apply (linked_ext (ht_entries t)); [|by apply Hc]. intros j Hj. apply Hn. intros ->. by apply (Hlc b).
  - intros b j Hb Hj. rewrite Hz by (intros ->; by apply (Hlc b)). auto.
  - destruct Hdf as [Hdn Hdi]. split; [done|]. intros j Hj. rewrite Hz by (by intros ->). auto.
Qed.

Lemma wf_push_free t free chain i e used :
  wf t free chain -> loose t free chain i -> zget (ht_entries t) i = Some e ->
  hentry_flags e = 8 -> hentry_next e = ht_free_oentry_head t ->
  wf (set_free (Some i) used t) (i :: free) chain.
Proof.
  intros [Hl Hp Hbs Hd Hi Hm Hf Hfn Hfi Hc Hcn Hci Hdf] [Hr Hlf _ _] He Hfl Hnx.
  split; try done; cbn.
  - split; [done|]. unfold nxt. rewrite He. cbn. by rewrite Hnx.
  - by apply NoDup_cons.
  - intros j [->|Hj]%elem_of_cons; [|auto]. eauto.
Qed.

Lemma invalidate_spec t free chain i e :
  wf t free chain -> loose t free chain i -> zget (ht_entries t) i = Some e -> hentry_flags e = 4 ->
  wf (vr_htable_oentry_invalidate i t) (i :: free) chain /\ same_shape t (vr_htable_oentry_invalidate i t) /\
  (forall k j, match_at (vr_htable_oentry_invalidate i t) k j = match_at t k j) /\
  ht_not_ready (vr_htable_oentry_invalidate i t) = ht_not_ready t /\
  length (ht_entries (vr_htable_oentry_invalidate i t)) = length (ht_entries t).
Proof.
  intros Hw Hlo He Hfl. pose proof (wf_index _ _ _ Hw i e He) as Hix. destruct Hlo as [Hr ? ? ?] eqn:Elo. clear Elo.
  unfold vr_htable_oentry_invalidate. rewrite He, Hix, (proj2 (Z.ltb_ge _ _)) by lia.
  set (f := fun e => with_next None _). destruct (wf_upd_loose t free chain i f Hw Hlo ltac:(done)) as [Hw1 Hlo1].
  destruct (upd_frame t i f) as (E1 & E2 & E3 & E4 & E5 & E6 & E7).
  assert (He1 : zget (ht_entries (upd i f t)) i = Some (f e)) by (rewrite zget_upd, decide_True, He by done; done).
  unfold vr_htable_put_free_oentry. rewrite He1. cbn [f hentry_index with_next with_next_index with_bucket_index with_flags].
  rewrite E1, Hix, (proj2 (Z.ltb_ge _ _)) by lia.
  replace (has_flag VR_HENTRY_FLAG_IN_FREE_LIST _) with false by (unfold has_flag; cbn; by rewrite Hfl).
  set (g := fun e0 => with_next (ht_free_oentry_head (upd i f t)) _).
  destruct (wf_upd_loose (upd i f t) free chain i g Hw1 Hlo1 ltac:(done)) as [Hw2 Hlo2].
  destruct (upd_frame (upd i f t) i g) as (G1 & G2 & G3 & G4 & G5 & G6 & G7).
  assert (He2 : zget (ht_entries (upd i g (upd i f t))) i = Some (g (f e))) by (rewrite zget_upd, decide_True, He1 by done; done).
  split; [|split; [|split; [|split]]].
  - apply (wf_push_free _ _ _ _ (g (f e))); [done|done|done|cbn; by rewrite Hfl|]. cbn. by rewrite G5.
  - split; [cbn; congruence|]. split; cbn; congruence.
  - intros k j. destruct (decide (j = i)) as [->|Hj].
    + rewrite (match_at_invalid _ _ _ (g (f e))); [|exact He2|unfold has_flag; cbn; by rewrite Hfl].
      symmetry. apply (match_at_invalid _ _ _ e He). unfold has_flag. by rewrite Hfl.
    + unfold match_at. cbn [ht_entries ht_key_size set_free]. rewrite !zget_upd, G3, E3.
      by rewrite !decide_False by congruence.
  - cbn. congruence.
  - cbn. pose proof (zlen_upd (upd i f t) i g). pose proof (zlen_upd t i f). unfold zlen in *. lia.
Qed.

(** ** Unlinking a marked entry *)

Definition drop_chain (chain : Z -> list Z) (b : Z) (l : list Z) : Z -> list Z :=
  fun b' => if decide (b' = b) then l else chain b'.

(** The two stores of the walk that take [i] out of its chain. *)
Definition unlink (i prev next_index : Z) (next : option Z) t : vr_htable :=
  upd i (fun e => with_flags (Z.lor (Z.ldiff (hentry_flags e) VR_HENTRY_FLAG_DELETE_MARKED)
                                VR_HENTRY_FLAG_DELETE_PROCESSED) e)
    (upd prev (fun p => with_next_index next_index (with_next next p)) t).

Lemma unlink_frame i prev ni nx t :
  ht_hentries (unlink i prev ni nx t) = ht_hentries t /\ ht_oentries (unlink i prev ni nx t) = ht_oentries t /\
  ht_key_size (unlink i prev ni nx t) = ht_key_size t /\ ht_bucket_size (unlink i prev ni nx t) = ht_bucket_size t /\
  ht_free_oentry_head (unlink i prev ni nx t) = ht_free_oentry_head t /\
  ht_deferred (unlink i prev ni nx t) = ht_deferred t /\ ht_not_ready (unlink i prev ni nx t) = ht_not_ready t /\
  length (ht_entries (unlink i prev ni nx t)) = length (ht_entries t).
Proof.
  unfold unlink. set (t1 := upd prev _ t). set (f := fun e => with_flags _ e).
  destruct (upd_frame t1 i f) as (-> & -> & -> & -> & -> & -> & ->).
  pose proof (zlen_upd t1 i f) as L1. unfold t1 in *.
  match goal with |- context [upd prev ?g t] => destruct (upd_frame t prev g) as (-> & -> & -> & -> & -> & -> & ->);
    pose proof (zlen_upd t prev g) end. unfold zlen in *. split_and!; try done. lia.
Qed.

Lemma unlink_entries i prev ni nx t j e :
  i <> prev -> zget (ht_entries t) j = Some e ->
  exists e', zget (ht_entries (unlink i prev ni nx t)) j = Some e' /\
    hentry_index e' = hentry_index e /\ hentry_bucket_index e' = hentry_bucket_index e /\
    hentry_data e' = hentry_data e /\
    hentry_flags e' = (if decide (j = i) then Z.lor (Z.ldiff (hentry_flags e) 2) 4 else hentry_flags e) /\
    hentry_next e' = if decide (j = prev) then nx else hentry_next e.
Proof.
  intros Hne He. unfold unlink. rewrite !zget_upd, He.
  destruct (decide (i = j)) as [<-|H1].
  - rewrite (decide_False (P := prev = i)) by congruence. cbn. eexists. split; [done|]. cbn.
    rewrite (decide_True (P := i = i)), (decide_False (P := i = prev)) by congruence. done.
  - rewrite (decide_False (P := j = i)) by congruence. destruct (decide (prev = j)) as [<-|H2]; cbn.
    + eexists. split; [done|]. cbn. by rewrite decide_True.
    + eexists. split; [done|]. by rewrite decide_False by congruence.
Qed.

Lemma unlink_nxt i prev ni nx t j :
  i <> prev -> j <> prev -> nxt (ht_entries (unlink i prev ni nx t)) j = nxt (ht_entries t) j.
Proof.
  intros Hne Hj. unfold nxt. destruct (zget (ht_entries t) j) as [ej|] eqn:Ej.
  - destruct (unlink_entries i prev ni nx t j ej Hne Ej) as (e' & -> & _ & _ & _ & _ & Hnx).
    rewrite decide_False in Hnx by done. by cbn.
  - destruct (zget (ht_entries (unlink i prev ni nx t)) j) as [e'|] eqn:E; [|done].
    apply zget_range in E. destruct (unlink_frame i prev ni nx t) as (_ & _ & _ & _ & _ & _ & _ & E8).
    unfold zlen in E. rewrite E8 in E. destruct (zget_is_Some (ht_entries t) j) as [x Hx]; [done|]. congruence.
Qed.

(** Where the marked entry and the one before it are not. *)
Lemma unlink_disjoint t free chain b pre i rest e :
  wf t free chain -> 0 <= b < nbuckets t -> chain b = pre ++ i :: rest ->
  zget (ht_entries t) i = Some e -> hentry_flags e = 2 ->
  let prev := last_of (tail_of t b) pre in
  i <> prev /\ ht_hentries t <= i /\ NoDup (tail_of t b :: pre) /\ NoDup (pre ++ rest) /\
  (forall x, x ∈ pre ++ rest -> x <> i) /\ (forall x, x ∈ rest -> x <> prev) /\
  (forall x b', 0 <= b' < nbuckets t -> b' <> b -> x ∈ chain b' -> x <> prev /\ x <> i) /\
  (forall x, x ∈ free -> x <> prev /\ x <> i) /\ (forall x, x ∈ ht_deferred t -> x <> prev /\ x <> i).
Proof.
  intros Hw Hb Hch He Hfl prev. pose proof (tail_of_range t _ _ b Hw Hb) as Htail.
  assert (Hnd : NoDup (pre ++ i :: rest)) by (rewrite <- Hch; apply (wf_chain_nodup _ _ _ Hw)).
  assert (Hmem : forall x, x ∈ pre \/ x = i \/ x ∈ rest -> x ∈ chain b) by (intros; rewrite Hch; set_solver).
  assert (Hrg : forall x, x ∈ chain b -> ht_hentries t <= x) by (intros x Hx; by apply (wf_chain_in _ _ _ Hw b)).
  apply NoDup_app in Hnd as (Hnp & Hpr & Hnr). apply NoDup_cons in Hnr as [Hirest Hnr].
  assert (Hprev : prev ∈ tail_of t b :: pre) by apply last_of_in. apply elem_of_cons in Hprev.
  assert (Hfl2 : forall x, x ∈ chain b -> forall ex, zget (ht_entries t) x = Some ex -> hentry_flags ex < 4).
  { intros x Hx ex Hex. destruct (wf_chain_in _ _ _ Hw b x Hb Hx) as (_ & ex' & Hex' & _ & Hf). simplify_eq. lia. }
  assert (Hnot : forall x, ht_hentries t <= x -> (forall ex, zget (ht_entries t) x = Some ex -> hentry_flags ex >= 4) ->
    is_Some (zget (ht_entries t) x) -> x <> prev /\ x <> i).
  { intros x Hx Hge [ex Hex]. split; intros ->.
    - destruct Hprev as [E|Hpp]; [lia|]. specialize (Hge _ Hex). specialize (Hfl2 prev (Hmem _ (or_introl Hpp)) _ Hex). lia.
    - specialize (Hge _ Hex). simplify_eq. lia. }
  assert (Hne : i <> prev).
  { intros E. destruct Hprev as [Et|Hpp]; [pose proof (Hrg i (Hmem i ltac:(auto))); lia|].
    rewrite <- E in Hpp. apply (Hpr i Hpp). set_solver. }
  split; [done|]. split; [apply Hrg, Hmem; auto|]. split.
  { apply NoDup_cons. split; [|done]. intros Hx. pose proof (Hrg _ (Hmem _ (or_introl Hx))). lia. }
  split; [apply NoDup_app; split_and!; [done|set_solver|done]|].
  split; [set_solver|]. split.
  { intros x Hx ->. destruct Hprev as [Et|Hpp]; [pose proof (Hrg _ (Hmem prev ltac:(auto))); lia|].
    apply (Hpr prev Hpp). set_solver. }
  split; [|split].
  - intros x b' Hb' Hbb Hx. destruct (chain_range _ _ _ _ _ Hw Hb' Hx) as [_ Hxr]. split; intros ->.
    + destruct Hprev as [E|Hpp]; [lia|]. apply Hbb, (chain_disjoint t free chain b' b prev Hw Hb' Hb Hx); auto.
    + apply Hbb, (chain_disjoint t free chain b' b i Hw Hb' Hb Hx); auto.
  - intros x Hx. destruct (wf_free_in _ _ _ Hw x Hx) as (Hxh & ex & Hex & Hxf).
    apply Hnot; [done| |by eauto]. intros. simplify_eq. lia.
  - intros x Hx. destruct (wf_deferred _ _ _ Hw) as [_ Hdi]. destruct (Hdi x Hx) as (Hxh & ex & Hex & Hxf).
    apply Hnot; [done| |by eauto]. intros. simplify_eq. lia.
Qed.

Lemma wf_unlink t free chain b pre i rest e ni :
  wf t free chain -> 0 <= b < nbuckets t -> chain b = pre ++ i :: rest ->
  zget (ht_entries t) i = Some e -> hentry_flags e = 2 ->
  wf (unlink i (last_of (tail_of t b) pre) ni (hentry_next e) t) free (drop_chain chain b (pre ++ rest)).
Proof.
  intros Hw Hb Hch He Hfl.
  destruct (unlink_disjoint t free chain b pre i rest e Hw Hb Hch He Hfl)
    as (Hne & Hih & Hndp & Hndr & Hxi & Hxr & Hpo & Hfo & Hdo).
  set (prev := last_of (tail_of t b) pre) in *.
  assert (Hpv : prev = tail_of t b \/ prev ∈ pre) by (apply elem_of_cons, last_of_in).
  pose proof Hw as [Hl Hp Hbs Hd Hi Hm Hf Hfn Hfi Hc Hcn Hci Hdf].
  destruct (unlink_frame i prev ni (hentry_next e) t) as (E1 & E2 & E3 & E4 & E5 & E6 & E7 & E8).
  pose proof (fun j ej => unlink_entries i prev ni (hentry_next e) t j ej Hne) as Hz.
  pose proof (fun j => unlink_nxt i prev ni (hentry_next e) t j Hne) as Hn.
  set (t1 := unlink i prev ni (hentry_next e) t) in *.
  assert (Hlen1 : zlen (ht_entries t1) = zlen (ht_entries t)) by (unfold zlen; by rewrite E8).
  assert (Hpull : forall j e', zget (ht_entries t1) j = Some e' -> exists ej, zget (ht_entries t) j = Some ej).
  { intros j e' He'. apply zget_is_Some. apply zget_range in He'. lia. }
  split; unfold nbuckets, tail_of in *; rewrite ?E1, ?E2, ?E4, ?E5, ?E6, ?Hlen1; try done.
  - intros j e' He'. destruct (Hpull j e' He') as [ej Hj]. destruct (Hz j ej Hj) as (e2 & He2 & Hx & _).
    simplify_eq. rewrite Hx. eauto.
  - intros j e' Hj He'. destruct (Hpull j e' He') as [ej Hej].
    destruct (Hz j ej Hej) as (e2 & He2 & _ & _ & _ & Hx & _). simplify_eq. rewrite Hx, decide_False by lia. eauto.
  - apply (linked_ext (ht_entries t)); [|done]. intros j Hj. apply Hn. by apply Hfo.
  - intros j Hj. destruct (Hfi j Hj) as (Hh & ej & Hej & Hfj). split; [done|].
    destruct (Hz j ej Hej) as (e2 & He2 & _ & _ & _ & Hx & _). exists e2. split; [done|].
    rewrite Hx, decide_False; [done|]. by apply Hfo.
  - intros b' Hb'. unfold drop_chain. case_decide as Hbb.
    + subst b'. pose proof (Hc b Hb) as Hlk. rewrite Hch in Hlk.
      apply (linked_splice (ht_entries t) _ _ pre (i :: rest)); [done|done| |].
      * intros x Hx Hxp. by apply Hn.
      * fold prev. apply linked_suffix in Hlk. cbn in Hlk. destruct Hlk as [Hpi Hlk].
        unfold nxt in Hpi. fold prev in Hpi.
        destruct (zget (ht_entries t) prev) as [ep|] eqn:Ep; [|done].
        destruct (Hz prev ep Ep) as (e2 & He2 & _ & _ & _ & _ & Hx). unfold nxt. rewrite He2. cbn.
        rewrite Hx, decide_True by done. unfold nxt in Hlk. rewrite He in Hlk. cbn in Hlk.
        apply (linked_ext (ht_entries t)); [|done]. intros x Hxr'. apply Hn. by apply Hxr.
    + rewrite Hn.
      * apply (linked_ext (ht_entries t)); [|by apply Hc]. intros j Hj. apply Hn. by apply (Hpo j b').
      * intros Heq. destruct Hpv as [E|Hin].
        -- apply Hbb, (tail_of_inj t free chain); [done|]. unfold tail_of. congruence.
        -- pose proof (tail_of_range t _ _ b' Hw Hb') as Hr. unfold tail_of in Hr.
           destruct (Hci b prev Hb) as [? _]; [rewrite Hch; set_solver|]. lia.
  - intros b'. unfold drop_chain. case_decide; [done|apply Hcn].
  - intros b' j Hb' Hj. unfold drop_chain in Hj.
    assert (Hjc : j ∈ chain b' /\ j <> i).
    { case_decide as Hbb; [subst b'; split; [rewrite Hch; set_solver|by apply Hxi]|].
      split; [done|]. by apply (Hpo j b'). }
    destruct Hjc as [Hjc Hji]. destruct (Hci b' j Hb' Hjc) as (Hh & ej & Hej & Hbj & Hfj). split; [done|].
    destruct (Hz j ej Hej) as (e2 & He2 & _ & Hx1 & _ & Hx2 & _). exists e2. split; [done|].
    rewrite Hx1, Hx2, decide_False by done. done.
  - destruct Hdf as [Hdn Hdi]. split; [done|]. intros j Hj. destruct (Hdi j Hj) as (Hh & ej & Hej & Hfj).
    split; [done|]. destruct (Hz j ej Hej) as (e2 & He2 & _ & _ & _ & Hx & _). exists e2. split; [done|].
    rewrite Hx, decide_False; [done|]. by apply Hdo.
Qed.

(** Steps after which every look-up sees the same entries. *)
Definition keeps t t' : Prop :=
  same_shape t t' /\ (forall k j, match_at t' k j = match_at t k j).

Lemma keeps_refl t : keeps t t.
Proof. by repeat split. Qed.

Lemma keeps_trans t1 t2 t3 : keeps t1 t2 -> keeps t2 t3 -> keeps t1 t3.
Proof.
  intros [(A1 & A2 & A3) A4] [(B1 & B2 & B3) B4]. split.
  - unfold same_shape. split_and!; congruence.
  - intros. by rewrite B4.
Qed.

Lemma unlink_after t free chain b pre i rest e ni :
  wf t free chain -> 0 <= b < nbuckets t -> chain b = pre ++ i :: rest ->
  zget (ht_entries t) i = Some e -> hentry_flags e = 2 ->
  let t1 := unlink i (last_of (tail_of t b) pre) ni (hentry_next e) t in
  loose t1 free (drop_chain chain b (pre ++ rest)) i /\ keeps t t1 /\
  (exists e', zget (ht_entries t1) i = Some e' /\ hentry_flags e' = 4 /\ hentry_index e' = i).
Proof.
  intros Hw Hb Hch He Hfl.
  destruct (unlink_disjoint t free chain b pre i rest e Hw Hb Hch He Hfl)
    as (Hne & Hih & Hndp & Hndr & Hxi & Hxr & Hpo & Hfo & Hdo).
  set (prev := last_of (tail_of t b) pre) in *.
  destruct (unlink_frame i prev ni (hentry_next e) t) as (E1 & E2 & E3 & E4 & E5 & E6 & E7 & E8).
  pose proof (fun j ej => unlink_entries i prev ni (hentry_next e) t j ej Hne) as Hz.
  set (t1 := unlink i prev ni (hentry_next e) t) in *. cbn zeta.
  assert (Hei : exists e', zget (ht_entries t1) i = Some e' /\ hentry_flags e' = 4 /\ hentry_index e' = i).
  { destruct (Hz i e He) as (e' & He' & Hx1 & _ & _ & Hx2 & _). exists e'. split; [done|].
    rewrite decide_True in Hx2 by done. rewrite Hx2, Hfl, Hx1. split; [done|]. by apply (wf_index _ _ _ Hw). }
  split; [|split; [|done]].
  - split; [by rewrite E1| | |].
    + intros Hx. by destruct (Hfo i Hx).
    + unfold nbuckets. rewrite E1, E4. intros b' Hb' Hx. unfold drop_chain in Hx.
      case_decide as Hbb; [by apply (Hxi i)|]. by destruct (Hpo i b' Hb' Hbb Hx).
    + rewrite E6. intros Hx. by destruct (Hdo i Hx).
  - split; [done|]. intros k j. destruct (decide (j = i)) as [->|Hj].
    + destruct Hei as (e' & He' & Hf' & _). rewrite (match_at_invalid t1 _ _ e' He') by (unfold has_flag; by rewrite Hf').
      symmetry. apply (match_at_invalid t _ _ e He). unfold has_flag. by rewrite Hfl.
    + destruct (zget (ht_entries t) j) as [ej|] eqn:Ej.
      * destruct (Hz j ej Ej) as (e' & He' & _ & _ & Hx1 & Hx2 & _). rewrite decide_False in Hx2 by done.
        by apply (match_at_data t t1 k j ej e').
      * unfold match_at. rewrite Ej. destruct (zget (ht_entries t1) j) as [e'|] eqn:E'; [|done].
        apply zget_range in E'. unfold zlen in E'. rewrite E8 in E'.
        destruct (zget_is_Some (ht_entries t) j) as [x Hx]; [done|]. congruence.
Qed.

Lemma linked_head es p l : linked es p l -> p = head l.
Proof. destruct l; cbn; [done|by intros [? _]]. Qed.

(** The entry waits for a grace period. *)
Lemma wf_defer t free chain i e oracle :
  wf t free chain -> loose t free chain i -> zget (ht_entries t) i = Some e -> hentry_flags e = 4 ->
  wf (set_queues (ht_work t) (ht_deferred t ++ [i]) oracle t) free chain.
Proof.
  intros [Hl Hp Hbs Hd Hi Hm Hf Hfn Hfi Hc Hcn Hci [Hdn Hdi]] [Hr _ _ Hld] He Hfl.
  split; try done. cbn. split.
  - apply NoDup_app. split_and!; [done|set_solver|apply NoDup_singleton].
  - intros j [Hj|Hj]%elem_of_app; [auto|]. apply list_elem_of_singleton in Hj as ->. eauto.
Qed.

(** After an unlinked entry is handed on, in any of the three ways. *)
Lemma retire_spec t free chain i e :
  wf t free chain -> loose t free chain i -> zget (ht_entries t) i = Some e -> hentry_flags e = 4 -> hentry_index e = i ->
  let t' := if ht_not_ready t then vr_htable_oentry_invalidate i t
            else let '(ok, t2) := ask_host t in
                 if ok then set_queues (ht_work t2) (ht_deferred t2 ++ [i]) (ht_oracle t2) t2 else t2 in
  exists free', wf t' free' chain /\ keeps t t'.
Proof.
  intros Hw Hlo He Hfl Hix. destruct (ht_not_ready t).
  - destruct (invalidate_spec t free chain i e Hw Hlo He Hfl) as (Hw' & Hs & Hm & _). by exists (i :: free).
  - exists free. unfold ask_host. destruct (match ht_oracle t with [] => true | b :: _ => b end); cbn.
    + split; [|by repeat split]. apply (wf_same (set_queues (ht_work t) (ht_deferred t ++ [i]) (tail (ht_oracle t)) t)); try done.
      by apply (wf_defer _ _ _ _ e).
    + split; [by apply (wf_same t)|by repeat split].
Qed.

Lemma delete_walk_unfold fuel count prev i t e :
  count <> 0 -> zget (ht_entries t) i = Some e ->
  delete_walk (S fuel) count prev (Some i) t =
    let ni := match hentry_next e with
              | Some n => match zget (ht_entries t) n with Some en => hentry_index en | None => 0 end
              | None => VR_INVALID_HENTRY_INDEX
              end in
    let '(count1, t1) := if has_flag VR_HENTRY_FLAG_DELETE_MARKED e
                         then (count - 1, unlink i prev ni (hentry_next e) t) else (count, t) in
    let flags1 := from_option hentry_flags 0 (zget (ht_entries t1) i) in
    if negb (Z.land flags1 VR_HENTRY_FLAG_DELETE_PROCESSED =? 0) then
      delete_walk fuel count1 prev (hentry_next e)
        (if ht_not_ready t1 then vr_htable_oentry_invalidate i t1
         else let '(ok, t2) := ask_host t1 in
              if ok then set_queues (ht_work t2) (ht_deferred t2 ++ [hentry_index e]) (ht_oracle t2) t2 else t2)
    else delete_walk fuel count1 (if Z.land flags1 VR_HENTRY_FLAG_UNDER_DELETION =? 0 then i else prev) (hentry_next e) t1.
Proof.
  intros Hc He. cbn [delete_walk]. rewrite (proj2 (Z.eqb_neq _ _)) by done. rewrite He. cbn zeta.
  destruct (has_flag VR_HENTRY_FLAG_DELETE_MARKED e).
  - fold (unlink i prev (match hentry_next e with
              | Some n => match zget (ht_entries t) n with Some en => hentry_index en | None => 0 end
              | None => VR_INVALID_HENTRY_INDEX
              end) (hentry_next e) t).
    set (t1 := unlink i prev _ _ t). destruct (negb _); [|done]. destruct (ht_not_ready t1); [done|].
    by destruct (ask_host t1) as [[] t2].
  - destruct (negb _); [|done]. destruct (ht_not_ready t); [done|]. by destruct (ask_host t) as [[] t2].
Qed.

(** The walk drops only entries that no look-up sees. *)
Lemma delete_walk_spec fuel count b pre rest t free chain :
  wf t free chain -> 0 <= b < nbuckets t -> chain b = pre ++ rest ->
  let t' := delete_walk fuel count (last_of (tail_of t b) pre) (head rest) t in
  exists free' chain', wf t' free' chain' /\ keeps t t' /\
    forall k b', first_match t k (chain' b') = first_match t k (chain b').
Proof.
  revert count pre rest t free chain. induction fuel as [|fuel IH]; intros count pre rest t free chain Hw Hb Hch.
  { exists free, chain. split; [done|]. split; [apply keeps_refl|done]. }
  destruct (decide (count = 0)) as [->|Hcnt].
  { exists free, chain. split; [done|]. split; [apply keeps_refl|done]. }
  destruct rest as [|i rest].
  { exists free, chain. cbn. rewrite (proj2 (Z.eqb_neq _ _)) by done. split; [done|]. split; [apply keeps_refl|done]. }
  pose proof (wf_chain _ _ _ Hw b Hb) as Hlk. rewrite Hch in Hlk.
  pose proof (linked_suffix _ _ _ _ Hlk) as Hsuf. cbn in Hsuf. destruct Hsuf as [_ Hsuf].
  destruct (wf_chain_in _ _ _ Hw b i Hb) as (Hih & e & He & Hbi & Hfl); [rewrite Hch; set_solver|].
  assert (Hnext : hentry_next e = head rest).
  { rewrite <- (linked_head _ _ _ Hsuf). unfold nxt. by rewrite He. }
  cbn [head hd_error]. cbn zeta. rewrite (delete_walk_unfold _ _ _ _ _ e) by done. cbn zeta.
  destruct Hfl as [Hfl|[Hfl|Hfl]].
  1, 2: assert (Hm : has_flag VR_HENTRY_FLAG_DELETE_MARKED e = false) by (unfold has_flag; by rewrite Hfl);
    rewrite Hm, He; cbn [from_option]; rewrite Hfl; cbn [Z.land negb Z.eqb];
    destruct (IH count (pre ++ [i]) rest t free chain Hw Hb) as (f' & c' & H1); [by rewrite Hch, <- (assoc_L (++))|];
    rewrite last_of_snoc in H1; rewrite Hnext; by exists f', c'.
  assert (Hm : has_flag VR_HENTRY_FLAG_DELETE_MARKED e = true) by (unfold has_flag; by rewrite Hfl).
  rewrite Hm. set (ni := match hentry_next e with Some _ => _ | None => _ end).
  pose proof (wf_unlink t free chain b pre i rest e ni Hw Hb Hch He Hfl) as Hw1.
  destruct (unlink_after t free chain b pre i rest e ni Hw Hb Hch He Hfl) as (Hlo1 & Hk1 & e1 & He1 & Hf1 & Hi1).
  set (prev := last_of (tail_of t b) pre) in *.
  set (t1 := unlink i prev ni (hentry_next e) t) in *.
  rewrite He1. cbn [from_option]. rewrite Hf1. cbn [Z.land negb Z.eqb Pos.land].
  rewrite (wf_index _ _ _ Hw i e He).
  destruct (retire_spec t1 free _ i e1 Hw1 Hlo1 He1 Hf1 Hi1) as (free2 & Hw2 & Hk2).
  set (t2 := if ht_not_ready t1 then _ else _) in *.
  pose proof (keeps_trans _ _ _ Hk1 Hk2) as Hk02. destruct Hk02 as [(S1 & S2 & S3) Hmt].
  assert (Hb2 : 0 <= b < nbuckets t2) by (unfold nbuckets; by rewrite S1, S3).
  destruct (IH (count - 1) pre rest t2 free2 (drop_chain chain b (pre ++ rest)) Hw2 Hb2) as (f' & c' & Hw3 & Hk3 & Hfm).
  { unfold drop_chain. by rewrite decide_True. }
  replace (tail_of t2 b) with (tail_of t b) in Hw3, Hk3 by (unfold tail_of; by rewrite S3).
  rewrite Hnext. exists f', c'. split; [done|]. split; [eapply keeps_trans; [|exact Hk3]; by split|].
  intros k b'. rewrite <- !(first_match_ext t t2) by (intros; apply Hmt). rewrite Hfm. unfold drop_chain.
  case_decide as Hbb; [subst b'|done]. rewrite Hch, !first_match_app, first_match_cons.
  rewrite Hmt, (match_at_invalid t k i e He); [done|]. unfold has_flag. by rewrite Hfl.
Qed.

(** ** The invariant *)

(** The delete data of a bucket whose deletion is scheduled names that bucket. *)
Definition works_ok t : Prop :=
  forall k, k ∈ ht_work t -> 0 <= k < nbuckets t /\
    exists dd, zget (ht_dtable t) k = Some dd /\ hd_index dd = tail_of t k.

Definition ht_inv t : Prop := works_ok t /\ ht_key_size t <> 0 /\ exists free chain, wf t free chain.

Lemma works_ok_same t t' :
  ht_work t' = ht_work t -> ht_dtable t' = ht_dtable t -> same_shape t t' -> works_ok t -> works_ok t'.
Proof.
  intros E1 E2 (S1 & _ & S3) Hwk k. unfold nbuckets, tail_of. rewrite E1, E2, S1, S3. apply Hwk.
Qed.

Lemma find_keeps t t' free free' chain chain' key :
  wf t free chain -> wf t' free' chain' -> keeps t t' -> ht_key_size t <> 0 ->
  (forall k b, first_match t k (chain' b) = first_match t k (chain b)) ->
  vr_htable_find_hentry key 0 t' = vr_htable_find_hentry key 0 t.
Proof.
  intros Hw Hw' [Hsh Hm] Hk Hfm. pose proof Hsh as (S1 & S2 & S3).
  rewrite (find_hentry_spec t free chain) by done. rewrite (find_hentry_spec t' free' chain') by (done || congruence).
  rewrite (same_shape_bucket t t') by done. unfold cands. rewrite S3, !first_match_app.
  rewrite !(first_match_ext t t') by (intros; apply Hm). by rewrite Hfm.
Qed.

(** A store to the flags of a valid entry that makes it invalid. *)
Lemma wf_invalid t free chain i e fl :
  wf t free chain -> zget (ht_entries t) i = Some e -> hentry_flags e = 1 ->
  fl = 0 \/ (fl = 2 /\ ht_hentries t <= i) ->
  wf (upd i (with_flags fl) t) free chain /\
  (forall k, match_at (upd i (with_flags fl) t) k i = false) /\
  (forall k j, j <> i -> match_at (upd i (with_flags fl) t) k j = match_at t k j).
Proof.
  intros Hw He Hfl Hc. destruct (upd_frame t i (with_flags fl)) as (_ & _ & E3 & _).
  split; [|split].
  - apply wf_upd; [done|]. intros e' He'. simplify_eq. cbn. split_and!; try done; [lia|].
    intros Hh. split; [done|]. right. lia.
  - intros k. apply (match_at_invalid _ _ _ (with_flags fl e)).
    + by rewrite zget_upd, decide_True, He.
    + unfold has_flag. cbn. by destruct Hc as [-> |[-> _]].
  - intros k j Hj. unfold match_at. rewrite E3, zget_upd. by rewrite decide_False by congruence.
Qed.

(** Where a valid entry that a look-up can see is. *)
Lemma valid_cand t free chain b i k :
  wf t free chain -> 0 <= b < nbuckets t -> i ∈ cands t chain b -> match_at t k i = true ->
  exists e, zget (ht_entries t) i = Some e /\ hentry_flags e = 1 /\
    (i < ht_hentries t \/ (ht_hentries t <= i /\ hentry_bucket_index e = tail_of t b)).
Proof.
  intros Hw Hb Hi Hm. unfold match_at in Hm.
  destruct (zget (ht_entries t) i) as [e|] eqn:He; [|done]. cbn in Hm. exists e. split; [done|].
  unfold hentry_matches in Hm. apply andb_true_iff in Hm as [Hv _]. unfold has_flag in Hv.
  apply elem_of_app in Hi as [Hi|Hi].
  - destruct (main_some _ _ _ _ _ Hw Hb Hi) as [_ Hr]. split; [|left; lia].
    destruct (wf_main _ _ _ Hw i e ltac:(lia) He) as [E|E]; [by rewrite E in Hv|done].
  - destruct (wf_chain_in _ _ _ Hw b i Hb Hi) as (Hh & e' & He' & Hbi & Hf). simplify_eq.
    split; [|by right]. destruct Hf as [E|[E|E]]; [by rewrite E in Hv|done|by rewrite E in Hv].
Qed.

(** The bookkeeping of a release: counters, delete data and work. *)
Lemma release_shape t free chain b i e :
  wf t free chain -> works_ok t -> 0 <= b < nbuckets t ->
  zget (ht_entries t) i = Some e -> hentry_flags e = 1 ->
  (i < ht_hentries t \/ (ht_hentries t <= i /\ hentry_bucket_index e = tail_of t b)) ->
  let t' := vr_htable_release_hentry i t in
  exists fl, (fl = 0 \/ (fl = 2 /\ ht_hentries t <= i)) /\
    ht_entries t' = ht_entries (upd i (with_flags fl) t) /\
    ht_hentries t' = ht_hentries t /\ ht_oentries t' = ht_oentries t /\ ht_key_size t' = ht_key_size t /\
    ht_bucket_size t' = ht_bucket_size t /\ ht_free_oentry_head t' = ht_free_oentry_head t /\
    ht_deferred t' = ht_deferred t /\ works_ok t'.
Proof.
  intros Hw Hwk Hb He Hfl Hloc. unfold vr_htable_release_hentry. rewrite He.
  assert (Hv : has_flag VR_HENTRY_FLAG_VALID e = true) by (unfold has_flag; by rewrite Hfl). rewrite Hv. cbn [negb].
  rewrite (wf_index _ _ _ Hw i e He).
  set (t0 := set_used (ht_used_entries t - 1) t).
  set (f := fun e => with_flags (Z.ldiff (hentry_flags e) VR_HENTRY_FLAG_VALID) e).
  assert (Hf0 : ht_entries (upd i f t0) = ht_entries (upd i (with_flags 0) t)).
  { unfold upd. change (ht_entries t0) with (ht_entries t). rewrite He. cbn. unfold f. by rewrite Hfl. }
  destruct (upd_frame t0 i f) as (A1 & A2 & A3 & A4 & A5 & A6 & _).
  assert (Aw : ht_work (upd i f t0) = ht_work t /\ ht_dtable (upd i f t0) = ht_dtable t)
    by apply (upd_work t0).
  assert (Hplain : exists fl, (fl = 0 \/ (fl = 2 /\ ht_hentries t <= i)) /\
    ht_entries (upd i f t0) = ht_entries (upd i (with_flags fl) t) /\
    ht_hentries (upd i f t0) = ht_hentries t /\ ht_oentries (upd i f t0) = ht_oentries t /\
    ht_key_size (upd i f t0) = ht_key_size t /\ ht_bucket_size (upd i f t0) = ht_bucket_size t /\
    ht_free_oentry_head (upd i f t0) = ht_free_oentry_head t /\ ht_deferred (upd i f t0) = ht_deferred t /\
    works_ok (upd i f t0)).
  { exists 0. split_and!; try done; [by left|]. apply (works_ok_same t); [apply Aw|apply Aw|done|done]. }
  destruct Hloc as [Hlt|[Hge Hbi]]; [by rewrite (proj2 (Z.ltb_lt _ _))|].
  rewrite (proj2 (Z.ltb_ge _ _)) by lia. destruct (ht_not_ready t); [done|].
  set (g := fun e => with_flags (Z.lor (hentry_flags e) VR_HENTRY_FLAG_DELETE_MARKED) e).
  set (t2 := upd i g (upd i f t0)).
  assert (Hf2 : ht_entries t2 = ht_entries (upd i (with_flags 2) t)).
  { unfold t2, upd. change (ht_entries t0) with (ht_entries t). rewrite He. cbn.
    rewrite zget_zset_eq by (by apply zget_range in He). cbn. rewrite zset_zset. unfold g, f. cbn. by rewrite Hfl. }
  destruct (upd_frame (upd i f t0) i g) as (B1 & B2 & B3 & B4 & B5 & B6 & _). fold t2 in B1, B2, B3, B4, B5, B6.
  assert (Bw : ht_work t2 = ht_work t /\ ht_dtable t2 = ht_dtable t)
    by (unfold t2; destruct (upd_work (upd i f t0) i g) as [-> ->]; done).
  assert (Hsh : same_shape t t2) by (split; [exact (eq_trans B1 A1)|split; [exact (eq_trans B3 A3)|exact (eq_trans B4 A4)]]).
  assert (Hot : ht_oentries t2 = ht_oentries t) by exact (eq_trans B2 A2).
  assert (Hft : ht_free_oentry_head t2 = ht_free_oentry_head t) by exact (eq_trans B5 A5).
  assert (Hdt : ht_deferred t2 = ht_deferred t) by exact (eq_trans B6 A6).
  pose proof (tail_of_range t _ _ b Hw Hb) as Htail.
  assert (Hhead : exists head, __vr_htable_get_hentry_by_index t2 (hentry_bucket_index e) = Some head /\
    hentry_index head = tail_of t b).
  { unfold __vr_htable_get_hentry_by_index. rewrite Hbi, B1, A1. change (ht_hentries t0) with (ht_hentries t).
    rewrite (proj2 (Z.ltb_lt _ _)) by lia. rewrite Hf2, zget_upd, decide_False by lia.
    destruct (zget_is_Some (ht_entries t) (tail_of t b)) as [hd Hhd].
    { rewrite (wf_len _ _ _ Hw). destruct (wf_pos _ _ _ Hw). lia. }
    exists hd. split; [done|]. by apply (wf_index _ _ _ Hw). }
  destruct Hhead as (head & -> & Hix). rewrite Hix.
  assert (Ek : tail_of t b / ht_bucket_size t2 = b).
  { destruct Hsh as (_ & _ & ->). pose proof (bucket_size_pos _ _ _ Hw). unfold tail_of.
    replace (b * ht_bucket_size t + ht_bucket_size t - 1) with (b * ht_bucket_size t + (ht_bucket_size t - 1)) by lia.
    rewrite Z.div_add_l by lia. rewrite Z.div_small by lia. lia. }
  rewrite Ek. destruct Bw as [Bw Bd]. rewrite Bd.
  assert (Hfin : forall t', ht_entries t' = ht_entries t2 -> ht_hentries t' = ht_hentries t2 ->
    ht_oentries t' = ht_oentries t2 -> ht_key_size t' = ht_key_size t2 -> ht_bucket_size t' = ht_bucket_size t2 ->
    ht_free_oentry_head t' = ht_free_oentry_head t2 -> ht_deferred t' = ht_deferred t2 ->
    (forall k, k ∈ ht_work t' -> k ∈ ht_work t \/ (k = b /\ exists dd, zget (ht_dtable t') b = Some dd /\ hd_index dd = tail_of t b)) ->
    (forall k dd, zget (ht_dtable t) k = Some dd -> hd_index dd = tail_of t k ->
       exists dd', zget (ht_dtable t') k = Some dd' /\ hd_index dd' = tail_of t k) ->
    exists fl, (fl = 0 \/ (fl = 2 /\ ht_hentries t <= i)) /\
    ht_entries t' = ht_entries (upd i (with_flags fl) t) /\
    ht_hentries t' = ht_hentries t /\ ht_oentries t' = ht_oentries t /\ ht_key_size t' = ht_key_size t /\
    ht_bucket_size t' = ht_bucket_size t /\ ht_free_oentry_head t' = ht_free_oentry_head t /\
    ht_deferred t' = ht_deferred t /\ works_ok t').
  { intros t' F1 F2 F3 F4 F5 F6 F7 F8 F9. exists 2. destruct Hsh as (S1 & S2 & S3).
    split_and!; [by right|congruence..|]. intros k Hk. unfold nbuckets, tail_of. rewrite F2, F5, S1, S3.
    destruct (F8 k Hk) as [Hk'|[-> Hk']]; [|by split]. destruct (Hwk k Hk') as (Hr & dd & Hdd & Hdi).
    split; [done|]. by apply (F9 k dd). }
  destruct (zget (ht_dtable t) b) as [dd|] eqn:Hdd.
  2: { apply Hfin; try done; [intros k Hk; left; congruence|]. intros k dd Hk Hd. exists dd. by rewrite Bd. }
  assert (Hset : forall dd' k dk, hd_index dd' = tail_of t b \/ hd_index dd' = hd_index dd ->
    zget (ht_dtable t) k = Some dk -> hd_index dk = tail_of t k ->
    exists dd2, zget (zset (ht_dtable t) b dd') k = Some dd2 /\ hd_index dd2 = tail_of t k).
  { intros dd' k dk Hdd' Hk Hd. rewrite zget_zset. case_decide as Hc; [|by eauto]. destruct Hc as [<- _].
    simplify_eq. exists dd'. split; [done|]. by destruct Hdd' as [-> | ->]. }
  pose proof (zget_range _ _ _ Hdd) as Hbr. cbn [hd_scheduled].
  destruct (hd_scheduled dd =? 0).
  - destruct (ask_host t2) as [ok t3] eqn:Hask.
    assert (E3 : t3 = set_queues (ht_work t2) (ht_deferred t2) (tail (ht_oracle t2)) t2) by (unfold ask_host in Hask; congruence).
    subst t3. destruct ok; (apply Hfin; try done; cbn; rewrite ?Bd, ?Bw).
    + intros k [Hk|Hk]%elem_of_app; [by left|right]. apply list_elem_of_singleton in Hk as ->. split; [done|].
      rewrite zget_zset_eq by done. by eexists.
    + intros k dk. apply Hset. by left.
    + intros k Hk. by left.
    + intros k dk. apply Hset. by left.
  - apply Hfin; try done; cbn; rewrite ?Bw.
    + intros k Hk. by left.
    + intros k dk. apply Hset. by right.
Qed.

Lemma find_free_work key ks t : ht_work (vr_htable_find_free_hentry key ks t).2 = ht_work t /\
  ht_dtable (vr_htable_find_free_hentry key ks t).2 = ht_dtable t.
Proof.
  unfold vr_htable_find_free_hentry. destruct (_ =? 0); [done|].
  destruct (find_invalid _ t) as [j|]; [apply (upd_work t)|]. destruct (ht_oentries t =? 0); [done|].
  unfold vr_htable_get_free_oentry. destruct (ht_free_oentry_head t) as [o|]; [|done].
  destruct (zget (ht_entries t) o) as [eo|]; [|done]. cbn [snd].
  match goal with |- context [link_oentry o ?x ?y] => set (last := x); set (t1 := y) end.
  assert (Hx : ht_work (link_oentry o last t1) = ht_work t1 /\ ht_dtable (link_oentry o last t1) = ht_dtable t1).
  { unfold link_oentry. set (t2 := upd o _ t1). match goal with |- context [upd last ?f t2] =>
      destruct (upd_work t2 last f) as [-> ->] end. apply upd_work. }
  cbn. destruct Hx as [-> ->]. unfold t1.
  match goal with |- context [upd o ?f ?t0] => destruct (upd_work t0 o f) as [-> ->] end. done.
Qed.

(** The data of an entry. *)
Definition data_at t (i : Z) : option D := hentry_data <$> zget (ht_entries t) i.

(** Insertion: the entry that is handed out was not in use; once the client has stored
    data with the key in it, it holds that key and no other entry has changed. *)
Lemma insert_spec t key d i t1 :
  ht_inv t -> zlen key = ht_key_size t -> ht_get_key d = Some key ->
  vr_htable_find_hentry key 0 t = None ->
  vr_htable_find_free_hentry key 0 t = (Some i, t1) ->
  let t2 := upd i (with_hdata d) t1 in
  ht_inv t2 /\ same_shape t t2 /\ data_at t2 i = Some d /\
  (forall k, match_at t k i = false) /\ (forall k j, j <> i -> match_at t2 k j = match_at t k j) /\
  (forall k, zlen k = ht_key_size t -> match_at t2 k i = bool_decide (key = k)) /\
  vr_htable_find_hentry key 0 t2 = Some i /\
  forall key', zlen key' = ht_key_size t -> key' <> key ->
    vr_htable_find_hentry key' 0 t2 = vr_htable_find_hentry key' 0 t.
Proof.
  intros (Hwk & Hk & free & chain & Hw) Hlen Hkey Hnone Hff t2.
  destruct (find_free_claims t free chain key i t1 Hw Hk Hff)
    as (free' & chain' & [Hw1 Hsh Hin (e & He & Hfl) Hunused Hsame Hoth]).
  pose proof Hsh as (S1 & S2 & S3).
  assert (Hw2 : wf t2 free' chain') by (apply wf_upd; [done|by apply (stays_data _ _ _ free' chain')]).
  destruct (upd_frame t1 i (with_hdata d)) as (U1 & _ & U3 & U4 & _). fold t2 in U1, U3, U4.
  assert (Hsh2 : same_shape t t2) by (split; [congruence|split; congruence]).
  assert (Hi2 : zget (ht_entries t2) i = Some (with_hdata d e)) by (unfold t2; by rewrite zget_upd, decide_True, He).
  assert (Hm2 : forall k, zlen k = ht_key_size t -> match_at t2 k i = bool_decide (key = k)).
  { intros k Hl. apply (match_at_key t2 k i (with_hdata d e)); try done; congruence. }
  assert (Ho2 : forall k j, j <> i -> match_at t2 k j = match_at t k j).
  { intros k j Hj. rewrite <- Hsame by done. unfold match_at. rewrite U3. unfold t2. rewrite zget_upd.
    by rewrite decide_False by congruence. }
  assert (Hc2 : forall b, cands t2 chain' b = cands t1 chain' b) by (intros; unfold cands; by rewrite U4).
  assert (Hfind2 : forall k, vr_htable_find_hentry k 0 t2 = first_match t2 k (cands t1 chain' (bucket_no t k))).
  { intros k. rewrite (find_hentry_spec t2 free' chain') by (done || congruence). rewrite Hc2.
    by rewrite (same_shape_bucket t t2). }
  split_and!; try done.
  - split; [|split; [congruence|eauto]]. destruct (find_free_work key 0 t) as [W1 W2]. rewrite Hff in W1, W2. cbn in W1, W2.
    destruct (upd_work t1 i (with_hdata d)) as [V1 V2]. fold t2 in V1, V2. apply (works_ok_same t); [congruence|congruence|done|done].
  - unfold data_at. by rewrite Hi2.
  - rewrite Hfind2. apply first_match_only; [done| |].
    + rewrite Hm2 by done. by rewrite bool_decide_true.
    + intros j Hj Hji. rewrite Ho2 by done.
      rewrite (find_hentry_spec t free chain) in Hnone by done. apply (first_match_none _ _ _ j Hnone).
      assert (Hjo : j ∈ others i (cands t chain (bucket_no t key))).
      { rewrite <- Hoth. apply list_elem_of_filter. done. }
      by apply list_elem_of_filter in Hjo as [_ ?].
  - intros key' Hl' Hne. rewrite Hfind2, (find_hentry_spec t free chain) by done.
    rewrite (first_match_others t2 key' i) by (rewrite Hm2 by done; by apply bool_decide_false).
    rewrite (first_match_others t key' i) by apply Hunused. rewrite Hoth. apply first_match_ext.
    intros j Hj. apply Ho2. by apply list_elem_of_filter in Hj as [? _].
Qed.

(** What a look-up finds matches, and is in use. *)
Lemma find_match t key i :
  ht_inv t -> vr_htable_find_hentry key 0 t = Some i ->
  match_at t key i = true /\ exists e, zget (ht_entries t) i = Some e /\ hentry_flags e = 1.
Proof.
  intros (Hwk & Hk & free & chain & Hw) Hfind.
  destruct (bucket_no_spec t free chain key Hw) as [Hb _].
  rewrite (find_hentry_spec t free chain) in Hfind by done.
  apply first_match_spec in Hfind as [Hin Hm].
  destruct (valid_cand t free chain _ i key Hw Hb Hin Hm) as (e & He & Hfl & _). eauto.
Qed.

(** A store to the data of an entry that keeps which keys it matches. *)
Lemma write_spec t i d :
  ht_inv t -> (forall k, zlen k = ht_key_size t -> match_at (upd i (with_hdata d) t) k i = match_at t k i) ->
  let t' := upd i (with_hdata d) t in
  ht_inv t' /\ same_shape t t' /\ (forall k j, j <> i -> match_at t' k j = match_at t k j) /\
  forall k, zlen k = ht_key_size t -> vr_htable_find_hentry k 0 t' = vr_htable_find_hentry k 0 t.
Proof.
  intros (Hwk & Hk & free & chain & Hw) Hi t'.
  destruct (upd_frame t i (with_hdata d)) as (U1 & _ & U3 & U4 & _). fold t' in U1, U3, U4.
  assert (Hsh : same_shape t t') by (split; [congruence|split; congruence]).
  assert (Hw' : wf t' free chain) by (apply wf_upd; [done|by apply (stays_data _ _ _ free chain)]).
  assert (Ho : forall k j, j <> i -> match_at t' k j = match_at t k j).
  { intros k j Hj. unfold match_at. rewrite U3. unfold t'. rewrite zget_upd. by rewrite decide_False by congruence. }
  destruct (upd_work t i (with_hdata d)) as [V1 V2]. fold t' in V1, V2.
  split_and!; try done.
  - split; [by apply (works_ok_same t)|]. split; [congruence|eauto].
  - intros k Hl. rewrite (find_hentry_spec t free chain) by done.
    rewrite (find_hentry_spec t' free chain) by (done || congruence).
    rewrite (same_shape_bucket t t') by done. unfold cands. rewrite U4. apply first_match_ext.
    intros j _. destruct (decide (j = i)) as [->|Hne]; [by apply Hi|by apply Ho].
Qed.

(** Removal: the client overwrites the data of the entry that a look-up returned and
    releases it. *)
Lemma release_spec t key i d :
  ht_inv t -> vr_htable_find_hentry key 0 t = Some i ->
  let t' := vr_htable_release_hentry i (upd i (with_hdata d) t) in
  ht_inv t' /\ same_shape t t' /\ (forall k, match_at t' k i = false) /\
  (forall k j, j <> i -> match_at t' k j = match_at t k j) /\
  ((forall j, j <> i -> match_at t key j = false) -> vr_htable_find_hentry key 0 t' = None) /\
  forall key', match_at t key' i = false -> vr_htable_find_hentry key' 0 t' = vr_htable_find_hentry key' 0 t.
Proof.
  intros (Hwk & Hk & free & chain & Hw) Hfind. set (t0 := upd i (with_hdata d) t). intros t'.
  destruct (bucket_no_spec t free chain key Hw) as [Hb _].
  rewrite (find_hentry_spec t free chain) in Hfind by done.
  apply first_match_spec in Hfind as [Hin Hm].
  destruct (valid_cand t free chain _ i key Hw Hb Hin Hm) as (e & He & Hfl & Hloc).
  assert (Hw0 : wf t0 free chain) by (apply wf_upd; [done|by apply (stays_data _ _ _ free chain)]).
  destruct (upd_frame t i (with_hdata d)) as (V1 & V2 & V3 & V4 & _). fold t0 in V1, V2, V3, V4.
  destruct (upd_work t i (with_hdata d)) as [V5 V6]. fold t0 in V5, V6.
  assert (Hsh0 : same_shape t t0) by (split; [congruence|split; congruence]).
  assert (Hwk0 : works_ok t0) by (by apply (works_ok_same t)).
  assert (He0 : zget (ht_entries t0) i = Some (with_hdata d e)) by (unfold t0; by rewrite zget_upd, decide_True, He).
  assert (Hb0 : 0 <= bucket_no t key < nbuckets t0) by (unfold nbuckets in *; by rewrite V1, V4).
  assert (Hloc0 : i < ht_hentries t0 \/ (ht_hentries t0 <= i /\
    hentry_bucket_index (with_hdata d e) = tail_of t0 (bucket_no t key))).
  { unfold tail_of in *. by rewrite V1, V4. }
  destruct (release_shape t0 free chain _ i _ Hw0 Hwk0 Hb0 He0 Hfl Hloc0)
    as (fl & Hfl' & E1 & E2 & E3 & E4 & E5 & E6 & E7 & Hwk').
  fold t' in E1, E2, E3, E4, E5, E6, E7, Hwk'.
  destruct (wf_invalid t0 free chain i _ fl Hw0 He0 Hfl Hfl') as (Hw1 & Hmi & Hmo).
  set (t1 := upd i (with_flags fl) t0) in *.
  destruct (upd_frame t0 i (with_flags fl)) as (U1 & U2 & U3 & U4 & U5 & U6 & _). fold t1 in U1, U2, U3, U4, U5, U6.
  assert (Hw' : wf t' free chain) by (apply (wf_same t1); congruence).
  assert (Hmt : forall k j, match_at t' k j = match_at t1 k j) by (intros; unfold match_at; by rewrite E1, E4, U3).
  assert (Hm0 : forall k j, j <> i -> match_at t0 k j = match_at t k j).
  { intros k j Hj. unfold match_at. rewrite V3. unfold t0. rewrite zget_upd. by rewrite decide_False by congruence. }
  assert (Hsh : same_shape t t') by (split; [congruence|split; congruence]).
  assert (Hfind' : forall k, vr_htable_find_hentry k 0 t' = first_match t' k (cands t chain (bucket_no t k))).
  { intros k. rewrite (find_hentry_spec t' free chain) by (done || congruence).
    rewrite (same_shape_bucket t t') by done. unfold cands. by rewrite E5, V4. }
  split_and!.
  - split; [done|]. split; [congruence|eauto].
  - done.
  - intros k. by rewrite Hmt.
  - intros k j Hj. rewrite Hmt, Hmo by done. by apply Hm0.
  - intros Huniq. rewrite Hfind'. destruct (first_match t' key _) as [j|] eqn:E; [|done].
    apply first_match_spec in E as [_ Hj]. rewrite Hmt in Hj. destruct (decide (j = i)) as [->|Hne].
    + by rewrite Hmi in Hj.
    + by rewrite Hmo, Hm0, Huniq in Hj.
  - intros key' Hi'. rewrite Hfind', (find_hentry_spec t free chain) by done.
    rewrite (first_match_others t' key' i) by (by rewrite Hmt). rewrite (first_match_others t key' i) by done.
    apply first_match_ext. intros j Hj. apply list_elem_of_filter in Hj as [Hj _]. rewrite Hmt, Hmo by done. by apply Hm0.
Qed.

(** ** Background work *)

Definition same_work t t' : Prop := ht_work t' = ht_work t /\ ht_dtable t' = ht_dtable t.

Lemma invalidate_work i t : same_work t (vr_htable_oentry_invalidate i t).
Proof.
  unfold vr_htable_oentry_invalidate, same_work. destruct (zget (ht_entries t) i) as [e|]; [|done].
  destruct (_ <? _); [done|]. set (t1 := upd i _ t). assert (H1 : same_work t t1) by apply upd_work.
  unfold vr_htable_put_free_oentry. destruct (zget (ht_entries t1) i) as [e1|]; [|done].
  destruct (_ <? _); [done|]. destruct (has_flag _ e1); [done|]. cbn.
  match goal with |- context [upd i ?f t1] => destruct (upd_work t1 i f) as [-> ->] end. done.
Qed.

Lemma delete_walk_work fuel count prev ent t : same_work t (delete_walk fuel count prev ent t).
Proof.
  revert count prev ent t. induction fuel as [|fuel IH]; intros count prev ent t; [done|].
  assert (Htr : forall a b c, same_work a b -> same_work b c -> same_work a c).
  { intros a b c [A1 A2] [B1 B2]. split; congruence. }
  destruct (decide (count = 0)) as [->|Hc]; [done|].
  destruct ent as [i|]; [|cbn; by rewrite (proj2 (Z.eqb_neq _ _))].
  destruct (zget (ht_entries t) i) as [e|] eqn:He; [|cbn; by rewrite (proj2 (Z.eqb_neq _ _)), He].
  rewrite (delete_walk_unfold _ _ _ _ _ e) by done. cbn zeta.
  set (ni := match hentry_next e with Some _ => _ | None => _ end).
  assert (H1 : forall t1, same_work t t1 -> same_work t
    (if ht_not_ready t1 then vr_htable_oentry_invalidate i t1
     else let '(ok, t2) := ask_host t1 in
          if ok then set_queues (ht_work t2) (ht_deferred t2 ++ [hentry_index e]) (ht_oracle t2) t2 else t2)).
  { intros t1 Ht1. destruct (ht_not_ready t1); [eapply Htr; [exact Ht1|apply invalidate_work]|].
    unfold ask_host. destruct (match ht_oracle t1 with [] => true | b :: _ => b end); exact Ht1. }
  assert (Hun : same_work t (unlink i prev ni (hentry_next e) t)).
  { unfold unlink. eapply Htr; [|apply upd_work]. apply upd_work. }
  destruct (has_flag VR_HENTRY_FLAG_DELETE_MARKED e); destruct (negb _);
    (eapply Htr; [|apply IH]); first [apply H1; first [exact Hun|by split]|exact Hun|by split].
Qed.

Lemma scheduled_spec t free chain :
  works_ok t -> wf t free chain ->
  let t' := vr_htable_hentry_scheduled_delete t in
  works_ok t' /\ exists free' chain', wf t' free' chain' /\ keeps t t' /\
    forall k b, first_match t k (chain' b) = first_match t k (chain b).
Proof.
  intros Hwk Hw. unfold vr_htable_hentry_scheduled_delete.
  assert (Hid : works_ok t /\ exists free' chain', wf t free' chain' /\ keeps t t /\
    forall k b, first_match t k (chain' b) = first_match t k (chain b)).
  { split; [done|]. exists free, chain. split; [done|]. split; [apply keeps_refl|done]. }
  destruct (ht_work t) as [|k work] eqn:Ework; [done|].
  destruct (Hwk k) as (Hk & dd & Hdd & Hdi); [rewrite Ework; set_solver|].
  set (t0 := set_queues work (ht_deferred t) (ht_oracle t) t). change (ht_dtable t0) with (ht_dtable t). rewrite Hdd.
  pose proof (tail_of_range t free chain k Hw Hk) as Htail.
  assert (Hhead : exists hd, __vr_htable_get_hentry_by_index t0 (hd_index dd) = Some hd /\
    zget (ht_entries t) (tail_of t k) = Some hd).
  { unfold __vr_htable_get_hentry_by_index. change (ht_hentries t0) with (ht_hentries t).
    change (ht_entries t0) with (ht_entries t). rewrite Hdi, (proj2 (Z.ltb_lt _ _)) by lia.
    destruct (zget_is_Some (ht_entries t) (tail_of t k)) as [h Hh]; [|by exists h].
    rewrite (wf_len _ _ _ Hw). destruct (wf_pos _ _ _ Hw). lia. }
  destruct Hhead as (hd & -> & Hh). cbn zeta.
  set (t1 := set_dtable _ t0). set (n := length (ht_entries t)). set (count := hd_count dd).
  assert (Hw1 : wf t1 free chain) by (by apply (wf_same t)).
  assert (Hn : hentry_next hd = head (chain k)).
  { rewrite <- (linked_head _ _ _ (wf_chain _ _ _ Hw k Hk)). unfold nxt. by rewrite Hh. }
  rewrite Hn, Hdi.
  destruct (delete_walk_spec n count k [] (chain k) t1 free chain Hw1 Hk eq_refl) as (free' & chain' & Hw2 & Hk2 & Hfm).
  change (last_of (tail_of t1 k) []) with (tail_of t k) in Hw2, Hk2.
  pose proof (delete_walk_work n count (tail_of t k) (head (chain k)) t1) as [W1 W2].
  set (t2 := delete_walk n count (tail_of t k) (head (chain k)) t1) in *.
  split; [|exists free', chain'; split; [done|split; [|exact Hfm]]; destruct Hk2 as [Hs2 Hm2]; by split].
  destruct Hk2 as [(S1 & _ & S3) _]. intros j Hj. unfold nbuckets, tail_of. rewrite S1, S3, W2. rewrite W1 in Hj.
  cbn in Hj. destruct (Hwk j) as (Hjr & dj & Hdj & Hji); [rewrite Ework; set_solver|].
  split; [done|]. cbn. rewrite zget_zset. case_decide as Hc; [|by eauto]. destruct Hc as [<- _].
  eexists. split; [done|]. exact Hdi.
Qed.

Lemma defer_delete_spec t free chain :
  works_ok t -> wf t free chain ->
  let t' := vr_htable_hentry_defer_delete t in
  works_ok t' /\ exists free', wf t' free' chain /\ keeps t t'.
Proof.
  intros Hwk Hw. unfold vr_htable_hentry_defer_delete.
  destruct (ht_deferred t) as [|i d] eqn:Ed; [split; [done|]; exists free; split; [done|apply keeps_refl]|].
  set (t1 := set_queues (ht_work t) d (ht_oracle t) t).
  pose proof (wf_deferred _ _ _ Hw) as [Hnd Hdi]. rewrite Ed in Hnd, Hdi. apply NoDup_cons in Hnd as [Hid Hnd].
  destruct (Hdi i) as (Hih & e & He & Hfl); [set_solver|].
  assert (Hw1 : wf t1 free chain).
  { destruct Hw. split; try done. cbn. split; [done|]. intros j Hj. apply Hdi. set_solver. }
  assert (Hlo : loose t1 free chain i).
  { split; [done| | |done].
    - intros Hx. destruct (wf_free_in _ _ _ Hw i Hx) as (_ & e' & He' & Hf'). simplify_eq. lia.
    - intros b Hb Hx. destruct (wf_chain_in _ _ _ Hw b i Hb Hx) as (_ & e' & He' & _ & Hf'). simplify_eq. lia. }
  pose proof (zget_range _ _ _ He) as Hr. rewrite (wf_len _ _ _ Hw) in Hr.
  assert (Hg : __vr_htable_get_hentry_by_index t1 i = Some e).
  { unfold __vr_htable_get_hentry_by_index. cbn. rewrite (proj2 (Z.ltb_ge _ _)), (proj2 (Z.ltb_lt _ _)) by lia. done. }
  rewrite Hg. destruct (invalidate_spec t1 free chain i e Hw1 Hlo He Hfl) as (Hw2 & Hs2 & Hm2 & _).
  pose proof (invalidate_work i t1) as [W1 W2]. split.
  - apply (works_ok_same t); [exact W1|exact W2|exact Hs2|done].
  - exists (i :: free). split; [done|]. split; [exact Hs2|]. intros k j. by rewrite Hm2.
Qed.

(** The background work that follows a release, unlinking the marked entries of a
    bucket and returning them to the free list after the grace period, changes no
    look-up. *)
Lemma background_spec t t' :
  ht_inv t -> t' = vr_htable_hentry_scheduled_delete t \/ t' = vr_htable_hentry_defer_delete t ->
  ht_inv t' /\ keeps t t' /\ forall key, vr_htable_find_hentry key 0 t' = vr_htable_find_hentry key 0 t.
Proof.
  intros (Hwk & Hk & free & chain & Hw) [-> | ->].
  - destruct (scheduled_spec t free chain Hwk Hw) as (Hwk' & free' & chain' & Hw' & Hkp & Hfm).
    pose proof Hkp as [(_ & S2 & _) _]. split; [split; [done|split; [congruence|eauto]]|]. split; [done|].
    intros. by apply (find_keeps t _ free free' chain chain').
  - destruct (defer_delete_spec t free chain Hwk Hw) as (Hwk' & free' & Hw' & Hkp).
    pose proof Hkp as [(_ & S2 & _) _]. split; [split; [done|split; [congruence|eauto]]|]. split; [done|].
    intros. by apply (find_keeps t _ free free' chain chain).
Qed.

(** ** New tables *)

Section create.
Variables (entries oentries : Z) (d0 : D).
Hypotheses (Hent : 0 < entries) (Hoent : 0 <= oentries).

Let main : list vr_hentry := (fun i => mk_hentry None i 0 VR_INVALID_HENTRY_INDEX 0 d0) <$> seqZ 0 entries.
Let oflow : list vr_hentry :=
  (fun i => mk_hentry (if i =? oentries - 1 then None else Some (entries + i + 1))
              (entries + i) 0 VR_INVALID_HENTRY_INDEX VR_HENTRY_FLAG_IN_FREE_LIST d0) <$> seqZ 0 oentries.

Lemma new_entries i :
  zget (main ++ oflow) i =
    if decide (0 <= i < entries) then Some (mk_hentry None i 0 VR_INVALID_HENTRY_INDEX 0 d0)
    else if decide (entries <= i < entries + oentries) then
      Some (mk_hentry (if i - entries =? oentries - 1 then None else Some (i + 1)) i 0
              VR_INVALID_HENTRY_INDEX VR_HENTRY_FLAG_IN_FREE_LIST d0)
    else None.
Proof.
  assert (Hm : zlen main = entries) by (apply zlen_fmap_seqZ; lia).
  rewrite zget_app, Hm. unfold main, oflow. rewrite !zget_fmap_seqZ. repeat case_decide; try lia; try done.
  do 2 f_equal; [|lia]. destruct (_ =? _); [done|]. f_equal. lia.
Qed.

Lemma new_free_linked (n : nat) k :
  0 <= k -> Z.of_nat n = oentries - k ->
  linked (main ++ oflow) (if k <? oentries then Some (entries + k) else None) (seqZ (entries + k) (Z.of_nat n)).
Proof.
  revert k. induction n as [|n IH]; intros k Hk Hn.
  { cbn. by rewrite (proj2 (Z.ltb_ge _ _)) by lia. }
  rewrite (proj2 (Z.ltb_lt _ _)) by lia. rewrite seqZ_cons by lia. cbn. split; [done|].
  unfold nxt. rewrite new_entries, decide_False, decide_True by lia. cbn.
  replace (Z.succ (entries + k)) with (entries + (k + 1)) by lia.
  replace (Z.pred (Z.of_nat (S n))) with (Z.of_nat n) by lia.
  specialize (IH (k + 1) ltac:(lia) ltac:(lia)).
  replace (entries + k - entries) with k by lia.
  destruct (k =? oentries - 1) eqn:E; [apply Z.eqb_eq in E|apply Z.eqb_neq in E].
  - by rewrite (proj2 (Z.ltb_ge _ _)) in IH by lia.
  - rewrite (proj2 (Z.ltb_lt _ _)) in IH by lia. by replace (entries + k + 1) with (entries + (k + 1)) by lia.
Qed.

Lemma new_wf key_size bucket_size dtable not_ready oracle :
  (exists e, 0 <= e /\ bucket_size = 2 ^ e) -> entries mod bucket_size = 0 ->
  wf (mk_htable entries oentries key_size bucket_size (main ++ oflow) dtable
        (if oentries =? 0 then None else Some entries) 0 0 [] [] not_ready oracle)
    (seqZ entries oentries) (fun _ => []).
Proof.
  intros Hbs Hdiv. split; cbn [ht_entries ht_hentries ht_oentries ht_bucket_size ht_free_oentry_head ht_deferred].
  - rewrite zlen_app. unfold main, oflow. rewrite !zlen_fmap_seqZ; lia.
  - lia.
  - done.
  - done.
  - intros i e. rewrite new_entries. repeat case_decide; intros; by simplify_eq.
  - intros i e Hi. rewrite new_entries. repeat case_decide; intros; simplify_eq; [by left|lia].
  - pose proof (new_free_linked (Z.to_nat oentries) 0 ltac:(lia) ltac:(lia)) as Hl.
    rewrite Z.add_0_r in Hl. rewrite Z2Nat.id in Hl by lia.
    destruct (oentries =? 0) eqn:E; [apply Z.eqb_eq in E|apply Z.eqb_neq in E].
    + by rewrite (proj2 (Z.ltb_ge _ _)) in Hl by lia.
    + by rewrite (proj2 (Z.ltb_lt _ _)) in Hl by lia.
  - apply NoDup_seqZ.
  - intros i Hi%elem_of_seqZ. split; [lia|]. rewrite new_entries, decide_False, decide_True by lia. by eexists.
  - intros b Hb. cbn. unfold nxt. rewrite new_entries. unfold nbuckets in Hb. unfold tail_of.
    cbn in Hb |- *. destruct Hbs as (e & He & ->). assert (0 < 2 ^ e) by (apply Z.pow_pos_nonneg; lia).
    pose proof (Z.div_mod entries (2 ^ e) ltac:(lia)). rewrite decide_True by nia. done.
  - intros b. constructor.
  - intros b i _ Hi. by apply not_elem_of_nil in Hi.
  - split; [constructor|]. intros i Hi. by apply not_elem_of_nil in Hi.
Qed.

End create.

(** A new table, with a power of two of entries per bucket, is well formed and no
    entry of it matches a key. *)
Lemma htable_create_spec entries0 oentries entry_size key_size bucket_size d0 not_ready oracle :
  0 < entries0 -> 0 <= oentries -> entry_size <> 0 -> key_size <> 0 ->
  (exists e, 0 <= e /\ bucket_size = 2 ^ e) -> entries0 + bucket_size <= UINT_MAX ->
  exists t, __vr_htable_create entries0 oentries entry_size key_size bucket_size d0 not_ready oracle
              (true, true, true, true) = Some t /\
    ht_inv t /\ entries0 <= ht_hentries t < entries0 + bucket_size /\ ht_oentries t = oentries /\
    ht_key_size t = key_size /\ forall key i, match_at t key i = false.
Proof.
  intros He Ho Hes Hks Hbs Hsm. assert (Hpos : 0 < bucket_size).
  { destruct Hbs as (e & He' & ->). apply Z.pow_pos_nonneg; lia. }
  unfold __vr_htable_create. rewrite (proj2 (Z.eqb_neq entry_size 0)), (proj2 (Z.eqb_neq entries0 0)) by lia.
  cbn [orb andb]. rewrite orb_true_r. cbn [negb]. rewrite (proj2 (Z.eqb_neq bucket_size 0)) by lia.
  rewrite (u32_small (entries0 + bucket_size - 1)) by lia.
  set (q := (entries0 + bucket_size - 1) / bucket_size).
  pose proof (Z.div_mod (entries0 + bucket_size - 1) bucket_size ltac:(lia)) as Hdm. fold q in Hdm.
  pose proof (Z.mod_pos_bound (entries0 + bucket_size - 1) bucket_size Hpos) as Hmb.
  assert (Hq : entries0 <= q * bucket_size < entries0 + bucket_size) by lia.
  rewrite (u32_small (q * bucket_size)) by lia.
  eexists. split; [done|]. cbn zeta.
  match goal with |- ht_inv ?x /\ _ => set (t := x) end.
  pose proof (new_wf (q * bucket_size) oentries d0 ltac:(lia) Ho key_size bucket_size
    (if oentries =? 0 then [] else replicate (Z.to_nat (q * bucket_size / bucket_size)) (mk_dd 0 0 0))
    not_ready oracle Hbs ltac:(by apply Z.mod_mul; lia)) as Hw. fold t in Hw.
  split_and!; [|apply Hq|apply Hq|done|done|].
  - split; [intros k Hk; by apply not_elem_of_nil in Hk|]. split; [done|]. eauto.
  - intros key i. unfold match_at, t. cbn [ht_entries]. rewrite new_entries by lia.
    repeat case_decide; done.
Qed.

End htable.
Arguments vr_hentry : clear implicits.
Arguments vr_htable : clear implicits.
End Htable.
