(* ===== verification/HtableMap.v ===== *)
(** * Hash tables implement finite maps

    The abstract state of a hash table is a finite map from keys to the data the client
    keeps.  [ht_step] is one operation of the table together with what it means for the
    map; the refinement theorem is that every sequence of operations, with the
    background work in between in any order, keeps the two in step. *)

From stdpp Require Import gmap.
From S2P Require Import Prelude Hash Htable.
Import Htable.

Module HtableMap.

Section refinement.
Context {D : Type}.
Variable ht_get_key : D -> option (list Z).

Abbreviation htable := (vr_htable D).
Abbreviation find := (vr_htable_find_hentry ht_get_key).
Abbreviation matches := (match_at ht_get_key).
Implicit Types (t : htable) (d : D) (key k : list Z).

(** ** Operations leave the client's data alone *)

Definition same_data t t' : Prop := forall j, data_at t' j = data_at t j.

#[local] Instance same_data_equiv : Equivalence same_data.
Proof.
  split.
  - by intros t j.
  - intros t t' H j. by rewrite H.
  - intros t1 t2 t3 H1 H2 j. by rewrite H2, H1.
Qed.

Lemma upd_same_data i f t : (forall e, hentry_data (f e) = hentry_data e) -> same_data t (upd i f t).
Proof.
  intros Hf j. unfold data_at. rewrite zget_upd. case_decide; [|done].
  destruct (zget (ht_entries t) j); cbn; [by rewrite Hf|done].
Qed.

(** A store in front of an operation that keeps the data. *)
Lemma upd_same_data_after t0 i f t :
  (forall e, hentry_data (f e) = hentry_data e) -> same_data t0 t -> same_data t0 (upd i f t).
Proof. intros Hf Ht. etransitivity; [exact Ht|by apply upd_same_data]. Qed.

Lemma get_free_same_data t : same_data t (vr_htable_get_free_oentry t).2.
Proof.
  unfold vr_htable_get_free_oentry. destruct (ht_free_oentry_head t) as [i|]; [|done].
  destruct (zget (ht_entries t) i); [|done]. cbn [snd]. by apply upd_same_data_after.
Qed.

Lemma put_free_same_data i t : same_data t (vr_htable_put_free_oentry i t).
Proof.
  unfold vr_htable_put_free_oentry. destruct (zget _ i) as [e|]; [|done]. destruct (_ <? _); [done|].
  destruct (has_flag _ e); [done|].
  match goal with |- same_data t (set_free _ _ ?x) => change (same_data t x) end. by apply upd_same_data.
Qed.

Lemma invalidate_same_data i t : same_data t (vr_htable_oentry_invalidate i t).
Proof.
  unfold vr_htable_oentry_invalidate. destruct (zget _ i) as [e|]; [|done]. destruct (_ <? _); [done|].
  etransitivity; [|apply put_free_same_data]. by apply upd_same_data.
Qed.

Lemma link_same_data o last t : same_data t (link_oentry o last t).
Proof. unfold link_oentry. do 2 (apply upd_same_data_after; [done|]). done. Qed.

Lemma find_free_same_data key ks t : same_data t (vr_htable_find_free_hentry key ks t).2.
Proof.
  unfold vr_htable_find_free_hentry. destruct (_ =? 0); [done|].
  destruct (find_invalid _ t) as [i|].
  { cbn [snd]. match goal with |- same_data t (set_used _ ?x) => change (same_data t x) end. by apply upd_same_data. }
  destruct (ht_oentries t =? 0); [done|].
  pose proof (get_free_same_data t) as Hg. destruct (vr_htable_get_free_oentry t) as [[o|] t1]; [|done]. cbn [snd] in *.
  etransitivity; [exact Hg|]. match goal with |- same_data _ (set_used _ ?x) => change (same_data t1 x) end.
  apply link_same_data.
Qed.

Lemma release_same_data i t : same_data t (vr_htable_release_hentry i t).
Proof.
  unfold vr_htable_release_hentry. destruct (zget (ht_entries t) i) as [e|]; [|done]. destruct (negb _); [done|].
  set (t1 := upd i _ _). assert (H1 : same_data t t1) by (by apply upd_same_data_after).
  destruct (_ <? _); [done|]. destruct (ht_not_ready t); [done|]. set (t2 := upd i _ t1).
  assert (H2 : same_data t t2) by (by apply upd_same_data_after).
  destruct (__vr_htable_get_hentry_by_index t2 _) as [h|]; [|done]. destruct (zget (ht_dtable t2) _) as [dd|]; [|done].
  cbn [hd_scheduled]. destruct (_ =? 0); [|done]. unfold ask_host.
  by destruct (match ht_oracle t2 with [] => true | b :: _ => b end).
Qed.

Lemma delete_walk_same_data fuel count prev ent t : same_data t (delete_walk fuel count prev ent t).
Proof.
  revert count prev ent t. induction fuel as [|fuel IH]; intros count prev ent t; [done|].
  destruct (decide (count = 0)) as [->|Hc]; [done|].
  destruct ent as [i|]; [|cbn; by rewrite (proj2 (Z.eqb_neq _ _))].
  destruct (zget (ht_entries t) i) as [e|] eqn:He; [|cbn; by rewrite (proj2 (Z.eqb_neq _ _)), He].
  rewrite (delete_walk_unfold _ _ _ _ _ e) by done. cbn zeta.
  set (ni := match hentry_next e with Some _ => _ | None => _ end).
  assert (Hun : same_data t (unlink i prev ni (hentry_next e) t)).
  { unfold unlink. do 2 (apply upd_same_data_after; [done|]). done. }
  assert (H1 : forall t1, same_data t t1 -> same_data t
    (if ht_not_ready t1 then vr_htable_oentry_invalidate i t1
     else let '(ok, t2) := ask_host t1 in
          if ok then set_queues (ht_work t2) (ht_deferred t2 ++ [hentry_index e]) (ht_oracle t2) t2 else t2)).
  { intros t1 Ht1. destruct (ht_not_ready t1); [etransitivity; [exact Ht1|apply invalidate_same_data]|].
    unfold ask_host. by destruct (match ht_oracle t1 with [] => true | b :: _ => b end). }
  destruct (has_flag VR_HENTRY_FLAG_DELETE_MARKED e); destruct (negb _);
    (etransitivity; [|apply IH]); first [apply H1; first [exact Hun|done]|exact Hun|done].
Qed.

Lemma background_same_data t :
  same_data t (vr_htable_hentry_scheduled_delete t) /\ same_data t (vr_htable_hentry_defer_delete t).
Proof.
  split.
  - unfold vr_htable_hentry_scheduled_delete. destruct (ht_work t) as [|k work]; [done|].
    set (t0 := set_queues _ _ _ _). destruct (zget (ht_dtable t0) k) as [dd|]; [|done].
    destruct (__vr_htable_get_hentry_by_index t0 _) as [h|]; [|done]. cbn zeta.
    etransitivity; [|apply delete_walk_same_data]. done.
  - unfold vr_htable_hentry_defer_delete. destruct (ht_deferred t) as [|i l]; [done|].
    set (t0 := set_queues _ _ _ _). destruct (__vr_htable_get_hentry_by_index t0 _) as [h|]; [|done].
    etransitivity; [|apply invalidate_same_data]. done.
Qed.

(** ** The abstraction *)

(** Every entry in use is the one a look-up of its key finds. *)
Definition findable t : Prop :=
  forall k i, zlen k = ht_key_size t -> matches t k i = true -> find k 0 t = Some i.

Record rep t (m : gmap (list Z) D) : Prop := {
  rep_inv : ht_inv t;
  rep_findable : findable t;
  rep_lookup : forall k, zlen k = ht_key_size t -> m !! k = find k 0 t ≫= data_at t
}.

(** One operation of the client or of the background work. *)
Inductive ht_step : htable * gmap (list Z) D -> htable * gmap (list Z) D -> Prop :=
| step_insert t m key d i t1 :
    zlen key = ht_key_size t -> ht_get_key d = Some key -> find key 0 t = None ->
    vr_htable_find_free_hentry key 0 t = (Some i, t1) ->
    ht_step (t, m) (upd i (with_hdata d) t1, <[key := d]> m)
| step_full t m key t1 :
    vr_htable_find_free_hentry key 0 t = (None, t1) -> ht_step (t, m) (t1, m)
| step_write t m key d i :
    zlen key = ht_key_size t -> ht_get_key d = Some key -> find key 0 t = Some i ->
    ht_step (t, m) (upd i (with_hdata d) t, <[key := d]> m)
| step_release t m key d i :
    zlen key = ht_key_size t -> find key 0 t = Some i ->
    ht_step (t, m) (vr_htable_release_hentry i (upd i (with_hdata d) t), delete key m)
| step_scheduled t m : ht_step (t, m) (vr_htable_hentry_scheduled_delete t, m)
| step_deferred t m : ht_step (t, m) (vr_htable_hentry_defer_delete t, m).

Lemma find_free_none key ks t t1 : vr_htable_find_free_hentry key ks t = (None, t1) -> t1 = t.
Proof.
  unfold vr_htable_find_free_hentry. destruct (_ =? 0); [congruence|].
  destruct (find_invalid _ t); [done|]. destruct (ht_oentries t =? 0); [congruence|].
  unfold vr_htable_get_free_oentry. destruct (ht_free_oentry_head t) as [o|]; [|congruence].
  destruct (zget _ o); [done|congruence].
Qed.

Lemma upd_data_at t i d j : j <> i -> data_at (upd i (with_hdata d) t) j = data_at t j.
Proof. intros Hj. unfold data_at. rewrite zget_upd. by rewrite decide_False by congruence. Qed.

(** The key that an entry in use matches is the one the client stored. *)
Lemma matches_key t key i e k :
  zget (ht_entries t) i = Some e -> zlen key = ht_key_size t -> zlen k = ht_key_size t ->
  matches t key i = true -> matches t k i = bool_decide (key = k).
Proof.
  unfold match_at. intros He Hl Hl'. rewrite He. cbn. unfold hentry_matches.
  intros [-> Hk]%andb_true_iff. destruct (ht_get_key (hentry_data e)) as [k0|]; [|done].
  apply andb_true_iff in Hk as [Hz Ht]. apply Z.eqb_eq in Hz. apply bool_decide_eq_true in Ht.
  rewrite !take_ge in Ht by (unfold zlen in *; lia). subst k0.
  rewrite Hz, Z.eqb_refl. cbn. by rewrite !take_ge by (unfold zlen in *; lia).
Qed.

Lemma rep_insert t m key d i t1 :
  rep t m -> zlen key = ht_key_size t -> ht_get_key d = Some key -> find key 0 t = None ->
  vr_htable_find_free_hentry key 0 t = (Some i, t1) ->
  rep (upd i (with_hdata d) t1) (<[key := d]> m).
Proof.
  intros [Hi Hf Hl] Hlen Hkey Hnone Hff.
  destruct (insert_spec ht_get_key t key d i t1 Hi Hlen Hkey Hnone Hff) as (Hi2 & (_ & Hs & _) & Hd & Hun & Ho & Hm & Hfi & Hfo).
  set (t2 := upd i (with_hdata d) t1) in *.
  assert (Hdo : forall j, j <> i -> data_at t2 j = data_at t j).
  { intros j Hj. unfold t2. rewrite upd_data_at by done. pose proof (find_free_same_data key 0 t) as Hsd.
    rewrite Hff in Hsd. apply Hsd. }
  split; [done| |].
  - intros k j Hk Hmj. rewrite Hs in Hk. destruct (decide (j = i)) as [->|Hj].
    + rewrite Hm in Hmj by done. apply bool_decide_eq_true in Hmj. by subst k.
    + rewrite Ho in Hmj by done. apply Hf in Hmj; [|done]. rewrite Hfo; [done|done|]. congruence.
  - intros k Hk. rewrite Hs in Hk. destruct (decide (k = key)) as [->|Hne].
    + by rewrite lookup_insert_eq, Hfi.
    + rewrite lookup_insert_ne, Hfo, Hl by done. destruct (find k 0 t) as [j|] eqn:E; [|done]. cbn.
      symmetry. apply Hdo. intros ->. apply find_match in E as [E _]; [|done]. by rewrite Hun in E.
Qed.

Lemma rep_write t m key d i :
  rep t m -> zlen key = ht_key_size t -> ht_get_key d = Some key -> find key 0 t = Some i ->
  rep (upd i (with_hdata d) t) (<[key := d]> m).
Proof.
  intros [Hi Hf Hl] Hlen Hkey Hfi. destruct (find_match _ t key i Hi Hfi) as (Hmi & e & He & Hfl).
  set (t' := upd i (with_hdata d) t).
  assert (He' : zget (ht_entries t') i = Some (with_hdata d e)) by (unfold t'; by rewrite zget_upd, decide_True, He).
  assert (Hsz : ht_key_size t' = ht_key_size t) by apply upd_frame.
  assert (Hm : forall k, zlen k = ht_key_size t -> matches t' k i = matches t k i).
  { intros k Hk. rewrite (matches_key t key i e k) by done.
    apply (match_at_key _ t' k i (with_hdata d e)); try done; congruence. }
  destruct (write_spec ht_get_key t i d Hi Hm) as (Hi' & _ & Ho & Hfd). fold t' in Hi', Ho, Hfd.
  split; [done| |].
  - intros k j Hk. rewrite Hsz in Hk. rewrite Hfd by done. intros Hmj. apply Hf; [done|].
    destruct (decide (j = i)) as [->|Hj]; [by rewrite Hm in Hmj|by rewrite Ho in Hmj].
  - intros k Hk. rewrite Hsz in Hk. rewrite Hfd by done. destruct (decide (k = key)) as [->|Hne].
    + rewrite lookup_insert_eq, Hfi. cbn. unfold data_at. by rewrite He'.
    + rewrite lookup_insert_ne, Hl by done. destruct (find k 0 t) as [j|] eqn:E; [|done]. cbn.
      symmetry. apply upd_data_at. intros ->. apply find_match in E as [E _]; [|done].
      rewrite (matches_key t key i e k) in E by done. apply bool_decide_eq_true in E. congruence.
Qed.

Lemma rep_release t m key d i :
  rep t m -> zlen key = ht_key_size t -> find key 0 t = Some i ->
  rep (vr_htable_release_hentry i (upd i (with_hdata d) t)) (delete key m).
Proof.
  intros [Hi Hf Hl] Hlen Hfi. destruct (find_match _ t key i Hi Hfi) as (Hmi & e & He & Hfl).
  destruct (release_spec ht_get_key t key i d Hi Hfi) as (Hi' & (_ & Hs & _) & Hmi' & Ho & Hnone & Hfo).
  set (t' := vr_htable_release_hentry i _) in *.
  assert (Hdo : forall j, j <> i -> data_at t' j = data_at t j).
  { intros j Hj. unfold t'. rewrite release_same_data. by apply upd_data_at. }
  split; [done| |].
  - intros k j Hk Hmj. rewrite Hs in Hk. destruct (decide (j = i)) as [->|Hj]; [by rewrite Hmi' in Hmj|].
    rewrite Ho in Hmj by done. apply Hf in Hmj; [|done]. rewrite Hfo; [done|].
    destruct (matches t k i) eqn:E; [|done]. apply Hf in E; [|done]. congruence.
  - intros k Hk. rewrite Hs in Hk. destruct (decide (k = key)) as [->|Hne].
    + rewrite lookup_delete_eq, Hnone; [done|]. intros j Hj. destruct (matches t key j) eqn:E; [|done].
      apply Hf in E; [|done]. congruence.
    + assert (Hki : matches t k i = false).
      { rewrite (matches_key t key i e k) by done. apply bool_decide_eq_false. congruence. }
      rewrite lookup_delete_ne, Hfo, Hl by done. destruct (find k 0 t) as [j|] eqn:E; [|done]. cbn.
      symmetry. apply Hdo. intros ->. apply find_match in E as [E _]; [|done]. congruence.
Qed.

Lemma rep_keeps t t' m :
  rep t m -> ht_inv t' -> keeps ht_get_key t t' -> same_data t t' ->
  (forall key, find key 0 t' = find key 0 t) -> rep t' m.
Proof.
  intros [Hi Hf Hl] Hi' [(_ & Hs & _) Hm] Hd Hfd. split; [done| |].
  - intros k j Hk. rewrite Hs in Hk. rewrite Hm, Hfd. by apply Hf.
  - intros k Hk. rewrite Hs in Hk. rewrite Hfd, Hl by done. destruct (find k 0 t); [|done]. cbn. by rewrite Hd.
Qed.

Lemma rep_background t m :
  rep t m -> rep (vr_htable_hentry_scheduled_delete t) m /\ rep (vr_htable_hentry_defer_delete t) m.
Proof.
  intros Hr. pose proof (rep_inv _ _ Hr) as Hi. destruct (background_same_data t) as [D1 D2].
  split.
  - destruct (background_spec ht_get_key t _ Hi (or_introl eq_refl)) as (H1 & H2 & H3). by apply (rep_keeps t).
  - destruct (background_spec ht_get_key t _ Hi (or_intror eq_refl)) as (H1 & H2 & H3). by apply (rep_keeps t).
Qed.

Lemma rep_step tm tm' : ht_step tm tm' -> rep tm.1 tm.2 -> rep tm'.1 tm'.2.
Proof.
  intros Hst Hr. destruct Hst; cbn [fst snd] in *.
  - by apply (rep_insert t).
  - by rewrite (find_free_none _ _ _ _ H).
  - by apply rep_write.
  - by apply rep_release.
  - by apply rep_background.
  - by apply rep_background.
Qed.

Lemma rep_steps tm tm' : rtc ht_step tm tm' -> rep tm.1 tm.2 -> rep tm'.1 tm'.2.
Proof. intros Hst Hr. induction Hst as [|x y z Hxy _ IH]; [done|]. apply IH. by apply (rep_step x). Qed.

(** A table on which no entry matches represents the empty map. *)
Lemma rep_empty t : ht_inv t -> (forall key i, matches t key i = false) -> rep t ∅.
Proof.
  intros Hi Hm. split; [done| |].
  - intros k i _. by rewrite Hm.
  - intros k _. rewrite lookup_empty. destruct (find k 0 t) as [j|] eqn:E; [|done].
    apply find_match in E as [E _]; [|done]. by rewrite Hm in E.
Qed.

(** C15: a hash table is a finite map.  A table with a power of two of entries per
    bucket is created empty; and whatever sequence of insertions, overwrites, releases,
    scheduled deletions and ends of grace periods is run on it, the table stays well
    formed, and a look-up of a key finds an entry exactly when the map that the
    operations describe has the key, in which case the entry holds the data that the
    map has for it. *)
Theorem htable_refines_map entries0 oentries entry_size key_size bucket_size d0 not_ready oracle :
  0 < entries0 -> 0 <= oentries -> entry_size <> 0 -> key_size <> 0 ->
  (exists e, 0 <= e /\ bucket_size = 2 ^ e) -> entries0 + bucket_size <= UINT_MAX ->
  exists t, __vr_htable_create entries0 oentries entry_size key_size bucket_size d0 not_ready oracle
              (true, true, true, true) = Some t /\
    forall t' m, rtc ht_step (t, ∅) (t', m) ->
      ht_inv t' /\ forall key, zlen key = ht_key_size t' -> m !! key = find key 0 t' ≫= data_at t'.
Proof.
  intros H1 H2 H3 H4 H5 H6.
  destruct (htable_create_spec ht_get_key entries0 oentries entry_size key_size bucket_size d0 not_ready oracle H1 H2 H3 H4 H5 H6)
    as (t & Hc & Hi & _ & _ & _ & Hm).
  exists t. split; [done|]. intros t' m Hst.
  destruct (rep_steps _ _ Hst (rep_empty t Hi Hm)). done.
Qed.

End refinement.

(** ** A small table

    The data of an entry is its key and a value; four entries of one bucket, one
    overflow entry. *)

Definition small_key (d : option (list Z) * Z) : option (list Z) := d.1.

Definition small_insert (key : list Z) (v : Z) (t : vr_htable (option (list Z) * Z)) : vr_htable (option (list Z) * Z) :=
  match vr_htable_find_free_hentry key 0 t with
  | (Some i, t1) => upd i (with_hdata (Some key, v)) t1
  | (None, t1) => t1
  end.

Definition small_remove (key : list Z) (t : vr_htable (option (list Z) * Z)) : vr_htable (option (list Z) * Z) :=
  match vr_htable_find_hentry small_key key 0 t with
  | Some i => vr_htable_release_hentry i (upd i (with_hdata (None, 0)) t)
  | None => t
  end.

Definition small_table (oracle : list bool) : option (vr_htable (option (list Z) * Z)) :=
  __vr_htable_create 4 1 64 1 4 (None, 0) false oracle (true, true, true, true).

Lemma htable_refines_map_witness :
  exists t, small_table [] = Some t /\
    forall t' m, rtc (ht_step small_key) (t, ∅) (t', m) ->
      ht_inv t' /\ forall key, zlen key = ht_key_size t' ->
        m !! key = vr_htable_find_hentry small_key key 0 t' ≫= data_at t'.
Proof.
  apply (htable_refines_map small_key 4 1 64 1 4 (None, 0) false []); try done.
  exists 2. done.
Defined.

(** Five keys fill the table; one that is in the overflow entry is removed and the
    background work is run; the entry can be used again. *)
Definition small_cycle (oracle : list bool) : option (option Z * Z * Z) :=
  t ← small_table oracle;
  let t5 := small_insert [5] 50 (small_insert [4] 40 (small_insert [3] 30
              (small_insert [2] 20 (small_insert [1] 10 t)))) in
  let t6 := vr_htable_hentry_defer_delete (vr_htable_hentry_scheduled_delete (small_remove [5] t5)) in
  let '(o, t7) := vr_htable_find_free_hentry [6] 0 t6 in
  Some (o, vr_htable_used_total_entries t6, vr_htable_used_oflow_entries t6).

Example small_cycle_ok : small_cycle [] = Some (Some 4, 4, 0).
Proof. vm_compute. reflexivity. Qed.

(** When the host has no memory to defer the release of an unlinked overflow entry,
    the entry is lost: it is on no chain and never returns to the free list.  The code
    tests for such an entry a second time, but only on the chain that it has left, and
    its comment admits that the entry stays in delete state for ever.  With four of five
    entries in use there is no room for a fifth key. *)
Theorem htable_failed_defer_leaks : small_cycle [true; false] = Some (None, 4, 1).
Proof. vm_compute. reflexivity. Qed.

End HtableMap.
