(* ===== verification/Bridge.v ===== *)
(** * The bridge table (dp-core/vr_bridge.c)

    MAC addresses of all VRFs are kept in one hash table, keyed by the address and the
    VRF; an entry holds a counted reference to a nexthop, a label and flags.  The table
    is a client of [Htable] and, through [NhIface], of the nexthops.

    [bview] is the abstract state, the map from (VRF, MAC) to what was last added for
    it; the theorems show that additions, deletions and look-ups implement it, and that
    tearing the table down drops every reference. *)

From stdpp Require Import gmap.
From S2P Require Import Prelude NhIface RouteReq Hash Htable HtableMap Queue Message.
Import Htable HtableMap Message.

Definition VR_BE_VALID_FLAG : Z := 1.
Definition VR_BE_LABEL_VALID_FLAG : Z := 2.
Definition VR_DEF_BRIDGE_ENTRIES : Z := 262144.

Module Bridge.

(** [struct vr_bridge_entry] without the hash entry it starts with. *)
Record vr_bridge_entry := mk_be {
  be_mac : list Z;
  be_vrf_id : Z;
  be_nh : option nhp;
  be_label : Z;
  be_flags : Z
}.

Definition be_zero : vr_bridge_entry := mk_be (replicate 6 0) 0 None 0 0.

Definition be_valid (be : vr_bridge_entry) : bool := negb (Z.land (be_flags be) VR_BE_VALID_FLAG =? 0).

(** The bytes of [struct vr_bridge_entry_key]; the identifier of a VRF is kept in two
    of them. *)
Definition be_key (mac : list Z) (vrf_id : Z) : list Z :=
  take 6 mac ++ [u16 vrf_id mod 256; u16 vrf_id / 256].

Definition bridge_entry_key (be : vr_bridge_entry) : option (list Z) :=
  if be_valid be then Some (be_key (be_mac be) (be_vrf_id be)) else None.

(** The globals of vr_bridge.c; [vn_rtable] is also the [algo_data] of the route
    table. *)
Record bridge := mk_bridge {
  vn_rtable : option (vr_htable vr_bridge_entry);
  vr_bridge_entries : Z;
  vr_bridge_oentries : Z
}.

Definition set_rtable (t : option (vr_htable vr_bridge_entry)) (b : bridge) : bridge :=
  mk_bridge t (vr_bridge_entries b) (vr_bridge_oentries b).

Definition vr_find_bridge_entry (key : list Z) (b : bridge) : option Z :=
  t ← vn_rtable b; vr_htable_find_hentry bridge_entry_key key 0 t.

Definition vr_find_free_bridge_entry (vrf_id : Z) (mac : list Z) (b : bridge) : option Z * bridge :=
  match vn_rtable b with
  | None => (None, b)
  | Some t =>
      let '(i, t1) := vr_htable_find_free_hentry (be_key mac vrf_id) 0 t in (i, set_rtable (Some t1) b)
  end.

(** The client's part of an entry, read and written in place. *)
Definition be_read (i : Z) (b : bridge) : vr_bridge_entry :=
  default be_zero (t ← vn_rtable b; data_at t i).

Definition be_index (i : Z) (b : bridge) : Z :=
  from_option hentry_index 0 (t ← vn_rtable b; zget (ht_entries t) i).

Definition be_write (i : Z) (be : vr_bridge_entry) (b : bridge) : bridge :=
  match vn_rtable b with
  | Some t => set_rtable (Some (upd i (with_hdata be) t)) b
  | None => b
  end.

Section ops.
Context {NS : Type} `{NhOps NS}.

Definition __bridge_table_add (rt0 : vr_route_req) (b : bridge) (s : NS) : Z * bridge * NS :=
  let rt := with_label (Z.ldiff (rtr_label_flags rt0) VR_BE_VALID_FLAG) (rtr_label rt0) rt0 in
  let key := be_key (rtr_mac rt) (rtr_vrf_id rt) in
  let '(be, b1) :=
    match vr_find_bridge_entry key b with
    | Some i => (Some i, b)
    | None =>
        match vr_find_free_bridge_entry (rtr_vrf_id rt) (rtr_mac rt) b with
        | (None, b1) => (None, b1)
        | (Some i, b1) =>
            let be := be_read i b1 in
            (Some i, be_write i (mk_be (take 6 (rtr_mac rt)) (u16 (rtr_vrf_id rt)) (be_nh be) (be_label be)
                                   VR_BE_VALID_FLAG) b1)
        end
    end in
  match be with
  | None => (- ENOMEM, b1, s)
  | Some i =>
      let be := be_read i b1 in
      let '(nh, s1) :=
        if bool_decide (be_nh be = rtr_nh rt) then (be_nh be, s)
        else
          let '(nh, s1) := nh_get (rtr_rid rt) (rtr_nh_id rt) s in
          (nh, match be_nh be with Some old => nh_put (Some old) s1 | None => s1 end) in
      let label := if negb (Z.land (rtr_label_flags rt) VR_BE_LABEL_VALID_FLAG =? 0)
                   then u32 (rtr_label rt) else be_label be in
      let flags := u16 (Z.lor (Z.land (be_flags be) VR_BE_VALID_FLAG) (rtr_label_flags rt)) in
      (0, be_write i (mk_be (be_mac be) (be_vrf_id be) nh label flags) b1, s1)
  end.

Definition bridge_table_add (rt : vr_route_req) (b : bridge) (s : NS) : Z * bridge * NS :=
  match vn_rtable b with
  | None => (- EINVAL, b, s)
  | Some _ =>
      if negb (rtr_mac_size rt =? VR_ETHER_ALEN) then (- EINVAL, b, s)
      else if IS_MAC_ZERO (rtr_mac rt) then (- EINVAL, b, s)
      else
        let '(nh, s1) := nh_get (rtr_rid rt) (rtr_nh_id rt) s in
        match nh with
        | None => (- ENOENT, b, s1)
        | Some p =>
            if (Z.land (rtr_label_flags rt) VR_BE_LABEL_VALID_FLAG =? 0) && (nh_type_of s1 p =? NH_TUNNEL) then
              (- EINVAL, b, nh_put nh s1)
            else
              let '(ret, b1, s2) := __bridge_table_add (with_nh nh rt) b s1 in
              (ret, b1, nh_put nh s2)
        end
  end.

(** The part of [bridge_table_entry_free] on the table: the form that
    [vr_htable_reset] calls. *)
Definition bridge_table_entry_free (i : Z) (t : vr_htable vr_bridge_entry) (s : NS)
    : vr_htable vr_bridge_entry * NS :=
  match data_at t i with
  | None => (t, s)
  | Some be =>
      let be1 := mk_be (be_mac be) (be_vrf_id be) None (be_label be) (Z.ldiff (be_flags be) VR_BE_VALID_FLAG) in
      let s1 := match be_nh be with Some nh => nh_put (Some nh) s | None => s end in
      (vr_htable_release_hentry i (upd i (with_hdata be1) t), s1)
  end.

Definition bridge_table_delete (rt : vr_route_req) (b : bridge) (s : NS) : Z * bridge * NS :=
  match vn_rtable b with
  | None => (- EINVAL, b, s)
  | Some t =>
      if negb (rtr_mac_size rt =? VR_ETHER_ALEN) then (- EINVAL, b, s)
      else
        match vr_find_bridge_entry (be_key (rtr_mac rt) (rtr_vrf_id rt)) b with
        | None => (- ENOENT, b, s)
        | Some i => let '(t1, s1) := bridge_table_entry_free i t s in (0, set_rtable (Some t1) b, s1)
        end
  end.

End ops.

(** The look-up by index copies the address to the request when it has room for it. *)
Definition bridge_table_lookup (b : bridge) (vrf_id : Z) (rt0 : vr_route_req) : option nhp * vr_route_req :=
  let rt := with_label 0 (rtr_label rt0) rt0 in
  if negb (rtr_index rt =? VR_BE_INVALID_INDEX) then
    match t ← vn_rtable b; vr_htable_get_hentry_by_index t (rtr_index rt) with
    | None => (None, rt)
    | Some e =>
        let be := hentry_data e in
        let rt1 := with_nh (be_nh be) (with_label (be_flags be) (be_label be) rt) in
        let rt2 := match rtr_mac rt1 with [] => rt1 | _ => with_mac (be_mac be) (rtr_mac_size rt1) rt1 end in
        (be_nh be, rt2)
    end
  else
    let rt1 := with_index VR_BE_INVALID_INDEX (with_nh None rt) in
    match vr_find_bridge_entry (be_key (rtr_mac rt1) (rtr_vrf_id rt1)) b with
    | None => (None, rt1)
    | Some i =>
        let be := be_read i b in
        (be_nh be, with_index (be_index i b) (with_nh (be_nh be) (with_label (be_flags be) (be_label be) rt1)))
    end.

Definition vr_bridge_route_flags (b : bridge) (vrf_id : Z) (mac : list Z) : Z :=
  match vr_find_bridge_entry (be_key mac vrf_id) b with
  | Some i => let be := be_read i b in if be_valid be then be_flags be else 0
  | None => 0
  end.

Definition vr_bridge_table_used_total_entries (b : bridge) : Z :=
  from_option vr_htable_used_total_entries 0 (vn_rtable b).

Definition vr_bridge_table_used_oflow_entries (b : bridge) : Z :=
  from_option vr_htable_used_oflow_entries 0 (vn_rtable b).

Section more_ops.
Context {NS : Type} `{NhOps NS} `{Sandesh vr_route_req}.

Definition bridge_table_get (b : bridge) (vrf_id : Z) (rt : vr_route_req) (s : NS) : Z * vr_route_req :=
  let '(nh, rt1) := bridge_table_lookup b vrf_id rt in
  match nh with
  | Some p => (0, with_nh_id (nh_id_of s p) rt1)
  | None => (- ENOENT, rt1)
  end.

(** The response has a copy of the address in memory of its own. *)
Definition bridge_entry_make_req (index : Z) (ent : vr_bridge_entry) (s : NS) (h : vr_message_handler)
    : option (vr_route_req * Z) * vr_message_handler :=
  match alloc VR_ETHER_ALEN h with
  | (None, h1) => (None, h1)
  | (Some blk, h1) =>
      let nh_id := match be_nh ent with Some p => nh_id_of s p | None => 0 end in
      (Some (mk_req (be_vrf_id ent) AF_BRIDGE [] 0 0 (be_flags ent) (be_label ent) nh_id (be_mac ent) VR_ETHER_ALEN
               0 index None, blk), h1)
  end.

(** The loop over the indices of the table. *)
Fixpoint dump_walk (idx : list Z) (t : vr_htable vr_bridge_entry) (s : NS) (req : vr_route_req)
    (d : vr_message_dumper vr_route_req) (h : vr_message_handler)
    : Z * vr_message_dumper vr_route_req * vr_message_handler :=
  match idx with
  | [] => (0, d, h)
  | i :: idx' =>
      match vr_htable_get_hentry_by_index t i with
      | None => dump_walk idx' t s req d h
      | Some e =>
          let be := hentry_data e in
          if be_valid be && (be_vrf_id be =? rtr_vrf_id req) then
            if dump_been_to_marker d =? 0 then
              dump_walk idx' t s req (if bool_decide (be_mac be = take 6 (rtr_mac req)) then set_marker 1 d else d) h
            else
              match bridge_entry_make_req (hentry_index e) be s h with
              | (None, h1) => dump_walk idx' t s req d h1
              | (Some (resp, blk), h1) =>
                  let '(ret, d1) := vr_message_dump_object h1 d VR_ROUTE_OBJECT_ID resp in
                  let h2 := free blk h1 in
                  if ret <=? 0 then (ret, d1, h2) else dump_walk idx' t s req d1 h2
              end
          else dump_walk idx' t s req d h
      end
  end.

Definition __bridge_table_dump (b : bridge) (s : NS) (d : vr_message_dumper vr_route_req) (h : vr_message_handler)
    : Z * vr_message_dumper vr_route_req * vr_message_handler :=
  match vn_rtable b with
  | None => (0, d, h)
  | Some t => dump_walk (seqZ 0 (u32 (vr_bridge_entries b + vr_bridge_oentries b))) t s (dump_req d) d h
  end.

(** A request without an address ends the dump; one with an address of another size
    returns before the dumper is closed. *)
Definition bridge_table_dump (fuel : nat) (b : bridge) (rt : vr_route_req) (s : NS) (h : vr_message_handler)
    : option (Z * vr_message_handler) :=
  match vr_message_dump_init rt h with
  | (None, h1) => (fun h2 => (0, h2)) <$> vr_message_dump_exit fuel (None : option (vr_message_dumper vr_route_req)) (- ENOMEM) h1
  | (Some d, h1) =>
      if negb (rtr_mac_size rt =? VR_ETHER_ALEN) then Some (- EINVAL, h1)
      else
        match rtr_mac rt with
        | [] => (fun h2 => (0, h2)) <$> vr_message_dump_exit fuel (Some d) (- EINVAL) h1
        | mac =>
            let d1 := if IS_MAC_ZERO mac then set_marker 1 d else d in
            let '(ret, d2, h2) := __bridge_table_dump b s d1 h1 in
            (fun h3 => (0, h3)) <$> vr_message_dump_exit fuel (Some d2) ret h2
        end
  end.

(** [mem] and [oracle] are the memory that [vr_htable_create] finds. *)
Definition bridge_table_init (b : bridge) (not_ready : bool) (oracle : list bool) (mem : bool * bool * bool * bool)
    : Z * bridge :=
  match vn_rtable b with
  | Some _ => (0, b)
  | None =>
      let oentries := if vr_bridge_oentries b =? 0
                      then Z.ldiff (u32 (vr_bridge_entries b / 5 + 1023)) 1023 else vr_bridge_oentries b in
      match __vr_htable_create (vr_bridge_entries b) oentries 64 8 0 be_zero not_ready oracle mem with
      | None => (- ENOMEM, mk_bridge None (vr_bridge_entries b) oentries)
      | Some t => (0, mk_bridge (Some t) (vr_bridge_entries b) oentries)
      end
  end.

Definition bridge_table_deinit (soft_reset : bool) (b : bridge) (s : NS) : bridge * NS :=
  match vn_rtable b with
  | None => (b, s)
  | Some t =>
      let '(t1, s1) := vr_htable_reset bridge_table_entry_free t s in
      (set_rtable (if soft_reset then Some t1 else None) b, s1)
  end.

End more_ops.

(** ** The abstract table *)

(** [bview b m]: the table holds, for every key, the entry that the map [m] has. *)
Definition bview (b : bridge) (m : gmap (list Z) vr_bridge_entry) : Prop :=
  (exists t, vn_rtable b = Some t /\ ht_key_size t = 8 /\ rep bridge_entry_key t m) /\
  map_Forall (fun _ be => zlen (be_mac be) = 6 /\ 0 <= be_vrf_id be < 65536) m.

Lemma zlen_be_key mac vrf_id : 6 <= zlen mac -> zlen (be_key mac vrf_id) = 8.
Proof. intros Hm. unfold be_key. rewrite zlen_app. unfold zlen in *. rewrite length_take. cbn [length]. lia. Qed.

(** Two addresses, or two VRFs, never share a key. *)
Lemma be_key_inj mac vrf mac' vrf' :
  6 <= zlen mac -> 6 <= zlen mac' -> 0 <= vrf < 65536 -> 0 <= vrf' < 65536 ->
  be_key mac vrf = be_key mac' vrf' -> take 6 mac = take 6 mac' /\ vrf = vrf'.
Proof.
  intros Hm Hm' Hv Hv' He. unfold be_key in He. rewrite !u16_small in He by done.
  apply app_inj_1 in He as [-> Hk]; [|rewrite !length_take; unfold zlen in *; lia].
  split; [done|]. injection Hk as H1 H2. rewrite (Z.div_mod vrf 256), (Z.div_mod vrf' 256) by done. congruence.
Qed.

Lemma find_bview b m key :
  bview b m -> zlen key = 8 ->
  match vr_find_bridge_entry key b with
  | Some i => m !! key = Some (be_read i b) /\ bridge_entry_key (be_read i b) = Some key
  | None => m !! key = None
  end.
Proof.
  intros [(t & Ht & Hk & Hr) _] Hl. unfold vr_find_bridge_entry, be_read. rewrite Ht. cbn.
  rewrite (rep_lookup _ _ _ Hr key) by congruence. destruct (vr_htable_find_hentry _ key 0 t) as [i|] eqn:E; [|done].
  cbn. destruct (find_match _ t key i (rep_inv _ _ _ Hr) E) as (Hm & e & He & _). unfold data_at. rewrite He. cbn.
  split; [done|]. unfold match_at in Hm. rewrite He in Hm. cbn in Hm. unfold hentry_matches in Hm.
  apply andb_true_iff in Hm as [_ Hm]. destruct (bridge_entry_key (hentry_data e)) as [k|]; [|done].
  apply andb_true_iff in Hm as [Hz Hb]. apply Z.eqb_eq in Hz. apply bool_decide_eq_true in Hb. f_equal.
  rewrite !take_ge in Hb by (unfold zlen in *; lia). done.
Qed.

(** Overwriting the entry of a key. *)
Lemma write_bview b m key i be :
  bview b m -> zlen key = 8 -> vr_find_bridge_entry key b = Some i -> bridge_entry_key be = Some key ->
  zlen (be_mac be) = 6 -> 0 <= be_vrf_id be < 65536 ->
  bview (be_write i be b) (<[key := be]> m).
Proof.
  intros [(t & Ht & Hk & Hr) Hm] Hl Hf Hkey Hmac Hvrf. split; [|by apply map_Forall_insert_2]. unfold vr_find_bridge_entry in Hf. rewrite Ht in Hf. cbn in Hf.
  unfold be_write. rewrite Ht. eexists. split; [done|].
  split; [rewrite <- Hk; apply upd_frame|]. apply rep_write; try done. congruence.
Qed.

(** Taking an entry for a key that has none. *)
Lemma claim_bview b m vrf mac :
  bview b m -> 6 <= zlen mac -> vr_find_bridge_entry (be_key mac vrf) b = None ->
  match vr_find_free_bridge_entry vrf mac b with
  | (None, b1) => b1 = b
  | (Some i, b1) => forall be, bridge_entry_key be = Some (be_key mac vrf) ->
      zlen (be_mac be) = 6 -> 0 <= be_vrf_id be < 65536 ->
      bview (be_write i be b1) (<[be_key mac vrf := be]> m) /\
      vr_find_bridge_entry (be_key mac vrf) (be_write i be b1) = Some i /\ be_read i (be_write i be b1) = be
  end.
Proof.
  intros [(t & Ht & Hk & Hr) Hm] Hl Hf. pose proof (zlen_be_key mac vrf Hl) as Hl8.
  unfold vr_find_bridge_entry in Hf. rewrite Ht in Hf. cbn in Hf.
  unfold vr_find_free_bridge_entry. rewrite Ht. destruct (vr_htable_find_free_hentry _ 0 t) as [[i|] t1] eqn:E.
  - intros be Hbe Hmac Hvrf. unfold be_write, vr_find_bridge_entry, be_read. cbn.
    destruct (insert_spec bridge_entry_key t (be_key mac vrf) be i t1 (rep_inv _ _ _ Hr) ltac:(congruence) Hbe Hf E)
      as (_ & (_ & Hs & _) & Hd & _ & _ & _ & Hfi & _).
    split_and!; [|done|by rewrite Hd]. split; [|by apply map_Forall_insert_2].
    eexists. split; [done|]. split; [congruence|].
    apply (rep_insert _ t); try done. congruence.
  - apply find_free_none in E. subst t1. destruct b. cbn in *. by subst.
Qed.

Lemma valid_testbit be : be_valid be = Z.testbit (be_flags be) 0.
Proof.
  unfold be_valid, VR_BE_VALID_FLAG. replace 1 with (Z.ones 1) by done. rewrite Z.land_ones by lia.
  rewrite Z.bit0_odd. change (2 ^ 1) with 2. rewrite Zmod_odd. by destruct (Z.odd _).
Qed.

(** The flags of an entry that was added. *)
Definition added_flags (rt : vr_route_req) : Z :=
  u16 (Z.lor VR_BE_VALID_FLAG (Z.ldiff (rtr_label_flags rt) VR_BE_VALID_FLAG)).

Lemma added_flags_eq be rt :
  be_valid be = true ->
  u16 (Z.lor (Z.land (be_flags be) VR_BE_VALID_FLAG) (Z.ldiff (rtr_label_flags rt) VR_BE_VALID_FLAG)) = added_flags rt.
Proof.
  rewrite valid_testbit, Z.bit0_odd. intros Hv. unfold added_flags, VR_BE_VALID_FLAG. f_equal. f_equal.
  change 1 with (Z.ones 1) at 1. rewrite Z.land_ones by lia. change (2 ^ 1) with 2. by rewrite Zmod_odd, Hv.
Qed.

Lemma added_flags_valid be rt : be_flags be = added_flags rt -> be_valid be = true.
Proof.
  intros Hf. rewrite valid_testbit, Hf. unfold added_flags, u16. change 65536 with (2 ^ 16).
  rewrite Z.mod_pow2_bits_low by lia. by rewrite Z.lor_spec.
Qed.

Section proofs.
Context {NS : Type} `{NhLaws NS}.

(** What an addition leaves in the table; a label that is not given keeps what the
    entry had. *)
Record be_added (rt : vr_route_req) (nh : option nhp) (be : vr_bridge_entry) : Prop := {
  added_mac : be_mac be = take 6 (rtr_mac rt);
  added_vrf : be_vrf_id be = u16 (rtr_vrf_id rt);
  added_nh : be_nh be = nh;
  added_fl : be_flags be = added_flags rt;
  added_label : Z.land (rtr_label_flags rt) VR_BE_LABEL_VALID_FLAG <> 0 -> be_label be = u32 (rtr_label rt)
}.

(** The nexthop of the entry after it was changed. *)
Lemma add_nh (rt : vr_route_req) (be : vr_bridge_entry) (s : NS) p :
  (nh_get (rtr_rid rt) (rtr_nh_id rt) s).1 = Some p -> rtr_nh rt = Some p ->
  let r := if bool_decide (be_nh be = rtr_nh rt) then (be_nh be, s)
           else let '(nh, s1) := nh_get (rtr_rid rt) (rtr_nh_id rt) s in
                (nh, match be_nh be with Some old => nh_put (Some old) s1 | None => s1 end) in
  r.1 = Some p /\ same_nhs s r.2.
Proof.
  intros Hg Hn. rewrite Hn. case_bool_decide as Hb; [split; [done|reflexivity]|].
  pose proof (nh_get_same (rtr_rid rt) (rtr_nh_id rt) s) as Hs.
  destruct (nh_get (rtr_rid rt) (rtr_nh_id rt) s) as [nh s1]. cbn in *. split; [done|].
  destruct (be_nh be); [|done]. etransitivity; [exact Hs|]. auto with vr.
Qed.

Lemma label_flag_kept f :
  Z.land (Z.ldiff f VR_BE_VALID_FLAG) VR_BE_LABEL_VALID_FLAG = Z.land f VR_BE_LABEL_VALID_FLAG.
Proof.
  apply Z.bits_inj'. intros n Hn. rewrite !Z.land_spec, Z.ldiff_spec.
  unfold VR_BE_VALID_FLAG, VR_BE_LABEL_VALID_FLAG. destruct (decide (n = 0)) as [->|].
  - by rewrite !andb_false_r.
  - replace (Z.testbit 1 n) with false; [by rewrite andb_true_r|].
    symmetry. change 1 with (2 ^ 0). apply Z.pow2_bits_false. lia.
Qed.

(** The second half of an addition: the entry [be] of the key is there. *)
Lemma add_finish rt b m (s : NS) i p :
  bview b m -> 6 <= zlen (rtr_mac rt) ->
  vr_find_bridge_entry (be_key (rtr_mac rt) (rtr_vrf_id rt)) b = Some i ->
  be_mac (be_read i b) = take 6 (rtr_mac rt) -> be_vrf_id (be_read i b) = u16 (rtr_vrf_id rt) ->
  be_valid (be_read i b) = true ->
  forall label, (Z.land (rtr_label_flags rt) VR_BE_LABEL_VALID_FLAG <> 0 -> label = u32 (rtr_label rt)) ->
  let be' := mk_be (be_mac (be_read i b)) (be_vrf_id (be_read i b)) (Some p) label
     (u16 (Z.lor (Z.land (be_flags (be_read i b)) VR_BE_VALID_FLAG)
             (Z.ldiff (rtr_label_flags rt) VR_BE_VALID_FLAG))) in
  be_added rt (Some p) be' /\
  bview (be_write i be' b) (<[be_key (rtr_mac rt) (rtr_vrf_id rt) := be']> m).
Proof.
  intros Hv Hl Hf Hmac Hvrf Hval label Hlab be'. assert (Ha : be_added rt (Some p) be').
  { split; unfold be'; cbn; try done. by apply added_flags_eq. }
  split; [done|]. destruct Ha as [A1 A2 A3 A4 A5]. apply write_bview; try done.
  - by apply zlen_be_key.
  - unfold bridge_entry_key. rewrite (added_flags_valid be' rt) by done. f_equal. unfold be_key. rewrite A1, A2.
    rewrite take_take. unfold u16. rewrite Z.mod_mod by done. done.
  - rewrite A1. unfold zlen in *. rewrite length_take. lia.
  - rewrite A2. unfold u16. by apply Z.mod_pos_bound.
Qed.

Lemma key_fields be mac vrf :
  bridge_entry_key be = Some (be_key mac vrf) -> 6 <= zlen mac -> zlen (be_mac be) = 6 -> 0 <= be_vrf_id be < 65536 ->
  be_mac be = take 6 mac /\ be_vrf_id be = u16 vrf /\ be_valid be = true.
Proof.
  unfold bridge_entry_key. destruct (be_valid be); [|done]. intros [= Hk] Hl Hm Hv.
  assert (Hu : be_key mac vrf = be_key mac (u16 vrf)) by (unfold be_key, u16; by rewrite Z.mod_mod).
  rewrite Hu in Hk. apply be_key_inj in Hk as [Ht ->]; [|lia|done|done|unfold u16; by apply Z.mod_pos_bound].
  rewrite take_ge in Ht by (unfold zlen in *; lia). done.
Qed.

Lemma bview_entry b m k be : bview b m -> m !! k = Some be -> zlen (be_mac be) = 6 /\ 0 <= be_vrf_id be < 65536.
Proof. intros [_ Hm] Hk. exact (Hm k be Hk). Qed.

Lemma __add_spec rt b m (s : NS) p :
  bview b m -> 6 <= zlen (rtr_mac rt) -> rtr_nh rt = Some p -> (nh_get (rtr_rid rt) (rtr_nh_id rt) s).1 = Some p ->
  let key := be_key (rtr_mac rt) (rtr_vrf_id rt) in
  let '(ret, b', s') := __bridge_table_add rt b s in
  same_nhs s s' /\
  ((ret = - ENOMEM /\ b' = b /\ m !! key = None) \/
   (ret = 0 /\ exists be, be_added rt (Some p) be /\ bview b' (<[key := be]> m))).
Proof.
  intros Hv Hl Hnh Hg key. unfold __bridge_table_add. cbn [rtr_mac rtr_vrf_id rtr_nh rtr_rid rtr_nh_id rtr_label_flags rtr_label with_label].
  fold key. pose proof (zlen_be_key (rtr_mac rt) (rtr_vrf_id rt) Hl) as Hl8. fold key in Hl8.
  pose proof (find_bview b m key Hv Hl8) as Hf. rewrite label_flag_kept.
  assert (Hfin : forall b1 m1 i, bview b1 m1 -> vr_find_bridge_entry key b1 = Some i ->
    bridge_entry_key (be_read i b1) = Some key -> m1 !! key = Some (be_read i b1) -> (forall x, <[key := x]> m1 = <[key := x]> m) ->
    let be := be_read i b1 in
    let '(nh, s1) := if bool_decide (be_nh be = rtr_nh rt) then (be_nh be, s)
           else let '(nh, s1) := nh_get (rtr_rid rt) (rtr_nh_id rt) s in
                (nh, match be_nh be with Some old => nh_put (Some old) s1 | None => s1 end) in
    let label := if negb (Z.land (rtr_label_flags rt) VR_BE_LABEL_VALID_FLAG =? 0) then u32 (rtr_label rt) else be_label be in
    let flags := u16 (Z.lor (Z.land (be_flags be) VR_BE_VALID_FLAG) (Z.ldiff (rtr_label_flags rt) VR_BE_VALID_FLAG)) in
    same_nhs s s1 /\ exists be', be_added rt (Some p) be' /\
      bview (be_write i (mk_be (be_mac be) (be_vrf_id be) nh label flags) b1) (<[key := be']> m)).
  { intros b1 m1 i Hv1 Hf1 Hk1 Hm1 Hins be. pose proof (add_nh rt be s p Hg Hnh) as Ha. cbn zeta in Ha.
    match goal with |- context [if bool_decide ?c then ?x else ?y] => destruct (if bool_decide c then x else y) as [nh s1] end.
    cbn [fst snd] in Ha. destruct Ha as [-> Hs]. split; [done|].
    destruct (bview_entry b1 m1 key _ Hv1 Hm1) as [Hz Hu].
    destruct (key_fields _ _ _ Hk1 Hl Hz Hu) as (Kmac & Kvrf & Kval).
    eexists. rewrite <- Hins. eapply add_finish; try done.
    intros Hx. by rewrite (proj2 (Z.eqb_neq _ _)). }
  destruct (vr_find_bridge_entry key b) as [i|] eqn:E.
  - destruct Hf as [Hm Hk]. specialize (Hfin b m i Hv E Hk Hm ltac:(done)). cbn zeta in Hfin |- *.
    match goal with |- context [if bool_decide ?c then ?x else ?y] => destruct (if bool_decide c then x else y) as [nh s1] end.
    destruct Hfin as [Hs Hx]. split; [done|by right].
  - pose proof (claim_bview b m (rtr_vrf_id rt) (rtr_mac rt) Hv Hl E) as Hc.
    destruct (vr_find_free_bridge_entry (rtr_vrf_id rt) (rtr_mac rt) b) as [[i|] b1].
    2: { split; [reflexivity|]. left. by subst. }
    set (be0 := mk_be (take 6 (rtr_mac rt)) (u16 (rtr_vrf_id rt)) (be_nh (be_read i b1)) (be_label (be_read i b1)) VR_BE_VALID_FLAG) in *.
    assert (Hk0 : bridge_entry_key be0 = Some key).
    { unfold bridge_entry_key, be0, key. cbn. f_equal. unfold be_key. rewrite take_take. unfold u16.
      rewrite Z.mod_mod by done. done. }
    destruct (Hc be0 Hk0) as (Hv0 & Hf0 & Hr0).
    { unfold be0, zlen in *. cbn. rewrite length_take. lia. }
    { unfold be0, u16. cbn. by apply Z.mod_pos_bound. }
    fold key in Hv0, Hf0.
    specialize (Hfin (be_write i be0 b1) (<[key := be0]> m) i Hv0 Hf0). rewrite Hr0 in Hfin.
    specialize (Hfin Hk0 ltac:(apply lookup_insert_eq) ltac:(intros; apply insert_insert_eq)). cbn zeta in Hfin |- *.
    rewrite Hr0.
    match goal with |- context [if bool_decide ?c then ?x else ?y] => destruct (if bool_decide c then x else y) as [nh s1] end.
    destruct Hfin as [Hs Hx]. split; [done|by right].
Qed.

(** The error of a request that is refused before the table is looked at. *)
Definition add_error (rt : vr_route_req) (s : NS) : Z :=
  if negb (rtr_mac_size rt =? VR_ETHER_ALEN) || IS_MAC_ZERO (rtr_mac rt) then - EINVAL
  else match (nh_get (rtr_rid rt) (rtr_nh_id rt) s).1 with
  | None => - ENOENT
  | Some p => if (Z.land (rtr_label_flags rt) VR_BE_LABEL_VALID_FLAG =? 0) && (nh_type_of s p =? NH_TUNNEL)
              then - EINVAL else 0
  end.

(** C16: adding a MAC route.  A request that is malformed, that names a nexthop that
    does not exist, or that wants to tunnel without a label is refused and changes
    nothing.  Otherwise the entry of the (VRF, MAC) pair, and no other, becomes what
    the request says, with the nexthop it names; or, when the pair has no entry and
    the table has no room, the table stays as it was and -ENOMEM is returned.  Reference
    counts apart, the nexthops are left alone. *)
Theorem bridge_add_refines rt b m (s : NS) :
  bview b m -> 6 <= zlen (rtr_mac rt) ->
  let key := be_key (rtr_mac rt) (rtr_vrf_id rt) in
  let '(ret, b', s') := bridge_table_add rt b s in
  same_nhs s s' /\
  if decide (add_error rt s = 0) then
    (ret = - ENOMEM /\ b' = b /\ m !! key = None) \/
    (ret = 0 /\ exists be, be_added rt (nh_get (rtr_rid rt) (rtr_nh_id rt) s).1 be /\ bview b' (<[key := be]> m))
  else ret = add_error rt s /\ b' = b.
Proof.
  intros Hv Hl key. unfold bridge_table_add, add_error. destruct (proj1 Hv) as (t & Ht & _). rewrite Ht.
  destruct (rtr_mac_size rt =? VR_ETHER_ALEN); [|split; [reflexivity|done]]. cbn [negb orb].
  destruct (IS_MAC_ZERO (rtr_mac rt)); [split; [reflexivity|done]|].
  pose proof (nh_get_same (rtr_rid rt) (rtr_nh_id rt) s) as Hs.
  destruct (nh_get (rtr_rid rt) (rtr_nh_id rt) s) as [[p|] s1] eqn:Eg; cbn [fst snd] in *; [|by split].
  rewrite (same_type _ _ Hs). destruct (_ && _).
  { split; [|done]. etransitivity; [exact Hs|]. auto with vr. }
  pose proof (__add_spec (with_nh (Some p) rt) b m s1 p Hv Hl eq_refl) as Ha. cbn [with_nh rtr_mac rtr_vrf_id rtr_rid rtr_nh_id] in Ha.
  rewrite (same_lookup _ _ Hs), Eg in Ha. specialize (Ha eq_refl). cbn zeta in Ha. fold key in Ha.
  destruct (__bridge_table_add _ b s1) as [[ret b'] s2]. destruct Ha as [Hs2 Ha].
  rewrite decide_True by done. split.
  - etransitivity; [exact Hs|]. etransitivity; [exact Hs2|]. auto with vr.
  - destruct Ha as [Ha|(-> & be & [A1 A2 A3 A4 A5] & Hb)]; [by left|right]. split; [done|]. exists be. split; [|done]. by split.
Qed.

(** C17: deleting a MAC route removes the entry of the (VRF, MAC) pair and no other;
    the pair must have one. *)
Theorem bridge_delete_refines rt b m (s : NS) :
  bview b m -> 6 <= zlen (rtr_mac rt) -> rtr_mac_size rt = VR_ETHER_ALEN ->
  let key := be_key (rtr_mac rt) (rtr_vrf_id rt) in
  let '(ret, b', s') := bridge_table_delete rt b s in
  same_nhs s s' /\
  match m !! key with
  | None => ret = - ENOENT /\ b' = b
  | Some _ => ret = 0 /\ bview b' (delete key m)
  end.
Proof.
  intros Hv Hl Hsz key. pose proof (zlen_be_key (rtr_mac rt) (rtr_vrf_id rt) Hl) as Hl8. fold key in Hl8.
  pose proof (find_bview b m key Hv Hl8) as Hf. destruct Hv as [(t & Ht & Hk & Hr) Hm].
  unfold bridge_table_delete. rewrite Ht, Hsz, Z.eqb_refl. cbn [negb]. fold key.
  unfold vr_find_bridge_entry, be_read in *. rewrite Ht in *. cbn in Hf |- *.
  destruct (vr_htable_find_hentry bridge_entry_key key 0 t) as [i|] eqn:E; [|rewrite Hf; by split].
  destruct (find_match _ t key i (rep_inv _ _ _ Hr) E) as (_ & e & He & _).
  unfold bridge_table_entry_free. unfold data_at in *. rewrite He in *. cbn [fmap option_fmap option_map default] in Hf |- *.
  destruct Hf as [Hf _]. rewrite Hf. split.
  - destruct (be_nh (hentry_data e)); [auto with vr|reflexivity].
  - split; [done|]. split; [|by apply map_Forall_delete]. eexists. split; [done|].
    split; [|apply rep_release; try done; congruence].
    rewrite <- Hk. eapply (release_spec _ t key); [apply (rep_inv _ _ _ Hr)|done].
Qed.

(** A look-up by (VRF, MAC) finds what the table holds for the pair; and the index
    it returns, which the route tables keep, leads back to the same entry: a look-up by
    that index gives the same nexthop, label and flags, and the MAC. *)
Theorem bridge_lookup_roundtrip rt rt' b m vrf vrf' :
  bview b m -> (forall t, vn_rtable b = Some t -> zlen (ht_entries t) <= UINT_MAX) ->
  6 <= zlen (rtr_mac rt) -> rtr_index rt = VR_BE_INVALID_INDEX ->
  let '(nh, rt1) := bridge_table_lookup b vrf rt in
  match m !! be_key (rtr_mac rt) (rtr_vrf_id rt) with
  | None => nh = None /\ rtr_index rt1 = VR_BE_INVALID_INDEX
  | Some be =>
      nh = be_nh be /\ rtr_label rt1 = be_label be /\ rtr_label_flags rt1 = be_flags be /\
      (rtr_index rt' = rtr_index rt1 -> rtr_mac rt' <> [] ->
       let '(nh', rt2) := bridge_table_lookup b vrf' rt' in
       nh' = nh /\ rtr_label rt2 = be_label be /\ rtr_label_flags rt2 = be_flags be /\
       rtr_mac rt2 = take 6 (rtr_mac rt))
  end.
Proof.
  intros Hv Hlen Hl Hidx. pose proof (zlen_be_key (rtr_mac rt) (rtr_vrf_id rt) Hl) as Hl8.
  pose proof (find_bview b m _ Hv Hl8) as Hf. destruct (proj1 Hv) as (t & Ht & Hk & Hr).
  unfold bridge_table_lookup at 1. cbn [with_label rtr_index with_index with_nh rtr_mac rtr_vrf_id]. rewrite Hidx.
  cbn [negb Z.eqb Pos.eqb]. cbn. destruct (vr_find_bridge_entry _ b) as [i|] eqn:E; [|by rewrite Hf].
  destruct Hf as [Hm Hkey]. rewrite Hm. destruct (bview_entry _ _ _ _ Hv Hm) as [Hz Hu].
  destruct (key_fields _ _ _ Hkey Hl Hz Hu) as (Kmac & _).
  unfold vr_find_bridge_entry in E. rewrite Ht in E. cbn in E.
  destruct (find_match _ t _ i (rep_inv _ _ _ Hr) E) as (_ & e & He & Hfl).
  destruct (rep_inv _ _ _ Hr) as (_ & _ & free & chain & Hw). pose proof (zget_range _ _ _ He) as Hrng.
  assert (Hbi : be_index i b = i) by (unfold be_index; rewrite Ht; cbn; rewrite He; by apply (wf_index _ _ _ Hw)).
  assert (Hrd : be_read i b = hentry_data e) by (unfold be_read; rewrite Ht; cbn; unfold data_at; by rewrite He).
  cbn [rtr_label rtr_label_flags rtr_index with_index with_nh with_label]. rewrite Hbi. split_and!; try done.
  intros Hi' Hmac'. unfold bridge_table_lookup. cbn [with_label rtr_index]. rewrite Hi'.
  specialize (Hlen t Ht). unfold VR_BE_INVALID_INDEX. rewrite (proj2 (Z.eqb_neq _ _)) by lia. cbn [negb]. rewrite Ht. cbn.
  assert (Hge : vr_htable_get_hentry_by_index t i = Some e).
  { unfold vr_htable_get_hentry_by_index, __vr_htable_get_hentry_by_index. rewrite (wf_len _ _ _ Hw) in Hrng.
    rewrite (proj2 (Z.ltb_lt i (ht_oentries t + ht_hentries t))) by lia.
    destruct (i <? ht_hentries t); rewrite He; unfold has_flag; by rewrite Hfl. }
  rewrite Hge. rewrite Hrd in *. destruct (rtr_mac rt'); [done|]. by cbn.
Qed.

(** ** Tearing the table down *)

Definition be_cleared (be : vr_bridge_entry) : vr_bridge_entry :=
  mk_be (be_mac be) (be_vrf_id be) None (be_label be) (Z.ldiff (be_flags be) VR_BE_VALID_FLAG).

Lemma reset_chain_same_data fuel o (t : vr_htable vr_bridge_entry) : same_data t (reset_chain fuel o t).
Proof.
  revert o t. induction fuel as [|fuel IH]; intros o t; [done|]. cbn. destruct o as [i|]; [|done].
  destruct (zget (ht_entries t) i) as [e|]; [|done]. intros j. rewrite IH, invalidate_same_data.
  destruct (has_flag _ e); [|done]. by apply upd_same_data.
Qed.

Lemma reset_step_spec i (t : vr_htable vr_bridge_entry) (s : NS) :
  let '(t', s') := reset_step bridge_table_entry_free (t, s) i in
  s' = drop_nh s (data_at t i ≫= be_nh) /\
  data_at t' i = be_cleared <$> data_at t i /\ forall j, j <> i -> data_at t' j = data_at t j.
Proof.
  unfold reset_step. cbn [fst snd]. unfold bridge_table_entry_free.
  destruct (data_at t i) as [be|] eqn:Eb.
  2: { unfold data_at in Eb. apply fmap_None in Eb. rewrite Eb. split_and!; [done|by unfold data_at; rewrite Eb|done]. }
  fold (be_cleared be). set (t0 := vr_htable_release_hentry i _).
  assert (Hi : data_at t0 i = Some (be_cleared be)).
  { unfold t0. rewrite release_same_data. unfold data_at in *. rewrite zget_upd, decide_True by done.
    destruct (zget (ht_entries t) i); [done|done]. }
  assert (Ho : forall j, j <> i -> data_at t0 j = data_at t j).
  { intros j Hj. unfold t0. rewrite release_same_data. by apply upd_data_at. }
  assert (Hfin : forall t', same_data t0 t' -> data_at t' i = be_cleared <$> Some be /\ forall j, j <> i -> data_at t' j = data_at t j).
  { intros t' Hs. split; [by rewrite Hs|]. intros j Hj. rewrite Hs. by apply Ho. }
  destruct (zget (ht_entries t0) i) as [e|]; [|split; [done|by apply Hfin]].
  set (t1 := if has_flag _ e then _ else t0).
  assert (H1 : same_data t0 t1) by (unfold t1; destruct (has_flag _ e); [by apply upd_same_data|done]).
  destruct (hentry_next e) as [n|]; [|split; [done|by apply Hfin]].
  destruct (i <? ht_hentries t1); (split; [done|apply Hfin; try done]).
  intros j. rewrite reset_chain_same_data. rewrite (upd_same_data i _ t1) by done. apply H1.
Qed.

Lemma reset_fold idx (t : vr_htable vr_bridge_entry) (s : NS) :
  NoDup idx ->
  let '(t', s') := foldl (reset_step bridge_table_entry_free) (t, s) idx in
  s' = foldl drop_nh s ((fun i => data_at t i ≫= be_nh) <$> idx) /\
  forall j, data_at t' j = if decide (j ∈ idx) then be_cleared <$> data_at t j else data_at t j.
Proof.
  revert t s. induction idx as [|i idx IH]; intros t s Hnd; [cbn; split; [done|]; intros; by rewrite decide_False by set_solver|].
  apply NoDup_cons in Hnd as [Hi Hnd]. cbn [foldl]. pose proof (reset_step_spec i t s) as Hs.
  destruct (reset_step bridge_table_entry_free (t, s) i) as [t1 s1]. destruct Hs as (-> & Hdi & Hdo).
  specialize (IH t1 (drop_nh s (data_at t i ≫= be_nh)) Hnd).
  destruct (foldl _ _ idx) as [t' s']. destruct IH as [-> Hd]. split.
  - cbn. f_equal. apply list_fmap_ext. intros k j Hk. apply list_elem_of_lookup_2 in Hk.
    rewrite Hdo; [done|]. set_solver.
  - intros j. rewrite Hd. destruct (decide (j = i)) as [->|Hj].
    + rewrite decide_False by done. rewrite decide_True by set_solver. done.
    + rewrite Hdo by done. destruct (decide (j ∈ idx)); [by rewrite decide_True by set_solver|by rewrite decide_False by set_solver].
Qed.

(** Nothing is found in a table whose entries have no key. *)
Lemma find_no_key (t : vr_htable vr_bridge_entry) key len :
  (forall i e, zget (ht_entries t) i = Some e -> bridge_entry_key (hentry_data e) = None) ->
  vr_htable_find_hentry bridge_entry_key key len t = None.
Proof.
  intros Hn. assert (Hm : forall i e kl, zget (ht_entries t) i = Some e -> hentry_matches bridge_entry_key key kl e = false).
  { intros i e kl He. unfold hentry_matches. rewrite (Hn i e He). apply andb_false_r. }
  assert (Hb : forall kl idx, find_bucket bridge_entry_key key kl idx t = None).
  { intros kl idx. induction idx as [|i idx IH]; [done|]. cbn. destruct (zget _ i) as [e|] eqn:E; [|done]. by rewrite (Hm i e). }
  assert (Hc : forall kl fuel o, find_chain bridge_entry_key fuel key kl o t = None).
  { intros kl fuel. induction fuel as [|fuel IH]; intros [i|]; try done. cbn. destruct (zget _ i) as [e|] eqn:E; [|done]. by rewrite (Hm i e). }
  unfold vr_htable_find_hentry. cbn zeta. destruct ((if len =? 0 then _ else _) =? 0); [done|]. by rewrite Hb, Hc.
Qed.

Lemma cleared_no_key be : bridge_entry_key (be_cleared be) = None.
Proof.
  unfold bridge_entry_key. rewrite valid_testbit. unfold be_cleared. cbn [be_flags]. rewrite Z.ldiff_spec.
  by rewrite andb_false_r.
Qed.

(** Tearing the table down drops every reference once.  After [bridge_table_deinit]
    the references dropped are exactly those that the entries held, main table and
    overflow table alike, one each, in the order of their indices; with a soft reset the
    table is still there, no entry holds a nexthop, and no key is found. *)
Theorem bridge_deinit_drops b m (s : NS) t :
  bview b m -> vn_rtable b = Some t ->
  let '(b', s') := bridge_table_deinit true b s in
  s' = foldl drop_nh s ((fun i => data_at t i ≫= be_nh) <$> seqZ 0 (zlen (ht_entries t))) /\
  (forall i, be_nh (be_read i b') = None) /\
  (forall key, vr_find_bridge_entry key b' = None) /\
  (bridge_table_deinit false b s).1 = set_rtable None b.
Proof.
  intros Hv Ht. destruct (proj1 Hv) as (t' & Ht' & _ & Hr). rewrite Ht in Ht'. simplify_eq.
  destruct (rep_inv _ _ _ Hr) as (_ & _ & free & chain & Hw).
  unfold bridge_table_deinit. rewrite Ht. unfold vr_htable_reset. rewrite <- (wf_len _ _ _ Hw).
  pose proof (reset_fold (seqZ 0 (zlen (ht_entries t'))) t' s ltac:(apply NoDup_seqZ)) as Hf.
  destruct (foldl _ _ _) as [t1 s1]. destruct Hf as [-> Hd]. split; [done|].
  assert (Hn : forall i be, data_at t1 i = Some be -> be_nh be = None /\ bridge_entry_key be = None).
  { intros i be. rewrite Hd. case_decide as Hin.
    - intros (x & _ & ->)%fmap_Some. split; [done|apply cleared_no_key].
    - unfold data_at. intros (e & He & _)%fmap_Some. apply zget_range in He. rewrite elem_of_seqZ in Hin. lia. }
  split_and!; [| |done].
  - intros i. unfold be_read. cbn. destruct (data_at t1 i) as [be|] eqn:E; [|done]. cbn. by apply (Hn i).
  - intros key. unfold vr_find_bridge_entry. cbn. apply find_no_key. intros i e He. apply (Hn i). unfold data_at. by rewrite He.
Qed.

End proofs.

End Bridge.
