(* ===== verification/Route.v ===== *)
(** * Route requests of the agent (dp-core/vr_route.c)

    A request is dispatched on its family: inet and inet6 routes go to the trie, MAC
    routes to the bridge table, which the trie asks for the index of a MAC.  Before an
    inet route is added the bits after its prefix are cleared.  The state is [fib]: the
    two tables, the nexthops they refer to and the queue of responses.

    The theorems follow a request from the handler to the table. *)

From stdpp Require Import gmap.
From S2P Require Import Prelude NhIface RouteReq Hash Htable HtableMap Queue Message Mtrie MtrieSpec MtrieProofs Bridge.

Module Route.
Import Message Mtrie MtrieSpec MtrieProofs Bridge.

Definition VR_MAX_VRFS : Z := 65536.

Definition RT_IP_ADDR_SIZE (family : Z) : Z := if family =? AF_INET6 then 16 else 4.

(** The rows of [rtable_families]. *)
Inductive rtable_family := FInet | FBridge | FInet6.

Definition vr_get_family (family : Z) : option rtable_family :=
  if family =? AF_INET then Some FInet
  else if family =? AF_BRIDGE then Some FBridge
  else if family =? AF_INET6 then Some FInet6
  else None.

(** [1 << n] in an [int]; a shift by 32, which C leaves undefined, is what x86 does. *)
Definition int_shl1 (n : Z) : Z := s32 (2 ^ (n mod 32)).

(** The loop that clears the bytes after the one in which the prefix ends; the mask of
    that byte is what is left of [pmask]. *)
Definition mask_prefix (family plen : Z) (prefix : list Z) : list Z :=
  let pmask := if family =? AF_INET then u32 (Z.lnot (int_shl1 (32 - plen) - 1)) else 0 in
  let pmask_byte := plen / 8 in
  if pmask_byte <? RT_IP_ADDR_SIZE family - 1 then
    let '(p, pm) := foldl (fun pp i => (zset pp.1 i 0, Z.shiftr pp.2 8)) (prefix, pmask)
                      (seqZ (pmask_byte + 1) (RT_IP_ADDR_SIZE family - (pmask_byte + 1))) in
    zset p pmask_byte (Z.land (default 0 (zget p pmask_byte)) (Z.land pm 255))
  else prefix.

Section ops.
Context {NS : Type} `{NhOps NS} `{Sandesh vr_route_req}.

(** [fib_inet] and [fib_bridge_rtable] are there once [vr_fib_init] has run. *)
Record fib := mk_fib {
  fib_inet : option vrf_tables;
  fib_bridge_rtable : bool;
  fib_bridge : bridge;
  rtb_max_vrfs : Z;
  fib_m : mst NS;
  fib_h : vr_message_handler
}.

Definition set_inet (t : vrf_tables) (m : mst NS) (f : fib) : fib :=
  mk_fib (Some t) (fib_bridge_rtable f) (fib_bridge f) (rtb_max_vrfs f) m (fib_h f).

Definition set_bridge (b : bridge) (n : NS) (f : fib) : fib :=
  mk_fib (fib_inet f) (fib_bridge_rtable f) b (rtb_max_vrfs f) (on_nhs (fun _ => n) (fib_m f)) (fib_h f).

Definition set_handler (h : vr_message_handler) (f : fib) : fib :=
  mk_fib (fib_inet f) (fib_bridge_rtable f) (fib_bridge f) (rtb_max_vrfs f) (fib_m f) h.

(** A response is on its way after one retry at most. *)
Definition send_response (ret : Z) (f : fib) : fib :=
  match vr_send_response 2 ret (fib_h f) with Some (_, h) => set_handler h f | None => f end.

(** ** The families *)

Definition inet_route_add (req : vr_route_req) (f : fib) : Z * fib :=
  if negb (rtr_family req =? AF_INET) && negb (rtr_family req =? AF_INET6) then (- EINVAL, f)
  else if zlen (rtr_prefix req) =? 0 then (- EINVAL, f)
  else
    match fib_inet f with
    | None => (- EINVAL, f)
    | Some t =>
        if (rtb_max_vrfs f <=? u32 (rtr_vrf_id req)) ||
           (RT_IP_ADDR_SIZE (rtr_family req) * 8 <? u32 (rtr_prefix_len req)) then (- EINVAL, f)
        else
          let req1 := with_prefix (mask_prefix (rtr_family req) (rtr_prefix_len req) (rtr_prefix req))
                        (rtr_prefix_len req) req in
          let '(ret, t', m') := mtrie_add (bridge_table_lookup (fib_bridge f)) req1 t (fib_m f) in
          (ret, set_inet t' m' f)
    end.

Definition inet_route_del (req : vr_route_req) (f : fib) : Z * fib :=
  if (RT_IP_ADDR_SIZE (rtr_family req) * 8 <? u32 (rtr_prefix_len req)) ||
     (rtb_max_vrfs f <=? u32 (rtr_vrf_id req)) then (- EINVAL, f)
  else
    match fib_inet f with
    | None => (- EINVAL, f)
    | Some t =>
        let '(ret, t', m') := mtrie_delete (bridge_table_lookup (fib_bridge f)) req t (fib_m f) in
        (ret, set_inet t' m' f)
    end.

Definition bridge_entry_add (req : vr_route_req) (f : fib) : Z * fib :=
  if negb (fib_bridge_rtable f) || (rtb_max_vrfs f <=? u32 (rtr_vrf_id req)) ||
     negb (u32 (rtr_mac_size req) =? VR_ETHER_ALEN) then (- EINVAL, f)
  else
    let '(ret, b, n) := bridge_table_add req (fib_bridge f) (ms_nhs (fib_m f)) in (ret, set_bridge b n f).

Definition bridge_entry_del (req : vr_route_req) (f : fib) : Z * fib :=
  if (6 <? u32 (rtr_mac_size req)) || (rtb_max_vrfs f <=? u32 (rtr_vrf_id req)) then (- EINVAL, f)
  else if negb (fib_bridge_rtable f) then (- EINVAL, f)
  else
    let '(ret, b, n) := bridge_table_delete req (fib_bridge f) (ms_nhs (fib_m f)) in (ret, set_bridge b n f).

Definition route_add (fs : rtable_family) : vr_route_req -> fib -> Z * fib :=
  match fs with FInet | FInet6 => inet_route_add | FBridge => bridge_entry_add end.

Definition route_del (fs : rtable_family) : vr_route_req -> fib -> Z * fib :=
  match fs with FInet | FInet6 => inet_route_del | FBridge => bridge_entry_del end.

(** ** The handlers *)

(** The prefix of a request is copied: the first bytes of its list, as many as the
    family has. *)
Definition copy_prefix (req : vr_route_req) : vr_route_req :=
  with_prefix (take (Z.to_nat (RT_IP_ADDR_SIZE (rtr_family req))) (rtr_prefix req)) (rtr_prefix_len req) req.

Definition vr_route_add (req : vr_route_req) (f : fib) : Z * fib :=
  let '(ret, f1) :=
    match vr_get_family (rtr_family req) with
    | None => (- ENOENT, f)
    | Some fs =>
        let vr_req := if zlen (rtr_prefix req) =? 0 then with_prefix [] (rtr_prefix_len req) req
                      else copy_prefix req in
        route_add fs vr_req f
    end in
  (ret, send_response ret f1).

Definition vr_route_delete (req : vr_route_req) (f : fib) : Z * fib :=
  let '(ret, f1) :=
    match vr_get_family (rtr_family req) with
    | None => (- ENOENT, f)
    | Some fs =>
        if negb (rtr_family req =? AF_BRIDGE) && (zlen (rtr_prefix req) =? 0) then (- EINVAL, f)
        else if (rtr_family req =? AF_BRIDGE) &&
                ((rtr_mac_size req =? 0) || match rtr_mac req with [] => true | _ => false end) then (- EINVAL, f)
        else route_del fs (if rtr_family req =? AF_BRIDGE then req else copy_prefix req) f
    end in
  (ret, send_response ret f1).

(** [default_nh] is [ip4_default_nh].  [None]: the handler frees the MAC of a request it
    has not set up, an uninitialised pointer. *)
Definition vr_route_get (default_nh : option nhp) (req : vr_route_req) (f : fib) : option (Z * fib) :=
  let respond (ret : Z) (obj : option vr_route_req) : Z * fib :=
    (ret, match vr_message_response 2 VR_ROUTE_OBJECT_ID obj ret (fib_h f) with
          | Some (_, h) => set_handler h f | None => f end) in
  match vr_get_family (rtr_family req) with
  | None => match rtr_mac req with [] => None | _ => Some (respond (- EINVAL) None) end
  | Some fs =>
      let vr_req := if zlen (rtr_prefix req) =? 0 then with_prefix [] (rtr_prefix_len req) req else copy_prefix req in
      match fs with
      | FInet | FInet6 =>
          match fib_inet f with
          | None => Some (respond (- ENOENT) None)
          | Some t => Some (respond 0 (Some (mtrie_get (bridge_table_lookup (fib_bridge f)) default_nh
                                               (rtr_vrf_id vr_req) t vr_req (fib_m f))))
          end
      | FBridge =>
          if fib_bridge_rtable f then
            let '(ret, rt) := bridge_table_get (fib_bridge f) (rtr_vrf_id vr_req) vr_req (ms_nhs (fib_m f)) in
            Some (respond ret (if ret =? 0 then Some rt else None))
          else Some (respond (- ENOENT) None)
      end
  end.

End ops.
Arguments fib : clear implicits.

(** ** Clearing the bits after a prefix *)

(** The mask of the byte in which a prefix ends keeps its first [8 - j] bits. *)
Lemma byte_mask b j : 0 <= b < 256 -> 0 <= j <= 8 -> Z.land b (256 - 2 ^ j) = b / 2 ^ j * 2 ^ j.
Proof.
  intros Hb Hj.
  assert (Hall : forallb (fun j => forallb (fun b => Z.land b (256 - 2 ^ j) =? b / 2 ^ j * 2 ^ j) (seqZ 0 256)) (seqZ 0 9) = true)
    by (by vm_compute).
  rewrite forallb_forall in Hall. specialize (Hall j ltac:(apply list_elem_of_In, elem_of_seqZ; lia)).
  rewrite forallb_forall in Hall. specialize (Hall b ltac:(apply list_elem_of_In, elem_of_seqZ; lia)).
  by apply Z.eqb_eq.
Qed.

(** What [mask_prefix] computes on the bytes of an IPv4 address. *)
Lemma mask_prefix_bytes k b0 b1 b2 b3 :
  0 < k < 24 ->
  let m b := Z.land b (256 - 2 ^ (8 - k mod 8)) in
  mask_prefix AF_INET k [b0; b1; b2; b3] =
    if k / 8 =? 0 then [m b0; 0; 0; 0] else if k / 8 =? 1 then [b0; m b1; 0; 0] else [b0; b1; m b2; 0].
Proof.
  intros Hk. assert (Hc : k = 1 \/ k = 2 \/ k = 3 \/ k = 4 \/ k = 5 \/ k = 6 \/ k = 7 \/ k = 8 \/ k = 9 \/ k = 10 \/ k = 11 \/ k = 12 \/ k = 13 \/ k = 14 \/ k = 15 \/ k = 16 \/ k = 17 \/ k = 18 \/ k = 19 \/ k = 20 \/ k = 21 \/ k = 22 \/ k = 23) by lia.
  clear Hk. destruct_or! Hc; subst k; reflexivity.
Qed.

(** Rounding down to a multiple of [2 ^ (j + n)] a number whose byte [b] is [n] bits
    from the end. *)
Lemma floor_block j hi b lo n :
  0 <= j <= 8 -> 0 <= n -> 0 <= b < 256 -> 0 <= lo < 2 ^ n ->
  (hi * 2 ^ (8 + n) + b * 2 ^ n + lo) / 2 ^ (j + n) * 2 ^ (j + n) = hi * 2 ^ (8 + n) + b / 2 ^ j * 2 ^ j * 2 ^ n.
Proof.
  intros Hj Hn Hbb Hlo. rewrite (Z.pow_add_r 2 j n), (Z.pow_add_r 2 8 n) by lia.
  replace (2 ^ 8) with (2 ^ (8 - j) * 2 ^ j) by (rewrite <- Z.pow_add_r by lia; f_equal; lia).
  assert (0 < 2 ^ j) by (apply Z.pow_pos_nonneg; lia). assert (0 < 2 ^ n) by (apply Z.pow_pos_nonneg; lia).
  pose proof (Z.div_mod b (2 ^ j) ltac:(lia)) as Hdb. pose proof (Z.mod_pos_bound b (2 ^ j) ltac:(lia)) as Hmb.
  rewrite <- (Z.div_unique_pos (hi * (2 ^ (8 - j) * 2 ^ j * 2 ^ n) + b * 2 ^ n + lo) (2 ^ j * 2 ^ n)
    (hi * 2 ^ (8 - j) + b / 2 ^ j) (b mod 2 ^ j * 2 ^ n + lo)); [ring|nia|].
  rewrite Hdb at 1. ring.
Qed.

(** The value of the cleared address: the first [k] bits are kept. *)
Lemma pathv_mask k bytes :
  (0 < k < 24)%nat -> length bytes = 4%nat -> Forall (fun b => 0 <= b < 256) bytes ->
  let p := mask_prefix AF_INET (Z.of_nat k) bytes in
  bytes_ok p 4 /\ pathv p 4 = pathv bytes 4 / 2 ^ (32 - Z.of_nat k) * 2 ^ (32 - Z.of_nat k).
Proof.
  intros Hk Hl Hb. destruct bytes as [|b0 [|b1 [|b2 [|b3 [|]]]]]; try done.
  repeat (apply Forall_cons in Hb as [? Hb]). cbn zeta. rewrite mask_prefix_bytes by lia. cbn zeta.
  set (r := Z.of_nat k mod 8). set (q := Z.of_nat k / 8). set (j := 8 - r).
  pose proof (Z.div_mod (Z.of_nat k) 8 ltac:(done)) as Hdm. fold q r in Hdm.
  pose proof (Z.mod_pos_bound (Z.of_nat k) 8 ltac:(done)) as Hr. fold r in Hr.
  assert (Hm : forall b, 0 <= b < 256 -> Z.land b (256 - 2 ^ j) = b / 2 ^ j * 2 ^ j /\ 0 <= b / 2 ^ j * 2 ^ j < 256).
  { intros b Hbb. rewrite byte_mask by lia. split; [done|].
    pose proof (Z.mul_div_le b (2 ^ j) ltac:(apply Z.pow_pos_nonneg; lia)).
    pose proof (Z.div_pos b (2 ^ j) ltac:(lia) ltac:(apply Z.pow_pos_nonneg; lia)).
    assert (0 < 2 ^ j) by (apply Z.pow_pos_nonneg; lia). nia. }
  assert (Hq : q = 0 \/ q = 1 \/ q = 2) by lia.
  assert (Hpv : forall x0 x1 x2 x3, pathv [x0; x1; x2; x3] 4 = x0 * 2 ^ 24 + x1 * 2 ^ 16 + x2 * 2 ^ 8 + x3)
    by (intros; unfold pathv; cbn [take foldl]; lia).
  change (2 ^ 8) with 256 in *. change (2 ^ 16) with 65536 in *. change (2 ^ 24) with 16777216 in *.
  split.
  - split; [by destruct (q =? 0), (q =? 1)|].
    destruct (Hm b0 ltac:(lia)) as [-> ?], (Hm b1 ltac:(lia)) as [-> ?], (Hm b2 ltac:(lia)) as [-> ?].
    destruct (q =? 0), (q =? 1); repeat constructor; lia.
  - destruct Hq as [Eq|[Eq|Eq]]; rewrite Eq; cbn [Z.eqb Pos.eqb]; rewrite !Hpv.
    + replace (32 - Z.of_nat k) with (j + 24) by lia. rewrite (proj1 (Hm b0 ltac:(lia))).
      pose proof (floor_block j 0 b0 (b1 * 65536 + b2 * 256 + b3) 24 ltac:(lia) ltac:(lia) ltac:(lia) ltac:(lia)) as Hx.
      change (2 ^ 24) with 16777216 in Hx. replace (0 * 2 ^ (8 + 24) + b0 * 16777216 + (b1 * 65536 + b2 * 256 + b3))
        with (b0 * 16777216 + b1 * 65536 + b2 * 256 + b3) in Hx by lia. rewrite Hx. lia.
    + replace (32 - Z.of_nat k) with (j + 16) by lia. rewrite (proj1 (Hm b1 ltac:(lia))).
      pose proof (floor_block j b0 b1 (b2 * 256 + b3) 16 ltac:(lia) ltac:(lia) ltac:(lia) ltac:(lia)) as Hx.
      change (2 ^ 16) with 65536 in Hx. change (2 ^ (8 + 16)) with 16777216 in Hx.
      replace (b0 * 16777216 + b1 * 65536 + (b2 * 256 + b3)) with (b0 * 16777216 + b1 * 65536 + b2 * 256 + b3) in Hx by lia.
      rewrite Hx. lia.
    + replace (32 - Z.of_nat k) with (j + 8) by lia. rewrite (proj1 (Hm b2 ltac:(lia))).
      pose proof (floor_block j (b0 * 256 + b1) b2 b3 8 ltac:(lia) ltac:(lia) ltac:(lia) ltac:(lia)) as Hx.
      change (2 ^ 8) with 256 in Hx. change (2 ^ (8 + 8)) with 65536 in Hx.
      replace ((b0 * 256 + b1) * 65536 + b2 * 256 + b3) with (b0 * 16777216 + b1 * 65536 + b2 * 256 + b3) in Hx by lia.
      rewrite Hx. lia.
Qed.

(** ** From the handler to the trie *)

Section proofs.
Context {NS : Type} `{NhLaws NS} `{Sandesh vr_route_req}.
Implicit Types (f : fib NS) (rt : vr_route_req).

Lemma bridge_index_prefix b p l rt :
  req_bridge_index (bridge_table_lookup b) (with_prefix p l rt) = req_bridge_index (bridge_table_lookup b) rt.
Proof.
  unfold req_bridge_index. cbn [rtr_mac_size rtr_mac with_prefix rtr_vrf_id]. destruct (_ && _); [|done].
  unfold bridge_table_lookup. cbn. destruct (vr_find_bridge_entry _ b); [|done]. by destruct (be_nh _).
Qed.

Lemma send_response_tables ret f :
  fib_inet (send_response ret f) = fib_inet f /\ fib_bridge (send_response ret f) = fib_bridge f /\
  fib_m (send_response ret f) = fib_m f.
Proof. unfold send_response. by destruct (vr_send_response _ _ _) as [[? ?]|]. Qed.

(** A well formed inet route: four bytes, [k] bits of which count.  For a prefix that
    ends in the last byte the code relies on the sender to have cleared the rest. *)
Record inet_req (rt : vr_route_req) (k : nat) : Prop := {
  ir_family : rtr_family rt = AF_INET;
  ir_len : length (rtr_prefix rt) = 4%nat;
  ir_bytes : Forall (fun b => 0 <= b < 256) (rtr_prefix rt);
  ir_plen : rtr_prefix_len rt = Z.of_nat k;
  ir_range : (0 < k <= 32)%nat;
  ir_tail : (k < 24)%nat \/ canonical rt 4 k
}.

(** The request that reaches the trie names the same route. *)
Lemma masked_req rt k :
  inet_req rt k ->
  let rt1 := with_prefix (mask_prefix (rtr_family rt) (rtr_prefix_len rt) (rtr_prefix rt)) (rtr_prefix_len rt) rt in
  bytes_ok (rtr_prefix rt1) 4 /\ canonical rt1 4 k /\ key_of rt1 k = key_of rt k.
Proof.
  intros [Hfam Hl Hb Hp Hk Ht] rt1. unfold rt1. rewrite Hfam, Hp. cbn [rtr_prefix with_prefix].
  destruct (decide (k < 24)%nat) as [Hlt|Hge].
  - destruct (pathv_mask k (rtr_prefix rt) ltac:(lia) Hl Hb) as [Hbo Hpv]. split; [done|].
    unfold canonical, key_of, route_key, anc. cbn [rtr_prefix rtr_family with_prefix]. rewrite Hfam.
    change (max_levels AF_INET) with 4%nat. change (Z.of_nat (8 * 4)) with 32. rewrite Hpv.
    assert (0 < 2 ^ (32 - Z.of_nat k)) by (apply Z.pow_pos_nonneg; lia).
    split; [by apply Z.mod_mul; lia|]. f_equal.
    replace (Z.of_nat (8 * 4 - k)) with (32 - Z.of_nat k) by lia. by rewrite Z.div_mul by lia.
  - destruct Ht as [Ht|Ht]; [lia|].
    assert (Hm : mask_prefix AF_INET (Z.of_nat k) (rtr_prefix rt) = rtr_prefix rt).
    { unfold mask_prefix. change (RT_IP_ADDR_SIZE AF_INET - 1) with 3.
      rewrite (proj2 (Z.ltb_ge _ _)); [done|]. apply Z.div_le_lower_bound; lia. }
    rewrite Hm. split; [split; [lia|done]|]. split; [exact Ht|]. unfold key_of. cbn [rtr_prefix rtr_family with_prefix]. done.
Qed.

(** C1: adding an IPv4 route.  A request of the agent for a prefix of [k] bits, with
    any bits after it when it ends before the last byte, makes the trie of its VRF hold
    exactly the old routes and the new one, to the nexthop, label and MAC index that the
    request names; when memory runs out the routes stay as they were and the agent gets
    -ENOMEM.  The tables of the other VRFs and the bridge table do not change. *)
Theorem route_add_refines rt k p index t f R :
  inet_req rt k -> fib_inet f = Some t -> rtb_max_vrfs f = vr_vrfs t -> vr_vrfs t <= VR_MAX_VRFS ->
  nh_table_ok (ms_nhs (fib_m f)) ->
  (nh_get (rtr_rid rt) (rtr_nh_id rt) (ms_nhs (fib_m f))).1 = Some p ->
  req_bridge_index (bridge_table_lookup (fib_bridge f)) rt = Some index ->
  label_valid (rtr_label_flags rt) = true \/ nh_type_of (ms_nhs (fib_m f)) p <> NH_TUNNEL ->
  vrf_holds (ms_nhs (fib_m f)) t (rtr_vrf_id rt) AF_INET R -> routes_ok (ms_nhs (fib_m f)) R ->
  let '(ret, f') := vr_route_add rt f in
  exists t', fib_inet f' = Some t' /\ fib_bridge f' = fib_bridge f /\
  ((ret = 0 /\ vrf_holds (ms_nhs (fib_m f)) t' (rtr_vrf_id rt) AF_INET (<[key_of rt k := req_info rt p index]> R)) \/
   (ret = - ENOMEM /\ vrf_holds (ms_nhs (fib_m f)) t' (rtr_vrf_id rt) AF_INET R)) /\
  (ms_oracle (fib_m f) = [] -> ret = 0) /\ same_m (fib_m f) (fib_m f') /\
  (forall vrf', vrf' <> rtr_vrf_id rt -> vrfid_to_mtrie vrf' AF_INET t' = vrfid_to_mtrie vrf' AF_INET t).
Proof.
  intros Hir Ht Hmax Hvr Htab Hnh Hidx Hlab Hholds Hok.
  destruct (masked_req rt k Hir) as (Hby & Hcan & Hkey). destruct Hir as [Hfam Hl Hb Hp Hk _].
  pose proof Hholds as (Hvrf & _ & _). unfold VR_MAX_VRFS in Hvr.
  unfold vr_route_add. rewrite Hfam. cbn [vr_get_family Z.eqb Pos.eqb AF_INET].
  change (vr_get_family 2) with (Some FInet). cbn [route_add].
  assert (Hz : zlen (rtr_prefix rt) =? 0 = false) by (apply Z.eqb_neq; unfold zlen; lia). rewrite Hz.
  assert (Hcopy : copy_prefix rt = rt).
  { unfold copy_prefix. rewrite Hfam. change (Z.to_nat (RT_IP_ADDR_SIZE AF_INET)) with 4%nat.
    rewrite take_ge by lia. by destruct rt. }
  rewrite Hcopy. unfold inet_route_add. rewrite Hfam, Hz, Ht, Hmax, Hp. cbn [negb andb Z.eqb Pos.eqb].
  change (RT_IP_ADDR_SIZE AF_INET * 8) with 32. rewrite !u32_small by lia.
  rewrite (proj2 (Z.leb_gt _ _)), (proj2 (Z.ltb_ge _ _)) by lia. cbn [orb].
  set (rt1 := with_prefix _ _ rt).
  assert (Hrt1 : rt1 = with_prefix (mask_prefix (rtr_family rt) (rtr_prefix_len rt) (rtr_prefix rt)) (rtr_prefix_len rt) rt)
    by (by rewrite Hfam, Hp).
  rewrite <- Hrt1 in Hby, Hcan, Hkey.
  assert (Hch : change_req (bridge_table_lookup (fib_bridge f)) (ms_nhs (fib_m f)) rt1 k p index).
  { split; change (rtr_family rt1) with (rtr_family rt); rewrite ?Hfam; change (max_levels AF_INET) with 4%nat; try done.
    - lia.
    - by rewrite Hrt1, bridge_index_prefix. }
  pose proof (mtrie_add_refines (bridge_table_lookup (fib_bridge f)) rt1 k p index t (fib_m f) R Hch Htab Hlab) as Hadd.
  change (rtr_vrf_id rt1) with (rtr_vrf_id rt) in Hadd. change (rtr_family rt1) with (rtr_family rt) in Hadd.
  change (req_info rt1 p index) with (req_info rt p index) in Hadd. rewrite Hfam, Hkey in Hadd. specialize (Hadd Hholds Hok).
  destruct (mtrie_add _ rt1 t (fib_m f)) as [[ret t'] m'].
  cbn [Z.eqb Pos.eqb AF_INET negb andb].
  destruct (send_response_tables ret (set_inet t' m' f)) as (-> & -> & ->).
  destruct Hadd as (A1 & A2 & A3 & A4). exists t'. split_and!; done.
Qed.

(** C2: deleting an IPv4 route.  When the bits after the prefix are zero, the request
    names the route that is to take its place, as the agent does, and no block is left
    tiled by copies of one more specific route, a delete request makes the trie of the
    VRF hold exactly the other routes. *)
Theorem route_delete_refines rt k p index rk t f R root :
  rtr_family rt = AF_INET -> length (rtr_prefix rt) = 4%nat -> Forall (fun b => 0 <= b < 256) (rtr_prefix rt) ->
  rtr_prefix_len rt = Z.of_nat k -> (k <= 32)%nat -> canonical rt 4 k ->
  fib_inet f = Some t -> rtb_max_vrfs f = vr_vrfs t -> vr_vrfs t <= VR_MAX_VRFS ->
  nh_table_ok (ms_nhs (fib_m f)) ->
  (nh_get (rtr_rid rt) (rtr_nh_id rt) (ms_nhs (fib_m f))).1 = Some p ->
  req_bridge_index (bridge_table_lookup (fib_bridge f)) rt = Some index ->
  vrfid_to_mtrie (rtr_vrf_id rt) AF_INET t = Some root -> (0 < k)%nat \/ ENTRY_IS_BUCKET root = true ->
  vrf_holds (ms_nhs (fib_m f)) t (rtr_vrf_id rt) AF_INET R ->
  rtr_replace_plen rt = Z.of_nat rk ->
  let R' := remove R k (key_of rt k).2 (req_info rt p index) in
  best R' k (key_of rt k).2 = Some (rk, req_info rt p index) -> untiled R' ->
  let '(ret, f') := vr_route_delete rt f in
  ret = 0 /\ fib_bridge f' = fib_bridge f /\
  exists t', fib_inet f' = Some t' /\ vrf_holds (ms_nhs (fib_m f)) t' (rtr_vrf_id rt) AF_INET R' /\
  same_m (fib_m f) (fib_m f') /\
  (forall vrf', vrf' <> rtr_vrf_id rt -> vrfid_to_mtrie vrf' AF_INET t' = vrfid_to_mtrie vrf' AF_INET t).
Proof.
  intros Hfam Hl Hb Hp Hk Hcan Ht Hmax Hvr Htab Hnh Hidx Hroot Hdef Hholds Hrk R' Hbest Hunt.
  pose proof Hholds as (Hvrf & _ & _). unfold VR_MAX_VRFS in Hvr.
  unfold vr_route_delete. rewrite Hfam. change (vr_get_family AF_INET) with (Some FInet).
  assert (Hz : zlen (rtr_prefix rt) =? 0 = false) by (apply Z.eqb_neq; unfold zlen; lia). rewrite Hz.
  assert (Hcopy : copy_prefix rt = rt).
  { unfold copy_prefix. rewrite Hfam. change (Z.to_nat (RT_IP_ADDR_SIZE AF_INET)) with 4%nat.
    rewrite take_ge by lia. by destruct rt. }
  cbn [negb andb Z.eqb Pos.eqb AF_INET AF_BRIDGE route_del]. rewrite Hcopy. unfold inet_route_del.
  rewrite Hfam, Ht, Hmax, Hp. change (RT_IP_ADDR_SIZE AF_INET * 8) with 32. rewrite !u32_small by lia.
  rewrite (proj2 (Z.leb_gt _ _)), (proj2 (Z.ltb_ge _ _)) by lia. cbn [orb].
  assert (Hch : change_req (bridge_table_lookup (fib_bridge f)) (ms_nhs (fib_m f)) rt k p index).
  { split; rewrite ?Hfam; change (max_levels AF_INET) with 4%nat; try done. split; [lia|done]. }
  pose proof (mtrie_delete_refines (bridge_table_lookup (fib_bridge f)) rt k p index rk t (fib_m f) R root Hch Htab) as Hdel.
  rewrite Hfam in Hdel. specialize (Hdel Hroot Hdef Hholds Hrk Hbest Hunt).
  destruct (mtrie_delete _ rt t (fib_m f)) as [[ret t'] m'].
  destruct (send_response_tables ret (set_inet t' m' f)) as (-> & -> & ->).
  destruct Hdel as (A1 & A2 & A3 & A4). split; [done|]. split; [done|]. exists t'. by split_and!.
Qed.

(** ** Responses *)

Section answers.
Context `{!SandeshLaws vr_route_req}.

Lemma route_add_handler fs rt f : fib_h (route_add fs rt f).2 = fib_h f.
Proof.
  destruct fs; cbn; unfold inet_route_add, bridge_entry_add; repeat case_match; done.
Qed.

Lemma route_del_handler fs rt f : fib_h (route_del fs rt f).2 = fib_h f.
Proof.
  destruct fs; cbn; unfold inet_route_del, bridge_entry_del; repeat case_match; done.
Qed.

(** What a response with a code looks like. *)
Definition code_message (buf code : Z) : vr_message :=
  let data := (sandesh_proto_encode_response (response_len VR_NULL_OBJECT_ID (None : option vr_route_req))
                 VR_NULL_OBJECT_ID None code).2 in
  mk_message (Some buf) data (zlen data).

Lemma send_response_queues ret f l :
  contents (fib_h f) l -> m_oracle (vm_mem (fib_h f)) = [] -> ready (fib_h f) = true ->
  exists buf, contents (fib_h (send_response ret f)) (l ++ [code_message buf ret]).
Proof.
  intros Hc Ho Hr. destruct (send_response_spec 1 ret (fib_h f) l Hc Ho Hr) as (h' & buf & Hs & _ & _ & Hc').
  unfold send_response. rewrite Hs. exists buf. exact Hc'.
Qed.

(** Every request to add or to delete a route, of whatever family and however
    malformed, is answered with exactly one response, and the code in it is the one
    that the operation returned. *)
Theorem route_request_answered rt f l :
  contents (fib_h f) l -> m_oracle (vm_mem (fib_h f)) = [] -> ready (fib_h f) = true ->
  (let '(ret, f') := vr_route_add rt f in exists buf, contents (fib_h f') (l ++ [code_message buf ret])) /\
  (let '(ret, f') := vr_route_delete rt f in exists buf, contents (fib_h f') (l ++ [code_message buf ret])).
Proof.
  intros Hc Ho Hr. split.
  - unfold vr_route_add. set (inner := match vr_get_family _ with Some _ => _ | None => _ end).
    assert (Hin : fib_h inner.2 = fib_h f) by (unfold inner; destruct (vr_get_family _); [apply route_add_handler|done]).
    destruct inner as [ret f1]. cbn in Hin. apply send_response_queues; by rewrite Hin.
  - unfold vr_route_delete. set (inner := match vr_get_family _ with Some _ => _ | None => _ end).
    assert (Hin : fib_h inner.2 = fib_h f).
    { unfold inner. destruct (vr_get_family _); [|done]. destruct (_ && _); [done|]. destruct (_ && _); [done|].
      apply route_del_handler. }
    destruct inner as [ret f1]. cbn in Hin. apply send_response_queues; by rewrite Hin.
Qed.
End answers.

End proofs.

End Route.
