(* ===== verification/RouteExamples.v ===== *)
(** * Concrete bridge tables and route requests

    Runs of the bridge and of route requests on the nexthop table of [Nexthop.v]: instances of
    their theorems, and the inputs on which the dump of the bridge departs from what it should
    do. *)

From stdpp Require Import gmap.
From S2P Require Import Prelude Queue Message NhIface Nexthop RouteReq Mtrie MtrieSpec MtrieProofs MtrieExamples.
From S2P Require Import Hash Htable HtableMap Bridge Route.

Module BridgeExamples.
Import Htable HtableMap Message MtrieExamples Bridge.

(** Six entries are asked for, which makes two buckets of four; four overflow entries. *)
Definition bridge0 : bridge := mk_bridge None 6 4.

Definition all_mem : bool * bool * bool * bool := (true, true, true, true).
Definition bridge1 : bridge := (bridge_table_init bridge0 false [] all_mem).2.

Lemma init_bview b not_ready oracle :
  vn_rtable b = None -> 0 < vr_bridge_entries b -> 0 < vr_bridge_oentries b -> vr_bridge_entries b + 4 <= UINT_MAX ->
  bview (bridge_table_init b not_ready oracle all_mem).2 ∅.
Proof.
  intros Hn He Ho Hm. unfold bridge_table_init. rewrite Hn. rewrite (proj2 (Z.eqb_neq (vr_bridge_oentries b) 0)) by lia.
  destruct (htable_create_spec bridge_entry_key (vr_bridge_entries b) (vr_bridge_oentries b) 64 8 4 be_zero not_ready oracle)
    as (t & Hc & Hi & _ & _ & Hk & Hma); try lia; [by exists 2|].
  change (__vr_htable_create (vr_bridge_entries b) (vr_bridge_oentries b) 64 8 0 be_zero not_ready oracle all_mem)
    with (__vr_htable_create (vr_bridge_entries b) (vr_bridge_oentries b) 64 8 4 be_zero not_ready oracle all_mem).
  unfold all_mem. rewrite Hc. split; [|apply map_Forall_empty]. exists t. split; [done|]. split; [done|].
  by apply rep_empty.
Qed.

Lemma bridge1_view : bview bridge1 ∅.
Proof. apply init_bview; done. Qed.

Definition mac_route (mac : list Z) (vrf nh flags label : Z) : vr_route_req :=
  mk_req vrf AF_BRIDGE [] 0 0 flags label nh mac 6 0 VR_BE_INVALID_INDEX None.

Definition mac1 : list Z := [2; 0; 0; 0; 0; 1].
Definition add1 : vr_route_req := mac_route mac1 3 1 VR_BE_LABEL_VALID_FLAG 77.

Lemma bridge_add_refines_witness :
  let '(ret, b', s') := bridge_table_add add1 bridge1 router5 in
  same_nhs router5 s' /\
  ((ret = - ENOMEM /\ b' = bridge1 /\ (∅ : gmap (list Z) vr_bridge_entry) !! be_key mac1 3 = None) \/
   (ret = 0 /\ exists be, be_added add1 (nh_get 0 1 router5).1 be /\ bview b' (<[be_key mac1 3 := be]> ∅))).
Proof.
  pose proof (bridge_add_refines add1 bridge1 ∅ router5 bridge1_view) as Hb.
  replace (decide (add_error add1 router5 = 0)) with (@left (add_error add1 router5 = 0) (add_error add1 router5 <> 0) eq_refl) in Hb by (by vm_compute).
  apply Hb. unfold zlen. cbn. lia.
Defined.

Definition bridge2 : bridge := (bridge_table_add add1 bridge1 router5).1.2.

(** What the table holds after the addition. *)
Definition entry1 : vr_bridge_entry := mk_be mac1 3 (Some 2) 77 3.

Lemma bridge2_view : bview bridge2 {[be_key mac1 3 := entry1]}.
Proof.
  assert (Hz : 6 <= zlen (rtr_mac add1)) by (unfold zlen; cbn; lia).
  pose proof (claim_bview bridge1 ∅ 3 mac1 bridge1_view Hz ltac:(by vm_compute)) as Hc.
  destruct (vr_find_free_bridge_entry 3 mac1 bridge1) as [[i|] b1] eqn:E; [|by vm_compute in E].
  destruct (Hc (mk_be mac1 3 None 0 VR_BE_VALID_FLAG) ltac:(done) ltac:(done) ltac:(cbn; lia)) as (Hv & Hf & _).
  pose proof (write_bview _ _ (be_key mac1 3) i entry1 Hv ltac:(done) Hf ltac:(done) ltac:(done) ltac:(cbn; lia)) as Hw.
  rewrite insert_insert_eq in Hw. rewrite <- insert_empty.
  replace bridge2 with (be_write i entry1 (be_write i (mk_be mac1 3 None 0 VR_BE_VALID_FLAG) b1)); [exact Hw|].
  vm_compute in E. injection E as <- <-. by vm_compute.
Qed.

Lemma bridge_delete_refines_witness :
  let '(ret, b', s') := bridge_table_delete add1 bridge2 router5 in
  same_nhs router5 s' /\ ret = 0 /\ bview b' (delete (be_key mac1 3) {[be_key mac1 3 := entry1]}).
Proof.
  pose proof (bridge_delete_refines add1 bridge2 _ router5 bridge2_view) as Hd. cbn zeta in Hd.
  change (be_key (rtr_mac add1) (rtr_vrf_id add1)) with (be_key mac1 3) in Hd.
  rewrite lookup_singleton_eq in Hd. apply Hd; [unfold zlen; cbn; lia|reflexivity].
Defined.

(** The trie keeps the index of the MAC; a request with that index gets the MAC back. *)
Lemma bridge_lookup_roundtrip_witness :
  let '(nh, rt1) := bridge_table_lookup bridge2 3 (mac_route mac1 3 0 0 0) in
  nh = Some 2 /\ rtr_label rt1 = 77 /\ rtr_label_flags rt1 = 3 /\
  (rtr_index (with_index 4 (mac_route (replicate 6 0) 3 0 0 0)) = rtr_index rt1 ->
   rtr_mac (with_index 4 (mac_route (replicate 6 0) 3 0 0 0)) <> [] ->
   let '(nh', rt2) := bridge_table_lookup bridge2 3 (with_index 4 (mac_route (replicate 6 0) 3 0 0 0)) in
   nh' = nh /\ rtr_label rt2 = 77 /\ rtr_label_flags rt2 = 3 /\ rtr_mac rt2 = mac1).
Proof.
  pose proof (bridge_lookup_roundtrip (mac_route mac1 3 0 0 0) (with_index 4 (mac_route (replicate 6 0) 3 0 0 0))
    bridge2 _ 3 3 bridge2_view) as Hl.
  change (be_key (rtr_mac (mac_route mac1 3 0 0 0)) (rtr_vrf_id (mac_route mac1 3 0 0 0))) with (be_key mac1 3) in Hl.
  rewrite lookup_singleton_eq in Hl. apply Hl; [|unfold zlen; cbn; lia|reflexivity].
  intros t Ht. assert (E : (fun t => zlen (ht_entries t)) <$> vn_rtable bridge2 = Some 12) by (by vm_compute).
  rewrite Ht in E. injection E as ->. done.
Defined.

Lemma bridge_deinit_drops_witness :
  exists t, vn_rtable bridge2 = Some t /\
  let '(b', s') := bridge_table_deinit true bridge2 router5 in
  s' = foldl drop_nh router5 ((fun i => data_at t i ≫= be_nh) <$> seqZ 0 (zlen (ht_entries t))) /\
  (forall i, be_nh (be_read i b') = None) /\
  (forall key, vr_find_bridge_entry key b' = None) /\
  (bridge_table_deinit false bridge2 router5).1 = set_rtable None bridge2.
Proof.
  eexists. split; [vm_compute; reflexivity|].
  eapply (bridge_deinit_drops bridge2 _ router5 _ bridge2_view). vm_compute. reflexivity.
Defined.

(** ** Dumps *)

(** A route is encoded as its MAC. *)
#[local] Instance route_sandesh : Sandesh vr_route_req := {
  sandesh_encode x len :=
    let bytes := match x with SResponse code => [1; code] | SObject t o => t :: rtr_mac o end in
    if zlen bytes <=? len then (zlen bytes, 0, bytes) else (0, 22, []);
  obj_len _ := 8;
  obj_get_size _ _ := 8
}.

Definition handler0 : vr_message_handler :=
  mk_handler (Some 1) (Some 1) Queue.vr_queue_init ∅ ∅ (mk_mem 1 ∅ []) false.

(** [n] addresses of VRF 3. *)
Definition bridge_with (n : Z) : bridge :=
  foldl (fun b k => (bridge_table_add (mac_route [2; 0; 0; 0; 0; k] 3 1 0 0) b router5).1.2) bridge1 (seqZ 1 n).

(** The number of bytes of each queued message. *)
Definition queued (r : option (Z * vr_message_handler)) : option (Z * list Z) :=
  '(ret, h) ← r; Some (ret, (map_to_list (vm_responses h)).*2 ≫= fun m => [vr_message_len m]).

(** Nine addresses are dumped, each in seven bytes, after a code of two. *)
Example dump_nine :
  queued (bridge_table_dump 2 (bridge_with 9) (mac_route (replicate 6 0) 3 0 0 0) router5 handler0) = Some (0, [2; 63]).
Proof. by vm_compute. Qed.

(** A dump misses routes when the number of entries is not a multiple of the
    bucket size.  The hash table rounds the number up, the dump does not: with six
    entries and four overflow entries configured the table holds twelve addresses, and
    a dump of them returns ten. *)
Theorem bridge_dump_misses :
  vr_bridge_table_used_total_entries (bridge_with 12) = 12 /\
  queued (bridge_table_dump 2 (bridge_with 12) (mac_route (replicate 6 0) 3 0 0 0) router5 handler0) = Some (0, [70; 2]).
Proof. by vm_compute. Qed.

(** A dump request whose MAC has another size than six gets no answer, and the
    dumper and its page are never freed. *)
Theorem bridge_dump_leaks_dumper :
  match bridge_table_dump 2 bridge1 (with_mac mac1 4 add1) router5 handler0 with
  | Some (ret, h) => ret = - EINVAL /\ vr_response_queue_empty h = true /\
      m_live (vm_mem h) = {[1 := 48; 2 := VR_MESSAGE_PAGE_SIZE]}
  | None => False
  end.
Proof. by vm_compute. Qed.

End BridgeExamples.

Module RouteExamples.
Import Message Mtrie MtrieSpec MtrieProofs Bridge MtrieExamples BridgeExamples Route.

(** Routes are encoded as in [BridgeExamples]. *)
#[local] Existing Instance BridgeExamples.route_sandesh.

#[local] Instance route_sandesh_laws : SandeshLaws vr_route_req.
Proof.
  split.
  - intros x len off bytes. cbn. destruct x as [code|t o].
    + destruct (_ <=? len) eqn:E; [|done]. apply Z.leb_le in E. intros [= <- <-]. unfold zlen in *. cbn in *. lia.
    + destruct (_ <=? len) eqn:E; [|done]. apply Z.leb_le in E. intros [= <- <-]. split; [|done].
      unfold zlen in *. cbn [length] in *. lia.
  - intros code len Hl. cbn in *. rewrite (proj2 (Z.leb_le _ _)) by (unfold zlen; cbn; lia). eauto.
  - intros. cbn. lia.
  - intros. cbn. lia.
Qed.

Definition fib_with (t : vrf_tables) : fib Nexthop.router := mk_fib (Some t) true bridge2 2 m0 handler0.

(** 10.9.9.9/8: the bits after the prefix are not clear. *)
Definition add8 : vr_route_req := route [10; 9; 9; 9] 8 1 0.

Lemma route_add_refines_witness :
  let '(ret, f') := vr_route_add add8 (fib_with tables0) in
  exists t', fib_inet f' = Some t' /\ fib_bridge f' = bridge2 /\
  ((ret = 0 /\ vrf_holds router5 t' 0 AF_INET
                 (<[key_of add8 8 := req_info add8 2 VR_BE_INVALID_INDEX]> (fresh_table 1))) \/
   (ret = - ENOMEM /\ vrf_holds router5 t' 0 AF_INET (fresh_table 1))) /\
  (ms_oracle m0 = [] -> ret = 0) /\ same_m m0 (fib_m f') /\
  (forall vrf', vrf' <> 0 -> vrfid_to_mtrie vrf' AF_INET t' = vrfid_to_mtrie vrf' AF_INET tables0).
Proof.
  apply (route_add_refines add8 8 2 VR_BE_INVALID_INDEX tables0 (fib_with tables0) (fresh_table 1)); try done.
  - split; try done; [repeat constructor; lia|lia|left; lia].
  - exact router5_ok.
  - right. by vm_compute.
  - exact fresh_holds.
  - exact fresh_ok.
Defined.

Lemma route_delete_refines_witness :
  let '(ret, f') := vr_route_delete delete8 (fib_with tables8) in
  ret = 0 /\ fib_bridge f' = bridge2 /\
  exists t', fib_inet f' = Some t' /\
    vrf_holds router5 t' 0 AF_INET (remove table8 8 (key_of delete8 8).2 (req_info delete8 1 VR_BE_INVALID_INDEX)) /\
    same_m m0 (fib_m f') /\
    (forall vrf', vrf' <> 0 -> vrfid_to_mtrie vrf' AF_INET t' = vrfid_to_mtrie vrf' AF_INET tables8).
Proof.
  apply (route_delete_refines delete8 8 1 VR_BE_INVALID_INDEX 0 tables8 (fib_with tables8) table8 root8); try done.
  - repeat constructor; lia.
  - lia.
  - exact router5_ok.
  - left. lia.
  - exact tables8_holds.
  - rewrite delete8_table. apply fresh_untiled.
Defined.

Lemma handler0_contents : contents handler0 [].
Proof. split; [apply mem0_ok|]. exists []. split; [split; [constructor|done]|constructor]. Qed.

(** A request of family 99 is answered too. *)
Definition odd_req : vr_route_req := mk_req 0 99 [] 0 0 0 0 0 [] 0 0 0 None.

Lemma route_request_answered_witness :
  (let '(ret, f') := vr_route_add odd_req (fib_with tables0) in exists buf, contents (fib_h f') ([] ++ [code_message buf ret])) /\
  (let '(ret, f') := vr_route_delete odd_req (fib_with tables0) in exists buf, contents (fib_h f') ([] ++ [code_message buf ret])).
Proof. apply (route_request_answered odd_req (fib_with tables0) [] handler0_contents); reflexivity. Defined.

(** 10.200.0.0/9 and 10.128.0.0/9 are one route: additions clear the bits after the
    prefix. *)
Definition nexthop_of (f : fib Nexthop.router) (bytes : list Z) : option nhp :=
  t ← fib_inet f; (mtrie_lookup (Some 1) 0 t (lookup_of bytes)).1.

Example add_unmasked :
  let f := (vr_route_add (route [10; 200; 0; 0] 9 1 0) (fib_with tables0)).2 in
  nexthop_of f [10; 128; 1; 1] = Some 2 /\ nexthop_of f [10; 127; 1; 1] = Some 1.
Proof. by vm_compute. Qed.

(** The bits after a prefix that ends in the last byte are not cleared.  A request
    for 1.1.1.200/25 is accepted; it captures 1.1.1.10, which it does not cover, and
    misses 1.1.1.130, which it does. *)
Theorem route_add_last_byte_unmasked :
  let '(ret, f) := vr_route_add (route [1; 1; 1; 200] 25 1 0) (fib_with tables0) in
  ret = 0 /\ nexthop_of f [1; 1; 1; 10] = Some 2 /\ nexthop_of f [1; 1; 1; 130] = Some 1.
Proof. by vm_compute. Qed.

(** A get request for a family that does not exist frees an uninitialised
    pointer. *)
Theorem route_get_uninitialised : vr_route_get (Some 1) odd_req (fib_with tables0) = None.
Proof. reflexivity. Qed.

End RouteExamples.
