(* ===== verification/Mpls.v ===== *)
(** * The label table (dp-core/vr_mpls.c)

    [vr_ilm] maps MPLS labels to nexthops, one counted reference per mapped label.  It
    is kept in a block table ([Btable.v]), an array of pointers here.  The host may keep
    hardware filters for labels of unicast encapsulation nexthops: [hw_log] records what
    it is told.

    The theorems show that a request changes one label and that, whatever the requests,
    the table holds exactly one reference per mapped label. *)

From stdpp Require Import gmap.
From S2P Require Import Prelude NhIface Queue Message.

Module Mpls.
Import Message.

Definition VR_MPLS_LABEL_SHIFT : Z := 12.
Definition VR_MAX_UCAST_LABELS : Z := 1024.
Definition PKT_MPLS_TUNNEL_L3 : Z := 1.
Definition PKT_MPLS_TUNNEL_L2_UCAST : Z := 2.
Definition PKT_MPLS_TUNNEL_L2_MCAST : Z := 3.
Definition PKT_MPLS_TUNNEL_L2_MCAST_EVPN : Z := 4.
Definition VP_DROP_INVALID_NH : Z := 21.
Definition VP_DROP_INVALID_LABEL : Z := 22.

Record vr_mpls_req := mk_mpls_req { mr_label : Z; mr_rid : Z; mr_nhid : Z; mr_marker : Z }.

Record mpls := mk_mpls {
  vr_max_labels : Z;
  vr_ilm : option (list (option nhp));
  hos_mpls : bool;
  hw_log : list (bool * Z)
}.

Definition set_ilm (l : list (option nhp)) (m : mpls) : mpls :=
  mk_mpls (vr_max_labels m) (Some l) (hos_mpls m) (hw_log m).

Definition tell_host (add : bool) (label : Z) (m : mpls) : mpls :=
  mk_mpls (vr_max_labels m) (vr_ilm m) (hos_mpls m) (hw_log m ++ [(add, label)]).

Definition __vrouter_get_label (m : mpls) (label : Z) : option nhp :=
  if vr_max_labels m <=? label then None
  else ilm ← vr_ilm m; default None (zget ilm label).

Definition vrouter_get_label (rid : Z) (m : mpls) (label : Z) : option nhp := __vrouter_get_label m label.

Definition __vrouter_set_label (label : Z) (nh : option nhp) (m : mpls) : Z * mpls :=
  match ilm ← vr_ilm m; zget ilm label with
  | None => (- EINVAL, m)
  | Some _ => (0, match vr_ilm m with Some ilm => set_ilm (zset ilm label nh) m | None => m end)
  end.

Section ops.
Context {NS : Type} `{NhOps NS} `{Sandesh vr_mpls_req}.

(** Does the host keep a filter for labels of this nexthop? *)
Definition hw_filtered (m : mpls) (s : NS) (nh : nhp) : bool :=
  hos_mpls m && (nh_type_of s nh =? NH_ENCAP) && (Z.land (nh_flags_of s nh) NH_FLAG_MCAST =? 0).

Definition __vr_mpls_del (label : Z) (m : mpls) (s : NS) : Z * mpls * NS :=
  let '(m1, s1) :=
    match __vrouter_get_label m label with
    | Some nh => (if hw_filtered m s nh then tell_host false label m else m, nh_put (Some nh) s)
    | None => (m, s)
    end in
  let '(ret, m2) := __vrouter_set_label label None m1 in (ret, m2, s1).

(** The part of the handlers before the response is sent. *)
Definition mpls_del (req : vr_mpls_req) (m : mpls) (s : NS) : Z * mpls * NS :=
  if vr_max_labels m <=? u32 (mr_label req) then (- EINVAL, m, s)
  else __vr_mpls_del (u32 (mr_label req)) m s.

Definition mpls_add (req : vr_mpls_req) (m : mpls) (s : NS) : Z * mpls * NS :=
  let label := u32 (mr_label req) in
  if vr_max_labels m <=? label then (- EINVAL, m, s)
  else
    let '(ret, m1, s1) := __vr_mpls_del label m s in
    if negb (ret =? 0) then (ret, m1, s1)
    else
      match nh_get (mr_rid req) (mr_nhid req) s1 with
      | (None, s2) => (- EINVAL, m1, s2)
      | (Some nh, s2) =>
          let '(ret, m2) := __vrouter_set_label label (Some nh) m1 in
          if negb (ret =? 0) then (ret, m2, nh_put (Some nh) s2)
          else (ret, if hw_filtered m2 s2 nh then tell_host true label m2 else m2, s2)
      end.

Definition respond (ret : Z) (h : vr_message_handler) : vr_message_handler :=
  match vr_send_response 2 ret h with Some (_, h') => h' | None => h end.

Definition vr_mpls_del (req : vr_mpls_req) (m : mpls) (s : NS) (h : vr_message_handler)
    : Z * mpls * NS * vr_message_handler :=
  let '(ret, m1, s1) := mpls_del req m s in (ret, m1, s1, respond ret h).

Definition vr_mpls_add (req : vr_mpls_req) (m : mpls) (s : NS) (h : vr_message_handler)
    : Z * mpls * NS * vr_message_handler :=
  let '(ret, m1, s1) := mpls_add req m s in (ret, m1, s1, respond ret h).

Definition vr_mpls_make_req (nh : nhp) (label : Z) (s : NS) (req : vr_mpls_req) : vr_mpls_req :=
  mk_mpls_req label 0 (nh_id_of s nh) (mr_marker req).

(** The loop over the labels after the marker. *)
Fixpoint mpls_dump_loop (labels : list Z) (m : mpls) (s : NS) (h : vr_message_handler) (ret : Z)
    (d : vr_message_dumper vr_mpls_req) : Z * vr_message_dumper vr_mpls_req :=
  match labels with
  | [] => (ret, d)
  | i :: labels' =>
      match __vrouter_get_label m i with
      | None => mpls_dump_loop labels' m s h ret d
      | Some nh =>
          let '(ret1, d1) :=
            vr_message_dump_object h d VR_MPLS_OBJECT_ID (vr_mpls_make_req nh i s (mk_mpls_req 0 0 0 0)) in
          if ret1 <=? 0 then (ret1, d1) else mpls_dump_loop labels' m s h ret1 d1
      end
  end.

Definition vr_mpls_dump (r : vr_mpls_req) (m : mpls) (s : NS) (h : vr_message_handler)
    : option (Z * vr_message_handler) :=
  let finish d ret h := (fun h' => (0, h')) <$> vr_message_dump_exit 2 d ret h in
  if vr_max_labels m <=? u32 (u32 (mr_marker r) + 1) then finish (None : option (vr_message_dumper vr_mpls_req)) 0 h
  else
    match vr_message_dump_init r h with
    | (None, h1) => finish None (- ENOMEM) h1
    | (Some d, h1) =>
        let first := u32 (mr_marker r + 1) in
        let '(ret, d1) := mpls_dump_loop (seqZ first (vr_max_labels m - first)) m s h1 0 d in
        finish (Some d1) ret h1
    end.

Definition vr_mpls_get (req : vr_mpls_req) (m : mpls) (s : NS) (h : vr_message_handler) : vr_message_handler :=
  let respond obj ret := match vr_message_response 2 VR_MPLS_OBJECT_ID obj ret h with Some (_, h') => h' | None => h end in
  if vr_max_labels m <=? u32 (mr_label req) then respond None (- EINVAL)
  else
    match vrouter_get_label (mr_rid req) m (u32 (mr_label req)) with
    | None => respond None (- ENOENT)
    | Some nh => respond (Some (vr_mpls_make_req nh (u32 (mr_label req)) s req)) 0
    end.

(** The type of the tunnel that a label leads to, or the reason to drop the packet. *)
Definition vr_mpls_tunnel_type (label0 : Z) (m : mpls) (s : NS) : Z + Z :=
  let label := Z.shiftr label0 VR_MPLS_LABEL_SHIFT in
  if vr_max_labels m <=? label then inr VP_DROP_INVALID_LABEL
  else
    match __vrouter_get_label m label with
    | None => inr VP_DROP_INVALID_NH
    | Some nh =>
        if nh_family_of s nh =? AF_INET then inl PKT_MPLS_TUNNEL_L3
        else if nh_family_of s nh =? AF_BRIDGE then
          if negb (nh_type_of s nh =? NH_COMPOSITE) then inl PKT_MPLS_TUNNEL_L2_UCAST
          else if label <? VR_MAX_UCAST_LABELS then inl PKT_MPLS_TUNNEL_L2_MCAST_EVPN
          else inl PKT_MPLS_TUNNEL_L2_MCAST
        else inr VP_DROP_INVALID_NH
    end.

(** One turn of the loop of [vr_mpls_exit]. *)
Definition mpls_exit_step (ms : mpls * NS) (i : Z) : mpls * NS :=
  match __vrouter_get_label ms.1 i with
  | Some nh => ((__vrouter_set_label i None ms.1).2, nh_put (Some nh) ms.2)
  | None => ms
  end.

Definition vr_mpls_exit (soft_reset : bool) (m : mpls) (s : NS) : mpls * NS :=
  if (vr_max_labels m =? 0) || match vr_ilm m with None => true | Some _ => false end then (m, s)
  else
    let '(m1, s1) := foldl mpls_exit_step (m, s) (seqZ 0 (vr_max_labels m)) in
    if soft_reset then (m1, s1) else (mk_mpls 0 None (hos_mpls m1) (hw_log m1), s1).

End ops.

(** [mem_ok]: does [vr_btable_alloc] succeed? *)
Definition vr_mpls_init (vr_mpls_labels : Z) (mem_ok : bool) (m : mpls) : Z * mpls :=
  match vr_ilm m with
  | Some _ => (0, m)
  | None =>
      if mem_ok then
        (0, mk_mpls vr_mpls_labels (Some (replicate (Z.to_nat vr_mpls_labels) None)) (hos_mpls m) (hw_log m))
      else (- ENOMEM, mk_mpls vr_mpls_labels None (hos_mpls m) (hw_log m))
  end.

(** ** Properties *)

(** The table has a slot for every label. *)
Definition mpls_ok (m : mpls) : Prop :=
  match vr_ilm m with Some ilm => zlen ilm = vr_max_labels m | None => vr_max_labels m = 0 end.

(** The references that the table holds. *)
Definition label_refs (m : mpls) : list nhp := omap id (default [] (vr_ilm m)).

Lemma get_label_in m ilm label :
  vr_ilm m = Some ilm -> mpls_ok m -> 0 <= label < vr_max_labels m ->
  zget ilm label = Some (__vrouter_get_label m label).
Proof.
  intros Hi Hok Hl. unfold mpls_ok in Hok. rewrite Hi in Hok. unfold __vrouter_get_label. rewrite Hi. cbn.
  rewrite (proj2 (Z.leb_gt _ _)) by lia. destruct (zget_is_Some ilm label) as [o Ho]; [lia|]. by rewrite Ho.
Qed.

Lemma label_table m label : mpls_ok m -> 0 <= label < vr_max_labels m -> exists ilm, vr_ilm m = Some ilm.
Proof. unfold mpls_ok. destruct (vr_ilm m) as [ilm|]; [eauto|lia]. Qed.

Lemma set_label_spec label nh m :
  mpls_ok m -> 0 <= label < vr_max_labels m ->
  let '(ret, m') := __vrouter_set_label label nh m in
  ret = 0 /\ mpls_ok m' /\ vr_max_labels m' = vr_max_labels m /\
  (forall l, 0 <= l -> __vrouter_get_label m' l = if decide (l = label) then nh else __vrouter_get_label m l) /\
  exists rest, label_refs m ≡ₚ option_list (__vrouter_get_label m label) ++ rest /\
    label_refs m' ≡ₚ option_list nh ++ rest.
Proof.
  intros Hok Hl. destruct (label_table m label Hok Hl) as [ilm Hi].
  pose proof (get_label_in m ilm label Hi Hok Hl) as Hg.
  unfold __vrouter_set_label. rewrite Hi. cbn. rewrite Hg.
  assert (Hz : zlen ilm = vr_max_labels m) by (unfold mpls_ok in Hok; by rewrite Hi in Hok).
  split_and!; try done.
  - unfold mpls_ok. cbn. by rewrite zlen_zset.
  - intros l Hl0. unfold __vrouter_get_label. cbn. rewrite Hi. cbn. rewrite zget_zset.
    destruct (decide (l = label)) as [->|Hne].
    + rewrite (proj2 (Z.leb_gt _ _)) by lia. rewrite decide_True by (split; [done|lia]). done.
    + rewrite decide_False by naive_solver. done.
  - destruct (omap_zset_perm ilm label _ nh Hg) as (rest & H1 & H2). exists rest. unfold label_refs. rewrite Hi. by split.
Qed.

Section proofs.
Context {NS : Type} `{NhLaws NS} `{Sandesh vr_mpls_req}.

Lemma tell_host_ok a l m : mpls_ok (tell_host a l m) <-> mpls_ok m.
Proof. done. Qed.

Lemma __del_spec label m (s : NS) :
  mpls_ok m -> 0 <= label < vr_max_labels m ->
  let '(ret, m', s') := __vr_mpls_del label m s in
  ret = 0 /\ mpls_ok m' /\ vr_max_labels m' = vr_max_labels m /\ s' = drop_nh s (__vrouter_get_label m label) /\
  (forall l, 0 <= l -> __vrouter_get_label m' l = if decide (l = label) then None else __vrouter_get_label m l) /\
  label_refs m ≡ₚ option_list (__vrouter_get_label m label) ++ label_refs m'.
Proof.
  intros Hok Hl. unfold __vr_mpls_del. destruct (__vrouter_get_label m label) as [nh|] eqn:Hg.
  - set (m1 := if hw_filtered m s nh then _ else m).
    assert (Hsame : mpls_ok m1 /\ vr_max_labels m1 = vr_max_labels m /\ label_refs m1 = label_refs m /\
      forall l, __vrouter_get_label m1 l = __vrouter_get_label m l) by (unfold m1; destruct (hw_filtered m s nh); done).
    destruct Hsame as (Hok1 & Hmx & Hr & Hgl). pose proof (set_label_spec label None m1 Hok1 ltac:(lia)) as Hs.
    destruct (__vrouter_set_label label None m1) as [ret m2]. destruct Hs as (-> & Ho2 & Hm2 & Hg2 & rest & R1 & R2).
    split_and!; try done; [congruence|intros l Hl0; by rewrite Hg2, Hgl|].
    rewrite Hgl, Hg, Hr in R1. cbn in R2. by rewrite R1, R2.
  - pose proof (set_label_spec label None m Hok Hl) as Hs.
    destruct (__vrouter_set_label label None m) as [ret m2]. destruct Hs as (-> & Ho2 & Hm2 & Hg2 & rest & R1 & R2).
    split_and!; try done. rewrite Hg in R1. cbn in R1, R2. cbn. by rewrite R1, R2.
Qed.

(** Mapping a label.  A request with a label in range and a nexthop that exists
    maps the label, and no other, to that nexthop; the reference that the label held is
    dropped before the new one is taken. *)
Theorem mpls_add_spec req m (s : NS) p :
  mpls_ok m -> u32 (mr_label req) < vr_max_labels m ->
  (nh_get (mr_rid req) (mr_nhid req) s).1 = Some p ->
  let '(ret, m', s') := mpls_add req m s in
  ret = 0 /\ mpls_ok m' /\ same_nhs s s' /\
  s' = (nh_get (mr_rid req) (mr_nhid req) (drop_nh s (__vrouter_get_label m (u32 (mr_label req))))).2 /\
  forall l, 0 <= l -> __vrouter_get_label m' l =
    if decide (l = u32 (mr_label req)) then Some p else __vrouter_get_label m l.
Proof.
  intros Hok Hl Hp. unfold mpls_add. set (label := u32 (mr_label req)) in *.
  pose proof (u32_range (mr_label req)) as Hr. fold label in Hr. rewrite (proj2 (Z.leb_gt _ _)) by lia.
  pose proof (__del_spec label m s Hok ltac:(lia)) as Hd.
  destruct (__vr_mpls_del label m s) as [[ret m1] s1]. destruct Hd as (-> & Hok1 & Hmx & -> & Hg1 & _). cbn [negb Z.eqb].
  set (s1 := drop_nh s _). pose proof (drop_nh_same s (__vrouter_get_label m label)) as Hs1. fold s1 in Hs1.
  rewrite <- (same_lookup _ _ Hs1) in Hp. pose proof (nh_get_same (mr_rid req) (mr_nhid req) s1) as Hs2.
  destruct (nh_get (mr_rid req) (mr_nhid req) s1) as [o s2]. cbn [fst snd] in *. subst o.
  pose proof (set_label_spec label (Some p) m1 Hok1 ltac:(lia)) as Hs.
  destruct (__vrouter_set_label label (Some p) m1) as [ret m2]. destruct Hs as (-> & Ho2 & _ & Hg2 & _). cbn [negb Z.eqb].
  split_and!; try done.
  - by destruct (hw_filtered m2 s2 p).
  - by etransitivity.
  - intros l Hl0. assert (Hm2 : forall x, __vrouter_get_label (if hw_filtered m2 s2 p then tell_host true label m2 else m2) x =
      __vrouter_get_label m2 x) by (intros; by destruct (hw_filtered m2 s2 p)).
    rewrite Hm2, Hg2, Hg1 by done. by case_decide.
Qed.

End proofs.

(** ** References *)

Section refs.
Context {NS : Type} `{NhRefs NS}.

Lemma exit_fold idx m (s : NS) :
  mpls_ok m -> NoDup idx -> (forall i, i ∈ idx -> 0 <= i < vr_max_labels m) ->
  let '(m', s') := foldl mpls_exit_step (m, s) idx in
  mpls_ok m' /\ vr_max_labels m' = vr_max_labels m /\ s' = foldl drop_nh s (__vrouter_get_label m <$> idx) /\
  (forall l, 0 <= l -> __vrouter_get_label m' l = if decide (l ∈ idx) then None else __vrouter_get_label m l) /\
  label_refs m ≡ₚ omap id (__vrouter_get_label m <$> idx) ++ label_refs m'.
Proof.
  revert m s. induction idx as [|i idx IH]; intros m s Hok Hnd Hin.
  { cbn. split_and!; try done. }
  apply NoDup_cons in Hnd as [Hi Hnd]. cbn [foldl].
  set (ms := mpls_exit_step (m, s) i).
  assert (Hst : mpls_ok ms.1 /\ vr_max_labels ms.1 = vr_max_labels m /\ ms.2 = drop_nh s (__vrouter_get_label m i) /\
    (forall l, 0 <= l -> __vrouter_get_label ms.1 l = if decide (l = i) then None else __vrouter_get_label m l) /\
    label_refs m ≡ₚ option_list (__vrouter_get_label m i) ++ label_refs ms.1).
  { unfold ms, mpls_exit_step. cbn [fst snd]. destruct (__vrouter_get_label m i) as [nh|] eqn:Hg.
    - pose proof (set_label_spec i None m Hok (Hin i ltac:(set_solver))) as Hs.
      destruct (__vrouter_set_label i None m) as [ret m2]. destruct Hs as (_ & Ho2 & Hm2 & Hg2 & rest & R1 & R2).
      cbn. split_and!; try done. rewrite Hg in R1. cbn in R1, R2. by rewrite R1, R2.
    - cbn. split_and!; try done. intros l Hl0. case_decide; congruence. }
  destruct ms as [m1 s1]. cbn [fst snd] in Hst. destruct Hst as (Hok1 & Hmx & -> & Hg1 & Hr1).
  specialize (IH m1 (drop_nh s (__vrouter_get_label m i)) Hok1 Hnd ltac:(rewrite Hmx; set_solver)).
  destruct (foldl mpls_exit_step _ idx) as [m' s']. destruct IH as (Hok' & Hmx' & -> & Hg' & Hr').
  assert (Hmap : __vrouter_get_label m1 <$> idx = __vrouter_get_label m <$> idx).
  { apply list_fmap_ext. intros k j Hk. apply list_elem_of_lookup_2 in Hk.
    rewrite Hg1 by (apply Hin; set_solver). rewrite decide_False; [done|set_solver]. }
  rewrite Hmap in *. split_and!; try done; [congruence| |].
  - intros l Hl0. rewrite Hg', Hg1 by done. destruct (decide (l = i)) as [->|Hne].
    + rewrite (decide_True (P := i ∈ i :: idx)) by set_solver. by destruct (decide (i ∈ idx)).
    + destruct (decide (l ∈ idx)); [by rewrite decide_True by set_solver|by rewrite decide_False by set_solver].
  - rewrite Hr1, Hr'. cbn. destruct (__vrouter_get_label m i); cbn; [|done]. done.
Qed.

Lemma del_refs label m (s : NS) ext :
  mpls_ok m -> refs_held (label_refs m ++ ext) s -> 0 <= label < vr_max_labels m ->
  let '(ret, m1, s1) := __vr_mpls_del label m s in
  ret = 0 /\ mpls_ok m1 /\ vr_max_labels m1 = vr_max_labels m /\ refs_held (label_refs m1 ++ ext) s1 /\
  __vrouter_get_label m1 label = None.
Proof.
  intros Hok Hh Hl. pose proof (__del_spec label m s Hok ltac:(lia)) as Hd.
  destruct (__vr_mpls_del label m s) as [[ret m1] s1]. destruct Hd as (-> & Hok1 & Hmx & -> & Hg & Hr).
  split_and!; try done; [|rewrite Hg by lia; by rewrite decide_True].
  apply drop_refs. eapply refs_perm; [|exact Hh]. by rewrite Hr, (assoc_L (++)).
Qed.

Lemma no_labels m :
  mpls_ok m -> (forall l, 0 <= l < vr_max_labels m -> __vrouter_get_label m l = None) -> label_refs m = [].
Proof.
  intros Hok Hg. unfold label_refs. destruct (vr_ilm m) as [ilm|] eqn:Hi; [|done]. cbn.
  assert (Hz : zlen ilm = vr_max_labels m) by (unfold mpls_ok in Hok; by rewrite Hi in Hok).
  assert (Hall : Forall (fun o => o = None) ilm).
  { apply Forall_lookup. intros k o Hk. pose proof (lookup_lt_Some _ _ _ Hk). unfold zlen in Hz.
    pose proof (get_label_in m ilm (Z.of_nat k) Hi Hok ltac:(lia)) as Hx. rewrite Hg in Hx by lia.
    unfold zget in Hx. rewrite decide_True, Nat2Z.id in Hx by lia. congruence. }
  clear -Hall. induction Hall as [|o ilm -> _ IH]; done.
Qed.

(** Tearing the table down, or emptying it, drops the reference of every label. *)
Lemma mpls_exit_refs soft m (s : NS) ext :
  mpls_ok m -> refs_held (label_refs m ++ ext) s ->
  let ms := vr_mpls_exit soft m s in
  mpls_ok ms.1 /\ label_refs ms.1 = [] /\ refs_held ext ms.2.
Proof.
  intros Hok Hh. unfold vr_mpls_exit. destruct ((vr_max_labels m =? 0) || _) eqn:E.
  { assert (Hn : label_refs m = []).
    { apply no_labels; [done|]. intros l Hl. exfalso. unfold mpls_ok in Hok. destruct (vr_ilm m); [|lia].
      rewrite orb_false_r in E. apply Z.eqb_eq in E. lia. }
    cbn. by rewrite Hn in *. }
  pose proof (exit_fold (seqZ 0 (vr_max_labels m)) m s Hok ltac:(apply NoDup_seqZ)
    ltac:(intros i Hi%elem_of_seqZ; lia)) as Hf.
  destruct (foldl mpls_exit_step _ _) as [m1 s1]. destruct Hf as (Hok1 & Hmx & -> & Hg & Hr).
  assert (Hh1 : refs_held (label_refs m1 ++ ext) (foldl drop_nh s (__vrouter_get_label m <$> seqZ 0 (vr_max_labels m)))).
  { apply drop_all_refs. eapply refs_perm; [|exact Hh]. by rewrite Hr, (assoc_L (++)). }
  assert (Hn : label_refs m1 = []).
  { apply no_labels; [done|]. intros l Hl. rewrite Hg by lia. by rewrite decide_True by (apply elem_of_seqZ; lia). }
  rewrite Hn in Hh1. by destruct soft.
Qed.

(** The requests that the table serves. *)
Inductive mpls_op := LAdd (req : vr_mpls_req) | LDel (req : vr_mpls_req) | LExit (soft_reset : bool).

Definition mpls_run (op : mpls_op) (m : mpls) (s : NS) : mpls * NS :=
  match op with
  | LAdd req => let '(_, m', s') := mpls_add req m s in (m', s')
  | LDel req => let '(_, m', s') := mpls_del req m s in (m', s')
  | LExit soft => vr_mpls_exit soft m s
  end.

(** There is room for the reference that an addition takes after it has dropped one. *)
Definition op_room (op : mpls_op) (m : mpls) (s : NS) (ext : list nhp) : Prop :=
  match op with
  | LAdd req => forall m1 s1, __vr_mpls_del (u32 (mr_label req)) m s = (0, m1, s1) -> refs_room (label_refs m1 ++ ext) s1
  | _ => True
  end.

(** C24: the table holds one reference per mapped label.  Whatever the request, also one
    that fails half way, and also when the table is torn down, the references that the
    label table holds before and after are exactly those of the labels that are mapped:
    none is lost and none is dropped twice. *)
Theorem mpls_refs_exact op m (s : NS) ext :
  mpls_ok m -> refs_held (label_refs m ++ ext) s -> op_room op m s ext ->
  let '(m', s') := mpls_run op m s in
  mpls_ok m' /\ refs_held (label_refs m' ++ ext) s'.
Proof.
  intros Hok Hh Hroom.
  destruct op as [req|req|soft]; cbn [mpls_run op_room] in *.
  - unfold mpls_add. pose proof (u32_range (mr_label req)). destruct (Z.leb_spec (vr_max_labels m) (u32 (mr_label req))) as [|Hl]; [done|].
    pose proof (del_refs (u32 (mr_label req)) m s ext Hok Hh ltac:(lia)) as Hdel.
    destruct (__vr_mpls_del _ m s) as [[ret m1] s1]. destruct Hdel as (-> & Hok1 & Hmx & Hh1 & Hg1). cbn [negb Z.eqb].
    specialize (Hroom m1 s1 eq_refl). destruct (nh_get (mr_rid req) (mr_nhid req) s1) as [[p|] s2] eqn:Eg.
    + pose proof (refs_get _ _ _ _ _ _ Hh1 Hroom Eg) as Hh2.
      pose proof (set_label_spec (u32 (mr_label req)) (Some p) m1 Hok1 ltac:(lia)) as Hs.
      destruct (__vrouter_set_label _ (Some p) m1) as [ret m2]. destruct Hs as (-> & Ho2 & _ & _ & rest & R1 & R2).
      cbn [negb Z.eqb]. rewrite Hg1 in R1. cbn in R1, R2.
      assert (Hh3 : refs_held (label_refs m2 ++ ext) s2) by (eapply refs_perm; [|exact Hh2]; by rewrite R1, R2).
      by destruct (hw_filtered m2 s2 p).
    + split; [done|]. by apply (refs_get_none _ (mr_rid req) (mr_nhid req) s1).
  - unfold mpls_del. pose proof (u32_range (mr_label req)). destruct (Z.leb_spec (vr_max_labels m) (u32 (mr_label req))) as [|Hl]; [done|].
    pose proof (del_refs (u32 (mr_label req)) m s ext Hok Hh ltac:(lia)) as Hdel.
    destruct (__vr_mpls_del _ m s) as [[ret m1] s1]. by destruct Hdel as (_ & ? & _ & ? & _).
  - destruct (mpls_exit_refs soft m s ext Hok Hh) as (? & Hn & Hx). destruct (vr_mpls_exit soft m s) as [m' s']. cbn [fst snd] in *.
    by rewrite Hn.
Qed.
End refs.

End Mpls.
