(* ===== verification/Vxlan.v ===== *)
(** * VXLAN network identifiers (dp-core/vr_vxlan.c)

    An index table of two strides of twelve bits maps a network identifier to a nexthop,
    one counted reference per identifier.  [vxview] is the abstract state: the map from
    identifiers to nexthops.

    The theorems show that the requests implement the map, that the table holds exactly
    one reference per entry as long as memory lasts, and that a reference is lost when it
    does not. *)

From stdpp Require Import gmap.
From S2P Require Import Prelude IndexTable NhIface Queue Message.

Module Vxlan.
Import IndexTable Message.

Record vr_vxlan_req := mk_vxlan_req { vxlanr_rid : Z; vxlanr_vnid : Z; vxlanr_nhid : Z }.

(** [vr_vxlan_table] and the memory its strides are in. *)
Record vxlan := mk_vxlan { vr_vxlan_table : option (vr_itbl nhp); vx_mem : mem }.

Definition VR_VXLAN_INDEX_LEN : Z := 24.

Section ops.
Context {NS : Type} `{NhOps NS} `{Sandesh vr_vxlan_req}.

Definition vr_vxlan_make_req (s : NS) (nh : option nhp) (vnid : Z) : vr_vxlan_req :=
  mk_vxlan_req 0 vnid (match nh with Some p => nh_id_of s p | None => 0 end).

Definition vr_vxlan_trav_cb (s : NS) (h : vr_message_handler) (index : Z) (nh : nhp)
    (dumper : vr_message_dumper vr_vxlan_req) : Z * vr_message_dumper vr_vxlan_req :=
  vr_message_dump_object h dumper VR_VXLAN_OBJECT_ID (vr_vxlan_make_req s (Some nh) index).

Definition vr_vxlan_dump (req : vr_vxlan_req) (x : vxlan) (s : NS) (h : vr_message_handler)
    : option (Z * vr_message_handler) :=
  let finish d ret h := (fun h' => (0, h')) <$> vr_message_dump_exit 2 d ret h in
  match vr_message_dump_init req h with
  | (None, h1) => finish None (- ENOMEM) h1
  | (Some d, h1) =>
      let index0 := u32 (vxlanr_vnid req) in
      let index := if index0 =? 0 then index0 else u32 (index0 + 1) in
      match vr_vxlan_table x with
      | None => finish (Some d) 0 h1
      | Some t =>
          let '(ret, d1) := vr_itable_trav (vr_vxlan_trav_cb s h1) t index d in
          finish (Some d1) ret h1
      end
  end.

Definition vr_vxlan_get (req : vr_vxlan_req) (x : vxlan) (s : NS) (h : vr_message_handler) : vr_message_handler :=
  let respond obj ret := match vr_message_response 2 VR_VXLAN_OBJECT_ID obj ret h with Some (_, h') => h' | None => h end in
  match vr_itable_get (vr_vxlan_table x) (u32 (vxlanr_vnid req)) with
  | SData nh => respond (Some (vr_vxlan_make_req s (Some nh) (u32 (vxlanr_vnid req)))) 0
  | _ => respond None (- ENOENT)
  end.

(** The part of the handlers before the response is sent. *)
Definition vxlan_del (req : vr_vxlan_req) (x : vxlan) (s : NS) : Z * vxlan * NS :=
  let '(nh, t, m) := vr_itable_del (vr_vxlan_table x) (u32 (vxlanr_vnid req)) (vx_mem x) in
  (0, mk_vxlan t m, match nh with SData p => nh_put (Some p) s | _ => s end).

Definition vxlan_add (req : vr_vxlan_req) (x : vxlan) (s : NS) : Z * vxlan * NS :=
  match nh_get (vxlanr_rid req) (vxlanr_nhid req) s with
  | (None, s1) => (- EINVAL, x, s1)
  | (Some nh, s1) =>
      let '(nh_old, t, m) := vr_itable_set (vr_vxlan_table x) (u32 (vxlanr_vnid req)) (SData nh) (vx_mem x) in
      match nh_old with
      | None => (- EINVAL, mk_vxlan t m, s1)
      | Some (SData old) => (0, mk_vxlan t m, nh_put (Some old) s1)
      | Some _ => (0, mk_vxlan t m, s1)
      end
  end.

Definition vx_respond (ret : Z) (h : vr_message_handler) : vr_message_handler :=
  match vr_send_response 2 ret h with Some (_, h') => h' | None => h end.

Definition vr_vxlan_del (req : vr_vxlan_req) (x : vxlan) (s : NS) (h : vr_message_handler)
    : Z * vxlan * NS * vr_message_handler :=
  let '(ret, x1, s1) := vxlan_del req x s in (ret, x1, s1, vx_respond ret h).

Definition vr_vxlan_add (req : vr_vxlan_req) (x : vxlan) (s : NS) (h : vr_message_handler)
    : Z * vxlan * NS * vr_message_handler :=
  let '(ret, x1, s1) := vxlan_add req x s in (ret, x1, s1, vx_respond ret h).

Definition vr_vxlan_destroy (index : Z) (nh : nhp) (s : NS) : NS := nh_put (Some nh) s.

Definition vr_vxlan_exit (x : vxlan) (s : NS) : vxlan * NS :=
  let '(s1, m) := vr_itable_delete vr_vxlan_destroy (vr_vxlan_table x) s (vx_mem x) in (mk_vxlan None m, s1).

End ops.

(** [page_shift] is that of the platform. *)
Definition vr_vxlan_init (page_shift : Z) (x : vxlan) : Z * vxlan :=
  match vr_vxlan_table x with
  | Some _ => (0, x)
  | None =>
      match vr_itable_create page_shift VR_VXLAN_INDEX_LEN [12; 12] (vx_mem x) with
      | (Some t, m) => (0, mk_vxlan (Some t) m)
      | (None, m) => (- ENOMEM, mk_vxlan None m)
      end
  end.

(** ** The map of identifiers *)

Definition vxview (x : vxlan) (m : gmap Z nhp) : Prop :=
  exists t, vr_vxlan_table x = Some t /\ index_len t = VR_VXLAN_INDEX_LEN /\ irep t m.

(** The identifier of a request: its low 24 bits. *)
Definition vnid_of (req : vr_vxlan_req) : Z := u32 (vxlanr_vnid req) mod 2 ^ VR_VXLAN_INDEX_LEN.

Lemma set_view x m req nh :
  vxview x m ->
  let '(r, t, a) := vr_itable_set (vr_vxlan_table x) (u32 (vxlanr_vnid req)) (SData nh) (vx_mem x) in
  (m_oracle (vx_mem x) = [] -> is_Some r /\ m_oracle a = []) /\
  match r with
  | None => vxview (mk_vxlan t a) m
  | Some old => old = match m !! vnid_of req with Some v => SData v | None => SNull end /\
      vxview (mk_vxlan t a) (<[vnid_of req := nh]> m)
  end.
Proof.
  intros (t & Ht & Hl & Hr). rewrite Ht.
  pose proof (itbl_set_succeeds t (u32 (vxlanr_vnid req)) (SData nh) (vx_mem x) (proj1 Hr)) as Hsuc.
  destruct (vr_itable_set (Some t) _ (SData nh) (vx_mem x)) as [[r ot] a] eqn:E.
  assert (Hot : exists t', ot = Some t').
  { cbn in E. destruct (it_data t) as [|v|bl l];
      repeat (case_match || simplify_eq); eauto. }
  destruct Hot as [t' ->]. split; [intros Ho; destruct (Hsuc Ho) as (? & _ & ?); done|].
  destruct (itbl_set_spec t _ (SData nh) _ r t' a (proj1 Hr) ltac:(done) E) as (Hok' & Hl' & Hres).
  destruct r as [old|].
  - destruct Hres as [-> Hg]. split.
    + rewrite (proj1 (proj2 Hr)), Hl. done.
    + exists t'. split; [done|]. split; [congruence|]. unfold vnid_of. rewrite <- Hl. by apply (irep_insert t).
  - exists t'. split; [done|]. split; [congruence|]. destruct Hr as (Hok & Hr & Hk).
    split; [done|]. rewrite Hl'. split; [|done]. intros j. by rewrite Hres, Hr.
Qed.

Lemma del_view x m req :
  vxview x m ->
  let '(old, t, a) := vr_itable_del (vr_vxlan_table x) (u32 (vxlanr_vnid req)) (vx_mem x) in
  old = match m !! vnid_of req with Some v => SData v | None => SNull end /\
  m_oracle a = m_oracle (vx_mem x) /\ vxview (mk_vxlan t a) (delete (vnid_of req) m).
Proof.
  intros (t & Ht & Hl & Hr). rewrite Ht.
  destruct (vr_itable_del (Some t) _ (vx_mem x)) as [[old ot] a] eqn:E.
  assert (Hot : exists t', ot = Some t') by (cbn in E; repeat case_match; simplify_eq; eauto).
  destruct Hot as [t' ->]. destruct (itbl_del_spec t _ _ old t' a (proj1 Hr) E) as (Hok' & Hl' & -> & Hg & _).
  split; [rewrite (proj1 (proj2 Hr)), Hl; done|]. split.
  { cbn in E. pose proof (del_loop_oracle (strides t) (u32 (vxlanr_vnid req)) (it_data t) (vx_mem x)) as Ho.
    destruct (__vr_itable_del _ _ _ _) as [[[? ?] ?] ?]. simplify_eq. exact Ho. }
  exists t'. split; [done|]. split; [congruence|]. unfold vnid_of. rewrite <- Hl. by apply (irep_delete t).
Qed.

(** The references that the table holds. *)
Definition vnid_refs (m : gmap Z nhp) : list nhp := (map_to_list m).*2.

Lemma vnid_refs_delete m k v : m !! k = Some v -> vnid_refs m ≡ₚ v :: vnid_refs (delete k m).
Proof. intros Hv. unfold vnid_refs. by rewrite <- (map_to_list_delete m k v Hv). Qed.

Lemma vnid_refs_lookup m k : vnid_refs m ≡ₚ option_list (m !! k) ++ vnid_refs (delete k m).
Proof.
  destruct (m !! k) as [v|] eqn:E; [by apply vnid_refs_delete|]. by rewrite delete_id.
Qed.

Lemma vnid_refs_insert m k v : vnid_refs (<[k := v]> m) ≡ₚ v :: vnid_refs (delete k m).
Proof. rewrite (vnid_refs_delete _ k v) by apply lookup_insert_eq. by rewrite delete_insert_eq. Qed.

Section proofs.
Context {NS : Type} `{NhRefs NS}.

(** The requests, with the map they leave. *)
Inductive vx_op := VAdd (req : vr_vxlan_req) | VDel (req : vr_vxlan_req).

Definition vx_run (op : vx_op) (x : vxlan) (s : NS) : Z * vxlan * NS :=
  match op with VAdd req => vxlan_add req x s | VDel req => vxlan_del req x s end.

Definition vx_spec (op : vx_op) (s : NS) (m : gmap Z nhp) : Z * gmap Z nhp :=
  match op with
  | VAdd req => match (nh_get (vxlanr_rid req) (vxlanr_nhid req) s).1 with
                | Some nh => (0, <[vnid_of req := nh]> m) | None => (- EINVAL, m) end
  | VDel req => (0, delete (vnid_of req) m)
  end.

(** C25: the requests implement a map from identifiers to nexthops with one reference
    per entry.  With memory for the strides, an addition maps its identifier to the
    nexthop it names, or fails when there is none; a deletion removes the identifier;
    no other identifier changes; and the references that the table holds afterwards are
    exactly those of the identifiers in the map. *)
Theorem vxlan_refines op x m (s : NS) ext :
  vxview x m -> m_oracle (vx_mem x) = [] -> refs_held (vnid_refs m ++ ext) s -> refs_room (vnid_refs m ++ ext) s ->
  let '(ret, x', s') := vx_run op x s in
  let '(ret_spec, m') := vx_spec op s m in
  ret = ret_spec /\ vxview x' m' /\ m_oracle (vx_mem x') = [] /\ refs_held (vnid_refs m' ++ ext) s'.
Proof.
  intros Hv Ho Hh Hroom. destruct op as [req|req]; cbn [vx_run vx_spec].
  - unfold vxlan_add. destruct (nh_get _ _ s) as [[nh|] s1] eqn:Eg; cbn [fst].
    2: { split_and!; try done. by apply (refs_get_none _ (vxlanr_rid req) (vxlanr_nhid req) s). }
    pose proof (refs_get _ _ _ _ _ _ Hh Hroom Eg) as Hh1.
    pose proof (set_view x m req nh Hv) as Hs. destruct (vr_itable_set _ _ (SData nh) _) as [[r t] a].
    destruct Hs as [Hsuc Hres]. destruct (Hsuc Ho) as [[old ->] _]. destruct Hres as [-> Hv'].
    pose proof (proj2 (Hsuc Ho)) as Ho'.
    assert (Hp : nh :: vnid_refs m ++ ext ≡ₚ option_list (m !! vnid_of req) ++ vnid_refs (<[vnid_of req := nh]> m) ++ ext).
    { rewrite (vnid_refs_lookup m (vnid_of req)), vnid_refs_insert. destruct (m !! vnid_of req); cbn; [|done].
      apply Permutation_swap. }
    apply (refs_perm _ _ _ Hp) in Hh1. destruct (m !! vnid_of req); (split_and!; try done). by apply refs_put.
  - unfold vxlan_del. pose proof (del_view x m req Hv) as Hd.
    destruct (vr_itable_del _ _ _) as [[old t] a]. destruct Hd as (-> & Ho' & Hv'). rewrite Ho in Ho'.
    apply (refs_perm _ (option_list (m !! vnid_of req) ++ vnid_refs (delete (vnid_of req) m) ++ ext)) in Hh.
    2: { by rewrite (vnid_refs_lookup m (vnid_of req)) at 1; rewrite (assoc_L (++)). }
    destruct (m !! vnid_of req); (split_and!; try done). by apply refs_put.
Qed.

(** Tearing the table down drops the reference of every identifier once, and
    nothing else. *)
Theorem vxlan_exit_drops x m (s : NS) ext :
  vxview x m -> refs_held (vnid_refs m ++ ext) s ->
  let '(x', s') := vr_vxlan_exit x s in vr_vxlan_table x' = None /\ refs_held ext s'.
Proof.
  intros (t & Ht & Hl & Hr) Hh. unfold vr_vxlan_exit. rewrite Ht. cbn.
  pose proof (exit_calls vr_vxlan_destroy (strides t) (index_len t) true (it_data t) 0 (s, vx_mem x)
    (ok_strides t (proj1 Hr)) ltac:(intros E; pose proof (ok_cnt t (proj1 Hr)); rewrite E in *; cbn in *; lia)
    ltac:(rewrite Hl; done) (ok_data t (proj1 Hr)) ltac:(lia) ltac:(done)) as Hc.
  destruct (__vr_itable_exit _ _ _ _ _ _) as [s1 a]. cbn [fst] in Hc. split; [done|]. subst s1.
  pose proof (irep_entries t m Hr) as Hp. set (es := entries _ _ 0) in *.
  assert (Hh' : refs_held (es.*2 ++ ext) s) by (eapply refs_perm; [|exact Hh]; unfold vnid_refs; by rewrite Hp).
  clear -Hh'. revert s Hh'. induction es as [|[i p] es IH]; intros s Hh; [done|].
  cbn [calls foldl]. apply IH. by apply refs_put.
Qed.

End proofs.

End Vxlan.
