(* ===== verification/Pool.v ===== *)
(** * Tables of pointers to blocks that are freed later

    Several tables of the data path are arrays of pointers to blocks of the heap.  A
    packet may read a block while a request removes it, so that the block leaves the
    array at once and is freed by a deferred call.  The lemmas say which blocks are held
    by the array ([t]) and the deferred calls ([d]) after each kind of change; [h] is the
    heap and [n] the next address that the host will hand out. *)

From stdpp Require Import gmap.
From S2P Require Import Prelude NhIface.

Section pool.
Context {A : Type}.
Implicit Types (t : option (list (option Z))) (m : list (option Z)) (d : list Z) (h : gmap Z A).

Definition holders t d : list Z := omap id (default [] t) ++ d.

(** Every block that is held is live and held once, and addresses are not reused. *)
Record pool_ok t h d (n : Z) : Prop := {
  pl_nodup : NoDup (holders t d);
  pl_live : forall p, p ∈ holders t d -> is_Some (h !! p);
  pl_next : forall p, is_Some (h !! p) -> p < n
}.

(** Every live block is held. *)
Definition pool_tight t h d : Prop := forall p, is_Some (h !! p) -> p ∈ holders t d.

Lemma slot_held m i p d : zget m i = Some (Some p) -> p ∈ holders (Some m) d.
Proof. intros Hp. unfold holders. cbn. destruct (omap_zset_perm m i _ None Hp) as (rest & -> & _). set_solver. Qed.

Lemma slot_not_deferred m i p h d n : pool_ok (Some m) h d n -> zget m i = Some (Some p) -> p ∉ d.
Proof.
  intros [Hn _ _] Hp. unfold holders in Hn. apply NoDup_app in Hn as (_ & Hn & _). apply Hn. cbn.
  destruct (omap_zset_perm m i _ None Hp) as (rest & -> & _). set_solver.
Qed.

Lemma unlink_holders m i p d :
  zget m i = Some (Some p) -> holders (Some m) d ≡ₚ p :: holders (Some (zset m i None)) d.
Proof.
  intros Hz. destruct (omap_zset_perm m i _ None Hz) as (rest & R1 & R2). cbn [option_list app] in R1, R2.
  unfold holders. cbn [default from_option id]. by rewrite R1, R2.
Qed.

Lemma deferred_holders t p d : holders t (p :: d) ≡ₚ p :: holders t d.
Proof. unfold holders. by rewrite <- Permutation_middle. Qed.

(** A block is in one slot only. *)
Lemma slot_unique m i j p h d n :
  pool_ok (Some m) h d n -> zget m i = Some (Some p) -> zget m j = Some (Some p) -> i = j.
Proof.
  intros [Hn _ _] Hzi Hzj. destruct (decide (i = j)) as [|Hne]; [done|exfalso].
  rewrite (unlink_holders m i p d Hzi) in Hn. apply NoDup_cons in Hn as [Hn _]. apply Hn.
  apply (slot_held _ j). by rewrite zget_zset_ne.
Qed.

(** A live block is written. *)
Lemma pool_write t h d n p a :
  pool_ok t h d n -> is_Some (h !! p) ->
  pool_ok t (<[p := a]> h) d n /\ (pool_tight t h d -> pool_tight t (<[p := a]> h) d).
Proof.
  intros [Hn Hv Hx] Hp.
  assert (Hdom : forall q, is_Some (<[p := a]> h !! q) <-> is_Some (h !! q)).
  { intros q. rewrite lookup_insert_is_Some'. split; [intros [<-|?]; done|by right]. }
  split; [split|]; intros; try done; [apply Hdom|apply Hx, Hdom|intros q; rewrite Hdom]; auto.
Qed.

(** A fresh block enters an empty slot. *)
Lemma pool_enter m h d n i a :
  pool_ok (Some m) h d n -> zget m i = Some None ->
  let t' := Some (zset m i (Some n)) in
  h !! n = None /\ pool_ok t' (<[n := a]> h) d (n + 1) /\ (pool_tight (Some m) h d -> pool_tight t' (<[n := a]> h) d).
Proof.
  intros [Hn Hv Hx] Hz t'.
  assert (Hfresh : h !! n = None).
  { destruct (h !! n) eqn:E; [|done]. assert (n < n) by (apply Hx; eauto). lia. }
  destruct (omap_zset_perm m i None (Some n) Hz) as (rest & R1 & R2). cbn [option_list app] in R1, R2.
  assert (Ho : holders t' d ≡ₚ n :: holders (Some m) d).
  { unfold holders, t'. cbn [default from_option id]. rewrite R1, R2. done. }
  split; [done|]. split; [split|].
  - rewrite Ho. apply NoDup_cons. split; [|done]. intros [? Hq]%Hv. congruence.
  - intros p. rewrite Ho, elem_of_cons, lookup_insert_is_Some'. intros [->|?]; [by left|right; auto].
  - intros p. rewrite lookup_insert_is_Some'. intros [<-|Hq%Hx]; lia.
  - intros Hk p. rewrite lookup_insert_is_Some', Ho, elem_of_cons. intros [<-|?]; [by left|right; auto].
Qed.

(** A block leaves its slot and waits to be freed. *)
Lemma pool_defer m h d n i p :
  pool_ok (Some m) h d n -> zget m i = Some (Some p) ->
  let t' := Some (zset m i None) in
  pool_ok t' h (d ++ [p]) n /\ (pool_tight (Some m) h d -> pool_tight t' h (d ++ [p])).
Proof.
  intros [Hn Hv Hx] Hz t'.
  assert (Ho : holders t' (d ++ [p]) ≡ₚ holders (Some m) d).
  { rewrite (unlink_holders m i p d Hz). unfold holders, t'. rewrite (assoc_L (++)).
    by rewrite <- Permutation_cons_append. }
  split; [split; [by rewrite Ho| |done]|].
  - intros q. rewrite Ho. apply Hv.
  - intros Hk q. rewrite Ho. apply Hk.
Qed.

(** A block that nothing holds any more is freed. *)
Lemma pool_free t t' h d d' n p :
  pool_ok t h d n -> holders t d ≡ₚ p :: holders t' d' ->
  is_Some (h !! p) /\ pool_ok t' (delete p h) d' n /\ (pool_tight t h d -> pool_tight t' (delete p h) d').
Proof.
  intros [Hn Hv Hx] Ho. rewrite Ho in Hn. apply NoDup_cons in Hn as [Hnp Hn].
  split; [apply Hv; rewrite Ho; set_solver|]. split; [split; [done| |]|].
  - intros q Hq. rewrite lookup_delete_ne by (intros <-; done). apply Hv. rewrite Ho. by right.
  - intros q [b [_ Hb]%lookup_delete_Some]. eauto.
  - intros Hk q [b [Hne Hb]%lookup_delete_Some]. assert (Hq : q ∈ holders t d) by (apply Hk; eauto).
    rewrite Ho in Hq. apply elem_of_cons in Hq as [->|Hq]; [done|exact Hq].
Qed.

(** The array is replaced by one that holds nothing. *)
Lemma pool_clear t t' h d n :
  pool_ok t h d n -> omap id (default [] t') = [] ->
  pool_ok t' h d n /\ (omap id (default [] t) = [] -> pool_tight t h d -> pool_tight t' h d).
Proof.
  intros [Hn Hv Hx] H0. assert (Ho : holders t' d = d) by (unfold holders; by rewrite H0).
  split; [split|].
  - rewrite Ho. unfold holders in Hn. by apply NoDup_app in Hn as (_ & _ & ?).
  - intros p. rewrite Ho. intros Hp. apply Hv. unfold holders. set_solver.
  - done.
  - intros H1 Hk p Hp. rewrite Ho. specialize (Hk p Hp). unfold holders in Hk. by rewrite H1 in Hk.
Qed.

End pool.

Lemma empty_slots n : omap id (replicate n (@None Z)) = [].
Proof. by induction n. Qed.

Lemma no_slots (m : list (option Z)) : (forall i, 0 <= i < zlen m -> zget m i = Some None) -> omap id m = [].
Proof.
  induction m as [|o m IH]; intros Hz; [done|].
  pose proof (Hz 0 ltac:(unfold zlen; cbn; lia)) as H0. rewrite zget_cons_0 in H0. injection H0 as ->. cbn.
  apply IH. intros i Hi. rewrite <- (zget_cons_succ None m i) by lia. apply Hz. unfold zlen in *. cbn. lia.
Qed.

Lemma zset_same {A} (l : list A) i x : zget l i = Some x -> zset l i x = l.
Proof.
  intros Hx. apply zget_ext; [by rewrite zlen_zset|]. intros j Hj. rewrite zget_zset.
  case_decide as Hc; [|done]. by destruct Hc as [<- _].
Qed.
