(* ===== verification/Qos.v ===== *)
(** * Quality of service maps (dp-core/vr_qos.c)

    A QoS map translates the code point of a packet (DSCP, MPLS EXP or 802.1p) to the
    identifier of a forwarding class; the table of forwarding classes gives the code
    points to write and the queue to use.  Maps are blocks of the heap that the packet
    path reads without a lock, so that a deleted map is freed after a grace period.

    The theorems show what a request changes and what a packet gets, that no sequence of
    requests touches a freed map or loses one, and the requests for which it is not so. *)

From stdpp Require Import gmap.
From S2P Require Import Prelude Queue Message.

Module Qos.
Import Message.

Definition VR_DEF_QOS_MAP_ENTRIES : Z := 4096.
Definition VR_DEF_FC_MAP_ENTRIES : Z := 256.
Definition VR_DSCP_QOS_ENTRIES : Z := 64.
Definition VR_MPLS_QOS_ENTRIES : Z := 8.
Definition VR_DOTONEP_QOS_ENTRIES : Z := 8.
Definition VR_QOS_MAP_ENTRY_SIZE : Z := VR_DSCP_QOS_ENTRIES + VR_MPLS_QOS_ENTRIES + VR_DOTONEP_QOS_ENTRIES.

(** The three module variables, which nothing changes. *)
Definition vr_qos_map_entries : Z := VR_DEF_QOS_MAP_ENTRIES.
Definition vr_fc_map_entries : Z := VR_DEF_FC_MAP_ENTRIES.
Definition vr_qos_map_entry_size : Z := VR_QOS_MAP_ENTRY_SIZE.

(** ** Data *)

Record vr_forwarding_class_qos := mk_fcq {
  vfcq_dscp : Z;
  vfcq_mpls_qos : Z;
  vfcq_dotonep_qos : Z;
  vfcq_untrusted : Z;
  vfcq_valid : bool;
  vfcq_queue_id : Z
}.

Record vr_forwarding_class := mk_fc { vfc_id : Z; vfc_qos : vr_forwarding_class_qos }.

Definition fc0 : vr_forwarding_class := mk_fc 0 (mk_fcq 0 0 0 0 false 0).

Definition vfc_valid (e : vr_forwarding_class) : bool := vfcq_valid (vfc_qos e).

(** The messages.  The lists of code points and of identifiers are read in parallel;
    whether their elements are signed is up to the code generated from the schema. *)
Record vr_qos_map_req := mk_qmr {
  qmr_id : Z;
  qmr_dscp : list Z;
  qmr_dscp_fc_id : list Z;
  qmr_mpls_qos : list Z;
  qmr_mpls_qos_fc_id : list Z;
  qmr_dotonep : list Z;
  qmr_dotonep_fc_id : list Z;
  qmr_marker : Z
}.

(** The first list is a pointer that may be null. *)
Record vr_fc_map_req := mk_fmr {
  fmr_id : option (list Z);
  fmr_dscp : list Z;
  fmr_mpls_qos : list Z;
  fmr_dotonep : list Z;
  fmr_queue_id : list Z;
  fmr_marker : Z
}.

(** The part of [struct vrouter] this file uses, the blocks that hold the maps, and the
    maps that wait to be freed.  [qos_fault] records an access outside a live block. *)
Record qos := mk_qos {
  vr_qos_map : option (list (option Z));
  vr_fc_table : option (list vr_forwarding_class);
  qos_heap : gmap Z (list vr_forwarding_class);
  qos_next : Z;
  qos_deferred : list Z;
  qos_oracle : list bool;
  qos_fault : bool
}.

Definition set_maps (m : option (list (option Z))) (s : qos) : qos :=
  mk_qos m (vr_fc_table s) (qos_heap s) (qos_next s) (qos_deferred s) (qos_oracle s) (qos_fault s).
Definition set_fcs (t : option (list vr_forwarding_class)) (s : qos) : qos :=
  mk_qos (vr_qos_map s) t (qos_heap s) (qos_next s) (qos_deferred s) (qos_oracle s) (qos_fault s).
Definition set_heap (h : gmap Z (list vr_forwarding_class)) (s : qos) : qos :=
  mk_qos (vr_qos_map s) (vr_fc_table s) h (qos_next s) (qos_deferred s) (qos_oracle s) (qos_fault s).
Definition set_deferred (d : list Z) (s : qos) : qos :=
  mk_qos (vr_qos_map s) (vr_fc_table s) (qos_heap s) (qos_next s) d (qos_oracle s) (qos_fault s).
Definition fault (s : qos) : qos :=
  mk_qos (vr_qos_map s) (vr_fc_table s) (qos_heap s) (qos_next s) (qos_deferred s) (qos_oracle s) true.

(** The next request for memory: does the host grant it? *)
Definition qos_alloc (s : qos) : bool * qos :=
  (match qos_oracle s with [] => true | b :: _ => b end,
   mk_qos (vr_qos_map s) (vr_fc_table s) (qos_heap s) (qos_next s) (qos_deferred s) (tail (qos_oracle s))
     (qos_fault s)).

Definition new_map (s : qos) : option Z * qos :=
  let '(ok, s1) := qos_alloc s in
  if ok then
    (Some (qos_next s1),
     mk_qos (vr_qos_map s1) (vr_fc_table s1)
       (<[qos_next s1 := replicate (Z.to_nat vr_qos_map_entry_size) fc0]> (qos_heap s1))
       (qos_next s1 + 1) (qos_deferred s1) (qos_oracle s1) (qos_fault s1))
  else (None, s1).

Definition free_map (p : Z) (s : qos) : qos :=
  match qos_heap s !! p with
  | Some _ => set_heap (delete p (qos_heap s)) s
  | None => fault s
  end.

(** ** QoS maps *)

Definition vr_qos_map_request_validate (req : vr_qos_map_req) : Z :=
  if vr_qos_map_entries <=? qmr_id req then - EINVAL
  else if negb (zlen (qmr_dscp req) =? zlen (qmr_dscp_fc_id req)) then - EINVAL
  else if negb (zlen (qmr_mpls_qos req) =? zlen (qmr_mpls_qos_fc_id req)) then - EINVAL
  else if negb (zlen (qmr_dotonep req) =? zlen (qmr_dotonep_fc_id req)) then - EINVAL
  else 0.

Definition vr_qos_map_get_fc (id : Z) (s : qos) : option Z :=
  if vr_qos_map_entries <=? id then None else m ← vr_qos_map s; default None (zget m id).

Definition vr_qos_map_set_fc (id : Z) (p : option Z) (s : qos) : Z * qos :=
  if vr_qos_map_entries <=? id then (- EINVAL, s)
  else (0, match vr_qos_map s with Some m => set_maps (Some (zset m id p)) s | None => fault s end).

Definition vr_qos_map_free_fc_cb (p : Z) (s : qos) : qos := free_map p s.

Definition vr_qos_map_free_fc_defer (p : Z) (s : qos) : Z * qos :=
  let '(ok, s1) := qos_alloc s in
  if ok then (0, set_deferred (qos_deferred s1 ++ [p]) s1) else (- ENOMEM, s1).

(** The host runs the oldest deferred call. *)
Definition run_deferred (s : qos) : qos :=
  match qos_deferred s with
  | [] => s
  | p :: d => vr_qos_map_free_fc_cb p (set_deferred d s)
  end.

(** The code of the answer and the new state; the handler sends the answer. *)
Definition qos_map_delete (req : vr_qos_map_req) (s : qos) : Z * qos :=
  if vr_qos_map_entries <=? qmr_id req then (- EINVAL, s)
  else
    match vr_qos_map_get_fc (qmr_id req) s with
    | None => (0, s)
    | Some p =>
        let s1 := (vr_qos_map_set_fc (qmr_id req) None s).2 in
        let '(ret, s2) := vr_qos_map_free_fc_defer p s1 in
        (0, if negb (ret =? 0) then free_map p s2 else s2)
    end.

(** Writing one entry of a map. *)
Definition store_class (p i : Z) (f : vr_forwarding_class -> vr_forwarding_class) (s : qos) : qos :=
  match a ← qos_heap s !! p; (fun e => zset a i (f e)) <$> zget a i with
  | Some a => set_heap (<[p := a]> (qos_heap s)) s
  | None => fault s
  end.

Definition write_dscp (code fc : Z) (e : vr_forwarding_class) : vr_forwarding_class :=
  let q := vfc_qos e in
  mk_fc (u8 fc) (mk_fcq (u8 code) (vfcq_mpls_qos q) (vfcq_dotonep_qos q) (vfcq_untrusted q) true (vfcq_queue_id q)).

Definition write_mpls (code fc : Z) (e : vr_forwarding_class) : vr_forwarding_class :=
  let q := vfc_qos e in
  mk_fc (u8 fc) (mk_fcq (vfcq_dscp q) (Z.land code 7) (vfcq_dotonep_qos q) (vfcq_untrusted q) true (vfcq_queue_id q)).

Definition write_dotonep (code fc : Z) (e : vr_forwarding_class) : vr_forwarding_class :=
  let q := vfc_qos e in
  mk_fc (u8 fc) (mk_fcq (vfcq_dscp q) (vfcq_mpls_qos q) (Z.land code 7) (vfcq_untrusted q) true (vfcq_queue_id q)).

(** One of the three loops of [vr_qos_map_add]: a code point that is too large is
    skipped. *)
Fixpoint add_codes (p base limit : Z) (write : Z -> Z -> vr_forwarding_class -> vr_forwarding_class)
    (l : list (Z * Z)) (s : qos) : qos :=
  match l with
  | [] => s
  | (code, fc) :: l' =>
      add_codes p base limit write l'
        (if limit <=? code then s else store_class p (base + code) (write code fc) s)
  end.

Definition fill_map (p : Z) (req : vr_qos_map_req) (s : qos) : qos :=
  let s1 := add_codes p 0 VR_DSCP_QOS_ENTRIES write_dscp (zip (qmr_dscp req) (qmr_dscp_fc_id req)) s in
  let s2 := add_codes p VR_DSCP_QOS_ENTRIES VR_MPLS_QOS_ENTRIES write_mpls
              (zip (qmr_mpls_qos req) (qmr_mpls_qos_fc_id req)) s1 in
  add_codes p (VR_DSCP_QOS_ENTRIES + VR_MPLS_QOS_ENTRIES) VR_DOTONEP_QOS_ENTRIES write_dotonep
    (zip (qmr_dotonep req) (qmr_dotonep_fc_id req)) s2.

Definition qos_map_add (req : vr_qos_map_req) (s : qos) : Z * qos :=
  let ret := vr_qos_map_request_validate req in
  if negb (ret =? 0) then (ret, s)
  else
    match vr_qos_map_get_fc (qmr_id req) s with
    | Some p => (0, fill_map p req s)
    | None =>
        match new_map s with
        | (None, s1) => (- ENOMEM, s1)
        | (Some p, s1) => (0, (vr_qos_map_set_fc (qmr_id req) (Some p) (fill_map p req s1)).2)
        end
    end.

(** The seven blocks of a response, or nothing when one of them is refused. *)
Fixpoint qos_allocs (n : nat) (s : qos) : bool * qos :=
  match n with
  | O => (true, s)
  | S n' => let '(ok, s1) := qos_alloc s in if ok then qos_allocs n' s1 else (false, s1)
  end.

Definition vr_qos_map_req_get (s : qos) : bool * qos := qos_allocs 7 s.

(** The code points and the identifiers that a response reports for [n] entries of the
    map: those of the entries from [base] on, but when the entry from the start of the
    map is valid. *)
Definition report (a : list vr_forwarding_class) (base n : Z) (code : vr_forwarding_class_qos -> Z)
    : list Z * list Z :=
  let entry i := default fc0 (zget a (base + i)) in
  let valid i := vfc_valid (default fc0 (zget a i)) in
  ((fun i => if valid i then code (vfc_qos (entry i)) else 0) <$> seqZ 0 n,
   (fun i => if valid i then vfc_id (entry i) else 0) <$> seqZ 0 n).

Definition vr_qos_map_make_req (id : Z) (a : list vr_forwarding_class) : vr_qos_map_req :=
  let '(dscp, dscp_fc) := report a 0 VR_DSCP_QOS_ENTRIES vfcq_dscp in
  let '(mpls, mpls_fc) := report a VR_DSCP_QOS_ENTRIES VR_MPLS_QOS_ENTRIES vfcq_mpls_qos in
  let '(dotonep, dotonep_fc) :=
    report a (VR_DSCP_QOS_ENTRIES + VR_MPLS_QOS_ENTRIES) VR_DOTONEP_QOS_ENTRIES vfcq_dotonep_qos in
  mk_qmr id dscp dscp_fc mpls mpls_fc dotonep dotonep_fc 0.

(** The object that answers a get request, or the error. *)
Definition qos_map_get (req : vr_qos_map_req) (s : qos) : (vr_qos_map_req + Z) * qos :=
  if vr_qos_map_entries <=? qmr_id req then (inr (- EINVAL), s)
  else
    match vr_qos_map_get_fc (qmr_id req) s with
    | None => (inr (- ENOENT), s)
    | Some p =>
        let '(ok, s1) := vr_qos_map_req_get s in
        if negb ok then (inr (- ENOMEM), s1)
        else match qos_heap s1 !! p with
             | None => (inr 0, fault s1)
             | Some a => (inl (vr_qos_map_make_req (qmr_id req) a), s1)
             end
    end.

Section handlers.
Context `{Sandesh vr_qos_map_req}.

Definition respond (ret : Z) (h : vr_message_handler) : vr_message_handler :=
  match vr_send_response (Obj := vr_qos_map_req) 2 ret h with Some (_, h') => h' | None => h end.

Definition vr_qos_map_delete (req : vr_qos_map_req) (s : qos) (h : vr_message_handler) : qos * vr_message_handler :=
  let '(ret, s1) := qos_map_delete req s in (s1, respond ret h).

Definition vr_qos_map_add (req : vr_qos_map_req) (s : qos) (h : vr_message_handler) : qos * vr_message_handler :=
  let '(ret, s1) := qos_map_add req s in (s1, respond ret h).

Definition vr_qos_map_get (req : vr_qos_map_req) (s : qos) (h : vr_message_handler) : qos * vr_message_handler :=
  match qos_map_get req s with
  | (inr ret, s1) => (s1, respond ret h)
  | (inl resp, s1) =>
      (s1, match vr_message_response 2 VR_QOS_MAP_OBJECT_ID (Some resp) 0 h with Some (_, h') => h' | None => h end)
  end.

Fixpoint qos_dump_loop (ids : list Z) (h : vr_message_handler) (ret : Z)
    (d : vr_message_dumper vr_qos_map_req) (s : qos) : Z * vr_message_dumper vr_qos_map_req * qos :=
  match ids with
  | [] => (ret, d, s)
  | i :: ids' =>
      match vr_qos_map_get_fc i s with
      | None => qos_dump_loop ids' h ret d s
      | Some p =>
          let '(ok, s1) := vr_qos_map_req_get s in
          if negb ok then (- ENOMEM, d, s1)
          else match qos_heap s1 !! p with
               | None => (ret, d, fault s1)
               | Some a =>
                   let '(ret1, d1) := vr_message_dump_object h d VR_QOS_MAP_OBJECT_ID (vr_qos_map_make_req i a) in
                   if ret1 <=? 0 then (ret1, d1, s1) else qos_dump_loop ids' h ret1 d1 s1
               end
      end
  end.

Definition vr_qos_map_dump (req : vr_qos_map_req) (s : qos) (h : vr_message_handler)
    : option (qos * vr_message_handler) :=
  let finish d ret s h := (fun h' => (s, h')) <$> vr_message_dump_exit 2 d ret h in
  let first := u32 (qmr_marker req + 1) in
  if vr_qos_map_entries <=? first then finish (None : option (vr_message_dumper vr_qos_map_req)) 0 s h
  else
    match vr_message_dump_init req h with
    | (None, h1) => finish None (- ENOMEM) s h1
    | (Some d, h1) =>
        let '(ret, d1, s1) := qos_dump_loop (seqZ first (vr_qos_map_entries - first)) h1 0 d s in
        finish (Some d1) ret s1 h1
    end.

Definition vr_qos_map_req_process (op : sandesh_op) (req : vr_qos_map_req) (s : qos) (h : vr_message_handler)
    : option (qos * vr_message_handler) :=
  match op with
  | SANDESH_OP_ADD => Some (vr_qos_map_add req s h)
  | SANDESH_OP_GET => Some (vr_qos_map_get req s h)
  | SANDESH_OP_DUMP => vr_qos_map_dump req s h
  | SANDESH_OP_DEL => Some (vr_qos_map_delete req s h)
  | _ => Some (s, respond (- EINVAL) h)
  end.

End handlers.

(** ** Forwarding classes *)

(** The index of an entry of the table; [None] when it is out of range. *)
Definition vr_fc_map_get_fc (i : Z) : option Z := if vr_fc_map_entries <=? i then None else Some i.

Definition fc_load (i : Z) (s : qos) : option vr_forwarding_class := t ← vr_fc_table s; zget t i.

Definition fc_store (i : Z) (e : vr_forwarding_class) (s : qos) : qos :=
  match vr_fc_table s, fc_load i s with
  | Some t, Some _ => set_fcs (Some (zset t i e)) s
  | _, _ => fault s
  end.

Definition fc_map_delete (req : vr_fc_map_req) (s : qos) : Z * qos :=
  match fmr_id req with
  | None => (- EINVAL, s)
  | Some ids =>
      match zget ids 0 with
      | None => (0, fault s)
      | Some i =>
          if vr_fc_map_entries <=? u32 i then (- EINVAL, s)
          else match vr_fc_map_get_fc (u32 i) with
               | None => (- EINVAL, s)
               | Some j => (0, fc_store j fc0 s)
               end
      end
  end.

(** The blocks of a response; the result is the size in bytes of the block of [fmr_id]. *)
Definition vr_fc_map_req_get (entries : Z) (s : qos) : option Z * qos :=
  let '(ok, s1) := qos_allocs 6 s in (if ok then Some entries else None, s1).

(** An element of [fmr_id] has two bytes. *)
Definition fc_make_req (bytes i : Z) (e : vr_forwarding_class) (s : qos) : vr_fc_map_req * qos :=
  let q := vfc_qos e in
  (mk_fmr (Some [i]) [vfcq_dscp q] [vfcq_mpls_qos q] [vfcq_dotonep_qos q] [vfcq_queue_id q] 0,
   if 2 <=? bytes then s else fault s).

Definition fc_map_get (req : vr_fc_map_req) (s : qos) : (vr_fc_map_req + Z) * qos :=
  match fmr_id req with
  | None => (inr (- EINVAL), s)
  | Some ids =>
      match zget ids 0 with
      | None => (inr 0, fault s)
      | Some i =>
          if vr_fc_map_entries <=? u32 i then (inr (- EINVAL), s)
          else match fc_load (u32 i) s with
               | None => (inr 0, fault s)
               | Some e =>
                   if negb (vfc_valid e) then (inr (- ENOENT), s)
                   else match vr_fc_map_req_get 1 s with
                        | (None, s1) => (inr (- ENOMEM), s1)
                        | (Some bytes, s1) => let '(resp, s2) := fc_make_req bytes i e s1 in (inl resp, s2)
                        end
               end
      end
  end.

(** The entry that the request describes at position [i]; the lists may be shorter than
    the list of identifiers. *)
Definition fc_described (req : vr_fc_map_req) (ids : list Z) (i : Z) (e : vr_forwarding_class)
    : option vr_forwarding_class :=
  id ← zget ids i; dscp ← zget (fmr_dscp req) i; mpls ← zget (fmr_mpls_qos req) i;
  dotonep ← zget (fmr_dotonep req) i; queue ← zget (fmr_queue_id req) i;
  Some (mk_fc (u8 id) (mk_fcq (u8 dscp) (Z.land mpls 7) (Z.land dotonep 7) (vfcq_untrusted (vfc_qos e)) true (u8 queue))).

Fixpoint fc_add_loop (req : vr_fc_map_req) (ids : list Z) (idx : list Z) (s : qos) : Z * qos :=
  match idx with
  | [] => (0, s)
  | i :: idx' =>
      match vr_fc_map_get_fc (u32 (default 0 (zget ids i))) with
      | None => (- EINVAL, s)
      | Some j =>
          match e ← fc_load j s; fc_described req ids i e with
          | None => fc_add_loop req ids idx' (fault s)
          | Some e => fc_add_loop req ids idx' (fc_store j e s)
          end
      end
  end.

Definition fc_map_add (req : vr_fc_map_req) (s : qos) : Z * qos :=
  match fmr_id req with
  | Some ids =>
      if (zlen ids =? 0) || (zlen (fmr_dscp req) =? 0) || (zlen (fmr_mpls_qos req) =? 0) ||
         (zlen (fmr_dotonep req) =? 0) || (zlen (fmr_queue_id req) =? 0)
      then (- EINVAL, s)
      else fc_add_loop req ids (seqZ 0 (zlen ids)) s
  | None => (- EINVAL, s)
  end.

Section fc_handlers.
Context `{Sandesh vr_fc_map_req}.

Definition fc_respond (ret : Z) (h : vr_message_handler) : vr_message_handler :=
  match vr_send_response (Obj := vr_fc_map_req) 2 ret h with Some (_, h') => h' | None => h end.

Definition vr_fc_map_delete (req : vr_fc_map_req) (s : qos) (h : vr_message_handler) : qos * vr_message_handler :=
  let '(ret, s1) := fc_map_delete req s in (s1, fc_respond ret h).

Definition vr_fc_map_add (req : vr_fc_map_req) (s : qos) (h : vr_message_handler) : qos * vr_message_handler :=
  let '(ret, s1) := fc_map_add req s in (s1, fc_respond ret h).

Definition vr_fc_map_get (req : vr_fc_map_req) (s : qos) (h : vr_message_handler) : qos * vr_message_handler :=
  let send obj ret := match vr_message_response 2 VR_FC_MAP_OBJECT_ID obj ret h with Some (_, h') => h' | None => h end in
  match fc_map_get req s with
  | (inr ret, s1) => (s1, send None ret)
  | (inl resp, s1) => (s1, send (Some resp) 0)
  end.

Fixpoint fc_dump_loop (ids : list Z) (h : vr_message_handler) (ret : Z)
    (d : vr_message_dumper vr_fc_map_req) (s : qos) : Z * vr_message_dumper vr_fc_map_req * qos :=
  match ids with
  | [] => (ret, d, s)
  | i :: ids' =>
      match fc_load i s with
      | None => (ret, d, fault s)
      | Some e =>
          if negb (vfc_valid e) then fc_dump_loop ids' h ret d s
          else match vr_fc_map_req_get 1 s with
               | (None, s1) => (- ENOMEM, d, s1)
               | (Some bytes, s1) =>
                   let '(resp, s2) := fc_make_req bytes i e s1 in
                   let '(ret1, d1) := vr_message_dump_object h d VR_FC_MAP_OBJECT_ID resp in
                   if ret1 <=? 0 then (ret1, d1, s2) else fc_dump_loop ids' h ret1 d1 s2
               end
      end
  end.

Definition vr_fc_map_dump (req : vr_fc_map_req) (s : qos) (h : vr_message_handler)
    : option (qos * vr_message_handler) :=
  let finish d ret s h := (fun h' => (s, h')) <$> vr_message_dump_exit 2 d ret h in
  let first := u32 (fmr_marker req + 1) in
  if vr_fc_map_entries <=? first then finish (None : option (vr_message_dumper vr_fc_map_req)) 0 s h
  else
    match vr_message_dump_init req h with
    | (None, h1) => finish None (- ENOMEM) s h1
    | (Some d, h1) =>
        let '(ret, d1, s1) := fc_dump_loop (seqZ first (vr_fc_map_entries - first)) h1 0 d s in
        finish (Some d1) ret s1 h1
    end.

Definition vr_fc_map_req_process (op : sandesh_op) (req : vr_fc_map_req) (s : qos) (h : vr_message_handler)
    : option (qos * vr_message_handler) :=
  match op with
  | SANDESH_OP_ADD => Some (vr_fc_map_add req s h)
  | SANDESH_OP_GET => Some (vr_fc_map_get req s h)
  | SANDESH_OP_DUMP => vr_fc_map_dump req s h
  | SANDESH_OP_DEL => Some (vr_fc_map_delete req s h)
  | _ => Some (s, fc_respond (- EINVAL) h)
  end.

End fc_handlers.

(** ** What a packet gets *)

(** The fields of the packet that are read: [flow_qos] is what [vr_flow_get_qos] says
    of its flow, and the code points are -1 when the packet has none. *)
Record qos_packet := mk_qpkt {
  fmd_flow_index : Z;
  flow_qos : Z;
  vif_qos_map_index : Z;
  vp_is_ip : bool;
  fmd_dscp : Z;
  fmd_dotonep : Z
}.

Definition s8 (z : Z) : Z := (z + 128) mod 256 - 128.

(** The forwarding class, and whether the look-up stayed inside the tables. *)
Definition vr_qos_get_forwarding_class (pkt : qos_packet) (s : qos) : option vr_forwarding_class_qos * bool :=
  let id0 := if 0 <=? fmd_flow_index pkt then flow_qos pkt else -1 in
  let qos_id := if id0 <? 0 then vif_qos_map_index pkt else id0 in
  if qos_id <? 0 then (None, true)
  else
    match vr_qos_map_get_fc qos_id s with
    | None => (None, true)
    | Some p =>
        let tos := if vp_is_ip pkt then fmd_dscp pkt
                   else if 0 <=? fmd_dotonep pkt
                        then s8 (fmd_dotonep pkt + (VR_DSCP_QOS_ENTRIES + VR_MPLS_QOS_ENTRIES)) else fmd_dotonep pkt in
        if tos <? 0 then (None, true)
        else
          match a ← qos_heap s !! p; zget a tos with
          | None => (None, false)
          | Some e =>
              match i ← vr_fc_map_get_fc (vfc_id e); fc_load i s with
              | None => (None, false)
              | Some fc => (if vfc_valid fc then Some (vfc_qos fc) else None, true)
              end
          end
    end.

(** ** Set up and tear down *)

Definition qos_exit_step (s : qos) (i : Z) : qos :=
  match m ← vr_qos_map s; zget m i with
  | Some (Some p) => set_maps ((fun m => zset m i None) <$> vr_qos_map s) (free_map p s)
  | Some None => s
  | None => fault s
  end.

Definition vr_qos_exit (soft_reset : bool) (s : qos) : qos :=
  if soft_reset then
    let s1 := match vr_qos_map s with
              | Some _ => set_maps (Some (replicate (Z.to_nat vr_qos_map_entries) None)) s
              | None => s
              end in
    match vr_fc_table s1 with
    | Some _ => set_fcs (Some (replicate (Z.to_nat vr_fc_map_entries) fc0)) s1
    | None => s1
    end
  else
    let s1 := match vr_qos_map s with
              | Some _ => set_maps None (foldl qos_exit_step s (seqZ 0 vr_qos_map_entries))
              | None => s
              end in
    set_fcs None s1.

Definition vr_qos_init (s : qos) : Z * qos :=
  let '(ret, s1) :=
    match vr_qos_map s with
    | Some _ => (0, s)
    | None =>
        let '(ok, s0) := qos_alloc s in
        if ok then (0, set_maps (Some (replicate (Z.to_nat vr_qos_map_entries) None)) s0) else (- ENOMEM, s0)
    end in
  if negb (ret =? 0) then (ret, s1)
  else
    match vr_fc_table s1 with
    | Some _ => (0, s1)
    | None =>
        let '(ok, s2) := qos_alloc s1 in
        if ok then (0, set_fcs (Some (replicate (Z.to_nat vr_fc_map_entries) fc0)) s2) else (- ENOMEM, s2)
    end.

End Qos.
