(* ===== verification/QosProofs.v ===== *)
(** * Quality of service maps: properties

    [class_of] is what a state says of the code points of a map: the contract of the
    requests is stated on it. *)

From stdpp Require Import gmap.
From S2P Require Import Prelude NhIface Queue Message Pool Qos.

Module QosProofs.
Import Message Qos.

(** The forwarding class that an entry of a map names. *)
Definition entry_class (a : list vr_forwarding_class) (k : Z) : option Z :=
  e ← zget a k; if vfc_valid e then Some (vfc_id e) else None.

(** Entry [k] of map [id]. *)
Definition class_of (s : qos) (id k : Z) : option Z :=
  p ← vr_qos_map_get_fc id s; a ← qos_heap s !! p; entry_class a k.

(** The last pair of the list with code point [k] decides. *)
Fixpoint assigned (l : list (Z * Z)) (k : Z) (old : option Z) : option Z :=
  match l with
  | [] => old
  | (code, fc) :: l' => assigned l' k (if code =? k then Some (u8 fc) else old)
  end.

(** The entry [k] of a map after a request. *)
Definition requested (req : vr_qos_map_req) (k : Z) (old : option Z) : option Z :=
  if k <? 64 then assigned (zip (qmr_dscp req) (qmr_dscp_fc_id req)) k old
  else if k <? 72 then assigned (zip (qmr_mpls_qos req) (qmr_mpls_qos_fc_id req)) (k - 64) old
  else assigned (zip (qmr_dotonep req) (qmr_dotonep_fc_id req)) (k - 72) old.

(** ** The invariant *)

(** The blocks that the table or a deferred call points to. *)
Definition owned (s : qos) : list Z := holders (vr_qos_map s) (qos_deferred s).

(** An entry names a forwarding class that exists, the first one unless it was written,
    and carries its own code point. *)
Definition entry_ok (k : Z) (e : vr_forwarding_class) : Prop :=
  0 <= vfc_id e < vr_fc_map_entries /\ (vfc_valid e = false -> vfc_id e = 0) /\
  (vfc_valid e = true -> (k < 64 -> vfcq_dscp (vfc_qos e) = k) /\
    (64 <= k < 72 -> vfcq_mpls_qos (vfc_qos e) = k - 64) /\ (72 <= k -> vfcq_dotonep_qos (vfc_qos e) = k - 72)).

Definition map_ok (a : list vr_forwarding_class) : Prop :=
  zlen a = vr_qos_map_entry_size /\ forall k e, zget a k = Some e -> entry_ok k e.

Record qos_inv (s : qos) : Prop := {
  qi_len : forall m, vr_qos_map s = Some m -> zlen m = vr_qos_map_entries;
  qi_fcs : forall t, vr_fc_table s = Some t -> zlen t = vr_fc_map_entries;
  qi_pool : pool_ok (vr_qos_map s) (qos_heap s) (qos_deferred s) (qos_next s);
  qi_maps : forall p a, qos_heap s !! p = Some a -> map_ok a;
  qi_fault : qos_fault s = false
}.

(** No block is lost. *)
Definition no_leak (s : qos) : Prop := pool_tight (vr_qos_map s) (qos_heap s) (qos_deferred s).

Lemma qi_live s p : qos_inv s -> p ∈ owned s -> is_Some (qos_heap s !! p).
Proof. intros Hi. apply (pl_live _ _ _ _ (qi_pool _ Hi)). Qed.

(** Code points are not negative. *)
Definition qmr_ok (req : vr_qos_map_req) : Prop :=
  0 <= qmr_id req /\ Forall (Z.le 0) (qmr_dscp req) /\ Forall (Z.le 0) (qmr_mpls_qos req) /\
  Forall (Z.le 0) (qmr_dotonep req).

(** ** Filling a map *)

Lemma u8_range z : 0 <= u8 z < 256.
Proof. unfold u8. apply Z.mod_pos_bound. lia. Qed.

Lemma store_class_spec p i f s a e :
  qos_heap s !! p = Some a -> zget a i = Some e ->
  store_class p i f s = set_heap (<[p := zset a i (f e)]> (qos_heap s)) s.
Proof. intros Hp He. unfold store_class. rewrite Hp. cbn. by rewrite He. Qed.

Lemma set_heap_id s p a : qos_heap s !! p = Some a -> s = set_heap (<[p := a]> (qos_heap s)) s.
Proof. intros Hp. rewrite insert_id by done. by destruct s. Qed.

Lemma set_heap_heap h h' s : set_heap h (set_heap h' s) = set_heap h s.
Proof. done. Qed.

(** What writing a code point does to its entry. *)
Definition class_writer (base limit : Z) (write : Z -> Z -> vr_forwarding_class -> vr_forwarding_class) : Prop :=
  forall c f e, 0 <= c < limit -> 
    vfc_valid (write c f e) = true /\ vfc_id (write c f e) = u8 f /\ entry_ok (base + c) (write c f e).

Lemma add_codes_spec p base limit write l s a :
  qos_heap s !! p = Some a -> map_ok a -> 0 <= base -> base + limit <= vr_qos_map_entry_size ->
  Forall (fun cf => 0 <= cf.1) l -> class_writer base limit write ->
  exists a', add_codes p base limit write l s = set_heap (<[p := a']> (qos_heap s)) s /\ map_ok a' /\
    forall k, entry_class a' k = if decide (base <= k < base + limit) then assigned l (k - base) (entry_class a k)
                                 else entry_class a k.
Proof.
  intros Hp Hok Hb Hl Hc Hw. revert s a Hp Hok. induction l as [|[c f] l IH]; intros s a Hp Hok; cbn [add_codes assigned].
  { exists a. split_and!; [by apply set_heap_id|done|]. intros k. by case_decide. }
  apply Forall_cons in Hc as [Hc Hcs]. cbn in Hc. destruct (limit <=? c) eqn:Hlc.
  { apply Z.leb_le in Hlc. destruct (IH Hcs s a Hp Hok) as (a' & -> & Hok' & Hk). exists a'. split_and!; [done|done|].
    intros k. rewrite Hk. case_decide; [|done]. by rewrite (proj2 (Z.eqb_neq c (k - base))) by lia. }
  apply Z.leb_gt in Hlc. destruct Hok as [Hlen Hid].
  destruct (zget_is_Some a (base + c)) as [e He]; [lia|].
  rewrite (store_class_spec p (base + c) _ s a e Hp He).
  destruct (Hw c f e ltac:(lia)) as (Hv & Hi & Heok).
  set (a1 := zset a (base + c) (write c f e)).
  destruct (IH Hcs (set_heap (<[p := a1]> (qos_heap s)) s) a1) as (a' & -> & Hok' & Hk).
  { cbn. apply lookup_insert_eq. }
  { split; [unfold a1; by rewrite zlen_zset|]. intros k x. unfold a1. rewrite zget_zset. case_decide as Hc'; [|eauto].
    destruct Hc' as [<- _]. by intros [= <-]. }
  exists a'. split_and!; [by rewrite set_heap_heap; cbn; rewrite insert_insert_eq|done|].
  intros k. rewrite Hk. unfold entry_class, a1. rewrite zget_zset.
  destruct (decide (base <= k < base + limit)) as [Hin|Hout].
  - destruct (Z.eqb_spec c (k - base)) as [E|E].
    + rewrite decide_True by lia. cbn. by rewrite Hv, Hi.
    + rewrite decide_False by lia. done.
  - rewrite decide_False by lia. done.
Qed.

Lemma land7 c : 0 <= c < 8 -> Z.land c 7 = c.
Proof. intros Hc. change 7 with (Z.ones 3). rewrite Z.land_ones by lia. apply Z.mod_small. lia. Qed.

Lemma writers :
  class_writer 0 VR_DSCP_QOS_ENTRIES write_dscp /\ class_writer VR_DSCP_QOS_ENTRIES VR_MPLS_QOS_ENTRIES write_mpls /\
  class_writer (VR_DSCP_QOS_ENTRIES + VR_MPLS_QOS_ENTRIES) VR_DOTONEP_QOS_ENTRIES write_dotonep.
Proof.
  unfold class_writer, entry_ok, VR_DSCP_QOS_ENTRIES, VR_MPLS_QOS_ENTRIES, VR_DOTONEP_QOS_ENTRIES,
    vr_fc_map_entries, VR_DEF_FC_MAP_ENTRIES.
  split_and!; intros c f e Hc; pose proof (u8_range f); cbn; split_and!; try done; try lia; intros; try lia;
    rewrite ?land7, ?u8_small by lia; lia.
Qed.

Lemma zip_nonneg l1 l2 : Forall (Z.le 0) l1 -> Forall (fun cf : Z * Z => 0 <= cf.1) (zip l1 l2).
Proof.
  intros H. revert l2. induction H as [|x l1 Hx H IH]; intros [|y l2]; cbn; constructor; [done|apply IH].
Qed.

Lemma fill_map_spec p req s a :
  qos_heap s !! p = Some a -> map_ok a -> qmr_ok req ->
  exists a', fill_map p req s = set_heap (<[p := a']> (qos_heap s)) s /\ map_ok a' /\
    forall k, 0 <= k < vr_qos_map_entry_size -> entry_class a' k = requested req k (entry_class a k).
Proof.
  intros Hp Hok (_ & H1 & H2 & H3). destruct writers as (W1 & W2 & W3). unfold fill_map.
  destruct (add_codes_spec p 0 VR_DSCP_QOS_ENTRIES write_dscp (zip (qmr_dscp req) (qmr_dscp_fc_id req)) s a)
    as (a1 & -> & Hok1 & K1); try done; [by apply zip_nonneg|].
  set (s1 := set_heap _ s). assert (Hp1 : qos_heap s1 !! p = Some a1) by (cbn; apply lookup_insert_eq).
  destruct (add_codes_spec p VR_DSCP_QOS_ENTRIES VR_MPLS_QOS_ENTRIES write_mpls
    (zip (qmr_mpls_qos req) (qmr_mpls_qos_fc_id req)) s1 a1) as (a2 & -> & Hok2 & K2); try done; [by apply zip_nonneg|].
  set (s2 := set_heap _ s1). assert (Hp2 : qos_heap s2 !! p = Some a2) by (cbn; apply lookup_insert_eq).
  destruct (add_codes_spec p (VR_DSCP_QOS_ENTRIES + VR_MPLS_QOS_ENTRIES) VR_DOTONEP_QOS_ENTRIES write_dotonep
    (zip (qmr_dotonep req) (qmr_dotonep_fc_id req)) s2 a2) as (a3 & -> & Hok3 & K3); try done; [by apply zip_nonneg|].
  exists a3. split_and!; [by unfold s2, s1; cbn; rewrite !insert_insert_eq|done|].
  unfold VR_DSCP_QOS_ENTRIES, VR_MPLS_QOS_ENTRIES, VR_DOTONEP_QOS_ENTRIES, vr_qos_map_entry_size,
    VR_QOS_MAP_ENTRY_SIZE in *. unfold VR_DSCP_QOS_ENTRIES, VR_MPLS_QOS_ENTRIES, VR_DOTONEP_QOS_ENTRIES in *.
  intros k Hk. rewrite K3, K2, K1. unfold requested.
  destruct (Z.ltb_spec k 64); [|destruct (Z.ltb_spec k 72)]; repeat case_decide; try lia; f_equal; lia.
Qed.

(** ** The table *)

Lemma get_fc_slot s m id :
  qos_inv s -> vr_qos_map s = Some m -> 0 <= id ->
  if decide (id < vr_qos_map_entries) then zget m id = Some (vr_qos_map_get_fc id s)
  else vr_qos_map_get_fc id s = None.
Proof.
  intros Hi Hm H0. unfold vr_qos_map_get_fc. rewrite Hm. cbn. pose proof (qi_len _ Hi m Hm). case_decide.
  - rewrite (proj2 (Z.leb_gt _ _)) by done. destruct (zget_is_Some m id) as [o Ho]; [lia|]. by rewrite Ho.
  - by rewrite (proj2 (Z.leb_le _ _)) by lia.
Qed.

Lemma slot_get_fc s m id o :
  qos_inv s -> vr_qos_map s = Some m -> 0 <= id < vr_qos_map_entries -> zget m id = Some o ->
  vr_qos_map_get_fc id s = o.
Proof.
  intros Hi Hm Hid Ho. pose proof (get_fc_slot s m id Hi Hm ltac:(lia)) as H.
  rewrite decide_True in H by lia. congruence.
Qed.

Lemma get_fc_owned s id p : 0 <= id -> qos_inv s -> vr_qos_map_get_fc id s = Some p -> p ∈ owned s.
Proof.
  intros H0 Hi Hg. destruct (vr_qos_map s) as [m|] eqn:Hm.
  - pose proof (get_fc_slot s m id Hi Hm H0) as H. case_decide; [|congruence]. rewrite Hg in H.
    unfold owned. rewrite Hm. by apply (slot_held m id).
  - unfold vr_qos_map_get_fc in Hg. rewrite Hm in Hg. by case_match.
Qed.

(** Writing a map in place. *)
Lemma write_inv s p a :
  qos_inv s -> is_Some (qos_heap s !! p) -> map_ok a ->
  let s' := set_heap (<[p := a]> (qos_heap s)) s in qos_inv s' /\ (no_leak s -> no_leak s').
Proof.
  intros [Hl Hf Hp Hm Hft] Hs Ha s'. destruct (pool_write _ _ _ _ p a Hp Hs) as [Hp' Ht'].
  split; [|exact Ht']. split; try done.
  intros q b. cbn. intros [[<- <-]|[_ Hb]]%lookup_insert_Some; [done|eauto].
Qed.

(** A fresh map enters the table. *)
Lemma enter_inv s m i a o :
  qos_inv s -> vr_qos_map s = Some m -> zget m i = Some None -> map_ok a ->
  let p := qos_next s in
  let s' := mk_qos (Some (zset m i (Some p))) (vr_fc_table s) (<[p := a]> (qos_heap s)) (p + 1)
              (qos_deferred s) o (qos_fault s) in
  qos_heap s !! p = None /\ qos_inv s' /\ (no_leak s -> no_leak s').
Proof.
  intros [Hl Hf Hp Hm Hft] Em Hz Ha p s'. unfold no_leak. rewrite Em in *.
  destruct (pool_enter m _ _ _ i a Hp Hz) as (Hfr & Hp' & Ht'). split; [done|]. split; [|exact Ht'].
  split; try done.
  - intros m' [= <-]. rewrite zlen_zset. eauto.
  - intros q b. cbn. intros [[<- <-]|[_ Hb]]%lookup_insert_Some; [done|eauto].
Qed.

(** A map leaves the table, to be freed later. *)
Lemma defer_inv s m i p o :
  qos_inv s -> vr_qos_map s = Some m -> zget m i = Some (Some p) ->
  let s' := mk_qos (Some (zset m i None)) (vr_fc_table s) (qos_heap s) (qos_next s)
              (qos_deferred s ++ [p]) o (qos_fault s) in
  qos_inv s' /\ (no_leak s -> no_leak s').
Proof.
  intros [Hl Hf Hp Hm Hft] Em Hz s'. unfold no_leak. rewrite Em in *.
  destruct (pool_defer m _ _ _ i p Hp Hz) as [Hp' Ht']. split; [|exact Ht'].
  split; try done. intros m' [= <-]. rewrite zlen_zset. eauto.
Qed.

(** A block that nothing points to any more is freed. *)
Lemma free_inv s s' p :
  qos_inv s -> owned s ≡ₚ p :: owned s' ->
  (forall m, vr_qos_map s' = Some m -> zlen m = vr_qos_map_entries) -> vr_fc_table s' = vr_fc_table s ->
  qos_heap s' = qos_heap s -> qos_next s' = qos_next s -> qos_fault s' = qos_fault s ->
  qos_inv (free_map p s') /\ (no_leak s -> no_leak (free_map p s')) /\ vr_qos_map (free_map p s') = vr_qos_map s'.
Proof.
  intros [Hl Hf Hp Hm Hft] Ho Hlen Ef Eh En Eft.
  destruct (pool_free _ _ _ _ _ _ p Hp Ho) as ([a Ha] & Hp' & Ht').
  unfold free_map. rewrite Eh, Ha. split; [|split; [exact Ht'|done]].
  split; cbn; rewrite ?Ef, ?En, ?Eft; try done. intros q b [_ Hb]%lookup_delete_Some. eauto.
Qed.

(** ** Requests *)

Lemma class_of_entry s id k p a :
  vr_qos_map_get_fc id s = Some p -> qos_heap s !! p = Some a -> class_of s id k = entry_class a k.
Proof. intros Hp Ha. unfold class_of. rewrite Hp. cbn. by rewrite Ha. Qed.

Lemma entry_class_fresh k : entry_class (replicate (Z.to_nat vr_qos_map_entry_size) fc0) k = None.
Proof.
  unfold entry_class. destruct (zget _ k) as [e|] eqn:He; [|done]. cbn.
  pose proof (zget_replicate_default (Z.to_nat vr_qos_map_entry_size) fc0 k) as Hd. rewrite He in Hd. cbn in Hd. by subst.
Qed.

Lemma fresh_map_ok : map_ok (replicate (Z.to_nat vr_qos_map_entry_size) fc0).
Proof.
  split; [done|]. intros k e He. enough (e = fc0) as -> by done.
  pose proof (zget_replicate_default (Z.to_nat vr_qos_map_entry_size) fc0 k) as Hd. rewrite He in Hd. cbn in Hd. by subst.
Qed.

(** The maps that a change of one block or of one slot leaves alone. *)
Lemma class_of_other s s' m m' i p id k :
  qos_inv s -> vr_qos_map s = Some m -> vr_qos_map s' = Some m' ->
  (forall j, j <> i -> zget m' j = zget m j) -> (forall q, q <> p -> qos_heap s' !! q = qos_heap s !! q) ->
  (forall j, j <> i -> zget m j <> Some (Some p)) ->
  0 <= id -> id <> i -> class_of s' id k = class_of s id k.
Proof.
  intros Hi Hm Hm' Hz Hh Hp H0 Hne. unfold class_of, vr_qos_map_get_fc. rewrite Hm, Hm'. cbn. rewrite (Hz id Hne).
  destruct (vr_qos_map_entries <=? id); [done|]. destruct (zget m id) as [[q|]|] eqn:Hq; [|done|done]. cbn.
  rewrite Hh; [done|]. intros ->. by apply (Hp id Hne).
Qed.

(** The outcome of an add request. *)
Definition map_added (req : vr_qos_map_req) (s : qos) (res : Z * qos) : Prop :=
  qos_inv res.2 /\ (no_leak s -> no_leak res.2) /\ is_Some (vr_qos_map res.2) /\
  (res.1 = - EINVAL <-> vr_qos_map_request_validate req = - EINVAL) /\
  (res.1 = 0 \/ res.1 = - ENOMEM \/ res.1 = - EINVAL) /\
  forall id k, 0 <= id -> 0 <= k < vr_qos_map_entry_size ->
    class_of res.2 id k = if decide (res.1 = 0 /\ id = qmr_id req) then requested req k (class_of s id k)
                          else class_of s id k.

(** The answer when the request itself is valid. *)
Lemma map_added_valid req s ret s' :
  vr_qos_map_request_validate req = 0 -> qos_inv s' -> (no_leak s -> no_leak s') -> is_Some (vr_qos_map s') ->
  ret = 0 \/ ret = - ENOMEM ->
  (forall id k, 0 <= id -> 0 <= k < vr_qos_map_entry_size ->
    class_of s' id k = if decide (ret = 0 /\ id = qmr_id req) then requested req k (class_of s id k)
                       else class_of s id k) ->
  map_added req s (ret, s').
Proof.
  intros Hv Hi Hl Hm Hr Hc. split; [done|]. split; [done|]. split; [done|]. rewrite Hv. cbn [fst snd].
  split; [by destruct Hr as [-> | ->]|]. split; [naive_solver|done].
Qed.

Lemma validate_cases req :
  vr_qos_map_request_validate req = - EINVAL \/ (vr_qos_map_request_validate req = 0 /\ qmr_id req < vr_qos_map_entries).
Proof.
  unfold vr_qos_map_request_validate. destruct (Z.leb_spec vr_qos_map_entries (qmr_id req)); [by left|].
  repeat case_match; (by left) || (right; split; [done|lia]).
Qed.

Lemma add_existing req s m p :
  qos_inv s -> vr_qos_map s = Some m -> qmr_ok req -> qmr_id req < vr_qos_map_entries ->
  vr_qos_map_get_fc (qmr_id req) s = Some p -> vr_qos_map_request_validate req = 0 ->
  map_added req s (0, fill_map p req s).
Proof.
  intros Hi Hm Hreq Hid Hp Hv. pose proof Hreq as (H0 & _).
  destruct (qi_live s p Hi) as [a Ha]; [by apply (get_fc_owned s (qmr_id req))|].
  destruct (fill_map_spec p req s a Ha (qi_maps _ Hi p a Ha) Hreq) as (a' & -> & Hok & Hk).
  destruct (write_inv s p a' Hi ltac:(eauto) Hok) as [Hi' Hl'].
  pose proof (get_fc_slot s m (qmr_id req) Hi Hm H0) as Hz. rewrite decide_True, Hp in Hz by done.
  apply map_added_valid; [done|done|done|by exists m|by left|].
  intros id k Hid0 Hk0. case_decide as Hc.
  - destruct Hc as [_ ->].
    rewrite (class_of_entry (set_heap (<[p := a']> (qos_heap s)) s) (qmr_id req) k p a' Hp (lookup_insert_eq _ _ _)).
    rewrite (class_of_entry s (qmr_id req) k p a Hp Ha). by apply Hk.
  - apply (class_of_other s _ m m (qmr_id req) p); try done.
    + intros q Hq. cbn. by rewrite lookup_insert_ne.
    + intros j Hj Hzj. apply Hj. pose proof (qi_pool _ Hi) as Hpl. rewrite Hm in Hpl.
      by apply (slot_unique m j (qmr_id req) p _ _ _ Hpl).
    + intros ->. by apply Hc.
Qed.

Lemma add_fresh req s m :
  qos_inv s -> vr_qos_map s = Some m -> qmr_ok req -> qmr_id req < vr_qos_map_entries ->
  vr_qos_map_get_fc (qmr_id req) s = None -> vr_qos_map_request_validate req = 0 ->
  map_added req s
    (match new_map s with
     | (None, s1) => (- ENOMEM, s1)
     | (Some p, s1) => (0, (vr_qos_map_set_fc (qmr_id req) (Some p) (fill_map p req s1)).2)
     end).
Proof.
  intros Hi Hm Hreq Hid Hp Hv. pose proof Hreq as (H0 & _).
  pose proof (get_fc_slot s m (qmr_id req) Hi Hm H0) as Hz. rewrite decide_True, Hp in Hz by done.
  unfold new_map, qos_alloc. destruct (match qos_oracle s with [] => true | b :: _ => b end).
  2: { apply map_added_valid; [done|by destruct Hi|done|by exists m|by right|].
       intros id k _ _. by rewrite decide_False by (by intros [? _]). }
  set (p := qos_next s). set (a0 := replicate _ fc0). cbn [qos_next qos_heap]. fold p.
  set (s1 := mk_qos _ _ _ _ _ _ _).
  assert (Hp1 : qos_heap s1 !! p = Some a0) by (cbn; apply lookup_insert_eq).
  destruct (fill_map_spec p req s1 a0 Hp1 fresh_map_ok Hreq) as (a' & -> & Hok & Hk).
  unfold vr_qos_map_set_fc. rewrite (proj2 (Z.leb_gt _ _)) by done. cbn [vr_qos_map set_heap s1 snd]. rewrite Hm.
  cbn [set_maps set_heap s1 vr_fc_table qos_heap qos_next qos_deferred qos_oracle qos_fault].
  unfold set_heap, set_maps. cbn [vr_fc_table qos_heap qos_next qos_deferred qos_oracle qos_fault s1].
  rewrite insert_insert_eq.
  destruct (enter_inv s m (qmr_id req) a' (tail (qos_oracle s)) Hi Hm Hz Hok) as (Hfresh & Hi' & Hl').
  fold p in Hfresh, Hi', Hl'.
  set (s' := mk_qos (Some (zset m _ _)) _ _ _ _ _ _) in *.
  pose proof (zget_range _ _ _ Hz) as Hrange.
  apply map_added_valid; [done|done|done|by eexists|by left|].
  intros id k Hid0 Hk0. case_decide as Hc.
  - destruct Hc as [_ ->].
    rewrite (class_of_entry s' (qmr_id req) k p a').
    + rewrite Hk, entry_class_fresh by done. unfold class_of. by rewrite Hp.
    + apply (slot_get_fc s' (zset m (qmr_id req) (Some p))); [done|done|done|by apply zget_zset_eq].
    + cbn. apply lookup_insert_eq.
  - apply (class_of_other s s' m (zset m (qmr_id req) (Some p)) (qmr_id req) p); try done.
    + intros j Hj. by apply zget_zset_ne.
    + intros q Hq. cbn. by rewrite lookup_insert_ne.
    + intros j Hj Hzj. destruct (qi_live s p Hi) as [? Hx]; [|congruence].
      unfold owned. rewrite Hm. by apply (slot_held m j).
    + intros ->. by apply Hc.
Qed.

Lemma map_add_outcome req s :
  qos_inv s -> is_Some (vr_qos_map s) -> qmr_ok req -> map_added req s (qos_map_add req s).
Proof.
  intros Hi [m Hm] Hreq. unfold qos_map_add. destruct (validate_cases req) as [Hv|[Hv Hid]].
  - rewrite Hv. cbn. do 3 (split; [done|]). split; [done|]. split; [by right; right|].
    intros id k _ _. by rewrite decide_False by (by intros [? _]).
  - rewrite Hv. cbn [negb Z.eqb]. destruct (vr_qos_map_get_fc (qmr_id req) s) as [p|] eqn:Hp.
    + by apply (add_existing req s m).
    + by apply (add_fresh req s m).
Qed.
(** What [qos_map_delete] leaves in the other maps. *)
Lemma delete_class s s' m i p id k :
  qos_inv s -> vr_qos_map s = Some m -> zget m i = Some (Some p) -> 0 <= i < vr_qos_map_entries ->
  vr_qos_map s' = Some (zset m i None) -> (forall q, q <> p -> qos_heap s' !! q = qos_heap s !! q) -> 0 <= id ->
  class_of s' id k = if decide (id = i) then None else class_of s id k.
Proof.
  intros Hi Hm Hz Hr Hm' Hh H0. pose proof (zget_range _ _ _ Hz). case_decide as Hc.
  - subst id. unfold class_of, vr_qos_map_get_fc. rewrite Hm'. cbn. rewrite zget_zset_eq by done. by case_match.
  - apply (class_of_other s s' m (zset m i None) i p); try done.
    + intros j Hj. by apply zget_zset_ne.
    + intros j Hj Hzj. apply Hj. pose proof (qi_pool _ Hi) as Hpl. rewrite Hm in Hpl.
      by apply (slot_unique m j i p _ _ _ Hpl).
Qed.

Definition map_deleted (i : Z) (s : qos) (res : Z * qos) : Prop :=
  qos_inv res.2 /\ (no_leak s -> no_leak res.2) /\ is_Some (vr_qos_map res.2) /\
  res.1 = (if decide (i < vr_qos_map_entries) then 0 else - EINVAL) /\
  forall id k, 0 <= id -> class_of res.2 id k = if decide (id = i) then None else class_of s id k.

Lemma map_delete_outcome req s :
  qos_inv s -> is_Some (vr_qos_map s) -> 0 <= qmr_id req -> map_deleted (qmr_id req) s (qos_map_delete req s).
Proof.
  intros Hi [m Hm] H0. pose proof (get_fc_slot s m (qmr_id req) Hi Hm H0) as Hz.
  assert (Hsame : vr_qos_map_get_fc (qmr_id req) s = None -> forall id k, 0 <= id ->
    class_of s id k = if decide (id = qmr_id req) then None else class_of s id k).
  { intros Hn id k _. destruct (decide (id = qmr_id req)) as [->|]; [unfold class_of; by rewrite Hn|done]. }
  unfold qos_map_delete. destruct (Z.leb_spec vr_qos_map_entries (qmr_id req)) as [Hge|Hlt].
  { rewrite decide_False in Hz by lia. split_and!; cbn; try done; [by rewrite decide_False by lia|by apply Hsame]. }
  rewrite decide_True in Hz by done. destruct (vr_qos_map_get_fc (qmr_id req) s) as [p|] eqn:Hp.
  2: { split_and!; cbn; try done; [by rewrite decide_True|by apply Hsame]. }
  unfold vr_qos_map_set_fc. rewrite (proj2 (Z.leb_gt _ _)) by done. cbn [snd]. rewrite Hm.
  unfold vr_qos_map_free_fc_defer, qos_alloc. set (o := tail _).
  destruct (match qos_oracle (set_maps _ s) with [] => true | b :: _ => b end); cbn [Z.eqb negb].
  - destruct (defer_inv s m (qmr_id req) p o Hi Hm Hz) as [Hi' Hl'].
    split; [exact Hi'|]. split; [exact Hl'|]. split; [by eexists|]. split; [by rewrite decide_True|].
    intros id k Hid. by apply (delete_class s _ m (qmr_id req) p).
  - set (s' := mk_qos _ _ _ _ _ _ _).
    destruct (free_inv s s' p Hi) as (Hi' & Hl' & Em'); try done.
    { unfold owned. rewrite Hm. by apply unlink_holders. }
    { intros m' [= <-]. rewrite zlen_zset. by apply (qi_len _ Hi). }
    change (negb (- ENOMEM =? 0)) with true. cbn iota.
    split; [exact Hi'|]. split; [exact Hl'|]. split; [eexists; exact Em'|]. split; [by rewrite decide_True|].
    intros id k Hid. apply (delete_class s _ m (qmr_id req) p); try done.
    intros q Hq. cbn [snd]. unfold free_map. change (qos_heap s') with (qos_heap s).
    destruct (qos_heap s !! p); [cbn; by rewrite lookup_delete_ne|done].
Qed.

Lemma qos_deferred_inv s : qos_inv s -> qos_inv (run_deferred s) /\ (no_leak s -> no_leak (run_deferred s)) /\
  vr_qos_map (run_deferred s) = vr_qos_map s.
Proof.
  intros Hi. unfold run_deferred. destruct (qos_deferred s) as [|p d] eqn:Hd; [done|].
  destruct (free_inv s (set_deferred d s) p Hi) as (Hi' & Hl' & Em'); try done; [|by apply (qi_len _ Hi)].
  unfold owned. rewrite Hd. apply deferred_holders.
Qed.

(** ** Forwarding classes *)

Lemma set_fcs_inv t s :
  qos_inv s -> (forall l, t = Some l -> zlen l = vr_fc_map_entries) ->
  qos_inv (set_fcs t s) /\ (no_leak s -> no_leak (set_fcs t s)).
Proof. intros [Hl Hf Hp Hm Hft] Ht. by split. Qed.

Lemma fc_load_some s t i : qos_inv s -> vr_fc_table s = Some t -> 0 <= i < vr_fc_map_entries -> is_Some (fc_load i s).
Proof.
  intros Hi Ht Hr. unfold fc_load. rewrite Ht. cbn. apply zget_is_Some. rewrite (qi_fcs _ Hi t Ht). done.
Qed.

Lemma fc_store_spec i e s t :
  qos_inv s -> vr_fc_table s = Some t -> 0 <= i < vr_fc_map_entries ->
  fc_store i e s = set_fcs (Some (zset t i e)) s.
Proof. intros Hi Ht Hr. unfold fc_store. rewrite Ht. by destruct (fc_load_some s t i Hi Ht Hr) as [x ->]. Qed.

Lemma fc_store_inv i e s :
  qos_inv s -> is_Some (vr_fc_table s) -> 0 <= i < vr_fc_map_entries ->
  qos_inv (fc_store i e s) /\ (no_leak s -> no_leak (fc_store i e s)) /\ is_Some (vr_fc_table (fc_store i e s)) /\
  vr_qos_map (fc_store i e s) = vr_qos_map s /\
  forall j, fc_load j (fc_store i e s) = if decide (j = i) then Some e else fc_load j s.
Proof.
  intros Hi [t Ht] Hr. rewrite (fc_store_spec i e s t Hi Ht Hr). pose proof (qi_fcs _ Hi t Ht) as Hl.
  destruct (set_fcs_inv (Some (zset t i e)) s Hi) as [Hi' Hl'].
  { intros l [= <-]. by rewrite zlen_zset. }
  split_and!; try done. intros j. unfold fc_load. rewrite Ht. cbn. rewrite zget_zset.
  destruct (decide (j = i)) as [->|Hne].
  - by rewrite decide_True by (split; [done|lia]).
  - by rewrite decide_False by naive_solver.
Qed.

(** The lists of a request are as long as the list of identifiers. *)
Definition fmr_ok (req : vr_fc_map_req) (ids : list Z) : Prop :=
  fmr_id req = Some ids /\ zlen ids <= zlen (fmr_dscp req) /\ zlen ids <= zlen (fmr_mpls_qos req) /\
  zlen ids <= zlen (fmr_dotonep req) /\ zlen ids <= zlen (fmr_queue_id req).

Lemma described_some req ids i e :
  fmr_ok req ids -> 0 <= i < zlen ids -> exists e', fc_described req ids i e = Some e' /\ vfc_valid e' = true.
Proof.
  intros (_ & H1 & H2 & H3 & H4) Hi. unfold fc_described.
  destruct (zget_is_Some ids i Hi) as [? ->].
  destruct (zget_is_Some (fmr_dscp req) i) as [? ->]; [lia|]. destruct (zget_is_Some (fmr_mpls_qos req) i) as [? ->]; [lia|].
  destruct (zget_is_Some (fmr_dotonep req) i) as [? ->]; [lia|]. destruct (zget_is_Some (fmr_queue_id req) i) as [? ->]; [lia|].
  cbn. by eexists.
Qed.

Lemma fc_add_loop_inv req ids idx s :
  fmr_ok req ids -> (forall i, i ∈ idx -> 0 <= i < zlen ids) -> qos_inv s -> is_Some (vr_fc_table s) ->
  let s' := (fc_add_loop req ids idx s).2 in
  qos_inv s' /\ (no_leak s -> no_leak s') /\ vr_qos_map s' = vr_qos_map s.
Proof.
  intros Hok. revert s. induction idx as [|i idx IH]; intros s Hin Hi Ht; [done|]. cbn [fc_add_loop].
  unfold vr_fc_map_get_fc. set (j := u32 _). pose proof (u32_range (default 0 (zget ids i))) as Hj. fold j in Hj.
  destruct (Z.leb_spec vr_fc_map_entries j); [done|].
  destruct Ht as [t Ht]. destruct (fc_load_some s t j Hi Ht ltac:(lia)) as [e ->]. cbn.
  destruct (described_some req ids i e Hok (Hin i ltac:(set_solver))) as (e' & -> & _).
  destruct (fc_store_inv j e' s Hi ltac:(eauto) ltac:(lia)) as (Hi' & Hl' & Ht' & Em' & _).
  destruct (IH (fc_store j e' s) ltac:(set_solver) Hi' Ht') as (? & ? & ?). split_and!; [done|auto|congruence].
Qed.
(** ** Set up and tear down *)

Lemma qos_exit_step_inv s m i :
  qos_inv s -> vr_qos_map s = Some m -> 0 <= i < vr_qos_map_entries ->
  let s' := qos_exit_step s i in
  qos_inv s' /\ (no_leak s -> no_leak s') /\ vr_qos_map s' = Some (zset m i None).
Proof.
  intros Hi Hm Hr. pose proof (qi_len _ Hi m Hm) as Hl. unfold qos_exit_step. rewrite Hm. cbn [mbind option_bind].
  destruct (zget_is_Some m i) as [o Ho]; [lia|]. rewrite Ho. destruct o as [p|].
  - set (s1 := set_maps (Some (zset m i None)) s).
    destruct (free_inv s s1 p Hi) as (Hi' & Hl' & Em'); try done.
    { unfold owned. rewrite Hm. by apply unlink_holders. }
    { intros m' [= <-]. by rewrite zlen_zset. }
    assert (E : set_maps ((fun m0 => zset m0 i None) <$> Some m) (free_map p s) = free_map p s1).
    { unfold free_map. change (qos_heap s1) with (qos_heap s). by destruct (qos_heap s !! p). }
    rewrite E. done.
  - split_and!; try done. rewrite Hm. f_equal. symmetry. by apply zset_same.
Qed.

Lemma qos_exit_loop_inv s m (n : nat) :
  qos_inv s -> vr_qos_map s = Some m -> Z.of_nat n <= vr_qos_map_entries ->
  let s' := foldl qos_exit_step s (seqZ 0 (Z.of_nat n)) in
  exists m', qos_inv s' /\ (no_leak s -> no_leak s') /\ vr_qos_map s' = Some m' /\
    forall i, 0 <= i < Z.of_nat n -> zget m' i = Some None.
Proof.
  intros Hi Hm. induction n as [|n IH]; intros Hn.
  { exists m. split_and!; try done. intros i ?. lia. }
  destruct IH as (m1 & Hi1 & Hl1 & Hm1 & Hz1); [lia|].
  replace (Z.of_nat (S n)) with (Z.of_nat n + 1) by lia. rewrite seqZ_snoc by lia. rewrite foldl_app. cbn [foldl].
  rewrite Z.add_0_l. set (s1 := foldl _ s _) in *.
  destruct (qos_exit_step_inv s1 m1 (Z.of_nat n) Hi1 Hm1 ltac:(lia)) as (Hi2 & Hl2 & Hm2).
  exists (zset m1 (Z.of_nat n) None). split_and!; [done|auto|done|].
  intros i Hir. rewrite zget_zset. pose proof (qi_len _ Hi1 m1 Hm1). case_decide as Hc; [done|]. apply Hz1.
  destruct (decide (i = Z.of_nat n)) as [->|]; [exfalso; apply Hc; lia|lia].
Qed.

(** Dropping or emptying the table. *)
Lemma set_maps_inv m s :
  qos_inv s -> omap id (default [] m) = [] -> (forall l, m = Some l -> zlen l = vr_qos_map_entries) ->
  qos_inv (set_maps m s) /\ (omap id (default [] (vr_qos_map s)) = [] -> no_leak s -> no_leak (set_maps m s)).
Proof.
  intros [Hl Hf Hp Hm Hft] H0 Hlen. destruct (pool_clear _ m _ _ _ Hp H0) as [Hp' Ht']. by split.
Qed.

Lemma vr_qos_exit_inv soft s :
  qos_inv s -> qos_inv (vr_qos_exit soft s) /\ (soft = false -> no_leak s -> no_leak (vr_qos_exit soft s)).
Proof.
  intros Hi. destruct soft.
  - set (tbl := Some (replicate (Z.to_nat vr_qos_map_entries) (@None Z))).
    assert (Hmi : qos_inv (match vr_qos_map s with Some _ => set_maps tbl s | None => s end)).
    { destruct (vr_qos_map s); [|done]. apply set_maps_inv; [done|apply empty_slots|by intros ? [= <-]]. }
    unfold vr_qos_exit. fold tbl. set (s1 := match vr_qos_map s with Some _ => _ | None => s end) in *. split; [|done].
    destruct (vr_fc_table s1); [|done]. apply set_fcs_inv; [done|]. by intros ? [= <-].
  - unfold vr_qos_exit. set (s1 := match vr_qos_map s with Some _ => _ | None => s end).
    assert (H1 : qos_inv s1 /\ (no_leak s -> no_leak s1)).
    { unfold s1. destruct (vr_qos_map s) as [m|] eqn:Hm; [|done].
      destruct (qos_exit_loop_inv s m (Z.to_nat vr_qos_map_entries) Hi Hm) as (m' & Hi' & Hl' & Hm' & Hz); [done|].
      rewrite Z2Nat.id in * by done. set (s2 := foldl _ s _) in *.
      assert (Hnil : omap id m' = []) by (apply no_slots; intros i Hx; apply Hz; by rewrite <- (qi_len _ Hi' m' Hm')).
      destruct (set_maps_inv None s2 Hi') as [Hi2 Hl2]; [done|done|]. split; [done|].
      intros Hk. apply Hl2; [by rewrite Hm'|auto]. }
    destruct H1 as [Hi1 Hl1]. destruct (set_fcs_inv None s1 Hi1) as [Hi2 Hl2]; [done|]. auto.
Qed.

Lemma alloc_inv s : qos_inv s -> qos_inv (qos_alloc s).2 /\ (no_leak s -> no_leak (qos_alloc s).2).
Proof. intros [Hl Hf Hp Hm Hft]. by split. Qed.

Lemma vr_qos_init_inv s :
  qos_inv s -> let '(ret, s') := vr_qos_init s in
  qos_inv s' /\ (no_leak s -> no_leak s') /\ (ret = 0 -> is_Some (vr_qos_map s') /\ is_Some (vr_fc_table s')).
Proof.
  intros Hi. unfold vr_qos_init.
  set (tbl := Some (replicate (Z.to_nat vr_qos_map_entries) (@None Z))).
  set (fcs := Some (replicate (Z.to_nat vr_fc_map_entries) fc0)).
  assert (H1 : let '(ret, s1) := match vr_qos_map s with
      | Some _ => (0, s)
      | None => let '(ok, s0) := qos_alloc s in if ok then (0, set_maps tbl s0) else (- ENOMEM, s0) end in
    qos_inv s1 /\ (no_leak s -> no_leak s1) /\ (ret = 0 -> is_Some (vr_qos_map s1))).
  { destruct (vr_qos_map s) eqn:Hm; [split_and!; eauto|].
    destruct (alloc_inv s Hi) as [Hi1 Hl1]. assert (Hm1 : vr_qos_map (qos_alloc s).2 = None) by done.
    destruct (qos_alloc s) as [[] s1]; cbn [snd] in *; [|done].
    destruct (set_maps_inv tbl s1 Hi1) as [Hi2 Hl2]; [apply empty_slots|by intros ? [= <-]|].
    split_and!; [done|intros Hk; apply Hl2; [by rewrite Hm1|auto]|by eexists]. }
  destruct (match vr_qos_map s with Some _ => _ | None => _ end) as [ret s1].
  destruct H1 as (Hi1 & Hl1 & Hs1). destruct (Z.eqb_spec ret 0) as [->|Hne]; cbn [negb]; [|done].
  destruct (vr_fc_table s1) as [t|] eqn:Ht; [split_and!; try done; eauto|].
  destruct (alloc_inv s1 Hi1) as [Hi2 Hl2]. assert (Em : vr_qos_map (qos_alloc s1).2 = vr_qos_map s1) by done.
  destruct (qos_alloc s1) as [[] s2]; cbn [snd] in *; [|split_and!; try done; auto].
  destruct (set_fcs_inv fcs s2 Hi2) as [Hi3 Hl3]; [by intros ? [= <-]|].
  split_and!; [done|auto|]. intros _. split; [change (vr_qos_map (set_fcs fcs s2)) with (vr_qos_map s2); rewrite Em; auto|by eexists].
Qed.
(** ** The life of the maps *)

(** Requests are handled one at a time; the packet path and the deferred calls run in
    between.  [soft]: are soft resets among the steps? *)
Inductive qos_step (soft : bool) : qos -> qos -> Prop :=
  | qos_step_add s req : is_Some (vr_qos_map s) -> qmr_ok req -> qos_step soft s (qos_map_add req s).2
  | qos_step_delete s req : is_Some (vr_qos_map s) -> 0 <= qmr_id req -> qos_step soft s (qos_map_delete req s).2
  | qos_step_deferred s : qos_step soft s (run_deferred s)
  | qos_step_fc_add s req ids : is_Some (vr_fc_table s) -> fmr_ok req ids -> qos_step soft s (fc_map_add req s).2
  | qos_step_fc_delete s req i ids :
      is_Some (vr_fc_table s) -> fmr_id req = Some (i :: ids) -> qos_step soft s (fc_map_delete req s).2
  | qos_step_init s : qos_step soft s (vr_qos_init s).2
  | qos_step_exit s b : (b = true -> soft = true) -> qos_step soft s (vr_qos_exit b s).

Definition qos0 (oracle : list bool) : qos := mk_qos None None ∅ 1 [] oracle false.

Lemma qos0_inv oracle : qos_inv (qos0 oracle) /\ no_leak (qos0 oracle).
Proof.
  split.
  - split; cbn; try done. split; cbn.
    + apply NoDup_nil_2.
    + intros p Hp. by apply not_elem_of_nil in Hp.
    + intros p [a Ha]. by rewrite lookup_empty in Ha.
  - intros p [a Ha]. cbn in Ha. by rewrite lookup_empty in Ha.
Qed.

Lemma fc_map_add_inv req ids s :
  qos_inv s -> is_Some (vr_fc_table s) -> fmr_ok req ids ->
  qos_inv (fc_map_add req s).2 /\ (no_leak s -> no_leak (fc_map_add req s).2).
Proof.
  intros Hi Ht Hok. pose proof Hok as (Hids & _). unfold fc_map_add. rewrite Hids. case_match; [done|].
  destruct (fc_add_loop_inv req ids (seqZ 0 (zlen ids)) s Hok) as (? & ? & _); try done.
  intros i Hx%elem_of_seqZ. lia.
Qed.

Lemma fc_map_delete_inv req i ids s :
  qos_inv s -> is_Some (vr_fc_table s) -> fmr_id req = Some (i :: ids) ->
  qos_inv (fc_map_delete req s).2 /\ (no_leak s -> no_leak (fc_map_delete req s).2).
Proof.
  intros Hi Ht Hids. unfold fc_map_delete. rewrite Hids, zget_cons_0. unfold vr_fc_map_get_fc.
  pose proof (u32_range i). destruct (Z.leb_spec vr_fc_map_entries (u32 i)); [done|].
  destruct (fc_store_inv (u32 i) fc0 s Hi Ht ltac:(lia)) as (? & ? & _). done.
Qed.

Lemma qos_step_inv soft s s' :
  qos_step soft s s' -> qos_inv s -> qos_inv s' /\ (soft = false -> no_leak s -> no_leak s').
Proof.
  intros Hst Hi. destruct Hst as [s req Hm Hok|s req Hm H0|s|s req ids Ht Hok|s req i ids Ht Hids|s|s b Hb].
  - destruct (map_add_outcome req s Hi Hm Hok) as (? & ? & _). auto.
  - destruct (map_delete_outcome req s Hi Hm H0) as (? & ? & _). auto.
  - destruct (qos_deferred_inv s Hi) as (? & ? & _). auto.
  - destruct (fc_map_add_inv req ids s Hi Ht Hok). auto.
  - destruct (fc_map_delete_inv req i ids s Hi Ht Hids). auto.
  - pose proof (vr_qos_init_inv s Hi) as H. destruct (vr_qos_init s) as [ret s']. destruct H as (? & ? & _). auto.
  - destruct (vr_qos_exit_inv b s Hi) as [H1 H2]. split; [done|]. intros ->. apply H2. destruct b; [by specialize (Hb eq_refl)|done].
Qed.

Lemma qos_steps_inv soft s s' :
  rtc (qos_step soft) s s' -> qos_inv s -> qos_inv s' /\ (soft = false -> no_leak s -> no_leak s').
Proof.
  induction 1 as [s|s1 s2 s3 H1 _ IH]; intros Hi; [auto|].
  destruct (qos_step_inv soft _ _ H1 Hi) as [Hi2 Hl2]. destruct (IH Hi2) as [Hi3 Hl3]. auto.
Qed.

(** C26: whatever the requests, the deferred calls and the resets, nothing outside the
    live blocks and the tables was touched, and every map of the table is live and not
    waiting to be freed; without soft resets, every block that is allocated is a map of
    the table or waits to be freed. *)
Theorem qos_maps_safe soft oracle s :
  rtc (qos_step soft) (qos0 oracle) s ->
  qos_fault s = false /\
  (forall i p, 0 <= i -> vr_qos_map_get_fc i s = Some p -> is_Some (qos_heap s !! p) /\ p ∉ qos_deferred s) /\
  (soft = false -> forall p, is_Some (qos_heap s !! p) -> p ∈ owned s).
Proof.
  intros Hr. destruct (qos0_inv oracle) as [H0 L0]. destruct (qos_steps_inv soft _ _ Hr H0) as [Hi Hl].
  split; [apply Hi|]. split; [|intros Hs; exact (Hl Hs L0)].
  intros i p H1 Hp. pose proof (get_fc_owned s i p H1 Hi Hp) as Ho. split; [by apply qi_live|].
  destruct (vr_qos_map s) as [m|] eqn:Hm.
  - pose proof (get_fc_slot s m i Hi Hm H1) as Hz. case_decide; [|congruence]. rewrite Hp in Hz.
    pose proof (qi_pool _ Hi) as Hpl. rewrite Hm in Hpl. by apply (slot_not_deferred m i p _ _ _ Hpl).
  - unfold vr_qos_map_get_fc in Hp. rewrite Hm in Hp. by case_match.
Qed.

(** C27: a request to add a map changes that map, and there only the code points it
    names: each gets the class of its last pair, whatever the map held before.  A request
    with lists of different lengths or an identifier out of range is refused, and one that
    finds no memory changes nothing. *)
Theorem qos_map_add_spec req s :
  qos_inv s -> is_Some (vr_qos_map s) -> qmr_ok req -> map_added req s (qos_map_add req s).
Proof. apply map_add_outcome. Qed.

(** Deleting a map removes all its code points and no others, also when the deferred
    call cannot be allocated. *)
Theorem qos_map_delete_spec req s :
  qos_inv s -> is_Some (vr_qos_map s) -> 0 <= qmr_id req -> map_deleted (qmr_id req) s (qos_map_delete req s).
Proof. apply map_delete_outcome. Qed.

(** ** What a packet gets *)

(** The map that a packet uses, and the entry it looks at there. *)
Definition packet_map (pkt : qos_packet) : Z :=
  if decide (0 <= fmd_flow_index pkt /\ 0 <= flow_qos pkt) then flow_qos pkt else vif_qos_map_index pkt.

Definition packet_entry (pkt : qos_packet) : Z :=
  if vp_is_ip pkt then fmd_dscp pkt else if decide (0 <= fmd_dotonep pkt) then 72 + fmd_dotonep pkt else -1.

(** The ranges of the fields of a packet. *)
Definition qpkt_ok (pkt : qos_packet) : Prop :=
  -1 <= fmd_dscp pkt < 64 /\ -1 <= fmd_dotonep pkt < 8.

(** A packet gets the forwarding class that its map assigns to its code point, the
    first class when the map says nothing, and none when it has no map or no code point or
    the class is not set; the look-up stays inside the map and the table of classes. *)
Theorem qos_packet_class pkt s :
  qos_inv s -> is_Some (vr_fc_table s) -> qpkt_ok pkt ->
  vr_qos_get_forwarding_class pkt s =
    (if decide (0 <= packet_map pkt /\ is_Some (vr_qos_map_get_fc (packet_map pkt) s) /\ 0 <= packet_entry pkt)
     then fc ← fc_load (default 0 (class_of s (packet_map pkt) (packet_entry pkt))) s;
          if vfc_valid fc then Some (vfc_qos fc) else None
     else None, true).
Proof.
  intros Hi [t Ht] [Hd H1]. unfold vr_qos_get_forwarding_class.
  set (id0 := if 0 <=? fmd_flow_index pkt then flow_qos pkt else -1).
  assert (Em : (if id0 <? 0 then vif_qos_map_index pkt else id0) = packet_map pkt).
  { unfold id0, packet_map. destruct (Z.leb_spec 0 (fmd_flow_index pkt)).
    - destruct (Z.ltb_spec (flow_qos pkt) 0); [rewrite decide_False by lia|rewrite decide_True by lia]; done.
    - rewrite decide_False by lia. done. }
  rewrite Em. set (id := packet_map pkt). destruct (Z.ltb_spec id 0) as [Hneg|Hpos].
  { by rewrite decide_False by lia. }
  destruct (vr_qos_map_get_fc id s) as [p|] eqn:Hp; [|by rewrite decide_False by (intros (_ & [? ?] & _); done)].
  set (tos := if vp_is_ip pkt then _ else _).
  assert (Et : tos = packet_entry pkt).
  { unfold tos, packet_entry. destruct (vp_is_ip pkt); [done|].
    destruct (Z.leb_spec 0 (fmd_dotonep pkt)); [rewrite decide_True by done|rewrite decide_False by lia; lia].
    unfold s8, VR_DSCP_QOS_ENTRIES, VR_MPLS_QOS_ENTRIES. rewrite Z.mod_small by lia. lia. }
  rewrite Et. clear tos Et. set (k := packet_entry pkt).
  assert (Hk : -1 <= k < vr_qos_map_entry_size).
  { unfold k, packet_entry, vr_qos_map_entry_size, VR_QOS_MAP_ENTRY_SIZE, VR_DSCP_QOS_ENTRIES, VR_MPLS_QOS_ENTRIES,
      VR_DOTONEP_QOS_ENTRIES. destruct (vp_is_ip pkt); [lia|]. case_decide; lia. }
  destruct (Z.ltb_spec k 0) as [Hkn|Hkp]; [by rewrite decide_False by lia|].
  rewrite decide_True by (split_and!; [done|by eexists|done]).
  destruct (qi_live s p Hi) as [a Ha]; [by apply (get_fc_owned s id)|].
  destruct (qi_maps _ Hi p a Ha) as [Hlen Hent]. destruct (zget_is_Some a k) as [e He]; [lia|].
  destruct (Hent k e He) as ((Hr & Hr') & Hz & _).
  rewrite (class_of_entry s id k p a Hp Ha), Ha. cbn [mbind option_bind]. unfold entry_class. rewrite He.
  cbn [mbind option_bind]. unfold vr_fc_map_get_fc. rewrite (proj2 (Z.leb_gt _ _)) by done. cbn [mbind option_bind].
  assert (Ec : default 0 (if vfc_valid e then Some (vfc_id e) else None) = vfc_id e).
  { destruct (vfc_valid e) eqn:Hv; [done|]. cbn. by rewrite Hz. }
  rewrite Ec. destruct (fc_load_some s t (vfc_id e) Hi Ht ltac:(done)) as [fc ->]. done.
Qed.

(** ** Reading a map back *)

Lemma qos_allocs_same n s : qos_heap (qos_allocs n s).2 = qos_heap s.
Proof.
  revert s. induction n as [|n IH]; intros s; [done|]. cbn. unfold qos_alloc.
  destruct (match qos_oracle s with [] => true | b :: _ => b end); [by rewrite IH|done].
Qed.

Lemma zget_report {A} (f : Z -> A) n i : 0 <= i < n -> zget (f <$> seqZ 0 n) i = Some (f i).
Proof. intros Hi. rewrite zget_fmap, zget_seqZ by done. done. Qed.

(** A get request answers, for every DSCP code point, the class that the map assigns
    to it, with zeros for the ones that it does not. *)
Theorem qos_map_get_dscp req s resp s' :
  qos_inv s -> 0 <= qmr_id req -> qos_map_get req s = (inl resp, s') ->
  forall k, 0 <= k < VR_DSCP_QOS_ENTRIES ->
    zget (qmr_dscp_fc_id resp) k = Some (default 0 (class_of s (qmr_id req) k)) /\
    zget (qmr_dscp resp) k = Some (if decide (is_Some (class_of s (qmr_id req) k)) then k else 0).
Proof.
  intros Hi H0 Hg k Hk. unfold qos_map_get in Hg. case_match; [done|].
  destruct (vr_qos_map_get_fc (qmr_id req) s) as [p|] eqn:Hp; [|done].
  pose proof (qos_allocs_same 7 s) as Hh. unfold vr_qos_map_req_get in Hg.
  destruct (qos_allocs 7 s) as [[] s1]; cbn [negb snd] in *; [|done]. rewrite Hh in Hg.
  destruct (qi_live s p Hi) as [a Ha]; [by apply (get_fc_owned s (qmr_id req))|]. rewrite Ha in Hg.
  injection Hg as <- <-. destruct (qi_maps _ Hi p a Ha) as [Hlen Hent].
  destruct (zget_is_Some a k) as [e He].
  { rewrite Hlen. change vr_qos_map_entry_size with 80. change VR_DSCP_QOS_ENTRIES with 64 in Hk. lia. }
  rewrite (class_of_entry s (qmr_id req) k p a Hp Ha). unfold entry_class. rewrite He. cbn [mbind option_bind].
  unfold vr_qos_map_make_req, report. cbn [qmr_dscp qmr_dscp_fc_id]. rewrite !zget_report by done.
  rewrite Z.add_0_l, He. change (default fc0 (Some e)) with e. destruct (Hent k e He) as (_ & _ & Hv).
  destruct (vfc_valid e).
  2: { rewrite decide_False by (intros [x Hx]; discriminate). split; reflexivity. }
  rewrite decide_True by (by eexists). split; [done|]. f_equal. apply (Hv eq_refl). apply Hk.
Qed.
End QosProofs.
