(* ===== verification/Mirror.v ===== *)
(** * Mirroring (dp-core/vr_mirror.c)

    The table of mirrors: each entry holds a counted reference to the nexthop that the
    copies of packets are sent to.  Packets read the entries while requests change them,
    so that a removed entry is freed by a deferred call.  Flows carry metadata for their
    copies in blocks of their own.  [vr_mirror] copies a packet: what the host does with
    packets (cloning, making room, rewriting the link header) is a parameter. *)

From stdpp Require Import gmap.
From S2P Require Import Prelude NhIface Queue Message Pool.

Module Mirror.
Import Message.

Definition VR_MAX_MIRROR_INDICES : Z := 255.
Definition VR_MIRROR_FLAG_DYNAMIC : Z := 1.

(** ** Data *)

Record vr_mirror_req := mk_mirr {
  mirr_index : Z;
  mirr_rid : Z;
  mirr_nhid : Z;
  mirr_flags : Z;
  mirr_marker : Z;
  mirr_vni : Z
}.

Record vr_mirror_entry := mk_mir { mir_rid : Z; mir_vni : Z; mir_flags : Z; mir_nh : option nhp }.

(** The part of [struct vrouter] this file uses, with the blocks of the entries. *)
Record mirrors := mk_mirrors {
  vr_max_mirror_indices : Z;
  vr_mirrors : option (list (option Z));
  mir_heap : gmap Z vr_mirror_entry;
  mir_next : Z;
  mir_deferred : list Z;
  mir_oracle : list bool;
  mir_not_ready : bool;
  mir_fault : bool
}.

Definition set_slots (mx : Z) (t : option (list (option Z))) (m : mirrors) : mirrors :=
  mk_mirrors mx t (mir_heap m) (mir_next m) (mir_deferred m) (mir_oracle m) (mir_not_ready m) (mir_fault m).
Definition set_entries (h : gmap Z vr_mirror_entry) (m : mirrors) : mirrors :=
  mk_mirrors (vr_max_mirror_indices m) (vr_mirrors m) h (mir_next m) (mir_deferred m) (mir_oracle m)
    (mir_not_ready m) (mir_fault m).
Definition set_waiting (d : list Z) (m : mirrors) : mirrors :=
  mk_mirrors (vr_max_mirror_indices m) (vr_mirrors m) (mir_heap m) (mir_next m) d (mir_oracle m)
    (mir_not_ready m) (mir_fault m).
Definition mir_bad (m : mirrors) : mirrors :=
  mk_mirrors (vr_max_mirror_indices m) (vr_mirrors m) (mir_heap m) (mir_next m) (mir_deferred m) (mir_oracle m)
    (mir_not_ready m) true.

Definition mir_alloc (m : mirrors) : bool * mirrors :=
  (match mir_oracle m with [] => true | b :: _ => b end,
   mk_mirrors (vr_max_mirror_indices m) (vr_mirrors m) (mir_heap m) (mir_next m) (mir_deferred m)
     (tail (mir_oracle m)) (mir_not_ready m) (mir_fault m)).

Definition mir_free (p : Z) (m : mirrors) : mirrors :=
  match mir_heap m !! p with
  | Some _ => set_entries (delete p (mir_heap m)) m
  | None => mir_bad m
  end.

(** The outer [None]: the slot is outside the table. *)
Definition mirror_slot (i : Z) (m : mirrors) : option (option Z) := t ← vr_mirrors m; zget t i.

Definition write_slot (i : Z) (p : option Z) (m : mirrors) : mirrors :=
  match vr_mirrors m with
  | Some t => set_slots (vr_max_mirror_indices m) (Some (zset t i p)) m
  | None => mir_bad m
  end.

Definition vrouter_get_mirror (rid index : Z) (m : mirrors) : option Z :=
  if vr_max_mirror_indices m <=? index then None else default None (mirror_slot index m).

(** ** The table *)

Definition vr_mirror_defer_delete (p : Z) (m : mirrors) : mirrors := mir_free p m.

(** The host runs the oldest deferred call. *)
Definition run_deferred (m : mirrors) : mirrors :=
  match mir_deferred m with
  | [] => m
  | p :: d => vr_mirror_defer_delete p (set_waiting d m)
  end.

(** The end of [__vr_mirror_del]: the entry goes after a grace period, or at once. *)
Definition mirror_release (p : Z) (m : mirrors) : mirrors :=
  if mir_not_ready m then mir_free p m
  else
    let '(ok, m1) := mir_alloc m in
    if ok then set_waiting (mir_deferred m1 ++ [p]) m1 else mir_free p m1.

Section table.
Context {NS : Type} `{NhOps NS} `{Sandesh vr_mirror_req}.

Definition __vr_mirror_del (index : Z) (m : mirrors) (s : NS) : Z * mirrors * NS :=
  if vr_max_mirror_indices m <=? index then (- EINVAL, m, s)
  else
    match mirror_slot index m with
    | None => (0, mir_bad m, s)
    | Some None => (- EINVAL, m, s)
    | Some (Some p) =>
        match mir_heap m !! p with
        | None => (0, mir_bad m, s)
        | Some e =>
            let m1 := write_slot index None m in
            let m2 := set_entries (<[p := mk_mir (mir_rid e) (mir_vni e) (mir_flags e) None]> (mir_heap m1)) m1 in
            (0, mirror_release p m2, nh_put (mir_nh e) s)
        end
    end.

(** The code of the answer and the new state; the handlers send the answer. *)
Definition mirror_del (req : vr_mirror_req) (m : mirrors) (s : NS) : Z * mirrors * NS :=
  __vr_mirror_del (u32 (mirr_index req)) m s.

Definition mirror_entry_of (req : vr_mirror_req) (nh : nhp) : vr_mirror_entry :=
  mk_mir (u32 (mirr_rid req)) (mirr_vni req) (u32 (mirr_flags req)) (Some nh).

Definition mirror_add (req : vr_mirror_req) (m : mirrors) (s : NS) : Z * mirrors * NS :=
  let i := u32 (mirr_index req) in
  if vr_max_mirror_indices m <=? i then (- EINVAL, m, s)
  else
    match nh_get (mirr_rid req) (mirr_nhid req) s with
    | (None, s1) => (- EINVAL, m, s1)
    | (Some nh, s1) =>
        match mirror_slot i m with
        | None => (0, mir_bad m, s1)
        | Some None =>
            let '(ok, m1) := mir_alloc m in
            if negb ok then (- ENOMEM, m1, nh_put (Some nh) s1)
            else
              let p := mir_next m1 in
              let m2 := mk_mirrors (vr_max_mirror_indices m1) (vr_mirrors m1)
                          (<[p := mirror_entry_of req nh]> (mir_heap m1)) (p + 1) (mir_deferred m1)
                          (mir_oracle m1) (mir_not_ready m1) (mir_fault m1) in
              (0, write_slot i (Some p) m2, s1)
        | Some (Some p) =>
            match mir_heap m !! p with
            | None => (0, mir_bad m, s1)
            | Some old =>
                let m1 := set_entries (<[p := mirror_entry_of req nh]> (mir_heap m)) m in
                (0, write_slot i (Some p) m1, drop_nh s1 (mir_nh old))
            end
        end
    end.

Definition respond (ret : Z) (h : vr_message_handler) : vr_message_handler :=
  match vr_send_response (Obj := vr_mirror_req) 2 ret h with Some (_, h') => h' | None => h end.

Definition vr_mirror_del (req : vr_mirror_req) (m : mirrors) (s : NS) (h : vr_message_handler)
    : Z * mirrors * NS * vr_message_handler :=
  let '(ret, m1, s1) := mirror_del req m s in (ret, m1, s1, respond ret h).

Definition vr_mirror_add (req : vr_mirror_req) (m : mirrors) (s : NS) (h : vr_message_handler)
    : Z * mirrors * NS * vr_message_handler :=
  let '(ret, m1, s1) := mirror_add req m s in (ret, m1, s1, respond ret h).

Definition vr_mirror_make_req (req : vr_mirror_req) (e : vr_mirror_entry) (index : Z) (s : NS) : vr_mirror_req :=
  mk_mirr (s16 (u16 index)) (s16 (mir_rid e)) (match mir_nh e with Some nh => nh_id_of s nh | None => mirr_nhid req end)
    (s32 (mir_flags e)) (mirr_marker req) (mir_vni e).

(** The object that answers a get request, or the error. *)
Definition mirror_get (req : vr_mirror_req) (m : mirrors) (s : NS) : vr_mirror_req + Z :=
  let i := u32 (mirr_index req) in
  if vr_max_mirror_indices m <=? i then inr (- ENODEV)
  else match p ← default None (mirror_slot i m); mir_heap m !! p with
       | None => inr (- ENOENT)
       | Some e => inl (vr_mirror_make_req req e (u16 (mirr_index req)) s)
       end.

Definition vr_mirror_get (req : vr_mirror_req) (m : mirrors) (s : NS) (h : vr_message_handler) : vr_message_handler :=
  let send obj ret := match vr_message_response 2 VR_MIRROR_OBJECT_ID obj ret h with Some (_, h') => h' | None => h end in
  match mirror_get req m s with
  | inl resp => send (Some resp) 0
  | inr ret => send None ret
  end.

(** The loop fills one request over and over: what an entry does not set is left over
    from the entry before. *)
Fixpoint mirror_dump_loop (idx : list Z) (m : mirrors) (s : NS) (h : vr_message_handler) (req : vr_mirror_req)
    (ret : Z) (d : vr_message_dumper vr_mirror_req) : Z * vr_message_dumper vr_mirror_req :=
  match idx with
  | [] => (ret, d)
  | i :: idx' =>
      match p ← default None (mirror_slot i m); mir_heap m !! p with
      | None => mirror_dump_loop idx' m s h req ret d
      | Some e =>
          let req1 := vr_mirror_make_req req e i s in
          let '(ret1, d1) := vr_message_dump_object h d VR_MIRROR_OBJECT_ID req1 in
          if ret1 <=? 0 then (ret1, d1) else mirror_dump_loop idx' m s h req1 ret1 d1
      end
  end.

(** [req0]: what the local variable of the caller holds before the loop. *)
Definition vr_mirror_dump (req0 r : vr_mirror_req) (m : mirrors) (s : NS) (h : vr_message_handler)
    : option (Z * vr_message_handler) :=
  let finish d ret h := (fun h' => (0, h')) <$> vr_message_dump_exit 2 d ret h in
  let first := u32 (mirr_marker r + 1) in
  if vr_max_mirror_indices m <=? first then finish (None : option (vr_message_dumper vr_mirror_req)) 0 h
  else
    match vr_message_dump_init r h with
    | (None, h1) => finish None (- ENOMEM) h1
    | (Some d, h1) =>
        let '(ret, d1) := mirror_dump_loop (seqZ first (vr_max_mirror_indices m - first)) m s h1 req0 0 d in
        finish (Some d1) ret h1
    end.

(** [local]: what the stack holds where a dump keeps its request; [None]: a message
    that cannot be built. *)
Definition vr_mirror_req_process (op : sandesh_op) (local req : vr_mirror_req) (m : mirrors) (s : NS)
    (h : vr_message_handler) : option (mirrors * NS * vr_message_handler) :=
  match op with
  | SANDESH_OP_ADD => let '(_, m1, s1, h1) := vr_mirror_add req m s h in Some (m1, s1, h1)
  | SANDESH_OP_GET => Some (m, s, vr_mirror_get req m s h)
  | SANDESH_OP_DUMP => (fun r => (m, s, r.2)) <$> vr_mirror_dump local req m s h
  | SANDESH_OP_DEL => let '(_, m1, s1, h1) := vr_mirror_del req m s h in Some (m1, s1, h1)
  | _ => Some (m, s, h)
  end.

Definition mirror_exit_step (ms : mirrors * NS) (i : Z) : mirrors * NS :=
  match mirror_slot i ms.1 with
  | Some (Some _) => let '(_, m1, s1) := __vr_mirror_del i ms.1 ms.2 in (m1, s1)
  | Some None => ms
  | None => (mir_bad ms.1, ms.2)
  end.

Definition vr_mirror_exit (soft_reset : bool) (m : mirrors) (s : NS) : mirrors * NS :=
  let '(m1, s1) :=
    match vr_mirrors m with
    | Some _ => foldl mirror_exit_step (m, s) (seqZ 0 (vr_max_mirror_indices m))
    | None => (m, s)
    end in
  (if soft_reset then m1 else set_slots 0 None m1, s1).

End table.

Definition vr_mirror_init (m : mirrors) : Z * mirrors :=
  match vr_mirrors m with
  | Some _ => (0, m)
  | None =>
      let '(ok, m1) := mir_alloc m in
      if ok then (0, set_slots VR_MAX_MIRROR_INDICES (Some (replicate (Z.to_nat VR_MAX_MIRROR_INDICES) None)) m1)
      else (- ENOMEM, set_slots VR_MAX_MIRROR_INDICES None m1)
  end.

(** ** Metadata of flows *)

(** An entry is a block that points to a block with the bytes. *)
Record vr_mirror_meta_entry := mk_mme {
  mme_block : Z;
  mirror_md : Z;
  mirror_md_bytes : list Z;
  mirror_md_len : Z;
  mirror_sip : Z;
  mirror_sport : Z;
  mirror_vrf : Z
}.

(** The bytes of the structure itself do not matter here; its size is [mme_size]. *)
Definition mme_size : Z := 40.

Record metas := mk_metas { mm_mem : mem; mm_deferred : list vr_mirror_meta_entry; mm_not_ready : bool }.

Definition set_mem (mm : mem) (k : metas) : metas := mk_metas mm (mm_deferred k) (mm_not_ready k).

Definition vr_mirror_meta_entry_set (sip sport : Z) (data : list Z) (vrf : Z) (k : metas)
    : option vr_mirror_meta_entry * metas :=
  let '(me, m1) := m_alloc mme_size (mm_mem k) in
  match me with
  | None => (None, set_mem m1 k)
  | Some b =>
      let '(buf, m2) := m_alloc (zlen data) m1 in
      match buf with
      | None => (None, set_mem (m_free b m2) k)
      | Some c => (Some (mk_mme b c data (zlen data) sip (u16 sport) (u16 vrf)), set_mem m2 k)
      end
  end.

Definition vr_mirror_meta_destroy (me : vr_mirror_meta_entry) (k : metas) : metas :=
  set_mem (m_free (mme_block me) (m_free (mirror_md me) (mm_mem k))) k.

Definition vr_mirror_meta_destructor (me : vr_mirror_meta_entry) (k : metas) : metas := vr_mirror_meta_destroy me k.

(** Does the host grant the block of the deferred call?  The host frees that block itself. *)
Definition defer_granted (k : metas) : bool * metas :=
  (match m_oracle (mm_mem k) with [] => true | b :: _ => b end,
   set_mem (mk_mem (m_next (mm_mem k)) (m_live (mm_mem k)) (tail (m_oracle (mm_mem k)))) k).

Definition vr_mirror_meta_entry_destroy (me : vr_mirror_meta_entry) (k : metas) : metas :=
  if mm_not_ready k then vr_mirror_meta_destroy me k
  else
    let '(ok, k1) := defer_granted k in
    if ok then mk_metas (mm_mem k1) (mm_deferred k1 ++ [me]) (mm_not_ready k1) else vr_mirror_meta_destroy me k1.

Definition vr_mirror_meta_entry_del (me : option vr_mirror_meta_entry) (k : metas) : metas :=
  match me with Some me => vr_mirror_meta_entry_destroy me k | None => k end.

Definition run_meta_deferred (k : metas) : metas :=
  match mm_deferred k with
  | [] => k
  | me :: d => vr_mirror_meta_destructor me (mk_metas (mm_mem k) d (mm_not_ready k))
  end.

(** ** Copying a packet *)

Inductive mirror_type_t :=
  | MIRROR_TYPE_UNKNOWN | MIRROR_TYPE_PORT_RX | MIRROR_TYPE_PORT_TX | MIRROR_TYPE_ACL | MIRROR_TYPE_MAX.

Definition VP_FLAG_FROM_DP : Z := 1.
Definition VP_FLAG_FLOW_SET : Z := 8.
Definition VP_FLAG_GRO : Z := 64.
Definition VP_FLAG_GSO : Z := 128.
Definition VP_DROP_INVALID_IF : Z := 2.
Definition VP_DROP_PUSH : Z := 19.
Definition VP_DROP_INVALID_NH : Z := 21.
Definition VP_DROP_PCOW_FAIL : Z := 28.
Definition VP_DROP_REWRITE_FAIL : Z := 32.
Definition VIF_TYPE_PHYSICAL : Z := 2.
Definition NH_FLAG_VALID : Z := 1.

(** UDP, IPv6, MPLS, UDP, IPv4 and Ethernet headers; VXLAN, IPv4 and UDP headers. *)
Definition VR_MIRROR_PKT_HEAD_SPACE : Z := 8 + 40 + 4 + 8 + 20 + 14.
Definition VR_VXLAN_HDR_LEN : Z := 8 + 20 + 8.

Record mirror_vif := mk_mvif { vif_type : Z; vif_mirror_md : list Z }.

Record mirror_nh := mk_mnh {
  mn_flags : Z;
  mn_type : Z;
  mn_family : Z;
  mn_vrf : Z;
  mn_encap : list Z;
  mn_dev : option mirror_vif
}.

(** A packet: [vp_data] is the room before its first byte. *)
Record mirror_pkt := mk_mpkt {
  vp_flags : Z;
  vp_if : option mirror_vif;
  vp_nh : option mirror_nh;
  vp_data : Z;
  vp_bytes : list Z
}.

(** The fields of the forwarding metadata that are written here. *)
Record mirror_fmd := mk_mfmd { fmd_flow_index : Z; fmd_label : Z; fmd_ecmp_nh_index : Z; fmd_dvrf : Z }.

Definition vr_init_forwarding_md : mirror_fmd := mk_mfmd (-1) (-1) (-1) (-1).

(** The packet is not copied, the copy is dropped or sent; [M_bad] is an access outside
    the table or through a null pointer. *)
Inductive mirrored :=
  | M_none
  | M_dropped (pkt : mirror_pkt) (reason : Z)
  | M_sent (pkt : mirror_pkt) (nh : mirror_nh) (fmd : mirror_fmd)
  | M_bad.

Definition with_flags (f : Z) (p : mirror_pkt) : mirror_pkt := mk_mpkt f (vp_if p) (vp_nh p) (vp_data p) (vp_bytes p).

Definition pkt_push (bytes : list Z) (p : mirror_pkt) : option mirror_pkt :=
  if vp_data p <? zlen bytes then None
  else Some (mk_mpkt (vp_flags p) (vp_if p) (vp_nh p) (vp_data p - zlen bytes) (bytes ++ vp_bytes p)).

Section copy.
(** The host clones a packet, makes room in a clone, moves a packet back to its first
    byte and writes a link header; [flow_md] is the metadata of a flow, [nh_at] what a
    packet reads of a nexthop. *)
Context (vr_pclone : mirror_pkt -> option mirror_pkt) (vr_pcow : mirror_pkt -> Z -> option mirror_pkt)
  (vr_preset : mirror_pkt -> mirror_pkt)
  (vif_set_rewrite : mirror_vif -> mirror_pkt -> mirror_fmd -> list Z -> option mirror_pkt)
  (flow_md : Z -> option (list Z)) (nh_at : nhp -> mirror_nh).

(** The metadata that goes in front of a copy for a dynamic mirror, or why there is none. *)
Definition dynamic_md (mtype : mirror_type_t) (fmd : mirror_fmd) (pkt : mirror_pkt) : list Z + Z :=
  let md :=
    match mtype with
    | MIRROR_TYPE_ACL =>
        inl (if 0 <=? fmd_flow_index fmd then default [] (flow_md (fmd_flow_index fmd)) else [])
    | MIRROR_TYPE_PORT_RX =>
        match vp_if pkt with
        | None => inr VP_DROP_INVALID_IF
        | Some vif => inl (vif_mirror_md vif)
        end
    | _ =>
        match vp_nh pkt ≫= mn_dev with
        | None => inr VP_DROP_INVALID_NH
        | Some vif => inl (vif_mirror_md vif)
        end
    end in
  match md with
  | inl [] => inl [255; 0]
  | _ => md
  end.

(** Does the copy still need its link header: an access list on a physical interface? *)
Definition needs_rewrite (mtype : mirror_type_t) (pkt : mirror_pkt) : option mirror_nh :=
  match mtype, vp_nh pkt with
  | MIRROR_TYPE_ACL, Some nh =>
      if negb (Z.land (mn_flags nh) NH_FLAG_VALID =? 0) && (mn_type nh =? NH_ENCAP) && (mn_family nh =? AF_INET)
      then Some nh else None
  | _, _ => None
  end.

(** From the choice of the room on: the second clone length is what is still to be made. *)
Definition mirror_room (mtype : mirror_type_t) (clone_len : Z) (fmd : mirror_fmd) (pkt : mirror_pkt)
    : (Z * bool * mirror_pkt) + mirrored :=
  match vp_if pkt with
  | Some vif =>
      if vif_type vif =? VIF_TYPE_PHYSICAL then
        match needs_rewrite mtype pkt with
        | None => inl (clone_len, false, pkt)
        | Some nh =>
            match vr_pcow pkt (clone_len + zlen (mn_encap nh)) with
            | None => inr (M_dropped pkt VP_DROP_PCOW_FAIL)
            | Some pkt1 =>
                match mn_dev nh with
                | None => inr M_bad
                | Some dev =>
                    match vif_set_rewrite dev pkt1 fmd (mn_encap nh) with
                    | None => inr (M_dropped pkt1 VP_DROP_REWRITE_FAIL)
                    | Some pkt2 => inl (0, false, pkt2)
                    end
                end
            end
        end
      else inl (clone_len, true, pkt)
  | None => inl (clone_len, true, pkt)
  end.

Definition mirror_send (clone_len : Z) (reset : bool) (md : list Z) (nh : mirror_nh) (fmd : mirror_fmd)
    (pkt : mirror_pkt) : mirrored :=
  let pkt1 := if reset then vr_preset pkt else pkt in
  match if clone_len =? 0 then Some pkt1 else vr_pcow pkt1 clone_len with
  | None => M_dropped pkt1 VP_DROP_PCOW_FAIL
  | Some pkt2 =>
      match if zlen md =? 0 then Some pkt2 else pkt_push md pkt2 with
      | None => M_dropped pkt2 VP_DROP_PUSH
      | Some pkt3 =>
          M_sent pkt3 nh (mk_mfmd (-1) (fmd_label fmd) (fmd_ecmp_nh_index fmd)
            (if 0 <=? mn_vrf nh then mn_vrf nh else fmd_dvrf fmd))
      end
  end.

(** What happens to the clone: it is marked, so that it is not mirrored in turn. *)
Definition mirror_copy (flags vni : Z) (nh : mirror_nh) (mtype : mirror_type_t) (fmd : mirror_fmd) (c : mirror_pkt)
    : mirrored :=
  let c1 := with_flags (Z.ldiff (Z.lor (vp_flags c)
              (Z.lor VP_FLAG_FROM_DP (Z.lor VP_FLAG_FLOW_SET VP_FLAG_GSO))) VP_FLAG_GRO) c in
  let plan :=
    if negb (Z.land flags VR_MIRROR_FLAG_DYNAMIC =? 0) then
      match dynamic_md mtype fmd c1 with
      | inl md => inl (md, zlen md + VR_MIRROR_PKT_HEAD_SPACE, fmd)
      | inr reason => inr reason
      end
    else inl ([], VR_VXLAN_HDR_LEN, mk_mfmd (fmd_flow_index fmd) vni (fmd_ecmp_nh_index fmd) (fmd_dvrf fmd)) in
  match plan with
  | inr reason => M_dropped c1 reason
  | inl (md, clone_len, fmd1) =>
      match mirror_room mtype clone_len fmd1 c1 with
      | inr out => out
      | inl (len, reset, c2) => mirror_send len reset md nh fmd1 c2
      end
  end.

(** [mirror_id] indexes the table without a check. *)
Definition vr_mirror (m : mirrors) (mirror_id : Z) (mtype : mirror_type_t) (fmd : option mirror_fmd) (pkt : mirror_pkt)
    : mirrored :=
  if negb (Z.land (vp_flags pkt) VP_FLAG_FROM_DP =? 0) then M_none
  else
    match mtype with
    | MIRROR_TYPE_UNKNOWN | MIRROR_TYPE_MAX => M_none
    | _ =>
        match mirror_slot mirror_id m with
        | None => M_bad
        | Some None => M_none
        | Some (Some p) =>
            match mir_heap m !! p with
            | None => M_bad
            | Some mirror =>
                let fmd1 := match fmd with
                            | Some f => mk_mfmd (fmd_flow_index f) (fmd_label f) (-1) (fmd_dvrf f)
                            | None => vr_init_forwarding_md
                            end in
                match nh_at <$> mir_nh mirror with
                | None => M_none
                | Some nh =>
                    if Z.land (mn_flags nh) NH_FLAG_VALID =? 0 then M_none
                    else match vr_pclone pkt with
                         | None => M_none
                         | Some c => mirror_copy (mir_flags mirror) (mir_vni mirror) nh mtype fmd1 c
                         end
                end
            end
        end
    end.

End copy.

End Mirror.
