(* ===== verification/MirrorProofs.v ===== *)
(** * Mirroring: properties

    [mirror_view] is the contract of the table: which nexthop each index mirrors to. *)

From stdpp Require Import gmap.
From S2P Require Import Prelude NhIface Queue Message Pool Mirror.

Module MirrorProofs.
Import Message Mirror.

(** The nexthop that a slot leads to. *)
Definition entry_nh (h : gmap Z vr_mirror_entry) (o : option Z) : option nhp := p ← o; e ← h !! p; mir_nh e.

Definition mirror_view (m : mirrors) : list (option nhp) := entry_nh (mir_heap m) <$> default [] (vr_mirrors m).

(** The references that the table holds. *)
Definition mirror_refs (m : mirrors) : list nhp := omap id (mirror_view m).

Record mirror_inv (m : mirrors) : Prop := {
  mi_len : match vr_mirrors m with Some t => zlen t = vr_max_mirror_indices m | None => vr_max_mirror_indices m = 0 end;
  mi_pool : pool_ok (vr_mirrors m) (mir_heap m) (mir_deferred m) (mir_next m);
  mi_nh : forall t i p e, vr_mirrors m = Some t -> zget t i = Some (Some p) -> mir_heap m !! p = Some e -> is_Some (mir_nh e);
  mi_fault : mir_fault m = false
}.

Definition mirror_tight (m : mirrors) : Prop := pool_tight (vr_mirrors m) (mir_heap m) (mir_deferred m).

Lemma zlen_fmap {A B} (f : A -> B) (l : list A) : zlen (f <$> l) = zlen l.
Proof. unfold zlen. by rewrite length_fmap. Qed.

Lemma view_zset h h' (t : list (option Z)) i o :
  (forall j p, j <> i -> zget t j = Some (Some p) -> h' !! p = h !! p) ->
  entry_nh h' <$> zset t i o = zset (entry_nh h <$> t) i (entry_nh h' o).
Proof.
  intros Hh. apply zget_ext; [by rewrite zlen_fmap, !zlen_zset, zlen_fmap|].
  intros j _. rewrite zget_fmap, !zget_zset, zget_fmap, zlen_fmap.
  case_decide as Hc; [done|]. destruct (zget t j) as [[p|]|] eqn:Hj; try done. cbn.
  destruct (decide (j = i)) as [->|Hne].
  - exfalso. apply Hc. split; [done|]. by apply zget_range in Hj.
  - by rewrite (Hh j p Hne Hj).
Qed.

(** One slot changes, and with it the block it leads to. *)
Lemma inv_change m m' t i o :
  mirror_inv m -> vr_mirrors m = Some t -> vr_mirrors m' = Some (zset t i o) ->
  vr_max_mirror_indices m' = vr_max_mirror_indices m -> mir_fault m' = false ->
  pool_ok (vr_mirrors m') (mir_heap m') (mir_deferred m') (mir_next m') ->
  (forall j p, j <> i -> zget t j = Some (Some p) -> mir_heap m' !! p = mir_heap m !! p) ->
  (forall p e, o = Some p -> mir_heap m' !! p = Some e -> is_Some (mir_nh e)) ->
  mirror_inv m' /\ mirror_view m' = zset (mirror_view m) i (entry_nh (mir_heap m') o).
Proof.
  intros [Hl Hp Hn Hf] Ht Ht' Hmx Hf' Hp' Hh Ho. split.
  - split; [|done| |done].
    + rewrite Ht in Hl. rewrite Ht', zlen_zset. congruence.
    + intros t' j p e E Hj He. rewrite Ht' in E. injection E as <-. rewrite zget_zset in Hj.
      case_decide as Hc; [injection Hj as ->; eauto|].
      assert (Hne : j <> i).
      { intros ->. apply Hc. split; [done|]. by apply zget_range in Hj. }
      apply (Hn t j p); [done|done|]. by rewrite <- (Hh j p).
  - unfold mirror_view. rewrite Ht, Ht'. by apply view_zset.
Qed.

Lemma slot_of m t i : vr_mirrors m = Some t -> mirror_slot i m = zget t i.
Proof. intros Ht. unfold mirror_slot. by rewrite Ht. Qed.

Lemma table_some m i : mirror_inv m -> 0 <= i < vr_max_mirror_indices m ->
  exists t o, vr_mirrors m = Some t /\ zget t i = Some o /\ zget (mirror_view m) i = Some (entry_nh (mir_heap m) o).
Proof.
  intros Hi Hr. pose proof (mi_len _ Hi) as Hl. destruct (vr_mirrors m) as [t|] eqn:Ht; [|lia].
  destruct (zget_is_Some t i) as [o Ho]; [lia|]. exists t, o. split_and!; try done.
  unfold mirror_view. rewrite Ht. cbn. by rewrite zget_fmap, Ho.
Qed.

(** The entry of a full slot. *)
Lemma slot_entry m t i p :
  mirror_inv m -> vr_mirrors m = Some t -> zget t i = Some (Some p) ->
  exists e nh, mir_heap m !! p = Some e /\ mir_nh e = Some nh.
Proof.
  intros Hi Ht Hz. pose proof (mi_pool _ Hi) as Hp. rewrite Ht in Hp.
  destruct (pl_live _ _ _ _ Hp p) as [e He]; [by apply (slot_held t i)|].
  destruct (mi_nh _ Hi t i p e Ht Hz He) as [nh Hnh]. eauto.
Qed.

(** ** Removing an entry *)

Lemma del_slot m t i p e :
  mirror_inv m -> vr_mirrors m = Some t -> zget t i = Some (Some p) -> mir_heap m !! p = Some e ->
  let e0 := mk_mir (mir_rid e) (mir_vni e) (mir_flags e) None in
  let m1 := write_slot i None m in
  let m' := mirror_release p (set_entries (<[p := e0]> (mir_heap m1)) m1) in
  mirror_inv m' /\ mirror_view m' = zset (mirror_view m) i None /\ (mirror_tight m -> mirror_tight m') /\
  vr_max_mirror_indices m' = vr_max_mirror_indices m.
Proof.
  intros Hi Ht Hz He e0 m1 m'. pose proof (mi_pool _ Hi) as Hp. rewrite Ht in Hp.
  destruct (pool_write _ _ _ _ p e0 Hp ltac:(eauto)) as [Hp1 Tt1].
  assert (Hother : forall h' : gmap Z vr_mirror_entry, (forall q, q <> p -> h' !! q = mir_heap m !! q) ->
    forall j q, j <> i -> zget t j = Some (Some q) -> h' !! q = mir_heap m !! q).
  { intros h' Hh j q Hne Hj. apply Hh. intros ->. apply Hne. by apply (slot_unique t j i p _ _ _ Hp). }
  assert (Hfree : forall o b, let mm := mk_mirrors (vr_max_mirror_indices m) (Some (zset t i None)) (<[p := e0]> (mir_heap m))
      (mir_next m) (mir_deferred m) o b (mir_fault m) in
    let m2 := mir_free p mm in mirror_inv m2 /\ mirror_view m2 = zset (mirror_view m) i None /\
      (mirror_tight m -> mirror_tight m2) /\ vr_max_mirror_indices m2 = vr_max_mirror_indices m).
  { intros o b mm m2. destruct (pool_free (Some t) (Some (zset t i None)) _ _ _ _ p Hp1 (unlink_holders t i p _ Hz))
      as (_ & Hp2 & Tt2).
    assert (E : m2 = set_entries (delete p (<[p := e0]> (mir_heap m))) mm).
    { unfold m2, mir_free. cbn [mir_heap mm]. by rewrite lookup_insert_eq. }
    destruct (inv_change m m2 t i None Hi Ht) as [Hi2 Hv2]; rewrite E; try done; [by apply Hi| |].
    { cbn. apply Hother. intros q Hq. by rewrite lookup_delete_ne, lookup_insert_ne. }
    rewrite E in *. split_and!; try done. unfold mirror_tight. rewrite Ht. cbn. auto. }
  unfold m', m1, write_slot. rewrite Ht. unfold mirror_release. cbn [mir_not_ready set_entries set_slots].
  destruct (mir_not_ready m) eqn:Hnr; [apply (Hfree (mir_oracle m) (mir_not_ready m))|].
  unfold mir_alloc. cbn [mir_oracle set_entries set_slots].
  destruct (match mir_oracle m with [] => true | b :: _ => b end); [|apply (Hfree (tail (mir_oracle m)) (mir_not_ready m))].
  destruct (pool_defer t _ _ _ i p Hp1 Hz) as [Hp2 Tt2].
  set (m2 := set_waiting _ _).
  destruct (inv_change m m2 t i None Hi Ht) as [Hi2 Hv2]; try done; [by apply Hi| |].
  { cbn. apply Hother. intros q Hq. by rewrite lookup_insert_ne. }
  split_and!; try done. unfold mirror_tight. rewrite Ht. cbn. auto.
Qed.

Section del.
Context {NS : Type} `{NhOps NS}.

Lemma __mirror_del_spec i m (s : NS) :
  mirror_inv m -> 0 <= i ->
  let '(ret, m', s') := __vr_mirror_del i m s in
  mirror_inv m' /\ (mirror_tight m -> mirror_tight m') /\ vr_max_mirror_indices m' = vr_max_mirror_indices m /\
  match default None (zget (mirror_view m) i) with
  | Some nh => ret = 0 /\ mirror_view m' = zset (mirror_view m) i None /\ s' = nh_put (Some nh) s
  | None => ret = - EINVAL /\ m' = m /\ s' = s
  end.
Proof.
  intros Hi H0. unfold __vr_mirror_del. destruct (Z.leb_spec (vr_max_mirror_indices m) i) as [Hge|Hlt].
  { split_and!; try done. destruct (zget (mirror_view m) i) as [o|] eqn:Hz; [|done].
    apply zget_range in Hz. unfold mirror_view, zlen in Hz. rewrite length_fmap in Hz.
    pose proof (mi_len _ Hi) as Hl. destruct (vr_mirrors m) as [t|]; cbn in Hz; unfold zlen in *; lia. }
  destruct (table_some m i Hi ltac:(lia)) as (t & o & Ht & Ho & Hv). rewrite (slot_of m t i Ht), Ho, Hv. cbn [default].
  destruct o as [p|]; [|done].
  destruct (slot_entry m t i p Hi Ht Ho) as (e & nh & He & Hnh). cbn. rewrite He. cbn. rewrite Hnh.
  destruct (del_slot m t i p e Hi Ht Ho He) as (D1 & D2 & D3 & D4). split_and!; try done.
Qed.

End del.

(** ** Adding and changing an entry *)

(** The block that a full slot leads to is written. *)
Lemma change_slot m t i p e :
  mirror_inv m -> vr_mirrors m = Some t -> zget t i = Some (Some p) -> is_Some (mir_nh e) ->
  let m' := write_slot i (Some p) (set_entries (<[p := e]> (mir_heap m)) m) in
  mirror_inv m' /\ mirror_view m' = zset (mirror_view m) i (mir_nh e) /\ (mirror_tight m -> mirror_tight m') /\
  vr_max_mirror_indices m' = vr_max_mirror_indices m /\ vr_mirrors m' = Some (zset t i (Some p)) /\ mir_heap m' !! p = Some e.
Proof.
  intros Hi Ht Hz He m'. pose proof (mi_pool _ Hi) as Hp. rewrite Ht in Hp.
  destruct (slot_entry m t i p Hi Ht Hz) as (e1 & _ & He1 & _).
  destruct (pool_write _ _ _ _ p e Hp ltac:(eauto)) as [Hp1 Tt1].
  assert (E : m' = set_slots (vr_max_mirror_indices m) (Some (zset t i (Some p))) (set_entries (<[p := e]> (mir_heap m)) m)).
  { unfold m', write_slot. cbn [vr_mirrors set_entries]. by rewrite Ht. }
  destruct (inv_change m m' t i (Some p) Hi Ht) as [Hi' Hv']; rewrite E; try done.
  - by apply Hi.
  - cbn. by rewrite zset_same.
  - cbn. intros j q Hne Hj. rewrite lookup_insert_ne; [done|]. intros <-. apply Hne. by apply (slot_unique t j i p _ _ _ Hp).
  - cbn. intros q e2 [= <-]. rewrite lookup_insert_eq. by intros [= <-].
  - rewrite E in *. cbn in Hv'. rewrite lookup_insert_eq in Hv'. split_and!; try done.
    + unfold mirror_tight. rewrite Ht. cbn. rewrite zset_same by done. auto.
    + cbn. apply lookup_insert_eq.
Qed.

Lemma enter_slot m t i e o :
  mirror_inv m -> vr_mirrors m = Some t -> zget t i = Some None -> is_Some (mir_nh e) ->
  let p := mir_next m in
  let m' := mk_mirrors (vr_max_mirror_indices m) (Some (zset t i (Some p))) (<[p := e]> (mir_heap m)) (p + 1)
              (mir_deferred m) o (mir_not_ready m) (mir_fault m) in
  mirror_inv m' /\ mirror_view m' = zset (mirror_view m) i (mir_nh e) /\ (mirror_tight m -> mirror_tight m').
Proof.
  intros Hi Ht Hz He p m'. pose proof (mi_pool _ Hi) as Hp. rewrite Ht in Hp.
  destruct (pool_enter t _ _ _ i e Hp Hz) as (Hfr & Hp1 & Tt1).
  destruct (inv_change m m' t i (Some p) Hi Ht) as [Hi' Hv']; try done.
  - by apply Hi.
  - cbn. intros j q Hne Hj. rewrite lookup_insert_ne; [done|]. intros <-.
    destruct (pl_live _ _ _ _ Hp p) as [? Hx]; [by apply (slot_held t j)|]. unfold p in Hx. congruence.
  - cbn. intros q e2 [= <-]. rewrite lookup_insert_eq. by intros [= <-].
  - cbn in Hv'. rewrite lookup_insert_eq in Hv'. split_and!; try done. unfold mirror_tight. rewrite Ht. cbn. auto.
Qed.

Section ops.
Context {NS : Type} `{NhLaws NS}.

(** The outcome of an add request for index [i] and nexthop [o]. *)
Lemma mirror_add_cases req m (s : NS) :
  mirror_inv m ->
  let i := u32 (mirr_index req) in
  let '(o, s1) := nh_get (mirr_rid req) (mirr_nhid req) s in
  let '(ret, m', s') := mirror_add req m s in
  mirror_inv m' /\ (mirror_tight m -> mirror_tight m') /\ vr_max_mirror_indices m' = vr_max_mirror_indices m /\
  (ret = 0 /\ i < vr_max_mirror_indices m /\ (exists nh, o = Some nh /\
     mirror_view m' = zset (mirror_view m) i (Some nh) /\ s' = drop_nh s1 (default None (zget (mirror_view m) i)) /\
     exists p, mirror_slot i m' = Some (Some p) /\ mir_heap m' !! p = Some (mirror_entry_of req nh)) \/
   ret = - EINVAL /\ vr_max_mirror_indices m <= i /\ m' = m /\ s' = s \/
   ret = - EINVAL /\ i < vr_max_mirror_indices m /\ o = None /\ m' = m /\ s' = s1 \/
   ret = - ENOMEM /\ i < vr_max_mirror_indices m /\ mirror_view m' = mirror_view m /\
     exists nh, o = Some nh /\ s' = nh_put (Some nh) s1).
Proof.
  intros Hi i. unfold mirror_add. fold i. pose proof (u32_range (mirr_index req)) as Hr0. fold i in Hr0.
  destruct (nh_get (mirr_rid req) (mirr_nhid req) s) as [o s1].
  destruct (Z.leb_spec (vr_max_mirror_indices m) i) as [Hge|Hlt].
  { split_and!; try done. right; left. done. }
  destruct o as [nh|]; [|split_and!; try done; right; right; left; done].
  destruct (table_some m i Hi ltac:(lia)) as (t & o & Ht & Ho & Hv). rewrite (slot_of m t i Ht), Ho.
  destruct o as [p|].
  - destruct (slot_entry m t i p Hi Ht Ho) as (e & nh0 & He & Hnh0). rewrite He.
    destruct (change_slot m t i p (mirror_entry_of req nh) Hi Ht Ho) as (C1 & C2 & C3 & C4 & C5 & C6); [by eexists|].
    split_and!; try done. left. split_and!; try done. exists nh. split_and!; try done.
    + rewrite Hv. cbn. rewrite He. done.
    + exists p. split; [|done]. rewrite (slot_of _ _ i C5). apply zget_zset_eq. by apply zget_range in Ho.
  - unfold mir_alloc. destruct (match mir_oracle m with [] => true | b :: _ => b end); cbn [negb].
    + cbn [vr_max_mirror_indices vr_mirrors mir_heap mir_next mir_deferred mir_oracle mir_not_ready mir_fault write_slot].
      unfold write_slot. cbn [vr_mirrors]. rewrite Ht.
      destruct (enter_slot m t i (mirror_entry_of req nh) (tail (mir_oracle m)) Hi Ht Ho) as (C1 & C2 & C3); [by eexists|].
      split_and!; try done. left. split_and!; try done. exists nh. split_and!; try done.
      * by rewrite Hv.
      * exists (mir_next m). split; [|cbn; apply lookup_insert_eq].
        unfold mirror_slot. cbn. apply zget_zset_eq. by apply zget_range in Ho.
    + split_and!; try done; [by destruct Hi|]. right; right; right. split_and!; try done. by exists nh.
Qed.

(** When the index is in range, the nexthop exists and memory is granted, the entry of that
    index, and no other, is the one that the request describes, and the nexthop it had
    before is released. *)
Lemma mirror_add_spec req m (s : NS) nh s1 :
  mirror_inv m -> u32 (mirr_index req) < vr_max_mirror_indices m -> mir_oracle m = [] ->
  nh_get (mirr_rid req) (mirr_nhid req) s = (Some nh, s1) ->
  let i := u32 (mirr_index req) in
  let '(ret, m', s') := mirror_add req m s in
  ret = 0 /\ mirror_inv m' /\ mirror_view m' = zset (mirror_view m) i (Some nh) /\
  s' = drop_nh s1 (default None (zget (mirror_view m) i)) /\
  exists p, mirror_slot i m' = Some (Some p) /\ mir_heap m' !! p = Some (mirror_entry_of req nh).
Proof.
  intros Hi Hlt Ho Hg. pose proof (mirror_add_cases req m s Hi) as Hc. rewrite Hg in Hc. cbn zeta in *.
  assert (Hnm : (mirror_add req m s).1.1 <> - ENOMEM).
  { unfold mirror_add. rewrite (proj2 (Z.leb_gt _ _)), Hg by done. unfold mir_alloc. rewrite Ho. repeat case_match; done. }
  destruct (mirror_add req m s) as [[ret m'] s']. cbn in Hnm.
  destruct Hc as (Hi' & _ & _ & [(-> & _ & nh' & [= <-] & C2 & C3 & C4)|[(_ & Hx & _)|[(_ & _ & Hx & _)|(-> & _)]]]);
    [done|lia|done|done].
Qed.

(** The fields of a request at their widths. *)
Definition mirr_ok (req : vr_mirror_req) : Prop :=
  -32768 <= mirr_index req < 32768 /\ -32768 <= mirr_rid req < 32768 /\ -2147483648 <= mirr_flags req < 2147483648.

Lemma s16_u16 z : -32768 <= z < 32768 -> s16 (u16 z) = z.
Proof. unfold s16, u16. Z.to_euclidean_division_equations. lia. Qed.

Lemma s16_u32 z : -32768 <= z < 32768 -> s16 (u32 z) = z.
Proof. unfold s16, u32. Z.to_euclidean_division_equations. lia. Qed.

Lemma u16_u16 z : u16 (u16 z) = u16 z.
Proof. unfold u16. by rewrite Zmod_mod. Qed.

(** What an add request sets is what a get request for the same index answers: the
    router, the nexthop, the flags and the identifier; the other indices lead to the
    nexthops they led to. *)
Theorem mirror_add_get req q m (s : NS) nh s1 :
  mirror_inv m -> u32 (mirr_index req) < vr_max_mirror_indices m -> mir_oracle m = [] -> nh_table_ok s -> mirr_ok req ->
  nh_get (mirr_rid req) (mirr_nhid req) s = (Some nh, s1) -> mirr_index q = mirr_index req ->
  let '(ret, m', s') := mirror_add req m s in
  ret = 0 /\ mirror_inv m' /\ mirror_view m' = zset (mirror_view m) (u32 (mirr_index req)) (Some nh) /\
  mirror_get q m' s' =
    inl (mk_mirr (mirr_index req) (mirr_rid req) (mirr_nhid req) (mirr_flags req) (mirr_marker q) (mirr_vni req)).
Proof.
  intros Hi Hlt Ho Hok (Ri & Rr & Rf) Hg Hq. pose proof (mirror_add_spec req m s nh s1 Hi Hlt Ho Hg) as Ha.
  pose proof (mirror_add_cases req m s Hi) as Hc. rewrite Hg in Hc. cbn zeta in *.
  destruct (mirror_add req m s) as [[ret m'] s']. destruct Ha as (-> & Hi' & Hv & Hs' & p & Hp & He).
  destruct Hc as (_ & _ & Hmx & _). split_and!; try done. unfold mirror_get. rewrite Hq, Hmx, (proj2 (Z.leb_gt _ _)) by done.
  rewrite Hp. cbn. rewrite He. unfold vr_mirror_make_req, mirror_entry_of. cbn.
  assert (Hn : nh_id_of s' nh = mirr_nhid req).
  { assert (Hsame : same_nhs s s').
    { subst s'. etransitivity; [|apply drop_nh_same]. replace s1 with (nh_get (mirr_rid req) (mirr_nhid req) s).2 by (by rewrite Hg).
      apply nh_get_same. }
    rewrite (same_id _ _ Hsame). apply (Hok (mirr_rid req)). by rewrite Hg. }
  by rewrite Hn, u16_u16, s16_u16, s16_u32, s32_u32.
Qed.

End ops.

(** ** References *)

Lemma mirror_deferred_inv m :
  mirror_inv m -> mirror_inv (run_deferred m) /\ (mirror_tight m -> mirror_tight (run_deferred m)) /\
  mirror_view (run_deferred m) = mirror_view m.
Proof.
  intros Hi. unfold run_deferred. destruct (mir_deferred m) as [|p d] eqn:Hd; [done|].
  pose proof (mi_pool _ Hi) as Hp. rewrite Hd in Hp.
  destruct (pool_free _ (vr_mirrors m) _ _ d _ p Hp (deferred_holders _ p d)) as ([e He] & Hp' & Tt').
  assert (Hnot : forall t j q, vr_mirrors m = Some t -> zget t j = Some (Some q) -> q <> p).
  { intros t j q Ht Hq ->. rewrite Ht in Hp. apply (slot_not_deferred t j p _ _ _ Hp Hq). set_solver. }
  unfold vr_mirror_defer_delete, mir_free. cbn [mir_heap set_waiting]. rewrite He. split_and!.
  - split; cbn; [apply Hi|exact Hp'| |apply Hi].
    intros t i q e' Ht Hq He'. apply lookup_delete_Some in He' as [_ He']. by apply (mi_nh _ Hi t i q).
  - unfold mirror_tight. rewrite Hd. exact Tt'.
  - unfold mirror_view. cbn. destruct (vr_mirrors m) as [t|] eqn:Ht; [|done]. cbn.
    apply list_fmap_ext. intros k o Hk. destruct o as [q|]; [|done]. cbn.
    rewrite lookup_delete_ne; [done|]. intros <-.
    apply (Hnot t (Z.of_nat k) p eq_refl); [|done]. unfold zget. by rewrite decide_True, Nat2Z.id by lia.
Qed.

Section refs.
Context {NS : Type} `{NhLaws NS, !NhRefs NS}.

Lemma mirror_del_refs i m (s : NS) ext :
  mirror_inv m -> 0 <= i -> refs_held (mirror_refs m ++ ext) s ->
  let '(_, m', s') := __vr_mirror_del i m s in
  mirror_inv m' /\ (mirror_tight m -> mirror_tight m') /\ vr_max_mirror_indices m' = vr_max_mirror_indices m /\
  refs_held (mirror_refs m' ++ ext) s' /\ (i < vr_max_mirror_indices m -> zget (mirror_view m') i = Some None) /\
  (forall j, j <> i -> zget (mirror_view m') j = zget (mirror_view m) j).
Proof.
  intros Hi Hpos Hh. pose proof (__mirror_del_spec i m s Hi Hpos) as Hd.
  destruct (__vr_mirror_del i m s) as [[ret m'] s']. destruct Hd as (Hi' & Ht' & Hm' & Hc).
  split_and!; try done; destruct (zget (mirror_view m) i) as [[nh|]|] eqn:Hz; cbn [default from_option id] in Hc.
  all: destruct Hc as (_ & E1 & E2); rewrite ?E1, ?E2; try done.
  - unfold mirror_refs in *. rewrite E1. destruct (omap_zset_perm _ _ _ None Hz) as (rest & R1 & R2).
    apply refs_put. eapply refs_perm; [|exact Hh]. rewrite R1, R2. done.
  - intros _. apply zget_zset_eq. by apply zget_range in Hz.
  - intros Hlt. destruct (table_some m i Hi ltac:(lia)) as (? & ? & _ & _ & Hv). congruence.
  - intros j Hj. by apply zget_zset_ne.
Qed.

Lemma mirror_exit_fold m (s : NS) ext (n : nat) :
  mirror_inv m -> refs_held (mirror_refs m ++ ext) s -> is_Some (vr_mirrors m) -> Z.of_nat n <= vr_max_mirror_indices m ->
  let '(m', s') := foldl mirror_exit_step (m, s) (seqZ 0 (Z.of_nat n)) in
  mirror_inv m' /\ (mirror_tight m -> mirror_tight m') /\ vr_max_mirror_indices m' = vr_max_mirror_indices m /\
  refs_held (mirror_refs m' ++ ext) s' /\ forall i, 0 <= i < Z.of_nat n -> zget (mirror_view m') i = Some None.
Proof.
  intros Hi Hh Ht. induction n as [|n IH]; intros Hn.
  { cbn. split_and!; try done. intros i ?. lia. }
  specialize (IH ltac:(lia)). replace (Z.of_nat (S n)) with (Z.of_nat n + 1) by lia. rewrite seqZ_snoc by lia.
  rewrite foldl_app. cbn [foldl]. rewrite Z.add_0_l. destruct (foldl mirror_exit_step (m, s) _) as [m1 s1].
  destruct IH as (Hi1 & Ht1 & Hm1 & Hh1 & Hz1). unfold mirror_exit_step. cbn [fst snd].
  destruct (table_some m1 (Z.of_nat n) Hi1 ltac:(lia)) as (t & o & Et & Eo & Ev).
  rewrite (slot_of m1 t _ Et), Eo. destruct o as [p|].
  - pose proof (mirror_del_refs (Z.of_nat n) m1 s1 ext Hi1 ltac:(lia) Hh1) as Hd.
    destruct (__vr_mirror_del (Z.of_nat n) m1 s1) as [[ret m2] s2]. destruct Hd as (Hi2 & Ht2 & Hm2 & Hh2 & Hz2 & Ho2).
    split_and!; try done; [auto|congruence|]. intros i Hir. destruct (decide (i = Z.of_nat n)) as [->|Hne].
    + apply Hz2. lia.
    + rewrite Ho2 by done. apply Hz1. lia.
  - split_and!; try done. intros i Hir. destruct (decide (i = Z.of_nat n)) as [->|Hne]; [done|]. apply Hz1. lia.
Qed.

(** Tearing the table down, or emptying it, drops the reference of every mirror. *)
Lemma mirror_exit_refs soft m (s : NS) ext :
  mirror_inv m -> mirror_tight m -> refs_held (mirror_refs m ++ ext) s ->
  let ms := vr_mirror_exit soft m s in
  mirror_inv ms.1 /\ mirror_tight ms.1 /\ mirror_refs ms.1 = [] /\ refs_held ext ms.2.
Proof.
  intros Hi Ht Hh. unfold vr_mirror_exit. pose proof (mi_len _ Hi) as Hl. destruct (vr_mirrors m) as [t|] eqn:Et.
  2: { destruct soft; cbn [fst snd]; unfold mirror_refs, mirror_view, mirror_tight in *; rewrite ?Et in *; [done|].
       split_and!; try done. destruct Hi as [? Hp ? ?]. split; cbn; [done| |done|done]. by rewrite Et in Hp. }
  pose proof (mirror_exit_fold m s ext (Z.to_nat (vr_max_mirror_indices m)) Hi Hh) as Hf.
  assert (0 <= vr_max_mirror_indices m) by (unfold zlen in Hl; lia). rewrite Z2Nat.id in Hf by done.
  specialize (Hf ltac:(by eexists) ltac:(lia)). destruct (foldl mirror_exit_step _ _) as [m1 s1].
  destruct Hf as (Hi1 & Ht1 & Hm1 & Hh1 & Hz1). cbn [fst snd].
  assert (Hnil : mirror_refs m1 = []).
  { apply no_slots. intros i Hir. apply Hz1. unfold mirror_view in Hir. rewrite zlen_fmap in Hir.
    pose proof (mi_len _ Hi1) as Hl1. destruct (vr_mirrors m1); cbn in Hir; [lia|unfold zlen in Hir; cbn in Hir; lia]. }
  rewrite Hnil in Hh1. destruct soft; [auto|].
  assert (Hnil' : omap id (default [] (vr_mirrors m1)) = []).
  { apply no_slots. intros i Hir. pose proof (mi_len _ Hi1) as Hl1. destruct (vr_mirrors m1) as [t1|] eqn:Et1; [|unfold zlen in Hir; cbn in Hir; lia].
    cbn in Hir |- *. specialize (Hz1 i ltac:(lia)). unfold mirror_view in Hz1. rewrite Et1 in Hz1. cbn in Hz1. rewrite zget_fmap in Hz1.
    destruct (zget t1 i) as [[p|]|] eqn:Hp; [|done|discriminate].
    destruct (slot_entry m1 t1 i p Hi1 Et1 Hp) as (e & nh & He & Hnh). cbn in Hz1. rewrite He in Hz1. cbn in Hz1. congruence. }
  destruct (pool_clear _ None _ _ _ (mi_pool _ Hi1) eq_refl) as [Hp2 Tt2].
  split; [split; cbn; [done|exact Hp2|done|apply Hi1]|]. split; [exact (Tt2 Hnil' (Ht1 Ht))|]. done.
Qed.

Inductive mirror_op := MAdd (req : vr_mirror_req) | MDel (req : vr_mirror_req) | MExit (soft_reset : bool) | MDeferred.

Definition mirror_run (op : mirror_op) (m : mirrors) (s : NS) : mirrors * NS :=
  match op with
  | MAdd req => let '(_, m', s') := mirror_add req m s in (m', s')
  | MDel req => let '(_, m', s') := mirror_del req m s in (m', s')
  | MExit soft => vr_mirror_exit soft m s
  | MDeferred => (run_deferred m, s)
  end.

(** C28: whatever the request, also one that fails half way, and when the table is torn
    down: the table holds exactly one reference for each index that mirrors, every block
    it points to is live, and every block is held by the table or by a deferred call. *)
Theorem mirror_refs_exact op m (s : NS) ext :
  mirror_inv m -> mirror_tight m -> refs_held (mirror_refs m ++ ext) s -> refs_room (mirror_refs m ++ ext) s ->
  let '(m', s') := mirror_run op m s in
  mirror_inv m' /\ mirror_tight m' /\ refs_held (mirror_refs m' ++ ext) s'.
Proof.
  intros Hi Ht Hh Hroom. destruct op as [req|req|soft|]; cbn [mirror_run].
  - pose proof (mirror_add_cases req m s Hi) as Hc. cbn zeta in Hc.
    destruct (nh_get (mirr_rid req) (mirr_nhid req) s) as [o s1] eqn:Hg.
    destruct (mirror_add req m s) as [[ret m'] s']. destruct Hc as (Hi' & Ht' & _ & Hc). split; [done|]. split; [auto|].
    destruct Hc as [(_ & Hlt & nh & -> & Hv & -> & _)|[(_ & _ & -> & ->)|[(_ & _ & -> & -> & ->)|(_ & _ & Hv & nh & -> & ->)]]].
    + pose proof (u32_range (mirr_index req)). destruct (table_some m (u32 (mirr_index req)) Hi ltac:(lia)) as (t & ob & _ & _ & Hz).
      unfold mirror_refs in *. rewrite Hv, Hz. destruct (omap_zset_perm _ _ _ (Some nh) Hz) as (rest & R1 & R2).
      apply drop_refs. pose proof (refs_get _ _ _ _ _ _ Hh Hroom Hg) as Hh1. eapply refs_perm; [|exact Hh1].
      rewrite R1, R2. destruct (entry_nh (mir_heap m) ob); cbn; [apply perm_swap|done].
    + done.
    + by apply (refs_get_none _ _ _ _ _ Hh Hg).
    + unfold mirror_refs in *. rewrite Hv. apply refs_put. by apply (refs_get _ _ _ _ _ _ Hh Hroom Hg).
  - unfold mirror_del. pose proof (u32_range (mirr_index req)).
    pose proof (mirror_del_refs (u32 (mirr_index req)) m s ext Hi ltac:(lia) Hh) as Hd.
    destruct (__vr_mirror_del _ m s) as [[ret m'] s']. destruct Hd as (? & ? & _ & ? & _). auto.
  - destruct (mirror_exit_refs soft m s ext Hi Ht Hh) as (? & ? & Hn & Hx). destruct (vr_mirror_exit soft m s) as [m' s']. cbn [fst snd] in *.
    by rewrite Hn.
  - destruct (mirror_deferred_inv m Hi) as (? & ? & Hv). split_and!; auto. unfold mirror_refs. by rewrite Hv.
Qed.

End refs.

(** ** Copies of packets *)

Section copy.
Context (vr_pclone : mirror_pkt -> option mirror_pkt) (vr_pcow : mirror_pkt -> Z -> option mirror_pkt)
  (vr_preset : mirror_pkt -> mirror_pkt)
  (vif_set_rewrite : mirror_vif -> mirror_pkt -> mirror_fmd -> list Z -> option mirror_pkt)
  (flow_md : Z -> option (list Z)) (nh_at : nhp -> mirror_nh).

(** What the host does with a packet: a clone has the bytes of the packet, came by the same
    interface and has the same nexthop; making room moves the bytes; the host does not mark
    packets. *)
Record host_keeps : Prop := {
  hk_clone : forall p q, vr_pclone p = Some q ->
    vp_if q = vp_if p /\ vp_nh q = vp_nh p /\ vp_bytes q = vp_bytes p;
  hk_cow : forall p len q, vr_pcow p len = Some q -> vp_flags q = vp_flags p /\ vp_bytes q = vp_bytes p;
  hk_reset : forall p, vp_flags (vr_preset p) = vp_flags p;
  hk_rewrite : forall vif p fmd encap q, vif_set_rewrite vif p fmd encap = Some q -> vp_flags q = vp_flags p
}.

Abbreviation mirror_with := (vr_mirror vr_pclone vr_pcow vr_preset vif_set_rewrite flow_md nh_at).

(** The metadata that a dynamic mirror puts in front: of the flow for an access list, of the
    interface the packet came by, of the interface it leaves by; [0xff 0] when there is
    none. *)
Definition metadata_of (mtype : mirror_type_t) (fmd : option mirror_fmd) (pkt : mirror_pkt) : list Z :=
  let md :=
    match mtype with
    | MIRROR_TYPE_ACL => default [] (f ← fmd; if 0 <=? fmd_flow_index f then flow_md (fmd_flow_index f) else None)
    | MIRROR_TYPE_PORT_RX => from_option vif_mirror_md [] (vp_if pkt)
    | _ => from_option vif_mirror_md [] (vp_nh pkt ≫= mn_dev)
    end in
  if decide (md = []) then [255; 0] else md.

Definition on_fabric (pkt : mirror_pkt) : bool :=
  match vp_if pkt with Some vif => vif_type vif =? VIF_TYPE_PHYSICAL | None => false end.

(** The bytes of the packet that are mirrored: from its first byte, but without the outer
    headers when it came by a physical interface; there an access list puts the link header
    back. *)
Definition captured (mtype : mirror_type_t) (pkt : mirror_pkt) (body : list Z) : Prop :=
  if on_fabric pkt then
    match needs_rewrite mtype pkt with
    | None => body = vp_bytes pkt
    | Some nh =>
        exists dev p1 f q, mn_dev nh = Some dev /\ vp_bytes p1 = vp_bytes pkt /\
          vif_set_rewrite dev p1 f (mn_encap nh) = Some q /\ body = vp_bytes q
    end
  else exists p1, vp_bytes p1 = vp_bytes pkt /\ vp_if p1 = vp_if pkt /\ body = vp_bytes (vr_preset p1).

Lemma room_not_sent mtype len fmd c q nh f : mirror_room vr_pcow vif_set_rewrite mtype len fmd c <> inr (M_sent q nh f).
Proof. unfold mirror_room. by repeat case_match. Qed.

Lemma push_spec md p q : pkt_push md p = Some q -> vp_flags q = vp_flags p /\ vp_bytes q = md ++ vp_bytes p.
Proof. unfold pkt_push. case_match; [done|]. by intros [= <-]. Qed.

Lemma room_spec mtype len fmd c len' reset c' :
  host_keeps -> mirror_room vr_pcow vif_set_rewrite mtype len fmd c = inl (len', reset, c') ->
  vp_flags c' = vp_flags c /\ captured mtype c (vp_bytes (if reset then vr_preset c' else c')).
Proof.
  intros [_ Hcow _ Hrw]. unfold mirror_room, captured, on_fabric.
  destruct (vp_if c) as [vif|] eqn:Ev; [|intros [= <- <- <-]; split; [done|by exists c]].
  destruct (vif_type vif =? VIF_TYPE_PHYSICAL); [|intros [= <- <- <-]; split; [done|by exists c]].
  destruct (needs_rewrite mtype c) as [nh|]; [|by intros [= <- <- <-]].
  destruct (vr_pcow c _) as [c1|] eqn:E1; [|done]. destruct (mn_dev nh) as [dev|] eqn:Ed; [|done].
  destruct (vif_set_rewrite dev c1 fmd (mn_encap nh)) as [c2|] eqn:E2; [|done]. intros [= <- <- <-].
  apply Hcow in E1 as [F1 B1]. split; [|by exists dev, c1, fmd, c2]. by rewrite (Hrw _ _ _ _ _ E2).
Qed.

Lemma send_spec len reset md nh fmd c q nh' f :
  host_keeps -> mirror_send vr_pcow vr_preset len reset md nh fmd c = M_sent q nh' f ->
  vp_flags q = vp_flags c /\ nh' = nh /\ vp_bytes q = md ++ vp_bytes (if reset then vr_preset c else c) /\
  f = mk_mfmd (-1) (fmd_label fmd) (fmd_ecmp_nh_index fmd) (if 0 <=? mn_vrf nh then mn_vrf nh else fmd_dvrf fmd).
Proof.
  intros [_ Hcow Hpre _]. unfold mirror_send. set (c1 := if reset then vr_preset c else c).
  assert (Hc1 : vp_flags c1 = vp_flags c) by (unfold c1; by destruct reset).
  destruct (if len =? 0 then Some c1 else vr_pcow c1 len) as [c2|] eqn:Ec; [|done].
  assert (Hc2 : vp_flags c2 = vp_flags c1 /\ vp_bytes c2 = vp_bytes c1) by (case_match; [by simplify_eq|by apply Hcow in Ec]).
  destruct Hc2 as [Hf2 Hb2]. destruct (zlen md =? 0) eqn:Ez.
  - intros [= <- <- <-]. split_and!; try congruence. apply Z.eqb_eq in Ez. by destruct md.
  - destruct (pkt_push md c2) as [c3|] eqn:Ep; [|done]. apply push_spec in Ep as [Hf Hb].
    intros [= <- <- <-]. split_and!; congruence.
Qed.

(** The code chooses the metadata that is specified. *)
Lemma dynamic_md_spec mtype fmd fmd1 pkt c md :
  vp_if c = vp_if pkt -> vp_nh c = vp_nh pkt ->
  fmd_flow_index fmd1 = match fmd with Some f => fmd_flow_index f | None => -1 end ->
  dynamic_md flow_md mtype fmd1 c = inl md -> md = metadata_of mtype fmd pkt.
Proof.
  intros Hif Hnh Hfi. unfold dynamic_md, metadata_of. rewrite Hif, Hnh, Hfi.
  assert (Hd : forall l, match (inl l : list Z + Z) with inl [] => inl [255; 0] | _ => inl l end = (inl md : list Z + Z) ->
    md = if decide (l = []) then [255; 0] else l).
  { intros [|x l]; cbn; intros [= <-]; [by rewrite decide_True|by rewrite decide_False]. }
  destruct mtype; try (destruct (vp_nh pkt ≫= mn_dev) as [vif|]; [|done]; intros E; by apply Hd in E).
  - destruct (vp_if pkt) as [vif|]; [|done]. intros E. by apply Hd in E.
  - intros E. apply Hd in E. subst md. destruct fmd as [f0|]; cbn; [|done]. by destruct (0 <=? fmd_flow_index f0).
Qed.

Lemma marked f : Z.land (Z.ldiff (Z.lor f (Z.lor VP_FLAG_FROM_DP (Z.lor VP_FLAG_FLOW_SET VP_FLAG_GSO))) VP_FLAG_GRO)
  VP_FLAG_FROM_DP <> 0.
Proof.
  intros E. apply (f_equal (fun z => Z.testbit z 0)) in E. rewrite Z.land_spec, Z.ldiff_spec, (Z.lor_spec f) in E.
  by destruct (Z.testbit f 0).
Qed.

Lemma captured_same mtype pkt c body :
  vp_if c = vp_if pkt -> vp_nh c = vp_nh pkt -> vp_bytes c = vp_bytes pkt -> captured mtype c body -> captured mtype pkt body.
Proof.
  unfold captured, on_fabric, needs_rewrite. intros -> -> E. rewrite E. done.
Qed.

(** What [mirror_copy] sends of a clone of [pkt]. *)
Lemma copy_spec flags vni nh0 mtype fmd fmd1 pkt c0 c nh f :
  host_keeps -> vr_pclone pkt = Some c0 -> fmd_ecmp_nh_index fmd1 = -1 ->
  fmd_flow_index fmd1 = match fmd with Some f => fmd_flow_index f | None => -1 end ->
  mirror_copy vr_pcow vr_preset vif_set_rewrite flow_md flags vni nh0 mtype fmd1 c0 = M_sent c nh f ->
  nh = nh0 /\ Z.land (vp_flags c) VP_FLAG_FROM_DP <> 0 /\ fmd_flow_index f = -1 /\ fmd_ecmp_nh_index f = -1 /\
  exists body, captured mtype pkt body /\
    if decide (Z.land flags VR_MIRROR_FLAG_DYNAMIC = 0) then fmd_label f = vni /\ vp_bytes c = body
    else vp_bytes c = metadata_of mtype fmd pkt ++ body.
Proof.
  intros Hk Hcl He Hfi. destruct (hk_clone Hk _ _ Hcl) as (Ci & Cn & Cb). unfold mirror_copy. set (c1 := with_flags _ c0).
  assert (Hm : Z.land (vp_flags c1) VP_FLAG_FROM_DP <> 0) by apply marked.
  change (vp_if c0) with (vp_if c1) in Ci. change (vp_nh c0) with (vp_nh c1) in Cn. change (vp_bytes c0) with (vp_bytes c1) in Cb.
  clearbody c1. intros Hs. destruct (decide (Z.land flags VR_MIRROR_FLAG_DYNAMIC = 0)) as [Hd|Hd].
  - rewrite Hd in Hs. cbn [negb Z.eqb] in Hs.
    destruct (mirror_room _ _ _ _ _ _) as [[[len reset] c2]|out] eqn:Er; [|subst out; by apply room_not_sent in Er].
    apply room_spec in Er as [Er Hc]; [|done]. apply send_spec in Hs as (Hf & -> & Hb & ->); [|done]. rewrite Hf, Er.
    split_and!; try done. eexists. split; [by apply (captured_same _ _ c1 _ Ci Cn Cb)|]. by rewrite Hb.
  - rewrite (proj2 (Z.eqb_neq _ _) Hd) in Hs. cbn [negb] in Hs.
    destruct (dynamic_md flow_md mtype fmd1 c1) as [md|] eqn:Em; [|done]. apply (dynamic_md_spec _ fmd _ pkt) in Em; try done.
    destruct (mirror_room _ _ _ _ _ _) as [[[len reset] c2]|out] eqn:Er; [|subst out; by apply room_not_sent in Er].
    apply room_spec in Er as [Er Hc]; [|done]. apply send_spec in Hs as (Hf & -> & Hb & ->); [|done]. rewrite Hf, Er.
    split_and!; try done. eexists. split; [by apply (captured_same _ _ c1 _ Ci Cn Cb)|]. by rewrite Hb, Em.
Qed.

(** C29: a packet is mirrored once, on a host whose clones have the bytes and interfaces of
    the packet.  A copy goes to the valid nexthop of the entry, under no flow and no member
    of an ECMP group.  Its bytes are those that are [captured] of the packet: for an entry
    that is not dynamic they are all of it and the label is the identifier of the entry;
    for a dynamic one the metadata goes in front, of the flow, of the interface the packet
    came by or of the one it leaves by according to the kind of mirroring.  Wherever the
    copy comes by a mirror again, nothing is copied. *)
Theorem mirror_once m id mtype fmd pkt c nh f :
  host_keeps -> mirror_with m id mtype fmd pkt = M_sent c nh f ->
  (exists p e body, mirror_slot id m = Some (Some p) /\ mir_heap m !! p = Some e /\ nh_at <$> mir_nh e = Some nh /\
    Z.land (mn_flags nh) NH_FLAG_VALID <> 0 /\ captured mtype pkt body /\
    if decide (Z.land (mir_flags e) VR_MIRROR_FLAG_DYNAMIC = 0) then fmd_label f = mir_vni e /\ vp_bytes c = body
    else vp_bytes c = metadata_of mtype fmd pkt ++ body) /\
  fmd_flow_index f = -1 /\ fmd_ecmp_nh_index f = -1 /\
  forall m' id' mtype' fmd', mirror_with m' id' mtype' fmd' c = M_none.
Proof.
  intros Hk Hs. unfold vr_mirror in Hs at 1. case_match; [done|].
  set (fmd1 := match fmd with Some f0 => _ | None => _ end) in Hs.
  assert (He : fmd_ecmp_nh_index fmd1 = -1) by (by unfold fmd1; destruct fmd).
  assert (Hfi : fmd_flow_index fmd1 = match fmd with Some f0 => fmd_flow_index f0 | None => -1 end) by (by unfold fmd1; destruct fmd).
  clearbody fmd1. destruct (mirror_slot id m) as [[p|]|] eqn:Ep; [|by destruct mtype|by destruct mtype].
  destruct (mir_heap m !! p) as [e|] eqn:Ee; [|by destruct mtype].
  destruct (nh_at <$> mir_nh e) as [nh0|] eqn:En; [|by destruct mtype].
  destruct (Z.eqb_spec (Z.land (mn_flags nh0) NH_FLAG_VALID) 0) as [|Hv]; [by destruct mtype|].
  destruct (vr_pclone pkt) as [c0|] eqn:Ec; [|by destruct mtype].
  assert (Ht : mirror_copy vr_pcow vr_preset vif_set_rewrite flow_md (mir_flags e) (mir_vni e) nh0 mtype fmd1 c0
    = M_sent c nh f) by (by destruct mtype).
  apply (copy_spec _ _ _ _ fmd _ pkt) in Ht as (-> & Hm & Hfl & Hec & body & Hc & Hd); [|done..].
  split_and!; try done; [by exists p, e, body|]. intros m' i' t' f'. unfold vr_mirror.
  by rewrite (proj2 (Z.eqb_neq _ _) Hm).
Qed.

End copy.

(** ** Metadata *)

Definition meta_idle (k : metas) : Prop := mem_ok (mm_mem k) /\ mm_deferred k = [].

Lemma alloc_none size m m' : m_alloc size m = (None, m') -> false ∈ m_oracle m.
Proof. unfold m_alloc. destruct (m_oracle m) as [|[] o]; [done|done|]. intros _. set_solver. Qed.

Lemma alloc_oracle size m r m' b : m_alloc size m = (r, m') -> b ∈ m_oracle m' -> b ∈ m_oracle m.
Proof. unfold m_alloc. destruct (m_oracle m) as [|[] o]; intros [= <- <-]; cbn; set_solver. Qed.

(** Metadata of a flow.  Either there is no memory and nothing is kept, or the entry
    holds the bytes given in blocks of its own; after the entry is removed they stay until
    the packets that may still read them are done, and then all the memory is back. *)
Theorem mirror_meta_roundtrip sip sport data vrf k :
  meta_idle k ->
  match vr_mirror_meta_entry_set sip sport data vrf k with
  | (None, k1) => m_live (mm_mem k1) = m_live (mm_mem k) /\ false ∈ m_oracle (mm_mem k)
  | (Some me, k1) =>
      mirror_md_bytes me = data /\ mirror_md_len me = zlen data /\ mme_block me <> mirror_md me /\
      m_live (mm_mem k1) = <[mirror_md me := zlen data]> (<[mme_block me := mme_size]> (m_live (mm_mem k))) /\
      m_live (mm_mem k) !! mme_block me = None /\ m_live (mm_mem k) !! mirror_md me = None /\
      let k2 := vr_mirror_meta_entry_del (Some me) k1 in
      (mm_deferred k2 = [me] /\ m_live (mm_mem k2) = m_live (mm_mem k1) \/
       mm_deferred k2 = [] /\ m_live (mm_mem k2) = m_live (mm_mem k)) /\
      mm_deferred (run_meta_deferred k2) = [] /\ m_live (mm_mem (run_meta_deferred k2)) = m_live (mm_mem k)
  end.
Proof.
  intros [Hok Hd]. unfold vr_mirror_meta_entry_set.
  destruct (m_alloc mme_size (mm_mem k)) as [[b|] m1] eqn:E1; destruct (m_alloc_spec _ _ _ _ Hok E1) as [Hok1 H1].
  2: { split; [apply H1|by apply alloc_none in E1]. }
  destruct (m_alloc (zlen data) m1) as [[c|] m2] eqn:E2; destruct (m_alloc_spec _ _ _ _ Hok1 E2) as [Hok2 H2].
  all: destruct H1 as (Eb & En & Hb & L1).
  2: { cbn. destruct H2 as [L2 _]. rewrite L2, L1, delete_insert_id by done. split; [done|].
       eapply alloc_oracle; [exact E1|]. by apply alloc_none in E2. }
  destruct H2 as (Ec & _ & Hc & L2). assert (Hbc : b <> c) by lia.
  assert (Hlc : m_live (mm_mem k) !! c = None) by (rewrite L1, lookup_insert_ne in Hc by done; done).
  assert (Hback : delete b (delete c (<[c := zlen data]> (<[b := mme_size]> (m_live (mm_mem k))))) = m_live (mm_mem k)).
  { rewrite delete_insert_id by (by rewrite lookup_insert_ne). by rewrite delete_insert_id. }
  cbn [mirror_md_bytes mirror_md_len mme_block mirror_md mm_mem set_mem]. rewrite L2, L1.
  split_and!; try done; unfold vr_mirror_meta_entry_del, vr_mirror_meta_entry_destroy, defer_granted, run_meta_deferred;
    cbn [mm_not_ready set_mem mm_mem]; destruct (mm_not_ready k); cbn;
    try (destruct (m_oracle m2) as [|[] o]); cbn; rewrite ?Hd; cbn; rewrite ?L2, ?L1; auto.
Qed.

End MirrorProofs.
