(* ===== verification/Fragment.v ===== *)
(** * Fragments (dp-core/vr_fragment.c)

    Only the first fragment of an IP packet, its head, carries the ports by which flows
    are found.  When a head passes, a table keeps its ports for the fragments that follow
    ([vr_fragment_add], [vr_fragment_get]); a timer clears old entries.  Fragments that
    come before their head are handed to an assembler, by a queue per processor, and kept
    in lists until a clone of the head arrives ([vr_fragment_assembler]).

    What happens to packets and queue elements is a list of [event]s.  Sending a packet on
    ([vr_flow_flush_pnode]) may look fragments up in turn: its effect on the table is a
    parameter.  Clock readings are arguments. *)

From S2P Require Import Prelude Hash Btable.

Module Fragment.
Import Hash.

Definition FRAG_TABLE_ENTRIES : Z := 1024.
Definition FRAG_TABLE_BUCKETS : Z := 4.
Definition FRAG_OTABLE_ENTRIES : Z := 512.
Definition ENTRIES_PER_SCAN : Z := 64.
Definition VR_ASSEMBLER_TIMEOUT_TIME : Z := 5.
Definition VR_LINUX_ASSEMBLER_BUCKETS : Z := 1024.
Definition VR_MAX_FRAGMENTS_PER_ASSEMBLER_QUEUE : Z := 256.
Definition VR_MAX_FRAGMENTS_PER_CPU_QUEUE : Z := 256.
Definition VR_FRAG_ENQUEUE_ATTEMPTS : nat := 3.
Definition PN_FLAG_LABEL_IS_VXLAN_ID : Z := 1.
Definition PN_FLAG_TO_ME : Z := 2.
Definition PN_FLAG_FRAGMENT_HEAD : Z := 4.
Definition VP_FLAG_FLOW_SET : Z := 8.
Definition VP_DROP_NO_MEMORY : Z := 31.
Definition VP_DROP_MISC : Z := 33.
Definition VP_DROP_CLONED_ORIGINAL : Z := 38.
Definition VP_DROP_FRAGMENTS : Z := 40.
Definition VP_DROP_FRAGMENT_QUEUE_FAIL : Z := 44.
Definition VR_IP_MF : Z := Z.shiftl 1 13.
Definition VR_IP_FRAG_OFFSET_MASK : Z := VR_IP_MF - 1.

(** ** Data *)

(** The fields of an IPv4 header that matter here, in network byte order. *)
Record vr_ip := mk_ip {
  ip_version : Z;
  ip_hl : Z;
  ip_len : Z;
  ip_id : Z;
  ip_frag_off : Z;
  ip_saddr : Z;
  ip_daddr : Z
}.

Definition ntohs (x : Z) : Z := Z.lor (Z.shiftl (Z.land x 255) 8) (Z.shiftr x 8).

Definition vr_ip_is_ip4 (iph : vr_ip) : bool := Z.land (ip_version iph) 15 =? 4.

Definition vr_ip_fragment_tail (iph : vr_ip) : bool :=
  let frag := ntohs (ip_frag_off iph) in
  let more := negb (Z.land frag VR_IP_MF =? 0) in
  let offset := Z.land frag VR_IP_FRAG_OFFSET_MASK in
  if negb (vr_ip_is_ip4 iph) then false else negb more && negb (offset =? 0).

Definition vr_ip_fragment_head (iph : vr_ip) : bool :=
  let frag := ntohs (ip_frag_off iph) in
  let more := negb (Z.land frag VR_IP_MF =? 0) in
  let offset := Z.land frag VR_IP_FRAG_OFFSET_MASK in
  if negb (vr_ip_is_ip4 iph) then false else more && (offset =? 0).

Record vr_fragment_key := mk_fk { fk_sip : Z; fk_dip : Z; fk_id : Z; fk_vrf : Z }.

#[export] Instance vr_fragment_key_eq_dec : EqDecision vr_fragment_key.
Proof. solve_decision. Defined.

(** A packet: an identity, its flags, interface and headers. *)
Record frag_packet := mk_fpkt {
  vp_id : Z;
  vp_flags : Z;
  vp_vif_idx : Z;
  pkt_network_header : vr_ip;
  pkt_inner_network_header : option vr_ip
}.

Record vr_packet_node := mk_pnode {
  pl_packet : option frag_packet;
  pl_outer_src_ip : Z;
  pl_inner_src_ip : Z;
  pl_inner_dst_ip : Z;
  pl_label : Z;
  pl_vif_idx : Z;
  pl_flags : Z;
  pl_dscp : Z;
  pl_dotonep : Z;
  pl_vrf : Z;
  pl_vlan : Z
}.

(** [fqe_block] is the block of the element; [fqe_next] is the order of a list. *)
Record vr_fragment_queue_element := mk_fqe { fqe_block : Z; fqe_pnode : vr_packet_node }.

(** [f_next] is the order of a list. *)
Record vr_fragment := mk_frag {
  f_key : vr_fragment_key;
  f_sport : Z;
  f_dport : Z;
  f_qe : list vr_fragment_queue_element;
  f_time : Z;
  f_expected : Z;
  f_received : Z;
  f_port_info_valid : bool
}.

Definition f_dip (fe : vr_fragment) : Z := fk_dip (f_key fe).

Definition with_time (t : Z) (fe : vr_fragment) : vr_fragment :=
  mk_frag (f_key fe) (f_sport fe) (f_dport fe) (f_qe fe) t (f_expected fe) (f_received fe) (f_port_info_valid fe).
Definition with_counts (expected received : Z) (fe : vr_fragment) : vr_fragment :=
  mk_frag (f_key fe) (f_sport fe) (f_dport fe) (f_qe fe) (f_time fe) expected received (f_port_info_valid fe).
Definition with_queue (q : list vr_fragment_queue_element) (valid : bool) (fe : vr_fragment) : vr_fragment :=
  mk_frag (f_key fe) (f_sport fe) (f_dport fe) q (f_time fe) (f_expected fe) (f_received fe) valid.

(** ** Keys *)

Definition __fragment_key (vrf sip dip id : Z) : vr_fragment_key := mk_fk sip dip id (u16 vrf).

Definition fragment_key (vrf : Z) (iph : vr_ip) : vr_fragment_key :=
  __fragment_key vrf (ip_saddr iph) (ip_daddr iph) (ip_id iph).

(** The packed structure as bytes of a little-endian host. *)
Definition le_bytes (n : nat) (x : Z) : list Z := (fun i => Z.land (Z.shiftr x (8 * Z.of_nat i)) 255) <$> seq 0 n.

Definition key_hash (k : vr_fragment_key) : Z :=
  vr_hash (le_bytes 4 (fk_sip k) ++ le_bytes 4 (fk_dip k) ++ le_bytes 2 (fk_id k) ++ le_bytes 2 (fk_vrf k)) 12 0.

Definition __vr_fragment_get_hash (vrf sip dip : Z) (pkt : frag_packet) : Z :=
  key_hash (__fragment_key vrf sip dip (ip_id (pkt_network_header pkt))).

Definition vr_fragment_get_hash (vrf : Z) (pkt : frag_packet) : Z :=
  let ip := pkt_network_header pkt in __vr_fragment_get_hash vrf (ip_saddr ip) (ip_daddr ip) pkt.

(** ** The table of ports *)

Record frag_tables := mk_ft { ft_table : list vr_fragment; ft_otable : list vr_fragment }.

(** The address of an entry. *)
Inductive frag_loc := InTable (i : Z) | InOtable (i : Z).

#[export] Instance frag_loc_eq_dec : EqDecision frag_loc.
Proof. solve_decision. Defined.

Definition fragment_entry_get (l : frag_loc) (ft : frag_tables) : option vr_fragment :=
  match l with InTable i => zget (ft_table ft) i | InOtable i => zget (ft_otable ft) i end.

Definition frag_put (l : frag_loc) (fe : vr_fragment) (ft : frag_tables) : frag_tables :=
  match l with
  | InTable i => mk_ft (zset (ft_table ft) i fe) (ft_otable ft)
  | InOtable i => mk_ft (ft_table ft) (zset (ft_otable ft) i fe)
  end.

(** The entries that the loops visit, in their order. *)
Definition table_slots (hash : Z) : list frag_loc :=
  (fun i => InTable ((hash mod FRAG_TABLE_ENTRIES) * FRAG_TABLE_BUCKETS + i)) <$> seqZ 0 FRAG_TABLE_BUCKETS.
Definition otable_slots (hash : Z) : list frag_loc :=
  (fun i => InOtable ((hash mod FRAG_OTABLE_ENTRIES + i) mod FRAG_OTABLE_ENTRIES)) <$> seqZ 0 FRAG_OTABLE_ENTRIES.

(** The first entry that passes a test. *)
Fixpoint first_entry (test : vr_fragment -> bool) (slots : list frag_loc) (ft : frag_tables) : option frag_loc :=
  match slots with
  | [] => None
  | l :: slots' =>
      match fragment_entry_get l ft with
      | Some fe => if test fe then Some l else first_entry test slots' ft
      | None => first_entry test slots' ft
      end
  end.

Definition search_entry (test : vr_fragment -> bool) (hash : Z) (ft : frag_tables) : option frag_loc :=
  match first_entry test (table_slots hash) ft with
  | Some l => Some l
  | None => first_entry test (otable_slots hash) ft
  end.

Definition fragment_entry_set (sec vrf : Z) (iph : vr_ip) (sport dport : Z) (fe : vr_fragment) : vr_fragment :=
  mk_frag (mk_fk (ip_saddr iph) (ip_daddr iph) (ip_id iph) (u16 vrf)) (u16 sport) (u16 dport) (f_qe fe) sec 0 0
    (f_port_info_valid fe).

(** What the header says of the length of the fragment, without the header. *)
Definition payload_len (iph : vr_ip) : Z := ntohs (ip_len iph) - ip_hl iph * 4.

Definition vr_fragment_add (sec vrf : Z) (iph : vr_ip) (sport dport : Z) (ft : frag_tables) : Z * frag_tables :=
  let hash := key_hash (fragment_key vrf iph) in
  match search_entry (fun fe => f_dip fe =? 0) hash ft with
  | None => (- ENOMEM, ft)
  | Some l =>
      match fragment_entry_get l ft with
      | None => (- ENOMEM, ft)
      | Some old =>
          let fe := fragment_entry_set sec vrf iph sport dport old in
          (0, frag_put l (with_counts (f_expected fe) (u16 (f_received fe + payload_len iph)) fe) ft)
      end
  end.

Definition vr_fragment_get (sec vrf : Z) (iph : vr_ip) (ft : frag_tables) : option frag_loc * frag_tables :=
  let key := fragment_key vrf iph in
  match search_entry (fun fe => bool_decide (f_key fe = key)) (key_hash key) ft with
  | None => (None, ft)
  | Some l =>
      match fragment_entry_get l ft with
      | None => (None, ft)
      | Some fe => (Some l, frag_put l (with_time sec fe) ft)
      end
  end.

Definition clear_dip (fe : vr_fragment) : vr_fragment :=
  mk_frag (mk_fk (fk_sip (f_key fe)) 0 (fk_id (f_key fe)) (fk_vrf (f_key fe))) (f_sport fe) (f_dport fe) (f_qe fe)
    (f_time fe) (f_expected fe) (f_received fe) (f_port_info_valid fe).

Definition vr_fragment_del (l : frag_loc) (ft : frag_tables) : frag_tables :=
  match fragment_entry_get l ft with Some fe => frag_put l (clear_dip fe) ft | None => ft end.

(** dp-core/vr_proto_ip.c: the ports for a fragment that is not a head; the entry goes when
    all the bytes have passed. *)
Definition vr_inet_fragment_flow (sec vrf : Z) (iph : vr_ip) (ft : frag_tables) : option (Z * Z) * frag_tables :=
  match vr_fragment_get sec vrf iph ft with
  | (None, ft1) => (None, ft1)
  | (Some l, ft1) =>
      match fragment_entry_get l ft1 with
      | None => (None, ft1)
      | Some frag =>
          let received := u16 (f_received frag + payload_len iph) in
          let expected :=
            if vr_ip_fragment_tail iph then u16 (Z.land (ntohs (ip_frag_off iph)) 8191 * 8 + payload_len iph)
            else f_expected frag in
          let ft2 := frag_put l (with_counts expected received frag) ft1 in
          (Some (f_sport frag, f_dport frag), if received =? expected then vr_fragment_del l ft2 else ft2)
      end
  end.

(** ** The timer that clears the table *)

Definition reap_entry (sec : Z) (fe : vr_fragment) : vr_fragment :=
  if negb (f_dip fe =? 0) && (f_time fe + 1 <? sec) then clear_dip fe else fe.

Definition reap_step (sec start num_entries : Z) (table : list vr_fragment) (i : Z) : list vr_fragment :=
  let j := u32 (start + i) mod num_entries in
  match zget table j with Some fe => zset table j (reap_entry sec fe) | None => table end.

Definition fragment_reap (sec start num_entries : Z) (table : list vr_fragment) : list vr_fragment :=
  foldl (reap_step sec start num_entries) table (seqZ 0 ENTRIES_PER_SCAN).

Record scanner_params := mk_sp { sp_num_entries : Z; sp_last_scanned_entry : Z }.

Definition fragment_table_scanner (sec : Z) (sp : scanner_params) (table : list vr_fragment)
    : scanner_params * list vr_fragment :=
  (mk_sp (sp_num_entries sp) (u32 (sp_last_scanned_entry sp + ENTRIES_PER_SCAN) mod sp_num_entries sp),
   fragment_reap sec (sp_last_scanned_entry sp + 1) (sp_num_entries sp) table).

(** ** The assembler *)

Inductive event :=
  | E_pfree (pkt : frag_packet) (reason : Z)
  | E_flush (pnode : vr_packet_node) (vlan dvrf : Z)
  | E_free_element (block : Z).

(** What the lists of fragments share: the table, what has happened, the answers of the
    allocator. *)
Record assembler := mk_asm {
  as_tables : frag_tables;
  as_events : list event;
  as_oracle : list bool;
  as_fault : bool
}.

Definition emit (es : list event) (a : assembler) : assembler :=
  mk_asm (as_tables a) (as_events a ++ es) (as_oracle a) (as_fault a).
Definition set_tables (ft : frag_tables) (a : assembler) : assembler :=
  mk_asm ft (as_events a) (as_oracle a) (as_fault a).

Definition vr_fragment_queue_element_free (vfqe : vr_fragment_queue_element) (drop_reason : Z) (a : assembler) : assembler :=
  emit (match pl_packet (fqe_pnode vfqe) with
        | Some pkt => [E_pfree pkt drop_reason; E_free_element (fqe_block vfqe)]
        | None => [E_free_element (fqe_block vfqe)]
        end) a.

Definition fragment_free_frag (frag : vr_fragment) (a : assembler) : assembler :=
  foldl (fun a fqe => vr_fragment_queue_element_free fqe VP_DROP_FRAGMENTS a) a (f_qe frag).

(** Has the entry waited too long?  The sum wraps around. *)
Definition frag_expired (sec time : Z) : bool :=
  let dest := u32 (time + VR_ASSEMBLER_TIMEOUT_TIME) in
  if dest <? time then (sec <? time) && (dest <? sec) else (dest <? sec) || (sec <? time).

(** [clock n] is the reading of the clock for the [n]-th entry. *)
Fixpoint vr_assembler_table_scan (clock : nat -> Z) (bucket : list vr_fragment) (a : assembler)
    : Z * list vr_fragment * assembler :=
  match bucket with
  | [] => (0, [], a)
  | frag :: next =>
      let expired := frag_expired (clock 0%nat) (f_time frag) in
      let a1 := if expired then fragment_free_frag frag a else a in
      let '(scanned, next1, a2) := vr_assembler_table_scan (fun n => clock (S n)) next a1 in
      (u32 (scanned + 1), if expired then next1 else frag :: next1, a2)
  end.

(** The list up to the entry with the key, and from it on. *)
Fixpoint find_frag (key : vr_fragment_key) (bucket : list vr_fragment) : list vr_fragment * list vr_fragment :=
  match bucket with
  | [] => ([], [])
  | frag :: next =>
      if bool_decide (f_key frag = key) then ([], bucket)
      else let '(before, rest) := find_frag key next in (frag :: before, rest)
  end.

Section assembler.
(** What sending a packet on does to the table. *)
Context (flow_flush : vr_packet_node -> frag_tables -> frag_tables).

Definition vr_fragment_flush_queue_element (vfqe : vr_fragment_queue_element) (a : assembler) : assembler :=
  let pnode := fqe_pnode vfqe in
  match pl_packet pnode with
  | None => vr_fragment_queue_element_free vfqe VP_DROP_CLONED_ORIGINAL a
  | Some _ =>
      let a1 := set_tables (flow_flush pnode (as_tables a)) (emit [E_flush pnode (pl_vlan pnode) (pl_vrf pnode)] a) in
      let sent := mk_pnode None (pl_outer_src_ip pnode) (pl_inner_src_ip pnode) (pl_inner_dst_ip pnode) (pl_label pnode)
                    (pl_vif_idx pnode) (pl_flags pnode) (pl_dscp pnode) (pl_dotonep pnode) (pl_vrf pnode) (pl_vlan pnode) in
      vr_fragment_queue_element_free (mk_fqe (fqe_block vfqe) sent) VP_DROP_CLONED_ORIGINAL a1
  end.

Definition pnode_is_head (pnode : vr_packet_node) : bool := negb (Z.land (pl_flags pnode) PN_FLAG_FRAGMENT_HEAD =? 0).

(** The entry [frag] has been found between [before] and [next], or is new: the element
    joins it, and when the ports are known all that waits is sent on. *)
Definition assemble_into (vfqe : vr_fragment_queue_element) (before : list vr_fragment) (frag : vr_fragment)
    (next : list vr_fragment) (a : assembler) : list vr_fragment * assembler :=
  let '(frag1, a1) :=
    if pnode_is_head (fqe_pnode vfqe)
    then (with_queue (f_qe frag) true frag, vr_fragment_queue_element_free vfqe VP_DROP_CLONED_ORIGINAL a)
    else (with_queue (f_qe frag ++ [vfqe]) (f_port_info_valid frag) frag, a) in
  if f_port_info_valid frag1
  then (before ++ next,
        fragment_free_frag (with_queue [] true frag1)
          (foldl (fun a fqe => vr_fragment_flush_queue_element fqe a) a1 (f_qe frag1)))
  else (before ++ frag1 :: next, a1).

(** [sec0] and [sec]: the readings of the clock in [vr_fragment_get] and here. *)
Definition vr_fragment_assembler (sec0 sec : Z) (bucket : list vr_fragment) (vfqe : vr_fragment_queue_element)
    (a : assembler) : Z * list vr_fragment * assembler :=
  let pnode := fqe_pnode vfqe in
  match pl_packet pnode with
  | None => (0, bucket, mk_asm (as_tables a) (as_events a) (as_oracle a) true)
  | Some pkt =>
      let ip := pkt_network_header pkt in
      let frag_head := pnode_is_head pnode in
      let vfk := __fragment_key (pl_vrf pnode) (pl_inner_src_ip pnode) (pl_inner_dst_ip pnode) (ip_id ip) in
      let '(before, rest) := find_frag vfk bucket in
      let '(frag_flow, a0) :=
        if frag_head then (None, a)
        else let '(l, ft) := vr_fragment_get sec0 (pl_vrf pnode) ip (as_tables a) in (l, set_tables ft a) in
      match frag_flow with
      | Some _ => (0, bucket, vr_fragment_flush_queue_element vfqe a0)
      | None =>
          match rest with
          | frag :: next =>
              let '(bucket1, a1) := assemble_into vfqe before (with_time sec frag) next a0 in (0, bucket1, a1)
          | [] =>
              if frag_head then (0, bucket, vr_fragment_queue_element_free vfqe VP_DROP_CLONED_ORIGINAL a0)
              else if VR_MAX_FRAGMENTS_PER_ASSEMBLER_QUEUE <? zlen bucket
              then (0, bucket, vr_fragment_queue_element_free vfqe VP_DROP_FRAGMENT_QUEUE_FAIL a0)
              else
                let a1 := mk_asm (as_tables a0) (as_events a0) (tail (as_oracle a0)) (as_fault a0) in
                if match as_oracle a0 with [] => true | b :: _ => b end then
                  let '(bucket1, a2) := assemble_into vfqe [] (mk_frag vfk 0 0 [] sec 0 0 false) bucket a1 in (0, bucket1, a2)
                else (- ENOMEM, bucket, vr_fragment_queue_element_free vfqe VP_DROP_NO_MEMORY a1)
          end
      end
  end.

(** ** The work of the assembler thread (linux/vr_fragment_assembler.c) *)

(** The newest element is first; [tail_p] is moved in front of [tail] element by element. *)
Fixpoint reverse_queue (tail_p tail : list vr_fragment_queue_element) : list vr_fragment_queue_element :=
  match tail_p with [] => tail | e :: tail_pn => reverse_queue tail_pn (e :: tail) end.

Definition take_queue (q : list vr_fragment_queue_element) : list vr_fragment_queue_element :=
  match q with [] => [] | e :: tail_p => reverse_queue tail_p [e] end.

(** One element goes to the list of its hash.  [hash_of] is where the hosts differ. *)
Definition assemble_one (hash_of : vr_packet_node -> frag_packet -> Z) (sec : Z) (tb : list (list vr_fragment) * assembler)
    (e : vr_fragment_queue_element) : list (list vr_fragment) * assembler :=
  match pl_packet (fqe_pnode e) with
  | None => tb
  | Some pkt =>
      let index := hash_of (fqe_pnode e) pkt mod VR_LINUX_ASSEMBLER_BUCKETS in
      match zget tb.1 index with
      | None => (tb.1, mk_asm (as_tables tb.2) (as_events tb.2) (as_oracle tb.2) true)
      | Some bucket =>
          let '(_, bucket1, a1) := vr_fragment_assembler sec sec bucket e tb.2 in (zset tb.1 index bucket1, a1)
      end
  end.

Definition linux_hash (pnode : vr_packet_node) (pkt : frag_packet) : Z :=
  __vr_fragment_get_hash (pl_vrf pnode) (pl_inner_src_ip pnode) (pl_inner_dst_ip pnode) pkt.
Definition dpdk_hash (pnode : vr_packet_node) (pkt : frag_packet) : Z := vr_fragment_get_hash (pl_vrf pnode) pkt.

Definition vr_linux_fragment_assembler (sec : Z) (q : list vr_fragment_queue_element) (table : list (list vr_fragment))
    (a : assembler) : list (list vr_fragment) * assembler :=
  foldl (assemble_one linux_hash sec) (table, a) (take_queue q).

Definition dpdk_fragment_assembler (sec : Z) (q : list vr_fragment_queue_element) (table : list (list vr_fragment))
    (a : assembler) : list (list vr_fragment) * assembler :=
  foldl (assemble_one dpdk_hash sec) (table, a) (take_queue q).

End assembler.

Definition vr_linux_assembler_scan_thresh : Z := 1024.

(** The scan of the lists from [i + j] on, [n] lists are left: where it stops, and how far
    it has come. *)
Fixpoint linux_scan_loop (sec : Z) (n : nat) (i j scanned : Z) (table : list (list vr_fragment)) (a : assembler)
    : Z * list (list vr_fragment) * assembler :=
  match n with
  | O => (j, table, a)
  | S n' =>
      let k := (i + j) mod VR_LINUX_ASSEMBLER_BUCKETS in
      match zget table k with
      | None => (j, table, mk_asm (as_tables a) (as_events a) (as_oracle a) true)
      | Some bucket =>
          let '(s, bucket1, a1) := vr_assembler_table_scan (fun _ => sec) bucket a in
          let scanned1 := u32 (scanned + s) in
          let table1 := zset table k bucket1 in
          if vr_linux_assembler_scan_thresh <? scanned1 then (j + 1, table1, a1)
          else linux_scan_loop sec n' i (j + 1) scanned1 table1 a1
      end
  end.

Definition vr_linux_assembler_table_scan (sec : Z) (scan_index : Z) (table : list (list vr_fragment)) (a : assembler)
    : Z * list (list vr_fragment) * assembler :=
  let '(j, table1, a1) := linux_scan_loop sec (Z.to_nat VR_LINUX_ASSEMBLER_BUCKETS) scan_index 0 0 table a in
  ((scan_index + j) mod VR_LINUX_ASSEMBLER_BUCKETS, table1, a1).

(** ** The queue of a processor *)

(** The newest element is first. *)
Record vr_fragment_queue := mk_vfq { vfq_length : Z; vfq_tail : list vr_fragment_queue_element }.

Record frag_fmd := mk_ffmd {
  fmd_outer_src_ip : Z;
  fmd_label : Z;
  fmd_label_is_vxlan : bool;
  fmd_to_me : bool;
  fmd_dscp : Z;
  fmd_dotonep : Z;
  fmd_dvrf : Z;
  fmd_vlan : Z
}.

(** [old]: what the fresh block holds. *)
Definition vr_flow_fill_pnode (old : vr_packet_node) (pkt : frag_packet) (fmd : frag_fmd) : vr_packet_node :=
  let flags1 := if fmd_label_is_vxlan fmd then PN_FLAG_LABEL_IS_VXLAN_ID else 0 in
  let flags2 := if fmd_to_me fmd then Z.lor flags1 PN_FLAG_TO_ME else flags1 in
  let '(src, dst, flags) :=
    match pkt_inner_network_header pkt with
    | Some ip =>
        if vr_ip_is_ip4 ip
        then (ip_saddr ip, ip_daddr ip, if vr_ip_fragment_head ip then Z.lor flags2 PN_FLAG_FRAGMENT_HEAD else flags2)
        else (pl_inner_src_ip old, pl_inner_dst_ip old, flags2)
    | None => (pl_inner_src_ip old, pl_inner_dst_ip old, flags2)
    end in
  mk_pnode (Some pkt) (fmd_outer_src_ip fmd) src dst (u32 (fmd_label fmd)) (vp_vif_idx pkt) flags (fmd_dscp fmd)
    (fmd_dotonep fmd) (u32 (fmd_dvrf fmd)) (fmd_vlan fmd).

(** The assembler takes the whole list when [t] is set. *)
Definition grab (t : bool) (q : vr_fragment_queue) (g : list (list vr_fragment_queue_element))
    : vr_fragment_queue * list (list vr_fragment_queue_element) :=
  if t then (mk_vfq (vfq_length q) [], g ++ [vfq_tail q]) else (q, g).

(** An attempt: [taken] says whether the assembler takes the list between the read of the
    tail and the compare-and-swap, which then fails unless the tail was null; [g] are the
    lists it has taken. *)
Fixpoint enqueue_attempts (n : nat) (taken : list bool) (fqe : vr_fragment_queue_element) (q : vr_fragment_queue)
    (g : list (list vr_fragment_queue_element))
    : bool * vr_fragment_queue * list (list vr_fragment_queue_element) :=
  match n with
  | O => (false, q, g)
  | S n' =>
      let tl := vfq_tail q in
      let length1 := vfq_length q + 1 in
      let '(q1, g1) := grab (default false (head taken)) (mk_vfq length1 tl) g in
      match tl, vfq_tail q1 with
      | [], _ => (true, mk_vfq 1 [fqe], g1)
      | _ :: _, [] => enqueue_attempts n' (tail taken) fqe (mk_vfq (length1 - 1) []) g1
      | _ :: _, _ :: _ => (true, mk_vfq length1 (fqe :: tl), g1)
      end
  end.

(** [limit]: the host has too many fragments; [block]: the block of the allocator, if it
    has one, with what it holds; [taken]: as above, first for the time before the loop. *)
Definition vr_fragment_enqueue (limit : bool) (block : option (Z * vr_packet_node)) (taken : list bool)
    (q : vr_fragment_queue) (pkt : frag_packet) (fmd : frag_fmd)
    : Z * vr_fragment_queue * list (list vr_fragment_queue_element) * list event :=
  let drop := [E_pfree pkt VP_DROP_FRAGMENTS] in
  let q0 := match vfq_tail q with [] => mk_vfq 0 [] | _ :: _ => q end in
  if match vfq_tail q with [] => false | _ :: _ => VR_MAX_FRAGMENTS_PER_CPU_QUEUE <? vfq_length q + 1 end
  then (-1, q0, [], drop)
  else if limit then (-1, q0, [], drop)
  else match block with
  | None => (-1, q0, [], drop)
  | Some (b, old) =>
      let pkt1 := mk_fpkt (vp_id pkt) (Z.ldiff (vp_flags pkt) VP_FLAG_FLOW_SET) (vp_vif_idx pkt) (pkt_network_header pkt)
                    (pkt_inner_network_header pkt) in
      let fqe := mk_fqe b (vr_flow_fill_pnode old pkt1 fmd) in
      let '(q1, g) := grab (default false (head taken)) q0 [] in
      match enqueue_attempts VR_FRAG_ENQUEUE_ATTEMPTS (tail taken) fqe q1 g with
      | (true, q2, g2) => (0, q2, g2, [])
      | (false, q2, g2) => (-1, q2, g2, [E_free_element b; E_pfree pkt1 VP_DROP_FRAGMENTS])
      end
  end.

Definition vr_fragment_queue_free (q : vr_fragment_queue) : vr_fragment_queue * list event :=
  (mk_vfq (vfq_length q) [],
   concat ((fun e => match pl_packet (fqe_pnode e) with
                     | Some pkt => [E_pfree pkt VP_DROP_MISC; E_free_element (fqe_block e)]
                     | None => [E_free_element (fqe_block e)]
                     end) <$> vfq_tail q)).

(** ** Set-up and tear-down *)

Definition fragment_size : Z := 45.
Definition timer_size : Z := 40.
Definition scanner_size : Z := 24.

(** A timer: its block and the block of the parameters of its function. *)
Record vr_timer := mk_timer { vt_block : Z; vt_vr_arg : option Z }.

(** The part of [struct vrouter] that is set up here, and the timer of the assembler;
    [fr_timers]: which of the coming calls to [vr_create_timer] succeed. *)
Record frag_router := mk_fr {
  vr_fragment_table : option Btable.vr_btable;
  vr_fragment_otable : option Btable.vr_btable;
  vr_fragment_table_scanner : option vr_timer;
  vr_fragment_otable_scanner : option vr_timer;
  vr_assembler_table_scan_timer : option vr_timer;
  fr_mem : mem;
  fr_timers : list bool
}.

Definition create_timer (timers : list bool) : bool * list bool :=
  (match timers with [] => true | b :: _ => b end, tail timers).

Definition fragment_table_scanner_init (table : option Btable.vr_btable) (m : mem) (timers : list bool)
    : option vr_timer * mem * list bool :=
  match table with
  | None => (None, m, timers)
  | Some _ =>
      match m_alloc scanner_size m with
      | (None, m1) => (None, m1, timers)
      | (Some scanner, m1) =>
          match m_alloc timer_size m1 with
          | (None, m2) => (None, m_free scanner m2, timers)
          | (Some vtimer, m2) =>
              let '(ok, timers1) := create_timer timers in
              if ok then (Some (mk_timer vtimer (Some scanner)), m2, timers1)
              else (None, m_free scanner m2, timers1)
          end
      end
  end.

Definition free_timer (t : option vr_timer) (m : mem) : mem :=
  match t with
  | Some t => m_free (vt_block t) (match vt_vr_arg t with Some b => m_free b m | None => m end)
  | None => m
  end.

Definition vr_fragment_table_scanner_exit (r : frag_router) : frag_router :=
  mk_fr (vr_fragment_table r) (vr_fragment_otable r) None None (vr_assembler_table_scan_timer r)
    (free_timer (vr_fragment_otable_scanner r) (free_timer (vr_fragment_table_scanner r) (fr_mem r))) (fr_timers r).

(** The pointers to the tables stay. *)
Definition vr_fragment_table_exit (r : frag_router) : frag_router :=
  let r1 := vr_fragment_table_scanner_exit r in
  let free_table t m := match t with Some _ => Btable.vr_btable_free t m | None => m end in
  mk_fr (vr_fragment_table r1) (vr_fragment_otable r1) (vr_fragment_table_scanner r1) (vr_fragment_otable_scanner r1)
    (vr_assembler_table_scan_timer r1)
    (free_table (vr_fragment_otable r1) (free_table (vr_fragment_table r1) (fr_mem r1))) (fr_timers r1).

Definition vr_fragment_table_scanner_init (r : frag_router) : Z * frag_router :=
  let '(t, m, k) := match vr_fragment_table_scanner r with
                    | Some t => (Some t, fr_mem r, fr_timers r)
                    | None => fragment_table_scanner_init (vr_fragment_table r) (fr_mem r) (fr_timers r)
                    end in
  let r1 := mk_fr (vr_fragment_table r) (vr_fragment_otable r) t (vr_fragment_otable_scanner r)
              (vr_assembler_table_scan_timer r) m k in
  match t with
  | None => (- ENOMEM, r1)
  | Some _ =>
      let '(t, m, k) := match vr_fragment_otable_scanner r1 with
                        | Some t => (Some t, fr_mem r1, fr_timers r1)
                        | None => fragment_table_scanner_init (vr_fragment_otable r1) (fr_mem r1) (fr_timers r1)
                        end in
      (match t with None => - ENOMEM | Some _ => 0 end,
       mk_fr (vr_fragment_table r1) (vr_fragment_otable r1) (vr_fragment_table_scanner r1) t
         (vr_assembler_table_scan_timer r1) m k)
  end.

Definition vr_fragment_table_init (r : frag_router) : Z * frag_router :=
  let '(t, m) := match vr_fragment_table r with
                 | Some t => (Some t, fr_mem r)
                 | None => Btable.vr_btable_alloc (FRAG_TABLE_ENTRIES * FRAG_TABLE_BUCKETS) fragment_size (fr_mem r)
                 end in
  let r1 := mk_fr t (vr_fragment_otable r) (vr_fragment_table_scanner r) (vr_fragment_otable_scanner r)
              (vr_assembler_table_scan_timer r) m (fr_timers r) in
  match t with
  | None => (- ENOMEM, r1)
  | Some _ =>
      let '(t, m) := match vr_fragment_otable r1 with
                     | Some t => (Some t, fr_mem r1)
                     | None => Btable.vr_btable_alloc FRAG_OTABLE_ENTRIES fragment_size (fr_mem r1)
                     end in
      let r2 := mk_fr (vr_fragment_table r1) t (vr_fragment_table_scanner r1) (vr_fragment_otable_scanner r1)
                  (vr_assembler_table_scan_timer r1) m (fr_timers r1) in
      match t with None => (- ENOMEM, r2) | Some _ => vr_fragment_table_scanner_init r2 end
  end.

Definition set_scan_timer (t : option vr_timer) (m : mem) (k : list bool) (r : frag_router) : frag_router :=
  mk_fr (vr_fragment_table r) (vr_fragment_otable r) (vr_fragment_table_scanner r) (vr_fragment_otable_scanner r) t m k.

Definition vr_assembler_table_scan_exit (r : frag_router) : frag_router :=
  set_scan_timer None (free_timer (vr_assembler_table_scan_timer r) (fr_mem r)) (fr_timers r) r.

(** A timer that cannot be created is not reported. *)
Definition vr_assembler_table_scan_init (r : frag_router) : Z * frag_router :=
  match m_alloc timer_size (fr_mem r) with
  | (None, m) => (- ENOMEM, set_scan_timer None m (fr_timers r) r)
  | (Some b, m) =>
      let '(ok, k) := create_timer (fr_timers r) in
      (0, if ok then set_scan_timer (Some (mk_timer b None)) m k r else set_scan_timer None (m_free b m) k r)
  end.

End Fragment.
