(* ===== verification/FragmentProofs.v ===== *)
(** * Fragments: properties *)

From stdpp Require Import gmap.
From S2P Require Import Prelude Hash Fragment.

Module FragmentProofs.
Import Fragment.

(** ** The table of ports *)

Definition frag_slots (hash : Z) : list frag_loc := table_slots hash ++ otable_slots hash.

(** The tables have their sizes, and an entry in use is where its hash leads. *)
Record ft_ok (ft : frag_tables) : Prop := {
  fo_table : zlen (ft_table ft) = FRAG_TABLE_ENTRIES * FRAG_TABLE_BUCKETS;
  fo_otable : zlen (ft_otable ft) = FRAG_OTABLE_ENTRIES;
  fo_placed : forall i fe, zget (ft_table ft) i = Some fe -> f_dip fe <> 0 -> InTable i ∈ table_slots (key_hash (f_key fe))
}.

Lemma first_entry_some test slots ft l :
  first_entry test slots ft = Some l -> l ∈ slots /\ exists fe, fragment_entry_get l ft = Some fe /\ test fe = true.
Proof.
  induction slots as [|l0 slots IH]; cbn; [done|]. destruct (fragment_entry_get l0 ft) as [fe|] eqn:E.
  - destruct (test fe) eqn:Ht.
    + intros [= <-]. split; [set_solver|]. eauto.
    + intros Hx. destruct (IH Hx). split; [set_solver|done].
  - intros Hx. destruct (IH Hx). split; [set_solver|done].
Qed.

Lemma first_entry_none test slots ft l fe :
  first_entry test slots ft = None -> l ∈ slots -> fragment_entry_get l ft = Some fe -> test fe = false.
Proof.
  induction slots as [|l0 slots IH]; cbn; [set_solver|]. intros Hx Hl Hg. apply elem_of_cons in Hl as [->|Hl].
  - rewrite Hg in Hx. by destruct (test fe).
  - apply IH; [|done|done]. destruct (fragment_entry_get l0 ft); [|done]. by destruct (test v).
Qed.

Lemma search_some test hash ft l :
  search_entry test hash ft = Some l ->
  l ∈ frag_slots hash /\ exists fe, fragment_entry_get l ft = Some fe /\ test fe = true.
Proof.
  unfold search_entry, frag_slots. rewrite elem_of_app. destruct (first_entry test (table_slots hash) ft) eqn:E.
  - intros [= <-]. apply first_entry_some in E as [? ?]. auto.
  - intros Hx. apply first_entry_some in Hx as [? ?]. auto.
Qed.

Lemma search_none test hash ft l fe :
  search_entry test hash ft = None -> l ∈ frag_slots hash -> fragment_entry_get l ft = Some fe -> test fe = false.
Proof.
  unfold search_entry, frag_slots. rewrite elem_of_app. destruct (first_entry test (table_slots hash) ft) eqn:E; [done|].
  intros Hx [Hl|Hl] Hg; [exact (first_entry_none _ _ _ _ _ E Hl Hg)|exact (first_entry_none _ _ _ _ _ Hx Hl Hg)].
Qed.

(** The overflow loop visits every entry. *)
Lemma otable_slots_all hash i : 0 <= i < FRAG_OTABLE_ENTRIES -> InOtable i ∈ otable_slots hash.
Proof.
  intros Hi. apply list_elem_of_fmap. exists ((i - hash) mod FRAG_OTABLE_ENTRIES). split.
  - f_equal. rewrite Z.add_mod_idemp_l, Z.add_mod_idemp_r by done. rewrite Zplus_minus. by rewrite Z.mod_small.
  - apply elem_of_seqZ. pose proof (Z.mod_pos_bound (i - hash) FRAG_OTABLE_ENTRIES ltac:(done)). lia.
Qed.

Lemma placed ft l fe :
  ft_ok ft -> fragment_entry_get l ft = Some fe -> f_dip fe <> 0 -> l ∈ frag_slots (key_hash (f_key fe)).
Proof.
  intros Hok Hg Hd. unfold frag_slots. apply elem_of_app. destruct l as [i|i]; cbn in Hg.
  - left. by apply (fo_placed _ Hok).
  - right. apply otable_slots_all. rewrite <- (fo_otable _ Hok). by apply zget_range in Hg.
Qed.

Lemma get_put l l' fe ft :
  is_Some (fragment_entry_get l ft) ->
  fragment_entry_get l' (frag_put l fe ft) = if decide (l' = l) then Some fe else fragment_entry_get l' ft.
Proof.
  intros [old Hg]. destruct l as [i|i], l' as [j|j]; cbn in *; try (by rewrite decide_False by done).
  all: apply zget_range in Hg; rewrite zget_zset; repeat case_decide; simplify_eq; try done; naive_solver.
Qed.

Lemma ft_ok_put ft l old fe :
  ft_ok ft -> fragment_entry_get l ft = Some old -> (f_dip fe <> 0 -> l ∈ frag_slots (key_hash (f_key fe))) ->
  ft_ok (frag_put l fe ft).
Proof.
  intros Hok Hg Hp. split.
  - destruct l; cbn; rewrite ?zlen_zset; apply Hok.
  - destruct l; cbn; rewrite ?zlen_zset; apply Hok.
  - intros i fe' Hi Hd. assert (Hgi : fragment_entry_get (InTable i) (frag_put l fe ft) = Some fe') by done.
    rewrite get_put in Hgi by eauto. case_decide as E.
    + injection Hgi as <-. subst l. specialize (Hp Hd). unfold frag_slots in Hp. apply elem_of_app in Hp as [?|Hx]; [done|].
      apply list_elem_of_fmap in Hx as (? & ? & _). done.
    + by apply (fo_placed _ Hok).
Qed.

(** An entry is changed but for its key, or given up. *)
Lemma ft_ok_same_key ft l old fe :
  ft_ok ft -> fragment_entry_get l ft = Some old -> f_key fe = f_key old -> ft_ok (frag_put l fe ft).
Proof. intros Hok Hg Hk. eapply ft_ok_put; [done|done|]. unfold f_dip. rewrite Hk. by apply (placed ft). Qed.

Lemma ft_ok_del ft l : ft_ok ft -> ft_ok (vr_fragment_del l ft).
Proof. intros Hok. unfold vr_fragment_del. case_match; [|done]. by eapply ft_ok_put. Qed.

Lemma fragment_get_spec sec vrf iph ft :
  ft_ok ft -> ip_daddr iph <> 0 ->
  match vr_fragment_get sec vrf iph ft with
  | (Some l, ft') => exists fe, fragment_entry_get l ft = Some fe /\ f_key fe = fragment_key vrf iph /\
      ft' = frag_put l (with_time sec fe) ft /\ ft_ok ft'
  | (None, ft') => ft' = ft /\ forall l fe, fragment_entry_get l ft = Some fe -> f_key fe <> fragment_key vrf iph
  end.
Proof.
  intros Hok Hd. unfold vr_fragment_get. set (key := fragment_key vrf iph).
  destruct (search_entry _ (key_hash key) ft) as [l|] eqn:Es.
  - apply search_some in Es as (_ & fe & Hg & Ht). apply bool_decide_eq_true in Ht. rewrite Hg.
    exists fe. split_and!; try done. by eapply ft_ok_same_key.
  - split; [done|]. intros l fe Hg Hk. eapply search_none in Es; [|rewrite <- Hk; apply (placed ft); [done|done|]|exact Hg].
    + by apply bool_decide_eq_false in Es.
    + unfold f_dip. by rewrite Hk.
Qed.

Lemma fragment_add_cases sec vrf iph sport dport ft :
  ft_ok ft ->
  match vr_fragment_add sec vrf iph sport dport ft with
  | (ret, ft') =>
      ft_ok ft' /\
      (ret = 0 /\ (exists l old, fragment_entry_get l ft = Some old /\ f_dip old = 0 /\
         ft' = frag_put l (mk_frag (fragment_key vrf iph) (u16 sport) (u16 dport) (f_qe old) sec 0 (u16 (payload_len iph))
                             (f_port_info_valid old)) ft) \/
       ret = - ENOMEM /\ ft' = ft /\
         forall l fe, l ∈ frag_slots (key_hash (fragment_key vrf iph)) -> fragment_entry_get l ft = Some fe -> f_dip fe <> 0)
  end.
Proof.
  intros Hok. unfold vr_fragment_add. set (key := fragment_key vrf iph).
  destruct (search_entry _ (key_hash key) ft) as [l|] eqn:Es.
  - apply search_some in Es as (Hl & old & Hg & Ht). apply Z.eqb_eq in Ht. rewrite Hg. split.
    + eapply ft_ok_put; [done|done|]. intros _. exact Hl.
    + left. split; [done|]. exists l, old. split_and!; done.
  - split; [done|]. right. split_and!; try done. intros l fe Hl Hg. eapply search_none in Es; [|done|done].
    by apply Z.eqb_neq in Es.
Qed.

(** The look-up of a fragment.  Whatever was added, changed and cleared before: when an
    entry for the packet is in either table it is found, and its time is renewed; an entry
    that is found is for the packet; and an add makes an entry unless every place for it is
    in use. *)
Theorem fragment_lookup sec vrf iph sport dport ft :
  ft_ok ft -> ip_daddr iph <> 0 ->
  (match vr_fragment_get sec vrf iph ft with
   | (Some l, ft') => exists fe, fragment_entry_get l ft = Some fe /\ f_key fe = fragment_key vrf iph /\
       ft' = frag_put l (with_time sec fe) ft /\ ft_ok ft'
   | (None, ft') => ft' = ft /\ forall l fe, fragment_entry_get l ft = Some fe -> f_key fe <> fragment_key vrf iph
   end) /\
  let '(ret, ft') := vr_fragment_add sec vrf iph sport dport ft in
  ft_ok ft' /\
  (ret = 0 /\ is_Some (vr_fragment_get sec vrf iph ft').1 \/
   ret = - ENOMEM /\ ft' = ft /\
     forall l fe, l ∈ frag_slots (key_hash (fragment_key vrf iph)) -> fragment_entry_get l ft = Some fe -> f_dip fe <> 0).
Proof.
  intros Hok Hd. split; [by apply fragment_get_spec|]. pose proof (fragment_add_cases sec vrf iph sport dport ft Hok) as Ha.
  destruct (vr_fragment_add sec vrf iph sport dport ft) as [ret ft']. destruct Ha as [Hok' Ha]. split; [done|].
  destruct Ha as [(-> & l & old & Hg & _ & E)|?]; [left|by right]. split; [done|].
  pose proof (fragment_get_spec sec vrf iph ft' Hok' Hd) as Hs. destruct (vr_fragment_get sec vrf iph ft') as [[l'|] ft2]; [by eexists|].
  destruct Hs as [_ Hn]. exfalso. eapply (Hn l); [subst ft'; rewrite get_put, decide_True by eauto; done|done].
Qed.

(** ** All the fragments of a packet *)

(** The key is in one entry, [l], with these counts and ports. *)
Record waiting (ft : frag_tables) (key : vr_fragment_key) (l : frag_loc) (expected received sport dport : Z) : Prop := {
  wt_ok : ft_ok ft;
  wt_entry : exists fe, fragment_entry_get l ft = Some fe /\ f_key fe = key /\ f_expected fe = expected /\
    f_received fe = received /\ f_sport fe = sport /\ f_dport fe = dport;
  wt_only : forall l' fe, fragment_entry_get l' ft = Some fe -> f_key fe = key -> l' = l
}.

Definition absent (ft : frag_tables) (key : vr_fragment_key) : Prop :=
  ft_ok ft /\ forall l fe, fragment_entry_get l ft = Some fe -> f_key fe <> key.

Lemma waiting_put ft key l e r sp dp fe e' r' :
  waiting ft key l e r sp dp -> f_key fe = key -> f_expected fe = e' -> f_received fe = r' -> f_sport fe = sp -> f_dport fe = dp ->
  waiting (frag_put l fe ft) key l e' r' sp dp.
Proof.
  intros [Hok (old & Hg & Hk & _) Honly] H1 H2 H3 H4 H5. split.
  - eapply ft_ok_same_key; [done|done|congruence].
  - exists fe. rewrite get_put, decide_True by eauto. done.
  - intros l' fe' Hg' Hk'. rewrite get_put in Hg' by eauto. case_decide as E; [done|]. by apply (Honly l' fe').
Qed.

Lemma waiting_del ft key l e r sp dp :
  fk_dip key <> 0 -> waiting ft key l e r sp dp -> absent (vr_fragment_del l ft) key.
Proof.
  intros Hd [Hok (old & Hg & Hk & _) Honly]. split; [by apply ft_ok_del|]. intros l' fe' Hg' Hk'.
  unfold vr_fragment_del in Hg'. rewrite Hg, get_put in Hg' by eauto. case_decide as E.
  - injection Hg' as <-. apply Hd. by rewrite <- Hk'.
  - apply E. by apply (Honly l' fe').
Qed.

(** The end of the packet, as its last fragment tells it. *)
Definition tail_end (iph : vr_ip) : Z := Z.land (ntohs (ip_frag_off iph)) 8191 * 8 + payload_len iph.

Lemma pass_one sec vrf iph ft l e r sp dp :
  waiting ft (fragment_key vrf iph) l e r sp dp -> ip_daddr iph <> 0 ->
  let r' := u16 (r + payload_len iph) in
  let e' := if vr_ip_fragment_tail iph then u16 (tail_end iph) else e in
  let '(ports, ft') := vr_inet_fragment_flow sec vrf iph ft in
  ports = Some (sp, dp) /\
  if r' =? e' then absent ft' (fragment_key vrf iph) else waiting ft' (fragment_key vrf iph) l e' r' sp dp.
Proof.
  intros Hw Hd r' e'. unfold vr_inet_fragment_flow. pose proof (wt_entry _ _ _ _ _ _ _ Hw) as (fe & Hg & Hk & He & Hr & Hsp & Hdp).
  pose proof (fragment_get_spec sec vrf iph ft (wt_ok _ _ _ _ _ _ _ Hw) Hd) as Hs.
  destruct (vr_fragment_get sec vrf iph ft) as [[l0|] ft1]; [|destruct Hs as [_ Hn]; by destruct (Hn l fe)].
  destruct Hs as (fe0 & Hg0 & Hk0 & -> & _). assert (l0 = l) as -> by (by apply (wt_only _ _ _ _ _ _ _ Hw l0 fe0)).
  assert (fe0 = fe) as -> by congruence. rewrite get_put, decide_True by eauto. cbn [f_received f_expected with_time f_sport f_dport].
  rewrite Hr, He, Hsp, Hdp. fold r'. change (u16 (Z.land (ntohs (ip_frag_off iph)) 8191 * 8 + payload_len iph)) with (u16 (tail_end iph)).
  fold e'. split; [done|]. assert (Hw1 : waiting (frag_put l (with_time sec fe) ft) (fragment_key vrf iph) l e r sp dp)
    by (by eapply waiting_put).
  assert (Hw2 : waiting (frag_put l (with_counts e' r' (with_time sec fe)) (frag_put l (with_time sec fe) ft))
    (fragment_key vrf iph) l e' r' sp dp) by (by eapply waiting_put).
  destruct (r' =? e'); [|done]. by eapply waiting_del.
Qed.

(** The fragments that follow the head, each with the time at which it passes. *)
Fixpoint pass_all (vrf : Z) (pieces : list (Z * vr_ip)) (ft : frag_tables) : list (option (Z * Z)) * frag_tables :=
  match pieces with
  | [] => ([], ft)
  | (sec, iph) :: pieces' =>
      let '(ports, ft1) := vr_inet_fragment_flow sec vrf iph ft in
      let '(rest, ft2) := pass_all vrf pieces' ft1 in (ports :: rest, ft2)
  end.

Definition total (pieces : list (Z * vr_ip)) : Z := foldr (fun p n => payload_len p.2 + n) 0 pieces.

(** Fragments of one packet of [len] bytes: the last one says where the packet ends. *)
Definition piece_of (key : vr_fragment_key) (vrf len : Z) (p : Z * vr_ip) : Prop :=
  fragment_key vrf p.2 = key /\ 0 < payload_len p.2 /\ (vr_ip_fragment_tail p.2 = true -> tail_end p.2 = len).

Lemma total_pos key vrf len pieces : Forall (piece_of key vrf len) pieces -> pieces <> [] -> 0 < total pieces.
Proof.
  induction 1 as [|p ps [_ [Hp _]] Hps IH]; [done|]. intros _. change (0 < payload_len p.2 + total ps). destruct ps; [cbn; lia|].
  specialize (IH ltac:(done)). lia.
Qed.

Lemma pass_all_spec key vrf len pieces :
  Forall (piece_of key vrf len) pieces -> fk_dip key <> 0 -> len < 65536 -> pieces <> [] ->
  forall ft l e r sp dp, waiting ft key l e r sp dp -> 0 < r -> r + total pieces = len ->
  (e = len \/ e = 0 /\ Exists (fun p => vr_ip_fragment_tail p.2 = true) pieces) ->
  let '(ports, ft') := pass_all vrf pieces ft in
  ports = replicate (length pieces) (Some (sp, dp)) /\ absent ft' key.
Proof.
  intros Hps Hd Hlen. induction Hps as [|[sec iph] ps (Hk & Hpos & Htl) Hps IH]; [done|]. intros _ ft l e r sp dp Hw Hr Htot He.
  cbn [pass_all total foldr snd] in *. subst key. pose proof (pass_one sec vrf iph ft l e r sp dp Hw Hd) as Ho.
  destruct (vr_inet_fragment_flow sec vrf iph ft) as [ports ft1]. cbn zeta in Ho. destruct Ho as [-> Ho]. fold (total ps) in Htot.
  assert (Hps0 : 0 <= total ps).
  { destruct ps; [done|]. apply Z.lt_le_incl. by apply (total_pos _ _ _ _ Hps). }
  rewrite (u16_small (r + payload_len iph)) in Ho by lia. set (e' := if vr_ip_fragment_tail iph then _ else e) in Ho.
  assert (He' : e' = len \/ e' = 0 /\ Exists (fun p => vr_ip_fragment_tail p.2 = true) ps).
  { unfold e'. destruct (vr_ip_fragment_tail iph) eqn:Et.
    - left. rewrite (Htl eq_refl). apply u16_small. lia.
    - destruct He as [->|[-> Hex]]; [by left|]. right. split; [done|]. apply Exists_cons in Hex as [Hx|Hx]; [|done]. cbn in Hx. congruence. }
  destruct ps as [|p ps].
  - cbn. destruct He' as [->|[_ Hex]]; [|by apply Exists_nil in Hex]. rewrite (proj2 (Z.eqb_eq _ _)) in Ho by (cbn in Htot; lia). done.
  - assert (0 < total (p :: ps)) by (by apply (total_pos _ _ _ _ Hps)).
    rewrite (proj2 (Z.eqb_neq _ _)) in Ho by (destruct He' as [->|[-> _]]; lia).
    specialize (IH ltac:(done) ft1 l e' (r + payload_len iph) sp dp Ho ltac:(lia) ltac:(lia) He').
    destruct (pass_all vrf (p :: ps) ft1) as [rest ft2]. destruct IH as [-> IH]. done.
Qed.

(** C30: the fragments of a packet, after its head and in whatever order: every one of them
    gets the ports of the head, and when the last has passed the entry is gone. *)
Theorem fragment_packet_passes sec0 vrf head sport dport pieces ft ft1 :
  absent ft (fragment_key vrf head) -> ip_daddr head <> 0 ->
  vr_fragment_add sec0 vrf head sport dport ft = (0, ft1) ->
  0 < payload_len head -> payload_len head + total pieces < 65536 ->
  Forall (piece_of (fragment_key vrf head) vrf (payload_len head + total pieces)) pieces ->
  Exists (fun p => vr_ip_fragment_tail p.2 = true) pieces ->
  let '(ports, ft2) := pass_all vrf pieces ft1 in
  ports = replicate (length pieces) (Some (u16 sport, u16 dport)) /\
  ft_ok ft2 /\ forall sec, (vr_fragment_get sec vrf head ft2).1 = None.
Proof.
  intros [Hok Hno] Hd Ha Hh Hlen Hps Hex. pose proof (fragment_add_cases sec0 vrf head sport dport ft Hok) as Hc.
  rewrite Ha in Hc. destruct Hc as [Hok1 [(_ & l & old & Hg & _ & ->)|(Hx & _)]]; [|done].
  assert (Hps0 : pieces <> []) by (by intros ->; apply Exists_nil in Hex).
  pose proof (total_pos _ _ _ _ Hps Hps0) as Htot.
  assert (Hw : waiting (frag_put l (mk_frag (fragment_key vrf head) (u16 sport) (u16 dport) (f_qe old) sec0 0
    (u16 (payload_len head)) (f_port_info_valid old)) ft) (fragment_key vrf head) l 0 (payload_len head) (u16 sport) (u16 dport)).
  { split; [done| |].
    - eexists. rewrite get_put, decide_True by eauto. split; [done|]. cbn. rewrite u16_small by lia. done.
    - intros l' fe' Hg' Hk'. rewrite get_put in Hg' by eauto. case_decide as E; [done|]. by apply Hno in Hg'. }
  pose proof (pass_all_spec _ vrf _ pieces Hps Hd Hlen Hps0 _ _ _ _ _ _ Hw Hh eq_refl ltac:(by right)) as Hp.
  destruct (pass_all vrf pieces _) as [ports ft2]. destruct Hp as [-> [Hok2 Habs]]. split_and!; try done.
  intros sec. pose proof (fragment_get_spec sec vrf head ft2 Hok2 Hd) as Hs.
  destruct (vr_fragment_get sec vrf head ft2) as [[l'|] ft3]; [|done]. destruct Hs as (fe & Hg' & Hk' & _). by apply Habs in Hg'.
Qed.

(** ** Clearing old entries *)

Lemma reap_step_get sec start num t i j :
  zlen t = num -> 0 < num -> 0 <= start + i <= UINT_MAX ->
  zget (reap_step sec start num t i) j =
    if decide (j = (start + i) mod num) then reap_entry sec <$> zget t j else zget t j.
Proof.
  intros Hl Hn Hi. unfold reap_step. rewrite u32_small by done. set (k := (start + i) mod num).
  pose proof (Z.mod_pos_bound (start + i) num Hn) as Hk. fold k in Hk.
  destruct (zget_is_Some t k) as [fe Hfe]; [lia|]. rewrite Hfe, zget_zset. repeat case_decide; subst; try done.
  - by rewrite Hfe.
  - exfalso. naive_solver lia.
  - exfalso. naive_solver.
Qed.

Lemma reap_step_len sec start num t i : zlen (reap_step sec start num t i) = zlen t.
Proof. unfold reap_step. case_match; [apply zlen_zset|done]. Qed.

(** The distance from where the scan starts. *)
Definition dist (num start j : Z) : Z := (j - start) mod num.

Lemma dist_range num start j : 0 < num -> 0 <= dist num start j < num.
Proof. intros. by apply Z.mod_pos_bound. Qed.

Lemma dist_eq num start i j : 0 < num -> 0 <= j < num -> 0 <= i < num -> (j = (start + i) mod num <-> dist num start j = i).
Proof.
  intros Hn Hj Hi. unfold dist. split.
  - intros ->. rewrite Zminus_mod_idemp_l. replace (start + i - start) with i by lia. by apply Z.mod_small.
  - intros <-. rewrite Z.add_mod_idemp_r by lia. replace (start + (j - start)) with j by lia. symmetry. by apply Z.mod_small.
Qed.

Lemma reap_fold sec start num t (n : nat) :
  zlen t = num -> Z.of_nat n <= num -> 0 <= start -> start + num <= UINT_MAX ->
  let t' := foldl (reap_step sec start num) t (seqZ 0 (Z.of_nat n)) in
  zlen t' = num /\
  forall j, 0 <= j < num -> zget t' j = if dist num start j <? Z.of_nat n then reap_entry sec <$> zget t j else zget t j.
Proof.
  intros Hl Hn Hs Hb. induction n as [|n IH].
  { cbn. split; [done|]. intros j Hj. pose proof (dist_range num start j ltac:(lia)). by rewrite (proj2 (Z.ltb_ge _ _)) by lia. }
  destruct (IH ltac:(lia)) as [IHl IHg]. replace (Z.of_nat (S n)) with (Z.of_nat n + 1) by lia. rewrite seqZ_snoc by lia.
  rewrite foldl_app. cbn [foldl]. rewrite Z.add_0_l. set (t1 := foldl _ t _) in *.
  split; [by rewrite reap_step_len|]. intros j Hj. rewrite reap_step_get by (try done; lia).
  pose proof (dist_eq num start (Z.of_nat n) j ltac:(lia) Hj ltac:(lia)) as Hd. case_decide as E.
  - apply Hd in E. rewrite IHg by done. rewrite E, Z.ltb_irrefl. by rewrite (proj2 (Z.ltb_lt _ _)) by lia.
  - rewrite IHg by done. assert (dist num start j <> Z.of_nat n) by (by intros ?%Hd).
    destruct (Z.ltb_spec (dist num start j) (Z.of_nat n)), (Z.ltb_spec (dist num start j) (Z.of_nat n + 1)); try done; lia.
Qed.

Lemma fragment_reap_get sec start num t :
  zlen t = num -> 64 <= num -> 0 <= start -> start + num <= UINT_MAX ->
  zlen (fragment_reap sec start num t) = num /\
  forall j, 0 <= j < num ->
    zget (fragment_reap sec start num t) j = if dist num start j <? 64 then reap_entry sec <$> zget t j else zget t j.
Proof.
  intros Hl Hn Hs Hb. unfold fragment_reap. replace ENTRIES_PER_SCAN with (Z.of_nat 64) by done.
  apply (reap_fold sec start num t 64 Hl); lia.
Qed.

(** The timer runs once at each reading of the clock. *)
Definition scan_ticks (secs : list Z) (sp : scanner_params) (t : list vr_fragment) : scanner_params * list vr_fragment :=
  foldl (fun st sec => fragment_table_scanner sec st.1 st.2) (sp, t) secs.

Lemma foldl_step {A B} (f : A -> B -> A) x y l : foldl f x (y :: l) = foldl f (f x y) l.
Proof. done. Qed.

Lemma scanner_tick sec num last t :
  fragment_table_scanner sec (mk_sp num last) t =
  (mk_sp num (u32 (last + ENTRIES_PER_SCAN) mod num), fragment_reap sec (last + 1) num t).
Proof. reflexivity. Qed.

Lemma scan_ticks_cons sec secs num last t :
  scan_ticks (sec :: secs) (mk_sp num last) t =
  scan_ticks secs (mk_sp num (u32 (last + ENTRIES_PER_SCAN) mod num)) (fragment_reap sec (last + 1) num t).
Proof. unfold scan_ticks. rewrite foldl_step. cbn [fst snd]. by rewrite scanner_tick. Qed.

Lemma scan_ticks_get secs num last t j :
  zlen t = num -> 64 <= num <= 1073741824 -> 64 * zlen secs <= num -> -1 <= last < num -> 0 <= j < num ->
  zget (scan_ticks secs (mk_sp num last) t).2 j =
    match secs !! Z.to_nat (dist num (last + 1) j / 64) with Some sec => reap_entry sec <$> zget t j | None => zget t j end.
Proof.
  intros Hl Hnum Hs Hlast Hj. revert last t Hl Hlast. induction secs as [|sec secs IH]; intros last t Hl Hlast; [done|].
  rewrite scan_ticks_cons.
  assert (Hs1 : 64 * (zlen secs + 1) <= num) by (unfold zlen in *; cbn [length] in Hs; lia).
  rewrite u32_small by (unfold ENTRIES_PER_SCAN; lia). set (last' := (last + ENTRIES_PER_SCAN) mod num).
  pose proof (Z.mod_pos_bound (last + ENTRIES_PER_SCAN) num ltac:(lia)) as Hlast'. fold last' in Hlast'.
  destruct (fragment_reap_get sec (last + 1) num t Hl ltac:(lia) ltac:(lia) ltac:(lia)) as [Hl1 Hg1].
  rewrite IH by (try done; lia). rewrite Hg1 by done. set (d := dist num (last + 1) j).
  pose proof (dist_range num (last + 1) j ltac:(lia)) as Hd. fold d in Hd.
  assert (Hd' : dist num (last' + 1) j = (d - 64) mod num).
  { unfold dist, last', d, dist. rewrite Zminus_mod_idemp_l.
    rewrite <- (Zminus_mod_idemp_r j), Z.add_mod_idemp_l, Zminus_mod_idemp_r by lia. f_equal. unfold ENTRIES_PER_SCAN. lia. }
  rewrite Hd'. destruct (Z.ltb_spec d 64) as [Hlt|Hge].
  - replace ((d - 64) mod num) with (d - 64 + num) by (apply Z.mod_unique_pos with (q := -1); lia).
    rewrite (proj2 (lookup_ge_None secs _)).
    + by rewrite (Z.div_small d 64) by lia.
    + assert (zlen secs <= (d - 64 + num) / 64); [apply Z.div_le_lower_bound; lia|]. unfold zlen in *. lia.
  - rewrite (Z.mod_small (d - 64)) by lia. replace (d / 64) with (1 + (d - 64) / 64) by
      (replace d with (1 * 64 + (d - 64)) at 2 by lia; rewrite Z.div_add_l by lia; lia).
    assert (0 <= (d - 64) / 64) by (apply Z.div_pos; lia). by rewrite Z2Nat.inj_add by lia.
Qed.

(** The timer goes round.  In as many ticks as there are groups of 64 entries, every
    entry is looked at exactly once: what has not been used for more than a second is
    given up, the rest stays as it is. *)
Theorem scanner_goes_round secs last t :
  zlen t = 64 * zlen secs -> 64 <= zlen t <= 1073741824 -> -1 <= last < zlen t ->
  forall j fe, zget t j = Some fe ->
  exists sec, sec ∈ secs /\ zget (scan_ticks secs (mk_sp (zlen t) last) t).2 j = Some (reap_entry sec fe).
Proof.
  intros Hl Hn Hlast j fe Hj. pose proof (zget_range _ _ _ Hj) as Hr.
  pose proof (scan_ticks_get secs (zlen t) last t j eq_refl Hn ltac:(lia) Hlast Hr) as Hg.
  pose proof (dist_range (zlen t) (last + 1) j ltac:(lia)) as Hd. set (d := dist (zlen t) (last + 1) j) in *.
  destruct (lookup_lt_is_Some_2 secs (Z.to_nat (d / 64))) as [sec Hsec].
  { assert (0 <= d / 64 < zlen secs); [split; [apply Z.div_pos; lia|apply Z.div_lt_upper_bound; lia]|]. unfold zlen in *. lia. }
  exists sec. split; [by eapply list_elem_of_lookup_2|]. by rewrite Hg, Hsec, Hj.
Qed.

(** ** Packets and queue elements are accounted for *)

Definition held (es : list vr_fragment_queue_element) : list frag_packet := omap (fun e => pl_packet (fqe_pnode e)) es.

Definition consumed (evs : list event) : list frag_packet :=
  omap (fun e => match e with E_pfree p _ => Some p | E_flush pnode _ _ => pl_packet pnode | E_free_element _ => None end) evs.

Definition freed (evs : list event) : list Z := omap (fun e => match e with E_free_element b => Some b | _ => None end) evs.

(** Every packet and every element of [es] before is in [es'] after, or it has been sent on
    or freed, once. *)
Definition balanced (es : list vr_fragment_queue_element) (a : assembler) (es' : list vr_fragment_queue_element)
    (a' : assembler) : Prop :=
  held es' ++ consumed (as_events a') ≡ₚ held es ++ consumed (as_events a) /\
  (fqe_block <$> es') ++ freed (as_events a') ≡ₚ (fqe_block <$> es) ++ freed (as_events a).

Lemma balanced_perm es es' a : es ≡ₚ es' -> balanced es a es' a.
Proof. intros Hp. unfold balanced, held. by rewrite Hp. Qed.

Lemma balanced_trans es1 a1 es2 a2 es3 a3 : balanced es1 a1 es2 a2 -> balanced es2 a2 es3 a3 -> balanced es1 a1 es3 a3.
Proof. intros [H1 H2] [H3 H4]. split; [by rewrite H3|by rewrite H4]. Qed.

Lemma perm_frame {A} (x x' y y' l : list A) : x' ++ y' ≡ₚ x ++ y -> (x' ++ l) ++ y' ≡ₚ (x ++ l) ++ y.
Proof.
  intros Hp. rewrite <- !(assoc_L (++)). rewrite (Permutation_app_swap_app x' l y'), (Permutation_app_swap_app x l y).
  by rewrite Hp.
Qed.

Lemma balanced_app es a es' a' l : balanced es a es' a' -> balanced (es ++ l) a (es' ++ l) a'.
Proof.
  intros [H1 H2]. split; [unfold held in *; rewrite !omap_app|rewrite !fmap_app]; by apply perm_frame.
Qed.

(** Only what has happened counts, not the tables or the allocator. *)
Lemma balanced_events es a a' es' b b' :
  as_events a = as_events b -> as_events a' = as_events b' -> balanced es a es' a' -> balanced es b es' b'.
Proof. unfold balanced. by intros -> ->. Qed.

Lemma element_free_balanced e r es a : balanced (e :: es) a es (vr_fragment_queue_element_free e r a).
Proof.
  unfold vr_fragment_queue_element_free, balanced, emit, consumed, freed, held. cbn [as_events omap list_omap].
  destruct (pl_packet (fqe_pnode e)) as [pkt|] eqn:E; rewrite !omap_app; cbn; split; rewrite ?(assoc_L (++)), ?app_nil_r; try done.
  all: by rewrite <- Permutation_cons_append.
Qed.

Section assembler.
Context (flow_flush : vr_packet_node -> frag_tables -> frag_tables).
Abbreviation flush := (vr_fragment_flush_queue_element flow_flush).

Lemma flush_balanced e es a : balanced (e :: es) a es (flush e a).
Proof.
  unfold vr_fragment_flush_queue_element. destruct (pl_packet (fqe_pnode e)) as [pkt|] eqn:E; [|apply element_free_balanced].
  unfold vr_fragment_queue_element_free, balanced, emit, set_tables, consumed, freed, held.
  cbn [as_events omap list_omap fqe_pnode pl_packet fqe_block]. rewrite !omap_app. cbn. rewrite E. cbn.
  split; rewrite ?(assoc_L (++)), ?app_nil_r; by rewrite <- Permutation_cons_append.
Qed.

Lemma fold_balanced (f : assembler -> vr_fragment_queue_element -> assembler) :
  (forall e es a, balanced (e :: es) a es (f a e)) -> forall q es a, balanced (q ++ es) a es (foldl f a q).
Proof.
  intros Hf. induction q as [|e q IH]; intros es a; cbn; [by apply balanced_perm|].
  eapply balanced_trans; [apply Hf|apply IH].
Qed.

Lemma free_frag_balanced frag es a : balanced (f_qe frag ++ es) a es (fragment_free_frag frag a).
Proof. apply fold_balanced. intros. apply element_free_balanced. Qed.

Definition elements (bucket : list vr_fragment) : list vr_fragment_queue_element := bucket ≫= f_qe.

Lemma elements_app b1 b2 : elements (b1 ++ b2) = elements b1 ++ elements b2.
Proof. apply bind_app. Qed.

Lemma elements_mid b1 frag b2 : elements (b1 ++ frag :: b2) ≡ₚ f_qe frag ++ elements (b1 ++ b2).
Proof. rewrite !elements_app. cbn. by rewrite Permutation_app_swap_app. Qed.

Lemma find_frag_split key bucket before rest : find_frag key bucket = (before, rest) ->
  bucket = before ++ rest /\ (forall f, f ∈ before -> f_key f <> key) /\ (forall f next, rest = f :: next -> f_key f = key).
Proof.
  revert before rest. induction bucket as [|f bucket IH]; cbn; intros before rest.
  - intros [= <- <-]. split_and!; [done|set_solver|done].
  - case_bool_decide as E.
    + intros [= <- <-]. split_and!; [done|set_solver|by intros ? ? [= <- <-]].
    + destruct (find_frag key bucket) as [b r]. intros [= <- <-]. destruct (IH b r eq_refl) as (-> & H1 & H2).
      split_and!; [done| |done]. intros f'. rewrite elem_of_cons. intros [->|?]; auto.
Qed.

Lemma into_balanced vfqe before frag next a :
  let '(b', a') := assemble_into flow_flush vfqe before frag next a in
  balanced (vfqe :: elements (before ++ frag :: next)) a (elements b') a'.
Proof.
  unfold assemble_into. destruct (pnode_is_head (fqe_pnode vfqe)); cbn [f_port_info_valid with_queue f_qe].
  - eapply balanced_trans; [apply (element_free_balanced vfqe VP_DROP_CLONED_ORIGINAL)|].
    eapply balanced_trans; [apply balanced_perm, elements_mid|]. cbn.
    apply (fold_balanced (fun a fqe => flush fqe a)). intros. apply flush_balanced.
  - assert (Hp : vfqe :: elements (before ++ frag :: next) ≡ₚ (f_qe frag ++ [vfqe]) ++ elements (before ++ next)).
    { rewrite elements_mid, <- (assoc_L (++)). cbn. by rewrite <- Permutation_middle. }
    destruct (f_port_info_valid frag).
    + eapply balanced_trans; [apply balanced_perm, Hp|]. cbn. apply (fold_balanced (fun a fqe => flush fqe a)).
      intros. apply flush_balanced.
    + apply balanced_perm. rewrite Hp, elements_mid. done.
Qed.

Lemma assembler_balanced sec0 sec bucket vfqe a :
  is_Some (pl_packet (fqe_pnode vfqe)) ->
  let '(ret, b', a') := vr_fragment_assembler flow_flush sec0 sec bucket vfqe a in
  balanced (vfqe :: elements bucket) a (elements b') a'.
Proof.
  intros [pkt Hpkt]. unfold vr_fragment_assembler. rewrite Hpkt. set (key := __fragment_key _ _ _ _).
  destruct (find_frag key bucket) as [before rest] eqn:Ef. apply find_frag_split in Ef as (-> & _).
  set (p := if pnode_is_head (fqe_pnode vfqe) then _ else _).
  assert (Hev : as_events p.2 = as_events a).
  { unfold p. destruct (pnode_is_head (fqe_pnode vfqe)); [done|]. by destruct (vr_fragment_get _ _ _ _). }
  destruct p as [[l|] a0]; cbn in Hev.
  { eapply balanced_events; [exact Hev|done|]. apply flush_balanced. }
  destruct rest as [|frag next].
  - rewrite app_nil_r. destruct (pnode_is_head (fqe_pnode vfqe)).
    { eapply balanced_events; [exact Hev|done|]. apply element_free_balanced. }
    destruct (VR_MAX_FRAGMENTS_PER_ASSEMBLER_QUEUE <? zlen before).
    { eapply balanced_events; [exact Hev|done|]. apply element_free_balanced. }
    destruct (match as_oracle a0 with [] => true | b :: _ => b end).
    + set (a1 := mk_asm _ _ _ _). pose proof (into_balanced vfqe [] (mk_frag key 0 0 [] sec 0 0 false) before a1) as Hi.
      destruct (assemble_into _ _ _ _ _ _) as [b2 a2]. by eapply balanced_events; [exact Hev|done|].
    + eapply balanced_events; [|done|apply element_free_balanced]. done.
  - pose proof (into_balanced vfqe before (with_time sec frag) next a0) as Hi.
    destruct (assemble_into _ _ _ _ _ _) as [b2 a2]. eapply balanced_events; [exact Hev|done|].
    eapply balanced_trans; [|exact Hi]. apply balanced_perm. rewrite !elements_mid. done.
Qed.

End assembler.
(** ** What the assembler does *)

(** What waits for the head of a packet. *)
Fixpoint queue_of (key : vr_fragment_key) (bucket : list vr_fragment) : list vr_fragment_queue_element :=
  match bucket with
  | [] => []
  | frag :: next => if bool_decide (f_key frag = key) then f_qe frag else queue_of key next
  end.

(** Each packet has one entry, with something that waits; the list is bounded. *)
Record bucket_ok (bucket : list vr_fragment) : Prop := {
  bo_keys : NoDup (f_key <$> bucket);
  bo_wait : Forall (fun f => f_port_info_valid f = false /\ f_qe f <> []) bucket;
  bo_len : zlen bucket <= VR_MAX_FRAGMENTS_PER_ASSEMBLER_QUEUE + 1
}.

Lemma queue_of_skip key before rest :
  (forall f, f ∈ before -> f_key f <> key) -> queue_of key (before ++ rest) = queue_of key rest.
Proof.
  induction before as [|f before IH]; intros Hb; [done|]. cbn. rewrite bool_decide_eq_false_2 by (apply Hb; set_solver).
  apply IH. set_solver.
Qed.

Lemma queue_of_other key b1 f b2 : f_key f <> key -> queue_of key (b1 ++ f :: b2) = queue_of key (b1 ++ b2).
Proof.
  intros Hf. induction b1 as [|g b1 IH]; cbn; [by rewrite bool_decide_eq_false_2|]. by rewrite IH.
Qed.

Lemma queue_of_none key bucket : (forall f, f ∈ bucket -> f_key f <> key) -> queue_of key bucket = [].
Proof. intros Hb. rewrite <- (app_nil_r bucket). by rewrite queue_of_skip. Qed.

Lemma queue_of_new key f b : f_key f = key -> queue_of key (f :: b) = f_qe f.
Proof. intros Hf. cbn. by rewrite bool_decide_eq_true_2. Qed.

(** An entry is changed in place, or leaves. *)
Lemma bucket_ok_change before f f' next :
  bucket_ok (before ++ f :: next) -> f_key f' = f_key f -> f_port_info_valid f' = false -> f_qe f' <> [] ->
  bucket_ok (before ++ f' :: next).
Proof.
  intros [Hk Hw Hl] H1 H2 H3. split.
  - rewrite fmap_app in *. cbn in *. by rewrite H1.
  - apply Forall_app in Hw as [? Hn]. apply Forall_cons in Hn as [_ ?]. apply Forall_app. split; [done|]. by constructor.
  - rewrite zlen_app in *. unfold zlen in *. cbn in *. lia.
Qed.

Lemma bucket_ok_leave before f next : bucket_ok (before ++ f :: next) ->
  bucket_ok (before ++ next) /\ (forall g, g ∈ before ++ next -> f_key g <> f_key f).
Proof.
  intros [Hk Hw Hl]. rewrite fmap_app in Hk. cbn in Hk. rewrite <- Permutation_middle in Hk. apply NoDup_cons in Hk as [Hn Hk].
  rewrite <- fmap_app in Hn, Hk. split; [split|].
  - done.
  - apply Forall_app in Hw as [? Hw]. apply Forall_cons in Hw as [_ ?]. apply Forall_app. done.
  - rewrite zlen_app in *. unfold zlen in *. cbn in *. lia.
  - intros g Hg Hx. apply Hn. rewrite <- Hx. by apply list_elem_of_fmap_2.
Qed.

Section spec.
Context (flow_flush : vr_packet_node -> frag_tables -> frag_tables).
Abbreviation flush := (vr_fragment_flush_queue_element flow_flush).
Abbreviation flush_all q x := (foldl (fun b e => flush e b) x q).

Lemma into_spec vfqe before frag next a :
  bucket_ok (before ++ frag :: next) \/ before = [] /\ f_qe frag = [] /\ f_port_info_valid frag = false /\ bucket_ok next /\
    (forall f, f ∈ next -> f_key f <> f_key frag) /\ zlen next <= VR_MAX_FRAGMENTS_PER_ASSEMBLER_QUEUE ->
  let '(b', a') := assemble_into flow_flush vfqe before frag next a in
  bucket_ok b' /\ (forall k, k <> f_key frag -> queue_of k b' = queue_of k (before ++ next)) /\
  if pnode_is_head (fqe_pnode vfqe)
  then queue_of (f_key frag) b' = [] /\
    a' = flush_all (f_qe frag) (vr_fragment_queue_element_free vfqe VP_DROP_CLONED_ORIGINAL a)
  else queue_of (f_key frag) b' = f_qe frag ++ [vfqe] /\ (forall f, f ∈ b' -> f_key f = f_key frag -> f_time f = f_time frag) /\ a' = a.
Proof.
  intros Hok. unfold assemble_into.
  assert (Hleave : bucket_ok (before ++ next) /\ (forall g, g ∈ before ++ next -> f_key g <> f_key frag)).
  { destruct Hok as [Hok|(-> & _ & _ & ? & ? & _)]; [by apply bucket_ok_leave in Hok|done]. }
  destruct Hleave as [Hok' Hnew]. destruct (pnode_is_head (fqe_pnode vfqe)); cbn [f_port_info_valid with_queue f_qe].
  { split; [done|]. split; [done|]. split; [by apply queue_of_none|done]. }
  assert (Hv : f_port_info_valid frag = false).
  { destruct Hok as [Hok|(_ & _ & ? & _)]; [|done]. pose proof (bo_wait _ Hok) as Hw. apply Forall_app in Hw as [_ Hw].
    apply Forall_cons in Hw as [[? _] _]. done. }
  rewrite Hv. assert (Hne : f_qe frag ++ [vfqe] <> []) by (by destruct (f_qe frag)). split.
  - destruct Hok as [Hok|(-> & Hq & _ & Hb & Hk & Hl)]; [by eapply bucket_ok_change|]. split; cbn.
    + apply NoDup_cons. split; [|apply Hb]. intros Hx. apply list_elem_of_fmap in Hx as (f & Hf & Hin). by apply (Hk f).
    + constructor; [done|apply Hb].
    + unfold zlen in *. cbn. lia.
  - split.
    + intros k Hk. by rewrite queue_of_other.
    + split; [rewrite queue_of_skip by (intros f Hf; apply Hnew; set_solver); by rewrite queue_of_new|]. split; [|done].
      intros f Hf Hkf. apply elem_of_app in Hf as [Hf|Hf]; [by destruct (Hnew f); [set_solver|]|].
      apply elem_of_cons in Hf as [->|Hf]; [done|]. by destruct (Hnew f); [set_solver|].
Qed.

(** The key that the assembler looks for. *)
Definition element_key (vfqe : vr_fragment_queue_element) (pkt : frag_packet) : vr_fragment_key :=
  __fragment_key (pl_vrf (fqe_pnode vfqe)) (pl_inner_src_ip (fqe_pnode vfqe)) (pl_inner_dst_ip (fqe_pnode vfqe))
    (ip_id (pkt_network_header pkt)).

(** The allocator has been asked once. *)
Definition asked (a : assembler) : assembler := mk_asm (as_tables a) (as_events a) (tail (as_oracle a)) (as_fault a).

Definition granted (a : assembler) : bool := match as_oracle a with [] => true | b :: _ => b end.

(** The element is at the end of the queue of its packet, whose time is renewed. *)
Definition joins (sec : Z) (key : vr_fragment_key) (bucket : list vr_fragment) (vfqe : vr_fragment_queue_element)
    (b' : list vr_fragment) : Prop :=
  queue_of key b' = queue_of key bucket ++ [vfqe] /\ forall f, f ∈ b' -> f_key f = key -> f_time f = sec.

(** A fragment whose ports are not known: it joins the others of its packet; the first one
    is dropped when the list is too long or there is no memory for the packet, each with its
    reason, and nothing but that drop is seen. *)
Definition waits (sec : Z) (key : vr_fragment_key) (bucket : list vr_fragment) (vfqe : vr_fragment_queue_element)
    (a : assembler) (ret : Z) (b' : list vr_fragment) (a' : assembler) : Prop :=
  if decide (queue_of key bucket = []) then
    if VR_MAX_FRAGMENTS_PER_ASSEMBLER_QUEUE <? zlen bucket then
      ret = 0 /\ b' = bucket /\ a' = vr_fragment_queue_element_free vfqe VP_DROP_FRAGMENT_QUEUE_FAIL a
    else if granted a then ret = 0 /\ joins sec key bucket vfqe b' /\ a' = asked a
    else ret = - ENOMEM /\ b' = bucket /\ a' = vr_fragment_queue_element_free vfqe VP_DROP_NO_MEMORY (asked a)
  else ret = 0 /\ joins sec key bucket vfqe b' /\ a' = a.

(** A look-up that finds nothing changes nothing. *)
Lemma get_none sec vrf iph a ft : vr_fragment_get sec vrf iph (as_tables a) = (None, ft) -> set_tables ft a = a.
Proof. unfold vr_fragment_get. intros Hg. repeat case_match; simplify_eq; by destruct a. Qed.

Lemma assembler_cases sec0 sec bucket vfqe pkt a :
  bucket_ok bucket -> pl_packet (fqe_pnode vfqe) = Some pkt ->
  let key := element_key vfqe pkt in
  let '(ret, b', a') := vr_fragment_assembler flow_flush sec0 sec bucket vfqe a in
  bucket_ok b' /\ (forall k, k <> key -> queue_of k b' = queue_of k bucket) /\
  if pnode_is_head (fqe_pnode vfqe)
  then ret = 0 /\ queue_of key b' = [] /\
    a' = flush_all (queue_of key bucket) (vr_fragment_queue_element_free vfqe VP_DROP_CLONED_ORIGINAL a)
  else
    match vr_fragment_get sec0 (pl_vrf (fqe_pnode vfqe)) (pkt_network_header pkt) (as_tables a) with
    | (Some _, ft) => ret = 0 /\ b' = bucket /\ a' = flush vfqe (set_tables ft a)
    | (None, _) => waits sec key bucket vfqe a ret b' a'
    end.
Proof.
  intros Hok Hpkt key. unfold vr_fragment_assembler. rewrite Hpkt. fold (element_key vfqe pkt). fold key.
  destruct (find_frag key bucket) as [before rest] eqn:Ef. apply find_frag_split in Ef as (-> & Hb & Hr).
  destruct rest as [|frag next].
  - rewrite app_nil_r in *. rewrite (queue_of_none key before Hb). destruct (pnode_is_head (fqe_pnode vfqe)) eqn:Eh.
    { split_and!; try done. by apply queue_of_none. }
    destruct (vr_fragment_get sec0 _ _ (as_tables a)) as [[l|] ft] eqn:Eg; [done|]. rewrite (get_none _ _ _ _ _ Eg).
    unfold waits, joins. destruct (decide (queue_of key before = [])) as [E0|E0]; [rewrite E0|by destruct E0; apply queue_of_none].
    destruct (VR_MAX_FRAGMENTS_PER_ASSEMBLER_QUEUE <? zlen before) eqn:Hroom; [done|]. apply Z.ltb_ge in Hroom.
    fold (granted a) (asked a). destruct (granted a); [|done].
    pose proof (into_spec vfqe [] (mk_frag key 0 0 [] sec 0 0 false) before (asked a)) as Hi.
    destruct (assemble_into _ _ _ _ _ _) as [b' a']. rewrite Eh in Hi. cbn [f_key f_qe f_time] in Hi.
    destruct Hi as (Hok' & Ho & Hq & Ht & ->); [by right|]. by split_and!.
  - pose proof (Hr frag next eq_refl) as Hk. pose proof Hok as Hok0.
    assert (Hq : queue_of key (before ++ frag :: next) = f_qe frag) by (rewrite queue_of_skip by done; by apply queue_of_new).
    rewrite Hq. assert (Hok1 : bucket_ok (before ++ with_time sec frag :: next)).
    { pose proof (bo_wait _ Hok) as Hw. apply Forall_app in Hw as [_ Hw]. apply Forall_cons in Hw as [[? ?] _].
      by eapply bucket_ok_change. }
    set (p := if pnode_is_head (fqe_pnode vfqe) then (None, a) else _).
    destruct (pnode_is_head (fqe_pnode vfqe)) eqn:Eh.
    + cbn. pose proof (into_spec vfqe before (with_time sec frag) next a (or_introl Hok1)) as Hi.
      destruct (assemble_into _ _ _ _ _ _) as [b' a']. rewrite Eh in Hi. cbn [f_key f_qe with_time] in Hi. rewrite Hk in Hi.
      destruct Hi as (? & Ho & ? & ->). split_and!; try done. intros k Hne. rewrite Ho by done. symmetry. apply queue_of_other. congruence.
    + unfold p. clear p. destruct (vr_fragment_get sec0 _ _ (as_tables a)) as [[l|] ft] eqn:Eg; [done|].
      rewrite (get_none _ _ _ _ _ Eg).
      pose proof (into_spec vfqe before (with_time sec frag) next a (or_introl Hok1)) as Hi.
      destruct (assemble_into _ _ _ _ _ _) as [b' a']. rewrite Eh in Hi. cbn [f_key f_qe with_time] in Hi. rewrite Hk in Hi.
      destruct Hi as (? & Ho & ? & ? & ->). split; [done|]. split; [intros k Hne; rewrite Ho by done; symmetry; apply queue_of_other; congruence|].
      unfold waits, joins. rewrite Hq, decide_False; [by split_and!|]. pose proof (bo_wait _ Hok) as Hw. apply Forall_app in Hw as [_ Hw].
      by apply Forall_cons in Hw as [[_ ?] _].
Qed.

(** C31: one element.  The clone of a head releases what waits for it, in the order in which
    it came, and the entry of the packet is removed; a fragment whose ports are known is sent
    on at once; another one joins the end of the queue of its packet, which waits from now on.
    The first fragment of a packet is dropped for want of room in the queue when the list is
    too long, and for want of memory when the entry cannot be allocated, and only the second
    is an error.  A fragment that joins or is dropped changes neither the ports that are known
    nor the fault, and no other packet is touched. *)
Theorem assembler_spec sec0 sec bucket vfqe pkt a :
  bucket_ok bucket -> pl_packet (fqe_pnode vfqe) = Some pkt ->
  let key := element_key vfqe pkt in
  let '(ret, b', a') := vr_fragment_assembler flow_flush sec0 sec bucket vfqe a in
  bucket_ok b' /\ (forall k, k <> key -> queue_of k b' = queue_of k bucket) /\
  if pnode_is_head (fqe_pnode vfqe)
  then ret = 0 /\ queue_of key b' = [] /\
    a' = flush_all (queue_of key bucket) (vr_fragment_queue_element_free vfqe VP_DROP_CLONED_ORIGINAL a)
  else
    match vr_fragment_get sec0 (pl_vrf (fqe_pnode vfqe)) (pkt_network_header pkt) (as_tables a) with
    | (Some _, ft) => ret = 0 /\ b' = bucket /\ a' = flush vfqe (set_tables ft a)
    | (None, _) => waits sec key bucket vfqe a ret b' a'
    end.
Proof. apply assembler_cases. Qed.

End spec.
(** ** The work of the thread *)

Lemma reverse_queue_rev l acc : reverse_queue l acc = rev l ++ acc.
Proof. revert acc. induction l as [|e l IH]; intros acc; cbn; [done|]. by rewrite IH, <- (assoc_L (++)). Qed.

(** The oldest element first. *)
Lemma take_queue_rev q : take_queue q = rev q.
Proof. destruct q as [|e q]; [done|]. cbn. by rewrite reverse_queue_rev. Qed.

Definition all_elements (table : list (list vr_fragment)) : list vr_fragment_queue_element := table ≫= elements.

(** The lists of the assembler: each is well-formed and has the packets of its hash. *)
Record table_ok (table : list (list vr_fragment)) : Prop := {
  to_len : zlen table = VR_LINUX_ASSEMBLER_BUCKETS;
  to_bucket : forall i bucket, zget table i = Some bucket -> bucket_ok bucket;
  to_hash : forall i bucket f, zget table i = Some bucket -> f ∈ bucket -> key_hash (f_key f) mod VR_LINUX_ASSEMBLER_BUCKETS = i
}.

Lemma zset_elements table i bucket bucket' : zget table i = Some bucket ->
  exists rest, all_elements table ≡ₚ elements bucket ++ rest /\ all_elements (zset table i bucket') ≡ₚ elements bucket' ++ rest.
Proof.
  unfold zget, zset. case_decide as Hi; [|done]. intros Ho. pose proof (lookup_lt_Some _ _ _ Ho) as Hlt.
  exists (all_elements (take (Z.to_nat i) table) ++ all_elements (drop (S (Z.to_nat i)) table)). unfold all_elements. split.
  - rewrite <- (take_drop_middle table _ _ Ho) at 1. rewrite bind_app. cbn. by rewrite Permutation_app_swap_app.
  - rewrite insert_take_drop by done. rewrite bind_app. cbn. by rewrite Permutation_app_swap_app.
Qed.

Lemma queue_of_in f bucket : NoDup (f_key <$> bucket) -> f ∈ bucket -> queue_of (f_key f) bucket = f_qe f.
Proof.
  induction bucket as [|g bucket IH]; cbn; [set_solver|]. rewrite NoDup_cons, elem_of_cons. intros [Hg Hn] [->|Hf].
  - by rewrite bool_decide_eq_true_2.
  - rewrite bool_decide_eq_false_2; [auto|]. intros E. apply Hg. rewrite E. by apply list_elem_of_fmap_2.
Qed.

Lemma queue_of_some key bucket : queue_of key bucket <> [] -> exists f, f ∈ bucket /\ f_key f = key.
Proof.
  induction bucket as [|g bucket IH]; cbn; [done|]. case_bool_decide as E; [exists g; set_solver|].
  intros Hq. destruct (IH Hq) as (f & ? & ?). exists f. set_solver.
Qed.

(** No new packets but the one of the element. *)
Lemma keys_kept key bucket b' :
  bucket_ok b' -> (forall k, k <> key -> queue_of k b' = queue_of k bucket) ->
  forall f, f ∈ b' -> f_key f = key \/ exists g, g ∈ bucket /\ f_key g = f_key f.
Proof.
  intros Hok Hq f Hf. destruct (decide (f_key f = key)) as [|Hne]; [by left|right].
  apply queue_of_some. rewrite <- Hq by done. rewrite (queue_of_in f b') by (apply Hok || done).
  pose proof (bo_wait _ Hok) as Hw. rewrite Forall_forall in Hw. by apply Hw.
Qed.

Section work.
Context (flow_flush : vr_packet_node -> frag_tables -> frag_tables).

Lemma one_balanced hash_of sec table e a es :
  is_Some (pl_packet (fqe_pnode e)) -> zlen table = VR_LINUX_ASSEMBLER_BUCKETS ->
  let '(t', a') := assemble_one flow_flush hash_of sec (table, a) e in
  balanced (e :: es ++ all_elements table) a (es ++ all_elements t') a' /\ zlen t' = VR_LINUX_ASSEMBLER_BUCKETS.
Proof.
  intros [pkt Hpkt] Hl. unfold assemble_one. rewrite Hpkt. cbn [fst snd]. set (i := _ mod _).
  assert (Hi : 0 <= i < zlen table) by (rewrite Hl; by apply Z.mod_pos_bound).
  destruct (zget_is_Some table i Hi) as [bucket Hb]. rewrite Hb.
  pose proof (assembler_balanced flow_flush sec sec bucket e a ltac:(eauto)) as Hbal.
  destruct (vr_fragment_assembler flow_flush sec sec bucket e a) as [[ret b'] a']. split; [|by rewrite zlen_zset].
  destruct (zset_elements table i bucket b' Hb) as (rest & R1 & R2).
  eapply balanced_trans; [|eapply balanced_trans; [apply (balanced_app _ _ _ _ (es ++ rest) Hbal)|]]; apply balanced_perm.
  - rewrite R1. cbn. f_equiv. apply Permutation_app_swap_app.
  - rewrite R2. apply Permutation_app_swap_app.
Qed.

Lemma work_balanced hash_of sec q table a :
  Forall (fun e => is_Some (pl_packet (fqe_pnode e))) q -> zlen table = VR_LINUX_ASSEMBLER_BUCKETS ->
  let '(t', a') := foldl (assemble_one flow_flush hash_of sec) (table, a) q in
  balanced (q ++ all_elements table) a (all_elements t') a'.
Proof.
  intros Hq. revert table a. induction Hq as [|e q He Hq IH]; intros table a Hl; [by apply balanced_perm|].
  rewrite foldl_step. pose proof (one_balanced hash_of sec table e a q He Hl) as H1.
  destruct (assemble_one flow_flush hash_of sec (table, a) e) as [t1 a1]. destruct H1 as [H1 Hl1].
  specialize (IH t1 a1 Hl1). destruct (foldl _ (t1, a1) q) as [t2 a2]. by eapply balanced_trans.
Qed.

Lemma one_table_ok sec table e a :
  is_Some (pl_packet (fqe_pnode e)) -> table_ok table ->
  let '(t', a') := assemble_one flow_flush linux_hash sec (table, a) e in table_ok t'.
Proof.
  intros [pkt Hpkt] [Hl Hbk Hh]. unfold assemble_one. rewrite Hpkt. cbn [fst snd]. set (i := _ mod _).
  assert (Hi : 0 <= i < zlen table) by (rewrite Hl; by apply Z.mod_pos_bound).
  destruct (zget_is_Some table i Hi) as [bucket Hb]. rewrite Hb.
  pose proof (assembler_cases flow_flush sec sec bucket e pkt a (Hbk _ _ Hb) Hpkt) as Hc. cbn zeta in Hc.
  destruct (vr_fragment_assembler flow_flush sec sec bucket e a) as [[ret b'] a']. destruct Hc as (Hok' & Hq & _). split.
  - by rewrite zlen_zset.
  - intros j bk Hj. rewrite zget_zset in Hj. case_decide; [by injection Hj as <-|by apply (Hbk j)].
  - intros j bk f Hj Hf. rewrite zget_zset in Hj. case_decide as E; [|by apply (Hh j bk)]. injection Hj as <-. destruct E as [<- _].
    destruct (keys_kept _ _ _ Hok' Hq f Hf) as [->|(g & Hg & <-)]; [done|]. by apply (Hh i bucket).
Qed.

(** C32: a run of the assembler thread loses nothing: the packets and the elements that it
    took from the queue, and those in its lists, are in the lists afterwards, sent on or
    freed, each exactly once; and every packet waits in the list of its hash, once. *)
Theorem linux_assembler_conserves sec q table a :
  Forall (fun e => is_Some (pl_packet (fqe_pnode e))) q -> table_ok table ->
  let '(t', a') := vr_linux_fragment_assembler flow_flush sec q table a in
  table_ok t' /\ balanced (q ++ all_elements table) a (all_elements t') a'.
Proof.
  intros Hq Ht. unfold vr_linux_fragment_assembler. rewrite take_queue_rev.
  assert (Hq' : Forall (fun e => is_Some (pl_packet (fqe_pnode e))) (rev q)) by (by apply Forall_rev).
  pose proof (work_balanced linux_hash sec (rev q) table a Hq' (to_len _ Ht)) as Hb.
  assert (Hok : table_ok (foldl (assemble_one flow_flush linux_hash sec) (table, a) (rev q)).1).
  { clear Hb Hq. revert table a Ht. induction Hq' as [|e l He Hl IH]; intros table a Ht; [done|]. rewrite foldl_step.
    pose proof (one_table_ok sec table e a He Ht) as H1.
    destruct (assemble_one flow_flush linux_hash sec (table, a) e) as [t1 a1]. by apply IH. }
  destruct (foldl _ (table, a) (rev q)) as [t' a']. split; [done|].
  eapply balanced_trans; [|exact Hb]. apply balanced_perm, Permutation_app_tail, Permutation_rev.
Qed.

End work.

(** ** Fragments that have waited too long *)

(** Elapsed time, also when the clock has wrapped around. *)
Lemma expired_eq sec time : 0 <= sec <= UINT_MAX -> 0 <= time <= UINT_MAX ->
  frag_expired sec time = (VR_ASSEMBLER_TIMEOUT_TIME <? u32 (sec - time)).
Proof.
  intros Hs Ht. unfold frag_expired, VR_ASSEMBLER_TIMEOUT_TIME. cbn zeta.
  destruct (decide (time + 5 <= UINT_MAX)) as [Hw|Hw].
  - rewrite (u32_small (time + 5)) by lia. rewrite (proj2 (Z.ltb_ge _ _)) by lia.
    destruct (decide (time <= sec)) as [Hle|Hgt].
    + rewrite u32_small by lia. destruct (Z.ltb_spec (time + 5) sec), (Z.ltb_spec sec time), (Z.ltb_spec 5 (sec - time)); cbn; lia.
    + replace (u32 (sec - time)) with (sec - time + 4294967296) by (unfold u32; apply Z.mod_unique_pos with (q := -1); lia).
      destruct (Z.ltb_spec (time + 5) sec), (Z.ltb_spec sec time), (Z.ltb_spec 5 (sec - time + 4294967296)); cbn; lia.
  - replace (u32 (time + 5)) with (time + 5 - 4294967296) by (unfold u32; apply Z.mod_unique_pos with (q := 1); lia).
    rewrite (proj2 (Z.ltb_lt _ _)) by lia. destruct (decide (time <= sec)) as [Hle|Hgt].
    + rewrite u32_small by lia.
      destruct (Z.ltb_spec sec time), (Z.ltb_spec (time + 5 - 4294967296) sec), (Z.ltb_spec 5 (sec - time)); cbn; lia.
    + replace (u32 (sec - time)) with (sec - time + 4294967296) by (unfold u32; apply Z.mod_unique_pos with (q := -1); lia).
      destruct (Z.ltb_spec sec time), (Z.ltb_spec (time + 5 - 4294967296) sec), (Z.ltb_spec 5 (sec - time + 4294967296)); cbn; lia.
Qed.

Lemma scan_get_filter sec bucket a :
  let '(n, b', a') := vr_assembler_table_scan (fun _ => sec) bucket a in
  b' = filter (fun f => frag_expired sec (f_time f) = false) bucket /\ n = u32 (zlen bucket) /\
  balanced (elements bucket) a (elements b') a' /\
  as_events a' = as_events a ++ (filter (fun f => frag_expired sec (f_time f) = true) bucket ≫= fun f => f_qe f ≫= fun e =>
    match pl_packet (fqe_pnode e) with
    | Some pkt => [E_pfree pkt VP_DROP_FRAGMENTS; E_free_element (fqe_block e)]
    | None => [E_free_element (fqe_block e)]
    end).
Proof.
  revert a. induction bucket as [|f bucket IH]; intros a.
  { cbn. by rewrite app_nil_r. }
  cbn [vr_assembler_table_scan]. rewrite !filter_cons. set (a1 := if frag_expired sec (f_time f) then _ else a).
  specialize (IH a1). destruct (vr_assembler_table_scan (fun _ => sec) bucket a1) as [[n b'] a']. destruct IH as (-> & -> & Hbal & Hev).
  assert (Hn : u32 (u32 (zlen bucket) + 1) = u32 (zlen (f :: bucket))).
  { unfold u32, zlen. rewrite Zplus_mod_idemp_l. cbn [length]. f_equal. lia. }
  destruct (frag_expired sec (f_time f)) eqn:E; unfold a1 in *; clear a1.
  - rewrite decide_False, decide_True by done. split; [done|]. split; [done|]. split.
    + eapply balanced_trans; [|exact Hbal]. apply free_frag_balanced.
    + rewrite Hev. cbn. rewrite (assoc_L (++)). f_equal. unfold fragment_free_frag. clear. revert a.
      induction (f_qe f) as [|e q IH]; intros a; cbn; [by rewrite app_nil_r|]. rewrite IH, (assoc_L (++)). done.
  - rewrite decide_True, decide_False by done. split; [done|]. split; [done|]. split; [|done]. cbn.
    eapply balanced_trans; [|eapply balanced_trans; [apply (balanced_app _ _ _ _ (f_qe f) Hbal)|]]; apply balanced_perm;
      apply Permutation_app_comm.
Qed.

(** C33: the scan of a list.  Exactly the entries that have been idle for more than five
    seconds go, also when the 32 bits of the clock have wrapped around in between; what
    waited in them is freed, and the others keep their order. *)
Theorem assembler_scan_expires sec bucket a :
  0 <= sec <= UINT_MAX -> Forall (fun f => 0 <= f_time f <= UINT_MAX) bucket ->
  let '(n, b', a') := vr_assembler_table_scan (fun _ => sec) bucket a in
  b' = filter (fun f => u32 (sec - f_time f) <= VR_ASSEMBLER_TIMEOUT_TIME) bucket /\
  balanced (elements bucket) a (elements b') a' /\ (bucket_ok bucket -> bucket_ok b') /\
  forall e, e ∈ elements bucket -> e ∉ elements b' -> forall pkt, pl_packet (fqe_pnode e) = Some pkt ->
    E_pfree pkt VP_DROP_FRAGMENTS ∈ as_events a'.
Proof.
  intros Hsec Ht. pose proof (scan_get_filter sec bucket a) as Hs.
  destruct (vr_assembler_table_scan (fun _ => sec) bucket a) as [[n b'] a']. destruct Hs as (-> & _ & Hbal & Hev).
  assert (Hsub : sublist (filter (fun f => frag_expired sec (f_time f) = false) bucket) bucket) by apply sublist_filter.
  split_and!; [|done| |].
  - clear Hbal Hev Hsub. induction Ht as [|f bucket Hf Ht IH]; [done|]. rewrite !filter_cons, IH.
    pose proof (expired_eq sec (f_time f) Hsec Hf) as E.
    destruct (decide (frag_expired sec (f_time f) = false)) as [H1|H1],
      (decide (u32 (sec - f_time f) <= VR_ASSEMBLER_TIMEOUT_TIME)) as [H2|H2]; try done; exfalso; rewrite E in H1.
    + apply Z.ltb_ge in H1. lia.
    + apply H1, Z.ltb_ge. lia.
  - intros [Hk Hw Hl]. split.
    + eapply sublist_NoDup; [exact Hk|]. by apply fmap_sublist.
    + rewrite Forall_forall in *. intros f Hf. apply Hw. by eapply elem_of_sublist.
    + apply sublist_length in Hsub. unfold zlen in *. lia.
  - intros e He Hne pkt Hpkt. rewrite Hev. apply elem_of_app. right. unfold elements in *.
    apply list_elem_of_bind in He as (f & Hef & Hf). apply list_elem_of_bind. exists f.
    assert (Hx : frag_expired sec (f_time f) = true).
    { destruct (frag_expired sec (f_time f)) eqn:E; [done|]. exfalso. apply Hne. apply list_elem_of_bind. exists f.
      split; [done|]. by apply list_elem_of_filter. }
    split; [|by apply list_elem_of_filter]. apply list_elem_of_bind. exists e. split; [|done]. rewrite Hpkt. set_solver.
Qed.

(** ** The queue of a processor *)

(** The length is that of the list, unless the list has just been taken. *)
Definition queue_ok (q : vr_fragment_queue) : Prop :=
  (vfq_tail q = [] \/ vfq_length q = zlen (vfq_tail q)) /\ zlen (vfq_tail q) <= VR_MAX_FRAGMENTS_PER_CPU_QUEUE.

Lemma attempts_spec n taken fqe q g :
  queue_ok q -> zlen (vfq_tail q) < VR_MAX_FRAGMENTS_PER_CPU_QUEUE ->
  let '(ok, q', g') := enqueue_attempts (S (S n)) taken fqe q g in
  ok = true /\ queue_ok q' /\ concat (vfq_tail q' :: rev g') = fqe :: concat (vfq_tail q :: rev g).
Proof.
  intros [Hq Hb] Hroom. cbn [enqueue_attempts]. destruct (vfq_tail q) as [|e tl] eqn:Et.
  - unfold grab. cbn. destruct (default false (head taken)); cbn; split_and!; try done; try (split; [by right|done]).
    rewrite rev_app_distr. done.
  - destruct Hq as [Hq|Hq]; [done|].
    unfold grab. cbn [vfq_length vfq_tail]. destruct (default false (head taken)); cbn [vfq_tail].
    + destruct (default false (head (tail taken))); cbn; (split; [done|]); (split; [split; [by right|done]|]);
        rewrite ?rev_app_distr; cbn; rewrite ?rev_app_distr; done.
    + split; [done|]. split; [|done]. split; cbn [vfq_tail vfq_length]; unfold zlen in *; cbn [length] in *; [right|]; lia.
Qed.

(** Handing a fragment to the assembler while the assembler takes the list away at any
    moment.  The fragment is at the head of the queue, before all that was there and has not
    been taken, or it is freed: because the queue or the host is full or there is no memory,
    and never because the compare-and-swap was tried too often. *)
Theorem enqueue_keeps limit block taken q pkt fmd :
  queue_ok q ->
  let '(ret, q', g, evs) := vr_fragment_enqueue limit block taken q pkt fmd in
  queue_ok q' /\
  (ret = 0 /\ evs = [] /\ (exists fqe, vp_id <$> pl_packet (fqe_pnode fqe) = Some (vp_id pkt) /\
     Some (fqe_block fqe) = fst <$> block /\ concat (vfq_tail q' :: rev g) = fqe :: vfq_tail q) \/
   ret = -1 /\ evs = [E_pfree pkt VP_DROP_FRAGMENTS] /\ g = [] /\ vfq_tail q' = vfq_tail q /\
     (limit = true \/ block = None \/ zlen (vfq_tail q) = VR_MAX_FRAGMENTS_PER_CPU_QUEUE)).
Proof.
  intros Hq. unfold vr_fragment_enqueue. set (full := match vfq_tail q with [] => false | _ => _ end).
  set (q0 := match vfq_tail q with [] => mk_vfq 0 [] | _ => q end).
  assert (Hq0 : queue_ok q0 /\ vfq_tail q0 = vfq_tail q).
  { unfold q0. destruct (vfq_tail q) eqn:E; [|done]. split; [split; [by left|done]|done]. }
  destruct Hq0 as [Hq0 Ht0]. destruct full eqn:Ef.
  { split; [done|]. right. split_and!; try done. right; right. unfold full in Ef. destruct Hq as [Hq Hb].
    destruct (vfq_tail q) as [|e tl] eqn:E; [done|]. apply Z.ltb_lt in Ef. destruct Hq as [Hq|Hq]; [done|]. lia. }
  destruct limit; [split; [done|]; right; split_and!; auto|].
  destruct block as [[b old]|]; [|split; [done|]; right; split_and!; auto].
  set (fqe := mk_fqe b _). destruct (grab (default false (head taken)) q0 []) as [q1 g] eqn:Eg.
  assert (H1 : queue_ok q1 /\ zlen (vfq_tail q1) < VR_MAX_FRAGMENTS_PER_CPU_QUEUE /\ concat (vfq_tail q1 :: rev g) = vfq_tail q).
  { unfold grab in Eg. destruct (default false (head taken)); injection Eg as <- <-; cbn.
    - split; [split; [by left|done]|]. split; [done|]. by rewrite app_nil_r.
    - split; [done|]. rewrite app_nil_r, Ht0. split; [|done]. unfold full in Ef. destruct Hq as [Hq Hb].
      destruct (vfq_tail q) as [|e tl] eqn:E; [done|]. apply Z.ltb_ge in Ef. destruct Hq as [Hq|Hq]; [done|]. lia. }
  destruct H1 as (Hq1 & Hr1 & Hc1). pose proof (attempts_spec 1 (tail taken) fqe q1 g Hq1 Hr1) as Ha.
  change VR_FRAG_ENQUEUE_ATTEMPTS with 3%nat. destruct (enqueue_attempts 3 (tail taken) fqe q1 g) as [[ok q2] g2].
  destruct Ha as (-> & Hq2 & Hc2). split; [done|]. left. split_and!; try done. exists fqe. rewrite Hc1 in Hc2. split_and!; try done.
  unfold fqe, vr_flow_fill_pnode. cbn. by repeat case_match.
Qed.

End FragmentProofs.
