(* ===== verification/FragmentExamples.v ===== *)
(** * Fragments: runs

    Concrete runs that meet the hypotheses of the theorems of [FragmentProofs.v], and runs
    that do not go well. *)

From stdpp Require Import gmap.
From S2P Require Import Prelude Hash Btable Fragment FragmentProofs.

Module FragmentExamples.
Import Fragment FragmentProofs.

(** ** The table *)

Definition entry0 : vr_fragment := mk_frag (mk_fk 0 0 0 0) 0 0 [] 0 0 0 false.
Definition ft0 : frag_tables := mk_ft (replicate 4096 entry0) (replicate 512 entry0).

Lemma entry_of_zeros (n : nat) i fe : zget (replicate n entry0) i = Some fe -> fe = entry0.
Proof. unfold zget. case_decide; [|done]. intros Hx. by apply lookup_replicate in Hx as [-> _]. Qed.

Lemma ft0_ok : ft_ok ft0.
Proof.
  split.
  - unfold ft0. cbn [ft_table]. by rewrite zlen_replicate.
  - unfold ft0. cbn [ft_otable]. by rewrite zlen_replicate.
  - intros i fe Hi Hd. apply entry_of_zeros in Hi as ->. done.
Qed.

(** A packet of 2020 bytes from 10.0.0.1 to 10.0.0.2 in three fragments. *)
Definition ip_head : vr_ip := mk_ip 4 5 64515 77 32 16777226 33554442.
Definition ip_middle : vr_ip := mk_ip 4 5 64515 77 32032 16777226 33554442.
Definition ip_tail : vr_ip := mk_ip 4 5 10240 77 64000 16777226 33554442.

Example lengths : payload_len <$> [ip_head; ip_middle; ip_tail] = [1000; 1000; 20] /\ tail_end ip_tail = 2020.
Proof. by vm_compute. Qed.

Example kinds : vr_ip_fragment_head <$> [ip_head; ip_middle; ip_tail] = [true; false; false] /\
  vr_ip_fragment_tail <$> [ip_head; ip_middle; ip_tail] = [false; false; true].
Proof. by vm_compute. Qed.

Lemma absent0 vrf iph : ip_daddr iph <> 0 -> absent ft0 (fragment_key vrf iph).
Proof.
  intros Hd. split; [exact ft0_ok|]. intros [i|i] fe Hg Hk; apply entry_of_zeros in Hg as ->; apply Hd; by injection Hk.
Qed.

Lemma fragment_lookup_witness :
  (match vr_fragment_get 9 3 ip_head ft0 with
   | (Some l, ft') => exists fe, fragment_entry_get l ft0 = Some fe /\ f_key fe = fragment_key 3 ip_head /\
       ft' = frag_put l (with_time 9 fe) ft0 /\ ft_ok ft'
   | (None, ft') => ft' = ft0 /\ forall l fe, fragment_entry_get l ft0 = Some fe -> f_key fe <> fragment_key 3 ip_head
   end) /\
  let '(ret, ft') := vr_fragment_add 9 3 ip_head 80 8080 ft0 in
  ft_ok ft' /\
  (ret = 0 /\ is_Some (vr_fragment_get 9 3 ip_head ft').1 \/
   ret = - ENOMEM /\ ft' = ft0 /\
     forall l fe, l ∈ frag_slots (key_hash (fragment_key 3 ip_head)) -> fragment_entry_get l ft0 = Some fe -> f_dip fe <> 0).
Proof. apply (fragment_lookup 9 3 ip_head 80 8080 ft0 ft0_ok). done. Defined.

Definition ft1 : frag_tables := (vr_fragment_add 9 3 ip_head 80 8080 ft0).2.

Lemma fragment_packet_passes_witness :
  let '(ports, ft2) := pass_all 3 [(9, ip_tail); (10, ip_middle)] ft1 in
  ports = replicate 2 (Some (u16 80, u16 8080)) /\ ft_ok ft2 /\ forall sec, (vr_fragment_get sec 3 ip_head ft2).1 = None.
Proof.
  apply (fragment_packet_passes 9 3 ip_head 80 8080 [(9, ip_tail); (10, ip_middle)] ft0 ft1).
  - by apply absent0.
  - done.
  - unfold ft1. assert (E : (vr_fragment_add 9 3 ip_head 80 8080 ft0).1 = 0) by (by vm_compute).
    destruct (vr_fragment_add 9 3 ip_head 80 8080 ft0) as [ret ft]. cbn in E. by rewrite E.
  - by vm_compute.
  - by vm_compute.
  - repeat constructor; by vm_compute.
  - left. by vm_compute.
Defined.

(** A second head of the same packet, with other ports, takes a second entry; the fragments
    keep getting the ports of the first. *)
Theorem fragment_add_duplicate :
  let '(ret, ft2) := vr_fragment_add 10 3 ip_head 81 8081 ft1 in
  ret = 0 /\ (vr_inet_fragment_flow 10 3 ip_middle ft2).1 = Some (80, 8080).
Proof. vm_compute. split; reflexivity. Qed.

(** One entry of 64 was used at second 4; the timer runs at second 9. *)
Definition zeros64 : list vr_fragment := replicate 64 entry0.
Definition used4 : vr_fragment := mk_frag (mk_fk 1 2 3 4) 80 8080 [] 4 0 100 false.
Definition t64 : list vr_fragment := Eval vm_compute in zset zeros64 7 used4.

Lemma scanner_goes_round_witness :
  exists sec, sec ∈ [9] /\ zget (scan_ticks [9] (mk_sp (zlen t64) (-1)) t64).2 7 = Some (reap_entry sec used4).
Proof. by apply (scanner_goes_round [9] (-1) t64); vm_compute. Defined.

Example reaped : f_dip (reap_entry 9 used4) = 0.
Proof. by vm_compute. Qed.

(** ** The assembler *)

Definition no_flush (pnode : vr_packet_node) (ft : frag_tables) : frag_tables := ft.

Definition piece (block : Z) (ip : vr_ip) (flags : Z) : vr_fragment_queue_element :=
  mk_fqe block (mk_pnode (Some (mk_fpkt block 0 5 ip (Some ip))) 0 16777226 33554442 0 5 flags 0 0 3 0).

Definition middle : vr_fragment_queue_element := piece 1 ip_middle 0.
Definition last : vr_fragment_queue_element := piece 2 ip_tail 0.
Definition clone : vr_fragment_queue_element := piece 3 ip_head PN_FLAG_FRAGMENT_HEAD.
Definition asm0 : assembler := mk_asm ft0 [] [] false.

Definition bucket2 : list vr_fragment := [mk_frag (mk_fk 16777226 33554442 77 3) 0 0 [middle; last] 9 0 0 false].

Lemma bucket2_ok : bucket_ok bucket2.
Proof. split; [apply NoDup_singleton|by repeat constructor|done]. Qed.

Definition pkt_clone : frag_packet := mk_fpkt 3 0 5 ip_head (Some ip_head).

Lemma assembler_spec_witness :
  let key := element_key clone pkt_clone in
  let '(ret, b', a') := vr_fragment_assembler no_flush 9 9 bucket2 clone asm0 in
  bucket_ok b' /\ (forall k, k <> key -> queue_of k b' = queue_of k bucket2) /\
  ret = 0 /\ queue_of key b' = [] /\
  a' = foldl (fun a e => vr_fragment_flush_queue_element no_flush e a)
         (vr_fragment_queue_element_free clone VP_DROP_CLONED_ORIGINAL asm0) (queue_of key bucket2).
Proof. exact (assembler_spec no_flush 9 9 bucket2 clone pkt_clone asm0 bucket2_ok eq_refl). Defined.

Definition table0 : list (list vr_fragment) := replicate 1024 [].

Lemma table0_ok : table_ok table0.
Proof.
  assert (He : forall i bucket, zget table0 i = Some bucket -> bucket = []).
  { intros i bucket. unfold zget, table0. case_decide; [|done]. intros Hx. by apply lookup_replicate in Hx as [-> _]. }
  split.
  - unfold table0. by rewrite zlen_replicate.
  - intros i bucket Hb. apply He in Hb as ->. split; [constructor|constructor|done].
  - intros i bucket f Hb Hf. apply He in Hb as ->. by apply elem_of_nil in Hf.
Qed.

(** The fragments came first, then the clone of the head; the newest is first. *)
Definition queue3 : list vr_fragment_queue_element := [clone; last; middle].

Lemma linux_assembler_conserves_witness :
  let '(t', a') := vr_linux_fragment_assembler no_flush 9 queue3 table0 asm0 in
  table_ok t' /\ balanced (queue3 ++ all_elements table0) asm0 (all_elements t') a'.
Proof.
  apply (linux_assembler_conserves no_flush 9 queue3 table0 asm0); [repeat constructor; by eexists|exact table0_ok].
Defined.

Example linux_run :
  let '(t', a') := vr_linux_fragment_assembler no_flush 9 queue3 table0 asm0 in
  length (all_elements t') = 0%nat /\ freed (as_events a') = [3; 1; 2].
Proof. by vm_compute. Qed.

(** On DPDK the list is chosen by the addresses in the packet.  When those of the head have
    been translated before the clone is looked at, its fragments are not found. *)
Definition clone_nat : vr_fragment_queue_element :=
  mk_fqe 3 (mk_pnode (Some (mk_fpkt 3 0 5 (mk_ip 4 5 64515 77 32 16777236 33554442) None)) 0 16777226 33554442 0 5
    PN_FLAG_FRAGMENT_HEAD 0 0 3 0).

Theorem dpdk_assembler_misses_head :
  let '(t', _) := vr_linux_fragment_assembler no_flush 9 [clone_nat; last; middle] table0 asm0 in
  let '(t2, _) := dpdk_fragment_assembler no_flush 9 [clone_nat; last; middle] table0 asm0 in
  length (all_elements t') = 0%nat /\ length (all_elements t2) = 2%nat.
Proof. by vm_compute. Qed.

(** The clock wraps between the arrival, at the last second, and the scans. *)
Definition bucket_late : list vr_fragment := [mk_frag (mk_fk 1 2 3 4) 0 0 [middle] 4294967295 0 0 false].

Lemma assembler_scan_expires_witness :
  let '(n, b', a') := vr_assembler_table_scan (fun _ => 5) bucket_late asm0 in
  b' = filter (fun f => u32 (5 - f_time f) <= VR_ASSEMBLER_TIMEOUT_TIME) bucket_late /\
  balanced (elements bucket_late) asm0 (elements b') a' /\ (bucket_ok bucket_late -> bucket_ok b') /\
  forall e, e ∈ elements bucket_late -> e ∉ elements b' -> forall pkt, pl_packet (fqe_pnode e) = Some pkt ->
    E_pfree pkt VP_DROP_FRAGMENTS ∈ as_events a'.
Proof. apply (assembler_scan_expires 5 bucket_late asm0); [lia|repeat constructor; cbn; lia]. Defined.

Example scan_late :
  length (vr_assembler_table_scan (fun _ => 4) bucket_late asm0).1.2 = 1%nat /\
  length (vr_assembler_table_scan (fun _ => 5) bucket_late asm0).1.2 = 0%nat.
Proof. by vm_compute. Qed.

(** ** The queue *)

Definition pnode0 : vr_packet_node := mk_pnode None 0 0 0 0 0 0 0 0 0 0.
Definition pkt9 : frag_packet := mk_fpkt 9 8 5 ip_tail (Some ip_tail).
Definition fmd0 : frag_fmd := mk_ffmd 0 (-1) false false (-1) (-1) 3 0.

Lemma enqueue_keeps_witness :
  let '(ret, q', g, evs) := vr_fragment_enqueue false (Some (4, pnode0)) [false; true] (mk_vfq 2 [last; middle]) pkt9 fmd0 in
  queue_ok q' /\
  (ret = 0 /\ evs = [] /\ (exists fqe, vp_id <$> pl_packet (fqe_pnode fqe) = Some (vp_id pkt9) /\
     Some (fqe_block fqe) = fst <$> Some (4, pnode0) /\ concat (vfq_tail q' :: rev g) = fqe :: [last; middle]) \/
   ret = -1 /\ evs = [E_pfree pkt9 VP_DROP_FRAGMENTS] /\ g = [] /\ vfq_tail q' = [last; middle] /\
     (false = true \/ Some (4, pnode0) = None \/ zlen [last; middle] = VR_MAX_FRAGMENTS_PER_CPU_QUEUE)).
Proof.
  apply (enqueue_keeps false (Some (4, pnode0)) [false; true] (mk_vfq 2 [last; middle]) pkt9 fmd0). split; [by right|by vm_compute].
Defined.

(** The list is taken between the two steps: the second attempt puts the fragment alone. *)
Example enqueue_race :
  let '(ret, q', g, _) := vr_fragment_enqueue false (Some (4, pnode0)) [false; true] (mk_vfq 2 [last; middle]) pkt9 fmd0 in
  ret = 0 /\ fqe_block <$> vfq_tail q' = [4] /\ vfq_length q' = 1 /\ g = [[last; middle]].
Proof. by vm_compute. Qed.

(** ** Set-up *)

Definition fr0 (timers : list bool) : frag_router := mk_fr None None None None None mem0 timers.

(** Set-up and tear-down give all the memory back. *)
Example init_exit : let '(ret, r) := vr_fragment_table_init (fr0 []) in
  ret = 0 /\ m_live (fr_mem (vr_fragment_table_exit r)) = ∅.
Proof. by vm_compute. Qed.

(** When the timer of a table cannot be created its block is lost: nothing points to it,
    and it is still there after the tear-down. *)
Theorem fragment_timer_leaks : let '(ret, r) := vr_fragment_table_init (fr0 [false]) in
  ret = - ENOMEM /\ vr_fragment_table_scanner r = None /\ size (m_live (fr_mem (vr_fragment_table_exit r))) = 1%nat.
Proof. by vm_compute. Qed.

(** Without a timer the lists of the assembler are never scanned; the caller is told that
    all is well. *)
Theorem assembler_timer_unreported :
  let '(ret, r) := vr_assembler_table_scan_init (fr0 [false]) in ret = 0 /\ vr_assembler_table_scan_timer r = None.
Proof. by vm_compute. Qed.

End FragmentExamples.
