(* ===== verification/VrfAssign.v ===== *)
(** * VRFs of the VLANs of an interface (dp-core/vr_vrf_assign.c)

    A service interface gives each VLAN tag a VRF and a nexthop of its own, in a table of
    the interface (the functions of dp-core/vr_interface.c that keep it are here too).
    While the interface is a service interface its receive function [vm_srx] reads the
    table without a test.  The service flag may be cleared before the agent has removed
    its assignments: the table goes with the last of them. *)

From stdpp Require Import gmap.
From S2P Require Import Prelude Queue Message.

Module VrfAssign.
Import Message.

Definition VIF_VRF_TABLE_ENTRIES : Z := 1024.
Definition VIF_FLAG_SERVICE_IF : Z := 4.
Definition VIF_FLAG_L3_ENABLED : Z := 64.
Definition VIF_FLAG_L2_ENABLED : Z := 128.
Definition VIF_VR_CAP_MASK : Z := Z.lor 32 131072.
Definition VIF_TYPE_VIRTUAL : Z := 3.
Definition VIF_TYPE_VIRTUAL_VLAN : Z := 6.
Definition VLAN_ID_INVALID : Z := 65535.

(** ** Data *)

Record vr_vrf_assign_req := mk_var {
  var_rid : Z;
  var_vif_index : Z;
  var_vif_vrf : Z;
  var_vlan_id : Z;
  var_marker : Z;
  var_nh_id : Z
}.

Record vr_vrf_assign := mk_va { va_vrf : Z; va_nh_id : Z }.

(** The receive functions of interfaces; the first three are set here. *)
Inductive vif_rx_fn := vm_rx | eth_rx | vm_srx | vif_discard_rx | agent_rx | vhost_rx | vlan_rx | tun_rx.

(** The fields of [struct vr_interface] that matter here. *)
Record vr_interface := mk_vif {
  vif_type : Z;
  vif_flags : Z;
  vif_vrf : Z;
  vif_nh_id : Z;
  vif_users : Z;
  vif_rx : vif_rx_fn;
  vif_vrf_table : option (list vr_vrf_assign);
  vif_vrf_table_users : Z
}.

Definition with_table (t : option (list vr_vrf_assign)) (users : Z) (v : vr_interface) : vr_interface :=
  mk_vif (vif_type v) (vif_flags v) (vif_vrf v) (vif_nh_id v) (vif_users v) (vif_rx v) t users.
Definition with_rx (rx : vif_rx_fn) (v : vr_interface) : vr_interface :=
  mk_vif (vif_type v) (vif_flags v) (vif_vrf v) (vif_nh_id v) (vif_users v) rx (vif_vrf_table v) (vif_vrf_table_users v).
Definition with_vflags (f : Z) (v : vr_interface) : vr_interface :=
  mk_vif (vif_type v) f (vif_vrf v) (vif_nh_id v) (vif_users v) (vif_rx v) (vif_vrf_table v) (vif_vrf_table_users v).
Definition with_users (n : Z) (v : vr_interface) : vr_interface :=
  mk_vif (vif_type v) (vif_flags v) (vif_vrf v) (vif_nh_id v) n (vif_rx v) (vif_vrf_table v) (vif_vrf_table_users v).

Definition vif_is_service (v : vr_interface) : bool := negb (Z.land (vif_flags v) VIF_FLAG_SERVICE_IF =? 0).
Definition vif_is_virtual (v : vr_interface) : bool :=
  (vif_type v =? VIF_TYPE_VIRTUAL) || (vif_type v =? VIF_TYPE_VIRTUAL_VLAN).

(** ** The table of an interface: vr_interface.c *)

(** [ok]: whether the allocator has a block. *)
Definition vr_interface_service_enable (ok : bool) (v : vr_interface) : Z * vr_interface :=
  match vif_vrf_table v with
  | Some _ => (0, with_rx vm_srx v)
  | None =>
      if ok
      then (0, with_rx vm_srx (with_table (Some (replicate (Z.to_nat VIF_VRF_TABLE_ENTRIES) (mk_va (-1) 0))) 0 v))
      else (- ENOMEM, v)
  end.

Definition vr_interface_service_disable (v : vr_interface) : vr_interface :=
  let v1 := with_rx (if vif_is_virtual v then vm_rx else eth_rx) v in
  match vif_vrf_table v1 with
  | Some _ => if vif_vrf_table_users v1 =? 0 then with_table None (vif_vrf_table_users v1) v1 else v1
  | None => v1
  end.

Definition vif_set_flags (vifr_flags : Z) (v : vr_interface) : vr_interface :=
  let f := Z.lor (Z.land (vif_flags v) VIF_VR_CAP_MASK) (Z.ldiff vifr_flags VIF_VR_CAP_MASK) in
  let both := Z.lor VIF_FLAG_L3_ENABLED VIF_FLAG_L2_ENABLED in
  with_vflags (if Z.land f both =? 0 then Z.lor f both else f) v.

(** The beginning of [vr_interface_change]: what a change of the service flag does. *)
Definition change_service (vifr_flags : Z) (ok : bool) (v : vr_interface) : Z * vr_interface :=
  let asked := negb (Z.land vifr_flags VIF_FLAG_SERVICE_IF =? 0) in
  let '(ret, v1) :=
    if asked && negb (vif_is_service v) then vr_interface_service_enable ok v
    else if vif_is_service v && negb asked then (0, vr_interface_service_disable v)
    else (0, v) in
  if negb (ret =? 0) then (ret, v1) else (0, vif_set_flags vifr_flags v1).

(** [None]: an access outside the table. *)
Definition vif_vrf_table_get_nh (v : vr_interface) (vlan : Z) : option Z :=
  if (VLAN_ID_INVALID <=? vlan) || negb (vif_is_service v) then Some (vif_nh_id v)
  else match vif_vrf_table v with
       | None => Some (vif_nh_id v)
       | Some t => va_nh_id <$> zget t vlan
       end.

Definition vif_vrf_table_get (v : vr_interface) (req : vr_vrf_assign_req) : option (Z * vr_vrf_assign_req) :=
  if negb (vif_is_service v) then Some (- EINVAL, req)
  else match vif_vrf_table v with
       | None => Some (- ENOMEM, req)
       | Some t =>
           if VIF_VRF_TABLE_ENTRIES <=? var_vlan_id req then Some (- EINVAL, req)
           else
             e ← zget t (var_vlan_id req);
             Some (0, mk_var (var_rid req) (var_vif_index req) (va_vrf e) (var_vlan_id req) (var_marker req) (s32 (va_nh_id e)))
       end.

Definition vif_vrf_table_set (ok : bool) (v : vr_interface) (vlan vrf nh_id : Z) : Z * vr_interface :=
  let '(ret, v1) :=
    match vif_vrf_table v with
    | Some _ => (0, v)
    | None =>
        if negb (vif_is_service v) then
          let '(ret, v1) := vr_interface_service_enable ok v in
          if negb (ret =? 0) then (ret, v1) else (0, with_vflags (Z.lor (vif_flags v1) VIF_FLAG_SERVICE_IF) v1)
        else (- ENOMEM, v)
    end in
  if negb (ret =? 0) then (ret, v1)
  else if VIF_VRF_TABLE_ENTRIES <=? vlan then (- EINVAL, v1)
  else
    match vif_vrf_table v1 with
    | None => (0, v1)
    | Some t =>
        let old := va_vrf (default (mk_va (-1) 0) (zget t vlan)) in
        let users :=
          if old <? 0 then if 0 <=? vrf then u16 (vif_vrf_table_users v1 + 1) else vif_vrf_table_users v1
          else if vrf <? 0 then u16 (vif_vrf_table_users v1 - 1) else vif_vrf_table_users v1 in
        let v2 := with_table (Some (zset t vlan (mk_va vrf nh_id))) users v1 in
        (0, if (Z.land (vif_flags v2) VIF_FLAG_SERVICE_IF =? 0) && (users =? 0) then with_table None users v2 else v2)
    end.

(** The VRF that [vm_srx] gives to a packet; [None]: there is no table. *)
Definition vm_srx_vrf (v : vr_interface) (vlan_id : Z) : option Z :=
  if VIF_VRF_TABLE_ENTRIES <=? vlan_id then Some (vif_vrf v)
  else t ← vif_vrf_table v; e ← zget t vlan_id; Some (u16 (va_vrf e)).

(** ** Requests *)

(** The interfaces by index, and the answers of the allocator. *)
Record vifs := mk_vifs { vif_map : gmap Z vr_interface; vifs_oracle : list bool }.

Definition set_vif (idx : Z) (v : vr_interface) (s : vifs) : vifs := mk_vifs (<[idx := v]> (vif_map s)) (vifs_oracle s).

Definition vrouter_get_interface (idx : Z) (s : vifs) : option vr_interface * vifs :=
  match vif_map s !! idx with
  | Some v => let v1 := with_users (u32 (vif_users v + 1)) v in (Some v1, set_vif idx v1 s)
  | None => (None, s)
  end.

(** The last reference frees the interface, and its table with it. *)
Definition vrouter_put_interface (idx : Z) (s : vifs) : vifs :=
  match vif_map s !! idx with
  | Some v =>
      let n := u32 (vif_users v - 1) in
      if n =? 0 then mk_vifs (delete idx (vif_map s)) (vifs_oracle s) else set_vif idx (with_users n v) s
  | None => s
  end.

Definition vif_alloc (s : vifs) : bool * vifs :=
  (match vifs_oracle s with [] => true | b :: _ => b end, mk_vifs (vif_map s) (tail (vifs_oracle s))).

(** Does a request to set need the allocator? *)
Definition needs_table (v : vr_interface) : bool :=
  match vif_vrf_table v with Some _ => false | None => negb (vif_is_service v) end.

Section handlers.
Context `{Sandesh vr_vrf_assign_req}.

Definition vrf_assign_set (req : vr_vrf_assign_req) (s : vifs) : Z * vifs :=
  let idx := u32 (var_vif_index req) in
  match vrouter_get_interface idx s with
  | (None, s1) => (- EINVAL, s1)
  | (Some v, s1) =>
      let '(ok, s2) := if needs_table v then vif_alloc s1 else (true, s1) in
      let '(ret, v1) := vif_vrf_table_set ok v (u32 (var_vlan_id req)) (var_vif_vrf req) (u32 (var_nh_id req)) in
      (ret, vrouter_put_interface idx (set_vif idx v1 s2))
  end.

Definition vr_vrf_assign_set (req : vr_vrf_assign_req) (s : vifs) (h : vr_message_handler)
    : option (Z * vifs * vr_message_handler) :=
  let '(ret, s1) := vrf_assign_set req s in
  '(_, h1) ← vr_send_response (Obj := vr_vrf_assign_req) 2 ret h; Some (ret, s1, h1).

(** The outer [None]: an access outside the table. *)
Definition vrf_assign_get (req : vr_vrf_assign_req) (s : vifs) : option (Z * vr_vrf_assign_req * vifs) :=
  let idx := u32 (var_vif_index req) in
  match vrouter_get_interface idx s with
  | (None, s1) => Some (- EINVAL, req, s1)
  | (Some v, s1) => '(ret, resp) ← vif_vrf_table_get v req; Some (ret, resp, vrouter_put_interface idx s1)
  end.

Definition vr_vrf_assign_get (req : vr_vrf_assign_req) (s : vifs) (h : vr_message_handler)
    : option (vifs * vr_message_handler) :=
  '(ret, resp, s1) ← vrf_assign_get req s;
  '(_, h1) ← vr_message_response 2 VR_VRF_ASSIGN_OBJECT_ID (if ret =? 0 then Some resp else None) ret h;
  Some (s1, h1).

(** The loop: the last answer of a step, and the dumper. *)
Fixpoint vrf_dump_loop (idx : list Z) (v : vr_interface) (resp : vr_vrf_assign_req) (h : vr_message_handler) (ret : Z)
    (d : vr_message_dumper vr_vrf_assign_req) : option (Z * vr_message_dumper vr_vrf_assign_req) :=
  match idx with
  | [] => Some (ret, d)
  | i :: idx' =>
      let resp0 := mk_var (var_rid resp) (var_vif_index resp) (var_vif_vrf resp) (s16 i) (var_marker resp) (var_nh_id resp) in
      '(ret1, resp1) ← vif_vrf_table_get v resp0;
      if negb (ret1 =? 0) then Some (ret1, d)
      else if var_vif_vrf resp1 =? -1 then vrf_dump_loop idx' v resp1 h ret1 d
      else
        let '(ret2, d1) := vr_message_dump_object h d VR_VRF_ASSIGN_OBJECT_ID resp1 in
        if ret2 <=? 0 then Some (ret2, d1) else vrf_dump_loop idx' v resp1 h ret2 d1
  end.

Definition vr_vrf_assign_dump (req : vr_vrf_assign_req) (s : vifs) (h : vr_message_handler)
    : option (vifs * vr_message_handler) :=
  let idx := u32 (var_vif_index req) in
  let finish d ret s h := (fun h' => (s, h')) <$> vr_message_dump_exit 2 d ret h in
  match vr_message_dump_init req h with
  | (None, h1) => finish None (- ENOMEM) s h1
  | (Some d, h1) =>
      match vrouter_get_interface idx s with
      | (None, s1) => finish (Some d) (- EINVAL) s1 h1
      | (Some v, s1) =>
          let first := var_marker req + 1 in
          '(ret, d1) ← vrf_dump_loop (seqZ first (VIF_VRF_TABLE_ENTRIES - first)) v req h1 0 d;
          finish (Some d1) ret (vrouter_put_interface idx s1) h1
      end
  end.

Definition vr_vrf_assign_req_process (op : sandesh_op) (req : vr_vrf_assign_req) (s : vifs) (h : vr_message_handler)
    : option (vifs * vr_message_handler) :=
  match op with
  | SANDESH_OP_ADD => '(_, s1, h1) ← vr_vrf_assign_set req s h; Some (s1, h1)
  | SANDESH_OP_GET => vr_vrf_assign_get req s h
  | SANDESH_OP_DUMP => vr_vrf_assign_dump req s h
  | SANDESH_OP_DEL =>
      let req1 := mk_var (var_rid req) (var_vif_index req) (-1) (var_vlan_id req) (var_marker req) (var_nh_id req) in
      '(_, s1, h1) ← vr_vrf_assign_set req1 s h; Some (s1, h1)
  | _ => '(_, h1) ← vr_send_response (Obj := vr_vrf_assign_req) 2 (- EINVAL) h; Some (s, h1)
  end.

End handlers.

End VrfAssign.
