(* ===== verification/VrfAssignProofs.v ===== *)
(** * VRFs of VLANs: properties *)

From stdpp Require Import gmap.
From S2P Require Import Prelude Queue Message VrfAssign.

Module VrfAssignProofs.
Import VrfAssign.

(** The contract: which VLANs have a VRF, and which nexthop goes with it. *)
Definition vrf_of (v : vr_interface) (vlan : Z) : option (Z * Z) :=
  t ← vif_vrf_table v; e ← zget t vlan; if 0 <=? va_vrf e then Some (va_vrf e, va_nh_id e) else None.

Definition assigned (t : list vr_vrf_assign) : list vr_vrf_assign := filter (fun e => 0 <= va_vrf e) t.

Record vif_inv (v : vr_interface) : Prop := {
  vi_rx : vif_is_service v = true <-> vif_rx v = vm_srx;
  vi_table : match vif_vrf_table v with
             | Some t => zlen t = VIF_VRF_TABLE_ENTRIES /\ vif_vrf_table_users v = zlen (assigned t) /\
                 (vif_is_service v = true \/ 0 < vif_vrf_table_users v)
             | None => vif_vrf_table_users v = 0 /\ vif_is_service v = false
             end
}.

(** ** Counting *)

Lemma count_zset t i e e' : zget t i = Some e ->
  zlen (assigned (zset t i e')) = zlen (assigned t) - (if 0 <=? va_vrf e then 1 else 0) + (if 0 <=? va_vrf e' then 1 else 0).
Proof.
  unfold zget, zset, assigned. case_decide as Hi; [|done]. intros He. pose proof (lookup_lt_Some _ _ _ He) as Hlt.
  rewrite <- (take_drop_middle t _ _ He) at 2. rewrite insert_take_drop by done. rewrite !filter_app, !filter_cons, !zlen_app.
  destruct (Z.leb_spec 0 (va_vrf e)), (Z.leb_spec 0 (va_vrf e')); repeat case_decide; try lia; unfold zlen; cbn [length]; lia.
Qed.

Lemma count_le t : 0 <= zlen (assigned t) <= zlen t.
Proof. unfold zlen, assigned. pose proof (length_filter (fun e => 0 <= va_vrf e) t). lia. Qed.

Lemma count_fresh n : zlen (assigned (replicate n (mk_va (-1) 0))) = 0.
Proof. unfold assigned. induction n as [|n IH]; [done|]. cbn [replicate]. rewrite filter_cons, decide_False by (cbn; lia). done. Qed.

Lemma none_assigned t i e : zlen (assigned t) = 0 -> zget t i = Some e -> va_vrf e < 0.
Proof.
  intros Hz He. destruct (decide (0 <= va_vrf e)) as [Hp|]; [|lia]. exfalso.
  assert (Hin : e ∈ assigned t).
  { apply list_elem_of_filter. split; [done|]. unfold zget in He. case_decide; [|done]. by eapply list_elem_of_lookup_2. }
  unfold zlen in Hz. destruct (assigned t); [by apply elem_of_nil in Hin|cbn in Hz; lia].
Qed.

(** ** The service flag *)

Lemma service_testbit v : vif_is_service v = Z.testbit (vif_flags v) 2.
Proof.
  unfold vif_is_service, VIF_FLAG_SERVICE_IF. change 4 with (2 ^ 2). destruct (Z.testbit (vif_flags v) 2) eqn:E.
  - apply negb_true_iff, Z.eqb_neq. intros Hz. apply (f_equal (fun z => Z.testbit z 2)) in Hz.
    by rewrite Z.land_spec, E in Hz.
  - apply negb_false_iff, Z.eqb_eq. apply Z.bits_inj'. intros n Hn. rewrite Z.land_spec, Z.bits_0.
    destruct (decide (n = 2)) as [->|Hne]; [by rewrite E|]. rewrite Z.pow2_bits_false by lia. apply andb_false_r.
Qed.

Lemma flags_service f v : vif_is_service (vif_set_flags f v) = Z.testbit f 2.
Proof.
  rewrite service_testbit. unfold vif_set_flags. cbn [vif_flags with_vflags].
  assert (Hb : Z.testbit (Z.lor (Z.land (vif_flags v) VIF_VR_CAP_MASK) (Z.ldiff f VIF_VR_CAP_MASK)) 2 = Z.testbit f 2).
  { rewrite Z.lor_spec, Z.land_spec, Z.ldiff_spec. change (Z.testbit VIF_VR_CAP_MASK 2) with false.
    rewrite andb_false_r. cbn. apply andb_true_r. }
  case_match; [|done]. rewrite Z.lor_spec, Hb. apply orb_false_r.
Qed.

Lemma asked_testbit f : negb (Z.land f VIF_FLAG_SERVICE_IF =? 0) = Z.testbit f 2.
Proof. exact (service_testbit (mk_vif 0 f 0 0 0 vm_rx None 0)). Qed.

(** ** Operations *)

Lemma enable_spec ok v : vif_inv v ->
  let '(ret, v1) := vr_interface_service_enable ok v in
  (ret = 0 /\ vif_rx v1 = vm_srx /\ vif_flags v1 = vif_flags v /\ (forall j, vrf_of v1 j = vrf_of v j) /\
   exists t, vif_vrf_table v1 = Some t /\ zlen t = VIF_VRF_TABLE_ENTRIES /\ vif_vrf_table_users v1 = zlen (assigned t)) \/
  ret = - ENOMEM /\ v1 = v /\ ok = false /\ vif_vrf_table v = None.
Proof.
  intros [_ Ht]. unfold vr_interface_service_enable. destruct (vif_vrf_table v) as [t|] eqn:E.
  - left. destruct Ht as (Hl & Hu & _). split_and!; try done. exists t. done.
  - destruct ok; [left|by right]. split_and!; try done.
    + intros j. unfold vrf_of. rewrite E. cbn. unfold zget. case_decide; [|done].
      destruct (replicate _ _ !! _) eqn:Hx; [|done]. by apply lookup_replicate in Hx as [-> _].
    + eexists. split; [done|]. rewrite zlen_replicate, count_fresh. done.
Qed.

Lemma disable_spec v : vif_inv v -> vif_is_service v = true ->
  let v1 := vr_interface_service_disable v in
  vif_rx v1 <> vm_srx /\ vif_flags v1 = vif_flags v /\ (forall j, vrf_of v1 j = vrf_of v j) /\
  match vif_vrf_table v1 with
  | Some t => zlen t = VIF_VRF_TABLE_ENTRIES /\ vif_vrf_table_users v1 = zlen (assigned t) /\ 0 < vif_vrf_table_users v1
  | None => vif_vrf_table_users v1 = 0
  end.
Proof.
  intros [_ Ht] Hs. unfold vr_interface_service_disable. cbn [vif_vrf_table with_rx vif_vrf_table_users].
  assert (Hrx : (if vif_is_virtual v then vm_rx else eth_rx) <> vm_srx) by (by destruct (vif_is_virtual v)).
  destruct (vif_vrf_table v) as [t|] eqn:E; [|destruct Ht; congruence].
  destruct Ht as (Hl & Hu & _). destruct (Z.eqb_spec (vif_vrf_table_users v) 0) as [Hz|Hz].
  - split_and!; try done. intros j. unfold vrf_of. rewrite E. cbn. destruct (zget t j) as [e|] eqn:Hj; [|done].
    cbn. rewrite Hz in Hu. by rewrite (proj2 (Z.leb_gt _ _)) by (by eapply none_assigned).
  - split_and!; try done. cbn. rewrite E. split_and!; try done. pose proof (count_le t). lia.
Qed.

Lemma change_service_inv f ok v : vif_inv v ->
  let '(ret, v1) := change_service f ok v in
  vif_inv v1 /\ (forall j, vrf_of v1 j = vrf_of v j) /\
  (ret = 0 /\ vif_is_service v1 = Z.testbit f 2 \/ ret = - ENOMEM /\ v1 = v /\ ok = false).
Proof.
  intros Hi. unfold change_service. rewrite asked_testbit.
  assert (Hset : forall w, vif_rx (vif_set_flags f w) = vif_rx w /\ vif_vrf_table (vif_set_flags f w) = vif_vrf_table w /\
    vif_vrf_table_users (vif_set_flags f w) = vif_vrf_table_users w /\ forall j, vrf_of (vif_set_flags f w) j = vrf_of w j) by done.
  destruct (Z.testbit f 2) eqn:Ef, (vif_is_service v) eqn:Es; cbn [andb negb].
  - destruct (Hset v) as (H1 & H2 & H3 & H4). cbn [negb Z.eqb]. split_and!; [|done|left; by rewrite flags_service].
    split; rewrite flags_service, Ef, ?H1, ?H2, ?H3; [split; [intros _; by apply Hi|done]|].
    pose proof (vi_table _ Hi) as Ht. rewrite Es in Ht. destruct (vif_vrf_table v); [naive_solver|naive_solver].
  - pose proof (enable_spec ok v Hi) as He. destruct (vr_interface_service_enable ok v) as [ret v1].
    destruct He as [(-> & Hrx & _ & Hv & t & Ht & Hl & Hu)|(-> & -> & -> & _)]; cbn [negb Z.eqb Z.opp].
    + destruct (Hset v1) as (H1 & H2 & H3 & H4). split_and!; [|intros j; by rewrite H4|left; by rewrite flags_service].
      split; rewrite flags_service, Ef, ?H1, ?H2, ?H3, ?Ht; [done|]. auto.
    + change (negb (- ENOMEM =? 0)) with true. cbn iota. split_and!; [done|done|right; done].
  - pose proof (disable_spec v Hi Es) as Hd. set (v1 := vr_interface_service_disable v) in *. cbn zeta in Hd.
    destruct Hd as (Hrx & _ & Hv & Ht). destruct (Hset v1) as (H1 & H2 & H3 & H4). cbn [negb Z.eqb].
    split_and!; [|intros j; by rewrite H4|left; by rewrite flags_service].
    split; rewrite flags_service, Ef, ?H1, ?H2, ?H3; [done|]. destruct (vif_vrf_table v1); naive_solver.
  - destruct (Hset v) as (H1 & H2 & H3 & H4). cbn [negb Z.eqb]. split_and!; [|done|left; by rewrite flags_service].
    split; rewrite flags_service, Ef, ?H1, ?H2, ?H3.
    + pose proof (vi_rx _ Hi) as Hr. rewrite Es in Hr. split; [done|]. intros Hx. by apply Hr in Hx.
    + pose proof (vi_table _ Hi) as Ht. rewrite Es in Ht. done.
Qed.

(** The first part of [vif_vrf_table_set]: there is a table, or there is no memory. *)
Definition ensure_table (ok : bool) (v : vr_interface) : Z * vr_interface :=
  match vif_vrf_table v with
  | Some _ => (0, v)
  | None =>
      if negb (vif_is_service v) then
        let '(ret, v1) := vr_interface_service_enable ok v in
        if negb (ret =? 0) then (ret, v1) else (0, with_vflags (Z.lor (vif_flags v1) VIF_FLAG_SERVICE_IF) v1)
      else (- ENOMEM, v)
  end.

Lemma ensure_spec ok v : vif_inv v ->
  let '(ret, v1) := ensure_table ok v in
  (ret = 0 /\ vif_inv v1 /\ is_Some (vif_vrf_table v1) /\ (forall j, vrf_of v1 j = vrf_of v j) /\ vif_users v1 = vif_users v /\
   (vif_is_service v = true \/ vif_vrf_table v = None -> vif_is_service v1 = true)) \/
  ret = - ENOMEM /\ v1 = v /\ ok = false /\ vif_vrf_table v = None.
Proof.
  intros Hi. unfold ensure_table. destruct (vif_vrf_table v) as [t|] eqn:E.
  { left. rewrite E. split_and!; try done. naive_solver. }
  pose proof (vi_table _ Hi) as Ht. rewrite E in Ht. destruct Ht as [_ Hs]. rewrite Hs. cbn [negb].
  pose proof (enable_spec ok v Hi) as He.
  assert (Hu : vif_users (vr_interface_service_enable ok v).2 = vif_users v).
  { unfold vr_interface_service_enable. rewrite E. by destruct ok. }
  destruct (vr_interface_service_enable ok v) as [ret v1]. cbn in Hu.
  destruct He as [(-> & Hrx & _ & Hv & t & Ht & Hl & Hus)|(-> & -> & -> & _)]; [left|right; done].
  cbn [negb Z.eqb]. set (v2 := with_vflags _ v1).
  assert (Hs2 : vif_is_service v2 = true).
  { rewrite service_testbit. change (vif_flags v2) with (Z.lor (vif_flags v1) VIF_FLAG_SERVICE_IF).
    rewrite Z.lor_spec. apply orb_true_r. }
  split; [done|]. split; [|split_and!; try done; by eexists].
  split; [done|]. change (vif_vrf_table v2) with (vif_vrf_table v1). rewrite Ht. split_and!; try done. by left.
Qed.

Lemma set_unfold ok v vlan vrf nh_id :
  vif_vrf_table_set ok v vlan vrf nh_id =
  let '(ret, v1) := ensure_table ok v in
  if negb (ret =? 0) then (ret, v1)
  else if VIF_VRF_TABLE_ENTRIES <=? vlan then (- EINVAL, v1)
  else
    match vif_vrf_table v1 with
    | None => (0, v1)
    | Some t =>
        let old := va_vrf (default (mk_va (-1) 0) (zget t vlan)) in
        let users :=
          if old <? 0 then if 0 <=? vrf then u16 (vif_vrf_table_users v1 + 1) else vif_vrf_table_users v1
          else if vrf <? 0 then u16 (vif_vrf_table_users v1 - 1) else vif_vrf_table_users v1 in
        let v2 := with_table (Some (zset t vlan (mk_va vrf nh_id))) users v1 in
        (0, if (Z.land (vif_flags v2) VIF_FLAG_SERVICE_IF =? 0) && (users =? 0) then with_table None users v2 else v2)
    end.
Proof. done. Qed.

(** The count after an entry has been written. *)
Lemma users_count t vlan e vrf nh_id :
  zlen t = VIF_VRF_TABLE_ENTRIES -> zget t vlan = Some e ->
  (if va_vrf e <? 0 then if 0 <=? vrf then u16 (zlen (assigned t) + 1) else zlen (assigned t)
   else if vrf <? 0 then u16 (zlen (assigned t) - 1) else zlen (assigned t)) =
  zlen (assigned (zset t vlan (mk_va vrf nh_id))).
Proof.
  intros Hl He. pose proof (count_zset t vlan e (mk_va vrf nh_id) He) as Hc. cbn [va_vrf] in Hc.
  pose proof (count_le t) as H1. pose proof (count_le (zset t vlan (mk_va vrf nh_id))) as H2. rewrite zlen_zset in H2.
  unfold VIF_VRF_TABLE_ENTRIES in Hl.
  destruct (Z.ltb_spec (va_vrf e) 0), (Z.leb_spec 0 vrf), (Z.ltb_spec vrf 0), (Z.leb_spec 0 (va_vrf e)); try lia;
    rewrite u16_small; lia.
Qed.

Lemma vrf_of_zset v users t vlan vrf nh_id j :
  vif_vrf_table v = Some t -> 0 <= vlan < zlen t ->
  vrf_of (with_table (Some (zset t vlan (mk_va vrf nh_id))) users v) j =
  if decide (j = vlan) then if 0 <=? vrf then Some (vrf, nh_id) else None else vrf_of v j.
Proof.
  intros Ht Hr. unfold vrf_of. rewrite Ht. cbn. destruct (decide (j = vlan)) as [->|Hne].
  - by rewrite zget_zset_eq.
  - by rewrite zget_zset_ne.
Qed.

Lemma set_cases ok v vlan vrf nh_id :
  vif_inv v -> 0 <= vlan ->
  let '(ret, v') := vif_vrf_table_set ok v vlan vrf nh_id in
  vif_inv v' /\ vif_users v' = vif_users v /\
  (ret = 0 /\ vlan < VIF_VRF_TABLE_ENTRIES /\ (forall j, vrf_of v' j =
     if decide (j = vlan) then if 0 <=? vrf then Some (vrf, nh_id) else None else vrf_of v j) /\
     (vif_is_service v = true \/ vif_vrf_table v = None -> vif_is_service v' = true) \/
   ret = - EINVAL /\ VIF_VRF_TABLE_ENTRIES <= vlan /\ (forall j, vrf_of v' j = vrf_of v j) \/
   ret = - ENOMEM /\ v' = v /\ ok = false /\ vif_vrf_table v = None).
Proof.
  intros Hi Hpos. rewrite set_unfold. pose proof (ensure_spec ok v Hi) as He. destruct (ensure_table ok v) as [ret v1].
  destruct He as [(-> & Hi1 & [t Ht] & Hv & Hu & Hserv)|(-> & -> & -> & Hn)].
  2: { change (negb (- ENOMEM =? 0)) with true. cbn iota. split_and!; try done. right; right. done. }
  cbn [negb Z.eqb]. destruct (Z.leb_spec VIF_VRF_TABLE_ENTRIES vlan) as [Hge|Hlt].
  { split_and!; try done. right; left. done. }
  rewrite Ht. pose proof (vi_table _ Hi1) as Hti. rewrite Ht in Hti. destruct Hti as (Hl & Hus & Hor).
  destruct (zget_is_Some t vlan) as [e Hz]; [lia|]. rewrite Hz. cbn [default from_option id]. cbn zeta.
  rewrite Hus, (users_count t vlan e vrf nh_id Hl Hz). set (t' := zset t vlan (mk_va vrf nh_id)). set (n := zlen (assigned t')).
  set (v2 := with_table (Some t') n v1).
  assert (Hvv : forall j, vrf_of v2 j = if decide (j = vlan) then if 0 <=? vrf then Some (vrf, nh_id) else None else vrf_of v j).
  { intros j. unfold v2, t'. rewrite (vrf_of_zset v1 n t) by (done || lia). by rewrite Hv. }
  assert (Hserv2 : vif_is_service v2 = vif_is_service v1) by done.
  assert (Hneg : (Z.land (vif_flags v2) VIF_FLAG_SERVICE_IF =? 0) = negb (vif_is_service v2)) by (symmetry; apply negb_involutive).
  rewrite Hneg. pose proof (count_le t') as Hn0. fold n in Hn0.
  destruct (vif_is_service v2) eqn:Es; cbn [negb andb].
  - split; [|split; [done|]].
    + split; [exact (vi_rx _ Hi1)|]. cbn. unfold t' at 1. rewrite zlen_zset. split_and!; try done. by left.
    + left. split_and!; try done.
  - destruct (Z.eqb_spec n 0) as [Hz0|Hz0].
    + split; [|split; [done|]].
      * split; [exact (vi_rx _ Hi1)|]. cbn. split; [done|]. exact Es.
      * left. split; [done|]. split; [lia|]. split; [|intros Hx; rewrite <- (Hserv Hx); by rewrite <- Hserv2].
        intros j. rewrite <- Hvv. unfold vrf_of. cbn. destruct (zget t' j) as [e'|] eqn:Hj; [|done]. cbn.
        by rewrite (proj2 (Z.leb_gt _ _)) by (by eapply none_assigned).
    + split; [|split; [done|]].
      * split; [exact (vi_rx _ Hi1)|]. cbn. unfold t' at 1. rewrite zlen_zset. split_and!; try done. right. lia.
      * left. split; [done|]. split; [lia|]. split; [done|]. intros Hx. rewrite <- (Hserv Hx). by rewrite <- Hserv2.
Qed.

(** An assignment.  In every well-formed interface a request for a VLAN changes the
    assignment of that VLAN and no other, whether the interface is a service interface or
    is losing its last assignments; otherwise no assignment changes, and the error says why. *)
Theorem vrf_set_spec ok v vlan vrf nh_id :
  vif_inv v -> 0 <= vlan ->
  let '(ret, v') := vif_vrf_table_set ok v vlan vrf nh_id in
  vif_inv v' /\ vif_users v' = vif_users v /\
  (ret = 0 /\ vlan < VIF_VRF_TABLE_ENTRIES /\ (forall j, vrf_of v' j =
     if decide (j = vlan) then if 0 <=? vrf then Some (vrf, nh_id) else None else vrf_of v j) /\
     (vif_is_service v = true \/ vif_vrf_table v = None -> vif_is_service v' = true) \/
   ret = - EINVAL /\ VIF_VRF_TABLE_ENTRIES <= vlan /\ (forall j, vrf_of v' j = vrf_of v j) \/
   ret = - ENOMEM /\ v' = v /\ ok = false /\ vif_vrf_table v = None).
Proof. apply set_cases. Qed.

(** ** Reachable interfaces *)

Inductive vif_step : vr_interface -> vr_interface -> Prop :=
  | step_set ok v vlan vrf nh_id : 0 <= vlan -> vif_step v (vif_vrf_table_set ok v vlan vrf nh_id).2
  | step_change f ok v : vif_step v (change_service f ok v).2.

(** A new interface that is not yet a service interface. *)
Definition vif_fresh (v : vr_interface) : Prop :=
  vif_is_service v = false /\ vif_rx v <> vm_srx /\ vif_vrf_table v = None /\ vif_vrf_table_users v = 0.

Lemma vif_fresh_inv v : vif_fresh v -> vif_inv v.
Proof. intros (Hs & Hr & Ht & Hu). split; [rewrite Hs; done|]. by rewrite Ht. Qed.

Lemma vif_steps_inv v v' : rtc vif_step v v' -> vif_inv v -> vif_inv v'.
Proof.
  induction 1 as [|v v1 v' Hstep _ IH]; [done|]. intros Hi. apply IH. destruct Hstep as [ok v vlan vrf nh_id Hpos|f ok v].
  - pose proof (set_cases ok v vlan vrf nh_id Hi Hpos) as Hc. destruct (vif_vrf_table_set ok v vlan vrf nh_id). apply Hc.
  - pose proof (change_service_inv f ok v Hi) as Hc. destruct (change_service f ok v). apply Hc.
Qed.

(** C34: whatever order assignments and changes of the service flag come in, and whatever
    allocation fails: while packets are received by [vm_srx] there is a table and no VLAN tag
    is outside it; the users of the table are the VLANs that have a VRF; and an interface
    that is no service interface and has no assignment keeps no table. *)
Theorem vrf_table_safe v0 v :
  vif_fresh v0 -> rtc vif_step v0 v ->
  (vif_rx v = vm_srx -> forall vlan, 0 <= vlan -> is_Some (vm_srx_vrf v vlan)) /\
  vif_vrf_table_users v = zlen (assigned (default [] (vif_vrf_table v))) /\
  (vif_is_service v = false -> vif_vrf_table_users v = 0 -> vif_vrf_table v = None).
Proof.
  intros Hf Hr. pose proof (vif_steps_inv _ _ Hr (vif_fresh_inv _ Hf)) as [Hrx Ht]. split_and!.
  - intros Hx vlan Hpos. apply Hrx in Hx. unfold vm_srx_vrf. destruct (Z.leb_spec VIF_VRF_TABLE_ENTRIES vlan); [by eexists|].
    destruct (vif_vrf_table v) as [t|]; [|destruct Ht; congruence]. destruct Ht as (Hl & _).
    destruct (zget_is_Some t vlan) as [e He]; [lia|]. cbn. rewrite He. by eexists.
  - destruct (vif_vrf_table v) as [t|]; [apply Ht|apply Ht].
  - intros Hs Hu. destruct (vif_vrf_table v) as [t|]; [|done]. destruct Ht as (_ & _ & [?|?]); [congruence|lia].
Qed.

(** ** Requests *)

Lemma with_users_same n v : vif_inv v -> vif_inv (with_users n v) /\ (forall j, vrf_of (with_users n v) j = vrf_of v j).
Proof. intros [Hr Ht]. split; [split; done|done]. Qed.

(** A request takes a reference to the interface and gives it back. *)
Lemma get_put_users idx v s :
  vif_map s !! idx = Some v -> 1 <= vif_users v < UINT_MAX ->
  vrouter_get_interface idx s = (Some (with_users (vif_users v + 1) v), set_vif idx (with_users (vif_users v + 1) v) s) /\
  forall w o, vif_users w = vif_users v + 1 ->
    vrouter_put_interface idx (mk_vifs (<[idx := w]> (vif_map s)) o) = mk_vifs (<[idx := with_users (vif_users v) w]> (vif_map s)) o.
Proof.
  intros Hv Hu. unfold vrouter_get_interface. rewrite Hv, u32_small by lia. split; [done|]. intros w o Hw.
  unfold vrouter_put_interface. cbn. rewrite lookup_insert_eq, Hw, u32_small by lia.
  replace (vif_users v + 1 - 1) with (vif_users v) by lia. rewrite (proj2 (Z.eqb_neq _ _)) by lia.
  unfold set_vif. cbn. by rewrite insert_insert_eq.
Qed.

(** The fields of a request at their widths. *)
Definition var_ok (req : vr_vrf_assign_req) : Prop :=
  0 <= var_vlan_id req < 32768 /\ 0 <= var_vif_vrf req /\ -2147483648 <= var_nh_id req < 2147483648.

(** What an add request assigns to a VLAN is what a get request answers, on an interface
    that is a service interface or has no table yet; neither of them changes another
    interface, or keeps a reference to this one. *)
Theorem vrf_add_get req q s v :
  vif_map s !! u32 (var_vif_index req) = Some v -> vif_inv v -> 1 <= vif_users v < UINT_MAX ->
  vif_is_service v = true \/ vif_vrf_table v = None -> vifs_oracle s = [] -> var_ok req ->
  var_vlan_id req < VIF_VRF_TABLE_ENTRIES -> var_vif_index q = var_vif_index req -> var_vlan_id q = var_vlan_id req ->
  let '(ret, s') := vrf_assign_set req s in
  ret = 0 /\ (exists v', vif_map s' = <[u32 (var_vif_index req) := v']> (vif_map s) /\ vif_users v' = vif_users v) /\
  vrf_assign_get q s' = Some (0, mk_var (var_rid q) (var_vif_index q) (var_vif_vrf req) (var_vlan_id q) (var_marker q)
    (var_nh_id req), s').
Proof.
  intros Hv Hi Hu Hs Ho (Rl & Rv & Rn) Hlt Hqi Hql. set (idx := u32 (var_vif_index req)) in *.
  destruct (get_put_users idx v s Hv Hu) as [Hg Hp]. unfold vrf_assign_set. fold idx. rewrite Hg.
  set (v1 := with_users (vif_users v + 1) v). destruct (with_users_same (vif_users v + 1) v Hi) as [Hi1 Hv1]. fold v1 in Hi1, Hv1.
  set (p := if needs_table v1 then vif_alloc (set_vif idx v1 s) else (true, set_vif idx v1 s)).
  assert (Hp2 : p.1 = true /\ vif_map p.2 = <[idx := v1]> (vif_map s) /\ vifs_oracle p.2 = []).
  { unfold p, vif_alloc. cbn. rewrite Ho. by destruct (needs_table v1). }
  destruct p as [ok s2]. destruct Hp2 as (Hok & Hm2 & Ho2). cbn in Hok, Hm2, Ho2. subst ok.
  pose proof (set_cases true v1 (u32 (var_vlan_id req)) (var_vif_vrf req) (u32 (var_nh_id req)) Hi1 (proj1 (u32_range _))) as Hc.
  rewrite u32_small in Hc by lia. rewrite (u32_small (var_vlan_id req)) by lia.
  destruct (vif_vrf_table_set true v1 (var_vlan_id req) (var_vif_vrf req) (u32 (var_nh_id req))) as [ret v2].
  destruct Hc as (Hi2 & Hu2 & [(-> & _ & Hvrf & Hsv)|[(_ & Hx & _)|(_ & _ & Hx & _)]]); [|lia|done].
  unfold set_vif. rewrite Hm2, Ho2, insert_insert_eq, Hp by (rewrite Hu2; done).
  set (v3 := with_users (vif_users v) v2). split; [done|]. split; [by exists v3|].
  destruct (with_users_same (vif_users v) v2 Hi2) as [Hi3 _]. fold v3 in Hi3.
  set (s3 := mk_vifs _ _). assert (Hv3 : vif_map s3 !! idx = Some v3) by apply lookup_insert_eq.
  destruct (get_put_users idx v3 s3 Hv3 Hu) as [Hg3 Hp3]. unfold vrf_assign_get. rewrite Hqi. fold idx. rewrite Hg3.
  assert (Hsv3 : vif_is_service v2 = true) by (apply Hsv; exact Hs).
  specialize (Hvrf (var_vlan_id req)). rewrite decide_True, (proj2 (Z.leb_le _ _)) in Hvrf by done.
  unfold vif_vrf_table_get. change (vif_is_service (with_users _ v3)) with (vif_is_service v2). rewrite Hsv3. cbn [negb].
  change (vif_vrf_table (with_users _ v3)) with (vif_vrf_table v2). unfold vrf_of in Hvrf.
  destruct (vif_vrf_table v2) as [t|]; [|done]. cbn in Hvrf. rewrite Hql, (proj2 (Z.leb_gt _ _)) by done.
  destruct (zget t (var_vlan_id req)) as [e|]; [|done]. cbn in Hvrf |- *. destruct (0 <=? va_vrf e); [|done]. injection Hvrf as -> ->.
  assert (Hback : s32 (u32 (var_nh_id req)) = var_nh_id req).
  { unfold s32, u32. Z.to_euclidean_division_equations. lia. }
  rewrite Hback. unfold set_vif. rewrite Hp3 by done.
  replace (with_users (vif_users v3) (with_users (vif_users v3 + 1) v3)) with v3 by done. rewrite insert_id by done. by rewrite ?Hql, <- ?Hql, ?Hqi.
Qed.

(** ** Runs *)

Definition vif0 : vr_interface := mk_vif VIF_TYPE_VIRTUAL 64 1 9 1 vm_rx None 0.

Lemma vif0_fresh : vif_fresh vif0.
Proof. done. Qed.

Definition vif1 : vr_interface := (change_service 68 true vif0).2.
Definition vif2 : vr_interface := (vif_vrf_table_set true vif1 100 7 21).2.

Lemma vif2_reach : rtc vif_step vif0 vif2.
Proof. eapply rtc_l; [apply (step_change 68 true)|]. eapply rtc_l; [by apply (step_set true vif1 100 7 21)|done]. Qed.

Lemma vrf_table_safe_witness :
  (vif_rx vif2 = vm_srx -> forall vlan, 0 <= vlan -> is_Some (vm_srx_vrf vif2 vlan)) /\
  vif_vrf_table_users vif2 = zlen (assigned (default [] (vif_vrf_table vif2))) /\
  (vif_is_service vif2 = false -> vif_vrf_table_users vif2 = 0 -> vif_vrf_table vif2 = None).
Proof. exact (vrf_table_safe vif0 vif2 vif0_fresh vif2_reach). Defined.

Lemma vif2_inv : vif_inv vif2.
Proof. exact (vif_steps_inv _ _ vif2_reach (vif_fresh_inv _ vif0_fresh)). Qed.

Lemma vrf_set_spec_witness :
  let '(ret, v') := vif_vrf_table_set true vif2 200 8 22 in
  vif_inv v' /\ vif_users v' = vif_users vif2 /\
  (ret = 0 /\ 200 < VIF_VRF_TABLE_ENTRIES /\ (forall j, vrf_of v' j =
     if decide (j = 200) then if 0 <=? 8 then Some (8, 22) else None else vrf_of vif2 j) /\
     (vif_is_service vif2 = true \/ vif_vrf_table vif2 = None -> vif_is_service v' = true) \/
   ret = - EINVAL /\ VIF_VRF_TABLE_ENTRIES <= 200 /\ (forall j, vrf_of v' j = vrf_of vif2 j) \/
   ret = - ENOMEM /\ v' = vif2 /\ true = false /\ vif_vrf_table vif2 = None).
Proof. apply (vrf_set_spec true vif2 200 8 22 vif2_inv). lia. Defined.

Definition vifs0 : vifs := mk_vifs {[ 5 := vif0 ]} [].
Definition add_req : vr_vrf_assign_req := mk_var 0 5 7 100 0 21.

Lemma vrf_add_get_witness :
  let '(ret, s') := vrf_assign_set add_req vifs0 in
  ret = 0 /\ (exists v', vif_map s' = <[u32 5 := v']> (vif_map vifs0) /\ vif_users v' = vif_users vif0) /\
  vrf_assign_get (mk_var 0 5 0 100 0 0) s' = Some (0, mk_var 0 5 7 100 0 21, s').
Proof.
  apply (vrf_add_get add_req (mk_var 0 5 0 100 0 0) vifs0 vif0); try done; first [by apply vif_fresh_inv, vif0_fresh|by right|by split_and!].
Defined.

(** A delete request for an interface without a table makes it a service interface: it gets
    a table without assignments, and packets go through [vm_srx]. *)
Theorem vrf_delete_enables_service :
  let '(ret, s) := vrf_assign_set (mk_var 0 5 (-1) 100 0 0) vifs0 in
  ret = 0 /\ (vif_rx <$> (vif_map s !! 5)) = Some vm_srx /\ (v ← vif_map s !! 5; vm_srx_vrf v 100) = Some 65535.
Proof. by vm_compute. Qed.

(** So does a request that is refused because of its VLAN. *)
Theorem vrf_refused_enables_service :
  let '(ret, s) := vrf_assign_set (mk_var 0 5 7 2000 0 0) vifs0 in
  ret = - EINVAL /\ (vif_rx <$> (vif_map s !! 5)) = Some vm_srx.
Proof. by vm_compute. Qed.

(** The nexthop of a VLAN from 1024 on is read behind the end of the table. *)
Theorem vrf_nh_outside : vif_vrf_table_get_nh vif2 1024 = None.
Proof. by vm_compute. Qed.

(** A get request for a negative VLAN is read before its beginning. *)
Theorem vrf_get_negative : vif_vrf_table_get vif2 (mk_var 0 5 0 (-1) 0 0) = None.
Proof. by vm_compute. Qed.

End VrfAssignProofs.
