(* ===== verification/FlowEntry.v ===== *)
(** * Flow entries (include/vr_flow.h)

    A flow entry, its key and its statistics, the flags of its states, and what the parts of
    the flow module ask of the table that holds the entries ([FlowStore]). *)

From S2P Require Import Prelude Bits Htable.

Definition VR_FLOW_ACTION_DROP : Z := 0.
Definition VR_FLOW_ACTION_HOLD : Z := 1.
Definition VR_FLOW_ACTION_FORWARD : Z := 2.
Definition VR_FLOW_ACTION_NAT : Z := 3.

Definition VR_FLOW_FLAG_ACTIVE : Z := 1.
Definition VR_FLOW_FLAG_SNAT : Z := 2.
Definition VR_FLOW_FLAG_SPAT : Z := 4.
Definition VR_FLOW_FLAG_DNAT : Z := 8.
Definition VR_FLOW_FLAG_DPAT : Z := 16.
Definition VR_FLOW_FLAG_TRAP_ECMP : Z := 32.
Definition VR_FLOW_FLAG_DELETE_MARKED : Z := 64.
Definition VR_FLOW_BGP_SERVICE : Z := 128.
Definition VR_FLOW_FLAG_MODIFIED : Z := 256.
Definition VR_FLOW_FLAG_NEW_FLOW : Z := 512.
Definition VR_FLOW_FLAG_EVICT_CANDIDATE : Z := 1024.
Definition VR_FLOW_FLAG_EVICTED : Z := 2048.
Definition VR_RFLOW_VALID : Z := 4096.
Definition VR_FLOW_FLAG_MIRROR : Z := 8192.
Definition VR_FLOW_FLAG_VRFT : Z := 16384.
Definition VR_FLOW_FLAG_LINK_LOCAL : Z := 32768.

(** The flags that belong to the data path: a request can not change them. *)
Definition VR_FLOW_FLAG_DP_FLAGS : Z :=
  Z.lor (Z.lor VR_FLOW_FLAG_EVICT_CANDIDATE VR_FLOW_FLAG_EVICTED) (Z.lor VR_FLOW_FLAG_NEW_FLOW VR_FLOW_FLAG_MODIFIED).
Definition VR_FLOW_FLAG_DP_BITS (flags : Z) : Z := Z.land flags VR_FLOW_FLAG_DP_FLAGS.
Definition VR_FLOW_FLAG_MASK (flag : Z) : Z := Z.ldiff flag VR_FLOW_FLAG_DP_FLAGS.

Definition VR_IP_PROTO_ICMP : Z := 1.
Definition VR_IP_PROTO_TCP : Z := 6.
Definition VR_IP_PROTO_UDP : Z := 17.
Definition VR_IP_PROTO_SCTP : Z := 132.

Definition VP_TYPE_NULL : Z := 0.
Definition VP_TYPE_IP : Z := 2.
Definition VP_TYPE_IP6 : Z := 3.
Definition VR_MAX_MIRROR_INDICES : Z := 255.
Definition NH_DISCARD_ID : Z := 0.

(** ** Keys *)

(** The key of a flow.  Ports, nexthop and addresses are as they are in memory; the bytes of
    [flow_ip] are the source and the destination address. *)
Record vr_flow := mk_key {
  flow_family : Z;
  flow_proto : Z;
  flow_sport : Z;
  flow_dport : Z;
  flow_nh_id : Z;
  flow_ip : list Z;
  flow_key_len : Z
}.

Definition VR_FLOW_IPV4_HASH_SIZE : Z := 20.
Definition VR_FLOW_IPV6_HASH_SIZE : Z := 44.

(** The bytes that are hashed and compared. *)
Definition key_bytes (k : vr_flow) : list Z :=
  take (Z.to_nat (flow_key_len k))
    ([flow_family k; flow_proto k] ++ le_bytes 2 0 ++ le_bytes 2 (flow_sport k) ++ le_bytes 2 (flow_dport k) ++
     le_bytes 4 (flow_nh_id k) ++ flow_ip k).

Definition vr_inet_fill_flow (nh_id : Z) (ip : list Z) (proto sport dport : Z) : vr_flow :=
  mk_key AF_INET (u8 proto) (u16 sport) (u16 dport) (u16 nh_id) (take 8 ip) VR_FLOW_IPV4_HASH_SIZE.

Definition vr_inet6_fill_flow (nh_id : Z) (ip : list Z) (proto sport dport : Z) : vr_flow :=
  mk_key AF_INET6 (u8 proto) (u16 sport) (u16 dport) (u16 nh_id) (take 32 ip) VR_FLOW_IPV6_HASH_SIZE.

(** The key of the flow that an ICMP error is about: the packet inside went the other
    way. *)
Definition vr_inet_flow_swap (k : vr_flow) : vr_flow :=
  let '(sport, dport) := if negb (flow_proto k =? VR_IP_PROTO_ICMP) then (flow_dport k, flow_sport k)
                         else (flow_sport k, flow_dport k) in
  mk_key (flow_family k) (flow_proto k) sport dport (flow_nh_id k)
    (take 4 (drop 4 (flow_ip k)) ++ take 4 (flow_ip k) ++ drop 8 (flow_ip k)) (flow_key_len k).

(** ** Statistics *)

Record vr_flow_stats := mk_stats { flow_bytes : Z; flow_packets : Z; flow_bytes_oflow : Z; flow_packets_oflow : Z }.

Definition stats_zero : vr_flow_stats := mk_stats 0 0 0 0.

(** One more packet of [len] bytes: a counter that wraps is counted in its overflow. *)
Definition count_packet (len : Z) (s : vr_flow_stats) : vr_flow_stats :=
  let bytes := u32 (flow_bytes s + len) in
  let packets := u32 (flow_packets s + 1) in
  mk_stats bytes packets
    (if bytes <? len then u16 (flow_bytes_oflow s + 1) else flow_bytes_oflow s)
    (if packets =? 0 then u8 (flow_packets_oflow s + 1) else flow_packets_oflow s).

(** ** Entries *)

(** [struct vr_flow_entry]; its hash table part is in [Htable].  [fe_hold_list] points to a
    queue of packets, [fe_mme] to mirror metadata. *)
Record vr_flow_entry := mk_fe {
  fe_ttl : Z;
  fe_qos_id : Z;
  fe_key : vr_flow;
  fe_gen_id : Z;
  fe_tcp_flags : Z;
  fe_hold_list : option Z;
  fe_tcp_seq : Z;
  fe_action : Z;
  fe_flags : Z;
  fe_rflow : Z;
  fe_vrf : Z;
  fe_dvrf : Z;
  fe_src_nh_index : Z;
  fe_mirror_id : Z;
  fe_sec_mirror_id : Z;
  fe_stats : vr_flow_stats;
  fe_ecmp_nh_index : Z;
  fe_drop_reason : Z;
  fe_type : Z;
  fe_udp_src_port : Z;
  fe_mme : option Z
}.

Definition set_fe_ttl (v : Z) (e : vr_flow_entry) : vr_flow_entry :=
  mk_fe v (fe_qos_id e) (fe_key e) (fe_gen_id e) (fe_tcp_flags e) (fe_hold_list e) (fe_tcp_seq e) (fe_action e)
    (fe_flags e) (fe_rflow e) (fe_vrf e) (fe_dvrf e) (fe_src_nh_index e) (fe_mirror_id e) (fe_sec_mirror_id
    e) (fe_stats e) (fe_ecmp_nh_index e) (fe_drop_reason e) (fe_type e) (fe_udp_src_port e) (fe_mme e).
Definition set_fe_qos_id (v : Z) (e : vr_flow_entry) : vr_flow_entry :=
  mk_fe (fe_ttl e) v (fe_key e) (fe_gen_id e) (fe_tcp_flags e) (fe_hold_list e) (fe_tcp_seq e) (fe_action e)
    (fe_flags e) (fe_rflow e) (fe_vrf e) (fe_dvrf e) (fe_src_nh_index e) (fe_mirror_id e) (fe_sec_mirror_id
    e) (fe_stats e) (fe_ecmp_nh_index e) (fe_drop_reason e) (fe_type e) (fe_udp_src_port e) (fe_mme e).
Definition set_fe_key (v : vr_flow) (e : vr_flow_entry) : vr_flow_entry :=
  mk_fe (fe_ttl e) (fe_qos_id e) v (fe_gen_id e) (fe_tcp_flags e) (fe_hold_list e) (fe_tcp_seq e) (fe_action e)
    (fe_flags e) (fe_rflow e) (fe_vrf e) (fe_dvrf e) (fe_src_nh_index e) (fe_mirror_id e) (fe_sec_mirror_id
    e) (fe_stats e) (fe_ecmp_nh_index e) (fe_drop_reason e) (fe_type e) (fe_udp_src_port e) (fe_mme e).
Definition set_fe_gen_id (v : Z) (e : vr_flow_entry) : vr_flow_entry :=
  mk_fe (fe_ttl e) (fe_qos_id e) (fe_key e) v (fe_tcp_flags e) (fe_hold_list e) (fe_tcp_seq e) (fe_action e)
    (fe_flags e) (fe_rflow e) (fe_vrf e) (fe_dvrf e) (fe_src_nh_index e) (fe_mirror_id e) (fe_sec_mirror_id
    e) (fe_stats e) (fe_ecmp_nh_index e) (fe_drop_reason e) (fe_type e) (fe_udp_src_port e) (fe_mme e).
Definition set_fe_tcp_flags (v : Z) (e : vr_flow_entry) : vr_flow_entry :=
  mk_fe (fe_ttl e) (fe_qos_id e) (fe_key e) (fe_gen_id e) v (fe_hold_list e) (fe_tcp_seq e) (fe_action e)
    (fe_flags e) (fe_rflow e) (fe_vrf e) (fe_dvrf e) (fe_src_nh_index e) (fe_mirror_id e) (fe_sec_mirror_id
    e) (fe_stats e) (fe_ecmp_nh_index e) (fe_drop_reason e) (fe_type e) (fe_udp_src_port e) (fe_mme e).
Definition set_fe_hold_list (v : option Z) (e : vr_flow_entry) : vr_flow_entry :=
  mk_fe (fe_ttl e) (fe_qos_id e) (fe_key e) (fe_gen_id e) (fe_tcp_flags e) v (fe_tcp_seq e) (fe_action e)
    (fe_flags e) (fe_rflow e) (fe_vrf e) (fe_dvrf e) (fe_src_nh_index e) (fe_mirror_id e) (fe_sec_mirror_id
    e) (fe_stats e) (fe_ecmp_nh_index e) (fe_drop_reason e) (fe_type e) (fe_udp_src_port e) (fe_mme e).
Definition set_fe_tcp_seq (v : Z) (e : vr_flow_entry) : vr_flow_entry :=
  mk_fe (fe_ttl e) (fe_qos_id e) (fe_key e) (fe_gen_id e) (fe_tcp_flags e) (fe_hold_list e) v (fe_action e)
    (fe_flags e) (fe_rflow e) (fe_vrf e) (fe_dvrf e) (fe_src_nh_index e) (fe_mirror_id e) (fe_sec_mirror_id
    e) (fe_stats e) (fe_ecmp_nh_index e) (fe_drop_reason e) (fe_type e) (fe_udp_src_port e) (fe_mme e).
Definition set_fe_action (v : Z) (e : vr_flow_entry) : vr_flow_entry :=
  mk_fe (fe_ttl e) (fe_qos_id e) (fe_key e) (fe_gen_id e) (fe_tcp_flags e) (fe_hold_list e) (fe_tcp_seq e) v
    (fe_flags e) (fe_rflow e) (fe_vrf e) (fe_dvrf e) (fe_src_nh_index e) (fe_mirror_id e) (fe_sec_mirror_id
    e) (fe_stats e) (fe_ecmp_nh_index e) (fe_drop_reason e) (fe_type e) (fe_udp_src_port e) (fe_mme e).
Definition set_fe_flags (v : Z) (e : vr_flow_entry) : vr_flow_entry :=
  mk_fe (fe_ttl e) (fe_qos_id e) (fe_key e) (fe_gen_id e) (fe_tcp_flags e) (fe_hold_list e) (fe_tcp_seq e)
    (fe_action e) v (fe_rflow e) (fe_vrf e) (fe_dvrf e) (fe_src_nh_index e) (fe_mirror_id e)
    (fe_sec_mirror_id e) (fe_stats e) (fe_ecmp_nh_index e) (fe_drop_reason e) (fe_type e) (fe_udp_src_port e)
    (fe_mme e).
Definition set_fe_rflow (v : Z) (e : vr_flow_entry) : vr_flow_entry :=
  mk_fe (fe_ttl e) (fe_qos_id e) (fe_key e) (fe_gen_id e) (fe_tcp_flags e) (fe_hold_list e) (fe_tcp_seq e)
    (fe_action e) (fe_flags e) v (fe_vrf e) (fe_dvrf e) (fe_src_nh_index e) (fe_mirror_id e)
    (fe_sec_mirror_id e) (fe_stats e) (fe_ecmp_nh_index e) (fe_drop_reason e) (fe_type e) (fe_udp_src_port e)
    (fe_mme e).
Definition set_fe_vrf (v : Z) (e : vr_flow_entry) : vr_flow_entry :=
  mk_fe (fe_ttl e) (fe_qos_id e) (fe_key e) (fe_gen_id e) (fe_tcp_flags e) (fe_hold_list e) (fe_tcp_seq e)
    (fe_action e) (fe_flags e) (fe_rflow e) v (fe_dvrf e) (fe_src_nh_index e) (fe_mirror_id e)
    (fe_sec_mirror_id e) (fe_stats e) (fe_ecmp_nh_index e) (fe_drop_reason e) (fe_type e) (fe_udp_src_port e)
    (fe_mme e).
Definition set_fe_dvrf (v : Z) (e : vr_flow_entry) : vr_flow_entry :=
  mk_fe (fe_ttl e) (fe_qos_id e) (fe_key e) (fe_gen_id e) (fe_tcp_flags e) (fe_hold_list e) (fe_tcp_seq e)
    (fe_action e) (fe_flags e) (fe_rflow e) (fe_vrf e) v (fe_src_nh_index e) (fe_mirror_id e)
    (fe_sec_mirror_id e) (fe_stats e) (fe_ecmp_nh_index e) (fe_drop_reason e) (fe_type e) (fe_udp_src_port e)
    (fe_mme e).
Definition set_fe_src_nh_index (v : Z) (e : vr_flow_entry) : vr_flow_entry :=
  mk_fe (fe_ttl e) (fe_qos_id e) (fe_key e) (fe_gen_id e) (fe_tcp_flags e) (fe_hold_list e) (fe_tcp_seq e)
    (fe_action e) (fe_flags e) (fe_rflow e) (fe_vrf e) (fe_dvrf e) v (fe_mirror_id e) (fe_sec_mirror_id e)
    (fe_stats e) (fe_ecmp_nh_index e) (fe_drop_reason e) (fe_type e) (fe_udp_src_port e) (fe_mme e).
Definition set_fe_mirror_id (v : Z) (e : vr_flow_entry) : vr_flow_entry :=
  mk_fe (fe_ttl e) (fe_qos_id e) (fe_key e) (fe_gen_id e) (fe_tcp_flags e) (fe_hold_list e) (fe_tcp_seq e)
    (fe_action e) (fe_flags e) (fe_rflow e) (fe_vrf e) (fe_dvrf e) (fe_src_nh_index e) v (fe_sec_mirror_id e)
    (fe_stats e) (fe_ecmp_nh_index e) (fe_drop_reason e) (fe_type e) (fe_udp_src_port e) (fe_mme e).
Definition set_fe_sec_mirror_id (v : Z) (e : vr_flow_entry) : vr_flow_entry :=
  mk_fe (fe_ttl e) (fe_qos_id e) (fe_key e) (fe_gen_id e) (fe_tcp_flags e) (fe_hold_list e) (fe_tcp_seq e)
    (fe_action e) (fe_flags e) (fe_rflow e) (fe_vrf e) (fe_dvrf e) (fe_src_nh_index e) (fe_mirror_id e) v
    (fe_stats e) (fe_ecmp_nh_index e) (fe_drop_reason e) (fe_type e) (fe_udp_src_port e) (fe_mme e).
Definition set_fe_stats (v : vr_flow_stats) (e : vr_flow_entry) : vr_flow_entry :=
  mk_fe (fe_ttl e) (fe_qos_id e) (fe_key e) (fe_gen_id e) (fe_tcp_flags e) (fe_hold_list e) (fe_tcp_seq e)
    (fe_action e) (fe_flags e) (fe_rflow e) (fe_vrf e) (fe_dvrf e) (fe_src_nh_index e) (fe_mirror_id e)
    (fe_sec_mirror_id e) v (fe_ecmp_nh_index e) (fe_drop_reason e) (fe_type e) (fe_udp_src_port e) (fe_mme e).
Definition set_fe_ecmp_nh_index (v : Z) (e : vr_flow_entry) : vr_flow_entry :=
  mk_fe (fe_ttl e) (fe_qos_id e) (fe_key e) (fe_gen_id e) (fe_tcp_flags e) (fe_hold_list e) (fe_tcp_seq e)
    (fe_action e) (fe_flags e) (fe_rflow e) (fe_vrf e) (fe_dvrf e) (fe_src_nh_index e) (fe_mirror_id e)
    (fe_sec_mirror_id e) (fe_stats e) v (fe_drop_reason e) (fe_type e) (fe_udp_src_port e) (fe_mme e).
Definition set_fe_drop_reason (v : Z) (e : vr_flow_entry) : vr_flow_entry :=
  mk_fe (fe_ttl e) (fe_qos_id e) (fe_key e) (fe_gen_id e) (fe_tcp_flags e) (fe_hold_list e) (fe_tcp_seq e)
    (fe_action e) (fe_flags e) (fe_rflow e) (fe_vrf e) (fe_dvrf e) (fe_src_nh_index e) (fe_mirror_id e)
    (fe_sec_mirror_id e) (fe_stats e) (fe_ecmp_nh_index e) v (fe_type e) (fe_udp_src_port e) (fe_mme e).
Definition set_fe_type (v : Z) (e : vr_flow_entry) : vr_flow_entry :=
  mk_fe (fe_ttl e) (fe_qos_id e) (fe_key e) (fe_gen_id e) (fe_tcp_flags e) (fe_hold_list e) (fe_tcp_seq e)
    (fe_action e) (fe_flags e) (fe_rflow e) (fe_vrf e) (fe_dvrf e) (fe_src_nh_index e) (fe_mirror_id e)
    (fe_sec_mirror_id e) (fe_stats e) (fe_ecmp_nh_index e) (fe_drop_reason e) v (fe_udp_src_port e) (fe_mme
    e).
Definition set_fe_udp_src_port (v : Z) (e : vr_flow_entry) : vr_flow_entry :=
  mk_fe (fe_ttl e) (fe_qos_id e) (fe_key e) (fe_gen_id e) (fe_tcp_flags e) (fe_hold_list e) (fe_tcp_seq e)
    (fe_action e) (fe_flags e) (fe_rflow e) (fe_vrf e) (fe_dvrf e) (fe_src_nh_index e) (fe_mirror_id e)
    (fe_sec_mirror_id e) (fe_stats e) (fe_ecmp_nh_index e) (fe_drop_reason e) (fe_type e) v (fe_mme e).
Definition set_fe_mme (v : option Z) (e : vr_flow_entry) : vr_flow_entry :=
  mk_fe (fe_ttl e) (fe_qos_id e) (fe_key e) (fe_gen_id e) (fe_tcp_flags e) (fe_hold_list e) (fe_tcp_seq e)
    (fe_action e) (fe_flags e) (fe_rflow e) (fe_vrf e) (fe_dvrf e) (fe_src_nh_index e) (fe_mirror_id e)
    (fe_sec_mirror_id e) (fe_stats e) (fe_ecmp_nh_index e) (fe_drop_reason e) (fe_type e) (fe_udp_src_port e)
    v.

Definition key_zero : vr_flow := mk_key 0 0 0 0 0 [] 0.
Definition fe_zero : vr_flow_entry :=
  mk_fe 0 0 key_zero 0 0 None 0 0 0 0 0 0 0 0 0 stats_zero 0 0 0 0 None.

Definition fe_has (bits : Z) (e : vr_flow_entry) : bool := has bits (fe_flags e).

(** [ht_get_key] of the flow table. *)
Definition vr_flow_get_key (e : vr_flow_entry) : option (list Z) :=
  if fe_has VR_FLOW_FLAG_DELETE_MARKED e || negb (fe_has VR_FLOW_FLAG_ACTIVE e) then None
  else Some (key_bytes (fe_key e)).

(** ** Access to entries

    A pointer to an entry is its index.  [fs_read] is a load through the pointer,
    [fs_valid] says whether the table hands out the entry by index, and [fs_upd] is a store
    to some fields. *)

Class FlowStore (S : Type) := {
  fs_read : Z -> S -> option vr_flow_entry;
  fs_valid : Z -> S -> bool;
  fs_upd : Z -> (vr_flow_entry -> vr_flow_entry) -> S -> S
}.

Class FlowStoreLaws (S : Type) `{FlowStore S} := {
  read_upd : forall i f j s, fs_read j (fs_upd i f s) = if decide (i = j) then f <$> fs_read j s else fs_read j s;
  valid_upd : forall i f j s, fs_valid j (fs_upd i f s) = fs_valid j s;
  valid_read : forall i s, fs_valid i s = true -> is_Some (fs_read i s)
}.

Section store.
Context {S : Type} `{FlowStore S}.

(** An entry by index: the index is the pointer that is returned. *)
Definition vr_flow_get_entry (index : Z) (s : S) : option Z :=
  if index <? 0 then None else if fs_valid index s then Some index else None.

(** A field of the entry that a pointer names. *)
Definition fld {A} (proj : vr_flow_entry -> A) (i : Z) (s : S) : A := proj (default fe_zero (fs_read i s)).

Definition fl_has (bits i : Z) (s : S) : bool := has bits (fld fe_flags i s).
End store.

(** The hash table that holds the flows. *)
Abbreviation flow_htable := (Htable.vr_htable vr_flow_entry).

#[export] Instance htable_store : FlowStore flow_htable := {
  fs_read i t := Htable.hentry_data <$> zget (Htable.ht_entries t) i;
  fs_valid i t := match Htable.vr_htable_get_hentry_by_index t i with Some _ => true | None => false end;
  fs_upd i f t := Htable.upd i (fun e => Htable.with_hdata (f (Htable.hentry_data e)) e) t
}.

#[export] Instance htable_store_laws : FlowStoreLaws flow_htable.
Proof.
  split; cbn.
  - intros i f j t. rewrite Htable.zget_upd. case_decide; [|done]. by destruct (zget _ j).
  - intros i f j t. unfold Htable.vr_htable_get_hentry_by_index, Htable.__vr_htable_get_hentry_by_index.
    destruct (Htable.upd_frame t i (fun e => Htable.with_hdata (f (Htable.hentry_data e)) e)) as (-> & -> & _).
    rewrite !Htable.zget_upd. destruct (decide (i = j)) as [->|]; [|done].
    destruct (zget _ j) as [e|]; [|done]. cbn.
    unfold Htable.has_flag. cbn. destruct (j <? Htable.ht_hentries t), (j <? Htable.ht_oentries t + Htable.ht_hentries t);
    try done; by destruct (negb _).
  - intros i t. unfold Htable.vr_htable_get_hentry_by_index, Htable.__vr_htable_get_hentry_by_index.
    destruct (zget _ i) as [e|]; [by eauto|]. by repeat case_match.
Qed.

