(* ===== verification/FlowInfo.v ===== *)
(** * Counters, ports and sizes of the flow module (dp-core/vr_flow.c)

    The parts of the module that keep no flow entries: the number of flows on hold, counted
    by every processor on its own; the bitmap of the ports that link-local flows use; the
    source port of a tunnel; the size of the overflow table. *)

From S2P Require Import Prelude Bits FlowEntry.

Module FlowInfo.

Definition VR_DYNAMIC_PORT_START : Z := 0.
Definition VR_DYNAMIC_PORT_END : Z := 65535.
Definition VR_MUDP_PORT_RANGE_START : Z := 49152.
Definition VR_MUDP_PORT_RANGE_END : Z := 65535.

(** ** Flows on hold *)

Record vr_flow_table_info := mk_info {
  vfti_action_count : Z;
  vfti_added : Z;
  vfti_oflows : Z;
  vfti_hold_count : list Z
}.

Definition u64 (x : Z) : Z := x mod 2 ^ 64.

Definition vr_flow_table_hold_count (info : vr_flow_table_info) : Z :=
  let hcount := foldl (fun acc c => u64 (acc + c)) 0 (vfti_hold_count info) in
  if vfti_action_count info <=? hcount then u32 (hcount - vfti_action_count info) else 0.

Definition count_action (info : vr_flow_table_info) : vr_flow_table_info :=
  mk_info (u64 (vfti_action_count info + 1)) (vfti_added info) (vfti_oflows info) (vfti_hold_count info).

Definition count_added (info : vr_flow_table_info) : vr_flow_table_info :=
  mk_info (vfti_action_count info) (u64 (vfti_added info + 1)) (vfti_oflows info) (vfti_hold_count info).

(** The counter of the processor is at its limit: it is reduced together with the counter
    of the flows that are no longer on hold. *)
Definition hold_oflow (cpu : Z) (info : vr_flow_table_info) : vr_flow_table_info :=
  let h := default 0 (zget (vfti_hold_count info) cpu) in
  let act_count := vfti_action_count info in
  let oflows := u32 (vfti_oflows info + 1) in
  if h <? act_count then mk_info (u64 (act_count - h)) (vfti_added info) oflows (zset (vfti_hold_count info) cpu 0)
  else mk_info 0 (vfti_added info) oflows (zset (vfti_hold_count info) cpu (u32 (h - act_count))).

(** [vr_flow_entry_set_hold] without the store to the entry: [false] when the processor has
    no counter, and then the entry is not put on hold. *)
Definition count_hold (cpu : Z) (info : vr_flow_table_info) : bool * vr_flow_table_info :=
  if zlen (vfti_hold_count info) <=? cpu then (false, info)
  else
    let h := default 0 (zget (vfti_hold_count info) cpu) in
    let info1 := if u32 (h + 1) <? h then hold_oflow cpu info else info in
    let h1 := default 0 (zget (vfti_hold_count info1) cpu) in
    (true, mk_info (vfti_action_count info1) (vfti_added info1) (vfti_oflows info1)
             (zset (vfti_hold_count info1) cpu (u32 (h1 + 1)))).

Definition vr_flow_table_info_init (vr_num_cpus : Z) : vr_flow_table_info :=
  mk_info 0 0 0 (replicate (Z.to_nat vr_num_cpus) 0).

Definition vr_flow_table_info_reset (info : vr_flow_table_info) : vr_flow_table_info :=
  mk_info 0 0 0 (replicate (length (vfti_hold_count info)) 0).

(** ** Ports of link-local flows

    The bytes of the bitmap, when there is one; its second half is for UDP. *)

Abbreviation link_local_ports := (option (list Z)).

Definition ll_bit (ports : list Z) (proto port : Z) : Z :=
  let tmp := port - VR_DYNAMIC_PORT_START in
  if proto =? VR_IP_PROTO_UDP then u32 (tmp + zlen ports * 8 / 2) else tmp.

Definition ll_applies (family proto port : Z) : bool :=
  (family =? AF_INET) && ((proto =? VR_IP_PROTO_TCP) || (proto =? VR_IP_PROTO_UDP)) &&
  (VR_DYNAMIC_PORT_START <=? port) && (port <=? VR_DYNAMIC_PORT_END).

Definition vr_valid_link_local_port (ll : link_local_ports) (family proto port : Z) : bool :=
  match ll with
  | None => false
  | Some ports => if ll_applies family proto port then bit_test ports (ll_bit ports proto port) else false
  end.

Definition vr_clear_link_local_port (family proto port : Z) (ll : link_local_ports) : link_local_ports :=
  match ll with
  | None => None
  | Some ports => Some (if ll_applies family proto port then bit_clear ports (ll_bit ports proto port) else ports)
  end.

Definition vr_set_link_local_port (family proto port : Z) (ll : link_local_ports) : link_local_ports :=
  match ll with
  | None => None
  | Some ports => Some (if ll_applies family proto port then bit_set ports (ll_bit ports proto port) else ports)
  end.

Definition vr_link_local_ports_reset (ll : link_local_ports) : link_local_ports :=
  (fun ports => replicate (length ports) 0) <$> ll.

Definition vr_link_local_ports_exit (ll : link_local_ports) : link_local_ports := None.

(** [ok]: is there memory for the bitmap? *)
Definition vr_link_local_ports_init (ok : bool) (ll : link_local_ports) : Z * link_local_ports :=
  match ll with
  | Some _ => (0, ll)
  | None =>
      let port_range := 2 * (VR_DYNAMIC_PORT_END - VR_DYNAMIC_PORT_START + 1) in
      let bytes := Z.ldiff (port_range + 15) 15 / 8 in
      if ok then (0, Some (replicate (Z.to_nat bytes) 0)) else (-1, None)
  end.

(** ** The source port of a tunnel *)

Section src_port.
(** [jhash] of the host on the bytes at [hash_key]; [beyond] are the bytes of the stack
    behind the words that were stored. *)
Variable jhash : list Z -> Z -> Z.
Variable beyond : list Z.

Definition hash_len (type : Z) : Z := if type =? VP_TYPE_IP6 then VR_FLOW_IPV6_HASH_SIZE else VR_FLOW_IPV4_HASH_SIZE.
Definition addr_size (type : Z) : Z := if type =? VP_TYPE_IP6 then 16 else 4.

Definition hash_key (e : vr_flow_entry) : list Z :=
  le_bytes 4 (fe_vrf e) ++
  le_bytes 4 (Z.lor (u32 (Z.shiftl (flow_sport (fe_key e)) 16)) (flow_dport (fe_key e))) ++
  take (Z.to_nat (2 * addr_size (fe_type e))) (flow_ip (fe_key e)).

Definition vr_flow_udp_src_port (hashrnd : Z) (e : vr_flow_entry) : Z :=
  if negb (fe_udp_src_port e =? 0) then fe_udp_src_port e
  else
    let hashval := u32 (jhash (take (Z.to_nat (hash_len (fe_type e))) (hash_key e ++ beyond)) hashrnd) in
    let port_range := VR_MUDP_PORT_RANGE_END - VR_MUDP_PORT_RANGE_START in
    let port := u16 (Z.shiftr (hashval * port_range) 32) in
    let port := if port_range <? port then 0 else port in
    u16 (port + VR_MUDP_PORT_RANGE_START).
End src_port.

(** ** The size of the overflow table *)

Definition vr_compute_size_oflow_table (oentries entries : Z) : Z :=
  if oentries =? 0 then Z.ldiff (Z.quot entries 5 + 1023) 1023 else oentries.

(** ** The counters are exact *)

Definition total (l : list Z) : Z := foldr Z.add 0 l.

(** The flows that were put on hold and not taken off. *)
Definition held (info : vr_flow_table_info) : Z := total (vfti_hold_count info) - vfti_action_count info.

Record info_ok (info : vr_flow_table_info) : Prop := {
  io_counts : Forall (fun c => 0 <= c <= UINT_MAX) (vfti_hold_count info);
  io_cpus : 1 <= zlen (vfti_hold_count info) <= UINT_MAX;
  io_action : 0 <= vfti_action_count info;
  io_held : 0 <= held info
}.

Lemma total_zset l i x : 0 <= i < zlen l -> total (zset l i x) = total l - default 0 (zget l i) + x.
Proof.
  unfold zset, zget, zlen. intros Hi. rewrite !decide_True by lia.
  assert (Hn : (Z.to_nat i < length l)%nat) by lia. clear Hi. revert Hn. generalize (Z.to_nat i) as n.
  induction l as [|y l IH]; intros [|n] Hn; cbn [length] in Hn; try lia.
  - unfold total. cbn. lia.
  - change (y + total (<[n:=x]> l) = y + total l - default 0 (l !! n) + x). rewrite IH by lia. lia.
Qed.

Lemma total_bound l : Forall (fun c => 0 <= c <= UINT_MAX) l -> 0 <= total l <= zlen l * UINT_MAX.
Proof.
  unfold zlen. induction 1 as [|c l Hc _ IH]; cbn [total foldr length] in *; [lia|]. fold (total l). rewrite Nat2Z.inj_succ. lia.
Qed.

Lemma held_at l i : Forall (fun c => 0 <= c <= UINT_MAX) l -> 0 <= default 0 (zget l i) <= UINT_MAX.
Proof.
  intros Hl. destruct (zget l i) as [c|] eqn:E; cbn; [|done]. unfold zget in E. case_decide; [|done].
  by apply (Forall_lookup_1 _ _ _ _ Hl E).
Qed.

Lemma counts_zset l i x : Forall (fun c => 0 <= c <= UINT_MAX) l -> 0 <= x <= UINT_MAX -> Forall (fun c => 0 <= c <= UINT_MAX) (zset l i x).
Proof. intros Hl Hx. unfold zset. case_decide; [|done]. by apply Forall_insert. Qed.

Lemma sum_is_total l acc : Forall (fun c => 0 <= c <= UINT_MAX) l -> 0 <= acc -> acc + zlen l * UINT_MAX < 2 ^ 64 ->
  foldl (fun acc c => u64 (acc + c)) acc l = acc + total l.
Proof.
  intros Hl. revert acc. induction Hl as [|c l Hc _ IH]; intros acc Ha Hb; cbn [foldl]; [cbn; lia|].
  unfold zlen in *. cbn [length] in Hb. rewrite Nat2Z.inj_succ in Hb.
  unfold u64 at 2. rewrite Z.mod_small by nia. rewrite IH by nia. cbn. fold (total l). lia.
Qed.

Lemma total_below info : info_ok info -> 0 <= total (vfti_hold_count info) < 2 ^ 64.
Proof. intros [H1 [? ?] _ _]. pose proof (total_bound _ H1). nia. Qed.

Lemma hold_count_held info : info_ok info -> held info <= UINT_MAX -> vr_flow_table_hold_count info = held info.
Proof.
  intros Hok Hm. pose proof Hok as [H1 [? ?] H3 H4]. unfold vr_flow_table_hold_count.
  rewrite sum_is_total by (done || nia). unfold held in *. rewrite (proj2 (Z.leb_le _ _)) by lia. by rewrite u32_small by lia.
Qed.

Lemma count_action_held info : info_ok info -> 0 < held info -> info_ok (count_action info) /\ held (count_action info) = held info - 1.
Proof.
  intros Hok Hh. pose proof (total_below _ Hok) as Ht. pose proof Hok as [H1 H2 H3 H4]. unfold held in *. unfold count_action, held.
  cbn [vfti_hold_count vfti_action_count]. unfold u64. rewrite Z.mod_small by lia. split; [|lia].
  split; unfold held; cbn [vfti_hold_count vfti_action_count]; [done|done|lia|lia].
Qed.

Lemma hold_oflow_held cpu info : info_ok info -> 0 <= cpu < zlen (vfti_hold_count info) ->
  default 0 (zget (vfti_hold_count info) cpu) = UINT_MAX -> held info < UINT_MAX ->
  let info' := hold_oflow cpu info in
  info_ok info' /\ held info' = held info /\ zlen (vfti_hold_count info') = zlen (vfti_hold_count info) /\
  default 0 (zget (vfti_hold_count info') cpu) < UINT_MAX.
Proof.
  intros Hok Hc Hmax Hh. pose proof (total_below _ Hok) as Ht. pose proof Hok as [H1 H2 H3 H4]. unfold hold_oflow. rewrite Hmax.
  assert (Hg : forall x, default 0 (zget (zset (vfti_hold_count info) cpu x) cpu) = x).
  { intros x. rewrite zget_zset. by rewrite decide_True. }
  pose proof (total_zset (vfti_hold_count info) cpu) as Hz.
  assert (Htm : total (vfti_hold_count info) >= UINT_MAX).
  { pose proof (Hz 0 Hc) as Hz0. pose proof (total_bound _ (counts_zset _ cpu 0 H1 ltac:(lia))). lia. }
  unfold held in *. destruct (Z.ltb_spec UINT_MAX (vfti_action_count info)) as [Hlt|Hge]; cbn [vfti_hold_count vfti_action_count].
  - unfold u64. rewrite Z.mod_small by lia. rewrite Hg, zlen_zset, Hz, Hmax by done. split; [|lia].
    split; unfold held; cbn [vfti_hold_count vfti_action_count]; [by apply counts_zset|by rewrite zlen_zset|lia|rewrite Hz, Hmax by done; lia].
  - rewrite (u32_small (UINT_MAX - vfti_action_count info)) by lia. rewrite Hg, zlen_zset, Hz, Hmax by done. split; [|lia].
    split; unfold held; cbn [vfti_hold_count vfti_action_count]; [apply counts_zset; [done|lia]|by rewrite zlen_zset|lia|rewrite Hz, Hmax by done; lia].
Qed.

Lemma count_hold_held cpu info : info_ok info -> 0 <= cpu -> held info < UINT_MAX ->
  let '(ok, info') := count_hold cpu info in
  info_ok info' /\ held info' = held info + (if ok then 1 else 0) /\ (ok = (cpu <? zlen (vfti_hold_count info))).
Proof.
  intros Hok Hc Hh. unfold count_hold. destruct (Z.leb_spec (zlen (vfti_hold_count info)) cpu) as [Hge|Hlt].
  { split; [done|]. split; [lia|]. by rewrite (proj2 (Z.ltb_ge _ _)). }
  set (h := default 0 (zget (vfti_hold_count info) cpu)). pose proof (held_at _ cpu (io_counts _ Hok)) as Hr. fold h in Hr.
  set (info1 := if u32 (h + 1) <? h then hold_oflow cpu info else info).
  assert (H1 : info_ok info1 /\ held info1 = held info /\ zlen (vfti_hold_count info1) = zlen (vfti_hold_count info) /\
    default 0 (zget (vfti_hold_count info1) cpu) < UINT_MAX).
  { unfold info1. destruct (Z.ltb_spec (u32 (h + 1)) h) as [Hw|Hw].
    - apply hold_oflow_held; try done; try lia. fold h. destruct (decide (h = UINT_MAX)) as [->|]; [done|].
      rewrite u32_small in Hw by lia. lia.
    - split; [done|]. split; [done|]. split; [done|]. fold h. destruct (decide (h = UINT_MAX)) as [E|]; [|lia].
      rewrite E in Hw. by vm_compute in Hw. }
  destruct H1 as (Ok1 & E1 & El & Hl1). set (h1 := default 0 (zget (vfti_hold_count info1) cpu)) in *.
  pose proof (held_at _ cpu (io_counts _ Ok1)) as Hr1. fold h1 in Hr1. rewrite u32_small by lia.
  assert (Et : total (zset (vfti_hold_count info1) cpu (h1 + 1)) = total (vfti_hold_count info1) + 1).
  { rewrite total_zset by lia. fold h1. lia. }
  pose proof Ok1 as [C1 C2 C3 C4]. unfold held in *. cbn [vfti_hold_count vfti_action_count].
  split; [|split; [lia|by rewrite (proj2 (Z.ltb_lt _ _))]].
  split; unfold held; cbn [vfti_hold_count vfti_action_count]; [apply counts_zset; [done|lia]|by rewrite zlen_zset|done|lia].
Qed.

Lemma info_init_ok n : 1 <= n <= UINT_MAX -> info_ok (vr_flow_table_info_init n) /\ held (vr_flow_table_info_init n) = 0.
Proof.
  intros Hn. assert (Ht : total (replicate (Z.to_nat n) 0) = 0).
  { induction (Z.to_nat n) as [|k IH]; [done|]. cbn [replicate total foldr]. fold (total (replicate k 0)). lia. }
  unfold vr_flow_table_info_init. split; [|unfold held; cbn [vfti_hold_count vfti_action_count]; lia].
  split; unfold held; cbn [vfti_hold_count vfti_action_count]; [|unfold zlen; rewrite length_replicate; lia|done|lia].
  apply Forall_replicate. lia.
Qed.

Lemma info_reset_ok info : info_ok info -> info_ok (vr_flow_table_info_reset info) /\ held (vr_flow_table_info_reset info) = 0.
Proof.
  intros [_ H _ _]. replace (vr_flow_table_info_reset info) with (vr_flow_table_info_init (zlen (vfti_hold_count info))).
  - by apply info_init_ok.
  - unfold vr_flow_table_info_init, vr_flow_table_info_reset, zlen. by rewrite Nat2Z.id.
Qed.

(** ** The set of link-local ports *)

(** A bitmap of the size that [vr_link_local_ports_init] gives it. *)
Definition ll_ok (ll : link_local_ports) : Prop := exists ports, ll = Some ports /\ zlen ports = 16384.

Lemma ll_applies_spec proto port : ll_applies AF_INET proto port = true ->
  (proto = VR_IP_PROTO_TCP \/ proto = VR_IP_PROTO_UDP) /\ 0 <= port <= 65535.
Proof.
  unfold ll_applies. rewrite !andb_true_iff, orb_true_iff, !Z.eqb_eq, !Z.leb_le.
  unfold VR_DYNAMIC_PORT_START, VR_DYNAMIC_PORT_END. tauto.
Qed.

Lemma ll_bit_spec ports proto port : zlen ports = 16384 -> ll_applies AF_INET proto port = true ->
  0 <= ll_bit ports proto port < 8 * zlen ports /\
  forall proto' port', ll_applies AF_INET proto' port' = true ->
    (ll_bit ports proto' port' =? ll_bit ports proto port) = bool_decide (proto' = proto /\ port' = port).
Proof.
  intros Hl Ha. apply ll_applies_spec in Ha. unfold ll_bit, VR_DYNAMIC_PORT_START in *. rewrite Hl.
  change (16384 * 8 / 2) with 65536. change VR_IP_PROTO_TCP with 6 in *. change VR_IP_PROTO_UDP with 17 in *.
  split; [destruct (Z.eqb_spec proto 17); rewrite ?u32_small by lia; lia|]. intros proto' port' Ha'%ll_applies_spec.
  change VR_IP_PROTO_TCP with 6 in *. change VR_IP_PROTO_UDP with 17 in *.
  destruct (Z.eqb_spec proto 17), (Z.eqb_spec proto' 17); rewrite ?u32_small by lia;
    (match goal with |- (?x =? ?y) = _ => destruct (Z.eqb_spec x y) end); symmetry;
    solve [apply bool_decide_eq_true_2; lia|apply bool_decide_eq_false_2; lia].
Qed.

Lemma ll_set_spec ll proto port proto' port' : ll_ok ll ->
  ll_ok (vr_set_link_local_port AF_INET proto port ll) /\
  vr_valid_link_local_port (vr_set_link_local_port AF_INET proto port ll) AF_INET proto' port' =
    (bool_decide (proto' = proto /\ port' = port) && ll_applies AF_INET proto port) || vr_valid_link_local_port ll AF_INET proto' port'.
Proof.
  intros (ports & -> & Hl). unfold vr_set_link_local_port, vr_valid_link_local_port.
  destruct (ll_applies AF_INET proto port) eqn:Ha; [|by rewrite andb_false_r; split; [exists ports|]].
  split; [eexists; split; [done|by rewrite zlen_bit_set]|]. rewrite andb_true_r.
  destruct (ll_bit_spec ports proto port Hl Ha) as [Hr He].
  destruct (ll_applies AF_INET proto' port') eqn:Ha'.
  - destruct (ll_bit_spec ports proto' port' Hl Ha') as [Hr' _]. unfold ll_bit in *. rewrite zlen_bit_set.
    rewrite bit_test_set by lia. rewrite He by done. done.
  - rewrite orb_false_r. symmetry. apply bool_decide_eq_false_2. intros [-> ->]. congruence.
Qed.

Lemma ll_clear_spec ll proto port proto' port' : ll_ok ll ->
  ll_ok (vr_clear_link_local_port AF_INET proto port ll) /\
  vr_valid_link_local_port (vr_clear_link_local_port AF_INET proto port ll) AF_INET proto' port' =
    negb (bool_decide (proto' = proto /\ port' = port)) && vr_valid_link_local_port ll AF_INET proto' port'.
Proof.
  intros (ports & -> & Hl). unfold vr_clear_link_local_port, vr_valid_link_local_port.
  destruct (ll_applies AF_INET proto port) eqn:Ha.
  - split; [eexists; split; [done|by rewrite zlen_bit_clear]|].
    destruct (ll_applies AF_INET proto' port') eqn:Ha'; [|by rewrite andb_false_r].
    destruct (ll_bit_spec ports proto port Hl Ha) as [Hr He].
    destruct (ll_bit_spec ports proto' port' Hl Ha') as [Hr' _]. unfold ll_bit in *. rewrite zlen_bit_clear.
    rewrite bit_test_clear by lia. rewrite He by done. done.
  - split; [by exists ports|]. destruct (ll_applies AF_INET proto' port') eqn:Ha'; [|by rewrite andb_false_r].
    rewrite bool_decide_eq_false_2; [done|]. intros [-> ->]. congruence.
Qed.

(** Setting ([true]) and clearing a port, on the bitmap and on a set. *)
Definition ll_op (ll : link_local_ports) (op : bool * Z * Z) : link_local_ports :=
  let '(b, proto, port) := op in
  if b then vr_set_link_local_port AF_INET proto port ll else vr_clear_link_local_port AF_INET proto port ll.

Definition ll_set_op (s : gset (Z * Z)) (op : bool * Z * Z) : gset (Z * Z) :=
  let '(b, proto, port) := op in
  if b then if ll_applies AF_INET proto port then {[(proto, port)]} ∪ s else s else s ∖ {[(proto, port)]}.

Definition ll_rep (ll : link_local_ports) (s : gset (Z * Z)) : Prop :=
  ll_ok ll /\ forall proto port, vr_valid_link_local_port ll AF_INET proto port = bool_decide ((proto, port) ∈ s).

Lemma ll_rep_op ll s op : ll_rep ll s -> ll_rep (ll_op ll op) (ll_set_op s op).
Proof.
  destruct op as [[[|] proto] port]; intros [Hok Hs]; cbn.
  - split; [by apply (ll_set_spec ll proto port 0 0)|]. intros proto' port'.
    destruct (ll_set_spec ll proto port proto' port' Hok) as [_ ->]. rewrite Hs. destruct (ll_applies AF_INET proto port).
    + rewrite andb_true_r, <- bool_decide_or. apply bool_decide_ext. set_solver.
    + by rewrite andb_false_r.
  - split; [by apply (ll_clear_spec ll proto port 0 0)|]. intros proto' port'.
    destruct (ll_clear_spec ll proto port proto' port' Hok) as [_ ->]. rewrite Hs, <- bool_decide_not, <- bool_decide_and.
    apply bool_decide_ext. set_solver.
Qed.

(** The bitmap of link-local ports is a set of protocols and ports: after any sequence of
    ports set and cleared, exactly those are valid that were set last, and UDP and TCP do
    not interfere. *)
Theorem link_local_refines_set ops :
  exists ll, vr_link_local_ports_init true None = (0, ll) /\
    forall proto port, vr_valid_link_local_port (foldl ll_op ll ops) AF_INET proto port =
      bool_decide ((proto, port) ∈ foldl ll_set_op ∅ ops).
Proof.
  unfold vr_link_local_ports_init. cbv zeta. eexists. split; [reflexivity|]. set (ll0 := Some _). assert (H0 : ll_rep ll0 ∅).
  { split; [eexists; split; [reflexivity|by rewrite zlen_replicate]|]. intros proto port. unfold ll0, vr_valid_link_local_port.
    rewrite bool_decide_eq_false_2 by apply not_elem_of_empty. rewrite bit_test_zero. by destruct (ll_applies _ _ _). }
  clearbody ll0. revert ll0 H0. generalize (∅ : gset (Z * Z)) as s. induction ops as [|op ops IH]; intros s ll Hr; cbn [foldl].
  - apply Hr.
  - intros. apply IH. by apply ll_rep_op.
Qed.

(** The source port of a tunnel is chosen once for a flow and lies in the range of dynamic
    ports, whatever the hash gives. *)
Theorem flow_udp_src_port_range jhash beyond hashrnd e :
  fe_udp_src_port e = 0 ->
  let port := vr_flow_udp_src_port jhash beyond hashrnd e in
  VR_MUDP_PORT_RANGE_START <= port < VR_MUDP_PORT_RANGE_END /\
  forall jhash' beyond' rnd', vr_flow_udp_src_port jhash' beyond' rnd' (set_fe_udp_src_port port e) = port.
Proof.
  intros H0 port. assert (Hr : VR_MUDP_PORT_RANGE_START <= port < VR_MUDP_PORT_RANGE_END).
  { unfold port, vr_flow_udp_src_port. rewrite H0. cbn [negb Z.eqb]. set (h := u32 _). pose proof (u32_range (jhash (take (Z.to_nat (hash_len (fe_type e))) (hash_key e ++ beyond)) hashrnd)) as Hh.
    fold h in Hh. change (VR_MUDP_PORT_RANGE_END - VR_MUDP_PORT_RANGE_START) with 16383.
    assert (Hs : 0 <= Z.shiftr (h * 16383) 32 < 16383).
    { rewrite Z.shiftr_div_pow2 by lia. change UINT_MAX with 4294967295 in Hh.
      split; [apply Z.div_pos; lia|apply Z.div_lt_upper_bound; lia]. }
    unfold u16. rewrite (Z.mod_small (Z.shiftr _ _)) by lia. rewrite (proj2 (Z.ltb_ge _ _)) by lia.
    unfold VR_MUDP_PORT_RANGE_START, VR_MUDP_PORT_RANGE_END. rewrite Z.mod_small by lia. lia. }
  split; [done|]. intros jhash' beyond' rnd'. unfold vr_flow_udp_src_port at 1.
  change (fe_udp_src_port (set_fe_udp_src_port port e)) with port. unfold VR_MUDP_PORT_RANGE_START in Hr.
  by rewrite (proj2 (Z.eqb_neq _ _)) by lia.
Qed.

Lemma flow_udp_src_port_range_witness :
  let port := vr_flow_udp_src_port (fun l _ => foldr Z.add 0 l) [] 0 fe_zero in
  VR_MUDP_PORT_RANGE_START <= port < VR_MUDP_PORT_RANGE_END /\
  forall jhash' beyond' rnd', vr_flow_udp_src_port jhash' beyond' rnd' (set_fe_udp_src_port port fe_zero) = port.
Proof. apply flow_udp_src_port_range. reflexivity. Defined.

End FlowInfo.
