(* ===== verification/FlowTable.v ===== *)
(** * The table of flows, as the flow module sees it

    What the flow module asks of the hash table beyond reading and writing entries
    ([FlowTable]), and what it relies on ([FlowTableLaws]): an entry that is handed out was
    not in use, a release gives one entry back, and no operation of the table touches the
    contents of an entry.  The hash table of vr_htable.c is an instance. *)

From S2P Require Import Prelude Bits Htable HtableMap FlowEntry.

Class FlowTable (S : Type) `{FlowStore S} := {
  ft_find : list Z -> Z -> S -> option Z;
  ft_claim : list Z -> Z -> S -> option Z * S;
  ft_release : Z -> S -> S;
  (** a step of the work that the table has scheduled *)
  ft_background : bool -> S -> S;
  ft_reset : forall {X : Type}, (Z -> S -> X -> S * X) -> S -> X -> S * X;
  ft_size : S -> Z
}.

Class FlowTableLaws (S : Type) `{FlowTable S} := {
  ft_ok : S -> Prop;
  ok_size : forall s i, ft_ok s -> is_Some (fs_read i s) <-> 0 <= i < ft_size s;
  ok_valid : forall s i, ft_ok s -> fs_valid i s = true -> 0 <= i;
  upd_ok : forall s i f, ft_ok s -> ft_ok (fs_upd i f s) /\ ft_size (fs_upd i f s) = ft_size s;
  claim_spec : forall s key len, ft_ok s -> 0 < len ->
    let '(o, s') := ft_claim key len s in
    ft_ok s' /\ ft_size s' = ft_size s /\ (forall j, fs_read j s' = fs_read j s) /\
    match o with
    | Some i => 0 <= i /\ fs_valid i s = false /\ is_Some (fs_read i s) /\
        forall j, fs_valid j s' = if decide (j = i) then true else fs_valid j s
    | None => forall j, fs_valid j s' = fs_valid j s
    end;
  release_spec : forall s i, ft_ok s ->
    let s' := ft_release i s in
    ft_ok s' /\ ft_size s' = ft_size s /\ (forall j, fs_read j s' = fs_read j s) /\
    forall j, fs_valid j s' = if decide (j = i) then false else fs_valid j s;
  background_spec : forall s b, ft_ok s ->
    let s' := ft_background b s in
    ft_ok s' /\ ft_size s' = ft_size s /\ (forall j, fs_read j s' = fs_read j s) /\
    forall j, fs_valid j s' = fs_valid j s;
  find_spec : forall s key len i, ft_ok s -> 0 < len -> ft_find key len s = Some i ->
    fs_valid i s = true /\ exists k, vr_flow_get_key (default fe_zero (fs_read i s)) = Some k /\
      zlen k = len /\ k = take (Z.to_nat len) key
}.

#[export] Instance htable_flow_table : FlowTable flow_htable := {
  ft_find key len t := Htable.vr_htable_find_hentry vr_flow_get_key key len t;
  ft_claim key len t := Htable.vr_htable_find_free_hentry key len t;
  ft_release i t := Htable.vr_htable_release_hentry i t;
  ft_background b t := if b then Htable.vr_htable_hentry_scheduled_delete t else Htable.vr_htable_hentry_defer_delete t;
  ft_reset X cb t x := Htable.vr_htable_reset cb t x;
  ft_size t := Htable.ht_hentries t + Htable.ht_oentries t
}.

(** ** The hash table keeps the promises *)

Module FlowTable.
Import Htable HtableMap.
Implicit Types (t : flow_htable) (e : vr_hentry vr_flow_entry).

(** An overflow entry in use hangs in the chain of a bucket that it names. *)
Definition placed t : Prop :=
  forall i e, ht_hentries t <= i -> zget (ht_entries t) i = Some e -> has_flag VR_HENTRY_FLAG_VALID e = true ->
    hentry_flags e = 1 /\ exists b, 0 <= b < nbuckets t /\ hentry_bucket_index e = tail_of t b.

Definition table_ok t : Prop := works_ok t /\ (exists free chain, wf t free chain) /\ placed t /\ 0 <= ht_key_size t.

(** Steps that put no entry in use and move none that is. *)
Definition home_kept t t' : Prop :=
  forall j e', zget (ht_entries t') j = Some e' -> has_flag VR_HENTRY_FLAG_VALID e' = true ->
    exists e, zget (ht_entries t) j = Some e /\ has_flag VR_HENTRY_FLAG_VALID e = true /\
      (hentry_flags e = 1 -> hentry_flags e' = 1) /\ hentry_bucket_index e' = hentry_bucket_index e.

#[local] Instance home_kept_preorder : PreOrder home_kept.
Proof.
  split; [by intros t j e He Hv; exists e|]. intros t1 t2 t3 H12 H23 j e3 He3 Hv3.
  destruct (H23 j e3 He3 Hv3) as (e2 & He2 & Hv2 & F2 & B2). destruct (H12 j e2 He2 Hv2) as (e1 & He1 & Hv1 & F1 & B1).
  exists e1. split; [done|]. split; [done|]. split; [auto|congruence].
Qed.

Lemma upd_home i f t :
  (forall e, zget (ht_entries t) i = Some e -> has_flag VR_HENTRY_FLAG_VALID (f e) = true ->
     has_flag VR_HENTRY_FLAG_VALID e = true /\ (hentry_flags e = 1 -> hentry_flags (f e) = 1) /\
     hentry_bucket_index (f e) = hentry_bucket_index e) ->
  home_kept t (upd i f t).
Proof.
  intros Hf j e' He' Hv. rewrite zget_upd in He'. case_decide as Hj; [|by exists e']. subst j.
  destruct (zget (ht_entries t) i) as [e|] eqn:E; [|done]. cbn in He'. simplify_eq. destruct (Hf e eq_refl Hv) as (H1 & H2 & H3).
  by exists e.
Qed.

Lemma home_after t0 t1 t2 : home_kept t0 t1 -> ht_entries t2 = ht_entries t1 -> home_kept t0 t2.
Proof. intros H E j e'. rewrite E. apply H. Qed.

Lemma valid_with_flags (fl : Z) e : has_flag VR_HENTRY_FLAG_VALID (with_flags fl e) = has 1 fl.
Proof. done. Qed.

Lemma invalidate_home i t : home_kept t (vr_htable_oentry_invalidate i t).
Proof.
  unfold vr_htable_oentry_invalidate. destruct (zget (ht_entries t) i) as [e|] eqn:He; [|done]. destruct (_ <? _); [done|].
  match goal with |- home_kept t (vr_htable_put_free_oentry i (upd i ?f t)) => set (g := f) end.
  assert (Hg : forall x, has_flag VR_HENTRY_FLAG_VALID (g x) = false).
  { intros x. change (has 1 (Z.land (hentry_flags x) 8) = false). by apply has_land_0. }
  unfold vr_htable_put_free_oentry. destruct (zget (ht_entries (upd i g t)) i) as [e1|] eqn:He1; [|by apply upd_home; intros; rewrite Hg in *].
  assert (H1 : home_kept t (upd i g t)) by (apply upd_home; intros e2 _ Hv; by rewrite Hg in Hv).
  destruct (_ <? _); [done|]. destruct (has_flag _ e1) eqn:Hfr; [done|].
  match goal with |- home_kept t (set_free _ _ ?x) => apply (home_after t x); [|done] end.
  etransitivity; [exact H1|]. apply upd_home. intros e2 He2 Hv. exfalso.
  rewrite zget_upd, decide_True, He in He2 by done. cbn in He2. simplify_eq.
  change (has 1 (Z.lor (Z.land (hentry_flags e) 8) 8) = true) in Hv. rewrite has_lor in Hv.
  apply orb_true_iff in Hv as [Hv|Hv]; [|done]. pose proof (Hg e) as Hx. change (has 1 (Z.land (hentry_flags e) 8) = false) in Hx. congruence.
Qed.

Lemma delete_walk_home fuel count prev ent t : home_kept t (delete_walk fuel count prev ent t).
Proof.
  revert count prev ent t. induction fuel as [|fuel IH]; intros count prev ent t; [done|].
  destruct (decide (count = 0)) as [->|Hc]; [done|].
  destruct ent as [i|]; [|cbn; by rewrite (proj2 (Z.eqb_neq _ _))].
  destruct (zget (ht_entries t) i) as [e|] eqn:He; [|cbn; by rewrite (proj2 (Z.eqb_neq _ _)), He].
  rewrite (delete_walk_unfold _ _ _ _ _ e) by done. cbn zeta.
  set (ni := match hentry_next e with Some _ => _ | None => _ end).
  assert (Hun : has_flag VR_HENTRY_FLAG_DELETE_MARKED e = true -> home_kept t (unlink i prev ni (hentry_next e) t)).
  { intros Hd. unfold unlink. match goal with |- home_kept t (upd i _ ?x) => transitivity x end; [by apply upd_home|].
    apply upd_home. intros e1 He1 Hv.
    assert (Ef : hentry_flags e1 = hentry_flags e).
    { rewrite zget_upd in He1. case_decide; [subst prev|congruence]. rewrite He in He1. cbn in He1. by simplify_eq. }
    change (has 1 (Z.lor (Z.ldiff (hentry_flags e1) 2) 4) = true) in Hv. rewrite has_lor, has_ldiff, orb_false_r in Hv by done.
    split; [exact Hv|]. split; [|done]. intros E1. rewrite Ef in E1. unfold has_flag in Hd. by rewrite E1 in Hd. }
  assert (H1 : forall t1, home_kept t t1 -> home_kept t
    (if ht_not_ready t1 then vr_htable_oentry_invalidate i t1
     else let '(ok, t2) := ask_host t1 in
          if ok then set_queues (ht_work t2) (ht_deferred t2 ++ [hentry_index e]) (ht_oracle t2) t2 else t2)).
  { intros t1 Ht1. destruct (ht_not_ready t1); [etransitivity; [exact Ht1|apply invalidate_home]|].
    unfold ask_host. destruct (match ht_oracle t1 with [] => true | b :: _ => b end); by apply (home_after t t1). }
  destruct (has_flag VR_HENTRY_FLAG_DELETE_MARKED e); destruct (negb _);
    (etransitivity; [|apply IH]); first [apply H1; first [by apply Hun|done]|by apply Hun|done].
Qed.

Lemma background_home t :
  home_kept t (vr_htable_hentry_scheduled_delete t) /\ home_kept t (vr_htable_hentry_defer_delete t).
Proof.
  split.
  - unfold vr_htable_hentry_scheduled_delete. destruct (ht_work t) as [|k work]; [done|].
    set (t0 := set_queues _ _ _ _). assert (H0 : home_kept t t0) by (by apply (home_after t t)).
    destruct (zget (ht_dtable t0) k) as [dd|]; [|done].
    destruct (__vr_htable_get_hentry_by_index t0 _) as [h|]; [|done]. cbn zeta.
    etransitivity; [|apply delete_walk_home]. by apply (home_after t t).
  - unfold vr_htable_hentry_defer_delete. destruct (ht_deferred t) as [|i l]; [done|].
    set (t0 := set_queues _ _ _ _). assert (H0 : home_kept t t0) by (by apply (home_after t t)).
    destruct (__vr_htable_get_hentry_by_index t0 _) as [h|]; [|done]. etransitivity; [exact H0|apply invalidate_home].
Qed.

Lemma placed_kept t t' : placed t -> home_kept t t' -> same_shape t t' -> placed t'.
Proof.
  intros Hp Hk (S1 & _ & S3) i e' Hi He' Hv. rewrite S1 in Hi. destruct (Hk i e' He' Hv) as (e & He & Hve & Hf & Hb).
  destruct (Hp i e Hi He Hve) as (H1 & b & Hbr & Hbi). split; [auto|]. exists b. unfold nbuckets, tail_of in *. rewrite S1, S3. split; [done|congruence].
Qed.

(** ** Entries in use

    A look-up for a key that every entry has finds the entries in use: what is known of
    look-ups with any [ht_get_key] says what happens to the flag. *)

Definition any_key (t : flow_htable) : vr_flow_entry -> option (list Z) := fun _ => Some (replicate (Z.to_nat (ht_key_size t)) 0).

Definition valid_at t (i : Z) : bool := from_option (has_flag VR_HENTRY_FLAG_VALID) false (zget (ht_entries t) i).

Lemma match_any t t0 i : 0 <= ht_key_size t0 -> ht_key_size t = ht_key_size t0 ->
  match_at (any_key t0) t (replicate (Z.to_nat (ht_key_size t0)) 0) i = valid_at t i.
Proof.
  intros Hk E. unfold match_at, valid_at. destruct (zget (ht_entries t) i) as [e|]; [|done]. cbn. unfold hentry_matches, any_key.
  rewrite zlen_replicate, E, Z2Nat.id, Z.eqb_refl, bool_decide_eq_true_2 by done. by rewrite andb_true_r.
Qed.

Lemma valid_is_valid_at t i free chain : wf t free chain -> fs_valid i t = valid_at t i.
Proof.
  intros Hw. cbn. unfold vr_htable_get_hentry_by_index, __vr_htable_get_hentry_by_index, valid_at.
  destruct (zget (ht_entries t) i) as [e|] eqn:E.
  - pose proof (zget_range _ _ _ E) as Hr. rewrite (wf_len _ _ _ Hw) in Hr.
    destruct (Z.ltb_spec i (ht_hentries t)), (Z.ltb_spec i (ht_oentries t + ht_hentries t)); try lia; cbn; by destruct (has_flag _ e).
  - by repeat case_match.
Qed.

(** The table with keys of a fixed size. *)
Definition rekey (n : Z) t : flow_htable :=
  mk_htable (ht_hentries t) (ht_oentries t) n (ht_bucket_size t) (ht_entries t) (ht_dtable t) (ht_free_oentry_head t)
    (ht_used_oentries t) (ht_used_entries t) (ht_work t) (ht_deferred t) (ht_not_ready t) (ht_oracle t).

Lemma rekey_wf n t free chain : wf t free chain <-> wf (rekey n t) free chain.
Proof. split; intros []; by split. Qed.

Lemma upd_rekey n i f t : upd i f (rekey n t) = rekey n (upd i f t).
Proof. unfold upd. cbn. by destruct (zget (ht_entries t) i). Qed.

Lemma find_free_rekey n key t : 0 < n ->
  vr_htable_find_free_hentry key 0 (rekey n t) =
    let '(o, t') := vr_htable_find_free_hentry key n t in (o, rekey n t').
Proof.
  intros Hn. unfold vr_htable_find_free_hentry. cbn [Z.eqb ht_key_size rekey].
  assert (En : (n =? 0) = false) by (apply Z.eqb_neq; lia). rewrite !En. cbv zeta. rewrite ?En.
  change (bucket_start key n (rekey n t)) with (bucket_start key n t). change (ht_bucket_size (rekey n t)) with (ht_bucket_size t).
  assert (Hf : forall idx, find_invalid idx (rekey n t) = find_invalid idx t).
  { induction idx as [|i idx IH]; [done|]. cbn. destruct (zget (ht_entries t) i) as [e|]; [|done]. by destruct (has_flag _ e). }
  rewrite Hf. destruct (find_invalid _ t) as [i|]; [by rewrite upd_rekey|].
  change (ht_oentries (rekey n t)) with (ht_oentries t). destruct (ht_oentries t =? 0); [done|].
  unfold vr_htable_get_free_oentry. cbn [rekey ht_free_oentry_head ht_entries]. destruct (ht_free_oentry_head t) as [o|]; [|done].
  destruct (zget (ht_entries t) o) as [eo|]; [|done].
  change (set_free ?a ?b (rekey n t)) with (rekey n (set_free a b t)). rewrite upd_rekey. unfold link_oentry. by rewrite !upd_rekey.
Qed.

(** The other entries keep their place when one is claimed. *)
Lemma find_free_home key len t i t' : vr_htable_find_free_hentry key len t = (Some i, t') ->
  forall j e', j <> i -> zget (ht_entries t') j = Some e' -> has_flag VR_HENTRY_FLAG_VALID e' = true ->
    exists e, zget (ht_entries t) j = Some e /\ hentry_flags e = hentry_flags e' /\ hentry_bucket_index e = hentry_bucket_index e'.
Proof.
  assert (Hupd : forall k f x, (forall e, hentry_flags (f e) = hentry_flags e /\ hentry_bucket_index (f e) = hentry_bucket_index e) \/ k = i ->
    forall j e', j <> i -> zget (ht_entries (upd k f x)) j = Some e' ->
      exists e, zget (ht_entries x) j = Some e /\ hentry_flags e = hentry_flags e' /\ hentry_bucket_index e = hentry_bucket_index e').
  { intros k f x Hf j e' Hj. rewrite zget_upd. case_decide as Hk; [|by eauto]. subst k. destruct Hf as [Hf| ->]; [|done].
    destruct (zget (ht_entries x) j) as [e|]; [|done]. cbn. intros [= <-]. exists e. destruct (Hf e) as [-> ->]. done. }
  unfold vr_htable_find_free_hentry. destruct (_ =? 0); [done|]. destruct (find_invalid _ t) as [k|].
  { intros [= <- <-] j e' Hj He' _. cbn in He'. apply (Hupd k _ t (or_intror eq_refl) j e' Hj He'). }
  destruct (ht_oentries t =? 0); [done|]. unfold vr_htable_get_free_oentry. destruct (ht_free_oentry_head t) as [o|]; [|done].
  destruct (zget (ht_entries t) o) as [eo|]; [|done]. intros [= <- <-] j e' Hj He' _. cbn in He'. unfold link_oentry in He'.
  apply Hupd in He' as (e1 & He1 & F1 & B1); [|by left; intros []|done].
  apply Hupd in He1 as (e2 & He2 & F2 & B2); [|by right|done].
  apply Hupd in He2 as (e3 & He3 & F3 & B3); [|by right|done]. exists e3. split; [done|]. split; congruence.
Qed.

Lemma find_free_frame key len t :
  let t' := (vr_htable_find_free_hentry key len t).2 in
  ht_hentries t' = ht_hentries t /\ ht_oentries t' = ht_oentries t /\ ht_key_size t' = ht_key_size t.
Proof.
  unfold vr_htable_find_free_hentry. destruct (_ =? 0); [done|]. destruct (find_invalid _ t) as [k|].
  { cbn. by destruct (upd_frame t k (fun e => with_bucket_index VR_INVALID_HENTRY_INDEX (with_flags VR_HENTRY_FLAG_VALID e))) as (-> & -> & -> & _). }
  destruct (ht_oentries t =? 0); [done|]. unfold vr_htable_get_free_oentry. destruct (ht_free_oentry_head t) as [o|]; [|done].
  destruct (zget (ht_entries t) o) as [eo|]; [|done]. cbn. unfold link_oentry.
  repeat match goal with |- context [upd ?k ?f ?x] => destruct (upd_frame x k f) as (-> & -> & -> & _) end. done.
Qed.

Lemma claim_table t key len : table_ok t -> 0 < len ->
  let '(o, t') := vr_htable_find_free_hentry key len t in
  table_ok t' /\ ht_hentries t' + ht_oentries t' = ht_hentries t + ht_oentries t /\ same_data t t' /\
  match o with
  | Some i => 0 <= i < ht_hentries t + ht_oentries t /\ valid_at t i = false /\
      forall j, valid_at t' j = if decide (j = i) then true else valid_at t j
  | None => forall j, valid_at t' j = valid_at t j
  end.
Proof.
  intros (Hwk & (free & chain & Hw) & Hpl & Hks) Hlen.
  destruct (vr_htable_find_free_hentry key len t) as [o t'] eqn:Eff.
  pose proof (find_free_same_data key len t) as Hsd. rewrite Eff in Hsd. cbn in Hsd.
  destruct o as [i|]; [|rewrite (find_free_none _ _ _ _ Eff); split; [by split; eauto|done]].
  pose proof (find_free_rekey len key t Hlen) as Er. rewrite Eff in Er.
  set (r := rekey len t) in *. set (r' := rekey len t') in *.
  assert (Hwr : wf r free chain) by (by apply rekey_wf).
  assert (Hkr : ht_key_size r <> 0) by (cbn; lia).
  destruct (find_free_claims (any_key r) r free chain key i r' Hwr Hkr Er)
    as (free' & chain' & [Hw1 (S1 & S2 & S3) Hin (e & He & Hfl) Hunused Hsame _]).
  assert (Hw' : wf t' free' chain') by (by apply (rekey_wf len)).
  destruct (find_free_work key len t) as [W1 W2]. rewrite Eff in W1, W2. cbn in W1, W2.
  pose proof (find_free_frame key len t) as (K1 & K2 & K3). rewrite Eff in K1, K2, K3. cbn [snd] in K1, K2, K3.
  change (ht_hentries t' = ht_hentries t) in S1. change (ht_bucket_size t' = ht_bucket_size t) in S3.
  assert (Hva : forall x j, match_at (any_key r) (rekey len x) (replicate (Z.to_nat len) 0) j = valid_at x j).
  { intros x j. apply (match_any (rekey len x) r); [cbn; lia|done]. }
  assert (Hvo : forall j, j <> i -> valid_at t' j = valid_at t j).
  { intros j Hj. rewrite <- !Hva. by apply Hsame. }
  assert (Hvi : valid_at t i = false) by (rewrite <- Hva; apply Hunused).
  assert (Hvi' : valid_at t' i = true).
  { unfold valid_at. change (zget (ht_entries t') i = Some e) in He. rewrite He. cbn. unfold has_flag. by rewrite Hfl. }
  assert (Hri : 0 <= i < ht_hentries t + ht_oentries t).
  { pose proof (zget_range _ _ _ He) as Hr. change (ht_entries r') with (ht_entries t') in Hr. rewrite (wf_len _ _ _ Hw') in Hr. lia. }
  split; [|split; [lia|split; [done|split; [done|split; [done|]]]]].
  2:{ intros j. case_decide as Hj; [by subst j|auto]. }
  split; [by apply (works_ok_same t)|]. split; [eauto|]. split; [|lia].
  intros j ej Hj Hej Hv. unfold nbuckets, tail_of. rewrite S1, S3. destruct (decide (j = i)) as [->|Hne].
  - change (zget (ht_entries t') i = Some e) in He. simplify_eq. split; [done|]. exists (bucket_no r key).
    destruct (bucket_no_spec r free chain key Hwr) as [Hb _].
    assert (Hb' : 0 <= bucket_no r key < nbuckets r').
    { unfold nbuckets. change (ht_hentries r') with (ht_hentries t'). change (ht_bucket_size r') with (ht_bucket_size t').
      rewrite S1, S3. exact Hb. }
    apply elem_of_app in Hin as [Hin|Hin].
    + destruct (main_some r' free' chain' (bucket_no r key) i Hw1 Hb' Hin) as [_ Hr].
      change (ht_hentries r') with (ht_hentries t') in Hr. lia.
    + destruct (wf_chain_in _ _ _ Hw1 (bucket_no r key) i Hb' Hin) as (_ & e2 & He2 & Hbi & _).
      change (zget (ht_entries t') i = Some e2) in He2. simplify_eq. split; [done|]. rewrite Hbi. unfold tail_of.
      change (ht_bucket_size r') with (ht_bucket_size t'). by rewrite S3.
  - apply (find_free_home key len t i t' Eff) in Hej as Hk; [|done|done]. destruct Hk as (e0 & He0 & Hfl0 & Hb0).
    rewrite <- Hb0, <- Hfl0. rewrite S1 in Hj. apply (Hpl j e0); [done|done|]. unfold has_flag in *. by rewrite Hfl0.
Qed.
(** Tables with the same data have the same length. *)
Lemma same_len t t' : (forall j, data_at t' j = data_at t j) -> zlen (ht_entries t') <= zlen (ht_entries t).
Proof.
  intros Hd. destruct (Z.le_gt_cases (zlen (ht_entries t')) (zlen (ht_entries t))) as [|Hlt]; [done|exfalso].
  assert (0 <= zlen (ht_entries t)) by (unfold zlen; lia).
  destruct (zget_is_Some (ht_entries t') (zlen (ht_entries t))) as [e He]; [lia|].
  specialize (Hd (zlen (ht_entries t))). unfold data_at in Hd. rewrite He, zget_None in Hd; [done|lia].
Qed.

Lemma valid_flags t free chain i e : wf t free chain -> placed t ->
  zget (ht_entries t) i = Some e -> has_flag VR_HENTRY_FLAG_VALID e = true ->
  hentry_flags e = 1 /\ exists b, 0 <= b < nbuckets t /\
    (i < ht_hentries t \/ (ht_hentries t <= i /\ hentry_bucket_index e = tail_of t b)).
Proof.
  intros Hw Hp He Hv. destruct (Z.lt_ge_cases i (ht_hentries t)) as [Hi|Hi].
  - split; [destruct (wf_main _ _ _ Hw i e Hi He) as [E|E]; [|done]; unfold has_flag in Hv; by rewrite E in Hv|].
    exists 0. split; [|by left]. pose proof (hentries_buckets _ _ _ Hw). destruct (wf_pos _ _ _ Hw). pose proof (bucket_size_pos _ _ _ Hw). nia.
  - destruct (Hp i e Hi He Hv) as (Hf & b & Hb & Hbi). split; [done|]. exists b. auto.
Qed.

Lemma release_table t i : table_ok t ->
  let t' := vr_htable_release_hentry i t in
  table_ok t' /\ ht_hentries t' + ht_oentries t' = ht_hentries t + ht_oentries t /\ same_data t t' /\
  forall j, valid_at t' j = if decide (j = i) then false else valid_at t j.
Proof.
  intros (Hwk & (free & chain & Hw) & Hpl & Hks) t'. pose proof (release_same_data i t) as Hsd. fold t' in Hsd.
  assert (Hno : t' = t -> valid_at t i = false -> table_ok t' /\ ht_hentries t' + ht_oentries t' = ht_hentries t + ht_oentries t /\
    same_data t t' /\ forall j, valid_at t' j = if decide (j = i) then false else valid_at t j).
  { intros -> Hv. split; [by split; eauto|]. split; [done|]. split; [done|]. intros j. case_decide as Hj; [by subst j|done]. }
  destruct (zget (ht_entries t) i) as [e|] eqn:He.
  2:{ apply Hno; [unfold t', vr_htable_release_hentry; by rewrite He|unfold valid_at; by rewrite He]. }
  destruct (has_flag VR_HENTRY_FLAG_VALID e) eqn:Hv.
  2:{ apply Hno; [unfold t', vr_htable_release_hentry; by rewrite He, Hv|unfold valid_at; by rewrite He]. }
  clear Hno. destruct (valid_flags t free chain i e Hw Hpl He Hv) as (Hf & b & Hb & Hloc).
  destruct (release_shape t free chain b i e Hw Hwk Hb He Hf Hloc) as (fl & Hfl & E1 & E2 & E3 & E4 & E5 & E6 & E7 & Hwk').
  fold t' in E1, E2, E3, E4, E5, E6, E7, Hwk'.
  destruct (wf_invalid (any_key t) t free chain i e fl Hw He Hf Hfl) as (Hw1 & _ & _).
  destruct (upd_frame t i (with_flags fl)) as (U1 & U2 & U3 & U4 & U5 & U6 & _).
  assert (Hw' : wf t' free chain) by (apply (wf_same (upd i (with_flags fl) t)); congruence).
  assert (Hent : forall j, zget (ht_entries t') j = if decide (i = j) then Some (with_flags fl e) else zget (ht_entries t) j).
  { intros j. rewrite E1, zget_upd. case_decide; [subst j; by rewrite He|done]. }
  assert (Hvi : has_flag VR_HENTRY_FLAG_VALID (with_flags fl e) = false) by (unfold has_flag; cbn; by destruct Hfl as [-> |[-> _]]).
  split; [|split; [lia|split; [done|]]].
  - split; [done|]. split; [eauto|]. split; [|lia]. apply (placed_kept t); [done| |by split; [done|split]].
    intros j e' Hj Hvj. rewrite Hent in Hj. case_decide; [simplify_eq; congruence|]. by exists e'.
  - intros j. unfold valid_at. rewrite Hent. destruct (decide (j = i)) as [->|Hj]; [by rewrite decide_True|by rewrite decide_False].
Qed.

Lemma background_table t b : table_ok t ->
  let t' := if b : bool then vr_htable_hentry_scheduled_delete t else vr_htable_hentry_defer_delete t in
  table_ok t' /\ ht_hentries t' + ht_oentries t' = ht_hentries t + ht_oentries t /\ same_data t t' /\
  forall j, valid_at t' j = valid_at t j.
Proof.
  intros (Hwk & (free & chain & Hw) & Hpl & Hks) t'.
  destruct (background_same_data t) as [D1 D2]. destruct (background_home t) as [B1 B2].
  assert (Hsd : same_data t t') by (by destruct b). assert (Hh : home_kept t t') by (by destruct b).
  assert (Hall : works_ok t' /\ (exists free' chain', wf t' free' chain') /\ keeps (any_key t) t t').
  { destruct b.
    - destruct (scheduled_spec (any_key t) t free chain Hwk Hw) as (H1 & f' & c' & H2 & H3 & _). eauto.
    - destruct (defer_delete_spec (any_key t) t free chain Hwk Hw) as (H1 & f' & H2 & H3). eauto. }
  destruct Hall as (Hwk' & (f' & c' & Hw') & Hsh & Hm). pose proof Hsh as (S1 & S2 & S3).
  assert (Hl : zlen (ht_entries t') = zlen (ht_entries t)).
  { apply Z.le_antisymm; apply same_len; intros j; [|symmetry]; apply Hsd. }
  rewrite (wf_len _ _ _ Hw), (wf_len _ _ _ Hw') in Hl.
  split; [|split; [done|split; [done|]]].
  - split; [done|]. split; [eauto|]. split; [by apply (placed_kept t)|lia].
  - intros j. rewrite <- !(match_any _ t) by done. apply Hm.
Qed.
Lemma find_sound (get_key : vr_flow_entry -> option (list Z)) key len t i : len <> 0 ->
  vr_htable_find_hentry get_key key len t = Some i ->
  exists e, zget (ht_entries t) i = Some e /\ hentry_matches get_key key len e = true.
Proof.
  intros Hl. unfold vr_htable_find_hentry. rewrite (proj2 (Z.eqb_neq len 0)) by done. rewrite (proj2 (Z.eqb_neq len 0)) by done.
  assert (Hb : forall idx j, find_bucket get_key key len idx t = Some j ->
    exists e, zget (ht_entries t) j = Some e /\ hentry_matches get_key key len e = true).
  { induction idx as [|k idx IH]; intros j; [done|]. cbn. destruct (zget (ht_entries t) k) as [e|] eqn:E; [|done].
    destruct (hentry_matches get_key key len e) eqn:Em; [intros [= <-]; eauto|apply IH]. }
  assert (Hc : forall fuel o j, find_chain get_key fuel key len o t = Some j ->
    exists e, zget (ht_entries t) j = Some e /\ hentry_matches get_key key len e = true).
  { induction fuel as [|fuel IH]; intros [k|] j; try done. cbn. destruct (zget (ht_entries t) k) as [e|] eqn:E; [|done].
    destruct (hentry_matches get_key key len e) eqn:Em; [intros [= <-]; eauto|apply IH]. }
  destruct (find_bucket _ _ _ _ t) as [j|] eqn:E; [intros [= <-]; by apply (Hb _ _ E)|apply Hc].
Qed.

Lemma matches_spec (get_key : vr_flow_entry -> option (list Z)) key len e : 0 <= len -> hentry_matches get_key key len e = true ->
  has_flag VR_HENTRY_FLAG_VALID e = true /\ exists k, get_key (hentry_data e) = Some k /\ zlen k = len /\ k = take (Z.to_nat len) key.
Proof.
  intros Hl. unfold hentry_matches. rewrite andb_true_iff. intros [Hv Hk]. split; [done|].
  destruct (get_key (hentry_data e)) as [k|]; [|done]. exists k. split; [done|].
  apply andb_true_iff in Hk as [Hz%Z.eqb_eq Ht%bool_decide_eq_true]. split; [done|]. rewrite <- Ht. symmetry. apply take_ge.
  unfold zlen in Hz. lia.
Qed.

(** A new table of flows: no entry is in use, and all are zero. *)
Lemma create_table entries oentries oracle mem t :
  __vr_htable_create entries oentries 128 0 0 fe_zero false oracle mem = Some t ->
  0 < entries -> 0 <= oentries -> entries + 4 <= UINT_MAX ->
  table_ok t /\ entries <= ht_hentries t < entries + 4 /\ ht_oentries t = oentries /\
  forall i e, zget (ht_entries t) i = Some e -> hentry_data e = fe_zero /\ has_flag VR_HENTRY_FLAG_VALID e = false.
Proof.
  intros Hc He Ho Hm. unfold __vr_htable_create in Hc. destruct mem as [[[m1 m2] m3] m4].
  rewrite (proj2 (Z.eqb_neq entries 0)) in Hc by lia. cbn [Z.eqb orb] in Hc. destruct (negb _); [done|].
  cbv zeta in Hc. change VR_HENTRIES_PER_BUCKET with 4 in Hc. cbv iota in Hc. rewrite (u32_small (entries + 4 - 1)) in Hc by lia.
  pose proof (Z.div_mod (entries + 4 - 1) 4 ltac:(lia)) as Hdm. pose proof (Z.mod_pos_bound (entries + 4 - 1) 4 ltac:(lia)) as Hmb.
  set (q := (entries + 4 - 1) / 4) in *. rewrite (u32_small (q * 4)) in Hc by lia. injection Hc as Hc.
  assert (Hent : forall i e, zget (ht_entries t) i = Some e ->
    hentry_data e = fe_zero /\ has_flag VR_HENTRY_FLAG_VALID e = false).
  { intros i e. rewrite <- Hc. cbn [ht_entries]. rewrite new_entries by lia. repeat case_decide; intros; by simplify_eq. }
  split; [|split; [rewrite <- Hc; cbn [ht_hentries]; lia|split; [by rewrite <- Hc|done]]]. split; [rewrite <- Hc; by intros k Hk%not_elem_of_nil|].
  split; [|split; [|by rewrite <- Hc]].
  - rewrite <- Hc. do 2 eexists. apply new_wf; [lia|done|by exists 2|]. apply Z.mod_mul. lia.
  - intros i e _ Hi Hv. destruct (Hent i e Hi) as [_ E]. congruence.
Qed.

Lemma read_data i t : fs_read i t = data_at t i.
Proof. done. Qed.
End FlowTable.

#[export] Instance htable_flow_table_laws : FlowTableLaws flow_htable.
Proof.
  unshelve eapply (Build_FlowTableLaws flow_htable _ _ FlowTable.table_ok).
  - intros t i (_ & (free & chain & Hw) & _). cbn. rewrite <- (Htable.wf_len _ _ _ Hw). rewrite fmap_is_Some. split.
    + intros [e He]. by apply zget_range in He.
    + apply zget_is_Some.
  - intros t i (_ & (free & chain & Hw) & _). rewrite (FlowTable.valid_is_valid_at t i free chain Hw). unfold FlowTable.valid_at.
    destruct (zget _ i) as [e|] eqn:E; [|done]. intros _. apply zget_range in E. lia.
  - intros t i f (Hwk & (free & chain & Hw) & Hpl & Hks). cbn.
    set (g := fun e => Htable.with_hdata (f (Htable.hentry_data e)) e).
    destruct (Htable.upd_frame t i g) as (E1 & E2 & E3 & E4 & E5 & E6 & _). destruct (Htable.upd_work t i g) as [W1 W2].
    split; [|by rewrite E1, E2]. split; [apply (Htable.works_ok_same t); [done|done|by split; [done|split]|done]|]. split; [|split; [|by rewrite E3]].
    + exists free, chain. apply Htable.wf_upd; [done|]. intros e He. cbn. split; [done|]. split; [done|]. split; [|by auto].
      intros Hi. by apply (Htable.wf_main _ _ _ Hw i e).
    + apply (FlowTable.placed_kept t); [done| |by split; [done|split]].
      apply FlowTable.upd_home. intros e _ Hv. by split.
  - intros t key len Hok Hlen. change (ft_claim key len t) with (Htable.vr_htable_find_free_hentry key len t). pose proof (FlowTable.claim_table t key len Hok Hlen) as Hc.
    destruct (Htable.vr_htable_find_free_hentry key len t) as [o t']. destruct Hc as (Hok' & Hsz & Hsd & Hm).
    pose proof Hok as (_ & (free & chain & Hw) & _). pose proof Hok' as (_ & (free' & chain' & Hw') & _).
    split; [done|]. split; [done|]. split; [exact Hsd|]. destruct o as [i|].
    + destruct Hm as (Hi & Hvi & Hv). split; [lia|]. split; [by rewrite (FlowTable.valid_is_valid_at t i free chain)|]. split.
      * apply fmap_is_Some, zget_is_Some. rewrite (Htable.wf_len _ _ _ Hw). lia.
      * intros j. rewrite (FlowTable.valid_is_valid_at t' j free' chain'), (FlowTable.valid_is_valid_at t j free chain) by done. apply Hv.
    + intros j. rewrite (FlowTable.valid_is_valid_at t' j free' chain'), (FlowTable.valid_is_valid_at t j free chain) by done. apply Hm.
  - intros t i Hok. destruct (FlowTable.release_table t i Hok) as (Hok' & Hsz & Hsd & Hv).
    pose proof Hok as (_ & (free & chain & Hw) & _). pose proof Hok' as (_ & (free' & chain' & Hw') & _).
    split; [done|]. split; [done|]. split; [exact Hsd|]. intros j.
    rewrite (FlowTable.valid_is_valid_at _ j free' chain'), (FlowTable.valid_is_valid_at t j free chain) by done. apply Hv.
  - intros t b Hok. destruct (FlowTable.background_table t b Hok) as (Hok' & Hsz & Hsd & Hv).
    pose proof Hok as (_ & (free & chain & Hw) & _). pose proof Hok' as (_ & (free' & chain' & Hw') & _).
    split; [done|]. split; [done|]. split; [exact Hsd|]. intros j.
    rewrite (FlowTable.valid_is_valid_at _ j free' chain'), (FlowTable.valid_is_valid_at t j free chain) by done. apply Hv.
  - intros t key len i (_ & (free & chain & Hw) & _) Hlen Hf. cbn in Hf.
    destruct (FlowTable.find_sound vr_flow_get_key key len t i ltac:(lia) Hf) as (e & He & Hm).
    destruct (FlowTable.matches_spec vr_flow_get_key key len e ltac:(lia) Hm) as (Hv & k & Hk & Hz & Et). split.
    + rewrite (FlowTable.valid_is_valid_at t i free chain Hw). unfold FlowTable.valid_at. by rewrite He.
    + exists k. cbn. rewrite He. done.
Defined.
