(* ===== verification/VifBridge.v ===== *)
(** * Sub-interfaces by MAC address (dp-core/vr_vif_bridge.c)

    An interface with VLAN sub-interfaces that have a source address of their own finds them
    in a small hash table, by VLAN tag and address.  [SubTable] is what the interface module
    asks of such a table and [SubTableLaws] what it relies on: the table is a finite map from
    tag and address to a sub-interface.  The table of vr_vif_bridge.c is the instance. *)

From stdpp Require Import gmap.
From S2P Require Import Prelude Hash Htable HtableMap.

(** Sub-interfaces are named by their addresses in memory. *)
Class SubTable (T : Type) := {
  (** whether the router is not ready, and the answers of the host to requests for memory and
      to the coming requests of the table *)
  st_init : bool -> bool * bool * bool * bool -> list bool -> option T;
  st_get : T -> Z -> list Z -> option Z;
  st_add : Z -> list Z -> Z -> T -> Z * T;
  st_delete : Z -> list Z -> T -> Z * T;
  st_index : T -> Z -> list Z -> Z;
  (** a step of the work that the table has scheduled *)
  st_background : bool -> T -> T
}.

Definition vlan_ok (vlan : Z) : Prop := 0 <= vlan < 65536.
Definition mac_ok (mac : list Z) : Prop := length mac = 6%nat.

Class SubTableLaws (T : Type) `{SubTable T} := {
  st_rep : T -> gmap (Z * list Z) Z -> Prop;
  st_init_spec : forall not_ready oracle, exists t,
    st_init not_ready (true, true, true, true) oracle = Some t;
  st_init_rep : forall not_ready mem oracle t, st_init not_ready mem oracle = Some t -> st_rep t ∅;
  st_get_spec : forall t m vlan mac, st_rep t m -> vlan_ok vlan -> mac_ok mac ->
    st_get t vlan mac = m !! (vlan, mac);
  st_add_spec : forall t m vlan mac a, st_rep t m -> vlan_ok vlan -> mac_ok mac ->
    let '(ret, t') := st_add vlan mac a t in
    (ret = 0 /\ st_rep t' (<[(vlan, mac) := a]> m)) \/ (ret = - ENOMEM /\ m !! (vlan, mac) = None /\ st_rep t' m);
  st_delete_spec : forall t m vlan mac, st_rep t m -> vlan_ok vlan -> mac_ok mac ->
    let '(ret, t') := st_delete vlan mac t in
    if m !! (vlan, mac) then ret = 0 /\ st_rep t' (delete (vlan, mac) m) else ret = - ENOENT /\ t' = t;
  st_background_spec : forall t m b, st_rep t m -> st_rep (st_background b t) m
}.

Module VifBridge.
Import Htable HtableMap.

Definition VIF_BRIDGE_ENTRIES : Z := 1024.
Definition VIF_BRIDGE_OENTRIES : Z := 512.

(** [struct vif_bridge_entry] without the hash entry it starts with; the key is its first
    two fields. *)
Record vif_bridge_entry := mk_vbe {
  vbk_vlan : Z;
  vbk_mac : list Z;
  vbe_vif : option Z
}.

Definition vbe_zero : vif_bridge_entry := mk_vbe 0 (replicate 6 0) None.

(** The bytes of [struct vif_bridge_key]. *)
Definition vif_bridge_key (vlan : Z) (mac : list Z) : list Z := [u16 vlan mod 256; u16 vlan / 256] ++ take 6 mac.

Definition vif_bridge_get_key (be : vif_bridge_entry) : option (list Z) :=
  Some (vif_bridge_key (vbk_vlan be) (vbk_mac be)).

Abbreviation btable := (vr_htable vif_bridge_entry).

Definition vif_bridge_get (t : btable) (vlan : Z) (mac : list Z) : option Z :=
  vr_htable_find_hentry vif_bridge_get_key (vif_bridge_key vlan mac) 0 t.

Definition vif_bridge_get_sub_interface (t : btable) (vlan : Z) (mac : list Z) : option Z :=
  vbe ← vif_bridge_get t vlan mac; be ← data_at t vbe; vbe_vif be.

Definition vif_bridge_get_index (t : btable) (vlan : Z) (mac : list Z) : Z :=
  match vif_bridge_get t vlan mac with
  | Some i => from_option hentry_index (-1) (zget (ht_entries t) i)
  | None => -1
  end.

(** The call-back of [vr_htable_reset] has this form. *)
Definition vif_bridge_free (i : Z) (t : btable) (u : unit) : btable * unit :=
  (vr_htable_release_hentry i (upd i (with_hdata vbe_zero) t), u).

Definition vif_bridge_alloc (vlan : Z) (mac : list Z) (t : btable) : option Z * btable :=
  match vr_htable_find_free_hentry (vif_bridge_key vlan mac) 0 t with
  | (None, t1) => (None, t1)
  | (Some i, t1) =>
      let be := default vbe_zero (data_at t1 i) in
      (Some i, upd i (with_hdata (mk_vbe (u16 vlan) (take 6 mac) (vbe_vif be))) t1)
  end.

Definition vif_bridge_delete (vlan : Z) (mac : list Z) (t : btable) : Z * btable :=
  match vif_bridge_get t vlan mac with
  | None => (- ENOENT, t)
  | Some i => (0, (vif_bridge_free i t tt).1)
  end.

Definition vif_bridge_add (vlan : Z) (mac : list Z) (vif : Z) (t : btable) : Z * btable :=
  let '(be, t1) :=
    match vif_bridge_get t vlan mac with
    | Some i => (Some i, t)
    | None => vif_bridge_alloc vlan mac t
    end in
  match be with
  | None => (- ENOMEM, t1)
  | Some i =>
      let e := default vbe_zero (data_at t1 i) in
      (0, upd i (with_hdata (mk_vbe (vbk_vlan e) (vbk_mac e) (Some vif))) t1)
  end.

Definition vif_bridge_init (not_ready : bool) (mem : bool * bool * bool * bool) (oracle : list bool) : option btable :=
  __vr_htable_create VIF_BRIDGE_ENTRIES VIF_BRIDGE_OENTRIES 37 8 0 vbe_zero not_ready oracle mem.

(** The table is freed: what is left is the work that its reset has scheduled and the calls
    that wait for a grace period, by entry. *)
Definition vif_bridge_deinit (t : btable) : list Z * list Z :=
  let '(t1, _) := vr_htable_reset vif_bridge_free t tt in (ht_work t1, ht_deferred t1).

End VifBridge.

#[export] Instance btable_sub_table : SubTable (Htable.vr_htable VifBridge.vif_bridge_entry) := {
  st_init := VifBridge.vif_bridge_init;
  st_get := VifBridge.vif_bridge_get_sub_interface;
  st_add := VifBridge.vif_bridge_add;
  st_delete := VifBridge.vif_bridge_delete;
  st_index := VifBridge.vif_bridge_get_index;
  st_background b t := if b then Htable.vr_htable_hentry_scheduled_delete t else Htable.vr_htable_hentry_defer_delete t
}.

(** ** The table is a finite map *)

Module VifBridgeProofs.
Import Htable HtableMap VifBridge.
Implicit Types (t : btable) (m : gmap (Z * list Z) Z).

Lemma zlen_key vlan mac : mac_ok mac -> zlen (vif_bridge_key vlan mac) = 8.
Proof. unfold mac_ok, vif_bridge_key, zlen. intros Hm. rewrite length_app, length_take, Hm. done. Qed.

Lemma key_inj vlan mac vlan' mac' :
  vlan_ok vlan -> vlan_ok vlan' -> mac_ok mac -> mac_ok mac' ->
  vif_bridge_key vlan mac = vif_bridge_key vlan' mac' -> (vlan, mac) = (vlan', mac').
Proof.
  unfold vlan_ok, mac_ok, vif_bridge_key. intros Hv Hv' Hm Hm' He. cbn [app] in He.
  rewrite !u16_small, !take_ge in He by lia. injection He as H1 H2 ->. f_equal.
  rewrite (Z.div_mod vlan 256), (Z.div_mod vlan' 256) by done. congruence.
Qed.

Lemma own_key vlan mac a :
  vlan_ok vlan -> mac_ok mac -> vif_bridge_get_key (mk_vbe (u16 vlan) (take 6 mac) a) = Some (vif_bridge_key vlan mac).
Proof.
  unfold vif_bridge_get_key, vif_bridge_key, vlan_ok. intros Hv Hm. cbn. rewrite take_take. by rewrite !(u16_small vlan) by done.
Qed.

Lemma stored vlan mac a : vlan_ok vlan -> mac_ok mac -> mk_vbe (u16 vlan) (take 6 mac) a = mk_vbe vlan mac a.
Proof. unfold mac_ok. intros Hv Hm. by rewrite u16_small, take_ge by (done || lia). Qed.

(** The map of the hash table, and the map of sub-interfaces. *)
Record table_rep t m : Prop := {
  tr_size : ht_key_size t = 8;
  tr_map : exists h, rep vif_bridge_get_key t h /\
    (forall vlan mac, vlan_ok vlan -> mac_ok mac ->
      match h !! vif_bridge_key vlan mac with
      | Some be => m !! (vlan, mac) = vbe_vif be /\ be = mk_vbe vlan mac (vbe_vif be) /\ is_Some (vbe_vif be)
      | None => m !! (vlan, mac) = None
      end)
}.

Lemma find_rep t h vlan mac :
  rep vif_bridge_get_key t h -> ht_key_size t = 8 -> mac_ok mac ->
  h !! vif_bridge_key vlan mac = vif_bridge_get t vlan mac ≫= data_at t.
Proof. intros Hr Hs Hm. apply (rep_lookup _ _ _ Hr). by rewrite zlen_key. Qed.

Lemma found_data t h vlan mac i :
  rep vif_bridge_get_key t h -> vif_bridge_get t vlan mac = Some i -> exists be, data_at t i = Some be.
Proof.
  intros Hr Hf. destruct (find_match _ t _ i (rep_inv _ _ _ Hr) Hf) as (_ & e & He & _).
  exists (hentry_data e). unfold data_at. by rewrite He.
Qed.

Lemma sub_get_spec t m vlan mac : table_rep t m -> vlan_ok vlan -> mac_ok mac ->
  vif_bridge_get_sub_interface t vlan mac = m !! (vlan, mac).
Proof.
  intros [Hs (h & Hr & Hm)] Hv Hk. specialize (Hm vlan mac Hv Hk). pose proof (find_rep t h vlan mac Hr Hs Hk) as Hf.
  unfold vif_bridge_get_sub_interface. rewrite Hf in Hm.
  destruct (vif_bridge_get t vlan mac) as [i|] eqn:E; [|done]. cbn in *.
  destruct (found_data _ _ _ _ _ Hr E) as [be Hbe]. rewrite Hbe in *. by destruct Hm as [-> _].
Qed.

(** An entry for the key holds the tag and the address. *)
Lemma rep_store t t' h m vlan mac a :
  rep vif_bridge_get_key t' (<[vif_bridge_key vlan mac := mk_vbe vlan mac (Some a)]> h) ->
  ht_key_size t' = 8 -> vlan_ok vlan -> mac_ok mac ->
  (forall vlan mac, vlan_ok vlan -> mac_ok mac ->
     match h !! vif_bridge_key vlan mac with
     | Some be => m !! (vlan, mac) = vbe_vif be /\ be = mk_vbe vlan mac (vbe_vif be) /\ is_Some (vbe_vif be)
     | None => m !! (vlan, mac) = None
     end) ->
  table_rep t' (<[(vlan, mac) := a]> m).
Proof.
  intros Hr Hs Hv Hk Hm. split; [done|]. eexists. split; [exact Hr|]. intros vlan' mac' Hv' Hk'.
  destruct (decide ((vlan, mac) = (vlan', mac'))) as [[= <- <-]|Hne].
  - rewrite !lookup_insert_eq. by eauto.
  - rewrite !lookup_insert_ne; [by apply Hm|done|]. intros He. by apply Hne, key_inj.
Qed.

Lemma upd_twice t i (d d' : vif_bridge_entry) : upd i (with_hdata d') (upd i (with_hdata d) t) = upd i (with_hdata d') t.
Proof.
  unfold upd. destruct (zget (ht_entries t) i) as [e|] eqn:He; [|by rewrite He].
  cbn. rewrite zget_zset_eq by (by eapply zget_range). cbn. by rewrite zset_zset.
Qed.

Lemma sub_add_spec t m vlan mac a : table_rep t m -> vlan_ok vlan -> mac_ok mac ->
  let '(ret, t') := vif_bridge_add vlan mac a t in
  (ret = 0 /\ table_rep t' (<[(vlan, mac) := a]> m)) \/ (ret = - ENOMEM /\ m !! (vlan, mac) = None /\ table_rep t' m).
Proof.
  intros Ht Hv Hk. pose proof Ht as [Hs (h & Hr & Hm)]. pose proof (Hm vlan mac Hv Hk) as Hvm.
  rewrite (find_rep t h) in Hvm by done. unfold vif_bridge_add.
  destruct (vif_bridge_get t vlan mac) as [i|] eqn:E.
  - destruct (found_data _ _ _ _ _ Hr E) as [be Hbe]. cbn in Hvm. rewrite Hbe in *. cbn.
    destruct Hvm as (_ & -> & _). cbn [vbk_vlan vbk_mac]. left. split; [done|].
    apply (rep_store t _ h); try done; [|by destruct (upd_frame t i (with_hdata (mk_vbe vlan mac (Some a)))) as (_ & _ & -> & _)].
    apply rep_write; [done|by rewrite zlen_key|..|done].
    rewrite <- (stored vlan mac (Some a)) by done. by apply own_key.
  - cbn in Hvm. unfold vif_bridge_alloc.
    destruct (vr_htable_find_free_hentry (vif_bridge_key vlan mac) 0 t) as [[i|] t1] eqn:Ef.
    + left. split; [done|].
      destruct (find_free_same_data (vif_bridge_key vlan mac) 0 t i) as [].
      set (d1 := mk_vbe (u16 vlan) _ _).
      assert (Hi : exists e, zget (ht_entries t1) i = Some e).
      { pose proof (rep_insert _ t h _ d1 i t1 Hr ltac:(by rewrite zlen_key) ltac:(by apply own_key) E Ef) as Hr1.
        pose proof (rep_lookup _ _ _ Hr1 (vif_bridge_key vlan mac)) as Hl. rewrite lookup_insert_eq in Hl.
        destruct (insert_spec _ t _ d1 i t1 (rep_inv _ _ _ Hr) ltac:(by rewrite zlen_key) ltac:(by apply own_key) E Ef)
          as (_ & (_ & Hs1 & _) & Hd & _).
        unfold data_at in Hd. rewrite zget_upd, decide_True in Hd by done. destruct (zget (ht_entries t1) i); [by eexists|done]. }
      destruct Hi as [e He]. unfold data_at at 1 2. rewrite zget_upd, decide_True, He by done. cbn.
      rewrite upd_twice.
      destruct (insert_spec vif_bridge_get_key t (vif_bridge_key vlan mac) (mk_vbe (u16 vlan) (take 6 mac) (Some a)) i t1
        (rep_inv _ _ _ Hr) ltac:(by rewrite zlen_key) ltac:(by apply own_key) E Ef) as (_ & (_ & Hs1 & _) & _).
      apply (rep_store t _ h); try done; [|congruence]. rewrite <- (stored vlan mac (Some a)) by done.
      apply (rep_insert _ t); try done; [by rewrite zlen_key|by apply own_key].
    + right. rewrite (find_free_none _ _ _ _ Ef). done.
Qed.

Lemma sub_delete_spec t m vlan mac : table_rep t m -> vlan_ok vlan -> mac_ok mac ->
  let '(ret, t') := vif_bridge_delete vlan mac t in
  if m !! (vlan, mac) then ret = 0 /\ table_rep t' (delete (vlan, mac) m) else ret = - ENOENT /\ t' = t.
Proof.
  intros Ht Hv Hk. pose proof (sub_get_spec t m vlan mac Ht Hv Hk) as Hg. pose proof Ht as [Hs (h & Hr & Hm)].
  pose proof (Hm vlan mac Hv Hk) as Hvm. rewrite (find_rep t h) in Hvm by done.
  unfold vif_bridge_delete. destruct (vif_bridge_get t vlan mac) as [i|] eqn:E; [|by rewrite Hvm].
  cbn in Hvm. destruct (found_data _ _ _ _ _ Hr E) as [be Hbe]. rewrite Hbe in Hvm. destruct Hvm as (Hd & _ & [x Hx]).
  rewrite Hd, Hx. split; [done|]. unfold vif_bridge_free. cbn [fst].
  destruct (release_spec vif_bridge_get_key t (vif_bridge_key vlan mac) i vbe_zero (rep_inv _ _ _ Hr) E) as (_ & (_ & Hs' & _) & _).
  split; [congruence|]. exists (delete (vif_bridge_key vlan mac) h). split; [apply rep_release; try done; by rewrite zlen_key|].
  intros vlan' mac' Hv' Hk'. destruct (decide ((vlan, mac) = (vlan', mac'))) as [[= <- <-]|Hne].
  - by rewrite !lookup_delete_eq.
  - rewrite !lookup_delete_ne; [by apply Hm|done|]. intros He. by apply Hne, key_inj.
Qed.

Lemma sub_init_rep not_ready mem oracle t : vif_bridge_init not_ready mem oracle = Some t -> table_rep t ∅.
Proof.
  intros Hc. destruct (htable_create_spec vif_bridge_get_key VIF_BRIDGE_ENTRIES VIF_BRIDGE_OENTRIES 37 8 4 vbe_zero not_ready oracle)
    as (t' & Hc' & Hi & _ & _ & Hs & Hm); try (unfold VIF_BRIDGE_ENTRIES, VIF_BRIDGE_OENTRIES; lia); [by exists 2|].
  assert (t = t') as ->.
  { unfold vif_bridge_init, __vr_htable_create in *. destruct mem as [[[m1 m2] m3] m4].
    cbv beta iota zeta delta [VIF_BRIDGE_OENTRIES VIF_BRIDGE_ENTRIES VR_HENTRIES_PER_BUCKET Z.eqb Pos.eqb orb andb negb] in Hc, Hc'.
    destruct m1, m2, m3, m4; try done; congruence. }
  split; [done|]. exists ∅. split; [by apply rep_empty|]. intros vlan mac _ _. by rewrite !lookup_empty.
Qed.

Lemma sub_background_spec t m b : table_rep t m -> table_rep (st_background b t) m.
Proof.
  intros [Hs (h & Hr & Hm)]. destruct (rep_background _ t h Hr) as [R1 R2].
  assert (Hb : ht_key_size (st_background b t) = ht_key_size t).
  { destruct (background_spec vif_bridge_get_key t (vr_htable_hentry_scheduled_delete t) (rep_inv _ _ _ Hr) (or_introl eq_refl)) as (_ & ((_ & H1 & _) & _) & _).
    destruct (background_spec vif_bridge_get_key t (vr_htable_hentry_defer_delete t) (rep_inv _ _ _ Hr) (or_intror eq_refl)) as (_ & ((_ & H2 & _) & _) & _).
    by destruct b. }
  split; [congruence|]. exists h. split; [|done]. by destruct b.
Qed.

End VifBridgeProofs.

#[export] Instance btable_sub_table_laws : SubTableLaws (Htable.vr_htable VifBridge.vif_bridge_entry).
Proof.
  refine {| st_rep := VifBridgeProofs.table_rep |}.
  - intros not_ready oracle. eexists. reflexivity.
  - apply VifBridgeProofs.sub_init_rep.
  - apply VifBridgeProofs.sub_get_spec.
  - apply VifBridgeProofs.sub_add_spec.
  - apply VifBridgeProofs.sub_delete_spec.
  - apply VifBridgeProofs.sub_background_spec.
Defined.
