(* ===== verification/FatFlow.v ===== *)
(** * Fat flows (dp-core/vr_interface.c)

    The ports of an interface whose flows are merged: for each protocol a table of bitmaps
    of 1024 ports each, allocated when the first of its ports is set.  A request carries the
    whole list of ports; what is new is added, what is gone is deleted.

    A pointer to memory that has only this owner is [Null], [Live] with the contents, or
    [Freed]; using a pointer that is not live has no result. *)

From S2P Require Import Prelude Bits FlowEntry Fragment.

Module FatFlow.

Definition VIF_FAT_FLOW_NUM_BITMAPS : Z := 64.
Definition VIF_FAT_FLOW_BITMAP_SIZE : Z := 1024.
Definition VIF_FAT_FLOW_BITMAP_BYTES : Z := VIF_FAT_FLOW_BITMAP_SIZE / 8.
Definition VIF_FAT_FLOW_NOPROTO_INDEX : Z := 0.
Definition VIF_FAT_FLOW_TCP_INDEX : Z := 1.
Definition VIF_FAT_FLOW_UDP_INDEX : Z := 2.
Definition VIF_FAT_FLOW_SCTP_INDEX : Z := 3.
Definition VIF_FAT_FLOW_MAXPROTO_INDEX : Z := 4.
Definition VIF_FAT_FLOW_PORT (p_p : Z) : Z := Z.land p_p 65535.
Definition VIF_FAT_FLOW_PROTOCOL (p_p : Z) : Z := Z.land (Z.shiftr p_p 16) 255.

Inductive ptr (A : Type) := Null | Freed | Live (a : A).
Arguments Null {A}.
Arguments Freed {A}.
Arguments Live {A} a.

Definition is_null {A} (p : ptr A) : bool := match p with Null => true | _ => false end.
Definition deref {A} (p : ptr A) : option A := match p with Live a => Some a | _ => None end.

Abbreviation column := (list Z).
Abbreviation row := (list (ptr column)).

(** The fat flow part of [struct vr_interface], with the answers of the host to the coming
    requests for memory and deferral. *)
Record fat_vif := mk_fat {
  vif_fat_flow_ports : list (ptr row);
  vif_fat_flow_config : list (ptr (list Z));
  vif_fat_flow_config_size : list Z;
  ff_oracle : list bool
}.

Definition set_ports (p : list (ptr row)) (v : fat_vif) : fat_vif :=
  mk_fat p (vif_fat_flow_config v) (vif_fat_flow_config_size v) (ff_oracle v).
Definition set_config (c : list (ptr (list Z))) (sizes : list Z) (v : fat_vif) : fat_vif :=
  mk_fat (vif_fat_flow_ports v) c sizes (ff_oracle v).

(** A request to the host. *)
Definition ask (v : fat_vif) : bool * fat_vif :=
  (match ff_oracle v with [] => true | b :: _ => b end,
   mk_fat (vif_fat_flow_ports v) (vif_fat_flow_config v) (vif_fat_flow_config_size v) (tail (ff_oracle v))).

Definition vif_fat_flow_get_proto_index (proto : Z) : Z :=
  if proto =? VR_IP_PROTO_TCP then VIF_FAT_FLOW_TCP_INDEX
  else if proto =? VR_IP_PROTO_UDP then VIF_FAT_FLOW_UDP_INDEX
  else if proto =? VR_IP_PROTO_SCTP then VIF_FAT_FLOW_SCTP_INDEX
  else VIF_FAT_FLOW_NOPROTO_INDEX.

(** The [memcmp]s with zeroes: all of a column, and the first [VIF_FAT_FLOW_NUM_BITMAPS]
    bytes of a row, which has a pointer of eight bytes for each bitmap. *)
Definition column_is_zero (c : column) : bool := forallb (Z.eqb 0) c.
Definition row_is_zero (r : row) : bool := forallb is_null (take (Z.to_nat (VIF_FAT_FLOW_NUM_BITMAPS / 8)) r).

Definition __vif_fat_flow_try_free (proto_index port_row : Z) (v : fat_vif) : option fat_vif :=
  p ← zget (vif_fat_flow_ports v) proto_index;
  if is_null p then Some v
  else
    mem_row ← deref p;
    cp ← zget mem_row port_row;
    mem_column ← deref cp;
    if column_is_zero mem_column then
      let '(ok, v1) := ask v in
      if negb ok then Some v1
      else
        let mem_row1 := zset mem_row port_row Null in
        let v2 := set_ports (zset (vif_fat_flow_ports v1) proto_index (Live mem_row1)) v1 in
        if row_is_zero mem_row1 then
          let '(ok2, v3) := ask v2 in
          if negb ok2 then Some v3
          else Some (set_ports (zset (vif_fat_flow_ports v3) proto_index Null) v3)
        else Some v2
    else Some v.

Definition __vif_fat_flow_delete (proto_index port : Z) (v : fat_vif) : option (Z * fat_vif) :=
  p ← zget (vif_fat_flow_ports v) proto_index;
  if is_null p then Some (- EINVAL, v)
  else
    let port_row := port / VIF_FAT_FLOW_BITMAP_SIZE in
    r ← deref p;
    cp ← zget r port_row;
    if is_null cp then Some (- EINVAL, v)
    else
      c ← deref cp;
      let c1 := bit_clear c (port mod VIF_FAT_FLOW_BITMAP_SIZE) in
      let v1 := set_ports (zset (vif_fat_flow_ports v) proto_index (Live (zset r port_row (Live c1)))) v in
      v2 ← __vif_fat_flow_try_free proto_index port_row v1;
      Some (0, v2).

Definition vif_fat_flow_delete (proto port : Z) (v : fat_vif) : option (Z * fat_vif) :=
  __vif_fat_flow_delete (vif_fat_flow_get_proto_index proto) port v.

(** The row of a protocol, allocated when it is missing; the test that should find that
    the allocation failed is on the array and never true. *)
Definition fat_row (proto_index : Z) (v : fat_vif) : option (bool * fat_vif) :=
  p ← zget (vif_fat_flow_ports v) proto_index;
  if is_null p then
    let '(ok, v1) := ask v in
    let r := if ok then Live (replicate (Z.to_nat VIF_FAT_FLOW_NUM_BITMAPS) Null) else Null in
    Some (true, set_ports (zset (vif_fat_flow_ports v1) proto_index r) v1)
  else Some (false, v).

Definition __vif_fat_flow_add (proto port : Z) (v : fat_vif) : option (Z * fat_vif) :=
  let proto_index := vif_fat_flow_get_proto_index proto in
  '(alloced, v1) ← fat_row proto_index v;
  let port_row := port / VIF_FAT_FLOW_BITMAP_SIZE in
  p ← zget (vif_fat_flow_ports v1) proto_index;
  r ← deref p;
  cp ← zget r port_row;
  let set_bit (c : column) (v : fat_vif) : option (Z * fat_vif) :=
    Some (0, set_ports (zset (vif_fat_flow_ports v) proto_index
               (Live (zset r port_row (Live (bit_set c (port mod VIF_FAT_FLOW_BITMAP_SIZE)))))) v) in
  if is_null cp then
    let '(ok, v2) := ask v1 in
    if ok then set_bit (replicate (Z.to_nat VIF_FAT_FLOW_BITMAP_BYTES) 0) v2
    else if (alloced : bool) then Some (- ENOMEM, set_ports (zset (vif_fat_flow_ports v2) proto_index Freed) v2)
    else None
  else
    c ← deref cp;
    set_bit c v1.

(** ** The request *)

(** The protocol index of an element of the request, and its port: for a protocol without
    ports the protocol itself. *)
Definition elem_index (pp : Z) : Z := vif_fat_flow_get_proto_index (VIF_FAT_FLOW_PROTOCOL pp).
Definition elem_port (pp : Z) : Z :=
  if elem_index pp =? VIF_FAT_FLOW_NOPROTO_INDEX then VIF_FAT_FLOW_PROTOCOL pp else VIF_FAT_FLOW_PORT pp.

Definition sizes_zero : list Z := replicate (Z.to_nat VIF_FAT_FLOW_MAXPROTO_INDEX) 0.

Definition count_sizes (req : list Z) : list Z :=
  foldl (fun sizes pp => let i := elem_index pp in zset sizes i (u16 (default 0 (zget sizes i) + 1))) sizes_zero req.

(** The arrays that hold the ports; the sizes are reset to be used as positions. *)
Fixpoint alloc_config (idx : list Z) (v : fat_vif) : Z * fat_vif :=
  match idx with
  | [] => (0, v)
  | i :: idx' =>
      let n := default 0 (zget (vif_fat_flow_config_size v) i) in
      if n =? 0 then alloc_config idx' v
      else
        let '(ok, v1) := ask v in
        if ok then
          alloc_config idx' (set_config (zset (vif_fat_flow_config v1) i (Live (replicate (Z.to_nat n) 0)))
                               (zset (vif_fat_flow_config_size v1) i 0) v1)
        else (- ENOMEM, v1)
  end.

(** The port is stored at the next position of its protocol. *)
Definition store_port (i port : Z) (v : fat_vif) : option fat_vif :=
  p ← zget (vif_fat_flow_config v) i;
  if is_null p then Some v
  else
    arr ← deref p;
    n ← zget (vif_fat_flow_config_size v) i;
    if n <? zlen arr then
      Some (set_config (zset (vif_fat_flow_config v) i (Live (zset arr n port)))
              (zset (vif_fat_flow_config_size v) i (u16 (n + 1))) v)
    else None.

(** The first [n] elements of an old array: the first that is [port] is struck out. *)
Fixpoint strike (port : Z) (arr : list Z) : bool * list Z :=
  match arr with
  | [] => (false, [])
  | x :: arr' => if x =? port then (true, 0 :: arr') else let '(b, arr1) := strike port arr' in (b, x :: arr1)
  end.

Abbreviation old_config := (list (ptr (list Z))).

(** [old] and [old_sizes] are the copies of the configuration that the request replaces. *)
Definition strike_old (i port : Z) (old_sizes : list Z) (old : old_config) : option (bool * old_config) :=
  n ← zget old_sizes i;
  if n =? 0 then Some (false, old)
  else
    p ← zget old i;
    arr ← deref p;
    let '(found, arr1) := strike port (take (Z.to_nat n) arr) in
    Some (found, zset old i (Live (arr1 ++ drop (Z.to_nat n) arr))).

Fixpoint add_ports (req : list Z) (old_sizes : list Z) (old : old_config) (v : fat_vif)
    : option (Z * old_config * fat_vif) :=
  match req with
  | [] => Some (0, old, v)
  | pp :: req' =>
      v1 ← store_port (elem_index pp) (elem_port pp) v;
      '(found, old1) ← strike_old (elem_index pp) (elem_port pp) old_sizes old;
      if found : bool then add_ports req' old_sizes old1 v1
      else
        '(ret, v2) ← __vif_fat_flow_add (VIF_FAT_FLOW_PROTOCOL pp) (elem_port pp) v1;
        if ret =? 0 then add_ports req' old_sizes old1 v2 else Some (ret, old1, v2)
  end.

Fixpoint delete_ports (i : Z) (ports : list Z) (v : fat_vif) : option fat_vif :=
  match ports with
  | [] => Some v
  | p :: ports' =>
      if p =? 0 then delete_ports i ports' v
      else '(_, v1) ← __vif_fat_flow_delete i p v; delete_ports i ports' v1
  end.

(** What the old configuration still has is deleted. *)
Fixpoint delete_old (idx : list Z) (old_sizes : list Z) (old : old_config) (v : fat_vif) : option fat_vif :=
  match idx with
  | [] => Some v
  | i :: idx' =>
      n ← zget old_sizes i;
      p ← zget old i;
      v1 ← (if (n =? 0) || is_null p then Some v
            else arr ← deref p; delete_ports i (take (Z.to_nat n) arr) v);
      delete_old idx' old_sizes old v1
  end.

Definition protos : list Z := seqZ 0 VIF_FAT_FLOW_MAXPROTO_INDEX.

(** [req] is the array of the request, [size] its length. *)
Definition vif_fat_flow_add (size : Z) (req : option (list Z)) (v : fat_vif) : option (Z * fat_vif) :=
  if (size =? 0) && bool_decide (vif_fat_flow_config_size v = sizes_zero) then Some (0, v)
  else if negb (size =? 0) && bool_decide (req = None) then Some (- EINVAL, v)
  else
    let req := take (Z.to_nat size) (default [] req) in
    let old_sizes := vif_fat_flow_config_size v in
    let old := vif_fat_flow_config v in
    let v1 := set_config (replicate (Z.to_nat VIF_FAT_FLOW_MAXPROTO_INDEX) Null) (count_sizes req) v in
    let '(ret, v2) := alloc_config protos v1 in
    if negb (ret =? 0) then Some (ret, v2)
    else
      '(ret, old1, v3) ← add_ports req old_sizes old v2;
      if negb (ret =? 0) then Some (ret, v3)
      else
        v4 ← delete_old protos old_sizes old1 v3;
        Some (0, v4).

(** ** Look-up *)

Definition vif_fat_flow_port_is_set (v : fat_vif) (proto_index port : Z) : option bool :=
  p ← zget (vif_fat_flow_ports v) proto_index;
  if is_null p then Some false
  else
    r ← deref p;
    cp ← zget r (port / VIF_FAT_FLOW_BITMAP_SIZE);
    if is_null cp then Some false
    else c ← deref cp; Some (bit_test c (port mod VIF_FAT_FLOW_BITMAP_SIZE)).

Inductive fat_flow_port_mask := NO_PORT_MASK | SOURCE_PORT_MASK | DESTINATION_PORT_MASK | ALL_PORT_MASK.

Definition vif_fat_flow_lookup (v : fat_vif) (proto sport dport : Z) : option fat_flow_port_mask :=
  let proto_index := vif_fat_flow_get_proto_index proto in
  c ← zget (vif_fat_flow_config v) proto_index;
  if is_null c then Some NO_PORT_MASK
  else
    let '(h_sport, h_dport) :=
      if proto_index =? VIF_FAT_FLOW_NOPROTO_INDEX then (proto, proto)
      else (Fragment.ntohs sport, Fragment.ntohs dport) in
    sport_set ← vif_fat_flow_port_is_set v proto_index h_sport;
    dport_set ← vif_fat_flow_port_is_set v proto_index h_dport;
    Some (if sport_set : bool then
            if dport_set : bool then
              if proto_index =? VIF_FAT_FLOW_NOPROTO_INDEX then ALL_PORT_MASK
              else if h_dport <=? h_sport then SOURCE_PORT_MASK
              else DESTINATION_PORT_MASK
            else DESTINATION_PORT_MASK
          else if dport_set : bool then SOURCE_PORT_MASK
          else NO_PORT_MASK).

Definition fat_vif0 : fat_vif :=
  mk_fat (replicate (Z.to_nat VIF_FAT_FLOW_MAXPROTO_INDEX) Null) (replicate (Z.to_nat VIF_FAT_FLOW_MAXPROTO_INDEX) Null)
    sizes_zero [].

End FatFlow.
