(* ===== verification/FatFlowProofs.v ===== *)
(** * Fat flows: the table is the set of the configured ports

    A request leaves exactly its own ports set, whatever was set before, as long as it has
    no port twice, no port zero, and all ports are in the first eight bitmaps; the examples
    show what happens otherwise. *)

From S2P Require Import Prelude Bits FlowEntry Fragment FatFlow.

Module FatFlowProofs.
Import FatFlow.

(** ** The table of ports *)

Definition col_ok (p : ptr column) : Prop :=
  p = Null \/ exists c, p = Live c /\ zlen c = 128.
Definition row_ok (p : ptr row) : Prop :=
  p = Null \/ exists r, p = Live r /\ zlen r = 64 /\ forall k cp, zget r k = Some cp -> col_ok cp.
Definition ports_ok (ps : list (ptr row)) : Prop :=
  zlen ps = 4 /\ forall i p, zget ps i = Some p -> row_ok p.

Definition col_test (p : ptr column) (n : Z) : bool := match p with Live c => bit_test c n | _ => false end.
Definition row_test (p : ptr row) (q : Z) : bool :=
  match p with Live r => col_test (default Null (zget r (q / 1024))) (q mod 1024) | _ => false end.
Definition is_in (ps : list (ptr row)) (i q : Z) : bool := row_test (default Null (zget ps i)) q.

Lemma port_row q : 0 <= q < 65536 -> 0 <= q / 1024 < 64 /\ 0 <= q mod 1024 < 1024.
Proof.
  intros. split; [split; [apply Z.div_pos; lia|apply Z.div_lt_upper_bound; lia]|].
  apply Z.mod_pos_bound. lia.
Qed.

Lemma row_cell r k : zlen r = 64 -> (forall k cp, zget r k = Some cp -> col_ok cp) -> 0 <= k < 64 ->
  exists cp, zget r k = Some cp /\ col_ok cp.
Proof. intros Hl Hc Hk. destruct (zget_is_Some r k) as [cp Hcp]; [lia|]. eauto. Qed.

Lemma ports_cell ps i : ports_ok ps -> 0 <= i < 4 -> exists p, zget ps i = Some p /\ row_ok p.
Proof. intros [Hl Hr] Hi. destruct (zget_is_Some ps i) as [p Hp]; [lia|]. eauto. Qed.

(** The function of the source computes [is_in]. *)
Lemma port_is_set_spec v i q :
  ports_ok (vif_fat_flow_ports v) -> 0 <= i < 4 -> 0 <= q < 65536 ->
  vif_fat_flow_port_is_set v i q = Some (is_in (vif_fat_flow_ports v) i q).
Proof.
  intros Hok Hi Hq. unfold vif_fat_flow_port_is_set, is_in, VIF_FAT_FLOW_BITMAP_SIZE.
  destruct (ports_cell _ i Hok Hi) as (p & -> & [->|(r & -> & Hl & Hc)]); [done|]. cbn.
  destruct (row_cell r (q / 1024) Hl Hc) as (cp & -> & [->|(c & -> & _)]); [by apply port_row|done|done].
Qed.

Lemma ports_ok_set ps i p : ports_ok ps -> row_ok p -> ports_ok (zset ps i p).
Proof.
  intros [Hl Hr] Hp. split; [by rewrite zlen_zset|]. intros j pj. rewrite zget_zset. case_decide; [|by apply Hr].
  by intros [= <-].
Qed.

Lemma row_ok_set r k cp : zlen r = 64 -> (forall k cp, zget r k = Some cp -> col_ok cp) -> col_ok cp ->
  row_ok (Live (zset r k cp)).
Proof.
  intros Hl Hc Hcp. right. exists (zset r k cp). split; [done|]. split; [by rewrite zlen_zset|].
  intros j c. rewrite zget_zset. case_decide; [|by apply Hc]. by intros [= <-].
Qed.

Lemma is_in_set ps i p j q :
  zlen ps = 4 -> 0 <= i < 4 -> is_in (zset ps i p) j q = if decide (i = j) then row_test p q else is_in ps j q.
Proof.
  intros Hl Hi. unfold is_in. rewrite zget_zset. destruct (decide (i = j)) as [->|Hne].
  - by rewrite decide_True by (split; [done|lia]).
  - rewrite decide_False by naive_solver. done.
Qed.

Lemma row_test_set r k cp q :
  zlen r = 64 -> 0 <= k < 64 ->
  row_test (Live (zset r k cp)) q = if decide (k = q / 1024) then col_test cp (q mod 1024) else row_test (Live r) q.
Proof.
  intros Hl Hk. unfold row_test. rewrite zget_zset. destruct (decide (k = q / 1024)) as [<-|Hne].
  - by rewrite decide_True by (split; [done|lia]).
  - rewrite decide_False by naive_solver. done.
Qed.

Lemma same_port q p : q / 1024 = p / 1024 -> (q mod 1024 =? p mod 1024) = (q =? p).
Proof.
  intros E. pose proof (Z.div_mod q 1024). pose proof (Z.div_mod p 1024).
  destruct (Z.eqb_spec (q mod 1024) (p mod 1024)), (Z.eqb_spec q p); try done; exfalso; subst; lia.
Qed.

Lemma row_set_bit r p c q :
  zlen r = 64 -> 0 <= p < 65536 -> 0 <= q < 65536 -> zlen c = 128 ->
  (forall n, 0 <= n -> bit_test c n = col_test (default Null (zget r (p / 1024))) n) ->
  row_test (Live (zset r (p / 1024) (Live (bit_set c (p mod 1024))))) q = (q =? p) || row_test (Live r) q.
Proof.
  intros Hl Hp Hq Hc Hsame. destruct (port_row p Hp), (port_row q Hq). rewrite row_test_set by lia.
  case_decide as Hk.
  - cbn [col_test]. rewrite bit_test_set by lia. rewrite same_port by done. cbn [row_test].
    rewrite <- Hk, <- Hsame by lia. done.
  - destruct (Z.eqb_spec q p); [by subst|done].
Qed.

Lemma row_clear_bit r p c q :
  zlen r = 64 -> 0 <= p < 65536 -> 0 <= q < 65536 -> zlen c = 128 -> zget r (p / 1024) = Some (Live c) ->
  row_test (Live (zset r (p / 1024) (Live (bit_clear c (p mod 1024))))) q = negb (q =? p) && row_test (Live r) q.
Proof.
  intros Hl Hp Hq Hc Hrp. destruct (port_row p Hp), (port_row q Hq). rewrite row_test_set by lia.
  case_decide as Hk.
  - cbn [col_test]. rewrite bit_test_clear by lia. rewrite same_port by done. cbn [row_test].
    rewrite <- Hk, Hrp. done.
  - destruct (Z.eqb_spec q p); [by subst|done].
Qed.

Lemma column_zero c n : column_is_zero c = true -> bit_test c n = false.
Proof.
  intros Hz. rewrite bit_test_testbit. destruct (zget c (n / 8)) as [b|] eqn:E; cbn; [|apply Z.bits_0].
  unfold column_is_zero in Hz. rewrite forallb_forall in Hz. unfold zget in E. case_decide; [|done].
  apply list_elem_of_lookup_2, list_elem_of_In, Hz, Z.eqb_eq in E. subst. apply Z.bits_0.
Qed.

Lemma row_zero r q : row_is_zero r = true -> 0 <= q < 8192 -> row_test (Live r) q = false.
Proof.
  intros Hz Hq. unfold row_test. assert (Hd : 0 <= q / 1024 < 8).
  { split; [apply Z.div_pos; lia|apply Z.div_lt_upper_bound; lia]. }
  destruct (zget r (q / 1024)) as [cp|] eqn:E; [|done]. cbn. unfold row_is_zero in Hz.
  change (Z.to_nat (VIF_FAT_FLOW_NUM_BITMAPS / 8)) with 8%nat in Hz. rewrite forallb_forall in Hz.
  assert (Hn : is_null cp = true).
  { apply Hz, list_elem_of_In, (list_elem_of_lookup_2 _ (Z.to_nat (q / 1024))).
    rewrite lookup_take_lt by lia. unfold zget in E. by case_decide. }
  by destruct cp.
Qed.

(** ** One port *)

Definition ready (v : fat_vif) : Prop := ports_ok (vif_fat_flow_ports v) /\ ff_oracle v = [].

(** The parts that setting and clearing ports leave alone. *)
Definition same_config (v v' : fat_vif) : Prop :=
  vif_fat_flow_config v' = vif_fat_flow_config v /\ vif_fat_flow_config_size v' = vif_fat_flow_config_size v.

Lemma ask_ready v : ff_oracle v = [] -> ask v = (true, v).
Proof. destruct v. cbn. by intros ->. Qed.

Lemma proto_index_range proto : 0 <= vif_fat_flow_get_proto_index proto < 4.
Proof. unfold vif_fat_flow_get_proto_index. repeat case_match; cbv; by split. Qed.

Lemma zget_set_same (ps : list (ptr row)) i p : zlen ps = 4 -> 0 <= i < 4 -> zget (zset ps i p) i = Some p.
Proof. intros. apply zget_zset_eq. lia. Qed.

Lemma null_row : zlen (replicate 64 (@Null column)) = 64 /\
  (forall k cp, zget (replicate 64 (@Null column)) k = Some cp -> col_ok cp) /\
  forall q, row_test (Live (replicate 64 (@Null column))) q = false.
Proof.
  split; [done|]. split.
  - intros k cp Hk. apply zget_range in Hk as Hk'. change (0 <= k < 64) in Hk'.
    rewrite (zget_replicate 64 _ k ltac:(lia)) in Hk. injection Hk as <-. by left.
  - intros q. unfold row_test. by rewrite zget_replicate_default.
Qed.

Lemma fat_row_spec i v :
  ready v -> 0 <= i < 4 ->
  exists al v1 r, fat_row i v = Some (al, v1) /\ zget (vif_fat_flow_ports v1) i = Some (Live r) /\
    zlen r = 64 /\ (forall k cp, zget r k = Some cp -> col_ok cp) /\
    (forall q, row_test (Live r) q = is_in (vif_fat_flow_ports v) i q) /\ ready v1 /\ same_config v v1 /\
    forall j, j <> i -> zget (vif_fat_flow_ports v1) j = zget (vif_fat_flow_ports v) j.
Proof.
  intros [Hok Ho] Hi. unfold fat_row, is_in. destruct null_row as (N1 & N2 & N3).
  destruct (ports_cell _ i Hok Hi) as (pp & Hpp & Hrow). rewrite Hpp. cbn [mbind option_bind default from_option].
  destruct Hrow as [->|(r & -> & Hl & Hc)]; cbn [is_null].
  - unfold ask. rewrite Ho. cbn [tail]. change (Z.to_nat VIF_FAT_FLOW_NUM_BITMAPS) with 64%nat.
    eexists _, _, _. split; [done|]. cbn [vif_fat_flow_ports set_ports].
    split; [apply zget_set_same; [apply Hok|done]|]. split; [done|]. split; [done|]. split; [done|]. split.
    + split; [|done]. apply ports_ok_set; [done|]. right. eauto.
    + split; [done|]. intros j Hj. by apply zget_zset_ne.
  - by exists false, v, r.
Qed.

Lemma add_port_spec proto p v :
  ready v -> 0 <= p < 65536 -> let i := vif_fat_flow_get_proto_index proto in
  exists v', __vif_fat_flow_add proto p v = Some (0, v') /\ ready v' /\ same_config v v' /\
    forall j q, 0 <= q < 65536 -> is_in (vif_fat_flow_ports v') j q =
      bool_decide (j = i /\ q = p) || is_in (vif_fat_flow_ports v) j q.
Proof.
  intros Hready Hp i. pose proof (proto_index_range proto) as Hi. fold i in Hi.
  unfold __vif_fat_flow_add. fold i. destruct (port_row p Hp) as [Hrow' Hmod].
  destruct (fat_row_spec i v Hready Hi) as (al & v1 & r & -> & Hz1 & Hlr & Hcr & Htr & [Hok1 Ho1] & Hcfg1 & Hother).
  cbn [mbind option_bind]. rewrite Hz1. cbn [mbind option_bind deref].
  change VIF_FAT_FLOW_BITMAP_SIZE with 1024.
  destruct (row_cell r (p / 1024) Hlr Hcr) as (cp & Hcp & Hcok); [done|]. rewrite Hcp. cbn [mbind option_bind].
  assert (Hfin : forall c v2, ports_ok (vif_fat_flow_ports v2) -> ff_oracle v2 = [] -> vif_fat_flow_ports v2 = vif_fat_flow_ports v1 ->
      same_config v1 v2 -> zlen c = 128 -> (forall n, 0 <= n -> bit_test c n = col_test cp n) ->
      exists v', Some (0, set_ports (zset (vif_fat_flow_ports v2) i (Live (zset r (p / 1024) (Live (bit_set c (p mod 1024)))))) v2)
        = Some (0, v') /\ ready v' /\ same_config v v' /\
      forall j q, 0 <= q < 65536 -> is_in (vif_fat_flow_ports v') j q =
        bool_decide (j = i /\ q = p) || is_in (vif_fat_flow_ports v) j q).
  { intros c v2 Hok2 Ho2 Hp2 Hcfg2 Hlc Hbits. eexists. split; [done|]. split.
    - split; [|done]. cbn. apply ports_ok_set; [done|]. apply row_ok_set; [done|done|].
      right. exists (bit_set c (p mod 1024)). by rewrite zlen_bit_set.
    - split; [destruct Hcfg1, Hcfg2; split; cbn; congruence|]. intros j q Hq. cbn [vif_fat_flow_ports set_ports].
      rewrite is_in_set by (done || apply Hok2). destruct (decide (i = j)) as [<-|Hne].
      + rewrite row_set_bit by (done || (rewrite Hcp; cbn; done)). rewrite Htr. f_equal.
        destruct (Z.eqb_spec q p); [by rewrite bool_decide_true|rewrite bool_decide_false; naive_solver].
      + rewrite bool_decide_false by naive_solver. rewrite Hp2. unfold is_in. rewrite Hother by congruence. done. }
  destruct Hcok as [->|(c & -> & Hlc)]; cbn [is_null].
  - unfold ask. rewrite Ho1. cbn [tail]. change (Z.to_nat VIF_FAT_FLOW_BITMAP_BYTES) with 128%nat.
    eapply Hfin; [done..|]. intros n Hn. apply bit_test_zero.
  - cbn [deref mbind option_bind]. eapply Hfin; done.
Qed.

Definition in_first (v : fat_vif) (i : Z) : Prop :=
  forall q, 8192 <= q < 65536 -> is_in (vif_fat_flow_ports v) i q = false.

Lemma delete_port_spec i p v :
  ready v -> 0 <= i < 4 -> 0 <= p < 65536 -> in_first v i ->
  exists ret v', __vif_fat_flow_delete i p v = Some (ret, v') /\ ready v' /\ same_config v v' /\
    forall j q, 0 <= q < 65536 -> is_in (vif_fat_flow_ports v') j q =
      negb (bool_decide (j = i /\ q = p)) && is_in (vif_fat_flow_ports v) j q.
Proof.
  intros [Hok Ho] Hi Hp Hfirst. unfold __vif_fat_flow_delete.
  destruct (ports_cell _ i Hok Hi) as (pp & Hpp & Hrow). rewrite Hpp. cbn [mbind option_bind].
  destruct (port_row p Hp) as [Hrow' Hmod].
  assert (Hnone : is_in (vif_fat_flow_ports v) i p = false ->
    forall j q, 0 <= q < 65536 -> is_in (vif_fat_flow_ports v) j q =
      negb (bool_decide (j = i /\ q = p)) && is_in (vif_fat_flow_ports v) j q).
  { intros Hn j q Hq. destruct (bool_decide_reflect (j = i /\ q = p)) as [[-> ->]|]; cbn; [done|done]. }
  destruct Hrow as [->|(r & -> & Hl & Hc)]; cbn [is_null].
  { exists (- EINVAL), v. split; [done|]. split; [done|]. split; [done|]. apply Hnone. unfold is_in. by rewrite Hpp. }
  cbn [deref mbind option_bind]. change VIF_FAT_FLOW_BITMAP_SIZE with 1024.
  destruct (row_cell r (p / 1024) Hl Hc) as (cp & Hcp & Hcok); [done|]. rewrite Hcp. cbn [mbind option_bind].
  destruct Hcok as [->|(c & -> & Hlc)]; cbn [is_null].
  { exists (- EINVAL), v. split; [done|]. split; [done|]. split; [done|]. apply Hnone. unfold is_in. rewrite Hpp. cbn. by rewrite Hcp. }
  cbn [deref mbind option_bind]. set (c1 := bit_clear c (p mod 1024)). set (r1 := zset r (p / 1024) (Live c1)).
  assert (Hr1 : zlen r1 = 64) by (unfold r1; by rewrite zlen_zset).
  assert (Hc1 : forall k cp, zget r1 k = Some cp -> col_ok cp).
  { intros k cp. unfold r1. rewrite zget_zset. case_decide; [|by apply Hc]. intros [= <-]. right. exists c1.
    unfold c1. by rewrite zlen_bit_clear. }
  unfold __vif_fat_flow_try_free. cbn [vif_fat_flow_ports set_ports]. rewrite zget_set_same by (done || apply Hok).
  cbn [mbind option_bind is_null deref]. replace (zget r1 (p / 1024)) with (Some (Live c1)) by (unfold r1; symmetry; apply zget_zset_eq; lia).
  cbn [mbind option_bind deref].
  (* what the possible final rows have in common *)
  assert (Hrt : forall q, 0 <= q < 65536 -> row_test (Live r1) q = negb (q =? p) && is_in (vif_fat_flow_ports v) i q).
  { intros q Hq. unfold r1, c1. rewrite row_clear_bit by done. unfold is_in. by rewrite Hpp. }
  assert (Hfin : forall v' pr, vif_fat_flow_ports v' = zset (vif_fat_flow_ports v) i pr -> ff_oracle v' = [] -> same_config v v' ->
      row_ok pr -> (forall q, 0 <= q < 65536 -> row_test pr q = row_test (Live r1) q) ->
      exists ret v'', Some (0, v') = Some (ret, v'') /\ ready v'' /\ same_config v v'' /\
      forall j q, 0 <= q < 65536 -> is_in (vif_fat_flow_ports v'') j q =
        negb (bool_decide (j = i /\ q = p)) && is_in (vif_fat_flow_ports v) j q).
  { intros v' pr Hv' Ho' Hcfg Hpr Ht. exists 0, v'. split; [done|]. split; [split; [|done]; rewrite Hv'; by apply ports_ok_set|].
    split; [done|]. intros j q Hq. rewrite Hv', is_in_set by (done || apply Hok). destruct (decide (i = j)) as [<-|Hne].
    - rewrite Ht, Hrt by done. f_equal. f_equal. destruct (Z.eqb_spec q p); [by rewrite bool_decide_true|rewrite bool_decide_false; naive_solver].
    - by rewrite bool_decide_false by naive_solver. }
  destruct (column_is_zero c1) eqn:Hz.
  2: { cbn [mbind option_bind]. eapply Hfin; [done|done|done|apply row_ok_set|done]; try done. right. exists c1. unfold c1. by rewrite zlen_bit_clear. }
  unfold ask. cbn [ff_oracle set_ports]. rewrite Ho. cbn [negb tail vif_fat_flow_ports set_ports].
  set (r2 := zset r1 (p / 1024) Null).
  assert (Hr2 : forall q, 0 <= q < 65536 -> row_test (Live r2) q = row_test (Live r1) q).
  { intros q Hq. unfold r2. rewrite row_test_set by lia. case_decide as Hk; [|done]. cbn [col_test]. symmetry.
    unfold row_test. rewrite <- Hk. unfold r1. rewrite zget_zset_eq by lia. cbn. by apply column_zero. }
  assert (Hok2 : row_ok (Live r2)) by (apply row_ok_set; [done|done|by left]).
  rewrite !zset_zset. destruct (row_is_zero r2) eqn:Hz2; cbn [mbind option_bind].
  2: { eapply Hfin; try done. }
  eapply (Hfin _ Null); try done.
  - by left.
  - intros q Hq. change (row_test Null q) with false. symmetry. rewrite <- Hr2 by done. destruct (decide (q < 8192)); [apply row_zero; [done|lia]|].
    rewrite Hr2, Hrt, Hfirst by lia. apply andb_false_r.
Qed.

(** ** A whole request *)

(** The ports of a request for one protocol index. *)
Definition ports_of (i : Z) (req : list Z) : list Z := elem_port <$> filter (fun pp => elem_index pp = i) req.

Definition good (l : list Z) : Prop := NoDup l /\ forall p, p ∈ l -> 0 < p < 8192.

(** No array is kept for no ports. *)
Definition live_or_null (l a : list Z) : ptr (list Z) := match l with [] => Null | _ => Live a end.

Lemma live_cons l a : l <> [] -> live_or_null l a = Live a.
Proof. by destruct l. Qed.

(** The configuration is [cfg], and these ports are the ones that are set. *)
Record fat_ok (v : fat_vif) (cfg : Z -> list Z) : Prop := {
  fo_ready : ready v;
  fo_len : zlen (vif_fat_flow_config v) = 4 /\ zlen (vif_fat_flow_config_size v) = 4;
  fo_size : forall i, 0 <= i < 4 -> zget (vif_fat_flow_config_size v) i = Some (zlen (cfg i));
  fo_cfg : forall i, 0 <= i < 4 ->
    zget (vif_fat_flow_config v) i = Some (live_or_null (cfg i) (cfg i));
  fo_set : forall i q, 0 <= i < 4 -> 0 <= q < 65536 ->
    is_in (vif_fat_flow_ports v) i q = bool_decide (q ∈ cfg i)
}.

Lemma elem_index_range pp : 0 <= elem_index pp < 4.
Proof. apply proto_index_range. Qed.

Lemma ports_of_cons i pp req :
  ports_of i (pp :: req) = if decide (elem_index pp = i) then elem_port pp :: ports_of i req else ports_of i req.
Proof. unfold ports_of. rewrite filter_cons. by case_decide. Qed.

Lemma zlen_cons {A} (x : A) l : zlen (x :: l) = zlen l + 1.
Proof. unfold zlen. cbn [length]. lia. Qed.

Lemma zlen_ports_of i req : 0 <= zlen (ports_of i req) <= zlen req.
Proof.
  unfold zlen, ports_of. rewrite length_fmap.
  pose proof (length_filter (fun pp => elem_index pp = i) req). lia.
Qed.

Lemma count_sizes_from req sizes i :
  zlen sizes = 4 -> 0 <= i < 4 ->
  let out := foldl (fun sizes pp => let i := elem_index pp in zset sizes i (u16 (default 0 (zget sizes i) + 1))) sizes req in
  zlen out = 4 /\ (forall n, zget sizes i = Some n -> 0 <= n -> n + zlen (ports_of i req) < 65536 ->
    zget out i = Some (n + zlen (ports_of i req))).
Proof.
  revert sizes. induction req as [|pp req IH]; intros sizes Hl Hi; cbn [foldl].
  { split; [done|]. intros n Hn _ _. rewrite Hn. replace (zlen (ports_of i [])) with 0 by done. f_equal. lia. }
  destruct (IH (zset sizes (elem_index pp) (u16 (default 0 (zget sizes (elem_index pp)) + 1)))) as [H1 H2];
    [by rewrite zlen_zset|done|].
  split; [exact H1|]. intros n Hn H0 Hb. rewrite ports_of_cons in *. pose proof (elem_index_range pp) as Hr.
  pose proof (zlen_ports_of i req) as Hpos. destruct (decide (elem_index pp = i)) as [E|E].
  - rewrite zlen_cons in *. replace (n + (zlen (ports_of i req) + 1)) with (n + 1 + zlen (ports_of i req)) by lia.
    apply H2; [|lia|lia].
    rewrite E, Hn. cbn. rewrite zget_zset_eq by lia. f_equal. apply u16_small. lia.
  - apply H2; [|done|done]. by rewrite zget_zset_ne by congruence.
Qed.

Lemma count_sizes_spec req i :
  zlen req < 65536 -> 0 <= i < 4 -> zget (count_sizes req) i = Some (zlen (ports_of i req)).
Proof.
  intros Hl Hi. destruct (count_sizes_from req sizes_zero i eq_refl Hi) as [_ H].
  pose proof (zlen_ports_of i req). specialize (H 0). apply H; [|lia|lia].
  change sizes_zero with (replicate 4 0). apply zget_replicate. lia.
Qed.

Lemma zlen_count_sizes req : zlen (count_sizes req) = 4.
Proof. by destruct (count_sizes_from req sizes_zero 0 eq_refl ltac:(lia)) as [H _]. Qed.

Lemma alloc_config_spec idx v :
  NoDup idx -> (forall i, i ∈ idx -> 0 <= i < 4) -> ready v ->
  zlen (vif_fat_flow_config v) = 4 -> zlen (vif_fat_flow_config_size v) = 4 ->
  exists v', alloc_config idx v = (0, v') /\ ready v' /\ vif_fat_flow_ports v' = vif_fat_flow_ports v /\
    zlen (vif_fat_flow_config v') = 4 /\ zlen (vif_fat_flow_config_size v') = 4 /\
    (forall j n, zget (vif_fat_flow_config_size v) j = Some n ->
      zget (vif_fat_flow_config_size v') j = Some (if decide (j ∈ idx) then 0 else n) /\
      zget (vif_fat_flow_config v') j =
        if decide (j ∈ idx /\ n <> 0) then Some (Live (replicate (Z.to_nat n) 0)) else zget (vif_fat_flow_config v) j).
Proof.
  revert v. induction idx as [|i idx IH]; intros v Hnd Hin [Hok Ho] Hl1 Hl2; cbn [alloc_config].
  { exists v. do 5 (split; [done|]). intros j n Hn. rewrite !decide_False by set_solver. done. }
  apply NoDup_cons in Hnd as [Hni Hnd].
  assert (Hi : 0 <= i < 4) by (apply Hin; set_solver).
  destruct (zget_is_Some (vif_fat_flow_config_size v) i) as [ni Hni']; [lia|]. rewrite Hni'. cbn [default from_option id].
  assert (Hin' : forall j, j ∈ idx -> 0 <= j < 4) by set_solver.
  destruct (Z.eqb_spec ni 0) as [->|Hn0].
  - destruct (IH v Hnd Hin') as (v' & E & R & P & L1 & L2 & H); [done..|]. exists v'.
    do 5 (split; [done|]). intros j n Hn. destruct (H j n Hn) as [-> ->].
    destruct (decide (j = i)) as [->|Hne].
    + simplify_eq. rewrite !(decide_False (P := _ /\ 0 <> 0)) by naive_solver.
      rewrite (decide_False (P := i ∈ idx)) by done. by case_decide.
    + split; [f_equal; apply decide_ext; set_solver|apply decide_ext; set_solver].
  - rewrite ask_ready by done.
    set (v1 := set_config _ _ _).
    destruct (IH v1 Hnd Hin') as (v' & E & R & P & L1 & L2 & H); [done|cbn; by rewrite zlen_zset..|].
    exists v'. split; [exact E|]. split; [done|]. split; [by rewrite P|]. split; [done|]. split; [done|]. intros j n Hn. cbn [v1 set_config vif_fat_flow_config vif_fat_flow_config_size] in H.
    destruct (decide (j = i)) as [->|Hne].
    + simplify_eq. destruct (H i 0) as [-> ->]; [apply zget_zset_eq; lia|].
      rewrite (decide_False (P := i ∈ idx /\ _)) by naive_solver. rewrite zget_zset_eq by lia.
      rewrite (decide_False (P := i ∈ idx)) by done. rewrite !decide_True by set_solver. done.
    + destruct (H j n) as [-> ->]; [by rewrite zget_zset_ne by done|]. rewrite zget_zset_ne by done.
      split; [f_equal; apply decide_ext; set_solver|apply decide_ext; set_solver].
Qed.

(** ** Striking out *)

(** The old configuration, the ports in [don] struck out. *)
Definition struck (don : list Z) (l : list Z) : list Z := (fun x => if decide (x ∈ don) then 0 else x) <$> l.

Lemma strike_spec p don l :
  good l -> 0 < p -> p ∉ don -> strike p (struck don l) = (bool_decide (p ∈ l), struck (p :: don) l).
Proof.
  intros [Hnd Hpos] Hp Hpd. induction l as [|x l IH]; [done|]. apply NoDup_cons in Hnd as [Hx Hnd].
  cbn [struck fmap list_fmap]. fold (struck don l). fold (struck (p :: don) l). cbn [strike].
  assert (Hx0 : 0 < x) by (apply Hpos; set_solver).
  destruct (Z.eqb_spec (if decide (x ∈ don) then 0 else x) p) as [E|E].
  - case_decide as Hd; [lia|]. subst x. rewrite bool_decide_true by set_solver.
    rewrite decide_True by set_solver. f_equal. f_equal. unfold struck. apply list_fmap_ext.
    intros k y Hy. apply list_elem_of_lookup_2 in Hy. apply decide_ext. set_solver.
  - rewrite IH by (done || set_solver). f_equal.
    + apply bool_decide_ext. case_decide; set_solver.
    + f_equal. apply decide_ext. case_decide; set_solver.
Qed.

Lemma struck_ext don don' l : (forall x, x ∈ don <-> x ∈ don') -> struck don l = struck don' l.
Proof. intros H. apply list_fmap_ext. intros k x _. apply decide_ext, H. Qed.

Lemma length_struck don l : length (struck don l) = length l.
Proof. apply length_fmap. Qed.

(** While the request is read: [don] are the ports read so far, [nw] all of them. *)
Record mid (old nw don : Z -> list Z) (v : fat_vif) (oc : old_config) : Prop := {
  md_ready : ready v;
  md_len : zlen (vif_fat_flow_config v) = 4 /\ zlen (vif_fat_flow_config_size v) = 4 /\ zlen oc = 4;
  md_size : forall i, 0 <= i < 4 -> zget (vif_fat_flow_config_size v) i = Some (zlen (don i));
  md_cfg : forall i, 0 <= i < 4 -> zget (vif_fat_flow_config v) i = Some (live_or_null (nw i) (don i ++ replicate (length (nw i) - length (don i)) 0));
  md_old : forall i, 0 <= i < 4 -> zget oc i = Some (live_or_null (old i) (struck (don i) (old i)));
  md_set : forall i q, 0 <= i < 4 -> 0 <= q < 65536 ->
    is_in (vif_fat_flow_ports v) i q = bool_decide (q ∈ old i \/ q ∈ don i)
}.

Definition plus_port (don : Z -> list Z) (i p : Z) : Z -> list Z := fun j => if decide (j = i) then don i ++ [p] else don j.

Lemma store_port_spec old nw don v oc i p rest :
  mid old nw don v oc -> 0 <= i < 4 -> nw i = don i ++ p :: rest -> zlen (nw i) < 65536 ->
  exists v1, store_port i p v = Some v1 /\ ready v1 /\ vif_fat_flow_ports v1 = vif_fat_flow_ports v /\
    zlen (vif_fat_flow_config v1) = 4 /\ zlen (vif_fat_flow_config_size v1) = 4 /\
    forall j, 0 <= j < 4 -> zget (vif_fat_flow_config_size v1) j = Some (zlen (plus_port don i p j)) /\
      zget (vif_fat_flow_config v1) j = Some (live_or_null (nw j) (plus_port don i p j ++ replicate (length (nw j) - length (plus_port don i p j)) 0)).
Proof.
  intros [Hr (L1 & L2 & _) Hs Hc _ _] Hi Hnw Hlen. unfold store_port. rewrite (Hc i Hi), (Hs i Hi).
  assert (Hl : length (nw i) = S (length (don i) + length rest)) by (rewrite Hnw, length_app; cbn; lia).
  assert (E : nw i <> []) by (by destruct (nw i)).
  rewrite live_cons by done. cbn [mbind option_bind is_null deref].
  set (arr := don i ++ _).
  assert (Ha : zlen (don i) < zlen arr) by (unfold zlen, arr; rewrite length_app, length_replicate; lia).
  rewrite (proj2 (Z.ltb_lt _ _)) by done. eexists. split; [done|]. split; [done|]. split; [done|].
  cbn [set_config vif_fat_flow_config vif_fat_flow_config_size]. split; [by rewrite zlen_zset|]. split; [by rewrite zlen_zset|].
  intros j Hj. unfold plus_port. destruct (decide (j = i)) as [->|Hne].
  - rewrite !zget_zset_eq by lia. rewrite live_cons by done. split; f_equal.
    + rewrite u16_small; unfold zlen in *; rewrite ?length_app; cbn; lia.
    + f_equal. unfold arr, zset, zlen. rewrite decide_True by lia. rewrite Nat2Z.id, insert_app_r_alt, Nat.sub_diag by lia.
      rewrite length_app. cbn [length]. rewrite <- (assoc_L (++)). f_equal.
      replace (length (nw i) - length (don i))%nat with (S (length rest)) by lia. cbn. f_equal. f_equal. lia.
  - rewrite !zget_zset_ne by done. auto.
Qed.

Lemma strike_old_spec old nw don v oc sizes i p :
  mid old nw don v oc -> 0 <= i < 4 -> good (old i) -> 0 < p -> p ∉ don i -> zget sizes i = Some (zlen (old i)) ->
  exists oc1, strike_old i p sizes oc = Some (bool_decide (p ∈ old i), oc1) /\ zlen oc1 = 4 /\
    forall j, 0 <= j < 4 -> zget oc1 j = Some (live_or_null (old j) (struck (plus_port don i p j) (old j))).
Proof.
  intros [_ (_ & _ & L3) _ _ Hold _] Hi Hg Hp Hpd Hsz. unfold strike_old. rewrite Hsz. cbn [mbind option_bind].
  destruct (Z.eqb_spec (zlen (old i)) 0) as [E|E].
  - destruct (old i) as [|x l] eqn:Eo; [|rewrite zlen_cons in E; unfold zlen in E; lia].
    exists oc. split; [by rewrite bool_decide_false by set_solver|]. split; [done|]. intros j Hj. rewrite (Hold j Hj).
    unfold plus_port. destruct (decide (j = i)) as [->|]; [by rewrite Eo|done].
  - rewrite (Hold i Hi). assert (E2 : old i <> []) by (by destruct (old i)).
    rewrite live_cons by done. cbn [mbind option_bind deref].
    replace (Z.to_nat (zlen (old i))) with (length (old i)) by (unfold zlen; lia).
    rewrite take_ge, drop_ge by (rewrite length_struck; lia). rewrite strike_spec by done.
    rewrite app_nil_r. eexists. split; [done|]. split; [by rewrite zlen_zset|]. intros j Hj. unfold plus_port.
    destruct (decide (j = i)) as [->|].
    + rewrite zget_zset_eq by lia. rewrite live_cons by done. f_equal. f_equal. apply struck_ext. set_solver.
    + rewrite zget_zset_ne by done. auto.
Qed.

Section request.
Variables (old nw : Z -> list Z) (old_sizes : list Z).
Hypothesis (Hgo : forall i, 0 <= i < 4 -> good (old i)).
Hypothesis (Hgn : forall i, 0 <= i < 4 -> good (nw i)).
Hypothesis (Hnl : forall i, 0 <= i < 4 -> zlen (nw i) < 65536).
Hypothesis (Hsz : forall i, 0 <= i < 4 -> zget old_sizes i = Some (zlen (old i))).

Lemma add_ports_spec req don v oc :
  mid old nw don v oc -> (forall i, 0 <= i < 4 -> nw i = don i ++ ports_of i req) ->
  exists don' v' oc', add_ports req old_sizes oc v = Some (0, oc', v') /\ mid old nw don' v' oc' /\
    forall i, 0 <= i < 4 -> don' i = nw i.
Proof.
  revert don v oc. induction req as [|pp req IH]; intros don v oc Hm Hd; cbn [add_ports].
  { exists don, v, oc. split; [done|]. split; [done|]. intros i Hi. rewrite (Hd i Hi). by rewrite app_nil_r. }
  pose proof (elem_index_range pp) as Hi. set (i := elem_index pp) in *. set (p := elem_port pp).
  assert (Hnw : nw i = don i ++ p :: ports_of i req).
  { rewrite (Hd i Hi), ports_of_cons. by rewrite decide_True. }
  destruct (Hgn i Hi) as [Hnd Hpos]. rewrite Hnw in Hnd, Hpos.
  assert (Hp : 0 < p < 8192) by (apply Hpos; set_solver).
  assert (Hpd : p ∉ don i). { intros Hin. apply NoDup_app in Hnd as (_ & Hdis & _). apply (Hdis p Hin). set_solver. }
  destruct (store_port_spec old nw don v oc i p _ Hm Hi Hnw (Hnl i Hi)) as (v1 & -> & Hr1 & Hp1 & L1 & L2 & Hst).
  destruct (strike_old_spec old nw don v oc old_sizes i p Hm Hi (Hgo i Hi) ltac:(lia) Hpd (Hsz i Hi)) as (oc1 & E1 & L3 & Ho1).
  cbn [mbind option_bind]. rewrite E1. cbn [mbind option_bind].
  assert (Hd' : forall j, 0 <= j < 4 -> nw j = plus_port don i p j ++ ports_of j req).
  { intros j Hj. rewrite (Hd j Hj), ports_of_cons. fold i. unfold plus_port.
    destruct (decide (j = i)) as [->|]; [rewrite decide_True by done; by rewrite <- (assoc_L (++))|by rewrite decide_False]. }
  assert (Hmid : forall v2, ready v2 -> same_config v1 v2 -> (forall j q, 0 <= j < 4 -> 0 <= q < 65536 ->
      is_in (vif_fat_flow_ports v2) j q = bool_decide (q ∈ old j \/ q ∈ plus_port don i p j)) ->
    mid old nw (plus_port don i p) v2 oc1).
  { intros v2 Hr2 [C1 C2] Hset. split; [done|by rewrite C1, C2|..|done|done].
    - intros j Hj. rewrite C2. by apply Hst.
    - intros j Hj. rewrite C1. by apply Hst. }
  destruct (bool_decide_reflect (p ∈ old i)) as [Hin|Hin].
  - apply (IH (plus_port don i p)); [|done]. apply Hmid; [done|done|]. intros j q Hj Hq.
    rewrite Hp1, (md_set _ _ _ _ _ Hm) by done. apply bool_decide_ext. unfold plus_port. case_decide as Hji; [subst j; set_solver|done].
  - destruct (add_port_spec (VIF_FAT_FLOW_PROTOCOL pp) p v1 Hr1 ltac:(lia)) as (v2 & -> & Hr2 & Hc2 & Hs2).
    cbn [mbind option_bind Z.eqb]. apply (IH (plus_port don i p)); [|done]. apply Hmid; [done|done|]. intros j q Hj Hq.
    rewrite Hs2, Hp1, (md_set _ _ _ _ _ Hm) by done. fold (elem_index pp). fold i.
    rewrite <- bool_decide_or. apply bool_decide_ext. unfold plus_port. case_decide as Hji; [subst j; set_solver|naive_solver].
Qed.
End request.

Lemma delete_ports_spec i ps v :
  ready v -> 0 <= i < 4 -> (forall p, p ∈ ps -> 0 <= p < 8192) -> in_first v i ->
  exists v', delete_ports i ps v = Some v' /\ ready v' /\ same_config v v' /\
    forall j q, 0 <= q < 65536 -> is_in (vif_fat_flow_ports v') j q =
      negb (bool_decide (j = i /\ q ∈ ps /\ q <> 0)) && is_in (vif_fat_flow_ports v) j q.
Proof.
  revert v. induction ps as [|p ps IH]; intros v Hr Hi Hps Hf; cbn [delete_ports].
  { exists v. split; [done|]. split; [done|]. split; [done|]. intros j q _. rewrite bool_decide_false by set_solver. done. }
  destruct (Z.eqb_spec p 0) as [->|Hp0].
  - destruct (IH v) as (v' & -> & Hr' & Hc' & Hs'); [done|done|set_solver|done|]. exists v'. split; [done|]. split; [done|].
    split; [done|]. intros j q Hq. rewrite Hs' by done. f_equal. f_equal. apply bool_decide_ext. set_solver.
  - assert (Hp : 0 <= p < 8192) by (apply Hps; set_solver).
    destruct (delete_port_spec i p v Hr Hi ltac:(lia) Hf) as (ret & v1 & -> & Hr1 & [C1 C2] & Hs1). cbn [mbind option_bind].
    destruct (IH v1) as (v' & -> & Hr' & [C3 C4] & Hs'); [done|done|set_solver| |].
    { intros q Hq. rewrite Hs1, Hf by lia. apply andb_false_r. }
    exists v'. split; [done|]. split; [done|]. split; [split; congruence|]. intros j q Hq. rewrite Hs', Hs1 by done.
    rewrite andb_assoc, <- negb_orb, <- bool_decide_or. f_equal. f_equal. apply bool_decide_ext. set_solver.
Qed.

Lemma delete_old_spec old nw sizes oc idx v :
  (forall i, 0 <= i < 4 -> good (old i)) -> (forall i, 0 <= i < 4 -> good (nw i)) ->
  (forall i, 0 <= i < 4 -> zget sizes i = Some (zlen (old i))) ->
  (forall i, 0 <= i < 4 -> zget oc i = Some (live_or_null (old i) (struck (nw i) (old i)))) ->
  (forall i, i ∈ idx -> 0 <= i < 4) -> ready v ->
  (forall i q, 0 <= i < 4 -> 0 <= q < 65536 -> is_in (vif_fat_flow_ports v) i q = true -> q ∈ old i \/ q ∈ nw i) ->
  exists v', delete_old idx sizes oc v = Some v' /\ ready v' /\ same_config v v' /\
    forall j q, 0 <= j < 4 -> 0 <= q < 65536 -> is_in (vif_fat_flow_ports v') j q =
      negb (bool_decide (j ∈ idx /\ q ∈ old j /\ q ∉ nw j)) && is_in (vif_fat_flow_ports v) j q.
Proof.
  intros Hgo Hgn Hsz Hoc. revert v. induction idx as [|i idx IH]; intros v Hidx Hr Hset; cbn [delete_old].
  { exists v. split; [done|]. split; [done|]. split; [done|]. intros j q _ _. rewrite bool_decide_false by set_solver. done. }
  assert (Hi : 0 <= i < 4) by (apply Hidx; set_solver). rewrite (Hsz i Hi), (Hoc i Hi). cbn [mbind option_bind].
  assert (Hone : exists v1, (if (zlen (old i) =? 0) || is_null (live_or_null (old i) (struck (nw i) (old i))) then Some v
      else arr ← deref (live_or_null (old i) (struck (nw i) (old i)));
           delete_ports i (take (Z.to_nat (zlen (old i))) arr) v) = Some v1 /\ ready v1 /\ same_config v v1 /\
      forall j q, 0 <= q < 65536 -> is_in (vif_fat_flow_ports v1) j q =
        negb (bool_decide (j = i /\ q ∈ old j /\ q ∉ nw j)) && is_in (vif_fat_flow_ports v) j q).
  { destruct (old i) as [|x l] eqn:Eo.
    { exists v. split; [done|]. split; [done|]. split; [done|]. intros j q _.
      rewrite bool_decide_false; [done|]. intros (-> & Hin & _). rewrite Eo in Hin. set_solver. }
    destruct (Hgo i Hi) as [_ Hpos]. destruct (Hgn i Hi) as [_ Hposn].
    rewrite (proj2 (Z.eqb_neq _ _)) by (rewrite zlen_cons; unfold zlen; lia). cbn [orb live_or_null is_null deref mbind option_bind].
    rewrite <- Eo. replace (Z.to_nat (zlen (old i))) with (length (old i)) by (unfold zlen; lia). rewrite take_ge by (rewrite length_struck; lia).
    destruct (delete_ports_spec i (struck (nw i) (old i)) v Hr Hi) as (v1 & -> & Hr1 & Hc1 & Hs1).
    - intros p (y & -> & Hy)%list_elem_of_fmap. specialize (Hpos y Hy). case_decide; lia.
    - intros q Hq. destruct (is_in (vif_fat_flow_ports v) i q) eqn:E; [|done]. exfalso.
      destruct (Hset i q Hi ltac:(lia) E) as [H1|H1]; [specialize (Hpos q H1)|specialize (Hposn q H1)]; lia.
    - exists v1. split; [done|]. split; [done|]. split; [done|]. intros j q Hq. rewrite Hs1 by done. f_equal. f_equal.
      apply bool_decide_ext. split.
      + intros (-> & (y & -> & Hy)%list_elem_of_fmap & Hq0). split; [done|]. case_decide; [done|]. done.
      + intros (-> & Hin & Hnin). split; [done|]. split.
        * apply list_elem_of_fmap. exists q. by rewrite decide_False.
        * specialize (Hpos q Hin). lia. }
  destruct Hone as (v1 & E1 & Hr1 & [C1 C2] & Hs1). cbn zeta in E1. rewrite E1. cbn [mbind option_bind].
  destruct (IH v1) as (v' & -> & Hr' & [C3 C4] & Hs'); [set_solver|done| |].
  { intros j q Hj Hq. rewrite Hs1 by done. intros [_ H]%andb_true_iff. by apply Hset. }
  exists v'. split; [done|]. split; [done|]. split; [split; congruence|]. intros j q Hj Hq. rewrite Hs', Hs1 by done.
  rewrite andb_assoc, <- negb_orb, <- bool_decide_or. f_equal. f_equal. apply bool_decide_ext. set_solver.
Qed.

Lemma add_request_spec req v old :
  fat_ok v old -> (forall i, 0 <= i < 4 -> good (old i)) ->
  (forall i, 0 <= i < 4 -> good (ports_of i req)) -> zlen req < 65536 ->
  exists v', vif_fat_flow_add (zlen req) (Some req) v = Some (0, v') /\ fat_ok v' (fun i => ports_of i req).
Proof.
  intros [Hr [L1 L2] Hs Hc Hset] Hgo Hgn Hlen. unfold vif_fat_flow_add.
  rewrite (bool_decide_false (Some req = None)) by done. rewrite andb_false_r.
  destruct ((zlen req =? 0) && bool_decide (vif_fat_flow_config_size v = sizes_zero)) eqn:Enone.
  { apply andb_true_iff in Enone as [E1%Z.eqb_eq E2%bool_decide_eq_true]. destruct req; [|rewrite zlen_cons in E1; unfold zlen in E1; lia].
    exists v. split; [done|]. assert (Hnil : forall i, 0 <= i < 4 -> old i = []).
    { intros i Hi. specialize (Hs i Hi). rewrite E2 in Hs. change sizes_zero with (replicate 4 0) in Hs.
      rewrite (zget_replicate 4 0 i) in Hs by lia. destruct (old i); [done|]. rewrite zlen_cons in Hs. unfold zlen in Hs. simplify_eq. lia. }
    split; try done.
    - intros i Hi. by rewrite (Hs i Hi), (Hnil i Hi).
    - intros i Hi. by rewrite (Hc i Hi), (Hnil i Hi).
    - intros i q Hi Hq. by rewrite (Hset i q Hi Hq), (Hnil i Hi). }
  cbn [default from_option id]. replace (Z.to_nat (zlen req)) with (length req) by (unfold zlen; lia). rewrite take_ge by lia. clear Enone.
  set (v1 := set_config _ _ v). destruct Hr as [Hok Ho].
  assert (Hpr : forall i, i ∈ protos <-> 0 <= i < 4) by (intros i; apply elem_of_seqZ).
  destruct (alloc_config_spec protos v1) as (v2 & -> & Hr2 & P2 & M1 & M2 & H2);
    [apply NoDup_seqZ|intros i; apply Hpr|done|done|apply zlen_count_sizes|].
  cbn [negb Z.eqb].
  assert (Hm : mid old (fun i => ports_of i req) (fun _ => []) v2 (vif_fat_flow_config v)).
  { split; [done|done|..].
    - intros i Hi. destruct (H2 i _ (count_sizes_spec req i Hlen Hi)) as [-> _]. by rewrite decide_True by (by apply Hpr).
    - intros i Hi. destruct (H2 i _ (count_sizes_spec req i Hlen Hi)) as [_ ->]. cbn [app length].
      destruct (ports_of i req) as [|x l] eqn:El.
      + rewrite decide_False by (intros [_ ?]; done). apply (zget_replicate 4). lia.
      + rewrite live_cons by done. rewrite decide_True; [|split; [by apply Hpr|rewrite zlen_cons; unfold zlen; lia]].
        f_equal. f_equal. f_equal. rewrite zlen_cons. unfold zlen. cbn [length]. lia.
    - intros i Hi. rewrite (Hc i Hi). f_equal. f_equal. symmetry. etransitivity; [|apply list_fmap_id].
      apply list_fmap_ext. intros k x _. by rewrite decide_False by set_solver.
    - intros i q Hi Hq. rewrite P2. change (vif_fat_flow_ports v1) with (vif_fat_flow_ports v). rewrite (Hset i q Hi Hq).
      apply bool_decide_ext. set_solver. }
  destruct (add_ports_spec old _ (vif_fat_flow_config_size v) Hgo Hgn
    ltac:(intros i Hi; pose proof (zlen_ports_of i req); lia) Hs req _ _ _ Hm)
    as (don & v3 & oc & -> & Hm3 & Hdon); [done|]. cbn [mbind option_bind negb Z.eqb].
  destruct Hm3 as [Hr3 (K1 & K2 & K3) Hs3 Hc3 Ho3 Hset3].
  destruct (delete_old_spec old (fun i => ports_of i req) (vif_fat_flow_config_size v) oc protos v3 Hgo Hgn Hs)
    as (v4 & -> & Hr4 & [C1 C2] & Hset4).
  { intros i Hi. rewrite (Ho3 i Hi), (Hdon i Hi). done. }
  { intros i. apply Hpr. } { done. }
  { intros i q Hi Hq. rewrite (Hset3 i q Hi Hq), (Hdon i Hi). apply bool_decide_eq_true. }
  exists v4. split; [done|]. split; [done|by rewrite C1, C2|..].
  - intros i Hi. by rewrite C2, (Hs3 i Hi), (Hdon i Hi).
  - intros i Hi. rewrite C1, (Hc3 i Hi), (Hdon i Hi). f_equal. f_equal. rewrite Nat.sub_diag. apply app_nil_r.
  - intros i q Hi Hq. rewrite (Hset4 i q Hi Hq), (Hset3 i q Hi Hq), (Hdon i Hi), <- bool_decide_not, <- bool_decide_and.
    apply bool_decide_ext. rewrite Hpr. destruct (decide (q ∈ ports_of i req)); tauto.
Qed.

(** A request for fat flows leaves exactly its own ports configured and set, whatever
    was configured before: what is new is added and what is gone is deleted.  It holds for
    requests with no port twice and no port zero, all ports below 8192, when the host has
    memory. *)
Theorem fat_flow_add_refines req v old :
  fat_ok v old -> (forall i, 0 <= i < 4 -> good (old i)) ->
  (forall i, 0 <= i < 4 -> good (ports_of i req)) -> zlen req < 65536 ->
  exists v', vif_fat_flow_add (zlen req) (Some req) v = Some (0, v') /\ fat_ok v' (fun i => ports_of i req).
Proof. apply add_request_spec. Qed.

(** ** The mask of a packet *)

Definition swap_mask (m : fat_flow_port_mask) : fat_flow_port_mask :=
  match m with SOURCE_PORT_MASK => DESTINATION_PORT_MASK | DESTINATION_PORT_MASK => SOURCE_PORT_MASK | m => m end.

Lemma ntohs_range x : 0 <= x < 65536 -> 0 <= Fragment.ntohs x < 65536.
Proof.
  intros Hx. unfold Fragment.ntohs. rewrite Z.shiftl_mul_pow2, Z.shiftr_div_pow2 by lia. change 255 with (Z.ones 8).
  rewrite Z.land_ones by lia. change (2 ^ 8) with 256. pose proof (Z.mod_pos_bound x 256). assert (0 <= x / 256 < 256).
  { split; [apply Z.div_pos; lia|apply Z.div_lt_upper_bound; lia]. }
  assert (E : Z.lor (x mod 256 * 256) (x / 256) = x mod 256 * 256 + x / 256).
  { rewrite <- Z.lxor_lor, <- Z.add_nocarry_lxor; [done|..]; change 256 with (2 ^ 8) at 2; rewrite <- Z.shiftl_mul_pow2 by lia;
      apply Z.bits_inj'; intros n Hn; rewrite Z.land_spec, Z.bits_0; destruct (Z.ltb_spec n 8);
      [rewrite Z.shiftl_spec_low by lia; done|rewrite (Z.bits_above_log2 (x / 256)); [apply andb_false_r|lia|]|
       rewrite Z.shiftl_spec_low by lia; done|rewrite (Z.bits_above_log2 (x / 256)); [apply andb_false_r|lia|]];
      (destruct (decide (x / 256 = 0)) as [->|]; [cbn; lia|]; apply Z.log2_lt_pow2; [lia|];
       assert (2 ^ 8 <= 2 ^ n) by (apply Z.pow_le_mono_r; lia); lia). }
  rewrite E. lia.
Qed.

(** The two directions of a connection are merged alike: for a configured interface the
    mask of the reverse packet is the mirrored mask, so that both meet the same pair of
    flows, unless a packet has the same port on both ends; and a protocol that has ports is
    never stripped of both. *)
Theorem fat_mask_symmetric v cfg proto sport dport :
  fat_ok v cfg -> (forall i, 0 <= i < 4 -> good (cfg i)) -> 0 <= proto < 256 -> 0 <= sport < 65536 -> 0 <= dport < 65536 ->
  Fragment.ntohs sport <> Fragment.ntohs dport \/ vif_fat_flow_get_proto_index proto = VIF_FAT_FLOW_NOPROTO_INDEX ->
  exists m, vif_fat_flow_lookup v proto sport dport = Some m /\
    vif_fat_flow_lookup v proto dport sport = Some (swap_mask m) /\
    (m = NO_PORT_MASK <-> let i := vif_fat_flow_get_proto_index proto in
       if i =? VIF_FAT_FLOW_NOPROTO_INDEX then proto ∉ cfg i
       else Fragment.ntohs sport ∉ cfg i /\ Fragment.ntohs dport ∉ cfg i) /\
    (m = ALL_PORT_MASK -> vif_fat_flow_get_proto_index proto = VIF_FAT_FLOW_NOPROTO_INDEX).
Proof.
  intros [[Hok _] _ _ Hc Hset] Hg Hproto Hs Hd Hne. unfold vif_fat_flow_lookup.
  pose proof (proto_index_range proto) as Hi. set (i := vif_fat_flow_get_proto_index proto) in *.
  rewrite (Hc i Hi). cbn [mbind option_bind].
  pose proof (ntohs_range _ Hs) as Hs'. pose proof (ntohs_range _ Hd) as Hd'.
  destruct (cfg i) as [|x l] eqn:Ecfg.
  { cbn. exists NO_PORT_MASK. split; [done|]. split; [done|]. split; [|done]. split; [|done]. intros _. case_match; set_solver. }
  rewrite live_cons by done. cbn [is_null]. rewrite <- Ecfg. clear x l Ecfg.
  destruct (Z.eqb_spec i VIF_FAT_FLOW_NOPROTO_INDEX) as [E0|E0].
  - rewrite !port_is_set_spec, !Hset by (done || lia). cbn [mbind option_bind].
    destruct (bool_decide_reflect (proto ∈ cfg i)); eexists; (split; [done|]); (split; [done|]); (split; [|done]); naive_solver.
  - rewrite !port_is_set_spec, !Hset by (done || lia). cbn [mbind option_bind].
    destruct Hne as [Hne|Hne]; [|done].
    destruct (bool_decide_reflect (Fragment.ntohs sport ∈ cfg i)), (bool_decide_reflect (Fragment.ntohs dport ∈ cfg i));
      try (eexists; (split; [done|]); (split; [done|]); (split; [|done]); naive_solver).
    destruct (Z.leb_spec (Fragment.ntohs dport) (Fragment.ntohs sport)), (Z.leb_spec (Fragment.ntohs sport) (Fragment.ntohs dport));
      try lia; eexists; (split; [done|]); (split; [done|]); (split; [|done]); naive_solver.
Qed.

(** ** Examples *)

Definition tcp_port (p : Z) : Z := Z.lor (Z.shiftl VR_IP_PROTO_TCP 16) p.
Definition udp_port (p : Z) : Z := Z.lor (Z.shiftl VR_IP_PROTO_UDP 16) p.
Definition other_proto (p : Z) : Z := Z.shiftl p 16.

Lemma fat_vif0_ok : fat_ok fat_vif0 (fun _ => []).
Proof.
  split; [split; [split; [done|]|done]|done|..].
  - intros i p Hp. left. unfold zget in Hp. case_decide; [|done]. by apply lookup_replicate in Hp as [-> _].
  - intros i Hi. apply (zget_replicate 4). lia.
  - intros i Hi. apply (zget_replicate 4). lia.
  - intros i q Hi _. unfold is_in. cbn [fat_vif0 vif_fat_flow_ports].
    rewrite (zget_replicate_default 4). rewrite bool_decide_false by set_solver. done.
Qed.

Lemma good_small (l : list Z) : bool_decide (NoDup l) && forallb (fun p => (0 <? p) && (p <? 8192)) l = true -> good l.
Proof.
  intros [H1%bool_decide_eq_true H2]%andb_true_iff. split; [done|]. intros p Hp%list_elem_of_In.
  rewrite forallb_forall in H2. apply H2 in Hp. lia.
Qed.

Lemma four_cases (P : Z -> Prop) : P 0 -> P 1 -> P 2 -> P 3 -> forall i, 0 <= i < 4 -> P i.
Proof. intros H0 H1 H2 H3 i Hi. assert (i = 0 \/ i = 1 \/ i = 2 \/ i = 3) as [-> | [-> | [-> | ->]]] by lia; done. Qed.

Definition fat_req : list Z := [tcp_port 80; udp_port 53; tcp_port 443; other_proto 1].

Lemma fat_flow_add_refines_witness : exists v',
  vif_fat_flow_add 4 (Some fat_req) fat_vif0 = Some (0, v') /\ fat_ok v' (fun i => ports_of i fat_req).
Proof.
  apply (fat_flow_add_refines fat_req fat_vif0 (fun _ => [])).
  - apply fat_vif0_ok.
  - intros i _. by apply good_small.
  - apply four_cases; by apply good_small; vm_compute.
  - done.
Defined.

(** A packet to port 80 of a server, and its answer. *)
Lemma fat_mask_symmetric_witness : exists v, fat_ok v (fun i => ports_of i fat_req) /\
  exists m, vif_fat_flow_lookup v VR_IP_PROTO_TCP (Fragment.ntohs 5000) (Fragment.ntohs 80) = Some m /\
    vif_fat_flow_lookup v VR_IP_PROTO_TCP (Fragment.ntohs 80) (Fragment.ntohs 5000) = Some (swap_mask m).
Proof.
  assert (Hg : forall i, 0 <= i < 4 -> good (ports_of i fat_req)) by (apply four_cases; by apply good_small; vm_compute).
  destruct (add_request_spec fat_req fat_vif0 (fun _ => [])) as (v & _ & Hv);
    [apply fat_vif0_ok|intros i _; by apply good_small|done|done|].
  exists v. split; [done|].
  destruct (fat_mask_symmetric v _ VR_IP_PROTO_TCP (Fragment.ntohs 5000) (Fragment.ntohs 80) Hv Hg) as (m & H1 & H2 & _);
    [done|done|done|by left|]. eauto.
Defined.

(** Requests one after the other, and then: is the TCP port set? *)
Definition after (oracle : list bool) (reqs : list (list Z)) (p : Z) : option (list Z * option bool) :=
  '(rets, v) ← foldl (fun st req => '(rets, v) ← st;
      '(ret, v1) ← vif_fat_flow_add (zlen req) (Some req) v; Some (rets ++ [ret], v1))
    (Some ([], mk_fat (vif_fat_flow_ports fat_vif0) (vif_fat_flow_config fat_vif0) (vif_fat_flow_config_size fat_vif0) oracle)) reqs;
  Some (rets, vif_fat_flow_port_is_set v VIF_FAT_FLOW_TCP_INDEX p).

(** Ports 80 and 9000 are configured; when 80 goes, 9000 is lost with it: the test whether
    the row of a protocol is empty looks at eight of its sixty-four bitmaps. *)
Theorem fat_flow_row_lost :
  after [] [[tcp_port 80; tcp_port 9000]; [tcp_port 9000]] 9000 = Some ([0; 0], Some false).
Proof. vm_compute. reflexivity. Qed.

(** A port that is listed twice goes when it is listed once. *)
Theorem fat_flow_duplicate_lost :
  after [] [[tcp_port 80; tcp_port 80]; [tcp_port 80]] 80 = Some ([0; 0], Some false).
Proof. vm_compute. reflexivity. Qed.

(** Port zero stays set. *)
Theorem fat_flow_zero_stays : after [] [[tcp_port 0]; []] 0 = Some ([0; 0], Some true).
Proof. vm_compute. reflexivity. Qed.

(** No memory for the row of a protocol: the result of the allocation is used all the same. *)
Theorem fat_flow_row_unchecked : after [true; false] [[tcp_port 80]] 80 = None.
Proof. vm_compute. reflexivity. Qed.

(** No memory for a bitmap: the row is freed, the interface keeps the pointer, and the next
    packet uses it. *)
Theorem fat_flow_row_dangling : after [true; true; false] [[tcp_port 80]] 80 = Some ([- ENOMEM], None).
Proof. vm_compute. reflexivity. Qed.

(** No memory for the configuration: its size is kept without it, and the next request
    reads it. *)
Theorem fat_flow_config_unchecked : after [false] [[tcp_port 80]; [tcp_port 80]] 80 = None.
Proof. vm_compute. reflexivity. Qed.

End FatFlowProofs.
