(* ===== verification/VifState.v ===== *)
(** * Interfaces (dp-core/vr_interface.c)

    An interface is a record on the heap with a count of its users.  The router has a table
    of interfaces and pointers to three of them; a VLAN sub-interface points to its parent,
    which finds it by VLAN tag in an array, or by tag and address in a table; a host
    interface and the physical interface under it point to each other.

    A program is a function from the state to a result and the new state; it has no result
    when it uses memory that is not there: an interface that was freed, a null pointer, an
    element outside an array.  Addresses are not used twice, so that a stale pointer never
    happens to be right.  The host ([hif_ops]) is a parameter and may answer anything.  This
    file has the state and the primitive programs; [Vif.v] has the functions of the source. *)

From stdpp Require Import gmap.
From S2P Require Import Prelude Queue Message VrfAssign VifBridge FatFlow.

Definition VR_MAX_INTERFACES : Z := 4352.
Definition VIF_TYPE_HOST : Z := 0.
Definition VIF_TYPE_AGENT : Z := 1.
Definition VIF_TYPE_PHYSICAL : Z := 2.
Definition VIF_TYPE_VIRTUAL : Z := 3.
Definition VIF_TYPE_XEN_LL_HOST : Z := 4.
Definition VIF_TYPE_GATEWAY : Z := 5.
Definition VIF_TYPE_VIRTUAL_VLAN : Z := 6.
Definition VIF_TYPE_STATS : Z := 7.
Definition VIF_TYPE_VLAN : Z := 8.
Definition VIF_TYPE_MONITORING : Z := 9.
Definition VIF_TYPE_MAX : Z := 10.
Definition VIF_FLAG_XCONNECT : Z := 2.
Definition VIF_FLAG_SERVICE_IF : Z := 4.
Definition VIF_FLAG_MIRROR_RX : Z := 8.
Definition VIF_FLAG_MIRROR_TX : Z := 16.
Definition VIF_FLAG_VHOST_PHYS : Z := 512.
Definition VIF_ENCAP_TYPE_L3 : Z := 2.
Definition VIF_TRANSPORT_VIRTUAL : Z := 0.
Definition VIF_TRANSPORT_ETH : Z := 1.
Definition VIF_TRANSPORT_PMD : Z := 2.
Definition VIF_TRANSPORT_SOCKET : Z := 3.
Definition VR_INTERFACE_NAME_LEN : Z := 64.
Definition VR_MAX_MIRROR_INDICES : Z := 255.
Definition VLAN_ID_MAX : Z := 65535.
Definition VLAN_ID_INVALID : Z := 65535.
Definition VR_ETHER_ALEN : Z := 6.
Definition EEXIST : Z := 17.

Module VifState.

(** ** Data *)

Inductive vif_tx_fn := vif_discard_tx | agent_tx | vhost_tx | vlan_tx | eth_tx.
Inductive set_rewrite_fn := agent_set_rewrite | vif_cmn_rewrite | eth_set_rewrite.
Inductive mac_request_fn := vhost_mac_request | vm_mac_request | eth_mac_request.
Inductive send_fn := agent_send.

(** The counters of [struct vr_interface_stats], which a response has too. *)
Inductive counter :=
  | ibytes | ipackets | ierrors | obytes | opackets | oerrors
  | queue_ipackets | queue_ierrors | queue_opackets | queue_oerrors
  | port_ipackets | port_ierrors | port_isyscalls | port_inombufs | port_opackets | port_oerrors | port_osyscalls
  | dev_ibytes | dev_ipackets | dev_ierrors | dev_inombufs | dev_obytes | dev_opackets | dev_oerrors.

Record vr_interface_stats := mk_vis {
  vis : counter -> Z;
  vis_queue_ierrors_to_lcore : option (list Z)
}.

(** The entries of [vif_drivers], by the functions they have. *)
Inductive vr_interface_driver := vhost_driver | agent_driver | eth_driver | vlan_driver | stats_driver | no_driver.

(** [struct vr_interface], in four groups: what the VRF tables of VLANs use, fat flows, the
    configuration, and the links between interfaces. *)
Record vif_config := mk_vcfg {
  vif_gen : Z;
  vif_rid : Z;
  vif_idx : Z;
  vif_mtu : Z;
  vif_transport : Z;
  vif_mirror_id : Z;
  vif_os_idx : Z;
  vif_mac : list Z;
  vif_rewrite : list Z;
  vif_name : list Z;
  vif_ip : Z;
  vif_qos_map_index : Z;
  vif_router : bool;
  vif_tx : vif_tx_fn;
  vif_set_rewrite : option set_rewrite_fn;
  vif_send : option send_fn;
  vif_mac_request : option mac_request_fn;
  vif_stats : option (list vr_interface_stats)
}.

Definition set_mtu (x : Z) (c : vif_config) : vif_config :=
  mk_vcfg (vif_gen c) (vif_rid c) (vif_idx c) x (vif_transport c) (vif_mirror_id c) (vif_os_idx c) (vif_mac c)
  (vif_rewrite c) (vif_name c) (vif_ip c) (vif_qos_map_index c) (vif_router c) (vif_tx c) (vif_set_rewrite c)
  (vif_send c) (vif_mac_request c) (vif_stats c).
Definition set_mirror_id (x : Z) (c : vif_config) : vif_config :=
  mk_vcfg (vif_gen c) (vif_rid c) (vif_idx c) (vif_mtu c) (vif_transport c) x (vif_os_idx c) (vif_mac c)
  (vif_rewrite c) (vif_name c) (vif_ip c) (vif_qos_map_index c) (vif_router c) (vif_tx c) (vif_set_rewrite c)
  (vif_send c) (vif_mac_request c) (vif_stats c).
Definition set_os_idx (x : Z) (c : vif_config) : vif_config :=
  mk_vcfg (vif_gen c) (vif_rid c) (vif_idx c) (vif_mtu c) (vif_transport c) (vif_mirror_id c) x (vif_mac c)
  (vif_rewrite c) (vif_name c) (vif_ip c) (vif_qos_map_index c) (vif_router c) (vif_tx c) (vif_set_rewrite c)
  (vif_send c) (vif_mac_request c) (vif_stats c).
Definition set_rewrite (x : list Z) (c : vif_config) : vif_config :=
  mk_vcfg (vif_gen c) (vif_rid c) (vif_idx c) (vif_mtu c) (vif_transport c) (vif_mirror_id c) (vif_os_idx c)
  (vif_mac c) x (vif_name c) (vif_ip c) (vif_qos_map_index c) (vif_router c) (vif_tx c) (vif_set_rewrite c)
  (vif_send c) (vif_mac_request c) (vif_stats c).
Definition set_name (x : list Z) (c : vif_config) : vif_config :=
  mk_vcfg (vif_gen c) (vif_rid c) (vif_idx c) (vif_mtu c) (vif_transport c) (vif_mirror_id c) (vif_os_idx c)
  (vif_mac c) (vif_rewrite c) x (vif_ip c) (vif_qos_map_index c) (vif_router c) (vif_tx c) (vif_set_rewrite c)
  (vif_send c) (vif_mac_request c) (vif_stats c).
Definition set_qos_map_index (x : Z) (c : vif_config) : vif_config :=
  mk_vcfg (vif_gen c) (vif_rid c) (vif_idx c) (vif_mtu c) (vif_transport c) (vif_mirror_id c) (vif_os_idx c)
  (vif_mac c) (vif_rewrite c) (vif_name c) (vif_ip c) x (vif_router c) (vif_tx c) (vif_set_rewrite c)
  (vif_send c) (vif_mac_request c) (vif_stats c).
Definition set_tx (x : vif_tx_fn) (c : vif_config) : vif_config :=
  mk_vcfg (vif_gen c) (vif_rid c) (vif_idx c) (vif_mtu c) (vif_transport c) (vif_mirror_id c) (vif_os_idx c)
  (vif_mac c) (vif_rewrite c) (vif_name c) (vif_ip c) (vif_qos_map_index c) (vif_router c) x
  (vif_set_rewrite c) (vif_send c) (vif_mac_request c) (vif_stats c).
Definition set_set_rewrite (x : option set_rewrite_fn) (c : vif_config) : vif_config :=
  mk_vcfg (vif_gen c) (vif_rid c) (vif_idx c) (vif_mtu c) (vif_transport c) (vif_mirror_id c) (vif_os_idx c)
  (vif_mac c) (vif_rewrite c) (vif_name c) (vif_ip c) (vif_qos_map_index c) (vif_router c) (vif_tx c) x
  (vif_send c) (vif_mac_request c) (vif_stats c).
Definition set_send (x : option send_fn) (c : vif_config) : vif_config :=
  mk_vcfg (vif_gen c) (vif_rid c) (vif_idx c) (vif_mtu c) (vif_transport c) (vif_mirror_id c) (vif_os_idx c)
  (vif_mac c) (vif_rewrite c) (vif_name c) (vif_ip c) (vif_qos_map_index c) (vif_router c) (vif_tx c)
  (vif_set_rewrite c) x (vif_mac_request c) (vif_stats c).
Definition set_mac_request (x : option mac_request_fn) (c : vif_config) : vif_config :=
  mk_vcfg (vif_gen c) (vif_rid c) (vif_idx c) (vif_mtu c) (vif_transport c) (vif_mirror_id c) (vif_os_idx c)
  (vif_mac c) (vif_rewrite c) (vif_name c) (vif_ip c) (vif_qos_map_index c) (vif_router c) (vif_tx c)
  (vif_set_rewrite c) (vif_send c) x (vif_stats c).
Definition set_stats (x : option (list vr_interface_stats)) (c : vif_config) : vif_config :=
  mk_vcfg (vif_gen c) (vif_rid c) (vif_idx c) (vif_mtu c) (vif_transport c) (vif_mirror_id c) (vif_os_idx c)
  (vif_mac c) (vif_rewrite c) (vif_name c) (vif_ip c) (vif_qos_map_index c) (vif_router c) (vif_tx c)
  (vif_set_rewrite c) (vif_send c) (vif_mac_request c) x.
(** [vrouter_add_interface] notes the router and the generation. *)
Definition set_router (gen : Z) (c : vif_config) : vif_config :=
  mk_vcfg gen (vif_rid c) (vif_idx c) (vif_mtu c) (vif_transport c) (vif_mirror_id c) (vif_os_idx c)
  (vif_mac c) (vif_rewrite c) (vif_name c) (vif_ip c) (vif_qos_map_index c) true (vif_tx c) (vif_set_rewrite c)
  (vif_send c) (vif_mac_request c) (vif_stats c).

Section data.
Context {T : Type}.

(** The array of sub-interfaces has [VLAN_ID_MAX] pointers; the map has those that are not
    null. *)
Record vif_links := mk_vlinks {
  vif_vlan_id : Z;
  vif_ovlan_id : Z;
  vif_src_mac : option (list Z);
  vif_parent : option Z;
  vif_bridge : option Z;
  vif_sub_interfaces : option (gmap Z Z);
  vif_btable : option T;
  vif_driver : option vr_interface_driver
}.

Record vr_interface := mk_vif {
  vif_srv : VrfAssign.vr_interface;
  vif_fat : FatFlow.fat_vif;
  vif_cfg : vif_config;
  vif_link : vif_links
}.

Abbreviation links := vif_links.
Abbreviation vif := vr_interface.

Definition set_src_mac (x : option (list Z)) (l : links) : links :=
  mk_vlinks (vif_vlan_id l) (vif_ovlan_id l) x (vif_parent l) (vif_bridge l) (vif_sub_interfaces l)
  (vif_btable l) (vif_driver l).
Definition set_parent (x : option Z) (l : links) : links :=
  mk_vlinks (vif_vlan_id l) (vif_ovlan_id l) (vif_src_mac l) x (vif_bridge l) (vif_sub_interfaces l)
  (vif_btable l) (vif_driver l).
Definition set_bridge (x : option Z) (l : links) : links :=
  mk_vlinks (vif_vlan_id l) (vif_ovlan_id l) (vif_src_mac l) (vif_parent l) x (vif_sub_interfaces l)
  (vif_btable l) (vif_driver l).
Definition set_sub_interfaces (x : option (gmap Z Z)) (l : links) : links :=
  mk_vlinks (vif_vlan_id l) (vif_ovlan_id l) (vif_src_mac l) (vif_parent l) (vif_bridge l) x (vif_btable l)
  (vif_driver l).
Definition set_btable (x : option T) (l : links) : links :=
  mk_vlinks (vif_vlan_id l) (vif_ovlan_id l) (vif_src_mac l) (vif_parent l) (vif_bridge l)
  (vif_sub_interfaces l) x (vif_driver l).
Definition set_driver (x : option vr_interface_driver) (l : links) : links :=
  mk_vlinks (vif_vlan_id l) (vif_ovlan_id l) (vif_src_mac l) (vif_parent l) (vif_bridge l)
  (vif_sub_interfaces l) (vif_btable l) x.
Definition set_vlans (vlan ovlan : Z) (l : links) : links :=
  mk_vlinks vlan ovlan (vif_src_mac l) (vif_parent l) (vif_bridge l) (vif_sub_interfaces l) (vif_btable l)
  (vif_driver l).

Definition on_srv (f : VrfAssign.vr_interface -> VrfAssign.vr_interface) (v : vif) : vif :=
  mk_vif (f (vif_srv v)) (vif_fat v) (vif_cfg v) (vif_link v).
Definition on_fat (f : FatFlow.fat_vif -> FatFlow.fat_vif) (v : vif) : vif :=
  mk_vif (vif_srv v) (f (vif_fat v)) (vif_cfg v) (vif_link v).
Definition on_cfg (f : vif_config -> vif_config) (v : vif) : vif :=
  mk_vif (vif_srv v) (vif_fat v) (f (vif_cfg v)) (vif_link v).
Definition on_link (f : links -> links) (v : vif) : vif :=
  mk_vif (vif_srv v) (vif_fat v) (vif_cfg v) (f (vif_link v)).

Definition vif_type (v : vif) : Z := VrfAssign.vif_type (vif_srv v).
Definition vif_flags (v : vif) : Z := VrfAssign.vif_flags (vif_srv v).
Definition vif_users (v : vif) : Z := VrfAssign.vif_users (vif_srv v).

End data.
Arguments vif_links : clear implicits.
Arguments vr_interface : clear implicits.

(** [vr_interface_req]; sizes of lists are fields of their own. *)
Record vr_interface_req := mk_ifr {
  vifr_core : Z;
  vifr_type : Z;
  vifr_flags : Z;
  vifr_vrf : Z;
  vifr_idx : Z;
  vifr_rid : Z;
  vifr_os_idx : Z;
  vifr_mtu : Z;
  vifr_name : option (list Z);
  vifr_counters : counter -> Z;
  vifr_queue_ierrors_to_lcore : option (list Z);
  vifr_queue_ierrors_to_lcore_size : Z;
  vifr_ref_cnt : Z;
  vifr_marker : Z;
  vifr_mac : option (list Z);
  vifr_mac_size : Z;
  vifr_ip : Z;
  vifr_mir_id : Z;
  vifr_speed : Z;
  vifr_duplex : Z;
  vifr_vlan_id : Z;
  vifr_parent_vif_idx : Z;
  vifr_nh_id : Z;
  vifr_cross_connect_idx : Z;
  vifr_src_mac : option (list Z);
  vifr_src_mac_size : Z;
  vifr_bridge_idx : Z;
  vifr_ovlan_id : Z;
  vifr_transport : Z;
  vifr_fat_flow_protocol_port : option (list Z);
  vifr_fat_flow_protocol_port_size : Z;
  vifr_qos_map_index : Z
}.

(** What an interface is called to the host for. *)
Inductive hif_op := HIF_ADD | HIF_DEL | HIF_ADD_TAP | HIF_DEL_TAP | HOS_REGISTER_NIC.

(** The answer of the host: its return value, and the two fields of the interface that hosts
    change. *)
Record hif_answer := mk_hans { ha_ret : Z; ha_flags : Z; ha_os_idx : Z }.

(** The router and the globals of vr_interface.c. [vr_interfaces] is empty when there is no
    table; [vr_mem] are the answers to the coming requests for memory. *)
Record world {T H : Type} := mk_world {
  vr_heap : gmap Z (vr_interface T);
  vr_next : Z;
  vr_interfaces : list (option Z);
  vr_max_interfaces : Z;
  vr_agent_if : option Z;
  vr_host_if : option Z;
  vr_eth_if : option Z;
  vr_generation_num : Z;
  agent_alive : bool;
  vr_not_ready : bool;
  vr_mem : list bool;
  vr_host : H
}.
Arguments world : clear implicits.
Arguments mk_world {T H}.

(** The number of CPUs, which the host sets before anything else. *)
Class Cpus := vr_num_cpus : Z.

(** [struct vr_host_interface_ops]. *)
Class HifOps (T H : Type) := {
  hif_call : hif_op -> Z -> vr_interface T -> H -> hif_answer * H;
  (** its answers to the coming requests of a new table of sub-interfaces *)
  hif_table_oracle : H -> list bool;
  hif_get_encap : vr_interface T -> H -> Z;
  (** the return value, speed and duplex *)
  hif_get_settings : vr_interface T -> H -> Z * Z * Z;
  (** the counters of a CPU, brought up to date *)
  hif_stats_update : vr_interface T -> Z -> H -> nat -> (counter -> Z) -> counter -> Z
}.

Section router.
Context {T H : Type}.
Abbreviation vif := (vr_interface T).
Abbreviation links := (vif_links T).
Abbreviation router := (world T H).

Definition set_heap (x : gmap Z vif) (w : router) : router :=
  mk_world x (vr_next w) (vr_interfaces w) (vr_max_interfaces w) (vr_agent_if w) (vr_host_if w) (vr_eth_if w)
  (vr_generation_num w) (agent_alive w) (vr_not_ready w) (vr_mem w) (vr_host w).
Definition set_agent_if (x : option Z) (w : router) : router :=
  mk_world (vr_heap w) (vr_next w) (vr_interfaces w) (vr_max_interfaces w) x (vr_host_if w) (vr_eth_if w)
  (vr_generation_num w) (agent_alive w) (vr_not_ready w) (vr_mem w) (vr_host w).
Definition set_host_if (x : option Z) (w : router) : router :=
  mk_world (vr_heap w) (vr_next w) (vr_interfaces w) (vr_max_interfaces w) (vr_agent_if w) x (vr_eth_if w)
  (vr_generation_num w) (agent_alive w) (vr_not_ready w) (vr_mem w) (vr_host w).
Definition set_eth_if (x : option Z) (w : router) : router :=
  mk_world (vr_heap w) (vr_next w) (vr_interfaces w) (vr_max_interfaces w) (vr_agent_if w) (vr_host_if w) x
  (vr_generation_num w) (agent_alive w) (vr_not_ready w) (vr_mem w) (vr_host w).
Definition set_generation_num (x : Z) (w : router) : router :=
  mk_world (vr_heap w) (vr_next w) (vr_interfaces w) (vr_max_interfaces w) (vr_agent_if w) (vr_host_if w)
  (vr_eth_if w) x (agent_alive w) (vr_not_ready w) (vr_mem w) (vr_host w).
Definition set_agent_alive (x : bool) (w : router) : router :=
  mk_world (vr_heap w) (vr_next w) (vr_interfaces w) (vr_max_interfaces w) (vr_agent_if w) (vr_host_if w)
  (vr_eth_if w) (vr_generation_num w) x (vr_not_ready w) (vr_mem w) (vr_host w).
Definition set_mem (x : list bool) (w : router) : router :=
  mk_world (vr_heap w) (vr_next w) (vr_interfaces w) (vr_max_interfaces w) (vr_agent_if w) (vr_host_if w)
  (vr_eth_if w) (vr_generation_num w) (agent_alive w) (vr_not_ready w) x (vr_host w).
Definition set_host (x : H) (w : router) : router :=
  mk_world (vr_heap w) (vr_next w) (vr_interfaces w) (vr_max_interfaces w) (vr_agent_if w) (vr_host_if w)
  (vr_eth_if w) (vr_generation_num w) (agent_alive w) (vr_not_ready w) (vr_mem w) x.
Definition set_table (x : list (option Z)) (max : Z) (w : router) : router :=
  mk_world (vr_heap w) (vr_next w) x max (vr_agent_if w) (vr_host_if w) (vr_eth_if w) (vr_generation_num w)
  (agent_alive w) (vr_not_ready w) (vr_mem w) (vr_host w).
Definition set_fresh (x : gmap Z vif) (next : Z) (w : router) : router :=
  mk_world x next (vr_interfaces w) (vr_max_interfaces w) (vr_agent_if w) (vr_host_if w) (vr_eth_if w)
  (vr_generation_num w) (agent_alive w) (vr_not_ready w) (vr_mem w) (vr_host w).

End router.

(** ** Programs *)

Definition prog (T H A : Type) : Type := world T H -> option (A * world T H).

#[export] Instance prog_ret T H : MRet (prog T H) := fun A x w => Some (x, w).
#[export] Instance prog_bind T H : MBind (prog T H) := fun A B k m w => '(x, w1) ← m w; k x w1.

Section prims.
Context {T H : Type} `{HifOps T H}.
Abbreviation vif := (vr_interface T).
Abbreviation router := (world T H).
Abbreviation prog := (prog T H).

Definition fault {A} : prog A := fun _ => None.
Definition assume (b : bool) : prog unit := fun w => if b then Some (tt, w) else None.
Definition gets {A} (f : router -> A) : prog A := fun w => Some (f w, w).
Definition modify (f : router -> router) : prog unit := fun w => Some (tt, f w).
Definition of_option {A} (o : option A) : prog A := fun w => (fun x => (x, w)) <$> o.

(** Reading and writing an interface through a pointer. *)
Definition load (a : Z) : prog vif := fun w => (fun v => (v, w)) <$> vr_heap w !! a.
Definition store (a : Z) (f : vif -> vif) : prog unit :=
  fun w => (fun v => (tt, set_heap (<[a := f v]> (vr_heap w)) w)) <$> vr_heap w !! a.

(** A request for memory. *)
Definition malloc : prog bool :=
  fun w => Some (match vr_mem w with [] => true | b :: _ => b end, set_mem (tail (vr_mem w)) w).

Definition zalloc_vif (v : vif) : prog (option Z) := fun w =>
  let ok := match vr_mem w with [] => true | b :: _ => b end in
  let w1 := set_mem (tail (vr_mem w)) w in
  if ok then Some (Some (vr_next w1), set_fresh (<[vr_next w1 := v]> (vr_heap w1)) (vr_next w1 + 1) w1)
  else Some (None, w1).

Definition free_vif (a : Z) : prog unit := fun w => Some (tt, set_heap (delete a (vr_heap w)) w).

(** A call of the host for an interface. *)
Definition hif (op : hif_op) (a : Z) : prog Z :=
  v ← load a;
  h ← gets vr_host;
  let '(ans, h1) := hif_call op a v h in
  _ ← modify (set_host h1);
  _ ← store a (fun v => on_cfg (set_os_idx (u32 (ha_os_idx ans))) (on_srv (VrfAssign.with_vflags (u32 (ha_flags ans))) v));
  mret (ha_ret ans).

(** The body of a loop over the indices in [l], until it has a result. *)
Fixpoint search {A} (body : Z -> prog (option A)) (l : list Z) : prog (option A) :=
  match l with
  | [] => mret None
  | i :: l' =>
      r ← body i;
      match r with
      | Some x => mret (Some x)
      | None => search body l'
      end
  end.

Fixpoint for_each (body : Z -> prog unit) (l : list Z) : prog unit :=
  match l with
  | [] => mret tt
  | i :: l' => _ ← body i; for_each body l'
  end.

End prims.
End VifState.
