(* ===== verification/Vif.v ===== *)
(** * Adding, changing and deleting interfaces (dp-core/vr_interface.c)

    The table of interfaces and their counts of users, the drivers by type of interface,
    cross connection, and the requests to add and to delete.  [VifReq.v] has the requests that
    read. *)

From stdpp Require Import gmap.
From S2P Require Import Prelude Queue Message VrfAssign VifBridge FatFlow VifState.

Module Vif.
Import VifState.

(** ** Strings and bytes *)

(** The characters before the terminating zero. *)
Fixpoint cstr (s : list Z) : list Z :=
  match s with
  | [] => []
  | c :: s' => if c =? 0 then [] else c :: cstr s'
  end.

(** [strncpy] to the beginning of [dst]. *)
Definition strncpy (dst src : list Z) (n : Z) : list Z :=
  let s := take (Z.to_nat n) (cstr src) in
  s ++ replicate (Z.to_nat n - length s) 0 ++ drop (Z.to_nat n) dst.

Definition same_name (a b : list Z) : bool :=
  let n := Z.to_nat VR_INTERFACE_NAME_LEN in bool_decide (cstr (take n a) = cstr (take n b)).

Definition has_flag (f : Z) (fl : Z) : bool := negb (Z.land f fl =? 0).

Section ops.
Context {T H : Type} `{SubTable T} `{HifOps T H} {ncpu : Cpus}.
Abbreviation vif := (vr_interface T).
Abbreviation prog := (prog T H).

Definition set_flags (f : Z -> Z) (v : vif) : vif :=
  on_srv (fun s => VrfAssign.with_vflags (f (VrfAssign.vif_flags s)) s) v.
Definition set_users (f : Z -> Z) (v : vif) : vif :=
  on_srv (fun s => VrfAssign.with_users (u32 (f (VrfAssign.vif_users s))) s) v.
Definition set_rx (rx : VrfAssign.vif_rx_fn) (v : vif) : vif := on_srv (VrfAssign.with_rx rx) v.
Definition discard (v : vif) : vif := set_rx VrfAssign.vif_discard_rx (on_cfg (set_tx vif_discard_tx) v).
Definition default_mtu (mtu : Z) (c : vif_config) : vif_config := if vif_mtu c =? 0 then set_mtu mtu c else c.

(** ** The table and the users of an interface *)

(** What only the interface points to goes with it. *)
Definition vif_free (a : Z) : prog unit :=
  v ← load a;
  _ ← assume (match vif_stats (vif_cfg v) with Some _ => true | None => vr_num_cpus <=? 0 end);
  free_vif a.

Definition vrouter_put_interface (a : Z) : prog unit :=
  _ ← store a (set_users Z.pred);
  v ← load a;
  if vif_users v =? 0 then vif_free a else mret tt.

Definition table_at (idx : Z) : prog (option Z) := t ← gets vr_interfaces; of_option (zget t idx).

Definition __vrouter_get_interface (idx : Z) : prog (option Z) :=
  max ← gets vr_max_interfaces;
  if max <=? idx then mret None else table_at idx.

Definition all_idx : prog (list Z) := max ← gets vr_max_interfaces; mret (seqZ 0 max).

Definition __vrouter_get_interface_os (os_idx : Z) : prog (option Z) :=
  l ← all_idx;
  search (fun i =>
    o ← __vrouter_get_interface i;
    match o with
    | None => mret None
    | Some a => v ← load a; mret (if vif_os_idx (vif_cfg v) =? os_idx then Some a else None)
    end) l.

Definition vrouter_get_interface (idx : Z) : prog (option Z) :=
  o ← __vrouter_get_interface idx;
  match o with
  | None => mret None
  | Some a => _ ← store a (set_users Z.succ); mret (Some a)
  end.

Definition vif_find (name : list Z) : prog (option Z) :=
  l ← all_idx;
  search (fun i =>
    o ← table_at i;
    match o with
    | None => mret None
    | Some a => v ← load a; mret (if same_name (vif_name (vif_cfg v)) name then Some a else None)
    end) l.

(** The two ends of a bridge forget each other. *)
Definition unbridge (a : Z) : prog unit :=
  v ← load a;
  match vif_bridge (vif_link v) with
  | None => mret tt
  | Some b => _ ← store b (on_link (set_bridge None)); store a (on_link (set_bridge None))
  end.

Definition vrouter_del_interface (a : Z) : prog unit :=
  v ← load a;
  let idx := vif_idx (vif_cfg v) in
  max ← gets vr_max_interfaces;
  if max <=? idx then mret tt
  else
    cur ← table_at idx;
    if negb (bool_decide (cur = Some a)) then mret tt
    else
      _ ← modify (fun w => set_table (zset (vr_interfaces w) idx None) (vr_max_interfaces w) w);
      _ ← (if vif_type v =? VIF_TYPE_AGENT then modify (set_agent_if None)
           else if vif_type v =? VIF_TYPE_HOST then _ ← modify (set_host_if None); unbridge a
           else if vif_type v =? VIF_TYPE_PHYSICAL then
             _ ← unbridge a;
             modify (fun w => if bool_decide (vr_eth_if w = Some a) then set_eth_if None w else w)
           else mret tt);
      vrouter_put_interface a.

(** ** Cross connection *)

Definition vif_set_xconnect (a : Z) : prog unit := store a (set_flags (fun f => Z.lor f VIF_FLAG_XCONNECT)).
Definition vif_remove_xconnect (a : Z) : prog unit := store a (set_flags (fun f => Z.ldiff f VIF_FLAG_XCONNECT)).

Definition vif_is_vhost (v : vif) : bool :=
  (vif_type v =? VIF_TYPE_HOST) || (vif_type v =? VIF_TYPE_XEN_LL_HOST) || (vif_type v =? VIF_TYPE_GATEWAY).

(** [f] for the interface and, when there is one, for the other end of its bridge. *)
Definition both_ends (f : Z -> prog unit) (a : Z) : prog unit :=
  _ ← f a;
  v ← load a;
  match vif_bridge (vif_link v) with
  | None => mret tt
  | Some b => f b
  end.

(** A function of the host, as the DPDK host has it. *)
Definition vhost_remove_xconnect : prog unit :=
  l ← all_idx;
  for_each (fun i =>
    o ← __vrouter_get_interface i;
    match o with
    | None => mret tt
    | Some a =>
        v ← load a;
        if vif_is_vhost v then both_ends vif_remove_xconnect a else mret tt
    end) l.

Definition vrouter_setup_vif (a : Z) : prog unit :=
  v ← load a;
  if vif_type v =? VIF_TYPE_AGENT then _ ← modify (set_agent_alive true); vhost_remove_xconnect
  else if vif_type v =? VIF_TYPE_HOST then
    alive ← gets agent_alive;
    if (alive : bool) then both_ends vif_remove_xconnect a else both_ends vif_set_xconnect a
  else mret tt.

(** ** Adding to the router *)

(** The destination address is already there. *)
Definition vrouter_set_rewrite (c : vif_config) : vif_config :=
  set_rewrite (take 6 (vif_rewrite c) ++ vif_mac c ++ [8; 0]) c.

(** The physical interface under a host interface, by the index that the request has; an
    error, or the pointer. *)
Definition cross_connect (v : vif) (req : vr_interface_req) : prog (Z + option Z) :=
  if vif_type v =? VIF_TYPE_HOST then
    if vifr_cross_connect_idx req <? 0 then mret (inl (- EINVAL))
    else
      o ← __vrouter_get_interface_os (vifr_cross_connect_idx req);
      mret (match o with None => inl (- ENODEV) | Some b => inr (Some b) end)
  else mret (inr None).

Definition vrouter_add_interface (a : Z) (req : vr_interface_req) : prog Z :=
  v ← load a;
  let idx := vif_idx (vif_cfg v) in
  cur ← table_at idx;
  match cur with
  | Some _ => mret (- EEXIST)
  | None =>
      x ← cross_connect v req;
      match x with
      | inl e => mret e
      | inr eth =>
          gen ← gets (fun w => u32 (vr_generation_num w + 1));
          _ ← modify (set_generation_num gen);
          _ ← store a (fun v => on_cfg (set_router gen) (set_users Z.succ v));
          _ ← modify (fun w => set_table (zset (vr_interfaces w) idx (Some a)) (vr_max_interfaces w) w);
          _ ← (if vif_type v =? VIF_TYPE_AGENT then modify (set_agent_if (Some a))
               else match eth with
                    | None => mret tt
                    | Some b =>
                        _ ← modify (set_host_if (Some a));
                        _ ← modify (set_eth_if (Some b));
                        _ ← store a (on_link (set_bridge (Some b)));
                        store b (on_link (set_bridge (Some a)))
                    end);
          _ ← store a (on_cfg vrouter_set_rewrite);
          mret 0
      end
  end.

(** ** Drivers *)

Definition agent_drv_add (a : Z) : prog Z :=
  _ ← store a (on_cfg (fun c => set_set_rewrite (Some agent_set_rewrite) (default_mtu 1514 c)));
  ret ← hif HIF_ADD a;
  if negb (ret =? 0) then mret ret
  else
    _ ← store a (fun v => set_rx VrfAssign.agent_rx (on_cfg (fun c => set_send (Some agent_send) (set_tx agent_tx c)) v));
    ret ← hif HIF_ADD_TAP a;
    _ ← (if negb (ret =? 0) then hif HIF_DEL a else mret 0);
    mret ret.

Definition agent_drv_del (a : Z) : prog Z :=
  _ ← hif HIF_DEL_TAP a;
  _ ← store a discard;
  hif HIF_DEL a.

Definition vhost_drv_add (a : Z) : prog Z :=
  _ ← store a (fun v => set_rx VrfAssign.vhost_rx (on_cfg (fun c =>
        set_mac_request (Some vhost_mac_request) (set_tx vhost_tx (set_set_rewrite (Some vif_cmn_rewrite) (default_mtu 1514 c)))) v));
  ret ← hif HIF_ADD a;
  if negb (ret =? 0) then mret ret
  else
    v ← load a;
    match vif_bridge (vif_link v) with
    | None => mret 0
    | Some b => hif HIF_ADD_TAP b
    end.

Definition vhost_drv_del (a : Z) : prog Z :=
  _ ← store a discard;
  hif HIF_DEL a.

(** [vr_interface_service_enable], with the memory it may need. *)
Definition service_enable (a : Z) : prog Z :=
  v ← load a;
  ok ← match VrfAssign.vif_vrf_table (vif_srv v) with Some _ => mret true | None => malloc end;
  let '(ret, s) := VrfAssign.vr_interface_service_enable ok (vif_srv v) in
  _ ← store a (on_srv (fun _ => s));
  mret ret.

Definition service_disable (a : Z) : prog unit := store a (on_srv VrfAssign.vr_interface_service_disable).

Definition is_service (v : vif) : bool := has_flag (vif_flags v) VIF_FLAG_SERVICE_IF.

Definition eth_drv_del (a : Z) : prog Z :=
  _ ← hif HIF_DEL_TAP a;
  _ ← store a discard;
  ret ← hif HIF_DEL a;
  v ← load a;
  _ ← (if is_service v then service_disable a else mret tt);
  mret ret.

(** The functions that [eth_drv_add] gives to the interface, but for [VIF_TYPE_STATS]. *)
Definition eth_functions (v : vif) : vif :=
  let v1 := on_cfg (set_tx eth_tx) v in
  if VrfAssign.vif_is_virtual (vif_srv v1) then
    set_rx VrfAssign.vm_rx (on_cfg (fun c => set_mac_request (Some vm_mac_request) (set_set_rewrite (Some vif_cmn_rewrite) c)) v1)
  else
    set_rx VrfAssign.eth_rx (on_cfg (fun c => set_mac_request (Some eth_mac_request) (set_set_rewrite (Some eth_set_rewrite) c)) v1).

Definition eth_attach (a : Z) : prog Z :=
  v ← load a;
  ret ← (if is_service v then service_enable a else mret 0);
  if negb (ret =? 0) then mret ret
  else
    ret ← hif HIF_ADD a;
    if negb (ret =? 0) then mret ret
    else
      v ← load a;
      h ← gets vr_host;
      _ ← (if (vif_type v =? VIF_TYPE_PHYSICAL) && (hif_get_encap v h =? VIF_ENCAP_TYPE_L3)
           then store a (set_rx VrfAssign.tun_rx) else mret tt);
      if negb (has_flag (vif_flags v) VIF_FLAG_VHOST_PHYS) || bool_decide (vif_bridge (vif_link v) <> None) then
        ret ← hif HIF_ADD_TAP a;
        _ ← (if negb (ret =? 0) then hif HIF_DEL a else mret 0);
        mret ret
      else mret 0.

Definition eth_drv_add (a : Z) : prog Z :=
  _ ← store a (fun v =>
        let v1 := on_cfg (default_mtu (if vif_type v =? VIF_TYPE_PHYSICAL then 1514 else 9160)) v in
        if vif_type v =? VIF_TYPE_STATS then v1 else eth_functions v1);
  ret ← eth_attach a;
  v ← load a;
  _ ← (if negb (ret =? 0) && is_service v then service_disable a else mret tt);
  mret ret.

(** ** Sub-interfaces *)

Definition st_memory : prog (bool * bool * bool * bool) :=
  m1 ← malloc;
  m2 ← (if (m1 : bool) then malloc else mret false);
  m3 ← (if (m2 : bool) then malloc else mret false);
  m4 ← (if (m3 : bool) then malloc else mret false);
  mret (m1, m2, m3, m4).

(** The table of sub-interfaces of [p], made when it is missing; [None]: no memory. *)
Definition sub_table (p : Z) : prog (option T) :=
  pv ← load p;
  match vif_btable (vif_link pv) with
  | Some t => mret (Some t)
  | None =>
      not_ready ← gets vr_not_ready;
      oracle ← gets (fun w => hif_table_oracle (vr_host w));
      mem ← st_memory;
      let t := st_init not_ready mem oracle in
      _ ← store p (on_link (set_btable t));
      mret t
  end.

Definition sub_array (p : Z) : prog (option (gmap Z Z)) :=
  pv ← load p;
  match vif_sub_interfaces (vif_link pv) with
  | Some m => mret (Some m)
  | None =>
      ok ← malloc;
      if (ok : bool) then _ ← store p (on_link (set_sub_interfaces (Some ∅))); mret (Some ∅) else mret None
  end.

Definition eth_drv_add_sub_interface (p a : Z) : prog Z :=
  ret ← hif HIF_ADD a;
  if negb (ret =? 0) then mret ret
  else
    v ← load a;
    let vlan := vif_vlan_id (vif_link v) in
    match vif_src_mac (vif_link v) with
    | Some mac =>
        o ← sub_table p;
        match o with
        | None => mret (- ENOMEM)
        | Some t =>
            let '(ret, t1) := st_add vlan mac a t in
            _ ← store p (on_link (set_btable (Some t1)));
            mret ret
        end
    | None =>
        o ← sub_array p;
        match o with
        | None => mret (- ENOMEM)
        | Some m =>
            _ ← assume (vlan <? VLAN_ID_MAX);
            match m !! vlan with
            | Some _ => mret (- EEXIST)
            | None => _ ← store p (on_link (set_sub_interfaces (Some (<[vlan := a]> m)))); mret 0
            end
        end
    end.

(** The entry of [a] in the table or the array of [p]. *)
Definition sub_remove (p a : Z) : prog Z :=
  v ← load a;
  pv ← load p;
  let vlan := vif_vlan_id (vif_link v) in
  match vif_src_mac (vif_link v) with
  | Some mac =>
      match vif_btable (vif_link pv) with
      | None => mret (- EINVAL)
      | Some t =>
          let '(ret, t1) := st_delete vlan mac t in
          _ ← store p (on_link (set_btable (Some t1)));
          mret ret
      end
  | None =>
      match vif_sub_interfaces (vif_link pv) with
      | None => mret (- EINVAL)
      | Some m =>
          _ ← assume (vlan <? VLAN_ID_MAX);
          if bool_decide (m !! vlan = Some a)
          then _ ← store p (on_link (set_sub_interfaces (Some (delete vlan m)))); mret 0
          else mret (- EINVAL)
      end
  end.

Definition eth_drv_del_sub_interface (p a : Z) : prog Z :=
  ret ← sub_remove p a;
  if ret =? 0 then
    _ ← vrouter_put_interface p;
    _ ← store a (on_link (set_parent None));
    _ ← hif HIF_DEL a;
    mret ret
  else mret ret.

(** Does a driver have functions for sub-interfaces? *)
Definition has_sub (d : vr_interface_driver) : bool := match d with eth_driver => true | _ => false end.

Definition vlan_drv_del (a : Z) : prog Z :=
  v ← load a;
  match vif_parent (vif_link v) with
  | None => mret 0
  | Some p =>
      pv ← load p;
      d ← of_option (vif_driver (vif_link pv));
      ret ← (if has_sub d then eth_drv_del_sub_interface p a else mret 0);
      _ ← store a (on_link (set_src_mac None));
      mret ret
  end.

(** The source address of the request is kept; an error, or zero. *)
Definition take_src_mac (a : Z) (req : vr_interface_req) : prog Z :=
  match vifr_src_mac req with
  | None => mret 0
  | Some mac =>
      if vifr_src_mac_size req =? 0 then mret 0
      else if negb (vifr_src_mac_size req =? VR_ETHER_ALEN) then mret (- EINVAL)
      else
        ok ← malloc;
        if (ok : bool) then
          _ ← assume (VR_ETHER_ALEN <=? zlen mac);
          _ ← store a (on_link (set_src_mac (Some (take 6 mac))));
          mret 0
        else mret (- ENOMEM)
  end.

Definition vlan_drv_add (a : Z) (req : vr_interface_req) : prog Z :=
  if VR_MAX_INTERFACES <? u32 (vifr_parent_vif_idx req) then mret (- EINVAL)
  else if (VLAN_ID_MAX <=? u16 (vifr_vlan_id req)) || (VLAN_ID_MAX <=? u16 (vifr_ovlan_id req)) then mret (- EINVAL)
  else
    ret ← take_src_mac a req;
    if negb (ret =? 0) then mret ret
    else
      _ ← store a (fun v => set_rx VrfAssign.vlan_rx (on_cfg (fun c =>
            set_mac_request (Some vm_mac_request) (set_tx vlan_tx (set_set_rewrite (Some vif_cmn_rewrite) (default_mtu 1514 c))))
              (on_link (set_vlans (u16 (vifr_vlan_id req)) (u16 (vifr_ovlan_id req))) v)));
      o ← vrouter_get_interface (u32 (vifr_parent_vif_idx req));
      match o with
      | None => mret (- EINVAL)
      | Some p =>
          _ ← store a (on_link (set_parent (Some p)));
          pv ← load p;
          d ← of_option (vif_driver (vif_link pv));
          if has_sub d then eth_drv_add_sub_interface p a else mret (- EINVAL)
      end.

(** [vif_drivers], which has [VIF_TYPE_MAX] elements. *)
Definition vif_drivers (type : Z) : option vr_interface_driver :=
  if (type =? VIF_TYPE_HOST) || (type =? VIF_TYPE_XEN_LL_HOST) || (type =? VIF_TYPE_GATEWAY) || (type =? VIF_TYPE_MONITORING)
  then Some vhost_driver
  else if type =? VIF_TYPE_AGENT then Some agent_driver
  else if (type =? VIF_TYPE_PHYSICAL) || (type =? VIF_TYPE_VIRTUAL) then Some eth_driver
  else if type =? VIF_TYPE_VIRTUAL_VLAN then Some vlan_driver
  else if type =? VIF_TYPE_STATS then Some stats_driver
  else if (0 <=? type) && (type <? VIF_TYPE_MAX) then Some no_driver
  else None.

(** [None] for the request is the null pointer. *)
Definition drv_add (d : vr_interface_driver) (a : Z) (req : option vr_interface_req) : prog Z :=
  match d with
  | vhost_driver => vhost_drv_add a
  | agent_driver => agent_drv_add a
  | eth_driver | stats_driver => eth_drv_add a
  | vlan_driver => match req with Some req => vlan_drv_add a req | None => fault end
  | no_driver => mret 0
  end.

Definition drv_delete (d : vr_interface_driver) (a : Z) : prog Z :=
  match d with
  | vhost_driver => vhost_drv_del a
  | agent_driver => agent_drv_del a
  | eth_driver | stats_driver => eth_drv_del a
  | vlan_driver => vlan_drv_del a
  | no_driver => mret 0
  end.

Definition driver_of (a : Z) : prog vr_interface_driver := v ← load a; of_option (vif_drivers (vif_type v)).

Definition vif_attach (a : Z) : prog unit := d ← driver_of a; _ ← drv_add d a None; mret tt.
Definition vif_detach (a : Z) : prog unit := d ← driver_of a; _ ← drv_delete d a; mret tt.

Definition vif_drv_delete (a : Z) : prog unit :=
  _ ← store a (on_cfg (fun c => set_name (zset (vif_name c) 0 0) c));
  vif_detach a.

Definition vif_delete (a : Z) : prog Z :=
  _ ← vif_drv_delete a;
  _ ← vrouter_del_interface a;
  mret 0.

Definition vif_drv_add (a : Z) (req : vr_interface_req) : prog Z :=
  d ← driver_of a;
  ret ← drv_add d a (Some req);
  if negb (ret =? 0) then mret ret
  else _ ← store a (on_link (set_driver (Some d))); mret 0.

(** ** Requests *)

Definition vr_interface_delete (req : vr_interface_req) : prog Z :=
  o ← __vrouter_get_interface (u32 (vifr_idx req));
  match o with
  | None => mret (- ENODEV)
  | Some a => _ ← vif_delete a; mret 0
  end.

(** [vif_fat_flow_add], with the memory of the router. *)
Definition fat_flow_add (a : Z) (req : vr_interface_req) : prog Z :=
  v ← load a;
  m ← gets vr_mem;
  let f := vif_fat v in
  let f0 := FatFlow.mk_fat (FatFlow.vif_fat_flow_ports f) (FatFlow.vif_fat_flow_config f) (FatFlow.vif_fat_flow_config_size f) m in
  '(ret, f1) ← of_option (FatFlow.vif_fat_flow_add (vifr_fat_flow_protocol_port_size req) (vifr_fat_flow_protocol_port req) f0);
  _ ← modify (set_mem (FatFlow.ff_oracle f1));
  _ ← store a (on_fat (fun _ => FatFlow.mk_fat (FatFlow.vif_fat_flow_ports f1) (FatFlow.vif_fat_flow_config f1)
                                  (FatFlow.vif_fat_flow_config_size f1) []));
  mret ret.

(** The mirror of an interface that does not mirror is no mirror. *)
Definition mirror_of (flags mir_id : Z) : Z :=
  if has_flag flags VIF_FLAG_MIRROR_RX || has_flag flags VIF_FLAG_MIRROR_TX then u8 mir_id else VR_MAX_MIRROR_INDICES.

(** The change of the service flag, with the memory it may need, and of the flags. *)
Definition change_flags (a : Z) (req : vr_interface_req) : prog Z :=
  v ← load a;
  let asked := has_flag (u32 (vifr_flags req)) VIF_FLAG_SERVICE_IF in
  ok ← (if asked && negb (is_service v) then
          match VrfAssign.vif_vrf_table (vif_srv v) with Some _ => mret true | None => malloc end
        else mret true);
  let '(ret, s) := VrfAssign.change_service (u32 (vifr_flags req)) ok (vif_srv v) in
  _ ← store a (on_srv (fun _ => s));
  mret ret.

Definition change_config (req : vr_interface_req) (v : vif) : vif :=
  let c := set_mirror_id (mirror_of (vif_flags v) (vifr_mir_id req)) (vif_cfg v) in
  let c1 := if vifr_mtu req =? 0 then c else set_mtu (u16 (vifr_mtu req)) c in
  let s := vif_srv v in
  mk_vif (VrfAssign.mk_vif (VrfAssign.vif_type s) (VrfAssign.vif_flags s)
            (if 0 <=? vifr_vrf req then u16 (vifr_vrf req) else VrfAssign.vif_vrf s) (u16 (vifr_nh_id req))
            (VrfAssign.vif_users s) (VrfAssign.vif_rx s) (VrfAssign.vif_vrf_table s) (VrfAssign.vif_vrf_table_users s))
    (vif_fat v) (set_qos_map_index (vifr_qos_map_index req) c1) (vif_link v).

Definition vr_interface_change (a : Z) (req : vr_interface_req) : prog Z :=
  ret ← change_flags a req;
  if negb (ret =? 0) then mret ret
  else
    _ ← store a (change_config req);
    fat_flow_add a req.

Definition vif_transport_valid (req : vr_interface_req) : bool :=
  let t := vifr_transport req in
  (t =? VIF_TRANSPORT_VIRTUAL) || (t =? VIF_TRANSPORT_ETH) || (t =? VIF_TRANSPORT_PMD) || (t =? VIF_TRANSPORT_SOCKET).

(** Zeroed memory; the functions that move packets are set before anything can call them. *)
Definition vif_zero : vif :=
  mk_vif (VrfAssign.mk_vif 0 0 0 0 0 VrfAssign.vif_discard_rx None 0) FatFlow.fat_vif0
    (mk_vcfg 0 0 0 0 0 0 0 (replicate 6 0) (replicate 14 0) (replicate 64 0) 0 0 false vif_discard_tx None None None None)
    (mk_vlinks 0 0 None None None None None None).

(** The blocks of the statistics, one for each CPU; the last one asked for may be missing. *)
Fixpoint alloc_lcores (cpus : list Z) (n : Z) : prog (bool * list vr_interface_stats) :=
  match cpus with
  | [] => mret (true, [])
  | _ :: cpus' =>
      ok ← malloc;
      if (ok : bool) then
        '(all, l) ← alloc_lcores cpus' n;
        mret (all, mk_vis (fun _ => 0) (Some (replicate (Z.to_nat n) 0)) :: l)
      else mret (false, mk_vis (fun _ => 0) None :: ((fun _ => mk_vis (fun _ => 0) None) <$> cpus'))
  end.

Definition alloc_stats (a : Z) : prog bool :=
  ok ← malloc;
  if (ok : bool) then
    '(all, l) ← alloc_lcores (seqZ 0 vr_num_cpus) vr_num_cpus;
    _ ← store a (on_cfg (set_stats (Some l)));
    mret all
  else mret false.

(** The fields that a new interface takes from the request. *)
Definition init_fields (req : vr_interface_req) (v : vif) : vif :=
  let s := VrfAssign.vif_set_flags (u32 (vifr_flags req))
             (VrfAssign.mk_vif (u16 (vifr_type req)) (vif_flags v) (u16 (vifr_vrf req)) (u16 (vifr_nh_id req)) (vif_users v)
                (VrfAssign.vif_rx (vif_srv v)) (VrfAssign.vif_vrf_table (vif_srv v)) (VrfAssign.vif_vrf_table_users (vif_srv v))) in
  let c := vif_cfg v in
  let l := vif_link v in
  mk_vif s (vif_fat v)
    (mk_vcfg (vif_gen c) (u16 (vifr_rid req)) (u16 (vifr_idx req)) (u16 (vifr_mtu req)) (u8 (vifr_transport req))
       (mirror_of (VrfAssign.vif_flags s) (vifr_mir_id req)) (if vifr_os_idx req =? -1 then 0 else u32 (vifr_os_idx req))
       (vif_mac c) (vif_rewrite c) (vif_name c) (vif_ip c) (vifr_qos_map_index req) (vif_router c) (vif_tx c)
       (vif_set_rewrite c) (vif_send c) (vif_mac_request c) (vif_stats c))
    (mk_vlinks VLAN_ID_INVALID (vif_ovlan_id l) (vif_src_mac l) (vif_parent l) (vif_bridge l) (vif_sub_interfaces l)
       (vif_btable l) (vif_driver l)).

(** The address, of which the rewrite has a copy; an error, or zero. *)
Definition take_mac (a : Z) (req : vr_interface_req) : prog Z :=
  match vifr_mac req with
  | None => mret 0
  | Some mac =>
      if negb (vifr_mac_size req =? VR_ETHER_ALEN) then mret (- EINVAL)
      else
        _ ← assume (VR_ETHER_ALEN <=? zlen mac);
        _ ← store a (on_cfg (fun c =>
              mk_vcfg (vif_gen c) (vif_rid c) (vif_idx c) (vif_mtu c) (vif_transport c) (vif_mirror_id c) (vif_os_idx c)
                (take 6 mac) (take 6 mac ++ drop 6 (vif_rewrite c)) (vif_name c) (vif_ip c) (vif_qos_map_index c)
                (vif_router c) (vif_tx c) (vif_set_rewrite c) (vif_send c) (vif_mac_request c) (vif_stats c)));
        mret 0
  end.

Definition take_ip_name (req : vr_interface_req) (c : vif_config) : vif_config :=
  mk_vcfg (vif_gen c) (vif_rid c) (vif_idx c) (vif_mtu c) (vif_transport c) (vif_mirror_id c) (vif_os_idx c)
    (vif_mac c) (vif_rewrite c)
    (match vifr_name req with Some n => strncpy (vif_name c) n (VR_INTERFACE_NAME_LEN - 1) | None => vif_name c end)
    (u32 (vifr_ip req)) (vif_qos_map_index c) (vif_router c) (vif_tx c) (vif_set_rewrite c) (vif_send c)
    (vif_mac_request c) (vif_stats c).

(** From the address of the request to the driver: the return value, and the interface that
    is still there. *)
Definition add_to_router (a : Z) (req : vr_interface_req) : prog (Z * option Z) :=
  ret ← take_mac a req;
  if negb (ret =? 0) then mret (ret, Some a)
  else
    _ ← store a (on_cfg (take_ip_name req));
    ret ← fat_flow_add a req;
    if negb (ret =? 0) then mret (ret, Some a)
    else
      _ ← store a discard;
      ret ← vrouter_add_interface a req;
      if negb (ret =? 0) then mret (ret, Some a)
      else
        ret ← vif_drv_add a req;
        if negb (ret =? 0) then _ ← vif_delete a; mret (ret, None)
        else _ ← vrouter_setup_vif a; mret (0, Some a).

Definition add_new (req : vr_interface_req) : prog (Z * option Z) :=
  o ← zalloc_vif vif_zero;
  match o with
  | None => mret (- ENOMEM, None)
  | Some a =>
      ok ← alloc_stats a;
      if negb ok then mret (- ENOMEM, Some a)
      else _ ← store a (init_fields req); add_to_router a req
  end.

Definition add_checked (req : vr_interface_req) : prog (Z * option Z) :=
  max ← gets vr_max_interfaces;
  if max <=? u32 (vifr_idx req) then mret (- EINVAL, None)
  else if VIF_TYPE_MAX <=? vifr_type req then mret (- EINVAL, None)
  else if negb (vif_transport_valid req) then mret (0, None)
  else
    o ← __vrouter_get_interface (u32 (vifr_idx req));
    match o with
    | Some a => ret ← vr_interface_change a req; mret (ret, Some a)
    | None => add_new req
    end.

Definition vr_interface_add (req : vr_interface_req) : prog Z :=
  '(ret, o) ← add_checked req;
  _ ← match o with
      | None => mret tt
      | Some a => if negb (ret =? 0) then vif_free a else _ ← hif HOS_REGISTER_NIC a; mret tt
      end;
  mret ret.

(** A request of zeroes, with room for addresses, name and counters as far as there is
    memory. *)
Definition vr_interface_req_get : prog (option vr_interface_req) :=
  ok ← malloc;
  if negb ok then mret None
  else
    mac ← malloc;
    src_mac ← malloc;
    name ← malloc;
    lcore ← malloc;
    mret (Some (mk_ifr 0 0 0 0 0 0 0 0 (if (name : bool) then Some (replicate (Z.to_nat VR_INTERFACE_NAME_LEN) 0) else None)
      (fun _ => 0) (if (lcore : bool) then Some (replicate (Z.to_nat vr_num_cpus) 0) else None) 0 0 0
      (if (mac : bool) then Some (replicate 6 0) else None) (if (mac : bool) then VR_ETHER_ALEN else 0)
      0 0 0 0 0 0 0 0 (if (src_mac : bool) then Some (replicate 6 0) else None) 0 0 0 0 None 0 0)).

(** The interface that counts what the host merges. *)
Definition gro_req (os_idx : Z) (name : list Z) (idx : Z) (r : vr_interface_req) : vr_interface_req :=
  mk_ifr (vifr_core r) VIF_TYPE_STATS 0 65535 idx 0 (s32 os_idx) 9136
    ((fun d => strncpy d name (VR_INTERFACE_NAME_LEN - 1)) <$> vifr_name r)
    (vifr_counters r) (vifr_queue_ierrors_to_lcore r) (vifr_queue_ierrors_to_lcore_size r) (vifr_ref_cnt r) (vifr_marker r)
    (vifr_mac r) (vifr_mac_size r) (vifr_ip r) (vifr_mir_id r) (vifr_speed r) (vifr_duplex r) (vifr_vlan_id r)
    (vifr_parent_vif_idx r) (vifr_nh_id r) (vifr_cross_connect_idx r) (vifr_src_mac r) (vifr_src_mac_size r)
    (vifr_bridge_idx r) (vifr_ovlan_id r) VIF_TRANSPORT_ETH (vifr_fat_flow_protocol_port r)
    (vifr_fat_flow_protocol_port_size r) (vifr_qos_map_index r).

Definition vr_gro_vif_add (os_idx : Z) (name : list Z) (idx : Z) : prog Z :=
  o ← vr_interface_req_get;
  match o with
  | None => mret (- ENOMEM)
  | Some r => vr_interface_add (gro_req os_idx name idx r)
  end.

(** ** The life of the table *)

Definition vr_interface_shut : prog unit :=
  l ← all_idx;
  for_each (fun i =>
    o ← table_at i;
    match o with
    | None => mret tt
    | Some a => _ ← store a discard; _ ← vif_drv_delete a; store a (set_flags (fun _ => 0))
    end) l.

Definition vr_interface_exit (soft_reset : bool) : prog unit :=
  l ← all_idx;
  _ ← for_each (fun i =>
        o ← table_at i;
        match o with
        | None => mret tt
        | Some a => vrouter_del_interface a
        end) l;
  if soft_reset then mret tt else modify (set_table [] 0).

(** [hif_ops]: whether the host has given its functions, now or before. *)
Definition vr_interface_init (hif_ops : bool) : prog Z :=
  t ← gets vr_interfaces;
  ok ← match t with
       | _ :: _ => mret true
       | [] =>
           ok ← malloc;
           _ ← modify (set_table (if (ok : bool) then replicate (Z.to_nat VR_MAX_INTERFACES) None else []) VR_MAX_INTERFACES);
           mret ok
       end;
  if negb ok then mret (- ENOMEM)
  else if hif_ops then mret 0
  else _ ← modify (set_table [] 0); mret (- ENOMEM).

End ops.
End Vif.
