(* ===== verification/VifReq.v ===== *)
(** * Reading interfaces (dp-core/vr_interface.c)

    The requests to get one interface and to dump all of them, and what answers to requests
    are sent.  A response is filled in place: a dump fills the same one for every interface. *)

From stdpp Require Import gmap.
From S2P Require Import Prelude Bits Queue Message VrfAssign VifBridge FlowEntry FatFlow VifState Vif.

Module VifReq.
Import VifState Vif Message.

Definition VR_CPU_MASK : Z := 255.

Section reading.
Context {T H : Type} `{SubTable T} `{HifOps T H} {ncpu : Cpus}.
Abbreviation vif := (vr_interface T).
Abbreviation prog := (prog T H).

(** The counters of a response: [i64] each, and one more for each CPU. *)
Record counters := mk_cnt { cnt : counter -> Z; cnt_lcore : list Z }.

(** The statistics of one CPU are added. *)
Definition vr_interface_add_response (n : Z) (c : counters) (s : vr_interface_stats) : option counters :=
  lcore ← (if n <=? 0 then Some (cnt_lcore c)
           else l ← vis_queue_ierrors_to_lcore s;
                if zlen l <? n then None else Some (zip_with (fun x y => s64 (x + y)) (cnt_lcore c) l));
  Some (mk_cnt (fun k => s64 (cnt c k + vis s k)) lcore).

Definition vif_get_stats (stats : list vr_interface_stats) (cpu : Z) : option vr_interface_stats :=
  zget stats (Z.land (u16 cpu) VR_CPU_MASK).

Fixpoint sum_cpus (n : Z) (stats : list vr_interface_stats) (cpus : list Z) (c : counters) : option counters :=
  match cpus with
  | [] => Some c
  | cpu :: cpus' =>
      s ← vif_get_stats stats cpu;
      c1 ← vr_interface_add_response n c s;
      sum_cpus n stats cpus' c1
  end.

(** The counters that a response has for [core]: all CPUs, one, or none. *)
Definition core_counters (n core : Z) (stats : list vr_interface_stats) (c : counters) : option counters :=
  if core =? UINT_MAX then sum_cpus n stats (seqZ 0 n) c
  else if core <? n then s ← vif_get_stats stats core; vr_interface_add_response n c s
  else Some c.

(** The ports that are both configured and set, as the request that configures them has them;
    protocols without ports are shown with protocol zero. *)
Definition fat_proto (i : Z) : Z :=
  if i =? FatFlow.VIF_FAT_FLOW_TCP_INDEX then VR_IP_PROTO_TCP
  else if i =? FatFlow.VIF_FAT_FLOW_UDP_INDEX then VR_IP_PROTO_UDP
  else if i =? FatFlow.VIF_FAT_FLOW_SCTP_INDEX then VR_IP_PROTO_SCTP
  else 0.

Fixpoint shown_ports (f : FatFlow.fat_vif) (i : Z) (ports : list Z) : option (list Z) :=
  match ports with
  | [] => Some []
  | p :: ports' =>
      b ← FatFlow.vif_fat_flow_port_is_set f i p;
      l ← shown_ports f i ports';
      Some (if (b : bool) then Z.lor (Z.shiftl (fat_proto i) 16) p :: l else l)
  end.

Fixpoint shown_protos (f : FatFlow.fat_vif) (idx : list Z) : option (list Z) :=
  match idx with
  | [] => Some []
  | i :: idx' =>
      n ← zget (FatFlow.vif_fat_flow_config_size f) i;
      ports ← (if n =? 0 then Some []
               else p ← zget (FatFlow.vif_fat_flow_config f) i; arr ← FatFlow.deref p;
                    if zlen arr <? n then None else Some (take (Z.to_nat n) arr));
      l1 ← shown_ports f i ports;
      l2 ← shown_protos f idx';
      Some (l1 ++ l2)
  end.

(** The array of the response, which was zeroed and has room for all. *)
Definition fill_ports (arr shown : list Z) : list Z := shown ++ drop (length shown) arr.

(** The index of a sub-interface in the table of its parent. *)
Definition bridge_idx (v : vif) (mac : list Z) : prog Z :=
  match vif_parent (vif_link v) with
  | None => mret (-1)
  | Some p =>
      pv ← load p;
      mret (match vif_btable (vif_link pv) with
            | None => -1
            | Some t => st_index t (vif_vlan_id (vif_link v)) mac
            end)
  end.

Definition parent_idx (v : vif) : prog Z :=
  match vif_parent (vif_link v) with
  | None => mret (-1)
  | Some p => pv ← load p; mret (vif_idx (vif_cfg pv))
  end.

(** The address fields: source address, its size, and the index of the sub-interface. *)
Definition src_mac_fields (r : vr_interface_req) (v : vif) : prog (option (list Z) * Z * Z) :=
  match vif_src_mac (vif_link v) with
  | None => mret (vifr_src_mac r, 0, vifr_bridge_idx r)
  | Some mac =>
      _ ← of_option (vifr_src_mac r);
      i ← bridge_idx v mac;
      mret (Some mac, VR_ETHER_ALEN, i)
  end.

Definition __vr_interface_make_req (r : vr_interface_req) (a : Z) (core : Z) : prog vr_interface_req :=
  v ← load a;
  let n := vr_num_cpus in
  h ← gets vr_host;
  let c := vif_cfg v in
  let s := vif_srv v in
  parent ← parent_idx v;
  '(src_mac, src_mac_size, bidx) ← src_mac_fields r v;
  lcore ← (if n <=? 0 then mret (default [] (vifr_queue_ierrors_to_lcore r)) else of_option (vifr_queue_ierrors_to_lcore r));
  _ ← assume (n <=? zlen lcore);
  stats0 ← of_option (vif_stats c);
  let stats := imap (fun cpu s => mk_vis (hif_stats_update v core h cpu (vis s)) (vis_queue_ierrors_to_lcore s)) stats0 in
  _ ← store a (on_cfg (set_stats (Some stats)));
  cs ← of_option (core_counters n core stats (mk_cnt (fun _ => 0) (replicate (Z.to_nat n) 0 ++ drop (Z.to_nat n) lcore)));
  let '(speed, duplex) :=
    if vif_type v =? VIF_TYPE_PHYSICAL then
      let '(ret, speed, duplex) := hif_get_settings v h in if ret =? 0 then (s32 speed, s32 duplex) else (-1, -1)
    else (-1, -1) in
  shown ← match vifr_fat_flow_protocol_port r with
          | Some _ => if vifr_fat_flow_protocol_port_size r =? 0 then mret [] else of_option (shown_protos (vif_fat v) FatFlow.protos)
          | None => mret []
          end;
  mret (mk_ifr core (vif_type v) (s32 (vif_flags v)) (VrfAssign.vif_vrf s) (vif_idx c) (vif_rid c) (s32 (vif_os_idx c)) (vif_mtu c)
    ((fun d => strncpy d (vif_name c) (VR_INTERFACE_NAME_LEN - 1)) <$> vifr_name r)
    (cnt cs) (Some (cnt_lcore cs)) (if core =? UINT_MAX then if n <=? 0 then vifr_queue_ierrors_to_lcore_size r else n
                                    else if core <? n then n else vifr_queue_ierrors_to_lcore_size r)
    (s32 (vif_users v)) (vifr_marker r)
    ((fun d => if vifr_mac_size r =? 0 then d
               else let k := Z.to_nat (Z.min (vifr_mac_size r) 6) in take k (vif_mac c) ++ drop k d) <$> vifr_mac r)
    (vifr_mac_size r) (vif_ip c) (vif_mirror_id c) speed duplex
    (if vif_type v =? VIF_TYPE_VIRTUAL_VLAN then s16 (vif_vlan_id (vif_link v)) else vifr_vlan_id r)
    parent (vifr_nh_id r) (vifr_cross_connect_idx r) src_mac src_mac_size bidx
    (if vif_type v =? VIF_TYPE_VIRTUAL_VLAN then s16 (vif_ovlan_id (vif_link v)) else vifr_ovlan_id r)
    (vif_transport c) ((fun arr => fill_ports arr shown) <$> vifr_fat_flow_protocol_port r)
    (vifr_fat_flow_protocol_port_size r) (vif_qos_map_index c)).

(** The array for the ports is the request's own. *)
Definition with_fat (p : option (list Z)) (n : Z) (r : vr_interface_req) : vr_interface_req :=
  mk_ifr (vifr_core r) (vifr_type r) (vifr_flags r) (vifr_vrf r) (vifr_idx r) (vifr_rid r) (vifr_os_idx r) (vifr_mtu r)
    (vifr_name r) (vifr_counters r) (vifr_queue_ierrors_to_lcore r) (vifr_queue_ierrors_to_lcore_size r) (vifr_ref_cnt r)
    (vifr_marker r) (vifr_mac r) (vifr_mac_size r) (vifr_ip r) (vifr_mir_id r) (vifr_speed r) (vifr_duplex r) (vifr_vlan_id r)
    (vifr_parent_vif_idx r) (vifr_nh_id r) (vifr_cross_connect_idx r) (vifr_src_mac r) (vifr_src_mac_size r)
    (vifr_bridge_idx r) (vifr_ovlan_id r) (vifr_transport r) p n (vifr_qos_map_index r).

Definition vr_interface_req_free_fat_flow_config (r : vr_interface_req) : vr_interface_req :=
  match vifr_fat_flow_protocol_port r with Some _ => with_fat None 0 r | None => r end.

(** When there is no memory for the ports the response stays as it was. *)
Definition vr_interface_make_req (r : vr_interface_req) (a : Z) (core : Z) : prog (Z * vr_interface_req) :=
  v ← load a;
  let size := u32 (foldr Z.add 0 (FatFlow.vif_fat_flow_config_size (vif_fat v))) in
  if size =? 0 then r1 ← __vr_interface_make_req r a core; mret (0, r1)
  else
    ok ← malloc;
    if (ok : bool) then
      r1 ← __vr_interface_make_req (with_fat (Some (replicate (Z.to_nat size) 0)) size r) a core;
      mret (0, r1)
    else mret (- ENOMEM, with_fat None (vifr_fat_flow_protocol_port_size r) r).

(** ** Requests *)

(** The result, and the response that goes with it. *)
Definition interface_get (req : vr_interface_req) : prog (Z * option vr_interface_req) :=
  max ← gets vr_max_interfaces;
  o ← (if max <=? u32 (vifr_idx req) then __vrouter_get_interface_os (u32 (vifr_os_idx req))
       else __vrouter_get_interface (u32 (vifr_idx req)));
  match o with
  | None => mret (- ENOENT, None)
  | Some a =>
      resp ← vr_interface_req_get;
      match resp with
      | None => mret (- ENOMEM, None)
      | Some r => '(_, r1) ← vr_interface_make_req r a (u32 (vifr_core req - 1)); mret (0, Some r1)
      end
  end.

Section messages.
Context `{Sandesh vr_interface_req}.

Fixpoint dump_loop (h : vr_message_handler) (idx : list Z) (core : Z) (r : vr_interface_req) (ret : Z)
    (d : vr_message_dumper vr_interface_req) : prog (Z * vr_message_dumper vr_interface_req) :=
  match idx with
  | [] => mret (ret, d)
  | i :: idx' =>
      o ← table_at i;
      match o with
      | None => dump_loop h idx' core (vr_interface_req_free_fat_flow_config r) ret d
      | Some a =>
          '(_, r1) ← vr_interface_make_req r a core;
          let '(ret1, d1) := vr_message_dump_object h d VR_INTERFACE_OBJECT_ID r1 in
          if ret1 <=? 0 then mret (ret1, d1)
          else dump_loop h idx' core (vr_interface_req_free_fat_flow_config r1) ret1 d1
      end
  end.

Definition vr_interface_get (req : vr_interface_req) (h : vr_message_handler) : prog vr_message_handler :=
  '(ret, resp) ← interface_get req;
  '(_, h1) ← of_option (vr_message_response 2 VR_INTERFACE_OBJECT_ID (if ret =? 0 then resp else None) ret h);
  mret h1.

Definition vr_interface_dump (req : vr_interface_req) (h : vr_message_handler) : prog vr_message_handler :=
  max ← gets vr_max_interfaces;
  let first := u32 (vifr_marker req + 1) in
  if max <=? first then of_option (vr_message_dump_exit 2 (None : option (vr_message_dumper vr_interface_req)) 0 h)
  else
    match vr_message_dump_init req h with
    | (None, h1) => of_option (vr_message_dump_exit 2 (None : option (vr_message_dumper vr_interface_req)) (- ENOMEM) h1)
    | (Some d, h1) =>
        resp ← vr_interface_req_get;
        match resp with
        | None => of_option (vr_message_dump_exit 2 (Some d) (- ENOMEM) h1)
        | Some r =>
            '(ret, d1) ← dump_loop h1 (seqZ first (max - first)) (u32 (vifr_core req - 1)) r 0 d;
            of_option (vr_message_dump_exit 2 (Some d1) ret h1)
        end
    end.

(** An answer that has only the code. *)
Definition respond (ret : Z) (h : vr_message_handler) : prog vr_message_handler :=
  '(_, h1) ← of_option (vr_send_response (Obj := vr_interface_req) 2 ret h);
  mret h1.

Definition vr_interface_req_process (op : sandesh_op) (req : vr_interface_req) (h : vr_message_handler)
    : prog vr_message_handler :=
  match op with
  | SANDESH_OP_ADD => ret ← vr_interface_add req; respond ret h
  | SANDESH_OP_GET => vr_interface_get req h
  | SANDESH_OP_DEL => ret ← vr_interface_delete req; respond ret h
  | SANDESH_OP_DUMP => vr_interface_dump req h
  | _ => respond (- EOPNOTSUPP) h
  end.

End messages.
End reading.
End VifReq.
