(* ===== verification/VifInv.v ===== *)
(** * Pointers between interfaces

    The invariant of the interface module, in three parts: what every interface is by itself,
    that the pointers between interfaces lead to interfaces that are there and agree with each
    other, and that an interface has at least as many users as there are references to it.
    [wp] is the weakest precondition of a program: it has a result, so it does not touch memory
    that is not there, and the result is as it should be. *)

From stdpp Require Import gmap.
From S2P Require Import Prelude Bits VrfAssign VifBridge FatFlow FatFlowProofs VifState Vif.

Module VifInv.
Import VifState Vif.

(** ** Programs *)

Section wp.
Context {T H : Type}.
Abbreviation prog := (prog T H).
Abbreviation router := (world T H).

Definition wp {A} (m : prog A) (Q : A -> router -> Prop) (w : router) : Prop :=
  exists x w', m w = Some (x, w') /\ Q x w'.

Lemma wp_ret {A} (x : A) Q w : Q x w -> wp (mret x) Q w.
Proof. intros HQ. by exists x, w. Qed.

Lemma wp_bind {A B} (m : prog A) (k : A -> prog B) Q w : wp m (fun x w' => wp (k x) Q w') w -> wp (m ≫= k) Q w.
Proof.
  intros (x & w1 & Hm & y & w2 & Hk & HQ). exists y, w2. split; [|done].
  unfold mbind, prog_bind. rewrite Hm. exact Hk.
Qed.

Lemma wp_mono {A} (m : prog A) (P Q : A -> router -> Prop) w :
  wp m P w -> (forall x w', P x w' -> Q x w') -> wp m Q w.
Proof. intros (x & w' & Hm & HP) HPQ. exists x, w'. auto. Qed.

(** A program whose result is known. *)
Lemma wp_run {A} (m : prog A) (Q : A -> router -> Prop) w x w' : wp m Q w -> m w = Some (x, w') -> Q x w'.
Proof. intros (y & w1 & Hm & HQ) Hr. congruence. Qed.

Lemma wp_gets {A} (f : router -> A) Q w : Q (f w) w -> wp (gets f) Q w.
Proof. intros HQ. by exists (f w), w. Qed.

Lemma wp_modify f (Q : unit -> router -> Prop) w : Q tt (f w) -> wp (modify f) Q w.
Proof. intros HQ. by exists tt, (f w). Qed.

Lemma wp_load a v (Q : vr_interface T -> router -> Prop) w : vr_heap w !! a = Some v -> Q v w -> wp (load a) Q w.
Proof. intros Hv HQ. exists v, w. unfold load. by rewrite Hv. Qed.

Lemma wp_store a f v (Q : unit -> router -> Prop) w :
  vr_heap w !! a = Some v -> Q tt (set_heap (<[a := f v]> (vr_heap w)) w) -> wp (store a f) Q w.
Proof. intros Hv HQ. eexists _, _. unfold store. by rewrite Hv. Qed.

Lemma wp_of_option {A} (x : A) o (Q : A -> router -> Prop) w : o = Some x -> Q x w -> wp (of_option o) Q w.
Proof. intros -> HQ. by exists x, w. Qed.

Lemma wp_assume b (Q : unit -> router -> Prop) w : b = true -> Q tt w -> wp (assume b) Q w.
Proof. intros -> HQ. by exists tt, w. Qed.

Lemma wp_free a (Q : unit -> router -> Prop) w : Q tt (set_heap (delete a (vr_heap w)) w) -> wp (free_vif a) Q w.
Proof. intros HQ. by eexists _, _. Qed.

(** Memory does not run out. *)
Lemma wp_malloc (Q : bool -> router -> Prop) w : vr_mem w = [] -> Q true w -> wp malloc Q w.
Proof. intros Hm HQ. exists true, w. unfold malloc. rewrite Hm. split; [|done]. by destruct w; cbn in *; subst. Qed.

(** Loops with an invariant that holds at every index. *)
Lemma wp_for_each body l (I : router -> Prop) w :
  I w -> (forall i w, i ∈ l -> I w -> wp (body i) (fun _ => I) w) -> wp (for_each body l) (fun _ => I) w.
Proof.
  revert w. induction l as [|i l IH]; intros w Hw Hb; [by apply wp_ret|]. cbn [for_each]. apply wp_bind.
  eapply wp_mono; [apply Hb; [by left|done]|]. intros [] w1 H1. apply IH; [done|]. intros j w2 Hj. apply Hb. by right.
Qed.

(** A search that reads: the state stays. *)
Lemma wp_search {A} (body : Z -> prog (option A)) l (P : A -> Prop) w :
  (forall i, i ∈ l -> wp (body i) (fun o w' => w' = w /\ forall x, o = Some x -> P x) w) ->
  wp (search body l) (fun o w' => w' = w /\ forall x, o = Some x -> P x) w.
Proof.
  induction l as [|i l IH]; intros Hb; [by apply wp_ret|]. cbn [search]. apply wp_bind.
  eapply wp_mono; [apply Hb; by left|]. intros [x|] w1 [-> Hx]; [apply wp_ret; split; [done|]; intros y [= <-]; by apply Hx|].
  apply IH. intros j Hj. apply Hb. by right.
Qed.

End wp.

(** One step of a program: its first command is a binding. *)
Ltac wbind := apply wp_bind.

(** ** Counting references *)

Section counts.
Context {T : Type}.
Implicit Types (h : gmap Z (vr_interface T)) (v : vr_interface T) (a b : Z).

Definition parent_of v : option Z := vif_parent (vif_link v).

(** The interfaces whose parent is [b]. *)
Definition kids h b : Z := Z.of_nat (size (filter (fun kv => parent_of kv.2 = Some b) h)).

Lemma kids_nonneg h b : 0 <= kids h b.
Proof. unfold kids. lia. Qed.

Lemma kids_fresh h a v b : h !! a = None -> kids (<[a := v]> h) b = kids h b + Z.b2z (bool_decide (parent_of v = Some b)).
Proof.
  intros Ha. unfold kids. case_bool_decide as Hp.
  - rewrite map_filter_insert_True by done. rewrite map_size_insert_None; [cbn; lia|].
    apply map_lookup_filter_None. by left.
  - rewrite map_filter_insert_False by done. rewrite delete_id by done. cbn. lia.
Qed.

Lemma kids_delete h a v b : h !! a = Some v -> kids (delete a h) b = kids h b - Z.b2z (bool_decide (parent_of v = Some b)).
Proof.
  intros Ha. rewrite <- (insert_delete_id h a v Ha) at 2. rewrite kids_fresh by apply lookup_delete_eq. lia.
Qed.

Lemma kids_insert h a v v' b : h !! a = Some v ->
  kids (<[a := v']> h) b = kids h b - Z.b2z (bool_decide (parent_of v = Some b)) + Z.b2z (bool_decide (parent_of v' = Some b)).
Proof.
  intros Ha. rewrite <- insert_delete_eq, kids_fresh by apply lookup_delete_eq. by rewrite (kids_delete h a v).
Qed.

Lemma kids_same h a v v' b : h !! a = Some v -> parent_of v' = parent_of v -> kids (<[a := v']> h) b = kids h b.
Proof. intros Ha Hp. rewrite (kids_insert h a v) by done. rewrite Hp. lia. Qed.

(** Only parents matter. *)
Lemma kids_fmap h b : kids h b = Z.of_nat (size (filter (fun kv => kv.2 = Some b) (parent_of <$> h))).
Proof. unfold kids. by rewrite map_filter_fmap, map_size_fmap. Qed.

Lemma kids_pos h a v b : h !! a = Some v -> parent_of v = Some b -> 1 <= kids h b.
Proof.
  intros Ha Hp. pose proof (kids_delete h a v b Ha) as Hd. rewrite bool_decide_true in Hd by done.
  pose proof (kids_nonneg (delete a h) b). cbn in Hd. lia.
Qed.

(** The places of [a] in the table. *)
Definition places (t : list (option Z)) (a : Z) : Z := zlen (filter (fun o => o = Some a) t).

Lemma places_nonneg t a : 0 <= places t a.
Proof. unfold places, zlen. lia. Qed.

Lemma places_set t i o o' a : zget t i = Some o ->
  places (zset t i o') a = places t a - Z.b2z (bool_decide (o = Some a)) + Z.b2z (bool_decide (o' = Some a)).
Proof.
  unfold places, zget, zset, zlen. destruct (decide (0 <= i)) as [Hi|Hi]; [|done].
  generalize (Z.to_nat i) as k. intros k Hk.
  rewrite insert_take_drop by (by eapply lookup_lt_Some).
  assert (Ht : filter (fun o => o = Some a) t = filter (fun o => o = Some a) (take k t ++ o :: drop (S k) t))
    by (by rewrite take_drop_middle). rewrite Ht.
  rewrite !filter_app, !filter_cons, !length_app. repeat case_bool_decide; repeat case_decide; cbn; try lia; congruence.
Qed.

Lemma places_pos t i a : zget t i = Some (Some a) -> 1 <= places t a.
Proof.
  intros Hi. pose proof (places_set t i _ None a Hi) as Hs.
  rewrite bool_decide_true, (bool_decide_false (None = Some a)) in Hs by done. cbn in Hs.
  pose proof (places_nonneg (zset t i None) a). lia.
Qed.

End counts.

(** ** The invariant *)

Section inv.
Context {T H : Type} `{SubTableLaws T} `{HifOps T H} {ncpu : Cpus}.
Abbreviation vif := (vr_interface T).
Abbreviation router := (world T H).
Implicit Types (w : router) (v : vif) (a b c p : Z).

Definition in_table w a : Prop := exists i, zget (vr_interfaces w) i = Some (Some a).

(** Ports that the configuration can keep; see [FatFlowProofs]. *)
Definition fat_good (f : FatFlow.fat_vif) : Prop :=
  exists cfg, FatFlowProofs.fat_ok f cfg /\ forall i, 0 <= i < 4 -> FatFlowProofs.good (cfg i).

(** One block for each CPU, with one counter for each. *)
Definition stats_ok (o : option (list vr_interface_stats)) : Prop :=
  exists st, o = Some st /\ length st = Z.to_nat vr_num_cpus /\
    Forall (fun s => exists l, vis_queue_ierrors_to_lcore s = Some l /\ length l = Z.to_nat vr_num_cpus) st.

(** An interface by itself. *)
Record solo v : Prop := {
  so_stats : stats_ok (vif_stats (vif_cfg v));
  so_fat : fat_good (vif_fat v);
  so_type : is_Some (vif_drivers (vif_type v));
  so_vlan : vlan_ok (vif_vlan_id (vif_link v));
  so_mac : forall mac, vif_src_mac (vif_link v) = Some mac -> mac_ok mac;
  so_sub : vif_driver (vif_link v) <> Some eth_driver ->
    vif_sub_interfaces (vif_link v) = None /\ vif_btable (vif_link v) = None;
  so_child : forall p, vif_parent (vif_link v) = Some p ->
    vif_type v = VIF_TYPE_VIRTUAL_VLAN /\ vif_vlan_id (vif_link v) < VLAN_ID_MAX
}.

(** The stages of an operation: [X] is an interface that has no driver yet, [Y] one that was
    taken from the table while pointers to it are left, and the interfaces in [D] are in no
    table of sub-interfaces.  [held] are the references that others hold. *)
Record stage := mk_stage {
  st_held : Z -> Z;
  st_new : option Z;
  st_out : option Z;
  st_det : Z -> Prop
}.

Definition anchored (g : stage) w a : Prop := in_table w a \/ st_out g = Some a.

(** [c] is a sub-interface of [p], with this tag and source address. *)
Definition child_of (g : stage) w p vlan (mac : option (list Z)) c : Prop :=
  ~ st_det g c /\ in_table w c /\ exists v, vr_heap w !! c = Some v /\
    vif_parent (vif_link v) = Some p /\ vif_vlan_id (vif_link v) = vlan /\ vif_src_mac (vif_link v) = mac.

Record linked (g : stage) w a v : Prop := {
  li_parent : forall p, vif_parent (vif_link v) = Some p ->
    p <> a /\ exists pv, vr_heap w !! p = Some pv /\ is_Some (vif_driver (vif_link pv));
  li_sub : forall m vlan c, vif_sub_interfaces (vif_link v) = Some m -> m !! vlan = Some c -> child_of g w a vlan None c;
  li_table : forall t, vif_btable (vif_link v) = Some t ->
    exists m, st_rep t m /\ forall vlan mac c, m !! (vlan, mac) = Some c -> child_of g w a vlan (Some mac) c
}.

(** The two ends of a bridge point to each other. *)
Definition bridges (g : stage) w : Prop :=
  forall a v b, vr_heap w !! a = Some v -> vif_bridge (vif_link v) = Some b ->
    anchored g w a /\ (vif_type v = VIF_TYPE_HOST \/ vif_type v = VIF_TYPE_PHYSICAL) /\
    exists bv, vr_heap w !! b = Some bv /\ vif_bridge (vif_link bv) = Some a.

Definition refs (g : stage) w a : Z := st_held g a + places (vr_interfaces w) a + kids (vr_heap w) a.

(** A pointer of the router to an interface of some type. *)
Definition points (g : stage) w (o : option Z) (type : Z) : Prop :=
  forall a, o = Some a -> anchored g w a /\ exists v, vr_heap w !! a = Some v /\ vif_type v = type.

Record base (g : stage) w : Prop := {
  i_mem : vr_mem w = [];
  i_len : zlen (vr_interfaces w) = vr_max_interfaces w;
  i_max : vr_max_interfaces w <= VR_MAX_INTERFACES;
  i_tab : forall i a, zget (vr_interfaces w) i = Some (Some a) -> exists v, vr_heap w !! a = Some v /\
    vif_idx (vif_cfg v) = i /\ (st_new g = Some a \/ is_Some (vif_driver (vif_link v)));
  i_next : forall a v, vr_heap w !! a = Some v -> a < vr_next w;
  i_users : forall a v, vr_heap w !! a = Some v -> refs g w a <= vif_users v <= UINT_MAX;
  i_held : forall a, 0 <= st_held g a /\ (0 < st_held g a -> is_Some (vr_heap w !! a));
  i_out : forall a, st_out g = Some a -> is_Some (vr_heap w !! a);
  i_solo : forall a v, vr_heap w !! a = Some v -> solo v;
  i_linked : forall a v, vr_heap w !! a = Some v -> linked g w a v;
  i_agent : points g w (vr_agent_if w) VIF_TYPE_AGENT;
  i_host : points g w (vr_host_if w) VIF_TYPE_HOST;
  i_eth : points g w (vr_eth_if w) VIF_TYPE_PHYSICAL
}.

Record inv (g : stage) w : Prop := {
  i_base :> base g w;
  i_bridges : bridges g w
}.

(** ** Updates *)

Definition put_vif a v w : router := set_heap (<[a := v]> (vr_heap w)) w.

(** What a parent's tables say of a sub-interface. *)
Definition sig v : option Z * Z * option (list Z) :=
  (vif_parent (vif_link v), vif_vlan_id (vif_link v), vif_src_mac (vif_link v)).

(** What others rely on when [v] becomes [v']. *)
Record compat (g : stage) a v v' : Prop := {
  co_type : vif_type v' = vif_type v;
  co_idx : vif_idx (vif_cfg v') = vif_idx (vif_cfg v);
  co_driver : is_Some (vif_driver (vif_link v)) -> is_Some (vif_driver (vif_link v'));
  co_sig : sig v' = sig v \/ st_det g a \/ vif_parent (vif_link v) = None
}.

Lemma child_upd g w a v v' p vlan mac c :
  vr_heap w !! a = Some v -> compat g a v v' -> child_of g w p vlan mac c -> child_of g (put_vif a v' w) p vlan mac c.
Proof.
  intros Hv Hc (Hd & Ht & cv & Hcv & Hp & Hl & Hm). split; [done|]. split; [done|].
  destruct (decide (c = a)) as [->|Hne]; [|exists cv; cbn; by rewrite lookup_insert_ne].
  exists v'. cbn. rewrite lookup_insert_eq. split; [done|]. assert (cv = v) as -> by congruence.
  destruct (co_sig _ _ _ _ Hc) as [Hs|[Hs|Hs]]; [|done|congruence].
  unfold sig in Hs. injection Hs as -> -> ->. done.
Qed.

Lemma in_table_put a v w c : in_table (put_vif a v w) c <-> in_table w c.
Proof. done. Qed.

Lemma points_upd g w a v v' o type :
  vr_heap w !! a = Some v -> vif_type v' = vif_type v -> points g w o type -> points g (put_vif a v' w) o type.
Proof.
  intros Hv Ht Hp c Hc. destruct (Hp c Hc) as (Ha & cv & Hcv & Hy). split; [done|].
  destruct (decide (c = a)) as [->|Hne]; [|exists cv; cbn; by rewrite lookup_insert_ne].
  exists v'. cbn. rewrite lookup_insert_eq. split; [done|]. congruence.
Qed.

(** The tables of sub-interfaces of [v], in the state [w]. *)
Definition tables_ok (g : stage) w a v : Prop :=
  (forall m vlan c, vif_sub_interfaces (vif_link v) = Some m -> m !! vlan = Some c -> child_of g w a vlan None c) /\
  (forall t, vif_btable (vif_link v) = Some t ->
    exists m, st_rep t m /\ forall vlan mac c, m !! (vlan, mac) = Some c -> child_of g w a vlan (Some mac) c).

Lemma tables_upd g w a v v' b bv :
  vr_heap w !! a = Some v -> compat g a v v' -> tables_ok g w b bv -> tables_ok g (put_vif a v' w) b bv.
Proof.
  intros Hv Hc [Hs Ht]. split.
  - intros m vlan c Hm Hl. apply (child_upd g w a v); try done. by apply (Hs m).
  - intros t Hb. destruct (Ht t Hb) as (m & Hm & Hl). exists m. split; [done|]. intros vlan mac c Hk.
    apply (child_upd g w a v); try done. by apply Hl.
Qed.

Lemma parent_upd w a v v' p :
  vr_heap w !! a = Some v -> (is_Some (vif_driver (vif_link v)) -> is_Some (vif_driver (vif_link v'))) ->
  (exists pv, vr_heap w !! p = Some pv /\ is_Some (vif_driver (vif_link pv))) ->
  exists pv, vr_heap (put_vif a v' w) !! p = Some pv /\ is_Some (vif_driver (vif_link pv)).
Proof.
  intros Hv Hd (pv & Hp & Hi). destruct (decide (p = a)) as [->|Hne]; cbn.
  - exists v'. rewrite lookup_insert_eq. split; [done|]. apply Hd. congruence.
  - exists pv. by rewrite lookup_insert_ne.
Qed.

Lemma bridge_upd w a v v' b c :
  vr_heap w !! a = Some v -> vif_bridge (vif_link v') = vif_bridge (vif_link v) ->
  (exists bv, vr_heap w !! b = Some bv /\ vif_bridge (vif_link bv) = Some c) ->
  exists bv, vr_heap (put_vif a v' w) !! b = Some bv /\ vif_bridge (vif_link bv) = Some c.
Proof.
  intros Hv Hd (bv & Hb & Hi). destruct (decide (b = a)) as [->|Hne]; cbn.
  - exists v'. rewrite lookup_insert_eq. split; [done|]. congruence.
  - exists bv. by rewrite lookup_insert_ne.
Qed.

Lemma linked_link g w a v v' b bv :
  vr_heap w !! a = Some v -> compat g a v v' -> linked g w b bv -> linked g (put_vif a v' w) b bv.
Proof.
  intros Hv Hc [Lp Ls Lt].
  destruct (tables_upd g w a v v' b bv Hv Hc (conj Ls Lt)) as [Hs Ht]. split; [|exact Hs|exact Ht].
  intros p Hp. destruct (Lp p Hp) as [Hne Hx]. split; [done|]. apply (parent_upd w a v); [done|apply Hc|done].
Qed.

(** Links do not depend on who holds references. *)
Lemma linked_stage g g' w a v :
  st_out g' = st_out g -> st_det g' = st_det g -> linked g w a v -> linked g' w a v.
Proof. intros Ho Hd [Lp Ls Lt]. split; unfold child_of, anchored in *; by rewrite ?Ho, ?Hd. Qed.

(** The general update: one interface, and the references that are held. *)
Lemma base_upd g held w a v v' (g' := mk_stage held (st_new g) (st_out g) (st_det g)) (w' := put_vif a v' w) :
  base g w -> vr_heap w !! a = Some v -> compat g a v v' -> solo v' ->
  (forall p, vif_parent (vif_link v') = Some p -> p <> a /\ exists pv, vr_heap w !! p = Some pv /\ is_Some (vif_driver (vif_link pv))) ->
  tables_ok g w a v' ->
  (forall c, 0 <= held c /\ (0 < held c -> is_Some (vr_heap w !! c))) ->
  refs g' w' a <= vif_users v' <= UINT_MAX ->
  (forall c cv, c <> a -> vr_heap w !! c = Some cv -> refs g' w' c <= refs g w c) ->
  base g' w'.
Proof.
  intros Hi Hv Hc Hso Hpar Htab Hheld Hua Huo.
  assert (Hdom : forall c, is_Some (vr_heap w !! c) -> is_Some (vr_heap w' !! c)).
  { intros c Hs. cbn. destruct (decide (c = a)) as [->|Hne]; [by rewrite lookup_insert_eq|by rewrite lookup_insert_ne]. }
  split; try apply Hi.
  - intros i c Hz. destruct (i_tab _ _ Hi i c Hz) as (cv & Hcv & Hx & Hd). cbn.
    destruct (decide (c = a)) as [->|Hne]; [|exists cv; by rewrite lookup_insert_ne].
    assert (cv = v) as -> by congruence. exists v'. rewrite lookup_insert_eq. split; [done|].
    split; [by rewrite (co_idx _ _ _ _ Hc)|]. destruct Hd as [Hd|Hd]; [by left|right; by apply Hc].
  - intros c cv. cbn. destruct (decide (c = a)) as [->|Hne].
    + intros _. by apply (i_next _ _ Hi a v).
    + rewrite lookup_insert_ne by done. by apply (i_next _ _ Hi).
  - intros c cv. cbn. destruct (decide (c = a)) as [->|Hne].
    + rewrite lookup_insert_eq. by intros [= <-].
    + rewrite lookup_insert_ne by done. intros Hcv. pose proof (i_users _ _ Hi c cv Hcv). pose proof (Huo c cv Hne Hcv). lia.
  - intros c. destruct (Hheld c) as [? Hl]. split; [done|]. intros Hpos. by apply Hdom, Hl.
  - intros c Hc'. by apply Hdom, (i_out _ _ Hi).
  - intros c cv. cbn. destruct (decide (c = a)) as [->|Hne].
    + rewrite lookup_insert_eq. by intros [= <-].
    + rewrite lookup_insert_ne by done. by apply (i_solo _ _ Hi).
  - intros c cv. cbn. destruct (decide (c = a)) as [->|Hne].
    + rewrite lookup_insert_eq. intros [= <-]. apply (linked_stage g); [done..|]. destruct (tables_upd g w a v v' a v' Hv Hc Htab) as [Hs Ht].
      split; [|exact Hs|exact Ht].
      intros p Hp. destruct (Hpar p Hp) as [Hne Hx]. split; [done|]. apply (parent_upd w a v); [done|apply Hc|done].
    + rewrite lookup_insert_ne by done. intros Hcv. apply (linked_stage g); [done..|]. apply (linked_link g w a v); try done. by apply (i_linked _ _ Hi).
  - apply (points_upd g w a v); [done|apply Hc|apply Hi].
  - apply (points_upd g w a v); [done|apply Hc|apply Hi].
  - apply (points_upd g w a v); [done|apply Hc|apply Hi].
Qed.

Lemma bridges_upd g g' w a v v' :
  bridges g w -> vr_heap w !! a = Some v -> vif_bridge (vif_link v') = vif_bridge (vif_link v) -> vif_type v' = vif_type v ->
  st_out g' = st_out g -> bridges g' (put_vif a v' w).
Proof.
  intros Hb Hv Hs Ht Ho c cv b Hcv Hcb.
  assert (Hx : exists cv0, vr_heap w !! c = Some cv0 /\ vif_bridge (vif_link cv0) = Some b /\ vif_type cv0 = vif_type cv).
  { revert Hcv. cbn. destruct (decide (c = a)) as [->|Hne].
    - rewrite lookup_insert_eq. intros [= <-]. exists v. split; [done|]. split; congruence.
    - rewrite lookup_insert_ne by done. intros Hcv. by exists cv. }
  destruct Hx as (cv0 & Hcv0 & Hcb0 & Ht0). destruct (Hb c cv0 b Hcv0 Hcb0) as (B1 & B2 & B3).
  unfold anchored. rewrite Ho, <- Ht0. split; [done|]. split; [done|]. by apply (bridge_upd w a v).
Qed.

(** The usual update keeps the bridge. *)
Lemma inv_upd g held w a v v' (g' := mk_stage held (st_new g) (st_out g) (st_det g)) (w' := put_vif a v' w) :
  inv g w -> vr_heap w !! a = Some v -> compat g a v v' -> vif_bridge (vif_link v') = vif_bridge (vif_link v) -> solo v' ->
  (forall p, vif_parent (vif_link v') = Some p -> p <> a /\ exists pv, vr_heap w !! p = Some pv /\ is_Some (vif_driver (vif_link pv))) ->
  tables_ok g w a v' ->
  (forall c, 0 <= held c /\ (0 < held c -> is_Some (vr_heap w !! c))) ->
  refs g' w' a <= vif_users v' <= UINT_MAX ->
  (forall c cv, c <> a -> vr_heap w !! c = Some cv -> refs g' w' c <= refs g w c) ->
  inv g' w'.
Proof.
  intros Hi Hv Hc Hb Hso Hpar Htab Hheld Hua Huo. split.
  - apply (base_upd g _ w a v); try done; apply Hi.
  - apply (bridges_upd g _ w a v); [apply Hi|done|done|apply Hc|done].
Qed.

(** ** What requests configure *)

Record vif_conf := mk_conf {
  cf_type : Z;
  cf_rid : Z;
  cf_transport : Z;
  cf_vrf : Z;
  cf_nh_id : Z;
  cf_mac : list Z;
  cf_ip : Z;
  cf_qos : Z;
  cf_mirror : Z
}.

Definition conf_of v : vif_conf :=
  mk_conf (vif_type v) (vif_rid (vif_cfg v)) (vif_transport (vif_cfg v)) (VrfAssign.vif_vrf (vif_srv v))
    (VrfAssign.vif_nh_id (vif_srv v)) (vif_mac (vif_cfg v)) (vif_ip (vif_cfg v)) (vif_qos_map_index (vif_cfg v))
    (vif_mirror_id (vif_cfg v)).

(** The configuration by index. *)
Definition vview w (i : Z) : option vif_conf :=
  o ← zget (vr_interfaces w) i; a ← o; conf_of <$> vr_heap w !! a.

Definition same_view w w' : Prop := forall i, vview w' i = vview w i.

#[export] Instance same_view_equiv : Equivalence same_view.
Proof.
  split.
  - by intros w i.
  - intros w w' E i. by rewrite E.
  - intros w1 w2 w3 E1 E2 i. by rewrite E2, E1.
Qed.

(** ** Changes that nobody sees *)

Record quiet v v' : Prop := {
  q_link : vif_link v' = vif_link v;
  q_users : vif_users v' = vif_users v;
  q_idx : vif_idx (vif_cfg v') = vif_idx (vif_cfg v);
  q_fat : vif_fat v' = vif_fat v;
  q_stats : stats_ok (vif_stats (vif_cfg v)) -> stats_ok (vif_stats (vif_cfg v'));
  q_conf : conf_of v' = conf_of v
}.

#[export] Instance quiet_preorder : PreOrder quiet.
Proof.
  split.
  - by intros v.
  - intros v1 v2 v3 [] []. split; solve [congruence|auto].
Qed.

Record calm w w' : Prop := {
  ca_heap : forall a, option_Forall2 quiet (vr_heap w !! a) (vr_heap w' !! a);
  ca_table : vr_interfaces w' = vr_interfaces w;
  ca_max : vr_max_interfaces w' = vr_max_interfaces w;
  ca_next : vr_next w' = vr_next w;
  ca_agent : vr_agent_if w' = vr_agent_if w;
  ca_host : vr_host_if w' = vr_host_if w;
  ca_eth : vr_eth_if w' = vr_eth_if w;
  ca_mem : vr_mem w' = vr_mem w
}.

#[export] Instance calm_preorder : PreOrder calm.
Proof.
  split.
  - intros w. by split.
  - intros w1 w2 w3 C1 C2. split; try (destruct C1, C2; congruence).
    intros a. etransitivity; [apply (ca_heap _ _ C1)|apply (ca_heap _ _ C2)].
Qed.

Lemma calm_lookup w w' a v : calm w w' -> vr_heap w !! a = Some v -> exists v', vr_heap w' !! a = Some v' /\ quiet v v'.
Proof. intros Hc Hv. pose proof (ca_heap _ _ Hc a) as Ha. rewrite Hv in Ha. inversion Ha. eauto. Qed.

Lemma calm_back w w' a v' : calm w w' -> vr_heap w' !! a = Some v' -> exists v, vr_heap w !! a = Some v /\ quiet v v'.
Proof. intros Hc Hv. pose proof (ca_heap _ _ Hc a) as Ha. rewrite Hv in Ha. inversion Ha. eauto. Qed.

Lemma calm_dom w w' a : calm w w' -> is_Some (vr_heap w !! a) <-> is_Some (vr_heap w' !! a).
Proof. intros Hc. destruct (ca_heap _ _ Hc a); split; intros [? ?]; by eauto. Qed.

Lemma calm_put a v v' w : vr_heap w !! a = Some v -> quiet v v' -> calm w (put_vif a v' w).
Proof.
  intros Hv Hq. split; try done. intros c. cbn. destruct (decide (c = a)) as [->|Hne].
  - rewrite Hv, lookup_insert_eq. by constructor.
  - rewrite lookup_insert_ne by done. reflexivity.
Qed.

Lemma quiet_type v v' : quiet v v' -> vif_type v' = vif_type v.
Proof. intros Hq. apply (f_equal cf_type (q_conf _ _ Hq)). Qed.

Lemma quiet_solo v v' : quiet v v' -> solo v -> solo v'.
Proof.
  intros Hq [S1 S2 S3 S4 S5 S6 S7]. split; rewrite ?(quiet_type _ _ Hq), ?(q_link _ _ Hq), ?(q_fat _ _ Hq); [by apply Hq|done..].
Qed.

Lemma calm_kids w w' a : calm w w' -> kids (vr_heap w') a = kids (vr_heap w) a.
Proof.
  intros Hc. rewrite !kids_fmap. do 3 f_equal. apply map_eq. intros c. rewrite !lookup_fmap.
  destruct (ca_heap _ _ Hc c) as [v v' Hq|]; [|done]. cbn. unfold parent_of. by rewrite (q_link _ _ Hq).
Qed.

Lemma calm_child g w w' p vlan mac c : calm w w' -> child_of g w p vlan mac c -> child_of g w' p vlan mac c.
Proof.
  intros Hc (Hd & [i Ht] & v & Hv & Hs). destruct (calm_lookup _ _ _ _ Hc Hv) as (v' & Hv' & Hq).
  split; [done|]. split; [exists i; by rewrite (ca_table _ _ Hc)|]. exists v'. by rewrite (q_link _ _ Hq).
Qed.

Lemma calm_anchored g w w' a : calm w w' -> anchored g w a -> anchored g w' a.
Proof. intros Hc [[i Hi]|Ho]; [left; exists i; by rewrite (ca_table _ _ Hc)|by right]. Qed.

Lemma calm_linked g w w' a v v' : calm w w' -> quiet v v' -> linked g w a v -> linked g w' a v'.
Proof.
  intros Hc Hq [Lp Ls Lt]. split; rewrite (q_link _ _ Hq).
  - intros p Hp. destruct (Lp p Hp) as (Hne & pv & Hpv & Hd). destruct (calm_lookup _ _ _ _ Hc Hpv) as (pv' & Hpv' & Hq').
    split; [done|].
    exists pv'. by rewrite (q_link _ _ Hq').
  - intros m vlan c Hm Hl. apply (calm_child g w); [done|]. by apply (Ls m).
  - intros t Ht. destruct (Lt t Ht) as (m & Hm & Hl). exists m. split; [done|]. intros vlan mac c Hk.
    apply (calm_child g w); [done|]. by apply Hl.
Qed.

Lemma calm_points g w w' o type : calm w w' -> points g w o type -> points g w' o type.
Proof.
  intros Hc Hp a Ha. destruct (Hp a Ha) as (H3 & v & Hv & Ht). destruct (calm_lookup _ _ _ _ Hc Hv) as (v' & Hv' & Hq).
  split; [by apply (calm_anchored g w)|]. exists v'. by rewrite (quiet_type _ _ Hq).
Qed.

Lemma calm_bridges g w w' : calm w w' -> bridges g w -> bridges g w'.
Proof.
  intros Hc Hb a v' b Hv'. destruct (calm_back _ _ _ _ Hc Hv') as (v & Hv & Hq).
  rewrite (q_link _ _ Hq), (quiet_type _ _ Hq). intros Hx. destruct (Hb a v b Hv Hx) as (B1 & B2 & bv & Hbv & B3).
  destruct (calm_lookup _ _ _ _ Hc Hbv) as (bv' & Hbv' & Hq').
  split; [by apply (calm_anchored g w)|]. split; [done|]. exists bv'. by rewrite (q_link _ _ Hq').
Qed.

Lemma calm_base g w w' : calm w w' -> base g w -> base g w'.
Proof.
  intros Hc Hi. split.
  - rewrite (ca_mem _ _ Hc). apply Hi.
  - rewrite (ca_table _ _ Hc), (ca_max _ _ Hc). apply Hi.
  - rewrite (ca_max _ _ Hc). apply Hi.
  - intros i a. rewrite (ca_table _ _ Hc). intros Ht. destruct (i_tab _ _ Hi i a Ht) as (v & Hv & Hx & Hd).
    destruct (calm_lookup _ _ _ _ Hc Hv) as (v' & Hv' & Hq). exists v'.
    by rewrite (q_idx _ _ Hq), (q_link _ _ Hq).
  - intros a v' Hv'. rewrite (ca_next _ _ Hc). destruct (calm_back _ _ _ _ Hc Hv') as (v & Hv & _). by apply (i_next _ _ Hi a v).
  - intros a v' Hv'. destruct (calm_back _ _ _ _ Hc Hv') as (v & Hv & Hq). unfold refs.
    rewrite (calm_kids w), (ca_table _ _ Hc), (q_users _ _ Hq) by done. by apply (i_users _ _ Hi).
  - intros a. destruct (i_held _ _ Hi a) as [Hp Hl]. split; [done|]. intros Hpos. by apply (calm_dom w w'), Hl.
  - intros a Ha. by apply (calm_dom w w'), (i_out _ _ Hi).
  - intros a v' Hv'. destruct (calm_back _ _ _ _ Hc Hv') as (v & Hv & Hq). apply (quiet_solo v); [done|]. by apply (i_solo _ _ Hi a).
  - intros a v' Hv'. destruct (calm_back _ _ _ _ Hc Hv') as (v & Hv & Hq). apply (calm_linked g w w' a v); [done..|].
    by apply (i_linked _ _ Hi).
  - rewrite (ca_agent _ _ Hc). by apply (calm_points g w), Hi.
  - rewrite (ca_host _ _ Hc). by apply (calm_points g w), Hi.
  - rewrite (ca_eth _ _ Hc). by apply (calm_points g w), Hi.
Qed.

Lemma calm_inv g w w' : calm w w' -> inv g w -> inv g w'.
Proof. intros Hc [Hi Hb]. split; [by apply (calm_base g w)|by apply (calm_bridges g w)]. Qed.

Lemma calm_view w w' : calm w w' -> same_view w w'.
Proof.
  intros Hc i. unfold vview. rewrite (ca_table _ _ Hc). destruct (zget _ i) as [[a|]|]; [|done..]. cbn.
  destruct (ca_heap _ _ Hc a) as [v v' Hq|]; [|done]. cbn. by rewrite (q_conf _ _ Hq).
Qed.

End inv.

End VifInv.
