(* ===== verification/VifDrivers.v ===== *)
(** * What drivers do to other interfaces

    Attaching and detaching an interface changes its own functions, flags and statistics, and
    nothing that others see ([calm]), but for sub-interfaces, which are entered in the tables
    of their parent.  Taking a reference and giving it back, with the free of the last one. *)

From stdpp Require Import gmap.
From S2P Require Import Prelude Bits VrfAssign VifBridge FatFlow FatFlowProofs VifState Vif VifInv.

Module VifDrivers.
Import VifState Vif VifInv.

Section drivers.
Context {T H : Type} `{SubTableLaws T} `{HifOps T H} {ncpu : Cpus}.
Abbreviation vif := (vr_interface T).
Abbreviation router := (world T H).
Abbreviation prog := (prog T H).
Implicit Types (w : router) (v : vif) (a b c p : Z) (g : stage).

Definition live w a : Prop := is_Some (vr_heap w !! a).

Lemma calm_live w w' a : calm w w' -> live w a -> live w' a.
Proof. intros Hc. apply (calm_dom w w' a Hc). Qed.

(** ** Calm programs *)

Definition calmly {A} (m : prog A) w : Prop := wp m (fun _ => calm w) w.

Lemma calmly_ret {A} (x : A) w : calmly (mret x) w.
Proof. by apply wp_ret. Qed.

Lemma calmly_bind {A B} (m : prog A) (k : A -> prog B) w :
  calmly m w -> (forall x w', calm w w' -> calmly (k x) w') -> calmly (m ≫= k) w.
Proof.
  intros Hm Hk. apply wp_bind. eapply wp_mono; [exact Hm|]. intros x w1 H3.
  eapply wp_mono; [by apply Hk|]. intros y w2 H4. by transitivity w1.
Qed.

Lemma calmly_load {B} a (k : vif -> prog B) w : live w a -> (forall v, vr_heap w !! a = Some v -> calmly (k v) w) -> calmly (load a ≫= k) w.
Proof. intros [v Hv] Hk. apply wp_bind, (wp_load a v); [done|]. by apply Hk. Qed.

Lemma calmly_gets {A B} (f : router -> A) (k : A -> prog B) w : calmly (k (f w)) w -> calmly (gets f ≫= k) w.
Proof. intros Hk. by apply wp_bind, wp_gets. Qed.

Lemma calmly_store a f w : live w a -> (forall v, quiet v (f v)) -> calmly (store a f) w.
Proof. intros [v Hv] Hf. apply (wp_store a f v); [done|]. by apply (calm_put a v). Qed.

Lemma calmly_hif op a w : live w a -> calmly (hif op a) w.
Proof.
  intros Ha. unfold hif. apply calmly_load; [done|]. intros v Hv. apply calmly_gets.
  destruct (hif_call op a v (vr_host w)) as [ans h1]. apply calmly_bind; [by apply wp_modify|].
  intros [] w1 H3. apply calmly_bind; [|intros; apply calmly_ret].
  apply calmly_store; [by apply (calm_live w)|]. by split.
Qed.

Lemma calmly_malloc w : vr_mem w = [] -> calmly malloc w.
Proof. intros Hm. by apply wp_malloc. Qed.

Lemma calmly_if {A} (b : bool) (m1 m2 : prog A) w : calmly m1 w -> calmly m2 w -> calmly (if b then m1 else m2) w.
Proof. by destruct b. Qed.

(** Memory lasts and the interface is there. *)
Definition fit w a : Prop := live w a /\ vr_mem w = [].

Lemma calm_fit w w' a : calm w w' -> fit w a -> fit w' a.
Proof. intros Hc [Hl Hm]. split; [by apply (calm_live w)|]. by rewrite (ca_mem _ _ Hc). Qed.

End drivers.

(** The next command of a calm program, with what is known of the interface. *)
Ltac calm_step :=
  match goal with
  | |- calmly (mret _) _ => apply calmly_ret
  | |- calmly (if _ then _ else _) _ => apply calmly_if
  | |- calmly (load _ ≫= _) _ => apply calmly_load; [eauto using calm_live|intros]
  | |- calmly (gets _ ≫= _) _ => apply calmly_gets
  | |- calmly (_ ≫= _) _ => apply calmly_bind; [|intros]
  | |- calmly (store _ _) _ => apply calmly_store; [eauto using calm_live|]
  | |- calmly (hif _ _) _ => apply calmly_hif; eauto using calm_live
  end.

(** Fields that nobody sees. *)
Ltac quiet_tac := intros; split; cbn; unfold conf_of, default_mtu; cbn; repeat case_match; done.
Ltac calm_tac := repeat calm_step; try quiet_tac.

Section more.
Context {T H : Type} `{SubTableLaws T} `{HifOps T H} {ncpu : Cpus}.
Abbreviation vif := (vr_interface T).
Abbreviation router := (world T H).
Abbreviation prog := (prog T H).
Implicit Types (w : router) (v : vif) (a b c p : Z) (g : stage).

Lemma agent_add_calm a w : live w a -> calmly (agent_drv_add a) w.
Proof. intros Ha. unfold agent_drv_add. calm_tac. Qed.

Lemma agent_del_calm a w : live w a -> calmly (agent_drv_del a) w.
Proof. intros Ha. unfold agent_drv_del. calm_tac. Qed.

Lemma vhost_del_calm a w : live w a -> calmly (vhost_drv_del a) w.
Proof. intros Ha. unfold vhost_drv_del. calm_tac. Qed.

(** The other end of the bridge of an interface is there. *)
Definition bridge_live w a : Prop :=
  forall v b, vr_heap w !! a = Some v -> vif_bridge (vif_link v) = Some b -> live w b.

Lemma calm_bridge_live w w' a : calm w w' -> bridge_live w a -> bridge_live w' a.
Proof.
  intros Hc Hb v' b Hv'. destruct (calm_back _ _ _ _ Hc Hv') as (v & Hv & Hq). rewrite (q_link _ _ Hq). intros Hx.
  apply (calm_live w); [done|]. by apply (Hb v).
Qed.

Lemma vhost_add_calm a w : live w a -> bridge_live w a -> calmly (vhost_drv_add a) w.
Proof.
  intros Ha Hb. unfold vhost_drv_add. repeat calm_step; try quiet_tac.
  destruct (vif_bridge (vif_link v)) as [b|] eqn:E; [|apply calmly_ret]. apply calmly_hif.
  eapply (calm_bridge_live w); eauto. by transitivity w'.
Qed.

Lemma service_enable_same ok s :
  let s' := (VrfAssign.vr_interface_service_enable ok s).2 in
  VrfAssign.vif_type s' = VrfAssign.vif_type s /\ VrfAssign.vif_users s' = VrfAssign.vif_users s /\
  VrfAssign.vif_vrf s' = VrfAssign.vif_vrf s /\ VrfAssign.vif_nh_id s' = VrfAssign.vif_nh_id s /\
  VrfAssign.vif_flags s' = VrfAssign.vif_flags s.
Proof. unfold VrfAssign.vr_interface_service_enable. destruct (VrfAssign.vif_vrf_table s), ok; done. Qed.

Lemma service_disable_same s :
  let s' := VrfAssign.vr_interface_service_disable s in
  VrfAssign.vif_type s' = VrfAssign.vif_type s /\ VrfAssign.vif_users s' = VrfAssign.vif_users s /\
  VrfAssign.vif_vrf s' = VrfAssign.vif_vrf s /\ VrfAssign.vif_nh_id s' = VrfAssign.vif_nh_id s /\
  VrfAssign.vif_flags s' = VrfAssign.vif_flags s.
Proof.
  unfold VrfAssign.vr_interface_service_disable. destruct (VrfAssign.vif_vrf_table _); [|done].
  by destruct (_ =? 0).
Qed.

(** A change of the service part that keeps what others see. *)
Lemma quiet_srv v s :
  VrfAssign.vif_type s = VrfAssign.vif_type (vif_srv v) -> VrfAssign.vif_users s = VrfAssign.vif_users (vif_srv v) ->
  VrfAssign.vif_vrf s = VrfAssign.vif_vrf (vif_srv v) -> VrfAssign.vif_nh_id s = VrfAssign.vif_nh_id (vif_srv v) ->
  quiet v (on_srv (fun _ => s) v).
Proof. intros E1 E2 E3 E4. split; try done. unfold conf_of, vif_type. cbn. congruence. Qed.

Lemma service_disable_calm a w : live w a -> calmly (service_disable a) w.
Proof.
  intros Ha. unfold service_disable. apply calmly_store; [done|]. intros v.
  destruct (service_disable_same (vif_srv v)) as (E1 & E2 & E3 & E4 & _).
  by apply (quiet_srv v (VrfAssign.vr_interface_service_disable (vif_srv v))).
Qed.

Lemma service_enable_calm a w : fit w a -> wp (service_enable a) (fun ret w' => calm w w' /\ ret = 0) w.
Proof.
  intros [[v Hv] Hm]. unfold service_enable. wbind. apply (wp_load a v); [done|]. wbind.
  assert (Hok : wp match VrfAssign.vif_vrf_table (vif_srv v) with Some _ => mret true | None => malloc end
            (fun ok w' => ok = true /\ w' = w) w).
  { destruct (VrfAssign.vif_vrf_table (vif_srv v)); [by apply wp_ret|by apply wp_malloc]. }
  eapply wp_mono; [exact Hok|]. intros ok w1 [-> ->].
  destruct (service_enable_same true (vif_srv v)) as (E1 & E2 & E3 & E4 & _).
  assert (Hr : (VrfAssign.vr_interface_service_enable true (vif_srv v)).1 = 0).
  { unfold VrfAssign.vr_interface_service_enable. by destruct (VrfAssign.vif_vrf_table (vif_srv v)). }
  destruct (VrfAssign.vr_interface_service_enable true (vif_srv v)) as [ret s]. cbn in *. subst ret.
  wbind. apply (wp_store a _ v); [done|]. apply wp_ret. split; [|done]. apply (calm_put a v); [done|]. by apply quiet_srv.
Qed.

Lemma eth_del_calm a w : live w a -> calmly (eth_drv_del a) w.
Proof. intros Ha. unfold eth_drv_del. calm_tac. apply service_disable_calm. eauto 10 using calm_live. Qed.

Lemma eth_attach_calm a w : fit w a -> calmly (eth_attach a) w.
Proof.
  intros Ha. unfold eth_attach. apply calmly_load; [apply Ha|]. intros v Hv. apply calmly_bind.
  - apply calmly_if; [|apply calmly_ret]. eapply wp_mono; [by apply service_enable_calm|]. by intros ret w1 [].
  - intros ret w1 C1. pose proof (calm_live _ _ _ C1 (proj1 Ha)) as L1. calm_tac.
Qed.

Lemma quiet_eth_functions v : quiet v (eth_functions v).
Proof. unfold eth_functions. split; cbn; by destruct (VrfAssign.vif_is_virtual _). Qed.

Lemma eth_add_calm a w : fit w a -> calmly (eth_drv_add a) w.
Proof.
  intros Ha. unfold eth_drv_add. apply calmly_bind.
  - apply calmly_store; [apply Ha|]. intros v. cbn zeta. set (v1 := on_cfg _ v).
    assert (Hq : quiet v v1) by (unfold v1; quiet_tac).
    destruct (vif_type v =? VIF_TYPE_STATS); [exact Hq|]. transitivity v1; [exact Hq|apply quiet_eth_functions].
  - intros [] w1 C1. apply calmly_bind; [apply eth_attach_calm; by apply (calm_fit w)|]. intros ret w2 C2.
    pose proof (calm_live _ _ _ C2 (calm_live _ _ _ C1 (proj1 Ha))) as L2. calm_tac.
    by apply service_disable_calm.
Qed.

End more.
End VifDrivers.
