(* ===== verification/VifRefs.v ===== *)
(** * References to interfaces

    Taking a reference, giving it back, and taking an interface from the table: the count of
    users never falls below the number of references, and the interface is freed only when
    nothing points to it. *)

From stdpp Require Import gmap.
From S2P Require Import Prelude Bits VrfAssign VifBridge FatFlow FatFlowProofs VifState Vif VifInv VifDrivers.

Module VifRefs.
Import VifState Vif VifInv VifDrivers.

Section refs.
Context {T H : Type} `{SubTableLaws T} `{HifOps T H} {ncpu : Cpus}.
Abbreviation vif := (vr_interface T).
Abbreviation router := (world T H).
Abbreviation prog := (prog T H).
Implicit Types (w : router) (v : vif) (a b c p : Z) (g : stage).

Definition bump (k : Z) a (held : Z -> Z) : Z -> Z := fun c => if decide (c = a) then held c + k else held c.
Definition with_held (k : Z) a g : stage := mk_stage (bump k a (st_held g)) (st_new g) (st_out g) (st_det g).

Lemma bump_same k a held : bump k a held a = held a + k.
Proof. unfold bump. by rewrite decide_True. Qed.

Lemma bump_other k a held c : c <> a -> bump k a held c = held c.
Proof. intros Hc. unfold bump. by rewrite decide_False. Qed.

(** Only the counts matter of what is held. *)
Lemma inv_held g g' w :
  (forall c, st_held g' c = st_held g c) -> st_new g' = st_new g -> st_out g' = st_out g -> st_det g' = st_det g ->
  inv g w -> inv g' w.
Proof.
  intros Hh Hn Ho Hd [Hi Hb]. split; [|by unfold bridges, anchored in *; rewrite Ho]. split; try apply Hi.
  - rewrite Hn. apply Hi.
  - intros a v Hv. unfold refs. rewrite Hh. by apply (i_users _ _ Hi).
  - intros a. rewrite Hh. apply Hi.
  - rewrite Ho. apply Hi.
  - intros a v Hv. apply (linked_stage g); [done..|]. by apply (i_linked _ _ Hi).
  - unfold points, anchored. rewrite Ho. apply Hi.
  - unfold points, anchored. rewrite Ho. apply Hi.
  - unfold points, anchored. rewrite Ho. apply Hi.
Qed.

Lemma view_put a v v' w : vr_heap w !! a = Some v -> conf_of v' = conf_of v -> same_view w (put_vif a v' w).
Proof.
  intros Hv Hc i. unfold vview. cbn. destruct (zget _ i) as [[c|]|]; [|done..]. cbn.
  destruct (decide (c = a)) as [->|Hne]; [by rewrite lookup_insert_eq, Hv; cbn; rewrite Hc|by rewrite lookup_insert_ne].
Qed.

(** ** The table *)

Definition slot w (i : Z) : option Z := mjoin (zget (vr_interfaces w) i).

Lemma slot_Some w i a : slot w i = Some a <-> zget (vr_interfaces w) i = Some (Some a).
Proof. unfold slot. destruct (zget (vr_interfaces w) i) as [[b|]|]; cbn; split; congruence. Qed.

Lemma table_at_spec g w i (Q : option Z -> router -> Prop) :
  inv g w -> 0 <= i < vr_max_interfaces w -> Q (slot w i) w -> wp (table_at i) Q w.
Proof.
  intros Hi Hr HQ. unfold table_at. wbind. apply wp_gets. rewrite <- (i_len _ _ Hi) in Hr.
  destruct (zget_is_Some (vr_interfaces w) i Hr) as [o Ho]. apply (wp_of_option o); [done|]. unfold slot in HQ. by rewrite Ho in HQ.
Qed.

Lemma get_table_spec g w i (Q : option Z -> router -> Prop) :
  inv g w -> 0 <= i -> Q (slot w i) w -> wp (__vrouter_get_interface i) Q w.
Proof.
  intros Hi Hr HQ. unfold __vrouter_get_interface. wbind. apply wp_gets. destruct (Z.leb_spec (vr_max_interfaces w) i).
  - apply wp_ret. unfold slot in HQ. rewrite zget_None in HQ by (by rewrite (i_len _ _ Hi)). exact HQ.
  - by apply (table_at_spec g).
Qed.

Lemma in_table_live g w a : inv g w -> in_table w a -> exists v, vr_heap w !! a = Some v.
Proof. intros Hi [i Ht]. destruct (i_tab _ _ Hi i a Ht) as (v & Hv & _). by exists v. Qed.

Lemma get_os_spec g w os : inv g w ->
  wp (__vrouter_get_interface_os os) (fun o w' => w' = w /\ forall a, o = Some a ->
    in_table w a /\ exists v, vr_heap w !! a = Some v /\ vif_os_idx (vif_cfg v) = os) w.
Proof.
  intros Hi. unfold __vrouter_get_interface_os, all_idx. wbind. wbind. apply wp_gets, wp_ret. apply wp_search.
  intros i Hin. apply elem_of_seqZ in Hin. wbind. apply (get_table_spec g); [done|lia|].
  destruct (slot w i) as [a|] eqn:E; [|by apply wp_ret]. apply slot_Some in E.
  destruct (in_table_live g w a Hi (ex_intro _ i E)) as [v Hv]. wbind. apply (wp_load a v); [done|]. apply wp_ret.
  split; [done|]. intros c. destruct (Z.eqb_spec (vif_os_idx (vif_cfg v)) os); [|done]. intros [= <-].
  split; [by exists i|by exists v].
Qed.

(** ** Users *)

Lemma users_set f v : vif_users (set_users f v) = u32 (f (vif_users v)).
Proof. done. Qed.

Lemma compat_users g a f v : compat g a v (set_users f v).
Proof. split; try done. by left. Qed.

Lemma solo_users f v : solo v -> solo (set_users f v).
Proof. intros [S1 S2 S3 S4 S5 S6 S7]. by split. Qed.

Lemma tables_of g w a v : linked g w a v -> tables_ok g w a v.
Proof. intros [_ Ls Lt]. by split. Qed.

(** A new reference, held by the caller. *)
Lemma inv_get g w a v :
  inv g w -> vr_heap w !! a = Some v -> vif_users v < UINT_MAX ->
  inv (with_held 1 a g) (put_vif a (set_users Z.succ v) w).
Proof.
  intros Hi Hv Hr. pose proof (i_users _ _ Hi a v Hv) as Hu. pose proof (i_held _ _ Hi a) as [Hh _].
  assert (Hn : 0 <= vif_users v).
  { pose proof (places_nonneg (vr_interfaces w) a). pose proof (kids_nonneg (vr_heap w) a). unfold refs in Hu. lia. }
  assert (Hk : forall c, kids (<[a := set_users Z.succ v]> (vr_heap w)) c = kids (vr_heap w) c)
    by (intros c; by apply (kids_same _ a v)).
  apply (inv_upd g _ w a v); try done.
  - apply compat_users.
  - by apply solo_users, (i_solo _ _ Hi a).
  - by apply (i_linked _ _ Hi a v).
  - exact (tables_of g w a v (i_linked _ _ Hi a v Hv)).
  - intros c. destruct (i_held _ _ Hi c) as [Hc Hl]. destruct (decide (c = a)) as [->|Hne].
    + rewrite bump_same. split; [lia|]. by eauto.
    + by rewrite bump_other.
  - unfold refs in *. rewrite users_set, u32_small by lia. cbn. rewrite Hk, bump_same. lia.
  - intros c cv Hne Hcv. unfold refs. cbn. by rewrite Hk, bump_other.
Qed.

Lemma get_spec g w i : inv g w -> 0 <= i -> (forall a v, vr_heap w !! a = Some v -> vif_users v < UINT_MAX) ->
  wp (vrouter_get_interface i) (fun o w' =>
    o = slot w i /\
    match o with
    | None => w' = w
    | Some p => exists v, vr_heap w !! p = Some v /\ w' = put_vif p (set_users Z.succ v) w /\ inv (with_held 1 p g) w'
    end) w.
Proof.
  intros Hi Hr Hroom. unfold vrouter_get_interface. wbind. apply (get_table_spec g); [done..|].
  destruct (slot w i) as [p|] eqn:E; [|by apply wp_ret]. pose proof E as Hs. apply slot_Some in E.
  destruct (in_table_live g w p Hi (ex_intro _ i E)) as [v Hv]. wbind. apply (wp_store p _ v); [done|]. apply wp_ret.
  split; [done|]. exists v. split; [done|]. split; [done|]. apply inv_get; [done..|]. by apply (Hroom p).
Qed.

(** ** Freeing *)

Definition del_vif a w : router := set_heap (delete a (vr_heap w)) w.

Lemma del_lookup a w c v : vr_heap (del_vif a w) !! c = Some v -> a <> c /\ vr_heap w !! c = Some v.
Proof. apply lookup_delete_Some. Qed.

Lemma in_table_places w a : in_table w a -> 1 <= places (vr_interfaces w) a.
Proof. intros [i Hi]. by apply (places_pos _ i). Qed.

(** Nothing points to an interface without references that is in the hands of nobody. *)
Lemma no_refs g w a : inv g w -> refs g w a <= 0 -> st_out g <> Some a ->
  ~ in_table w a /\ ~ anchored g w a /\ kids (vr_heap w) a = 0 /\ st_held g a = 0.
Proof.
  intros Hi Hz Ho. unfold refs in Hz. pose proof (places_nonneg (vr_interfaces w) a).
  pose proof (kids_nonneg (vr_heap w) a). pose proof (i_held _ _ Hi a) as [Hh _].
  assert (Ht : ~ in_table w a) by (intros Ht; apply in_table_places in Ht; lia).
  split; [done|]. split; [intros [?|?]; done|]. lia.
Qed.

Lemma child_del g w a p vlan mac c :
  ~ in_table w a -> child_of g w p vlan mac c -> child_of g (del_vif a w) p vlan mac c.
Proof.
  intros Ha (Hd & Ht & v & Hv & Hs). split; [done|]. split; [done|]. exists v. cbn. rewrite lookup_delete_ne; [done|].
  by intros ->.
Qed.

Lemma points_del g w a o type : ~ anchored g w a -> points g w o type -> points g (del_vif a w) o type.
Proof.
  intros Ha Hp c Hc. destruct (Hp c Hc) as (Hx & v & Hv & Ht). split; [done|]. exists v. cbn.
  rewrite lookup_delete_ne; [done|]. by intros ->.
Qed.

Lemma linked_del g w a c v :
  ~ in_table w a -> ~ anchored g w a -> kids (vr_heap w) a = 0 ->
  (forall b bv, vr_heap w !! b = Some bv -> linked g w b bv) ->
  vr_heap w !! c = Some v -> linked g (del_vif a w) c v.
Proof.
  intros Ht Ha Hk Hl Hv. destruct (Hl c v Hv) as [Lp Ls Lt]. split.
  - intros p Hp. destruct (Lp p Hp) as (Hne & pv & Hpv & Hd). split; [done|]. exists pv. cbn. rewrite lookup_delete_ne; [done|].
    intros ->. pose proof (kids_pos _ _ _ _ Hv Hp). lia.
  - intros m vlan d Hm Hd. apply child_del; [done|]. by apply (Ls m).
  - intros t Hb. destruct (Lt t Hb) as (m & Hm & Hx). exists m. split; [done|]. intros vlan mac d Hd. apply child_del; [done|].
    by apply Hx.
Qed.

Lemma inv_drop g w a v :
  inv g w -> vr_heap w !! a = Some v -> refs g w a <= 0 -> st_out g <> Some a -> inv g (del_vif a w).
Proof.
  intros Hi Hv Hz Ho. destruct (no_refs g w a Hi Hz Ho) as (Ht & Ha & Hk & Hh).
  assert (Hkids : forall c, kids (delete a (vr_heap w)) c <= kids (vr_heap w) c).
  { intros c. rewrite (kids_delete _ a v) by done. destruct (bool_decide _); cbn; lia. }
  split.
  2: { intros c cv b [_ Hcv]%del_lookup Hb. destruct (i_bridges _ _ Hi c cv b Hcv Hb) as (B1 & B2 & bv & Hbv & B3).
       split; [done|]. split; [done|]. exists bv. cbn. rewrite lookup_delete_ne; [done|]. intros ->.
       by destruct (i_bridges _ _ Hi _ _ _ Hbv B3). }
  split; try apply Hi.
  - intros i c Hz'. destruct (i_tab _ _ Hi i c Hz') as (cv & Hcv & Hx). exists cv. cbn. rewrite lookup_delete_ne; [done|].
    intros ->. apply Ht. by exists i.
  - intros c cv [_ Hcv]%del_lookup. by apply (i_next _ _ Hi c cv).
  - intros c cv [_ Hcv]%del_lookup. pose proof (i_users _ _ Hi c cv Hcv). unfold refs in *. cbn.
    specialize (Hkids c). lia.
  - intros c. destruct (i_held _ _ Hi c) as [Hc Hl]. split; [done|]. intros Hpos. cbn. rewrite lookup_delete_ne; [by apply Hl|].
    intros ->. lia.
  - intros c Hc. cbn. rewrite lookup_delete_ne; [by apply (i_out _ _ Hi)|]. congruence.
  - intros c cv [_ Hcv]%del_lookup. by apply (i_solo _ _ Hi c).
  - intros c cv [_ Hcv]%del_lookup. apply linked_del; try done. apply (i_linked _ _ Hi).
  - by apply points_del, Hi.
  - by apply points_del, Hi.
  - by apply points_del, Hi.
Qed.

(** A reference is given back; the last one frees the interface. *)
Lemma inv_put g w a v :
  inv g w -> vr_heap w !! a = Some v -> 0 < st_held g a -> inv (with_held (-1) a g) (put_vif a (set_users Z.pred v) w).
Proof.
  intros Hi Hv Hpos. pose proof (i_users _ _ Hi a v Hv) as Hu.
  pose proof (places_nonneg (vr_interfaces w) a). pose proof (kids_nonneg (vr_heap w) a).
  assert (Hk : forall c, kids (<[a := set_users Z.pred v]> (vr_heap w)) c = kids (vr_heap w) c)
    by (intros c; by apply (kids_same _ a v)).
  apply (inv_upd g _ w a v); try done.
  - apply compat_users.
  - by apply solo_users, (i_solo _ _ Hi a).
  - by apply (i_linked _ _ Hi a v).
  - exact (tables_of g w a v (i_linked _ _ Hi a v Hv)).
  - intros c. destruct (i_held _ _ Hi c) as [Hc Hl]. destruct (decide (c = a)) as [->|Hne].
    + rewrite bump_same. split; [lia|]. by eauto.
    + by rewrite bump_other.
  - unfold refs in *. rewrite users_set, u32_small by lia. cbn. rewrite Hk, bump_same. lia.
  - intros c cv Hne Hcv. unfold refs. cbn. by rewrite Hk, bump_other.
Qed.

(** The interfaces other than [a] stay as they are, and the table with its pointers too; [a]
    may be freed. *)
Record only a w w' : Prop := {
  on_heap : forall c, c <> a -> vr_heap w' !! c = vr_heap w !! c;
  on_self : forall v v', vr_heap w !! a = Some v -> vr_heap w' !! a = Some v' -> v' = set_users Z.pred v;
  on_table : vr_interfaces w' = vr_interfaces w;
  on_max : vr_max_interfaces w' = vr_max_interfaces w;
  on_agent : vr_agent_if w' = vr_agent_if w;
  on_host : vr_host_if w' = vr_host_if w;
  on_eth : vr_eth_if w' = vr_eth_if w
}.

Lemma put_spec g w a :
  inv g w -> 0 < st_held g a -> st_out g <> Some a ->
  wp (vrouter_put_interface a) (fun _ w' => inv (with_held (-1) a g) w' /\ same_view w w' /\ only a w w') w.
Proof.
  intros Hi Hpos Ho. destruct (i_held _ _ Hi a) as [_ [v Hv]]; [done|]. pose proof (inv_put g w a v Hi Hv Hpos) as Hi1.
  unfold vrouter_put_interface. wbind. apply (wp_store a _ v); [done|]. set (w1 := set_heap _ w).
  change (inv (with_held (-1) a g) w1) in Hi1.
  assert (Hv1 : vr_heap w1 !! a = Some (set_users Z.pred v)) by apply lookup_insert_eq.
  assert (Hs1 : same_view w w1) by (by apply (view_put a v)).
  wbind. apply (wp_load a _ _ _ Hv1). destruct (Z.eqb_spec (vif_users (set_users Z.pred v)) 0) as [Hz|Hz].
  - pose proof (i_users _ _ Hi1 a _ Hv1) as Hu.
    assert (Hr : refs (with_held (-1) a g) w1 a <= 0) by lia.
    unfold vif_free. wbind. apply (wp_load a _ _ _ Hv1). wbind.
    destruct (so_stats _ (i_solo _ _ Hi1 a _ Hv1)) as (st & Hst & _). apply wp_assume; [by rewrite Hst|]. apply wp_free.
    fold (del_vif a w1). split; [by apply (inv_drop _ w1 a (set_users Z.pred v))|]. split.
    + etransitivity; [exact Hs1|]. intros i. unfold vview. cbn. destruct (zget _ i) as [[c|]|] eqn:E; [|done..]. cbn.
      rewrite lookup_delete_ne; [done|]. intros ->. destruct (no_refs _ _ _ Hi1 Hr Ho) as [Ht _]. apply Ht. by exists i.
    + split; try done.
      * intros c Hc. cbn. by rewrite lookup_delete_ne, lookup_insert_ne.
      * intros v1 v2 _. cbn. by rewrite lookup_delete_eq.
  - apply wp_ret. split; [done|]. split; [done|]. split; try done.
    + intros c Hc. cbn. by rewrite lookup_insert_ne.
    + intros v1 v2. cbn. rewrite lookup_insert_eq. congruence.
Qed.

End refs.
End VifRefs.
