(* ===== verification/VifTable.v ===== *)
(** * Taking an interface from the table

    The reference of the table goes to the caller, the pointers of the router and of the other
    end of the bridge are cleared, and the reference is given back. *)

From stdpp Require Import gmap.
From S2P Require Import Prelude Bits VrfAssign VifBridge FatFlow FatFlowProofs VifState Vif VifInv VifDrivers VifRefs.

Module VifTable.
Import VifState Vif VifInv VifDrivers VifRefs.

Section table.
Context {T H : Type} `{SubTableLaws T} `{HifOps T H} {ncpu : Cpus}.
Abbreviation vif := (vr_interface T).
Abbreviation router := (world T H).
Abbreviation prog := (prog T H).
Implicit Types (w : router) (v : vif) (a b c p : Z) (g : stage).

(** ** Out of the table *)

Definition out_stage a g : stage := mk_stage (bump 1 a (st_held g)) None (Some a) (st_det g).
Definition clear_slot i w : router := set_table (zset (vr_interfaces w) i None) (vr_max_interfaces w) w.

Lemma zget_clear w i j c :
  zget (zset (vr_interfaces w) i None) j = Some (Some c) -> j <> i /\ zget (vr_interfaces w) j = Some (Some c).
Proof.
  intros Hz. destruct (decide (j = i)) as [->|Hne].
  - rewrite zget_zset_eq in Hz; [done|]. apply zget_range in Hz. by rewrite zlen_zset in Hz.
  - by rewrite zget_zset_ne in Hz.
Qed.

Lemma in_table_clear w i a c : zget (vr_interfaces w) i = Some (Some a) -> c <> a -> in_table w c -> in_table (clear_slot i w) c.
Proof. intros Ha Hc [j Hj]. exists j. cbn. rewrite zget_zset_ne; [done|]. intros <-. congruence. Qed.

Lemma anchored_out g w i a c :
  zget (vr_interfaces w) i = Some (Some a) -> st_out g = None -> anchored g w c -> anchored (out_stage a g) (clear_slot i w) c.
Proof.
  intros Ha Ho [Ht|Hx]; [|congruence]. destruct (decide (c = a)) as [->|Hne]; [by right|]. left. by apply (in_table_clear w i a).
Qed.

Lemma inv_out g w i a :
  inv g w -> zget (vr_interfaces w) i = Some (Some a) -> st_out g = None -> st_det g a ->
  (st_new g = None \/ st_new g = Some a) -> inv (out_stage a g) (clear_slot i w).
Proof.
  intros Hi Ha Ho Hd Hn.
  assert (Hch : forall p vlan mac c, child_of g w p vlan mac c -> child_of (out_stage a g) (clear_slot i w) p vlan mac c).
  { intros p vlan mac c (Hc & Ht & Hs). split; [done|]. split; [|done]. apply (in_table_clear w i a); try done. by intros ->. }
  assert (Hpl : forall c, places (zset (vr_interfaces w) i None) c = places (vr_interfaces w) c - Z.b2z (bool_decide (a = c))).
  { intros c. rewrite (places_set _ _ _ _ _ Ha). rewrite (bool_decide_false (None = Some c)) by done. cbn.
    repeat case_bool_decide; cbn; try lia; congruence. }
  assert (Hpt : forall o type, points g w o type -> points (out_stage a g) (clear_slot i w) o type).
  { intros o type Hp c Hc. destruct (Hp c Hc) as [Hx Hy]. split; [by apply anchored_out|done]. }
  split; [split|]; try apply Hi; try (apply Hpt, Hi).
  - cbn. rewrite zlen_zset. apply Hi.
  - intros j c Hz. destruct (zget_clear _ _ _ _ Hz) as [Hne Hz']. destruct (i_tab _ _ Hi j c Hz') as (cv & Hcv & Hx & Hdr).
    exists cv. split; [done|]. split; [done|]. right. destruct Hdr as [Hdr|Hdr]; [|done].
    destruct Hn as [Hn|Hn]; [congruence|]. assert (c = a) as -> by congruence.
    destruct (i_tab _ _ Hi i a Ha) as (cv' & Hcv' & Hx' & _). congruence.
  - intros c cv Hcv. pose proof (i_users _ _ Hi c cv Hcv) as Hu. unfold refs in *. cbn. rewrite Hpl. unfold bump.
    destruct (decide (c = a)) as [->|Hne]; [rewrite bool_decide_true by done|rewrite bool_decide_false by done]; cbn; lia.
  - intros c. destruct (i_held _ _ Hi c) as [Hc Hl]. cbn. unfold bump. destruct (decide (c = a)) as [->|Hne]; [|done].
    split; [lia|]. intros _. destruct (i_tab _ _ Hi i a Ha) as (v & Hv & _). by exists v.
  - cbn. intros c [= <-]. destruct (i_tab _ _ Hi i a Ha) as (v & Hv & _). by exists v.
  - intros c cv Hcv. destruct (i_linked _ _ Hi c cv Hcv) as [Lp Ls Lt]. split; [done|..].
    + intros m vlan d Hm Hk. apply Hch. by apply (Ls m).
    + intros t Ht. destruct (Lt t Ht) as (m & Hm & Hk). exists m. split; [done|]. intros vlan mac d Hx. by apply Hch, Hk.
  - intros c cv b Hcv Hb. destruct (i_bridges _ _ Hi c cv b Hcv Hb) as (B1 & B2 & B3). split; [by apply anchored_out|done].
Qed.

(** ** Pointers to it *)

Definition in_stage g : stage := mk_stage (st_held g) (st_new g) None (st_det g).

(** Without pointers to it the interface is out. *)
Lemma inv_in g w a v :
  inv g w -> st_out g = Some a -> vr_heap w !! a = Some v -> vif_bridge (vif_link v) = None ->
  vr_agent_if w <> Some a -> vr_host_if w <> Some a -> vr_eth_if w <> Some a -> inv (in_stage g) w.
Proof.
  intros Hi Ho Hv Hb P1 P2 P3.
  assert (Hpt : forall o type, o <> Some a -> points g w o type -> points (in_stage g) w o type).
  { intros o type Hne Hp c Hc. destruct (Hp c Hc) as [[Hx|Hx] Hy]; [split; [by left|done]|congruence]. }
  split; [split|]; try apply Hi; try (by apply Hpt, Hi); try done.
  - intros c cv Hcv. destruct (i_linked _ _ Hi c cv Hcv) as [Lp Ls Lt]. by split.
  - intros c cv b Hcv Hcb. destruct (i_bridges _ _ Hi c cv b Hcv Hcb) as ([B1|B1] & B2 & B3); [split; [by left|done]|congruence].
Qed.

Definition same_pointers w w' : Prop :=
  vr_interfaces w' = vr_interfaces w /\ vr_max_interfaces w' = vr_max_interfaces w /\ vr_agent_if w' = vr_agent_if w /\
  vr_host_if w' = vr_host_if w /\ vr_eth_if w' = vr_eth_if w.

Lemma base_bridge g w a v o : base g w -> vr_heap w !! a = Some v -> base g (put_vif a (on_link (set_bridge o) v) w).
Proof.
  intros Hi Hv. destruct g as [held new out det].
  assert (Hk : forall c, kids (<[a := on_link (set_bridge o) v]> (vr_heap w)) c = kids (vr_heap w) c)
    by (intros c; by apply (kids_same _ a v)).
  apply (base_upd (mk_stage held new out det) held w a v); try done.
  - split; try done. by left.
  - by destruct (i_solo _ _ Hi a v Hv).
  - by apply (i_linked _ _ Hi a v).
  - exact (tables_of _ w a v (i_linked _ _ Hi a v Hv)).
  - apply (i_held _ _ Hi).
  - pose proof (i_users _ _ Hi a v Hv). unfold refs in *. cbn in *. by rewrite Hk.
  - intros c cv Hne Hcv. unfold refs. cbn. by rewrite Hk.
Qed.

Lemma unbridge_spec g w a v : inv g w -> vr_heap w !! a = Some v ->
  wp (unbridge a) (fun _ w' => inv g w' /\ same_view w w' /\ same_pointers w w' /\
    exists v', vr_heap w' !! a = Some v' /\ vif_bridge (vif_link v') = None /\ vif_type v' = vif_type v) w.
Proof.
  intros Hi Hv. unfold unbridge. wbind. apply (wp_load a v); [done|].
  destruct (vif_bridge (vif_link v)) as [b|] eqn:Eb; [|apply wp_ret; repeat (split; [done|]); by exists v].
  destruct (i_bridges _ _ Hi a v b Hv Eb) as (B1 & B2 & bv & Hbv & B3).
  wbind. apply (wp_store b _ bv); [done|]. set (w1 := set_heap _ w).
  assert (Hi1 : base g w1) by (apply (base_bridge g); [apply Hi|done]).
  assert (Hva : exists va, vr_heap w1 !! a = Some va /\ vif_type va = vif_type v /\ conf_of va = conf_of v).
  { cbn. destruct (decide (a = b)) as [<-|Hne]; [rewrite lookup_insert_eq|rewrite lookup_insert_ne by done; eauto].
    eexists. split; [done|]. assert (bv = v) as -> by congruence. done. }
  destruct Hva as (va & Hva & Hty & Hcf). apply (wp_store a _ va); [done|]. set (w2 := set_heap _ w1).
  assert (Hlook : forall c cv, vr_heap w2 !! c = Some cv -> vif_bridge (vif_link cv) <> None -> c <> a /\ c <> b /\ vr_heap w !! c = Some cv).
  { intros c cv. cbn. destruct (decide (c = a)) as [->|Ha]; [rewrite lookup_insert_eq; intros [= <-]; done|].
    rewrite lookup_insert_ne by done. destruct (decide (c = b)) as [->|Hb]; [rewrite lookup_insert_eq; intros [= <-]; done|].
    by rewrite lookup_insert_ne. }
  split; [|split; [|split; [done|]]].
  - split; [by apply (base_bridge g)|]. intros c cv d Hcv Hd.
    destruct (Hlook c cv Hcv) as (Ha & Hb & Hcv0); [congruence|].
    destruct (i_bridges _ _ Hi c cv d Hcv0 Hd) as (D1 & D2 & dv & Hdv & D3). split; [done|]. split; [done|].
    exists dv. split; [|done]. cbn. rewrite !lookup_insert_ne; [done|..]; intros <-; congruence.
  - transitivity w1; [by apply (view_put b bv)|by apply (view_put a va)].
  - eexists. split; [apply lookup_insert_eq|]. done.
Qed.

(** The pointers of the router, set to interfaces of the right types. *)
Lemma inv_point g w w' :
  inv g w -> vr_heap w' = vr_heap w -> vr_next w' = vr_next w -> vr_interfaces w' = vr_interfaces w ->
  vr_max_interfaces w' = vr_max_interfaces w -> vr_mem w' = vr_mem w ->
  points g w (vr_agent_if w') VIF_TYPE_AGENT -> points g w (vr_host_if w') VIF_TYPE_HOST ->
  points g w (vr_eth_if w') VIF_TYPE_PHYSICAL -> inv g w'.
Proof.
  intros [Hi Hb] E1 E2 E3 E4 E5 P1 P2 P3.
  assert (Hpt : forall o type, points g w o type -> points g w' o type).
  { intros o type Hp c Hc. destruct (Hp c Hc) as [Hx Hy]. unfold anchored, in_table in *. by rewrite E1, E3. }
  split; [split|].
  1-9: unfold refs; rewrite ?E1, ?E2, ?E3, ?E4, ?E5; try apply Hi.
  - intros a v Hv. rewrite E1 in Hv. destruct (i_linked _ _ Hi a v Hv) as [Lp Ls Lt].
    split; unfold child_of, in_table in *; rewrite ?E1, ?E3; done.
  - by apply Hpt.
  - by apply Hpt.
  - by apply Hpt.
  - unfold bridges, anchored, in_table in *. by rewrite E1, E3.
Qed.

(** The state with pointers of the router cleared. *)
Lemma inv_pointers g w w' :
  inv g w -> vr_heap w' = vr_heap w -> vr_next w' = vr_next w -> vr_interfaces w' = vr_interfaces w ->
  vr_max_interfaces w' = vr_max_interfaces w -> vr_mem w' = vr_mem w ->
  (vr_agent_if w' = vr_agent_if w \/ vr_agent_if w' = None) -> (vr_host_if w' = vr_host_if w \/ vr_host_if w' = None) ->
  (vr_eth_if w' = vr_eth_if w \/ vr_eth_if w' = None) -> inv g w'.
Proof.
  intros Hi E1 E2 E3 E4 E5 [P1|P1] [P2|P2] [P3|P3]; apply (inv_point g w); try done; rewrite ?P1, ?P2, ?P3; try apply Hi; done.
Qed.

(** A pointer of the router leads to an interface of its type. *)
Lemma points_type g w o type a v : points g w o type -> vr_heap w !! a = Some v -> vif_type v <> type -> o <> Some a.
Proof. intros Hp Hv Hne Ho. destruct (Hp a Ho) as (_ & v' & Hv' & Ht). congruence. Qed.

Lemma unbridged g w a v :
  inv g w -> vr_heap w !! a = Some v -> vif_type v <> VIF_TYPE_HOST -> vif_type v <> VIF_TYPE_PHYSICAL ->
  vif_bridge (vif_link v) = None.
Proof.
  intros Hi Hv T1 T2. destruct (vif_bridge (vif_link v)) as [b|] eqn:E; [|done].
  destruct (i_bridges _ _ Hi a v b Hv E) as (_ & [?|?] & _); congruence.
Qed.

(** The pointers that [vrouter_del_interface] clears. *)
Definition clear_pointers a v : prog unit :=
  if vif_type v =? VIF_TYPE_AGENT then modify (set_agent_if None)
  else if vif_type v =? VIF_TYPE_HOST then _ ← modify (set_host_if None); unbridge a
  else if vif_type v =? VIF_TYPE_PHYSICAL then
    _ ← unbridge a;
    modify (fun w => if bool_decide (vr_eth_if w = Some a) then set_eth_if None w else w)
  else mret tt.

Ltac other_type := first [done|match goal with E : vif_type _ = _ |- _ => rewrite E; done end].

Lemma clear_spec g w a v : inv g w -> vr_heap w !! a = Some v ->
  wp (clear_pointers a v) (fun _ w' => inv g w' /\ same_view w w' /\ vr_interfaces w' = vr_interfaces w /\
    vr_max_interfaces w' = vr_max_interfaces w /\ (exists v', vr_heap w' !! a = Some v' /\ vif_bridge (vif_link v') = None) /\
    vr_agent_if w' <> Some a /\ vr_host_if w' <> Some a /\ vr_eth_if w' <> Some a) w.
Proof.
  intros Hi Hv. unfold clear_pointers.
  destruct (Z.eqb_spec (vif_type v) VIF_TYPE_AGENT) as [E1|E1]; [|destruct (Z.eqb_spec (vif_type v) VIF_TYPE_HOST) as [E2|E2];
    [|destruct (Z.eqb_spec (vif_type v) VIF_TYPE_PHYSICAL) as [E3|E3]]].
  - apply wp_modify. split; [apply (inv_pointers g w); auto|]. do 3 (split; [done|]).
    split; [exists v; split; [done|]; apply (unbridged g w a); other_type|]. split; [done|].
    split; (eapply points_type; [apply Hi|exact Hv|other_type]).
  - wbind. apply wp_modify. set (w1 := set_host_if None w).
    assert (Hi1 : inv g w1) by (apply (inv_pointers g w); auto).
    eapply wp_mono; [by apply (unbridge_spec g w1 a v)|]. intros [] w2 (Hi2 & V2 & (T2 & M2 & A2 & O2 & R2) & v' & Hv' & Hb' & _).
    split; [done|]. split; [done|]. split; [done|]. split; [done|]. split; [by exists v'|]. rewrite A2, O2, R2.
    split; [|split; [done|]]; (eapply points_type; [apply Hi1|exact Hv|other_type]).
  - wbind. eapply wp_mono; [by apply (unbridge_spec g w a v)|].
    intros [] w2 (Hi2 & V2 & (T2 & M2 & A2 & O2 & R2) & v' & Hv' & Hb' & Ht'). apply wp_modify.
    assert (Hq : forall w3, w3 = w2 \/ w3 = set_eth_if None w2 -> vr_eth_if w3 <> Some a ->
      inv g w3 /\ same_view w w3 /\ vr_interfaces w3 = vr_interfaces w /\ vr_max_interfaces w3 = vr_max_interfaces w /\
      (exists v', vr_heap w3 !! a = Some v' /\ vif_bridge (vif_link v') = None) /\
      vr_agent_if w3 <> Some a /\ vr_host_if w3 <> Some a /\ vr_eth_if w3 <> Some a).
    { intros w3 E Hne. split; [destruct E as [->| ->]; [done|apply (inv_pointers g w2); auto]|].
      split; [by destruct E as [->| ->]|]. split; [by destruct E as [->| ->]|]. split; [by destruct E as [->| ->]|].
      split; [destruct E as [->| ->]; by exists v'|].
      assert (vr_agent_if w3 <> Some a /\ vr_host_if w3 <> Some a) as [? ?]; [|done].
      destruct E as [->| ->]; cbn; rewrite A2, O2; split; (eapply points_type; [apply Hi|exact Hv|other_type]). }
    case_bool_decide; [apply Hq; [by right|done]|apply Hq; [by left|done]].
  - apply wp_ret. split; [done|]. do 3 (split; [done|]).
    split; [exists v; split; [done|]; by apply (unbridged g w a)|].
    repeat split; (eapply points_type; [apply Hi|exact Hv|other_type]).
Qed.

Lemma slot_clear w i j : slot (clear_slot i w) j = if decide (j = i) then None else slot w j.
Proof.
  unfold slot. cbn. destruct (decide (j = i)) as [->|Hne]; [|by rewrite zget_zset_ne].
  destruct (zget (zset _ i None) i) as [[c|]|] eqn:E; [|done..]. by apply zget_clear in E as [? _].
Qed.

Lemma view_slot w i : vview w i = a ← slot w i; conf_of <$> vr_heap w !! a.
Proof. unfold vview, slot. by destruct (zget _ i) as [[]|]. Qed.

(** The table without one interface. *)
Definition less i w w' : Prop :=
  (forall j, vview w' j = if decide (j = i) then None else vview w j) /\
  (forall j, slot w' j = if decide (j = i) then None else slot w j) /\ vr_max_interfaces w' = vr_max_interfaces w.

Definition free_stage g : stage := mk_stage (st_held g) None None (st_det g).

Lemma del_interface_spec g w i a :
  inv g w -> slot w i = Some a -> st_out g = None -> st_det g a -> (st_new g = None \/ st_new g = Some a) ->
  wp (vrouter_del_interface a) (fun _ w' => inv (free_stage g) w' /\ less i w w') w.
Proof.
  intros Hi Hs Ho Hd Hn. pose proof Hs as Ha. apply slot_Some in Ha.
  destruct (i_tab _ _ Hi i a Ha) as (v & Hv & Hx & _). pose proof (zget_range _ _ _ Ha) as Hr. rewrite (i_len _ _ Hi) in Hr.
  unfold vrouter_del_interface. wbind. apply (wp_load a v); [done|]. wbind. apply wp_gets. rewrite Hx.
  rewrite (proj2 (Z.leb_gt _ _)) by lia. wbind. apply (table_at_spec g); [done|done|]. rewrite Hs, bool_decide_true by done. cbn [negb].
  wbind. apply wp_modify. fold (clear_slot i w). set (w1 := clear_slot i w).
  assert (Hi1 : inv (out_stage a g) w1) by (by apply inv_out). wbind.
  eapply wp_mono; [apply (clear_spec (out_stage a g) w1 a v); done|].
  intros [] w2 (Hi2 & V2 & T2 & M2 & (v2 & Hv2 & Hb2) & P1 & P2 & P3).
  assert (Hi3 : inv (in_stage (out_stage a g)) w2) by (by apply (inv_in _ _ a v2)).
  assert (Hpos : 0 < st_held (in_stage (out_stage a g)) a).
  { cbn. rewrite bump_same. pose proof (i_held _ _ Hi a) as [? _]. lia. }
  eapply wp_mono; [by apply (put_spec _ w2 a Hi3 Hpos)|]. intros [] w3 (Hi4 & V3 & O3). split; [|split; [|split]].
  - apply (inv_held (with_held (-1) a (in_stage (out_stage a g)))); try done. intros c. cbn. unfold bump.
    destruct (decide (c = a)); lia.
  - intros j. rewrite V3, V2, !view_slot. unfold w1. rewrite slot_clear. by destruct (decide (j = i)).
  - intros j. rewrite <- slot_clear. unfold slot. by rewrite (on_table _ _ _ O3), T2.
  - by rewrite (on_max _ _ _ O3), M2.
Qed.

End table.
End VifTable.
