(* ===== verification/VifSub.v ===== *)
(** * Sub-interfaces

    A VLAN sub-interface holds a reference to its parent, and the parent's array or table
    leads to it by tag, or by tag and address.  Detaching it takes it out of both before it can
    be freed. *)

From stdpp Require Import gmap.
From S2P Require Import Prelude Bits VrfAssign VifBridge FatFlow FatFlowProofs VifState Vif VifInv VifDrivers VifRefs VifTable.

Module VifSub.
Import VifState Vif VifInv VifDrivers VifRefs VifTable.

Section sub.
Context {T H : Type} `{SubTableLaws T} `{HifOps T H} {ncpu : Cpus}.
Abbreviation vif := (vr_interface T).
Abbreviation router := (world T H).
Abbreviation prog := (prog T H).
Implicit Types (w : router) (v : vif) (a b c p : Z) (g : stage).

(** ** What drivers leave alone *)

Record alike v v' : Prop := {
  al_type : vif_type v' = vif_type v;
  al_driver : vif_driver (vif_link v') = vif_driver (vif_link v);
  al_bridge : vif_bridge (vif_link v') = vif_bridge (vif_link v)
}.

(** The table, its configurations, and the interfaces in it. *)
Record steady w w' : Prop := {
  sy_table : vr_interfaces w' = vr_interfaces w;
  sy_max : vr_max_interfaces w' = vr_max_interfaces w;
  sy_view : same_view w w';
  sy_vif : forall a v, in_table w a -> vr_heap w !! a = Some v -> exists v', vr_heap w' !! a = Some v' /\ alike v v'
}.

#[export] Instance steady_preorder : PreOrder steady.
Proof.
  split.
  - intros w. split; try done. intros a v _ Hv. by exists v.
  - intros w1 w2 w3 [T1 M1 V1 A1] [T2 M2 V2 A2]. split; [congruence|congruence|by transitivity w2|].
    intros a v Ht Hv. destruct (A1 a v Ht Hv) as (v' & Hv' & [E1 E2 E3]).
    destruct (A2 a v') as (v'' & Hv'' & [F1 F2 F3]); [unfold in_table; by rewrite T1|done|]. exists v''. split; [done|].
    split; congruence.
Qed.

Lemma calm_steady w w' : calm w w' -> steady w w'.
Proof.
  intros Hc. split; [by apply Hc|by apply Hc|by apply calm_view|]. intros a v _ Hv.
  destruct (calm_lookup _ _ _ _ Hc Hv) as (v' & Hv' & Hq). exists v'. split; [done|]. split; [by apply quiet_type|..]; by rewrite (q_link _ _ Hq).
Qed.

Lemma steady_put a v v' w : vr_heap w !! a = Some v -> alike v v' -> conf_of v' = conf_of v -> steady w (put_vif a v' w).
Proof.
  intros Hv Ha Hc. split; try done; [by apply (view_put a v)|]. intros c cv _ Hcv. cbn.
  destruct (decide (c = a)) as [->|Hne]; [|exists cv; by rewrite lookup_insert_ne].
  exists v'. rewrite lookup_insert_eq. split; [done|]. congruence.
Qed.

(** Giving back a reference that the caller held. *)
Lemma put_steady g w p :
  inv g w -> 0 < st_held g p -> st_out g = None ->
  wp (vrouter_put_interface p) (fun _ w' => inv (with_held (-1) p g) w' /\ steady w w') w.
Proof.
  intros Hi Hp Ho. destruct (i_held _ _ Hi p) as [_ [pv Hpv]]; [done|].
  eapply wp_mono; [apply (put_spec g w p Hi Hp); congruence|]. intros [] w1 (Hi1 & V1 & O1). split; [done|].
  split; [apply O1|apply O1|done|]. intros a v Ht Hv. destruct (decide (a = p)) as [->|Hne].
  - destruct (in_table_live _ w1 p Hi1) as [v' Hv']; [unfold in_table; by rewrite (on_table _ _ _ O1)|].
    exists v'. split; [done|]. by rewrite (on_self _ _ _ O1 v v' Hv Hv').
  - exists v. by rewrite (on_heap _ _ _ O1).
Qed.

(** ** The tables of a parent *)

(** The parent with other tables. *)
Definition with_tables (m : option (gmap Z Z)) (t : option T) (v : vif) : vif :=
  on_link (fun l => set_sub_interfaces m (set_btable t l)) v.

Lemma alike_tables m t v : alike v (with_tables m t v).
Proof. by split. Qed.

Lemma inv_tables g w p pv m t :
  inv g w -> vr_heap w !! p = Some pv -> vif_driver (vif_link pv) = Some eth_driver ->
  tables_ok g w p (with_tables m t pv) -> inv g (put_vif p (with_tables m t pv) w).
Proof.
  intros Hi Hp Hd Ht. destruct g as [held new out det].
  assert (Hk : forall c, kids (<[p := with_tables m t pv]> (vr_heap w)) c = kids (vr_heap w) c)
    by (intros c; by apply (kids_same _ p pv)).
  apply (inv_upd (mk_stage held new out det) held w p pv); try done.
  - split; try done. by left.
  - destruct (i_solo _ _ Hi p pv Hp) as [S1 S2 S3 S4 S5 S6 S7]. split; try done.
  - by apply (i_linked _ _ Hi p pv).
  - apply (i_held _ _ Hi).
  - pose proof (i_users _ _ Hi p pv Hp). unfold refs in *. cbn in *. by rewrite Hk.
  - intros c cv Hne Hcv. unfold refs. cbn. by rewrite Hk.
Qed.

Lemma tables_same v : v = with_tables (vif_sub_interfaces (vif_link v)) (vif_btable (vif_link v)) v.
Proof. by destruct v as [s f c []]. Qed.

(** The table, made when it is missing. *)
Lemma sub_table_spec g w p pv :
  inv g w -> vr_heap w !! p = Some pv -> vif_driver (vif_link pv) = Some eth_driver ->
  wp (sub_table p) (fun o w' => inv g w' /\ exists t m, o = Some t /\ w' = put_vif p (with_tables m (Some t) pv) w) w.
Proof.
  intros Hi Hp Hd. unfold sub_table. wbind. apply (wp_load p pv); [done|].
  destruct (i_linked _ _ Hi p pv Hp) as [_ Ls Lt].
  destruct (vif_btable (vif_link pv)) as [t|] eqn:E.
  - apply wp_ret. assert (Hw : put_vif p (with_tables (vif_sub_interfaces (vif_link pv)) (Some t) pv) w = w).
    { rewrite <- E, <- tables_same. unfold put_vif. rewrite insert_id by done. by destruct w. }
    split; [done|]. exists t, (vif_sub_interfaces (vif_link pv)). by rewrite Hw.
  - pose proof (i_mem _ _ Hi) as Hm. wbind. apply wp_gets. wbind. apply wp_gets. wbind. unfold st_memory.
    wbind. apply wp_malloc; [done|]. wbind. apply wp_malloc; [done|]. wbind. apply wp_malloc; [done|].
    wbind. apply wp_malloc; [done|]. apply wp_ret. cbn zeta.
    destruct (st_init_spec (vr_not_ready w) (hif_table_oracle (vr_host w))) as [t Ht]. rewrite Ht.
    wbind. apply (wp_store p _ pv); [done|]. apply wp_ret.
    assert (Hpv : on_link (set_btable (Some t)) pv = with_tables (vif_sub_interfaces (vif_link pv)) (Some t) pv) by (by destruct pv as [s f c []]).
    rewrite Hpv. split; [|by eauto]. apply inv_tables; [done..|]. split; [exact Ls|].
    intros t' [= <-]. exists ∅. split; [by apply (st_init_rep _ _ _ _ Ht)|]. intros vlan mac c. by rewrite lookup_empty.
Qed.

Lemma sub_array_spec g w p pv :
  inv g w -> vr_heap w !! p = Some pv -> vif_driver (vif_link pv) = Some eth_driver ->
  wp (sub_array p) (fun o w' => inv g w' /\ exists m t, o = Some m /\ w' = put_vif p (with_tables (Some m) t pv) w) w.
Proof.
  intros Hi Hp Hd. unfold sub_array. wbind. apply (wp_load p pv); [done|].
  destruct (i_linked _ _ Hi p pv Hp) as [_ Ls Lt].
  destruct (vif_sub_interfaces (vif_link pv)) as [m|] eqn:E.
  - apply wp_ret. assert (Hw : put_vif p (with_tables (Some m) (vif_btable (vif_link pv)) pv) w = w).
    { rewrite <- E, <- tables_same. unfold put_vif. rewrite insert_id by done. by destruct w. }
    split; [done|]. exists m, (vif_btable (vif_link pv)). by rewrite Hw.
  - pose proof (i_mem _ _ Hi) as Hm. wbind. apply wp_malloc; [done|].
    wbind. apply (wp_store p _ pv); [done|]. apply wp_ret.
    assert (Hpv : on_link (set_sub_interfaces (Some ∅)) pv = with_tables (Some ∅) (vif_btable (vif_link pv)) pv) by (by destruct pv as [s f c []]).
    rewrite Hpv. split; [|by eauto]. apply inv_tables; [done..|]. split; [|exact Lt].
    intros m vlan c [= <-]. by rewrite lookup_empty.
Qed.

(** A change of the tables that keeps them right. *)
Lemma store_tables_spec g w p pv m t (f : vif -> vif) :
  inv g w -> vr_heap w !! p = Some pv -> vif_driver (vif_link pv) = Some eth_driver ->
  f pv = with_tables m t pv -> tables_ok g w p (with_tables m t pv) ->
  wp (store p f) (fun _ w' => inv g w' /\ steady w w') w.
Proof.
  intros Hi Hp Hd Hf Ht. apply (wp_store p f pv); [done|]. rewrite Hf. split; [by apply inv_tables|].
  by apply (steady_put p pv).
Qed.

Lemma add_sub_spec g w p a v pv :
  inv g w -> vr_heap w !! a = Some v -> vr_heap w !! p = Some pv -> vif_driver (vif_link pv) = Some eth_driver ->
  in_table w a -> ~ st_det g a -> vif_parent (vif_link v) = Some p -> vif_vlan_id (vif_link v) < VLAN_ID_MAX ->
  wp (eth_drv_add_sub_interface p a) (fun _ w' => inv g w' /\ steady w w') w.
Proof.
  intros Hi Hv Hp Hd Ht Hn Hpar Hvl. unfold eth_drv_add_sub_interface. wbind.
  eapply wp_mono; [apply calmly_hif; by exists v|]. intros ret w1 C1. pose proof (calm_inv g _ _ C1 Hi) as Hi1.
  destruct (negb (ret =? 0)); [apply wp_ret; split; [done|by apply calm_steady]|].
  destruct (calm_lookup _ _ _ _ C1 Hv) as (v1 & Hv1 & Q1). destruct (calm_lookup _ _ _ _ C1 Hp) as (pv1 & Hp1 & P1).
  assert (Hd1 : vif_driver (vif_link pv1) = Some eth_driver) by (by rewrite (q_link _ _ P1)).
  assert (Ht1 : in_table w1 a) by (unfold in_table; by rewrite (ca_table _ _ C1)).
  destruct (li_parent _ _ _ _ (i_linked _ _ Hi a v Hv) p Hpar) as [Hne _].
  pose proof (i_solo _ _ Hi1 a v1 Hv1) as So. rewrite <- (q_link _ _ Q1) in Hpar, Hvl.
  assert (Hch : forall pv' mac, vif_src_mac (vif_link v1) = mac ->
    child_of g (put_vif p pv' w1) p (vif_vlan_id (vif_link v1)) mac a).
  { intros pv' mac Hm. split; [done|]. split; [done|]. exists v1. cbn. by rewrite lookup_insert_ne. }
  assert (Hst : forall m t w3, steady (put_vif p (with_tables m t pv1) w1) w3 -> steady w w3).
  { intros m t w3 Hs. transitivity w1; [by apply calm_steady|]. etransitivity; [|exact Hs]. by apply (steady_put p pv1). }
  wbind. apply (wp_load a v1); [done|]. destruct (vif_src_mac (vif_link v1)) as [mac|] eqn:Em; wbind.
  - eapply wp_mono; [by apply (sub_table_spec g w1 p pv1)|]. intros o w2 (Hi2 & t & m & -> & ->).
    set (pv2 := with_tables m (Some t) pv1) in *.
    assert (Hp2 : vr_heap (put_vif p pv2 w1) !! p = Some pv2) by apply lookup_insert_eq.
    destruct (i_linked _ _ Hi2 p pv2 Hp2) as [_ Ls Lt]. destruct (Lt t eq_refl) as (m0 & Hrep & Hm0).
    pose proof (st_add_spec t m0 (vif_vlan_id (vif_link v1)) mac a Hrep (so_vlan _ So) (so_mac _ So mac Em)) as Hadd.
    destruct (st_add (vif_vlan_id (vif_link v1)) mac a t) as [ret1 t1]. wbind.
    eapply wp_mono; [apply (store_tables_spec g _ p pv2 m (Some t1)); try done|].
    + split; [exact Ls|]. intros t' [= <-]. destruct Hadd as [[_ Hr]|(_ & _ & Hr)]; [|by exists m0].
      eexists. split; [exact Hr|]. intros vlan mac' c. destruct (decide ((vif_vlan_id (vif_link v1), mac) = (vlan, mac'))) as [[= <- <-]|Hk].
      * rewrite lookup_insert_eq. intros [= <-]. by apply Hch.
      * rewrite lookup_insert_ne by done. apply Hm0.
    + intros [] w3 [Hi3 S3]. apply wp_ret. split; [done|]. by apply (Hst m (Some t)).
  - eapply wp_mono; [by apply (sub_array_spec g w1 p pv1)|]. intros o w2 (Hi2 & m & t & -> & ->).
    set (pv2 := with_tables (Some m) t pv1) in *.
    assert (Hp2 : vr_heap (put_vif p pv2 w1) !! p = Some pv2) by apply lookup_insert_eq.
    destruct (i_linked _ _ Hi2 p pv2 Hp2) as [_ Ls Lt]. wbind. apply wp_assume; [by apply Z.ltb_lt|].
    destruct (m !! vif_vlan_id (vif_link v1)) as [c0|] eqn:Ec; [apply wp_ret; split; [done|]; by apply (Hst (Some m) t)|].
    wbind. eapply wp_mono; [apply (store_tables_spec g _ p pv2 (Some (<[vif_vlan_id (vif_link v1) := a]> m)) t); try done|].
    + split; [|exact Lt]. intros m' vlan c [= <-]. destruct (decide (vif_vlan_id (vif_link v1) = vlan)) as [<-|Hk].
      * rewrite lookup_insert_eq. intros [= <-]. by apply Hch.
      * rewrite lookup_insert_ne by done. by apply (Ls m).
    + intros [] w3 [Hi3 S3]. apply wp_ret. split; [done|]. by apply (Hst (Some m) t).
Qed.

(** ** Detaching *)

Definition det_stage a g : stage := mk_stage (st_held g) (st_new g) (st_out g) (fun c => st_det g c \/ c = a).

Lemma child_det g w a p vlan mac c : child_of g w p vlan mac c -> c <> a -> child_of (det_stage a g) w p vlan mac c.
Proof. intros (Hd & Hs) Hne. split; [|done]. intros [?|?]; done. Qed.

Lemma det_child g w a p vlan mac c : child_of (det_stage a g) w p vlan mac c -> child_of g w p vlan mac c.
Proof. intros (Hd & Hs). split; [|done]. intros ?. apply Hd. by left. Qed.

Lemma tables_det_back g w a q qv : tables_ok (det_stage a g) w q qv -> tables_ok g w q qv.
Proof.
  intros [Ls Lt]. split.
  - intros m vlan c Hm Hk. by eapply det_child, Ls.
  - intros t Ht. destruct (Lt t Ht) as (m & Hm & Hk). exists m. split; [done|]. intros vlan mac c Hx. by eapply det_child, Hk.
Qed.

(** Only the parent leads to a sub-interface. *)
Lemma tables_det_other g w a v q qv :
  vr_heap w !! a = Some v -> vif_parent (vif_link v) <> Some q -> tables_ok g w q qv -> tables_ok (det_stage a g) w q qv.
Proof.
  intros Hv Hp [Ls Lt].
  assert (Hch : forall vlan mac c, child_of g w q vlan mac c -> child_of (det_stage a g) w q vlan mac c).
  { intros vlan mac c Hc. apply child_det; [done|]. intros ->. destruct Hc as (_ & _ & cv & Hcv & Hx & _). congruence. }
  split.
  - intros m vlan c Hm Hk. by eapply Hch, Ls.
  - intros t Ht. destruct (Lt t Ht) as (m & Hm & Hk). exists m. split; [done|]. intros vlan mac c Hx. by eapply Hch, Hk.
Qed.

Lemma inv_det g w a :
  inv g w -> (forall q qv, vr_heap w !! q = Some qv -> tables_ok (det_stage a g) w q qv) -> inv (det_stage a g) w.
Proof.
  intros [Hi Hb] Ht. split; [|exact Hb]. split; try apply Hi. intros q qv Hq. destruct (Ht q qv Hq) as [Ls Lt].
  split; [by apply (i_linked _ _ Hi q qv)|exact Ls|exact Lt].
Qed.

(** An interface without a parent is in no table. *)
Lemma inv_det_none g w a v : inv g w -> vr_heap w !! a = Some v -> vif_parent (vif_link v) = None -> inv (det_stage a g) w.
Proof.
  intros Hi Hv Hp. apply inv_det; [done|]. intros q qv Hq. apply (tables_det_other g w a v); [done|congruence|].
  by apply tables_of, (i_linked _ _ Hi).
Qed.

Lemma inv_detach g w a v p pv m t :
  inv g w -> vr_heap w !! a = Some v -> vif_parent (vif_link v) = Some p -> vr_heap w !! p = Some pv ->
  vif_driver (vif_link pv) = Some eth_driver -> tables_ok (det_stage a g) w p (with_tables m t pv) ->
  inv (det_stage a g) (put_vif p (with_tables m t pv) w).
Proof.
  intros Hi Hv Hpar Hp Hd Ht. pose proof (inv_tables g w p pv m t Hi Hp Hd (tables_det_back _ _ _ _ _ Ht)) as Hi1.
  destruct (li_parent _ _ _ _ (i_linked _ _ Hi a v Hv) p Hpar) as [Hne _].
  apply inv_det; [done|]. intros q qv. cbn. destruct (decide (q = p)) as [->|Hq].
  - rewrite lookup_insert_eq. intros [= <-]. apply (tables_upd _ w p pv); [done| |done]. split; try done. by left.
  - intros Hqv. apply (tables_det_other g _ a v); [cbn; by rewrite lookup_insert_ne|congruence|].
    by apply tables_of, (i_linked _ _ Hi1).
Qed.

(** The tables of the parent as they are, when they do not lead to the interface. *)
Lemma inv_detached g w a v p pv :
  inv g w -> vr_heap w !! a = Some v -> vif_parent (vif_link v) = Some p -> vr_heap w !! p = Some pv ->
  tables_ok (det_stage a g) w p pv -> inv (det_stage a g) w.
Proof.
  intros Hi Hv Hpar Hp Ht. apply inv_det; [done|]. intros q qv Hq. destruct (decide (q = p)) as [->|Hne]; [congruence|].
  apply (tables_det_other g w a v); [done|congruence|]. by apply tables_of, (i_linked _ _ Hi).
Qed.

(** What an entry for the interface looks like. *)
Lemma child_self g w p vlan mac a v :
  vr_heap w !! a = Some v -> child_of g w p vlan mac a -> vif_vlan_id (vif_link v) = vlan /\ vif_src_mac (vif_link v) = mac.
Proof. intros Hv (_ & _ & cv & Hcv & _ & Hx). by assert (cv = v) as -> by congruence. Qed.

Lemma sub_remove_spec g w p a v pv :
  inv g w -> vr_heap w !! a = Some v -> vif_parent (vif_link v) = Some p -> vr_heap w !! p = Some pv ->
  vif_driver (vif_link pv) = Some eth_driver ->
  wp (sub_remove p a) (fun _ w' => inv (det_stage a g) w' /\ steady w w' /\ vr_heap w' !! a = Some v) w.
Proof.
  intros Hi Hv Hpar Hp Hd. destruct (li_parent _ _ _ _ (i_linked _ _ Hi a v Hv) p Hpar) as [Hne _].
  pose proof (i_solo _ _ Hi a v Hv) as So. destruct (so_child _ So p Hpar) as [_ Hvl].
  destruct (i_linked _ _ Hi p pv Hp) as [_ Ls Lt].
  assert (Hstore : forall f m t (ret : Z), f pv = with_tables m t pv -> tables_ok (det_stage a g) w p (with_tables m t pv) ->
    wp (_ ← store p f; mret ret) (fun _ w' => inv (det_stage a g) w' /\ steady w w' /\ vr_heap w' !! a = Some v) w).
  { intros f m t ret Hf Ht. wbind. apply (wp_store p f pv); [done|]. rewrite Hf. apply wp_ret.
    split; [by apply (inv_detach g w a v)|]. split; [by apply (steady_put p pv)|]. cbn. by rewrite lookup_insert_ne. }
  assert (Hkeep : forall ret : Z, tables_ok (det_stage a g) w p pv ->
    wp (mret ret) (fun _ w' => inv (det_stage a g) w' /\ steady w w' /\ vr_heap w' !! a = Some v) w).
  { intros ret Ht. apply wp_ret. split; [by apply (inv_detached g w a v p pv)|done]. }
  assert (HLs : vif_src_mac (vif_link v) <> None -> forall m vlan c, vif_sub_interfaces (vif_link pv) = Some m -> m !! vlan = Some c ->
    child_of (det_stage a g) w p vlan None c).
  { intros Hm m vlan c Hs Hk. pose proof (Ls m vlan c Hs Hk) as Hc. apply child_det; [done|]. intros ->.
    by destruct (child_self g w p vlan None a v Hv Hc). }
  assert (HLt : vif_src_mac (vif_link v) = None -> forall t, vif_btable (vif_link pv) = Some t ->
    exists m, st_rep t m /\ forall vlan mac c, m !! (vlan, mac) = Some c -> child_of (det_stage a g) w p vlan (Some mac) c).
  { intros Hm t Hb. destruct (Lt t Hb) as (m & Hr & Hk). exists m. split; [done|]. intros vlan mac c Hx.
    pose proof (Hk _ _ _ Hx) as Hc. apply child_det; [done|]. intros ->.
    destruct (child_self g w p vlan (Some mac) a v Hv Hc). congruence. }
  unfold sub_remove. wbind. apply (wp_load a v); [done|]. wbind. apply (wp_load p pv); [done|].
  destruct (vif_src_mac (vif_link v)) as [mac|] eqn:Em.
  - specialize (HLs ltac:(done)). destruct (vif_btable (vif_link pv)) as [t|] eqn:Eb; [|apply Hkeep; by split; [|rewrite Eb]].
    destruct (Lt t eq_refl) as (m & Hr & Hk).
    pose proof (st_delete_spec t m (vif_vlan_id (vif_link v)) mac Hr (so_vlan _ So) (so_mac _ So mac Em)) as Hdel.
    destruct (st_delete (vif_vlan_id (vif_link v)) mac t) as [ret t1].
    apply (Hstore _ (vif_sub_interfaces (vif_link pv)) (Some t1)); [by destruct pv as [s f c []]|]. split; [exact HLs|].
    intros t' [= <-]. destruct (m !! (vif_vlan_id (vif_link v), mac)) as [x|] eqn:Ex.
    + destruct Hdel as [_ Hr1]. eexists. split; [exact Hr1|]. intros vlan mac' c [Hky Hx]%lookup_delete_Some.
      pose proof (Hk _ _ _ Hx) as Hc. apply child_det; [done|]. intros ->.
      destruct (child_self g w p vlan (Some mac') a v Hv Hc). congruence.
    + destruct Hdel as [_ ->]. exists m. split; [done|]. intros vlan mac' c Hx.
      pose proof (Hk _ _ _ Hx) as Hc. apply child_det; [done|]. intros ->.
      destruct (child_self g w p vlan (Some mac') a v Hv Hc). congruence.
  - specialize (HLt eq_refl). destruct (vif_sub_interfaces (vif_link pv)) as [m|] eqn:Eb; [|apply Hkeep; by split; [rewrite Eb|]].
    wbind. apply wp_assume; [by apply Z.ltb_lt|]. specialize (Ls m).
    case_bool_decide as Ea.
    + apply (Hstore _ (Some (delete (vif_vlan_id (vif_link v)) m)) (vif_btable (vif_link pv))); [by destruct pv as [s f c []]|].
      split; [|exact HLt]. intros m' vlan c [= <-] [Hky Hx]%lookup_delete_Some. pose proof (Ls _ _ eq_refl Hx) as Hc.
      apply child_det; [done|]. intros ->. by destruct (child_self g w p vlan None a v Hv Hc).
    + apply Hkeep. split; [|exact HLt]. rewrite Eb. intros m' vlan c [= <-] Hx. pose proof (Ls _ _ eq_refl Hx) as Hc.
      apply child_det; [done|]. intros ->. destruct (child_self g w p vlan None a v Hv Hc) as [<- _]. done.
Qed.

End sub.
End VifSub.
