(* ===== verification/VifVlan.v ===== *)
(** * The VLAN driver

    Attaching a sub-interface takes a reference to its parent, detaching gives it back. *)

From stdpp Require Import gmap.
From S2P Require Import Prelude Bits VrfAssign VifBridge FatFlow FatFlowProofs VifState Vif VifInv VifDrivers VifRefs VifTable VifSub.

Module VifVlan.
Import VifState Vif VifInv VifDrivers VifRefs VifTable VifSub.

Section vlan.
Context {T H : Type} `{SubTableLaws T} `{HifOps T H} {ncpu : Cpus}.
Abbreviation vif := (vr_interface T).
Abbreviation router := (world T H).
Abbreviation prog := (prog T H).
Implicit Types (w : router) (v : vif) (a b c p : Z) (g : stage).

(** ** Losing the parent *)

Definition orphan v : vif := on_link (set_parent None) v.

Lemma inv_orphan g w a v p :
  inv g w -> vr_heap w !! a = Some v -> vif_parent (vif_link v) = Some p -> st_det g a ->
  inv (with_held 1 p g) (put_vif a (orphan v) w).
Proof.
  intros Hi Hv Hp Hd. destruct (li_parent _ _ _ _ (i_linked _ _ Hi a v Hv) p Hp) as (Hne & pv & Hpv & _).
  assert (Hk : forall c, kids (<[a := orphan v]> (vr_heap w)) c = kids (vr_heap w) c - Z.b2z (bool_decide (c = p))).
  { intros c. rewrite (kids_insert _ a v) by done. change (parent_of (orphan v)) with (@None Z). unfold parent_of. rewrite Hp.
    rewrite (bool_decide_false (None = Some c)) by done. cbn. repeat case_bool_decide; cbn; try lia; congruence. }
  apply (inv_upd g _ w a v); try done.
  - split; try done. by right; left.
  - destruct (i_solo _ _ Hi a v Hv) as [S1 S2 S3 S4 S5 S6 S7]. by split.
  - exact (tables_of g w a v (i_linked _ _ Hi a v Hv)).
  - intros c. destruct (i_held _ _ Hi c) as [Hc Hl]. destruct (decide (c = p)) as [->|Hx].
    + rewrite bump_same. split; [lia|]. by eauto.
    + by rewrite bump_other.
  - pose proof (i_users _ _ Hi a v Hv) as Hu. unfold refs in *. cbn. rewrite Hk, bump_other, bool_decide_false by done.
    change (vif_users (orphan v)) with (vif_users v). cbn. lia.
  - intros c cv Hx Hcv. unfold refs. cbn. rewrite Hk. destruct (decide (c = p)) as [->|Hy].
    + rewrite bump_same, bool_decide_true by done. cbn. lia.
    + rewrite bump_other, bool_decide_false by done. cbn. lia.
Qed.

(** The parent is given back before the pointer to it is cleared; the other order is the same. *)
Lemma put_store_commute a p f w v pv :
  a <> p -> vr_heap w !! a = Some v -> vr_heap w !! p = Some pv ->
  (_ ← vrouter_put_interface p; store a f) w = (_ ← store a f; vrouter_put_interface p : prog unit) w.
Proof.
  intros Hne Hv Hp. unfold vrouter_put_interface, mbind, prog_bind, store, load.
  rewrite Hp, Hv. cbn. rewrite lookup_insert_eq, lookup_insert_ne, Hp by done. cbn. rewrite ?lookup_insert_eq. cbn.
  set (pv' := set_users Z.pred pv). destruct (_ =? 0).
  - unfold vif_free, mbind, prog_bind, load, assume, free_vif. cbn -[pv']. rewrite !lookup_insert_eq. cbn -[pv'].
    destruct (match vif_stats (vif_cfg pv') with Some _ => true | None => vr_num_cpus <=? 0 end); [|done]. cbn -[pv'].
    rewrite lookup_delete_ne, lookup_insert_ne, Hv by done. cbn -[pv']. unfold set_heap. cbn -[pv']. do 2 f_equal.
    rewrite !delete_insert_eq, delete_insert_ne by done. done.
  - unfold mret, prog_ret. cbn -[pv']. rewrite lookup_insert_ne, Hv by done. cbn -[pv']. unfold set_heap. cbn -[pv']. do 2 f_equal.
    by rewrite insert_insert_ne.
Qed.

Lemma wp_put_store {A} a p f (k : prog A) Q w v pv :
  a <> p -> vr_heap w !! a = Some v -> vr_heap w !! p = Some pv ->
  wp (_ ← store a f; vrouter_put_interface p) (fun _ => wp k Q) w ->
  wp (_ ← vrouter_put_interface p; _ ← store a f; k) Q w.
Proof.
  intros Hne Hv Hp (x & w1 & Hm & y & w2 & Hk & HQ). rewrite <- (put_store_commute a p f w v pv Hne Hv Hp) in Hm.
  exists y, w2. split; [|done]. revert Hm. unfold mbind, prog_bind.
  destruct (vrouter_put_interface p w) as [[u w3]|]; [|done]. cbn. intros Hm.
  destruct (store a f w3) as [[u' w4]|]; [|done]. injection Hm as _ ->. exact Hk.
Qed.

Lemma steady_in_table w w' a : steady w w' -> in_table w a -> in_table w' a.
Proof. intros Hs. unfold in_table. by rewrite (sy_table _ _ Hs). Qed.

Lemma del_sub_spec g w p a v pv :
  inv g w -> vr_heap w !! a = Some v -> in_table w a -> vif_parent (vif_link v) = Some p -> vr_heap w !! p = Some pv ->
  vif_driver (vif_link pv) = Some eth_driver -> st_out g = None ->
  wp (eth_drv_del_sub_interface p a) (fun _ w' => inv (det_stage a g) w' /\ steady w w') w.
Proof.
  intros Hi Hv Ht Hpar Hp Hd Ho. unfold eth_drv_del_sub_interface. wbind.
  eapply wp_mono; [by apply (sub_remove_spec g w p a v pv)|]. intros ret w1 (Hi1 & S1 & Hv1).
  destruct (ret =? 0); [|by apply wp_ret].
  destruct (li_parent _ _ _ _ (i_linked _ _ Hi1 a v Hv1) p Hpar) as (Hne & pv1 & Hpv1 & _).
  apply (wp_put_store a p _ _ _ w1 v pv1); try done. wbind. apply (wp_store a _ v); [done|].
  set (w2 := set_heap _ w1).
  assert (Hi2 : inv (with_held 1 p (det_stage a g)) w2) by (apply inv_orphan; try done; by right).
  assert (S2 : steady w1 w2) by (by apply (steady_put a v)).
  assert (Hpos : 0 < st_held (with_held 1 p (det_stage a g)) p).
  { cbn. rewrite bump_same. pose proof (i_held _ _ Hi p) as [? _]. lia. }
  eapply wp_mono; [by apply (put_steady _ w2 p Hi2 Hpos)|]. intros [] w3 [Hi3 S3].
  assert (Hi4 : inv (det_stage a g) w3).
  { apply (inv_held (with_held (-1) p (with_held 1 p (det_stage a g)))); try done. intros c. cbn. unfold bump.
    destruct (decide (c = p)); lia. }
  assert (S13 : steady w w3) by (transitivity w1; [done|]; by transitivity w2).
  destruct (in_table_live _ w3 a Hi4) as [v3 Hv3]; [by apply (steady_in_table w)|].
  wbind. eapply wp_mono; [apply calmly_hif; by exists v3|]. intros r w4 C4. apply wp_ret.
  split; [by apply (calm_inv _ w3)|]. transitivity w3; [done|by apply calm_steady].
Qed.

(** A change of the interface itself, which keeps its references, its bridge and its tables. *)
Lemma inv_self g w a v v' :
  inv g w -> vr_heap w !! a = Some v -> compat g a v v' -> solo v' -> vif_users v' = vif_users v ->
  vif_parent (vif_link v') = vif_parent (vif_link v) -> vif_bridge (vif_link v') = vif_bridge (vif_link v) ->
  vif_sub_interfaces (vif_link v') = vif_sub_interfaces (vif_link v) -> vif_btable (vif_link v') = vif_btable (vif_link v) ->
  inv g (put_vif a v' w).
Proof.
  intros Hi Hv Hc So Eu Ep Eb Es Et. destruct g as [held new out det].
  assert (Hk : forall c, kids (<[a := v']> (vr_heap w)) c = kids (vr_heap w) c)
    by (intros c; by apply (kids_same _ a v)).
  apply (inv_upd (mk_stage held new out det) held w a v); try done.
  - rewrite Ep. apply (i_linked _ _ Hi a v Hv).
  - destruct (i_linked _ _ Hi a v Hv) as [_ Ls Lt]. split; [by rewrite Es|by rewrite Et].
  - apply (i_held _ _ Hi).
  - rewrite Eu. pose proof (i_users _ _ Hi a v Hv). unfold refs in *. cbn in *. by rewrite Hk.
  - intros c cv Hne Hcv. unfold refs. cbn. by rewrite Hk.
Qed.

(** The source address of an interface that no table leads to. *)
Lemma no_src_mac_spec g w a v : inv g w -> vr_heap w !! a = Some v -> st_det g a ->
  wp (store a (on_link (set_src_mac None))) (fun _ w' => inv g w' /\ steady w w') w.
Proof.
  intros Hi Hv Hd. apply (wp_store a _ v); [done|]. split; [|by apply (steady_put a v)].
  apply (inv_self g w a v); try done; [split; try done; by right; left|].
  destruct (i_solo _ _ Hi a v Hv) as [S1 S2 S3 S4 S5 S6 S7]. by split.
Qed.

Lemma vlan_del_spec g w a v :
  inv g w -> vr_heap w !! a = Some v -> in_table w a -> st_out g = None ->
  wp (vlan_drv_del a) (fun _ w' => inv (det_stage a g) w' /\ steady w w') w.
Proof.
  intros Hi Hv Ht Ho. unfold vlan_drv_del. wbind. apply (wp_load a v); [done|].
  destruct (vif_parent (vif_link v)) as [p|] eqn:Ep; [|apply wp_ret; split; [by apply (inv_det_none g w a v)|done]].
  destruct (li_parent _ _ _ _ (i_linked _ _ Hi a v Hv) p Ep) as (Hne & pv & Hpv & [d Hd]).
  wbind. apply (wp_load p pv); [done|]. wbind. apply (wp_of_option d); [done|]. wbind.
  assert (Hsub : wp (if has_sub d then eth_drv_del_sub_interface p a else mret 0)
            (fun _ w' => inv (det_stage a g) w' /\ steady w w') w).
  { destruct d; cbn [has_sub]; try by apply (del_sub_spec g w p a v pv).
    all: apply wp_ret; split; [|done]; apply (inv_detached g w a v p pv); try done.
    all: destruct (so_sub _ (i_solo _ _ Hi p pv Hpv)) as [E1 E2]; [congruence|]; split; rewrite ?E1, ?E2; done. }
  eapply wp_mono; [exact Hsub|]. intros ret w1 [Hi1 S1]. destruct (in_table_live _ w1 a Hi1) as [v1 Hv1]; [by apply (steady_in_table w)|].
  wbind. eapply wp_mono; [apply (no_src_mac_spec (det_stage a g) w1 a v1); try done; by right|]. intros [] w2 [Hi2 S2]. apply wp_ret.
  split; [done|]. by transitivity w1.
Qed.

(** ** Attaching *)

(** A new interface, which has no parent yet. *)
Definition young w a : Prop :=
  exists v, vr_heap w !! a = Some v /\ vif_parent (vif_link v) = None /\ vif_type v = VIF_TYPE_VIRTUAL_VLAN.

(** No count of users is about to wrap. *)
Definition roomy w : Prop := forall a v, vr_heap w !! a = Some v -> vif_users v < UINT_MAX.

Lemma calm_roomy w w' : calm w w' -> roomy w -> roomy w'.
Proof. intros Hc Hr a v' Hv'. destruct (calm_back _ _ _ _ Hc Hv') as (v & Hv & Hq). rewrite (q_users _ _ Hq). by apply (Hr a). Qed.

Lemma roomy_put w a v v' : roomy w -> vr_heap w !! a = Some v -> vif_users v' = vif_users v -> roomy (put_vif a v' w).
Proof.
  intros Hr Hv Hu c cv. cbn. destruct (decide (c = a)) as [->|Hne].
  - rewrite lookup_insert_eq. intros [= <-]. rewrite Hu. by apply (Hr a).
  - rewrite lookup_insert_ne by done. apply Hr.
Qed.

(** A change of a new interface. *)
Lemma young_store g w a f :
  inv g w -> young w a -> (forall v, alike v (f v) /\ conf_of (f v) = conf_of v /\ vif_users (f v) = vif_users v /\
    vif_idx (vif_cfg (f v)) = vif_idx (vif_cfg v) /\
    vif_parent (vif_link (f v)) = vif_parent (vif_link v) /\
    vif_sub_interfaces (vif_link (f v)) = vif_sub_interfaces (vif_link v) /\
    vif_btable (vif_link (f v)) = vif_btable (vif_link v) /\ (solo v -> vif_parent (vif_link v) = None -> solo (f v))) ->
  wp (store a f) (fun _ w' => inv g w' /\ steady w w' /\ young w' a /\ (roomy w -> roomy w') /\
    exists v, w' = put_vif a (f v) w /\ vr_heap w !! a = Some v) w.
Proof.
  intros Hi (v & Hv & Hp & Hty) Hf. destruct (Hf v) as ([A1 A2 A3] & Hc & Hu & Hx & E1 & E2 & E3 & So).
  apply (wp_store a f v); [done|]. split; [|split; [|split; [|split]]].
  - apply (inv_self g w a v); try done; [|by apply So; [apply (i_solo _ _ Hi a)|]].
    split; try done; [by rewrite A2|by right; right].
  - by apply (steady_put a v).
  - exists (f v). cbn. rewrite lookup_insert_eq. split; [done|]. split; congruence.
  - intros Hr. by apply (roomy_put w a v).
  - by exists v.
Qed.

Lemma take_src_mac_spec g w a req :
  inv g w -> young w a -> (forall mac, vifr_src_mac req = Some mac -> vifr_src_mac_size req = VR_ETHER_ALEN -> 6 <= zlen mac) ->
  wp (take_src_mac a req) (fun _ w' => inv g w' /\ steady w w' /\ young w' a /\ (roomy w -> roomy w')) w.
Proof.
  intros Hi Hy Hm. unfold take_src_mac. destruct (vifr_src_mac req) as [mac|]; [|by apply wp_ret].
  destruct (_ =? 0); [by apply wp_ret|]. destruct (Z.eqb_spec (vifr_src_mac_size req) VR_ETHER_ALEN) as [E|E]; [|by apply wp_ret].
  specialize (Hm mac eq_refl E). cbn [negb]. wbind. apply wp_malloc; [apply Hi|]. wbind.
  apply wp_assume; [by apply Z.leb_le|]. wbind. eapply wp_mono; [apply (young_store g w a); try done|].
  - intros v. split; [done|]. do 6 (split; [done|]). intros [S1 S2 S3 S4 S5 S6 S7] Hp. split; try done.
    intros m [= <-]. unfold mac_ok. rewrite length_take. unfold zlen in Hm. lia.
  - intros [] w1 (Hi1 & S1 & Y1 & R1 & _). by apply wp_ret.
Qed.

Definition vlan_fields (req : vr_interface_req) (v : vif) : vif :=
  set_rx VrfAssign.vlan_rx (on_cfg (fun k =>
    set_mac_request (Some vm_mac_request) (set_tx vlan_tx (set_set_rewrite (Some vif_cmn_rewrite) (default_mtu 1514 k))))
      (on_link (set_vlans (u16 (vifr_vlan_id req)) (u16 (vifr_ovlan_id req))) v)).

Lemma vlan_fields_spec g w a req :
  inv g w -> young w a ->
  wp (store a (vlan_fields req)) (fun _ w' => inv g w' /\ steady w w' /\ young w' a /\ (roomy w -> roomy w') /\
    exists v, w' = put_vif a (vlan_fields req v) w /\ vr_heap w !! a = Some v) w.
Proof.
  intros Hi Hy. apply (young_store g w a); try done. intros v.
  split; [done|]. split; [unfold vlan_fields, default_mtu, conf_of; cbn; by case_match|].
  split; [done|]. split; [unfold vlan_fields, default_mtu; cbn; by case_match|]. do 3 (split; [done|]).
  intros [S1 S2 S3 S4 S5 S6 S7] Hp. split; try done.
  - unfold vlan_fields, default_mtu. cbn. by case_match.
  - unfold vlan_ok. cbn. apply Z.mod_pos_bound. lia.
  - cbn. by rewrite Hp.
Qed.

(** The reference to the parent becomes the sub-interface's. *)
Lemma inv_adopt g w a v p pv :
  inv (with_held 1 p g) w -> vr_heap w !! a = Some v -> vif_parent (vif_link v) = None -> vif_type v = VIF_TYPE_VIRTUAL_VLAN ->
  vif_vlan_id (vif_link v) < VLAN_ID_MAX -> vr_heap w !! p = Some pv -> is_Some (vif_driver (vif_link pv)) -> p <> a ->
  (forall c, 0 <= st_held g c /\ (0 < st_held g c -> is_Some (vr_heap w !! c))) ->
  inv g (put_vif a (on_link (set_parent (Some p)) v) w).
Proof.
  intros Hi Hv Hp Hty Hvl Hpv Hd Hne Hh. set (v' := on_link _ v).
  assert (Hk : forall c, kids (<[a := v']> (vr_heap w)) c = kids (vr_heap w) c + Z.b2z (bool_decide (c = p))).
  { intros c. rewrite (kids_insert _ a v) by done. change (parent_of v') with (Some p). unfold parent_of. rewrite Hp.
    rewrite (bool_decide_false (None = Some c)) by done. cbn. repeat case_bool_decide; cbn; try lia; congruence. }
  apply (inv_held (mk_stage (st_held g) (st_new g) (st_out g) (st_det g))); try done.
  apply (inv_upd (with_held 1 p g) (st_held g) w a v); try done.
  - split; try done. by right; right.
  - destruct (i_solo _ _ Hi a v Hv) as [S1 S2 S3 S4 S5 S6 S7]. by split.
  - intros q [= <-]. split; [done|]. by exists pv.
  - exact (tables_of _ w a v (i_linked _ _ Hi a v Hv)).
  - pose proof (i_users _ _ Hi a v Hv) as Hu. unfold refs in *. cbn in *. rewrite bump_other in Hu by done.
    rewrite Hk, bool_decide_false by done. change (vif_users v') with (vif_users v). cbn. lia.
  - intros c cv Hx Hcv. unfold refs. cbn. rewrite Hk. destruct (decide (c = p)) as [->|Hy].
    + rewrite bump_same, bool_decide_true by done. cbn. lia.
    + rewrite bump_other, bool_decide_false by done. cbn. lia.
Qed.

(** What the request asks of the sub-interface, in the state where it is added. *)
Record vlan_req_ok w a (req : vr_interface_req) : Prop := {
  vr_mac_len : forall mac, vifr_src_mac req = Some mac -> vifr_src_mac_size req = VR_ETHER_ALEN -> 6 <= zlen mac;
  vr_parent : slot w (u32 (vifr_parent_vif_idx req)) <> Some a
}.

Lemma vlan_add_spec g w a req :
  inv g w -> young w a -> in_table w a -> st_new g = Some a -> ~ st_det g a -> roomy w -> vlan_req_ok w a req ->
  wp (vlan_drv_add a req) (fun _ w' => inv g w' /\ steady w w') w.
Proof.
  intros Hi Hy Ht Hn Hd Hr [Hmac Hpar]. unfold vlan_drv_add. destruct (_ <? _); [by apply wp_ret|].
  destruct (orb _ _) eqn:Eo; [by apply wp_ret|]. apply orb_false_iff in Eo as [Ev _]. apply Z.leb_gt in Ev.
  wbind. eapply wp_mono; [by apply (take_src_mac_spec g)|]. intros ret w1 (Hi1 & S1 & Y1 & R1). specialize (R1 Hr).
  destruct (negb (ret =? 0)); [by apply wp_ret|].
  wbind. fold (vlan_fields req). eapply wp_mono; [by apply (vlan_fields_spec g)|].
  intros [] w2 (Hi2 & S2 & (v2 & Hv2 & Hp2 & Ht2) & R2 & v1 & Ew2 & Hv1). specialize (R2 R1).
  assert (Hvl : vif_vlan_id (vif_link v2) = u16 (vifr_vlan_id req)).
  { subst w2. cbn in Hv2. rewrite lookup_insert_eq in Hv2. by injection Hv2 as <-. }
  assert (S02 : steady w w2) by (by transitivity w1).
  wbind. eapply wp_mono; [apply (get_spec g w2); [done|apply u32_range|exact R2]|]. intros o w3 [-> Ho].
  assert (Hsl : slot w2 (u32 (vifr_parent_vif_idx req)) = slot w (u32 (vifr_parent_vif_idx req)))
    by (unfold slot; by rewrite (sy_table _ _ S02)).
  destruct (slot w2 _) as [p|] eqn:Es; [|subst w3; by apply wp_ret].
  destruct Ho as (pv & Hpv & -> & Hi3). assert (Hne : p <> a) by congruence. apply slot_Some in Es.
  destruct (i_tab _ _ Hi2 _ _ Es) as (pv' & Hpv' & _ & Hdr). assert (pv' = pv) as -> by congruence.
  destruct Hdr as [Hdr|Hdr]; [congruence|]. set (w3 := put_vif p _ w2) in *.
  assert (Hv3 : vr_heap w3 !! a = Some v2) by (cbn; by rewrite lookup_insert_ne).
  assert (Hp3 : vr_heap w3 !! p = Some (set_users Z.succ pv)) by apply lookup_insert_eq.
  wbind. apply (wp_store a _ v2); [done|]. set (w4 := set_heap _ w3).
  assert (Hi4 : inv g w4).
  { apply (inv_adopt g w3 a v2 p (set_users Z.succ pv)); try done; [by rewrite Hvl|].
    intros c. destruct (i_held _ _ Hi2 c) as [Hc Hl]. split; [done|]. intros Hpos. destruct (Hl Hpos) as [cv Hcv]. cbn.
    destruct (decide (c = p)) as [->|Hx]; [rewrite lookup_insert_eq|rewrite lookup_insert_ne by done]; by eauto. }
  assert (S4 : steady w w4).
  { transitivity w2; [done|]. transitivity w3; [by apply (steady_put p pv)|]. by apply (steady_put a v2). }
  assert (Hp4 : vr_heap w4 !! p = Some (set_users Z.succ pv)) by (cbn; by rewrite lookup_insert_ne by done).
  wbind. apply (wp_load p _ _ _ Hp4). destruct Hdr as [d Hd']. wbind. apply (wp_of_option d); [done|].
  destruct d; cbn [has_sub]; try by apply wp_ret.
  eapply wp_mono; [apply (add_sub_spec g w4 p a (on_link (set_parent (Some p)) v2) (set_users Z.succ pv)); try done|].
  - apply lookup_insert_eq.
  - by apply (steady_in_table w).
  - cbn. by rewrite Hvl.
  - intros r w5 [Hi5 S5]. split; [done|]. by transitivity w4.
Qed.

End vlan.
End VifVlan.
