(* ===== verification/VifDelete.v ===== *)
(** * Deleting an interface

    The driver detaches it, it leaves the table, and the reference of the table is given back. *)

From stdpp Require Import gmap.
From S2P Require Import Prelude Bits VrfAssign VifBridge FatFlow FatFlowProofs VifState.
From S2P Require Import Vif VifInv VifDrivers VifRefs VifTable VifSub VifVlan.

Module VifDelete.
Import VifState Vif VifInv VifDrivers VifRefs VifTable VifSub VifVlan.

Section delete.
Context {T H : Type} `{SubTableLaws T} `{HifOps T H} {ncpu : Cpus}.
Abbreviation vif := (vr_interface T).
Abbreviation router := (world T H).
Abbreviation prog := (prog T H).
Implicit Types (w : router) (v : vif) (a b c p : Z) (g : stage).

(** Between requests: nothing is new, on its way out, or detached. *)
Definition rest (held : Z -> Z) : stage := mk_stage held None None (fun _ => False).

Lemma driver_type v d : vif_drivers (vif_type v) = Some d -> d <> vlan_driver -> vif_type v <> VIF_TYPE_VIRTUAL_VLAN.
Proof. intros Hd Hne Ht. rewrite Ht in Hd. vm_compute in Hd. congruence. Qed.

Lemma no_parent g w a v :
  inv g w -> vr_heap w !! a = Some v -> vif_type v <> VIF_TYPE_VIRTUAL_VLAN -> vif_parent (vif_link v) = None.
Proof.
  intros Hi Hv Ht. destruct (vif_parent (vif_link v)) as [p|] eqn:E; [|done].
  by destruct (so_child _ (i_solo _ _ Hi a v Hv) p E).
Qed.

Lemma calm_detached g w w' a v :
  inv g w -> vr_heap w !! a = Some v -> vif_type v <> VIF_TYPE_VIRTUAL_VLAN -> calm w w' -> inv (det_stage a g) w' /\ steady w w'.
Proof.
  intros Hi Hv Ht Hc. destruct (calm_lookup _ _ _ _ Hc Hv) as (v' & Hv' & Hq). pose proof (calm_inv g _ _ Hc Hi) as Hi'.
  split; [|by apply calm_steady]. apply (inv_det_none g w' a v'); try done. rewrite (q_link _ _ Hq). by apply (no_parent g w a).
Qed.

Lemma detach_spec g w a v :
  inv g w -> vr_heap w !! a = Some v -> in_table w a -> st_out g = None ->
  wp (vif_detach a) (fun _ w' => inv (det_stage a g) w' /\ steady w w') w.
Proof.
  intros Hi Hv Ht Ho. unfold vif_detach, driver_of. wbind. wbind. apply (wp_load a v); [done|].
  destruct (so_type _ (i_solo _ _ Hi a v Hv)) as [d Hd]. apply (wp_of_option d); [done|]. wbind.
  assert (Hw : wp (drv_delete d a) (fun _ w' => inv (det_stage a g) w' /\ steady w w') w).
  { assert (Ha : live w a) by (by exists v). pose proof (driver_type v d Hd) as Hty.
    destruct d; cbn [drv_delete]; try by apply (vlan_del_spec g w a v).
    all: eapply wp_mono; [first [by apply vhost_del_calm|by apply agent_del_calm|by apply eth_del_calm|apply calmly_ret]|].
    all: intros r w1 C1; by apply (calm_detached g w w1 a v); [..|apply Hty|]. }
  eapply wp_mono; [exact Hw|]. intros r w1 Hw1. by apply wp_ret.
Qed.

Lemma drv_delete_spec g w a v :
  inv g w -> vr_heap w !! a = Some v -> in_table w a -> st_out g = None ->
  wp (vif_drv_delete a) (fun _ w' => inv (det_stage a g) w' /\ steady w w') w.
Proof.
  intros Hi Hv Ht Ho. unfold vif_drv_delete. wbind. eapply wp_mono; [apply calmly_store; [by exists v|]|].
  - intros v0. by split.
  - intros [] w1 C1. destruct (calm_lookup _ _ _ _ C1 Hv) as (v1 & Hv1 & _). eapply wp_mono; [apply (detach_spec g w1 a v1); try done|].
    + by apply (calm_inv g w).
    + unfold in_table. by rewrite (ca_table _ _ C1).
    + intros [] w2 [Hi2 S2]. split; [done|]. transitivity w1; [by apply calm_steady|done].
Qed.

(** Fewer interfaces are known to be detached. *)
Lemma inv_undet g g' w :
  (forall c, st_held g' c = st_held g c) -> st_new g' = st_new g -> st_out g' = st_out g ->
  (forall c, st_det g' c -> st_det g c) -> inv g w -> inv g' w.
Proof.
  intros Hh Hn Ho Hd Hi. apply (inv_held (mk_stage (st_held g) (st_new g) (st_out g) (st_det g'))); try done.
  destruct Hi as [Hi Hb]. split; [|exact Hb]. split; try apply Hi. intros a v Hv. destruct (i_linked _ _ Hi a v Hv) as [Lp Ls Lt].
  assert (Hch : forall p vlan mac c, child_of g w p vlan mac c ->
            child_of (mk_stage (st_held g) (st_new g) (st_out g) (st_det g')) w p vlan mac c).
  { intros p vlan mac c (X1 & X2). split; [|done]. intros X3. by apply X1, Hd. }
  split; [done|..].
  - intros m vlan c Hm Hk. by eapply Hch, Ls.
  - intros t Ht. destruct (Lt t Ht) as (m & Hm & Hk). exists m. split; [done|]. intros vlan mac c Hx. by eapply Hch, Hk.
Qed.

Lemma steady_slot w w' i : steady w w' -> slot w' i = slot w i.
Proof. intros Hs. unfold slot. by rewrite (sy_table _ _ Hs). Qed.

Lemma steady_less i w w1 w2 : steady w w1 -> less i w1 w2 -> less i w w2.
Proof.
  intros Hs (V & L & M). split; [|split].
  - intros j. by rewrite V, (sy_view _ _ Hs).
  - intros j. by rewrite L, (steady_slot w w1).
  - by rewrite M, (sy_max _ _ Hs).
Qed.

(** An interface in the table, also one whose driver failed, is deleted. *)
Lemma vif_delete_spec held new w i a :
  inv (mk_stage held new None (fun _ => False)) w -> slot w i = Some a -> (new = None \/ new = Some a) ->
  wp (vif_delete a) (fun _ w' => inv (rest held) w' /\ less i w w') w.
Proof.
  intros Hi Hs Hn. pose proof Hs as Ha. apply slot_Some in Ha. destruct (i_tab _ _ Hi i a Ha) as (v & Hv & _).
  unfold vif_delete. wbind. eapply wp_mono; [apply (drv_delete_spec _ w a v Hi Hv); [by exists i|done]|]. intros [] w1 [Hi1 S1].
  wbind. eapply wp_mono; [apply (del_interface_spec _ w1 i a Hi1); try done|].
  - by rewrite (steady_slot w).
  - by right.
  - intros [] w2 [Hi2 L2]. apply wp_ret. split; [|by apply (steady_less i w w1)].
    by apply (inv_undet (free_stage (det_stage a (mk_stage held new None (fun _ => False))))).
Qed.

(** The request: an index that is in use is freed, any other is refused. *)
Lemma delete_req_spec held w req :
  inv (rest held) w ->
  wp (vr_interface_delete req) (fun ret w' => inv (rest held) w' /\
    match slot w (u32 (vifr_idx req)) with
    | Some _ => ret = 0 /\ less (u32 (vifr_idx req)) w w'
    | None => ret = - ENODEV /\ w' = w
    end) w.
Proof.
  intros Hi. unfold vr_interface_delete. wbind. apply (get_table_spec _ w _ _ Hi); [apply u32_range|].
  destruct (slot w (u32 (vifr_idx req))) as [a|] eqn:E; [|by apply wp_ret].
  wbind. eapply wp_mono; [apply (vif_delete_spec held None w _ a Hi E); by left|]. intros r w1 [Hi1 L1]. by apply wp_ret.
Qed.

End delete.
End VifDelete.
