(* ===== verification/VifAdd.v ===== *)
(** * Adding an interface

    A new interface is entered in the table, gets its driver, and is set up; when one of these
    steps fails it is taken away again. *)

From stdpp Require Import gmap.
From S2P Require Import Prelude Bits VrfAssign VifBridge FatFlow FatFlowProofs VifState.
From S2P Require Import Vif VifInv VifDrivers VifRefs VifTable VifSub VifVlan VifDelete.

Module VifAdd.
Import VifState Vif VifInv VifDrivers VifRefs VifTable VifSub VifVlan VifDelete.

Section add.
Context {T H : Type} `{SubTableLaws T} `{HifOps T H} {ncpu : Cpus}.
Abbreviation vif := (vr_interface T).
Abbreviation router := (world T H).
Abbreviation prog := (prog T H).
Implicit Types (w : router) (v : vif) (a b c p : Z) (g : stage).

(** ** Into the table *)

Definition fresh_stage held a : stage := mk_stage held (Some a) None (fun _ => False).
Definition fill_slot i a w : router := set_table (zset (vr_interfaces w) i (Some a)) (vr_max_interfaces w) w.

Lemma in_table_fill w i a c : slot w i = None -> in_table w c -> in_table (fill_slot i a w) c.
Proof.
  intros Hs [j Hj]. exists j. cbn. rewrite zget_zset_ne; [done|]. intros <-. apply slot_Some in Hj. congruence.
Qed.

Lemma in_table_new w i a : 0 <= i < zlen (vr_interfaces w) -> in_table (fill_slot i a w) a.
Proof. intros Hr. exists i. cbn. by rewrite zget_zset_eq. Qed.

(** The reference that was held becomes the table's. *)
Lemma inv_fill held w i a v :
  inv (rest (bump 1 a held)) w -> vr_heap w !! a = Some v -> vif_idx (vif_cfg v) = i -> 0 <= i < vr_max_interfaces w ->
  slot w i = None -> (forall c, 0 <= held c /\ (0 < held c -> is_Some (vr_heap w !! c))) ->
  inv (fresh_stage held a) (fill_slot i a w).
Proof.
  intros Hi Hv Hx Hr Hs Hh. rewrite <- (i_len _ _ Hi) in Hr.
  destruct (zget_is_Some (vr_interfaces w) i Hr) as [o Ho]. assert (o = None) as ->.
  { unfold slot in Hs. rewrite Ho in Hs. by destruct o. }
  assert (Hpl : forall c, places (zset (vr_interfaces w) i (Some a)) c = places (vr_interfaces w) c + Z.b2z (bool_decide (c = a))).
  { intros c. rewrite (places_set _ _ _ _ _ Ho), (bool_decide_false (None = Some c)) by done. cbn.
    repeat case_bool_decide; cbn; try lia; congruence. }
  assert (Han : forall c, anchored (rest (bump 1 a held)) w c -> anchored (fresh_stage held a) (fill_slot i a w) c).
  { intros c [Hc|Hc]; [|done]. left. by apply in_table_fill. }
  assert (Hch : forall p vlan mac c, child_of (rest (bump 1 a held)) w p vlan mac c -> child_of (fresh_stage held a) (fill_slot i a w) p vlan mac c).
  { intros p vlan mac c (X1 & X2 & X3). split; [done|]. split; [by apply in_table_fill|done]. }
  assert (Hpt : forall o type, points (rest (bump 1 a held)) w o type -> points (fresh_stage held a) (fill_slot i a w) o type).
  { intros o type Hp c Hc. destruct (Hp c Hc) as [X1 X2]. split; [by apply Han|done]. }
  split; [split|]; try apply Hi; try (apply Hpt, Hi); try done.
  - cbn. rewrite zlen_zset. apply Hi.
  - intros j c. cbn. destruct (decide (j = i)) as [->|Hne].
    + rewrite zget_zset_eq by done. intros [= <-]. exists v. split; [done|]. split; [done|by left].
    + rewrite zget_zset_ne by done. intros Hz. destruct (i_tab _ _ Hi j c Hz) as (cv & Hcv & X1 & [X2|X2]); [done|].
      exists cv. split; [done|]. split; [done|by right].
  - intros c cv Hcv. pose proof (i_users _ _ Hi c cv Hcv) as Hu. unfold refs in *. cbn in *. rewrite Hpl. unfold bump in Hu.
    destruct (decide (c = a)) as [->|Hne]; [rewrite bool_decide_true by done|rewrite bool_decide_false by done]; cbn; lia.
  - intros c cv Hcv. destruct (i_linked _ _ Hi c cv Hcv) as [Lp Ls Lt]. split; [done|..].
    + intros m vlan d Hm Hk. by eapply Hch, Ls.
    + intros t Ht. destruct (Lt t Ht) as (m & Hm & Hk). exists m. split; [done|]. intros vlan mac d Hd. by eapply Hch, Hk.
  - intros c cv b Hcv Hb. destruct (i_bridges _ _ Hi c cv b Hcv Hb) as (B1 & B2 & B3). split; [by apply Han|done].
Qed.

(** ** Pointers to it *)

Lemma points_table g w a v type : in_table w a -> vr_heap w !! a = Some v -> vif_type v = type -> points g w (Some a) type.
Proof. intros Ht Hv Hy c [= <-]. split; [by left|]. by exists v. Qed.

(** The two ends of a new bridge. *)
Lemma inv_bridge g w a b v bv :
  inv g w -> a <> b -> vr_heap w !! a = Some v -> vr_heap w !! b = Some bv ->
  vif_bridge (vif_link v) = None -> vif_bridge (vif_link bv) = None -> in_table w a -> in_table w b ->
  vif_type v = VIF_TYPE_HOST -> vif_type bv = VIF_TYPE_PHYSICAL ->
  inv g (put_vif b (on_link (set_bridge (Some a)) bv) (put_vif a (on_link (set_bridge (Some b)) v) w)).
Proof.
  intros Hi Hne Hv Hbv Ev Eb Ta Tb Ya Yb. set (w1 := put_vif a _ w).
  assert (Hbv1 : vr_heap w1 !! b = Some bv) by (cbn; by rewrite lookup_insert_ne by done).
  split; [apply base_bridge; [|done]; apply base_bridge; [apply Hi|done]|].
  intros c cv d. cbn. destruct (decide (c = b)) as [->|Hcb]; [|destruct (decide (c = a)) as [->|Hca]].
  - rewrite lookup_insert_eq. intros [= <-] [= <-]. split; [by left|]. split; [by right|].
    exists (on_link (set_bridge (Some b)) v). split; [|done]. by rewrite lookup_insert_ne, lookup_insert_eq by done.
  - rewrite lookup_insert_ne, lookup_insert_eq by done. intros [= <-] [= <-]. split; [by left|]. split; [by left|].
    exists (on_link (set_bridge (Some a)) bv). split; [|done]. by rewrite lookup_insert_eq.
  - rewrite !lookup_insert_ne by done. intros Hcv Hd. destruct (i_bridges _ _ Hi c cv d Hcv Hd) as (B1 & B2 & dv & Hdv & B3).
    split; [done|]. split; [done|]. exists dv. rewrite !lookup_insert_ne; [done|..]; intros ->; congruence.
Qed.

(** ** [vrouter_add_interface] *)

(** The table with one more interface. *)
Definition more i a (cf : vif_conf) w w' : Prop :=
  (forall j, vview w' j = if decide (j = i) then Some cf else vview w j) /\
  (forall j, slot w' j = if decide (j = i) then Some a else slot w j) /\ vr_max_interfaces w' = vr_max_interfaces w.

Lemma slot_fill w i a j : 0 <= i < zlen (vr_interfaces w) -> slot (fill_slot i a w) j = if decide (j = i) then Some a else slot w j.
Proof.
  intros Hr. unfold slot. cbn. destruct (decide (j = i)) as [->|Hne]; [by rewrite zget_zset_eq|by rewrite zget_zset_ne].
Qed.

Lemma more_fill w i a v :
  0 <= i < zlen (vr_interfaces w) -> vr_heap w !! a = Some v -> more i a (conf_of v) w (fill_slot i a w).
Proof.
  intros Hr Hv. split; [|split; [|done]].
  - intros j. rewrite !view_slot, slot_fill by done. destruct (decide (j = i)); [|done]. cbn. by rewrite Hv.
  - intros j. by apply slot_fill.
Qed.

(** The interface that is added, in the table and without its driver. *)
Record entered i a v held w w' : Prop := {
  en_inv : inv (fresh_stage held a) w';
  en_more : more i a (conf_of v) w w';
  en_vif : exists v', vr_heap w' !! a = Some v' /\ vif_type v' = vif_type v /\
    vif_parent (vif_link v') = vif_parent (vif_link v) /\ vif_driver (vif_link v') = vif_driver (vif_link v);
  en_roomy : roomy w -> roomy w'
}.

(** Bookkeeping that follows the entry. *)
Lemma entered_then i a v held w w1 w2 :
  entered i a v held w w1 -> inv (fresh_stage held a) w2 -> same_view w1 w2 -> vr_interfaces w2 = vr_interfaces w1 ->
  vr_max_interfaces w2 = vr_max_interfaces w1 -> (roomy w1 -> roomy w2) ->
  (forall v1, vr_heap w1 !! a = Some v1 -> exists v2, vr_heap w2 !! a = Some v2 /\ vif_type v2 = vif_type v1 /\
    vif_parent (vif_link v2) = vif_parent (vif_link v1) /\ vif_driver (vif_link v2) = vif_driver (vif_link v1)) ->
  entered i a v held w w2.
Proof.
  intros [Hi (V & L & M) (v1 & Hv1 & E1 & E2 & E3) R] Hi2 Hs Ht Hm Hr Hv. split; [done| | |by auto].
  - split; [|split; [|congruence]].
    + intros j. by rewrite Hs, V.
    + intros j. rewrite <- L. unfold slot. by rewrite Ht.
  - destruct (Hv v1 Hv1) as (v2 & Hv2 & F1 & F2 & F3). exists v2. split; [done|]. split; [|split]; congruence.
Qed.

(** What a host interface may be connected to. *)
Definition host_ok w v (req : vr_interface_req) : Prop :=
  vif_type v = VIF_TYPE_HOST -> forall b bv, in_table w b -> vr_heap w !! b = Some bv ->
    vif_os_idx (vif_cfg bv) = vifr_cross_connect_idx req -> vif_type bv = VIF_TYPE_PHYSICAL /\ vif_bridge (vif_link bv) = None.

Lemma cross_spec g w v req : inv g w -> host_ok w v req ->
  wp (cross_connect v req) (fun x w' => w' = w /\
    match x with
    | inl e => e <> 0
    | inr None => vif_type v <> VIF_TYPE_HOST
    | inr (Some b) => vif_type v = VIF_TYPE_HOST /\ in_table w b /\ exists bv, vr_heap w !! b = Some bv /\
        vif_type bv = VIF_TYPE_PHYSICAL /\ vif_bridge (vif_link bv) = None
    end) w.
Proof.
  intros Hi Hh. unfold cross_connect. destruct (Z.eqb_spec (vif_type v) VIF_TYPE_HOST) as [E|E]; [|by apply wp_ret].
  destruct (_ <? 0); [by apply wp_ret|]. wbind. eapply wp_mono; [by apply (get_os_spec g)|]. intros o w1 [-> Ho].
  apply wp_ret. split; [done|]. destruct o as [b|]; [|done]. destruct (Ho b eq_refl) as (Tb & bv & Hbv & Ex).
  split; [done|]. split; [done|]. exists bv. split; [done|]. by apply (Hh E b bv).
Qed.

(** The interface with a user, and the router it belongs to. *)
Definition enrolled gen v : vif := on_cfg (set_router gen) (set_users Z.succ v).

Lemma enrol_spec held w i a v gen :
  inv (rest held) w -> vr_heap w !! a = Some v -> vif_users v = 0 -> vif_idx (vif_cfg v) = i -> 0 <= i < vr_max_interfaces w ->
  slot w i = None -> entered i a v held w (fill_slot i a (put_vif a (enrolled gen v) w)).
Proof.
  intros Hi Hv Hu Hx Hr Hs. pose proof (inv_get (rest held) w a v Hi Hv ltac:(rewrite Hu; lia)) as Hi1.
  set (w1 := put_vif a (set_users Z.succ v) w) in *. set (w2 := put_vif a (enrolled gen v) w).
  assert (C : calm w1 w2).
  { assert (Hw : w2 = put_vif a (enrolled gen v) w1) by (unfold w1, w2, put_vif, set_heap; cbn; by rewrite insert_insert_eq).
    rewrite Hw. apply (calm_put a (set_users Z.succ v)); [apply lookup_insert_eq|]. by split. }
  pose proof (calm_inv _ _ _ C Hi1) as Hi2.
  assert (Hv2 : vr_heap w2 !! a = Some (enrolled gen v)) by apply lookup_insert_eq.
  split.
  - apply (inv_fill held w2 i a (enrolled gen v)); try done. intros c. destruct (i_held _ _ Hi c) as [Hc Hl]. split; [done|].
    intros Hp. cbn. destruct (decide (c = a)) as [->|Hne]; [rewrite lookup_insert_eq; by eauto|rewrite lookup_insert_ne by done; by apply Hl].
  - destruct (more_fill w2 i a (enrolled gen v)) as (V & L & M); [by rewrite (i_len _ _ Hi2)|done|].
    split; [|split; [exact L|exact M]]. intros j. rewrite V. destruct (decide (j = i)); [done|]. by apply (view_put a v).
  - exists (enrolled gen v). done.
  - intros R c cv. cbn. destruct (decide (c = a)) as [->|Hne].
    + rewrite lookup_insert_eq. intros [= <-]. change (u32 (Z.succ (vif_users v)) < UINT_MAX). rewrite Hu. done.
    + rewrite lookup_insert_ne by done. apply R.
Qed.

(** The pointers that [vrouter_add_interface] sets. *)
Definition set_pointers a v (eth : option Z) : prog unit :=
  if vif_type v =? VIF_TYPE_AGENT then modify (set_agent_if (Some a))
  else match eth with
       | None => mret tt
       | Some b =>
           _ ← modify (set_host_if (Some a));
           _ ← modify (set_eth_if (Some b));
           _ ← store a (on_link (set_bridge (Some b)));
           store b (on_link (set_bridge (Some a)))
       end.

Lemma set_pointers_spec i a v held w w1 v1 eth :
  entered i a v held w w1 -> in_table w1 a -> vr_heap w1 !! a = Some v1 -> vif_type v1 = vif_type v -> vif_bridge (vif_link v1) = None ->
  match eth with
  | None => vif_type v <> VIF_TYPE_HOST
  | Some b => vif_type v = VIF_TYPE_HOST /\ in_table w1 b /\ b <> a /\ exists bv, vr_heap w1 !! b = Some bv /\
      vif_type bv = VIF_TYPE_PHYSICAL /\ vif_bridge (vif_link bv) = None
  end ->
  wp (set_pointers a v eth) (fun _ => entered i a v held w) w1.
Proof.
  intros He Ta Hv1 Hty Hb1 Heth. pose proof (en_inv _ _ _ _ _ _ He) as Hi. unfold set_pointers.
  destruct (Z.eqb_spec (vif_type v) VIF_TYPE_AGENT) as [E|E].
  - apply wp_modify. apply (entered_then i a v held w w1); try done; [|by eauto].
    apply (inv_point _ w1); try done; try apply Hi. apply (points_table _ w1 a v1); congruence.
  - destruct eth as [b|]; [|by apply wp_ret]. destruct Heth as (Eh & Tb & Hne & bv & Hbv & Yb & Bb).
    wbind. apply wp_modify. wbind. apply wp_modify. set (w2 := set_eth_if _ _).
    assert (Hi2 : inv (fresh_stage held a) w2).
    { apply (inv_point _ w1); try done; [apply Hi|..].
      - by apply (points_table _ w1 a v1); [..|congruence].
      - by apply (points_table _ w1 b bv). }
    wbind. apply (wp_store a _ v1); [done|]. apply (wp_store b _ bv); [cbn; by rewrite lookup_insert_ne|].
    apply (entered_then i a v held w w1); try done.
    + by apply (inv_bridge _ w2 a b v1 bv); [..|congruence|].
    + transitivity w2; [done|]. transitivity (put_vif a (on_link (set_bridge (Some b)) v1) w2); [by apply (view_put a v1)|].
      apply (view_put b bv); [cbn; by rewrite lookup_insert_ne|done].
    + intros R. apply (roomy_put _ b bv); [|cbn; by rewrite lookup_insert_ne|done]. by apply (roomy_put _ a v1).
    + intros v2 Hv2. assert (v2 = v1) as -> by congruence. exists (on_link (set_bridge (Some b)) v1). cbn.
      by rewrite lookup_insert_ne, lookup_insert_eq.
Qed.

Lemma add_interface_spec held w a v req :
  inv (rest held) w -> vr_heap w !! a = Some v -> vif_users v = 0 -> 0 <= vif_idx (vif_cfg v) < vr_max_interfaces w ->
  host_ok w v req ->
  wp (vrouter_add_interface a req) (fun ret w' =>
    (ret <> 0 /\ w' = w) \/ (ret = 0 /\ entered (vif_idx (vif_cfg v)) a v held w w')) w.
Proof.
  intros Hi Hv Hu Hr Hh. set (i := vif_idx (vif_cfg v)) in *.
  assert (Hout : ~ in_table w a).
  { intros Ht. apply in_table_places in Ht. pose proof (i_users _ _ Hi a v Hv) as Hx. pose proof (i_held _ _ Hi a) as [? _].
    pose proof (kids_nonneg (vr_heap w) a). unfold refs in Hx. lia. }
  assert (Hnb : vif_bridge (vif_link v) = None).
  { destruct (vif_bridge (vif_link v)) as [b|] eqn:E; [|done]. by destruct (i_bridges _ _ Hi a v b Hv E) as ([?|?] & _). }
  unfold vrouter_add_interface. wbind. apply (wp_load a v); [done|]. wbind. apply (table_at_spec _ _ _ _ Hi); [done|].
  fold i. destruct (slot w i) as [c|] eqn:Es; [apply wp_ret; by left|].
  wbind. eapply wp_mono; [by apply (cross_spec (rest held))|]. intros x w0 [-> Hx].
  destruct x as [e|eth]; [apply wp_ret; by left|].
  wbind. apply wp_gets. wbind. apply wp_modify. set (gen := u32 _). set (w1 := set_generation_num gen w).
  assert (Hi1 : inv (rest held) w1) by (apply (inv_point _ w); try done; apply Hi).
  wbind. apply (wp_store a _ v); [done|]. wbind. apply wp_modify.
  assert (He : entered i a v held w (fill_slot i a (put_vif a (enrolled gen v) w1)))
    by (by destruct (enrol_spec held w1 i a v gen Hi1 Hv Hu eq_refl Hr Es)).
  set (w3 := fill_slot i a (put_vif a (enrolled gen v) w1)) in *.
  assert (Hlen : 0 <= i < zlen (vr_interfaces w)) by (by rewrite (i_len _ _ Hi)).
  assert (Hv3 : vr_heap w3 !! a = Some (enrolled gen v)) by apply lookup_insert_eq.
  wbind. eapply wp_mono; [apply (set_pointers_spec i a v held w w3 (enrolled gen v) eth He)|]; try done.
  - by apply in_table_new.
  - destruct eth as [b|]; [|done]. destruct Hx as (X1 & X2 & bv & Hbv & X3). split; [done|].
    assert (b <> a) by (by intros ->). split; [by apply (in_table_fill w1)|]. split; [done|]. exists bv. cbn.
    by rewrite lookup_insert_ne.
  - intros [] w4 He4. destruct (en_vif _ _ _ _ _ _ He4) as (v4 & Hv4 & F). wbind. apply (wp_store a _ v4); [done|]. apply wp_ret.
    right. split; [done|]. assert (C : calm w4 (put_vif a (on_cfg vrouter_set_rewrite v4) w4)) by (by apply (calm_put a v4)).
    apply (entered_then i a v held w w4); try done.
    + apply (calm_inv _ w4 _ C). apply He4.
    + by apply calm_view.
    + by apply calm_roomy.
    + intros v5 Hv5. assert (v5 = v4) as -> by congruence. eexists. split; [apply lookup_insert_eq|]. done.
Qed.

End add.
End VifAdd.
