(* ===== verification/VifRequest.v ===== *)
(** * The requests to add and to change

    Each request that the model accepts has a result and keeps the invariant, and its effect on
    the table of configurations is the one asked for, or none. *)

From stdpp Require Import gmap.
From S2P Require Import Prelude Bits VrfAssign VifBridge FatFlow FatFlowProofs VifState Vif.
From S2P Require Import VifInv VifDrivers VifRefs VifTable VifSub VifVlan VifDelete VifAdd.

Module VifRequest.
Import VifState Vif VifInv VifDrivers VifRefs VifTable VifSub VifVlan VifDelete VifAdd.

Section request.
Context {T H : Type} `{SubTableLaws T} `{HifOps T H} {ncpu : Cpus}.
Abbreviation vif := (vr_interface T).
Abbreviation router := (world T H).
Abbreviation prog := (prog T H).
Implicit Types (w : router) (v : vif) (a b c p : Z) (g : stage) (req : vr_interface_req).

(** The table and what it configures stay. *)
Record kept w w' : Prop := {
  ke_view : same_view w w';
  ke_table : vr_interfaces w' = vr_interfaces w;
  ke_max : vr_max_interfaces w' = vr_max_interfaces w
}.

#[export] Instance kept_preorder : PreOrder kept.
Proof.
  split.
  - by intros w.
  - intros w1 w2 w3 [V1 T1 M1] [V2 T2 M2]. split; [by transitivity w2|congruence..].
Qed.

Lemma calm_kept w w' : calm w w' -> kept w w'.
Proof. intros Hc. split; [by apply calm_view|apply Hc|apply Hc]. Qed.

Lemma steady_kept w w' : steady w w' -> kept w w'.
Proof. intros [Ht Hm Hv _]. by split. Qed.

Lemma kept_slot w w' i : kept w w' -> slot w' i = slot w i.
Proof. intros Hk. unfold slot. by rewrite (ke_table _ _ Hk). Qed.

(** ** Drivers *)

Lemma attach_spec held w a v req d :
  inv (fresh_stage held a) w -> vr_heap w !! a = Some v -> in_table w a -> vif_parent (vif_link v) = None -> roomy w ->
  (vif_type v = VIF_TYPE_VIRTUAL_VLAN -> vlan_req_ok w a req) -> vif_drivers (vif_type v) = Some d ->
  wp (drv_add d a (Some req)) (fun _ w' => inv (fresh_stage held a) w' /\ steady w w') w.
Proof.
  intros Hi Hv Ht Hp Hr Hreq Hd. assert (Ha : fit w a) by (split; [by exists v|apply Hi]).
  assert (Hb : bridge_live w a).
  { intros v' b Hv' E. destruct (i_bridges _ _ Hi a v' b Hv' E) as (_ & _ & bv & Hbv & _). by exists bv. }
  assert (Hcalm : forall m : prog Z, calmly m w -> wp m (fun _ w' => inv (fresh_stage held a) w' /\ steady w w') w).
  { intros m Hm. eapply wp_mono; [exact Hm|]. intros r w1 C1. split; [by apply (calm_inv _ w)|by apply calm_steady]. }
  destruct d; cbn [drv_add]; [apply Hcalm, vhost_add_calm; [apply Ha|done]|by apply Hcalm, agent_add_calm, Ha|by apply Hcalm, eth_add_calm|
     |by apply Hcalm, eth_add_calm|apply Hcalm, calmly_ret].
  assert (Hty : vif_type v = VIF_TYPE_VIRTUAL_VLAN).
  { unfold vif_drivers in Hd. repeat case_match; try done. by apply Z.eqb_eq. }
  apply (vlan_add_spec (fresh_stage held a)); [done|by exists v|done|done|by intros []|done|by apply Hreq].
Qed.

(** With its driver the interface is like the others. *)
Lemma inv_ready held w a v d :
  inv (fresh_stage held a) w -> vr_heap w !! a = Some v -> vif_driver (vif_link v) = None ->
  inv (rest held) (put_vif a (on_link (set_driver (Some d)) v) w).
Proof.
  intros Hi Hv Hd. set (v' := on_link _ v).
  pose proof (i_solo _ _ Hi a v Hv) as So. destruct (so_sub _ So) as [E1 E2]; [congruence|].
  assert (Hi1 : inv (fresh_stage held a) (put_vif a v' w)).
  { apply (inv_self _ w a v); try done; [split; try done; by left|]. destruct So as [S1 S2 S3 S4 S5 S6 S7]. by split. }
  destruct Hi1 as [Hi1 Hb1]. split; [|exact Hb1]. split; try apply Hi1.
  - intros i c Hz. destruct (i_tab _ _ Hi1 i c Hz) as (cv & Hcv & X1 & X2). exists cv. split; [done|]. split; [done|].
    right. destruct X2 as [[= <-]|X2]; [|done]. cbn in Hcv. rewrite lookup_insert_eq in Hcv. injection Hcv as <-. by eexists.
  - intros c cv Hcv. by destruct (i_linked _ _ Hi1 c cv Hcv).
Qed.

Lemma drv_add_spec held w a v req :
  inv (fresh_stage held a) w -> vr_heap w !! a = Some v -> in_table w a -> vif_parent (vif_link v) = None ->
  vif_driver (vif_link v) = None -> roomy w -> (vif_type v = VIF_TYPE_VIRTUAL_VLAN -> vlan_req_ok w a req) ->
  wp (vif_drv_add a req) (fun ret w' => kept w w' /\ if decide (ret = 0) then inv (rest held) w' else inv (fresh_stage held a) w') w.
Proof.
  intros Hi Hv Ht Hp Hd Hr Hreq. destruct (so_type _ (i_solo _ _ Hi a v Hv)) as [d Hdr].
  unfold vif_drv_add, driver_of. wbind. wbind. apply (wp_load a v); [done|]. apply (wp_of_option d); [done|].
  wbind. eapply wp_mono; [by apply (attach_spec held w a v)|]. intros ret w1 [Hi1 S1].
  destruct (sy_vif _ _ S1 a v Ht Hv) as (v1 & Hv1 & [_ A2 _]). rewrite Hd in A2.
  destruct (Z.eqb_spec ret 0) as [->|Hne]; cbn [negb].
  - wbind. apply (wp_store a _ v1); [done|]. apply wp_ret. rewrite decide_True by done. split; [|by apply inv_ready].
    transitivity w1; [by apply steady_kept|]. split; try done. by apply (view_put a v1).
  - apply wp_ret. rewrite decide_False by done. split; [by apply steady_kept|done].
Qed.

(** ** Setting up *)

Lemma set_flags_quiet f v : quiet v (set_flags f v).
Proof. by split. Qed.

Lemma both_ends_calm f a w :
  live w a -> bridge_live w a -> (forall c w', live w' c -> calmly (f c) w') -> calmly (both_ends f a) w.
Proof.
  intros Ha Hb Hf. unfold both_ends. apply calmly_bind; [by apply Hf|]. intros [] w1 C1.
  apply calmly_load; [by apply (calm_live w)|]. intros v Hv. destruct (vif_bridge (vif_link v)) as [b|] eqn:E; [|apply calmly_ret].
  apply Hf. by apply (calm_bridge_live w w1 a C1 Hb v).
Qed.

Lemma remove_calm c w : live w c -> calmly (vif_remove_xconnect c) w.
Proof. intros Hc. apply calmly_store; [done|]. intros v. by apply set_flags_quiet. Qed.

Lemma set_calm c w : live w c -> calmly (vif_set_xconnect c) w.
Proof. intros Hc. apply calmly_store; [done|]. intros v. by apply set_flags_quiet. Qed.

Lemma inv_bridge_live g w a : inv g w -> bridge_live w a.
Proof. intros Hi v b Hv Hb. destruct (i_bridges _ _ Hi a v b Hv Hb) as (_ & _ & bv & Hbv & _). by exists bv. Qed.

Lemma remove_all_calm g w : inv g w -> calmly vhost_remove_xconnect w.
Proof.
  intros Hi. unfold vhost_remove_xconnect, all_idx. wbind. wbind. apply wp_gets, wp_ret. apply wp_for_each; [reflexivity|].
  intros i w1 Hin C1. apply elem_of_seqZ in Hin. pose proof (calm_inv g _ _ C1 Hi) as Hi1. wbind.
  apply (get_table_spec g); [done|lia|]. destruct (slot w1 i) as [a|] eqn:E; [|by apply wp_ret]. apply slot_Some in E.
  destruct (in_table_live g w1 a Hi1 (ex_intro _ i E)) as [v Hv]. wbind. apply (wp_load a v); [done|].
  destruct (vif_is_vhost v); [|by apply wp_ret].
  eapply wp_mono; [apply both_ends_calm; [by exists v|by apply (inv_bridge_live g)|apply remove_calm]|].
  intros [] w2 C2. by transitivity w1.
Qed.

Lemma setup_calm g w a v : inv g w -> vr_heap w !! a = Some v -> calmly (vrouter_setup_vif a) w.
Proof.
  intros Hi Hv. assert (Ha : live w a) by (by exists v). pose proof (inv_bridge_live g w a Hi) as Hb.
  unfold vrouter_setup_vif. apply calmly_load; [done|]. intros v' _.
  apply calmly_if; [|apply calmly_if].
  - apply calmly_bind; [by apply wp_modify|]. intros [] w1 C1. apply (remove_all_calm g). by apply (calm_inv g w).
  - apply calmly_gets. apply calmly_if; apply both_ends_calm; try done; [apply remove_calm|apply set_calm].
  - apply calmly_ret.
Qed.

(** ** A new interface *)

(** On the heap, not yet in the table. *)
Record loose held w a v : Prop := {
  lo_inv : inv (rest held) w;
  lo_vif : vr_heap w !! a = Some v;
  lo_users : vif_users v = 0;
  lo_parent : vif_parent (vif_link v) = None;
  lo_driver : vif_driver (vif_link v) = None
}.

Lemma loose_out held w a v : loose held w a v -> refs (rest held) w a <= 0 /\ ~ in_table w a.
Proof.
  intros [Hi Hv Hu _ _]. pose proof (i_users _ _ Hi a v Hv) as Hx. rewrite Hu in Hx. split; [lia|].
  by destruct (no_refs _ w a Hi) as [Ht _]; [lia|..].
Qed.

Lemma kept_out w a v' : ~ in_table w a -> kept w (put_vif a v' w).
Proof.
  intros Ht. split; try done. intros i. rewrite !view_slot. change (slot (put_vif a v' w) i) with (slot w i).
  destruct (slot w i) as [c|] eqn:E; [|done]. cbn. rewrite lookup_insert_ne; [done|]. intros ->. apply Ht. exists i. by apply slot_Some.
Qed.

(** A change of what the interface is by itself. *)
Lemma loose_put held w a v v' :
  loose held w a v -> vif_link v' = vif_link v -> vif_users v' = vif_users v -> vif_type v' = vif_type v ->
  vif_idx (vif_cfg v') = vif_idx (vif_cfg v) -> solo v' -> loose held (put_vif a v' w) a v' /\ kept w (put_vif a v' w).
Proof.
  intros Hl El Eu Et Ex So. pose proof (loose_out _ _ _ _ Hl) as [_ Ho]. destruct Hl as [Hi Hv Hu Hp Hd].
  split; [|by apply kept_out]. split; [|apply lookup_insert_eq|congruence|by rewrite El|by rewrite El].
  apply (inv_self _ w a v); try done; rewrite ?El; try done. split; try done; [by rewrite El|]. left. unfold sig. by rewrite El.
Qed.

Lemma loose_free held w a v :
  loose held w a v -> wp (vif_free a) (fun _ w' => inv (rest held) w' /\ kept w w') w.
Proof.
  intros Hl. pose proof (loose_out _ _ _ _ Hl) as [Hr Ho]. destruct Hl as [Hi Hv Hu _ _].
  unfold vif_free. wbind. apply (wp_load a v); [done|]. wbind.
  destruct (so_stats _ (i_solo _ _ Hi a v Hv)) as (st & Hst & _). apply wp_assume; [by rewrite Hst|]. apply wp_free.
  split; [by apply (inv_drop _ w a v)|]. split; try done. intros i. rewrite !view_slot.
  change (slot (set_heap (delete a (vr_heap w)) w) i) with (slot w i). destruct (slot w i) as [c|] eqn:E; [|done]. cbn.
  rewrite lookup_delete_ne; [done|]. intros ->. apply Ho. exists i. by apply slot_Some.
Qed.

(** ** Fat flows *)

(** The ports of the request, as far as the tables of ports can keep them. *)
Definition fat_req_ok req : Prop :=
  match vifr_fat_flow_protocol_port req with
  | Some l => vifr_fat_flow_protocol_port_size req = zlen l /\ zlen l < 65536 /\
      forall i, 0 <= i < 4 -> FatFlowProofs.good (FatFlowProofs.ports_of i l)
  | None => vifr_fat_flow_protocol_port_size req = 0
  end.

Lemma fat_add_good f req : fat_good f -> fat_req_ok req ->
  exists f', FatFlow.vif_fat_flow_add (vifr_fat_flow_protocol_port_size req) (vifr_fat_flow_protocol_port req) f = Some (0, f') /\ fat_good f'.
Proof.
  intros (cfg & Hf & Hg) Hr. unfold fat_req_ok in Hr.
  assert (Hl : exists l, zlen l < 65536 /\ (forall i, 0 <= i < 4 -> FatFlowProofs.good (FatFlowProofs.ports_of i l)) /\
    FatFlow.vif_fat_flow_add (vifr_fat_flow_protocol_port_size req) (vifr_fat_flow_protocol_port req) f =
    FatFlow.vif_fat_flow_add (zlen l) (Some l) f).
  { destruct (vifr_fat_flow_protocol_port req) as [l|]; [destruct Hr as (-> & X1 & X2); by exists l|].
    rewrite Hr. exists []. split; [done|]. split; [|done]. intros i _. split; [constructor|]. intros q Hq. by apply not_elem_of_nil in Hq. }
  destruct Hl as (l & X1 & X2 & ->). destruct (FatFlowProofs.add_request_spec l f cfg Hf Hg X2 X1) as (f' & Ha & Hf').
  exists f'. split; [exact Ha|]. by exists (fun i => FatFlowProofs.ports_of i l).
Qed.

Lemma fat_good_ready f : fat_good f -> FatFlow.ff_oracle f = [].
Proof. intros (cfg & Hf & _). apply (FatFlowProofs.fo_ready _ _ Hf). Qed.

Lemma fat_flow_spec g w a v req :
  inv g w -> vr_heap w !! a = Some v -> fat_req_ok req ->
  wp (fat_flow_add a req) (fun ret w' => ret = 0 /\ exists f, fat_good f /\ w' = put_vif a (on_fat (fun _ => f) v) w) w.
Proof.
  intros Hi Hv Hr. pose proof (so_fat _ (i_solo _ _ Hi a v Hv)) as Hf. pose proof (fat_good_ready _ Hf) as Hor.
  unfold fat_flow_add. wbind. apply (wp_load a v); [done|]. wbind. apply wp_gets. rewrite (i_mem _ _ Hi). cbn zeta.
  assert (Hm : FatFlow.mk_fat (FatFlow.vif_fat_flow_ports (vif_fat v)) (FatFlow.vif_fat_flow_config (vif_fat v))
             (FatFlow.vif_fat_flow_config_size (vif_fat v)) [] = vif_fat v) by (rewrite <- Hor; by destruct (vif_fat v)).
  rewrite Hm. destruct (fat_add_good _ _ Hf Hr) as (f' & Hadd & Hf'). pose proof (fat_good_ready _ Hf') as Hor'.
  wbind. apply (wp_of_option (0, f')); [done|]. wbind. apply wp_modify.
  assert (Hw : set_mem (FatFlow.ff_oracle f') w = w) by (rewrite Hor', <- (i_mem _ _ Hi); by destruct w).
  rewrite Hw. wbind. apply (wp_store a _ v); [done|]. apply wp_ret. split; [done|]. exists f'. split; [done|].
  assert (Hm' : FatFlow.mk_fat (FatFlow.vif_fat_flow_ports f') (FatFlow.vif_fat_flow_config f')
             (FatFlow.vif_fat_flow_config_size f') [] = f') by (rewrite <- Hor'; by destruct f').
  by rewrite Hm'.
Qed.

Lemma solo_fat v f : solo v -> fat_good f -> solo (on_fat (fun _ => f) v).
Proof. intros [S1 S2 S3 S4 S5 S6 S7] Hf. by split. Qed.

(** ** From the heap into the table *)

(** The table and what it configures are the same at every index. *)
Definition still w w' : Prop :=
  same_view w w' /\ (forall j, slot w' j = slot w j) /\ vr_max_interfaces w' = vr_max_interfaces w.

Lemma kept_still w w' : kept w w' -> still w w'.
Proof. intros Hk. split; [apply Hk|]. split; [|apply Hk]. intros j. by apply kept_slot. Qed.

Lemma more_less i a cf w w1 w2 : slot w i = None -> more i a cf w w1 -> less i w1 w2 -> still w w2.
Proof.
  intros Hs (V1 & L1 & M1) (V2 & L2 & M2). split; [|split; [|congruence]].
  - intros j. rewrite V2, V1. destruct (decide (j = i)) as [->|]; [|done]. by rewrite view_slot, Hs.
  - intros j. rewrite L2, L1. destruct (decide (j = i)) as [->|]; [|done]. by rewrite Hs.
Qed.

Lemma more_kept i a cf w w1 w2 : more i a cf w w1 -> kept w1 w2 -> more i a cf w w2.
Proof.
  intros (V1 & L1 & M1) Hk. split; [|split].
  - intros j. by rewrite (ke_view _ _ Hk), V1.
  - intros j. by rewrite (kept_slot w1 w2), L1.
  - by rewrite (ke_max _ _ Hk).
Qed.

Lemma kept_more i a cf w w1 w2 : kept w w1 -> more i a cf w1 w2 -> more i a cf w w2.
Proof.
  intros Hk (V1 & L1 & M1). split; [|split].
  - intros j. by rewrite V1, (ke_view _ _ Hk).
  - intros j. by rewrite L1, (kept_slot w w1).
  - by rewrite M1, (ke_max _ _ Hk).
Qed.

(** The configuration, with the addresses of the request. *)
Definition new_conf v req : vif_conf :=
  mk_conf (vif_type v) (vif_rid (vif_cfg v)) (vif_transport (vif_cfg v)) (VrfAssign.vif_vrf (vif_srv v))
    (VrfAssign.vif_nh_id (vif_srv v)) (match vifr_mac req with Some mac => take 6 mac | None => vif_mac (vif_cfg v) end)
    (u32 (vifr_ip req)) (vif_qos_map_index (vif_cfg v)) (vif_mirror_id (vif_cfg v)).

Definition mac_req_ok req : Prop := forall mac, vifr_mac req = Some mac -> vifr_mac_size req = VR_ETHER_ALEN -> 6 <= zlen mac.

(** An interface that differs in its configuration only. *)
Record config_of (a : Z) w v w' v' : Prop := {
  cg_put : w' = put_vif a v' w;
  cg_link : vif_link v' = vif_link v;
  cg_srv : vif_srv v' = vif_srv v;
  cg_idx : vif_idx (vif_cfg v') = vif_idx (vif_cfg v)
}.

Lemma put_same a v w : vr_heap w !! a = Some v -> put_vif a v w = w.
Proof. intros Hv. unfold put_vif. rewrite insert_id by done. by destruct w. Qed.

Lemma put_twice a v v' w : put_vif a v' (put_vif a v w) = put_vif a v' w.
Proof. unfold put_vif, set_heap. cbn. by rewrite insert_insert_eq. Qed.

Lemma take_mac_spec held w a v req :
  loose held w a v -> mac_req_ok req ->
  wp (take_mac a req) (fun ret w' => exists v', config_of a w v w' v' /\ loose held w' a v' /\ kept w w' /\
    (ret = 0 -> conf_of v' = mk_conf (vif_type v) (vif_rid (vif_cfg v)) (vif_transport (vif_cfg v)) (VrfAssign.vif_vrf (vif_srv v))
      (VrfAssign.vif_nh_id (vif_srv v)) (match vifr_mac req with Some mac => take 6 mac | None => vif_mac (vif_cfg v) end)
      (vif_ip (vif_cfg v)) (vif_qos_map_index (vif_cfg v)) (vif_mirror_id (vif_cfg v)))) w.
Proof.
  intros Hl Hm. unfold take_mac, mac_req_ok in *. pose proof (lo_vif _ _ _ _ Hl) as Hv.
  assert (Hsame : config_of a w v w v) by (split; try done; by rewrite put_same).
  destruct (vifr_mac req) as [mac|].
  - destruct (Z.eqb_spec (vifr_mac_size req) VR_ETHER_ALEN) as [E|E]; cbn [negb].
    + specialize (Hm mac eq_refl E). wbind. apply wp_assume; [by apply Z.leb_le|]. wbind. apply (wp_store a _ v); [done|].
      apply wp_ret. match goal with |- context [set_heap (<[a := ?x]> _) w] => set (v' := x) end.
      destruct (loose_put held w a v v') as [Hl' Hk']; try done; [by destruct (i_solo _ _ (lo_inv _ _ _ _ Hl) a v Hv)|].
      exists v'. split; [by split|]. split; [done|]. split; done.
    + apply wp_ret. by exists v.
  - apply wp_ret. by exists v.
Qed.

Lemma host_ok_put w a v v' req :
  ~ in_table w a -> vif_type v' = vif_type v -> host_ok w v req -> host_ok (put_vif a v' w) v' req.
Proof.
  intros Ho Ht Hh E b bv Tb. cbn. rewrite lookup_insert_ne by (by intros ->). intros Hbv Hx. apply (Hh ltac:(congruence) b bv); done.
Qed.

(** What a request must satisfy for the new interface [v]. *)
Record enter_ok w v req : Prop := {
  eo_roomy : roomy w;
  eo_mac : mac_req_ok req;
  eo_fat : fat_req_ok req;
  eo_host : host_ok w v req;
  eo_vlan : vif_type v = VIF_TYPE_VIRTUAL_VLAN ->
    (forall mac, vifr_src_mac req = Some mac -> vifr_src_mac_size req = VR_ETHER_ALEN -> 6 <= zlen mac) /\
    u32 (vifr_parent_vif_idx req) <> vif_idx (vif_cfg v)
}.

Lemma enter_ok_put held w a v v' req :
  loose held w a v -> vif_type v' = vif_type v -> vif_users v' = vif_users v -> vif_idx (vif_cfg v') = vif_idx (vif_cfg v) ->
  enter_ok w v req -> enter_ok (put_vif a v' w) v' req.
Proof.
  intros Hl Et Eu Ex [R M F Ho V]. destruct (loose_out _ _ _ _ Hl) as [_ Hout]. split; try done.
  - apply (roomy_put w a v); [done|apply Hl|done].
  - by apply (host_ok_put w a v).
  - by rewrite Et, Ex.
Qed.

(** What is left of a new interface: in the table with its driver, or not at all, or as it
    was. *)
Definition added held i a (cf : vif_conf) w (r : Z * option Z) w' : Prop :=
  match r with
  | (ret, None) => ret <> 0 /\ inv (rest held) w' /\ still w w'
  | (ret, Some b) => b = a /\
      ((ret = 0 /\ inv (rest held) w' /\ more i a cf w w') \/
       (ret <> 0 /\ kept w w' /\ exists v, loose held w' a v))
  end.

(** The last steps: the table, the driver, and what depends on the type. *)
Definition enter a req : prog (Z * option Z) :=
  ret ← vrouter_add_interface a req;
  if negb (ret =? 0) then mret (ret, Some a)
  else
    ret ← vif_drv_add a req;
    if negb (ret =? 0) then _ ← vif_delete a; mret (ret, None)
    else _ ← vrouter_setup_vif a; mret (0, Some a).

Lemma enter_spec held w a v req :
  loose held w a v -> 0 <= vif_idx (vif_cfg v) < vr_max_interfaces w -> slot w (vif_idx (vif_cfg v)) = None -> enter_ok w v req ->
  wp (enter a req) (added held (vif_idx (vif_cfg v)) a (conf_of v) w) w.
Proof.
  intros Hl Hr Hs [R M F Ho V]. pose proof (loose_out _ _ _ _ Hl) as [_ Hout]. pose proof Hl as [Hi Hv Hu Hp Hd].
  set (i := vif_idx (vif_cfg v)) in *. unfold enter. wbind. eapply wp_mono; [by apply (add_interface_spec held w a v)|].
  intros ret w1 [[Hne ->]|[-> He]].
  { rewrite (proj2 (Z.eqb_neq _ _)) by done. apply wp_ret. split; [done|]. right. split; [done|]. split; [done|]. by exists v. }
  cbn [Z.eqb negb]. fold i in He. destruct He as [Hi1 M1 (v1 & Hv1 & E1 & E2 & E3) R1].
  assert (Hs1 : slot w1 i = Some a) by (destruct M1 as (_ & L & _); by rewrite L, decide_True).
  assert (T1 : in_table w1 a) by (exists i; by apply slot_Some).
  wbind. eapply wp_mono; [apply (drv_add_spec held w1 a v1 req Hi1 Hv1 T1)|].
  - congruence.
  - congruence.
  - by apply R1.
  - rewrite E1. intros Ht. destruct (V Ht) as [V1 V2]. split; [done|]. destruct M1 as (_ & L & _). rewrite L, decide_False by done.
    intros Hx. apply Hout. eexists. by apply slot_Some.
  - intros ret w2 [K2 Hi2]. destruct (Z.eqb_spec ret 0) as [->|Hne]; cbn [negb].
    + rewrite decide_True in Hi2 by done. destruct (in_table_live _ w2 a Hi2) as [v2 Hv2].
      { exists i. apply slot_Some. by rewrite (kept_slot w1). }
      wbind. eapply wp_mono; [by apply (setup_calm (rest held) w2 a v2)|]. intros [] w3 C3. apply wp_ret.
      split; [done|]. left. split; [done|]. split; [by apply (calm_inv _ w2)|].
      apply (more_kept i a _ w w1); [done|]. transitivity w2; [done|by apply calm_kept].
    + rewrite decide_False in Hi2 by done. wbind. eapply wp_mono; [apply (vif_delete_spec held (Some a) w2 i a Hi2); [|by right]|].
      * by rewrite (kept_slot w1).
      * intros r w3 [Hi3 L3]. apply wp_ret. split; [done|]. split; [done|].
        apply (more_less i a (conf_of v) w w2 w3); [done| |done]. by apply (more_kept i a _ w w1).
Qed.

Lemma added_kept held i a cf w w1 r w2 : kept w w1 -> added held i a cf w1 r w2 -> added held i a cf w r w2.
Proof.
  intros Hk. destruct r as [ret [b|]]; cbn.
  - intros [-> [(-> & Hi & Hm)|(Hne & Hk2 & Hl)]]; split; [done| |done|].
    + left. split; [done|]. split; [done|]. by apply (kept_more i a cf w w1).
    + right. split; [done|]. split; [by transitivity w1|done].
  - intros (Hne & Hi & (V & L & M)). split; [done|]. split; [done|]. apply kept_still in Hk as (V0 & L0 & M0).
    split; [by transitivity w1|]. split; [|congruence]. intros j. by rewrite L, L0.
Qed.

(** Fields of the configuration that others do not see; the driver sets the functions later. *)
Lemma loose_step held w a v v' req :
  loose held w a v -> enter_ok w v req -> slot w (vif_idx (vif_cfg v)) = None ->
  vif_link v' = vif_link v -> vif_type v' = vif_type v -> vif_users v' = vif_users v ->
  vif_idx (vif_cfg v') = vif_idx (vif_cfg v) -> solo v' ->
  let w' := put_vif a v' w in loose held w' a v' /\ kept w w' /\ enter_ok w' v' req /\ slot w' (vif_idx (vif_cfg v')) = None.
Proof.
  intros Hl He Hs El Et Eu Ex So w'. destruct (loose_put held w a v v') as [Hl' Hk']; try done.
  split; [done|]. split; [done|]. split; [by apply (enter_ok_put held w a v)|]. by rewrite Ex.
Qed.

Lemma add_to_router_spec held w a v req :
  loose held w a v -> 0 <= vif_idx (vif_cfg v) < vr_max_interfaces w -> slot w (vif_idx (vif_cfg v)) = None -> enter_ok w v req ->
  wp (add_to_router a req) (added held (vif_idx (vif_cfg v)) a (new_conf v req) w) w.
Proof.
  intros Hl Hr Hs He. unfold add_to_router. wbind. eapply wp_mono; [apply (take_mac_spec held w a v req Hl), He|].
  intros ret w1 (v1 & [P1 L1 S1 X1] & Hl1 & K1 & C1).
  destruct (Z.eqb_spec ret 0) as [->|Hne]; cbn [negb].
  2: { apply wp_ret. split; [done|]. right. split; [done|]. split; [done|]. by exists v1. }
  specialize (C1 eq_refl).
  assert (He1 : enter_ok w1 v1 req) by (subst w1; apply (enter_ok_put held w a v); try done; unfold vif_type, vif_users; by rewrite S1).
  assert (Hs1 : slot w1 (vif_idx (vif_cfg v1)) = None) by (by rewrite X1, (kept_slot w)).
  pose proof (lo_vif _ _ _ _ Hl1) as Hv1. pose proof (i_solo _ _ (lo_inv _ _ _ _ Hl1) a v1 Hv1) as So1.
  wbind. apply (wp_store a _ v1); [done|]. set (v2 := on_cfg (take_ip_name req) v1).
  destruct (loose_step held w1 a v1 v2 req) as (Hl2 & K2 & He2 & Hs2); try done; [by destruct So1; split|].
  set (w2 := set_heap _ w1) in *. change (put_vif a v2 w1) with w2 in *.
  wbind. eapply wp_mono; [apply (fat_flow_spec (rest held) w2 a v2 req); apply Hl2 || apply He2|].
  intros ret w3 (-> & f & Hf & ->). cbn [Z.eqb negb]. set (v3 := on_fat (fun _ => f) v2).
  destruct (loose_step held w2 a v2 v3 req) as (Hl3 & K3 & He3 & Hs3); try done.
  { apply solo_fat; [|done]. by destruct So1; split. }
  set (w3 := put_vif a v3 w2) in *. wbind. apply (wp_store a _ v3); [apply Hl3|]. set (v4 := discard v3).
  destruct (loose_step held w3 a v3 v4 req) as (Hl4 & K4 & He4 & Hs4); try done.
  { pose proof (i_solo _ _ (lo_inv _ _ _ _ Hl3) a v3 (lo_vif _ _ _ _ Hl3)) as So3. by destruct So3; split. }
  set (w4 := set_heap _ w3) in *. change (put_vif a v4 w3) with w4 in *. fold (enter a req).
  assert (K : kept w w4) by (transitivity w1; [done|]; transitivity w2; [done|]; by transitivity w3).
  assert (X4 : vif_idx (vif_cfg v4) = vif_idx (vif_cfg v)) by (by rewrite <- X1).
  assert (Cf : conf_of v4 = new_conf v req).
  { transitivity (mk_conf (cf_type (conf_of v1)) (cf_rid (conf_of v1)) (cf_transport (conf_of v1)) (cf_vrf (conf_of v1))
      (cf_nh_id (conf_of v1)) (cf_mac (conf_of v1)) (u32 (vifr_ip req)) (cf_qos (conf_of v1)) (cf_mirror (conf_of v1))); [done|].
    by rewrite C1. }
  eapply wp_mono; [apply (enter_spec held w4 a v4 req); try done; by rewrite X4, (ke_max _ _ K)|].
  intros r w5. rewrite X4, Cf. by apply added_kept.
Qed.

(** ** Memory *)

Definition with_new v w : router := set_fresh (<[vr_next w := v]> (vr_heap w)) (vr_next w + 1) w.

Lemma next_free g w : inv g w -> vr_heap w !! vr_next w = None.
Proof.
  intros Hi. destruct (vr_heap w !! vr_next w) as [v|] eqn:E; [|done]. pose proof (i_next _ _ Hi _ _ E). lia.
Qed.

(** Nothing refers to an address that is not in use. *)
Lemma dead_refs g w a : inv g w -> vr_heap w !! a = None -> refs g w a = 0.
Proof.
  intros Hi Hn. unfold refs.
  assert (Hh : st_held g a = 0).
  { destruct (i_held _ _ Hi a) as [X1 X2]. destruct (decide (0 < st_held g a)) as [Hp|]; [|lia].
    destruct (X2 Hp) as [? ?]. congruence. }
  assert (Hp : places (vr_interfaces w) a = 0).
  { unfold places. destruct (filter (fun o => o = Some a) (vr_interfaces w)) as [|o l] eqn:E; [done|].
    assert (Ho : o ∈ filter (fun o => o = Some a) (vr_interfaces w)) by (rewrite E; by left).
    apply list_elem_of_filter in Ho as [-> Ho]. apply list_elem_of_lookup_1 in Ho as [j Hj].
    destruct (in_table_live _ w a Hi) as [? ?]; [|congruence]. exists (Z.of_nat j). unfold zget. rewrite decide_True by lia.
    by rewrite Nat2Z.id. }
  assert (Hk : kids (vr_heap w) a = 0); [|lia]. unfold kids.
  assert (filter (fun kv => parent_of kv.2 = Some a) (vr_heap w) = ∅) as ->; [|done].
  apply map_empty. intros c. apply map_lookup_filter_None. destruct (vr_heap w !! c) as [cv|] eqn:Ec; [|by left]. right.
  intros x [= <-] Hx. destruct (li_parent _ _ _ _ (i_linked _ _ Hi c cv Ec) a Hx) as (_ & pv & ? & _). congruence.
Qed.

(** An interface that points to nothing. *)
Record blank v : Prop := {
  bl_users : vif_users v = 0;
  bl_parent : vif_parent (vif_link v) = None;
  bl_bridge : vif_bridge (vif_link v) = None;
  bl_sub : vif_sub_interfaces (vif_link v) = None;
  bl_btable : vif_btable (vif_link v) = None;
  bl_driver : vif_driver (vif_link v) = None
}.

Lemma loose_new held w v :
  inv (rest held) w -> blank v -> solo v -> loose held (with_new v w) (vr_next w) v /\ kept w (with_new v w).
Proof.
  intros Hi [Bu Bp Bb Bs Bt Bd] So. set (a := vr_next w). pose proof (next_free _ w Hi) as Hn. fold a in Hn.
  assert (Hl : forall c cv, vr_heap w !! c = Some cv -> vr_heap (with_new v w) !! c = Some cv).
  { intros c cv Hc. cbn. fold a. rewrite lookup_insert_ne; [done|]. intros <-. congruence. }
  assert (Hd : forall c cv, vr_heap (with_new v w) !! c = Some cv -> (c = a /\ cv = v) \/ vr_heap w !! c = Some cv).
  { intros c cv. cbn. fold a. destruct (decide (c = a)) as [->|Hne]; [rewrite lookup_insert_eq; intros [= <-]; by left|].
    rewrite lookup_insert_ne by done. by right. }
  assert (Hch : forall p vlan mac c, child_of (rest held) w p vlan mac c -> child_of (rest held) (with_new v w) p vlan mac c).
  { intros p vlan mac c (X1 & X2 & cv & Hcv & X3). split; [done|]. split; [done|]. exists cv. split; [by apply Hl|done]. }
  assert (Hpt : forall o type, points (rest held) w o type -> points (rest held) (with_new v w) o type).
  { intros o type Hp c Hc. destruct (Hp c Hc) as (X1 & cv & Hcv & X2). split; [done|]. exists cv. split; [by apply Hl|done]. }
  assert (Hk : forall c, kids (<[a := v]> (vr_heap w)) c = kids (vr_heap w) c).
  { intros c. rewrite kids_fresh by done. unfold parent_of. rewrite Bp. rewrite bool_decide_false by done. cbn. lia. }
  pose proof (dead_refs _ w a Hi Hn) as Hz.
  split; [|split; try done].
  - split; try done; [|cbn; apply lookup_insert_eq]. split; [split|]; try apply Hi; try (apply Hpt, Hi).
    + intros i c Hc. destruct (i_tab _ _ Hi i c Hc) as (cv & Hcv & X). exists cv. split; [by apply Hl|done].
    + intros c cv Hc. cbn. destruct (Hd c cv Hc) as [[-> ->]|Hc']; [unfold a; lia|]. pose proof (i_next _ _ Hi c cv Hc'). lia.
    + intros c cv Hc. unfold refs. cbn. fold a. rewrite Hk. destruct (Hd c cv Hc) as [[-> ->]|Hc'].
      * rewrite Bu. unfold refs in Hz. cbn in Hz. lia.
      * by apply (i_users _ _ Hi c).
    + intros c. destruct (i_held _ _ Hi c) as [X1 X2]. split; [done|]. intros Hp. destruct (X2 Hp) as [cv Hcv]. exists cv. by apply Hl.
    + done.
    + intros c cv Hc. destruct (Hd c cv Hc) as [[-> ->]|Hc']; [done|by apply (i_solo _ _ Hi c)].
    + intros c cv Hc. destruct (Hd c cv Hc) as [[-> ->]|Hc']; [split; rewrite ?Bp, ?Bs, ?Bt; done|].
      destruct (i_linked _ _ Hi c cv Hc') as [Lp Ls Lt]. split.
      * intros p Hp. destruct (Lp p Hp) as (X1 & pv & Hpv & X2). split; [done|]. exists pv. split; [by apply Hl|done].
      * intros m vlan d Hm Hx. by eapply Hch, Ls.
      * intros t Ht. destruct (Lt t Ht) as (m & Hm & Hx). exists m. split; [done|]. intros vlan mac d Hy. by eapply Hch, Hx.
    + intros c cv b Hc Hb. destruct (Hd c cv Hc) as [[-> ->]|Hc']; [congruence|].
      destruct (i_bridges _ _ Hi c cv b Hc' Hb) as (B1 & B2 & bv & Hbv & B3). split; [done|]. split; [done|]. exists bv.
      split; [by apply Hl|done].
  - intros i. rewrite !view_slot. change (slot (with_new v w) i) with (slot w i). destruct (slot w i) as [c|] eqn:E; [|done]. cbn [mbind option_bind].
    apply slot_Some in E. destruct (in_table_live _ w c Hi (ex_intro _ i E)) as [cv Hcv]. by rewrite Hcv, (Hl c cv Hcv).
Qed.

(** ** Flags *)

Lemma has_flag_bit f k : 0 <= k -> has_flag f (Z.shiftl 1 k) = Z.testbit f k.
Proof. apply (has_testbit f). Qed.

Lemma set_flags_bit f s k : 0 <= k -> Z.testbit VrfAssign.VIF_VR_CAP_MASK k = false ->
  Z.testbit (Z.lor VrfAssign.VIF_FLAG_L3_ENABLED VrfAssign.VIF_FLAG_L2_ENABLED) k = false ->
  Z.testbit (VrfAssign.vif_flags (VrfAssign.vif_set_flags f s)) k = Z.testbit f k.
Proof.
  intros Hk Hc Hb. unfold VrfAssign.vif_set_flags. cbn [VrfAssign.vif_flags VrfAssign.with_vflags].
  assert (Hx : Z.testbit (Z.lor (Z.land (VrfAssign.vif_flags s) VrfAssign.VIF_VR_CAP_MASK) (Z.ldiff f VrfAssign.VIF_VR_CAP_MASK)) k = Z.testbit f k).
  { rewrite Z.lor_spec, Z.land_spec, Z.ldiff_spec, Hc, andb_false_r. cbn. apply andb_true_r. }
  case_match; [|done]. rewrite Z.lor_spec, Hx, Hb. apply orb_false_r.
Qed.

(** Whether an interface mirrors is up to the request. *)
Lemma mirror_flags f s m : mirror_of (VrfAssign.vif_flags (VrfAssign.vif_set_flags f s)) m = mirror_of f m.
Proof.
  unfold mirror_of. change VIF_FLAG_MIRROR_RX with (Z.shiftl 1 3). change VIF_FLAG_MIRROR_TX with (Z.shiftl 1 4).
  rewrite !has_flag_bit by done. by rewrite !set_flags_bit.
Qed.

(** ** Adding *)

(** The configuration that a request asks for. *)
Definition req_conf req : vif_conf :=
  mk_conf (u16 (vifr_type req)) (u16 (vifr_rid req)) (u8 (vifr_transport req)) (u16 (vifr_vrf req)) (u16 (vifr_nh_id req))
    (match vifr_mac req with Some mac => take 6 mac | None => replicate 6 0 end) (u32 (vifr_ip req)) (vifr_qos_map_index req)
    (mirror_of (u32 (vifr_flags req)) (vifr_mir_id req)).

(** The requests that the module can serve in the state [w]: lists as long as their sizes, a
    type that exists, ports that the tables can keep, another interface for parent, and a host
    interface only on a physical interface that has none. *)
Record add_ok w req : Prop := {
  ao_roomy : roomy w;
  ao_type : 0 <= vifr_type req;
  ao_mac : mac_req_ok req;
  ao_fat : fat_req_ok req;
  ao_vlan : vifr_type req = VIF_TYPE_VIRTUAL_VLAN ->
    (forall mac, vifr_src_mac req = Some mac -> vifr_src_mac_size req = VR_ETHER_ALEN -> 6 <= zlen mac) /\
    u32 (vifr_parent_vif_idx req) <> u32 (vifr_idx req);
  ao_host : vifr_type req = VIF_TYPE_HOST -> forall b bv, in_table w b -> vr_heap w !! b = Some bv ->
    vif_os_idx (vif_cfg bv) = vifr_cross_connect_idx req -> vif_type bv = VIF_TYPE_PHYSICAL /\ vif_bridge (vif_link bv) = None
}.

Lemma lcores_spec cpus n w : vr_mem w = [] -> wp (alloc_lcores cpus n) (fun r w' => w' = w /\ r.1 = true /\ length r.2 = length cpus /\
    Forall (fun s => exists l, vis_queue_ierrors_to_lcore s = Some l /\ length l = Z.to_nat n) r.2) w.
Proof.
  intros Hm. induction cpus as [|c cpus IH]; [by apply wp_ret|]. cbn [alloc_lcores]. wbind. apply wp_malloc; [done|].
  wbind. eapply wp_mono; [exact IH|]. intros [all l] w1 (-> & Hall & Hlen & Hf). apply wp_ret. split; [done|]. split; [done|]. cbn in *.
  split; [by rewrite Hlen|]. constructor; [|done]. eexists. split; [done|]. apply length_replicate.
Qed.

Lemma drivers_range t : 0 <= t < VIF_TYPE_MAX -> is_Some (vif_drivers t).
Proof.
  intros [H3 H4]. unfold vif_drivers. repeat case_match; try by eexists. apply Z.leb_le in H3. apply Z.ltb_lt in H4.
  rewrite H3, H4 in *. done.
Qed.

(** A new interface with the statistics [st]. *)
Definition newborn (st : list vr_interface_stats) req : vif := init_fields req (on_cfg (set_stats (Some st)) vif_zero).

Lemma newborn_solo st req : stats_ok (Some st) -> 0 <= vifr_type req < VIF_TYPE_MAX -> blank (newborn st req) /\ solo (newborn st req).
Proof.
  intros Hst Ht. split; [by split|]. split; try done.
  - exists (fun _ => []). split; [apply FatFlowProofs.fat_vif0_ok|]. intros i _. split; [constructor|]. intros q Hq.
    by apply not_elem_of_nil in Hq.
  - change (vif_type (newborn st req)) with (u16 (vifr_type req)). rewrite u16_small by (unfold VIF_TYPE_MAX in Ht; lia).
    by apply drivers_range.
Qed.

Lemma u16_u32 x : u32 x < 65536 -> u16 x = u32 x.
Proof.
  intros Hx. pose proof (u32_range x) as [Hy _]. rewrite <- (Z.mod_small (u32 x) 65536) by lia. unfold u32, u16.
  symmetry. apply Z.mod_mod_divide. by exists 65536.
Qed.

(** The memory of a new interface. *)
Lemma new_start held w req : inv (rest held) w -> vr_mem w = [] -> forall Q : Z * option Z -> router -> Prop,
  (forall st, stats_ok (Some st) -> wp (add_to_router (vr_next w) req) Q (with_new (newborn st req) w)) -> wp (add_new req) Q w.
Proof.
  intros Hi Hm Q HQ. unfold add_new. wbind.
  assert (Hz : wp (zalloc_vif vif_zero) (fun o w' => o = Some (vr_next w) /\ w' = with_new vif_zero w) w).
  { unfold zalloc_vif. eexists _, _. split; [rewrite Hm; reflexivity|]. split; [done|]. unfold with_new. destruct w. cbn in *. by subst. }
  eapply wp_mono; [exact Hz|]. intros o w1 [-> ->]. set (a := vr_next w). unfold alloc_stats. wbind.
  wbind. apply wp_malloc; [done|]. wbind. eapply wp_mono; [by apply lcores_spec|]. intros [all l] w1 (-> & Hall & Hlen & Hfl). cbn in Hall. subst all.
  wbind. apply (wp_store a _ vif_zero); [apply lookup_insert_eq|]. apply wp_ret. cbn [negb]. wbind.
  apply (wp_store a _ (on_cfg (set_stats (Some l)) vif_zero)); [cbn; apply lookup_insert_eq|].
  match goal with |- wp _ _ ?x => assert (Hw : x = with_new (newborn l req) w) end.
  { unfold with_new, set_heap, set_fresh. cbn. by rewrite !insert_insert_eq. }
  rewrite Hw. apply HQ. exists l. split; [done|]. split; [|done]. cbn in Hlen. by rewrite Hlen, length_seqZ.
Qed.

Lemma add_new_spec held w req :
  inv (rest held) w -> add_ok w req -> u32 (vifr_idx req) < vr_max_interfaces w -> vifr_type req < VIF_TYPE_MAX ->
  slot w (u32 (vifr_idx req)) = None ->
  wp (add_new req) (added held (u32 (vifr_idx req)) (vr_next w) (req_conf req) w) w.
Proof.
  intros Hi [R Ty M F V Ho] Hr Ht Hs. apply (new_start held w req Hi); [apply Hi|]. intros st Hst.
  destruct (newborn_solo st req Hst) as [Bl So]; [done|]. destruct (loose_new held w _ Hi Bl So) as [Hl Hk].
  assert (Ex : vif_idx (vif_cfg (newborn st req)) = u32 (vifr_idx req)).
  { cbn. apply u16_u32. pose proof (i_max _ _ Hi). unfold VR_MAX_INTERFACES in *. lia. }
  assert (Et : vif_type (newborn st req) = vifr_type req).
  { cbn. apply u16_small. unfold VIF_TYPE_MAX in Ht. lia. }
  assert (He : enter_ok (with_new (newborn st req) w) (newborn st req) req).
  { split; try done.
    - intros c cv. cbn. destruct (decide (c = vr_next w)) as [->|Hne].
      + rewrite lookup_insert_eq. by intros [= <-].
      + rewrite lookup_insert_ne by done. apply R.
    - intros E b bv Tb. rewrite Et in E. cbn. destruct (in_table_live _ w b Hi Tb) as [bv' Hbv'].
      rewrite lookup_insert_ne; [by apply Ho|]. intros <-. rewrite (next_free _ w Hi) in Hbv'. done.
    - rewrite Et, Ex. exact V. }
  eapply wp_mono; [apply (add_to_router_spec held _ _ _ req Hl); try done|].
  - rewrite Ex, (ke_max _ _ Hk). pose proof (u32_range (vifr_idx req)). lia.
  - by rewrite Ex, (kept_slot w).
  - intros r w1. rewrite Ex. intros Ha. apply (added_kept held _ _ _ w (with_new (newborn st req) w)); [done|].
    assert (Hc : new_conf (newborn st req) req = req_conf req).
    { assert (Hm : vif_mirror_id (vif_cfg (newborn st req)) = mirror_of (u32 (vifr_flags req)) (vifr_mir_id req)) by apply mirror_flags.
      unfold new_conf. by rewrite Hm. }
    by rewrite <- Hc.
Qed.

(** ** Changing *)

(** The configuration [cf] as a request changes it. *)
Definition change_conf (cf : vif_conf) req : vif_conf :=
  mk_conf (cf_type cf) (cf_rid cf) (cf_transport cf) (if 0 <=? vifr_vrf req then u16 (vifr_vrf req) else cf_vrf cf)
    (u16 (vifr_nh_id req)) (cf_mac cf) (cf_ip cf) (vifr_qos_map_index req) (mirror_of (u32 (vifr_flags req)) (vifr_mir_id req)).

Lemma change_service_same f s :
  let '(ret, s') := VrfAssign.change_service f true s in
  ret = 0 /\ VrfAssign.vif_type s' = VrfAssign.vif_type s /\ VrfAssign.vif_users s' = VrfAssign.vif_users s /\
  VrfAssign.vif_vrf s' = VrfAssign.vif_vrf s /\ VrfAssign.vif_nh_id s' = VrfAssign.vif_nh_id s /\
  forall m, mirror_of (VrfAssign.vif_flags s') m = mirror_of f m.
Proof.
  unfold VrfAssign.change_service.
  destruct (service_enable_same true s) as (E1 & E2 & E3 & E4 & _). destruct (service_disable_same s) as (D1 & D2 & D3 & D4 & _).
  assert (Hr : (VrfAssign.vr_interface_service_enable true s).1 = 0).
  { unfold VrfAssign.vr_interface_service_enable. by destruct (VrfAssign.vif_vrf_table s). }
  destruct (andb _ _); [|destruct (andb _ _)].
  - destruct (VrfAssign.vr_interface_service_enable true s) as [ret s1]. cbn in *. subst ret. cbn. repeat (split; [done|]). intros m. apply mirror_flags.
  - cbn -[VrfAssign.vif_set_flags VrfAssign.vr_interface_service_disable]. repeat (split; [done|]). intros m. apply mirror_flags.
  - cbn -[VrfAssign.vif_set_flags]. repeat (split; [done|]). intros m. apply mirror_flags.
Qed.

Lemma change_flags_spec w a v req :
  vr_heap w !! a = Some v -> vr_mem w = [] ->
  wp (change_flags a req) (fun ret w' => ret = 0 /\ calm w w' /\ exists v', vr_heap w' !! a = Some v' /\
    forall m, mirror_of (vif_flags v') m = mirror_of (u32 (vifr_flags req)) m) w.
Proof.
  intros Hv Hm. unfold change_flags. wbind. apply (wp_load a v); [done|]. wbind. cbn zeta.
  match goal with |- wp ?m _ _ => assert (Hok : wp m (fun ok w' => ok = true /\ w' = w) w) end.
  { destruct (andb _ _); [|by apply wp_ret]. destruct (VrfAssign.vif_vrf_table (vif_srv v)); [by apply wp_ret|by apply wp_malloc]. }
  eapply wp_mono; [exact Hok|]. intros ok w1 [-> ->].
  pose proof (change_service_same (u32 (vifr_flags req)) (vif_srv v)) as Hc.
  destruct (VrfAssign.change_service (u32 (vifr_flags req)) true (vif_srv v)) as [ret s]. destruct Hc as (-> & E1 & E2 & E3 & E4 & Em).
  wbind. apply (wp_store a _ v); [done|]. apply wp_ret. split; [done|].
  split; [apply (calm_put a v); [done|by apply quiet_srv]|]. eexists. split; [apply lookup_insert_eq|]. exact Em.
Qed.

(** The table with another configuration at one index. *)
Definition changed i (cf : vif_conf) w w' : Prop :=
  (forall j, vview w' j = if decide (j = i) then Some cf else vview w j) /\
  (forall j, slot w' j = slot w j) /\ vr_max_interfaces w' = vr_max_interfaces w.

Lemma put_changed g w i a v v' :
  inv g w -> slot w i = Some a -> vr_heap w !! a = Some v -> changed i (conf_of v') w (put_vif a v' w).
Proof.
  intros Hi Hs Hv. split; [|done]. intros j. rewrite !view_slot. change (slot (put_vif a v' w) j) with (slot w j).
  destruct (decide (j = i)) as [->|Hne]; [rewrite Hs; cbn; by rewrite lookup_insert_eq|].
  destruct (slot w j) as [c|] eqn:E; [|done]. cbn. rewrite lookup_insert_ne; [done|]. intros ->. apply slot_Some in E, Hs.
  destruct (i_tab _ _ Hi _ _ E) as (v1 & Hv1 & X1 & _). destruct (i_tab _ _ Hi _ _ Hs) as (v2 & Hv2 & X2 & _). congruence.
Qed.

Lemma changed_kept i cf w w1 w2 w3 : kept w w1 -> changed i cf w1 w2 -> kept w2 w3 -> changed i cf w w3.
Proof.
  intros K1 (V & L & M) K2. split; [|split].
  - intros j. rewrite (ke_view _ _ K2), V. by rewrite (ke_view _ _ K1).
  - intros j. by rewrite (kept_slot w2 w3), L, (kept_slot w w1).
  - by rewrite (ke_max _ _ K2), M, (ke_max _ _ K1).
Qed.

Lemma change_spec held w i a v req :
  inv (rest held) w -> slot w i = Some a -> vr_heap w !! a = Some v -> fat_req_ok req ->
  wp (vr_interface_change a req) (fun ret w' => ret = 0 /\ inv (rest held) w' /\ changed i (change_conf (conf_of v) req) w w' /\
    live w' a) w.
Proof.
  intros Hi Hs Hv Hf. unfold vr_interface_change. wbind.
  eapply wp_mono; [apply (change_flags_spec w a v); [done|apply Hi]|]. intros ret w1 (-> & C1 & v1 & Hv1 & Hm). cbn [Z.eqb negb].
  pose proof (calm_inv _ _ _ C1 Hi) as Hi1. destruct (calm_lookup _ _ _ _ C1 Hv) as (v1' & Hv1' & Q1).
  assert (v1' = v1) as -> by congruence. wbind. apply (wp_store a _ v1); [done|]. set (v2 := change_config req v1).
  set (w2 := set_heap _ w1). pose proof (i_solo _ _ Hi1 a v1 Hv1) as So.
  assert (X : vif_idx (vif_cfg v2) = vif_idx (vif_cfg v1) /\ vif_stats (vif_cfg v2) = vif_stats (vif_cfg v1) /\
    conf_of v2 = change_conf (conf_of v) req).
  { rewrite <- (q_conf _ _ Q1). unfold v2, change_config, conf_of, change_conf. cbn. rewrite Hm. by destruct (vifr_mtu req =? 0). }
  destruct X as (X1 & X2 & X3).
  assert (Hi2 : inv (rest held) w2).
  { apply (inv_self _ w1 a v1); try done; [split; try done; by left|]. destruct So as [S1 S2 S3 S4 S5 S6 S7].
    split; try done. by rewrite X2. }
  assert (Hv2 : vr_heap w2 !! a = Some v2) by apply lookup_insert_eq.
  eapply wp_mono; [by apply (fat_flow_spec (rest held) w2 a v2)|]. intros ret w3 (-> & f & Hgf & ->). split; [done|].
  set (v3 := on_fat (fun _ => f) v2). split; [|split].
  - apply (inv_self _ w2 a v2); try done; [split; try done; by left|]. apply solo_fat; [|done]. by apply (i_solo _ _ Hi2 a).
  - rewrite <- X3. apply (changed_kept i _ w w1 w2); [by apply calm_kept| |].
    + apply (put_changed (rest held) w1 i a v1); try done. by rewrite (kept_slot w) by (by apply calm_kept).
    + split; try done. by apply (view_put a v2).
  - exists v3. apply lookup_insert_eq.
Qed.

(** ** The request *)

(** What a request to add does to the table. *)
Definition add_effect w req (ret : Z) w' : Prop :=
  let i := u32 (vifr_idx req) in
  if (vr_max_interfaces w <=? i) || (VIF_TYPE_MAX <=? vifr_type req) then ret = - EINVAL /\ still w w'
  else if negb (vif_transport_valid req) then ret = 0 /\ still w w'
  else match vview w i with
       | Some cf => ret = 0 /\ changed i (change_conf cf req) w w'
       | None => (ret = 0 /\ exists a, more i a (req_conf req) w w') \/ (ret <> 0 /\ still w w')
       end.

Lemma register_spec held w a :
  inv (rest held) w -> live w a -> wp (_ ← hif HOS_REGISTER_NIC a; mret tt) (fun _ w' => inv (rest held) w' /\ kept w w') w.
Proof.
  intros Hi Ha. wbind. eapply wp_mono; [by apply calmly_hif|]. intros r w1 C1. apply wp_ret.
  split; [by apply (calm_inv _ w)|by apply calm_kept].
Qed.

Lemma still_kept w w1 w2 : still w w1 -> kept w1 w2 -> still w w2.
Proof.
  intros (V & L & M) Hk. split; [|split].
  - intros j. by rewrite (ke_view _ _ Hk), V.
  - intros j. by rewrite (kept_slot w1 w2), L.
  - by rewrite (ke_max _ _ Hk).
Qed.

Lemma add_checked_spec held w req : inv (rest held) w -> add_ok w req ->
  wp (add_checked req) (fun r w' => match r with
    | (ret, None) => inv (rest held) w' /\ add_effect w req ret w'
    | (ret, Some a) => if decide (ret = 0) then inv (rest held) w' /\ live w' a /\ add_effect w req 0 w'
                       else kept w w' /\ (exists v, loose held w' a v) /\ forall w2, kept w' w2 -> add_effect w req ret w2
    end) w.
Proof.
  intros Hi Ho. unfold add_checked, add_effect. wbind. apply wp_gets. set (i := u32 (vifr_idx req)).
  pose proof (u32_range (vifr_idx req)) as [Hr0 _]. fold i in Hr0.
  destruct (Z.leb_spec (vr_max_interfaces w) i) as [Hm|Hm]; [by apply wp_ret|].
  destruct (Z.leb_spec VIF_TYPE_MAX (vifr_type req)) as [Ht|Ht]; [by apply wp_ret|]. cbn [orb].
  destruct (negb (vif_transport_valid req)); [by apply wp_ret|].
  wbind. apply (get_table_spec _ w i _ Hi Hr0). pose proof (view_slot w i) as Hvw. destruct (slot w i) as [a|] eqn:Es.
  - pose proof Es as Ea. apply slot_Some in Ea. destruct (in_table_live _ w a Hi (ex_intro _ i Ea)) as [v Hv].
    cbn in Hvw. rewrite Hv in Hvw. rewrite Hvw. wbind. eapply wp_mono; [apply (change_spec held w i a v req Hi Es Hv), Ho|]. intros ret w1 (-> & Hi1 & Hc & Hl). by apply wp_ret.
  - cbn in Hvw. rewrite Hvw. eapply wp_mono; [by apply (add_new_spec held w req)|]. intros [ret [b|]] w1; cbn.
    + fold i. intros [-> [(-> & Hi1 & Hm1)|(Hne & Hk & v & Hl)]].
      * rewrite decide_True by done. split; [done|]. split; [|left; by eauto].
        destruct Hm1 as (_ & L & _). apply (in_table_live (rest held)); [done|]. exists i. apply slot_Some. by rewrite L, decide_True.
      * rewrite decide_False by done. split; [done|]. split; [by exists v|]. intros w2 Hk2. right. split; [done|].
        apply (still_kept w w1); [by apply kept_still|done].
    + intros (Hne & Hi1 & Hs). split; [done|]. by right.
Qed.

Lemma effect_kept w req ret w1 w2 : add_effect w req ret w1 -> kept w1 w2 -> add_effect w req ret w2.
Proof.
  unfold add_effect. intros He Hk. destruct (orb _ _); [destruct He; split; [done|by apply (still_kept w w1)]|].
  destruct (negb _); [destruct He; split; [done|by apply (still_kept w w1)]|].
  destruct (vview w _) as [cf|].
  - destruct He as [-> Hc]. split; [done|]. by apply (changed_kept _ _ w w w1).
  - destruct He as [(-> & a & Hm)|(Hne & Hs)]; [left; split; [done|]; exists a; by apply (more_kept _ _ _ w w1)|right].
    split; [done|]. by apply (still_kept w w1).
Qed.

Lemma add_req_spec held w req : inv (rest held) w -> add_ok w req ->
  wp (vr_interface_add req) (fun ret w' => inv (rest held) w' /\ add_effect w req ret w') w.
Proof.
  intros Hi Ho. unfold vr_interface_add. wbind. eapply wp_mono; [by apply (add_checked_spec held)|].
  intros [ret [a|]] w1 Hw; [|wbind; apply wp_ret, wp_ret; exact Hw].
  wbind. destruct (Z.eqb_spec ret 0) as [->|Hne]; cbn [negb].
  - rewrite decide_True in Hw by done. destruct Hw as (Hi1 & Hl & He). eapply wp_mono; [by apply (register_spec held)|].
    intros [] w2 [Hi2 K2]. apply wp_ret. split; [done|]. by apply (effect_kept _ _ _ w1).
  - rewrite decide_False in Hw by done. destruct Hw as (K1 & (v & Hl) & He). eapply wp_mono; [by apply (loose_free held w1 a v)|].
    intros [] w2 [Hi2 K2]. apply wp_ret. split; [done|]. by apply He.
Qed.

End request.
End VifRequest.
