(* ===== verification/VifRead.v ===== *)
(** * Reading interfaces: the answer to a get request

    A get request has a result in every state that the invariant allows, changes nothing but
    statistics, and shows the configuration, the ports of merged flows and the statistics,
    summed over the CPUs or of one of them. *)

From stdpp Require Import gmap.
From S2P Require Import Prelude Bits Queue Message VrfAssign VifBridge FlowEntry.
From S2P Require Import FatFlow FatFlowProofs VifState Vif VifReq VifInv VifDrivers VifRefs.

Module VifRead.
Import VifState Vif VifReq VifInv VifDrivers VifRefs.

(** ** Counters *)

Lemma cpu_mask i : 0 <= i < 256 -> Z.land (u16 i) VR_CPU_MASK = i.
Proof.
  intros Hi. rewrite u16_small by lia. change VR_CPU_MASK with (Z.ones 8). rewrite Z.land_ones by lia.
  by apply Z.mod_small.
Qed.

Definition total (stats : list vr_interface_stats) (k : counter) : Z := foldr (fun s x => vis s k + x) 0 stats.

Definition block_ok (n : Z) (s : vr_interface_stats) : Prop :=
  exists l, vis_queue_ierrors_to_lcore s = Some l /\ length l = Z.to_nat n.

Lemma get_stats stats pre s suf : stats = pre ++ s :: suf -> zlen stats <= 256 -> vif_get_stats stats (zlen pre) = Some s.
Proof.
  intros -> Hn. unfold vif_get_stats. unfold zlen in *. rewrite length_app in Hn. cbn [length] in Hn.
  rewrite cpu_mask by lia. unfold zget. rewrite decide_True by lia. rewrite Nat2Z.id.
  rewrite lookup_app_r by done. by rewrite Nat.sub_diag.
Qed.

Lemma add_response n c s : block_ok n s -> length (cnt_lcore c) = Z.to_nat n ->
  exists c', vr_interface_add_response n c s = Some c' /\ length (cnt_lcore c') = Z.to_nat n /\
    forall k, cnt c' k = s64 (cnt c k + vis s k).
Proof.
  intros (l & Hl & Hn) Hc. unfold vr_interface_add_response. destruct (Z.leb_spec n 0); cbn [mbind option_bind].
  - by eexists.
  - rewrite Hl. cbn. destruct (Z.ltb_spec (zlen l) n); [unfold zlen in *; lia|]. cbn. eexists. split; [done|].
    split; [|done]. cbn. rewrite length_zip_with. lia.
Qed.

Lemma sum_cpus_spec n stats : Forall (block_ok n) stats -> zlen stats <= 256 ->
  forall suf pre c, stats = pre ++ suf -> length (cnt_lcore c) = Z.to_nat n ->
  exists c', sum_cpus n stats (seqZ (zlen pre) (zlen suf)) c = Some c' /\ length (cnt_lcore c') = Z.to_nat n /\
    forall k, s64 (cnt c' k) = s64 (cnt c k + total suf k).
Proof.
  intros Hf Hn. induction suf as [|s suf IH]; intros pre c Hs Hc.
  - exists c. split; [done|]. split; [done|]. intros k. f_equal. cbn. lia.
  - assert (Hq : seqZ (zlen pre) (zlen (s :: suf)) = zlen pre :: seqZ (zlen (pre ++ [s])) (zlen suf)).
    { rewrite seqZ_cons by (unfold zlen; cbn; lia). f_equal. f_equal; unfold zlen; rewrite ?length_app; cbn; lia. }
    rewrite Hq. cbn [sum_cpus]. rewrite (get_stats stats pre s suf) by done. cbn.
    assert (Hb : block_ok n s) by (rewrite Forall_forall in Hf; apply Hf; rewrite Hs; apply elem_of_app; right; by left).
    destruct (add_response n c s Hb Hc) as (c1 & -> & Hl1 & Hc1). cbn.
    destruct (IH (pre ++ [s]) c1) as (c' & -> & Hl' & Hc'); [by rewrite <- app_assoc|done|].
    exists c'. split; [done|]. split; [done|]. intros k. rewrite Hc', Hc1, s64_add. apply (f_equal s64). unfold total. cbn [foldr]. lia.
Qed.

Lemma s64_zero_sum c n stats l c0 :
  sum_cpus n stats l c0 = Some c -> (forall k, cnt c0 k = s64 (cnt c0 k)) -> forall k, s64 (cnt c k) = cnt c k.
Proof.
  revert c0. induction l as [|i l IH]; intros c0 Hs H0; cbn in Hs.
  - injection Hs as <-. intros k. by rewrite <- H0.
  - destruct (vif_get_stats stats i) as [s|]; [|done]. cbn in Hs.
    destruct (vr_interface_add_response n c0 s) as [c1|] eqn:E; [|done]. cbn in Hs. apply (IH c1); [done|].
    unfold vr_interface_add_response in E. destruct (if n <=? 0 then _ else _); [|done]. injection E as <-. intros k. cbn.
    pose proof (s64_add (cnt c0 k + vis s k) 0) as Hz. rewrite !Z.add_0_r in Hz. by rewrite Hz.
Qed.

(** What a response has for [core]: the sum over all CPUs, one CPU, or nothing. *)
Definition shown_counter (n core : Z) (stats : list vr_interface_stats) (k : counter) : Z :=
  if core =? UINT_MAX then s64 (total stats k)
  else if core <? n then s64 (from_option (fun s => vis s k) 0 (zget stats core))
  else 0.

Lemma core_counters_spec n core stats lcore : length stats = Z.to_nat n -> Forall (block_ok n) stats -> 0 <= n <= 256 -> 0 <= core ->
  length lcore = Z.to_nat n ->
  exists c, core_counters n core stats (mk_cnt (fun _ => 0) lcore) = Some c /\ forall k, cnt c k = shown_counter n core stats k.
Proof.
  intros Hl Hf Hn Hc Hk. unfold core_counters, shown_counter. destruct (core =? UINT_MAX).
  - assert (Hz : seqZ 0 n = seqZ (zlen ([] : list vr_interface_stats)) (zlen stats)) by (f_equal; unfold zlen; cbn; lia). rewrite Hz.
    destruct (sum_cpus_spec n stats Hf ltac:(unfold zlen; lia) stats [] (mk_cnt (fun _ => 0) lcore) eq_refl Hk) as (c & Hs & _ & Hv).
    exists c. split; [done|]. intros k. rewrite <- (s64_zero_sum _ _ _ _ _ Hs) by done. rewrite Hv. done.
  - destruct (Z.ltb_spec core n); [|by eexists].
    unfold vif_get_stats. rewrite cpu_mask by lia. destruct (zget_is_Some stats core) as [s Hs]; [unfold zlen; lia|]. rewrite Hs. cbn.
    assert (Hb : block_ok n s). { rewrite Forall_forall in Hf. apply Hf. unfold zget in Hs. case_decide; [|done]. by apply list_elem_of_lookup_2 in Hs. }
    destruct (add_response n (mk_cnt (fun _ => 0) lcore) s Hb Hk) as (c & -> & _ & Hv). exists c. split; [done|]. intros k. by rewrite Hv.
Qed.

(** ** Ports of merged flows *)

Definition fat_list (cfg : Z -> list Z) : list Z :=
  FatFlow.protos ≫= fun i => (fun p => Z.lor (Z.shiftl (fat_proto i) 16) p) <$> cfg i.

Lemma shown_ports_spec f cfg i l : FatFlowProofs.fat_ok f cfg -> 0 <= i < 4 -> FatFlowProofs.good (cfg i) -> (forall p, p ∈ l -> p ∈ cfg i) ->
  shown_ports f i l = Some ((fun p => Z.lor (Z.shiftl (fat_proto i) 16) p) <$> l).
Proof.
  intros Hf Hi [_ Hg]. induction l as [|p l IH]; intros Hl; [done|]. cbn [shown_ports].
  assert (Hp : p ∈ cfg i) by (apply Hl; by left). pose proof (Hg p Hp) as Hr.
  rewrite FatFlowProofs.port_is_set_spec; [|apply Hf|done|lia]. cbn.
  rewrite IH by (intros q Hq; apply Hl; by right). cbn. rewrite (FatFlowProofs.fo_set _ _ Hf i p) by (done || lia).
  by rewrite bool_decide_true.
Qed.

Lemma shown_protos_spec f cfg l : FatFlowProofs.fat_ok f cfg -> (forall i, 0 <= i < 4 -> FatFlowProofs.good (cfg i)) ->
  (forall i, i ∈ l -> 0 <= i < 4) ->
  shown_protos f l = Some (l ≫= fun i => (fun p => Z.lor (Z.shiftl (fat_proto i) 16) p) <$> cfg i).
Proof.
  intros Hf Hg. induction l as [|i l IH]; intros Hl; [done|]. cbn [shown_protos].
  assert (Hi : 0 <= i < 4) by (apply Hl; by left).
  rewrite (FatFlowProofs.fo_size _ _ Hf i Hi), (FatFlowProofs.fo_cfg _ _ Hf i Hi). cbn.
  assert (Hp : (if zlen (cfg i) =? 0 then Some [] else
            arr ← FatFlow.deref (FatFlowProofs.live_or_null (cfg i) (cfg i));
            if zlen arr <? zlen (cfg i) then None else Some (take (Z.to_nat (zlen (cfg i))) arr)) = Some (cfg i)).
  { destruct (cfg i) as [|p ps] eqn:E; [done|]. cbn [FatFlowProofs.live_or_null FatFlow.deref mbind option_bind].
    rewrite Z.ltb_irrefl. unfold zlen. rewrite Nat2Z.id, firstn_all. by destruct (Z.eqb_spec (Z.of_nat (length (p :: ps))) 0). }
  rewrite Hp. cbn. rewrite (shown_ports_spec f cfg) by auto. cbn. rewrite IH by (intros j Hj; apply Hl; by right). done.
Qed.

Lemma good_length l : FatFlowProofs.good l -> zlen l <= 8191.
Proof.
  intros [Hn Hr]. unfold zlen. assert (Hs : l ⊆+ seqZ 1 8191).
  { apply NoDup_submseteq; [done|]. intros p Hp. apply elem_of_seqZ. pose proof (Hr p Hp). lia. }
  apply submseteq_length in Hs. rewrite length_seqZ in Hs. lia.
Qed.

Lemma config_sizes f cfg : FatFlowProofs.fat_ok f cfg -> (forall i, 0 <= i < 4 -> FatFlowProofs.good (cfg i)) ->
  u32 (foldr Z.add 0 (FatFlow.vif_fat_flow_config_size f)) = zlen (fat_list cfg).
Proof.
  intros Hf Hg. destruct (FatFlowProofs.fo_len _ _ Hf) as [_ Hl].
  pose proof (fun i Hi => FatFlowProofs.fo_size _ _ Hf i Hi) as Hs.
  destruct (FatFlow.vif_fat_flow_config_size f) as [|s0 [|s1 [|s2 [|s3 [|]]]]]; unfold zlen in Hl; cbn in Hl; try lia.
  pose proof (Hs 0 ltac:(lia)) as H0. pose proof (Hs 1 ltac:(lia)) as H1. pose proof (Hs 2 ltac:(lia)) as H2. pose proof (Hs 3 ltac:(lia)) as H3.
  cbn in H0, H1, H2, H3. injection H0 as ->. injection H1 as ->. injection H2 as ->. injection H3 as ->.
  pose proof (good_length _ (Hg 0 ltac:(lia))). pose proof (good_length _ (Hg 1 ltac:(lia))).
  pose proof (good_length _ (Hg 2 ltac:(lia))). pose proof (good_length _ (Hg 3 ltac:(lia))).
  assert (He : zlen (fat_list cfg) = zlen (cfg 0) + zlen (cfg 1) + zlen (cfg 2) + zlen (cfg 3)).
  { unfold fat_list, zlen. change FatFlow.protos with [0; 1; 2; 3]. cbn. rewrite !length_app, !length_fmap. cbn. lia. }
  rewrite He. cbn. unfold zlen in *. rewrite u32_small by lia. lia.
Qed.

Lemma fill_all shown : fill_ports (replicate (Z.to_nat (zlen shown)) 0) shown = shown.
Proof. unfold fill_ports, zlen. rewrite Nat2Z.id, drop_ge by (by rewrite length_replicate). apply app_nil_r. Qed.

(** ** The request *)

Section read.
Context {T H : Type} `{SubTableLaws T} `{HifOps T H} {ncpu : Cpus}.
Abbreviation vif := (vr_interface T).
Abbreviation router := (world T H).
Abbreviation prog := (prog T H).
Implicit Types (w : router) (v : vif) (a b c p : Z) (g : stage) (r req : vr_interface_req).

(** The fields of the configuration that a response has, but for the address. *)
Definition conf_shown (cf : vif_conf) : list Z := [cf_type cf; cf_rid cf; cf_transport cf; cf_vrf cf; cf_ip cf; cf_qos cf; cf_mirror cf].
Definition resp_conf r : list Z :=
  [vifr_type r; vifr_rid r; vifr_transport r; vifr_vrf r; vifr_ip r; vifr_qos_map_index r; vifr_mir_id r].

(** What the response says of the interface [v], for [core]. *)
Record answer v (core : Z) r : Prop := {
  an_idx : vifr_idx r = vif_idx (vif_cfg v);
  an_conf : resp_conf r = conf_shown (conf_of v);
  an_mac : vifr_mac r = Some (take 6 (vif_mac (vif_cfg v)));
  an_fat : exists cfg, FatFlowProofs.fat_ok (vif_fat v) cfg /\ default [] (vifr_fat_flow_protocol_port r) = fat_list cfg;
  an_stats : exists stats, vif_stats (vif_cfg v) = Some stats /\
    forall k, vifr_counters r k = shown_counter vr_num_cpus core stats k
}.

(** A response as [vr_interface_req_get] makes it. *)
Record blank_resp r : Prop := {
  br_name : is_Some (vifr_name r);
  br_mac : vifr_mac r = Some (replicate 6 0);
  br_mac_size : vifr_mac_size r = VR_ETHER_ALEN;
  br_src_mac : is_Some (vifr_src_mac r);
  br_lcore : vifr_queue_ierrors_to_lcore r = Some (replicate (Z.to_nat vr_num_cpus) 0)
}.

Lemma parent_idx_spec g w a v : inv g w -> vr_heap w !! a = Some v -> wp (parent_idx v) (fun _ w' => w' = w) w.
Proof.
  intros Hi Hv. unfold parent_idx. destruct (vif_parent (vif_link v)) as [p|] eqn:E; [|by apply wp_ret].
  destruct (li_parent _ _ _ _ (i_linked _ _ Hi a v Hv) p E) as (_ & pv & Hp & _). wbind. apply (wp_load p pv); [done|]. by apply wp_ret.
Qed.

Lemma src_mac_spec g w a v r : inv g w -> vr_heap w !! a = Some v -> blank_resp r -> wp (src_mac_fields r v) (fun _ w' => w' = w) w.
Proof.
  intros Hi Hv Hb. unfold src_mac_fields. destruct (vif_src_mac (vif_link v)) as [mac|]; [|by apply wp_ret].
  destruct (br_src_mac _ Hb) as [d Hd]. wbind. apply (wp_of_option d); [done|]. wbind. unfold bridge_idx.
  destruct (vif_parent (vif_link v)) as [p|] eqn:E; [|by apply wp_ret, wp_ret].
  destruct (li_parent _ _ _ _ (i_linked _ _ Hi a v Hv) p E) as (_ & pv & Hp & _). wbind. apply (wp_load p pv); [done|].
  by apply wp_ret, wp_ret.
Qed.

(** The host brings the counters up to date. *)
Definition updated (v : vif) (core : Z) (h : H) (st : list vr_interface_stats) : list vr_interface_stats :=
  imap (fun cpu s => mk_vis (hif_stats_update v core h cpu (vis s)) (vis_queue_ierrors_to_lcore s)) st.

Lemma updated_ok v core h st : stats_ok (Some st) -> stats_ok (Some (updated v core h st)).
Proof.
  intros (st' & [= <-] & Hl & Hf). eexists. split; [done|]. unfold updated. rewrite length_imap. split; [done|].
  apply Forall_lookup. intros k s. rewrite list_lookup_imap. destruct (st !! k) as [s0|] eqn:E; [|done]. intros [= <-]. cbn.
  rewrite Forall_lookup in Hf. by apply (Hf k).
Qed.

Lemma quiet_stats v st : stats_ok (Some st) -> quiet v (on_cfg (set_stats (Some st)) v).
Proof. intros Hs. by split. Qed.

Lemma fill_req_spec g w a v r core cfg :
  inv g w -> 0 <= vr_num_cpus <= 256 -> 0 <= core -> vr_heap w !! a = Some v -> blank_resp r ->
  FatFlowProofs.fat_ok (vif_fat v) cfg -> (forall i, 0 <= i < 4 -> FatFlowProofs.good (cfg i)) ->
  (vifr_fat_flow_protocol_port r = None /\ fat_list cfg = [] \/
   vifr_fat_flow_protocol_port r = Some (replicate (Z.to_nat (zlen (fat_list cfg))) 0) /\ vifr_fat_flow_protocol_port_size r <> 0) ->
  wp (__vr_interface_make_req r a core) (fun r' w' => calm w w' /\ exists v', vr_heap w' !! a = Some v' /\ answer v' core r') w.
Proof.
  intros Hi Hn Hc Hv Hb Hf Hg Hp. unfold __vr_interface_make_req. wbind. apply (wp_load a v); [done|]. wbind. apply wp_gets.
  wbind. eapply wp_mono; [by apply (parent_idx_spec g w a v)|]. intros parent w1 ->.
  wbind. eapply wp_mono; [by apply (src_mac_spec g w a v)|]. intros [[src_mac size] bidx] w1 ->.
  rewrite (br_lcore _ Hb). wbind.
  match goal with |- wp ?m _ _ => assert (Hm : wp m (fun l w' => l = replicate (Z.to_nat vr_num_cpus) 0 /\ w' = w) w) end.
  { destruct (Z.leb_spec vr_num_cpus 0); [by apply wp_ret|by apply (wp_of_option (replicate (Z.to_nat vr_num_cpus) 0))]. }
  eapply wp_mono; [exact Hm|]. intros l w1 [-> ->]. wbind. apply wp_assume.
  { apply Z.leb_le. unfold zlen. rewrite length_replicate. lia. }
  destruct (so_stats _ (i_solo _ _ Hi a v Hv)) as (st & Hst & Hl & Hbk). rewrite Hst. wbind. apply (wp_of_option st); [done|]. wbind.
  fold (updated v core (vr_host w) st). set (st' := updated v core (vr_host w) st).
  assert (Hso : stats_ok (Some st')) by (apply updated_ok; by exists st).
  apply (wp_store a _ v); [done|]. set (v' := on_cfg (set_stats (Some st')) v). fold (put_vif a v' w).
  destruct Hso as (st'' & [= <-] & Hl' & Hbk').
  rewrite (drop_ge (replicate _ _)) by (by rewrite length_replicate). rewrite app_nil_r.
  destruct (core_counters_spec vr_num_cpus core st' (replicate (Z.to_nat vr_num_cpus) 0) Hl' Hbk' Hn Hc ltac:(apply length_replicate)) as (cs & Hcs & Hk).
  wbind. apply (wp_of_option cs); [done|].
  destruct (if vif_type v =? VIF_TYPE_PHYSICAL then _ else _) as [speed duplex]. wbind.
  match goal with |- wp ?m _ _ => assert (Hs : wp m (fun l w' => l = fat_list cfg /\ w' = put_vif a v' w) (put_vif a v' w)) end.
  { destruct Hp as [[-> ->]|[-> Hz]]; [by apply wp_ret|]. apply Z.eqb_neq in Hz. rewrite Hz. apply (wp_of_option (fat_list cfg)); [|done].
    apply shown_protos_spec; [done..|]. intros i Hin. by apply elem_of_seqZ in Hin. }
  eapply wp_mono; [exact Hs|]. intros shown w1 [-> ->]. apply wp_ret. split.
  { apply (calm_put a v); [done|]. apply quiet_stats. by exists st'. }
  exists v'. split; [apply lookup_insert_eq|]. split; cbn; try done.
  - rewrite (br_mac _ Hb), (br_mac_size _ Hb). cbn. by rewrite app_nil_r.
  - exists cfg. split; [done|]. destruct Hp as [[-> Hz]|[-> _]]; cbn; [by rewrite Hz|apply fill_all].
  - by exists st'.
Qed.

Lemma make_req_spec g w a v r core :
  inv g w -> 0 <= vr_num_cpus <= 256 -> 0 <= core -> vr_heap w !! a = Some v -> blank_resp r -> vifr_fat_flow_protocol_port r = None ->
  wp (vr_interface_make_req r a core) (fun x w' => calm w w' /\ x.1 = 0 /\ exists v', vr_heap w' !! a = Some v' /\ answer v' core x.2) w.
Proof.
  intros Hi Hn Hc Hv Hb Hp. destruct (so_fat _ (i_solo _ _ Hi a v Hv)) as (cfg & Hf & Hg).
  unfold vr_interface_make_req. wbind. apply (wp_load a v); [done|]. rewrite (config_sizes _ cfg Hf Hg).
  destruct (Z.eqb_spec (zlen (fat_list cfg)) 0) as [Hz|Hz].
  - wbind. eapply wp_mono; [apply (fill_req_spec g w a v r core cfg); try done|].
    + left. split; [done|]. unfold zlen in Hz. by destruct (fat_list cfg).
    + intros r' w' [Hcm Ha]. by apply wp_ret.
  - wbind. apply wp_malloc; [apply Hi|]. wbind. eapply wp_mono; [apply (fill_req_spec g w a v _ core cfg); try done|].
    + by destruct Hb.
    + by right.
    + intros r' w' [Hcm Ha]. by apply wp_ret.
Qed.

(** The interface that a request names: by its index, or by that of the host. *)
Definition named w req (o : option Z) : Prop :=
  if vr_max_interfaces w <=? u32 (vifr_idx req)
  then forall a, o = Some a -> in_table w a /\ exists v, vr_heap w !! a = Some v /\ vif_os_idx (vif_cfg v) = u32 (vifr_os_idx req)
  else o = slot w (u32 (vifr_idx req)).

Lemma named_spec g w req (Q : option Z -> router -> Prop) : inv g w -> (forall o, named w req o -> Q o w) ->
  wp (if vr_max_interfaces w <=? u32 (vifr_idx req) then __vrouter_get_interface_os (u32 (vifr_os_idx req))
      else __vrouter_get_interface (u32 (vifr_idx req))) Q w.
Proof.
  intros Hi HQ. unfold named in HQ. destruct (Z.leb_spec (vr_max_interfaces w) (u32 (vifr_idx req))).
  - eapply wp_mono; [by apply (get_os_spec g)|]. intros o w' [-> Ho]. by apply HQ.
  - apply (get_table_spec g); [done|apply u32_range|]. by apply HQ.
Qed.

Lemma read_spec g w req : inv g w -> 0 <= vr_num_cpus <= 256 ->
  wp (interface_get req) (fun x w' => calm w w' /\ exists o, named w req o /\
    match o with
    | None => x = (- ENOENT, None)
    | Some a => x.1 = 0 /\ exists v' r, vr_heap w' !! a = Some v' /\ x.2 = Some r /\ answer v' (u32 (vifr_core req - 1)) r
    end) w.
Proof.
  intros Hi Hn. unfold interface_get. wbind. apply wp_gets. wbind. apply (named_spec g); [done|]. intros o Ho.
  destruct o as [a|]; [|apply wp_ret; split; [done|]; by exists None].
  assert (Ha : exists v, vr_heap w !! a = Some v).
  { unfold named in Ho. destruct (_ <=? _); [by destruct (Ho a eq_refl) as (_ & v & Hv & _); exists v|].
    apply (in_table_live g); [done|]. exists (u32 (vifr_idx req)). by apply slot_Some. }
  destruct Ha as [v Hv]. pose proof (i_mem _ _ Hi) as Hm. unfold vr_interface_req_get.
  wbind. wbind. apply wp_malloc; [done|]. cbn [negb]. do 4 (wbind; apply wp_malloc; [done|]). apply wp_ret.
  wbind. eapply wp_mono; [apply (make_req_spec g w a v); [done|done|apply u32_range|done|by split; try eexists|done]|].
  intros [ret r] w' (Hc & _ & v' & Hv' & Han). apply wp_ret. split; [done|]. exists (Some a). split; [done|]. split; [done|].
  by exists v', r.
Qed.

End read.
End VifRead.
