(* ===== verification/VifSafe.v ===== *)
(** * The interface module as a whole

    Requests, references that other modules take and give back, what the host and the packet
    path change, the work of the tables of sub-interfaces, and the life of the table itself, in
    any order.  An abstract router is a finite map from indices to configurations. *)

From stdpp Require Import gmap.
From S2P Require Import Prelude Bits VrfAssign VifBridge FatFlow FatFlowProofs VifState Vif VifReq.
From S2P Require Import VifInv VifDrivers VifRefs VifTable VifSub VifVlan VifDelete VifAdd VifRequest VifRead.

Module VifSafe.
Import VifState Vif VifReq VifInv VifDrivers VifRefs VifTable VifSub VifVlan VifDelete VifAdd VifRequest VifRead.

Section safe.
Context {T H : Type} `{SubTableLaws T} `{HifOps T H} {ncpu : Cpus}.
Abbreviation vif := (vr_interface T).
Abbreviation router := (world T H).
Abbreviation prog := (prog T H).
Implicit Types (w : router) (v : vif) (a b c p : Z) (g : stage) (r req : vr_interface_req).

(** ** Shutting down *)

Lemma wp_for_each_done body l (I : list Z -> router -> Prop) w :
  I [] w -> (forall d i w, i ∈ l -> I d w -> wp (body i) (fun _ => I (d ++ [i])) w) -> wp (for_each body l) (fun _ => I l) w.
Proof.
  intros Hw Hb. change (I l) with (I ([] ++ l)). revert Hw. generalize (@nil Z) as d. revert w.
  induction l as [|i l IH]; intros w d Hw; [rewrite app_nil_r; by apply wp_ret|]. cbn [for_each]. wbind.
  eapply wp_mono; [apply Hb; [by left|done]|]. intros [] w1 H1'. replace (d ++ i :: l) with ((d ++ [i]) ++ l) by (by rewrite <- app_assoc).
  apply IH; [|done]. intros d' j w2 Hj. apply Hb. by right.
Qed.

(** After [vr_interface_shut] no interface is in a table of sub-interfaces. *)
Definition down (held : Z -> Z) : stage := mk_stage held None None (fun _ => True).

Lemma inv_all_det g w :
  st_new g = None -> st_out g = None -> (forall a, in_table w a -> st_det g a) -> inv g w -> inv (down (st_held g)) w.
Proof.
  intros Hn Ho Hd [Hi Hb]. destruct g as [held new out det]; cbn in *; subst new out. split; [|exact Hb]. split; try apply Hi.
  intros a v Hv. destruct (i_linked _ _ Hi a v Hv) as [Lp Ls Lt]. split; [exact Lp|..].
  - intros m vlan c Hm Hk. destruct (Ls m vlan c Hm Hk) as (X & Y & _). by destruct X; apply Hd.
  - intros t Ht. destruct (Lt t Ht) as (m & Hm & Hk). exists m. split; [done|]. intros vlan mac c Hx.
    destruct (Hk vlan mac c Hx) as (X & Y & _). by destruct X; apply Hd.
Qed.

Definition shut_done held w (d : list Z) w' : Prop :=
  exists det : Z -> Prop, inv (mk_stage held None None det) w' /\ steady w w' /\
    forall i a, i ∈ d -> slot w i = Some a -> det a.

Lemma shut_spec held w : inv (rest held) w ->
  wp vr_interface_shut (fun _ w' => inv (down held) w' /\ steady w w') w.
Proof.
  intros Hi. unfold vr_interface_shut, all_idx. wbind. wbind. apply wp_gets, wp_ret.
  eapply wp_mono; [apply (wp_for_each_done _ _ (shut_done held w))|].
  - exists (fun _ => False). split; [done|]. split; [done|]. intros i a Hin. by apply not_elem_of_nil in Hin.
  - intros d i w1 Hin (det & Hi1 & S1 & Hd). apply elem_of_seqZ in Hin. wbind.
    apply (table_at_spec _ w1 i _ Hi1); [rewrite (sy_max _ _ S1); lia|]. rewrite (steady_slot w w1 i S1).
    destruct (slot w i) as [a|] eqn:E.
    2: { apply wp_ret. exists det. split; [done|]. split; [done|]. intros j c Hj. apply elem_of_app in Hj as [Hj|Hj]; [by apply Hd|].
         apply list_elem_of_singleton in Hj as ->. congruence. }
    assert (Ht : zget (vr_interfaces w1) i = Some (Some a)) by (apply slot_Some; by rewrite (steady_slot w w1)).
    destruct (in_table_live _ w1 a Hi1 (ex_intro _ i Ht)) as [v Hv].
    wbind. eapply wp_mono; [apply calmly_store; [by exists v|by intros v0]|]. intros [] w2 C2.
    destruct (calm_lookup _ _ _ _ C2 Hv) as (v2 & Hv2 & _). wbind.
    eapply wp_mono; [apply (drv_delete_spec _ w2 a v2 (calm_inv _ _ _ C2 Hi1) Hv2); [|done]|].
    { exists i. by rewrite (ca_table _ _ C2). }
    intros [] w3 [Hi3 S3].
    assert (L3 : live w3 a). { apply (in_table_live _ w3 a Hi3). exists i. by rewrite (sy_table _ _ S3), (ca_table _ _ C2). }
    eapply wp_mono; [apply calmly_store; [exact L3|by intros v0]|]. intros [] w4 C4.
    eexists. split; [exact (calm_inv _ _ _ C4 Hi3)|]. split.
    { transitivity w1; [done|]. transitivity w2; [by apply calm_steady|]. transitivity w3; [done|by apply calm_steady]. }
    intros j c Hj Hs. apply elem_of_app in Hj as [Hj|Hj]; [left; by apply (Hd j)|].
    apply list_elem_of_singleton in Hj as ->. right. congruence.
  - intros [] w' (det & Hi' & S' & Hd). split; [|done]. apply (inv_all_det (mk_stage held None None det) w'); [done..| |done]. intros a [i Ht]. cbn.
    pose proof (zget_range _ _ _ Ht) as Hr. rewrite (i_len _ _ Hi'), (sy_max _ _ S') in Hr. apply (Hd i).
    + apply elem_of_seqZ. lia.
    + apply slot_Some. by rewrite <- (sy_table _ _ S').
Qed.

Lemma down_rest held w : inv (down held) w -> inv (rest held) w.
Proof. by apply inv_undet. Qed.

Definition exit_done held w (d : list Z) w' : Prop :=
  inv (down held) w' /\ vr_max_interfaces w' = vr_max_interfaces w /\
  forall i, slot w' i = if decide (i ∈ d) then None else slot w i.

Lemma empty_view w : (forall i, slot w i = None) -> forall i, vview w i = None.
Proof. intros Hs i. rewrite view_slot, Hs. done. Qed.

Lemma zget_nil {A} i : zget (@nil A) i = None.
Proof. unfold zget. by case_decide. Qed.

Lemma places_none t a : (forall i, zget t i <> Some (Some a)) -> places t a = 0.
Proof.
  intros Hz. unfold places, zlen. destruct (filter (fun o => o = Some a) t) as [|o l] eqn:E; [done|].
  assert (Ho : o ∈ filter (fun o => o = Some a) t) by (rewrite E; by left). apply list_elem_of_filter in Ho as [-> Ho].
  apply list_elem_of_lookup in Ho as [k Hk]. destruct (Hz (Z.of_nat k)). unfold zget. rewrite decide_True by lia. by rewrite Nat2Z.id.
Qed.

(** A table without interfaces is as good as any other. *)
Lemma inv_no_table held w t n :
  inv (rest held) w -> (forall i, slot w i = None) -> (forall i a, zget t i <> Some (Some a)) -> zlen t = n -> n <= VR_MAX_INTERFACES ->
  inv (rest held) (set_table t n w).
Proof.
  intros [Hi Hb] Hs Hz Hl Hm.
  assert (Ht : forall a, ~ in_table w a). { intros a [i Hx]. apply slot_Some in Hx. by rewrite Hs in Hx. }
  split.
  - split; try apply Hi; try done.
    + intros i a Hx. by apply Hz in Hx.
    + intros a v Hv. pose proof (i_users _ _ Hi a v Hv) as Hu. unfold refs in *. pose proof (places_nonneg (vr_interfaces w) a).
      cbn in *. rewrite (places_none t) by done. lia.
    + intros a v Hv. destruct (i_linked _ _ Hi a v Hv) as [Lp Ls Lt]. split; [exact Lp|..].
      * intros m vlan c Hm' Hk. destruct (Ls m vlan c Hm' Hk) as (_ & Y & _). by apply Ht in Y.
      * intros tb Hx. destruct (Lt tb Hx) as (m & Hm' & Hk). exists m. split; [done|]. intros vlan mac c Hy.
        destruct (Hk vlan mac c Hy) as (_ & Y & _). by apply Ht in Y.
    + intros a Ha. destruct (i_agent _ _ Hi a Ha) as [[Y|Y] _]; [by apply Ht in Y|done].
    + intros a Ha. destruct (i_host _ _ Hi a Ha) as [[Y|Y] _]; [by apply Ht in Y|done].
    + intros a Ha. destruct (i_eth _ _ Hi a Ha) as [[Y|Y] _]; [by apply Ht in Y|done].
  - intros a v b Hv Hx. destruct (Hb a v b Hv Hx) as ([Y|Y] & _); [by apply Ht in Y|done].
Qed.

Lemma exit_spec held w soft : inv (down held) w ->
  wp (vr_interface_exit soft) (fun _ w' => inv (rest held) w' /\ (forall i, slot w' i = None) /\
    vr_max_interfaces w' = if soft then vr_max_interfaces w else 0) w.
Proof.
  intros Hi. unfold vr_interface_exit, all_idx. wbind. wbind. apply wp_gets, wp_ret.
  wbind. eapply wp_mono; [apply (wp_for_each_done _ _ (exit_done held w))|].
  - split; [done|]. split; [done|]. intros i. rewrite decide_False; [done|]. apply not_elem_of_nil.
  - intros d i w1 Hin (Hi1 & M1 & L1). apply elem_of_seqZ in Hin. wbind.
    apply (table_at_spec _ w1 i _ Hi1); [lia|]. destruct (slot w1 i) as [a|] eqn:E.
    + eapply wp_mono; [apply (del_interface_spec _ w1 i a Hi1 E); try done; by left|]. intros [] w2 (Hi2 & _ & L2 & M2).
      split; [exact Hi2|]. split; [congruence|]. intros j. rewrite L2, L1. destruct (decide (j = i)) as [->|Hne].
      * rewrite decide_True; [done|]. apply elem_of_app. right. by apply list_elem_of_singleton.
      * apply decide_ext. rewrite elem_of_app, list_elem_of_singleton. naive_solver.
    + apply wp_ret. split; [done|]. split; [done|]. intros j. rewrite L1. destruct (decide (j = i)) as [->|Hne].
      * rewrite (decide_True (P := i ∈ d ++ [i])) by (apply elem_of_app; right; by apply list_elem_of_singleton). by rewrite <- L1.
      * apply decide_ext. rewrite elem_of_app, list_elem_of_singleton. naive_solver.
  - intros [] w1 (Hi1 & M1 & L1). apply down_rest in Hi1.
    assert (Hs : forall i, slot w1 i = None).
    { intros i. destruct (slot w1 i) as [a|] eqn:E; [|done]. rewrite <- E, L1. rewrite L1 in E. case_decide as Hd; [done|]. apply slot_Some in E.
      pose proof (zget_range _ _ _ E) as Hr. rewrite (i_len _ _ Hi) in Hr. destruct Hd. apply elem_of_seqZ. lia. }
    destruct soft; [by apply wp_ret|]. apply wp_modify. split; [apply inv_no_table; try done; intros i a; by rewrite zget_nil|]. split; [|done]. intros i.
    unfold slot. cbn. by rewrite zget_nil.
Qed.

(** The table is made when it is not there. *)
Lemma init_spec held w hif_ops : inv (rest held) w -> vr_interfaces w = [] ->
  wp (vr_interface_init hif_ops) (fun ret w' => inv (rest held) w' /\ (forall i, slot w' i = None) /\
    if (hif_ops : bool) then ret = 0 /\ vr_max_interfaces w' = VR_MAX_INTERFACES else ret = - ENOMEM /\ vr_max_interfaces w' = 0) w.
Proof.
  intros Hi Ht. assert (Hs : forall i, slot w i = None) by (intros i; unfold slot; rewrite Ht; by rewrite zget_nil).
  unfold vr_interface_init. wbind. apply wp_gets. rewrite Ht. wbind. wbind. apply wp_malloc; [apply Hi|].
  wbind. apply wp_modify. apply wp_ret. cbn [negb].
  set (t := replicate (Z.to_nat VR_MAX_INTERFACES) None). set (w1 := set_table t VR_MAX_INTERFACES w).
  assert (Hz : forall i a, zget t i <> Some (Some a)).
  { intros i a. unfold zget, t. case_decide; [|done]. intros Hx. apply lookup_replicate in Hx as [Hx _]. done. }
  assert (Hs1 : forall i, slot w1 i = None).
  { intros i. destruct (slot w1 i) as [a|] eqn:E; [|done]. apply slot_Some in E. by apply Hz in E. }
  assert (Hi1 : inv (rest held) w1) by (apply inv_no_table; [done..|by unfold t, zlen; rewrite length_replicate|done]).
  destruct hif_ops; [by apply wp_ret|]. wbind. apply wp_modify, wp_ret. split.
  - apply inv_no_table; try done. intros i a. by rewrite zget_nil.
  - split; [|done]. intros i. unfold slot. cbn. by rewrite zget_nil.
Qed.

(** The table of sub-interfaces works on its own. *)
Lemma inv_background g w p v t (b : bool) : inv g w -> vr_heap w !! p = Some v -> vif_btable (vif_link v) = Some t ->
  inv g (put_vif p (on_link (set_btable (Some (st_background b t))) v) w).
Proof.
  intros Hi Hv Ht. destruct g as [held new out det]. set (g := mk_stage held new out det) in *.
  set (v' := on_link _ v). pose proof (i_linked _ _ Hi p v Hv) as [Lp Ls Lt].
  assert (Hk : forall c, kids (<[p := v']> (vr_heap w)) c = kids (vr_heap w) c) by (intros c; by apply (kids_same _ p v)).
  apply (inv_upd g held w p v); try done.
  - split; try done. by left.
  - destruct (i_solo _ _ Hi p v Hv) as [S1 S2 S3 S4 S5 S6 S7]. split; try done. intros Hd. destruct (S6 Hd). congruence.
  - split; [exact Ls|]. intros t' [= <-]. destruct (Lt t Ht) as (m & Hm & Hx). exists m. split; [by apply st_background_spec|done].
  - apply Hi.
  - pose proof (i_users _ _ Hi p v Hv) as Hu. unfold refs in *. cbn in *. by rewrite Hk.
  - intros c cv Hne Hcv. unfold refs. cbn. by rewrite Hk.
Qed.

End safe.
End VifSafe.
