(* ===== verification/VifReach.v ===== *)
(** * Runs of the interface module

    The steps of the module in any order, the abstract router that they refine, and what holds
    in every state that they reach. *)

From stdpp Require Import gmap.
From S2P Require Import Prelude Bits VrfAssign VifBridge FatFlow FatFlowProofs VifState Vif VifReq VifInv.
From S2P Require Import VifDrivers VifRefs VifTable VifSub VifVlan VifDelete VifAdd VifRequest VifRead VifSafe.

Module VifReach.
Import VifState Vif VifReq VifInv VifRefs VifTable VifSub VifVlan VifDelete VifAdd VifRequest VifRead VifSafe.

(** ** Steps *)

Inductive vop :=
  | op_add (req : vr_interface_req) (ret : Z)
  | op_delete (req : vr_interface_req) (ret : Z)
  | op_get (i : Z) (o : option Z)
  | op_put (a : Z)
  | op_read (req : vr_interface_req) (x : Z * option vr_interface_req)
  | op_shut
  | op_exit (soft_reset : bool)
  | op_init (hif_ops : bool) (ret : Z)
  | op_quiet
  | op_table.

Section reach.
Context {T H : Type} `{SubTableLaws T} `{HifOps T H} {ncpu : Cpus}.
Abbreviation vif := (vr_interface T).
Abbreviation router := (world T H).
Implicit Types (w : router) (v : vif) (a b c p : Z) (g : stage) (r req : vr_interface_req).

(** Whether the interfaces were shut down, the references that other modules hold, and the
    router. *)
Record vstate := mk_vs { vs_down : bool; vs_held : Z -> Z; vs_w : router }.

Definition stage_of (s : vstate) : stage := if vs_down s then down (vs_held s) else rest (vs_held s).

Definition hold (o : option Z) (held : Z -> Z) : Z -> Z := match o with Some a => bump 1 a held | None => held end.

(** [step_quiet] is the host and the packet path: statistics, flags and the index of the host;
    [step_table] is work that a table of sub-interfaces has scheduled. *)
Inductive vstep : vstate -> vop -> vstate -> Prop :=
  | step_add held w req ret w' :
      add_ok w req -> vr_interface_add req w = Some (ret, w') ->
      vstep (mk_vs false held w) (op_add req ret) (mk_vs false held w')
  | step_delete held w req ret w' :
      vr_interface_delete req w = Some (ret, w') ->
      vstep (mk_vs false held w) (op_delete req ret) (mk_vs false held w')
  | step_get d held w i o w' :
      0 <= i -> roomy w -> vrouter_get_interface i w = Some (o, w') ->
      vstep (mk_vs d held w) (op_get i o) (mk_vs d (hold o held) w')
  | step_put d held w a w' :
      0 < held a -> vrouter_put_interface a w = Some (tt, w') ->
      vstep (mk_vs d held w) (op_put a) (mk_vs d (bump (-1) a held) w')
  | step_read d held w req x w' :
      0 <= vr_num_cpus <= 256 -> interface_get req w = Some (x, w') ->
      vstep (mk_vs d held w) (op_read req x) (mk_vs d held w')
  | step_shut held w w' :
      vr_interface_shut w = Some (tt, w') ->
      vstep (mk_vs false held w) op_shut (mk_vs true held w')
  | step_exit held w soft w' :
      vr_interface_exit soft w = Some (tt, w') ->
      vstep (mk_vs true held w) (op_exit soft) (mk_vs false held w')
  | step_init held w hif_ops ret w' :
      vr_interfaces w = [] -> vr_interface_init hif_ops w = Some (ret, w') ->
      vstep (mk_vs false held w) (op_init hif_ops ret) (mk_vs false held w')
  | step_quiet d held w w' :
      calm w w' -> vstep (mk_vs d held w) op_quiet (mk_vs d held w')
  | step_table d held w p v t (b : bool) :
      vr_heap w !! p = Some v -> vif_btable (vif_link v) = Some t ->
      vstep (mk_vs d held w) op_table (mk_vs d held (put_vif p (on_link (set_btable (Some (st_background b t))) v) w)).

(** The module before it is set up. *)
Definition router0 (not_ready : bool) (h : H) : router :=
  mk_world ∅ 1 [] 0 None None None 0 false not_ready [] h.

Inductive vreach : vstate -> Prop :=
  | reach_start not_ready h : vreach (mk_vs false (fun _ => 0) (router0 not_ready h))
  | reach_step s op s' : vreach s -> vstep s op s' -> vreach s'.

(** ** The abstract router *)

(** The configurations by index. *)
Definition abs w : gmap Z vif_conf :=
  map_imap (fun i _ => vview w i) (gset_to_gmap tt (list_to_set (seqZ 0 (vr_max_interfaces w)))).

Definition spec_add (n : Z) (m : gmap Z vif_conf) req (ret : Z) (m' : gmap Z vif_conf) : Prop :=
  let i := u32 (vifr_idx req) in
  if (n <=? i) || (VIF_TYPE_MAX <=? vifr_type req) then ret = - EINVAL /\ m' = m
  else if negb (vif_transport_valid req) then ret = 0 /\ m' = m
  else match m !! i with
       | Some cf => ret = 0 /\ m' = <[i := change_conf cf req]> m
       | None => (ret = 0 /\ m' = <[i := req_conf req]> m) \/ (ret <> 0 /\ m' = m)
       end.

Definition spec_delete (m : gmap Z vif_conf) req (ret : Z) (m' : gmap Z vif_conf) : Prop :=
  let i := u32 (vifr_idx req) in
  match m !! i with
  | Some _ => ret = 0 /\ m' = delete i m
  | None => ret = - ENODEV /\ m' = m
  end.

(** A get request that names an interface by its index. *)
Definition spec_read (n : Z) (m : gmap Z vif_conf) req (x : Z * option vr_interface_req) : Prop :=
  let i := u32 (vifr_idx req) in
  i < n ->
  match m !! i with
  | None => x = (- ENOENT, None)
  | Some cf => exists r, x = (0, Some r) /\ vifr_idx r = i /\ resp_conf r = conf_shown cf /\ vifr_mac r = Some (take 6 (cf_mac cf))
  end.

(** The size of the table and the map, before and after. *)
Definition spec_step (n : Z) (m : gmap Z vif_conf) (op : vop) (n' : Z) (m' : gmap Z vif_conf) : Prop :=
  match op with
  | op_add req ret => n' = n /\ spec_add n m req ret m'
  | op_delete req ret => n' = n /\ spec_delete m req ret m'
  | op_get i o => n' = n /\ m' = m /\ (is_Some o <-> is_Some (m !! i))
  | op_read req x => n' = n /\ m' = m /\ spec_read n m req x
  | op_exit soft => m' = ∅ /\ n' = if soft then n else 0
  | op_init hif_ops ret => m' = ∅ /\ if hif_ops then ret = 0 /\ n' = VR_MAX_INTERFACES else ret = - ENOMEM /\ n' = 0
  | op_put _ | op_shut | op_quiet | op_table => n' = n /\ m' = m
  end.

Lemma abs_lookup g w i : inv g w -> abs w !! i = vview w i.
Proof.
  intros Hi. unfold abs. rewrite map_lookup_imap, lookup_gset_to_gmap. case_guard as Hin; [done|]. cbn.
  unfold vview. destruct (zget (vr_interfaces w) i) as [o|] eqn:E; [|done]. apply zget_range in E. rewrite (i_len _ _ Hi) in E.
  destruct Hin. apply elem_of_list_to_set, elem_of_seqZ. lia.
Qed.

Lemma abs_same g g' w w' : inv g w -> inv g' w' -> same_view w w' -> abs w' = abs w.
Proof. intros Hi Hi' Hs. apply map_eq. intros i. rewrite (abs_lookup g'), (abs_lookup g) by done. apply Hs. Qed.

Lemma abs_upd g g' w w' i cf : inv g w -> inv g' w' ->
  (forall j, vview w' j = if decide (j = i) then Some cf else vview w j) -> abs w' = <[i := cf]> (abs w).
Proof.
  intros Hi Hi' Hs. apply map_eq. intros j. rewrite (abs_lookup g') by done. rewrite Hs. destruct (decide (j = i)) as [->|Hne].
  - by rewrite lookup_insert_eq.
  - rewrite lookup_insert_ne by done. by rewrite (abs_lookup g).
Qed.

Lemma abs_del g g' w w' i : inv g w -> inv g' w' ->
  (forall j, vview w' j = if decide (j = i) then None else vview w j) -> abs w' = delete i (abs w).
Proof.
  intros Hi Hi' Hs. apply map_eq. intros j. rewrite (abs_lookup g') by done. rewrite Hs. destruct (decide (j = i)) as [->|Hne].
  - by rewrite lookup_delete_eq.
  - rewrite lookup_delete_ne by done. by rewrite (abs_lookup g).
Qed.

Lemma abs_empty g w : inv g w -> (forall i, slot w i = None) -> abs w = ∅.
Proof. intros Hi Hs. apply map_eq. intros j. rewrite (abs_lookup g), lookup_empty by done. by apply empty_view. Qed.

Lemma wp_some {A} (m : prog T H A) Q w : wp m Q w -> is_Some (m w).
Proof. intros (x & w' & Hm & _). by rewrite Hm. Qed.

(** ** Every step *)

Definition step_ok (s : vstate) (op : vop) (s' : vstate) : Prop :=
  inv (stage_of s') (vs_w s') /\
  spec_step (vr_max_interfaces (vs_w s)) (abs (vs_w s)) op (vr_max_interfaces (vs_w s')) (abs (vs_w s')).

Lemma slot_view g w i : inv g w -> is_Some (slot w i) <-> is_Some (vview w i).
Proof.
  intros Hi. rewrite view_slot. destruct (slot w i) as [a|] eqn:E; cbn; [|done]. apply slot_Some in E.
  destruct (in_table_live g w a Hi (ex_intro _ i E)) as [v Hv]. rewrite Hv. done.
Qed.

Lemma add_step held w req ret w' : inv (rest held) w -> add_ok w req -> vr_interface_add req w = Some (ret, w') ->
  step_ok (mk_vs false held w) (op_add req ret) (mk_vs false held w').
Proof.
  intros Hi Ho Hr. destruct (wp_run _ _ _ _ _ (add_req_spec held w req Hi Ho) Hr) as [Hi' He]. split; [done|].
  unfold spec_step, spec_add, add_effect in *. cbn [vs_w].
  assert (Hst : still w w' -> vr_max_interfaces w' = vr_max_interfaces w /\ abs w' = abs w).
  { intros (V & _ & M). split; [done|]. by apply (abs_same (rest held) (rest held)). }
  destruct (orb _ _); [destruct He as [-> Hs]; by destruct (Hst Hs) as [-> ->]|].
  destruct (negb _); [destruct He as [-> Hs]; by destruct (Hst Hs) as [-> ->]|].
  rewrite (abs_lookup (rest held)) by done. destruct (vview w _) as [cf|].
  - destruct He as [-> (V & _ & M)]. split; [done|]. split; [done|]. by apply (abs_upd (rest held) (rest held)).
  - destruct He as [[-> (a & V & _ & M)]|[Hne Hs]].
    + split; [done|]. left. split; [done|]. by apply (abs_upd (rest held) (rest held)).
    + destruct (Hst Hs) as [-> ->]. split; [done|]. by right.
Qed.

Lemma delete_step held w req ret w' : inv (rest held) w -> vr_interface_delete req w = Some (ret, w') ->
  step_ok (mk_vs false held w) (op_delete req ret) (mk_vs false held w').
Proof.
  intros Hi Hr. destruct (wp_run _ _ _ _ _ (delete_req_spec held w req Hi) Hr) as [Hi' He]. split; [done|].
  unfold spec_step, spec_delete. cbn [vs_w]. rewrite (abs_lookup (rest held)) by done.
  pose proof (slot_view (rest held) w (u32 (vifr_idx req)) Hi) as Hv. destruct (slot w _) as [a|].
  - destruct He as [-> (V & _ & M)]. destruct (proj1 Hv ltac:(done)) as [cf Hcf]. rewrite Hcf. split; [done|]. split; [done|].
    by apply (abs_del (rest held) (rest held)).
  - destruct He as [-> ->]. destruct (vview w _); [|done]. by destruct (proj2 Hv ltac:(done)).
Qed.

Lemma get_step d held w i o w' :
  inv (stage_of (mk_vs d held w)) w -> 0 <= i -> roomy w -> vrouter_get_interface i w = Some (o, w') ->
  step_ok (mk_vs d held w) (op_get i o) (mk_vs d (hold o held) w').
Proof.
  intros Hi Hp Hroom Hr. destruct (wp_run _ _ _ _ _ (get_spec _ w i Hi Hp Hroom) Hr) as [Ho Hw].
  pose proof (slot_view _ w i Hi) as Hv. rewrite <- Ho in Hv. rewrite <- (abs_lookup _ w i Hi) in Hv. destruct o as [p|]; cbn [hold].
  - destruct Hw as (v & Hlv & -> & Hi'). assert (Hi2 : inv (stage_of (mk_vs d (bump 1 p held) (put_vif p (set_users Z.succ v) w)))
      (put_vif p (set_users Z.succ v) w)) by (by destruct d).
    split; [exact Hi2|]. split; [done|]. split; [|done]. cbn [vs_w]. apply (abs_same _ _ _ _ Hi Hi2). by apply (view_put p v).
  - subst w'. split; [done|]. by split.
Qed.

Lemma put_step d held w a w' :
  inv (stage_of (mk_vs d held w)) w -> 0 < held a -> vrouter_put_interface a w = Some (tt, w') ->
  step_ok (mk_vs d held w) (op_put a) (mk_vs d (bump (-1) a held) w').
Proof.
  intros Hi Hp Hr.
  assert (Hw : wp (vrouter_put_interface a) (fun _ w' => inv (with_held (-1) a (stage_of (mk_vs d held w))) w' /\ same_view w w' /\ only a w w') w)
    by (apply put_spec; [done|by destruct d|by destruct d]).
  destruct (wp_run _ _ _ _ _ Hw Hr) as (Hi' & Hs & Ho).
  assert (Hi2 : inv (stage_of (mk_vs d (bump (-1) a held) w')) w') by (by destruct d).
  split; [done|]. split; [apply Ho|]. exact (abs_same _ _ _ _ Hi Hi2 Hs).
Qed.

Lemma quiet_step d held w w' : inv (stage_of (mk_vs d held w)) w -> calm w w' ->
  inv (stage_of (mk_vs d held w')) w' /\ vr_max_interfaces w' = vr_max_interfaces w /\ abs w' = abs w.
Proof.
  intros Hi Hc. assert (Hi' : inv (stage_of (mk_vs d held w')) w') by exact (calm_inv _ _ _ Hc Hi).
  split; [done|]. split; [apply Hc|]. apply (abs_same _ _ _ _ Hi Hi'). by apply calm_view.
Qed.

Lemma read_step d held w req x w' :
  inv (stage_of (mk_vs d held w)) w -> 0 <= vr_num_cpus <= 256 -> interface_get req w = Some (x, w') ->
  step_ok (mk_vs d held w) (op_read req x) (mk_vs d held w').
Proof.
  intros Hi Hn Hr. destruct (wp_run _ _ _ _ _ (read_spec _ w req Hi Hn) Hr) as (Hc & o & Ho & Hx).
  destruct (quiet_step d held w w' Hi Hc) as (Hi' & Hm & Ha). split; [done|]. split; [done|]. split; [done|].
  unfold spec_read. cbn [vs_w]. intros Hlt. unfold named in Ho.
  destruct (Z.leb_spec (vr_max_interfaces w) (u32 (vifr_idx req))); [lia|].
  rewrite <- Ha, (abs_lookup _ w' _ Hi'), view_slot. unfold slot in *. rewrite (ca_table _ _ Hc). rewrite <- Ho.
  destruct o as [a|]; [|done]. destruct Hx as (Hz & v' & r & Hv' & Hres & Han). cbn. rewrite Hv'. cbn.
  exists r. split; [destruct x; cbn in *; by subst|].
  split; [|split; [apply Han|by rewrite (an_mac _ _ _ Han)]]. rewrite (an_idx _ _ _ Han).
  destruct (i_tab _ _ Hi' (u32 (vifr_idx req)) a) as (v2 & Hv2 & Hx2 & _); [|congruence].
  rewrite (ca_table _ _ Hc). by apply slot_Some.
Qed.

Lemma vstep_ok s op s' : inv (stage_of s) (vs_w s) -> vstep s op s' -> step_ok s op s'.
Proof.
  intros Hi Hs. destruct Hs as [held w req ret w' Ho Hr|held w req ret w' Hr|d held w i o w' Hp Hm Hr|d held w a w' Hp Hr
    |d held w req x w' Hn Hr|held w w' Hr|held w soft w' Hr|held w hif_ops ret w' Ht Hr|d held w w' Hc|d held w p v t b Hv Ht].
  - by apply add_step.
  - by apply delete_step.
  - by apply get_step.
  - by apply put_step.
  - by apply read_step.
  - destruct (wp_run _ _ _ _ _ (shut_spec held w Hi) Hr) as [Hi' S']. split; [done|]. split; [apply S'|].
    apply (abs_same _ _ _ _ Hi Hi'), S'.
  - destruct (wp_run _ _ _ _ _ (exit_spec held w soft Hi) Hr) as (Hi' & Hs & Hm). split; [done|]. split; [|done].
    by apply (abs_empty (rest held)).
  - destruct (wp_run _ _ _ _ _ (init_spec held w hif_ops Hi Ht) Hr) as (Hi' & Hs & Hm). split; [done|]. split; [|done].
    by apply (abs_empty (rest held)).
  - by apply quiet_step.
  - assert (Hi' := inv_background _ _ p v t b Hi Hv Ht). split; [by destruct d|]. split; [done|].
    apply (abs_same _ _ _ _ Hi Hi'). by apply (view_put p v).
Qed.

Lemma inv_start not_ready h : inv (rest (fun _ => 0)) (router0 not_ready h).
Proof.
  split; [split; cbn; try done|by intros a v b]. intros i a. by rewrite zget_nil.
Qed.

Lemma reach_inv s : vreach s -> inv (stage_of s) (vs_w s).
Proof. induction 1 as [not_ready h|s op s' _ IH Hs]; [apply inv_start|by apply (vstep_ok s op)]. Qed.

(** ** What holds in every state *)

(** C10: Whatever the order of requests, references, shut-downs and set-ups, and whatever the
    host answers, the next operation has a result, so it neither follows a null or stale pointer
    nor leaves an array: a request to add that the module can serve ([add_ok]), a request to
    delete or to read, taking a reference, giving one back that is held, and the end of the
    module. *)
Theorem vif_no_fault s :
  vreach s ->
  (vs_down s = false ->
     (forall req, add_ok (vs_w s) req -> is_Some (vr_interface_add req (vs_w s))) /\
     (forall req, is_Some (vr_interface_delete req (vs_w s))) /\
     is_Some (vr_interface_shut (vs_w s))) /\
  (vs_down s = true -> forall soft_reset, is_Some (vr_interface_exit soft_reset (vs_w s))) /\
  (forall i, 0 <= i -> roomy (vs_w s) -> is_Some (vrouter_get_interface i (vs_w s))) /\
  (forall a, 0 < vs_held s a -> is_Some (vrouter_put_interface a (vs_w s))) /\
  (forall req, 0 <= vr_num_cpus <= 256 -> is_Some (interface_get req (vs_w s))).
Proof.
  intros Hr. apply reach_inv in Hr. destruct s as [d held w]. unfold stage_of in Hr. cbn [vs_w vs_held vs_down] in *.
  assert (Hh : st_held (if d then down held else rest held) = held /\ st_out (if d then down held else rest held) = None) by (by destruct d).
  destruct Hh as [Hh Ho]. split; [|split; [|split; [|split]]].
  - intros ->. split; [|split].
    + intros req Ha. by eapply wp_some, add_req_spec.
    + intros req. by eapply wp_some, delete_req_spec.
    + by eapply wp_some, shut_spec.
  - intros -> soft. by eapply wp_some, exit_spec.
  - intros i Hi Hm. by eapply wp_some, get_spec.
  - intros a Ha. eapply wp_some, put_spec; [exact Hr|by rewrite Hh|by rewrite Ho].
  - intros req Hn. by eapply wp_some, read_spec.
Qed.

(** An interface that is there. *)
Definition there w a : Prop := is_Some (vr_heap w !! a).

(** C11: In every state that the module reaches, every pointer leads to an interface that is
    there and is the one it should be: the table has each interface under its own index, the
    agent, host and physical interface of the router are of those types, a bridge leads back, a
    parent exists, and what the array and the hash table of a parent have for a tag and an address
    is a sub-interface of that parent with that tag and address. The count of users of an interface
    is at least the number of references to it: those held, its place in the table, and its
    sub-interfaces. *)
Theorem vif_pointers_live s :
  vreach s ->
  let w := vs_w s in
  (forall i a, slot w i = Some a -> exists v, vr_heap w !! a = Some v /\ vif_idx (vif_cfg v) = i) /\
  (forall a, vr_agent_if w = Some a -> exists v, vr_heap w !! a = Some v /\ vif_type v = VIF_TYPE_AGENT) /\
  (forall a, vr_host_if w = Some a -> exists v, vr_heap w !! a = Some v /\ vif_type v = VIF_TYPE_HOST) /\
  (forall a, vr_eth_if w = Some a -> exists v, vr_heap w !! a = Some v /\ vif_type v = VIF_TYPE_PHYSICAL) /\
  (forall a, 0 < vs_held s a -> there w a) /\
  (forall a v, vr_heap w !! a = Some v ->
     (forall p, vif_parent (vif_link v) = Some p -> there w p) /\
     (forall b, vif_bridge (vif_link v) = Some b -> exists bv, vr_heap w !! b = Some bv /\ vif_bridge (vif_link bv) = Some a) /\
     (forall m vlan c, vif_sub_interfaces (vif_link v) = Some m -> m !! vlan = Some c ->
        exists cv, vr_heap w !! c = Some cv /\ vif_parent (vif_link cv) = Some a /\ vif_vlan_id (vif_link cv) = vlan) /\
     (forall t vlan mac c, vif_btable (vif_link v) = Some t -> vlan_ok vlan -> mac_ok mac -> st_get t vlan mac = Some c ->
        exists cv, vr_heap w !! c = Some cv /\ vif_parent (vif_link cv) = Some a /\ vif_vlan_id (vif_link cv) = vlan /\
          vif_src_mac (vif_link cv) = Some mac) /\
     vs_held s a + places (vr_interfaces w) a + kids (vr_heap w) a <= vif_users v <= UINT_MAX).
Proof.
  intros Hr. apply reach_inv in Hr. destruct s as [d held w]. cbn [vs_w vs_held].
  assert (Hh : st_held (stage_of (mk_vs d held w)) = held) by (by destruct d). cbn [vs_w] in Hr.
  revert Hr Hh. generalize (stage_of (mk_vs d held w)) as g. intros g Hi Hh.
  split; [|split; [|split; [|split; [|split]]]].
  - intros i a Hs. apply slot_Some in Hs. destruct (i_tab _ _ Hi i a Hs) as (v & Hv & Hx & _). by exists v.
  - intros a Ha. apply (i_agent _ _ Hi a Ha).
  - intros a Ha. apply (i_host _ _ Hi a Ha).
  - intros a Ha. apply (i_eth _ _ Hi a Ha).
  - intros a Ha. rewrite <- Hh in Ha. by apply (i_held _ _ Hi a).
  - intros a v Hv. destruct (i_linked _ _ Hi a v Hv) as [Lp Ls Lt]. split; [|split; [|split; [|split]]].
    + intros p Hp. destruct (Lp p Hp) as (_ & pv & Hpv & _). by exists pv.
    + intros b Hb. apply (i_bridges _ _ Hi a v b Hv Hb).
    + intros m vlan c Hm Hk. destruct (Ls m vlan c Hm Hk) as (_ & _ & cv & Hcv & X1 & X2 & _). by exists cv.
    + intros t vlan mac c Ht Hvl Hmc Hg. destruct (Lt t Ht) as (m & Hm & Hk). rewrite (st_get_spec t m) in Hg by done.
      destruct (Hk vlan mac c Hg) as (_ & _ & cv & Hcv & X). by exists cv.
    + pose proof (i_users _ _ Hi a v Hv) as Hu. unfold refs in Hu. by rewrite Hh in Hu.
Qed.

(** C12: The module refines a finite map from indices to configurations: a request to add makes
    a new configuration or changes the one that is there, or is refused and changes nothing; a
    request to delete removes one or is refused; a request to read answers with what the map has;
    the end of the module empties the map, and nothing else changes it. *)
Theorem vif_refines s op s' :
  vreach s -> vstep s op s' ->
  spec_step (vr_max_interfaces (vs_w s)) (abs (vs_w s)) op (vr_max_interfaces (vs_w s')) (abs (vs_w s')).
Proof. intros Hr Hs. by apply vstep_ok, Hs; apply reach_inv. Qed.

(** C13: Every interface of every state is well formed: its type has a driver, it has one block
    of statistics for each CPU with one counter for each CPU, tags have 16 bits and source
    addresses 6 bytes, only an interface of the Ethernet driver has tables of sub-interfaces, only
    a VLAN interface has a parent, and then its tag is an index of the parent's array. *)
Theorem vif_well_formed s a v :
  vreach s -> vr_heap (vs_w s) !! a = Some v ->
  is_Some (vif_drivers (vif_type v)) /\
  (exists st, vif_stats (vif_cfg v) = Some st /\ length st = Z.to_nat vr_num_cpus /\ Forall (block_ok vr_num_cpus) st) /\
  0 <= vif_vlan_id (vif_link v) < 65536 /\
  (forall mac, vif_src_mac (vif_link v) = Some mac -> length mac = 6%nat) /\
  (vif_driver (vif_link v) <> Some eth_driver -> vif_sub_interfaces (vif_link v) = None /\ vif_btable (vif_link v) = None) /\
  (forall p, vif_parent (vif_link v) = Some p ->
     p <> a /\ vif_type v = VIF_TYPE_VIRTUAL_VLAN /\ vif_vlan_id (vif_link v) < VLAN_ID_MAX).
Proof.
  intros Hr Hv. apply reach_inv in Hr. destruct (i_solo _ _ Hr a v Hv) as [S1 S2 S3 S4 S5 S6 S7].
  split; [done|]. split; [exact S1|]. split; [done|]. split; [exact S5|]. split; [exact S6|]. intros p Hp.
  destruct (S7 p Hp) as [X1 X2]. destruct (li_parent _ _ _ _ (i_linked _ _ Hr a v Hv) p Hp) as [Hne _]. done.
Qed.

(** C14: A request to read that is answered shows, for every counter, the sum over the blocks of
    all CPUs in 64 bits when it asks for all of them, the block of one CPU when it asks for that
    one, and the ports whose flows are merged; it changes no configuration. *)
Theorem vif_get_shows s req r w' :
  vreach s -> 0 <= vr_num_cpus <= 256 -> interface_get req (vs_w s) = Some ((0, Some r), w') ->
  same_view (vs_w s) w' /\
  exists a v cfg stats, vr_heap w' !! a = Some v /\ vifr_idx r = vif_idx (vif_cfg v) /\
    FatFlowProofs.fat_ok (vif_fat v) cfg /\ default [] (vifr_fat_flow_protocol_port r) = fat_list cfg /\
    vif_stats (vif_cfg v) = Some stats /\
    forall k, vifr_counters r k = shown_counter vr_num_cpus (u32 (vifr_core req - 1)) stats k.
Proof.
  intros Hr Hn Hg. apply reach_inv in Hr. destruct (wp_run _ _ _ _ _ (read_spec _ _ req Hr Hn) Hg) as (Hc & o & _ & Hx).
  split; [by apply calm_view|]. destruct o as [a|]; [|done]. destruct Hx as (_ & v & r' & Hv & [= <-] & [A1 _ _ (cfg & A2 & A3) (stats & A4 & A5)]).
  by exists a, v, cfg, stats.
Qed.

End reach.
End VifReach.
