(* ===== verification/VifExamples.v ===== *)
(** * Interfaces: a run, and what goes wrong

    A host that answers from a list, a router with a physical interface, a host interface on it
    and a VLAN sub-interface, and the cases that the conditions of the theorems leave out. *)

From stdpp Require Import gmap.
From S2P Require Import Prelude Bits Htable VrfAssign VifBridge FatFlow FatFlowProofs VifState.
From S2P Require Import Vif VifReq VifInv VifRefs VifVlan VifRequest VifRead VifReach.

Module VifExamples.
Import VifState Vif VifReq VifInv VifRefs VifVlan VifRequest VifRead VifReach.

(** ** A host *)

Abbreviation table := (Htable.vr_htable VifBridge.vif_bridge_entry).

#[local] Instance two_cpus : Cpus := 2.

(** The return values of the coming calls, and zero when there are none left. *)
#[local] Instance list_host : HifOps table (list Z) := {
  hif_call _ _ v h := (mk_hans (hd 0 h) (vif_flags v) (vif_os_idx (vif_cfg v)), tail h);
  hif_table_oracle _ := [];
  hif_get_encap _ _ := 1;
  hif_get_settings _ _ := (0, 10000, 1);
  hif_stats_update _ _ _ cpu f k := f k + Z.of_nat cpu + 1
}.

Abbreviation router := (world table (list Z)).
Abbreviation program A := (prog table (list Z) A).

Definition result {A} (m : program A) (w : router) : option A := fst <$> m w.
Definition after {A} (m : program A) (w : router) : router := match m w with Some (_, w') => w' | None => w end.

Lemma ran {A} (m : program A) w x : result m w = Some x -> m w = Some (x, after m w).
Proof. unfold result, after. destruct (m w) as [[y w']|]; [|done]. by intros [= ->]. Qed.

(** ** Requests *)

Definition mac0 : list Z := [2; 0; 0; 0; 0; 1].
Definition mac1 : list Z := [2; 0; 0; 0; 0; 2].

Definition if_req (type flags idx os_idx : Z) (vlan parent : Z) (src_mac : option (list Z)) (cross transport : Z) (fat : option (list Z))
    : vr_interface_req :=
  mk_ifr 0 type flags 7 idx 0 os_idx 1500 (Some [101; 116; 104; 48; 0]) (fun _ => 0) None 0 0 0 (Some mac0) 6 167772161 0 0 0 vlan parent 3 cross
    src_mac (match src_mac with Some _ => 6 | None => 0 end) 0 0 transport fat (match fat with Some l => zlen l | None => 0 end) 0.

Definition phys_req : vr_interface_req := if_req VIF_TYPE_PHYSICAL 0 0 5 0 0 None 0 1 None.
Definition host_req : vr_interface_req := if_req VIF_TYPE_HOST 0 1 6 0 0 None 5 1 None.
Definition sub_req (idx : Z) : vr_interface_req := if_req VIF_TYPE_VIRTUAL_VLAN 0 idx 7 100 0 (Some mac1) 0 1 None.
Definition virtual_req (flags : Z) (fat : option (list Z)) : vr_interface_req := if_req VIF_TYPE_VIRTUAL flags 3 8 0 0 None 0 1 fat.

(** ** A run *)

Definition w0 : router := router0 false [].
Definition w1 : router := after (vr_interface_init true) w0.
Definition w2 : router := after (vr_interface_add phys_req) w1.
Definition w3 : router := after (vr_interface_add host_req) w2.
Definition w4 : router := after (vr_interface_add (sub_req 2)) w3.
Definition w5 : router := after (vrouter_get_interface 0) w4.

Lemma run1 : vr_interface_init true w0 = Some (0, w1).
Proof. unfold w1. apply ran. vm_compute. reflexivity. Qed.
Lemma run2 : vr_interface_add phys_req w1 = Some (0, w2).
Proof. unfold w2. apply ran. vm_compute. reflexivity. Qed.
Lemma run3 : vr_interface_add host_req w2 = Some (0, w3).
Proof. unfold w3. apply ran. vm_compute. reflexivity. Qed.
Lemma run4 : vr_interface_add (sub_req 2) w3 = Some (0, w4).
Proof. unfold w4. apply ran. vm_compute. reflexivity. Qed.
Lemma run5 : vrouter_get_interface 0 w4 = Some (Some 1, w5).
Proof. unfold w5. apply ran. vm_compute. reflexivity. Qed.

(** No count is high, by evaluation. *)
Definition few (w : router) : Prop := map_Forall (fun _ v => vif_users v < UINT_MAX) (vr_heap w).

Lemma few_roomy w : few w -> roomy w.
Proof. intros Hf a v Hv. exact (Hf a v Hv). Qed.

Lemma few1 : few w1.
Proof. unfold few. apply (bool_decide_eq_true_1 (map_Forall _ _)). vm_compute. reflexivity. Qed.
Lemma few2 : few w2.
Proof. unfold few. apply (bool_decide_eq_true_1 (map_Forall _ _)). vm_compute. reflexivity. Qed.
Lemma few3 : few w3.
Proof. unfold few. apply (bool_decide_eq_true_1 (map_Forall _ _)). vm_compute. reflexivity. Qed.
Lemma few4 : few w4.
Proof. unfold few. apply (bool_decide_eq_true_1 (map_Forall _ _)). vm_compute. reflexivity. Qed.

Lemma free_eth : map_Forall (fun _ v => vif_os_idx (vif_cfg v) = 5 -> vif_type v = VIF_TYPE_PHYSICAL /\ vif_bridge (vif_link v) = None) (vr_heap w2).
Proof. unfold few. apply (bool_decide_eq_true_1 (map_Forall _ _)). vm_compute. reflexivity. Qed.

Lemma mac_ok0 (req : vr_interface_req) : vifr_mac req = Some mac0 -> mac_req_ok req.
Proof. intros Hm mac. rewrite Hm. by intros [= <-]. Qed.

Lemma phys_ok : add_ok w1 phys_req.
Proof. split; [apply few_roomy, few1|done|by apply mac_ok0|done|intros E; discriminate E|intros E; discriminate E]. Qed.

Lemma host_req_ok : add_ok w2 host_req.
Proof. split; [apply few_roomy, few2|done|by apply mac_ok0|done|intros E; discriminate E|]. intros _ b bv _ Hb. exact (free_eth b bv Hb). Qed.

Lemma sub_ok : add_ok w3 (sub_req 2).
Proof.
  split; [apply few_roomy, few3|done|by apply mac_ok0|done| |intros E; discriminate E]. intros _. split; [|done]. intros mac. cbn. by intros [= <-].
Qed.

Definition no_refs0 : Z -> Z := fun _ => 0.
Definition at4 : vstate := mk_vs false no_refs0 w4.
Definition at5 : vstate := mk_vs false (hold (Some 1) no_refs0) w5.

Lemma reach1 : vreach (mk_vs false no_refs0 w1).
Proof. exact (reach_step _ _ _ (reach_start false []) (step_init _ w0 true 0 w1 eq_refl run1)). Qed.

Lemma reach3 : vreach (mk_vs false no_refs0 w3).
Proof.
  exact (reach_step _ _ _ (reach_step _ _ _ reach1 (step_add _ w1 phys_req 0 w2 phys_ok run2)) (step_add _ w2 host_req 0 w3 host_req_ok run3)).
Qed.

Lemma step4 : vstep (mk_vs false no_refs0 w3) (op_add (sub_req 2) 0) at4.
Proof. exact (step_add _ w3 (sub_req 2) 0 w4 sub_ok run4). Qed.

Lemma reach4 : vreach at4.
Proof. exact (reach_step _ _ _ reach3 step4). Qed.

Lemma reach5 : vreach at5.
Proof. exact (reach_step _ _ _ reach4 (step_get false no_refs0 w4 0 (Some 1) w5 ltac:(done) (few_roomy _ few4) run5)). Qed.

(** ** Witnesses *)

Lemma vif_no_fault_witness :
  vreach at5 /\ 0 < vs_held at5 1 /\ is_Some (vrouter_put_interface 1 (vs_w at5)) /\ is_Some (vr_interface_delete phys_req (vs_w at5)) /\
  is_Some (vr_interface_shut (vs_w at5)).
Proof.
  destruct (vif_no_fault at5 reach5) as (Hup & _ & _ & Hput & _). destruct (Hup eq_refl) as (_ & Hdel & Hshut).
  split; [exact reach5|]. split; [reflexivity|]. split; [exact (Hput 1 eq_refl)|]. split; [exact (Hdel phys_req)|exact Hshut].
Defined.

Lemma vif_pointers_live_witness :
  vr_host_if w5 = Some 2 /\ (exists v, vr_heap w5 !! 2 = Some v /\ vif_type v = VIF_TYPE_HOST) /\ there w5 1.
Proof.
  destruct (vif_pointers_live at5 reach5) as (_ & _ & Hhost & _ & Hheld & _).
  assert (E : vr_host_if w5 = Some 2) by (vm_compute; reflexivity).
  split; [exact E|]. split; [exact (Hhost 2 E)|exact (Hheld 1 eq_refl)].
Defined.

Lemma vif_refines_witness :
  slot w3 2 = None /\ spec_step (vr_max_interfaces w3) (abs w3) (op_add (sub_req 2) 0) (vr_max_interfaces w4) (abs w4).
Proof. split; [vm_compute; reflexivity|]. exact (vif_refines _ _ _ reach3 step4). Defined.

Lemma sub_there : exists v, vr_heap w4 !! 3 = Some v /\ vif_parent (vif_link v) = Some 1.
Proof.
  assert (E : (v ← vr_heap w4 !! 3; vif_parent (vif_link v)) = Some 1) by (vm_compute; reflexivity).
  revert E. generalize (vr_heap w4 !! 3) as o. intros [v|] E; [by exists v|done].
Qed.

Lemma vif_well_formed_witness : exists v, vr_heap w4 !! 3 = Some v /\ vif_type v = VIF_TYPE_VIRTUAL_VLAN /\ vif_vlan_id (vif_link v) < VLAN_ID_MAX.
Proof.
  destruct sub_there as (v & Hv & Hp). destruct (vif_well_formed at4 3 v reach4 Hv) as (_ & _ & _ & _ & _ & Hpar).
  destruct (Hpar 1 Hp) as (_ & Ht & Hl). exists v. split; [exact Hv|]. split; [exact Ht|exact Hl].
Defined.

Lemma read4 : exists r w', interface_get phys_req w4 = Some ((0, Some r), w') /\ vifr_counters r ibytes = 3.
Proof.
  assert (E : ('(x, _) ← interface_get phys_req w4; match x with (0, Some r) => Some (vifr_counters r ibytes) | _ => None end) = Some 3)
    by (vm_compute; reflexivity).
  revert E. generalize (interface_get phys_req w4) as o. intros [[[[| |] [r|]] w']|] E; try done. exists r, w'. cbn in E. injection E. auto.
Qed.

Lemma cpus_fit : 0 <= vr_num_cpus <= 256.
Proof. split; intros E; discriminate E. Qed.

Lemma vif_get_shows_witness : exists r w' stats, interface_get phys_req w4 = Some ((0, Some r), w') /\ vifr_counters r ibytes = 3 /\
  s64 (total stats ibytes) = 3.
Proof.
  destruct read4 as (r & w' & Hr & Hc). pose proof (vif_get_shows at4 phys_req r w' reach4 cpus_fit) as Hs. cbn [vs_w at4] in Hs. destruct (Hs Hr) as (_ & a & v & cfg & stats & _ & _ & _ & _ & _ & Hk).
  exists r, w', stats. split; [exact Hr|]. split; [exact Hc|]. rewrite <- Hc, Hk. reflexivity.
Defined.

(** ** What the conditions leave out *)

Definition with_mem (l : list bool) (w : router) : router := set_mem l w.
Definition with_host (l : list Z) (w : router) : router := set_host l w.

(** A request that changes an interface and finds no memory frees it; the table still has it. *)
Example vif_failed_change_frees :
  let w := with_mem [false] w2 in
  let w' := after (vr_interface_add (if_req VIF_TYPE_PHYSICAL VIF_FLAG_SERVICE_IF 0 5 0 0 None 0 1 None)) w in
  result (vr_interface_add (if_req VIF_TYPE_PHYSICAL VIF_FLAG_SERVICE_IF 0 5 0 0 None 0 1 None)) w = Some (- ENOMEM) /\
  slot w' 0 = Some 1 /\ bool_decide (is_Some (vr_heap w' !! 1)) = false.
Proof. vm_compute. by repeat split. Qed.

(** When there is no memory for the statistics [vif_free] reads them through a null pointer. *)
Example vif_no_stats_faults : vr_interface_add phys_req (with_mem [true; false] w1) = None.
Proof. vm_compute. reflexivity. Qed.

(** An unknown transport is refused with the answer 0. *)
Example vif_bad_transport_answers_zero :
  let req := if_req VIF_TYPE_PHYSICAL 0 0 5 0 0 None 0 9 None in
  result (vr_interface_add req) w1 = Some 0 /\ slot (after (vr_interface_add req) w1) 0 = None.
Proof. vm_compute. by split. Qed.

(** A negative type passes the test, and is read from beyond [vif_drivers]. *)
Example vif_negative_type_outside : vr_interface_add (if_req (-1) 0 3 8 0 0 None 0 1 None) w1 = None.
Proof. vm_compute. reflexivity. Qed.

(** A VLAN interface that is its own parent has no driver yet. *)
Example vlan_own_parent_faults : vr_interface_add (if_req VIF_TYPE_VIRTUAL_VLAN 0 2 7 100 2 None 0 1 None) w3 = None.
Proof. vm_compute. reflexivity. Qed.

Definition users_of (a : Z) (w : router) : option Z := vif_users <$> vr_heap w !! a.

(** A sub-interface that the host refuses leaves a reference to the parent behind. *)
Example vlan_refused_leaks_parent :
  result (vr_interface_add (sub_req 2)) (with_host [-5] w3) = Some (-5) /\
  users_of 1 w3 = Some 1 /\ users_of 1 (after (vr_interface_add (sub_req 2)) (with_host [-5] w3)) = Some 2.
Proof. vm_compute. by repeat split. Qed.

(** Two sub-interfaces with one tag and address share an entry, which goes with the first that
    is deleted; the second keeps its parent for ever. *)
Example sub_entry_overwritten :
  let w := after (vr_interface_add (sub_req 3)) w4 in
  let w' := after (vr_interface_delete (sub_req 2)) w in
  result (vr_interface_add (sub_req 3)) w4 = Some 0 /\ result (vr_interface_delete (sub_req 2)) w = Some 0 /\
  (v ← vr_heap w' !! 1; t ← vif_btable (vif_link v); st_get t 100 mac1) = None /\
  result (vr_interface_delete (sub_req 3)) w' = Some 0 /\ users_of 1 (after (vr_interface_delete (sub_req 3)) w') = Some 2.
Proof. vm_compute. by repeat split. Qed.

(** A second host interface takes the physical interface over; the first keeps its pointer to
    it after it is freed. *)
Example second_host_dangles :
  let w := after (vr_interface_add (if_req VIF_TYPE_HOST 0 4 9 0 0 None 5 1 None)) w3 in
  let w' := after (vr_interface_delete phys_req) w in
  (v ← vr_heap w' !! 2; vif_bridge (vif_link v)) = Some 1 /\ bool_decide (is_Some (vr_heap w' !! 1)) = false.
Proof. vm_compute. by split. Qed.

(** The host attaches an interface without a request. *)
Example vlan_attach_faults : vif_attach 3 w4 = None.
Proof. vm_compute. reflexivity. Qed.

(** The size of the table is set although there is no memory for it. *)
Example vif_init_failed_size :
  let w := after (vr_interface_init true) (with_mem [false] w0) in
  result (vr_interface_init true) (with_mem [false] w0) = Some (- ENOMEM) /\ vr_interfaces w = [] /\ vr_max_interfaces w = VR_MAX_INTERFACES.
Proof. vm_compute. by repeat split. Qed.

Definition shown (req : vr_interface_req) (w : router) : option vr_interface_req := '(_, o) ← result (interface_get req) w; o.

(** A protocol without ports is shown as port of protocol 0: what is read can not be written
    back. *)
Example fat_flow_icmp_shown :
  let req := virtual_req 0 (Some [Z.shiftl 1 16]) in
  (shown req (after (vr_interface_add req) w1) ≫= vifr_fat_flow_protocol_port) = Some [1].
Proof. vm_compute. reflexivity. Qed.

(** A response that showed a VLAN interface shows its tag for the next one too. *)
Example dump_shows_stale_tag :
  result (o ← vr_interface_req_get; r ← of_option o; '(_, r1) ← vr_interface_make_req r 3 0;
          '(_, r2) ← vr_interface_make_req r1 1 0; mret (vifr_type r2, vifr_vlan_id r2)) w4 = Some (VIF_TYPE_PHYSICAL, 100).
Proof. vm_compute. reflexivity. Qed.

(** A response without the array of counters is written to all the same. *)
Example get_without_array_faults : interface_get phys_req (with_mem [true; true; true; true; false] w4) = None.
Proof. vm_compute. reflexivity. Qed.

End VifExamples.
