(* ===== verification/Stats.v ===== *)
(** * Statistics (dp-core/vr_stats.c)

    The counters of dropped packets, by reason, and of memory, by kind of object, which every
    CPU keeps for itself; the requests that show their sums; and their set-up, reset and
    tear-down.  The allocator of the host counts what it gives and takes back
    (linux/vrouter_mod.c).  [live] is what the counters should say: how many blocks of each kind
    are not freed. *)

From stdpp Require Import gmap.
From S2P Require Import Prelude Bits Queue Message VifState.

Module Stats.
Import VifState(Cpus, vr_num_cpus).

(** ** Kinds of memory, and reasons to drop *)

Definition VR_ASSEMBLER_TABLE_OBJECT : Z := 0.
Definition VR_BRIDGE_MAC_OBJECT : Z := 1.
Definition VR_BTABLE_OBJECT : Z := 2.
Definition VR_BUILD_INFO_OBJECT : Z := 3.
Definition VR_DEFER_OBJECT : Z := 4.
Definition VR_DROP_STATS_OBJECT : Z := 5.
Definition VR_DROP_STATS_REQ_OBJECT : Z := 6.
Definition VR_FLOW_QUEUE_OBJECT : Z := 7.
Definition VR_FLOW_REQ_OBJECT : Z := 8.
Definition VR_FLOW_REQ_PATH_OBJECT : Z := 9.
Definition VR_FLOW_HOLD_STAT_OBJECT : Z := 10.
Definition VR_FLOW_LINK_LOCAL_OBJECT : Z := 11.
Definition VR_FLOW_METADATA_OBJECT : Z := 12.
Definition VR_FLOW_TABLE_INFO_OBJECT : Z := 13.
Definition VR_FLOW_DEFER_DATA_OBJECT : Z := 14.
Definition VR_FRAGMENT_OBJECT : Z := 15.
Definition VR_FRAGMENT_QUEUE_OBJECT : Z := 16.
Definition VR_FRAGMENT_QUEUE_ELEMENT_OBJECT : Z := 17.
Definition VR_FRAGMENT_SCANNER_OBJECT : Z := 18.
Definition VR_HPACKET_POOL_OBJECT : Z := 19.
Definition VR_HTABLE_OBJECT : Z := 20.
Definition VR_INTERFACE_OBJECT : Z := 21.
Definition VR_INTERFACE_FAT_FLOW_CONFIG_OBJECT : Z := 22.
Definition VR_INTERFACE_MAC_OBJECT : Z := 23.
Definition VR_INTERFACE_REQ_OBJECT : Z := 24.
Definition VR_INTERFACE_REQ_MAC_OBJECT : Z := 25.
Definition VR_INTERFACE_REQ_NAME_OBJECT : Z := 26.
Definition VR_INTERFACE_REQ_TO_LCORE_ERRORS_OBJECT : Z := 27.
Definition VR_INTERFACE_STATS_OBJECT : Z := 28.
Definition VR_INTERFACE_TABLE_OBJECT : Z := 29.
Definition VR_INTERFACE_TO_LCORE_ERRORS_OBJECT : Z := 30.
Definition VR_INTERFACE_VRF_TABLE_OBJECT : Z := 31.
Definition VR_ITABLE_OBJECT : Z := 32.
Definition VR_LOG_TYPES_OBJECT : Z := 33.
Definition VR_MALLOC_OBJECT : Z := 34.
Definition VR_MESSAGE_OBJECT : Z := 35.
Definition VR_MESSAGE_RESPONSE_OBJECT : Z := 36.
Definition VR_MESSAGE_DUMP_OBJECT : Z := 37.
Definition VR_MEM_STATS_REQ_OBJECT : Z := 38.
Definition VR_MIRROR_OBJECT : Z := 39.
Definition VR_MIRROR_TABLE_OBJECT : Z := 40.
Definition VR_MIRROR_META_OBJECT : Z := 41.
Definition VR_MTRIE_OBJECT : Z := 42.
Definition VR_MTRIE_BUCKET_OBJECT : Z := 43.
Definition VR_MTRIE_STATS_OBJECT : Z := 44.
Definition VR_MTRIE_TABLE_OBJECT : Z := 45.
Definition VR_NETWORK_ADDRESS_OBJECT : Z := 46.
Definition VR_NEXTHOP_OBJECT : Z := 47.
Definition VR_NEXTHOP_COMPONENT_OBJECT : Z := 48.
Definition VR_NEXTHOP_REQ_LIST_OBJECT : Z := 49.
Definition VR_NEXTHOP_REQ_ENCAP_OBJECT : Z := 50.
Definition VR_NEXTHOP_REQ_OBJECT : Z := 51.
Definition VR_ROUTE_TABLE_OBJECT : Z := 52.
Definition VR_ROUTE_REQ_MAC_OBJECT : Z := 53.
Definition VR_TIMER_OBJECT : Z := 54.
Definition VR_USOCK_OBJECT : Z := 55.
Definition VR_USOCK_POLL_OBJECT : Z := 56.
Definition VR_USOCK_BUF_OBJECT : Z := 57.
Definition VR_USOCK_IOVEC_OBJECT : Z := 58.
Definition VR_VROUTER_REQ_OBJECT : Z := 59.
Definition VR_BITMAP_OBJECT : Z := 60.
Definition VR_QOS_MAP_OBJECT : Z := 61.
Definition VR_FC_OBJECT : Z := 62.
Definition VR_VROUTER_MAX_OBJECT : Z := 63.

Definition VP_DROP_DISCARD : Z := 0.
Definition VP_DROP_PULL : Z := 1.
Definition VP_DROP_INVALID_IF : Z := 2.
Definition VP_DROP_ARP_NO_WHERE_TO_GO : Z := 3.
Definition VP_DROP_GARP_FROM_VM : Z := 4.
Definition VP_DROP_INVALID_ARP : Z := 5.
Definition VP_DROP_TRAP_NO_IF : Z := 6.
Definition VP_DROP_NOWHERE_TO_GO : Z := 7.
Definition VP_DROP_FLOW_QUEUE_LIMIT_EXCEEDED : Z := 8.
Definition VP_DROP_FLOW_NO_MEMORY : Z := 9.
Definition VP_DROP_FLOW_INVALID_PROTOCOL : Z := 10.
Definition VP_DROP_FLOW_NAT_NO_RFLOW : Z := 11.
Definition VP_DROP_FLOW_ACTION_DROP : Z := 12.
Definition VP_DROP_FLOW_ACTION_INVALID : Z := 13.
Definition VP_DROP_FLOW_UNUSABLE : Z := 14.
Definition VP_DROP_FLOW_TABLE_FULL : Z := 15.
Definition VP_DROP_INTERFACE_TX_DISCARD : Z := 16.
Definition VP_DROP_INTERFACE_DROP : Z := 17.
Definition VP_DROP_DUPLICATED : Z := 18.
Definition VP_DROP_PUSH : Z := 19.
Definition VP_DROP_TTL_EXCEEDED : Z := 20.
Definition VP_DROP_INVALID_NH : Z := 21.
Definition VP_DROP_INVALID_LABEL : Z := 22.
Definition VP_DROP_INVALID_PROTOCOL : Z := 23.
Definition VP_DROP_INTERFACE_RX_DISCARD : Z := 24.
Definition VP_DROP_INVALID_MCAST_SOURCE : Z := 25.
Definition VP_DROP_HEAD_ALLOC_FAIL : Z := 26.
Definition VP_DROP_HEAD_SPACE_RESERVE_FAIL : Z := 27.
Definition VP_DROP_PCOW_FAIL : Z := 28.
Definition VP_DROP_MCAST_DF_BIT : Z := 29.
Definition VP_DROP_MCAST_CLONE_FAIL : Z := 30.
Definition VP_DROP_NO_MEMORY : Z := 31.
Definition VP_DROP_REWRITE_FAIL : Z := 32.
Definition VP_DROP_MISC : Z := 33.
Definition VP_DROP_INVALID_PACKET : Z := 34.
Definition VP_DROP_CKSUM_ERR : Z := 35.
Definition VP_DROP_NO_FMD : Z := 37.
Definition VP_DROP_CLONED_ORIGINAL : Z := 38.
Definition VP_DROP_INVALID_VNID : Z := 39.
Definition VP_DROP_FRAGMENTS : Z := 40.
Definition VP_DROP_INVALID_SOURCE : Z := 41.
Definition VP_DROP_ARP_NO_ROUTE : Z := 42.
Definition VP_DROP_L2_NO_ROUTE : Z := 43.
Definition VP_DROP_FRAGMENT_QUEUE_FAIL : Z := 44.
Definition VP_DROP_VLAN_FWD_TX : Z := 45.
Definition VP_DROP_VLAN_FWD_ENQ : Z := 46.
Definition VP_DROP_NEW_FLOWS : Z := 47.
Definition VP_DROP_FLOW_EVICT : Z := 48.
Definition VP_DROP_TRAP_ORIGINAL : Z := 49.
Definition VP_DROP_MAX : Z := 50.

(** ** State *)

Record vr_malloc_stats_t := mk_ms { ms_size : Z; ms_alloc : Z; ms_free : Z }.
Definition ms_zero : vr_malloc_stats_t := mk_ms 0 0 0.

(** The part of [struct vrouter] that counts, with an array of pointers to a block for each
    CPU; [live], the CPU that runs, and the answers to the coming requests for memory. *)
Record router := mk_router {
  vr_pdrop_stats : option (list (option (list Z)));
  malloc_blocks : option (list (option (list vr_malloc_stats_t)));
  live : Z -> Z;
  cpu_now : Z;
  mem_oracle : list bool
}.

Definition set_pdrop x (r : router) : router := mk_router x (malloc_blocks r) (live r) (cpu_now r) (mem_oracle r).
Definition set_blocks x (r : router) : router := mk_router (vr_pdrop_stats r) x (live r) (cpu_now r) (mem_oracle r).
Definition add_live (object k : Z) (r : router) : router :=
  mk_router (vr_pdrop_stats r) (malloc_blocks r) (fun o => if o =? object then live r o + k else live r o) (cpu_now r) (mem_oracle r).
Definition ask (r : router) : bool * router :=
  match mem_oracle r with
  | [] => (true, r)
  | b :: l => (b, mk_router (vr_pdrop_stats r) (malloc_blocks r) (live r) (cpu_now r) l)
  end.

(** ** Counting memory *)

(** The counter of the object on this CPU, when there is one; nothing comes back for an access
    outside the arrays. *)
Definition count (f : vr_malloc_stats_t -> vr_malloc_stats_t) (object : Z) (r : router) : option router :=
  match malloc_blocks r with
  | None => Some r
  | Some l =>
      b ← zget l (cpu_now r);
      match b with
      | None => Some r
      | Some blk => m ← zget blk object; Some (set_blocks (Some (zset l (cpu_now r) (Some (zset blk object (f m))))) r)
      end
  end.

Definition vr_free_stats (object : Z) (r : router) : option router :=
  count (fun m => mk_ms (ms_size m) (ms_alloc m) (s64 (ms_free m + 1))) object r.

Definition vr_malloc_stats (size object : Z) (r : router) : option router :=
  count (fun m => mk_ms (s64 (ms_size m + size)) (s64 (ms_alloc m + 1)) (ms_free m)) object r.

Definition lh_zalloc (size object : Z) (r : router) : option (bool * router) :=
  let '(ok, r1) := ask r in
  if (ok : bool) then r2 ← vr_malloc_stats size object r1; Some (true, add_live object 1 r2)
  else Some (false, r1).

Definition lh_free (object : Z) (r : router) : option router :=
  r1 ← vr_free_stats object r; Some (add_live object (-1) r1).

Section stats.
Context {ncpu : Cpus}.
(** The sizes of the two responses. *)
Context (drop_req_size mem_req_size : Z).

(** The array of a CPU is assigned after its allocation was counted. *)
Fixpoint alloc_blocks (cpus : list Z) (size total : Z) (r : router) : option (Z * router) :=
  match cpus with
  | [] => Some (total, r)
  | i :: cpus' =>
      '(ok, r1) ← lh_zalloc size VR_MALLOC_OBJECT r;
      l ← malloc_blocks r1;
      let b := if (ok : bool) then Some (replicate (Z.to_nat VR_VROUTER_MAX_OBJECT) ms_zero) else None in
      alloc_blocks cpus' size (u32 (total + size)) (set_blocks (Some (zset l i b)) r1)
  end.

Definition block_size : Z :=
  let size := VR_VROUTER_MAX_OBJECT * 24 in
  if size mod 64 =? 0 then size else size + (64 - size mod 64).

Definition vr_malloc_stats_init (r : router) : option (Z * router) :=
  match malloc_blocks r with
  | Some _ => Some (0, r)
  | None =>
      let size := u32 (vr_num_cpus * 8) in
      '(ok, r1) ← lh_zalloc size VR_MALLOC_OBJECT r;
      if negb ok then Some (- ENOMEM, r1)
      else
        '(total, r2) ← alloc_blocks (seqZ 0 vr_num_cpus) block_size size
                         (set_blocks (Some (replicate (Z.to_nat vr_num_cpus) None)) r1);
        l ← malloc_blocks r2;
        b ← zget l (cpu_now r2);
        blk ← b;
        m ← zget blk VR_MALLOC_OBJECT;
        Some (0, set_blocks (Some (zset l (cpu_now r2)
                   (Some (zset blk VR_MALLOC_OBJECT (mk_ms total (vr_num_cpus + 1) (ms_free m)))))) r2)
  end.

Fixpoint free_blocks (cpus : list Z) (r : router) : option router :=
  match cpus with
  | [] => Some r
  | i :: cpus' =>
      l ← malloc_blocks r;
      b ← zget l i;
      match b with
      | None => free_blocks cpus' r
      | Some _ =>
          r1 ← lh_free VR_MALLOC_OBJECT r;
          l1 ← malloc_blocks r1;
          free_blocks cpus' (set_blocks (Some (zset l1 i None)) r1)
      end
  end.

Definition vr_malloc_stats_exit (r : router) : option router :=
  match malloc_blocks r with
  | None => Some r
  | Some _ =>
      r1 ← free_blocks (seqZ 0 vr_num_cpus) r;
      r2 ← lh_free VR_MALLOC_OBJECT r1;
      Some (set_blocks None r2)
  end.

(** ** Counting drops *)

(** The part of [lh_pfree] that counts. *)
Definition count_drop (cpu reason : Z) (r : router) : option router :=
  l ← vr_pdrop_stats r;
  b ← zget l cpu;
  blk ← b;
  x ← zget blk reason;
  Some (set_pdrop (Some (zset l cpu (Some (zset blk reason (u64 (x + 1)))))) r).

(** Up to the first CPU that has none. *)
Fixpoint free_drops (cpus : list Z) (r : router) : option router :=
  match cpus with
  | [] => Some r
  | i :: cpus' =>
      l ← vr_pdrop_stats r;
      b ← zget l i;
      match b with
      | None => Some r
      | Some _ => r1 ← lh_free VR_DROP_STATS_OBJECT r; free_drops cpus' (set_pdrop (Some (zset l i None)) r1)
      end
  end.

Definition vr_pkt_drop_stats_exit (r : router) : option router :=
  match vr_pdrop_stats r with
  | None => Some r
  | Some _ =>
      r1 ← free_drops (seqZ 0 vr_num_cpus) r;
      r2 ← lh_free VR_DROP_STATS_OBJECT r1;
      Some (set_pdrop None r2)
  end.

Fixpoint alloc_drops (cpus : list Z) (r : router) : option (bool * router) :=
  match cpus with
  | [] => Some (true, r)
  | i :: cpus' =>
      '(ok, r1) ← lh_zalloc (VP_DROP_MAX * 8) VR_DROP_STATS_OBJECT r;
      if (ok : bool) then
        l ← vr_pdrop_stats r1;
        alloc_drops cpus' (set_pdrop (Some (zset l i (Some (replicate (Z.to_nat VP_DROP_MAX) 0)))) r1)
      else Some (false, r1)
  end.

Definition vr_pkt_drop_stats_init (r : router) : option (Z * router) :=
  match vr_pdrop_stats r with
  | Some _ => Some (0, r)
  | None =>
      '(ok, r1) ← lh_zalloc (u32 (8 * vr_num_cpus)) VR_DROP_STATS_OBJECT r;
      if negb ok then r2 ← vr_pkt_drop_stats_exit r1; Some (- ENOMEM, r2)
      else
        '(all, r2) ← alloc_drops (seqZ 0 vr_num_cpus) (set_pdrop (Some (replicate (Z.to_nat vr_num_cpus) None)) r1);
        if (all : bool) then Some (0, r2) else r3 ← vr_pkt_drop_stats_exit r2; Some (- ENOMEM, r3)
  end.

Definition zero_block (b : option (list Z)) : option (list Z) :=
  match b with Some blk => Some (replicate (length blk) 0) | None => None end.

Definition vr_pkt_drop_stats_reset (r : router) : router :=
  match vr_pdrop_stats r with
  | None => r
  | Some l => set_pdrop (Some (zero_block <$> l)) r
  end.

(** ** The module *)

Definition vr_stats_exit (soft_reset : bool) (r : router) : option router :=
  if soft_reset then Some (vr_pkt_drop_stats_reset r)
  else r1 ← vr_pkt_drop_stats_exit r; vr_malloc_stats_exit r1.

Definition vr_stats_init (r : router) : option (Z * router) :=
  '(ret, r1) ← vr_malloc_stats_init r;
  if negb (ret =? 0) then Some (ret, r1) else vr_pkt_drop_stats_init r1.

(** ** Requests *)

(** The counters of a response have the names of those of a block; a block is read as the
    structure, in which they are in the order of the reasons. *)
Record vr_drop_stats := mk_drop_stats {
  vds_discard : Z; vds_pull : Z; vds_invalid_if : Z; vds_arp_no_where_to_go : Z; vds_garp_from_vm : Z;
  vds_invalid_arp : Z; vds_trap_no_if : Z; vds_nowhere_to_go : Z; vds_flow_queue_limit_exceeded : Z;
  vds_flow_no_memory : Z; vds_flow_invalid_protocol : Z; vds_flow_nat_no_rflow : Z; vds_flow_action_drop : Z;
  vds_flow_action_invalid : Z; vds_flow_unusable : Z; vds_flow_table_full : Z; vds_interface_tx_discard : Z;
  vds_interface_drop : Z; vds_duplicated : Z; vds_push : Z; vds_ttl_exceeded : Z; vds_invalid_nh : Z;
  vds_invalid_label : Z; vds_invalid_protocol : Z; vds_interface_rx_discard : Z; vds_invalid_mcast_source : Z;
  vds_head_alloc_fail : Z; vds_head_space_reserve_fail : Z; vds_pcow_fail : Z; vds_mcast_df_bit : Z;
  vds_mcast_clone_fail : Z; vds_no_memory : Z; vds_rewrite_fail : Z; vds_misc : Z; vds_invalid_packet : Z;
  vds_cksum_err : Z; vds_clone_fail : Z; vds_no_fmd : Z; vds_cloned_original : Z; vds_invalid_vnid : Z;
  vds_frag_err : Z; vds_invalid_source : Z; vds_arp_no_route : Z; vds_l2_no_route : Z; vds_fragment_queue_fail : Z;
  vds_vlan_fwd_tx : Z; vds_vlan_fwd_enq : Z; vds_drop_new_flow : Z; vds_flow_evict : Z; vds_trap_original : Z
}.

Definition as_drop_stats (b : list Z) : option vr_drop_stats :=
  match b with
  | [x0; x1; x2; x3; x4; x5; x6; x7; x8; x9; x10; x11; x12; x13; x14; x15; x16; x17; x18; x19; x20; x21; x22; x23;
     x24; x25; x26; x27; x28; x29; x30; x31; x32; x33; x34; x35; x36; x37; x38; x39; x40; x41; x42; x43; x44; x45;
     x46; x47; x48; x49] =>
      Some (mk_drop_stats
        x0 x1 x2 x3 x4 x5 x6 x7 x8 x9 x10 x11 x12 x13 x14 x15 x16 x17 x18 x19 x20 x21 x22 x23 x24 x25 x26 x27 x28 x29
        x30 x31 x32 x33 x34 x35 x36 x37 x38 x39 x40 x41 x42 x43 x44 x45 x46 x47 x48 x49)
  | _ => None
  end.

Definition drop_stats0 : vr_drop_stats :=
  mk_drop_stats 0 0 0 0 0 0 0 0 0 0 0 0 0 0 0 0 0 0 0 0 0 0 0 0 0 0 0 0 0 0 0 0 0 0 0 0 0 0 0 0 0 0 0 0 0 0 0 0 0 0.

Definition vr_drop_stats_add_response (response stats : vr_drop_stats) : vr_drop_stats :=
  mk_drop_stats
    (s64 (vds_discard response + vds_discard stats)) (s64 (vds_pull response + vds_pull stats))
    (s64 (vds_invalid_if response + vds_invalid_if stats))
    (s64 (vds_arp_no_where_to_go response + vds_arp_no_where_to_go stats))
    (s64 (vds_garp_from_vm response + vds_garp_from_vm stats))
    (s64 (vds_invalid_arp response + vds_invalid_arp stats)) (s64 (vds_trap_no_if response + vds_trap_no_if stats))
    (s64 (vds_nowhere_to_go response + vds_nowhere_to_go stats))
    (s64 (vds_flow_queue_limit_exceeded response + vds_flow_queue_limit_exceeded stats))
    (s64 (vds_flow_no_memory response + vds_flow_no_memory stats))
    (s64 (vds_flow_invalid_protocol response + vds_flow_invalid_protocol stats))
    (s64 (vds_flow_nat_no_rflow response + vds_flow_nat_no_rflow stats))
    (s64 (vds_flow_action_drop response + vds_flow_action_drop stats))
    (s64 (vds_flow_action_invalid response + vds_flow_action_invalid stats))
    (s64 (vds_flow_unusable response + vds_flow_unusable stats))
    (s64 (vds_flow_table_full response + vds_flow_table_full stats))
    (s64 (vds_interface_tx_discard response + vds_interface_tx_discard stats))
    (s64 (vds_interface_drop response + vds_interface_drop stats))
    (s64 (vds_duplicated response + vds_duplicated stats)) (s64 (vds_push response + vds_push stats))
    (s64 (vds_ttl_exceeded response + vds_ttl_exceeded stats)) (s64 (vds_invalid_nh response + vds_invalid_nh stats))
    (s64 (vds_invalid_label response + vds_invalid_label stats))
    (s64 (vds_invalid_protocol response + vds_invalid_protocol stats))
    (s64 (vds_interface_rx_discard response + vds_interface_rx_discard stats))
    (s64 (vds_invalid_mcast_source response + vds_invalid_mcast_source stats))
    (s64 (vds_head_alloc_fail response + vds_head_alloc_fail stats))
    (s64 (vds_head_space_reserve_fail response + vds_head_space_reserve_fail stats))
    (s64 (vds_pcow_fail response + vds_pcow_fail stats)) (s64 (vds_mcast_df_bit response + vds_mcast_df_bit stats))
    (s64 (vds_mcast_clone_fail response + vds_mcast_clone_fail stats))
    (s64 (vds_no_memory response + vds_no_memory stats)) (s64 (vds_rewrite_fail response + vds_rewrite_fail stats))
    (s64 (vds_misc response + vds_misc stats)) (s64 (vds_invalid_packet response + vds_invalid_packet stats))
    (s64 (vds_cksum_err response + vds_cksum_err stats)) (s64 (vds_clone_fail response + vds_clone_fail stats))
    (s64 (vds_no_fmd response + vds_no_fmd stats)) (s64 (vds_cloned_original response + vds_cloned_original stats))
    (s64 (vds_invalid_vnid response + vds_invalid_vnid stats)) (s64 (vds_frag_err response + vds_frag_err stats))
    (s64 (vds_invalid_source response + vds_invalid_source stats))
    (s64 (vds_arp_no_route response + vds_arp_no_route stats))
    (s64 (vds_l2_no_route response + vds_l2_no_route stats))
    (s64 (vds_fragment_queue_fail response + vds_fragment_queue_fail stats))
    (s64 (vds_vlan_fwd_tx response + vds_vlan_fwd_tx stats))
    (s64 (vds_vlan_fwd_enq response + vds_vlan_fwd_enq stats))
    (s64 (vds_drop_new_flow response + vds_drop_new_flow stats))
    (s64 (vds_flow_evict response + vds_flow_evict stats))
    (s64 (vds_trap_original response + vds_trap_original stats)).

Definition cpu_drops (cpu : Z) (r : router) : option vr_drop_stats :=
  l ← vr_pdrop_stats r; b ← zget l cpu; blk ← b; as_drop_stats blk.

Fixpoint sum_drops (cpus : list Z) (r : router) (resp : vr_drop_stats) : option vr_drop_stats :=
  match cpus with
  | [] => Some resp
  | cpu :: cpus' => s ← cpu_drops cpu r; sum_drops cpus' r (vr_drop_stats_add_response resp s)
  end.

(** The code and the response that are sent. *)
Definition vr_drop_stats_get (core : Z) (r : router) : option (Z * option vr_drop_stats * router) :=
  '(ok, r1) ← lh_zalloc drop_req_size VR_DROP_STATS_REQ_OBJECT r;
  if negb ok then Some (- ENOMEM, None, r1)
  else
    resp ← (if core =? UINT_MAX then sum_drops (seqZ 0 vr_num_cpus) r1 drop_stats0
            else if core <? vr_num_cpus then s ← cpu_drops core r1; Some (vr_drop_stats_add_response drop_stats0 s)
            else Some drop_stats0);
    r2 ← lh_free VR_DROP_STATS_REQ_OBJECT r1;
    Some (0, Some resp, r2).

(** The response: the totals, and a field for each kind of object that is shown. *)
Record vr_mem_stats_req := mk_mem_stats {
  vms_alloced : Z; vms_freed : Z; vms_assembler_table_object : Z; vms_bridge_mac_object : Z;
  vms_btable_object : Z; vms_build_info_object : Z; vms_defer_object : Z; vms_drop_stats_object : Z;
  vms_drop_stats_req_object : Z; vms_flow_queue_object : Z; vms_flow_req_object : Z;
  vms_flow_req_path_object : Z; vms_flow_hold_stat_object : Z; vms_flow_link_local_object : Z;
  vms_flow_metadata_object : Z; vms_flow_table_info_object : Z; vms_fragment_object : Z;
  vms_fragment_queue_object : Z; vms_fragment_queue_element_object : Z; vms_fragment_scanner_object : Z;
  vms_hpacket_pool_object : Z; vms_htable_object : Z; vms_interface_object : Z;
  vms_interface_fat_flow_config_object : Z; vms_interface_mac_object : Z; vms_interface_req_object : Z;
  vms_interface_req_mac_object : Z; vms_interface_req_name_object : Z; vms_interface_stats_object : Z;
  vms_interface_table_object : Z; vms_interface_vrf_table_object : Z; vms_itable_object : Z;
  vms_malloc_object : Z; vms_message_object : Z; vms_message_response_object : Z;
  vms_message_dump_object : Z; vms_mem_stats_req_object : Z; vms_mirror_object : Z;
  vms_mirror_table_object : Z; vms_mirror_meta_object : Z; vms_mtrie_object : Z; vms_mtrie_bucket_object : Z;
  vms_mtrie_stats_object : Z; vms_mtrie_table_object : Z; vms_network_address_object : Z;
  vms_nexthop_object : Z; vms_nexthop_component_object : Z; vms_nexthop_req_list_object : Z;
  vms_nexthop_req_encap_object : Z; vms_nexthop_req_object : Z; vms_route_table_object : Z;
  vms_route_req_mac_object : Z; vms_timer_object : Z; vms_usock_object : Z; vms_usock_poll_object : Z;
  vms_usock_buf_object : Z; vms_usock_iovec_object : Z; vms_vrouter_req_object : Z; vms_qos_map_object : Z;
  vms_fc_object : Z
}.

Definition mem_stats0 : vr_mem_stats_req :=
  mk_mem_stats 0 0
    0 0 0 0 0 0 0 0 0 0 0 0 0 0 0 0 0 0 0 0 0 0 0 0 0 0 0 0 0 0 0 0 0 0 0 0 0 0 0 0 0 0 0 0 0 0 0 0 0 0 0 0 0
    0 0 0 0 0.

Definition in_use (m : vr_malloc_stats_t) : Z := s64 (ms_alloc m - ms_free m).

(** Each field grows by what is in use of its kind; then the loop over all kinds adds to the
    totals.  A read outside the block gives nothing. *)
Definition add_block (resp : vr_mem_stats_req) (blk : list vr_malloc_stats_t) : option vr_mem_stats_req :=
  ms ← mapM (fun o => zget blk o) (seqZ 0 VR_VROUTER_MAX_OBJECT);
  let bump (field : vr_mem_stats_req -> Z) object :=
    s64 (field resp + in_use (default ms_zero (zget blk object))) in
  Some (mk_mem_stats
    (foldl (fun x m => s64 (x + ms_alloc m)) (vms_alloced resp) ms)
    (foldl (fun x m => s64 (x + ms_free m)) (vms_freed resp) ms)
    (bump vms_assembler_table_object VR_ASSEMBLER_TABLE_OBJECT)
    (bump vms_bridge_mac_object VR_BRIDGE_MAC_OBJECT) (bump vms_btable_object VR_BTABLE_OBJECT)
    (bump vms_build_info_object VR_BUILD_INFO_OBJECT) (bump vms_defer_object VR_DEFER_OBJECT)
    (bump vms_drop_stats_object VR_DROP_STATS_OBJECT)
    (bump vms_drop_stats_req_object VR_DROP_STATS_REQ_OBJECT)
    (bump vms_flow_queue_object VR_FLOW_QUEUE_OBJECT) (bump vms_flow_req_object VR_FLOW_REQ_OBJECT)
    (bump vms_flow_req_path_object VR_FLOW_REQ_PATH_OBJECT)
    (bump vms_flow_hold_stat_object VR_FLOW_HOLD_STAT_OBJECT)
    (bump vms_flow_link_local_object VR_FLOW_LINK_LOCAL_OBJECT)
    (bump vms_flow_metadata_object VR_FLOW_METADATA_OBJECT)
    (bump vms_flow_table_info_object VR_FLOW_TABLE_INFO_OBJECT) (bump vms_fragment_object VR_FRAGMENT_OBJECT)
    (bump vms_fragment_queue_object VR_FRAGMENT_QUEUE_OBJECT)
    (bump vms_fragment_queue_element_object VR_FRAGMENT_QUEUE_ELEMENT_OBJECT)
    (bump vms_fragment_scanner_object VR_FRAGMENT_SCANNER_OBJECT)
    (bump vms_hpacket_pool_object VR_HPACKET_POOL_OBJECT) (bump vms_htable_object VR_HTABLE_OBJECT)
    (bump vms_interface_object VR_INTERFACE_OBJECT)
    (bump vms_interface_fat_flow_config_object VR_INTERFACE_FAT_FLOW_CONFIG_OBJECT)
    (bump vms_interface_mac_object VR_INTERFACE_MAC_OBJECT)
    (bump vms_interface_req_object VR_INTERFACE_REQ_OBJECT)
    (bump vms_interface_req_mac_object VR_INTERFACE_REQ_MAC_OBJECT)
    (bump vms_interface_req_name_object VR_INTERFACE_REQ_NAME_OBJECT)
    (bump vms_interface_stats_object VR_INTERFACE_STATS_OBJECT)
    (bump vms_interface_table_object VR_INTERFACE_TABLE_OBJECT)
    (bump vms_interface_vrf_table_object VR_INTERFACE_VRF_TABLE_OBJECT)
    (bump vms_itable_object VR_ITABLE_OBJECT) (bump vms_malloc_object VR_MALLOC_OBJECT)
    (bump vms_message_object VR_MESSAGE_OBJECT) (bump vms_message_response_object VR_MESSAGE_RESPONSE_OBJECT)
    (bump vms_message_dump_object VR_MESSAGE_DUMP_OBJECT)
    (bump vms_mem_stats_req_object VR_MEM_STATS_REQ_OBJECT) (bump vms_mirror_object VR_MIRROR_OBJECT)
    (bump vms_mirror_table_object VR_MIRROR_TABLE_OBJECT) (bump vms_mirror_meta_object VR_MIRROR_META_OBJECT)
    (bump vms_mtrie_object VR_MTRIE_OBJECT) (bump vms_mtrie_bucket_object VR_MTRIE_BUCKET_OBJECT)
    (bump vms_mtrie_stats_object VR_MTRIE_STATS_OBJECT) (bump vms_mtrie_table_object VR_MTRIE_TABLE_OBJECT)
    (bump vms_network_address_object VR_NETWORK_ADDRESS_OBJECT) (bump vms_nexthop_object VR_NEXTHOP_OBJECT)
    (bump vms_nexthop_component_object VR_NEXTHOP_COMPONENT_OBJECT)
    (bump vms_nexthop_req_list_object VR_NEXTHOP_REQ_LIST_OBJECT)
    (bump vms_nexthop_req_encap_object VR_NEXTHOP_REQ_ENCAP_OBJECT)
    (bump vms_nexthop_req_object VR_NEXTHOP_REQ_OBJECT) (bump vms_route_table_object VR_ROUTE_TABLE_OBJECT)
    (bump vms_route_req_mac_object VR_ROUTE_REQ_MAC_OBJECT) (bump vms_timer_object VR_TIMER_OBJECT)
    (bump vms_usock_object VR_USOCK_OBJECT) (bump vms_usock_poll_object VR_USOCK_POLL_OBJECT)
    (bump vms_usock_buf_object VR_USOCK_BUF_OBJECT) (bump vms_usock_iovec_object VR_USOCK_IOVEC_OBJECT)
    (bump vms_vrouter_req_object VR_VROUTER_REQ_OBJECT) (bump vms_qos_map_object VR_QOS_MAP_OBJECT)
    (bump vms_fc_object VR_FC_OBJECT)).

Fixpoint sum_blocks (cpus : list Z) (l : list (option (list vr_malloc_stats_t))) (resp : vr_mem_stats_req)
    : option vr_mem_stats_req :=
  match cpus with
  | [] => Some resp
  | cpu :: cpus' => b ← zget l cpu; blk ← b; resp1 ← add_block resp blk; sum_blocks cpus' l resp1
  end.

Definition vr_mem_stats_get (r : router) : option (Z * option vr_mem_stats_req * router) :=
  '(ok, r1) ← lh_zalloc mem_req_size VR_MEM_STATS_REQ_OBJECT r;
  if negb ok then Some (- ENOMEM, None, r1)
  else
    l ← malloc_blocks r1;
    resp ← sum_blocks (seqZ 0 vr_num_cpus) l mem_stats0;
    r2 ← lh_free VR_MEM_STATS_REQ_OBJECT r1;
    Some (0, Some resp, r2).

(** The codes that are sent: another operation than a get is answered twice. *)
Definition vr_drop_stats_req_process (op : sandesh_op) (vds_core : Z) (r : router)
    : option (list Z * option vr_drop_stats * router) :=
  '(ret, resp, r1) ← vr_drop_stats_get (u32 (vds_core - 1)) r;
  Some (match op with SANDESH_OP_GET => [ret] | _ => [- EOPNOTSUPP; ret] end, resp, r1).

Definition vr_mem_stats_req_process (op : sandesh_op) (r : router) : option (list Z * option vr_mem_stats_req * router) :=
  '(ret, resp, r1) ← vr_mem_stats_get r;
  Some (match op with SANDESH_OP_GET => [ret] | _ => [- EOPNOTSUPP; ret] end, resp, r1).

End stats.
End Stats.
