(* ===== verification/StatsProofs.v ===== *)
(** * Statistics: the sums are right

    What the counters of memory show is the number of blocks that are not freed, whatever CPUs
    took and freed them; what the counters of drops show is the number of packets dropped since
    the last reset; and tear-down gives back what set-up took. *)

From stdpp Require Import gmap.
From S2P Require Import Prelude Bits Queue Message VifState Stats.

Module StatsProofs.
Import VifState(Cpus, vr_num_cpus).
Import Stats.

(** ** Sums over CPUs *)

Section tot.
Context {A : Type}.
Implicit Types (f : A -> Z) (l : list (option A)).

Definition tot f l : Z := foldr (fun b x => from_option f 0 b + x) 0 l.

Lemma tot_app f l k : tot f (l ++ k) = tot f l + tot f k.
Proof. unfold tot. induction l as [|b l IH]; [done|]. cbn [foldr app]. rewrite IH. lia. Qed.

Lemma tot_set f l i b b' : zget l i = Some b -> tot f (zset l i b') = tot f l - from_option f 0 b + from_option f 0 b'.
Proof.
  unfold zget, zset. case_decide as Hi; [|done]. generalize (Z.to_nat i) as k. intros k Hk.
  rewrite insert_take_drop by (by eapply lookup_lt_Some).
  assert (Hl : tot f l = tot f (take k l ++ b :: drop (S k) l)) by (by rewrite take_drop_middle). rewrite Hl, !tot_app. unfold tot. cbn [foldr]. lia.
Qed.

Lemma tot_zero f l : (forall i b, zget l i = Some b -> from_option f 0 b = 0) -> tot f l = 0.
Proof.
  intros Hz. unfold tot. induction l as [|b l IH]; [done|]. cbn [foldr]. rewrite IH.
  - rewrite (Hz 0 b) by done. done.
  - intros i c Hc. apply (Hz (i + 1)). unfold zget in *. case_decide; [|done]. rewrite decide_True by lia.
    by replace (Z.to_nat (i + 1)) with (S (Z.to_nat i)) by lia.
Qed.

(** The fold that the source has, in 64 bits. *)
Lemma fold_s64 {B} (g : B -> Z) (l : list B) (x : Z) : foldl (fun x m => s64 (x + g m)) x l = match l with [] => x | _ => s64 (x + foldr (fun m y => g m + y) 0 l) end.
Proof.
  revert x. induction l as [|m l IH]; intros x; [done|]. cbn [foldl foldr]. rewrite IH. destruct l as [|m' l].
  - cbn. f_equal. lia.
  - rewrite s64_add. f_equal. cbn. lia.
Qed.

End tot.

Lemma s64_ex x : exists k, s64 x = x + k * 18446744073709551616.
Proof.
  exists (- ((x + 9223372036854775808) / 18446744073709551616)). unfold s64.
  pose proof (Z.div_mod (x + 9223372036854775808) 18446744073709551616). lia.
Qed.

Lemma s64_shift x k : s64 (x + k * 18446744073709551616) = s64 x.
Proof. apply s64_eq. apply Z_mod_plus_full. Qed.

(** ** Memory *)

Definition uses (o : Z) (blk : list vr_malloc_stats_t) : Z := from_option (fun m => ms_alloc m - ms_free m) 0 (zget blk o).

Lemma uses_set o object blk m m' : zget blk object = Some m ->
  uses o (zset blk object m') = if decide (o = object) then ms_alloc m' - ms_free m' else uses o blk.
Proof.
  intros Hm. unfold uses. destruct (decide (o = object)) as [->|Hne].
  - by rewrite zget_zset_eq by (by eapply zget_range).
  - by rewrite zget_zset_ne.
Qed.

Section mem.
Context {ncpu : Cpus}.
Implicit Types (r : router).

Definition object_ok (o : Z) : Prop := 0 <= o < VR_VROUTER_MAX_OBJECT.

(** An array with a place for each CPU, where every block has room for every object. *)
Record shape (l : list (option (list vr_malloc_stats_t))) : Prop := {
  sh_len : zlen l = vr_num_cpus;
  sh_blk : forall i blk, zget l i = Some (Some blk) -> zlen blk = VR_VROUTER_MAX_OBJECT
}.

Definition cpu_ok r : Prop := 0 <= cpu_now r < vr_num_cpus.

Lemma shape_set l i b : shape l -> (forall blk, b = Some blk -> zlen blk = VR_VROUTER_MAX_OBJECT) -> shape (zset l i b).
Proof.
  intros [Hl Hb] Hn. split; [by rewrite zlen_zset|]. intros j blk Hj. destruct (decide (j = i)) as [->|Hne].
  - pose proof (zget_range _ _ _ Hj) as Hr. rewrite zlen_zset in Hr. rewrite zget_zset_eq in Hj by done. injection Hj as ->. by apply Hn.
  - rewrite zget_zset_ne in Hj by done. by apply (Hb j).
Qed.

(** Counting never fails, and changes one counter of the CPU that runs. *)
Lemma count_spec f object r l : malloc_blocks r = Some l -> shape l -> cpu_ok r -> object_ok object ->
  exists l', count f object r = Some (set_blocks (Some l') r) /\ shape l' /\
    (forall i, i <> cpu_now r -> zget l' i = zget l i) /\
    match zget l (cpu_now r) with
    | Some (Some blk) => exists m, zget blk object = Some m /\ zget l' (cpu_now r) = Some (Some (zset blk object (f m))) /\
        forall g, tot g l' = tot g l - g blk + g (zset blk object (f m))
    | _ => l' = l
    end.
Proof.
  intros Hl Hs Hc Ho. unfold count. rewrite Hl.
  destruct (zget_is_Some l (cpu_now r)) as [b Hb]; [by rewrite (sh_len _ Hs)|]. rewrite Hb. cbn.
  destruct b as [blk|]; [|exists l; split; [by destruct r; cbn in *; subst|done]].
  destruct (zget_is_Some blk object) as [m Hm]; [by rewrite (sh_blk _ Hs _ _ Hb)|]. rewrite Hm. cbn.
  eexists. split; [done|]. split; [|split].
  - apply shape_set; [done|]. intros blk' [= <-]. rewrite zlen_zset. by apply (sh_blk _ Hs (cpu_now r)).
  - intros i Hi. by apply zget_zset_ne.
  - exists m. split; [done|]. split; [by rewrite zget_zset_eq by (by eapply zget_range)|]. intros g.
    by rewrite (tot_set g l _ (Some blk)).
Qed.

(** The counters are exact: every CPU has a block, and the sums are the blocks that live. *)
Record exact r : Prop := {
  ex_cpu : cpu_ok r;
  ex_blocks : exists l, malloc_blocks r = Some l /\ shape l /\ (forall i, 0 <= i < vr_num_cpus -> exists blk, zget l i = Some (Some blk)) /\
    forall o, object_ok o -> s64 (tot (uses o) l) = s64 (live r o)
}.

(** One counter moves by [k]. *)
Lemma count_exact f object k r : exact r -> object_ok object ->
  (forall m, exists j, ms_alloc (f m) - ms_free (f m) = ms_alloc m - ms_free m + k + j * 18446744073709551616) ->
  exists r', count f object r = Some r' /\ exact (add_live object k r') /\ vr_pdrop_stats r' = vr_pdrop_stats r /\ live r' = live r /\
    mem_oracle r' = mem_oracle r /\ cpu_now r' = cpu_now r.
Proof.
  intros [Hc (l & Hl & Hs & Hp & He)] Ho Hf. destruct (count_spec f object r l Hl Hs Hc Ho) as (l' & Hr & Hs' & Ho' & Hx).
  destruct (Hp (cpu_now r) Hc) as [blk Hb]. rewrite Hb in Hx. destruct Hx as (m & Hm & Hb' & Ht).
  eexists. split; [exact Hr|]. split; [|done]. split; [done|]. exists l'. split; [done|]. split; [done|]. split.
  - intros i Hi. destruct (decide (i = cpu_now r)) as [->|Hne]; [by eauto|]. rewrite Ho' by done. by apply Hp.
  - intros o Hoo. rewrite Ht, (uses_set o object blk m) by done. cbn. destruct (decide (o = object)) as [->|Hne].
    + rewrite Z.eqb_refl. assert (Hu : uses object blk = ms_alloc m - ms_free m) by (unfold uses; by rewrite Hm). rewrite Hu.
      destruct (Hf m) as [j ->].
      replace (tot (uses object) l - (ms_alloc m - ms_free m) + (ms_alloc m - ms_free m + k + j * 18446744073709551616))
        with (tot (uses object) l + k + j * 18446744073709551616) by lia.
      rewrite s64_shift, <- s64_add, (He object Ho), s64_add. done.
    + apply Z.eqb_neq in Hne. rewrite Hne. replace (tot (uses o) l - uses o blk + uses o blk) with (tot (uses o) l) by lia. by apply He.
Qed.

Lemma ask_exact r : exact r -> exact (ask r).2.
Proof.
  intros [Hc (l & Hl & Hs)]. unfold ask. destruct (mem_oracle r); cbn; (split; [done|]; by exists l).
Qed.

(** What an allocation and a release leave as it was. *)
Record same_but_live r r' : Prop := {
  sb_pdrop : vr_pdrop_stats r' = vr_pdrop_stats r;
  sb_cpu : cpu_now r' = cpu_now r;
  sb_oracle : mem_oracle r = [] -> mem_oracle r' = []
}.

#[export] Instance same_but_live_preorder : PreOrder same_but_live.
Proof.
  split; [by intros r|]. intros r1 r2 r3 [] []. split; try congruence. auto.
Qed.

Lemma zalloc_exact size object r : exact r -> object_ok object ->
  exists ok r', lh_zalloc size object r = Some (ok, r') /\ exact r' /\ same_but_live r r' /\ (mem_oracle r = [] -> ok = true) /\
    forall o, live r' o = if ok && (o =? object) then live r o + 1 else live r o.
Proof.
  intros He Ho. pose proof (ask_exact r He) as Ha.
  assert (Hk : same_but_live r (ask r).2 /\ live (ask r).2 = live r /\ (mem_oracle r = [] -> (ask r).1 = true)).
  { unfold ask. destruct (mem_oracle r) eqn:E; cbn; [done|]. split; [|done]. split; cbn; [done|done|congruence]. }
  destruct Hk as (Hs & Hlv & Hok). unfold lh_zalloc. destruct (ask r) as [ok r1]. cbn in *. destruct ok.
  - destruct (count_exact (fun m => mk_ms (s64 (ms_size m + size)) (s64 (ms_alloc m + 1)) (ms_free m)) object 1 r1 Ha Ho)
      as (r2 & Hr & He2 & Hp & Hl2 & Hm & Hc2).
    { intros m. cbn. destruct (s64_ex (ms_alloc m + 1)) as [j ->]. exists j. lia. }
    unfold vr_malloc_stats. rewrite Hr. cbn. eexists true, _. split; [done|]. split; [done|]. split; [|split; [done|]].
    + destruct Hs. split; cbn; rewrite ?Hp, ?Hm, ?Hc2; done.
    + intros o. cbn. rewrite Hl2, Hlv. by destruct (o =? object).
  - eexists false, _. split; [done|]. split; [done|]. split; [done|]. split; [done|]. intros o. by rewrite Hlv.
Qed.

Lemma free_exact object r : exact r -> object_ok object ->
  exists r', lh_free object r = Some r' /\ exact r' /\ same_but_live r r' /\
    forall o, live r' o = if o =? object then live r o - 1 else live r o.
Proof.
  intros He Ho.
  destruct (count_exact (fun m => mk_ms (ms_size m) (ms_alloc m) (s64 (ms_free m + 1))) object (-1) r He Ho) as (r2 & Hr & He2 & Hp & Hl2 & Hm & Hc2).
  { intros m. cbn. destruct (s64_ex (ms_free m + 1)) as [j ->]. exists (- j). lia. }
  unfold lh_free, vr_free_stats. rewrite Hr. cbn. eexists. split; [done|]. split; [done|]. split.
  - split; cbn; [done|done|congruence].
  - intros o. cbn. rewrite Hl2. by destruct (o =? object).
Qed.

(** ** The request for the statistics of memory *)

Lemma mapM_total {A B} (f : A -> option B) (g : A -> B) l : (forall x, x ∈ l -> f x = Some (g x)) -> mapM f l = Some (g <$> l).
Proof.
  induction l as [|x l IH]; intros Hf; [done|]. cbn. rewrite (Hf x) by (by left). cbn. rewrite IH; [done|]. intros y Hy. apply Hf. by right.
Qed.

(** The sum over all objects. *)
Definition sumo (g : Z -> Z) : Z := foldr (fun o x => g o + x) 0 (seqZ 0 VR_VROUTER_MAX_OBJECT).

Lemma sum_ext (f g : Z -> Z) l : (forall o, o ∈ l -> f o = g o) -> foldr (fun o x => f o + x) 0 l = foldr (fun o x => g o + x) 0 l.
Proof. induction l as [|o l IH]; intros Hf; [done|]. cbn. rewrite IH by (intros; apply Hf; by right). by rewrite (Hf o) by (by left). Qed.

Lemma sum_add (f g : Z -> Z) l : foldr (fun o x => (f o + g o) + x) 0 l = foldr (fun o x => f o + x) 0 l + foldr (fun o x => g o + x) 0 l.
Proof. induction l as [|o l IH]; [done|]. cbn. rewrite IH. lia. Qed.

Lemma sum_s64 (f g : Z -> Z) l : (forall o, o ∈ l -> s64 (f o) = s64 (g o)) ->
  s64 (foldr (fun o x => f o + x) 0 l) = s64 (foldr (fun o x => g o + x) 0 l).
Proof.
  induction l as [|o l IH]; intros Hf; [done|]. cbn. rewrite <- s64_add, (Hf o) by (by left). rewrite s64_add.
  rewrite <- s64_add_r, IH by (intros; apply Hf; by right). by rewrite s64_add_r.
Qed.

(** The fields of the response, each with the kind of object that its name says. *)
Definition mem_fields : list ((vr_mem_stats_req -> Z) * Z) :=
  [(vms_assembler_table_object, VR_ASSEMBLER_TABLE_OBJECT); (vms_bridge_mac_object, VR_BRIDGE_MAC_OBJECT);
   (vms_btable_object, VR_BTABLE_OBJECT); (vms_build_info_object, VR_BUILD_INFO_OBJECT);
   (vms_defer_object, VR_DEFER_OBJECT); (vms_drop_stats_object, VR_DROP_STATS_OBJECT);
   (vms_drop_stats_req_object, VR_DROP_STATS_REQ_OBJECT); (vms_flow_queue_object, VR_FLOW_QUEUE_OBJECT);
   (vms_flow_req_object, VR_FLOW_REQ_OBJECT); (vms_flow_req_path_object, VR_FLOW_REQ_PATH_OBJECT);
   (vms_flow_hold_stat_object, VR_FLOW_HOLD_STAT_OBJECT);
   (vms_flow_link_local_object, VR_FLOW_LINK_LOCAL_OBJECT);
   (vms_flow_metadata_object, VR_FLOW_METADATA_OBJECT);
   (vms_flow_table_info_object, VR_FLOW_TABLE_INFO_OBJECT); (vms_fragment_object, VR_FRAGMENT_OBJECT);
   (vms_fragment_queue_object, VR_FRAGMENT_QUEUE_OBJECT);
   (vms_fragment_queue_element_object, VR_FRAGMENT_QUEUE_ELEMENT_OBJECT);
   (vms_fragment_scanner_object, VR_FRAGMENT_SCANNER_OBJECT);
   (vms_hpacket_pool_object, VR_HPACKET_POOL_OBJECT); (vms_htable_object, VR_HTABLE_OBJECT);
   (vms_interface_object, VR_INTERFACE_OBJECT);
   (vms_interface_fat_flow_config_object, VR_INTERFACE_FAT_FLOW_CONFIG_OBJECT);
   (vms_interface_mac_object, VR_INTERFACE_MAC_OBJECT); (vms_interface_req_object, VR_INTERFACE_REQ_OBJECT);
   (vms_interface_req_mac_object, VR_INTERFACE_REQ_MAC_OBJECT);
   (vms_interface_req_name_object, VR_INTERFACE_REQ_NAME_OBJECT);
   (vms_interface_stats_object, VR_INTERFACE_STATS_OBJECT);
   (vms_interface_table_object, VR_INTERFACE_TABLE_OBJECT);
   (vms_interface_vrf_table_object, VR_INTERFACE_VRF_TABLE_OBJECT); (vms_itable_object, VR_ITABLE_OBJECT);
   (vms_malloc_object, VR_MALLOC_OBJECT); (vms_message_object, VR_MESSAGE_OBJECT);
   (vms_message_response_object, VR_MESSAGE_RESPONSE_OBJECT);
   (vms_message_dump_object, VR_MESSAGE_DUMP_OBJECT); (vms_mem_stats_req_object, VR_MEM_STATS_REQ_OBJECT);
   (vms_mirror_object, VR_MIRROR_OBJECT); (vms_mirror_table_object, VR_MIRROR_TABLE_OBJECT);
   (vms_mirror_meta_object, VR_MIRROR_META_OBJECT); (vms_mtrie_object, VR_MTRIE_OBJECT);
   (vms_mtrie_bucket_object, VR_MTRIE_BUCKET_OBJECT); (vms_mtrie_stats_object, VR_MTRIE_STATS_OBJECT);
   (vms_mtrie_table_object, VR_MTRIE_TABLE_OBJECT); (vms_network_address_object, VR_NETWORK_ADDRESS_OBJECT);
   (vms_nexthop_object, VR_NEXTHOP_OBJECT); (vms_nexthop_component_object, VR_NEXTHOP_COMPONENT_OBJECT);
   (vms_nexthop_req_list_object, VR_NEXTHOP_REQ_LIST_OBJECT);
   (vms_nexthop_req_encap_object, VR_NEXTHOP_REQ_ENCAP_OBJECT);
   (vms_nexthop_req_object, VR_NEXTHOP_REQ_OBJECT); (vms_route_table_object, VR_ROUTE_TABLE_OBJECT);
   (vms_route_req_mac_object, VR_ROUTE_REQ_MAC_OBJECT); (vms_timer_object, VR_TIMER_OBJECT);
   (vms_usock_object, VR_USOCK_OBJECT); (vms_usock_poll_object, VR_USOCK_POLL_OBJECT);
   (vms_usock_buf_object, VR_USOCK_BUF_OBJECT); (vms_usock_iovec_object, VR_USOCK_IOVEC_OBJECT);
   (vms_vrouter_req_object, VR_VROUTER_REQ_OBJECT); (vms_qos_map_object, VR_QOS_MAP_OBJECT);
   (vms_fc_object, VR_FC_OBJECT)].

Lemma fields_ok fo : fo ∈ mem_fields -> object_ok fo.2.
Proof.
  assert (H : Forall object_ok mem_fields.*2) by (apply (bool_decide_eq_true_1 (Forall object_ok mem_fields.*2)); vm_compute; reflexivity).
  rewrite Forall_forall in H. intros Hfo. by apply H, list_elem_of_fmap_2.
Qed.

(** Every field of [x] has the value that [g] gives its kind. *)
Definition fields_are (g : Z -> Z) (x : vr_mem_stats_req) : Prop := Forall (fun fo => fo.1 x = g fo.2) mem_fields.

Lemma fields_ext g h x : (forall o, object_ok o -> g o = h o) -> fields_are g x -> fields_are h x.
Proof.
  unfold fields_are. rewrite !Forall_forall. intros Hgh Hx fo Hfo. rewrite <- Hgh by (by apply fields_ok). by apply Hx.
Qed.

Definition entry (blk : list vr_malloc_stats_t) (o : Z) : vr_malloc_stats_t := default ms_zero (zget blk o).

Lemma entry_get blk o : zlen blk = VR_VROUTER_MAX_OBJECT -> object_ok o -> zget blk o = Some (entry blk o).
Proof. intros Hl Ho. unfold entry. destruct (zget_is_Some blk o) as [m Hm]; [by rewrite Hl|]. by rewrite Hm. Qed.

Lemma entry_uses blk o : uses o blk = ms_alloc (entry blk o) - ms_free (entry blk o).
Proof. unfold uses, entry. by destruct (zget blk o). Qed.

Lemma add_block_spec x blk X : zlen blk = VR_VROUTER_MAX_OBJECT -> fields_are X x ->
  exists x', add_block x blk = Some x' /\ fields_are (fun o => s64 (X o + uses o blk)) x' /\
    s64 (vms_alloced x' - vms_freed x') = s64 (vms_alloced x - vms_freed x + sumo (fun o => uses o blk)).
Proof.
  intros Hl HX. unfold add_block.
  rewrite (mapM_total _ (entry blk)) by (intros o Ho; apply elem_of_seqZ in Ho; by apply entry_get). cbn -[seqZ VR_VROUTER_MAX_OBJECT].
  eexists. split; [done|]. cbn -[seqZ VR_VROUTER_MAX_OBJECT]. split.
  - assert (Hb : forall f o, f x = X o -> s64 (f x + in_use (default ms_zero (zget blk o))) = s64 (X o + uses o blk)).
    { intros f o ->. unfold in_use. rewrite s64_add_r. f_equal. by rewrite entry_uses. }
    unfold fields_are, mem_fields in *. apply Forall_fold_right in HX. cbn [foldr fst snd] in HX.
    repeat match type of HX with _ /\ _ => let H1 := fresh in destruct HX as [H1 HX] end.
    repeat (constructor; [by apply Hb|]). constructor.
  - rewrite !fold_s64. assert (Hn : exists o l, seqZ 0 VR_VROUTER_MAX_OBJECT = o :: l) by (by eexists _, _).
    destruct Hn as (o & l & Hn). unfold sumo. rewrite Hn. cbn [fmap list_fmap]. fold (fmap (entry blk) l).
    rewrite s64_sub. apply s64_eq. rewrite Zminus_mod, s64_mod, <- Zminus_mod. f_equal.
    assert (Hf : forall (g : vr_malloc_stats_t -> Z) k, foldr (fun m y => g m + y) 0 (entry blk <$> k) = foldr (fun o y => g (entry blk o) + y) 0 k)
      by (intros g k; induction k as [|? k IH]; [done|]; cbn; by rewrite IH).
    change (entry blk o :: (entry blk <$> l)) with (entry blk <$> (o :: l)). rewrite !Hf.
    rewrite (sum_ext (fun o => uses o blk) (fun o => ms_alloc (entry blk o) + - ms_free (entry blk o))) by (intros; rewrite entry_uses; lia).
    rewrite sum_add. assert (Hneg : forall k, foldr (fun o x => - ms_free (entry blk o) + x) 0 k = - foldr (fun o x => ms_free (entry blk o) + x) 0 k)
      by (intros k; induction k as [|? k IH]; [done|]; cbn; rewrite IH; lia).
    rewrite Hneg. lia.
Qed.

Lemma seqZ_step {A} (pre : list A) b suf : seqZ (zlen pre) (zlen (b :: suf)) = zlen pre :: seqZ (zlen (pre ++ [b])) (zlen suf).
Proof. rewrite seqZ_cons by (unfold zlen; cbn; lia). f_equal. f_equal; unfold zlen; rewrite ?length_app; cbn; lia. Qed.

Lemma zget_mid {A} (pre : list A) b suf : zget (pre ++ b :: suf) (zlen pre) = Some b.
Proof. unfold zget, zlen. rewrite decide_True by lia. rewrite Nat2Z.id, lookup_app_r, Nat.sub_diag by done. done. Qed.

Lemma sumo_zero g : (forall o, g o = 0) -> sumo g = 0.
Proof.
  intros Hg. unfold sumo. generalize (seqZ 0 VR_VROUTER_MAX_OBJECT). intros k. induction k as [|o k IH]; [done|]. cbn. rewrite IH, Hg. done.
Qed.

Lemma sum_blocks_spec l : shape l -> (forall i, 0 <= i < vr_num_cpus -> exists blk, zget l i = Some (Some blk)) ->
  forall suf pre x X, l = pre ++ suf -> fields_are (fun o => s64 (X o)) x ->
  exists x', sum_blocks (seqZ (zlen pre) (zlen suf)) l x = Some x' /\
    fields_are (fun o => s64 (X o + tot (uses o) suf)) x' /\
    s64 (vms_alloced x' - vms_freed x') = s64 (vms_alloced x - vms_freed x + sumo (fun o => tot (uses o) suf)).
Proof.
  intros Hs Hp. induction suf as [|b suf IH]; intros pre x X Hl HX.
  - exists x. split; [done|]. split.
    + eapply fields_ext; [|exact HX]. intros o _. apply (f_equal s64). unfold tot. cbn. lia.
    + apply (f_equal s64). rewrite sumo_zero by done. lia.
  - rewrite seqZ_step. cbn [sum_blocks]. destruct (Hp (zlen pre)) as [blk Hb].
    { rewrite <- (sh_len _ Hs), Hl. unfold zlen. rewrite length_app. cbn. lia. }
    assert (Hb' : b = Some blk) by (rewrite Hl, zget_mid in Hb; congruence). subst b. rewrite Hb. cbn [mbind option_bind].
    destruct (add_block_spec x blk _ (sh_blk _ Hs _ _ Hb) HX) as (x1 & -> & HX1 & Hd1). cbn [mbind option_bind].
    destruct (IH (pre ++ [Some blk]) x1 (fun o => X o + uses o blk)) as (x' & Hsum & HX' & Hd).
    { by rewrite <- app_assoc. }
    { eapply fields_ext; [|exact HX1]. intros o _. apply s64_add. }
    exists x'. split; [exact Hsum|]. split.
    + eapply fields_ext; [|exact HX']. intros o _. apply (f_equal s64). unfold tot. cbn [foldr from_option]. lia.
    + rewrite Hd, <- s64_add, Hd1, s64_add. apply (f_equal s64). unfold sumo.
      rewrite (sum_ext (fun o => tot (uses o) (Some blk :: suf)) (fun o => uses o blk + tot (uses o) suf)) by (intros; unfold tot; cbn; lia).
      rewrite sum_add. lia.
Qed.

(** The answer: for every kind that has a field the blocks that live, and the difference of the
    totals is the number of all blocks. *)
Definition shows_memory (lv : Z -> Z) (x : vr_mem_stats_req) : Prop :=
  fields_are (fun o => s64 (lv o)) x /\ s64 (vms_alloced x - vms_freed x) = s64 (sumo lv).

Lemma mem_get_spec size r : exact r ->
  exists ret resp r', vr_mem_stats_get size r = Some (ret, resp, r') /\ exact r' /\ same_but_live r r' /\ (forall o, live r' o = live r o) /\
    ((ret = - ENOMEM /\ resp = None /\ mem_oracle r <> []) \/
     exists x, ret = 0 /\ resp = Some x /\ shows_memory (fun o => if o =? VR_MEM_STATS_REQ_OBJECT then live r o + 1 else live r o) x).
Proof.
  intros He. unfold vr_mem_stats_get.
  destruct (zalloc_exact size VR_MEM_STATS_REQ_OBJECT r He ltac:(done)) as (ok & r1 & -> & He1 & S1 & Hok & L1). cbn [mbind option_bind].
  destruct ok; cbn [negb].
  2: { exists (- ENOMEM), None, r1. split; [done|]. split; [done|]. split; [done|]. split; [by intros o; rewrite L1|]. left.
       split; [done|]. split; [done|]. intros Hm. by specialize (Hok Hm). }
  destruct He1 as [Hc1 (l & Hl & Hs & Hp & Hx)]. rewrite Hl. cbn [mbind option_bind].
  destruct (sum_blocks_spec l Hs Hp l [] mem_stats0 (fun _ => 0)) as (x & Hsum & HX & Hd); [done|by repeat constructor|].
  assert (Hq : seqZ 0 vr_num_cpus = seqZ (zlen ([] : list (option (list vr_malloc_stats_t)))) (zlen l)) by (by rewrite (sh_len _ Hs)).
  rewrite Hq, Hsum. cbn [mbind option_bind].
  assert (He1 : exact r1) by (split; [done|]; by exists l).
  destruct (free_exact VR_MEM_STATS_REQ_OBJECT r1 He1 ltac:(done)) as (r2 & -> & He2 & S2 & L2). cbn [mbind option_bind].
  exists 0, (Some x), r2. split; [done|]. split; [done|]. split; [by transitivity r1|]. split.
  { intros o. rewrite L2, L1. cbn [andb]. destruct (o =? VR_MEM_STATS_REQ_OBJECT); lia. }
  right. exists x. split; [done|]. split; [done|].
  assert (Hlv : forall o, object_ok o -> s64 (tot (uses o) l) = s64 (if o =? VR_MEM_STATS_REQ_OBJECT then live r o + 1 else live r o)).
  { intros o Ho. rewrite Hx by done. by rewrite L1. }
  split.
  - eapply fields_ext; [|exact HX]. intros o Ho. cbn [Z.add]. by apply Hlv.
  - rewrite Hd. cbn [vms_alloced vms_freed]. rewrite Z.sub_diag, Z.add_0_l. apply sum_s64. intros o Ho. apply elem_of_seqZ in Ho. by apply Hlv.
Qed.

(** ** Drops *)

(** The field of a response for each reason. *)
Definition by_reason : list (Z * (vr_drop_stats -> Z)) :=
  [(VP_DROP_DISCARD, vds_discard); (VP_DROP_PULL, vds_pull); (VP_DROP_INVALID_IF, vds_invalid_if);
   (VP_DROP_ARP_NO_WHERE_TO_GO, vds_arp_no_where_to_go); (VP_DROP_GARP_FROM_VM, vds_garp_from_vm);
   (VP_DROP_INVALID_ARP, vds_invalid_arp); (VP_DROP_TRAP_NO_IF, vds_trap_no_if);
   (VP_DROP_NOWHERE_TO_GO, vds_nowhere_to_go); (VP_DROP_FLOW_QUEUE_LIMIT_EXCEEDED, vds_flow_queue_limit_exceeded);
   (VP_DROP_FLOW_NO_MEMORY, vds_flow_no_memory); (VP_DROP_FLOW_INVALID_PROTOCOL, vds_flow_invalid_protocol);
   (VP_DROP_FLOW_NAT_NO_RFLOW, vds_flow_nat_no_rflow); (VP_DROP_FLOW_ACTION_DROP, vds_flow_action_drop);
   (VP_DROP_FLOW_ACTION_INVALID, vds_flow_action_invalid); (VP_DROP_FLOW_UNUSABLE, vds_flow_unusable);
   (VP_DROP_FLOW_TABLE_FULL, vds_flow_table_full); (VP_DROP_INTERFACE_TX_DISCARD, vds_interface_tx_discard);
   (VP_DROP_INTERFACE_DROP, vds_interface_drop); (VP_DROP_DUPLICATED, vds_duplicated); (VP_DROP_PUSH, vds_push);
   (VP_DROP_TTL_EXCEEDED, vds_ttl_exceeded); (VP_DROP_INVALID_NH, vds_invalid_nh);
   (VP_DROP_INVALID_LABEL, vds_invalid_label); (VP_DROP_INVALID_PROTOCOL, vds_invalid_protocol);
   (VP_DROP_INTERFACE_RX_DISCARD, vds_interface_rx_discard); (VP_DROP_INVALID_MCAST_SOURCE, vds_invalid_mcast_source);
   (VP_DROP_HEAD_ALLOC_FAIL, vds_head_alloc_fail); (VP_DROP_HEAD_SPACE_RESERVE_FAIL, vds_head_space_reserve_fail);
   (VP_DROP_PCOW_FAIL, vds_pcow_fail); (VP_DROP_MCAST_DF_BIT, vds_mcast_df_bit);
   (VP_DROP_MCAST_CLONE_FAIL, vds_mcast_clone_fail); (VP_DROP_NO_MEMORY, vds_no_memory);
   (VP_DROP_REWRITE_FAIL, vds_rewrite_fail); (VP_DROP_MISC, vds_misc); (VP_DROP_INVALID_PACKET, vds_invalid_packet);
   (VP_DROP_CKSUM_ERR, vds_cksum_err); (VP_DROP_NO_FMD, vds_no_fmd); (VP_DROP_CLONED_ORIGINAL, vds_cloned_original);
   (VP_DROP_INVALID_VNID, vds_invalid_vnid); (VP_DROP_FRAGMENTS, vds_frag_err);
   (VP_DROP_INVALID_SOURCE, vds_invalid_source); (VP_DROP_ARP_NO_ROUTE, vds_arp_no_route);
   (VP_DROP_L2_NO_ROUTE, vds_l2_no_route); (VP_DROP_FRAGMENT_QUEUE_FAIL, vds_fragment_queue_fail);
   (VP_DROP_VLAN_FWD_TX, vds_vlan_fwd_tx); (VP_DROP_VLAN_FWD_ENQ, vds_vlan_fwd_enq);
   (VP_DROP_NEW_FLOWS, vds_drop_new_flow); (VP_DROP_FLOW_EVICT, vds_flow_evict);
   (VP_DROP_TRAP_ORIGINAL, vds_trap_original)].

Definition drops_of (k : Z) (blk : list Z) : Z := default 0 (zget blk k).

Definition has_fields (P : Z -> (vr_drop_stats -> Z) -> Prop) : Prop := Forall (fun kf => P kf.1 kf.2) by_reason.

Lemma as_drop_spec blk : zlen blk = VP_DROP_MAX ->
  exists s, as_drop_stats blk = Some s /\ has_fields (fun k f => f s = drops_of k blk).
Proof.
  intros Hl. unfold zlen, VP_DROP_MAX in Hl. do 50 (destruct blk as [|? blk]; [done|]). destruct blk; [|cbn [length] in Hl; lia].
  eexists. split; [done|]. repeat constructor.
Qed.

Lemma add_fields resp s : has_fields (fun k f => f (vr_drop_stats_add_response resp s) = s64 (f resp + f s)).
Proof. repeat constructor. Qed.

Lemma zero_fields : has_fields (fun k f => f drop_stats0 = 0).
Proof. repeat constructor. Qed.

Lemma fields_mono (P Q : Z -> (vr_drop_stats -> Z) -> Prop) : (forall k f, P k f -> Q k f) -> has_fields P -> has_fields Q.
Proof. intros Hpq HP. eapply Forall_impl; [exact HP|]. intros [k f] Hx. by apply Hpq. Qed.

Lemma fields_and (P Q : Z -> (vr_drop_stats -> Z) -> Prop) : has_fields P -> has_fields Q -> has_fields (fun k f => P k f /\ Q k f).
Proof. intros HP HQ. apply Forall_and. done. Qed.

(** Every CPU has a block. *)
Record dshape (l : list (option (list Z))) : Prop := {
  ds_len : zlen l = vr_num_cpus;
  ds_blk : forall i, 0 <= i < vr_num_cpus -> exists blk, zget l i = Some (Some blk) /\ zlen blk = VP_DROP_MAX
}.

Lemma sum_drops_spec r l : vr_pdrop_stats r = Some l -> dshape l ->
  forall suf pre resp X, l = pre ++ suf -> has_fields (fun k f => f resp = s64 (X k)) ->
  exists resp', sum_drops (seqZ (zlen pre) (zlen suf)) r resp = Some resp' /\
    has_fields (fun k f => f resp' = s64 (X k + tot (drops_of k) suf)).
Proof.
  intros Hr Hs. induction suf as [|b suf IH]; intros pre resp X Hl HX.
  - exists resp. split; [done|]. eapply fields_mono; [|exact HX]. intros k f ->. apply (f_equal s64). unfold tot. cbn. lia.
  - rewrite seqZ_step. cbn [sum_drops]. destruct (ds_blk _ Hs (zlen pre)) as (blk & Hb & Hk).
    { rewrite <- (ds_len _ Hs), Hl. unfold zlen. rewrite length_app. cbn. lia. }
    assert (Hb' : b = Some blk) by (rewrite Hl, zget_mid in Hb; congruence). subst b.
    unfold cpu_drops at 1. rewrite Hr. cbn [mbind option_bind]. rewrite Hb. cbn [mbind option_bind].
    destruct (as_drop_spec blk Hk) as (s & -> & Hf). cbn [mbind option_bind].
    destruct (IH (pre ++ [Some blk]) (vr_drop_stats_add_response resp s) (fun k => X k + drops_of k blk)) as (resp' & Hsum & Hr').
    { by rewrite <- app_assoc. }
    { eapply fields_mono; [|exact (fields_and _ _ (add_fields resp s) (fields_and _ _ HX Hf))]. cbn. intros k f (-> & -> & ->). apply s64_add. }
    exists resp'. split; [exact Hsum|]. eapply fields_mono; [|exact Hr']. cbn. intros k f ->. apply (f_equal s64). unfold tot.
    cbn [foldr from_option]. lia.
Qed.

(** The counters are the drops since the last reset. *)
Definition drops_exact (dropped : Z -> Z) r : Prop :=
  exists l, vr_pdrop_stats r = Some l /\ dshape l /\ forall k, 0 <= k < VP_DROP_MAX -> s64 (tot (drops_of k) l) = s64 (dropped k).

Definition cpu_count (r : router) (cpu k : Z) : Z :=
  match vr_pdrop_stats r with Some l => from_option (from_option (drops_of k) 0) 0 (zget l cpu) | None => 0 end.

(** What a response shows for [core]: all CPUs, one, or none. *)
Definition shows_drops r (dropped : Z -> Z) (core : Z) (resp : vr_drop_stats) : Prop :=
  has_fields (fun k f => f resp = if core =? UINT_MAX then s64 (dropped k) else if core <? vr_num_cpus then s64 (cpu_count r core k) else 0).

Lemma reasons_ok : has_fields (fun k _ => 0 <= k < VP_DROP_MAX).
Proof. unfold has_fields, by_reason. repeat (apply Forall_cons; split; [by vm_compute|]). apply Forall_nil. done. Qed.

Lemma drop_get_spec size core dropped r : exact r -> drops_exact dropped r -> 0 <= core ->
  exists ret resp r', vr_drop_stats_get size core r = Some (ret, resp, r') /\ exact r' /\ same_but_live r r' /\ (forall o, live r' o = live r o) /\
    ((ret = - ENOMEM /\ resp = None /\ mem_oracle r <> []) \/ exists x, ret = 0 /\ resp = Some x /\ shows_drops r dropped core x).
Proof.
  intros He (l & Hl & Hs & Hx) Hcore. unfold vr_drop_stats_get.
  destruct (zalloc_exact size VR_DROP_STATS_REQ_OBJECT r He ltac:(done)) as (ok & r1 & -> & He1 & S1 & Hok & L1). cbn [mbind option_bind].
  destruct ok; cbn [negb].
  2: { exists (- ENOMEM), None, r1. split; [done|]. split; [done|]. split; [done|]. split; [by intros o; rewrite L1|]. left.
       split; [done|]. split; [done|]. intros Hm. by specialize (Hok Hm). }
  assert (Hl1 : vr_pdrop_stats r1 = Some l) by (by rewrite (sb_pdrop _ _ S1)).
  match goal with |- context [mbind _ ?m] => assert (Hsum : exists x, m = Some x /\ shows_drops r dropped core x) end.
  { unfold shows_drops, cpu_count. rewrite Hl. destruct (core =? UINT_MAX).
    - destruct (sum_drops_spec r1 l Hl1 Hs l [] drop_stats0 (fun _ => 0) eq_refl zero_fields) as (x & Hsum & Hf). exists x.
      assert (Hq : seqZ 0 vr_num_cpus = seqZ (zlen ([] : list (option (list Z)))) (zlen l)) by (by rewrite (ds_len _ Hs)).
      rewrite Hq. split; [done|]. eapply fields_mono; [|exact (fields_and _ _ Hf reasons_ok)]. cbn. intros k f [-> Hk]. by apply Hx.
    - destruct (Z.ltb_spec core vr_num_cpus); [|exists drop_stats0; split; [done|apply zero_fields]].
      destruct (ds_blk _ Hs core) as (blk & Hb & Hk); [lia|]. unfold cpu_drops. rewrite Hl1. cbn [mbind option_bind]. rewrite Hb.
      cbn [mbind option_bind from_option]. destruct (as_drop_spec blk Hk) as (s & -> & Hf). cbn [mbind option_bind]. eexists. split; [done|].
      eapply fields_mono; [|exact (fields_and _ _ (add_fields drop_stats0 s) (fields_and _ _ zero_fields Hf))]. cbn. by intros k f (-> & -> & ->). }
  destruct Hsum as (x & -> & Hsh). cbn [mbind option_bind].
  destruct (free_exact VR_DROP_STATS_REQ_OBJECT r1 He1 ltac:(done)) as (r2 & -> & He2 & S2 & L2). cbn [mbind option_bind].
  exists 0, (Some x), r2. split; [done|]. split; [done|]. split; [by transitivity r1|]. split.
  { intros o. rewrite L2, L1. cbn [andb]. destruct (o =? VR_DROP_STATS_REQ_OBJECT); lia. }
  right. by exists x.
Qed.

(** ** Set-up of the counters of memory *)

(** The array while it is filled: the CPUs before [i] have a block, in which nothing is counted
    but what this CPU took for the others. *)
Record filling (cpu i : Z) (l : list (option (list vr_malloc_stats_t))) : Prop := {
  fi_len : zlen l = vr_num_cpus;
  fi_rest : forall j, i <= j < vr_num_cpus -> zget l j = Some None;
  fi_blk : forall j, 0 <= j < i -> exists blk, zget l j = Some (Some blk) /\ zlen blk = VR_VROUTER_MAX_OBJECT /\
    ms_free (entry blk VR_MALLOC_OBJECT) = 0 /\ forall o, o <> VR_MALLOC_OBJECT \/ j <> cpu -> uses o blk = 0
}.

Lemma filling_shape cpu i l : 0 <= i <= vr_num_cpus -> filling cpu i l -> shape l.
Proof.
  intros Hi [F1 F2 F3]. split; [done|]. intros j blk Hj. pose proof (zget_range _ _ _ Hj) as Hr. rewrite F1 in Hr.
  destruct (decide (j < i)) as [Hlt|Hge].
  - destruct (F3 j ltac:(lia)) as (blk' & Hb & Hl & _). congruence.
  - rewrite F2 in Hj by lia. done.
Qed.

Definition zero_blk : list vr_malloc_stats_t := replicate (Z.to_nat VR_VROUTER_MAX_OBJECT) ms_zero.

Lemma zero_blk_entry o : entry zero_blk o = ms_zero.
Proof.
  unfold entry, zero_blk, zget. case_decide; [|done]. destruct (_ !! _) as [m|] eqn:E; [|done]. apply lookup_replicate in E as [-> _]. done.
Qed.

Lemma filling_next cpu i l : 0 <= i < vr_num_cpus -> filling cpu i l -> filling cpu (i + 1) (zset l i (Some zero_blk)).
Proof.
  intros Hi [F1 F2 F3]. split; [by rewrite zlen_zset|..].
  - intros j Hj. rewrite zget_zset_ne by lia. apply F2. lia.
  - intros j Hj. destruct (decide (j = i)) as [->|Hne].
    + exists zero_blk. split; [apply zget_zset_eq; lia|]. split; [done|]. split; [by rewrite zero_blk_entry|].
      intros o _. by rewrite entry_uses, zero_blk_entry.
    + rewrite zget_zset_ne by done. apply F3. lia.
Qed.

(** An allocation that is counted. *)
Lemma filling_count size i r l : 0 <= i <= vr_num_cpus -> malloc_blocks r = Some l -> filling (cpu_now r) i l -> cpu_ok r -> mem_oracle r = [] ->
  exists l', lh_zalloc size VR_MALLOC_OBJECT r = Some (true, add_live VR_MALLOC_OBJECT 1 (set_blocks (Some l') r)) /\ filling (cpu_now r) i l'.
Proof.
  intros Hi Hl Hf Hc Hm. pose proof (filling_shape _ _ _ Hi Hf) as Hs. unfold lh_zalloc, ask. rewrite Hm. unfold vr_malloc_stats.
  destruct (count_spec (fun m => mk_ms (s64 (ms_size m + size)) (s64 (ms_alloc m + 1)) (ms_free m)) VR_MALLOC_OBJECT r l Hl Hs Hc ltac:(done))
    as (l' & -> & Hs' & Ho & Hx). cbn [mbind option_bind]. exists l'. split; [done|].
  destruct (zget l (cpu_now r)) as [[blk|]|] eqn:E; [|by subst..]. destruct Hx as (m & Hm' & Hb' & _). destruct Hf as [F1 F2 F3].
  assert (Hci : cpu_now r < i). { destruct (decide (cpu_now r < i)); [done|]. destruct Hc. rewrite F2 in E by lia. done. }
  split; [apply Hs'|..].
  - intros j Hj. rewrite Ho by lia. by apply F2.
  - intros j Hj. destruct (decide (j = cpu_now r)) as [->|Hne]; [|rewrite Ho by done; by apply F3].
    destruct (F3 (cpu_now r) Hj) as (blk0 & Hb0 & Hl0 & Hfr & Hu). assert (blk0 = blk) as -> by congruence.
    eexists. split; [exact Hb'|]. split; [by rewrite zlen_zset|]. split.
    + unfold entry. rewrite zget_zset_eq by (by rewrite Hl0). cbn. unfold entry in Hfr. by rewrite Hm' in Hfr.
    + intros o Hoo. rewrite (uses_set o VR_MALLOC_OBJECT blk m) by done. rewrite decide_False by (intros ->; destruct Hoo; done). by apply Hu.
Qed.

Lemma alloc_blocks_spec size k i total r l :
  0 <= i -> i + Z.of_nat k = vr_num_cpus -> malloc_blocks r = Some l -> filling (cpu_now r) i l -> cpu_ok r -> mem_oracle r = [] ->
  exists total' r' l', alloc_blocks (seqZ i (Z.of_nat k)) size total r = Some (total', r') /\ malloc_blocks r' = Some l' /\
    filling (cpu_now r) vr_num_cpus l' /\ same_but_live r r' /\
    forall o, live r' o = if o =? VR_MALLOC_OBJECT then live r o + Z.of_nat k else live r o.
Proof.
  revert i total r l. induction k as [|k IH]; intros i total r l Hi Hk Hl Hf Hc Hm.
  - exists total, r, l. replace (i + Z.of_nat 0) with i in Hk by lia. subst i. repeat (split; [done|]). intros o. destruct (_ =? _); lia.
  - rewrite seqZ_cons by lia. cbn [alloc_blocks]. destruct (filling_count size i r l ltac:(lia) Hl Hf Hc Hm) as (l1 & -> & Hf1).
    cbn [mbind option_bind malloc_blocks add_live set_blocks]. fold zero_blk.
    match goal with |- context [alloc_blocks _ _ _ ?x] => set (r1 := x) end.
    destruct (IH (i + 1) (u32 (total + size)) r1 (zset l1 i (Some zero_blk))) as (total' & r' & l' & Hr & Hl' & Hf' & S' & L'); try done.
    + lia.
    + lia.
    + apply filling_next; [lia|done].
    + replace (Z.pred (Z.of_nat (S k))) with (Z.of_nat k) by lia. exists total', r', l'. split; [exact Hr|]. split; [done|]. split; [done|].
      split; [by destruct S'; split|]. intros o. rewrite L'. cbn. destruct (o =? VR_MALLOC_OBJECT); lia.
Qed.

Lemma filled_exact r l total : malloc_blocks r = Some l -> filling (cpu_now r) vr_num_cpus l -> cpu_ok r ->
  (forall o, live r o = if o =? VR_MALLOC_OBJECT then vr_num_cpus + 1 else 0) ->
  exists blk m, zget l (cpu_now r) = Some (Some blk) /\ zget blk VR_MALLOC_OBJECT = Some m /\
    exact (set_blocks (Some (zset l (cpu_now r) (Some (zset blk VR_MALLOC_OBJECT (mk_ms total (vr_num_cpus + 1) (ms_free m)))))) r).
Proof.
  intros Hl Hf Hc Hlv. assert (Hn : 0 <= vr_num_cpus <= vr_num_cpus) by (destruct Hc; lia).
  pose proof (filling_shape _ _ _ Hn Hf) as Hs. destruct Hf as [F1 F2 F3].
  destruct (F3 (cpu_now r) Hc) as (blk & Hb & Hk & Hfr & Hu). exists blk, (entry blk VR_MALLOC_OBJECT).
  pose proof (entry_get blk VR_MALLOC_OBJECT Hk ltac:(done)) as Hm. split; [done|]. split; [done|]. split; [done|].
  eexists. split; [done|]. split; [|split].
  - apply shape_set; [done|]. intros b [= <-]. by rewrite zlen_zset.
  - intros i Hi. destruct (decide (i = cpu_now r)) as [->|Hne]; [rewrite zget_zset_eq by (by rewrite F1); by eauto|].
    rewrite zget_zset_ne by done. destruct (F3 i Hi) as (b & Hbb & _). by eauto.
  - intros o Ho. cbn. rewrite Hlv, (tot_set _ l _ (Some blk)) by done. cbn [from_option].
    rewrite (uses_set o VR_MALLOC_OBJECT blk (entry blk VR_MALLOC_OBJECT)) by done. cbn [ms_alloc ms_free].
    assert (Hz : tot (uses o) (zset l (cpu_now r) None) = 0).
    { apply tot_zero. intros j b Hj. pose proof (zget_range _ _ _ Hj) as Hr. rewrite zlen_zset, F1 in Hr. destruct (decide (j = cpu_now r)) as [->|Hne].
      - rewrite zget_zset_eq in Hj by (by rewrite F1). by injection Hj as <-.
      - rewrite zget_zset_ne in Hj by done. destruct (F3 j Hr) as (bl & Hbl & _ & _ & Hz). rewrite Hbl in Hj. injection Hj as <-. cbn. apply Hz. by right. }
    rewrite (tot_set _ l _ (Some blk)) in Hz by done. cbn [from_option] in Hz. apply (f_equal s64).
    destruct (decide (o = VR_MALLOC_OBJECT)) as [->|Hne]; [rewrite Z.eqb_refl; lia|]. apply Z.eqb_neq in Hne as Hne'. rewrite Hne'.
    rewrite (Hu o) in Hz |- * by (by left). lia.
Qed.

Lemma malloc_init_spec r : malloc_blocks r = None -> mem_oracle r = [] -> cpu_ok r -> (forall o, live r o = 0) ->
  exists r', vr_malloc_stats_init r = Some (0, r') /\ exact r' /\ same_but_live r r' /\
    forall o, live r' o = if o =? VR_MALLOC_OBJECT then vr_num_cpus + 1 else 0.
Proof.
  intros Hb Hm Hc Hlv. unfold vr_malloc_stats_init. rewrite Hb. unfold lh_zalloc, ask, vr_malloc_stats, count. rewrite Hm, Hb. cbn [mbind option_bind negb].
  match goal with |- context [alloc_blocks _ _ _ ?x] => set (r1 := x) end.
  destruct (alloc_blocks_spec block_size (Z.to_nat vr_num_cpus) 0 (u32 (vr_num_cpus * 8)) r1 (replicate (Z.to_nat vr_num_cpus) None))
    as (total & r2 & l & Hr & Hl & Hf & S2 & L2); try done.
  - destruct Hc; lia.
  - destruct Hc as [Hc1 Hc2]. split; [unfold zlen; rewrite length_replicate; lia| |intros j Hj; lia].
    intros j Hj. unfold zget. rewrite decide_True by lia. apply lookup_replicate. split; [done|lia].
  - rewrite Z2Nat.id in Hr by (destruct Hc; lia). rewrite Hr. cbn [mbind option_bind]. rewrite Hl. cbn [mbind option_bind].
    destruct (filled_exact r2 l total Hl) as (blk & m & Hblk & Hmm & He).
    + rewrite (sb_cpu _ _ S2). exact Hf.
    + unfold cpu_ok. rewrite (sb_cpu _ _ S2). exact Hc.
    + intros o. rewrite L2. cbn. rewrite Hlv. destruct (o =? VR_MALLOC_OBJECT); [destruct Hc; lia|done].
    + rewrite Hblk. cbn [mbind option_bind]. rewrite Hmm. cbn [mbind option_bind]. eexists. split; [done|]. split; [done|]. split.
      * destruct S2 as [P1 P2 P3]. split; cbn; [by rewrite P1|by rewrite P2|auto].
      * intros o. cbn. rewrite L2. cbn. rewrite Hlv. destruct (o =? VR_MALLOC_OBJECT); [destruct Hc; lia|done].
Qed.

(** ** Set-up and tear-down of the counters of drops *)

Lemma exact_pdrop x r : exact r -> exact (set_pdrop x r).
Proof. intros [Hc He]. by split. Qed.

Definition zero_drops : list Z := replicate (Z.to_nat VP_DROP_MAX) 0.

(** The CPUs before [i] have a block of zeroes. *)
Record dfilling (i : Z) (l : list (option (list Z))) : Prop := {
  df_len : zlen l = vr_num_cpus;
  df_blk : forall j, 0 <= j < i -> zget l j = Some (Some zero_drops);
  df_rest : forall j, i <= j < vr_num_cpus -> zget l j = Some None
}.

Definition takes (k : Z) (lv lv' : Z -> Z) : Prop := forall o, lv' o = if o =? VR_DROP_STATS_OBJECT then lv o + k else lv o.

Lemma takes_trans j k lv1 lv2 lv3 : takes j lv1 lv2 -> takes k lv2 lv3 -> takes (j + k) lv1 lv3.
Proof. intros T1 T2 o. rewrite T2, T1. destruct (o =? VR_DROP_STATS_OBJECT); lia. Qed.

(** The blocks before [i] are there, and the loop goes on until memory is out. *)
Lemma alloc_drops_spec k i r l : 0 <= i -> i + Z.of_nat k = vr_num_cpus -> vr_pdrop_stats r = Some l -> dfilling i l -> exact r ->
  exists ok r' l' j, alloc_drops (seqZ i (Z.of_nat k)) r = Some (ok, r') /\ exact r' /\ vr_pdrop_stats r' = Some l' /\ dfilling j l' /\
    i <= j <= vr_num_cpus /\ takes (j - i) (live r) (live r') /\ (ok = true -> j = vr_num_cpus) /\ (mem_oracle r = [] -> ok = true).
Proof.
  revert i r l. induction k as [|k IH]; intros i r l Hi Hk Hl Hf He.
  - exists true, r, l, i. split; [done|]. split; [done|]. split; [done|]. split; [done|]. split; [lia|]. split; [|split; [lia|done]].
    intros o. destruct (_ =? _); lia.
  - rewrite seqZ_cons by lia. cbn [alloc_drops].
    destruct (zalloc_exact (VP_DROP_MAX * 8) VR_DROP_STATS_OBJECT r He ltac:(done)) as (ok & r1 & -> & He1 & S1 & Hok & L1). cbn [mbind option_bind].
    destruct ok.
    + rewrite (sb_pdrop _ _ S1), Hl. cbn [mbind option_bind]. fold zero_drops.
      destruct (IH (i + 1) (set_pdrop (Some (zset l i (Some zero_drops))) r1) (zset l i (Some zero_drops)))
        as (ok & r' & l' & j & Hr & He' & Hl' & Hf' & Hj & T' & Hall & Hm); try done; [lia|lia| |by apply exact_pdrop|].
      { destruct Hf as [D1 D2 D3]. split; [by rewrite zlen_zset|..]; intros m Hm.
        - destruct (decide (m = i)) as [->|Hne]; [apply zget_zset_eq; lia|]. rewrite zget_zset_ne by done. apply D2. lia.
        - rewrite zget_zset_ne by lia. apply D3. lia. }
      replace (Z.pred (Z.of_nat (S k))) with (Z.of_nat k) by lia. exists ok, r', l', j. split; [exact Hr|]. split; [done|]. split; [done|].
      split; [done|]. split; [lia|]. split; [|split; [done|]].
      * replace (j - i) with (1 + (j - (i + 1))) by lia. eapply takes_trans; [|exact T']. intros o. cbn. by rewrite L1.
      * intros Hm0. apply Hm. cbn. by apply (sb_oracle _ _ S1).
    + exists false, r1, l, i. split; [done|]. split; [done|]. split; [by rewrite (sb_pdrop _ _ S1)|]. split; [done|]. split; [lia|].
      split; [intros o; rewrite L1; cbn; destruct (_ =? _); lia|]. split; [done|]. intros Hm. by specialize (Hok Hm).
Qed.

(** The loop that frees: it stops at the first CPU without a block. *)
Lemma free_drops_spec k i j r l : 0 <= i <= j -> i + Z.of_nat k = vr_num_cpus -> j <= vr_num_cpus -> vr_pdrop_stats r = Some l ->
  zlen l = vr_num_cpus -> (forall m, i <= m < j -> exists blk, zget l m = Some (Some blk)) -> (forall m, j <= m < vr_num_cpus -> zget l m = Some None) ->
  exact r ->
  exists r' l', free_drops (seqZ i (Z.of_nat k)) r = Some r' /\ exact r' /\ vr_pdrop_stats r' = Some l' /\ takes (i - j) (live r) (live r').
Proof.
  revert i r l. induction k as [|k IH]; intros i r l Hi Hk Hj Hl Hz Hb Hn He.
  - exists r, l. split; [done|]. split; [done|]. split; [done|]. intros o. destruct (_ =? _); lia.
  - rewrite seqZ_cons by lia. cbn [free_drops]. rewrite Hl. cbn [mbind option_bind]. destruct (decide (i = j)) as [->|Hne].
    { rewrite Hn by lia. cbn. exists r, l. split; [done|]. split; [done|]. split; [done|]. intros o. destruct (_ =? _); lia. }
    destruct (Hb i ltac:(lia)) as [blk Hblk]. rewrite Hblk. cbn [mbind option_bind].
    destruct (free_exact VR_DROP_STATS_OBJECT r He ltac:(done)) as (r1 & -> & He1 & S1 & L1). cbn [mbind option_bind].
    destruct (IH (i + 1) (set_pdrop (Some (zset l i None)) r1) (zset l i None)) as (r' & l' & Hr & He' & Hl' & T'); try done.
    + lia.
    + lia.
    + by rewrite zlen_zset.
    + intros m Hm. rewrite zget_zset_ne by lia. apply Hb. lia.
    + intros m Hm. rewrite zget_zset_ne by lia. by apply Hn.
    + by apply exact_pdrop.
    + replace (Z.pred (Z.of_nat (S k))) with (Z.of_nat k) by lia. exists r', l'. split; [exact Hr|]. split; [done|]. split; [done|].
      replace (i - j) with (-1 + (i + 1 - j)) by lia. eapply takes_trans; [|exact T']. intros o. cbn. rewrite L1. by destruct (_ =? _).
Qed.

Lemma drop_exit_spec j r l : vr_pdrop_stats r = Some l -> 0 <= j <= vr_num_cpus -> zlen l = vr_num_cpus ->
  (forall m, 0 <= m < j -> exists blk, zget l m = Some (Some blk)) -> (forall m, j <= m < vr_num_cpus -> zget l m = Some None) -> exact r ->
  exists r', vr_pkt_drop_stats_exit r = Some r' /\ exact r' /\ vr_pdrop_stats r' = None /\ takes (- (j + 1)) (live r) (live r').
Proof.
  intros Hl Hj Hz Hb Hn He. unfold vr_pkt_drop_stats_exit. rewrite Hl.
  destruct (free_drops_spec (Z.to_nat vr_num_cpus) 0 j r l) as (r1 & l1 & Hr & He1 & Hl1 & T1); try done; [lia..|].
  rewrite Z2Nat.id in Hr by lia. rewrite Hr. cbn [mbind option_bind].
  destruct (free_exact VR_DROP_STATS_OBJECT r1 He1 ltac:(done)) as (r2 & -> & He2 & S2 & L2). cbn [mbind option_bind].
  eexists. split; [done|]. split; [by apply exact_pdrop|]. split; [done|]. replace (- (j + 1)) with (0 - j + -1) by lia.
  eapply takes_trans; [exact T1|]. intros o. cbn. rewrite L2. by destruct (_ =? _).
Qed.

(** Set-up succeeds, or leaves nothing behind. *)
Lemma drop_init_spec r : vr_pdrop_stats r = None -> exact r ->
  exists ret r', vr_pkt_drop_stats_init r = Some (ret, r') /\ exact r' /\
    ((ret = 0 /\ drops_exact (fun _ => 0) r' /\ takes (vr_num_cpus + 1) (live r) (live r')) \/
     (ret = - ENOMEM /\ mem_oracle r <> [] /\ vr_pdrop_stats r' = None /\ takes 0 (live r) (live r'))).
Proof.
  intros Hp He. assert (Hn : 0 < vr_num_cpus) by (destruct (ex_cpu _ He); lia). unfold vr_pkt_drop_stats_init. rewrite Hp.
  destruct (zalloc_exact (u32 (8 * vr_num_cpus)) VR_DROP_STATS_OBJECT r He ltac:(done)) as (ok & r1 & -> & He1 & S1 & Hok & L1). cbn [mbind option_bind].
  destruct ok; cbn [negb].
  2: { unfold vr_pkt_drop_stats_exit. rewrite (sb_pdrop _ _ S1), Hp. cbn [mbind option_bind]. eexists _, _. split; [done|]. split; [done|]. right.
       split; [done|]. split; [intros Hm; by specialize (Hok Hm)|]. split; [by rewrite (sb_pdrop _ _ S1)|].
       intros o. rewrite L1. cbn. destruct (_ =? _); lia. }
  set (l0 := replicate (Z.to_nat vr_num_cpus) None).
  assert (Hf0 : dfilling 0 l0).
  { split; [unfold l0, zlen; rewrite length_replicate; lia|intros; lia|]. intros j Hj. unfold zget, l0. rewrite decide_True by lia.
    apply lookup_replicate. split; [done|lia]. }
  destruct (alloc_drops_spec (Z.to_nat vr_num_cpus) 0 (set_pdrop (Some l0) r1) l0) as (ok & r2 & l & j & Hr & He2 & Hl & Hf & Hj & T2 & Hall & Hm);
    try done; [lia|by apply exact_pdrop|]. rewrite Z2Nat.id in Hr by lia. rewrite Hr. cbn [mbind option_bind].
  assert (T1 : takes 1 (live r) (live (set_pdrop (Some l0) r1))) by (intros o; cbn; by rewrite L1). destruct ok.
  - specialize (Hall eq_refl). subst j. eexists _, _. split; [done|]. split; [done|]. left. split; [done|]. split.
    + exists l. split; [done|]. split.
      * split; [apply Hf|]. intros i Hi. exists zero_drops. split; [by apply (df_blk _ _ Hf)|done].
      * intros k Hk. rewrite tot_zero; [done|]. intros i b Hb. pose proof (zget_range _ _ _ Hb) as Hr'. rewrite (df_len _ _ Hf) in Hr'.
        rewrite (df_blk _ _ Hf) in Hb by lia. injection Hb as <-. cbn. unfold drops_of, zero_drops. apply zget_replicate_default.
    + replace (vr_num_cpus + 1) with (1 + (vr_num_cpus - 0)) by lia. by eapply takes_trans.
  - destruct (drop_exit_spec j r2 l Hl ltac:(lia) (df_len _ _ Hf)) as (r3 & -> & He3 & Hp3 & T3); [|apply Hf|done|].
    { intros m Hm'. exists zero_drops. by apply (df_blk _ _ Hf). }
    cbn [mbind option_bind]. eexists _, _. split; [done|]. split; [done|]. right. split; [done|].
    split; [intros Hm0; by specialize (Hm (sb_oracle _ _ S1 Hm0))|]. split; [done|].
    replace 0 with (1 + (j - 0) + - (j + 1)) by lia. eapply takes_trans; [|exact T3]. by eapply takes_trans.
Qed.

(** ** Tear-down of the counters of memory *)

Lemma count_free_shape object r l : malloc_blocks r = Some l -> shape l -> cpu_ok r -> object_ok object ->
  exists l', lh_free object r = Some (add_live object (-1) (set_blocks (Some l') r)) /\ shape l' /\
    forall i, (exists blk, zget l i = Some (Some blk)) -> exists blk, zget l' i = Some (Some blk).
Proof.
  intros Hl Hs Hc Ho. unfold lh_free, vr_free_stats.
  destruct (count_spec (fun m => mk_ms (ms_size m) (ms_alloc m) (s64 (ms_free m + 1))) object r l Hl Hs Hc Ho) as (l' & -> & Hs' & Hother & Hx).
  cbn [mbind option_bind]. exists l'. split; [done|]. split; [done|]. intros i [blk Hb].
  destruct (decide (i = cpu_now r)) as [->|Hne]; [|exists blk; by rewrite Hother]. rewrite Hb in Hx. destruct Hx as (m & _ & Hb' & _). by eauto.
Qed.

Lemma free_blocks_spec k i r l : 0 <= i -> i + Z.of_nat k = vr_num_cpus -> malloc_blocks r = Some l -> shape l -> cpu_ok r ->
  (forall m, i <= m < vr_num_cpus -> exists blk, zget l m = Some (Some blk)) ->
  exists r' l', free_blocks (seqZ i (Z.of_nat k)) r = Some r' /\ malloc_blocks r' = Some l' /\ shape l' /\ same_but_live r r' /\
    forall o, live r' o = if o =? VR_MALLOC_OBJECT then live r o - Z.of_nat k else live r o.
Proof.
  revert i r l. induction k as [|k IH]; intros i r l Hi Hk Hl Hs Hc Hb.
  - exists r, l. split; [done|]. split; [done|]. split; [done|]. split; [done|]. intros o. destruct (_ =? _); lia.
  - rewrite seqZ_cons by lia. cbn [free_blocks]. rewrite Hl. cbn [mbind option_bind]. destruct (Hb i ltac:(lia)) as [blk Hblk]. rewrite Hblk.
    cbn [mbind option_bind]. destruct (count_free_shape VR_MALLOC_OBJECT r l Hl Hs Hc ltac:(done)) as (l1 & -> & Hs1 & Hb1). cbn [mbind option_bind malloc_blocks add_live set_blocks].
    match goal with |- context [free_blocks _ ?x] => set (r1 := x) end.
    destruct (IH (i + 1) r1 (zset l1 i None)) as (r' & l' & Hr & Hl' & Hs' & S' & L'); try done.
    + lia.
    + lia.
    + by apply shape_set.
    + intros m Hm. rewrite zget_zset_ne by lia. apply Hb1, Hb. lia.
    + replace (Z.pred (Z.of_nat (S k))) with (Z.of_nat k) by lia. exists r', l'. split; [exact Hr|]. split; [done|]. split; [done|].
      split; [by destruct S'; split|]. intros o. rewrite L'. cbn. destruct (o =? VR_MALLOC_OBJECT); lia.
Qed.

Lemma malloc_exit_spec r : exact r ->
  exists r', vr_malloc_stats_exit r = Some r' /\ malloc_blocks r' = None /\ same_but_live r r' /\
    forall o, live r' o = if o =? VR_MALLOC_OBJECT then live r o - (vr_num_cpus + 1) else live r o.
Proof.
  intros [Hc (l & Hl & Hs & Hp & _)]. unfold vr_malloc_stats_exit. rewrite Hl.
  destruct (free_blocks_spec (Z.to_nat vr_num_cpus) 0 r l) as (r1 & l1 & Hr & Hl1 & Hs1 & S1 & L1); try done; [destruct Hc; lia|].
  rewrite Z2Nat.id in Hr by (destruct Hc; lia). rewrite Hr. cbn [mbind option_bind].
  destruct (count_free_shape VR_MALLOC_OBJECT r1 l1 Hl1 Hs1) as (l2 & -> & _); [unfold cpu_ok; by rewrite (sb_cpu _ _ S1)|done|]. cbn [mbind option_bind].
  eexists. split; [done|]. split; [done|]. split.
  - destruct S1. split; cbn; auto.
  - intros o. cbn. rewrite L1. destruct (o =? VR_MALLOC_OBJECT); [destruct Hc; lia|done].
Qed.

(** ** Steps *)

Definition more_drops (k : Z) (d : Z -> Z) : Z -> Z := fun j => if j =? k then d j + 1 else d j.

Lemma count_drop_spec cpu k d r : exact r -> drops_exact d r -> 0 <= cpu < vr_num_cpus -> 0 <= k < VP_DROP_MAX ->
  exists r', count_drop cpu k r = Some r' /\ exact r' /\ drops_exact (more_drops k d) r'.
Proof.
  intros He (l & Hl & Hs & Hx) Hc Hk. unfold count_drop. rewrite Hl. cbn [mbind option_bind].
  destruct (ds_blk _ Hs cpu Hc) as (blk & Hb & Hlen). rewrite Hb. cbn [mbind option_bind].
  destruct (zget_is_Some blk k) as [x Hxk]; [by rewrite Hlen|]. rewrite Hxk. cbn [mbind option_bind]. eexists. split; [done|].
  split; [by apply exact_pdrop|]. eexists. split; [done|]. split.
  - split; [by rewrite zlen_zset; apply Hs|]. intros i Hi. destruct (decide (i = cpu)) as [->|Hne].
    + eexists. split; [apply zget_zset_eq; by rewrite (ds_len _ Hs)|]. by rewrite zlen_zset.
    + rewrite zget_zset_ne by done. by apply Hs.
  - intros j Hj. rewrite (tot_set _ l cpu (Some blk)) by done. cbn [from_option]. unfold more_drops.
    destruct (Z.eqb_spec j k) as [->|Hne].
    + assert (E1 : drops_of k blk = x) by (unfold drops_of; by rewrite Hxk).
      assert (E2 : drops_of k (zset blk k (u64 (x + 1))) = u64 (x + 1)) by (unfold drops_of; by rewrite zget_zset_eq by (by rewrite Hlen)).
      rewrite E1, E2, s64_u64.
      replace (tot (drops_of k) l - x + (x + 1)) with (tot (drops_of k) l + 1) by lia. by rewrite <- s64_add, Hx, s64_add.
    + assert (E : drops_of j (zset blk k (u64 (x + 1))) = drops_of j blk) by (unfold drops_of; by rewrite zget_zset_ne).
      rewrite E, <- (Hx j Hj). apply (f_equal s64). lia.
Qed.

Lemma reset_spec d r : exact r -> drops_exact d r -> exact (vr_pkt_drop_stats_reset r) /\ drops_exact (fun _ => 0) (vr_pkt_drop_stats_reset r).
Proof.
  intros He (l & Hl & Hs & _). unfold vr_pkt_drop_stats_reset. rewrite Hl. split; [by apply exact_pdrop|]. eexists. split; [done|].
  assert (Hz : forall i, zget (zero_block <$> l) i = zero_block <$> zget l i)
    by (intros i; unfold zget; case_decide; [apply list_lookup_fmap|done]).
  split.
  - split; [unfold zlen; rewrite length_fmap; apply Hs|]. intros i Hi. destruct (ds_blk _ Hs i Hi) as (blk & Hb & Hlen). rewrite Hz, Hb. cbn.
    eexists. split; [done|]. unfold zlen in *. by rewrite length_replicate.
  - intros k _. rewrite tot_zero; [done|]. intros i b. rewrite Hz. destruct (zget l i) as [[blk|]|]; cbn; [|by intros [= <-]|done].
    intros [= <-]. cbn. unfold drops_of. apply zget_replicate_default.
Qed.

Context (drop_req_size mem_req_size : Z).

(** A running router and what was dropped since the last reset.  [step_host] is a move to
    another CPU and any answers to the coming requests for memory. *)
Inductive sstep : router -> (Z -> Z) -> router -> (Z -> Z) -> Prop :=
  | sstep_alloc size o r d ok r' : object_ok o -> lh_zalloc size o r = Some (ok, r') -> sstep r d r' d
  | sstep_free o r d r' : object_ok o -> lh_free o r = Some r' -> sstep r d r' d
  | sstep_drop cpu k r d r' : 0 <= cpu < vr_num_cpus -> 0 <= k < VP_DROP_MAX -> count_drop cpu k r = Some r' -> sstep r d r' (more_drops k d)
  | sstep_mem_get r d ret resp r' : vr_mem_stats_get mem_req_size r = Some (ret, resp, r') -> sstep r d r' d
  | sstep_drop_get core r d ret resp r' : 0 <= core -> vr_drop_stats_get drop_req_size core r = Some (ret, resp, r') -> sstep r d r' d
  | sstep_reset r d r' : vr_stats_exit true r = Some r' -> sstep r d r' (fun _ => 0)
  | sstep_init r d ret r' : vr_stats_init r = Some (ret, r') -> sstep r d r' d
  | sstep_host r d cpu oracle : 0 <= cpu < vr_num_cpus ->
      sstep r d (mk_router (vr_pdrop_stats r) (malloc_blocks r) (live r) cpu oracle) d.

(** The module starts with no memory taken, and finds enough for the counters of every CPU. *)
Inductive sreach : router -> (Z -> Z) -> Prop :=
  | sreach_start cpu ret r' : 0 <= cpu < vr_num_cpus ->
      vr_stats_init (mk_router None None (fun _ => 0) cpu []) = Some (ret, r') -> sreach r' (fun _ => 0)
  | sreach_step r d r' d' : sreach r d -> sstep r d r' d' -> sreach r' d'.

Lemma stats_init_spec cpu : 0 <= cpu < vr_num_cpus ->
  exists r', vr_stats_init (mk_router None None (fun _ => 0) cpu []) = Some (0, r') /\ exact r' /\ drops_exact (fun _ => 0) r' /\
    forall o, live r' o = if (o =? VR_MALLOC_OBJECT) || (o =? VR_DROP_STATS_OBJECT) then vr_num_cpus + 1 else 0.
Proof.
  intros Hc. unfold vr_stats_init. destruct (malloc_init_spec (mk_router None None (fun _ => 0) cpu [])) as (r1 & -> & He & S1 & L1); try done.
  cbn [mbind option_bind negb Z.eqb]. destruct (drop_init_spec r1) as (ret & r' & Hr & He' & Hcase); [by rewrite (sb_pdrop _ _ S1)|done|].
  rewrite Hr. destruct Hcase as [(-> & Hd & T)|(_ & Hm & _)]; [|by destruct Hm; apply (sb_oracle _ _ S1)]. exists r'. split; [done|].
  split; [done|]. split; [done|]. intros o. rewrite T, L1.
  destruct (Z.eqb_spec o VR_MALLOC_OBJECT) as [->|_]; [done|]. cbn [orb]. destruct (o =? VR_DROP_STATS_OBJECT); lia.
Qed.

Lemma step_keeps r d r' d' : exact r -> drops_exact d r -> sstep r d r' d' -> exact r' /\ drops_exact d' r'.
Proof.
  intros He Hd Hs.
  assert (Hsame : forall r', same_but_live r r' -> drops_exact d r').
  { intros r1 S1. destruct Hd as (l & Hl & Hx). exists l. by rewrite (sb_pdrop _ _ S1). }
  destruct Hs as [size o r d ok r' Ho Hr|o r d r' Ho Hr|cpu k r d r' Hc Hk Hr|r d ret resp r' Hr|core r d ret resp r' Hc Hr|r d r' Hr|r d ret r' Hr
    |r d cpu oracle Hc].
  - destruct (zalloc_exact size o r He Ho) as (ok' & r1 & Hr' & He1 & S1 & _). rewrite Hr' in Hr. injection Hr as <- <-. auto.
  - destruct (free_exact o r He Ho) as (r1 & Hr' & He1 & S1 & _). rewrite Hr' in Hr. injection Hr as <-. auto.
  - destruct (count_drop_spec cpu k d r He Hd Hc Hk) as (r1 & Hr' & He1 & Hd1). rewrite Hr' in Hr. by injection Hr as <-.
  - destruct (mem_get_spec mem_req_size r He) as (ret' & resp' & r1 & Hr' & He1 & S1 & _). rewrite Hr' in Hr. injection Hr as <- <- <-. auto.
  - destruct (drop_get_spec drop_req_size core d r He Hd Hc) as (ret' & resp' & r1 & Hr' & He1 & S1 & _). rewrite Hr' in Hr. injection Hr as <- <- <-. auto.
  - injection Hr as <-. by apply (reset_spec d).
  - unfold vr_stats_init, vr_malloc_stats_init in Hr. destruct (ex_blocks _ He) as (l & Hl & _). rewrite Hl in Hr. cbn in Hr.
    unfold vr_pkt_drop_stats_init in Hr. destruct Hd as (dl & Hdl & Hx). rewrite Hdl in Hr. injection Hr as <- <-. split; [done|]. by exists dl.
  - destruct He as [_ (l & Hl & Hs)]. destruct Hd as (dl & Hdl & Hx). split; [split; [done|]; by exists l|by exists dl].
Qed.

Lemma reach_exact r d : sreach r d -> exact r /\ drops_exact d r.
Proof.
  induction 1 as [cpu ret r' Hc Hr|r d r' d' _ [IH1 IH2] Hs]; [|by apply (step_keeps r d)].
  destruct (stats_init_spec cpu Hc) as (r1 & Hr' & He & Hd & _). rewrite Hr' in Hr. by injection Hr as <- <-.
Qed.

(** C20: When the set-up found memory for the counters of every CPU, then whatever allocations and
    releases were made on whatever CPUs, a request for the statistics of memory is answered, without
    an access outside the arrays, and each field of the response ([mem_fields] lists them by name)
    shows the number of blocks of its kind that are not freed (the response is one of them); the
    totals differ by the number of all blocks.  Without memory for the response it is answered with
    the error.  [stats_missing_block_faults] is the set-up that did not find the memory. *)
Theorem mem_stats_exact r d :
  sreach r d ->
  exists ret resp r', vr_mem_stats_get mem_req_size r = Some (ret, resp, r') /\ (forall o, live r' o = live r o) /\
    ((ret = - ENOMEM /\ resp = None /\ mem_oracle r <> []) \/
     exists x, ret = 0 /\ resp = Some x /\
       Forall (fun '(field, o) => field x = s64 (if o =? VR_MEM_STATS_REQ_OBJECT then live r o + 1 else live r o)) mem_fields /\
       s64 (vms_alloced x - vms_freed x) = s64 (sumo (fun o => if o =? VR_MEM_STATS_REQ_OBJECT then live r o + 1 else live r o))).
Proof.
  intros Hr. destruct (reach_exact r d Hr) as [He _]. destruct (mem_get_spec mem_req_size r He) as (ret & resp & r' & Hg & _ & _ & Hl & Hx).
  exists ret, resp, r'. split; [done|]. split; [done|]. destruct Hx as [Hx|(x & -> & -> & Hf & Ht)]; [by left|right].
  exists x. split; [done|]. split; [done|]. split; [|done]. eapply Forall_impl; [exact Hf|]. by intros [f o].
Qed.

(** C21: A request for the statistics of drops is answered and shows, in the field of each reason,
    the number of packets dropped for that reason since the last reset on all CPUs, or on the one
    it asks for. *)
Theorem drop_stats_exact r d vds_core :
  sreach r d ->
  exists ret resp r', vr_drop_stats_get drop_req_size (u32 (vds_core - 1)) r = Some (ret, resp, r') /\
    ((ret = - ENOMEM /\ resp = None /\ mem_oracle r <> []) \/ exists x, ret = 0 /\ resp = Some x /\ shows_drops r d (u32 (vds_core - 1)) x).
Proof.
  intros Hr. destruct (reach_exact r d Hr) as [He Hd]. pose proof (u32_range (vds_core - 1)) as [Hc _].
  destruct (drop_get_spec drop_req_size (u32 (vds_core - 1)) d r He Hd Hc) as (ret & resp & r' & Hg & _ & _ & _ & Hx). by exists ret, resp, r'.
Qed.

(** The end of the module gives back exactly the blocks that its set-up took. *)
Theorem stats_exit_gives_back r d :
  sreach r d ->
  exists r', vr_stats_exit false r = Some r' /\ vr_pdrop_stats r' = None /\ malloc_blocks r' = None /\
    forall o, live r' o = if (o =? VR_MALLOC_OBJECT) || (o =? VR_DROP_STATS_OBJECT) then live r o - (vr_num_cpus + 1) else live r o.
Proof.
  intros Hr. destruct (reach_exact r d Hr) as [He (l & Hl & Hs & _)]. unfold vr_stats_exit.
  destruct (drop_exit_spec vr_num_cpus r l Hl) as (r1 & -> & He1 & Hp1 & T1); [destruct (ex_cpu _ He); lia|apply Hs| |intros; lia|done|].
  { intros m Hm. destruct (ds_blk _ Hs m Hm) as (blk & Hb & _). by exists blk. }
  cbn [mbind option_bind]. destruct (malloc_exit_spec r1 He1) as (r2 & -> & Hb2 & S2 & L2). exists r2. split; [done|].
  split; [by rewrite (sb_pdrop _ _ S2)|]. split; [done|]. intros o. rewrite L2, T1.
  destruct (Z.eqb_spec o VR_MALLOC_OBJECT) as [->|_]; cbn [orb]; [cbn; lia|]. destruct (o =? VR_DROP_STATS_OBJECT); lia.
Qed.

End mem.
End StatsProofs.
