(* ===== verification/Csum.v ===== *)
(** * Internet checksums (include/vr_packet.h, dp-core/vr_proto_ip.c)

    A packet is the array of its 16-bit words as the host sees them, from the start of the
    IP header on.  The checksum of a header is computed from all its words
    ([vr_ip_csum]), or brought up to date from the old and the new value of a field
    ([vr_incremental_diff], [vr_ip_incremental_csum]).  The theorem: both give the same
    word. *)

From S2P Require Import Prelude Bits.

Module Csum.

Abbreviation words := (list Z).

Definition word (w : words) (i : Z) : Z := default 0 (zget w i).

(** ** Fields of the IP header that starts at word [b] *)

Definition ip_hl (w : words) (b : Z) : Z := Z.land (word w b) 15.
Definition ip_version (w : words) (b : Z) : Z := Z.land (Z.shiftr (word w b) 4) 15.
Definition ip_ttl (w : words) (b : Z) : Z := Z.land (word w (b + 4)) 255.
Definition ip_proto (w : words) (b : Z) : Z := Z.shiftr (word w (b + 4)) 8.
Definition ip_csum (w : words) (b : Z) : Z := word w (b + 5).
Definition word32 (w : words) (i : Z) : Z := word w i + 65536 * word w (i + 1).
Definition ip_saddr (w : words) (b : Z) : Z := word32 w (b + 6).
Definition ip_daddr (w : words) (b : Z) : Z := word32 w (b + 8).

Definition set32 (w : words) (i x : Z) : words := zset (zset w i (u16 x)) (i + 1) (u16 (x / 65536)).
Definition set_ttl (w : words) (b ttl : Z) : words :=
  zset w (b + 4) (Z.lor (Z.ldiff (word w (b + 4)) 255) (u8 ttl)).

(** ** The functions of the source *)

Definition vr_incremental_diff (oldval newval diff : Z) : Z :=
  let tmp := u32 (UINT_MAX - oldval + newval) in
  let tmp := if tmp <? newval then u32 (tmp + 1) else tmp in
  let diff := u32 (diff + tmp) in
  if diff <? tmp then u32 (diff + 1) else diff.

Definition vr_ip_incremental_csum (csum diff : Z) : Z :=
  let diff := Z.shiftr diff 16 + Z.land diff 65535 in
  let diff := if negb (Z.shiftr diff 16 =? 0) then Z.land diff 65535 + 1 else diff in
  let c := Z.land (Z.lnot csum) 65535 in
  let c := c + diff in
  let c := Z.shiftr c 16 + Z.land c 65535 in
  let c := if negb (Z.shiftr c 16 =? 0) then Z.land c 65535 + 1 else c in
  Z.land (Z.lnot c) 65535.

Definition sum (l : words) : Z := foldr Z.add 0 l.

(** The words of the header with the checksum taken as zero. *)
Definition vr_ip_csum (w : words) (b : Z) : Z :=
  let hdr := take (Z.to_nat (ip_hl w b * 2)) (drop (Z.to_nat b) (zset w (b + 5) 0)) in
  let s := sum hdr in
  let s := Z.shiftr s 16 + Z.land s 65535 in
  let s := s + Z.shiftr s 16 in
  Z.land (Z.lnot s) 65535.

Definition vr_ip_decrement_ttl (w : words) (b : Z) : words :=
  let diff := vr_incremental_diff (ip_ttl w b) (u32 (ip_ttl w b - 1)) 0 in
  let w1 := set_ttl w b (ip_ttl w b - 1) in
  zset w1 (b + 5) (vr_ip_incremental_csum (ip_csum w1 b) diff).

(** ** One's complement arithmetic is arithmetic modulo 65535 *)

Definition eqm (a b : Z) : Prop := exists k, a = b + k * 65535.
Infix "==" := eqm (at level 70).

Lemma eqm_by a b k : a = b + k * 65535 -> a == b.
Proof. by exists k. Qed.

#[export] Instance eqm_equiv : Equivalence eqm.
Proof.
  split.
  - intros a. exists 0. lia.
  - intros a b [k ->]. exists (- k). lia.
  - intros a b c [k ->] [j ->]. exists (k + j). lia.
Qed.

#[export] Instance eqm_add : Proper (eqm ==> eqm ==> eqm) Z.add.
Proof. intros a a' [k ->] b b' [j ->]. exists (k + j). lia. Qed.

#[export] Instance eqm_sub : Proper (eqm ==> eqm ==> eqm) Z.sub.
Proof. intros a a' [k ->] b b' [j ->]. exists (k - j). lia. Qed.

Lemma eqm_small a b : a == b -> 0 < a <= 65535 -> 0 < b <= 65535 -> a = b.
Proof. intros [k E] Ha Hb. lia. Qed.

Lemma low_high x : 0 <= x -> x = 65536 * Z.shiftr x 16 + Z.land x 65535 /\ 0 <= Z.shiftr x 16 /\ 0 <= Z.land x 65535 < 65536.
Proof.
  intros Hx. change 65535 with (Z.ones 16). rewrite Z.land_ones, Z.shiftr_div_pow2 by lia.
  change (2 ^ 16) with 65536. pose proof (Z.div_mod x 65536). pose proof (Z.mod_pos_bound x 65536).
  split; [lia|]. split; [apply Z.div_pos; lia|lia].
Qed.

(** Adding the high to the low half. *)
Lemma fold_half x : 0 <= x < 4294967296 ->
  let y := Z.shiftr x 16 + Z.land x 65535 in y == x /\ 0 <= y <= 131070 /\ (0 < x -> 0 < y).
Proof.
  intros Hx y. destruct (low_high x) as (E & H1 & H2); [lia|]. fold (Z.shiftr x 16) in *. split.
  - apply (eqm_by _ _ (- Z.shiftr x 16)). unfold y. lia.
  - unfold y. lia.
Qed.

(** The second fold, as the code writes it. *)
Lemma fold_carry y : 0 <= y <= 131070 ->
  let z := if negb (Z.shiftr y 16 =? 0) then Z.land y 65535 + 1 else y in
  z == y /\ 0 <= z <= 65535 /\ (0 < y -> 0 < z).
Proof.
  intros Hy z. destruct (low_high y) as (E & H1 & H2); [lia|]. unfold z.
  destruct (Z.eqb_spec (Z.shiftr y 16) 0) as [E0|E0]; cbn.
  - split; [done|]. lia.
  - assert (Z.shiftr y 16 = 1) by lia. split; [apply (eqm_by _ _ (-1)); lia|lia].
Qed.

Lemma not_word x : 0 <= x <= 65535 -> Z.land (Z.lnot x) 65535 = 65535 - x.
Proof.
  intros Hx. change 65535 with (Z.ones 16) at 1. rewrite Z.land_ones by lia. change (2 ^ 16) with 65536.
  unfold Z.lnot. rewrite <- (Z.mod_unique_pos (Z.pred (- x)) 65536 (-1) (65535 - x)); lia.
Qed.

Lemma diff_spec old new diff :
  0 <= old <= UINT_MAX -> 0 <= new <= UINT_MAX -> 0 <= diff <= UINT_MAX ->
  let d := vr_incremental_diff old new diff in d == diff + (new - old) /\ 0 <= d <= UINT_MAX.
Proof.
  intros Ho Hn Hd. unfold vr_incremental_diff.
  set (tmp := u32 (UINT_MAX - old + new)). set (t := if tmp <? new then u32 (tmp + 1) else tmp).
  assert (Ht : t == new - old /\ 0 <= t <= UINT_MAX).
  { unfold t. destruct (decide (old < new)) as [Hlt|Hge].
    - assert (tmp = new - old - 1) as Etmp.
      { unfold tmp, u32. symmetry. apply (Z.mod_unique_pos _ _ 1); lia. }
      rewrite (proj2 (Z.ltb_lt _ _)) by lia. rewrite u32_small by lia. split; [apply (eqm_by _ _ 0); lia|lia].
    - assert (tmp = UINT_MAX - old + new) as Etmp by (unfold tmp; apply u32_small; lia).
      rewrite (proj2 (Z.ltb_ge _ _)) by lia. split; [apply (eqm_by _ _ 65537); lia|lia]. }
  destruct Ht as [Et Hr]. assert (H : let d := u32 (diff + t) in
    let d' := if d <? t then u32 (d + 1) else d in d' == diff + t /\ 0 <= d' <= UINT_MAX).
  { cbn zeta. destruct (decide (diff + t <= UINT_MAX)).
    - rewrite u32_small by lia. rewrite (proj2 (Z.ltb_ge _ _)) by lia. split; [done|lia].
    - assert (u32 (diff + t) = diff + t - 4294967296) as ->.
      { unfold u32. symmetry. apply (Z.mod_unique_pos _ _ 1); lia. }
      rewrite (proj2 (Z.ltb_lt _ _)) by lia. rewrite u32_small by lia. split; [apply (eqm_by _ _ (-65537)); lia|lia]. }
  cbn zeta in *. destruct H as [H1 H2]. split; [|exact H2]. rewrite H1. by rewrite Et.
Qed.

Lemma incremental_spec csum diff :
  0 <= csum <= 65535 -> 0 <= diff <= UINT_MAX ->
  let c := vr_ip_incremental_csum csum diff in
  c == csum - diff /\ 0 <= c <= 65535 /\ (csum < 65535 -> c < 65535).
Proof.
  intros Hc Hd. unfold vr_ip_incremental_csum.
  destruct (fold_half diff) as (E1 & R1 & _); [lia|]. set (d1 := Z.shiftr diff 16 + Z.land diff 65535) in *.
  destruct (fold_carry d1 R1) as (E2 & R2 & _). cbn zeta in E2, R2. set (d2 := if _ : bool then _ else d1) in *.
  rewrite (not_word csum) by lia.
  destruct (fold_half (65535 - csum + d2)) as (E3 & R3 & P3); [lia|].
  set (c1 := Z.shiftr (65535 - csum + d2) 16 + Z.land (65535 - csum + d2) 65535) in *.
  destruct (fold_carry c1 R3) as (E4 & R4 & P4). cbn zeta in E4, R4, P4. set (c2 := if _ : bool then _ else c1) in *.
  cbn zeta. rewrite (not_word c2) by lia. split; [|lia].
  rewrite E4, E3, E2, E1. apply (eqm_by _ _ 0). lia.
Qed.

(** A field of two words counts as its value. *)
Lemma word32_eqm w i : word32 w i == word w i + word w (i + 1).
Proof. unfold word32. apply (eqm_by _ _ (word w (i + 1))). lia. Qed.

Lemma sum_app l1 l2 : sum (l1 ++ l2) = sum l1 + sum l2.
Proof. unfold sum. induction l1 as [|x l1 IH]; cbn; [done|]. rewrite IH. lia. Qed.

Lemma sum_insert l (k : nat) x y : l !! k = Some y -> sum (<[k := x]> l) = sum l - y + x.
Proof.
  intros Hk. rewrite insert_take_drop by (by eapply lookup_lt_Some). rewrite <- (take_drop_middle l k y Hk) at 3.
  rewrite !sum_app. cbn. lia.
Qed.

Definition is_word (x : Z) : Prop := 0 <= x <= 65535.
Definition wordy (l : words) : Prop := Forall is_word l.

Lemma sum_range l : wordy l -> 0 <= sum l <= 65535 * zlen l.
Proof. unfold zlen, sum. induction 1 as [|x l Hx Hl IH]; cbn [foldr length]; unfold is_word in *; lia. Qed.

(** What the full computation yields, for a header of at most 60 bytes. *)
Lemma full_spec l : wordy l -> zlen l <= 30 -> 0 < sum l ->
  let s := Z.shiftr (sum l) 16 + Z.land (sum l) 65535 in
  let s := s + Z.shiftr s 16 in
  let c := Z.land (Z.lnot s) 65535 in c + sum l == 0 /\ 0 <= c < 65535.
Proof.
  intros Hw Hl Hs s0 s c. pose proof (sum_range l Hw) as Hr. unfold zlen in *.
  destruct (low_high (sum l)) as (E & H1 & H2); [lia|].
  assert (R0 : 0 < s0 <= 65535 + 30) by (unfold s0; lia).
  destruct (low_high s0) as (E0 & H3 & H4); [lia|].
  assert (Hs0 : s0 == sum l) by (apply (eqm_by _ _ (- Z.shiftr (sum l) 16)); unfold s0; lia).
  assert (Hc : c == - s0 /\ 0 <= c < 65535).
  { unfold c, s. destruct (decide (s0 <= 65535)).
    - assert (Z.shiftr s0 16 = 0) as Ez by lia. rewrite Ez, Z.add_0_r, not_word by lia.
      split; [apply (eqm_by _ _ 1); lia|lia].
    - assert (Z.shiftr s0 16 = 1) as Ez by lia. rewrite Ez.
      assert (Z.land (Z.lnot (s0 + 1)) 65535 = 65535 - (s0 + 1 - 65536)) as ->.
      { change 65535 with (Z.ones 16) at 1. rewrite Z.land_ones by lia. change (2 ^ 16) with 65536. unfold Z.lnot.
        symmetry. apply (Z.mod_unique_pos _ _ (-2)); lia. }
      split; [apply (eqm_by _ _ 2); lia|lia]. }
  destruct Hc as (Hc & Hcr). split; [|done]. rewrite Hc, <- Hs0. apply (eqm_by _ _ 0). lia.
Qed.

(** ** Headers *)

(** The sum of the words of a header without its checksum. *)
Definition hsum (w : words) (b : Z) : Z :=
  sum (take (Z.to_nat (ip_hl w b * 2)) (drop (Z.to_nat b) (zset w (b + 5) 0))).

Record header (w : words) (b : Z) : Prop := {
  hd_b : 0 <= b;
  hd_words : wordy w;
  hd_hl : 5 <= ip_hl w b;
  hd_fits : b + ip_hl w b * 2 <= zlen w
}.

Lemma ip_hl_max w b : 0 <= ip_hl w b <= 15.
Proof.
  unfold ip_hl. change 15 with (Z.ones 4) at 1 2. rewrite Z.land_ones by lia. pose proof (Z.mod_pos_bound (word w b) (2 ^ 4)). lia.
Qed.

Lemma word_zset_ne w k x i : i <> k -> word (zset w k x) i = word w i.
Proof. intros H. unfold word. by rewrite zget_zset_ne by congruence. Qed.

Lemma word_zset_eq w k x : 0 <= k < zlen w -> word (zset w k x) k = x.
Proof. intros H. unfold word. by rewrite zget_zset_eq. Qed.

Lemma zset_insert {A} (l : list A) k x : 0 <= k -> zset l k x = <[Z.to_nat k := x]> l.
Proof. intros. unfold zset. by rewrite decide_True. Qed.

Lemma zget_lookup {A} (l : list A) k : 0 <= k -> zget l k = l !! Z.to_nat k.
Proof. intros. unfold zget. by rewrite decide_True. Qed.

Lemma hsum_zset w b k x :
  header w b -> b < k < b + ip_hl w b * 2 -> k <> b + 5 -> hsum (zset w k x) b = hsum w b - word w k + x.
Proof.
  intros [H1 H2 H3 H4] Hk Hne. unfold hsum.
  assert (El : ip_hl (zset w k x) b = ip_hl w b) by (unfold ip_hl; by rewrite word_zset_ne by lia). rewrite El.
  rewrite !zset_insert by lia. rewrite list_insert_insert_ne by lia. rewrite drop_insert_ge by lia.
  rewrite take_insert_lt by lia. destruct (zget_is_Some w k) as [y Hy]; [lia|].
  rewrite (sum_insert _ _ _ y); [by unfold word; rewrite Hy|].
  rewrite lookup_take_lt, lookup_drop by lia. replace (Z.to_nat b + (Z.to_nat k - Z.to_nat b))%nat with (Z.to_nat k) by lia.
  rewrite list_lookup_insert_ne by lia. by rewrite zget_lookup in Hy by lia.
Qed.

Lemma hsum_csum w b c : header w b -> hsum (zset w (b + 5) c) b = hsum w b.
Proof.
  intros [H1 H2 H3 H4]. unfold hsum. rewrite zset_zset.
  assert (El : ip_hl (zset w (b + 5) c) b = ip_hl w b) by (unfold ip_hl; by rewrite word_zset_ne by lia). by rewrite El.
Qed.

Lemma wordy_zset w k x : wordy w -> is_word x -> wordy (zset w k x).
Proof. intros Hw Hx. unfold zset. case_decide; [|done]. by apply Forall_insert. Qed.

Lemma word_is_word w k : wordy w -> is_word (word w k).
Proof.
  intros Hw. unfold word. destruct (zget w k) as [x|] eqn:E; [|unfold is_word; cbn; lia]. cbn.
  unfold zget in E. case_decide; [|done]. by eapply Forall_lookup_1.
Qed.

Lemma header_zset w b k x : header w b -> is_word x -> k <> b -> header (zset w k x) b.
Proof.
  intros [H1 H2 H3 H4] Hx Hk. assert (El : ip_hl (zset w k x) b = ip_hl w b) by (unfold ip_hl; by rewrite word_zset_ne by congruence).
  split; rewrite ?El, ?zlen_zset; try done. by apply wordy_zset.
Qed.

(** The computed checksum is the only one that completes the sum. *)
Lemma ip_csum_spec w b : header w b -> vr_ip_csum w b + hsum w b == 0 /\ 0 <= vr_ip_csum w b < 65535.
Proof.
  intros [H1 H2 H3 H4]. pose proof (ip_hl_max w b) as Hm.
  unfold vr_ip_csum, hsum. set (l := take _ _).
  assert (Hw : wordy l).
  { apply Forall_take, Forall_drop, wordy_zset; [done|]. unfold is_word. lia. }
  assert (Hl : zlen l <= 30).
  { unfold zlen, l. rewrite length_take. lia. }
  assert (Hs : 0 < sum l).
  { assert (E : l !! 0%nat = Some (word w b)).
    { unfold l. rewrite lookup_take_lt, lookup_drop by lia. rewrite zset_insert, list_lookup_insert_ne by lia.
      destruct (zget_is_Some w b) as [y Hy]; [lia|]. unfold word. rewrite Hy. cbn. rewrite zget_lookup in Hy by lia.
      by rewrite Nat.add_0_r. }
    pose proof (sum_insert l 0 0 _ E) as Hins. pose proof (sum_range (<[0%nat := 0]> l)) as Hr.
    assert (wordy (<[0%nat := 0]> l)) as Hw0 by (apply Forall_insert; [done|unfold is_word; lia]).
    specialize (Hr Hw0). assert (0 < word w b); [|lia]. pose proof (word_is_word w b H2) as Hwd. unfold is_word in Hwd.
    destruct (decide (word w b = 0)) as [E0|]; [|lia]. unfold ip_hl in H3. rewrite E0, Z.land_0_l in H3. lia. }
  apply (full_spec l Hw Hl Hs).
Qed.

Lemma csum_unique c c' s : c + s == 0 -> c' + s == 0 -> 0 <= c < 65535 -> 0 <= c' < 65535 -> c = c'.
Proof.
  intros H1 H2 Hc Hc'. assert (E : 65535 - c == 65535 - c').
  { transitivity (65535 - (c + s) + s); [apply (eqm_by _ _ 0); lia|]. rewrite H1, <- H2. apply (eqm_by _ _ 0). lia. }
  apply eqm_small in E; lia.
Qed.

(** A header whose sum changes by [new - old] gets the right checksum incrementally. *)
Lemma incremental_is_full w w' b old new :
  header w b -> header w' b -> 0 <= old <= UINT_MAX -> 0 <= new <= UINT_MAX ->
  ip_csum w b = vr_ip_csum w b -> hsum w' b == hsum w b + (new - old) ->
  vr_ip_incremental_csum (ip_csum w b) (vr_incremental_diff old new 0) = vr_ip_csum w' b.
Proof.
  intros Hh Hh' Ho Hn Hc Hs. destruct (ip_csum_spec w b Hh) as [E1 R1]. destruct (ip_csum_spec w' b Hh') as [E2 R2].
  destruct (diff_spec old new 0) as [Ed Rd]; [done|done|lia|]. rewrite Hc.
  destruct (incremental_spec (vr_ip_csum w b) (vr_incremental_diff old new 0)) as (E3 & R3 & R4); [lia|done|].
  apply (csum_unique _ _ (hsum w' b)); [|done|lia|lia].
  rewrite E3, Ed, Hs. transitivity (vr_ip_csum w b + hsum w b); [apply (eqm_by _ _ 0); lia|done].
Qed.

Lemma u16_split x : 0 <= x <= UINT_MAX -> is_word (u16 x) /\ is_word (u16 (x / 65536)) /\ u16 x + u16 (x / 65536) == x.
Proof.
  intros Hx. assert (0 <= x / 65536 < 65536) by (split; [apply Z.div_pos; lia|apply Z.div_lt_upper_bound; lia]).
  rewrite (u16_small (x / 65536)) by lia. unfold u16, is_word. pose proof (Z.mod_pos_bound x 65536). pose proof (Z.div_mod x 65536).
  split; [lia|]. split; [lia|]. apply (eqm_by _ _ (- (x / 65536))). lia.
Qed.

Lemma hsum_set32 w b k x :
  header w b -> b < k -> k + 1 < b + ip_hl w b * 2 -> k <> b + 5 -> k + 1 <> b + 5 -> 0 <= x <= UINT_MAX ->
  header (set32 w k x) b /\ hsum (set32 w k x) b == hsum w b + (x - word32 w k).
Proof.
  intros Hh H1 H2 H3 H4 Hx. destruct (u16_split x Hx) as (W1 & W2 & Ex). unfold set32.
  assert (Hh1 : header (zset w k (u16 x)) b) by (apply header_zset; [done|done|lia]).
  assert (El : ip_hl (zset w k (u16 x)) b = ip_hl w b) by (unfold ip_hl; by rewrite word_zset_ne by lia).
  split; [apply header_zset; [done|done|lia]|].
  rewrite hsum_zset by (done || rewrite ?El; lia). rewrite hsum_zset by (done || lia). rewrite word_zset_ne by lia.
  destruct (word32_eqm w k) as [k1 E1], Ex as [k2 E2]. exists (k1 + k2). lia.
Qed.

(** C39: the incremental update that follows the rewriting of an address gives the checksum
    that a computation over the whole new header gives. *)
Theorem csum_incremental_equiv w b k x :
  header w b -> ip_csum w b = vr_ip_csum w b -> k = b + 6 \/ k = b + 8 -> 0 <= x <= UINT_MAX ->
  vr_ip_incremental_csum (ip_csum w b) (vr_incremental_diff (word32 w k) x 0) = vr_ip_csum (set32 w k x) b.
Proof.
  intros Hh Hc Hk Hx. pose proof (hd_hl _ _ Hh). destruct (hsum_set32 w b k x Hh) as [Hh' Hs]; try lia; [destruct Hk; lia..|].
  apply incremental_is_full; try done. unfold word32. pose proof (word_is_word w k (hd_words _ _ Hh)).
  pose proof (word_is_word w (k + 1) (hd_words _ _ Hh)). unfold is_word in *. lia.
Qed.

Lemma ttl_word x t : 0 <= x <= 65535 -> 0 <= t < 256 ->
  let y := Z.lor (Z.ldiff x 255) t in is_word y /\ y = x - Z.land x 255 + t.
Proof.
  intros Hx Ht y. assert (E : Z.ldiff x 255 = x / 256 * 256).
  { change 255 with (Z.ones 8). rewrite Z.ldiff_ones_r, Z.shiftl_mul_pow2, Z.shiftr_div_pow2 by lia. done. }
  assert (E2 : y = x / 256 * 256 + t).
  { unfold y. rewrite E. rewrite <- Z.lxor_lor, <- Z.add_nocarry_lxor; [done|..]; change 256 with (2 ^ 8) at 2;
      rewrite <- Z.shiftl_mul_pow2 by lia; apply Z.bits_inj'; intros n Hn; rewrite Z.land_spec, Z.bits_0;
      (destruct (Z.ltb_spec n 8); [rewrite Z.shiftl_spec_low by lia; done|]);
      rewrite (Z.bits_above_log2 t); [apply andb_false_r|lia| |apply andb_false_r|lia|];
      (destruct (decide (t = 0)) as [->|]; [cbn; lia|]; apply Z.log2_lt_pow2; [lia|];
       assert (2 ^ 8 <= 2 ^ n) by (apply Z.pow_le_mono_r; lia); lia). }
  assert (E3 : Z.land x 255 = x mod 256) by (change 255 with (Z.ones 8); by rewrite Z.land_ones).
  pose proof (Z.div_mod x 256). pose proof (Z.mod_pos_bound x 256). assert (0 <= x / 256 < 256).
  { split; [apply Z.div_pos; lia|apply Z.div_lt_upper_bound; lia]. }
  rewrite E3, E2. unfold is_word. lia.
Qed.

Lemma hsum_ttl w b t : header w b -> 0 <= t < 256 ->
  header (set_ttl w b t) b /\ hsum (set_ttl w b t) b = hsum w b + (t - ip_ttl w b).
Proof.
  intros Hh Ht. pose proof (hd_hl _ _ Hh). pose proof (word_is_word w (b + 4) (hd_words _ _ Hh)) as Hw.
  unfold set_ttl. rewrite u8_small by lia. destruct (ttl_word (word w (b + 4)) t Hw Ht) as [W E].
  split; [apply header_zset; [done|done|lia]|]. rewrite hsum_zset by (done || lia). rewrite E. unfold ip_ttl. lia.
Qed.

Lemma ip_ttl_range w b : 0 <= ip_ttl w b < 256.
Proof.
  unfold ip_ttl. change 255 with (Z.ones 8). rewrite Z.land_ones by lia. apply Z.mod_pos_bound. done.
Qed.

(** Decrementing the time to live of a header with a correct checksum leaves a header
    with a correct checksum, as long as it is not zero. *)
Theorem decrement_ttl_csum w b :
  header w b -> ip_csum w b = vr_ip_csum w b -> 0 < ip_ttl w b ->
  let w' := vr_ip_decrement_ttl w b in
  ip_ttl w' b = ip_ttl w b - 1 /\ ip_csum w' b = vr_ip_csum w' b.
Proof.
  intros Hh Hc Ht. pose proof (ip_ttl_range w b) as Hr. unfold vr_ip_decrement_ttl. rewrite (u32_small (ip_ttl w b - 1)) by lia.
  destruct (hsum_ttl w b (ip_ttl w b - 1) Hh) as [Hh1 Hs1]; [lia|]. set (w1 := set_ttl w b (ip_ttl w b - 1)) in *.
  pose proof (hd_hl _ _ Hh) as Hhl. pose proof (hd_fits _ _ Hh) as Hfit. pose proof (hd_b _ _ Hh) as Hb.
  assert (E5 : ip_csum w1 b = ip_csum w b) by (unfold ip_csum, w1, set_ttl; by rewrite word_zset_ne by lia).
  assert (Hl1 : zlen w1 = zlen w) by (unfold w1, set_ttl; by rewrite zlen_zset).
  cbn zeta. split.
  - unfold ip_ttl at 1. rewrite word_zset_ne by lia. unfold w1, set_ttl. rewrite word_zset_eq by lia.
    rewrite u8_small by lia. pose proof (word_is_word w (b + 4) (hd_words _ _ Hh)) as Hw.
    apply Z.bits_inj'. intros n Hn. rewrite Z.land_spec, Z.lor_spec, Z.ldiff_spec.
    destruct (Z.ltb_spec n 8) as [H8|H8].
    + change 255 with (Z.ones 8). rewrite Z.ones_spec_low by lia. cbn. by rewrite andb_false_r, andb_true_r.
    + change 255 with (Z.ones 8). rewrite Z.ones_spec_high by lia. rewrite andb_false_r. symmetry.
      destruct (decide (ip_ttl w b - 1 = 0)) as [->|]; [apply Z.bits_0|]. apply Z.bits_above_log2; [lia|].
      apply Z.log2_lt_pow2; [lia|]. assert (2 ^ 8 <= 2 ^ n) by (apply Z.pow_le_mono_r; lia). lia.
  - unfold ip_csum at 1. rewrite word_zset_eq by lia. rewrite E5.
    rewrite (incremental_is_full w w1 b) by (done || lia || (rewrite Hs1; done)).
    unfold vr_ip_csum. assert (El : forall c, ip_hl (zset w1 (b + 5) c) b = ip_hl w1 b).
    { intros c. unfold ip_hl. by rewrite word_zset_ne by lia. }
    by rewrite El, zset_zset.
Qed.

End Csum.
