(* ===== verification/FlowPacket.v ===== *)
(** * Packets and the flows they belong to (dp-core/vr_proto_ip.c, vr_proto_ip6.c)

    The part of a packet that the flow module reads and rewrites: the words of its IP header
    and payload, the interface it came in on and the nexthop found so far.  From them the key
    of its flow is formed; a flow with address translation rewrites addresses, ports and
    checksums. *)

From S2P Require Import Prelude Bits FlowEntry Fragment VrfAssign FatFlow Csum.

Module FlowPacket.
Import Csum.

Definition VIF_TYPE_PHYSICAL : Z := 2.
Definition VIF_FLAG_POLICY_ENABLED : Z := 1.
Definition VIF_FLAG_DHCP_ENABLED : Z := 256.
Definition VIF_FLAG_DROP_NEW_FLOWS : Z := 262144.
Definition NH_ENCAP : Z := 2.
Definition NH_FLAG_VALID : Z := 1.
Definition NH_FLAG_RELAXED_POLICY : Z := 256.
Definition NH_FLAG_ROUTE_LOOKUP : Z := 65536.
Definition NH_FLAG_FLOW_LOOKUP : Z := 524288.
Definition VP_FLAG_FLOW_GET : Z := 4.
Definition VP_FLAG_FLOW_SET : Z := 8.
Definition VP_FLAG_MULTICAST : Z := 16.
Definition VP_FLAG_CSUM_PARTIAL : Z := 32.
Definition VP_FLAG_DIAG : Z := 256.
Definition VR_IP_PROTO_ICMP6 : Z := 58.
Definition VR_IP6_PROTO_FRAG : Z := 44.
Definition VR_ICMP_TYPE_ECHO_REPLY : Z := 0.
Definition VR_ICMP_TYPE_DEST_UNREACH : Z := 3.
Definition VR_ICMP_TYPE_ECHO : Z := 8.
Definition VR_ICMP_TYPE_TIME_EXCEEDED : Z := 11.
Definition VR_ICMP6_TYPE_ECHO_REQ : Z := 128.
Definition VR_ICMP6_TYPE_ECHO_REPLY : Z := 129.
Definition VR_UDP_DHCP_CPORT : Z := Z.lor (Z.shiftl 17 16) (Fragment.ntohs 68).

(** ** Data *)

(** An interface: [fv_ptr] identifies it. *)
Record flow_vif := mk_fvif { fv_ptr : Z; fv_idx : Z; fv_vif : VrfAssign.vr_interface; fv_fat : FatFlow.fat_vif }.

Record flow_nh := mk_fnh { fn_type : Z; fn_id : Z; fn_flags : Z; fn_vrf : Z; fn_dev : option flow_vif }.

Record flow_packet := mk_pkt {
  vp_id : Z;
  vp_type : Z;
  vp_flags : Z;
  vp_if : flow_vif;
  vp_nh : option flow_nh;
  vp_len : Z;
  vp_words : words
}.

Definition set_nh (nh : option flow_nh) (p : flow_packet) : flow_packet :=
  mk_pkt (vp_id p) (vp_type p) (vp_flags p) (vp_if p) nh (vp_len p) (vp_words p).
Definition set_words (w : words) (p : flow_packet) : flow_packet :=
  mk_pkt (vp_id p) (vp_type p) (vp_flags p) (vp_if p) (vp_nh p) (vp_len p) w.
Definition set_vp_flags (f : Z) (p : flow_packet) : flow_packet :=
  mk_pkt (vp_id p) (vp_type p) f (vp_if p) (vp_nh p) (vp_len p) (vp_words p).

Inductive flow_result := FLOW_HELD | FLOW_FORWARD | FLOW_DROP | FLOW_TRAP | FLOW_CONSUMED | FLOW_EVICT_DROP.

Definition vif_is_virtual (v : flow_vif) : bool :=
  (VrfAssign.vif_type (fv_vif v) =? VrfAssign.VIF_TYPE_VIRTUAL) || (VrfAssign.vif_type (fv_vif v) =? VrfAssign.VIF_TYPE_VIRTUAL_VLAN).
Definition vif_is_fabric (v : flow_vif) : bool := VrfAssign.vif_type (fv_vif v) =? VIF_TYPE_PHYSICAL.
Definition vif_is_service (v : flow_vif) : bool := VrfAssign.vif_is_service (fv_vif v).
Definition vif_has (flag : Z) (v : flow_vif) : bool := has flag (VrfAssign.vif_flags (fv_vif v)).

(** The header in the form that the fragment table takes. *)
Definition ip_of (w : words) : Fragment.vr_ip :=
  Fragment.mk_ip (ip_version w 0) (ip_hl w 0) (word w 1) (word w 2) (word w 3) (ip_saddr w 0) (ip_daddr w 0).

Definition vr_ip_transport_header_valid (w : words) : bool :=
  let offset := Z.land (Fragment.ntohs (word w 3)) Fragment.VR_IP_FRAG_OFFSET_MASK in
  if negb (Fragment.vr_ip_is_ip4 (ip_of w)) then true else offset =? 0.

Definition vr_ip_fragment (w : words) : bool :=
  let frag := Fragment.ntohs (word w 3) in
  if negb (Fragment.vr_ip_is_ip4 (ip_of w)) then false
  else negb (Z.land frag Fragment.VR_IP_FRAG_OFFSET_MASK =? 0) || negb (Z.land frag Fragment.VR_IP_MF =? 0).

Definition icmp_type (w : words) (t : Z) : Z := Z.land (word w t) 255.
Definition vr_icmp_error (w : words) (t : Z) : bool :=
  (icmp_type w t =? VR_ICMP_TYPE_DEST_UNREACH) || (icmp_type w t =? VR_ICMP_TYPE_TIME_EXCEEDED).
Definition vr_icmp_echo (w : words) (t : Z) : bool :=
  (icmp_type w t =? VR_ICMP_TYPE_ECHO) || (icmp_type w t =? VR_ICMP_TYPE_ECHO_REPLY).
Definition vr_icmp6_error (w : words) (t : Z) : bool := icmp_type w t <? 128.

Definition word_bytes (n : nat) (w : words) (i : Z) : list Z := seq 0 n ≫= fun k => le_bytes 2 (word w (i + Z.of_nat k)).

(** ** The key of a packet *)

(** The interface whose configuration counts: the one of the virtual machine. *)
Definition local_vif (p : flow_packet) : option flow_vif :=
  if vif_is_virtual (vp_if p) then Some (vp_if p)
  else if vif_is_fabric (vp_if p) then
    match vp_nh p with
    | Some nh => if has NH_FLAG_VALID (fn_flags nh) then fn_dev nh else None
    | None => None
    end
  else None.

Definition vr_flow_fat_flow_lookup (p : flow_packet) (l4_proto sport dport : Z) : option FatFlow.fat_flow_port_mask :=
  match local_vif p with
  | None => Some FatFlow.NO_PORT_MASK
  | Some v => FatFlow.vif_fat_flow_lookup (fv_fat v) (u8 l4_proto) sport dport
  end.

Definition vr_inet_flow_nexthop (p : flow_packet) (vlan : Z) : option Z :=
  match vif_is_fabric (vp_if p), vp_nh p with
  | true, Some nh =>
      if fn_type nh =? NH_ENCAP then (fun d => VrfAssign.vif_nh_id (fv_vif d)) <$> fn_dev nh else Some (u16 (fn_id nh))
  | _, _ =>
      if vif_is_service (vp_if p) then VrfAssign.vif_vrf_table_get_nh (fv_vif (vp_if p)) vlan
      else Some (VrfAssign.vif_nh_id (fv_vif (vp_if p)))
  end.

Definition mask_ports (m : FatFlow.fat_flow_port_mask) (sport dport : Z) : Z * Z :=
  match m with
  | FatFlow.SOURCE_PORT_MASK => (0, dport)
  | FatFlow.DESTINATION_PORT_MASK => (sport, 0)
  | FatFlow.ALL_PORT_MASK => (0, 0)
  | FatFlow.NO_PORT_MASK => (sport, dport)
  end.

Definition has_ports (proto : Z) : bool :=
  (proto =? VR_IP_PROTO_TCP) || (proto =? VR_IP_PROTO_UDP) || (proto =? VR_IP_PROTO_SCTP).

(** The ports that stand in the key, for a header whose transport part starts at [t]. *)
Definition inet_ports (proto : Z) (w : words) (t : Z) : Z * Z :=
  if proto =? VR_IP_PROTO_ICMP then
    if vr_icmp_echo w t then (word w (t + 2), VR_ICMP_TYPE_ECHO_REPLY) else (0, icmp_type w t)
  else if has_ports proto then (word w t, word w (t + 1))
  else (0, 0).

(** The rest of [vr_inet_proto_flow]. *)
Definition inet_key (p : flow_packet) (vlan b : Z) : option vr_flow :=
  let w := vp_words p in
  let proto := ip_proto w b in
  let '(sport, dport) := inet_ports proto w (b + ip_hl w b * 2) in
  mask ← vr_flow_fat_flow_lookup p proto sport dport;
  let '(sport, dport) := mask_ports mask sport dport in
  nh_id ← vr_inet_flow_nexthop p vlan;
  Some (vr_inet_fill_flow nh_id (word_bytes 4 w (b + 6)) proto sport dport).

(** The header at word [b]; an ICMP error is filed under the flow of the packet it quotes,
    the other way round. *)
Definition vr_inet_proto_flow (p : flow_packet) (vlan : Z) : option (Z * vr_flow) :=
  let w := vp_words p in
  let t := ip_hl w 0 * 2 in
  if (ip_proto w 0 =? VR_IP_PROTO_ICMP) && vr_icmp_error w t then
    let b := t + 4 in
    if (ip_proto w b =? VR_IP_PROTO_ICMP) && vr_icmp_error w (b + ip_hl w b * 2) then Some (-1, key_zero)
    else k ← inet_key p vlan b; Some (0, vr_inet_flow_swap k)
  else k ← inet_key p vlan 0; Some (0, k).

(** The state of the fragment table, for packets without a transport header. *)
Definition vr_inet_form_flow (sec vrf : Z) (p : flow_packet) (vlan : Z) (ft : Fragment.frag_tables)
    : option (Z * vr_flow * Fragment.frag_tables) :=
  let w := vp_words p in
  if vr_ip_transport_header_valid w then
    '(ret, k) ← vr_inet_proto_flow p vlan; Some (ret, k, ft)
  else
    match Fragment.vr_inet_fragment_flow sec vrf (ip_of w) ft with
    | (None, ft1) => Some (-1, key_zero, ft1)
    | (Some (sport, dport), ft1) =>
        nh_id ← vr_inet_flow_nexthop p vlan;
        Some (0, vr_inet_fill_flow nh_id (word_bytes 4 w 6) (ip_proto w 0) sport dport, ft1)
    end.

(** IPv6: the fixed header is twenty words, the addresses start at the fourth. *)
Definition ip6_nxt (w : words) (b : Z) : Z := Z.land (word w (b + 3)) 255.

Definition inet6_ports (proto : Z) (w : words) (t : Z) : Z * Z :=
  if proto =? VR_IP_PROTO_ICMP6 then
    if (icmp_type w t =? VR_ICMP6_TYPE_ECHO_REQ) || (icmp_type w t =? VR_ICMP6_TYPE_ECHO_REPLY)
    then (word w (t + 2), Fragment.ntohs VR_ICMP6_TYPE_ECHO_REPLY) else (0, icmp_type w t)
  else if has_ports proto then (word w t, word w (t + 1))
  else (0, 0).

Definition inet6_key (p : flow_packet) (vlan b : Z) : option vr_flow :=
  let w := vp_words p in
  let proto := ip6_nxt w b in
  let '(sport, dport) := inet6_ports proto w (b + 20) in
  mask ← vr_flow_fat_flow_lookup p proto sport dport;
  let '(sport, dport) := mask_ports mask sport dport in
  nh_id ← vr_inet_flow_nexthop p vlan;
  Some (vr_inet6_fill_flow nh_id (word_bytes 16 w (b + 4)) proto sport dport).

Definition vr_inet6_flow_swap (k : vr_flow) : vr_flow :=
  let '(sport, dport) := if negb (flow_proto k =? VR_IP_PROTO_ICMP6) then (flow_dport k, flow_sport k)
                         else (flow_sport k, flow_dport k) in
  mk_key (flow_family k) (flow_proto k) sport dport (flow_nh_id k)
    (take 16 (drop 16 (flow_ip k)) ++ take 16 (flow_ip k)) (flow_key_len k).

Definition vr_inet6_form_flow (p : flow_packet) (vlan : Z) : option (Z * vr_flow) :=
  let w := vp_words p in
  if (ip6_nxt w 0 =? VR_IP_PROTO_ICMP6) && vr_icmp6_error w 20 then
    let b := 24 in
    if (ip6_nxt w b =? VR_IP_PROTO_ICMP6) && vr_icmp6_error w (b + 20) then Some (-1, key_zero)
    else k ← inet6_key p vlan b; Some (0, vr_inet6_flow_swap k)
  else k ← inet6_key p vlan 0; Some (0, k).

Definition vr_inet_flow_allow_new_flow (p : flow_packet) : bool :=
  negb (vr_ip_fragment (vp_words p) && negb (Fragment.vr_ip_fragment_head (ip_of (vp_words p)))).

(** The ports of the flow are masked, so that it has no state of a connection. *)
Definition vr_inet_flow_is_fat_flow (k : vr_flow) : bool :=
  ((flow_sport k =? 0) || (flow_dport k =? 0)) && has_ports (flow_proto k).

Definition vr_flow_is_fat_flow (p : flow_packet) (k : vr_flow) : bool :=
  if vp_type p =? VP_TYPE_IP then vr_inet_flow_is_fat_flow k
  else if vp_type p =? VP_TYPE_IP6 then vr_inet_flow_is_fat_flow k
  else false.

(** ** Address translation *)

Definition of_bytes (l : list Z) : Z := foldr (fun b acc => b + 256 * acc) 0 l.
Definition flow4_sip (k : vr_flow) : Z := of_bytes (take 4 (flow_ip k)).
Definition flow4_dip (k : vr_flow) : Z := of_bytes (take 4 (drop 4 (flow_ip k))).

(** The packet that an ICMP error quotes went the other way. *)
Definition nat_icmp (flags : Z) (rkey : vr_flow) (w : words) : words :=
  let t := ip_hl w 0 * 2 in
  if (ip_proto w 0 =? VR_IP_PROTO_ICMP) && vr_icmp_error w t then
    let b := t + 4 in
    let w1 := if has VR_FLOW_FLAG_SNAT flags then set32 w (b + 8) (flow4_dip rkey) else w in
    let w2 := if has VR_FLOW_FLAG_DNAT flags then set32 w1 (b + 6) (flow4_sip rkey) else w1 in
    let w3 := if has VR_FLOW_FLAG_SNAT flags || has VR_FLOW_FLAG_DNAT flags
              then zset w2 (b + 5) (vr_ip_csum w2 b) else w2 in
    let t2 := b + ip_hl w3 b * 2 in
    let w4 := if has VR_FLOW_FLAG_SPAT flags then zset w3 (t2 + 1) (flow_dport rkey) else w3 in
    if has VR_FLOW_FLAG_DPAT flags then zset w4 t2 (flow_sport rkey) else w4
  else w.

Definition nat_addrs (flags : Z) (key rkey : vr_flow) (w : words) : words * Z :=
  let '(w1, inc1) :=
    if has VR_FLOW_FLAG_SNAT flags && (ip_saddr w 0 =? flow4_sip key)
    then (set32 w 6 (flow4_dip rkey), vr_incremental_diff (ip_saddr w 0) (flow4_dip rkey) 0) else (w, 0) in
  if has VR_FLOW_FLAG_DNAT flags
  then (set32 w1 8 (flow4_sip rkey), vr_incremental_diff (ip_daddr w1 0) (flow4_sip rkey) inc1) else (w1, inc1).

Definition nat_ports (flags : Z) (rkey : vr_flow) (w : words) (inc : Z) : words * Z :=
  if vr_ip_transport_header_valid w then
    let t := ip_hl w 0 * 2 in
    let '(w1, inc1) :=
      if has VR_FLOW_FLAG_SPAT flags
      then (zset w t (flow_dport rkey), vr_incremental_diff (word w t) (flow_dport rkey) inc) else (w, inc) in
    if has VR_FLOW_FLAG_DPAT flags
    then (zset w1 (t + 1) (flow_sport rkey), vr_incremental_diff (word w1 (t + 1)) (flow_sport rkey) inc1) else (w1, inc1)
  else (w, inc).

(** The word of the transport checksum. *)
Definition csum_word (w : words) : option Z :=
  let t := ip_hl w 0 * 2 in
  if ip_proto w 0 =? VR_IP_PROTO_TCP then Some (t + 8)
  else if ip_proto w 0 =? VR_IP_PROTO_UDP then Some (t + 3)
  else None.

Definition l4_csum (partial : bool) (old inc : Z) : Z :=
  let c := if partial then Z.land old 65535 else Z.land (Z.lnot old) 65535 in
  let c := u32 (c + inc) in
  let c := if c <? inc then u32 (c + 1) else c in
  let c := Z.land c 65535 + Z.shiftr c 16 in
  let c := if negb (Z.shiftr c 16 =? 0) then Z.land c 65535 + 1 else c in
  if partial then Z.land c 65535 else Z.land (Z.lnot c) 65535.

Definition vr_ip_update_csum (vp_flags ip_inc inc : Z) (w : words) : words :=
  let w1 := if negb (ip_inc =? 0) then zset w 5 (vr_ip_incremental_csum (ip_csum w 0) ip_inc) else w in
  match csum_word w1 with
  | None => w1
  | Some k =>
      if vr_ip_transport_header_valid w1 then
        let partial := has VP_FLAG_CSUM_PARTIAL vp_flags in
        zset w1 k (l4_csum partial (word w1 k) (if partial then ip_inc else inc))
      else w1
  end.

Definition nat_words (vp_flags flags : Z) (key rkey : vr_flow) (w : words) : words :=
  let w0 := nat_icmp flags rkey w in
  let '(w1, ip_inc) := nat_addrs flags key rkey w0 in
  let '(w2, inc) := nat_ports flags rkey w1 ip_inc in
  if negb (has VP_FLAG_DIAG vp_flags) then vr_ip_update_csum vp_flags ip_inc inc w2 else w2.

Section nat.
Context {S : Type} `{FlowStore S}.

(** [None]: the packet is dropped, because the reverse flow is missing.  The nexthop of a
    packet that changes its VRF is looked up again; [lookup] is that look-up. *)
Definition vr_inet_flow_nat (lookup : Z -> Z -> option flow_nh) (i : Z) (p : flow_packet) (dvrf : Z) (s : S)
    : option flow_packet :=
  if fld fe_rflow i s <? 0 then None
  else
    match vr_flow_get_entry (fld fe_rflow i s) s with
    | None => None
    | Some r =>
        let flags := fld fe_flags i s in
        let p1 := set_words (nat_words (vp_flags p) flags (fld fe_key i s) (fld fe_key r s) (vp_words p)) p in
        match vp_nh p1 with
        | Some nh =>
            if has VR_FLOW_FLAG_VRFT flags && (negb (fn_vrf nh =? dvrf) || has NH_FLAG_ROUTE_LOOKUP (fn_flags nh))
            then Some (set_nh (lookup dvrf (ip_daddr (vp_words p1) 0)) p1) else Some p1
        | None => Some p1
        end
    end.
End nat.

End FlowPacket.
