(* ===== verification/FlowNatProofs.v ===== *)
(** * Address translation keeps checksums, and an answer finds its way back *)

From S2P Require Import Prelude Bits FlowEntry Fragment VrfAssign FatFlow Csum FlowPacket.

Module FlowNatProofs.
Import Csum FlowPacket.

(** ** Words behind the header *)

Definition lsum (w : words) (t : Z) : Z := sum (drop (Z.to_nat t) w).

Lemma lsum_zset w t k x : 0 <= t <= k -> k < zlen w -> lsum (zset w k x) t = lsum w t - word w k + x.
Proof.
  intros Ht Hk. unfold lsum. rewrite zset_insert by lia. rewrite drop_insert_ge by lia.
  destruct (zget_is_Some w k) as [y Hy]; [lia|]. rewrite (sum_insert _ _ _ y); [by unfold word; rewrite Hy|].
  rewrite lookup_drop. replace (Z.to_nat t + (Z.to_nat k - Z.to_nat t))%nat with (Z.to_nat k) by lia.
  by rewrite zget_lookup in Hy by lia.
Qed.

Lemma lsum_zset_low w t k x : 0 <= k < t -> lsum (zset w k x) t = lsum w t.
Proof. intros Hk. unfold lsum. rewrite zset_insert by lia. by rewrite drop_insert_lt by lia. Qed.

Lemma lsum_set32_low w t k x : 0 <= k -> k + 1 < t -> lsum (set32 w k x) t = lsum w t.
Proof. intros. unfold set32. by rewrite !lsum_zset_low by lia. Qed.

Lemma word32_set32 w k x : 0 <= k -> k + 1 < zlen w -> 0 <= x <= UINT_MAX -> word32 (set32 w k x) k = x.
Proof.
  intros Hk Hl Hx. unfold word32, set32. rewrite word_zset_ne by lia. rewrite !word_zset_eq by (rewrite ?zlen_zset; lia).
  assert (0 <= x / 65536 < 65536) by (split; [apply Z.div_pos; lia|apply Z.div_lt_upper_bound; lia]).
  rewrite (u16_small (x / 65536)) by lia. unfold u16. pose proof (Z.div_mod x 65536). lia.
Qed.

Lemma word_set32_ne w k x i : i <> k -> i <> k + 1 -> word (set32 w k x) i = word w i.
Proof. intros. unfold set32. by rewrite !word_zset_ne by done. Qed.

Lemma zlen_set32 w k x : zlen (set32 w k x) = zlen w.
Proof. unfold set32. by rewrite !zlen_zset. Qed.

(** The start of the header: version, length, fragment, protocol, and the checksum. *)
Definition same_start (w w' : words) : Prop := zlen w' = zlen w /\ forall i, i <= 5 -> word w' i = word w i.

Lemma same_start_set32 w k x : 5 < k -> same_start w (set32 w k x).
Proof. intros. split; [apply zlen_set32|]. intros i Hi. apply word_set32_ne; lia. Qed.

Lemma same_start_zset w k x : 5 < k -> same_start w (zset w k x).
Proof. intros. split; [apply zlen_zset|]. intros i Hi. apply word_zset_ne; lia. Qed.

Lemma same_start_trans w1 w2 w3 : same_start w1 w2 -> same_start w2 w3 -> same_start w1 w3.
Proof. intros [A1 A2] [B1 B2]. split; [congruence|]. intros i Hi. by rewrite B2, A2. Qed.

Lemma start_fields w w' : same_start w w' ->
  ip_hl w' 0 = ip_hl w 0 /\ ip_proto w' 0 = ip_proto w 0 /\
  vr_ip_transport_header_valid w' = vr_ip_transport_header_valid w.
Proof.
  intros [_ H]. unfold ip_hl, ip_proto, vr_ip_transport_header_valid, ip_of, Fragment.vr_ip_is_ip4, ip_version. cbn.
  by rewrite !H by lia.
Qed.

(** ** Keys *)

Record wf_key (k : vr_flow) : Prop := {
  wk_ip : Forall (fun b => 0 <= b < 256) (flow_ip k);
  wk_sport : 0 <= flow_sport k < 65536;
  wk_dport : 0 <= flow_dport k < 65536
}.

Lemma of_bytes_range (l : list Z) : Forall (fun b => 0 <= b < 256) l -> 0 <= of_bytes l < 256 ^ zlen l.
Proof.
  unfold zlen. induction 1 as [|b l Hb Hl IH]; [cbn; lia|]. cbn [of_bytes foldr length]. fold (of_bytes l).
  rewrite Nat2Z.inj_succ, Z.pow_succ_r by lia. lia.
Qed.

Lemma of_bytes4 (l : list Z) : Forall (fun b => 0 <= b < 256) l -> 0 <= of_bytes (take 4 l) <= UINT_MAX.
Proof.
  intros Hl. pose proof (of_bytes_range (take 4 l) (Forall_take _ 4 _ Hl)) as H.
  assert (256 ^ zlen (take 4 l) <= 256 ^ 4); [|lia]. apply Z.pow_le_mono_r; [lia|]. unfold zlen. rewrite length_take. lia.
Qed.

Lemma key_addrs k : wf_key k -> 0 <= flow4_sip k <= UINT_MAX /\ 0 <= flow4_dip k <= UINT_MAX.
Proof. intros [H _ _]. split; apply of_bytes4; [done|by apply Forall_drop]. Qed.

(** ** The stages *)

Lemma addr_range w i : wordy w -> 0 <= word32 w i <= UINT_MAX.
Proof.
  intros Hw. unfold word32. pose proof (word_is_word w i Hw). pose proof (word_is_word w (i + 1) Hw). unfold is_word in *. lia.
Qed.

(** One address is replaced. *)
Lemma addr_step w k x inc :
  header w 0 -> k = 6 \/ k = 8 -> 0 <= x <= UINT_MAX -> 0 <= inc <= UINT_MAX ->
  let w' := set32 w k x in let inc' := vr_incremental_diff (word32 w k) x inc in
  header w' 0 /\ same_start w w' /\ 0 <= inc' <= UINT_MAX /\ hsum w' 0 - inc' == hsum w 0 - inc /\
  ip_saddr w' 0 + ip_daddr w' 0 - inc' == ip_saddr w 0 + ip_daddr w 0 - inc /\
  lsum w' (ip_hl w 0 * 2) = lsum w (ip_hl w 0 * 2).
Proof.
  intros Hh Hk Hx Hinc w' inc'. pose proof (hd_hl _ _ Hh). pose proof (hd_fits _ _ Hh).
  destruct (hsum_set32 w 0 k x Hh) as [Hh' Hs]; try lia; [destruct Hk; lia..|]. fold w' in Hh', Hs.
  destruct (diff_spec (word32 w k) x inc) as [Ed Rd]; [by apply addr_range, (hd_words _ _ Hh)|done|done|]. fold inc' in Ed, Rd.
  split; [done|]. split; [apply same_start_set32; lia|]. split; [done|]. split.
  - rewrite Hs, Ed. apply (eqm_by _ _ 0). lia.
  - split; [|apply lsum_set32_low; lia]. rewrite Ed. apply (eqm_by _ _ 0). change (ip_saddr w' 0) with (word32 w' 6). change (ip_daddr w' 0) with (word32 w' 8).
    change (ip_saddr w 0) with (word32 w 6). change (ip_daddr w 0) with (word32 w 8). unfold w'.
    assert (Ho : forall j, j <> k -> j + 1 <> k -> j <> k + 1 -> word32 (set32 w k x) j = word32 w j).
    { intros j H1 H2 H3. unfold word32. by rewrite !word_set32_ne by lia. }
    destruct Hk as [-> | ->]; rewrite word32_set32 by lia; rewrite Ho by lia; lia.
Qed.

Lemma addrs_spec flags key rkey w :
  header w 0 -> wf_key rkey ->
  let '(w1, inc) := nat_addrs flags key rkey w in
  header w1 0 /\ same_start w w1 /\ 0 <= inc <= UINT_MAX /\ hsum w1 0 - inc == hsum w 0 /\
  ip_saddr w1 0 + ip_daddr w1 0 - inc == ip_saddr w 0 + ip_daddr w 0 /\
  lsum w1 (ip_hl w 0 * 2) = lsum w (ip_hl w 0 * 2).
Proof.
  intros Hh Hk. destruct (key_addrs rkey Hk) as [Rs Rd]. unfold nat_addrs.
  assert (H1 : let '(w1, inc1) := if has VR_FLOW_FLAG_SNAT flags && (ip_saddr w 0 =? flow4_sip key)
      then (set32 w 6 (flow4_dip rkey), vr_incremental_diff (ip_saddr w 0) (flow4_dip rkey) 0) else (w, 0) in
    header w1 0 /\ same_start w w1 /\ 0 <= inc1 <= UINT_MAX /\ hsum w1 0 - inc1 == hsum w 0 /\
    ip_saddr w1 0 + ip_daddr w1 0 - inc1 == ip_saddr w 0 + ip_daddr w 0 /\
    lsum w1 (ip_hl w 0 * 2) = lsum w (ip_hl w 0 * 2)).
  { destruct (_ && _).
    - destruct (addr_step w 6 (flow4_dip rkey) 0 Hh) as (A1 & A2 & A3 & A4 & A5 & A6); [by left|done|lia|].
      change (ip_saddr w 0) with (word32 w 6) in *. rewrite Z.sub_0_r in A4, A5. done.
    - rewrite !Z.sub_0_r. split; [done|]. split; [by split|]. split; [lia|]. split_and!; first [done|reflexivity]. }
  destruct (if has VR_FLOW_FLAG_SNAT flags && (ip_saddr w 0 =? flow4_sip key) then _ else _) as [w1 inc1].
  destruct H1 as (A1 & A2 & A3 & A4 & A5 & A6). destruct (has VR_FLOW_FLAG_DNAT flags); [|done].
  destruct (addr_step w1 8 (flow4_sip rkey) inc1 A1) as (B1 & B2 & B3 & B4 & B5 & B6); [by right|done|done|].
  change (ip_daddr w1 0) with (word32 w1 8). destruct (start_fields _ _ A2) as (Ehl & _). rewrite Ehl in B6.
  split; [done|]. split; [by eapply same_start_trans|]. split; [done|]. split; [by rewrite B4|].
  split; [by rewrite B5|]. by rewrite B6.
Qed.

(** One port is replaced. *)
Lemma port_step w k x inc :
  header w 0 -> ip_hl w 0 * 2 <= k < zlen w -> 0 <= x < 65536 -> 0 <= inc <= UINT_MAX ->
  let w' := zset w k x in let inc' := vr_incremental_diff (word w k) x inc in
  header w' 0 /\ same_start w w' /\ 0 <= inc' <= UINT_MAX /\ hsum w' 0 = hsum w 0 /\
  ip_saddr w' 0 = ip_saddr w 0 /\ ip_daddr w' 0 = ip_daddr w 0 /\
  lsum w' (ip_hl w 0 * 2) - inc' == lsum w (ip_hl w 0 * 2) - inc.
Proof.
  intros Hh Hk Hx Hinc w' inc'. pose proof (hd_hl _ _ Hh). pose proof (hd_fits _ _ Hh).
  pose proof (word_is_word w k (hd_words _ _ Hh)) as Hwk. unfold is_word in Hwk.
  destruct (diff_spec (word w k) x inc) as [Ed Rd]; [lia|lia|done|]. fold inc' in Ed, Rd.
  split; [apply header_zset; [done|unfold is_word; lia|lia]|]. split; [apply same_start_zset; lia|]. split; [done|]. split.
  - unfold hsum, w'. assert (El : ip_hl (zset w k x) 0 = ip_hl w 0) by (unfold ip_hl; by rewrite word_zset_ne by lia). rewrite El.
    rewrite !zset_insert by lia. rewrite list_insert_insert_ne by lia. rewrite !drop_0. by rewrite take_insert_ge by lia.
  - unfold ip_saddr, ip_daddr, word32, w'. rewrite !word_zset_ne by lia. split; [done|]. split; [done|].
    rewrite lsum_zset by lia. rewrite Ed. apply (eqm_by _ _ 0). lia.
Qed.

Lemma ports_spec flags rkey w inc :
  header w 0 -> wf_key rkey -> ip_hl w 0 * 2 + 1 < zlen w -> 0 <= inc <= UINT_MAX ->
  let '(w1, inc1) := nat_ports flags rkey w inc in
  header w1 0 /\ same_start w w1 /\ 0 <= inc1 <= UINT_MAX /\ hsum w1 0 = hsum w 0 /\
  ip_saddr w1 0 = ip_saddr w 0 /\ ip_daddr w1 0 = ip_daddr w 0 /\
  lsum w1 (ip_hl w 0 * 2) - inc1 == lsum w (ip_hl w 0 * 2) - inc.
Proof.
  intros Hh [_ Rs Rd] Hl Hinc. unfold nat_ports.
  destruct (vr_ip_transport_header_valid w); [|split; [done|]; split; [by split|]; split_and!; first [done|reflexivity|lia]].
  set (t := ip_hl w 0 * 2) in *.
  assert (H1 : let '(w1, inc1) := if has VR_FLOW_FLAG_SPAT flags
      then (zset w t (flow_dport rkey), vr_incremental_diff (word w t) (flow_dport rkey) inc) else (w, inc) in
    header w1 0 /\ same_start w w1 /\ 0 <= inc1 <= UINT_MAX /\ hsum w1 0 = hsum w 0 /\
    ip_saddr w1 0 = ip_saddr w 0 /\ ip_daddr w1 0 = ip_daddr w 0 /\ lsum w1 t - inc1 == lsum w t - inc).
  { destruct (has VR_FLOW_FLAG_SPAT flags); [|split; [done|]; split; [by split|]; split_and!; first [done|reflexivity|lia]].
    apply port_step; [done|lia|done|done]. }
  destruct (if has VR_FLOW_FLAG_SPAT flags then _ else _) as [w1 inc1].
  destruct H1 as (A1 & A2 & A3 & A4 & A5 & A6 & A7). destruct (has VR_FLOW_FLAG_DPAT flags); [|done].
  destruct (start_fields _ _ A2) as (Ehl & _). destruct A2 as [A2l A2w].
  destruct (port_step w1 (t + 1) (flow_sport rkey) inc1 A1) as (B1 & B2 & B3 & B4 & B5 & B6 & B7); [rewrite Ehl; lia|done|done|].
  rewrite Ehl in B7. fold t in B7. split; [done|]. split; [by eapply same_start_trans; [split|]|]. split; [done|].
  split; [congruence|]. split; [congruence|]. split; [congruence|]. by rewrite B7.
Qed.

Lemma l4_csum_spec old inc :
  0 <= old <= 65535 -> 0 <= inc <= UINT_MAX -> l4_csum false old inc == old - inc /\ is_word (l4_csum false old inc).
Proof.
  intros Ho Hi. unfold l4_csum. rewrite (not_word old) by done. set (c0 := 65535 - old).
  assert (H : let c := u32 (c0 + inc) in let c' := if c <? inc then u32 (c + 1) else c in
    c' == c0 + inc /\ 0 <= c' <= UINT_MAX).
  { cbn zeta. destruct (decide (c0 + inc <= UINT_MAX)).
    - rewrite u32_small by lia. rewrite (proj2 (Z.ltb_ge _ _)) by lia. split; [done|lia].
    - assert (u32 (c0 + inc) = c0 + inc - 4294967296) as ->.
      { unfold u32. symmetry. apply (Z.mod_unique_pos _ _ 1); lia. }
      rewrite (proj2 (Z.ltb_lt _ _)) by lia. rewrite u32_small by lia. split; [apply (eqm_by _ _ (-65537)); lia|lia]. }
  cbn zeta in *. set (c1 := if u32 (c0 + inc) <? inc then _ else _) in *. destruct H as [E1 R1].
  destruct (fold_half c1) as (E2 & R2 & _); [lia|]. cbn zeta in E2, R2. rewrite Z.add_comm in E2, R2.
  set (c2 := Z.land c1 65535 + Z.shiftr c1 16) in *.
  destruct (fold_carry c2 R2) as (E3 & R3 & _). cbn zeta in E3, R3. set (c3 := if negb _ then _ else c2) in *.
  rewrite not_word by lia. split; [|unfold is_word; lia]. rewrite E3, E2, E1. unfold c0. apply (eqm_by _ _ 0). lia.
Qed.

(** ** The theorem *)

(** The transport checksum is right: addresses, a constant for the rest of the pseudo
    header, and all words of the transport part add up to zero. *)
Definition l4_valid (pseudo : Z) (w : words) : Prop :=
  ip_saddr w 0 + ip_daddr w 0 + pseudo + lsum w (ip_hl w 0 * 2) == 0.

Lemma update_csum_spec w1 w2 ip_inc inc k vp_flags pseudo c :
  header w2 0 -> same_start w1 w2 -> csum_word w2 = Some k -> ip_hl w2 0 * 2 <= k < zlen w2 ->
  vr_ip_transport_header_valid w2 = true -> has VP_FLAG_CSUM_PARTIAL vp_flags = false ->
  0 <= ip_inc <= UINT_MAX -> 0 <= inc <= UINT_MAX ->
  ip_csum w1 0 = c -> 0 <= c < 65535 -> c + (hsum w2 0 - ip_inc) == 0 ->
  ip_saddr w2 0 + ip_daddr w2 0 + pseudo + lsum w2 (ip_hl w2 0 * 2) - inc == 0 ->
  let w3 := vr_ip_update_csum vp_flags ip_inc inc w2 in
  ip_csum w3 0 = vr_ip_csum w3 0 /\ l4_valid pseudo w3.
Proof.
  intros Hh [Hl Hst] Hk Hkr Hv Hp Ri Rinc Hc Rc Hs Hl4. unfold vr_ip_update_csum. rewrite Hp.
  pose proof (hd_hl _ _ Hh). pose proof (hd_fits _ _ Hh).
  assert (Hc2 : ip_csum w2 0 = c) by (rewrite <- Hc; unfold ip_csum; by rewrite Hst by lia).
  (* the checksum of the header *)
  set (wa := if negb (ip_inc =? 0) then _ else w2).
  assert (Ha : header wa 0 /\ hsum wa 0 = hsum w2 0 /\ ip_csum wa 0 + hsum wa 0 == 0 /\ 0 <= ip_csum wa 0 < 65535 /\
    zlen wa = zlen w2 /\ forall i, i <> 5 -> word wa i = word w2 i).
  { unfold wa. destruct (Z.eqb_spec ip_inc 0) as [E|E]; cbn [negb].
    - rewrite E, Z.sub_0_r in Hs. rewrite Hc2. done.
    - destruct (incremental_spec (ip_csum w2 0) ip_inc) as (E1 & R1 & R2); [lia|done|].
      set (c' := vr_ip_incremental_csum (ip_csum w2 0) ip_inc) in *.
      split; [apply header_zset; [done|done|lia]|]. split; [by apply (hsum_csum w2 0)|].
      assert (Ecs : ip_csum (zset w2 5 c') 0 = c') by (unfold ip_csum; apply word_zset_eq; lia). rewrite Ecs.
      split; [|split; [lia|split; [apply zlen_zset|intros i Hi; by apply word_zset_ne]]].
      change (zset w2 5 c') with (zset w2 (0 + 5) c'). rewrite hsum_csum by done. rewrite E1, Hc2.
      etransitivity; [|exact Hs]. apply (eqm_by _ _ 0). lia. }
  destruct Ha as (Hha & Hsa & Hca & Rca & Hla & Hwa).
  assert (Ehl : ip_hl wa 0 = ip_hl w2 0) by (unfold ip_hl; by rewrite Hwa by lia).
  assert (Epr : csum_word wa = Some k).
  { rewrite <- Hk. unfold csum_word, ip_proto. rewrite Ehl. by rewrite Hwa by lia. }
  assert (Ev : vr_ip_transport_header_valid wa = true).
  { rewrite <- Hv. unfold vr_ip_transport_header_valid, ip_of, Fragment.vr_ip_is_ip4, ip_version. cbn. by rewrite !Hwa by lia. }
  rewrite Epr, Ev. cbn zeta. set (ck := word wa k). set (x := l4_csum false ck inc).
  assert (Eck : ck = word w2 k) by (unfold ck; apply Hwa; lia).
  pose proof (word_is_word wa k (hd_words _ _ Hha)) as Rck. fold ck in Rck.
  destruct (l4_csum_spec ck inc Rck Rinc) as [Ex Rx]. fold x in Ex, Rx.
  assert (Hh3 : header (zset wa k x) 0) by (apply header_zset; [done|done|lia]).
  split.
  - assert (Ecs : ip_csum (zset wa k x) 0 = ip_csum wa 0) by (unfold ip_csum; apply word_zset_ne; lia).
    rewrite Ecs. destruct (ip_csum_spec _ _ Hh3) as [E3 R3].
    assert (Eh : hsum (zset wa k x) 0 = hsum wa 0).
    { unfold hsum. assert (El : ip_hl (zset wa k x) 0 = ip_hl wa 0) by (unfold ip_hl; by rewrite word_zset_ne by lia). rewrite El.
      rewrite !zset_insert by lia. rewrite list_insert_insert_ne by lia. rewrite !drop_0. by rewrite take_insert_ge by lia. }
    apply (csum_unique _ _ (hsum wa 0)); [done|by rewrite <- Eh|done|done].
  - unfold l4_valid. assert (El : ip_hl (zset wa k x) 0 = ip_hl wa 0) by (unfold ip_hl; by rewrite word_zset_ne by lia).
    rewrite El, Ehl, lsum_zset by lia. fold ck.
    assert (Es : lsum wa (ip_hl w2 0 * 2) = lsum w2 (ip_hl w2 0 * 2)).
    { unfold wa. destruct (negb _); [|done]. apply lsum_zset_low. lia. }
    unfold ip_saddr, ip_daddr, word32. rewrite !word_zset_ne by lia. rewrite !Hwa by lia. rewrite Es, Ex.
    etransitivity; [|exact Hl4]. unfold ip_saddr, ip_daddr, word32. apply (eqm_by _ _ 0). lia.
Qed.

Lemma icmp_idle flags rkey w : ip_proto w 0 <> VR_IP_PROTO_ICMP -> nat_icmp flags rkey w = w.
Proof. intros Hp. unfold nat_icmp. by rewrite (proj2 (Z.eqb_neq _ _)) by done. Qed.

Lemma csum_word_range w k : csum_word w = Some k -> ip_hl w 0 * 2 + 3 <= k.
Proof. unfold csum_word. repeat case_match; intros; simplify_eq; lia. Qed.

(** C35: address and port translation keeps checksums right: a TCP or UDP packet whose IP
    header checksum and transport checksum are correct has correct ones after the
    translation, whatever combination of addresses and ports the flow rewrites. *)
Theorem nat_keeps_csums vp_flags flags key rkey w k pseudo :
  header w 0 -> wf_key rkey -> csum_word w = Some k -> k < zlen w ->
  vr_ip_transport_header_valid w = true -> has VP_FLAG_CSUM_PARTIAL vp_flags = false -> has VP_FLAG_DIAG vp_flags = false ->
  ip_csum w 0 = vr_ip_csum w 0 -> l4_valid pseudo w ->
  let w' := nat_words vp_flags flags key rkey w in
  ip_csum w' 0 = vr_ip_csum w' 0 /\ l4_valid pseudo w'.
Proof.
  intros Hh Hrk Hk Hkl Hv Hpart Hdiag Hc Hl4. unfold nat_words. rewrite Hdiag. cbn [negb].
  pose proof (csum_word_range _ _ Hk) as Hkr.
  rewrite icmp_idle by (unfold csum_word in Hk; repeat case_match; rewrite ?Z.eqb_eq in *; congruence || (intros E; rewrite E in *; done)).
  pose proof (addrs_spec flags key rkey w Hh Hrk) as H1. destruct (nat_addrs flags key rkey w) as [w1 ip_inc].
  destruct H1 as (A1 & A2 & A3 & A4 & A5 & A6). destruct (start_fields _ _ A2) as (S1 & S2 & S3).
  pose proof (ports_spec flags rkey w1 ip_inc A1 Hrk) as H2. rewrite S1 in H2. destruct A2 as [Al Aw]. rewrite Al in H2.
  specialize (H2 ltac:(lia) A3). destruct (nat_ports flags rkey w1 ip_inc) as [w2 inc].
  destruct H2 as (B1 & B2 & B3 & B4 & B5 & B6 & B7). destruct (start_fields _ _ B2) as (T1 & T2 & T3).
  assert (Hst : same_start w w2) by (by eapply same_start_trans; [split|]).
  destruct (ip_csum_spec w 0 Hh) as [Ec Rc]. destruct Hst as [Hstl Hstw].
  apply (update_csum_spec w w2 ip_inc inc k vp_flags pseudo (vr_ip_csum w 0)); try done.
  - unfold csum_word in *. by rewrite T1, S1, T2, S2.
  - rewrite T1, S1, Hstl. lia.
  - by rewrite T3, S3.
  - rewrite B4. rewrite A4. done.
  - unfold l4_valid in Hl4. rewrite T1, S1, B5, B6. rewrite A6 in B7.
    transitivity (ip_saddr w1 0 + ip_daddr w1 0 - ip_inc + pseudo + (lsum w2 (ip_hl w 0 * 2) - inc + ip_inc)).
    { apply (eqm_by _ _ 0). lia. }
    rewrite A5, B7. etransitivity; [|exact Hl4]. apply (eqm_by _ _ 0). lia.
Qed.

(** ** Answers *)

(** The reply to a translated packet: addresses and ports change places. *)
Definition reply_of (w : words) : words :=
  let t := ip_hl w 0 * 2 in
  zset (zset (set32 (set32 w 6 (ip_daddr w 0)) 8 (ip_saddr w 0)) t (word w (t + 1))) (t + 1) (word w t).

Definition addrs (w : words) : Z * Z * Z * Z :=
  let t := ip_hl w 0 * 2 in (ip_saddr w 0, word w t, ip_daddr w 0, word w (t + 1)).

Lemma word32_set32_ne w k x j : j <> k -> j + 1 <> k -> j <> k + 1 -> word32 (set32 w k x) j = word32 w j.
Proof. intros. unfold word32. by rewrite !word_set32_ne by lia. Qed.

Lemma update_csum_addrs vp_flags ip_inc inc w :
  5 <= ip_hl w 0 -> addrs (vr_ip_update_csum vp_flags ip_inc inc w) = addrs w.
Proof.
  intros Hhl. unfold vr_ip_update_csum. set (wa := if negb (ip_inc =? 0) then _ else w).
  assert (Hwa : forall i, i <> 5 -> word wa i = word w i).
  { intros i Hi. unfold wa. destruct (negb _); [by apply word_zset_ne|done]. }
  assert (Ehl : ip_hl wa 0 = ip_hl w 0) by (unfold ip_hl; by rewrite Hwa by lia).
  assert (Ea : addrs wa = addrs w).
  { unfold addrs, ip_saddr, ip_daddr, word32. rewrite Ehl. by rewrite !Hwa by lia. }
  destruct (csum_word wa) as [k|] eqn:Ek; [|done]. apply csum_word_range in Ek. rewrite Ehl in Ek.
  destruct (vr_ip_transport_header_valid wa); [|done]. rewrite <- Ea. unfold addrs, ip_saddr, ip_daddr, word32.
  set (x := l4_csum _ _ _). assert (El : ip_hl (zset wa k x) 0 = ip_hl wa 0) by (unfold ip_hl; by rewrite word_zset_ne by lia).
  rewrite El, Ehl. by rewrite !word_zset_ne by lia.
Qed.

(** What the translation makes of addresses and ports. *)
Lemma nat_words_addrs vp_flags flags key rkey w :
  header w 0 -> wf_key rkey -> ip_proto w 0 <> VR_IP_PROTO_ICMP -> vr_ip_transport_header_valid w = true ->
  ip_hl w 0 * 2 + 1 < zlen w ->
  let w' := nat_words vp_flags flags key rkey w in let t := ip_hl w 0 * 2 in
  ip_hl w' 0 = ip_hl w 0 /\ addrs w' =
    (if has VR_FLOW_FLAG_SNAT flags && (ip_saddr w 0 =? flow4_sip key) then flow4_dip rkey else ip_saddr w 0,
     if has VR_FLOW_FLAG_SPAT flags then flow_dport rkey else word w t,
     if has VR_FLOW_FLAG_DNAT flags then flow4_sip rkey else ip_daddr w 0,
     if has VR_FLOW_FLAG_DPAT flags then flow_sport rkey else word w (t + 1)).
Proof.
  intros Hh Hrk Hp Hv Hl. destruct (key_addrs rkey Hrk) as [Rs Rd]. pose proof (hd_hl _ _ Hh) as Hhl.
  unfold nat_words. rewrite icmp_idle by done. cbn zeta.
  pose proof (addrs_spec flags key rkey w Hh Hrk) as H1.
  assert (Ha : let '(w1, _) := nat_addrs flags key rkey w in
    ip_saddr w1 0 = (if has VR_FLOW_FLAG_SNAT flags && (ip_saddr w 0 =? flow4_sip key) then flow4_dip rkey else ip_saddr w 0) /\
    ip_daddr w1 0 = (if has VR_FLOW_FLAG_DNAT flags then flow4_sip rkey else ip_daddr w 0) /\
    forall i, 10 <= i -> word w1 i = word w i).
  { unfold nat_addrs. change (ip_saddr ?w 0) with (word32 w 6). change (ip_daddr ?w 0) with (word32 w 8).
    destruct (_ && _), (has VR_FLOW_FLAG_DNAT flags); change (ip_saddr ?w 0) with (word32 w 6); change (ip_daddr ?w 0) with (word32 w 8);
      rewrite ?(word32_set32_ne _ 8 _ 6), ?(word32_set32_ne _ 6 _ 8) by lia;
      rewrite ?word32_set32 by (rewrite ?zlen_set32; lia); (split; [done|]); (split; [done|]); intros i Hi;
      by rewrite ?word_set32_ne by lia. }
  destruct (nat_addrs flags key rkey w) as [w1 ip_inc]. destruct Ha as (E1 & E2 & E3).
  destruct H1 as (A1 & A2 & A3 & _). destruct (start_fields _ _ A2) as (S1 & S2 & S3). destruct A2 as [Al _].
  pose proof (ports_spec flags rkey w1 ip_inc A1 Hrk) as H2. rewrite S1, Al in H2. specialize (H2 Hl A3).
  assert (Hpt : let '(w2, _) := nat_ports flags rkey w1 ip_inc in let t := ip_hl w 0 * 2 in
    word w2 t = (if has VR_FLOW_FLAG_SPAT flags then flow_dport rkey else word w t) /\
    word w2 (t + 1) = (if has VR_FLOW_FLAG_DPAT flags then flow_sport rkey else word w (t + 1))).
  { unfold nat_ports. rewrite S3, Hv, S1. set (t := ip_hl w 0 * 2) in *.
    destruct (has VR_FLOW_FLAG_SPAT flags), (has VR_FLOW_FLAG_DPAT flags);
      rewrite ?(word_zset_ne _ t _ (t + 1)), ?(word_zset_ne _ (t + 1) _ t) by lia;
      rewrite ?word_zset_eq by (rewrite ?zlen_zset; lia); rewrite ?E3 by lia; done. }
  destruct (nat_ports flags rkey w1 ip_inc) as [w2 inc]. destruct Hpt as [P1 P2].
  destruct H2 as (B1 & B2 & _ & _ & B5 & B6 & _). destruct (start_fields _ _ B2) as (T1 & _).
  assert (Ehl : ip_hl w2 0 = ip_hl w 0) by congruence.
  assert (Ead : addrs w2 = (ip_saddr w1 0, word w2 (ip_hl w 0 * 2), ip_daddr w1 0, word w2 (ip_hl w 0 * 2 + 1))).
  { unfold addrs. by rewrite Ehl, B5, B6. }
  assert (Hres : addrs w2 = (if has VR_FLOW_FLAG_SNAT flags && (ip_saddr w 0 =? flow4_sip key) then flow4_dip rkey else ip_saddr w 0,
     if has VR_FLOW_FLAG_SPAT flags then flow_dport rkey else word w (ip_hl w 0 * 2),
     if has VR_FLOW_FLAG_DNAT flags then flow4_sip rkey else ip_daddr w 0,
     if has VR_FLOW_FLAG_DPAT flags then flow_sport rkey else word w (ip_hl w 0 * 2 + 1))) by (by rewrite Ead, E1, E2, P1, P2).
  destruct (negb (has VP_FLAG_DIAG vp_flags)); [|by split].
  rewrite update_csum_addrs by lia. split; [|done]. rewrite <- Ehl.
  unfold vr_ip_update_csum. set (wa := if negb (ip_inc =? 0) then _ else w2).
  assert (E0 : ip_hl wa 0 = ip_hl w2 0).
  { unfold wa. destruct (negb _); [|done]. unfold ip_hl. by rewrite word_zset_ne by lia. }
  destruct (csum_word wa) as [k|] eqn:Ek; [|done]. apply csum_word_range in Ek. rewrite E0, Ehl in Ek.
  destruct (vr_ip_transport_header_valid wa); [|done]. rewrite <- E0. unfold ip_hl. by rewrite word_zset_ne by lia.
Qed.

Lemma reply_facts w :
  header w 0 -> ip_hl w 0 * 2 + 1 < zlen w ->
  header (reply_of w) 0 /\ same_start w (reply_of w) /\
  addrs (reply_of w) = let '(sa, sp, da, dp) := addrs w in (da, dp, sa, sp).
Proof.
  intros Hh Hl. pose proof (hd_hl _ _ Hh) as Hhl. pose proof (hd_words _ _ Hh) as Hw.
  pose proof (addr_range w 6 Hw) as R6. pose proof (addr_range w 8 Hw) as R8. unfold reply_of.
  change (ip_saddr w 0) with (word32 w 6). change (ip_daddr w 0) with (word32 w 8). set (t := ip_hl w 0 * 2) in *.
  set (w1 := set32 (set32 w 6 (word32 w 8)) 8 (word32 w 6)).
  destruct (hsum_set32 w 0 6 (word32 w 8) Hh) as [H1 _]; [lia..|].
  assert (Ehl1 : ip_hl (set32 w 6 (word32 w 8)) 0 = ip_hl w 0) by (unfold ip_hl; by rewrite word_set32_ne by lia).
  destruct (hsum_set32 (set32 w 6 (word32 w 8)) 0 8 (word32 w 6) H1) as [H2 _]; [rewrite ?Ehl1; lia..|]. fold w1 in H2.
  assert (Hl1 : zlen w1 = zlen w) by (unfold w1; by rewrite !zlen_set32).
  split; [|split].
  - apply header_zset; [apply header_zset; [done|apply word_is_word, Hw|lia]|apply word_is_word, Hw|lia].
  - eapply same_start_trans; [apply (same_start_set32 w 6); lia|]. eapply same_start_trans; [apply (same_start_set32 _ 8); lia|].
    eapply same_start_trans; [apply (same_start_zset _ t); lia|]. apply same_start_zset. lia.
  - unfold addrs. assert (El : ip_hl (zset (zset w1 t (word w (t + 1))) (t + 1) (word w t)) 0 = ip_hl w 0).
    { unfold ip_hl, w1. rewrite !word_zset_ne by lia. by rewrite !word_set32_ne by lia. }
    rewrite El. fold t. rewrite (word_zset_ne _ (t + 1) _ t), !word_zset_eq by (rewrite ?zlen_zset; lia).
    change (ip_saddr ?w 0) with (word32 w 6). change (ip_daddr ?w 0) with (word32 w 8).
    assert (E6 : forall j, j + 1 < t -> word32 (zset (zset w1 t (word w (t + 1))) (t + 1) (word w t)) j = word32 w1 j).
    { intros j Hj. unfold word32. by rewrite !word_zset_ne by lia. }
    rewrite !E6 by lia. unfold w1. rewrite (word32_set32_ne _ 8 _ 6) by lia. rewrite !word32_set32 by (rewrite ?zlen_set32; lia). done.
Qed.

Lemma land_word x : is_word (Z.land x 65535).
Proof.
  unfold is_word. change 65535 with (Z.ones 16) at 1 2. rewrite Z.land_ones by lia. pose proof (Z.mod_pos_bound x (2 ^ 16)). lia.
Qed.

(** What no stage changes. *)
Definition same_front (w w' : words) : Prop := zlen w' = zlen w /\ forall i, i < 5 -> word w' i = word w i.

Lemma front_fields w w' : same_front w w' ->
  ip_hl w' 0 = ip_hl w 0 /\ ip_proto w' 0 = ip_proto w 0 /\
  vr_ip_transport_header_valid w' = vr_ip_transport_header_valid w.
Proof.
  intros [_ H]. unfold ip_hl, ip_proto, vr_ip_transport_header_valid, ip_of, Fragment.vr_ip_is_ip4, ip_version. cbn.
  by rewrite !H by lia.
Qed.

Lemma update_csum_front vp_flags ip_inc inc w :
  header w 0 -> header (vr_ip_update_csum vp_flags ip_inc inc w) 0 /\ same_front w (vr_ip_update_csum vp_flags ip_inc inc w).
Proof.
  intros Hh. pose proof (hd_hl _ _ Hh) as Hhl. unfold vr_ip_update_csum. set (wa := if negb (ip_inc =? 0) then _ else w).
  assert (Ha : header wa 0 /\ same_front w wa).
  { unfold wa. destruct (negb _); [|by split]. split; [apply header_zset; [done|apply land_word|lia]|].
    split; [apply zlen_zset|]. intros i Hi. apply word_zset_ne. lia. }
  destruct Ha as [Hha [L W]]. assert (Ehl : ip_hl wa 0 = ip_hl w 0) by (unfold ip_hl; by rewrite W by lia).
  destruct (csum_word wa) as [k|] eqn:Ek; [|by split]. apply csum_word_range in Ek. rewrite Ehl in Ek.
  destruct (vr_ip_transport_header_valid wa); [|by split].
  split; [apply header_zset; [done|unfold l4_csum; destruct (has _ _); apply land_word|lia]|].
  split; [rewrite zlen_zset; done|]. intros i Hi. rewrite word_zset_ne by lia. by apply W.
Qed.

Lemma nat_words_front vp_flags flags key rkey w :
  header w 0 -> wf_key rkey -> ip_proto w 0 <> VR_IP_PROTO_ICMP -> ip_hl w 0 * 2 + 1 < zlen w ->
  header (nat_words vp_flags flags key rkey w) 0 /\ same_front w (nat_words vp_flags flags key rkey w).
Proof.
  intros Hh Hrk Hp Hl. unfold nat_words. rewrite icmp_idle by done. cbn zeta.
  pose proof (addrs_spec flags key rkey w Hh Hrk) as H1. destruct (nat_addrs flags key rkey w) as [w1 ip_inc].
  destruct H1 as (A1 & A2 & A3 & _). destruct (start_fields _ _ A2) as (S1 & _). destruct A2 as [Al Aw].
  pose proof (ports_spec flags rkey w1 ip_inc A1 Hrk) as H2. rewrite S1, Al in H2. specialize (H2 Hl A3).
  destruct (nat_ports flags rkey w1 ip_inc) as [w2 inc]. destruct H2 as (B1 & [Bl Bw] & _).
  assert (H12 : same_front w w2) by (split; [congruence|]; intros i Hi; rewrite Bw, Aw by lia; done).
  destruct (negb (has VP_FLAG_DIAG vp_flags)); [|by split].
  destruct (update_csum_front vp_flags ip_inc inc w2 B1) as [C1 [C2 C3]]. split; [done|].
  destruct H12 as [D1 D2]. split; [congruence|]. intros i Hi. by rewrite C3, D2.
Qed.

(** The flags of a flow and of its reverse: what one does to the source the other does to
    the destination.  The flags may have any other bits. *)
Record nat_pair (flags rflags : Z) : Prop := {
  np_snat : has VR_FLOW_FLAG_DNAT rflags = has VR_FLOW_FLAG_SNAT flags;
  np_spat : has VR_FLOW_FLAG_DPAT rflags = has VR_FLOW_FLAG_SPAT flags;
  np_dnat : has VR_FLOW_FLAG_SNAT rflags = has VR_FLOW_FLAG_DNAT flags;
  np_dpat : has VR_FLOW_FLAG_SPAT rflags = has VR_FLOW_FLAG_DPAT flags
}.

(** What is translated of the packet is what the key of its flow says. *)
Record nat_packet (flags : Z) (key : vr_flow) (w : words) : Prop := {
  nw_sip : has VR_FLOW_FLAG_SNAT flags = true -> ip_saddr w 0 = flow4_sip key;
  nw_sport : has VR_FLOW_FLAG_SPAT flags = true -> word w (ip_hl w 0 * 2) = flow_sport key;
  nw_dip : has VR_FLOW_FLAG_DNAT flags = true -> ip_daddr w 0 = flow4_dip key;
  nw_dport : has VR_FLOW_FLAG_DPAT flags = true -> word w (ip_hl w 0 * 2 + 1) = flow_dport key
}.

(** The addresses and ports of a packet of a flow after translation. *)
Lemma nat_out_addrs vp_flags flags key rkey w :
  header w 0 -> wf_key rkey -> ip_proto w 0 <> VR_IP_PROTO_ICMP -> vr_ip_transport_header_valid w = true ->
  ip_hl w 0 * 2 + 1 < zlen w -> (has VR_FLOW_FLAG_SNAT flags = true -> ip_saddr w 0 = flow4_sip key) ->
  addrs (nat_words vp_flags flags key rkey w) =
    (if has VR_FLOW_FLAG_SNAT flags then flow4_dip rkey else ip_saddr w 0,
     if has VR_FLOW_FLAG_SPAT flags then flow_dport rkey else word w (ip_hl w 0 * 2),
     if has VR_FLOW_FLAG_DNAT flags then flow4_sip rkey else ip_daddr w 0,
     if has VR_FLOW_FLAG_DPAT flags then flow_sport rkey else word w (ip_hl w 0 * 2 + 1)).
Proof.
  intros Hh Hrk Hp Hv Hl Hs. destruct (nat_words_addrs vp_flags flags key rkey w Hh Hrk Hp Hv Hl) as [_ ->].
  destruct (has VR_FLOW_FLAG_SNAT flags); [|done]. by rewrite Hs, Z.eqb_refl.
Qed.

(** C36: the answer to a translated packet is translated back.  The flow may translate any of
    source address, source port, destination address and destination port, its reverse flow
    translates the opposite ones ([nat_pair]), and both may have any other flags (they are
    active, linked, and so on).  The packet, TCP or UDP with its ports in the packet, leaves
    with the addresses and ports of the reverse key in the places that are translated; the
    reply to it, translated by the reverse flow, is the reply to the packet as it was before
    translation. *)
Theorem nat_reply_restored vp_flags vp_flags' flags rflags key rkey w :
  header w 0 -> wf_key key -> wf_key rkey -> ip_proto w 0 <> VR_IP_PROTO_ICMP -> vr_ip_transport_header_valid w = true ->
  ip_hl w 0 * 2 + 1 < zlen w -> nat_pair flags rflags -> nat_packet flags key w ->
  let out := nat_words vp_flags flags key rkey w in
  let back := nat_words vp_flags' rflags rkey key (reply_of out) in
  addrs out =
    (if has VR_FLOW_FLAG_SNAT flags then flow4_dip rkey else ip_saddr w 0,
     if has VR_FLOW_FLAG_SPAT flags then flow_dport rkey else word w (ip_hl w 0 * 2),
     if has VR_FLOW_FLAG_DNAT flags then flow4_sip rkey else ip_daddr w 0,
     if has VR_FLOW_FLAG_DPAT flags then flow_sport rkey else word w (ip_hl w 0 * 2 + 1)) /\
  addrs back = let '(sa, sp, da, dp) := addrs w in (da, dp, sa, sp).
Proof.
  intros Hh Hk Hrk Hp Hv Hl [N1 N2 N3 N4] [W1 W2 W3 W4] out back.
  pose proof (nat_out_addrs vp_flags flags key rkey w Hh Hrk Hp Hv Hl W1) as Eo.
  destruct (nat_words_addrs vp_flags flags key rkey w Hh Hrk Hp Hv Hl) as [Ehl _].
  destruct (nat_words_front vp_flags flags key rkey w Hh Hrk Hp Hl) as [Hho Hf].
  fold out in Ehl, Eo, Hho, Hf. destruct (front_fields _ _ Hf) as (_ & F2 & F3). destruct Hf as [Hlo _]. split; [done|].
  destruct (reply_facts out Hho) as (Hhr & Hsr & Er); [rewrite Ehl, Hlo; lia|]. rewrite Eo in Er.
  destruct (start_fields _ _ Hsr) as (R1 & R2 & R3). destruct Hsr as [Hlr _].
  unfold addrs in Er. injection Er as E1 E2 E3 E4.
  unfold back. rewrite nat_out_addrs; [|done|done|congruence|congruence|rewrite R1, Ehl, Hlr, Hlo; done|rewrite N3, E1; by intros ->].
  rewrite N1, N2, N3, N4, E1, E2, E3, E4. unfold addrs.
  destruct (has VR_FLOW_FLAG_SNAT flags), (has VR_FLOW_FLAG_SPAT flags), (has VR_FLOW_FLAG_DNAT flags), (has VR_FLOW_FLAG_DPAT flags);
    by rewrite ?W1, ?W2, ?W3, ?W4 by done.
Qed.

(** ** A packet *)

(** A TCP packet from 10.0.0.1 port 5000 to 10.0.0.2 port 80, with correct checksums. *)
Definition syn_words : words :=
  let w := [69; 10240; 1; 0; 1600; 0; 10; 256; 10; 512; 34835; 20480; 0; 0; 0; 0; 592; 0; 0; 0] in
  let w := zset w 5 (vr_ip_csum w 0) in
  zset w 18 (Z.land (Z.lnot (let s := 10 + 256 + 10 + 512 + 1536 + 5120 + lsum w 10 in Z.shiftr s 16 + Z.land s 65535)) 65535).
Definition syn_key : vr_flow := mk_key AF_INET VR_IP_PROTO_TCP 34835 20480 7 [10; 0; 0; 1; 10; 0; 0; 2] 20.
Definition nat_rkey : vr_flow := mk_key AF_INET VR_IP_PROTO_TCP 20480 12345 8 [10; 0; 0; 2; 192; 168; 0; 1] 20.

Lemma syn_header : header syn_words 0.
Proof.
  split; [lia| |vm_compute; done|vm_compute; done]. apply Forall_forall. intros x Hx%list_elem_of_In.
  assert (H : forallb (fun x => (0 <=? x) && (x <=? 65535)) syn_words = true) by (vm_compute; reflexivity).
  rewrite forallb_forall in H. apply H in Hx. unfold is_word. lia.
Qed.

Lemma wf_key_by k : forallb (fun b => (0 <=? b) && (b <? 256)) (flow_ip k) && (0 <=? flow_sport k) && (flow_sport k <? 65536) &&
  (0 <=? flow_dport k) && (flow_dport k <? 65536) = true -> wf_key k.
Proof.
  rewrite !andb_true_iff. intros [[[[H ?] ?] ?] ?]. split; [|lia|lia]. rewrite Forall_forall. intros b Hb%list_elem_of_In.
  rewrite forallb_forall in H. apply H in Hb. lia.
Qed.

Lemma nat_keeps_csums_witness :
  let w' := nat_words 0 (Z.lor VR_FLOW_FLAG_SNAT VR_FLOW_FLAG_SPAT) syn_key nat_rkey syn_words in
  ip_csum w' 0 = vr_ip_csum w' 0 /\ l4_valid (1536 + 5120) w'.
Proof.
  apply (nat_keeps_csums 0 _ syn_key nat_rkey syn_words 18 (1536 + 5120)).
  - apply syn_header.
  - by apply wf_key_by.
  - by vm_compute.
  - by vm_compute.
  - by vm_compute.
  - by vm_compute.
  - by vm_compute.
  - by vm_compute.
  - exists 769. by vm_compute.
Defined.

(** The flows as they are in the table: active and linked. *)
Definition snat_flags : Z := Z.lor (Z.lor VR_FLOW_FLAG_ACTIVE VR_RFLOW_VALID) (Z.lor VR_FLOW_FLAG_SNAT VR_FLOW_FLAG_SPAT).
Definition dnat_flags : Z := Z.lor (Z.lor VR_FLOW_FLAG_ACTIVE VR_RFLOW_VALID) (Z.lor VR_FLOW_FLAG_DNAT VR_FLOW_FLAG_DPAT).

Lemma nat_reply_restored_witness :
  let out := nat_words 0 snat_flags syn_key nat_rkey syn_words in
  let back := nat_words 0 dnat_flags nat_rkey syn_key (reply_of out) in
  addrs out = (flow4_dip nat_rkey, flow_dport nat_rkey, ip_daddr syn_words 0, word syn_words (ip_hl syn_words 0 * 2 + 1)) /\
  addrs back = let '(sa, sp, da, dp) := addrs syn_words in (da, dp, sa, sp).
Proof.
  apply (nat_reply_restored 0 0 snat_flags dnat_flags syn_key nat_rkey syn_words);
    [apply syn_header|by apply wf_key_by|by apply wf_key_by|by vm_compute|by vm_compute|by vm_compute|split; by vm_compute|split; by vm_compute].
Defined.

(** A UDP packet without a checksum: the word that says so is taken for one and changed. *)
Theorem nat_udp_without_csum :
  let w := zset (zset (zset (take 14 syn_words) 4 (64 + 256 * VR_IP_PROTO_UDP)) 12 2048) 13 0 in
  word (nat_words 0 (Z.lor VR_FLOW_FLAG_SNAT VR_FLOW_FLAG_SPAT) syn_key nat_rkey w) 13 = 44835.
Proof. vm_compute. reflexivity. Qed.

(** An ICMP error that quotes a translated packet: its own checksum is right before the
    ports of the quoted packet are translated, and wrong after. *)
Definition icmp_words : words :=
  let w := [69; 14336; 1; 0; 320; 0; 10; 512; 10; 256; 769; 0; 0; 0] ++ take 14 syn_words in
  let w := zset w 11 (Z.land (Z.lnot (let s := lsum w 10 in Z.shiftr s 16 + Z.land s 65535)) 65535) in
  zset w 5 (vr_ip_csum w 0).

Theorem nat_icmp_csum_wrong :
  lsum icmp_words 10 mod 65535 = 0 /\
  lsum (nat_words 0 (Z.lor VR_FLOW_FLAG_SNAT VR_FLOW_FLAG_SPAT) syn_key nat_rkey icmp_words) 10 mod 65535 <> 0.
Proof. split; vm_compute; done. Qed.

End FlowNatProofs.
