(* ===== verification/FlowState.v ===== *)
(** * The state of the flow module (dp-core/vr_flow.c)

    The table of flows, the queues of packets that wait for a decision, the counters, the
    work that is scheduled and the calls that wait for a grace period; and the host: its
    answers to requests for memory and deferral, and what was done to packets. *)

From stdpp Require Import gmap.
From S2P Require Import Prelude Bits FlowEntry FlowInfo FlowTable Fragment Mirror VrfAssign FatFlow Csum FlowPacket.

Module FlowState.
Import Csum FlowPacket.

Definition VR_MAX_FLOW_QUEUE_ENTRIES : Z := 3.

(** [struct vr_forwarding_md]. *)
Record vr_forwarding_md := mk_fmd {
  fmd_flow_index : Z;
  fmd_label : Z;
  fmd_ecmp_nh_index : Z;
  fmd_ecmp_src_nh_index : Z;
  fmd_dvrf : Z;
  fmd_outer_src_ip : Z;
  fmd_vlan : Z;
  fmd_udp_src_port : Z;
  fmd_to_me : bool;
  fmd_label_is_vxlan : bool;
  fmd_dscp : Z;
  fmd_dotonep : Z
}.

Definition vr_init_forwarding_md : vr_forwarding_md :=
  mk_fmd (-1) (-1) (-1) (-1) (-1) 0 VrfAssign.VLAN_ID_INVALID 0 false false (-1) (-1).

Definition fmd_set_flow (index ecmp ecmp_src udp : Z) (f : vr_forwarding_md) : vr_forwarding_md :=
  mk_fmd index (fmd_label f) ecmp ecmp_src (fmd_dvrf f) (fmd_outer_src_ip f) (fmd_vlan f) udp (fmd_to_me f)
    (fmd_label_is_vxlan f) (fmd_dscp f) (fmd_dotonep f).
Definition fmd_set_vrf (dvrf : Z) (to_me : bool) (f : vr_forwarding_md) : vr_forwarding_md :=
  mk_fmd (fmd_flow_index f) (fmd_label f) (fmd_ecmp_nh_index f) (fmd_ecmp_src_nh_index f) dvrf (fmd_outer_src_ip f)
    (fmd_vlan f) (fmd_udp_src_port f) to_me (fmd_label_is_vxlan f) (fmd_dscp f) (fmd_dotonep f).

(** What the fragment module takes of it. *)
Definition frag_fmd (f : vr_forwarding_md) : Fragment.frag_fmd :=
  Fragment.mk_ffmd (fmd_outer_src_ip f) (fmd_label f) (fmd_label_is_vxlan f) (fmd_to_me f) (fmd_dscp f) (fmd_dotonep f)
    (fmd_dvrf f) (fmd_vlan f).

(** ** Queues, work and deferred calls *)

(** A node of a queue: the packet, and what [vr_flow_fill_pnode] notes of it. *)
Record flow_pnode := mk_fpn { fpn_packet : option flow_packet; fpn_node : Fragment.vr_packet_node }.

Record vr_flow_queue := mk_fq { vfq_index : Z; vfq_entries : Z; vfq_pnodes : list flow_pnode }.

Definition pnode_zero : flow_pnode := mk_fpn None (Fragment.mk_pnode None 0 0 0 0 0 0 0 0 0 0).
Definition queue_zero : vr_flow_queue := mk_fq 0 0 (replicate (Z.to_nat VR_MAX_FLOW_QUEUE_ENTRIES) pnode_zero).

(** [struct vr_flow_defer_data]. *)
Record flow_defer := mk_fdefer { vfdd_fe : Z; vfdd_flow_queue : option Z; vfdd_delete : bool }.

(** [struct vr_flow_md]: the deferred data is missing when it could not be allocated. *)
Record flow_md := mk_flmd { flmd_index : Z; flmd_flags : Z; flmd_defer_data : option flow_defer }.

(** What becomes of packets. *)
Inductive flow_event :=
  | E_pfree (pkt : Z) (reason : Z)
  | E_trap (pkt : Z) (vrf reason index : Z)
  | E_trap_clone (pkt : Z) (vrf reason index : Z)
  | E_free_clone (pkt : Z) (reason : Z)
  | E_no_clone (reason : Z)
  | E_mirror (pkt : Z) (mirror : Z)
  | E_assembler (pkt : Z)
  | E_assembler_clone (pkt : Z)
  | E_reinject (pkt : Z).

(** ** The module *)

Section state.
Context {T : Type} `{FlowTable T}.

(** [fm_queues] are the queues that are allocated, [fm_mmes] the mirror metadata of flows, by
    address.  [fm_mem] and [fm_host] are the answers of the host to the coming requests for
    memory, and for deferred calls.  [fm_fault]: memory was used that is not there. *)
Record flow_mod := mk_fm {
  fm_tab : T;
  fm_queues : gmap Z vr_flow_queue;
  fm_next : Z;
  fm_info : FlowInfo.vr_flow_table_info;
  fm_ll : FlowInfo.link_local_ports;
  fm_metas : Mirror.metas;
  fm_mmes : gmap Z Mirror.vr_mirror_meta_entry;
  fm_frag : Fragment.frag_tables;
  fm_work : list flow_md;
  fm_deferred : list flow_defer;
  fm_mem : list bool;
  fm_host : list bool;
  fm_events : list flow_event;
  fm_fault : bool
}.

Definition set_tab (v : T) (st : flow_mod) : flow_mod :=
  mk_fm v (fm_queues st) (fm_next st) (fm_info st) (fm_ll st) (fm_metas st) (fm_mmes st) (fm_frag st) (fm_work st)
    (fm_deferred st) (fm_mem st) (fm_host st) (fm_events st) (fm_fault st).
Definition set_queues (v : gmap Z vr_flow_queue) (st : flow_mod) : flow_mod :=
  mk_fm (fm_tab st) v (fm_next st) (fm_info st) (fm_ll st) (fm_metas st) (fm_mmes st) (fm_frag st) (fm_work st)
    (fm_deferred st) (fm_mem st) (fm_host st) (fm_events st) (fm_fault st).
Definition set_next (v : Z) (st : flow_mod) : flow_mod :=
  mk_fm (fm_tab st) (fm_queues st) v (fm_info st) (fm_ll st) (fm_metas st) (fm_mmes st) (fm_frag st) (fm_work st)
    (fm_deferred st) (fm_mem st) (fm_host st) (fm_events st) (fm_fault st).
Definition set_info (v : FlowInfo.vr_flow_table_info) (st : flow_mod) : flow_mod :=
  mk_fm (fm_tab st) (fm_queues st) (fm_next st) v (fm_ll st) (fm_metas st) (fm_mmes st) (fm_frag st) (fm_work st)
    (fm_deferred st) (fm_mem st) (fm_host st) (fm_events st) (fm_fault st).
Definition set_ll (v : FlowInfo.link_local_ports) (st : flow_mod) : flow_mod :=
  mk_fm (fm_tab st) (fm_queues st) (fm_next st) (fm_info st) v (fm_metas st) (fm_mmes st) (fm_frag st) (fm_work st)
    (fm_deferred st) (fm_mem st) (fm_host st) (fm_events st) (fm_fault st).
Definition set_metas (v : Mirror.metas) (st : flow_mod) : flow_mod :=
  mk_fm (fm_tab st) (fm_queues st) (fm_next st) (fm_info st) (fm_ll st) v (fm_mmes st) (fm_frag st) (fm_work st)
    (fm_deferred st) (fm_mem st) (fm_host st) (fm_events st) (fm_fault st).
Definition set_mmes (v : gmap Z Mirror.vr_mirror_meta_entry) (st : flow_mod) : flow_mod :=
  mk_fm (fm_tab st) (fm_queues st) (fm_next st) (fm_info st) (fm_ll st) (fm_metas st) v (fm_frag st) (fm_work st)
    (fm_deferred st) (fm_mem st) (fm_host st) (fm_events st) (fm_fault st).
Definition set_frag (v : Fragment.frag_tables) (st : flow_mod) : flow_mod :=
  mk_fm (fm_tab st) (fm_queues st) (fm_next st) (fm_info st) (fm_ll st) (fm_metas st) (fm_mmes st) v (fm_work st)
    (fm_deferred st) (fm_mem st) (fm_host st) (fm_events st) (fm_fault st).
Definition set_work (v : list flow_md) (st : flow_mod) : flow_mod :=
  mk_fm (fm_tab st) (fm_queues st) (fm_next st) (fm_info st) (fm_ll st) (fm_metas st) (fm_mmes st) (fm_frag st) v
    (fm_deferred st) (fm_mem st) (fm_host st) (fm_events st) (fm_fault st).
Definition set_deferred (v : list flow_defer) (st : flow_mod) : flow_mod :=
  mk_fm (fm_tab st) (fm_queues st) (fm_next st) (fm_info st) (fm_ll st) (fm_metas st) (fm_mmes st) (fm_frag st)
    (fm_work st) v (fm_mem st) (fm_host st) (fm_events st) (fm_fault st).
Definition set_mem (v : list bool) (st : flow_mod) : flow_mod :=
  mk_fm (fm_tab st) (fm_queues st) (fm_next st) (fm_info st) (fm_ll st) (fm_metas st) (fm_mmes st) (fm_frag st)
    (fm_work st) (fm_deferred st) v (fm_host st) (fm_events st) (fm_fault st).
Definition set_host (v : list bool) (st : flow_mod) : flow_mod :=
  mk_fm (fm_tab st) (fm_queues st) (fm_next st) (fm_info st) (fm_ll st) (fm_metas st) (fm_mmes st) (fm_frag st)
    (fm_work st) (fm_deferred st) (fm_mem st) v (fm_events st) (fm_fault st).
Definition set_events (v : list flow_event) (st : flow_mod) : flow_mod :=
  mk_fm (fm_tab st) (fm_queues st) (fm_next st) (fm_info st) (fm_ll st) (fm_metas st) (fm_mmes st) (fm_frag st)
    (fm_work st) (fm_deferred st) (fm_mem st) (fm_host st) v (fm_fault st).
Definition set_fault (v : bool) (st : flow_mod) : flow_mod :=
  mk_fm (fm_tab st) (fm_queues st) (fm_next st) (fm_info st) (fm_ll st) (fm_metas st) (fm_mmes st) (fm_frag st)
    (fm_work st) (fm_deferred st) (fm_mem st) (fm_host st) (fm_events st) v.

Definition put (i : Z) (f : vr_flow_entry -> vr_flow_entry) (st : flow_mod) : flow_mod :=
  set_tab (fs_upd i f (fm_tab st)) st.
Definition get {A} (proj : vr_flow_entry -> A) (i : Z) (st : flow_mod) : A := fld proj i (fm_tab st).
Definition is_set (bits i : Z) (st : flow_mod) : bool := fl_has bits i (fm_tab st).
Definition entry_at (index : Z) (st : flow_mod) : option Z := vr_flow_get_entry index (fm_tab st).
Definition emit (e : flow_event) (st : flow_mod) : flow_mod := set_events (fm_events st ++ [e]) st.

(** A request for memory, and one for a deferred call. *)
Definition ask_mem (st : flow_mod) : bool * flow_mod :=
  (match fm_mem st with [] => true | b :: _ => b end, set_mem (tail (fm_mem st)) st).
Definition ask_host (st : flow_mod) : bool * flow_mod :=
  (match fm_host st with [] => true | b :: _ => b end, set_host (tail (fm_host st)) st).

Definition alloc_queue (q : vr_flow_queue) (st : flow_mod) : option Z * flow_mod :=
  let '(ok, st1) := ask_mem st in
  if ok then (Some (fm_next st1), set_next (fm_next st1 + 1) (set_queues (<[fm_next st1 := q]> (fm_queues st1)) st1))
  else (None, st1).

Definition free_queue (q : Z) (st : flow_mod) : flow_mod :=
  match fm_queues st !! q with
  | Some _ => set_queues (delete q (fm_queues st)) st
  | None => set_fault true st
  end.

(** [vr_mirror_meta_entry_del] on the metadata of a flow. *)
Definition meta_del (b : Z) (st : flow_mod) : flow_mod :=
  set_mmes (delete b (fm_mmes st)) (set_metas (Mirror.vr_mirror_meta_entry_del (fm_mmes st !! b) (fm_metas st)) st).
End state.

Arguments flow_mod T : clear implicits.

End FlowState.
