(* ===== verification/FlowTcp.v ===== *)
(** * The TCP state of a pair of flows (dp-core/vr_flow.c)

    A connection has a flow for each direction, and each flow names the other.  Every TCP
    packet of a flow leaves its mark in the flags of both ([vr_flow_tcp_digest]), until the
    pair is established, and at the end dead: a dead flow may be evicted.

    The functions work on any store of flow entries.  The theorems follow the pair: what a
    packet does to the two entries is a function of the two ([pair_digest]), and a pair is
    dead exactly when it has seen a reset or the end of both directions. *)

From S2P Require Import Prelude Bits FlowEntry Fragment Csum FlowPacket.

Module FlowTcp.
Import Csum FlowPacket.

Definition VR_FLOW_TCP_FIN : Z := 1.
Definition VR_FLOW_TCP_HALF_CLOSE : Z := 2.
Definition VR_FLOW_TCP_FIN_R : Z := 4.
Definition VR_FLOW_TCP_SYN : Z := 8.
Definition VR_FLOW_TCP_SYN_R : Z := 16.
Definition VR_FLOW_TCP_ESTABLISHED : Z := 32.
Definition VR_FLOW_TCP_ESTABLISHED_R : Z := 64.
Definition VR_FLOW_TCP_RST : Z := 128.
Definition VR_FLOW_TCP_DEAD : Z := 32768.
Definition VR_TCP_FLAG_FIN : Z := 1.
Definition VR_TCP_FLAG_SYN : Z := 2.
Definition VR_TCP_FLAG_RST : Z := 4.
Definition VR_TCP_FLAG_ACK : Z := 16.

(** The header of a TCP packet, in host byte order: [tcp_offset_flags] has the length of
    the header in its upper four bits, [tcp_length] is the length with the header. *)
Record tcp_hdr := mk_tcp { tcp_offset_flags : Z; tcp_seq : Z; tcp_ack : Z; tcp_length : Z }.

Definition ntohl (x : Z) : Z := Fragment.ntohs (u16 x) * 65536 + Fragment.ntohs (x / 65536).

Definition tcp_at (w : words) (t length : Z) : tcp_hdr :=
  mk_tcp (Fragment.ntohs (word w (t + 6))) (ntohl (word32 w (t + 2))) (ntohl (word32 w (t + 4))) length.

(** The TCP header of a packet, when it has one. *)
Definition tcp_header (p : flow_packet) : option tcp_hdr :=
  let w := vp_words p in
  if negb (vr_ip_transport_header_valid w) then None
  else if vp_type p =? VP_TYPE_IP then
    if negb (ip_proto w 0 =? VR_IP_PROTO_TCP) then None
    else Some (tcp_at w (ip_hl w 0 * 2) (u32 (Fragment.ntohs (word w 1) - ip_hl w 0 * 4)))
  else if vp_type p =? VP_TYPE_IP6 then
    if negb (ip6_nxt w 0 =? VR_IP_PROTO_TCP) then None
    else Some (tcp_at w 20 (Fragment.ntohs (word w 2)))
  else None.

Section digest.
Context {S : Type} `{FlowStore S}.
Implicit Types (i r : Z) (s : S).

(** [vr_sync_fetch_and_or_16u] on the TCP flags of an entry. *)
Definition or_tcp i (bits : Z) s : S := fs_upd i (fun e => set_fe_tcp_flags (Z.lor (fe_tcp_flags e) bits) e) s.

Definition set_seq i (seq : Z) s : S := fs_upd i (set_fe_tcp_seq seq) s.

(** The reverse flow, when the flow says that it is valid. *)
Definition valid_reverse i s : option Z :=
  if fl_has VR_RFLOW_VALID i s then vr_flow_get_entry (fld fe_rflow i s) s else None.

Definition vr_flow_init_close i s : S :=
  let s1 := or_tcp i VR_FLOW_TCP_DEAD s in
  match vr_flow_get_entry (fld fe_rflow i s1) s1 with
  | Some r => or_tcp r VR_FLOW_TCP_DEAD s1
  | None => s1
  end.

Definition digest_rst i s : S :=
  let s1 := or_tcp i VR_FLOW_TCP_RST s in
  let s2 := match valid_reverse i s1 with Some r => or_tcp r VR_FLOW_TCP_RST s1 | None => s1 end in
  vr_flow_init_close i s2.

Definition digest_syn i (h : tcp_hdr) s : S :=
  let s1 := or_tcp i VR_FLOW_TCP_SYN (set_seq i (tcp_seq h) s) in
  match valid_reverse i s1 with
  | None => s1
  | Some r =>
      let s2 := or_tcp r VR_FLOW_TCP_SYN_R s1 in
      if has VR_FLOW_TCP_SYN_R (fld fe_tcp_flags i s2) && has VR_TCP_FLAG_ACK (tcp_offset_flags h) &&
         (tcp_ack h =? u32 (fld fe_tcp_seq r s2 + 1))
      then or_tcp i VR_FLOW_TCP_ESTABLISHED_R (or_tcp r VR_FLOW_TCP_ESTABLISHED s2)
      else s2
  end.

(** The sequence number of the FIN itself: behind the data of the packet. *)
Definition fin_seq (h : tcp_hdr) : Z :=
  u32 (tcp_seq h + u32 (tcp_length h - Z.shiftr (tcp_offset_flags h) 12 * 4)).

Definition digest_fin i (h : tcp_hdr) s : S :=
  let s1 := or_tcp i VR_FLOW_TCP_FIN (set_seq i (fin_seq h) s) in
  match valid_reverse i s1 with
  | None => s1
  | Some r => or_tcp r VR_FLOW_TCP_FIN_R s1
  end.

(** The last part: an acknowledgement of a FIN, or of a SYN. *)
Definition digest_ack i (h : tcp_hdr) s : S :=
  let flags := fld fe_tcp_flags i s in
  if (has VR_FLOW_TCP_FIN_R flags || (negb (has VR_FLOW_TCP_ESTABLISHED_R flags) && has VR_FLOW_TCP_SYN_R flags)) &&
     has VR_TCP_FLAG_ACK (tcp_offset_flags h)
  then
    match valid_reverse i s with
    | None => s
    | Some r =>
        if (tcp_ack h =? u32 (fld fe_tcp_seq r s + 1)) && has VR_FLOW_TCP_FIN_R flags then
          let s1 := or_tcp r VR_FLOW_TCP_HALF_CLOSE s in
          if has VR_FLOW_TCP_HALF_CLOSE (fld fe_tcp_flags i s1) then vr_flow_init_close i s1 else s1
        else if negb (tcp_ack h =? fld fe_tcp_seq r s) then
          if negb (has VR_FLOW_TCP_ESTABLISHED_R flags)
          then or_tcp i VR_FLOW_TCP_ESTABLISHED_R (or_tcp r VR_FLOW_TCP_ESTABLISHED s)
          else s
        else s
    end
  else s.

Definition digest_header i (h : tcp_hdr) s : S :=
  if has VR_TCP_FLAG_RST (tcp_offset_flags h) then digest_rst i s
  else
    let s1 :=
      if has VR_TCP_FLAG_SYN (tcp_offset_flags h) then digest_syn i h s
      else if has VR_TCP_FLAG_FIN (tcp_offset_flags h) then digest_fin i h s
      else s in
    digest_ack i h s1.

Definition vr_flow_tcp_digest i (p : flow_packet) s : S :=
  match tcp_header p with
  | None => s
  | Some h => if vr_flow_is_fat_flow p (fld fe_key i s) then s else digest_header i h s
  end.

(** A flow that the agent adds learns what its reverse flow has seen. *)
Definition vr_flow_tcp_rflow_set i r s : S :=
  let f := fld fe_tcp_flags r s in
  let pick b c := if has b f then c else 0 in
  or_tcp i
    (Z.lor (Z.lor (Z.lor (Z.lor (pick VR_FLOW_TCP_SYN VR_FLOW_TCP_SYN_R) (pick VR_FLOW_TCP_RST VR_FLOW_TCP_RST))
       (pick VR_FLOW_TCP_DEAD VR_FLOW_TCP_DEAD)) (pick VR_FLOW_TCP_FIN VR_FLOW_TCP_FIN_R))
       (pick VR_FLOW_TCP_ESTABLISHED (Z.lor VR_FLOW_TCP_ESTABLISHED VR_FLOW_TCP_ESTABLISHED_R))) s.
End digest.

(** ** The pair *)

(** The flags and the sequence number of a direction. *)
Record side := mk_side { sd_flags : Z; sd_seq : Z }.

Definition mark (bits : Z) (a : side) : side := mk_side (Z.lor (sd_flags a) bits) (sd_seq a).
Definition at_seq (seq : Z) (a : side) : side := mk_side (sd_flags a) seq.
Definition sees (bits : Z) (a : side) : bool := has bits (sd_flags a).

(** What a packet of the first direction does to the two. *)
Definition pair_ack (h : tcp_hdr) (ab : side * side) : side * side :=
  let '(a, b) := ab in
  if (sees VR_FLOW_TCP_FIN_R a || (negb (sees VR_FLOW_TCP_ESTABLISHED_R a) && sees VR_FLOW_TCP_SYN_R a)) &&
     has VR_TCP_FLAG_ACK (tcp_offset_flags h)
  then
    if (tcp_ack h =? u32 (sd_seq b + 1)) && sees VR_FLOW_TCP_FIN_R a then
      let b1 := mark VR_FLOW_TCP_HALF_CLOSE b in
      if sees VR_FLOW_TCP_HALF_CLOSE a then (mark VR_FLOW_TCP_DEAD a, mark VR_FLOW_TCP_DEAD b1) else (a, b1)
    else if negb (tcp_ack h =? sd_seq b) then
      if negb (sees VR_FLOW_TCP_ESTABLISHED_R a)
      then (mark VR_FLOW_TCP_ESTABLISHED_R a, mark VR_FLOW_TCP_ESTABLISHED b)
      else ab
    else ab
  else ab.

Definition pair_digest (h : tcp_hdr) (ab : side * side) : side * side :=
  let '(a, b) := ab in
  if has VR_TCP_FLAG_RST (tcp_offset_flags h) then
    (mark VR_FLOW_TCP_DEAD (mark VR_FLOW_TCP_RST a), mark VR_FLOW_TCP_DEAD (mark VR_FLOW_TCP_RST b))
  else
    pair_ack h
      (if has VR_TCP_FLAG_SYN (tcp_offset_flags h) then
         let a1 := mark VR_FLOW_TCP_SYN (at_seq (tcp_seq h) a) in
         let b1 := mark VR_FLOW_TCP_SYN_R b in
         if sees VR_FLOW_TCP_SYN_R a1 && has VR_TCP_FLAG_ACK (tcp_offset_flags h) && (tcp_ack h =? u32 (sd_seq b1 + 1))
         then (mark VR_FLOW_TCP_ESTABLISHED_R a1, mark VR_FLOW_TCP_ESTABLISHED b1)
         else (a1, b1)
       else if has VR_TCP_FLAG_FIN (tcp_offset_flags h) then
         (mark VR_FLOW_TCP_FIN (at_seq (fin_seq h) a), mark VR_FLOW_TCP_FIN_R b)
       else ab).

Definition side_of (e : vr_flow_entry) : side := mk_side (fe_tcp_flags e) (fe_tcp_seq e).

Section refinement.
Context {S : Type} `{FlowStoreLaws S}.
Implicit Types (i r : Z) (s : S).

(** Two different entries that name each other as valid reverse flows. *)
Record linked_pair i r s : Prop := {
  lp_ne : i <> r;
  lp_pos : 0 <= i /\ 0 <= r;
  lp_valid : fs_valid i s = true /\ fs_valid r s = true;
  lp_names : fld fe_rflow i s = r /\ fld fe_rflow r s = i;
  lp_flags : fl_has VR_RFLOW_VALID i s = true /\ fl_has VR_RFLOW_VALID r s = true
}.

Definition pair_of i r s : side * side := (side_of (default fe_zero (fs_read i s)), side_of (default fe_zero (fs_read r s))).

(** A store to the TCP state of one of the two, seen from the pair. *)
Definition tcp_only (f : vr_flow_entry -> vr_flow_entry) : Prop :=
  forall e, fe_flags (f e) = fe_flags e /\ fe_rflow (f e) = fe_rflow e /\ fe_key (f e) = fe_key e.

Lemma fld_upd {A} (proj : vr_flow_entry -> A) i f j s :
  fs_valid i s = true -> fld proj j (fs_upd i f s) = if decide (i = j) then proj (f (default fe_zero (fs_read i s))) else fld proj j s.
Proof.
  intros Hv. unfold fld. rewrite read_upd. case_decide as Hij; [|done]. subst j.
  destruct (valid_read i s Hv) as [e ->]. done.
Qed.

Lemma linked_upd i r s j f : linked_pair i r s -> fs_valid j s = true -> tcp_only f -> linked_pair i r (fs_upd j f s).
Proof.
  intros [Hne Hpos [V1 V2] [N1 N2] [F1 F2]] Hj Hf. unfold fl_has in *. split; try done; rewrite ?valid_upd; try done.
  - split; rewrite fld_upd by done; (case_decide as Hd; [|done]);
      destruct (Hf (default fe_zero (fs_read j s))) as (_ & -> & _); by rewrite Hd.
  - split; unfold fl_has; rewrite fld_upd by done; (case_decide as Hd; [|done]);
      destruct (Hf (default fe_zero (fs_read j s))) as (-> & _); by rewrite Hd.
Qed.
Lemma linked_sym i r s : linked_pair i r s -> linked_pair r i s.
Proof. intros [? [? ?] [? ?] [? ?] [? ?]]. by split. Qed.

Lemma reverse_is i r s : linked_pair i r s -> valid_reverse i s = Some r /\ vr_flow_get_entry (fld fe_rflow i s) s = Some r.
Proof.
  intros [Hne [? ?] [V1 V2] [N1 N2] [F1 F2]]. unfold valid_reverse. rewrite F1, N1. unfold vr_flow_get_entry.
  by rewrite (proj2 (Z.ltb_ge _ _)), V2 by done.
Qed.

(** [s'] is [s] but for the TCP state of the pair, on which [F] has acted. *)
Record acts i r s s' (F : side * side -> side * side) : Prop := {
  ac_linked : linked_pair i r s';
  ac_pair : pair_of i r s' = F (pair_of i r s);
  ac_others : forall j, j <> i -> j <> r -> fs_read j s' = fs_read j s;
  ac_valid : forall j, fs_valid j s' = fs_valid j s;
  ac_kept : forall j e', fs_read j s' = Some e' -> exists e, fs_read j s = Some e /\
    e' = set_fe_tcp_seq (fe_tcp_seq e') (set_fe_tcp_flags (fe_tcp_flags e') e)
}.

Lemma acts_id i r s : linked_pair i r s -> acts i r s s id.
Proof. intros Hl. split; try done. intros j e He. exists e. split; [done|]. by destruct e. Qed.

Lemma acts_trans i r s1 s2 s3 F G : acts i r s1 s2 F -> acts i r s2 s3 G -> acts i r s1 s3 (fun ab => G (F ab)).
Proof.
  intros [A1 A2 A3 A4 A5] [B1 B2 B3 B4 B5]. split; [done|by rewrite B2, A2|..].
  - intros j H1 H2. by rewrite B3, A3.
  - intros j. by rewrite B4, A4.
  - intros j e3 He3. destruct (B5 j e3 He3) as (e2 & He2 & E3). destruct (A5 j e2 He2) as (e1 & He1 & E2). exists e1.
    split; [done|]. rewrite E3, E2. by destruct e1.
Qed.

Lemma acts_upd i r s f (own : bool) :
  linked_pair i r s -> (forall e, f e = set_fe_tcp_seq (fe_tcp_seq (f e)) (set_fe_tcp_flags (fe_tcp_flags (f e)) e)) ->
  acts i r s (fs_upd (if own then i else r) f s)
    (fun _ => let ab := (default fe_zero (fs_read i s), default fe_zero (fs_read r s)) in
       if own then (side_of (f ab.1), side_of ab.2) else (side_of ab.1, side_of (f ab.2))).
Proof.
  intros Hl Hf. pose proof Hl as [Hne _ [V1 V2] _ _].
  assert (Ht : tcp_only f) by (intros e; rewrite (Hf e); by destruct e).
  split.
  - apply linked_upd; [done|by destruct own|done].
  - unfold pair_of. rewrite !read_upd. destruct (valid_read i s V1) as [ei Ei], (valid_read r s V2) as [er Er]. rewrite Ei, Er.
    destruct own; [rewrite decide_True, decide_False by done|rewrite (decide_False (P := r = i)), decide_True by congruence]; done.
  - intros j H1 H2. rewrite read_upd, decide_False; [done|]. by destruct own.
  - intros j. apply valid_upd.
  - intros j e'. rewrite read_upd. case_decide; [|intros He'; exists e'; split; [done|by destruct e']].
    destruct (fs_read j s) as [e|]; [|done]. cbn. intros [= <-]. exists e. by split.
Qed.

Lemma acts_own i r s bits : linked_pair i r s -> acts i r s (or_tcp i bits s) (fun '(a, b) => (mark bits a, b)).
Proof.
  intros Hl. pose proof (acts_upd i r s (fun e => set_fe_tcp_flags (Z.lor (fe_tcp_flags e) bits) e) true Hl) as Ha.
  destruct Ha as [A1 A2 A3 A4 A5]; [by intros []|]. by split.
Qed.

Lemma acts_peer i r s bits : linked_pair i r s -> acts i r s (or_tcp r bits s) (fun '(a, b) => (a, mark bits b)).
Proof.
  intros Hl. pose proof (acts_upd i r s (fun e => set_fe_tcp_flags (Z.lor (fe_tcp_flags e) bits) e) false Hl) as Ha.
  destruct Ha as [A1 A2 A3 A4 A5]; [by intros []|]. by split.
Qed.

Lemma acts_seq i r s q : linked_pair i r s -> acts i r s (set_seq i q s) (fun '(a, b) => (at_seq q a, b)).
Proof.
  intros Hl. pose proof (acts_upd i r s (set_fe_tcp_seq q) true Hl) as Ha.
  destruct Ha as [A1 A2 A3 A4 A5]; [by intros []|]. by split.
Qed.

Lemma fld_pair i r s : fld fe_tcp_flags i s = sd_flags (pair_of i r s).1 /\ fld fe_tcp_seq i s = sd_seq (pair_of i r s).1 /\
  fld fe_tcp_flags r s = sd_flags (pair_of i r s).2 /\ fld fe_tcp_seq r s = sd_seq (pair_of i r s).2.
Proof. done. Qed.

(** The action that is known for the pair as it is. *)
Lemma acts_at i r s s' F ab : acts i r s s' F -> F (pair_of i r s) = ab -> acts i r s s' (fun _ => ab).
Proof. intros [A1 A2 A3 A4 A5] <-. by split. Qed.

Lemma close_acts i r s : linked_pair i r s ->
  acts i r s (vr_flow_init_close i s) (fun '(a, b) => (mark VR_FLOW_TCP_DEAD a, mark VR_FLOW_TCP_DEAD b)).
Proof.
  intros Hl. unfold vr_flow_init_close. pose proof (acts_own i r s VR_FLOW_TCP_DEAD Hl) as Ha.
  destruct (reverse_is i r _ (ac_linked _ _ _ _ _ Ha)) as [_ ->].
  pose proof (acts_trans _ _ _ _ _ _ _ Ha (acts_peer i r _ VR_FLOW_TCP_DEAD (ac_linked _ _ _ _ _ Ha))) as Hb.
  eapply acts_at in Hb; [|done]. destruct Hb as [B1 B2 B3 B4 B5]. split; try done.
Qed.

Lemma ack_acts i r h s : linked_pair i r s -> acts i r s (digest_ack i h s) (pair_ack h).
Proof.
  intros Hl. unfold digest_ack. destruct (fld_pair i r s) as (E1 & E2 & E3 & E4).
  destruct (pair_of i r s) as [a b] eqn:Ep. cbn [fst snd] in *.
  assert (Hid : acts i r s s (fun _ => (a, b))) by (eapply acts_at; [by apply acts_id|done]).
  assert (Hdo : forall s' ab, acts i r s s' (fun _ => ab) -> pair_ack h (a, b) = ab -> acts i r s s' (pair_ack h)).
  { intros s' ab [A1 A2 A3 A4 A5] Hab. split; try done. rewrite A2, Ep. by rewrite Hab. }
  unfold pair_ack in Hdo. unfold sees in Hdo. rewrite E1. destruct (reverse_is i r s Hl) as [-> _]. rewrite E4.
  destruct (_ && has VR_TCP_FLAG_ACK _); [|by apply (Hdo _ _ Hid)].
  destruct ((tcp_ack h =? u32 (sd_seq b + 1)) && has VR_FLOW_TCP_FIN_R (sd_flags a)).
  - pose proof (acts_peer i r s VR_FLOW_TCP_HALF_CLOSE Hl) as Ha. cbn zeta.
    destruct (fld_pair i r (or_tcp r VR_FLOW_TCP_HALF_CLOSE s)) as (F1 & _). rewrite F1, (ac_pair _ _ _ _ _ Ha), Ep. cbn [fst].
    destruct (has VR_FLOW_TCP_HALF_CLOSE (sd_flags a)).
    + pose proof (acts_trans _ _ _ _ _ _ _ Ha (close_acts i r _ (ac_linked _ _ _ _ _ Ha))) as Hb.
      eapply Hdo; [eapply acts_at; [exact Hb|reflexivity]|]. by rewrite Ep.
    + eapply Hdo; [eapply acts_at; [exact Ha|reflexivity]|]. by rewrite Ep.
  - destruct (negb (tcp_ack h =? sd_seq b)); [|by apply (Hdo _ _ Hid)].
    destruct (negb (has VR_FLOW_TCP_ESTABLISHED_R (sd_flags a))); [|by apply (Hdo _ _ Hid)].
    pose proof (acts_peer i r s VR_FLOW_TCP_ESTABLISHED Hl) as Ha.
    pose proof (acts_trans _ _ _ _ _ _ _ Ha (acts_own i r _ VR_FLOW_TCP_ESTABLISHED_R (ac_linked _ _ _ _ _ Ha))) as Hb.
    eapply Hdo; [eapply acts_at; [exact Hb|reflexivity]|]. by rewrite Ep.
Qed.

(** A packet of a direction acts on the pair as [pair_digest] says, and on nothing else. *)
Lemma digest_acts i r h s : linked_pair i r s -> acts i r s (digest_header i h s) (pair_digest h).
Proof.
  intros Hl. unfold digest_header. destruct (pair_of i r s) as [a b] eqn:Ep.
  assert (Hdo : forall s' ab, acts i r s s' (fun _ => ab) -> pair_digest h (a, b) = ab -> acts i r s s' (pair_digest h)).
  { intros s' ab [A1 A2 A3 A4 A5] Hab. split; try done. rewrite A2, Ep. by rewrite Hab. }
  destruct (has VR_TCP_FLAG_RST _) eqn:Er.
  - unfold digest_rst. pose proof (acts_own i r s VR_FLOW_TCP_RST Hl) as Ha.
    destruct (reverse_is i r _ (ac_linked _ _ _ _ _ Ha)) as [-> _].
    pose proof (acts_trans _ _ _ _ _ _ _ Ha (acts_peer i r _ VR_FLOW_TCP_RST (ac_linked _ _ _ _ _ Ha))) as Hb.
    pose proof (acts_trans _ _ _ _ _ _ _ Hb (close_acts i r _ (ac_linked _ _ _ _ _ Hb))) as Hc.
    eapply Hdo; [eapply acts_at; [exact Hc|reflexivity]|]. rewrite Ep. unfold pair_digest. by rewrite Er.
  - assert (Hin : forall s1 ab, acts i r s s1 (fun _ => ab) ->
        acts i r s (digest_ack i h s1) (fun _ => pair_ack h ab)).
    { intros s1 ab Ha. pose proof (acts_trans _ _ _ _ _ _ _ Ha (ack_acts i r h _ (ac_linked _ _ _ _ _ Ha))) as Hb.
      eapply acts_at; [exact Hb|done]. }
    destruct (has VR_TCP_FLAG_SYN _) eqn:Es; [|destruct (has VR_TCP_FLAG_FIN _) eqn:Ef].
    + cbn zeta. unfold digest_syn. pose proof (acts_seq i r s (tcp_seq h) Hl) as H1.
      pose proof (acts_trans _ _ _ _ _ _ _ H1 (acts_own i r _ VR_FLOW_TCP_SYN (ac_linked _ _ _ _ _ H1))) as H2.
      destruct (reverse_is i r _ (ac_linked _ _ _ _ _ H2)) as [-> _].
      pose proof (acts_trans _ _ _ _ _ _ _ H2 (acts_peer i r _ VR_FLOW_TCP_SYN_R (ac_linked _ _ _ _ _ H2))) as H3.
      cbn zeta. set (s3 := or_tcp r VR_FLOW_TCP_SYN_R _) in *. destruct (fld_pair i r s3) as (F1 & _ & _ & F4).
      rewrite F1, F4, (ac_pair _ _ _ _ _ H3), Ep. cbn [fst snd].
      destruct (_ && _ && _) eqn:Ec.
      * pose proof (acts_trans _ _ _ _ _ _ _ H3 (acts_peer i r _ VR_FLOW_TCP_ESTABLISHED (ac_linked _ _ _ _ _ H3))) as H4.
        pose proof (acts_trans _ _ _ _ _ _ _ H4 (acts_own i r _ VR_FLOW_TCP_ESTABLISHED_R (ac_linked _ _ _ _ _ H4))) as H5.
        eapply Hdo; [apply Hin; eapply acts_at; [exact H5|reflexivity]|]. rewrite Ep. unfold pair_digest, sees. by rewrite Er, Es, Ec.
      * eapply Hdo; [apply Hin; eapply acts_at; [exact H3|reflexivity]|]. rewrite Ep. unfold pair_digest, sees. by rewrite Er, Es, Ec.
    + cbn zeta. unfold digest_fin. pose proof (acts_seq i r s (fin_seq h) Hl) as H1.
      pose proof (acts_trans _ _ _ _ _ _ _ H1 (acts_own i r _ VR_FLOW_TCP_FIN (ac_linked _ _ _ _ _ H1))) as H2.
      destruct (reverse_is i r _ (ac_linked _ _ _ _ _ H2)) as [-> _].
      pose proof (acts_trans _ _ _ _ _ _ _ H2 (acts_peer i r _ VR_FLOW_TCP_FIN_R (ac_linked _ _ _ _ _ H2))) as H3.
      eapply Hdo; [apply Hin; eapply acts_at; [exact H3|reflexivity]|]. rewrite Ep. unfold pair_digest. by rewrite Er, Es, Ef.
    + eapply Hdo; [apply Hin; eapply acts_at; [by apply acts_id|reflexivity]|]. rewrite Ep. unfold pair_digest. by rewrite Er, Es, Ef.
Qed.
End refinement.
End FlowTcp.
