(* ===== verification/Flow.v ===== *)
(** * Flows: entries, eviction, actions and look-up (dp-core/vr_flow.c)

    A packet is filed under the flow of its key.  A flow that is not known yet is entered on
    hold: its first packets wait in a queue while the agent is asked.  A flow that is known
    has an action.  The flows of a connection that is over are evicted: marked, and given
    back after a grace period.

    Every function is one of the source; pointers to entries are indices. *)

From stdpp Require Import gmap.
From S2P Require Import Prelude Bits FlowEntry FlowInfo FlowTable Fragment Mirror VrfAssign FatFlow Csum FlowPacket FlowState FlowTcp.

Module Flow.
Import Csum FlowPacket FlowState FlowTcp.

Definition AGENT_TRAP_FLOW_MISS : Z := 6.
Definition AGENT_TRAP_L3_PROTOCOLS : Z := 7.
Definition AGENT_TRAP_ECMP_RESOLVE : Z := 9.
Definition AGENT_TRAP_FLOW_ACTION_HOLD : Z := 15.
Definition VP_DROP_INVALID_IF : Z := 2.
Definition VP_DROP_FLOW_QUEUE_LIMIT_EXCEEDED : Z := 8.
Definition VP_DROP_FLOW_NAT_NO_RFLOW : Z := 11.
Definition VP_DROP_FLOW_ACTION_DROP : Z := 12.
Definition VP_DROP_FLOW_ACTION_INVALID : Z := 13.
Definition VP_DROP_FLOW_UNUSABLE : Z := 14.
Definition VP_DROP_FLOW_TABLE_FULL : Z := 15.
Definition VP_DROP_INVALID_NH : Z := 21.
Definition VP_DROP_PCOW_FAIL : Z := 28.
Definition VP_DROP_MISC : Z := 33.
Definition VP_DROP_INVALID_SOURCE : Z := 41.
Definition VP_DROP_NEW_FLOWS : Z := 47.
Definition VP_DROP_FLOW_EVICT : Z := 48.
Definition VP_DROP_TRAP_ORIGINAL : Z := 49.
Definition NH_SOURCE_INVALID : Z := 0.
Definition NH_SOURCE_MISMATCH : Z := 2.

(** What the module finds around it: the nexthops with their functions that validate the
    source of a packet, routes, labels, interfaces and mirrors, limits, the assembler of
    fragments, the clock and the processor, and what the stack holds where the source reads
    it uninitialised. *)
Record flow_env := mk_env {
  ev_nexthop : Z -> option (option (flow_packet -> vr_forwarding_md -> Z));
  ev_ip_lookup : Z -> Z -> option flow_nh;
  ev_label : Z -> option flow_nh;
  ev_vif : Z -> option Z;
  ev_mirror : Z -> bool;
  ev_max_mirrors : Z;
  ev_max_vrfs : Z;
  ev_hold_limit : Z;
  ev_inner : flow_packet -> option Fragment.vr_ip;
  ev_assembler : bool;
  ev_sec : Z;
  ev_cpu : Z;
  ev_stack : vr_flow;
  ev_jhash : list Z -> Z -> Z;
  ev_beyond : list Z;
  ev_hashrnd : Z
}.

Section flow.
Context {T : Type} `{FlowTable T}.
Implicit Types (i r index : Z) (st : flow_mod T).

(** ** Entries *)

Definition vr_flow_reset_mirror i st : flow_mod T :=
  let st1 :=
    if is_set VR_FLOW_FLAG_MIRROR i st then
      let st1 := put i (fun e => set_fe_sec_mirror_id VR_MAX_MIRROR_INDICES (set_fe_mirror_id VR_MAX_MIRROR_INDICES e)) st in
      match get fe_mme i st1 with
      | Some b => put i (set_fe_mme None) (meta_del b st1)
      | None => st1
      end
    else st in
  put i (fun e => set_fe_sec_mirror_id VR_MAX_MIRROR_INDICES (set_fe_mirror_id VR_MAX_MIRROR_INDICES
                    (set_fe_flags (Z.ldiff (fe_flags e) VR_FLOW_FLAG_MIRROR) e))) st1.

Definition vr_init_flow_entry i st : flow_mod T :=
  put i (fun e => set_fe_ecmp_nh_index (-1) (set_fe_sec_mirror_id VR_MAX_MIRROR_INDICES
                    (set_fe_mirror_id VR_MAX_MIRROR_INDICES (set_fe_rflow (-1) e)))) st.

Definition key_reset (k : vr_flow) : vr_flow :=
  mk_key (flow_family k) (flow_proto k) (flow_sport k) (flow_dport k) (flow_nh_id k) (flow_ip k) 0.

(** The flags that survive a reset. *)
Definition reset_mask : Z :=
  Z.lor (Z.lor VR_FLOW_FLAG_ACTIVE VR_FLOW_FLAG_EVICTED) (Z.lor VR_FLOW_FLAG_NEW_FLOW VR_FLOW_FLAG_DELETE_MARKED).

Definition __vr_flow_reset_entry i st : flow_mod T :=
  let st1 := put i (fun e => set_fe_key (key_reset (fe_key e)) (set_fe_hold_list None e)) st in
  put i (fun e => set_fe_ttl 0 (set_fe_flags (Z.land (fe_flags e) reset_mask) (set_fe_tcp_flags 0 (set_fe_udp_src_port 0
           (set_fe_action VR_FLOW_ACTION_DROP (set_fe_rflow (-1) (set_fe_src_nh_index NH_DISCARD_ID
             (set_fe_ecmp_nh_index (-1) e)))))))) (vr_flow_reset_mirror i st1).

Definition release i st : flow_mod T := set_tab (ft_release i (fm_tab st)) st.

Definition vr_flow_reset_entry i st : flow_mod T :=
  release i (put i (fun e => set_fe_flags 0 (set_fe_type VP_TYPE_NULL (set_fe_stats stats_zero e))) (__vr_flow_reset_entry i st)).

Definition vr_flow_reset_active_entry i st : flow_mod T := release i (__vr_flow_reset_entry i st).

(** The compare-and-swap succeeds when the flag is not set. *)
Definition vr_flow_set_active i st : bool * flow_mod T :=
  if is_set VR_FLOW_FLAG_ACTIVE i st then (false, st)
  else (true, put i (set_fe_flags (Z.lor VR_FLOW_FLAG_ACTIVE VR_FLOW_FLAG_NEW_FLOW)) st).

Definition stop_modify i st : flow_mod T := put i (fun e => set_fe_flags (Z.ldiff (fe_flags e) VR_FLOW_FLAG_MODIFIED) e) st.

Definition vr_flow_stop_modify (o : option Z) st : flow_mod T := match o with Some i => stop_modify i st | None => st end.

(** The flag [VR_FLOW_FLAG_MODIFIED] is a lock. *)
Definition vr_flow_start_modify i st : bool * flow_mod T :=
  if is_set (Z.lor VR_FLOW_FLAG_MODIFIED (Z.lor VR_FLOW_FLAG_EVICTED VR_FLOW_FLAG_NEW_FLOW)) i st then (false, st)
  else (true, put i (fun e => set_fe_flags (Z.lor (fe_flags e) VR_FLOW_FLAG_MODIFIED) e) st).

(** ** Eviction *)

Definition vr_flow_evict_flow (o : option Z) st : flow_mod T :=
  match o with
  | None => st
  | Some i =>
      if is_set VR_FLOW_FLAG_ACTIVE i st && is_set VR_FLOW_FLAG_EVICT_CANDIDATE i st then
        vr_flow_reset_active_entry i (stop_modify i
          (put i (fun e => set_fe_flags (Z.lor (Z.lxor (fe_flags e) VR_FLOW_FLAG_EVICT_CANDIDATE) VR_FLOW_FLAG_EVICTED) e) st))
      else st
  end.

Definition vr_flow_reset_evict (o : option Z) st : flow_mod T :=
  match o with
  | None => st
  | Some i =>
      stop_modify i
        (if is_set VR_FLOW_FLAG_EVICT_CANDIDATE i st
         then put i (fun e => set_fe_flags (Z.lxor (fe_flags e) VR_FLOW_FLAG_EVICT_CANDIDATE) e) st else st)
  end.

Definition __vr_flow_mark_evict i st : bool * flow_mod T :=
  if is_set VR_FLOW_FLAG_ACTIVE i st then
    (negb (is_set VR_FLOW_FLAG_EVICT_CANDIDATE i st),
     put i (fun e => set_fe_flags (Z.lor (fe_flags e) VR_FLOW_FLAG_EVICT_CANDIDATE) e) st)
  else (false, st).

(** The work is queued with the data of the deferred call that will follow it; the flag of
    a deletion is stored in that data without a test that it was allocated. *)
Definition __vr_flow_schedule_transition i index (flags : Z) st : Z * flow_mod T :=
  let '(ok, st1) := ask_mem st in
  if negb ok then (- ENOMEM, st1)
  else
    let '(defer, st4) :=
      if bool_decide (get fe_hold_list i st1 <> None) || has VR_FLOW_FLAG_EVICT_CANDIDATE flags then
        let '(ok2, st2) := ask_host st1 in
        if negb ok2 then (None, st2)
        else
          let '(ok3, st3) := ask_host st2 in
          let del := negb (has VR_FLOW_FLAG_ACTIVE flags) in
          if ok3 then (Some (mk_fdefer 0 None del), st3)
          else (None, if del then set_fault true st3 else st3)
      else (None, st1) in
    let '(ok5, st5) := ask_mem st4 in
    if ok5 then (0, set_work (fm_work st5 ++ [mk_flmd index (u16 flags) defer]) st5) else (- ENOMEM, st5).

(** The reverse flow of a flow that is to be evicted: may the flow itself be marked, and which
    entry is locked? *)
Definition mark_reverse i index st : bool * option Z * flow_mod T :=
  if 0 <=? get fe_rflow i st then
    match entry_at (get fe_rflow i st) st with
    | None => (true, None, st)
    | Some r =>
        if has VR_FLOW_TCP_DEAD (get fe_tcp_flags r st) then
          let '(ok, st1) := vr_flow_start_modify r st in
          if negb ok then (false, None, st1)
          else if ((get fe_rflow r st1 =? index) || (get fe_rflow r st1 <? 0)) &&
                  negb (get fe_action r st1 =? VR_FLOW_ACTION_HOLD) then
            let '(marked, st2) := __vr_flow_mark_evict r st1 in (marked, Some r, st2)
          else (false, Some r, st1)
        else (false, None, st)
    end
  else (true, None, st).

Definition vr_flow_mark_evict i index st : flow_mod T :=
  let '(ok, st1) := vr_flow_start_modify i st in
  if negb ok then st1
  else
    let '(evict_forward_flow, rfe, st2) := mark_reverse i index st1 in
    let '(marked, st3) := if (evict_forward_flow : bool) then __vr_flow_mark_evict i st2 else (false, st2) in
    if (marked : bool) then
      let '(ret, st4) := __vr_flow_schedule_transition i index (get fe_flags i st3) st3 in
      if ret =? 0 then st4 else vr_flow_reset_evict (Some i) (vr_flow_reset_evict rfe st4)
    else stop_modify i (vr_flow_stop_modify rfe st3).

(** ** New entries *)

Definition vr_flow_table_get_free_entry (key : vr_flow) st : option Z * flow_mod T :=
  let '(o, t) := ft_claim (key_bytes key) (flow_key_len key) (fm_tab st) in
  let st1 := set_tab t st in
  match o with
  | None => (None, st1)
  | Some i =>
      let st2 :=
        if negb (is_set VR_FLOW_FLAG_ACTIVE i st1) then
          let '(ok, st2) := vr_flow_set_active i st1 in
          if ok then vr_init_flow_entry i st2 else st2
        else if is_set VR_FLOW_FLAG_EVICTED i st1 then
          put i (fun e => set_fe_flags (Z.lor (Z.ldiff (fe_flags e) VR_FLOW_FLAG_EVICTED) VR_FLOW_FLAG_NEW_FLOW) e) st1
        else st1 in
      (Some i, put i (fun e => set_fe_gen_id (u8 (fe_gen_id e + 1)) e) st2)
  end.

(** When there is no memory for the queue the entry is given back, and its fields are
    written through the null pointer all the same. *)
Definition vr_flow_get_free_entry (key : vr_flow) (type : Z) (need_hold : bool) st : option Z * flow_mod T :=
  match vr_flow_table_get_free_entry key st with
  | (None, st1) => (None, st1)
  | (Some i, st1) =>
      let '(ok, st2) :=
        if need_hold then
          match alloc_queue (mk_fq i 0 (vfq_pnodes queue_zero)) st1 with
          | (Some q, st2) => (true, put i (set_fe_hold_list (Some q)) st2)
          | (None, st2) => (false, vr_flow_reset_entry i st2)
          end
        else (true, st1) in
      if (ok : bool) then (Some i, put i (fun e => set_fe_key key (set_fe_type type e)) st2)
      else (None, set_fault true st2)
  end.

Definition vr_find_flow (key : vr_flow) st : option Z := ft_find (key_bytes key) (flow_key_len key) (fm_tab st).

(** ** Packets on hold *)

(** A node of a queue is filled, and the packet forgets its nexthop. *)
Definition fill_pnode (env : flow_env) (old : flow_pnode) (pkt : flow_packet) (fmd : vr_forwarding_md) : flow_pnode :=
  let p := Fragment.mk_fpkt (vp_id pkt) (vp_flags pkt) (fv_idx (vp_if pkt)) (ip_of (vp_words pkt)) (ev_inner env pkt) in
  mk_fpn (Some (set_nh None pkt)) (Fragment.vr_flow_fill_pnode (fpn_node old) p (frag_fmd fmd)).

Definition set_pnode (q k : Z) (pn : flow_pnode) st : flow_mod T :=
  match fm_queues st !! q with
  | Some vfq => set_queues (<[q := mk_fq (vfq_index vfq) (vfq_entries vfq) (zset (vfq_pnodes vfq) k pn)]> (fm_queues st)) st
  | None => set_fault true st
  end.

(** [q], [k]: the node that holds the packet.  A packet that can not be cloned is sent itself. *)
Definition vr_trap_flow i (pkt : flow_packet) index (q k : Z) (pn : flow_pnode) st : flow_mod T :=
  let '(ok, st1) := ask_mem st in
  let st2 := if ok then st1 else set_pnode q k (mk_fpn None (fpn_node pn)) (emit (E_no_clone VP_DROP_TRAP_ORIGINAL) st1) in
  let '(reason, st3) :=
    if is_set VR_FLOW_FLAG_NEW_FLOW i st2
    then (AGENT_TRAP_FLOW_MISS, put i (fun e => set_fe_flags (Z.lxor (fe_flags e) VR_FLOW_FLAG_NEW_FLOW) e) st2)
    else (AGENT_TRAP_FLOW_ACTION_HOLD, st2) in
  emit ((if ok then E_trap_clone else E_trap) (vp_id pkt) (get fe_vrf i st3) reason index) st3.

Definition vr_enqueue_flow (env : flow_env) i (pkt : flow_packet) index (fmd : vr_forwarding_md) st : flow_mod T :=
  match get fe_hold_list i st with
  | None => emit (E_pfree (vp_id pkt) VP_DROP_FLOW_UNUSABLE) st
  | Some q =>
      match fm_queues st !! q with
      | None => set_fault true st
      | Some vfq =>
          let k := vfq_entries vfq in
          let st1 := set_queues (<[q := mk_fq (vfq_index vfq) (u32 (k + 1)) (vfq_pnodes vfq)]> (fm_queues st)) st in
          if VR_MAX_FLOW_QUEUE_ENTRIES <=? k then emit (E_pfree (vp_id pkt) VP_DROP_FLOW_QUEUE_LIMIT_EXCEEDED) st1
          else
            let pn := fill_pnode env (default pnode_zero (zget (vfq_pnodes vfq) k)) pkt fmd in
            let st2 := set_pnode q k pn st1 in
            if k =? 0 then vr_trap_flow i pkt index q k pn st2 else st2
      end
  end.

(** ** Actions *)

Definition vr_flow_nat (env : flow_env) i (pkt : flow_packet) (fmd : vr_forwarding_md) st : flow_result * flow_packet * flow_mod T :=
  if vp_type pkt =? VP_TYPE_IP then
    match vr_inet_flow_nat (ev_ip_lookup env) i pkt (fmd_dvrf fmd) (fm_tab st) with
    | Some pkt1 => (FLOW_FORWARD, pkt1, st)
    | None => (FLOW_CONSUMED, pkt, emit (E_pfree (vp_id pkt) VP_DROP_FLOW_NAT_NO_RFLOW) st)
    end
  else (FLOW_CONSUMED, pkt, emit (E_pfree (vp_id pkt) VP_DROP_FLOW_ACTION_INVALID) st).

Definition vr_flow_set_forwarding_md i index (md : vr_forwarding_md) st : vr_forwarding_md :=
  let src :=
    if is_set VR_RFLOW_VALID i st then
      match entry_at (get fe_rflow i st) st with
      | Some r => get fe_ecmp_nh_index r st
      | None => fmd_ecmp_src_nh_index md
      end
    else fmd_ecmp_src_nh_index md in
  fmd_set_flow index (get fe_ecmp_nh_index i st) src (get fe_udp_src_port i st) md.

Definition vr_flow_get_qos (fmd : vr_forwarding_md) st : Z :=
  if 0 <=? fmd_flow_index fmd then
    match entry_at (fmd_flow_index fmd) st with Some i => get fe_qos_id i st | None => -1 end
  else -1.

(** The source of the packet: [false] when it is invalid.  When it is another one than the
    flow has, the agent gets a copy. *)
Definition check_source (env : flow_env) (validate : option (flow_packet -> vr_forwarding_md -> Z)) (pkt : flow_packet)
    (fmd : vr_forwarding_md) st : bool * flow_mod T :=
  match validate with
  | None => (true, st)
  | Some v =>
      let valid_src := v pkt fmd in
      if valid_src =? NH_SOURCE_INVALID then (false, st)
      else if valid_src =? NH_SOURCE_MISMATCH then
        let '(ok, st1) := ask_mem st in
        if ok then
          let '(ok2, st2) := ask_mem st1 in
          (true, emit (if ok2 then E_trap_clone (vp_id pkt) (fmd_dvrf fmd) AGENT_TRAP_ECMP_RESOLVE (fmd_flow_index fmd)
                       else E_free_clone (vp_id pkt) VP_DROP_PCOW_FAIL) st2)
        else (true, st1)
      else (true, st)
  end.

Definition flow_mirror i (pkt : flow_packet) st : flow_mod T :=
  let one (id : Z) (st : flow_mod T) := if id <? VR_MAX_MIRROR_INDICES then emit (E_mirror (vp_id pkt) id) st else st in
  if is_set VR_FLOW_FLAG_MIRROR i st then one (get fe_sec_mirror_id i st) (one (get fe_mirror_id i st) st) else st.

(** The time to live that the flow asks for. *)
Definition flow_ttl (ttl : Z) (pkt : flow_packet) : flow_packet :=
  let w := vp_words pkt in
  if (vp_type pkt =? VP_TYPE_IP) && negb (ttl =? 0) && negb (ttl =? ip_ttl w 0) then
    let diff := vr_incremental_diff (ip_ttl w 0) ttl 0 in
    let w1 := set_ttl w 0 ttl in
    set_words (if negb (diff =? 0) then zset w1 5 (vr_ip_incremental_csum (ip_csum w1 0) diff) else w1) pkt
  else pkt.

Definition flow_act (env : flow_env) i (pkt : flow_packet) (fmd : vr_forwarding_md) st : flow_result * flow_packet * flow_mod T :=
  let action := get fe_action i st in
  if action =? VR_FLOW_ACTION_DROP then (FLOW_CONSUMED, pkt, emit (E_pfree (vp_id pkt) VP_DROP_FLOW_ACTION_DROP) st)
  else if action =? VR_FLOW_ACTION_FORWARD then (FLOW_FORWARD, pkt, st)
  else if action =? VR_FLOW_ACTION_NAT then vr_flow_nat env i pkt fmd st
  else (FLOW_CONSUMED, pkt, emit (E_pfree (vp_id pkt) VP_DROP_FLOW_ACTION_INVALID) st).

Definition vr_flow_action (env : flow_env) i index (pkt : flow_packet) (fmd0 : vr_forwarding_md) st
    : flow_result * flow_packet * vr_forwarding_md * flow_mod T :=
  let fmd := fmd_set_vrf (s16 (get fe_vrf i st)) (fmd_to_me fmd0) fmd0 in
  match ev_nexthop env (get fe_src_nh_index i st) with
  | None => (FLOW_CONSUMED, pkt, fmd, emit (E_pfree (vp_id pkt) VP_DROP_INVALID_NH) st)
  | Some validate =>
      let '(valid, st1) := check_source env validate pkt fmd st in
      if negb valid then (FLOW_CONSUMED, pkt, fmd, emit (E_pfree (vp_id pkt) VP_DROP_INVALID_SOURCE) st1)
      else
        let fmd1 :=
          if is_set VR_FLOW_FLAG_VRFT i st1 && negb (fmd_dvrf fmd =? get fe_dvrf i st1)
          then fmd_set_vrf (s16 (get fe_dvrf i st1)) true fmd else fmd in
        let st2 := flow_mirror i pkt st1 in
        let '(result, pkt1, st3) := flow_act env i pkt fmd1 st2 in
        let pkt2 := match result with FLOW_FORWARD => flow_ttl (get fe_ttl i st3) pkt1 | _ => pkt1 end in
        let st4 := if has VR_FLOW_TCP_DEAD (get fe_tcp_flags i st3) then vr_flow_mark_evict i index st3 else st3 in
        (result, pkt2, fmd1, st4)
  end.

(** The packet is counted; the statistics of the flow that used the entry before go to the
    agent with the first packet. *)
Definition vr_do_flow_action (env : flow_env) i index (pkt : flow_packet) (fmd : vr_forwarding_md) st
    : flow_result * flow_packet * vr_forwarding_md * flow_mod T :=
  let st1 := if is_set VR_FLOW_FLAG_NEW_FLOW i st then put i (set_fe_stats stats_zero) st else st in
  let st2 := put i (fun e => set_fe_stats (count_packet (vp_len pkt) (fe_stats e)) e) st1 in
  if get fe_action i st2 =? VR_FLOW_ACTION_HOLD
  then (FLOW_HELD, pkt, fmd, vr_enqueue_flow env i pkt index fmd st2)
  else vr_flow_action env i index pkt fmd st2.

(** ** Look-up *)

Definition vr_flow_entry_set_hold (cpu : Z) i st : flow_mod T :=
  let '(ok, info) := FlowInfo.count_hold cpu (fm_info st) in
  if ok then set_info info (put i (set_fe_action VR_FLOW_ACTION_HOLD) st) else st.

Definition vr_flow_vif_allow_new_flow (pkt : flow_packet) : bool :=
  match local_vif pkt with
  | Some v => negb (vif_has VIF_FLAG_DROP_NEW_FLOWS v)
  | None => true
  end.

(** The reason, when a new flow is not allowed. *)
Definition vr_flow_allow_new_flow (env : flow_env) (pkt : flow_packet) st : option Z :=
  if (vp_type pkt =? VP_TYPE_IP) && negb (vr_inet_flow_allow_new_flow pkt) then Some VP_DROP_FLOW_UNUSABLE
  else if negb (ev_hold_limit env =? 0) && (ev_hold_limit env <? FlowInfo.vr_flow_table_hold_count (fm_info st))
  then Some VP_DROP_FLOW_UNUSABLE
  else if vr_flow_vif_allow_new_flow pkt then None else Some VP_DROP_NEW_FLOWS.

(** The part that is common to flows that were found and new ones. *)
Definition flow_found (env : flow_env) i (pkt : flow_packet) (fmd : vr_forwarding_md) st
    : flow_result * flow_packet * vr_forwarding_md * flow_mod T :=
  if is_set VR_FLOW_FLAG_EVICT_CANDIDATE i st then (FLOW_EVICT_DROP, pkt, fmd, st)
  else
    let fmd1 := vr_flow_set_forwarding_md i i fmd st in
    vr_do_flow_action env i i pkt fmd1 (set_tab (vr_flow_tcp_digest i pkt (fm_tab st)) st).

Definition vr_flow_lookup (env : flow_env) (key : vr_flow) (pkt0 : flow_packet) (fmd : vr_forwarding_md) st
    : flow_result * flow_packet * vr_forwarding_md * flow_mod T :=
  let pkt := set_vp_flags (Z.lor (vp_flags pkt0) VP_FLAG_FLOW_SET) pkt0 in
  match vr_find_flow key st with
  | Some i => flow_found env i pkt fmd st
  | None =>
      if match vp_nh pkt with
         | Some nh => has (Z.lor NH_FLAG_RELAXED_POLICY NH_FLAG_FLOW_LOOKUP) (fn_flags nh)
         | None => false
         end
      then (FLOW_FORWARD, pkt, fmd, st)
      else
        match vr_flow_allow_new_flow env pkt st with
        | Some drop_reason => (FLOW_CONSUMED, pkt, fmd, emit (E_pfree (vp_id pkt) drop_reason) st)
        | None =>
            match vr_flow_get_free_entry key (vp_type pkt) true st with
            | (None, st1) => (FLOW_CONSUMED, pkt, fmd, emit (E_pfree (vp_id pkt) VP_DROP_FLOW_TABLE_FULL) st1)
            | (Some i, st1) =>
                flow_found env i pkt fmd (vr_flow_entry_set_hold (ev_cpu env) i (put i (set_fe_vrf (u16 (fmd_dvrf fmd))) st1))
            end
        end
  end.

Definition IS_BMCAST_IP (ip : Z) : bool := (Z.land (ntohl ip) 4026531840 =? 3758096384) || (ip =? 4294967295).

Definition vr_inet_should_trap (pkt : flow_packet) (flow : vr_flow) : bool :=
  vif_is_virtual (vp_if pkt) && vif_has VIF_FLAG_DHCP_ENABLED (vp_if pkt) &&
  (Z.lor (Z.shiftl (flow_proto flow) 16) (flow_sport flow) =? VR_UDP_DHCP_CPORT).

Definition wants_lookup (pkt : flow_packet) : bool :=
  vif_has VIF_FLAG_POLICY_ENABLED (vp_if pkt) || has VP_FLAG_FLOW_GET (vp_flags pkt).

(** The head of a fragmented packet is noted, and a copy goes to the assembler. *)
Definition note_head (env : flow_env) (key : vr_flow) (pkt : flow_packet) (fmd : vr_forwarding_md) st : flow_mod T :=
  let ip := ip_of (vp_words pkt) in
  if Fragment.vr_ip_fragment_head ip then
    let ft := (Fragment.vr_fragment_add (ev_sec env) (u16 (fmd_dvrf fmd)) ip (flow_sport key) (flow_dport key) (fm_frag st)).2 in
    let st1 := set_frag ft st in
    if ev_assembler env then
      let '(ok, st2) := ask_mem st1 in
      if ok then emit (E_assembler_clone (vp_id pkt)) st2 else st2
    else st1
  else st.

(** Broadcast and multicast packets are compared with a key that was never filled in. *)
Definition vr_inet_flow_lookup (env : flow_env) (pkt : flow_packet) (fmd : vr_forwarding_md) st
    : flow_result * flow_packet * vr_forwarding_md * flow_mod T :=
  let w := vp_words pkt in
  if has VP_FLAG_FLOW_SET (vp_flags pkt) then (FLOW_FORWARD, pkt, fmd, st)
  else if negb (wants_lookup pkt) then (FLOW_FORWARD, pkt, fmd, st)
  else if IS_BMCAST_IP (ip_daddr w 0) then
    ((if vr_inet_should_trap pkt (ev_stack env) then FLOW_TRAP else FLOW_FORWARD), pkt, fmd, st)
  else
    match vr_inet_form_flow (ev_sec env) (u16 (fmd_dvrf fmd)) pkt (fmd_vlan fmd) (fm_frag st) with
    | None => (FLOW_CONSUMED, pkt, fmd, set_fault true st)
    | Some (ret, key, ft) =>
        let st1 := set_frag ft st in
        if ret <? 0 then
          (FLOW_CONSUMED, pkt, fmd,
           emit (if negb (vr_ip_transport_header_valid w) && ev_assembler env then E_assembler (vp_id pkt)
                 else E_pfree (vp_id pkt) VP_DROP_MISC) st1)
        else vr_flow_lookup env key pkt fmd (note_head env key pkt fmd st1)
    end.

(** A packet whose key can not be formed is forgotten. *)
Definition vr_inet6_flow_lookup (env : flow_env) (pkt : flow_packet) (fmd : vr_forwarding_md) st
    : flow_result * flow_packet * vr_forwarding_md * flow_mod T :=
  let w := vp_words pkt in
  if has VP_FLAG_FLOW_SET (vp_flags pkt) then (FLOW_FORWARD, pkt, fmd, st)
  else if ip6_nxt w 0 =? VR_IP6_PROTO_FRAG then (FLOW_FORWARD, pkt, fmd, st)
  else
    match vr_inet6_form_flow pkt (fmd_vlan fmd) with
    | None => (FLOW_CONSUMED, pkt, fmd, set_fault true st)
    | Some (ret, key) =>
        if ret <? 0 then (FLOW_CONSUMED, pkt, fmd, st)
        else if wants_lookup pkt then vr_flow_lookup env key pkt fmd st
        else (FLOW_FORWARD, pkt, fmd, st)
    end.

Definition vr_do_flow_lookup (env : flow_env) (pkt : flow_packet) (fmd : vr_forwarding_md) st
    : flow_result * flow_packet * vr_forwarding_md * flow_mod T :=
  if vp_type pkt =? VP_TYPE_IP then vr_inet_flow_lookup env pkt fmd st
  else if vp_type pkt =? VP_TYPE_IP6 then vr_inet6_flow_lookup env pkt fmd st
  else (FLOW_FORWARD, pkt, fmd, st).

Definition __vr_flow_forward (result : flow_result) (pkt : flow_packet) (fmd : vr_forwarding_md) st : bool * flow_mod T :=
  match result with
  | FLOW_FORWARD => (true, st)
  | FLOW_TRAP => (false, emit (E_trap (vp_id pkt) (fmd_dvrf fmd) AGENT_TRAP_L3_PROTOCOLS 0) st)
  | FLOW_EVICT_DROP => (false, emit (E_pfree (vp_id pkt) VP_DROP_FLOW_EVICT) st)
  | FLOW_HELD | FLOW_CONSUMED => (false, st)
  | FLOW_DROP => (false, emit (E_pfree (vp_id pkt) VP_DROP_FLOW_UNUSABLE) st)
  end.

Definition vr_flow_forward (env : flow_env) (pkt : flow_packet) (fmd : vr_forwarding_md) st
    : bool * flow_packet * vr_forwarding_md * flow_mod T :=
  let '(result, pkt1, fmd1, st1) :=
    if negb (has VP_FLAG_MULTICAST (vp_flags pkt)) &&
       ((fmd_vlan fmd =? VrfAssign.VLAN_ID_INVALID) || vif_is_service (vp_if pkt))
    then vr_do_flow_lookup env pkt fmd st else (FLOW_FORWARD, pkt, fmd, st) in
  let '(forward, st2) := __vr_flow_forward result pkt1 fmd1 st1 in
  (forward, pkt1, fmd1, st2).

End flow.
End Flow.
