(* ===== verification/FlowWork.v ===== *)
(** * Flows: work, deferred calls and requests of the agent (dp-core/vr_flow.c)

    A change of a flow schedules work that lets the waiting packets go; what remains is done
    after a grace period.  The agent adds, changes and deletes flows with requests, and asks
    for the state of the table; the module is set up and torn down. *)

From stdpp Require Import gmap.
From S2P Require Import Prelude Bits FlowEntry FlowInfo FlowTable Fragment Mirror VrfAssign FatFlow Csum FlowPacket FlowState FlowTcp Flow Htable.

Module FlowWork.
Import Csum FlowPacket FlowState FlowTcp Flow.

Definition EBADF : Z := 9.
Definition EFAULT : Z := 14.
Definition EBUSY : Z := 16.
Definition EEXIST : Z := 17.
Definition ENOSPC : Z := 28.
Definition s8 (z : Z) : Z := (z + 128) mod 256 - 128.

Section work.
Context {T : Type} `{FlowTable T}.
Variable env : flow_env.
Implicit Types (i r index : Z) (st : flow_mod T).

(** ** Waiting packets *)

Definition node_fmd (pn : Fragment.vr_packet_node) (fmd : vr_forwarding_md) : vr_forwarding_md :=
  mk_fmd (fmd_flow_index fmd) (s32 (Fragment.pl_label pn)) (fmd_ecmp_nh_index fmd) (fmd_ecmp_src_nh_index fmd)
    (fmd_dvrf fmd) (Fragment.pl_outer_src_ip pn) (fmd_vlan fmd) (fmd_udp_src_port fmd)
    (if has Fragment.PN_FLAG_TO_ME (Fragment.pl_flags pn) then true else fmd_to_me fmd)
    (has Fragment.PN_FLAG_LABEL_IS_VXLAN_ID (Fragment.pl_flags pn)) (fmd_dscp fmd) (fmd_dotonep fmd).

Definition fmd_set_qos (dscp dotonep : Z) (f : vr_forwarding_md) : vr_forwarding_md :=
  mk_fmd (fmd_flow_index f) (fmd_label f) (fmd_ecmp_nh_index f) (fmd_ecmp_src_nh_index f) (fmd_dvrf f) (fmd_outer_src_ip f)
    (fmd_vlan f) (fmd_udp_src_port f) (fmd_to_me f) (fmd_label_is_vxlan f) dscp dotonep.

(** A node and the packet in it; [fe] is the flow whose action it gets, when there is one.  The
    metadata is shared by the nodes of a queue. *)
Definition vr_flow_flush_pnode (pn : flow_pnode) (fe : option Z) (fmd0 : vr_forwarding_md) st
    : flow_pnode * vr_forwarding_md * flow_mod T :=
  let node := fpn_node pn in
  let fmd1 := node_fmd node fmd0 in
  match fpn_packet pn with
  | None => (pn, fmd1, st)
  | Some pkt0 =>
      let fmd2 := fmd_set_qos (Fragment.pl_dscp node) (Fragment.pl_dotonep node) fmd1 in
      let pn1 := mk_fpn None node in
      if negb (bool_decide (ev_vif env (Fragment.pl_vif_idx node) = Some (fv_ptr (vp_if pkt0))))
      then (pn1, fmd2, emit (E_pfree (vp_id pkt0) VP_DROP_INVALID_IF) st)
      else
        let pkt :=
          match vp_nh pkt0 with
          | Some _ => pkt0
          | None => if vif_is_fabric (vp_if pkt0) && (0 <=? fmd_label fmd2) && negb (fmd_label_is_vxlan fmd2)
                    then set_nh (ev_label env (fmd_label fmd2)) pkt0 else pkt0
          end in
        let '(forward, pkt1, fmd3, st1) :=
          match fe with
          | Some i =>
              let '(result, pkt1, fmd3, st1) := vr_flow_action env i (fmd_flow_index fmd2) pkt fmd2 st in
              let '(forward, st2) := __vr_flow_forward result pkt1 fmd3 st1 in (forward, pkt1, fmd3, st2)
          | None => vr_flow_forward env pkt fmd2 st
          end in
        (pn1, fmd3, if (forward : bool) then emit (E_reinject (vp_id pkt1)) st1 else st1)
  end.

(** The nodes of a queue in order. *)
Definition flush_node (q i : Z) (fs : vr_forwarding_md * flow_mod T) (k : Z) : vr_forwarding_md * flow_mod T :=
  let '(fmd, st) := fs in
  match fm_queues st !! q with
  | None => (fmd, set_fault true st)
  | Some vfq =>
      let '(pn1, fmd1, st1) := vr_flow_flush_pnode (default pnode_zero (zget (vfq_pnodes vfq) k)) (Some i) fmd st in
      (fmd1, set_pnode q k pn1 st1)
  end.

Definition __vr_flow_flush_hold_queue i (fmd : vr_forwarding_md) (q : Z) st : flow_mod T :=
  (foldl (flush_node q i) (fmd, st) (seqZ 0 VR_MAX_FLOW_QUEUE_ENTRIES)).2.

Definition vr_flow_flush_hold_queue i (vfq : option Z) st : flow_mod T :=
  match vfq with
  | None => st
  | Some q =>
      match fm_queues st !! q with
      | None => set_fault true st
      | Some f => __vr_flow_flush_hold_queue i (vr_flow_set_forwarding_md i (vfq_index f) vr_init_forwarding_md st) q st
      end
  end.

(** ** After the grace period *)

Definition vr_flow_defer_cb (d : flow_defer) st : flow_mod T :=
  let i := vfdd_fe d in
  let st1 :=
    match vfdd_flow_queue d with
    | Some q => free_queue q (vr_flow_flush_hold_queue i (Some q) st)
    | None => st
    end in
  if vfdd_delete d then vr_flow_reset_entry i st1
  else
    let rfe := entry_at (get fe_rflow i st1) st1 in
    vr_flow_evict_flow rfe (vr_flow_evict_flow (Some i) st1).

(** ** Work *)

(** The queue of a flow that is no longer on hold is emptied, and kept for the deferred call;
    without one it is freed at once. *)
Definition vr_flush_entry i (flmd : flow_md) (fmd : vr_forwarding_md) st : flow_md * flow_mod T :=
  match get fe_hold_list i st with
  | None => (flmd, st)
  | Some q =>
      if get fe_action i st =? VR_FLOW_ACTION_HOLD then (flmd, st)
      else
        let st1 := __vr_flow_flush_hold_queue i fmd q (put i (set_fe_hold_list None) st) in
        match flmd_defer_data flmd with
        | None => (flmd, free_queue q st1)
        | Some d => (mk_flmd (flmd_index flmd) (flmd_flags flmd) (Some (mk_fdefer (vfdd_fe d) (Some q) (vfdd_delete d))), st1)
        end
  end.

(** Without the data for a deferred call the eviction is called off; the reverse flow is
    looked up only when its index is not zero. *)
Definition vr_flow_defer (flmd : flow_md) i st : flow_mod T :=
  match flmd_defer_data flmd with
  | None =>
      let st1 :=
        if has VR_FLOW_FLAG_EVICT_CANDIDATE (flmd_flags flmd) then
          let st1 := if negb (get fe_rflow i st =? 0) then vr_flow_reset_evict (entry_at (get fe_rflow i st) st) st else st in
          vr_flow_reset_evict (Some i) st1
        else st in
      if negb (has VR_FLOW_FLAG_ACTIVE (flmd_flags flmd)) then vr_flow_reset_entry i st1 else st1
  | Some d => set_deferred (fm_deferred st ++ [mk_fdefer i (vfdd_flow_queue d) (vfdd_delete d)]) st
  end.

Definition __vr_flow_work i (flmd : flow_md) st : flow_mod T :=
  let fmd := vr_flow_set_forwarding_md i (flmd_index flmd) vr_init_forwarding_md st in
  let '(flmd1, st1) := vr_flush_entry i flmd fmd st in
  vr_flow_defer flmd1 i st1.

Definition vr_flow_work (flmd : flow_md) st : flow_mod T :=
  match entry_at (s32 (flmd_index flmd)) st with
  | None => st
  | Some i => __vr_flow_work i flmd st
  end.

(** ** Requests of the agent *)

(** [vr_flow_req]; [fr_flow_bytes] and the fields after it are the answer to an addition. *)
Record vr_flow_req := mk_freq {
  fr_index : Z;
  fr_action : Z;
  fr_flags : Z;
  fr_rindex : Z;
  fr_family : Z;
  fr_flow_ip : list Z;
  fr_flow_sport : Z;
  fr_flow_dport : Z;
  fr_flow_proto : Z;
  fr_flow_vrf : Z;
  fr_flow_dvrf : Z;
  fr_mir_id : Z;
  fr_sec_mir_id : Z;
  fr_mir_sip : Z;
  fr_mir_sport : Z;
  fr_pcap_meta_data : option (list Z);
  fr_mir_vrf : Z;
  fr_ecmp_nh_index : Z;
  fr_src_nh_index : Z;
  fr_flow_nh_id : Z;
  fr_drop_reason : Z;
  fr_qos_id : Z;
  fr_ttl : Z;
  fr_gen_id : Z;
  fr_flow_bytes : Z;
  fr_flow_packets : Z;
  fr_flow_stats_oflow : Z
}.

Definition fr_set_index (index : Z) (q : vr_flow_req) : vr_flow_req :=
  mk_freq index (fr_action q) (fr_flags q) (fr_rindex q) (fr_family q) (fr_flow_ip q) (fr_flow_sport q) (fr_flow_dport q)
    (fr_flow_proto q) (fr_flow_vrf q) (fr_flow_dvrf q) (fr_mir_id q) (fr_sec_mir_id q) (fr_mir_sip q) (fr_mir_sport q)
    (fr_pcap_meta_data q) (fr_mir_vrf q) (fr_ecmp_nh_index q) (fr_src_nh_index q) (fr_flow_nh_id q) (fr_drop_reason q)
    (fr_qos_id q) (fr_ttl q) (fr_gen_id q) (fr_flow_bytes q) (fr_flow_packets q) (fr_flow_stats_oflow q).
Definition fr_set_stats (s : vr_flow_stats) (gen_id : Z) (q : vr_flow_req) : vr_flow_req :=
  mk_freq (fr_index q) (fr_action q) (fr_flags q) (fr_rindex q) (fr_family q) (fr_flow_ip q) (fr_flow_sport q) (fr_flow_dport q)
    (fr_flow_proto q) (fr_flow_vrf q) (fr_flow_dvrf q) (fr_mir_id q) (fr_sec_mir_id q) (fr_mir_sip q) (fr_mir_sport q)
    (fr_pcap_meta_data q) (fr_mir_vrf q) (fr_ecmp_nh_index q) (fr_src_nh_index q) (fr_flow_nh_id q) (fr_drop_reason q)
    (fr_qos_id q) (fr_ttl q) gen_id (flow_bytes s) (flow_packets s)
    (Z.lor (flow_bytes_oflow s) (Z.shiftl (flow_packets_oflow s) 16)).

(** One of the two mirrors of a flow: the new index is kept when that mirror exists. *)
Definition new_mirror (old req_id : Z) : Z :=
  if negb (old =? req_id) then
    let id := if old <? ev_max_mirrors env then u8 (ev_max_mirrors env) else old in
    if (u32 req_id <? ev_max_mirrors env) && ev_mirror env req_id then u8 req_id else id
  else old.

Definition vr_flow_set_mirror (req : vr_flow_req) i st : flow_mod T :=
  if negb (has VR_FLOW_FLAG_MIRROR (fr_flags req)) then
    if is_set VR_FLOW_FLAG_MIRROR i st then vr_flow_reset_mirror i st else st
  else
    let st1 := put i (fun e => set_fe_sec_mirror_id (new_mirror (fe_sec_mirror_id e) (fr_sec_mir_id req))
                        (set_fe_mirror_id (new_mirror (fe_mirror_id e) (fr_mir_id req)) e)) st in
    match fr_pcap_meta_data req with
    | Some ((_ :: _) as data) =>
        let st2 := match get fe_mme i st1 with Some b => put i (set_fe_mme None) (meta_del b st1) | None => st1 end in
        let '(me, m) := Mirror.vr_mirror_meta_entry_set (fr_mir_sip req) (fr_mir_sport req) data (fr_mir_vrf req) (fm_metas st2) in
        let st3 := set_metas m st2 in
        match me with
        | Some e => put i (set_fe_mme (Some (Mirror.mme_block e))) (set_mmes (<[Mirror.mme_block e := e]> (fm_mmes st3)) st3)
        | None => put i (set_fe_mme None) st3
        end
    | _ => st1
    end.

Definition req_key (req : vr_flow_req) : option (Z * vr_flow) :=
  if fr_family req =? AF_INET6 then
    Some (VP_TYPE_IP6, vr_inet6_fill_flow (fr_flow_nh_id req) (fr_flow_ip req) (fr_flow_proto req) (fr_flow_sport req) (fr_flow_dport req))
  else if fr_family req =? AF_INET then
    Some (VP_TYPE_IP, vr_inet_fill_flow (fr_flow_nh_id req) (fr_flow_ip req) (fr_flow_proto req) (fr_flow_sport req) (fr_flow_dport req))
  else None.

(** The entry that was added, and the index that the caller sees ([fe_index]): it is also set
    when the flow exists. *)
Definition vr_add_flow (key : vr_flow) (type : Z) (need_hold_queue : bool) st : option Z * option Z * flow_mod T :=
  match vr_find_flow key st with
  | Some i => (None, Some i, st)
  | None =>
      let '(o, st1) := vr_flow_get_free_entry key type need_hold_queue st in (o, o, st1)
  end.

Definition vr_add_flow_req (req : vr_flow_req) st : option Z * option Z * vr_flow_req * flow_mod T :=
  match req_key req with
  | None => (None, None, req, st)
  | Some (type, key) =>
      let '(o, fe_index, st1) := vr_add_flow key type (fr_action req =? VR_FLOW_ACTION_HOLD) st in
      (o, fe_index, match o with Some i => fr_set_index i req | None => req end, st1)
  end.

Definition vr_flow_set_req_is_invalid (req : vr_flow_req) (fe : option Z) st : Z :=
  let rest :=
    if has VR_FLOW_FLAG_VRFT (fr_flags req) && (ev_max_vrfs env <=? u16 (fr_flow_dvrf req)) then - EINVAL
    else if has VR_FLOW_FLAG_MIRROR (fr_flags req) &&
            ((ev_max_mirrors env <=? u32 (fr_mir_id req)) && (ev_max_mirrors env <=? u32 (fr_sec_mir_id req))) then - EINVAL
    else if has VR_RFLOW_VALID (fr_flags req) && bool_decide (entry_at (fr_rindex req) st = None) then - EINVAL
    else 0 in
  match fe with
  | Some i =>
      if is_set VR_FLOW_FLAG_DELETE_MARKED i st then - EINVAL
      else
        let type := get fe_type i st in
        let key := get fe_key i st in
        if (type =? VP_TYPE_IP) || (type =? VP_TYPE_IP6) then
          let n := Z.to_nat (2 * FlowInfo.addr_size type) in
          if negb (u8 (fr_gen_id req) =? get fe_gen_id i st) then - EBADF
          else if negb (bool_decide (take n (fr_flow_ip req) = take n (flow_ip key))) ||
                  negb (u16 (fr_flow_sport req) =? flow_sport key) || negb (u16 (fr_flow_dport req) =? flow_dport key) ||
                  negb (u16 (fr_flow_nh_id req) =? flow_nh_id key) || negb (u8 (fr_flow_proto req) =? flow_proto key)
          then - EFAULT
          else rest
        else rest
  | None => if has VR_FLOW_FLAG_ACTIVE (fr_flags req) && negb (fr_index req <? 0) then - ENOENT else rest
  end.

Definition vr_flow_schedule_transition (req : vr_flow_req) i st : Z * flow_mod T :=
  __vr_flow_schedule_transition i (u32 (fr_index req)) (u16 (fr_flags req)) st.

Definition vr_flow_delete (req : vr_flow_req) i st : Z * flow_mod T :=
  let st1 := put i (fun e => set_fe_flags (Z.lor (fe_flags e) VR_FLOW_FLAG_DELETE_MARKED) e) st in
  let st2 :=
    if is_set VR_FLOW_FLAG_LINK_LOCAL i st1 then
      set_ll (FlowInfo.vr_clear_link_local_port AF_INET (flow_proto (get fe_key i st1))
                (Fragment.ntohs (flow_dport (get fe_key i st1))) (fm_ll st1)) st1
    else st1 in
  vr_flow_schedule_transition req i (vr_flow_reset_mirror i (put i (set_fe_action VR_FLOW_ACTION_DROP) st2)).

Definition vr_flow_update_link_local_port (req : vr_flow_req) i st : flow_mod T :=
  if negb (get fe_type i st =? VP_TYPE_IP) then st
  else
    let proto := flow_proto (get fe_key i st) in
    let port := Fragment.ntohs (flow_dport (get fe_key i st)) in
    let '(set_port, st1) :=
      if has VR_FLOW_FLAG_LINK_LOCAL (fr_flags req) then (negb (is_set VR_FLOW_FLAG_LINK_LOCAL i st), st)
      else if is_set VR_FLOW_FLAG_LINK_LOCAL i st
      then (false, set_ll (FlowInfo.vr_clear_link_local_port AF_INET proto port (fm_ll st)) st)
      else (false, st) in
    let set_port := set_port || (has VR_FLOW_BGP_SERVICE (fr_flags req) && negb (is_set VR_FLOW_BGP_SERVICE i st1)) in
    if (set_port : bool) then set_ll (FlowInfo.vr_set_link_local_port AF_INET proto port (fm_ll st1)) st1 else st1.

(** The fields of the entry that a request sets. *)
Definition set_fields (req : vr_flow_req) i st : flow_mod T :=
  let st1 := vr_flow_set_mirror req i st in
  let st2 :=
    put i (fun e =>
      let e1 := if has VR_RFLOW_VALID (fr_flags req) then set_fe_rflow (fr_rindex req) e
                else if 0 <=? fe_rflow e then set_fe_rflow (-1) e else e in
      let e2 := set_fe_vrf (u16 (fr_flow_vrf req)) e1 in
      if has VR_FLOW_FLAG_VRFT (fr_flags req) then set_fe_dvrf (u16 (fr_flow_dvrf req)) e2 else e2) st1 in
  let st3 := vr_flow_update_link_local_port req i st2 in
  let st4 := put i (fun e => set_fe_qos_id (fr_qos_id req) (set_fe_src_nh_index (u16 (fr_src_nh_index req))
                              (set_fe_ecmp_nh_index (s8 (fr_ecmp_nh_index req)) e))) st3 in
  let st5 :=
    if (fr_action req =? VR_FLOW_ACTION_HOLD) && negb (get fe_action i st4 =? VR_FLOW_ACTION_HOLD)
    then vr_flow_entry_set_hold (ev_cpu env) i st4
    else put i (set_fe_action (u16 (fr_action req))) st4 in
  put i (fun e =>
    let e1 := set_fe_ttl (u8 (fr_ttl req)) e in
    let e2 := if fe_action e1 =? VR_FLOW_ACTION_DROP then set_fe_drop_reason (u8 (fr_drop_reason req)) e1 else e1 in
    set_fe_flags (Z.lor (VR_FLOW_FLAG_DP_BITS (fe_flags e2)) (VR_FLOW_FLAG_MASK (u16 (fr_flags req)))) e2) st5.

(** What only a new flow gets: the statistics of the flow before it go to the agent, and it
    learns the TCP state of its reverse flow. *)
Definition set_new (req : vr_flow_req) i st : vr_flow_req * flow_mod T :=
  let stats := get fe_stats i st in
  let st1 :=
    if is_set VR_FLOW_FLAG_NEW_FLOW i st && (negb (flow_packets stats =? 0) || negb (flow_packets_oflow stats =? 0))
    then put i (set_fe_stats stats_zero) st else st in
  let st2 :=
    if is_set VR_RFLOW_VALID i st1 then
      match entry_at (get fe_rflow i st1) st1 with
      | Some r => set_tab (vr_flow_tcp_rflow_set i r (fm_tab st1)) st1
      | None => st1
      end
    else st1 in
  (fr_set_stats stats (get fe_gen_id i st2) req, st2).

Definition set_flow (req : vr_flow_req) (new_flow : bool) i st : Z * vr_flow_req * flow_mod T :=
  let st1 := set_fields req i st in
  let '(req1, st2) := if new_flow then set_new req i st1 else (req, st1) in
  let st3 := put i (fun e => set_fe_udp_src_port
                      (FlowInfo.vr_flow_udp_src_port (ev_jhash env) (ev_beyond env) (ev_hashrnd env) e) e) st2 in
  let st4 := put i (fun e => set_fe_flags (Z.ldiff (fe_flags e) VR_FLOW_FLAG_NEW_FLOW) e) st3 in
  let '(ret, st5) := vr_flow_schedule_transition req1 i st4 in
  (ret, req1, st5).

(** A flow on hold that a valid request takes off hold, or deletes, is counted. *)
Definition count_transition (req : vr_flow_req) (fe : option Z) st : flow_mod T :=
  match fe with
  | Some i =>
      if (get fe_action i st =? VR_FLOW_ACTION_HOLD) &&
         (negb (fr_action req =? get fe_action i st) || negb (has VR_FLOW_FLAG_ACTIVE (fr_flags req)))
      then set_info (FlowInfo.count_action (fm_info st)) st else st
  | None => st
  end.

(** A flow that goes on hold gets a queue. *)
Definition need_queue (req : vr_flow_req) i st : bool * flow_mod T :=
  if (fr_action req =? VR_FLOW_ACTION_HOLD) && negb (get fe_action i st =? fr_action req) &&
     bool_decide (get fe_hold_list i st = None)
  then
    match alloc_queue queue_zero st with
    | (Some q, st1) => (true, put i (set_fe_hold_list (Some q)) st1)
    | (None, st1) => (false, st1)
    end
  else (true, st).

Definition vr_flow_set (req : vr_flow_req) st : Z * vr_flow_req * flow_mod T :=
  let fe := entry_at (fr_index req) st in
  let '(locked, st1) := match fe with Some i => vr_flow_start_modify i st | None => (true, st) end in
  if negb locked then (- EBUSY, req, st1)
  else
    let ret := vr_flow_set_req_is_invalid req fe st1 in
    if negb (ret =? 0) then (ret, req, vr_flow_stop_modify fe st1)
    else
      let st2 := count_transition req fe st1 in
      if negb (has VR_FLOW_FLAG_ACTIVE (fr_flags req)) then
        match fe with
        | None => (- ENOENT, req, st2)
        | Some i => let '(ret, st3) := vr_flow_delete req i st2 in (ret, req, st3)
        end
      else
        match fe with
        | None =>
            let '(o, fe_index, req1, st3) := vr_add_flow_req req st2 in
            match o with
            | None => (if bool_decide (fe_index = None) then - ENOSPC else - EEXIST, req1, st3)
            | Some i => set_flow req1 true i (set_info (FlowInfo.count_added (fm_info st3)) st3)
            end
        | Some i =>
            let '(ok, st3) := need_queue req i st2 in
            if negb ok then (- ENOMEM, req, stop_modify i st3)
            else
              let '(ret, req1, st4) := set_flow req false i st3 in
              (ret, req1, stop_modify i st4)
        end.

(** ** Set-up and tear-down *)

(** An entry of the table that is being reset. *)
Definition vr_flow_invalidate_entry i st : flow_mod T :=
  if negb (is_set VR_FLOW_FLAG_ACTIVE i st) then st
  else
    let flmd := mk_flmd i (get fe_flags i st) None in
    let st1 := put i (set_fe_action VR_FLOW_ACTION_DROP) st in
    let '(_, st2) := vr_flush_entry i flmd vr_init_forwarding_md st1 in
    vr_flow_reset_entry i st2.

Definition vr_flow_table_reset st : flow_mod T :=
  let cb i t st := let st1 := vr_flow_invalidate_entry i (set_tab t st) in (fm_tab st1, st1) in
  let '(t, st1) := ft_reset cb (fm_tab st) st in
  let st2 := set_tab t st1 in
  set_info (FlowInfo.vr_flow_table_info_reset (fm_info st2)) st2.

(** A soft reset keeps the module; otherwise the table, the counters, the fragment tables and
    the bitmap of ports are given back, and nothing is left. *)
Definition vr_flow_exit (soft_reset : bool) st : option (flow_mod T) :=
  let st1 := vr_flow_table_reset st in
  if soft_reset then Some (set_ll (FlowInfo.vr_link_local_ports_reset (fm_ll st1)) st1) else None.
End work.

(** ** A new module *)

Section init.
(** [mem]: is there memory for the four parts of the table, the counters, and the bitmap of
    ports? *)
Definition vr_flow_init (vr_flow_entries vr_oflow_entries vr_num_cpus : Z) (mem : bool * bool * bool * bool) (info_ok ll_ok : bool)
    (ft : Fragment.frag_tables) (metas : Mirror.metas) (oracle fmem fhost : list bool) : Z * option (flow_mod flow_htable) :=
  let oentries := FlowInfo.vr_compute_size_oflow_table vr_oflow_entries vr_flow_entries in
  match Htable.__vr_htable_create vr_flow_entries oentries 128 0 0 fe_zero false oracle mem with
  | None => (- ENOMEM, None)
  | Some t =>
      if negb info_ok then (- ENOMEM, None)
      else
        let '(ret, ll) := FlowInfo.vr_link_local_ports_init ll_ok None in
        if negb (ret =? 0) then (ret, None)
        else (0, Some (mk_fm t ∅ 0 (FlowInfo.vr_flow_table_info_init vr_num_cpus) ll metas ∅ ft [] [] fmem fhost [] false))
  end.

(** ** The handler of requests *)

Definition VR_FLOW_OBJECT_ID : Z := 6.
Definition VR_FLOW_INFO_OBJECT_ID : Z := 13.
Definition VR_FLOW_MAX_CPUS : Z := 128.

Inductive flow_op := FLOW_SET | FLOW_LIST | FLOW_TABLE_GET.

(** The state of the table as it is sent to the agent. *)
Record flow_table_state := mk_fts {
  fr_ftable_size : Z;
  fr_processed : Z;
  fr_hold_oflows : Z;
  fr_added : Z;
  fr_cpus : Z;
  fr_hold_stat : list Z;
  fr_created : Z;
  fr_oflow_entries : Z
}.

Inductive flow_answer := A_none | A_flow (req : vr_flow_req) | A_table (state : flow_table_state).

(** The request that will hold the answer, with a path when the table is a file: the number
    of counters that it has room for. *)
Definition vr_flow_req_get (vr_flow_path : bool) (vr_num_cpus : Z) (st : flow_mod flow_htable) : option Z * flow_mod flow_htable :=
  let '(ok1, st1) := ask_mem st in
  if negb ok1 then (None, st1)
  else
    let '(ok2, st2) := if vr_flow_path then ask_mem st1 else (true, st1) in
    if negb ok2 then (None, st2)
    else
      let '(ok3, st3) := ask_mem st2 in
      (if ok3 then Some (Z.min vr_num_cpus VR_FLOW_MAX_CPUS) else None, st3).

(** The entries of both parts, each of 128 bytes. *)
Definition vr_flow_table_size (t : flow_htable) : Z := u32 ((Htable.ht_hentries t + Htable.ht_oentries t) * 128).

Definition table_state (vr_num_cpus room : Z) (st : flow_mod flow_htable) : flow_table_state :=
  let info := fm_info st in
  let stat := (fun i => default 0 (zget (FlowInfo.vfti_hold_count info) i)) <$> seqZ 0 room in
  mk_fts (vr_flow_table_size (fm_tab st)) (FlowInfo.vfti_action_count info) (FlowInfo.vfti_oflows info) (FlowInfo.vfti_added info)
    vr_num_cpus stat (foldl (fun acc c => FlowInfo.u64 (acc + c)) 0 stat) (Htable.vr_htable_used_oflow_entries (fm_tab st)).

(** The object, the answer and the code that are sent back. *)
Definition vr_flow_req_process (env : flow_env) (vr_flow_path : bool) (vr_num_cpus : Z) (op : flow_op) (req : vr_flow_req)
    (st : flow_mod flow_htable) : Z * flow_answer * Z * flow_mod flow_htable :=
  match op with
  | FLOW_TABLE_GET =>
      match vr_flow_req_get vr_flow_path vr_num_cpus st with
      | (None, st1) => (VR_FLOW_OBJECT_ID, A_none, - ENOMEM, st1)
      | (Some room, st1) => (VR_FLOW_INFO_OBJECT_ID, A_table (table_state vr_num_cpus room st1), 0, st1)
      end
  | FLOW_SET => let '(ret, req1, st1) := vr_flow_set env req st in (VR_FLOW_OBJECT_ID, A_flow req1, ret, st1)
  | FLOW_LIST => (VR_FLOW_OBJECT_ID, A_none, - EINVAL, st)
  end.
End init.

End FlowWork.
