(* ===== verification/FlowInv.v ===== *)
(** * The invariant of the flow module

    What the theorems on holds, queues and deletions need of an entry is its view: whether
    the table hands it out, its flags, its action and its queue.  The invariant says how
    flags, action and state go together, that the counters count the flows on hold, that
    every queue has one owner, and what the work and the calls that are pending may rely on. *)

From stdpp Require Import gmap.
From S2P Require Import Prelude Bits FlowEntry FlowInfo FlowTable Fragment Mirror VrfAssign FatFlow Csum FlowPacket FlowState FlowTcp Flow FlowWork.

Module FlowInv.
Import FlowPacket FlowState FlowTcp Flow FlowWork.

(** ** Views *)

Record vent := mk_vent { v_valid : bool; v_flags : Z; v_action : Z; v_hold : option Z }.

Definition v_has (bits : Z) (v : vent) : bool := has bits (v_flags v).
Definition on_hold (v : vent) : bool := v_action v =? VR_FLOW_ACTION_HOLD.
Definition v_set_flags (f : Z) (v : vent) : vent := mk_vent (v_valid v) f (v_action v) (v_hold v).
Definition v_set_action (a : Z) (v : vent) : vent := mk_vent (v_valid v) (v_flags v) a (v_hold v).
Definition v_set_hold (q : option Z) (v : vent) : vent := mk_vent (v_valid v) (v_flags v) (v_action v) q.
Definition v_set_valid (b : bool) (v : vent) : vent := mk_vent b (v_flags v) (v_action v) (v_hold v).

Definition view_of (b : bool) (e : vr_flow_entry) : vent := mk_vent b (fe_flags e) (fe_action e) (fe_hold_list e).

(** [g] is what [f] does to the view. *)
Definition acts_as (f : vr_flow_entry -> vr_flow_entry) (g : vent -> vent) : Prop := forall b e, view_of b (f e) = g (view_of b e).

(** How flags and action of an entry go together. *)
Record vent_ok (v : vent) : Prop := {
  vo_candidate : v_has VR_FLOW_FLAG_EVICT_CANDIDATE v = true -> v_has VR_FLOW_FLAG_MODIFIED v = true /\ on_hold v = false;
  vo_unused : v_valid v = false -> v_has VR_FLOW_FLAG_EVICT_CANDIDATE v = false /\ on_hold v = false /\ v_hold v = None /\
    (v_has VR_FLOW_FLAG_ACTIVE v = true -> v_has VR_FLOW_FLAG_EVICTED v = true);
  vo_used : v_valid v = true -> v_has VR_FLOW_FLAG_ACTIVE v = true /\ v_has VR_FLOW_FLAG_EVICTED v = false
}.

(** An entry whose deletion is pending. *)
Definition deleting (v : vent) : Prop :=
  v_valid v = true /\ v_has VR_FLOW_FLAG_DELETE_MARKED v = true /\ v_has VR_FLOW_FLAG_MODIFIED v = true /\
  v_has VR_FLOW_FLAG_EVICT_CANDIDATE v = false /\ on_hold v = false.

Section inv.
Context {T : Type} `{HS : FlowStore T, HT : !FlowTable T, HSL : !FlowStoreLaws T, HTL : !FlowTableLaws T}.
Implicit Types (i j : Z) (t : T) (st : flow_mod T).

Definition vw t i : option vent := view_of (fs_valid i t) <$> fs_read i t.

(** The flows on hold, counted. *)
Definition hold_at t i : bool := from_option on_hold false (vw t i).
Definition held_in t : Z := Z.of_nat (length (filter (fun i => hold_at t i = true) (seqZ 0 (ft_size t)))).

(** The entries whose deletion is pending: scheduled, or waiting for the grace period. *)
Definition work_deletes (m : flow_md) : option Z :=
  if has VR_FLOW_FLAG_ACTIVE (flmd_flags m) then None else Some (s32 (flmd_index m)).
Definition defer_deletes (d : flow_defer) : option Z := if vfdd_delete d then Some (vfdd_fe d) else None.
Definition pending (work : list flow_md) (deferred : list flow_defer) : list Z :=
  omap work_deletes work ++ omap defer_deletes deferred.

Definition emptied (q : vr_flow_queue) : Prop := Forall (fun pn => fpn_packet pn = None) (vfq_pnodes q).

(** A table of flows, and the entries of it that are being deleted. *)
Record tab_inv t (dels : list Z) : Prop := {
  ti_ok : ft_ok t;
  ti_size : ft_size t <= 2147483647;
  ti_ent : forall i v, vw t i = Some v -> vent_ok v;
  ti_nodup : NoDup dels;
  ti_deleting : forall i, i ∈ dels -> exists v, vw t i = Some v /\ deleting v
}.

(** Scheduled work has its deferred call unless it has nothing to defer. *)
Definition md_ok (m : flow_md) : Prop :=
  match flmd_defer_data m with
  | Some d => vfdd_flow_queue d = None /\ vfdd_delete d = negb (has VR_FLOW_FLAG_ACTIVE (flmd_flags m))
  | None => has VR_FLOW_FLAG_EVICT_CANDIDATE (flmd_flags m) = false
  end.

Record queue_inv t (queues : gmap Z vr_flow_queue) (next : Z) (deferred : list flow_defer) : Prop := {
  qi_live : forall i v q, vw t i = Some v -> v_hold v = Some q -> is_Some (queues !! q);
  qi_one : forall i j v w q, vw t i = Some v -> vw t j = Some w -> v_hold v = Some q -> v_hold w = Some q -> i = j;
  qi_next : forall q vfq, queues !! q = Some vfq -> q < next /\ zlen (vfq_pnodes vfq) = VR_MAX_FLOW_QUEUE_ENTRIES;
  qi_deferred : forall d q, d ∈ deferred -> vfdd_flow_queue d = Some q ->
    (exists vfq, queues !! q = Some vfq /\ emptied vfq) /\ forall i v, vw t i = Some v -> v_hold v <> Some q;
  qi_nodup : NoDup (omap vfdd_flow_queue deferred)
}.

(** [X]: entries whose deletion is in hand; [d]: holds that the counters do not count, in the
    middle of an operation. *)
Definition dels (X : list Z) st : list Z := X ++ pending (fm_work st) (fm_deferred st).

Record inv (X : list Z) (d : Z) st : Prop := {
  iv_tab : tab_inv (fm_tab st) (dels X st);
  iv_md : Forall md_ok (fm_work st);
  iv_info : FlowInfo.info_ok (fm_info st);
  iv_count : FlowInfo.held (fm_info st) + d = held_in (fm_tab st);
  iv_queue : queue_inv (fm_tab st) (fm_queues st) (fm_next st) (fm_deferred st);
  iv_host : fm_host st = []
}.

(** ** Views after an operation *)

Lemma vw_upd t i f g j : acts_as f g -> vw (fs_upd i f t) j = if decide (i = j) then g <$> vw t j else vw t j.
Proof.
  intros Hg. unfold vw. rewrite read_upd, valid_upd. case_decide; [|done]. destruct (fs_read j t); cbn; [by rewrite Hg|done].
Qed.

Lemma vw_at t i : ft_ok t -> 0 <= i < ft_size t -> exists v, vw t i = Some v.
Proof. intros Hok Hi. apply (ok_size t i Hok) in Hi as [e He]. exists (view_of (fs_valid i t) e). unfold vw. by rewrite He. Qed.

Lemma vw_range t i v : ft_ok t -> vw t i = Some v -> 0 <= i < ft_size t.
Proof. intros Hok. unfold vw. rewrite fmap_Some. intros (e & He & _). apply (ok_size t i Hok). by exists e. Qed.

Lemma vw_valid t i : fs_valid i t = true -> exists v, vw t i = Some v /\ v_valid v = true.
Proof. intros Hv. destruct (valid_read i t Hv) as [e He]. eexists. unfold vw. rewrite He. split; [done|]. done. Qed.

Lemma vw_get_flags bits i st v : vw (fm_tab st) i = Some v -> is_set bits i st = v_has bits v.
Proof. unfold vw, is_set, fl_has, fld. rewrite fmap_Some. intros (e & -> & ->). done. Qed.

Lemma vw_get i st v : vw (fm_tab st) i = Some v ->
  get fe_flags i st = v_flags v /\ get fe_action i st = v_action v /\ get fe_hold_list i st = v_hold v.
Proof. unfold vw, get, fld. rewrite fmap_Some. intros (e & -> & ->). done. Qed.

(** Two tables that differ in the view of one entry. *)
Record one_change t t' i (v v' : vent) : Prop := {
  oc_ok : ft_ok t';
  oc_size : ft_size t' = ft_size t;
  oc_old : vw t i = Some v;
  oc_new : vw t' i = Some v';
  oc_rest : forall j, j <> i -> vw t' j = vw t j
}.

Lemma count_change (h h' : Z -> bool) i n : 0 <= i < n -> (forall j, j <> i -> h' j = h j) ->
  Z.of_nat (length (filter (fun j => h' j = true) (seqZ 0 n))) =
  Z.of_nat (length (filter (fun j => h j = true) (seqZ 0 n))) - (if h i then 1 else 0) + (if h' i then 1 else 0).
Proof.
  intros Hi Hh. assert (Hin : i ∈ seqZ 0 n) by (apply elem_of_seqZ; lia).
  destruct (list_elem_of_split _ _ Hin) as (l1 & l2 & El). pose proof (NoDup_seqZ 0 n) as Hnd. rewrite El in Hnd |- *.
  assert (Hx : i ∉ l1 /\ i ∉ l2).
  { apply NoDup_app in Hnd as (_ & Hd & Hnd). apply NoDup_cons in Hnd as [H2 _]. split; [|done]. intros H1. apply (Hd i H1). left. }
  assert (Hf : forall l : list Z, i ∉ l -> filter (fun j => h' j = true) l = filter (fun j => h j = true) l).
  { intros l Hl. induction l as [|x l IH]; [done|]. rewrite !filter_cons. rewrite IH by set_solver.
    rewrite Hh by set_solver. done. }
  rewrite !filter_app, !filter_cons, !Hf by tauto. rewrite !length_app.
  repeat case_decide; destruct (h i), (h' i); try done; cbn [length]; lia.
Qed.

Lemma held_change t t' i v v' : ft_ok t -> one_change t t' i v v' ->
  held_in t' = held_in t - (if on_hold v then 1 else 0) + (if on_hold v' then 1 else 0).
Proof.
  intros Hok [H1 H2 H3 H4 H5]. unfold held_in. rewrite H2.
  rewrite (count_change (hold_at t) (hold_at t') i) by (try (by apply (vw_range t i v)); intros j Hj; unfold hold_at; by rewrite H5).
  unfold hold_at. by rewrite H3, H4.
Qed.

Lemma held_bound t : 0 <= ft_size t -> 0 <= held_in t <= ft_size t.
Proof.
  intros Hs. unfold held_in. split; [lia|].
  pose proof (length_filter (fun i => hold_at t i = true) (seqZ 0 (ft_size t))) as Hl. rewrite length_seqZ in Hl. lia.
Qed.

Lemma held_same t t' : ft_size t' = ft_size t -> (forall j, vw t' j = vw t j) -> held_in t' = held_in t.
Proof.
  intros Hs Hv. unfold held_in. rewrite Hs. do 2 f_equal. apply list_filter_iff. intros j. unfold hold_at. by rewrite Hv.
Qed.


(** ** Changes of one entry, and of none *)

(** What the invariant sees besides the table. *)
Definition core st :=
  (fm_queues st, fm_next st, fm_info st, fm_work st, fm_deferred st, fm_host st, fm_fault st).

Record moved i (v v' : vent) st st' : Prop := {
  mv_tab : one_change (fm_tab st) (fm_tab st') i v v';
  mv_core : core st' = core st
}.

Record still st st' : Prop := {
  sl_ok : ft_ok (fm_tab st');
  sl_size : ft_size (fm_tab st') = ft_size (fm_tab st);
  sl_vw : forall j, vw (fm_tab st') j = vw (fm_tab st) j;
  sl_core : core st' = core st
}.

Lemma still_eq st st' : ft_ok (fm_tab st) -> fm_tab st' = fm_tab st -> core st' = core st -> still st st'.
Proof. intros Hok Et Ec. split; rewrite ?Et; done. Qed.

Lemma still_trans st1 st2 st3 : still st1 st2 -> still st2 st3 -> still st1 st3.
Proof. intros [A1 A2 A3 A4] [B1 B2 B3 B4]. split; [done|congruence|intros j; by rewrite B3|congruence]. Qed.

Lemma still_put i f st : acts_as f id -> ft_ok (fm_tab st) -> still st (put i f st).
Proof.
  intros Hf Hok. destruct (upd_ok (fm_tab st) i f Hok) as [H1 H2]. split; [done|done| |done].
  intros j. cbn. rewrite (vw_upd _ i f id) by done. case_decide; [|done]. by destruct (vw (fm_tab st) j).
Qed.

Lemma still_moved i v st st' : still st st' -> vw (fm_tab st) i = Some v -> moved i v v st st'.
Proof. intros [A1 A2 A3 A4] Hv. split; [|done]. split; [done|done|done|by rewrite A3|by intros j _]. Qed.

Lemma moved_trans i v1 v2 v3 st1 st2 st3 : moved i v1 v2 st1 st2 -> moved i v2 v3 st2 st3 -> moved i v1 v3 st1 st3.
Proof.
  intros [[A1 A2 A3 A4 A5] Ac] [[B1 B2 B3 B4 B5] Bc]. split; [|congruence].
  split; [done|congruence|done|done|]. intros j Hj. by rewrite B5, A5.
Qed.

Lemma moved_put i f g v st : acts_as f g -> ft_ok (fm_tab st) -> vw (fm_tab st) i = Some v -> moved i v (g v) st (put i f st).
Proof.
  intros Hf Hok Hv. destruct (upd_ok (fm_tab st) i f Hok) as [H1 H2]. split; [|done]. split; [done|done|done| |].
  - cbn. by rewrite (vw_upd _ i f g), decide_True, Hv.
  - intros j Hj. cbn. by rewrite (vw_upd _ i f g), decide_False by done.
Qed.

Lemma moved_release i v st : ft_ok (fm_tab st) -> vw (fm_tab st) i = Some v -> moved i v (v_set_valid false v) st (release i st).
Proof.
  intros Hok Hv. destruct (release_spec (fm_tab st) i Hok) as (H1 & H2 & H3 & H4). split; [|done].
  assert (Hvw : forall j, vw (fm_tab (release i st)) j = if decide (j = i) then v_set_valid false <$> vw (fm_tab st) j else vw (fm_tab st) j).
  { intros j. unfold vw. cbn. rewrite H3, H4. case_decide; [|done]. by destruct (fs_read j (fm_tab st)). }
  split; [done|done|done| |]; [by rewrite Hvw, decide_True, Hv|]. intros j Hj. by rewrite Hvw, decide_False.
Qed.

Lemma inv_still X d st st' : inv X d st -> still st st' -> inv X d st'.
Proof.
  intros [Ht Hm Hi Hc Hq Hh] [A1 A2 A3 A4]. unfold core in A4. injection A4 as E1 E2 E3 E4 E5 E6 E7.
  destruct Ht as [T1 T2 T3 T4 T5]. destruct Hq as [Q1 Q2 Q3 Q4 Q5]. split; unfold dels in *; rewrite ?E1, ?E2, ?E3, ?E4, ?E5, ?E6; try done.
  - split; [done|by rewrite A2| |done|]; setoid_rewrite A3; done.
  - rewrite (held_same (fm_tab st) (fm_tab st')); done.
  - split; try setoid_rewrite A3; done.
Qed.

Lemma inv_moved X X' d d' i v v' st st' :
  inv X d st -> moved i v v' st st' -> vent_ok v' -> v_hold v' = v_hold v \/ v_hold v' = None -> sublist X' X ->
  (i ∈ dels X' st -> deleting v') ->
  d' = d - (if on_hold v then 1 else 0) + (if on_hold v' then 1 else 0) ->
  inv X' d' st'.
Proof.
  intros [Ht Hm Hi Hc Hq Hh] [Hoc Ec] Hok Hhold Hsub Hdel Hd. unfold core in Ec. injection Ec as E1 E2 E3 E4 E5 E6 E7.
  destruct Ht as [T1 T2 T3 T4 T5]. destruct Hq as [Q1 Q2 Q3 Q4 Q5]. pose proof (held_change _ _ _ _ _ T1 Hoc) as Hhc.
  destruct Hoc as [O1 O2 O3 O4 O5]. unfold dels in *.
  assert (Hcase : forall j w, vw (fm_tab st') j = Some w -> (j = i /\ w = v') \/ (j <> i /\ vw (fm_tab st) j = Some w)).
  { intros j w. destruct (decide (j = i)) as [->|Hj]; [rewrite O4; naive_solver|rewrite O5 by done; naive_solver]. }
  assert (Hq : forall j w q, vw (fm_tab st') j = Some w -> v_hold w = Some q -> exists w0, vw (fm_tab st) j = Some w0 /\ v_hold w0 = Some q).
  { intros j w q Hj Hwq. destruct (Hcase j w Hj) as [[-> ->]|[_ Hw]]; [|by exists w]. exists v. split; [done|].
    destruct Hhold as [E|E]; congruence. }
  split; unfold dels; rewrite ?E1, ?E2, ?E3, ?E4, ?E5, ?E6; try done; [|lia|].
  - split; [done|by rewrite O2| | |].
    + intros j w Hj. destruct (Hcase j w Hj) as [[-> ->]|[_ Hw]]; [done|by apply (T3 j)].
    + apply NoDup_app in T4 as (N1 & N2 & N3). apply NoDup_app. split; [by apply (sublist_NoDup _ X)|]. split; [|done].
      intros x Hx. apply N2. by apply (elem_of_sublist X' X).
    + intros j Hj. destruct (decide (j = i)) as [->|Hne]; [by exists v'; auto|]. rewrite O5 by done. apply T5.
      apply elem_of_app in Hj as [Hj|Hj]; apply elem_of_app; [left|by right]. by apply (elem_of_sublist X' X).
  - split; [| |done| |done].
    + intros j w q Hj Hwq. destruct (Hq j w q Hj Hwq) as (w0 & Hw0 & Hq0). by apply (Q1 j w0).
    + intros j k w w' q Hj Hk Hw Hw'. destruct (Hq j w q Hj Hw) as (x & Hx & Hxq). destruct (Hq k w' q Hk Hw') as (y & Hy & Hyq). by apply (Q2 j k x y q).
    + intros dd q Hdd Hddq. destruct (Q4 dd q Hdd Hddq) as [H1 H2]. split; [done|]. intros j w Hj Hwq.
      destruct (Hq j w q Hj Hwq) as (x & Hx & Hxq). by apply (H2 j x).
Qed.

(** Nothing but flags of entries, and work, changes. *)
Record calm st st' : Prop := {
  cm_size : ft_size (fm_tab st') = ft_size (fm_tab st);
  cm_vw : forall j v, vw (fm_tab st) j = Some v -> exists f, vw (fm_tab st') j = Some (v_set_flags f v);
  cm_core : fm_queues st' = fm_queues st /\ fm_next st' = fm_next st /\ fm_info st' = fm_info st /\
    fm_deferred st' = fm_deferred st /\ fm_fault st' = fm_fault st
}.

Lemma v_set_flags_eta v : v_set_flags (v_flags v) v = v.
Proof. by destruct v. Qed.

#[export] Instance calm_preorder : PreOrder calm.
Proof.
  split.
  - intros st. split; [done| |done]. intros j v Hv. exists (v_flags v). by rewrite v_set_flags_eta.
  - intros s1 s2 s3 [A1 A2 (A3 & A4 & A5 & A6 & A7)] [B1 B2 (B3 & B4 & B5 & B6 & B7)]. split; [congruence| |].
    + intros j v Hv. destruct (A2 j v Hv) as [f Hf]. destruct (B2 j _ Hf) as [g Hg]. by exists g.
    + repeat split; congruence.
Qed.

Lemma calm_still st st' : still st st' -> calm st st'.
Proof.
  intros [A1 A2 A3 A4]. unfold core in A4. injection A4 as E1 E2 E3 E4 E5 E6 E7. split; [done| |done].
  intros j v Hv. exists (v_flags v). by rewrite v_set_flags_eta, A3.
Qed.

Lemma calm_moved i v f st st' : moved i v (v_set_flags f v) st st' -> calm st st'.
Proof.
  intros [[O1 O2 O3 O4 O5] Ec]. unfold core in Ec. injection Ec as E1 E2 E3 E4 E5 E6 E7. split; [done| |done].
  intros j w Hw. destruct (decide (j = i)) as [->|Hj]; [|exists (v_flags w); by rewrite v_set_flags_eta, O5].
  exists f. rewrite O4. congruence.
Qed.

End inv.
End FlowInv.
