(* ===== verification/FlowProofs.v ===== *)
(** * Packets, work and requests keep the invariant of the flow module

    Every operation of the module, one after the other: eviction marks, the look-up of a
    packet, its action, work and deferred calls, and the requests of the agent. *)

From stdpp Require Import gmap.
From S2P Require Import Prelude Bits FlowEntry FlowInfo FlowTable Fragment Mirror VrfAssign FatFlow Csum FlowPacket FlowState FlowTcp Flow FlowWork FlowInv.

Module FlowProofs.
Import FlowPacket FlowState FlowTcp Flow FlowWork FlowInv.

(** Flags of a view after stores to them. *)
Ltac flags := unfold v_has in *; cbn [v_flags v_action v_hold v_valid v_set_flags v_set_action v_set_hold v_set_valid] in *;
  repeat (rewrite has_lor in * || (rewrite has_ldiff_self in * by reflexivity) || (rewrite has_ldiff in * by reflexivity) ||
          (rewrite has_land_0 in * by reflexivity) || (rewrite has_land in * by reflexivity));
  repeat match goal with
    | |- context [has ?a ?b] => let x := eval vm_compute in (has a b) in
        match x with true => change (has a b) with true | false => change (has a b) with false end
    end; rewrite ?orb_true_r, ?orb_false_r.

Lemma flip (k f : Z) : 0 <= k -> has (2 ^ k) f = true -> Z.lxor f (2 ^ k) = Z.ldiff f (2 ^ k).
Proof. apply lxor_clears. Qed.

Section proofs.
Context {T : Type} `{HS : FlowStore T, HT : !FlowTable T, HSL : !FlowStoreLaws T, HTL : !FlowTableLaws T}.
Implicit Types (i j r : Z) (t : T) (st : flow_mod T) (X : list Z) (v : vent).

Lemma inv_ok X d st : inv X d st -> ft_ok (fm_tab st).
Proof. intros H. apply (iv_tab _ _ _ H). Qed.

Lemma inv_ent X d st i v : inv X d st -> vw (fm_tab st) i = Some v -> vent_ok v.
Proof. intros H. apply (iv_tab _ _ _ H). Qed.

Lemma inv_del X d st i v : inv X d st -> vw (fm_tab st) i = Some v -> i ∈ dels X st -> deleting v.
Proof. intros H Hv Hi. destruct (ti_deleting _ _ (iv_tab _ _ _ H) i Hi) as (w & Hw & Hd). by simplify_eq. Qed.

Lemma entry_at_vw i r st : entry_at i st = Some r -> r = i /\ 0 <= i /\ exists v, vw (fm_tab st) i = Some v /\ v_valid v = true.
Proof.
  unfold entry_at, vr_flow_get_entry. destruct (Z.ltb_spec i 0); [done|]. destruct (fs_valid i (fm_tab st)) eqn:Hv; [|done].
  intros [= <-]. split; [done|]. split; [done|]. by apply vw_valid.
Qed.

(** ** Stores that do not count *)

Definition tab_still t t' : Prop := ft_ok t -> ft_ok t' /\ ft_size t' = ft_size t /\ forall j, vw t' j = vw t j.

#[local] Instance tab_still_preorder : PreOrder tab_still.
Proof.
  split; [done|]. intros t1 t2 t3 H12 H23 Hok. destruct (H12 Hok) as (A1 & A2 & A3). destruct (H23 A1) as (B1 & B2 & B3).
  split; [done|]. split; [congruence|]. intros j. by rewrite B3.
Qed.

Lemma upd_tab_still i f t : acts_as f id -> tab_still t (fs_upd i f t).
Proof.
  intros Hf Hok. destruct (upd_ok t i f Hok) as [H1 H2]. split; [done|]. split; [done|]. intros j.
  rewrite (vw_upd _ i f id) by done. case_decide; [|done]. by destruct (vw t j).
Qed.

Lemma or_tcp_still i b t : tab_still t (or_tcp i b t).
Proof. by apply upd_tab_still. Qed.
Lemma set_seq_still i q t : tab_still t (set_seq i q t).
Proof. by apply upd_tab_still. Qed.

Ltac tab_still_tac := repeat first
  [ reflexivity
  | match goal with
    | |- tab_still _ (or_tcp _ _ _) => etransitivity; [|apply or_tcp_still]
    | |- tab_still _ (set_seq _ _ _) => etransitivity; [|apply set_seq_still]
    | |- tab_still _ (match ?x with _ => _ end) => destruct x
    end ].

Lemma init_close_still i t : tab_still t (vr_flow_init_close i t).
Proof. unfold vr_flow_init_close. cbv zeta. tab_still_tac. Qed.

Lemma digest_still i p t : tab_still t (vr_flow_tcp_digest i p t).
Proof.
  unfold vr_flow_tcp_digest, digest_header, digest_rst, digest_ack, digest_syn, digest_fin. cbv zeta.
  destruct (tcp_header p) as [h|]; [|done]. destruct (vr_flow_is_fat_flow _ _); [done|].
  destruct (has VR_TCP_FLAG_RST _); [etransitivity; [|apply init_close_still]; tab_still_tac|].
  set (s1 := if has VR_TCP_FLAG_SYN (tcp_offset_flags h) then _ else _).
  transitivity s1; [unfold s1; tab_still_tac|]. generalize s1. intros s. clear s1.
  destruct (_ && _); [|done]. destruct (valid_reverse i s) as [r|]; [|done].
  destruct (_ && _); [|tab_still_tac]. destruct (has _ _); [|tab_still_tac].
  etransitivity; [|apply init_close_still]. tab_still_tac.
Qed.

Lemma set_tab_still st t' : ft_ok (fm_tab st) -> tab_still (fm_tab st) t' -> still st (set_tab t' st).
Proof. intros Hok Ht. destruct (Ht Hok) as (H1 & H2 & H3). by split. Qed.

(** ** What happens to a packet on the way *)

Lemma check_source_still env validate pkt fmd st : ft_ok (fm_tab st) -> still st (check_source env validate pkt fmd st).2.
Proof.
  intros Hok. apply still_eq; [done| |]; unfold check_source, ask_mem; repeat (case_match; simplify_eq); done.
Qed.

Lemma flow_mirror_still i pkt st : ft_ok (fm_tab st) -> still st (flow_mirror i pkt st).
Proof. intros Hok. apply still_eq; [done| |]; unfold flow_mirror; repeat case_match; done. Qed.

Lemma flow_act_still env i pkt fmd st : ft_ok (fm_tab st) -> still st (flow_act env i pkt fmd st).2.
Proof. intros Hok. apply still_eq; [done| |]; unfold flow_act, vr_flow_nat; repeat case_match; done. Qed.

Lemma forward_still result pkt fmd st : ft_ok (fm_tab st) -> still st (__vr_flow_forward result pkt fmd st).2.
Proof. intros Hok. apply still_eq; [done| |]; by destruct result. Qed.

(** ** Eviction marks *)

(** An entry that the operation in hand has locked. *)
Definition locked X i st : Prop :=
  exists v, vw (fm_tab st) i = Some v /\ v_valid v = true /\ v_has VR_FLOW_FLAG_MODIFIED v = true /\ i ∉ dels X st.

Lemma moved_dels X i v v' st st' : moved i v v' st st' -> dels X st' = dels X st.
Proof. intros [_ Ec]. unfold core in Ec. injection Ec as E1 E2 E3 E4 E5 E6 E7. unfold dels. by rewrite E4, E5. Qed.

Lemma locked_moved X i st r v v' st' : locked X i st -> r <> i -> moved r v v' st st' -> locked X i st'.
Proof.
  intros (w & Hw & H1 & H2 & H3) Hr Hm. rewrite <- (moved_dels X r v v' st st' Hm) in H3. destruct Hm as [[O1 O2 O3 O4 O5] _].
  exists w. by rewrite O5.
Qed.

(** Only flags of an entry change, and the entry stays sound. *)
Lemma inv_flags X d i v f st st' : inv X d st -> moved i v (v_set_flags f v) st st' -> vent_ok (v_set_flags f v) -> i ∉ dels X st ->
  inv X d st' /\ calm st st'.
Proof.
  intros Hi Hm Hok Hd. split; [|by apply (calm_moved i v f)].
  apply (inv_moved X X d d i v (v_set_flags f v) st st' Hi Hm Hok); [by left|done|done|]. cbn. unfold on_hold. cbn. lia.
Qed.

Lemma flags_moved i (g : Z -> Z) v st : ft_ok (fm_tab st) -> vw (fm_tab st) i = Some v ->
  moved i v (v_set_flags (g (v_flags v)) v) st (put i (fun e => set_fe_flags (g (fe_flags e)) e) st).
Proof. intros Hok Hv. by apply (moved_put i _ (fun v => v_set_flags (g (v_flags v)) v)). Qed.

Lemma start_modify_spec X d i v st : inv X d st -> vw (fm_tab st) i = Some v -> v_valid v = true ->
  let '(ok, st') := vr_flow_start_modify i st in
  if ok : bool then
    let v' := v_set_flags (Z.lor (v_flags v) VR_FLOW_FLAG_MODIFIED) v in
    moved i v v' st st' /\ inv X d st' /\ calm st st' /\ locked X i st' /\
    v_has VR_FLOW_FLAG_MODIFIED v = false /\ v_has VR_FLOW_FLAG_EVICT_CANDIDATE v = false
  else st' = st.
Proof.
  intros Hi Hv Hval. unfold vr_flow_start_modify. rewrite (vw_get_flags _ _ _ _ Hv).
  destruct (v_has _ v) eqn:Hm; [done|]. pose proof (inv_ent _ _ _ _ _ Hi Hv) as Hok.
  assert (Hbits : has VR_FLOW_FLAG_MODIFIED (v_flags v) = false /\ has VR_FLOW_FLAG_EVICTED (v_flags v) = false).
  { unfold v_has, has in *. apply negb_false_iff, Z.eqb_eq in Hm. rewrite !negb_false_iff, !Z.eqb_eq.
    rewrite !Z.land_lor_distr_r, !Z.lor_eq_0_iff in Hm. tauto. }
  destruct Hbits as [Hmod Hevd].
  assert (Hec : v_has VR_FLOW_FLAG_EVICT_CANDIDATE v = false).
  { destruct (v_has VR_FLOW_FLAG_EVICT_CANDIDATE v) eqn:E; [|done]. destruct (vo_candidate v Hok E) as [E' _]. unfold v_has in E'. congruence. }
  assert (Hnd : i ∉ dels X st).
  { intros Hin. destruct (inv_del _ _ _ _ _ Hi Hv Hin) as (_ & _ & E & _). unfold v_has in E. congruence. }
  pose proof (flags_moved i (fun f => Z.lor f VR_FLOW_FLAG_MODIFIED) v st (inv_ok _ _ _ Hi) Hv) as Hmv. cbn beta in Hmv.
  set (st' := put i _ st) in *. set (v' := v_set_flags _ v) in *.
  assert (Hok' : vent_ok v').
  { destruct (vo_used v Hok Hval) as [U1 U2]. unfold v_has in Hec, U1.
    split; unfold v'; flags; rewrite ?Hec, ?U1, ?Hevd; try done. by rewrite Hval. }
  destruct (inv_flags X d i v _ st st' Hi Hmv Hok' Hnd) as [Hi' Hc].
  split; [done|]. split; [done|]. split; [done|]. split; [|done]. exists v'. destruct Hmv as [[O1 O2 O3 O4 O5] Ec].
  split; [done|]. split; [done|]. split; [by unfold v'; flags|done].
Qed.

Lemma vent_flags v f : v_valid v = true -> has VR_FLOW_FLAG_ACTIVE f = true -> has VR_FLOW_FLAG_EVICTED f = false ->
  (has VR_FLOW_FLAG_EVICT_CANDIDATE f = true -> has VR_FLOW_FLAG_MODIFIED f = true /\ on_hold v = false) -> vent_ok (v_set_flags f v).
Proof. intros Hv Ha He Hc. split; unfold v_has; cbn; [done|congruence|done]. Qed.

Lemma stop_modify_spec X d i v st : inv X d st -> vw (fm_tab st) i = Some v -> v_valid v = true ->
  v_has VR_FLOW_FLAG_EVICT_CANDIDATE v = false -> i ∉ dels X st ->
  inv X d (stop_modify i st) /\ calm st (stop_modify i st).
Proof.
  intros Hi Hv Hval Hec Hd. pose proof (flags_moved i (fun f => Z.ldiff f VR_FLOW_FLAG_MODIFIED) v st (inv_ok _ _ _ Hi) Hv) as Hm.
  destruct (vo_used v (inv_ent _ _ _ _ _ Hi Hv) Hval) as [U1 U2].
  apply (inv_flags X d i v _ st _ Hi Hm); [|done]. apply vent_flags; [done| | |]; flags; congruence.
Qed.

Lemma mark_spec X d i v st : inv X d st -> vw (fm_tab st) i = Some v -> v_valid v = true -> on_hold v = false ->
  v_has VR_FLOW_FLAG_MODIFIED v = true -> v_has VR_FLOW_FLAG_EVICT_CANDIDATE v = false -> i ∉ dels X st ->
  exists st', __vr_flow_mark_evict i st = (true, st') /\ inv X d st' /\ calm st st' /\
    moved i v (v_set_flags (Z.lor (v_flags v) VR_FLOW_FLAG_EVICT_CANDIDATE) v) st st'.
Proof.
  intros Hi Hv Hval Hh Hmod Hec Hd. destruct (vo_used v (inv_ent _ _ _ _ _ Hi Hv) Hval) as [U1 U2].
  unfold __vr_flow_mark_evict. rewrite !(vw_get_flags _ _ _ _ Hv), U1, Hec. eexists. split; [done|].
  pose proof (flags_moved i (fun f => Z.lor f VR_FLOW_FLAG_EVICT_CANDIDATE) v st (inv_ok _ _ _ Hi) Hv) as Hm.
  assert (Hok : vent_ok (v_set_flags (Z.lor (v_flags v) VR_FLOW_FLAG_EVICT_CANDIDATE) v)) by (apply vent_flags; flags; auto).
  destruct (inv_flags X d i v _ st _ Hi Hm Hok Hd) as [H1 H2]. auto.
Qed.

(** The mark is taken back. *)
Lemma reset_evict_spec X d i v st : inv X d st -> vw (fm_tab st) i = Some v -> v_valid v = true -> i ∉ dels X st ->
  let st' := vr_flow_reset_evict (Some i) st in
  inv X d st' /\ calm st st' /\ exists f, moved i v (v_set_flags f v) st st'.
Proof.
  intros Hi Hv Hval Hd st'. destruct (vo_used v (inv_ent _ _ _ _ _ Hi Hv) Hval) as [U1 U2].
  set (f1 := if v_has VR_FLOW_FLAG_EVICT_CANDIDATE v then Z.ldiff (v_flags v) VR_FLOW_FLAG_EVICT_CANDIDATE else v_flags v).
  set (f := Z.ldiff f1 VR_FLOW_FLAG_MODIFIED).
  assert (Hm : moved i v (v_set_flags f v) st st').
  { unfold st', vr_flow_reset_evict. rewrite (vw_get_flags _ _ _ _ Hv). unfold f, f1.
    destruct (v_has VR_FLOW_FLAG_EVICT_CANDIDATE v) eqn:Hec.
    - pose proof (flags_moved i (fun f => Z.lxor f VR_FLOW_FLAG_EVICT_CANDIDATE) v st (inv_ok _ _ _ Hi) Hv) as Hm1.
      cbn beta in Hm1. change VR_FLOW_FLAG_EVICT_CANDIDATE with (2 ^ 10) in *. rewrite (flip 10) in Hm1 by done.
      eapply moved_trans; [exact Hm1|]. destruct Hm1 as [[O1 O2 O3 O4 O5] _].
      exact (flags_moved i (fun f => Z.ldiff f VR_FLOW_FLAG_MODIFIED) _ _ O1 O4).
    - exact (flags_moved i (fun f => Z.ldiff f VR_FLOW_FLAG_MODIFIED) v st (inv_ok _ _ _ Hi) Hv). }
  assert (Hok : vent_ok (v_set_flags f v)).
  { unfold f, f1. apply vent_flags; [done| | |]; destruct (v_has VR_FLOW_FLAG_EVICT_CANDIDATE v) eqn:E; flags; congruence. }
  destruct (inv_flags X d i v _ st st' Hi Hm Hok Hd) as [H1 H2]. split; [done|]. split; [done|]. by exists f.
Qed.

(** ** Work is scheduled *)

Lemma has_u16 k f : 0 <= k < 16 -> has (2 ^ k) (u16 f) = has (2 ^ k) f.
Proof.
  intros Hk. rewrite <- Z.shiftl_1_l, !has_testbit by lia. unfold u16. change 65536 with (2 ^ 16). by rewrite Z.mod_pow2_bits_low by lia.
Qed.

Lemma has_active_u16 f : has VR_FLOW_FLAG_ACTIVE (u16 f) = has VR_FLOW_FLAG_ACTIVE f.
Proof. by apply (has_u16 0). Qed.
Lemma has_candidate_u16 f : has VR_FLOW_FLAG_EVICT_CANDIDATE (u16 f) = has VR_FLOW_FLAG_EVICT_CANDIDATE f.
Proof. by apply (has_u16 10). Qed.

Lemma perm_mid (A B C : list Z) x : A ++ (B ++ [x]) ++ C ≡ₚ x :: A ++ B ++ C.
Proof. rewrite <- app_assoc. cbn. rewrite (app_assoc A B (x :: C)), (app_assoc A B C). symmetry. apply Permutation_middle. Qed.

(** What is scheduled: a deletion may be, when the entry is ready for it. *)
Lemma inv_schedule X d m st st' : inv X d st -> still st st' -> md_ok m ->
  (has VR_FLOW_FLAG_ACTIVE (flmd_flags m) = false ->
    s32 (flmd_index m) ∉ dels X st /\ exists v, vw (fm_tab st) (s32 (flmd_index m)) = Some v /\ deleting v) ->
  inv X d (set_work (fm_work st' ++ [m]) st').
Proof.
  intros Hi Hs Hm Hdel. pose proof (inv_still _ _ _ _ Hi Hs) as Hi'. destruct Hs as [_ _ Hvw Ec]. unfold core in Ec. injection Ec as _ _ _ E4 E5 _ _.
  assert (Hd : dels X st' = dels X st) by (unfold dels; by rewrite E4, E5). destruct Hi' as [[T1 T2 T3 T4 T5] Hmd Hin Hc Hq Hh].
  split; cbn; try done; [|apply Forall_app; by split; [|constructor]].
  assert (Hp : dels X (set_work (fm_work st' ++ [m]) st') ≡ₚ option_list (work_deletes m) ++ dels X st').
  { unfold dels, pending. cbn. rewrite omap_app. cbn. destruct (work_deletes m); cbn; [|by rewrite app_nil_r].
    apply perm_mid. }
  assert (Hx : forall x, work_deletes m = Some x -> x ∉ dels X st /\ exists v, vw (fm_tab st) x = Some v /\ deleting v).
  { unfold work_deletes. destruct (has VR_FLOW_FLAG_ACTIVE (flmd_flags m)); [done|]. intros x [= <-]. by apply Hdel. }
  split; [done|done|done| |]; cbn.
  - rewrite Hp. destruct (work_deletes m) as [x|]; [|done]. cbn. apply NoDup_cons. rewrite Hd. split; [by apply Hx|by rewrite <- Hd].
  - intros i. rewrite Hp. destruct (work_deletes m) as [x|] eqn:Ex; [|apply T5]. cbn. intros [->|Hin2]%elem_of_cons; [|by apply T5].
    rewrite Hvw. by apply Hx.
Qed.

Lemma schedule_spec X d i index flags v st : inv X d st -> vw (fm_tab st) i = Some v ->
  (has VR_FLOW_FLAG_ACTIVE flags = false -> s32 index ∉ dels X st /\ exists w, vw (fm_tab st) (s32 index) = Some w /\ deleting w) ->
  let '(ret, st') := __vr_flow_schedule_transition i index flags st in
  inv X d st' /\ calm st st' /\ fm_tab st' = fm_tab st /\ fm_deferred st' = fm_deferred st /\
  ((ret = 0 /\ exists m, md_ok m /\ has VR_FLOW_FLAG_ACTIVE (flmd_flags m) = has VR_FLOW_FLAG_ACTIVE flags /\ flmd_index m = index /\ fm_work st' = fm_work st ++ [m])
   \/ (ret = - ENOMEM /\ fm_work st' = fm_work st)).
Proof.
  intros Hi Hv Hdel. unfold __vr_flow_schedule_transition, ask_mem, ask_host. cbn. rewrite (iv_host _ _ _ Hi). cbn.
  set (ok := match fm_mem st with [] => true | b :: _ => b end).
  assert (Hst : forall st', fm_tab st' = fm_tab st -> core st' = core st -> still st st').
  { intros st' Et Ec. apply still_eq; [by apply (inv_ok X d)|done|done]. }
  assert (Hsame : forall st', fm_tab st' = fm_tab st -> core st' = core st ->
    inv X d st' /\ calm st st' /\ fm_tab st' = fm_tab st /\ fm_deferred st' = fm_deferred st /\ fm_work st' = fm_work st).
  { intros st' Et Ec. pose proof (Hst st' Et Ec) as Hs. split; [by apply (inv_still X d st)|]. split; [by apply calm_still|].
    unfold core in Ec. injection Ec as E1 E2 E3 E4 E5 E6 E7. done. }
  destruct ok; cbn [negb].
  2:{ destruct (Hsame (set_mem (tail (fm_mem st)) st)) as (H1 & H2 & H3 & H4 & H5); [done|done|]. split_and!; try done. by right. }
  set (need := bool_decide _ || _).
  set (defer := if need then Some (mk_fdefer 0 None (negb (has VR_FLOW_FLAG_ACTIVE flags))) else None).
  set (st1 := if need then set_host (tail (tail (fm_host st))) (set_mem (tail (fm_mem st)) st) else set_mem (tail (fm_mem st)) st).
  match goal with |- let '(ret, st') := (let '(x, y) := ?p in _) in _ => assert (Ep : p = (defer, st1)) end.
  { unfold defer, st1. destruct need; [|done]. rewrite (iv_host _ _ _ Hi). done. }
  rewrite Ep. cbn beta iota. clear Ep.
  assert (E1 : fm_tab st1 = fm_tab st /\ core st1 = core st).
  { unfold st1. destruct need; [|done]. split; [done|]. unfold core. cbn. by rewrite (iv_host _ _ _ Hi). }
  destruct E1 as [Et1 Ec1]. set (st2 := set_mem (tail (fm_mem st1)) st1).
  assert (Et2 : fm_tab st2 = fm_tab st) by done. assert (Ec2 : core st2 = core st) by done.
  destruct (Hsame st2 Et2 Ec2) as (H1 & H2 & H3 & H4 & H5).
  destruct (match fm_mem st1 with [] => true | b :: _ => b end); [|split_and!; try done; by right].
  set (m := mk_flmd index (u16 flags) defer).
  assert (Hmd : md_ok m).
  { unfold md_ok, m, defer. cbn. rewrite has_active_u16, has_candidate_u16. destruct need eqn:En; [done|].
    unfold need in En. by apply orb_false_iff in En as [_ En]. }
  split; [|split; [|split; [done|split; [done|left; split; [done|exists m; split_and!; try done]]]]].
  - apply (inv_schedule X d m st st2); [done|by apply Hst|done|]. unfold m. cbn. by rewrite has_active_u16.
  - destruct H2 as [C1 C2 C3]. split; [done|done|done].
  - unfold m. cbn. apply has_active_u16.
  - change (fm_work st2 ++ [m] = fm_work st ++ [m]). by rewrite H5.
Qed.

(** ** The flows of a connection that is over *)

Lemma calm_vw st st' i v : calm st st' -> vw (fm_tab st) i = Some v ->
  exists v', vw (fm_tab st') i = Some v' /\ v_valid v' = v_valid v /\ on_hold v' = on_hold v /\ v_hold v' = v_hold v.
Proof. intros Hc Hv. destruct (cm_vw _ _ Hc i v Hv) as [f Hf]. by exists (v_set_flags f v). Qed.

(** The reverse flow: what is locked afterwards, and marked when the flow itself may be. *)
Lemma mark_reverse_spec X d i index st : inv X d st -> locked X i st ->
  let '(ok, o, st') := mark_reverse i index st in
  inv X d st' /\ calm st st' /\ locked X i st' /\ vw (fm_tab st') i = vw (fm_tab st) i /\
  forall r, o = Some r -> r <> i /\ locked X r st' /\ ((ok : bool) = false -> is_set VR_FLOW_FLAG_EVICT_CANDIDATE r st' = false).
Proof.
  intros Hi Hl. unfold mark_reverse. destruct (0 <=? get fe_rflow i st); [|by split_and!].
  destruct (entry_at (get fe_rflow i st) st) as [r|] eqn:Er; [|by split_and!]. destruct (has _ _); [|by split_and!].
  apply entry_at_vw in Er as (Er & _ & v & Hv & Hval). rewrite <- Er in Hv. clear Er.
  pose proof (start_modify_spec X d r v st Hi Hv Hval) as Hs. destruct (vr_flow_start_modify r st) as [[|] st1]; cbn [negb].
  2:{ subst st1. by split_and!. }
  destruct Hs as (Hm & Hi1 & Hc1 & Hl1 & Hmod & Hec). set (v1 := v_set_flags _ v) in *.
  assert (Hne : r <> i). { intros ->. destruct Hl as (w & Hw & _ & Hwm & _). rewrite Hw in Hv. simplify_eq. congruence. }
  pose proof (locked_moved _ _ _ _ _ _ _ Hl Hne Hm) as Hli. pose proof (mv_tab _ _ _ _ _ Hm) as [_ _ _ Hv1 Hrest].
  destruct (_ && negb _) eqn:Hcond.
  - apply andb_true_iff in Hcond as [_ Hh%negb_true_iff]. destruct (vw_get r st1 v1 Hv1) as (_ & Ha & _). rewrite Ha in Hh.
    destruct Hl1 as (w & Hw & Hwv & Hwm & Hwd). assert (w = v1) as -> by congruence.
    destruct (mark_spec X d r v1 st1 Hi1 Hv1 Hwv Hh Hwm) as (st2 & -> & Hi2 & Hc2 & Hm2); [unfold v1; flags; by rewrite Hec|done|].
    split; [done|]. split; [by transitivity st1|]. split; [by apply (locked_moved X i st1 r _ _ st2 Hli Hne Hm2)|].
    pose proof (mv_tab _ _ _ _ _ Hm2) as [_ _ _ Hv2 Hrest2]. split; [by rewrite Hrest2, Hrest by done|]. intros x [= <-].
    split; [done|]. split; [|done]. eexists. split; [exact Hv2|]. split; [done|]. split; [flags; by rewrite Hwm|].
    by rewrite (moved_dels X _ _ _ _ _ Hm2).
  - split_and!; try done; [by rewrite Hrest|]. intros x [= <-]. split; [done|]. split; [done|]. intros _.
    rewrite (vw_get_flags _ _ _ _ Hv1). unfold v1. flags. by rewrite Hec.
Qed.

Lemma locked_calm X r st st' : locked X r st -> vw (fm_tab st') r = vw (fm_tab st) r -> dels X st' = dels X st -> locked X r st'.
Proof. intros (v & Hv & H1 & H2 & H3) E Ed. exists v. by rewrite E, Ed. Qed.

Lemma unlock_reverse X d o st : inv X d st ->
  (forall r, o = Some r -> locked X r st /\ is_set VR_FLOW_FLAG_EVICT_CANDIDATE r st = false) ->
  inv X d (vr_flow_stop_modify o st) /\ calm st (vr_flow_stop_modify o st).
Proof.
  intros Hi Ho. destruct o as [r|]; [|done]. destruct (Ho r eq_refl) as [(v & Hv & Hval & _ & Hd) Hec].
  rewrite (vw_get_flags _ _ _ _ Hv) in Hec. by apply (stop_modify_spec X d r v).
Qed.

Lemma unmark_reverse X d o st : inv X d st -> (forall r, o = Some r -> locked X r st) ->
  inv X d (vr_flow_reset_evict o st) /\ calm st (vr_flow_reset_evict o st) /\
  fm_work (vr_flow_reset_evict o st) = fm_work st /\
  forall j, o <> Some j -> vw (fm_tab (vr_flow_reset_evict o st)) j = vw (fm_tab st) j.
Proof.
  intros Hi Ho. destruct o as [r|]; [|done]. destruct (Ho r eq_refl) as (v & Hv & Hval & _ & Hd).
  destruct (reset_evict_spec X d r v st Hi Hv Hval Hd) as (H1 & H2 & f & Hm). split; [done|]. split; [done|].
  pose proof (mv_tab _ _ _ _ _ Hm) as [_ _ _ _ Hrest]. pose proof (mv_core _ _ _ _ _ Hm) as Ec. unfold core in Ec.
  injection Ec as E1 E2 E3 E4 E5 E6 E7. split; [done|]. intros j Hj. apply Hrest. congruence.
Qed.

Lemma mark_evict_spec X d i index st v : inv X d st -> vw (fm_tab st) i = Some v -> v_valid v = true -> on_hold v = false ->
  inv X d (vr_flow_mark_evict i index st) /\ calm st (vr_flow_mark_evict i index st).
Proof.
  intros Hi Hv Hval Hh. unfold vr_flow_mark_evict. pose proof (start_modify_spec X d i v st Hi Hv Hval) as Hs.
  destruct (vr_flow_start_modify i st) as [[|] st1]; cbn [negb]; [|by subst st1]. destruct Hs as (Hm & Hi1 & Hc1 & Hl1 & Hmod & Hec).
  pose proof (mark_reverse_spec X d i index st1 Hi1 Hl1) as Hr. destruct (mark_reverse i index st1) as [[ok o] st2].
  destruct Hr as (Hi2 & Hc2 & Hl2 & Hv2 & Ho). pose proof (mv_tab _ _ _ _ _ Hm) as [_ _ _ Hv1 _]. rewrite Hv1 in Hv2.
  set (v1 := v_set_flags _ v) in *. assert (Hec1 : v_has VR_FLOW_FLAG_EVICT_CANDIDATE v1 = false) by (unfold v1; flags; by rewrite Hec).
  destruct Hl2 as (w & Hw & Hwv & Hwm & Hwd). assert (w = v1) as -> by congruence. clear Hw.
  destruct ok.
  - destruct (mark_spec X d i v1 st2 Hi2 Hv2 Hwv Hh Hwm Hec1 Hwd) as (st3 & -> & Hi3 & Hc3 & Hm3).
    pose proof (mv_tab _ _ _ _ _ Hm3) as [_ _ _ Hv3 Hrest3]. set (v3 := v_set_flags _ v1) in *.
    assert (Hact : has VR_FLOW_FLAG_ACTIVE (get fe_flags i st3) = true).
    { destruct (vw_get i st3 v3 Hv3) as (-> & _). by destruct (vo_used v3 (inv_ent _ _ _ _ _ Hi3 Hv3) Hval) as [? _]. }
    pose proof (schedule_spec X d i index (get fe_flags i st3) v3 st3 Hi3 Hv3) as Hsc.
    destruct (__vr_flow_schedule_transition i index (get fe_flags i st3) st3) as [ret st4].
    destruct Hsc as (Hi4 & Hc4 & Et4 & Ed4 & Hret); [congruence|]. assert (Hc : calm st st4) by (transitivity st1; [done|]; transitivity st2; [done|]; by transitivity st3).
    destruct Hret as [[-> _]|[-> Ew]]; [done|]. cbn.
    assert (Edl : forall s : flow_mod T, fm_work s = fm_work st4 -> fm_deferred s = fm_deferred st4 -> dels X s = dels X st2).
    { intros s E1 E2. rewrite <- (moved_dels X _ _ _ _ _ Hm3). unfold dels. by rewrite E1, E2, Ew, Ed4. }
    destruct (unmark_reverse X d o st4 Hi4) as (Hi5 & Hc5 & Ew5 & Hv5).
    { intros r Er. destruct (Ho r Er) as (Hne & Hlr & _). apply (locked_calm X r st2); [done| |by apply Edl].
      rewrite Et4, Hrest3 by done. done. }
    pose proof (cm_core _ _ Hc5) as (_ & _ & _ & Ed5 & _).
    assert (Hvi : vw (fm_tab (vr_flow_reset_evict o st4)) i = Some v3).
    { rewrite Hv5, Et4; [done|]. intros ->. by destruct (Ho i eq_refl). }
    destruct (reset_evict_spec X d i v3 _ Hi5 Hvi Hval) as (Hi6 & Hc6 & _); [by rewrite (Edl _ Ew5 Ed5)|].
    split; [done|]. transitivity st4; [done|]. etransitivity; [exact Hc5|exact Hc6].
  - destruct (unlock_reverse X d o st2 Hi2) as [Hi3 Hc3]; [intros r Er; destruct (Ho r Er) as (_ & Hlr & He); auto|].
    assert (Hvi : vw (fm_tab (vr_flow_stop_modify o st2)) i = Some v1 /\ dels X (vr_flow_stop_modify o st2) = dels X st2).
    { destruct o as [r|]; [|done]. destruct (Ho r eq_refl) as (Hne & (w & Hw & _) & _).
      pose proof (flags_moved r (fun f => Z.ldiff f VR_FLOW_FLAG_MODIFIED) w st2 (inv_ok _ _ _ Hi2) Hw) as Hm3.
      destruct (mv_tab _ _ _ _ _ Hm3) as [_ _ _ _ Hrest]. split; [|exact (moved_dels X _ _ _ _ _ Hm3)].
      rewrite <- Hv2. exact (Hrest i (not_eq_sym Hne)). }
    destruct Hvi as [Hvi Hdi]. destruct (stop_modify_spec X d i v1 _ Hi3 Hvi Hval Hec1) as [Hi4 Hc4]; [by rewrite Hdi|].
    split; [done|]. transitivity st1; [done|]. transitivity st2; [done|]. etransitivity; [exact Hc3|exact Hc4].
Qed.

(** The action of a flow that is not on hold. *)
Lemma flow_action_spec X d env i index pkt fmd st v : inv X d st -> vw (fm_tab st) i = Some v -> v_valid v = true -> on_hold v = false ->
  let st' := (vr_flow_action env i index pkt fmd st).2 in inv X d st' /\ calm st st'.
Proof.
  intros Hi Hv Hval Hh. assert (Hst : forall s, still st s -> inv X d s /\ calm st s).
  { intros s Hs. split; [by apply (inv_still X d st)|by apply calm_still]. }
  pose proof (inv_ok _ _ _ Hi) as Hok. unfold vr_flow_action.
  destruct (ev_nexthop env _) as [validate|]; [|by apply Hst, still_eq].
  set (fmd1 := fmd_set_vrf _ _ fmd). pose proof (check_source_still env validate pkt fmd1 st Hok) as H1.
  destruct (check_source env validate pkt fmd1 st) as [valid st1]. cbn [snd] in H1. destruct valid; cbn [negb].
  2:{ apply Hst. eapply still_trans; [exact H1|by apply still_eq; [apply H1| |]]. }
  cbv zeta. set (fmd2 := if _ && _ then _ else fmd1). pose proof (flow_mirror_still i pkt st1 (sl_ok _ _ H1)) as H2.
  pose proof (flow_act_still env i pkt fmd2 (flow_mirror i pkt st1) (sl_ok _ _ H2)) as H3.
  destruct (flow_act env i pkt fmd2 (flow_mirror i pkt st1)) as [[result pkt1] st3]. cbn [snd] in H3.
  pose proof (still_trans _ _ _ H1 (still_trans _ _ _ H2 H3)) as H4. destruct (Hst st3 H4) as [Hi3 Hc3]. cbn [snd].
  destruct (has _ _); [|done]. rewrite <- (sl_vw _ _ H4) in Hv.
  destruct (mark_evict_spec X d i index st3 v Hi3 Hv Hval Hh) as [H5 H6]. split; [done|by transitivity st3].
Qed.

(** ** Entries are reset *)

Lemma reset_mirror_moved i v st : ft_ok (fm_tab st) -> vw (fm_tab st) i = Some v ->
  moved i v (v_set_flags (Z.ldiff (v_flags v) VR_FLOW_FLAG_MIRROR) v) st (vr_flow_reset_mirror i st).
Proof.
  intros Hok Hv. unfold vr_flow_reset_mirror. cbv zeta. set (st1 := if is_set _ i st then _ else st).
  assert (Hs : still st st1).
  { unfold st1. destruct (is_set _ i st); [|by apply still_eq]. set (st2 := put i _ st).
    assert (H2 : still st st2) by (by apply still_put). destruct (get fe_mme i st2) as [b|]; [|done].
    eapply still_trans; [exact H2|]. eapply still_trans; [by apply (still_eq st2 (meta_del b st2)); [apply H2| |]|].
    apply still_put; [done|apply H2]. }
  pose proof (still_moved i v st st1 Hs Hv) as Hm. eapply moved_trans; [exact Hm|].
  destruct (mv_tab _ _ _ _ _ Hm) as [O1 _ _ O4 _].
  by apply (moved_put i _ (fun v => v_set_flags (Z.ldiff (v_flags v) VR_FLOW_FLAG_MIRROR) v)).
Qed.

Lemma reset_fields_moved i v st : ft_ok (fm_tab st) -> vw (fm_tab st) i = Some v ->
  moved i v (mk_vent (v_valid v) (Z.land (Z.ldiff (v_flags v) VR_FLOW_FLAG_MIRROR) reset_mask) VR_FLOW_ACTION_DROP None) st
    (__vr_flow_reset_entry i st).
Proof.
  intros Hok Hv. unfold __vr_flow_reset_entry. set (st1 := put i _ st).
  assert (H1 : moved i v (v_set_hold None v) st st1) by (by apply (moved_put i _ (v_set_hold None))).
  destruct (mv_tab _ _ _ _ _ H1) as [O1 _ _ O4 _]. pose proof (reset_mirror_moved i _ st1 O1 O4) as H2.
  destruct (mv_tab _ _ _ _ _ H2) as [P1 _ _ P4 _]. eapply moved_trans; [exact H1|]. eapply moved_trans; [exact H2|].
  by apply (moved_put i _ (fun v => v_set_action VR_FLOW_ACTION_DROP (v_set_flags (Z.land (v_flags v) reset_mask) v))).
Qed.

Lemma reset_active_moved i v st : ft_ok (fm_tab st) -> vw (fm_tab st) i = Some v ->
  moved i v (mk_vent false (Z.land (Z.ldiff (v_flags v) VR_FLOW_FLAG_MIRROR) reset_mask) VR_FLOW_ACTION_DROP None) st
    (vr_flow_reset_active_entry i st).
Proof.
  intros Hok Hv. pose proof (reset_fields_moved i v st Hok Hv) as H1. destruct (mv_tab _ _ _ _ _ H1) as [O1 _ _ O4 _].
  eapply moved_trans; [exact H1|]. by apply moved_release in O4.
Qed.

Lemma reset_entry_moved i v st : ft_ok (fm_tab st) -> vw (fm_tab st) i = Some v ->
  moved i v (mk_vent false 0 VR_FLOW_ACTION_DROP None) st (vr_flow_reset_entry i st).
Proof.
  intros Hok Hv. pose proof (reset_fields_moved i v st Hok Hv) as H1. destruct (mv_tab _ _ _ _ _ H1) as [O1 _ _ O4 _].
  unfold vr_flow_reset_entry. eapply moved_trans; [exact H1|]. set (st2 := put i _ _).
  assert (H2 : moved i _ (v_set_flags 0 _) (__vr_flow_reset_entry i st) st2) by (by apply (moved_put i _ (v_set_flags 0))).
  destruct (mv_tab _ _ _ _ _ H2) as [P1 _ _ P4 _]. eapply moved_trans; [exact H2|]. by apply moved_release in P4.
Qed.

Lemma vent_reset : vent_ok (mk_vent false 0 VR_FLOW_ACTION_DROP None).
Proof. by split. Qed.

(** An entry that no one is deleting, or the one that is being deleted, is given back. *)
Lemma reset_entry_inv X X' d i v st : inv X d st -> vw (fm_tab st) i = Some v -> on_hold v = false -> sublist X' X -> i ∉ dels X' st ->
  inv X' d (vr_flow_reset_entry i st).
Proof.
  intros Hi Hv Hh Hs Hd. pose proof (reset_entry_moved i v st (inv_ok _ _ _ Hi) Hv) as Hm.
  apply (inv_moved X X' d d i v _ st _ Hi Hm vent_reset); [by right|done|done|]. rewrite Hh. cbn. lia.
Qed.

Lemma evict_inv X d o st : inv X d st -> inv X d (vr_flow_evict_flow o st) /\
  core (vr_flow_evict_flow o st) = core st.
Proof.
  intros Hi. destruct o as [i|]; [|done]. unfold vr_flow_evict_flow.
  destruct (is_set VR_FLOW_FLAG_ACTIVE i st && is_set VR_FLOW_FLAG_EVICT_CANDIDATE i st) eqn:E; [|done].
  apply andb_true_iff in E as [Ea Ec].
  destruct (vw (fm_tab st) i) as [v|] eqn:Hv.
  2:{ unfold vw, is_set, fl_has, fld in *. rewrite fmap_None in Hv. rewrite Hv in Ea. by vm_compute in Ea. }
  rewrite (vw_get_flags _ _ _ _ Hv) in Ea. rewrite (vw_get_flags _ _ _ _ Hv) in Ec. pose proof (inv_ent _ _ _ _ _ Hi Hv) as Hok.
  destruct (vo_candidate v Hok Ec) as [Hmod Hh].
  assert (Hval : v_valid v = true). { destruct (v_valid v) eqn:E; [done|]. destruct (vo_unused v Hok E) as [E' _]. congruence. }
  assert (Hd : i ∉ dels X st). { intros Hin. destruct (inv_del _ _ _ _ _ Hi Hv Hin) as (_ & _ & _ & E & _). congruence. }
  pose proof (flags_moved i (fun f => Z.lor (Z.lxor f VR_FLOW_FLAG_EVICT_CANDIDATE) VR_FLOW_FLAG_EVICTED) v st (inv_ok _ _ _ Hi) Hv) as H1.
  cbn beta in H1. set (st1 := put i _ st) in *. destruct (mv_tab _ _ _ _ _ H1) as [O1 _ _ O4 _].
  pose proof (flags_moved i (fun f => Z.ldiff f VR_FLOW_FLAG_MODIFIED) _ st1 O1 O4) as H2. destruct (mv_tab _ _ _ _ _ H2) as [P1 _ _ P4 _].
  fold (stop_modify i st1) in H2, P1, P4. pose proof (reset_active_moved i _ _ P1 P4) as H3.
  pose proof (moved_trans _ _ _ _ _ _ _ H1 (moved_trans _ _ _ _ _ _ _ H2 H3)) as H4. split; [|by apply H4].
  apply (inv_moved X X d d i v _ st _ Hi H4); [|by right|done|done|rewrite Hh; cbn; lia].
  split; cbn; [|intros _|done]; unfold v_has, reset_mask; cbn [v_flags v_set_flags]; [by rewrite has_land_0|].
  split; [by rewrite has_land_0|]. split; [done|]. split; [done|]. intros _.
  rewrite has_land, has_ldiff, has_ldiff, has_lor by reflexivity. by rewrite orb_true_r.
Qed.

(** ** Queues *)

Lemma inv_mem X d st m : inv X d st -> inv X d (set_mem m st).
Proof. by intros []; split. Qed.
Lemma inv_fault X d st b : inv X d st -> inv X d (set_fault b st).
Proof. by intros []; split. Qed.
Lemma inv_events X d st l : inv X d st -> inv X d (set_events l st).
Proof. by intros []; split. Qed.
Lemma inv_emit X d st e : inv X d st -> inv X d (emit e st).
Proof. apply inv_events. Qed.
Lemma inv_frag X d st f : inv X d st -> inv X d (set_frag f st).
Proof. by intros []; split. Qed.
Lemma inv_ll X d st l : inv X d st -> inv X d (set_ll l st).
Proof. by intros []; split. Qed.

(** A store to the queue of an entry. *)
Lemma inv_queue X d i v q f st : inv X d st -> vw (fm_tab st) i = Some v -> v_hold v = Some q ->
  zlen (vfq_pnodes f) = VR_MAX_FLOW_QUEUE_ENTRIES -> inv X d (set_queues (<[q := f]> (fm_queues st)) st).
Proof.
  intros [Ht Hm Hi Hc [Q1 Q2 Q3 Q4 Q5] Hh] Hv Hq Hl. split; try done. cbn. destruct (Q1 i v q Hv Hq) as [f0 Hf0]. split; [|done| | |done].
  - intros j w p Hw Hp. destruct (decide (p = q)) as [->|Hne]; [rewrite lookup_insert_eq; eauto|]. rewrite lookup_insert_ne by done. by apply (Q1 j w).
  - intros p vfq. destruct (decide (p = q)) as [->|Hne]; [rewrite lookup_insert_eq; intros [= <-]|rewrite lookup_insert_ne by done; apply Q3].
    split; [by apply (Q3 q f0)|done].
  - intros dd p Hin Hp. destruct (Q4 dd p Hin Hp) as [H1 H2]. split; [|done].
    rewrite lookup_insert_ne; [done|]. intros <-. by apply (H2 i v).
Qed.

Lemma queue_alloc_inv X d i v f st : inv X d st -> vw (fm_tab st) i = Some v -> v_valid v = true ->
  zlen (vfq_pnodes f) = VR_MAX_FLOW_QUEUE_ENTRIES ->
  match alloc_queue f st with
  | (Some q, st') => let st2 := put i (set_fe_hold_list (Some q)) st' in
      inv X d st2 /\ vw (fm_tab st2) i = Some (v_set_hold (Some q) v) /\ dels X st2 = dels X st
  | (None, st') => inv X d st' /\ fm_tab st' = fm_tab st /\ core st' = core st
  end.
Proof.
  intros Hi Hv Hval Hl. unfold alloc_queue, ask_mem. destruct (match fm_mem st with [] => true | b :: _ => b end).
  2:{ split; [by apply inv_mem|done]. }
  cbn. pose proof (inv_ok _ _ _ Hi) as Hok. set (q := fm_next st). set (st' := set_next _ _).
  assert (Hm : moved i v (v_set_hold (Some q) v) st' (put i (set_fe_hold_list (Some q)) st')) by (by apply (moved_put i _ (v_set_hold (Some q)))).
  destruct (mv_tab _ _ _ _ _ Hm) as [O1 O2 O3 O4 O5]. split; [|done].
  destruct Hi as [[T1 T2 T3 T4 T5] Hmd Hi Hc [Q1 Q2 Q3 Q4 Q5] Hh].
  assert (Hfresh : fm_queues st !! q = None).
  { destruct (fm_queues st !! q) as [x|] eqn:E; [|done]. destruct (Q3 q x E). unfold q in *. lia. }
  assert (Hcase : forall j w, vw (fm_tab (put i (set_fe_hold_list (Some q)) st')) j = Some w ->
    (j = i /\ w = v_set_hold (Some q) v) \/ (j <> i /\ vw (fm_tab st) j = Some w)).
  { intros j w. destruct (decide (j = i)) as [->|Hj]; [rewrite O4; naive_solver|rewrite O5 by done; naive_solver]. }
  assert (Hown : forall j w, vw (fm_tab st) j = Some w -> v_hold w <> Some q).
  { intros j w Hw E. destruct (Q1 j w q Hw E) as [x Hx]. congruence. }
  split; try done.
  - split; [done|by rewrite O2| |done|].
    + intros j w Hw. destruct (Hcase j w Hw) as [[-> ->]|[_ Hw']]; [|by apply (T3 j)].
      destruct (T3 i v Hv) as [C1 C2 C3]. split; cbn; [done|congruence|done].
    + intros j Hj. destruct (T5 j Hj) as (w & Hw & Hdel). destruct (decide (j = i)) as [->|Hne]; [|exists w; by rewrite O5].
      exists (v_set_hold (Some q) v). rewrite O4. by simplify_eq.
  - rewrite (held_change (fm_tab st') _ i v (v_set_hold (Some q) v)) by done. unfold on_hold. cbn. rewrite <- Hc. lia.
  - split; cbn.
    + intros j w p Hw Hp. destruct (Hcase j w Hw) as [[-> ->]|[_ Hw']].
      * cbn in Hp. simplify_eq. rewrite lookup_insert_eq. eauto.
      * rewrite lookup_insert_ne; [by apply (Q1 j w)|]. intros <-. by apply (Hown j w).
    + intros j k w w' p Hj Hk Hw Hw'. destruct (Hcase j w Hj) as [[-> ->]|[_ H1]], (Hcase k w' Hk) as [[-> ->]|[_ H2]]; try done.
      * cbn in Hw. simplify_eq. by destruct (Hown k w' H2).
      * cbn in Hw'. simplify_eq. by destruct (Hown j w H1).
      * by apply (Q2 j k w w' p).
    + intros p vfq. destruct (decide (p = q)) as [->|Hne]; [rewrite lookup_insert_eq; intros [= <-]; split; [lia|done]|].
      rewrite lookup_insert_ne by done. intros Hp. destruct (Q3 p vfq Hp). split; [lia|done].
    + intros dd p Hin Hp. destruct (Q4 dd p Hin Hp) as [(x & Hx & He) H2].
      assert (p <> q) by (intros ->; congruence). split; [exists x; by rewrite lookup_insert_ne|].
      intros j w Hw E. destruct (Hcase j w Hw) as [[-> ->]|[_ Hw']]; [cbn in E; congruence|by apply (H2 j w)].
    + done.
Qed.

(** ** New entries *)

(** An entry that was just handed out. *)
Definition fresh X i st : Prop :=
  exists v, vw (fm_tab st) i = Some v /\ v_valid v = true /\ on_hold v = false /\
    v_has VR_FLOW_FLAG_EVICT_CANDIDATE v = false /\ i ∉ dels X st.

Lemma claim_moved X d key len st : inv X d st -> 0 < len ->
  let '(o, t) := ft_claim key len (fm_tab st) in
  match o with
  | Some i => exists v, v_valid v = false /\ moved i v (v_set_valid true v) st (set_tab t st)
  | None => still st (set_tab t st)
  end.
Proof.
  intros Hi Hl. pose proof (inv_ok _ _ _ Hi) as Hok. pose proof (claim_spec (fm_tab st) key len Hok Hl) as Hs.
  destruct (ft_claim key len (fm_tab st)) as [o t]. destruct Hs as (H1 & H2 & H3 & H4). destruct o as [i|].
  - destruct H4 as (Hp & Hv & [e He] & Hval). exists (view_of false e). split; [done|].
    assert (Ev : forall j, j <> i -> vw t j = vw (fm_tab st) j) by (intros j Hj; unfold vw; by rewrite H3, Hval, decide_False).
    split; [|done]. split; [done|done| | |done]; cbn; unfold vw; rewrite ?H3, He; cbn; [by rewrite Hv|by rewrite Hval, decide_True].
  - split; [done|done| |done]. intros j. cbn. unfold vw. by rewrite H3, H4.
Qed.

Lemma table_get_free_spec X d key st : inv X d st -> 0 < flow_key_len key ->
  match vr_flow_table_get_free_entry key st with
  | (Some i, st') => inv X d st' /\ fresh X i st'
  | (None, st') => inv X d st'
  end.
Proof.
  intros Hi Hl. unfold vr_flow_table_get_free_entry. pose proof (claim_moved X d (key_bytes key) _ st Hi Hl) as Hc.
  destruct (ft_claim _ _ _) as [[i|] t]; [|by apply (inv_still X d st)]. destruct Hc as (v & Hinv & Hm).
  set (st1 := set_tab t st) in *. destruct (mv_tab _ _ _ _ _ Hm) as [O1 _ O3 O4 _]. pose proof (inv_ent _ _ _ _ _ Hi O3) as Hok.
  destruct (vo_unused v Hok Hinv) as (Hec & Hh & Hq & Hae). unfold v_has in Hec, Hae.
  set (st2 := if negb _ then _ else _).
  assert (H2 : exists f, moved i v (mk_vent true f (v_action v) (v_hold v)) st st2 /\ has VR_FLOW_FLAG_ACTIVE f = true /\
    has VR_FLOW_FLAG_EVICTED f = false /\ has VR_FLOW_FLAG_EVICT_CANDIDATE f = false).
  { unfold st2. rewrite (vw_get_flags _ _ _ _ O4). unfold v_has. cbn [v_flags v_set_valid].
    destruct (has VR_FLOW_FLAG_ACTIVE (v_flags v)) eqn:Ea; cbn [negb].
    - rewrite (vw_get_flags _ _ _ _ O4). unfold v_has. cbn [v_flags v_set_valid]. rewrite Hae by done.
      exists (Z.lor (Z.ldiff (v_flags v) VR_FLOW_FLAG_EVICTED) VR_FLOW_FLAG_NEW_FLOW). split; [|flags; by rewrite Ea, Hec].
      pose proof (flags_moved i (fun f => Z.lor (Z.ldiff f VR_FLOW_FLAG_EVICTED) VR_FLOW_FLAG_NEW_FLOW) _ st1 O1 O4) as H3.
      exact (moved_trans _ _ _ _ _ _ _ Hm H3).
    - unfold vr_flow_set_active. rewrite (vw_get_flags _ _ _ _ O4). unfold v_has. cbn [v_flags v_set_valid]. rewrite Ea.
      exists (Z.lor VR_FLOW_FLAG_ACTIVE VR_FLOW_FLAG_NEW_FLOW). split; [|by split]. set (st3 := put i _ st1).
      assert (H3 : moved i (v_set_valid true v) (v_set_flags (Z.lor VR_FLOW_FLAG_ACTIVE VR_FLOW_FLAG_NEW_FLOW) (v_set_valid true v)) st1 st3)
        by (by apply (moved_put i _ (v_set_flags _))).
      destruct (mv_tab _ _ _ _ _ H3) as [P1 _ _ P4 _]. refine (moved_trans _ _ _ _ _ _ _ Hm (moved_trans _ _ _ _ _ _ _ H3 _)).
      by apply still_moved; [apply still_put|]. }
  destruct H2 as (f & Hm2 & Fa & Fe & Fc). set (v2 := mk_vent true f _ _) in *. destruct (mv_tab _ _ _ _ _ Hm2) as [P1 _ _ P4 _].
  set (st3 := put i _ st2). assert (Hm3 : moved i v v2 st st3).
  { eapply moved_trans; [exact Hm2|]. by apply still_moved; [apply still_put|]. }
  assert (Hd : i ∉ dels X st). { intros Hin. destruct (inv_del _ _ _ _ _ Hi O3 Hin) as (E & _). congruence. }
  assert (Hh2 : on_hold v2 = on_hold v) by done. split.
  - apply (inv_moved X X d d i v v2 st st3 Hi Hm3); [|by left|done|done|rewrite Hh2; lia].
    split; unfold v_has; cbn; [congruence|done|done].
  - exists v2. split; [by apply (mv_tab _ _ _ _ _ Hm3)|]. split; [done|]. split; [congruence|]. split; [done|].
    by rewrite (moved_dels X _ _ _ _ _ Hm3).
Qed.

Lemma flow_get_free_spec X d key type need st : inv X d st -> 0 < flow_key_len key ->
  match vr_flow_get_free_entry key type need st with
  | (Some i, st') => inv X d st' /\ fresh X i st'
  | (None, st') => inv X d st'
  end.
Proof.
  intros Hi Hl. unfold vr_flow_get_free_entry. pose proof (table_get_free_spec X d key st Hi Hl) as Hs.
  destruct (vr_flow_table_get_free_entry key st) as [[i|] st1]; [|done]. destruct Hs as [Hi1 (v & Hv & Hval & Hh & Hec & Hd)].
  assert (Hend : forall w s, inv X d s -> vw (fm_tab s) i = Some w -> v_valid w = true -> on_hold w = false ->
    v_has VR_FLOW_FLAG_EVICT_CANDIDATE w = false -> i ∉ dels X s ->
    inv X d (put i (fun e => set_fe_key key (set_fe_type type e)) s) /\ fresh X i (put i (fun e => set_fe_key key (set_fe_type type e)) s)).
  { intros w s His Hw H1 H2 H3 H4. assert (Hst : still s (put i (fun e => set_fe_key key (set_fe_type type e)) s)).
    { apply still_put; [done|]. by apply (inv_ok X d). }
    split; [by apply (inv_still X d s)|]. exists w. rewrite (sl_vw _ _ Hst). done. }
  destruct need; [|by apply (Hend v)].
  pose proof (queue_alloc_inv X d i v (mk_fq i 0 (vfq_pnodes queue_zero)) st1 Hi1 Hv Hval eq_refl) as Ha.
  destruct (alloc_queue _ st1) as [[q|] st2].
  - destruct Ha as (Hi2 & Hv2 & Hd2). by apply (Hend (v_set_hold (Some q) v)); rewrite ?Hd2.
  - destruct Ha as (Hi2 & Et & Ec). apply inv_fault. apply (reset_entry_inv X X d i v); rewrite ?Et; try done.
    unfold dels, core in *. injection Ec as E1 E2 E3 E4 E5 E6 E7. by rewrite E4, E5.
Qed.

Lemma set_hold_spec X d cpu i v st : inv X d st -> 0 <= cpu -> vw (fm_tab st) i = Some v -> v_valid v = true -> on_hold v = false ->
  v_has VR_FLOW_FLAG_EVICT_CANDIDATE v = false -> i ∉ dels X st -> 0 <= d ->
  let st' := vr_flow_entry_set_hold cpu i st in
  inv X d st' /\ dels X st' = dels X st /\
  exists a, vw (fm_tab st') i = Some (v_set_action a v) /\ forall b, has b (v_flags (v_set_action a v)) = has b (v_flags v).
Proof.
  intros Hi Hcpu Hv Hval Hh Hec Hd Hpos. unfold vr_flow_entry_set_hold.
  assert (Hb : FlowInfo.held (fm_info st) < UINT_MAX).
  { pose proof (iv_count _ _ _ Hi) as Hc. pose proof (ti_size _ _ (iv_tab _ _ _ Hi)) as Hsz.
    pose proof (vw_range _ _ _ (inv_ok _ _ _ Hi) Hv) as Hr. pose proof (held_bound (fm_tab st)) as Hhb.
    specialize (Hhb ltac:(lia)). lia. }
  pose proof (FlowInfo.count_hold_held cpu (fm_info st) (iv_info _ _ _ Hi) Hcpu Hb) as Hc.
  destruct (FlowInfo.count_hold cpu (fm_info st)) as [[|] info].
  2:{ split; [done|]. split; [done|]. exists (v_action v). split; [|done]. rewrite Hv. by destruct v. }
  destruct Hc as (Hok & Hheld & _). set (st1 := put i _ st).
  assert (Hm : moved i v (v_set_action VR_FLOW_ACTION_HOLD v) st st1).
  { by apply (moved_put i _ (v_set_action VR_FLOW_ACTION_HOLD)); [|apply (inv_ok X d)|]. }
  assert (Hi1 : inv X (d + 1) st1).
  { apply (inv_moved X X d (d + 1) i v _ st st1 Hi Hm); [|by left|done|done|rewrite Hh; cbn; lia].
    destruct (inv_ent _ _ _ _ _ Hi Hv) as [C1 C2 C3]. split; cbn; [unfold v_has in *; cbn; congruence|congruence|done]. }
  pose proof (iv_count _ _ _ Hi1) as Hct. split; [|split; [done|exists VR_FLOW_ACTION_HOLD; split; [apply (mv_tab _ _ _ _ _ Hm)|done]]].
  destruct Hi1 as [Ht Hmd _ _ Hq Hho]. split; try done. cbn. cbn in Hct. rewrite Hheld. lia.
Qed.

(** ** Packets on hold *)

(** Flags that the invariant does not look at. *)
Lemma inv_quiet X d i v f st st' : inv X d st -> moved i v (v_set_flags f v) st st' ->
  Forall (fun b => has b f = has b (v_flags v))
    [VR_FLOW_FLAG_ACTIVE; VR_FLOW_FLAG_EVICTED; VR_FLOW_FLAG_EVICT_CANDIDATE; VR_FLOW_FLAG_MODIFIED; VR_FLOW_FLAG_DELETE_MARKED] ->
  inv X d st'.
Proof.
  intros Hi Hm Hf. rewrite !Forall_cons in Hf. destruct Hf as (F1 & F2 & F3 & F4 & F5 & _).
  pose proof (mv_tab _ _ _ _ _ Hm) as [_ _ O3 _ _]. destruct (inv_ent _ _ _ _ _ Hi O3) as [C1 C2 C3].
  apply (inv_moved X X d d i v _ st st' Hi Hm); [|by left|done| |unfold on_hold; cbn; lia].
  - split; unfold v_has in *; cbn; rewrite ?F1, ?F2, ?F3, ?F4; done.
  - intros Hin. destruct (inv_del _ _ _ _ _ Hi O3 Hin) as (D1 & D2 & D3 & D4 & D5). unfold deleting, v_has in *. cbn. rewrite F3, F4, F5. done.
Qed.

Lemma set_pnode_inv X d i v q k pn st : inv X d st -> vw (fm_tab st) i = Some v -> v_hold v = Some q -> inv X d (set_pnode q k pn st).
Proof.
  intros Hi Hv Hq. unfold set_pnode. destruct (fm_queues st !! q) as [f|] eqn:E; [|by apply inv_fault].
  apply (inv_queue X d i v q); try done. cbn. rewrite zlen_zset. by apply (qi_next _ _ _ _ (iv_queue _ _ _ Hi) q).
Qed.

Lemma set_pnode_tab q k pn st : fm_tab (set_pnode q k pn st) = fm_tab st.
Proof. unfold set_pnode. by destruct (_ !! q). Qed.

Lemma trap_inv X d i v pkt index q k pn st : inv X d st -> vw (fm_tab st) i = Some v -> v_hold v = Some q ->
  inv X d (vr_trap_flow i pkt index q k pn st).
Proof.
  intros Hi Hv Hq. unfold vr_trap_flow, ask_mem. cbv beta iota zeta. set (ok := match fm_mem st with [] => true | b :: _ => b end).
  set (st2 := if ok then _ else _).
  assert (H2 : inv X d st2 /\ fm_tab st2 = fm_tab st).
  { unfold st2. destruct ok; [split; [by apply inv_mem|done]|]. split; [|by rewrite set_pnode_tab].
    apply (set_pnode_inv X d i v); [by apply inv_emit, inv_mem|done|done]. }
  destruct H2 as [Hi2 Et]. rewrite <- Et in Hv. rewrite (vw_get_flags _ _ _ _ Hv).
  destruct (v_has VR_FLOW_FLAG_NEW_FLOW v) eqn:En; [|by apply inv_emit]. apply inv_emit.
  pose proof (flags_moved i (fun f => Z.lxor f VR_FLOW_FLAG_NEW_FLOW) v st2 (inv_ok _ _ _ Hi2) Hv) as Hm. cbn beta in Hm.
  apply (inv_quiet X d i v _ st2 _ Hi2 Hm). change VR_FLOW_FLAG_NEW_FLOW with (2 ^ 9) in *. rewrite (flip 9) by done.
  repeat constructor; by apply has_ldiff.
Qed.

Lemma enqueue_inv X d env i v pkt index fmd st : inv X d st -> vw (fm_tab st) i = Some v -> inv X d (vr_enqueue_flow env i pkt index fmd st).
Proof.
  intros Hi Hv. unfold vr_enqueue_flow. destruct (vw_get i st v Hv) as (_ & _ & ->). destruct (v_hold v) as [q|] eqn:Hq; [|by apply inv_emit].
  destruct (fm_queues st !! q) as [f|] eqn:Ef; [|by apply inv_fault]. cbv zeta. set (st1 := set_queues _ st).
  assert (Hi1 : inv X d st1). { apply (inv_queue X d i v q); try done. cbn. by apply (qi_next _ _ _ _ (iv_queue _ _ _ Hi) q). }
  destruct (_ <=? _); [by apply inv_emit|]. set (pn := fill_pnode _ _ _ _).
  assert (Hi2 : inv X d (set_pnode q (vfq_entries f) pn st1)) by (by apply (set_pnode_inv X d i v)).
  destruct (_ =? 0); [|done]. apply (trap_inv X d i v); [done|by rewrite set_pnode_tab|done].
Qed.

(** ** Look-up *)

Lemma found_inv X d env i v pkt fmd st : inv X d st -> vw (fm_tab st) i = Some v -> v_valid v = true ->
  inv X d (flow_found env i pkt fmd st).2.
Proof.
  intros Hi Hv Hval. unfold flow_found. destruct (is_set _ i st); [done|]. set (fmd1 := vr_flow_set_forwarding_md _ _ _ _).
  pose proof (set_tab_still st _ (inv_ok _ _ _ Hi) (digest_still i pkt (fm_tab st))) as H1. set (st1 := set_tab _ st) in *.
  unfold vr_do_flow_action. set (st2 := if is_set _ i st1 then _ else st1).
  assert (H2 : still st st2).
  { unfold st2. destruct (is_set _ i st1); [|done]. eapply still_trans; [exact H1|]. apply still_put; [done|apply H1]. }
  set (st3 := put i _ st2). assert (H3 : still st st3) by (eapply still_trans; [exact H2|]; apply still_put; [done|apply H2]).
  pose proof (inv_still X d st st3 Hi H3) as Hi3. rewrite <- (sl_vw _ _ H3) in Hv. destruct (vw_get i st3 v Hv) as (_ & -> & _).
  destruct (v_action v =? VR_FLOW_ACTION_HOLD) eqn:Ea; [by apply (enqueue_inv X d env i v)|]. by apply (flow_action_spec X d env i i pkt fmd1 st3 v).
Qed.

Lemma find_flow_vw X d key st i : inv X d st -> 0 < flow_key_len key -> vr_find_flow key st = Some i ->
  exists v, vw (fm_tab st) i = Some v /\ v_valid v = true.
Proof. intros Hi Hl Hf. apply vw_valid. by apply (find_spec (fm_tab st) (key_bytes key) (flow_key_len key) i (inv_ok _ _ _ Hi) Hl Hf). Qed.

Lemma lookup_inv X d env key pkt fmd st : inv X d st -> 0 <= d -> 0 <= ev_cpu env -> 0 < flow_key_len key ->
  inv X d (vr_flow_lookup env key pkt fmd st).2.
Proof.
  intros Hi Hd Hcpu Hl. unfold vr_flow_lookup. set (pkt1 := set_vp_flags _ pkt).
  destruct (vr_find_flow key st) as [i|] eqn:Ef.
  { destruct (find_flow_vw X d key st i Hi Hl Ef) as (v & Hv & Hval). by apply (found_inv X d env i v). }
  destruct (match vp_nh pkt1 with Some nh => _ | None => false end); [done|].
  destruct (vr_flow_allow_new_flow env pkt1 st); [by apply inv_emit|].
  pose proof (flow_get_free_spec X d key (vp_type pkt1) true st Hi Hl) as Hg.
  destruct (vr_flow_get_free_entry key (vp_type pkt1) true st) as [[i|] st1]; [|by apply inv_emit].
  destruct Hg as [Hi1 (v & Hv & Hval & Hh & Hec & Hdl)]. set (st2 := put i _ st1).
  assert (H2 : still st1 st2) by (apply still_put; [done|by apply (inv_ok X d)]). pose proof (inv_still X d st1 st2 Hi1 H2) as Hi2.
  rewrite <- (sl_vw _ _ H2) in Hv.
  destruct (set_hold_spec X d (ev_cpu env) i v st2 Hi2 Hcpu Hv Hval Hh Hec Hdl Hd) as (Hi3 & _ & a & Hv3 & _).
  by apply (found_inv X d env i (v_set_action a v)).
Qed.

Lemma inet_form_len sec vrf p vlan ft ret k ft' : vr_inet_form_flow sec vrf p vlan ft = Some (ret, k, ft') -> (ret <? 0) = false ->
  0 < flow_key_len k.
Proof.
  assert (Hk : forall b k', inet_key p vlan b = Some k' -> 0 < flow_key_len k').
  { intros b k'. unfold inet_key. destruct (inet_ports _ _ _). destruct (vr_flow_fat_flow_lookup _ _ _ _) as [m|]; [|done]. cbn.
    destruct (mask_ports _ _ _). destruct (vr_inet_flow_nexthop p vlan); [|done]. cbn. by intros [= <-]. }
  unfold vr_inet_form_flow. destruct (vr_ip_transport_header_valid _).
  - unfold vr_inet_proto_flow. destruct (_ && _); [destruct (_ && _)|].
    + cbn. by intros [= <- <- <-].
    + destruct (inet_key _ _ _) as [k'|] eqn:E; [|done]. cbn. intros [= <- <- <-] _.
      unfold vr_inet_flow_swap. destruct (if negb _ then _ else _). by apply (Hk _ _ E).
    + destruct (inet_key _ _ _) as [k'|] eqn:E; [|done]. cbn. intros [= <- <- <-] _. by apply (Hk _ _ E).
  - destruct (Fragment.vr_inet_fragment_flow _ _ _ _) as [[[sport dport]|] ft1]; [|by intros [= <- <- <-]].
    destruct (vr_inet_flow_nexthop p vlan); [|done]. cbn. by intros [= <- <- <-].
Qed.

Lemma inet6_form_len p vlan ret k : vr_inet6_form_flow p vlan = Some (ret, k) -> (ret <? 0) = false -> 0 < flow_key_len k.
Proof.
  assert (Hk : forall b k', inet6_key p vlan b = Some k' -> 0 < flow_key_len k').
  { intros b k'. unfold inet6_key. destruct (inet6_ports _ _ _). destruct (vr_flow_fat_flow_lookup _ _ _ _) as [m|]; [|done]. cbn.
    destruct (mask_ports _ _ _). destruct (vr_inet_flow_nexthop p vlan); [|done]. cbn. by intros [= <-]. }
  unfold vr_inet6_form_flow. destruct (_ && _); [destruct (_ && _)|].
  - by intros [= <- <-].
  - destruct (inet6_key _ _ _) as [k'|] eqn:E; [|done]. cbn. intros [= <- <-] _.
    unfold vr_inet6_flow_swap. destruct (if negb _ then _ else _). by apply (Hk _ _ E).
  - destruct (inet6_key _ _ _) as [k'|] eqn:E; [|done]. cbn. intros [= <- <-] _. by apply (Hk _ _ E).
Qed.

Lemma note_head_inv X d env key pkt fmd st : inv X d st -> inv X d (note_head env key pkt fmd st).
Proof.
  intros Hi. unfold note_head. destruct (Fragment.vr_ip_fragment_head _); [|done]. cbv zeta. destruct (ev_assembler env); [|by apply inv_frag].
  unfold ask_mem. destruct (match fm_mem _ with [] => true | b :: _ => b end); [apply inv_emit|]; by apply inv_mem, inv_frag.
Qed.

Lemma do_lookup_inv X d env pkt fmd st : inv X d st -> 0 <= d -> 0 <= ev_cpu env -> inv X d (vr_do_flow_lookup env pkt fmd st).2.
Proof.
  intros Hi Hd Hcpu. unfold vr_do_flow_lookup. destruct (vp_type pkt =? VP_TYPE_IP); [|destruct (vp_type pkt =? VP_TYPE_IP6); [|done]].
  - unfold vr_inet_flow_lookup. destruct (has _ _); [done|]. destruct (negb _); [done|]. destruct (IS_BMCAST_IP _); [done|].
    destruct (vr_inet_form_flow _ _ _ _ _) as [[[ret key] ft]|] eqn:Ek; [|by apply inv_fault].
    destruct (ret <? 0) eqn:Er; [by apply inv_emit, inv_frag|]. apply lookup_inv; [by apply note_head_inv, inv_frag|done|done|].
    by apply (inet_form_len _ _ _ _ _ _ _ _ Ek).
  - unfold vr_inet6_flow_lookup. destruct (has _ _); [done|]. destruct (_ =? _); [done|].
    destruct (vr_inet6_form_flow _ _) as [[ret key]|] eqn:Ek; [|by apply inv_fault]. destruct (ret <? 0) eqn:Er; [done|].
    destruct (wants_lookup pkt); [|done]. apply lookup_inv; [done|done|done|]. by apply (inet6_form_len _ _ _ _ Ek).
Qed.

Lemma forward_inv X d env pkt fmd st : inv X d st -> 0 <= d -> 0 <= ev_cpu env -> inv X d (vr_flow_forward env pkt fmd st).2.
Proof.
  intros Hi Hd Hcpu. unfold vr_flow_forward. match goal with |- context [if ?b then vr_do_flow_lookup _ _ _ _ else _] => destruct b end.
  - pose proof (do_lookup_inv X d env pkt fmd st Hi Hd Hcpu) as H1. destruct (vr_do_flow_lookup env pkt fmd st) as [[[result pkt1] fmd1] st1].
    cbn [snd] in H1. pose proof (forward_still result pkt1 fmd1 st1 (inv_ok _ _ _ H1)) as H2.
    destruct (__vr_flow_forward result pkt1 fmd1 st1) as [f st2]. by apply (inv_still X d st1).
  - done.
Qed.

End proofs.
End FlowProofs.
