(* ===== verification/FlowWorkProofs.v ===== *)
(** * Work and deferred calls keep the invariant of the flow module

    The queue of a flow is emptied, kept until the grace period is over, and freed; an entry
    that is being deleted, or that was marked for eviction, is given back.  No step of these
    touches memory that was freed. *)

From stdpp Require Import gmap.
From S2P Require Import Prelude Bits FlowEntry FlowInfo FlowTable Fragment Mirror VrfAssign FatFlow Csum FlowPacket FlowState FlowTcp Flow FlowWork FlowInv FlowProofs.

Module FlowWorkProofs.
Import FlowPacket FlowState FlowTcp Flow FlowWork FlowInv FlowProofs.

Section work.
Context {T : Type} `{HS : FlowStore T, HT : !FlowTable T, HSL : !FlowStoreLaws T, HTL : !FlowTableLaws T}.
Variable env : flow_env.
Implicit Types (i j r : Z) (t : T) (st : flow_mod T) (X : list Z) (v : vent).

(** ** Queues that are on their way out *)

(** No entry has the queue, and no deferred call. *)
Definition unowned q st : Prop := forall i v, vw (fm_tab st) i = Some v -> v_hold v <> Some q.
Definition undeferred q st : Prop := forall dd, dd ∈ fm_deferred st -> vfdd_flow_queue dd <> Some q.

Lemma inv_store_queue X d q f st : inv X d st -> is_Some (fm_queues st !! q) -> undeferred q st ->
  zlen (vfq_pnodes f) = VR_MAX_FLOW_QUEUE_ENTRIES -> inv X d (set_queues (<[q := f]> (fm_queues st)) st).
Proof.
  intros [Ht Hm Hi Hc [Q1 Q2 Q3 Q4 Q5] Hh] [f0 Hf0] Hu Hl. split; try done. cbn. split; [|done| | |done].
  - intros j w p Hw Hp. destruct (decide (p = q)) as [->|Hne]; [rewrite lookup_insert_eq; eauto|]. rewrite lookup_insert_ne by done. by apply (Q1 j w).
  - intros p vfq. destruct (decide (p = q)) as [->|Hne]; [rewrite lookup_insert_eq; intros [= <-]|rewrite lookup_insert_ne by done; apply Q3].
    split; [by apply (Q3 q f0)|done].
  - intros dd p Hin Hp. destruct (Q4 dd p Hin Hp) as [H1 H2]. split; [|done].
    rewrite lookup_insert_ne; [done|]. intros <-. by apply (Hu dd).
Qed.

Lemma inv_free X d q st : inv X d st -> is_Some (fm_queues st !! q) -> unowned q st -> undeferred q st ->
  inv X d (free_queue q st) /\ fm_tab (free_queue q st) = fm_tab st /\ fm_fault (free_queue q st) = fm_fault st.
Proof.
  intros [Ht Hm Hi Hc [Q1 Q2 Q3 Q4 Q5] Hh] [f0 Hf0] Ho Hu. unfold free_queue. rewrite Hf0. split; [|done]. split; try done. cbn. split; [|done| | |done].
  - intros j w p Hw Hp. rewrite lookup_delete_ne; [by apply (Q1 j w)|]. intros <-. by apply (Ho j w).
  - intros p vfq [_ Hp]%lookup_delete_Some. by apply Q3.
  - intros dd p Hin Hp. destruct (Q4 dd p Hin Hp) as [H1 H2]. split; [|done].
    rewrite lookup_delete_ne; [done|]. intros <-. by apply (Hu dd).
Qed.

(** ** The nodes of a queue *)

Definition flushable i st : Prop := exists v, vw (fm_tab st) i = Some v /\ v_valid v = true /\ on_hold v = false.

Lemma flushable_calm i st st' : flushable i st -> calm st st' -> flushable i st'.
Proof.
  intros (v & Hv & H1 & H2) Hc. destruct (calm_vw st st' i v Hc Hv) as (v' & Hv' & E1 & E2 & _). exists v'. split; [done|]. split; congruence.
Qed.

Lemma flush_pnode_spec X d pn i fmd st : inv X d st -> fpn_packet pn = None \/ flushable i st ->
  let '(pn', fmd', st') := vr_flow_flush_pnode env pn (Some i) fmd st in
  inv X d st' /\ calm st st' /\ fpn_packet pn' = None.
Proof.
  intros Hi Hg. unfold vr_flow_flush_pnode. destruct (fpn_packet pn) as [pkt|] eqn:Ep; [|done]. destruct Hg as [|Hg]; [done|].
  assert (Hemit : forall e s, inv X d s -> calm st s -> inv X d (emit e s) /\ calm st (emit e s)).
  { intros e s Hs Hc. split; [by apply inv_emit|]. transitivity s; [done|]. apply calm_still, still_eq; [by apply (inv_ok X d)|done|done]. }
  destruct (negb _); [by destruct (Hemit (E_pfree (vp_id pkt) VP_DROP_INVALID_IF) st Hi (reflexivity _))|]. cbv zeta.
  set (fmd2 := fmd_set_qos _ _ _). set (pkt1 := match vp_nh pkt with Some _ => pkt | None => _ end).
  destruct Hg as (v & Hv & Hval & Hh). destruct (flow_action_spec X d env i (fmd_flow_index fmd2) pkt1 fmd2 st v Hi Hv Hval Hh) as [Hi1 Hc1].
  destruct (vr_flow_action env i (fmd_flow_index fmd2) pkt1 fmd2 st) as [[[result pkt2] fmd3] st1]. cbn [snd] in Hi1, Hc1.
  pose proof (forward_still result pkt2 fmd3 st1 (inv_ok _ _ _ Hi1)) as H2. destruct (__vr_flow_forward result pkt2 fmd3 st1) as [fwd st2]. cbn [snd] in H2.
  pose proof (inv_still X d st1 st2 Hi1 H2) as Hi2. assert (Hc2 : calm st st2) by (transitivity st1; [done|by apply calm_still]).
  destruct fwd; [|done]. by destruct (Hemit (E_reinject (vp_id pkt2)) st2 Hi2 Hc2).
Qed.

(** The state of the loop over the nodes: only the queue, flags and work have changed. *)
Record flushing X d q i (n : Z) st st' : Prop := {
  fg_inv : inv X d st';
  fg_calm : calm (set_queues (fm_queues st') st) st';
  fg_queue : exists f, fm_queues st' = <[q := f]> (fm_queues st) /\ zlen (vfq_pnodes f) = VR_MAX_FLOW_QUEUE_ENTRIES /\
    (forall k pn, k < n -> zget (vfq_pnodes f) k = Some pn -> fpn_packet pn = None) /\ (emptied f \/ flushable i st')
}.

Lemma calm_queues st st' m : calm st st' -> calm (set_queues m st) (set_queues m st').
Proof. intros [A1 A2 (A3 & A4 & A5 & A6 & A7)]. by split. Qed.

Lemma emptied_get f k pn : emptied f -> zget (vfq_pnodes f) k = Some pn -> fpn_packet pn = None.
Proof.
  intros He. unfold emptied in He. rewrite Forall_forall in He. unfold zget. case_decide; [|done]. intros Hk.
  apply He. by apply list_elem_of_lookup_2 in Hk.
Qed.

Lemma flush_node_spec X d q i n st fmd st' : undeferred q st -> 0 <= n < VR_MAX_FLOW_QUEUE_ENTRIES ->
  flushing X d q i n st st' -> flushing X d q i (n + 1) st (flush_node env q i (fmd, st') n).2.
Proof.
  intros Hu Hn [Hi Hc (f & Ef & Hl & Hk & Hg)]. unfold flush_node. rewrite Ef, lookup_insert_eq.
  set (pn := default pnode_zero (zget (vfq_pnodes f) n)).
  assert (Hpn : fpn_packet pn = None \/ flushable i st').
  { destruct Hg as [He|Hg]; [left|by right]. unfold pn. destruct (zget (vfq_pnodes f) n) as [p|] eqn:E; [|done]. by apply (emptied_get f n). }
  pose proof (flush_pnode_spec X d pn i fmd st' Hi Hpn) as Hf. destruct (vr_flow_flush_pnode env pn (Some i) fmd st') as [[pn1 fmd1] st1].
  destruct Hf as (Hi1 & Hc1 & Hp1). pose proof (cm_core _ _ Hc1) as (Eq1 & _ & _ & Ed1 & _). pose proof (cm_core _ _ Hc) as (_ & _ & _ & Ed & _).
  cbn [snd]. unfold set_pnode. rewrite Eq1, Ef, lookup_insert_eq, insert_insert_eq. set (f1 := mk_fq _ _ _).
  assert (Hl1 : zlen (vfq_pnodes f1) = VR_MAX_FLOW_QUEUE_ENTRIES) by (cbn; by rewrite zlen_zset).
  assert (Hu1 : undeferred q st1) by (intros dd; rewrite Ed1, Ed; apply Hu).
  pose proof (inv_store_queue X d q f1 st1 Hi1) as Hi2. rewrite Eq1, Ef, insert_insert_eq in Hi2.
  split; [apply Hi2; [rewrite lookup_insert_eq; eauto|done|done]| |].
  - cbn. transitivity (set_queues (<[q := f1]> (fm_queues st)) st').
    + exact (calm_queues _ _ (<[q := f1]> (fm_queues st)) Hc).
    + exact (calm_queues _ _ _ Hc1).
  - exists f1. split; [done|]. split; [done|]. split.
    + intros k p Hkn Hp. cbn in Hp. rewrite zget_zset in Hp. case_decide as Hd; [simplify_eq; done|]. apply (Hk k); [|done].
      destruct (decide (k = n)) as [->|]; [|lia]. exfalso. apply Hd. split; [done|]. lia.
    + destruct Hg as [He|Hg]; [left|right].
      * unfold emptied in *. rewrite Forall_forall. intros p [k Hp]%list_elem_of_lookup_1. cbn in Hp.
        assert (Hz : zget (zset (vfq_pnodes f) n pn1) (Z.of_nat k) = Some p).
        { unfold zget. rewrite decide_True by lia. by rewrite Nat2Z.id. }
        rewrite zget_zset in Hz. case_decide; [by simplify_eq|]. by apply (emptied_get f _ _ He Hz).
      * exact (flushable_calm i st' st1 Hg Hc1).
Qed.

Lemma flush_queue_spec X d q i fmd f st : inv X d st -> fm_queues st !! q = Some f -> undeferred q st -> emptied f \/ flushable i st ->
  let st' := __vr_flow_flush_hold_queue env i fmd q st in
  inv X d st' /\ calm (set_queues (fm_queues st') st) st' /\
  exists f', fm_queues st' = <[q := f']> (fm_queues st) /\ emptied f'.
Proof.
  intros Hi Hf Hu Hg. unfold __vr_flow_flush_hold_queue. change (seqZ 0 VR_MAX_FLOW_QUEUE_ENTRIES) with [0; 1; 2].
  assert (H0 : flushing X d q i 0 st st).
  { split; [done|by destruct st|]. exists f. rewrite insert_id by done. split; [done|].
    split; [by apply (qi_next _ _ _ _ (iv_queue _ _ _ Hi) q)|]. split; [|done]. intros k pn Hk Hz. apply zget_range in Hz. lia. }
  assert (Hstep : forall n fs, 0 <= n < VR_MAX_FLOW_QUEUE_ENTRIES -> flushing X d q i n st fs.2 -> flushing X d q i (n + 1) st (flush_node env q i fs n).2).
  { intros n [fm s] Hn Hs. by apply flush_node_spec. }
  assert (H3 : flushing X d q i 3 st (foldl (flush_node env q i) (fmd, st) [0; 1; 2]).2).
  { cbn [foldl]. apply (Hstep 2); [done|]. apply (Hstep 1); [done|]. apply (Hstep 0); done. }
  destruct H3 as [H1 H2 (f' & Ef & Hl & Hk & _)]. split; [done|]. split; [done|]. exists f'. split; [done|].
  unfold emptied. rewrite Forall_forall. intros p [k Hp]%list_elem_of_lookup_1. apply (Hk (Z.of_nat k)).
  - apply lookup_lt_Some in Hp. unfold zlen, VR_MAX_FLOW_QUEUE_ENTRIES in Hl. lia.
  - unfold zget. rewrite decide_True by lia. by rewrite Nat2Z.id.
Qed.

(** ** Work *)

(** A queue that a deferred call may free. *)
Definition queue_going q st : Prop := (exists f, fm_queues st !! q = Some f /\ emptied f) /\ unowned q st /\ undeferred q st.

Lemma going_live q st : queue_going q st -> is_Some (fm_queues st !! q).
Proof. intros ((f & -> & _) & _). eauto. Qed.

Lemma owned_undeferred X d i v q st : inv X d st -> vw (fm_tab st) i = Some v -> v_hold v = Some q -> undeferred q st.
Proof. intros Hi Hv Hq dd Hin Hd. by destruct (qi_deferred _ _ _ _ (iv_queue _ _ _ Hi) dd q Hin Hd) as [_ H]; apply (H i v). Qed.

Lemma hold_none_inv X d i v st : inv X d st -> vw (fm_tab st) i = Some v ->
  inv X d (put i (set_fe_hold_list None) st) /\ moved i v (v_set_hold None v) st (put i (set_fe_hold_list None) st).
Proof.
  intros Hi Hv. assert (Hm : moved i v (v_set_hold None v) st (put i (set_fe_hold_list None) st)).
  { apply (moved_put i _ (v_set_hold None)); [done|by apply (inv_ok X d)|done]. }
  split; [|done]. apply (inv_moved X X d d i v _ st _ Hi Hm); [|by right|done|by intros Hin; apply (inv_del X d st i v Hi Hv Hin)|unfold on_hold; cbn; lia].
  destruct (inv_ent _ _ _ _ _ Hi Hv) as [C1 C2 C3]. split; [done| |done]. intros E. destruct (C2 E) as (D1 & D2 & D3 & D4). done.
Qed.

(** The work [m] afterwards: it may have got the queue of the entry. *)
Definition flush_result (m m' : flow_md) st : Prop :=
  match flmd_defer_data m with
  | None => m' = m
  | Some dd => m' = m \/ exists q, m' = mk_flmd (flmd_index m) (flmd_flags m) (Some (mk_fdefer (vfdd_fe dd) (Some q) (vfdd_delete dd))) /\
      queue_going q st
  end.

Lemma flush_entry_spec X d i v m fmd st : inv X d st -> vw (fm_tab st) i = Some v -> v_valid v = true ->
  let '(m', st') := vr_flush_entry env i m fmd st in
  inv X d st' /\ flush_result m m' st' /\ fm_fault st' = fm_fault st /\
  exists v', vw (fm_tab st') i = Some v' /\ v_valid v' = true /\ on_hold v' = on_hold v.
Proof.
  intros Hi Hv Hval. unfold vr_flush_entry. destruct (vw_get i st v Hv) as (_ & -> & ->).
  assert (Hno : inv X d st /\ flush_result m m st /\ fm_fault st = fm_fault st /\
    exists v', vw (fm_tab st) i = Some v' /\ v_valid v' = true /\ on_hold v' = on_hold v).
  { split; [done|]. split; [unfold flush_result; destruct (flmd_defer_data m); auto|]. split; [done|]. by exists v. }
  destruct (v_hold v) as [q|] eqn:Hq; [|done]. destruct (v_action v =? VR_FLOW_ACTION_HOLD) eqn:Ea; [done|]. clear Hno.
  destruct (hold_none_inv X d i v st Hi Hv) as [Hi1 Hm]. set (st1 := put i _ st) in *. destruct (mv_tab _ _ _ _ _ Hm) as [_ _ _ Hv1 Hrest].
  destruct (qi_live _ _ _ _ (iv_queue _ _ _ Hi) i v q Hv Hq) as [f Hf]. pose proof (owned_undeferred X d i v q st Hi Hv Hq) as Hu.
  assert (Ho1 : unowned q st1).
  { intros j w Hw Hwq. destruct (decide (j = i)) as [->|Hj]; [rewrite Hv1 in Hw; by simplify_eq|]. rewrite Hrest in Hw by done.
    apply Hj. by apply (qi_one _ _ _ _ (iv_queue _ _ _ Hi) j i w v q). }
  assert (Hg1 : flushable i st1) by (exists (v_set_hold None v); done).
  destruct (flush_queue_spec X d q i fmd f st1 Hi1 Hf Hu (or_intror Hg1)) as (Hi2 & Hc2 & f' & Ef & He).
  set (st2 := __vr_flow_flush_hold_queue env i fmd q st1) in *. pose proof (cm_core _ _ Hc2) as (_ & _ & _ & Ed & Efl).
  destruct (calm_vw _ _ i (v_set_hold None v) Hc2 Hv1) as (v2 & Hv2 & E1 & E2 & _).
  assert (Ho2 : unowned q st2).
  { intros j w Hw Hwq. destruct (vw_at (fm_tab st1) j) as [w1 Hw1]; [by apply (inv_ok X d)| |].
    { apply vw_range in Hw; [|by apply (inv_ok X d)]. pose proof (cm_size _ _ Hc2 : ft_size (fm_tab st2) = ft_size (fm_tab st1)) as Es. by rewrite <- Es. }
    destruct (calm_vw _ _ j w1 Hc2 Hw1) as (w2 & Hw2 & _ & _ & E). apply (Ho1 j w1 Hw1). congruence. }
  assert (Hgo : queue_going q st2).
  { split; [exists f'; by rewrite Ef, lookup_insert_eq|]. split; [done|]. intros dd. rewrite Ed. apply Hu. }
  assert (Hres : exists v', vw (fm_tab st2) i = Some v' /\ v_valid v' = true /\ on_hold v' = on_hold v).
  { exists v2. split; [done|]. split; [by rewrite E1|by rewrite E2]. }
  unfold flush_result. destruct (flmd_defer_data m) as [dd|].
  - split; [done|]. split; [right; by exists q|]. by split.
  - destruct (inv_free X d q st2 Hi2 (going_live _ _ Hgo) Ho2) as (Hi3 & Et3 & Ef3); [by apply Hgo|].
    split; [done|]. split; [done|]. split; [by rewrite Ef3; exact Efl|]. by rewrite Et3.
Qed.

(** A call is deferred, and takes over the deletion in hand. *)
Lemma inv_defer d dd st : inv (option_list (defer_deletes dd)) d st ->
  (forall q, vfdd_flow_queue dd = Some q -> queue_going q st) -> inv [] d (set_deferred (fm_deferred st ++ [dd]) st).
Proof.
  intros [[T1 T2 T3 T4 T5] Hm Hi Hc [Q1 Q2 Q3 Q4 Q5] Hh] Hq.
  assert (Hp : dels [] (set_deferred (fm_deferred st ++ [dd]) st) ≡ₚ dels (option_list (defer_deletes dd)) st).
  { unfold dels, pending. cbn. rewrite omap_app. cbn. destruct (defer_deletes dd); cbn; [|by rewrite app_nil_r].
    rewrite app_assoc. by rewrite (Permutation_app_comm _ [z]). }
  split; try done.
  - split; [done|done|done|by rewrite Hp|]. intros i. rewrite Hp. apply T5.
  - split; [done|done|done| |]; cbn.
    + intros d' q [Hin| ->%list_elem_of_singleton]%elem_of_app Hdq; [by apply (Q4 d' q)|]. destruct (Hq q Hdq) as (H1 & H2 & H3). by split.
    + rewrite omap_app. cbn. destruct (vfdd_flow_queue dd) as [q|] eqn:Eq; cbn; [|by rewrite app_nil_r].
      apply NoDup_app. split; [done|]. split; [|by apply NoDup_singleton]. intros p Hp1 ->%list_elem_of_singleton.
      apply list_elem_of_omap in Hp1 as (d' & Hin & E). destruct (Hq q eq_refl) as (_ & _ & Hu). by apply (Hu d').
Qed.

(** Work that was taken from the list, and a deferred call. *)
Lemma inv_take_work d m l1 l2 st : inv [] d st -> fm_work st = l1 ++ m :: l2 ->
  inv (option_list (work_deletes m)) d (set_work (l1 ++ l2) st) /\ md_ok m.
Proof.
  intros [[T1 T2 T3 T4 T5] Hm Hi Hc Hq Hh] Ew. rewrite Ew in Hm. apply Forall_app in Hm as [M1 [M2 M3]%Forall_cons].
  assert (Hp : dels (option_list (work_deletes m)) (set_work (l1 ++ l2) st) ≡ₚ dels [] st).
  { unfold dels, pending. cbn. rewrite Ew, !omap_app. cbn. destruct (work_deletes m) as [x|]; cbn; [|done].
    rewrite <- !app_assoc. cbn. apply Permutation_middle. }
  split; [|done]. split; try done; [|by apply Forall_app]. split; [done|done|done|by rewrite Hp|]. intros i. rewrite Hp. apply T5.
Qed.

Lemma inv_take_deferred d dd l1 l2 st : inv [] d st -> fm_deferred st = l1 ++ dd :: l2 ->
  let st' := set_deferred (l1 ++ l2) st in
  inv (option_list (defer_deletes dd)) d st' /\ forall q, vfdd_flow_queue dd = Some q -> queue_going q st'.
Proof.
  intros [[T1 T2 T3 T4 T5] Hm Hi Hc [Q1 Q2 Q3 Q4 Q5] Hh] Ew st'.
  assert (Hp : dels (option_list (defer_deletes dd)) st' ≡ₚ dels [] st).
  { unfold dels, pending. cbn. rewrite Ew, !omap_app. cbn. destruct (defer_deletes dd) as [x|]; cbn; [|done].
    rewrite !app_assoc. apply Permutation_middle. }
  assert (Hsub : forall x, x ∈ l1 ++ l2 -> x ∈ fm_deferred st) by (rewrite Ew; set_solver).
  rewrite Ew, omap_app in Q5. cbn in Q5. split.
  - split; try done.
    + split; [done|done|done|by rewrite Hp|]. intros i. rewrite Hp. apply T5.
    + split; [done|done|done| |]; cbn; [intros d' q Hin; by apply (Q4 d' q), Hsub|]. rewrite omap_app.
      destruct (vfdd_flow_queue dd); [|done]. apply NoDup_app in Q5 as (N1 & N2 & [_ N3]%NoDup_cons). apply NoDup_app.
      split; [done|]. split; [|done]. intros x Hx Hy. apply (N2 x Hx). by right.
  - intros q Hq. destruct (Q4 dd q) as [H1 H2]; [rewrite Ew; set_solver|done|]. split; [done|]. split; [done|].
    intros d' Hin Hd'. rewrite Hq in Q5. apply NoDup_app in Q5 as (N1 & N2 & [N4 N3]%NoDup_cons). cbn in Hin.
    apply elem_of_app in Hin as [Hin|Hin].
    + apply (N2 q); [apply list_elem_of_omap; by exists d'|by left].
    + apply N4. apply list_elem_of_omap. by exists d'.
Qed.

Lemma del_alone i d st : inv [i] d st -> i ∉ dels [] st.
Proof. intros Hi. pose proof (ti_nodup _ _ (iv_tab _ _ _ Hi)) as Hn. unfold dels in *. by apply NoDup_cons in Hn as [Hn _]. Qed.

(** An entry whose deletion is in hand is given back. *)
Lemma finish_delete i d st : inv [i] d st -> inv [] d (vr_flow_reset_entry i st) /\ core (vr_flow_reset_entry i st) = core st.
Proof.
  intros Hi. destruct (ti_deleting _ _ (iv_tab _ _ _ Hi) i) as (v & Hv & Hd); [by left|].
  pose proof (reset_entry_moved i v st (inv_ok _ _ _ Hi) Hv) as Hm. split; [|by apply Hm].
  apply (reset_entry_inv [i] [] d i v); [done|done|by apply Hd|apply sublist_nil_l|by apply (del_alone i d)].
Qed.

(** What a deferral is about: the deletion that the work was for. *)
Lemma md_deletes m dd i : md_ok m -> flmd_defer_data m = Some dd -> s32 (flmd_index m) = i ->
  forall q, defer_deletes (mk_fdefer i q (vfdd_delete dd)) = work_deletes m.
Proof.
  unfold md_ok, work_deletes, defer_deletes. intros Hm Hd <- q. rewrite Hd in Hm. destruct Hm as [_ ->]. cbn. by destruct (has _ _).
Qed.

Lemma work_inv d m st : inv (option_list (work_deletes m)) d st -> md_ok m ->
  inv [] d (vr_flow_work env m st) /\ fm_fault (vr_flow_work env m st) = fm_fault st.
Proof.
  intros Hi Hm. unfold vr_flow_work. destruct (entry_at (s32 (flmd_index m)) st) as [i|] eqn:Ee.
  2:{ split; [|done]. unfold work_deletes in Hi. destruct (has _ _); [done|]. exfalso.
      destruct (ti_deleting _ _ (iv_tab _ _ _ Hi) (s32 (flmd_index m))) as (v & Hv & Hd & _); [by left|].
      pose proof (vw_range _ _ _ (inv_ok _ _ _ Hi) Hv) as Hr. unfold entry_at, vr_flow_get_entry in Ee.
      destruct (Z.ltb_spec (s32 (flmd_index m)) 0); [lia|]. unfold vw in Hv. apply fmap_Some in Hv as (e & _ & ->). cbn in Hd. by rewrite Hd in Ee. }
  apply entry_at_vw in Ee as (Ei & _ & v & Hv & Hval). rewrite <- Ei in Hv. symmetry in Ei. unfold __vr_flow_work.
  set (fmd := vr_flow_set_forwarding_md _ _ _ _). pose proof (flush_entry_spec _ d i v m fmd st Hi Hv Hval) as Hf.
  destruct (vr_flush_entry env i m fmd st) as [m' st1]. destruct Hf as (Hi1 & Hres & Hfault & _). rewrite <- Hfault.
  unfold flush_result in Hres. unfold vr_flow_defer. destruct (flmd_defer_data m) as [dd|] eqn:Ed.
  - assert (H' : exists q, flmd_defer_data m' = Some (mk_fdefer (vfdd_fe dd) q (vfdd_delete dd)) /\
      forall p, q = Some p -> queue_going p st1).
    { destruct Hres as [->|(q & -> & Hgo)]; [|exists (Some q); split; [done|]; intros p [= <-]; done].
      exists None. split; [|done]. pose proof Hm as Hm'. unfold md_ok in Hm'. rewrite Ed in Hm'. destruct Hm' as [Eq _]. rewrite Ed. destruct dd. cbn in *. by subst. }
    destruct H' as (q & -> & Hgo). cbn. split; [|done]. apply inv_defer; [|exact Hgo]. by rewrite (md_deletes m dd i Hm Ed Ei).
  - subst m'. rewrite Ed. unfold md_ok in Hm. rewrite Ed in Hm. rewrite Hm. cbn. unfold work_deletes in Hi1. destruct (has VR_FLOW_FLAG_ACTIVE _); cbn; [done|].
    rewrite Ei in Hi1. destruct (finish_delete i d st1 Hi1) as [H1 H2]. split; [done|]. unfold core in H2. by injection H2.
Qed.

(** ** After the grace period *)

Lemma defer_cb_inv d dd st : inv (option_list (defer_deletes dd)) d st -> (forall q, vfdd_flow_queue dd = Some q -> queue_going q st) ->
  inv [] d (vr_flow_defer_cb env dd st) /\ fm_fault (vr_flow_defer_cb env dd st) = fm_fault st.
Proof.
  intros Hi Hq. unfold vr_flow_defer_cb. cbv zeta. set (X := option_list (defer_deletes dd)) in *.
  set (st1 := match vfdd_flow_queue dd with Some q => _ | None => st end).
  assert (H1 : inv X d st1 /\ fm_fault st1 = fm_fault st).
  { unfold st1. destruct (vfdd_flow_queue dd) as [q|]; [|done]. destruct (Hq q eq_refl) as ((f & Hf & He) & Ho & Hu).
    unfold vr_flow_flush_hold_queue. rewrite Hf. set (fmd := vr_flow_set_forwarding_md _ _ _ _).
    destruct (flush_queue_spec X d q (vfdd_fe dd) fmd f st Hi Hf Hu (or_introl He)) as (Hi2 & Hc2 & f' & Ef & _).
    set (st2 := __vr_flow_flush_hold_queue _ _ _ _ _) in *. pose proof (cm_core _ _ Hc2) as (_ & _ & _ & Ed & Efl).
    destruct (inv_free X d q st2 Hi2) as (Hi3 & _ & Ef3).
    - rewrite Ef, lookup_insert_eq. eauto.
    - intros j w Hw Hwq. destruct (vw_at (fm_tab st) j) as [w1 Hw1]; [by apply (inv_ok X d)| |].
      { apply vw_range in Hw; [|by apply (inv_ok X d)]. pose proof (cm_size _ _ Hc2 : ft_size (fm_tab st2) = ft_size (fm_tab st)) as Es. by rewrite <- Es. }
      destruct (calm_vw _ _ j w1 Hc2 Hw1) as (w2 & Hw2 & _ & _ & E). apply (Ho j w1 Hw1). congruence.
    - intros d' Hin. rewrite Ed in Hin. by apply Hu.
    - split; [done|]. rewrite Ef3. exact Efl. }
  destruct H1 as [Hi1 Hf1]. rewrite <- Hf1. unfold X, defer_deletes in Hi1. destruct (vfdd_delete dd).
  - destruct (finish_delete _ d st1 Hi1) as [H1 H2]. split; [done|]. unfold core in H2. by injection H2.
  - destruct (evict_inv [] d (Some (vfdd_fe dd)) st1 Hi1) as [H1 E1]. set (o := entry_at _ st1).
    destruct (evict_inv [] d o _ H1) as [H2 E2]. split; [done|]. rewrite E1 in E2. unfold core in E2. by injection E2.
Qed.

(** The assembler of fragments gives a packet back. *)
Lemma flush_forward_inv d pn fmd st : inv [] d st -> 0 <= d -> 0 <= ev_cpu env -> inv [] d (vr_flow_flush_pnode env pn None fmd st).2.
Proof.
  intros Hi Hd Hcpu. unfold vr_flow_flush_pnode. destruct (fpn_packet pn) as [pkt|]; [|done]. destruct (negb _); [by apply inv_emit|].
  cbv zeta. set (fmd2 := fmd_set_qos _ _ _). set (pkt1 := match vp_nh pkt with Some _ => pkt | None => _ end).
  pose proof (forward_inv [] d env pkt1 fmd2 st Hi Hd Hcpu) as H1. destruct (vr_flow_forward env pkt1 fmd2 st) as [[[fwd pkt2] fmd3] st1].
  cbn [snd] in *. destruct fwd; [by apply inv_emit|done].
Qed.
End work.
End FlowWorkProofs.
