(* ===== verification/FlowSetProofs.v ===== *)
(** * Requests of the agent keep the invariant of the flow module

    A request adds a flow, changes one, or deletes one; whatever it asks for and wherever it
    is refused, the invariant holds afterwards. *)

From stdpp Require Import gmap.
From S2P Require Import Prelude Bits FlowEntry FlowInfo FlowTable Fragment Mirror VrfAssign FatFlow Csum FlowPacket FlowState FlowTcp Flow FlowWork FlowInv FlowProofs.

Module FlowSetProofs.
Import FlowPacket FlowState FlowTcp Flow FlowWork FlowInv FlowProofs.

Section set.
Context {T : Type} `{HS : FlowStore T, HT : !FlowTable T, HSL : !FlowStoreLaws T, HTL : !FlowTableLaws T}.
Variable env : flow_env.
Hypothesis Hcpu : 0 <= ev_cpu env.
Implicit Types (i j r : Z) (t : T) (st : flow_mod T) (v : vent).

(** [fr_action] is a signed number of sixteen bits. *)
Definition req_ok (req : vr_flow_req) : Prop := -32768 <= fr_action req <= 32767.

(** The entry that the request works on. *)
Record mine i v d st : Prop := {
  mi_inv : inv [] d st;
  mi_vw : vw (fm_tab st) i = Some v;
  mi_valid : v_valid v = true;
  mi_calm : v_has VR_FLOW_FLAG_EVICT_CANDIDATE v = false;
  mi_del : i ∉ dels [] st
}.

Lemma still_dels X st st' : still st st' -> dels X st' = dels X st.
Proof. intros [_ _ _ Ec]. unfold core in Ec. injection Ec as E1 E2 E3 E4 E5 E6 E7. unfold dels. by rewrite E4, E5. Qed.

Lemma mine_ok i v d st : mine i v d st -> ft_ok (fm_tab st).
Proof. intros H. apply (inv_ok [] d). apply H. Qed.

Lemma mine_still i v d st st' : mine i v d st -> still st st' -> mine i v d st'.
Proof.
  intros [H1 H2 H3 H4 H5] Hs. split; [by apply (inv_still [] d st)|by rewrite (sl_vw _ _ Hs)|done|done|by rewrite (still_dels [] _ _ Hs)].
Qed.

Lemma mine_put i v d f st : mine i v d st -> acts_as f id -> mine i v d (put i f st).
Proof. intros H Hf. apply (mine_still i v d st); [done|]. apply still_put; [done|by apply (mine_ok i v d)]. Qed.

Lemma mine_flags i v d f st st' : mine i v d st -> moved i v (v_set_flags f v) st st' ->
  has VR_FLOW_FLAG_ACTIVE f = true -> has VR_FLOW_FLAG_EVICTED f = false -> has VR_FLOW_FLAG_EVICT_CANDIDATE f = false ->
  mine i (v_set_flags f v) d st'.
Proof.
  intros [H1 H2 H3 H4 H5] Hm Ha He Hc. split; [|by apply (mv_tab _ _ _ _ _ Hm)|done|done|by rewrite (moved_dels [] _ _ _ _ _ Hm)].
  apply (inv_flags [] d i v f st st'); [done|done| |done]. apply vent_flags; [done|done|done|congruence].
Qed.

Lemma mine_used i v d st : mine i v d st -> v_has VR_FLOW_FLAG_ACTIVE v = true /\ v_has VR_FLOW_FLAG_EVICTED v = false.
Proof. intros [H1 H2 H3 H4 H5]. by apply (vo_used v (inv_ent _ _ _ _ _ H1 H2)). Qed.

Lemma mine_reset_mirror i v d st : mine i v d st -> exists v', mine i v' d (vr_flow_reset_mirror i st) /\ on_hold v' = on_hold v.
Proof.
  intros H. destruct (mine_used _ _ _ _ H) as [Ha He]. pose proof (mi_calm _ _ _ _ H) as Hc.
  exists (v_set_flags (Z.ldiff (v_flags v) VR_FLOW_FLAG_MIRROR) v). split; [|done].
  pose proof (reset_mirror_moved i v st (mine_ok _ _ _ _ H) (mi_vw _ _ _ _ H)) as Hm. by apply (mine_flags i v d _ st); flags.
Qed.

Lemma set_mirror_mine req i v d st : mine i v d st -> exists v', mine i v' d (vr_flow_set_mirror env req i st) /\ on_hold v' = on_hold v.
Proof.
  intros H. unfold vr_flow_set_mirror. destruct (negb _).
  { destruct (is_set _ i st); [by apply mine_reset_mirror|by exists v]. }
  set (st1 := put i _ st). assert (H1 : mine i v d st1) by (by apply mine_put). exists v. split; [|done].
  destruct (fr_pcap_meta_data req) as [[|b data]|]; [done| |done].
  set (st2 := match get fe_mme i st1 with Some _ => _ | None => st1 end).
  assert (H2 : mine i v d st2).
  { unfold st2. destruct (get fe_mme i st1) as [b0|]; [|done]. apply mine_put; [|done]. apply (mine_still i v d st1); [done|].
    by apply still_eq; [apply (mine_ok i v d)| |]. }
  destruct (Mirror.vr_mirror_meta_entry_set _ _ _ _ _) as [me m].
  assert (H3 : mine i v d (set_metas m st2)). { apply (mine_still i v d st2); [done|]. by apply still_eq; [apply (mine_ok i v d)| |]. }
  destruct me as [e|]; apply mine_put; try done. apply (mine_still i v d (set_metas m st2)); [done|].
  by apply still_eq; [apply (mine_ok i v d)| |].
Qed.

Lemma link_local_mine req i v d st : mine i v d st -> mine i v d (vr_flow_update_link_local_port req i st).
Proof.
  intros H. unfold vr_flow_update_link_local_port. destruct (negb _); [done|]. cbv zeta.
  assert (Hll : forall l s, mine i v d s -> mine i v d (set_ll l s)).
  { intros l s Hs. apply (mine_still i v d s); [done|]. by apply still_eq; [apply (mine_ok i v d)| |]. }
  destruct (has VR_FLOW_FLAG_LINK_LOCAL (fr_flags req)); [|destruct (is_set VR_FLOW_FLAG_LINK_LOCAL i st)];
    (match goal with |- context [if ?b then set_ll _ _ else _] => destruct b end); auto.
Qed.

(** The action of the entry is set; a flow that leaves hold was counted before. *)
Lemma set_action_mine (a : Z) i v d st : mine i v d st ->
  mine i (v_set_action a v) (d - (if on_hold v then 1 else 0) + (if a =? VR_FLOW_ACTION_HOLD then 1 else 0)) (put i (set_fe_action a) st).
Proof.
  intros H. pose proof H as [H1 H2 H3 H4 H5]. assert (Hm : moved i v (v_set_action a v) st (put i (set_fe_action a) st)).
  { apply (moved_put i _ (v_set_action a)); [done|by apply (mine_ok i v d)|done]. }
  split; [|by apply (mv_tab _ _ _ _ _ Hm)|done|done|by rewrite (moved_dels [] _ _ _ _ _ Hm)].
  apply (inv_moved [] [] d _ i v _ st _ H1 Hm); [|by left|done|done|done].
  destruct (mine_used _ _ _ _ H) as [Ha He]. split; [unfold v_has in *; cbn; congruence|unfold v_has in *; cbn; congruence|done].
Qed.

(** What is counted off before the request takes effect. *)
Definition off (req : vr_flow_req) v : Z := if on_hold v && negb (fr_action req =? VR_FLOW_ACTION_HOLD) then 1 else 0.

Lemma set_fields_mine req i v st : req_ok req -> has VR_FLOW_FLAG_ACTIVE (fr_flags req) = true -> mine i v (off req v) st ->
  exists v', mine i v' 0 (set_fields env req i st).
Proof.
  intros Hr Hact H. unfold set_fields. cbv zeta. destruct (set_mirror_mine req i v _ st H) as (v1 & H1 & Hh1).
  set (st1 := vr_flow_set_mirror env req i st) in *. set (st2 := put i _ st1).
  assert (H2 : mine i v1 (off req v) st2).
  { apply mine_put; [done|]. intros b e. cbv zeta. destruct (has VR_RFLOW_VALID _), (has VR_FLOW_FLAG_VRFT _), (0 <=? fe_rflow e); done. }
  set (st3 := vr_flow_update_link_local_port req i st2). assert (H3 : mine i v1 (off req v) st3) by (by apply link_local_mine).
  set (st4 := put i _ st3). assert (H4 : mine i v1 (off req v) st4) by (by apply mine_put).
  destruct (vw_get i st4 v1 (mi_vw _ _ _ _ H4)) as (_ & Ea & _).
  set (st5 := if _ && _ then _ else _).
  assert (H5 : exists v2, mine i v2 0 st5).
  { unfold st5. rewrite Ea. fold (on_hold v1). unfold off in H4. rewrite <- Hh1 in H4.
    destruct (Z.eqb_spec (fr_action req) VR_FLOW_ACTION_HOLD) as [Er|Er]; destruct (on_hold v1) eqn:Eh; cbn [andb negb] in *.
    - exists (v_set_action (u16 (fr_action req)) v1). pose proof (set_action_mine (u16 (fr_action req)) i v1 0 st4 H4) as H6. by rewrite Eh, Er in *.
    - destruct H4 as [M1 M2 M3 M4 M5]. destruct (set_hold_spec [] 0 (ev_cpu env) i v1 st4 M1 Hcpu M2 M3 Eh M4 M5) as (S1 & S2 & a & S3 & _); [done|].
      exists (v_set_action a v1). split; [done|done|done|done|by rewrite S2].
    - exists (v_set_action (u16 (fr_action req)) v1). pose proof (set_action_mine (u16 (fr_action req)) i v1 1 st4 H4) as H6. rewrite Eh in H6.
      destruct (Z.eqb_spec (u16 (fr_action req)) VR_FLOW_ACTION_HOLD) as [E|E]; [|done]. exfalso. unfold req_ok, VR_FLOW_ACTION_HOLD, u16 in *.
      pose proof (Z.div_mod (fr_action req) 65536). lia.
    - exists (v_set_action (u16 (fr_action req)) v1). pose proof (set_action_mine (u16 (fr_action req)) i v1 0 st4 H4) as H6. rewrite Eh in H6.
      destruct (Z.eqb_spec (u16 (fr_action req)) VR_FLOW_ACTION_HOLD) as [E|E]; [|done]. exfalso. unfold req_ok, VR_FLOW_ACTION_HOLD, u16 in *.
      pose proof (Z.div_mod (fr_action req) 65536). lia. }
  destruct H5 as [v2 H5]. set (g := fun f => Z.lor (VR_FLOW_FLAG_DP_BITS f) (VR_FLOW_FLAG_MASK (u16 (fr_flags req)))).
  exists (v_set_flags (g (v_flags v2)) v2). destruct (mine_used _ _ _ _ H5) as [Ha He]. pose proof (mi_calm _ _ _ _ H5) as Hc.
  apply (mine_flags i v2 0 _ st5); [done| | | |].
  - apply (moved_put i _ (fun v => v_set_flags (g (v_flags v)) v)); [|by apply (mine_ok i v2 0)|apply H5].
    intros b e. cbv zeta. by destruct (fe_action _ =? _).
  - unfold g, VR_FLOW_FLAG_MASK. rewrite has_lor, has_ldiff, has_active_u16, Hact by reflexivity. apply orb_true_r.
  - unfold g, VR_FLOW_FLAG_MASK, VR_FLOW_FLAG_DP_BITS. rewrite has_lor, has_land, has_ldiff_self by reflexivity. unfold v_has in He. by rewrite He.
  - unfold g, VR_FLOW_FLAG_MASK, VR_FLOW_FLAG_DP_BITS. rewrite has_lor, has_land, has_ldiff_self by reflexivity. unfold v_has in Hc. by rewrite Hc.
Qed.

Lemma set_new_mine req i v st : mine i v 0 st -> mine i v 0 (set_new req i st).2.
Proof.
  intros H. unfold set_new. cbv zeta. set (st1 := if _ && _ then _ else st). cbn [snd].
  assert (H1 : mine i v 0 st1) by (unfold st1; destruct (_ && _); [by apply mine_put|done]).
  destruct (is_set VR_RFLOW_VALID i st1); [|done]. destruct (entry_at _ st1) as [r|]; [|done].
  apply (mine_still i v 0 st1); [done|]. apply set_tab_still; [by apply (mine_ok i v 0)|]. unfold vr_flow_tcp_rflow_set. apply or_tcp_still.
Qed.

Lemma u16_twice x : u16 (u16 x) = u16 x.
Proof. unfold u16. by rewrite Z.mod_mod. Qed.

(** A request for a flow that was found, or that was just entered. *)
Lemma set_flow_mine req new_flow i v st : req_ok req -> has VR_FLOW_FLAG_ACTIVE (fr_flags req) = true -> mine i v (off req v) st ->
  exists v', mine i v' 0 (set_flow env req new_flow i st).2.
Proof.
  intros Hr Hact H. unfold set_flow. cbv zeta. destruct (set_fields_mine req i v st Hr Hact H) as [v1 H1].
  set (st1 := set_fields env req i st) in *.
  assert (H2 : exists req1 st2, (if new_flow then set_new req i st1 else (req, st1)) = (req1, st2) /\ mine i v1 0 st2 /\ fr_flags req1 = fr_flags req).
  { destruct new_flow; [|by exists req, st1]. pose proof (set_new_mine req i v1 st1 H1) as H2. destruct (set_new req i st1) as [req1 st2] eqn:E.
    exists req1, st2. split; [done|]. split; [done|]. unfold set_new in E. by injection E as <- _. }
  destruct H2 as (req1 & st2 & -> & H2 & Ef). set (st3 := put i _ st2). assert (H3 : mine i v1 0 st3) by (by apply mine_put).
  set (st4 := put i _ st3). destruct (mine_used _ _ _ _ H3) as [Ha He]. pose proof (mi_calm _ _ _ _ H3) as Hc.
  assert (H4 : mine i (v_set_flags (Z.ldiff (v_flags v1) VR_FLOW_FLAG_NEW_FLOW) v1) 0 st4).
  { pose proof (flags_moved i (fun f => Z.ldiff f VR_FLOW_FLAG_NEW_FLOW) v1 st3 (mine_ok _ _ _ _ H3) (mi_vw _ _ _ _ H3)) as Hm.
    by apply (mine_flags i v1 0 _ st3); flags. }
  set (v4 := v_set_flags _ v1) in *. unfold vr_flow_schedule_transition.
  pose proof (schedule_spec [] 0 i (u32 (fr_index req1)) (u16 (fr_flags req1)) v4 st4 (mi_inv _ _ _ _ H4) (mi_vw _ _ _ _ H4)) as Hs.
  destruct (__vr_flow_schedule_transition i (u32 (fr_index req1)) (u16 (fr_flags req1)) st4) as [ret st5]. cbn [snd].
  rewrite has_active_u16, Ef, Hact in Hs. destruct Hs as (Hi5 & Hc5 & Et5 & Ed5 & Hret); [done|].
  exists v4. split; [done|by rewrite Et5; apply H4|apply H4|apply H4|]. pose proof (mi_del _ _ _ _ H4) as Hd4. unfold dels, pending in *. cbn in *. rewrite Ed5.
  destruct Hret as [(_ & m & _ & Hm & _ & ->)|[_ ->]]; [|done]. rewrite omap_app. cbn. unfold work_deletes at 2. rewrite Hm. cbn. by rewrite app_nil_r.
Qed.

(** ** Deletion *)

Lemma flow_delete_inv req i v d st : has VR_FLOW_FLAG_ACTIVE (fr_flags req) = false -> i = fr_index req -> mine i v d st ->
  v_has VR_FLOW_FLAG_MODIFIED v = true -> d = (if on_hold v then 1 else 0) -> inv [] 0 (vr_flow_delete req i st).2.
Proof.
  intros Hact Hix H Hmod Hd. unfold vr_flow_delete. cbv zeta. set (st1 := put i _ st). destruct (mine_used _ _ _ _ H) as [Ha He].
  pose proof (mi_calm _ _ _ _ H) as Hc.
  assert (H1 : mine i (v_set_flags (Z.lor (v_flags v) VR_FLOW_FLAG_DELETE_MARKED) v) d st1).
  { pose proof (flags_moved i (fun f => Z.lor f VR_FLOW_FLAG_DELETE_MARKED) v st (mine_ok _ _ _ _ H) (mi_vw _ _ _ _ H)) as Hm.
    apply (mine_flags i v d _ st); [done|done| | |]; flags; rewrite ?Ha, ?He, ?Hc; done. }
  set (v1 := v_set_flags _ v) in *. set (st2 := if is_set _ i st1 then _ else st1).
  assert (H2 : mine i v1 d st2).
  { unfold st2. destruct (is_set _ i st1); [|done]. apply (mine_still i v1 d st1); [done|]. by apply still_eq; [apply (mine_ok i v1 d)| |]. }
  pose proof (set_action_mine VR_FLOW_ACTION_DROP i v1 d st2 H2) as H3. set (st3 := put i _ st2) in *.
  assert (E0 : d - (if on_hold v1 then 1 else 0) + (if VR_FLOW_ACTION_DROP =? VR_FLOW_ACTION_HOLD then 1 else 0) = 0).
  { change (on_hold v1) with (on_hold v). cbn. lia. }
  rewrite E0 in H3. set (v3 := v_set_action _ v1) in *. pose proof (reset_mirror_moved i v3 st3 (mine_ok _ _ _ _ H3) (mi_vw _ _ _ _ H3)) as Hm.
  set (st4 := vr_flow_reset_mirror i st3) in *. destruct (mine_used _ _ _ _ H3) as [Ha3 He3]. pose proof (mi_calm _ _ _ _ H3) as Hc3.
  assert (H4 : mine i (v_set_flags (Z.ldiff (v_flags v3) VR_FLOW_FLAG_MIRROR) v3) 0 st4) by (by apply (mine_flags i v3 0 _ st3); flags).
  set (v4 := v_set_flags _ v3) in *. pose proof H4 as [M1 M2 M3 M4 M5].
  assert (Hdel : deleting v4).
  { split; [done|]. unfold v4, v3, v1. flags. rewrite Hmod. cbn. by rewrite Hc. }
  assert (Es : s32 (u32 (fr_index req)) = i).
  { pose proof (vw_range _ _ _ (inv_ok _ _ _ M1) M2) as Hr. pose proof (ti_size _ _ (iv_tab _ _ _ M1)). rewrite <- Hix, u32_small by lia.
    unfold s32. rewrite Z.mod_small by lia. lia. }
  unfold vr_flow_schedule_transition. pose proof (schedule_spec [] 0 i (u32 (fr_index req)) (u16 (fr_flags req)) v4 st4 M1 M2) as Hs.
  destruct (__vr_flow_schedule_transition _ _ _ _) as [ret st5]. cbn [snd]. apply Hs. intros _. rewrite Es. eauto.
Qed.

(** ** Requests *)

Lemma count_transition_inv req i v st : mine i v 0 st ->
  let c := on_hold v && (negb (fr_action req =? VR_FLOW_ACTION_HOLD) || negb (has VR_FLOW_FLAG_ACTIVE (fr_flags req))) in
  mine i v (if c then 1 else 0) (count_transition req (Some i) st).
Proof.
  intros H c. pose proof H as [M1 M2 M3 M4 M5]. unfold count_transition. destruct (vw_get i st v M2) as (_ & -> & _). fold (on_hold v).
  assert (Ec : on_hold v && (negb (fr_action req =? v_action v) || negb (has VR_FLOW_FLAG_ACTIVE (fr_flags req))) = c).
  { unfold c. destruct (on_hold v) eqn:E; [|done]. unfold on_hold in E. apply Z.eqb_eq in E. by rewrite E. }
  rewrite Ec. destruct c eqn:Ecc; [|done]. assert (Hh : on_hold v = true) by (destruct (on_hold v); [done|by rewrite andb_false_l in Ec]).
  assert (Hpos : 0 < FlowInfo.held (fm_info st)).
  { pose proof (iv_count _ _ _ M1) as Hc. pose proof (vw_range _ _ _ (inv_ok _ _ _ M1) M2) as Hr. rewrite Z.add_0_r in Hc. rewrite Hc. unfold held_in.
    assert (Hin : i ∈ filter (fun i => hold_at (fm_tab st) i = true) (seqZ 0 (ft_size (fm_tab st)))).
    { apply list_elem_of_filter. split; [unfold hold_at; by rewrite M2|apply elem_of_seqZ; lia]. }
    destruct (filter _ _); [by apply not_elem_of_nil in Hin|cbn; lia]. }
  destruct (FlowInfo.count_action_held (fm_info st) (iv_info _ _ _ M1) Hpos) as [I1 I2]. split; try done.
  destruct M1 as [N1 N2 N3 N4 N5 N6]. split; try done. cbn. lia.
Qed.

Lemma need_queue_mine req i v d st : mine i v d st ->
  let '(ok, st') := need_queue req i st in exists v', mine i v' d st' /\ on_hold v' = on_hold v /\
    ((ok : bool) = false -> on_hold v = false /\ fr_action req = VR_FLOW_ACTION_HOLD).
Proof.
  intros H. pose proof H as [M1 M2 M3 M4 M5]. unfold need_queue. destruct (vw_get i st v M2) as (_ & -> & ->).
  destruct (_ && _) eqn:Ec; [|by exists v]. apply andb_true_iff in Ec as [[E1%Z.eqb_eq E2%negb_true_iff]%andb_true_iff _].
  pose proof (queue_alloc_inv [] d i v queue_zero st M1 M2 M3 eq_refl) as Ha. destruct (alloc_queue queue_zero st) as [[q|] st1].
  - destruct Ha as (A1 & A2 & A3). exists (v_set_hold (Some q) v). split; [|done]. split; [done|done|done|done|by rewrite A3].
  - destruct Ha as (A1 & A2 & A3). exists v. split; [|split; [done|]].
    + apply (mine_still i v d st); [done|]. apply still_eq; [by apply (mine_ok i v d)|done|done].
    + intros _. split; [|done]. unfold on_hold. by rewrite E1 in E2.
Qed.

Lemma mine_stop i v d st : mine i v d st -> inv [] d (stop_modify i st).
Proof. intros [M1 M2 M3 M4 M5]. by apply (stop_modify_spec [] d i v). Qed.

Lemma req_key_len req type key : req_key req = Some (type, key) -> 0 < flow_key_len key.
Proof. unfold req_key. destruct (_ =? AF_INET6); [by intros [= <- <-]|]. destruct (_ =? AF_INET); [by intros [= <- <-]|done]. Qed.

Lemma added_inv st : inv [] 0 st -> inv [] 0 (set_info (FlowInfo.count_added (fm_info st)) st).
Proof. intros [N1 N2 [I1 I2 I3 I4] N4 N5 N6]. by split. Qed.

Lemma set_inv req st : req_ok req -> inv [] 0 st -> inv [] 0 (vr_flow_set env req st).2.
Proof.
  intros Hr Hi. unfold vr_flow_set. destruct (entry_at (fr_index req) st) as [i|] eqn:Ee.
  - apply entry_at_vw in Ee as (Ei & _ & v & Hv & Hval). rewrite <- Ei in Hv.
    pose proof (start_modify_spec [] 0 i v st Hi Hv Hval) as Hs. destruct (vr_flow_start_modify i st) as [[|] st1]; cbn [negb]; [|by subst st1].
    destruct Hs as (Hm & Hi1 & _ & (w & Hw & _ & Hwm & Hwd) & _ & Hec). set (v1 := v_set_flags _ v) in *.
    destruct (mv_tab _ _ _ _ _ Hm) as [_ _ _ Hv1 _]. assert (w = v1) as -> by congruence.
    assert (H1 : mine i v1 0 st1) by (split; [done|done|done|unfold v1; flags; by rewrite Hec|done]).
    destruct (negb (_ =? 0)); [by apply (mine_stop i v1)|]. pose proof (count_transition_inv req i v1 st1 H1) as H2. cbv zeta in H2 |- *.
    set (st2 := count_transition req (Some i) st1) in *. destruct (has VR_FLOW_FLAG_ACTIVE (fr_flags req)) eqn:Hact; cbn [negb] in *.
    + rewrite orb_false_r in H2. fold (off req v1) in H2. pose proof (need_queue_mine req i v1 _ st2 H2) as H3.
      destruct (need_queue req i st2) as [[|] st3]; destruct H3 as (v3 & H3 & Hh3 & Hno); cbn [negb].
      * assert (Eo : off req v1 = off req v3) by (unfold off; by rewrite Hh3). rewrite Eo in H3.
        destruct (set_flow_mine req false i v3 st3 Hr Hact H3) as [v4 H4]. destruct (set_flow env req false i st3) as [[ret req1] st4].
        by apply (mine_stop i v4).
      * destruct (Hno eq_refl) as [Hn _]. unfold off in H3. rewrite Hn in H3. by apply (mine_stop i v3).
    + rewrite orb_true_r, andb_true_r in H2. pose proof (flow_delete_inv req i v1 _ st2 Hact Ei H2 Hwm eq_refl) as H3.
      by destruct (vr_flow_delete req i st2) as [ret st3].
  - cbn [negb]. destruct (negb (_ =? 0)); [done|]. cbn [count_transition]. destruct (has VR_FLOW_FLAG_ACTIVE (fr_flags req)) eqn:Hact; cbn [negb]; [|done].
    unfold vr_add_flow_req. destruct (req_key req) as [[type key]|] eqn:Ek; [|done]. unfold vr_add_flow.
    destruct (vr_find_flow key st) as [j|]; [done|]. pose proof (flow_get_free_spec [] 0 key type (fr_action req =? VR_FLOW_ACTION_HOLD) st Hi (req_key_len _ _ _ Ek)) as Hg.
    destruct (vr_flow_get_free_entry _ _ _ st) as [[i|] st3]; [|done]. destruct Hg as [Hi3 (v & Hv & Hval & Hh & Hec & Hd)].
    set (st4 := set_info _ st3). assert (H4 : mine i v (off (fr_set_index i req) v) st4).
    { unfold off. rewrite Hh. split; [by apply added_inv|done|done|done|done]. }
    destruct (set_flow_mine (fr_set_index i req) true i v st4 Hr Hact H4) as [v5 H5]. apply H5.
Qed.
End set.

(** ** Requests that are refused *)

Section refused.
Context {T : Type} `{HS : FlowStore T, HT : !FlowTable T, HSL : !FlowStoreLaws T}.
Implicit Types (i : Z) (st : flow_mod T).

Definition untouched st st' : Prop :=
  (forall j, fs_read j (fm_tab st') = fs_read j (fm_tab st) /\ fs_valid j (fm_tab st') = fs_valid j (fm_tab st)) /\
  core st' = core st /\ fm_ll st' = fm_ll st /\ fm_metas st' = fm_metas st /\ fm_mmes st' = fm_mmes st /\
  fm_frag st' = fm_frag st /\ fm_mem st' = fm_mem st /\ fm_events st' = fm_events st.

Lemma lock_unlock i st : is_set VR_FLOW_FLAG_MODIFIED i st = false ->
  untouched st (stop_modify i (put i (fun e => set_fe_flags (Z.lor (fe_flags e) VR_FLOW_FLAG_MODIFIED) e) st)).
Proof.
  intros Hm. split; [|done]. intros j. cbn. rewrite !read_upd, !valid_upd. split; [|done]. case_decide as Hj; [subst j|done].
  unfold is_set, fl_has, fld in Hm. destruct (fs_read i (fm_tab st)) as [e|]; [|done]. cbn in Hm |- *. f_equal.
  assert (Ef : Z.ldiff (Z.lor (fe_flags e) VR_FLOW_FLAG_MODIFIED) VR_FLOW_FLAG_MODIFIED = fe_flags e); [|rewrite Ef; by destruct e].
  unfold VR_FLOW_FLAG_MODIFIED in *. change 256 with (Z.shiftl 1 8) in *. rewrite has_testbit in Hm by done. rewrite Z.shiftl_1_l.
  apply Z.bits_inj'. intros n Hn. rewrite Z.ldiff_spec, Z.lor_spec, Z.pow2_bits_eqb by lia.
  destruct (Z.eqb_spec 8 n) as [<-|]; [by rewrite Hm, andb_false_r|]. by rewrite orb_false_r, andb_true_r.
Qed.

Lemma schedule_ret i index flags st : let ret := (__vr_flow_schedule_transition i index flags st).1 in ret = 0 \/ ret = - ENOMEM.
Proof. unfold __vr_flow_schedule_transition, ask_mem, ask_host. repeat (case_match; simplify_eq); cbn; auto. Qed.

Lemma set_flow_ret env req new_flow i st : let ret := (set_flow env req new_flow i st).1.1 in ret = 0 \/ ret = - ENOMEM.
Proof.
  unfold set_flow, vr_flow_schedule_transition. destruct (if new_flow then _ else _) as [req1 st1]. cbv zeta.
  match goal with |- context [__vr_flow_schedule_transition ?a ?b ?c ?d] => pose proof (schedule_ret a b c d) as Hr; destruct (__vr_flow_schedule_transition a b c d) end.
  done.
Qed.

(** C9: a request that is refused leaves no trace: unless [vr_flow_set] answers that it was
    done, or that memory or room in the table ran out, every entry, every counter and every
    queue is as it was, and the lock on the entry is released. *)
Theorem flow_set_refused env req st :
  let '(ret, req', st') := vr_flow_set env req st in
  ret ∉ [0; - ENOMEM; - ENOSPC] -> req' = req /\ untouched st st'.
Proof.
  assert (Hno : untouched st st) by (by repeat split).
  assert (Hret : forall ret : Z, ret = 0 \/ ret = - ENOMEM -> ret ∉ [0; - ENOMEM; - ENOSPC] -> False) by (intros ret [-> | ->] Hr; apply Hr; set_solver).
  unfold vr_flow_set. destruct (entry_at (fr_index req) st) as [i|].
  - unfold vr_flow_start_modify. destruct (is_set _ i st) eqn:Em; [done|]. cbn [negb].
    assert (Hm : is_set VR_FLOW_FLAG_MODIFIED i st = false).
    { unfold is_set, fl_has, has in *. apply negb_false_iff, Z.eqb_eq in Em. rewrite negb_false_iff, Z.eqb_eq.
      rewrite !Z.land_lor_distr_r, !Z.lor_eq_0_iff in Em. tauto. }
    destruct (negb (_ =? 0)); [intros _; split; [done|by apply lock_unlock]|]. cbv zeta.
    destruct (negb (has VR_FLOW_FLAG_ACTIVE _)).
    + unfold vr_flow_delete, vr_flow_schedule_transition. cbv zeta.
      match goal with |- context [__vr_flow_schedule_transition ?a ?b ?c ?d] => pose proof (schedule_ret a b c d) as Hr; destruct (__vr_flow_schedule_transition a b c d) end.
      intros Hn. by destruct (Hret _ Hr).
    + destruct (need_queue req i _) as [[|] st3]; cbn [negb]; [|intros Hn; destruct Hn; set_solver].
      pose proof (set_flow_ret env req false i st3) as Hr. destruct (set_flow env req false i st3) as [[ret req1] st4]. intros Hn. by destruct (Hret _ Hr).
  - cbn [negb]. destruct (negb (_ =? 0)); [done|]. cbn [count_transition]. destruct (negb (has VR_FLOW_FLAG_ACTIVE _)); [done|].
    unfold vr_add_flow_req. destruct (req_key req) as [[type key]|]; [|intros Hn; destruct Hn; set_solver]. unfold vr_add_flow.
    destruct (vr_find_flow key st) as [j|]; [done|]. destruct (vr_flow_get_free_entry _ _ _ st) as [[i|] st3].
    + pose proof (set_flow_ret env (fr_set_index i req) true i (set_info (FlowInfo.count_added (fm_info st3)) st3)) as Hr.
      destruct (set_flow _ _ _ _ _) as [[ret req1] st4]. intros Hn. by destruct (Hret _ Hr).
    + intros Hn. destruct Hn. cbn. set_solver.
Qed.
End refused.
End FlowSetProofs.
