(* ===== verification/FlowReach.v ===== *)
(** * What holds in every state that the flow module reaches

    The module runs: packets arrive, the agent sends requests, scheduled work and deferred
    calls are done in any order, the table of flows does its own work.  The limit on new flows
    compares with a number that is exact, and no queue of packets is used after it was freed. *)

From stdpp Require Import gmap.
From S2P Require Import Prelude Bits Htable FlowEntry FlowInfo FlowTable Fragment Mirror VrfAssign FatFlow Csum FlowPacket FlowState FlowTcp Flow FlowWork FlowInv FlowProofs FlowWorkProofs FlowSetProofs.

Module FlowReach.
Import FlowPacket FlowState FlowTcp Flow FlowWork FlowInv FlowProofs FlowWorkProofs FlowSetProofs.

Section reach.
Context {T : Type} `{HS : FlowStore T, HT : !FlowTable T, HSL : !FlowStoreLaws T, HTL : !FlowTableLaws T}.
Implicit Types (st : flow_mod T).

(** A step: work and deferred calls are taken from anywhere in their lists. *)
Inductive flow_step (env : flow_env) : flow_mod T -> flow_mod T -> Prop :=
  | step_packet pkt fmd st : flow_step env st (vr_flow_forward env pkt fmd st).2
  | step_fragment pn fmd st : flow_step env st (vr_flow_flush_pnode env pn None fmd st).2
  | step_request req st : req_ok req -> flow_step env st (vr_flow_set env req st).2
  | step_work m l1 l2 st : fm_work st = l1 ++ m :: l2 -> flow_step env st (vr_flow_work env m (set_work (l1 ++ l2) st))
  | step_deferred dd l1 l2 st : fm_deferred st = l1 ++ dd :: l2 -> flow_step env st (vr_flow_defer_cb env dd (set_deferred (l1 ++ l2) st))
  | step_table b st : flow_step env st (set_tab (ft_background b (fm_tab st)) st).

(** Steps on any processor, in any environment. *)
Inductive reaches : flow_mod T -> flow_mod T -> Prop :=
  | reaches_refl st : reaches st st
  | reaches_step env st1 st2 st3 : reaches st1 st2 -> 0 <= ev_cpu env -> flow_step env st2 st3 -> reaches st1 st3.

Lemma flow_step_inv env st st' : 0 <= ev_cpu env -> inv [] 0 st -> flow_step env st st' -> inv [] 0 st'.
Proof.
  intros Hcpu Hi Hs. destruct Hs as [pkt fmd st|pn fmd st|req st Hr|m l1 l2 st Hw|dd l1 l2 st Hd|b st].
  - by apply forward_inv.
  - by apply flush_forward_inv.
  - by apply set_inv.
  - destruct (inv_take_work 0 m l1 l2 st Hi Hw) as [H1 H2]. by apply work_inv.
  - destruct (inv_take_deferred 0 dd l1 l2 st Hi Hd) as [H1 H2]. by apply defer_cb_inv.
  - apply (inv_still [] 0 st); [done|]. destruct (background_spec (fm_tab st) b (inv_ok _ _ _ Hi)) as (B1 & B2 & B3 & B4).
    split; [done|done| |done]. intros j. cbn. unfold vw. by rewrite B3, B4.
Qed.

Lemma reaches_inv st st' : reaches st st' -> inv [] 0 st -> inv [] 0 st'.
Proof. induction 1 as [|env st1 st2 st3 _ IH Hc Hs]; [done|]. intros Hi. by apply (flow_step_inv env st2); [|apply IH|]. Qed.

Lemma inv_hold_count st : inv [] 0 st -> FlowInfo.vr_flow_table_hold_count (fm_info st) = held_in (fm_tab st).
Proof.
  intros Hi. pose proof (iv_count _ _ _ Hi) as Hc. rewrite Z.add_0_r in Hc. rewrite <- Hc. apply FlowInfo.hold_count_held; [apply Hi|].
  rewrite Hc. pose proof (ti_size _ _ (iv_tab _ _ _ Hi)) as Hs. unfold held_in.
  pose proof (length_filter (fun i => hold_at (fm_tab st) i = true) (seqZ 0 (ft_size (fm_tab st)))) as Hl. rewrite length_seqZ in Hl. lia.
Qed.
End reach.

(** ** A new module *)

(** The module right after [vr_flow_init], on a host that grants every request for a deferred
    call; requests for memory ([fmem]) may fail. *)
Definition starts (entries oentries cpus : Z) (mem : bool * bool * bool * bool) (ft : Fragment.frag_tables) (metas : Mirror.metas)
    (oracle fmem : list bool) (st : flow_mod flow_htable) : Prop :=
  vr_flow_init entries oentries cpus mem true true ft metas oracle fmem [] = (0, Some st) /\
  0 < entries /\ 0 <= oentries /\ 1 <= cpus <= UINT_MAX /\
  entries + 4 + FlowInfo.vr_compute_size_oflow_table oentries entries <= 2147483647.

Lemma oflow_size_pos oentries entries : 0 < entries -> 0 <= oentries -> 0 <= FlowInfo.vr_compute_size_oflow_table oentries entries.
Proof.
  intros He Ho. unfold FlowInfo.vr_compute_size_oflow_table. destruct (oentries =? 0); [|done].
  apply Z.ldiff_nonneg. left. pose proof (Z.quot_pos entries 5). lia.
Qed.

Lemma starts_inv entries oentries cpus mem ft metas oracle fmem st :
  starts entries oentries cpus mem ft metas oracle fmem st -> inv [] 0 st.
Proof.
  intros (Hinit & He & Ho & Hc & Hsz). pose proof (oflow_size_pos oentries entries He Ho) as Hof. unfold vr_flow_init in Hinit.
  destruct (Htable.__vr_htable_create _ _ _ _ _ _ _ _ _) as [t|] eqn:Et; [|done].
  destruct (FlowTable.create_table _ _ _ _ _ Et He Hof) as (Hok & Hh & Hoe & Hent); [lia|].
  cbn [negb] in Hinit. destruct (FlowInfo.vr_link_local_ports_init true None) as [ret ll] eqn:El.
  unfold FlowInfo.vr_link_local_ports_init in El. injection El as <- _. cbn in Hinit. injection Hinit as <-.
  assert (Hvw : forall i v, vw t i = Some v -> v = mk_vent false 0 0 None).
  { intros i v. unfold vw. rewrite fmap_Some. intros (e & He2 & ->). change (Htable.data_at t i = Some e) in He2.
    unfold Htable.data_at in He2. destruct (zget _ i) as [h|] eqn:Eh; [|done]. cbn in He2. injection He2 as <-.
    destruct (Hent i h Eh) as [-> Hv]. pose proof Hok as (_ & (free & chain & Hw) & _).
    rewrite (FlowTable.valid_is_valid_at t i free chain Hw). replace (FlowTable.valid_at t i) with false; [done|].
    unfold FlowTable.valid_at. rewrite Eh. symmetry. exact Hv. }
  destruct (FlowInfo.info_init_ok cpus Hc) as [Hio Hih].
  split; cbn; try done.
  - split; [done|cbn; lia| |constructor|by intros i Hi%not_elem_of_nil]. intros i v ->%Hvw. by split.
  - rewrite Hih. unfold held_in. induction (seqZ 0 (ft_size t)) as [|i l IH]; [done|]. rewrite filter_cons_False; [done|]. unfold hold_at.
    destruct (vw t i) as [v|] eqn:E; [|done]. by apply Hvw in E as ->.
  - split; [by intros i v q ->%Hvw|by intros i j v w q ->%Hvw|by intros q f Hq|by intros dd q Hd%not_elem_of_nil|constructor].
Qed.

(** C6: the limit on new flows is compared with an exact number: however packets, requests,
    work, deferred calls and shortages of memory follow each other, on any number of
    processors, [vr_flow_table_hold_count] is the number of entries of the table that are on
    hold. *)
Theorem flow_hold_exact entries oentries cpus mem ft metas oracle fmem st0 st :
  starts entries oentries cpus mem ft metas oracle fmem st0 -> reaches st0 st ->
  FlowInfo.vr_flow_table_hold_count (fm_info st) = held_in (fm_tab st).
Proof. intros Hs Hr. apply inv_hold_count, (reaches_inv st0); [done|]. by apply (starts_inv entries oentries cpus mem ft metas oracle fmem). Qed.

(** C7: no queue of packets is used after it was freed, or freed twice: in every state that is
    reached the queue of an entry is allocated and no other entry has it, and whatever work or
    deferred call comes next finds all that it touches. *)
Theorem flow_queues_safe entries oentries cpus mem ft metas oracle fmem st0 st :
  starts entries oentries cpus mem ft metas oracle fmem st0 -> reaches st0 st ->
  (forall i e q, fs_read i (fm_tab st) = Some e -> fe_hold_list e = Some q -> is_Some (fm_queues st !! q) /\
     forall j e', fs_read j (fm_tab st) = Some e' -> fe_hold_list e' = Some q -> j = i) /\
  (forall env m l1 l2, fm_work st = l1 ++ m :: l2 -> fm_fault (vr_flow_work env m (set_work (l1 ++ l2) st)) = fm_fault st) /\
  (forall env dd l1 l2, fm_deferred st = l1 ++ dd :: l2 ->
     fm_fault (vr_flow_defer_cb env dd (set_deferred (l1 ++ l2) st)) = fm_fault st).
Proof.
  intros Hs Hr. assert (Hi : inv [] 0 st). { apply (reaches_inv st0); [done|]. by apply (starts_inv entries oentries cpus mem ft metas oracle fmem). }
  assert (Hvw : forall j e, fs_read j (fm_tab st) = Some e -> vw (fm_tab st) j = Some (view_of (fs_valid j (fm_tab st)) e)).
  { intros j e He. unfold vw. by rewrite He. }
  split; [|split].
  - intros i e q He Hq. pose proof (iv_queue _ _ _ Hi) as HQ. split; [by apply (qi_live _ _ _ _ HQ i _ q (Hvw i e He))|].
    intros j e' He' Hq'. by apply (qi_one _ _ _ _ HQ j i _ _ q (Hvw j e' He') (Hvw i e He)).
  - intros env m l1 l2 Hw. destruct (inv_take_work 0 m l1 l2 st Hi Hw) as [H1 H2]. destruct (work_inv env 0 m _ H1 H2) as [_ ->]. done.
  - intros env dd l1 l2 Hd. destruct (inv_take_deferred 0 dd l1 l2 st Hi Hd) as [H1 H2]. destruct (defer_cb_inv env 0 dd _ H1 H2) as [_ ->]. done.
Qed.

End FlowReach.
