(* ===== verification/FlowEvict.v ===== *)
(** * A connection that is over gives its flows back (dp-core/vr_flow.c)

    The first packet that finds its flow dead marks the flow and its reverse flow, and
    schedules work; the work waits for a grace period, and after it both entries are free. *)

From stdpp Require Import gmap.
From S2P Require Import Prelude Bits FlowEntry FlowInfo FlowTable Fragment Mirror VrfAssign FatFlow Csum FlowPacket FlowState FlowTcp Flow FlowWork FlowInv FlowProofs.

Module FlowEvict.
Import FlowPacket FlowState FlowTcp Flow FlowWork FlowInv FlowProofs.

Section evict.
Context {T : Type} `{HS : FlowStore T, HT : !FlowTable T, HSL : !FlowStoreLaws T, HTL : !FlowTableLaws T}.
Implicit Types (i j r : Z) (st : flow_mod T) (e : vr_flow_entry).

(** A flow in use whose connection is over, that no one is changing. *)
Record evictable i r e st : Prop := {
  el_read : fs_read i (fm_tab st) = Some e;
  el_valid : fs_valid i (fm_tab st) = true;
  el_rflow : fe_rflow e = r;
  el_dead : has VR_FLOW_TCP_DEAD (fe_tcp_flags e) = true;
  el_active : fe_has VR_FLOW_FLAG_ACTIVE e = true;
  el_modified : fe_has VR_FLOW_FLAG_MODIFIED e = false;
  el_evicted : fe_has VR_FLOW_FLAG_EVICTED e = false;
  el_new : fe_has VR_FLOW_FLAG_NEW_FLOW e = false;
  el_candidate : fe_has VR_FLOW_FLAG_EVICT_CANDIDATE e = false;
  el_action : (fe_action e =? VR_FLOW_ACTION_HOLD) = false;
  el_hold : fe_hold_list e = None
}.

(** The entry while it waits to be evicted. *)
Definition marked e : vr_flow_entry :=
  set_fe_flags (Z.lor (Z.lor (fe_flags e) VR_FLOW_FLAG_MODIFIED) VR_FLOW_FLAG_EVICT_CANDIDATE) e.

Lemma read_is_set bits i e st : fs_read i (fm_tab st) = Some e -> is_set bits i st = has bits (fe_flags e).
Proof. unfold is_set, fl_has, fld. by intros ->. Qed.
Lemma read_get {A} (p : vr_flow_entry -> A) i e st : fs_read i (fm_tab st) = Some e -> get p i st = p e.
Proof. unfold get, fld. by intros ->. Qed.
Lemma read_put i f j st : fs_read j (fm_tab (put i f st)) = if decide (i = j) then f <$> fs_read j (fm_tab st) else fs_read j (fm_tab st).
Proof. apply read_upd. Qed.
Lemma entry_at_valid i st : ft_ok (fm_tab st) -> fs_valid i (fm_tab st) = true -> entry_at i st = Some i.
Proof. intros Hok Hv. unfold entry_at, vr_flow_get_entry. rewrite Hv. destruct (Z.ltb_spec i 0); [|done]. pose proof (ok_valid _ _ Hok Hv). lia. Qed.

Lemma put_ok i f st : ft_ok (fm_tab st) -> ft_ok (fm_tab (put i f st)).
Proof. intros Hok. by apply upd_ok. Qed.
Lemma put_size i f st n : ft_ok (fm_tab st) /\ ft_size (fm_tab st) = n -> ft_ok (fm_tab (put i f st)) /\ ft_size (fm_tab (put i f st)) = n.
Proof. intros [Hok <-]. by apply upd_ok. Qed.

(** The lock is free. *)
Lemma evictable_lock i r e st : evictable i r e st ->
  vr_flow_start_modify i st = (true, put i (fun e => set_fe_flags (Z.lor (fe_flags e) VR_FLOW_FLAG_MODIFIED) e) st).
Proof.
  intros [H1 H2 H3 H4 H5 H6 H7 H8 H9 H10 H11]. unfold vr_flow_start_modify. rewrite (read_is_set _ _ _ _ H1).
  unfold fe_has, has in *. rewrite negb_false_iff, Z.eqb_eq in *. rewrite !Z.land_lor_distr_r. by rewrite H6, H7, H8.
Qed.

(** Both flows are marked, and the work is scheduled. *)
Definition mark_pair i r st : flow_mod T :=
  let lock e := set_fe_flags (Z.lor (fe_flags e) VR_FLOW_FLAG_MODIFIED) e in
  let cand e := set_fe_flags (Z.lor (fe_flags e) VR_FLOW_FLAG_EVICT_CANDIDATE) e in
  put i cand (put r cand (put r lock (put i lock st))).

Lemma mark_pair_read i r ei er st : i <> r -> evictable i r ei st -> evictable r i er st ->
  fs_read i (fm_tab (mark_pair i r st)) = Some (marked ei) /\ fs_read r (fm_tab (mark_pair i r st)) = Some (marked er) /\
  (forall j, fs_valid j (fm_tab (mark_pair i r st)) = fs_valid j (fm_tab st)) /\
  (ft_ok (fm_tab st) -> ft_ok (fm_tab (mark_pair i r st)) /\ ft_size (fm_tab (mark_pair i r st)) = ft_size (fm_tab st)).
Proof.
  intros Hne Hi Hr. unfold mark_pair. cbv zeta. rewrite !read_put.
  rewrite (el_read _ _ _ _ Hi), (el_read _ _ _ _ Hr). split; [repeat case_decide; done|]. split; [repeat case_decide; done|]. split; [intros j; cbn; by rewrite !valid_upd|].
  intros Hok. by do 4 apply put_size.
Qed.

Lemma mark_evict_pair i r ei er st : i <> r -> ft_ok (fm_tab st) -> fm_mem st = [] -> fm_host st = [] ->
  evictable i r ei st -> evictable r i er st ->
  let st' := vr_flow_mark_evict i i st in
  fm_tab st' = fm_tab (mark_pair i r st) /\ fm_deferred st' = fm_deferred st /\
  fm_work st' = fm_work st ++ [mk_flmd i (u16 (fe_flags (marked ei))) (Some (mk_fdefer 0 None false))].
Proof.
  intros Hne Hok Hmem Hhost Hi Hr. unfold vr_flow_mark_evict. rewrite (evictable_lock _ _ _ _ Hi). cbn [negb].
  set (st1 := put i _ st). unfold mark_reverse.
  assert (R1 : fs_read i (fm_tab st1) = Some (set_fe_flags (Z.lor (fe_flags ei) VR_FLOW_FLAG_MODIFIED) ei)).
  { unfold st1. by rewrite read_put, decide_True, (el_read _ _ _ _ Hi). }
  assert (R2 : fs_read r (fm_tab st1) = Some er) by (unfold st1; by rewrite read_put, decide_False, (el_read _ _ _ _ Hr)).
  assert (Hok1 : ft_ok (fm_tab st1)) by (by apply put_ok).
  assert (Hv1 : fs_valid r (fm_tab st1) = true) by (cbn; rewrite valid_upd; apply Hr).
  rewrite (read_get fe_rflow _ _ _ R1). cbn [fe_rflow set_fe_flags]. rewrite (el_rflow _ _ _ _ Hi).
  rewrite (proj2 (Z.leb_le 0 r)) by (by apply (ok_valid (fm_tab st1))). rewrite (entry_at_valid r st1 Hok1 Hv1).
  rewrite (read_get fe_tcp_flags _ _ _ R2), (el_dead _ _ _ _ Hr).
  assert (Hr1 : evictable r i er st1) by (destruct Hr; by split).
  rewrite (evictable_lock _ _ _ _ Hr1). cbn [negb]. set (st2 := put r _ st1).
  assert (R3 : fs_read r (fm_tab st2) = Some (set_fe_flags (Z.lor (fe_flags er) VR_FLOW_FLAG_MODIFIED) er)).
  { unfold st2. by rewrite read_put, decide_True, R2. }
  rewrite !(read_get fe_rflow _ _ _ R3), (read_get fe_action _ _ _ R3). cbn [fe_rflow fe_action set_fe_flags].
  rewrite (el_rflow _ _ _ _ Hr), Z.eqb_refl, (el_action _ _ _ _ Hr). cbn [orb andb negb].
  assert (Hmark : forall k e s, fs_read k (fm_tab s) = Some (set_fe_flags (Z.lor (fe_flags e) VR_FLOW_FLAG_MODIFIED) e) ->
    fe_has VR_FLOW_FLAG_ACTIVE e = true -> fe_has VR_FLOW_FLAG_EVICT_CANDIDATE e = false ->
    __vr_flow_mark_evict k s = (true, put k (fun e => set_fe_flags (Z.lor (fe_flags e) VR_FLOW_FLAG_EVICT_CANDIDATE) e) s)).
  { intros k e s He Ha Hc. unfold __vr_flow_mark_evict, fe_has in *. rewrite !(read_is_set _ _ _ _ He). cbn [fe_flags set_fe_flags].
    rewrite !has_lor, Ha, Hc. done. }
  rewrite (Hmark r er st2 R3 (el_active _ _ _ _ Hr) (el_candidate _ _ _ _ Hr)). set (st3 := put r _ st2).
  assert (R4 : fs_read i (fm_tab st3) = Some (set_fe_flags (Z.lor (fe_flags ei) VR_FLOW_FLAG_MODIFIED) ei)).
  { unfold st3, st2. by rewrite !read_put, !decide_False, R1. }
  rewrite (Hmark i ei st3 R4 (el_active _ _ _ _ Hi) (el_candidate _ _ _ _ Hi)). set (st4 := put i _ st3).
  assert (R5 : fs_read i (fm_tab st4) = Some (marked ei)) by (unfold st4; by rewrite read_put, decide_True, R4).
  rewrite (read_get fe_flags _ _ _ R5). set (flags := fe_flags (marked ei)).
  assert (Hf : has VR_FLOW_FLAG_ACTIVE flags = true /\ has VR_FLOW_FLAG_EVICT_CANDIDATE flags = true).
  { unfold flags, marked. cbn [fe_flags set_fe_flags]. rewrite !has_lor. pose proof (el_active _ _ _ _ Hi) as Ha. unfold fe_has in Ha.
    rewrite Ha. split; [done|]. by rewrite orb_true_r. }
  destruct Hf as [F1 F2]. unfold __vr_flow_schedule_transition, ask_mem, ask_host.
  change (fm_mem st4) with (fm_mem st). rewrite Hmem. cbn [negb tail]. rewrite F2, orb_true_r.
  cbn [fm_host set_mem set_host st4 st3 st2 st1 put set_tab fm_mem]. rewrite Hhost, F1. cbn. done.
Qed.

(** The entry that is evicted is given back. *)
Lemma evict_marked i e st : ft_ok (fm_tab st) -> fs_read i (fm_tab st) = Some (marked e) -> fe_has VR_FLOW_FLAG_ACTIVE e = true ->
  let st' := vr_flow_evict_flow (Some i) st in
  ft_ok (fm_tab st') /\ (forall j, j <> i -> fs_read j (fm_tab st') = fs_read j (fm_tab st)) /\
  forall j, fs_valid j (fm_tab st') = if decide (j = i) then false else fs_valid j (fm_tab st).
Proof.
  intros Hok He Ha. cbv zeta. unfold vr_flow_evict_flow. rewrite !(read_is_set _ _ _ _ He). unfold marked, fe_has in *.
  cbn [fe_flags set_fe_flags]. rewrite !has_lor, Ha. change (has VR_FLOW_FLAG_EVICT_CANDIDATE VR_FLOW_FLAG_EVICT_CANDIDATE) with true.
  rewrite orb_true_r. cbn [orb andb]. unfold vr_flow_reset_active_entry, release. set (st1 := stop_modify i _).
  assert (H1 : ft_ok (fm_tab st1) /\ (forall j, j <> i -> fs_read j (fm_tab st1) = fs_read j (fm_tab st)) /\
    forall j, fs_valid j (fm_tab st1) = fs_valid j (fm_tab st)).
  { unfold st1, stop_modify. split; [by do 2 apply put_ok|]. split; [intros j Hj; by rewrite !read_put, !decide_False|]. intros j. cbn. by rewrite !valid_upd. }
  clearbody st1. destruct H1 as (O1 & R1 & V1). set (st2 := __vr_flow_reset_entry i st1).
  assert (H2 : ft_ok (fm_tab st2) /\ (forall j, j <> i -> fs_read j (fm_tab st2) = fs_read j (fm_tab st1)) /\
    forall j, fs_valid j (fm_tab st2) = fs_valid j (fm_tab st1)).
  { unfold st2, __vr_flow_reset_entry, vr_flow_reset_mirror. cbv zeta. destruct (is_set _ _ _); [destruct (get fe_mme _ _)|];
      (split; [by repeat apply put_ok|]); (split; [intros j Hj; repeat (rewrite read_put, decide_False by done; cbn [fm_tab meta_del set_mmes set_metas]); done|]);
      intros j; cbn; by rewrite !valid_upd. }
  destruct H2 as (O2 & R2 & V2). cbn [fm_tab set_tab]. destruct (release_spec (fm_tab st2) i O2) as (O3 & _ & R3 & V3).
  split; [done|]. split; [intros j Hj; by rewrite R3, R2, R1|]. intros j. rewrite V3. case_decide; [done|]. by rewrite V2, V1.
Qed.

(** C8: the flows of a connection that is over are given back: when a flow and its reverse flow
    are dead, the packet that finds that schedules one item of work, the work defers one
    call, and after the call both entries are free, and no other entry is. *)
Theorem evict_pair_released env i r ei er st : i <> r -> ft_ok (fm_tab st) -> ft_size (fm_tab st) <= 2147483647 ->
  fm_mem st = [] -> fm_host st = [] -> evictable i r ei st -> evictable r i er st ->
  exists m dd,
    let st1 := vr_flow_mark_evict i i st in
    fm_work st1 = fm_work st ++ [m] /\
    let st2 := vr_flow_work env m (set_work (fm_work st) st1) in
    fm_deferred st2 = fm_deferred st ++ [dd] /\
    let st3 := vr_flow_defer_cb env dd (set_deferred (fm_deferred st) st2) in
    forall j, fs_valid j (fm_tab st3) = if decide (j = i \/ j = r) then false else fs_valid j (fm_tab st).
Proof.
  intros Hne Hok Hsz Hmem Hhost Hi Hr. destruct (mark_evict_pair i r ei er st Hne Hok Hmem Hhost Hi Hr) as (Et & Ed & Ew).
  destruct (mark_pair_read i r ei er st Hne Hi Hr) as (Ri & Rr & Vp & Hp). destruct (Hp Hok) as [Okp Szp].
  set (m := mk_flmd i _ _) in Ew. exists m, (mk_fdefer i None false). cbv zeta. split; [done|].
  set (st1 := set_work _ _). assert (Et1 : fm_tab st1 = fm_tab (mark_pair i r st)) by done.
  assert (Hw : vr_flow_work env m st1 = set_deferred (fm_deferred st1 ++ [mk_fdefer i None false]) st1).
  { assert (Hri : 0 <= i < ft_size (fm_tab st)) by (apply (ok_size _ _ Hok); rewrite (el_read _ _ _ _ Hi); eauto).
    unfold vr_flow_work. cbn [flmd_index m]. replace (s32 i) with i by (unfold s32; rewrite Z.mod_small; lia).
    rewrite (entry_at_valid i st1); [|by rewrite Et1|by rewrite Et1, Vp; apply Hi]. unfold __vr_flow_work, vr_flush_entry.
    rewrite <- Et1 in Ri. rewrite (read_get fe_hold_list _ _ _ Ri). cbn [fe_hold_list marked set_fe_flags]. rewrite (el_hold _ _ _ _ Hi). done. }
  rewrite Hw. cbn [fm_deferred set_deferred]. change (fm_deferred st1) with (fm_deferred (vr_flow_mark_evict i i st)). rewrite Ed.
  split; [done|]. set (st2 := set_deferred _ _). assert (Et2 : fm_tab st2 = fm_tab (mark_pair i r st)) by done.
  unfold vr_flow_defer_cb. cbn [vfdd_fe vfdd_flow_queue vfdd_delete]. rewrite <- Et2 in Ri, Rr, Okp, Vp.
  destruct (evict_marked i ei st2 Okp Ri (el_active _ _ _ _ Hi)) as (Ok3 & R3 & V3).
  rewrite (read_get fe_rflow _ _ _ Ri). cbn [fe_rflow marked set_fe_flags]. rewrite (el_rflow _ _ _ _ Hi).
  rewrite (entry_at_valid r st2); [|done|by rewrite Vp; apply Hr]. rewrite <- (R3 r) in Rr by done.
  destruct (evict_marked r er _ Ok3 Rr (el_active _ _ _ _ Hr)) as (_ & _ & V4). intros j. rewrite V4, V3, Vp.
  repeat case_decide; try done; naive_solver.
Qed.
End evict.
End FlowEvict.
