(* ===== verification/FlowTcpProofs.v ===== *)
(** * Connections are declared established and dead for the right reasons *)

From S2P Require Import Prelude Bits FlowEntry Fragment Csum FlowPacket FlowTcp.

Module FlowTcpProofs.
Import FlowPacket FlowTcp.

(** ** Flags of a side *)

Lemma sees_mark x y a : sees x (mark y a) = sees x a || has x y.
Proof. apply has_lor. Qed.
Lemma sees_at x q a : sees x (at_seq q a) = sees x a.
Proof. done. Qed.

(** [has] of two constants. *)
Ltac flags :=
  rewrite ?sees_mark, ?sees_at in *;
  repeat match goal with
  | |- context [has ?x ?y] => let v := eval vm_compute in (has x y) in
      match v with true => change (has x y) with true | false => change (has x y) with false end
  | H : context [has ?x ?y] |- _ => let v := eval vm_compute in (has x y) in
      match v with true => change (has x y) with true in H | false => change (has x y) with false in H end
  end;
  rewrite ?orb_false_r, ?orb_true_r in *.

(** ** The invariant of a pair *)

Record mirrored (a b : side) : Prop := {
  mi_fin : sees VR_FLOW_TCP_FIN_R a = sees VR_FLOW_TCP_FIN b;
  mi_syn : sees VR_FLOW_TCP_SYN_R a = sees VR_FLOW_TCP_SYN b;
  mi_est : sees VR_FLOW_TCP_ESTABLISHED_R a = sees VR_FLOW_TCP_ESTABLISHED b;
  mi_half : sees VR_FLOW_TCP_HALF_CLOSE b = true -> sees VR_FLOW_TCP_FIN b = true
}.

Record pair_inv (a b : side) : Prop := {
  pi_ab : mirrored a b;
  pi_ba : mirrored b a;
  pi_rst : sees VR_FLOW_TCP_RST a = sees VR_FLOW_TCP_RST b;
  pi_dead_a : sees VR_FLOW_TCP_DEAD a =
    sees VR_FLOW_TCP_RST a || (sees VR_FLOW_TCP_HALF_CLOSE a && sees VR_FLOW_TCP_HALF_CLOSE b);
  pi_dead_b : sees VR_FLOW_TCP_DEAD b = sees VR_FLOW_TCP_DEAD a
}.

Ltac close_inv :=
  split; [split|split|..]; flags; try done; try congruence; try (rewrite ?orb_true_r; done).

Lemma pair_inv_sym a b : pair_inv a b -> pair_inv b a.
Proof.
  intros [A B R D1 D2]. split; try done.
  rewrite D2, D1, R, (andb_comm (sees _ b)). done.
Qed.

Lemma pair_ack_inv h a b : pair_inv a b -> pair_inv (pair_ack h (a, b)).1 (pair_ack h (a, b)).2.
Proof.
  intros Hinv. pose proof Hinv as [[A1 A2 A3 A4] [B1 B2 B3 B4] R D1 D2]. unfold pair_ack.
  destruct (_ && has VR_TCP_FLAG_ACK _); [|done].
  destruct ((_ =? _) && sees VR_FLOW_TCP_FIN_R a) eqn:Ef.
  - apply andb_true_iff in Ef as [_ Ef]. destruct (sees VR_FLOW_TCP_HALF_CLOSE a) eqn:Eh; cbn [fst snd].
    + close_inv; intros; rewrite ?Eh, ?orb_true_r; try done; try congruence; auto.
    + close_inv; intros; rewrite ?Eh in *; cbn [andb] in *; rewrite ?orb_false_r in *; congruence.
  - destruct (negb (tcp_ack h =? sd_seq b)); [|done]. destruct (negb (sees VR_FLOW_TCP_ESTABLISHED_R a)); [|done].
    cbn [fst snd]. close_inv.
Qed.

Lemma pair_digest_inv h a b : pair_inv a b -> pair_inv (pair_digest h (a, b)).1 (pair_digest h (a, b)).2.
Proof.
  intros Hinv. pose proof Hinv as [[A1 A2 A3 A4] [B1 B2 B3 B4] R D1 D2]. unfold pair_digest.
  destruct (has VR_TCP_FLAG_RST _); [cbn [fst snd]; close_inv|].
  destruct (has VR_TCP_FLAG_SYN _); [|destruct (has VR_TCP_FLAG_FIN _); [|by apply pair_ack_inv]].
  - destruct (_ && _ && _); apply pair_ack_inv; close_inv.
  - apply pair_ack_inv. close_inv.
Qed.

(** ** What is never forgotten *)

Definition grows (a a' : side) : Prop := forall x, sees x a = true -> sees x a' = true.

Lemma grows_mark y a : grows a (mark y a).
Proof. intros x Hx. by rewrite sees_mark, Hx. Qed.

Lemma grows_trans a b c : grows a b -> grows b c -> grows a c.
Proof. intros H1 H2 x Hx. auto. Qed.

#[local] Hint Resolve grows_mark : core.

Lemma pair_ack_grows h a b : let '(a', b') := pair_ack h (a, b) in grows a a' /\ grows b b' /\ sd_seq a' = sd_seq a /\ sd_seq b' = sd_seq b.
Proof.
  unfold pair_ack. repeat case_match; simplify_eq; (split; [|split; [|done]]); intros x Hx; rewrite ?sees_mark, Hx; done.
Qed.

Lemma pair_digest_grows h a b : let '(a', b') := pair_digest h (a, b) in grows a a' /\ grows b b' /\ sd_seq b' = sd_seq b.
Proof.
  unfold pair_digest. destruct (has VR_TCP_FLAG_RST _).
  { split; [|split; [|done]]; intros x Hx; by rewrite !sees_mark, Hx. }
  set (ab := if has VR_TCP_FLAG_SYN _ then _ else _).
  assert (Hab : grows a ab.1 /\ grows b ab.2 /\ sd_seq ab.2 = sd_seq b).
  { unfold ab. repeat case_match; cbn [fst snd]; (split; [|split; [|done]]); intros x Hx;
      rewrite ?sees_mark, ?sees_at, Hx; done. }
  destruct ab as [a1 b1]. pose proof (pair_ack_grows h a1 b1) as Hg. destruct (pair_ack h (a1, b1)) as [a2 b2].
  destruct Hg as (G1 & G2 & _ & G4). destruct Hab as (H1 & H2 & H3). cbn in *.
  split; [by eapply grows_trans|]. split; [by eapply grows_trans|congruence].
Qed.

(** ** Packets of a pair of flows in a store *)

Section store.
Context {S : Type} `{FlowStoreLaws S}.
Implicit Types (i r : Z) (s : S).

(** A packet of the forward ([true]) or of the reverse flow. *)
Definition dir_digest i r (s : S) (dp : bool * flow_packet) : S :=
  vr_flow_tcp_digest (if dp.1 then i else r) dp.2 s.
Definition run_pair i r (ps : list (bool * flow_packet)) s : S := foldl (dir_digest i r) s ps.

(** The pair, the given direction first. *)
Definition pair_from (d : bool) i r s : side * side := if d then pair_of i r s else pair_of r i s.

Lemma linked_dir (d : bool) i r s : linked_pair i r s -> linked_pair (if d then i else r) (if d then r else i) s.
Proof. destruct d; [done|apply linked_sym]. Qed.

Lemma dir_cases i r s d p : linked_pair i r s ->
  let s' := dir_digest i r s (d, p) in
  linked_pair i r s' /\
  (pair_from d i r s' = pair_from d i r s /\ (s' = s) \/
   exists h, tcp_header p = Some h /\ pair_from d i r s' = pair_digest h (pair_from d i r s)).
Proof.
  intros Hl. cbn. unfold dir_digest, vr_flow_tcp_digest. cbn [fst snd].
  destruct (tcp_header p) as [h|]; [|by auto]. destruct (vr_flow_is_fat_flow p _); [by auto|].
  pose proof (digest_acts _ _ h s (linked_dir d i r s Hl)) as [A1 A2 _ _ _].
  split; [destruct d; [done|by apply linked_sym]|]. right. exists h. split; [done|]. by destruct d.
Qed.

(** The same, when the packet has a header and the flow has ports. *)
Lemma dir_digest_header i r s (d : bool) p h : linked_pair i r s -> tcp_header p = Some h ->
  vr_flow_is_fat_flow p (fld fe_key (if d then i else r) s) = false ->
  let s' := dir_digest i r s (d, p) in
  linked_pair i r s' /\ pair_from d i r s' = pair_digest h (pair_from d i r s) /\
  fld fe_key i s' = fld fe_key i s /\ fld fe_key r s' = fld fe_key r s.
Proof.
  intros Hl Hh Hf. cbn. unfold dir_digest, vr_flow_tcp_digest. cbn [fst snd]. rewrite Hh, Hf.
  pose proof (digest_acts _ _ h s (linked_dir d i r s Hl)) as [A1 A2 A3 A4 A5].
  assert (Hlk : linked_pair i r (digest_header (if d then i else r) h s)) by (destruct d; [done|by apply linked_sym]).
  assert (Hkey : forall j, fs_valid j s = true -> fld fe_key j (digest_header (if d then i else r) h s) = fld fe_key j s).
  { intros j Hj. unfold fld. rewrite <- A4 in Hj. destruct (valid_read j _ Hj) as [e' He']. rewrite He'.
    destruct (A5 j e' He') as (e & -> & ->). by destruct e. }
  split; [done|]. split; [by destruct d|]. destruct (lp_valid _ _ _ Hl). split; by apply Hkey.
Qed.

Definition header_with (flag : Z) (p : flow_packet) : Prop :=
  exists h, tcp_header p = Some h /\ has flag (tcp_offset_flags h) = true.

Definition reset_in (ps : list (bool * flow_packet)) : Prop := exists dp, dp ∈ ps /\ header_with VR_TCP_FLAG_RST dp.2.
Definition fin_in (d : bool) (ps : list (bool * flow_packet)) : Prop := exists p, (d, p) ∈ ps /\ header_with VR_TCP_FLAG_FIN p.

(** The flags speak of packets that were there. *)
Definition explained (ps : list (bool * flow_packet)) (d : bool) (a : side) : Prop :=
  (sees VR_FLOW_TCP_RST a = true -> reset_in ps) /\ (sees VR_FLOW_TCP_FIN a = true -> fin_in d ps).

Lemma pair_ack_quiet h a b : let '(a', b') := pair_ack h (a, b) in
  sees VR_FLOW_TCP_RST a' = sees VR_FLOW_TCP_RST a /\ sees VR_FLOW_TCP_RST b' = sees VR_FLOW_TCP_RST b /\
  sees VR_FLOW_TCP_FIN a' = sees VR_FLOW_TCP_FIN a /\ sees VR_FLOW_TCP_FIN b' = sees VR_FLOW_TCP_FIN b.
Proof. unfold pair_ack. repeat case_match; simplify_eq; flags; done. Qed.

Lemma pair_digest_explains h a b : let '(a', b') := pair_digest h (a, b) in
  (sees VR_FLOW_TCP_RST a' = true -> sees VR_FLOW_TCP_RST a = true \/ has VR_TCP_FLAG_RST (tcp_offset_flags h) = true) /\
  (sees VR_FLOW_TCP_RST b' = true -> sees VR_FLOW_TCP_RST b = true \/ has VR_TCP_FLAG_RST (tcp_offset_flags h) = true) /\
  (sees VR_FLOW_TCP_FIN a' = true -> sees VR_FLOW_TCP_FIN a = true \/ has VR_TCP_FLAG_FIN (tcp_offset_flags h) = true) /\
  (sees VR_FLOW_TCP_FIN b' = true -> sees VR_FLOW_TCP_FIN b = true).
Proof.
  unfold pair_digest. destruct (has VR_TCP_FLAG_RST _); [flags; auto|].
  set (ab := if has VR_TCP_FLAG_SYN _ then _ else _).
  assert (Hab : sees VR_FLOW_TCP_RST ab.1 = sees VR_FLOW_TCP_RST a /\ sees VR_FLOW_TCP_RST ab.2 = sees VR_FLOW_TCP_RST b /\
    (sees VR_FLOW_TCP_FIN ab.1 = true -> sees VR_FLOW_TCP_FIN a = true \/ has VR_TCP_FLAG_FIN (tcp_offset_flags h) = true) /\
    sees VR_FLOW_TCP_FIN ab.2 = sees VR_FLOW_TCP_FIN b).
  { unfold ab. repeat case_match; cbn [fst snd]; flags; auto. }
  destruct ab as [a1 b1]. pose proof (pair_ack_quiet h a1 b1) as Hq. destruct (pair_ack h (a1, b1)) as [a2 b2].
  cbn [fst snd] in *. destruct Hq as (-> & -> & -> & ->). destruct Hab as (-> & -> & H3 & ->). auto.
Qed.

Definition pair_ok (ps : list (bool * flow_packet)) i r s : Prop :=
  linked_pair i r s /\ pair_inv (pair_of i r s).1 (pair_of i r s).2 /\
  explained ps true (pair_of i r s).1 /\ explained ps false (pair_of i r s).2.

Lemma explained_more ps ps' d a : (forall x, x ∈ ps -> x ∈ ps') -> explained ps d a -> explained ps' d a.
Proof. intros Hs [H1 H2]. split; intros Hx; [destruct (H1 Hx) as (q & ? & ?)|destruct (H2 Hx) as (q & ? & ?)]; exists q; auto. Qed.

Lemma step_ok ps d p i r s : pair_ok ps i r s -> pair_ok (ps ++ [(d, p)]) i r (dir_digest i r s (d, p)).
Proof.
  intros (Hl & Hinv & He1 & He2). destruct (dir_cases i r s d p Hl) as [Hl' Hc]. cbn zeta in Hl', Hc.
  assert (Hm : forall d' a, explained ps d' a -> explained (ps ++ [(d, p)]) d' a) by (intros; eapply explained_more; [set_solver|done]).
  destruct Hc as [[_ ->]|(h & Hh & Hp)]; [by split_and!; auto|].
  set (s' := dir_digest i r s (d, p)) in *.
  assert (Hr : has VR_TCP_FLAG_RST (tcp_offset_flags h) = true -> reset_in (ps ++ [(d, p)])).
  { intros Hx. exists (d, p). split; [set_solver|]. by exists h. }
  assert (Hf : has VR_TCP_FLAG_FIN (tcp_offset_flags h) = true -> fin_in d (ps ++ [(d, p)])).
  { intros Hx. exists p. split; [set_solver|]. by exists h. }
  destruct (Hm _ _ He1) as [E1 E2], (Hm _ _ He2) as [E3 E4]. clear Hm He1 He2. split; [done|].
  destruct d; cbn [pair_from] in Hp.
  - destruct (pair_of i r s) as [a b]. cbn [fst snd] in *. pose proof (pair_digest_inv h a b Hinv) as Hi'.
    pose proof (pair_digest_explains h a b) as Hx. rewrite Hp. destruct (pair_digest h (a, b)) as [a' b'].
    destruct Hx as (X1 & X2 & X3 & X4). split; [done|]. split; split; cbn [fst snd]; naive_solver.
  - assert (Esw : pair_of i r s' = ((pair_of r i s').2, (pair_of r i s').1)) by done. rewrite Esw, Hp.
    change (pair_of r i s) with ((pair_of i r s).2, (pair_of i r s).1) in *.
    destruct (pair_of i r s) as [a b]. cbn [fst snd] in *. pose proof (pair_digest_inv h b a (pair_inv_sym _ _ Hinv)) as Hi'.
    pose proof (pair_digest_explains h b a) as Hx. destruct (pair_digest h (b, a)) as [b' a'].
    destruct Hx as (X1 & X2 & X3 & X4). split; [by apply pair_inv_sym|]. split; split; cbn [fst snd]; naive_solver.
Qed.

Lemma run_ok qs ps i r s : pair_ok qs i r s -> pair_ok (qs ++ ps) i r (run_pair i r ps s).
Proof.
  revert qs s. induction ps as [|[d p] ps IH]; intros qs s Hok; cbn [run_pair foldl].
  { by rewrite app_nil_r. }
  specialize (IH (qs ++ [(d, p)]) _ (step_ok _ d p _ _ _ Hok)). by rewrite <- (assoc_L (++)) in IH.
Qed.

Lemma fresh_pair_ok i r s : linked_pair i r s -> fld fe_tcp_flags i s = 0 -> fld fe_tcp_flags r s = 0 -> pair_ok [] i r s.
Proof.
  intros Hl H1 H2. split; [done|].
  assert (Hz : forall x, sees x (pair_of i r s).1 = false /\ sees x (pair_of i r s).2 = false).
  { intros x. unfold sees, pair_of, side_of. cbn. unfold fld in H1, H2. rewrite H1, H2. unfold has. by rewrite Z.land_0_l. }
  split; [|by split; split; intros Hx; rewrite ?(proj1 (Hz _)), ?(proj2 (Hz _)) in Hx].
  split; [split|split|..]; rewrite ?(proj1 (Hz _)), ?(proj2 (Hz _)); done.
Qed.

(** C37: a connection is declared dead for a reason: after any sequence of packets in either
    direction, when one of its two flows is dead then both are, and a reset was seen, or a
    FIN in each direction. *)
Theorem tcp_dead_sound i r ps s :
  linked_pair i r s -> fld fe_tcp_flags i s = 0 -> fld fe_tcp_flags r s = 0 ->
  let s' := run_pair i r ps s in
  has VR_FLOW_TCP_DEAD (fld fe_tcp_flags i s') = true \/ has VR_FLOW_TCP_DEAD (fld fe_tcp_flags r s') = true ->
  has VR_FLOW_TCP_DEAD (fld fe_tcp_flags i s') = true /\ has VR_FLOW_TCP_DEAD (fld fe_tcp_flags r s') = true /\
  (reset_in ps \/ (fin_in true ps /\ fin_in false ps)).
Proof.
  intros Hl H1 H2 s' Hd. pose proof (run_ok [] ps i r s (fresh_pair_ok i r s Hl H1 H2)) as (_ & Hinv & [E1 E2] & [E3 E4]).
  fold s' in Hinv, E1, E2, E3, E4. change (fld fe_tcp_flags i s') with (sd_flags (pair_of i r s').1) in *.
  change (fld fe_tcp_flags r s') with (sd_flags (pair_of i r s').2) in *. destruct (pair_of i r s') as [a b]. cbn [fst snd app] in *.
  fold (sees VR_FLOW_TCP_DEAD a) in *. fold (sees VR_FLOW_TCP_DEAD b) in *.
  destruct Hinv as [[_ _ _ A4] [_ _ _ B4] R D1 D2].
  assert (Ha : sees VR_FLOW_TCP_DEAD a = true) by (destruct Hd; congruence). split; [done|]. split; [congruence|].
  rewrite D1 in Ha. apply orb_true_iff in Ha as [Ha|[Ha Hb]%andb_true_iff]; [by left; apply E1|]. right. split; auto.
Qed.

(** ** Opening and closing *)

Definition plain (p : flow_packet) (h : tcp_hdr) (syn fin : bool) : Prop :=
  tcp_header p = Some h /\ has VR_TCP_FLAG_RST (tcp_offset_flags h) = false /\
  has VR_TCP_FLAG_SYN (tcp_offset_flags h) = syn /\ has VR_TCP_FLAG_FIN (tcp_offset_flags h) = fin.

Definition with_ports i r s : Prop :=
  forall p, vr_flow_is_fat_flow p (fld fe_key i s) = false /\ vr_flow_is_fat_flow p (fld fe_key r s) = false.

Lemma dir_plain i r s d p h syn fin : linked_pair i r s -> with_ports i r s -> plain p h syn fin ->
  let s' := dir_digest i r s (d, p) in
  linked_pair i r s' /\ with_ports i r s' /\ pair_from d i r s' = pair_digest h (pair_from d i r s).
Proof.
  intros Hl Hw [Hh _]. destruct (dir_digest_header i r s d p h Hl Hh) as (H1 & H2 & H3 & H4); [destruct d; apply Hw|].
  split; [done|]. split; [|done]. intros q. rewrite H3, H4. apply Hw.
Qed.

(** A connection is opened by its three packets, SYN, SYN with ACK, and ACK: each
    direction is then marked established, for itself and in the other flow. *)
Theorem tcp_handshake i r s p1 p2 p3 h1 h2 h3 :
  linked_pair i r s -> with_ports i r s -> fld fe_tcp_flags i s = 0 -> fld fe_tcp_flags r s = 0 ->
  plain p1 h1 true false -> plain p2 h2 true false -> plain p3 h3 false false ->
  has VR_TCP_FLAG_ACK (tcp_offset_flags h1) = false ->
  has VR_TCP_FLAG_ACK (tcp_offset_flags h2) = true -> tcp_ack h2 = u32 (tcp_seq h1 + 1) ->
  has VR_TCP_FLAG_ACK (tcp_offset_flags h3) = true -> tcp_ack h3 = u32 (tcp_seq h2 + 1) ->
  0 <= tcp_seq h2 <= UINT_MAX ->
  let s' := run_pair i r [(true, p1); (false, p2); (true, p3)] s in
  forall x, x = VR_FLOW_TCP_ESTABLISHED \/ x = VR_FLOW_TCP_ESTABLISHED_R ->
    has x (fld fe_tcp_flags i s') = true /\ has x (fld fe_tcp_flags r s') = true.
Proof.
  intros Hl Hw Hi0 Hr0 P1 P2 P3 Na1 A2 K2 A3 K3 Hq s' x Hx.
  set (a0 := (pair_of i r s).1) in *. set (b0 := (pair_of i r s).2) in *.
  destruct (dir_plain i r s true p1 h1 _ _ Hl Hw P1) as (L1 & W1 & E1).
  set (s1 := dir_digest i r s (true, p1)) in *.
  destruct (dir_plain i r s1 false p2 h2 _ _ L1 W1 P2) as (L2 & W2 & E2).
  set (s2 := dir_digest i r s1 (false, p2)) in *.
  destruct (dir_plain i r s2 true p3 h3 _ _ L2 W2 P3) as (_ & _ & E3). change (dir_digest i r s2 (true, p3)) with s' in E3.
  destruct P1 as (_ & R1 & S1 & _), P2 as (_ & R2 & S2 & _), P3 as (_ & R3 & S3 & F3). cbn [pair_from] in *.
  change (pair_of i r s) with (mk_side (fld fe_tcp_flags i s) (fld fe_tcp_seq i s), mk_side (fld fe_tcp_flags r s) (fld fe_tcp_seq r s)) in E1.
  rewrite Hi0, Hr0 in E1. unfold pair_digest in E1. rewrite R1, S1, Na1 in E1. rewrite andb_false_r in E1. cbn [andb] in E1.
  unfold pair_ack in E1. rewrite Na1, andb_false_r in E1.
  change (pair_of r i s1) with ((pair_of i r s1).2, (pair_of i r s1).1) in E2. rewrite E1 in E2. cbn [fst snd] in E2.
  unfold pair_digest in E2. rewrite R2, S2, A2 in E2. cbn [sd_seq mark at_seq] in E2. rewrite K2, Z.eqb_refl in E2.
  unfold pair_ack in E2. rewrite A2 in E2. unfold sees in E2. cbn [sd_flags mark at_seq] in E2.
  change (has VR_FLOW_TCP_SYN_R _ && true && true) with true in E2 at 1. cbn [sd_flags mark at_seq] in E2.
  repeat match type of E2 with context [has ?u ?v] => let w := eval vm_compute in (has u v) in
    match w with true => change (has u v) with true in E2 | false => change (has u v) with false in E2 end end.
  cbn [andb orb negb] in E2.
  change (pair_of i r s2) with ((pair_of r i s2).2, (pair_of r i s2).1) in E3. rewrite E2 in E3. cbn [fst snd] in E3.
  unfold pair_digest in E3. rewrite R3, S3, F3 in E3. unfold pair_ack in E3. rewrite A3 in E3. unfold sees in E3.
  cbn [sd_flags sd_seq mark at_seq] in E3.
  repeat match type of E3 with context [has ?u ?v] => let w := eval vm_compute in (has u v) in
    match w with true => change (has u v) with true in E3 | false => change (has u v) with false in E3 end end.
  cbn [andb orb negb] in E3. rewrite andb_false_r in E3. rewrite K3 in E3.
  assert (Hne : (u32 (tcp_seq h2 + 1) =? tcp_seq h2) = false).
  { apply Z.eqb_neq. unfold u32. destruct (decide (tcp_seq h2 = UINT_MAX)) as [->|]; [by vm_compute|].
    rewrite Z.mod_small by lia. lia. }
  rewrite Hne in E3. cbn [negb] in E3.
  change (fld fe_tcp_flags i s') with (sd_flags (pair_of i r s').1). change (fld fe_tcp_flags r s') with (sd_flags (pair_of i r s').2).
  rewrite E3. destruct Hx as [-> | ->]; by vm_compute.
Qed.

(** What a packet of a direction leaves: its own side first. *)
Lemma dir_effect i r s (d : bool) p h syn fin : linked_pair i r s -> with_ports i r s -> plain p h syn fin ->
  let s' := dir_digest i r s (d, p) in
  linked_pair i r s' /\ with_ports i r s' /\
  let '(a, b) := pair_from d i r s in let '(a', b') := pair_from d i r s' in
  grows a a' /\ grows b b' /\ sd_seq b' = sd_seq b /\
  (syn = false -> fin = false -> sd_seq a' = sd_seq a) /\
  (syn = false -> fin = true -> sd_seq a' = fin_seq h /\ sees VR_FLOW_TCP_FIN_R b' = true) /\
  (syn = false -> has VR_TCP_FLAG_ACK (tcp_offset_flags h) = true -> sees VR_FLOW_TCP_FIN_R a = true ->
     tcp_ack h = u32 (sd_seq b + 1) ->
     sees VR_FLOW_TCP_HALF_CLOSE b' = true /\
     (sees VR_FLOW_TCP_HALF_CLOSE a = true -> sees VR_FLOW_TCP_DEAD a' = true /\ sees VR_FLOW_TCP_DEAD b' = true)).
Proof.
  intros Hl Hw Hp. destruct (dir_plain i r s d p h _ _ Hl Hw Hp) as (H1 & H2 & E). cbn zeta.
  split; [done|]. split; [done|]. rewrite E. destruct (pair_from d i r s) as [a b].
  pose proof (pair_digest_grows h a b) as Hg. destruct Hp as (_ & Hr & Hs & Hf).
  destruct (pair_digest h (a, b)) as [a' b'] eqn:Ed. destruct Hg as (G1 & G2 & G3). split; [done|]. split; [done|]. split; [done|].
  unfold pair_digest in Ed. rewrite Hr, Hs, Hf in Ed. split; [|split].
  - intros -> ->. pose proof (pair_ack_grows h a b) as Hg. rewrite Ed in Hg. tauto.
  - intros -> ->. pose proof (pair_ack_grows h (mark VR_FLOW_TCP_FIN (at_seq (fin_seq h) a)) (mark VR_FLOW_TCP_FIN_R b)) as Hg.
    rewrite Ed in Hg. destruct Hg as (_ & Hb & Hq & _). split; [done|]. apply Hb. flags. done.
  - intros -> Hack HR Hk. set (ab := if fin then _ else _) in Ed.
    assert (Hab : ab = (ab.1, ab.2) /\ grows a ab.1 /\ sd_seq ab.2 = sd_seq b).
    { unfold ab. destruct fin; (split; [done|]; split; [|done]); intros x Hx; cbn [fst]; rewrite ?sees_mark, ?sees_at, Hx; done. }
    destruct Hab as (Eab & Ha & Hb). rewrite Eab in Ed. unfold pair_ack in Ed.
    rewrite (Ha _ HR), Hack, Hb, Hk, Z.eqb_refl in Ed. cbn [andb orb] in Ed.
    destruct (sees VR_FLOW_TCP_HALF_CLOSE ab.1) eqn:Eh; simplify_eq; flags; (split; [done|]); [done|].
    intros Hx%Ha. congruence.
Qed.

(** Packets with a TCP header that neither open, close nor reset. *)
Definition quiet (dp : bool * flow_packet) : Prop := exists h, plain dp.2 h false false.

(** The length of the data of a segment, behind its header. *)
Definition tcp_payload (h : tcp_hdr) : Z := tcp_length h - Z.shiftr (tcp_offset_flags h) 12 * 4.

(** The FIN takes the sequence number behind the data. *)
Lemma fin_seq_payload h : u32 (fin_seq h + 1) = u32 (tcp_seq h + tcp_payload h + 1).
Proof.
  unfold fin_seq, tcp_payload, u32. rewrite Zplus_mod_idemp_l. rewrite <- (Z.add_assoc (tcp_seq h)), (Z.add_comm (_ mod _) 1).
  rewrite Z.add_assoc, Zplus_mod_idemp_r. f_equal. lia.
Qed.

(** The segment acknowledges the FIN that [h] carries, with the data that came with it. *)
Definition acks (h' h : tcp_hdr) : Prop :=
  has VR_TCP_FLAG_ACK (tcp_offset_flags h') = true /\ tcp_ack h' = u32 (tcp_seq h + tcp_payload h + 1).

Section close.
Context (i r : Z).

Definition ready (s : S) : Prop := linked_pair i r s /\ with_ports i r s.

(** The FIN [h] is the last thing that the direction [d] has sent, and the other knows;
    the other has acknowledged a FIN of [d]. *)
Definition fin_sent (d : bool) (h : tcp_hdr) (s : S) : Prop :=
  sd_seq (pair_from d i r s).1 = fin_seq h /\ sees VR_FLOW_TCP_FIN_R (pair_from d i r s).2 = true.
Definition half (d : bool) (s : S) : Prop := sees VR_FLOW_TCP_HALF_CLOSE (pair_from d i r s).1 = true.
Definition both_dead (s : S) : Prop :=
  has VR_FLOW_TCP_DEAD (fld fe_tcp_flags i s) = true /\ has VR_FLOW_TCP_DEAD (fld fe_tcp_flags r s) = true.

Lemma pair_from_swap d s : pair_from (negb d) i r s = ((pair_from d i r s).2, (pair_from d i r s).1).
Proof. by destruct d. Qed.

(** What a packet of [d] leaves of the closing of both directions. *)
Lemma close_step d p h fin s : ready s -> plain p h false fin ->
  let s' := dir_digest i r s (d, p) in
  ready s' /\ (forall e, half e s -> half e s') /\
  (forall h0, fin_sent (negb d) h0 s -> fin_sent (negb d) h0 s') /\
  (fin = false -> forall h0, fin_sent d h0 s -> fin_sent d h0 s') /\
  (fin = true -> fin_sent d h s') /\
  (forall h0, acks h h0 -> fin_sent (negb d) h0 s -> half (negb d) s' /\ (half d s -> both_dead s')).
Proof.
  intros [Hl Hw] Hp s'. destruct (dir_effect i r s d p h _ _ Hl Hw Hp) as (L & W & He). fold s' in L, W, He.
  unfold fin_sent, half. rewrite !(pair_from_swap d). split; [done|].
  assert (Hdead : sees VR_FLOW_TCP_DEAD (pair_from d i r s').1 = true /\ sees VR_FLOW_TCP_DEAD (pair_from d i r s').2 = true ->
    both_dead s') by (destruct d; intros [? ?]; by split).
  assert (Hh : forall e, pair_from e i r s = pair_from d i r s \/ pair_from e i r s = ((pair_from d i r s).2, (pair_from d i r s).1))
    by (intros e; destruct e, d; auto).
  assert (Hhalf : forall e, grows (pair_from d i r s).1 (pair_from d i r s').1 -> grows (pair_from d i r s).2 (pair_from d i r s').2 ->
    half e s -> half e s') by (intros e G1 G2; unfold half; destruct e, d; cbn in *; auto).
  destruct (pair_from d i r s) as [a b], (pair_from d i r s') as [a' b']. cbn [fst snd] in *.
  destruct He as (G1 & G2 & Q & X1 & X2 & X3). split; [intros e; by apply Hhalf|]. split; [intros h0 [E1 E2]; split; [congruence|auto]|].
  split; [intros -> h0 [E1 E2]; split; [rewrite X1; done|auto]|]. split; [intros ->; by apply X2|].
  intros h0 [A K] [E1 E2]. rewrite <- fin_seq_payload, <- E1 in K. destruct (X3 eq_refl A E2 K) as [Y1 Y2]. auto.
Qed.

Lemma quiet_run qs s : ready s -> Forall quiet qs ->
  ready (run_pair i r qs s) /\ (forall e, half e s -> half e (run_pair i r qs s)) /\
  (forall e h0, fin_sent e h0 s -> fin_sent e h0 (run_pair i r qs s)).
Proof.
  intros Hr Hq. revert s Hr. induction Hq as [|[d p] qs [h Hp] _ IH]; intros s Hr; [done|].
  destruct (close_step d p h _ s Hr Hp) as (R1 & H1 & F1 & F2 & _). cbn [run_pair foldl]. set (s1 := dir_digest i r s (d, p)) in *.
  destruct (IH s1 R1) as (R2 & H2 & F3). split; [done|]. split; [auto|]. intros e h0 He. apply F3.
  destruct (decide (e = d)) as [->|Hne]; [by apply F2|]. replace e with (negb d) in * by (by destruct d, e). by apply F1.
Qed.

(** What the side [d] sends between the FIN [h1] of the other side and the acknowledgement
    of its own FIN [h3]: the acknowledgement and later the FIN, both in one packet, or the
    FIN and later the acknowledgement. *)
Inductive answers (d : bool) (h1 h3 : tcp_hdr) : list (bool * flow_packet) -> Prop :=
  | answer_apart p2 h2 q2 p3 : plain p2 h2 false false -> acks h2 h1 -> Forall quiet q2 -> plain p3 h3 false true ->
      answers d h1 h3 ((d, p2) :: q2 ++ [(d, p3)])
  | answer_once p3 : plain p3 h3 false true -> acks h3 h1 -> answers d h1 h3 [(d, p3)]
  | answer_crossed p2 h2 q2 p3 : plain p3 h3 false true -> Forall quiet q2 -> plain p2 h2 false false -> acks h2 h1 ->
      answers d h1 h3 ((d, p3) :: q2 ++ [(d, p2)]).

Lemma answers_run d h1 h3 mid s : answers d h1 h3 mid -> ready s -> fin_sent (negb d) h1 s ->
  let s' := run_pair i r mid s in ready s' /\ fin_sent d h3 s' /\ half (negb d) s'.
Proof.
  intros Hm Hr Hf s'. destruct Hm as [p2 h2 q2 p3 P2 A2 Q2 P3|p3 P3 A3|p2 h2 q2 p3 P3 Q2 P2 A2];
    unfold s', run_pair; cbn [foldl]; rewrite ?foldl_app; cbn [foldl].
  - destruct (close_step d p2 h2 _ s Hr P2) as (R1 & _ & _ & _ & _ & K1). destruct (K1 h1 A2 Hf) as [C1 _].
    destruct (quiet_run q2 _ R1 Q2) as (R2 & C2 & _). destruct (close_step d p3 h3 _ _ R2 P3) as (R3 & C3 & _ & _ & F3 & _).
    split; [done|]. split; [by apply F3|]. apply C3, C2, C1.
  - destruct (close_step d p3 h3 _ s Hr P3) as (R1 & _ & _ & _ & F1 & K1). destruct (K1 h1 A3 Hf) as [C1 _].
    split; [done|]. split; [by apply F1|done].
  - destruct (close_step d p3 h3 _ s Hr P3) as (R1 & _ & F1 & _ & F1' & _). destruct (quiet_run q2 _ R1 Q2) as (R2 & _ & F2).
    destruct (close_step d p2 h2 _ _ R2 P2) as (R3 & _ & _ & F3 & _ & K3). split; [done|].
    split; [apply F3; [done|]; apply F2; by apply F1'|]. apply (K3 h1 A2), F2, F1, Hf.
Qed.

End close.

(** C38: a connection that is closed in the ordinary way is declared dead, in both flows: a FIN
    in one direction, then from the other side its acknowledgement (which counts the data that
    came with the FIN) and a FIN, in either order or in one packet ([answers]), then the
    acknowledgement of that FIN.  Between them there may be any number of TCP packets of both
    directions without SYN, FIN and RST ([quiet]); a SYN or another FIN between a FIN and its
    acknowledgement takes the place of the sequence number that is waited for, and the flows
    stay: [tcp_syn_between_keeps]. *)
Theorem tcp_close i r s d p1 p4 h1 h3 h4 q1 mid q3 :
  linked_pair i r s -> with_ports i r s ->
  plain p1 h1 false true -> Forall quiet q1 -> answers (negb d) h1 h3 mid -> Forall quiet q3 ->
  plain p4 h4 false false -> acks h4 h3 ->
  let s' := run_pair i r ((d, p1) :: q1 ++ mid ++ q3 ++ [(d, p4)]) s in
  has VR_FLOW_TCP_DEAD (fld fe_tcp_flags i s') = true /\ has VR_FLOW_TCP_DEAD (fld fe_tcp_flags r s') = true.
Proof.
  intros Hl Hw P1 Q1 Hm Q3 P4 A4 s'. unfold s', run_pair. cbn [foldl]. rewrite !foldl_app. cbn [foldl].
  destruct (close_step i r d p1 h1 _ s (conj Hl Hw) P1) as (R1 & _ & _ & _ & F1 & _).
  destruct (quiet_run i r q1 _ R1 Q1) as (R2 & _ & F2).
  destruct (answers_run i r (negb d) h1 h3 mid _ Hm R2) as (R3 & F3 & C3); [rewrite negb_involutive; by apply F2, F1|].
  destruct (quiet_run i r q3 _ R3 Q3) as (R4 & C4 & F4). rewrite negb_involutive in C3.
  destruct (close_step i r d p4 h4 _ _ R4 P4) as (_ & _ & _ & _ & _ & K5). apply (K5 h3 A4 (F4 _ _ F3)), C4, C3.
Qed.

End store.
End FlowTcpProofs.
