(* ===== verification/FlowRun.v ===== *)
(** * A connection through two flows, and the flow module at work

    Inputs on which the theorems on packets, connections and the states of the flow module
    apply. *)

From stdpp Require Import gmap.
From S2P Require Import Prelude Bits Htable Mirror Fragment VrfAssign FlowEntry FlowInfo FlowTable FatFlow Csum.
From S2P Require Import FlowPacket FlowNatProofs FlowState FlowTcp Flow FlowWork FlowInv FlowProofs FlowSetProofs.
From S2P Require Import FlowReach FlowEvict FlowTcpProofs.

Module FlowExamples.
Import Csum FlowPacket FlowNatProofs FlowTcp FlowTcpProofs.

(** ** Checksums *)

Lemma csum_incremental_equiv_witness :
  vr_ip_incremental_csum (ip_csum syn_words 0) (vr_incremental_diff (word32 syn_words 6) 3232235521 0) =
  vr_ip_csum (set32 syn_words 6 3232235521) 0.
Proof. apply (csum_incremental_equiv syn_words 0 6 3232235521); [apply syn_header|by vm_compute|by left|lia]. Defined.

Lemma decrement_ttl_csum_witness :
  let w' := vr_ip_decrement_ttl syn_words 0 in
  ip_ttl w' 0 = ip_ttl syn_words 0 - 1 /\ ip_csum w' 0 = vr_ip_csum w' 0.
Proof. apply (decrement_ttl_csum syn_words 0); [apply syn_header|by vm_compute|by vm_compute]. Defined.

(** A time to live of zero: the difference is then zero and the checksum stays the same. *)
Theorem ttl_zero_csum_wrong :
  let w := zset (zset syn_words 4 1536) 5 0 in
  let w := zset w 5 (vr_ip_csum w 0) in
  let w' := vr_ip_decrement_ttl w 0 in
  ip_csum w 0 = vr_ip_csum w 0 /\ ip_ttl w' 0 = 255 /\ ip_csum w' 0 <> vr_ip_csum w' 0.
Proof. vm_compute. done. Qed.

(** ** A connection *)

Definition host_vif : flow_vif :=
  mk_fvif 1 1 (VrfAssign.mk_vif VrfAssign.VIF_TYPE_VIRTUAL 0 1 7 1 VrfAssign.vm_rx None 0) FatFlow.fat_vif0.

(** A TCP packet without data; the flags are those of the header. *)
Definition tcp_packet (flags seq ack : Z) : flow_packet :=
  let w := [69; 10240; 1; 0; 1600; 0; 10; 256; 10; 512; 34835; 20480;
            Fragment.ntohs (seq / 65536); Fragment.ntohs (u16 seq);
            Fragment.ntohs (ack / 65536); Fragment.ntohs (u16 ack);
            Fragment.ntohs (Z.lor 20480 flags); 0; 0; 0] in
  mk_pkt 1 VP_TYPE_IP 0 host_vif None 40 w.

Definition flow_with (key : vr_flow) (rflow : Z) : vr_flow_entry :=
  set_fe_rflow rflow (set_fe_flags (Z.lor VR_FLOW_FLAG_ACTIVE VR_RFLOW_VALID) (set_fe_key key fe_zero)).

(** A table of four entries, with the two flows of the connection. *)
Definition conn_table : flow_htable :=
  let entry i flags e := Htable.mk_hentry None i 0 Htable.VR_INVALID_HENTRY_INDEX flags e in
  Htable.mk_htable 4 0 0 4
    [entry 0 Htable.VR_HENTRY_FLAG_VALID (flow_with syn_key 2); entry 1 0 fe_zero;
     entry 2 Htable.VR_HENTRY_FLAG_VALID (flow_with (mk_key AF_INET VR_IP_PROTO_TCP 20480 34835 7 [10; 0; 0; 2; 10; 0; 0; 1] 20) 0);
     entry 3 0 fe_zero] [] None 0 2 [] [] false [].

Lemma conn_linked : linked_pair 0 2 conn_table.
Proof. split; try done; by split. Qed.

Lemma conn_ports : with_ports 0 2 conn_table.
Proof. intros p. unfold vr_flow_is_fat_flow. by destruct (vp_type p =? VP_TYPE_IP), (vp_type p =? VP_TYPE_IP6). Qed.

Definition hdr (p : flow_packet) : tcp_hdr := default (mk_tcp 0 0 0 0) (tcp_header p).

Definition p_syn : flow_packet := tcp_packet VR_TCP_FLAG_SYN 1000 0.
Definition p_synack : flow_packet := tcp_packet (Z.lor VR_TCP_FLAG_SYN VR_TCP_FLAG_ACK) 5000 1001.
Definition p_ack : flow_packet := tcp_packet VR_TCP_FLAG_ACK 1001 5001.
Definition p_fin : flow_packet := tcp_packet VR_TCP_FLAG_FIN 1001 5001.
Definition p_data : flow_packet := tcp_packet VR_TCP_FLAG_ACK 5001 1001.
Definition p_finack : flow_packet := tcp_packet VR_TCP_FLAG_ACK 5001 1002.
Definition p_fin_back : flow_packet := tcp_packet (Z.lor VR_TCP_FLAG_FIN VR_TCP_FLAG_ACK) 5001 1002.
Definition p_last : flow_packet := tcp_packet VR_TCP_FLAG_ACK 1002 5002.
Definition p_rst : flow_packet := tcp_packet VR_TCP_FLAG_RST 1001 0.

Lemma plain_by p syn fin : tcp_header p = Some (hdr p) ->
  has VR_TCP_FLAG_RST (tcp_offset_flags (hdr p)) = false -> has VR_TCP_FLAG_SYN (tcp_offset_flags (hdr p)) = syn ->
  has VR_TCP_FLAG_FIN (tcp_offset_flags (hdr p)) = fin -> plain p (hdr p) syn fin.
Proof. by repeat split. Qed.

Lemma tcp_dead_sound_witness :
  let s' := run_pair 0 2 [(true, p_syn); (false, p_rst)] conn_table in
  has VR_FLOW_TCP_DEAD (fld fe_tcp_flags 0 s') = true /\ has VR_FLOW_TCP_DEAD (fld fe_tcp_flags 2 s') = true /\
  (reset_in [(true, p_syn); (false, p_rst)] \/
   (fin_in true [(true, p_syn); (false, p_rst)] /\ fin_in false [(true, p_syn); (false, p_rst)])).
Proof. apply tcp_dead_sound; [apply conn_linked|done|done|left; by vm_compute]. Defined.

Lemma tcp_handshake_witness :
  let s' := run_pair 0 2 [(true, p_syn); (false, p_synack); (true, p_ack)] conn_table in
  forall x, x = VR_FLOW_TCP_ESTABLISHED \/ x = VR_FLOW_TCP_ESTABLISHED_R ->
    has x (fld fe_tcp_flags 0 s') = true /\ has x (fld fe_tcp_flags 2 s') = true.
Proof.
  apply (tcp_handshake 0 2 conn_table p_syn p_synack p_ack (hdr p_syn) (hdr p_synack) (hdr p_ack));
    [apply conn_linked|apply conn_ports|done|done|by apply plain_by|by apply plain_by|by apply plain_by|by vm_compute..].
Defined.

Lemma tcp_close_witness :
  let s' := run_pair 0 2 ((true, p_fin) :: [(false, p_data)] ++ [(false, p_finack); (false, p_data); (false, p_fin_back)] ++ [] ++ [(true, p_last)])
              conn_table in
  has VR_FLOW_TCP_DEAD (fld fe_tcp_flags 0 s') = true /\ has VR_FLOW_TCP_DEAD (fld fe_tcp_flags 2 s') = true.
Proof.
  assert (Hq : Forall quiet [(false, p_data)]) by (constructor; [|by constructor]; exists (hdr p_data); by apply plain_by).
  apply (tcp_close 0 2 conn_table true p_fin p_last (hdr p_fin) (hdr p_fin_back) (hdr p_last)
           [(false, p_data)] [(false, p_finack); (false, p_data); (false, p_fin_back)] []);
    [apply conn_linked|apply conn_ports|by apply plain_by|exact Hq| |by constructor|by apply plain_by|split; by vm_compute].
  apply (answer_apart false (hdr p_fin) (hdr p_fin_back) p_finack (hdr p_finack) [(false, p_data)]);
    [by apply plain_by|split; by vm_compute|exact Hq|by apply plain_by].
Defined.

(** A SYN between a FIN and its acknowledgement: the connection is closed as before, and
    both flows stay. *)
Example tcp_syn_between_keeps :
  let s' := run_pair 0 2 [(true, p_fin); (true, p_syn); (false, p_finack); (false, p_fin_back); (true, p_last)] conn_table in
  has VR_FLOW_TCP_DEAD (fld fe_tcp_flags 0 s') = false /\ has VR_FLOW_TCP_DEAD (fld fe_tcp_flags 2 s') = false.
Proof. by vm_compute. Qed.

End FlowExamples.

Module FlowRun.
Import FlowPacket FlowState FlowTcp Flow FlowWork FlowInv FlowSetProofs FlowReach FlowEvict FlowExamples.

(** A host with one interface and nexthop 7, which takes packets from anywhere. *)
Definition env0 : flow_env :=
  mk_env (fun i => if i =? 7 then Some None else None) (fun _ _ => None) (fun _ => None) (fun i => if i =? 1 then Some 1 else None)
    (fun _ => false) 255 4096 100 (fun _ => None) false 0 0 key_zero (fun l _ => foldr Z.add 0 l) [] 0.

(** Eight entries, four for overflow, one processor. *)
Definition init0 : Z * option (flow_mod flow_htable) :=
  vr_flow_init 8 4 1 (true, true, true, true) true true (Fragment.mk_ft [] []) (Mirror.mk_metas (mk_mem 1 ∅ []) [] false) [] [] [].

Definition run0 : flow_mod flow_htable :=
  match init0.2 with Some st => st | None => mk_fm conn_table ∅ 0 (FlowInfo.mk_info 0 0 0 []) None (Mirror.mk_metas (mk_mem 1 ∅ []) [] false) ∅ (Fragment.mk_ft [] []) [] [] [] [] [] false end.

Lemma run0_starts : starts 8 4 1 (true, true, true, true) (Fragment.mk_ft [] []) (Mirror.mk_metas (mk_mem 1 ∅ []) [] false) [] [] run0.
Proof. split; [reflexivity|]. split; [lia|]. split; [lia|]. split; [lia|]. vm_compute. done. Qed.

(** The first packet of a connection: its flow is entered, and waits for the agent. *)
Definition first_packet : flow_packet := set_vp_flags VP_FLAG_FLOW_GET p_syn.
Definition run1 : flow_mod flow_htable := (vr_flow_forward env0 first_packet vr_init_forwarding_md run0).2.

(** The agent answers: the flow is forwarded. *)
Definition flow_index : Z := default 0 (list_find (fun b => b = true) ((fun i => fs_valid i (fm_tab run1)) <$> seqZ 0 12) ≫= fun p => Some (Z.of_nat p.1)).
Definition answer : vr_flow_req :=
  mk_freq flow_index VR_FLOW_ACTION_FORWARD VR_FLOW_FLAG_ACTIVE (-1) AF_INET [10; 0; 0; 1; 10; 0; 0; 2] 34835 20480 6 0 0 255 255 0 0 None 0 (-1) 7 7 0 (-1) 0 1 0 0 0.
Definition run2 : flow_mod flow_htable := (vr_flow_set env0 answer run1).2.

(** The packet goes on its way, and after the grace period the queue is freed. *)
Definition run3 : flow_mod flow_htable :=
  match fm_work run2 with m :: l => vr_flow_work env0 m (set_work l run2) | [] => run2 end.
Definition run4 : flow_mod flow_htable :=
  match fm_deferred run3 with dd :: l => vr_flow_defer_cb env0 dd (set_deferred l run3) | [] => run3 end.

Example held_packet_goes :
  fm_events run4 = [E_trap_clone 1 65535 AGENT_TRAP_FLOW_MISS flow_index; E_reinject 1] /\ map_to_list (fm_queues run4) = [] /\ fm_fault run4 = false.
Proof. by vm_compute. Qed.

Lemma run1_reached : reaches run0 run1.
Proof. apply (reaches_step env0 run0 run0); [constructor|done|apply step_packet]. Qed.
Lemma run2_reached : reaches run0 run2.
Proof. apply (reaches_step env0 run0 run1); [apply run1_reached|done|apply step_request; unfold req_ok; cbn; unfold VR_FLOW_ACTION_FORWARD; lia]. Qed.

Lemma flow_hold_exact_witness :
  FlowInfo.vr_flow_table_hold_count (fm_info run1) = held_in (fm_tab run1) /\ held_in (fm_tab run1) = 1 /\
  FlowInfo.vr_flow_table_hold_count (fm_info run2) = held_in (fm_tab run2) /\ held_in (fm_tab run2) = 0.
Proof.
  split; [eapply flow_hold_exact; [apply run0_starts|apply run1_reached]|]. split; [by vm_compute|].
  split; [eapply flow_hold_exact; [apply run0_starts|apply run2_reached]|by vm_compute].
Defined.

Lemma flow_queues_safe_witness :
  (forall i e q, fs_read i (fm_tab run2) = Some e -> fe_hold_list e = Some q -> is_Some (fm_queues run2 !! q) /\
     forall j e', fs_read j (fm_tab run2) = Some e' -> fe_hold_list e' = Some q -> j = i) /\
  (forall env m l1 l2, fm_work run2 = l1 ++ m :: l2 -> fm_fault (vr_flow_work env m (set_work (l1 ++ l2) run2)) = fm_fault run2) /\
  (forall env dd l1 l2, fm_deferred run2 = l1 ++ dd :: l2 ->
     fm_fault (vr_flow_defer_cb env dd (set_deferred (l1 ++ l2) run2)) = fm_fault run2).
Proof. eapply flow_queues_safe; [apply run0_starts|apply run2_reached]. Defined.

(** ** A connection that is over *)

Definition add_flow (index action flags rindex sport dport : Z) (ip : list Z) : vr_flow_req :=
  mk_freq index action flags rindex AF_INET ip sport dport 6 0 0 255 255 0 0 None 0 (-1) 7 7 0 (-1) 0 1 0 0 0.

Definition there : list Z := [10; 0; 0; 1; 10; 0; 0; 2].
Definition back : list Z := [10; 0; 0; 2; 10; 0; 0; 1].
Definition with_rflow : Z := Z.lor VR_FLOW_FLAG_ACTIVE VR_RFLOW_VALID.

(** The agent enters the two flows, and tells each of the other. *)
Definition add1 : vr_flow_req := add_flow (-1) VR_FLOW_ACTION_FORWARD VR_FLOW_FLAG_ACTIVE (-1) 34835 20480 there.
Definition pair1 : flow_mod flow_htable := (vr_flow_set env0 add1 run0).2.
Definition flow_a : Z := fr_index (vr_flow_set env0 add1 run0).1.2.
Definition add2 : vr_flow_req := add_flow (-1) VR_FLOW_ACTION_FORWARD with_rflow flow_a 20480 34835 back.
Definition pair2 : flow_mod flow_htable := (vr_flow_set env0 add2 pair1).2.
Definition flow_b : Z := fr_index (vr_flow_set env0 add2 pair1).1.2.
Definition link1 : vr_flow_req := add_flow flow_a VR_FLOW_ACTION_FORWARD with_rflow flow_b 34835 20480 there.
Definition pair3 : flow_mod flow_htable := (vr_flow_set env0 link1 pair2).2.

(** A reset kills both flows. *)
Definition pair4 : flow_mod flow_htable := set_tab (vr_flow_tcp_digest flow_a p_rst (fm_tab pair3)) pair3.

Lemma pair3_reached : reaches run0 pair3.
Proof.
  apply (reaches_step env0 run0 pair2); [|done|by apply step_request]. apply (reaches_step env0 run0 pair1); [|done|by apply step_request].
  apply (reaches_step env0 run0 run0); [constructor|done|by apply step_request].
Qed.

Lemma digest_ok i p (t : flow_htable) : ft_ok t -> ft_ok (vr_flow_tcp_digest i p t).
Proof. intros Hok. by apply (FlowProofs.digest_still i p t). Qed.

Lemma reached_ok st : reaches run0 st -> ft_ok (fm_tab st).
Proof. intros Hr. eapply (FlowProofs.inv_ok [] 0), reaches_inv; [exact Hr|]. eapply starts_inv, run0_starts. Qed.

Lemma pair4_ok : ft_ok (fm_tab pair4).
Proof. unfold pair4. cbn [fm_tab set_tab]. apply digest_ok, reached_ok, pair3_reached. Qed.

Lemma evict_pair_released_witness :
  exists m dd,
    let st1 := vr_flow_mark_evict flow_a flow_a pair4 in
    fm_work st1 = fm_work pair4 ++ [m] /\
    let st2 := vr_flow_work env0 m (set_work (fm_work pair4) st1) in
    fm_deferred st2 = fm_deferred pair4 ++ [dd] /\
    let st3 := vr_flow_defer_cb env0 dd (set_deferred (fm_deferred pair4) st2) in
    forall j, fs_valid j (fm_tab st3) = if decide (j = flow_a \/ j = flow_b) then false else fs_valid j (fm_tab pair4).
Proof.
  apply (evict_pair_released env0 flow_a flow_b (default fe_zero (fs_read flow_a (fm_tab pair4))) (default fe_zero (fs_read flow_b (fm_tab pair4))) pair4).
  - by vm_compute.
  - apply pair4_ok.
  - by vm_compute.
  - by vm_compute.
  - by vm_compute.
  - split; by vm_compute.
  - split; by vm_compute.
Defined.

(** A request for an entry that is not in use. *)
Lemma flow_set_refused_witness :
  let '(ret, req', st') := vr_flow_set env0 answer run0 in ret ∉ [0; - ENOMEM; - ENOSPC] /\ req' = answer /\ untouched run0 st'.
Proof.
  assert (Hn : - ENOENT ∉ [0; - ENOMEM; - ENOSPC]) by (rewrite !not_elem_of_cons; repeat split; done || apply not_elem_of_nil).
  assert (Hr : (vr_flow_set env0 answer run0).1.1 = - ENOENT) by (by vm_compute).
  pose proof (flow_set_refused env0 answer run0) as H. destruct (vr_flow_set env0 answer run0) as [[ret req'] st']. cbn in Hr. subst ret.
  split; [exact Hn|]. exact (H Hn).
Defined.

End FlowRun.
