(* ===== verification/TableExamples.v ===== *)
(** * Labels, identifiers, mirrors and code points: runs

    Concrete runs that meet the hypotheses of the theorems of [Mpls.v], [Vxlan.v],
    [MirrorProofs.v] and [QosProofs.v] on the nexthop table of [Nexthop.v], and the requests
    that lose a mapping or a reference or do not behave otherwise. *)

From stdpp Require Import gmap.
From S2P Require Import Prelude Queue Message IndexTable NhIface Nexthop Mtrie MtrieSpec MtrieProofs.
From S2P Require Import MtrieExamples Mpls Vxlan Pool Qos QosProofs Mirror MirrorProofs.

Module QosExamples.
Import Message Qos QosProofs.

(** Map 5 sends DSCP 10 to class 4 (the second pair wins) and 802.1p 1 to class 3. *)
Definition map_req : vr_qos_map_req := mk_qmr 5 [10; 10; 99] [3; 4; 1] [] [] [1] [3] 0.
Definition fc_req : vr_fc_map_req := mk_fmr (Some [3; 4]) [12; 13] [1; 2] [3; 4] [7; 8] 0.

Definition qos1 : qos := Eval vm_compute in (vr_qos_init (qos0 [])).2.
Definition qos2 : qos := Eval vm_compute in (fc_map_add fc_req qos1).2.
Definition qos3 : qos := Eval vm_compute in (qos_map_add map_req qos2).2.
Definition qos4 : qos := Eval vm_compute in (qos_map_delete map_req qos3).2.

Lemma map_req_ok : qmr_ok map_req.
Proof. split_and!; cbn; repeat constructor; done. Qed.

Lemma qos3_reach : rtc (qos_step false) (qos0 []) qos3.
Proof.
  apply (rtc_l _ _ qos1).
  { replace qos1 with (vr_qos_init (qos0 [])).2 by (by vm_compute). constructor. }
  apply (rtc_l _ _ qos2).
  { replace qos2 with (fc_map_add fc_req qos1).2 by (by vm_compute).
    apply (qos_step_fc_add _ _ _ [3; 4]); [by eexists|by split_and!; vm_compute]. }
  apply (rtc_l _ _ qos3); [|done].
  replace qos3 with (qos_map_add map_req qos2).2 by (by vm_compute).
  constructor; [by eexists|exact map_req_ok].
Qed.

Lemma qos4_reach : rtc (qos_step false) (qos0 []) qos4.
Proof.
  eapply rtc_r; [exact qos3_reach|].
  replace qos4 with (qos_map_delete map_req qos3).2 by (by vm_compute). constructor; [by eexists|done].
Qed.

Lemma qos3_inv : qos_inv qos3.
Proof. exact (proj1 (qos_steps_inv _ _ _ qos3_reach (proj1 (qos0_inv [])))). Qed.

Lemma qos_maps_safe_witness :
  qos_fault qos4 = false /\
  (forall i p, 0 <= i -> vr_qos_map_get_fc i qos4 = Some p -> is_Some (qos_heap qos4 !! p) /\ p ∉ qos_deferred qos4) /\
  (false = false -> forall p, is_Some (qos_heap qos4 !! p) -> p ∈ owned qos4).
Proof. exact (qos_maps_safe false [] qos4 qos4_reach). Defined.

Lemma qos_map_add_spec_witness : map_added map_req qos3 (qos_map_add map_req qos3).
Proof. apply (qos_map_add_spec map_req qos3); [exact qos3_inv|by eexists|exact map_req_ok]. Defined.

Lemma qos_map_delete_spec_witness : map_deleted 5 qos3 (qos_map_delete map_req qos3).
Proof. apply (qos_map_delete_spec map_req qos3); [exact qos3_inv|by eexists|done]. Defined.

(** A packet with DSCP 10 on an interface with map 5 and no flow. *)
Definition pkt10 : qos_packet := mk_qpkt (-1) 0 5 true 10 (-1).

Lemma qos_packet_class_witness :
  vr_qos_get_forwarding_class pkt10 qos3 =
    (if decide (0 <= packet_map pkt10 /\ is_Some (vr_qos_map_get_fc (packet_map pkt10) qos3) /\ 0 <= packet_entry pkt10)
     then fc ← fc_load (default 0 (class_of qos3 (packet_map pkt10) (packet_entry pkt10))) qos3;
          if vfc_valid fc then Some (vfc_qos fc) else None
     else None, true).
Proof. apply (qos_packet_class pkt10 qos3); [exact qos3_inv|by eexists|by split; vm_compute]. Defined.

Example pkt10_class : vr_qos_get_forwarding_class pkt10 qos3 = (Some (mk_fcq 13 2 4 0 true 8), true).
Proof. by vm_compute. Qed.

Definition answer3 : vr_qos_map_req := match (qos_map_get map_req qos3).1 with inl r => r | inr _ => map_req end.

Lemma qos_map_get_dscp_witness :
  zget (qmr_dscp_fc_id answer3) 10 = Some (default 0 (class_of qos3 5 10)) /\
  zget (qmr_dscp answer3) 10 = Some (if decide (is_Some (class_of qos3 5 10)) then 10 else 0).
Proof.
  apply (qos_map_get_dscp map_req qos3 answer3 (qos_map_get map_req qos3).2 qos3_inv); [done|by vm_compute|done].
Defined.

(** ** Requests that go wrong *)

(** The answer to a get request hides an MPLS or 802.1p code point unless the DSCP code
    point of the same number is set: map 5 assigns 802.1p 1, and the answer says 0. *)
Theorem qos_get_hides_dotonep :
  class_of qos3 5 (72 + 1) = Some 3 /\
  match (qos_map_get map_req qos3).1 with
  | inl resp => zget (qmr_dotonep_fc_id resp) 1 = Some 0
  | inr _ => False
  end.
Proof. by vm_compute. Qed.

(** A soft reset clears the table without freeing the maps. *)
Theorem qos_soft_reset_leaks :
  let s := vr_qos_exit true qos3 in is_Some (qos_heap s !! 1) /\ owned s = [].
Proof. vm_compute. split; [by eexists|done]. Qed.

(** Every answer to a get request for a class writes two bytes into a block of one. *)
Theorem fc_get_overflows req s resp s' : fc_map_get req s = (inl resp, s') -> qos_fault s' = true.
Proof.
  unfold fc_map_get, vr_fc_map_req_get. intros Hg.
  destruct (fmr_id req); [|done]. destruct (zget l 0); [|done]. case_match; [done|].
  destruct (fc_load _ s); [|done]. case_match; [done|]. destruct (qos_allocs 6 s) as [[] s1]; cbn in Hg; [|done].
  by injection Hg as <- <-.
Qed.

(** A list shorter than the list of identifiers is read past its end. *)
Theorem fc_add_short_list :
  qos_fault (fc_map_add (mk_fmr (Some [3; 4]) [12] [1; 2] [3; 4] [7; 8] 0) qos1).2 = true.
Proof. by vm_compute. Qed.

(** A refused request has changed the classes before the one that is out of range. *)
Theorem fc_add_partial :
  let '(ret, s) := fc_map_add (mk_fmr (Some [3; 300]) [12; 13] [1; 2] [3; 4] [7; 8] 0) qos1 in
  ret = - EINVAL /\ vfc_valid (default fc0 (fc_load 3 s)) = true.
Proof. by vm_compute. Qed.

End QosExamples.

Module LabelExamples.
Import Mpls.

Definition router5 : Nexthop.router := MtrieExamples.router5.

(** The clients hold no reference yet. *)
Lemma router5_held : refs_held [] router5.
Proof. exact (Nexthop.steps_inv _ _ MtrieExamples.router5_reach (Nexthop.router0_inv [])). Qed.

Definition room (l : list nhp) (s : Nexthop.router) : bool := zlen (Nexthop.refs l s) <? UINT_MAX.

Lemma room_ok l s : room l s = true -> refs_room l s.
Proof. intros Hr. by apply Z.ltb_lt. Qed.

(** ** Labels *)

Definition mpls0 : mpls := (vr_mpls_init 16 true (mk_mpls 0 None true [])).2.

Lemma mpls0_ok : mpls_ok mpls0.
Proof. done. Qed.

Lemma mpls_add_spec_witness :
  let '(ret, m', s') := mpls_add (mk_mpls_req 5 0 1 0) mpls0 router5 in
  ret = 0 /\ mpls_ok m' /\ same_nhs router5 s' /\
  s' = (nh_get 0 1 (drop_nh router5 (__vrouter_get_label mpls0 5))).2 /\
  forall l, 0 <= l -> __vrouter_get_label m' l = if decide (l = u32 5) then Some 2 else __vrouter_get_label mpls0 l.
Proof. apply (mpls_add_spec (mk_mpls_req 5 0 1 0) mpls0 router5 2 mpls0_ok); reflexivity. Defined.

Lemma mpls_refs_exact_witness :
  let '(m', s') := mpls_run (LAdd (mk_mpls_req 5 0 1 0)) mpls0 router5 in
  mpls_ok m' /\ refs_held (label_refs m' ++ []) s'.
Proof.
  apply (mpls_refs_exact (LAdd (mk_mpls_req 5 0 1 0)) mpls0 router5 [] mpls0_ok router5_held).
  intros m1 s1 E. apply room_ok. vm_compute in E. injection E as <- <-. by vm_compute.
Defined.

(** A request for a nexthop that does not exist removes the mapping that was there:
    [vr_mpls_add] unmaps the label before it looks the nexthop up. *)
Theorem mpls_add_unmaps :
  let '(_, m1, s1) := mpls_add (mk_mpls_req 5 0 1 0) mpls0 router5 in
  let '(ret, m2, _) := mpls_add (mk_mpls_req 5 0 3 0) m1 s1 in
  __vrouter_get_label m1 5 = Some 2 /\ ret = - EINVAL /\ __vrouter_get_label m2 5 = None.
Proof. by vm_compute. Qed.

(** ** Network identifiers *)
Import IndexTable Vxlan.

Definition vxlan0 : vxlan := (vr_vxlan_init 12 (mk_vxlan None mem0)).2.

Lemma vxlan0_view : vxview vxlan0 ∅.
Proof.
  pose proof (itbl_create_spec (V := nhp) 12 24 [12; 12] mem0 mem0_ok ltac:(lia) ltac:(lia) ltac:(repeat constructor; lia)) as Hc.
  unfold vxlan0, vr_vxlan_init. cbn [vr_vxlan_table vx_mem]. unfold VR_VXLAN_INDEX_LEN.
  destruct (vr_itable_create 12 24 [12; 12] mem0) as [[t|] m] eqn:E; [|by vm_compute in E].
  destruct Hc as (Hok & Hl & _ & Hg). exists t. split; [done|]. split; [done|]. split; [done|].
  split; [intros i; by rewrite lookup_empty, Hg|apply map_Forall_empty].
Qed.

Lemma vxlan_refines_witness :
  let '(ret, x', s') := vx_run (VAdd (mk_vxlan_req 0 7 1)) vxlan0 router5 in
  let '(ret_spec, m') := vx_spec (VAdd (mk_vxlan_req 0 7 1)) router5 ∅ in
  ret = ret_spec /\ vxview x' m' /\ m_oracle (vx_mem x') = [] /\ refs_held (vnid_refs m' ++ []) s'.
Proof.
  apply (vxlan_refines (VAdd (mk_vxlan_req 0 7 1)) vxlan0 ∅ router5 [] vxlan0_view eq_refl router5_held).
  apply room_ok. by vm_compute.
Defined.

Lemma vxlan_exit_drops_witness :
  let '(x', s') := vr_vxlan_exit vxlan0 router5 in vr_vxlan_table x' = None /\ refs_held [] s'.
Proof. apply (vxlan_exit_drops vxlan0 ∅ router5 [] vxlan0_view router5_held). Defined.

(** When there is no memory for a stride, [vr_vxlan_add] returns -EINVAL and keeps
    the reference it took: no identifier is mapped and the nexthop has one user too
    many. *)
Theorem vxlan_add_leaks_reference :
  let x := mk_vxlan (vr_vxlan_table vxlan0) (mk_mem 10 (m_live (vx_mem vxlan0)) [false]) in
  let '(ret, x', s') := vxlan_add (mk_vxlan_req 0 7 1) x router5 in
  let users (s : Nexthop.router) := Nexthop.nh_users <$> Nexthop.nh_load 2 s in
  ret = - EINVAL /\ vr_itable_get (vr_vxlan_table x') 7 = SNull /\ users router5 = Some 1 /\ users s' = Some 2.
Proof. by vm_compute. Qed.

End LabelExamples.

Module MirrorExamples.
Import Message Mirror MirrorProofs.

Definition router5 : Nexthop.router := MtrieExamples.router5.

Definition mirrors0 (o : list bool) : mirrors := mk_mirrors 0 None ∅ 1 [] o false false.
Definition mirrors1 : mirrors := Eval vm_compute in (vr_mirror_init (mirrors0 [])).2.

Lemma mirrors1_inv : mirror_inv mirrors1 /\ mirror_tight mirrors1.
Proof.
  split; [split; [by vm_compute| | |done]|].
  - split; [by vm_compute; constructor| |]; intros p; [vm_compute; by inversion 1|]. intros [e He]. by vm_compute in He.
  - intros t i p e _ _ He. by vm_compute in He.
  - intros p [e He]. by vm_compute in He.
Qed.

(** Index 7 mirrors to nexthop 1, with metadata. *)
Definition req7 : vr_mirror_req := mk_mirr 7 0 1 1 0 42.
Definition mirrors2 : mirrors := Eval vm_compute in (mirror_add req7 mirrors1 router5).1.2.

Lemma mirror_add_get_witness :
  let '(ret, m', s') := mirror_add req7 mirrors1 router5 in
  ret = 0 /\ mirror_inv m' /\ mirror_view m' = zset (mirror_view mirrors1) (u32 (mirr_index req7)) (Some 2) /\
  mirror_get (mk_mirr 7 0 0 0 0 0) m' s' = inl (mk_mirr 7 0 1 1 0 42).
Proof.
  apply (mirror_add_get req7 (mk_mirr 7 0 0 0 0 0) mirrors1 router5 2 (nh_get 0 1 router5).2);
    [exact (proj1 mirrors1_inv)|done|done|exact MtrieExamples.router5_ok|by split_and!; vm_compute|by vm_compute|done].
Defined.

Lemma mirror_refs_exact_witness :
  let '(m', s') := mirror_run (MAdd req7) mirrors1 router5 in
  mirror_inv m' /\ mirror_tight m' /\ refs_held (mirror_refs m' ++ []) s'.
Proof.
  apply (mirror_refs_exact (MAdd req7) mirrors1 router5 []);
    [exact (proj1 mirrors1_inv)|exact (proj2 mirrors1_inv)|exact LabelExamples.router5_held|].
  apply LabelExamples.room_ok. by vm_compute.
Defined.

(** A host: clones are exact, there is room for 64 more bytes, and the link header is put
    in front. *)
Definition pcow (p : mirror_pkt) (len : Z) : option mirror_pkt :=
  if len <=? vp_data p + 64 then Some (mk_mpkt (vp_flags p) (vp_if p) (vp_nh p) (vp_data p + len) (vp_bytes p)) else None.
Definition rewrite (vif : mirror_vif) (p : mirror_pkt) (fmd : mirror_fmd) (encap : list Z) : option mirror_pkt :=
  pkt_push encap p.
Definition nh_up (p : nhp) : mirror_nh := mk_mnh 1 NH_TUNNEL AF_INET 3 [] None.

Lemma host_ok : host_keeps Some pcow id rewrite.
Proof.
  split; [by intros p q [= <-]| |done|].
  - intros p len q. unfold pcow. case_match; [|done]. by intros [= <-].
  - intros vif p fmd encap q. unfold rewrite. intros Hp. by apply push_spec in Hp as [? _].
Qed.

Definition mirror_host := vr_mirror Some pcow id rewrite (fun _ => None) nh_up.
Definition pkt0 : mirror_pkt := mk_mpkt 0 (Some (mk_mvif 4 [9; 8])) None 128 [1; 2; 3].
Definition copy0 : mirror_pkt := mk_mpkt 137 (Some (mk_mvif 4 [9; 8])) None 222 [9; 8; 1; 2; 3].

Example mirror0 : mirror_host mirrors2 7 MIRROR_TYPE_PORT_RX None pkt0 = M_sent copy0 (nh_up 2) (mk_mfmd (-1) (-1) (-1) 3).
Proof. by vm_compute. Qed.

Lemma mirror_once_witness :
  (exists p e body, mirror_slot 7 mirrors2 = Some (Some p) /\ mir_heap mirrors2 !! p = Some e /\ nh_up <$> mir_nh e = Some (nh_up 2) /\
    Z.land (mn_flags (nh_up 2)) NH_FLAG_VALID <> 0 /\ captured id rewrite MIRROR_TYPE_PORT_RX pkt0 body /\
    if decide (Z.land (mir_flags e) VR_MIRROR_FLAG_DYNAMIC = 0) then -1 = mir_vni e /\ vp_bytes copy0 = body
    else vp_bytes copy0 = metadata_of (fun _ => None) MIRROR_TYPE_PORT_RX None pkt0 ++ body) /\
  -1 = -1 /\ -1 = -1 /\ forall m' id' mtype' fmd', mirror_host m' id' mtype' fmd' copy0 = M_none.
Proof.
  exact (mirror_once Some pcow id rewrite (fun _ => None) nh_up mirrors2 7 MIRROR_TYPE_PORT_RX None pkt0 copy0 (nh_up 2)
    (mk_mfmd (-1) (-1) (-1) 3) host_ok mirror0).
Defined.

Lemma mirror_meta_roundtrip_witness :
  let k := mk_metas mem0 [] false in
  match vr_mirror_meta_entry_set 5 6 [1; 2] 3 k with
  | (None, _) => False
  | (Some me, k1) =>
      let k2 := vr_mirror_meta_entry_del (Some me) k1 in
      mm_deferred k2 = [me] /\ m_live (mm_mem (run_meta_deferred k2)) = m_live (mm_mem k)
  end.
Proof.
  pose proof (mirror_meta_roundtrip 5 6 [1; 2] 3 (mk_metas mem0 [] false) (conj mem0_ok eq_refl)) as Hr.
  cbn zeta. split; [done|]. apply Hr.
Defined.

(** ** Requests that go wrong *)

(** The index that an interface or a flow carries is a byte; the table ends before the
    last of its values, and [vr_mirror] does not compare. *)
Theorem mirror_index_outside : mirror_host mirrors2 255 MIRROR_TYPE_PORT_RX None pkt0 = M_bad.
Proof. by vm_compute. Qed.

(** When there is no memory for the table, its size stays set: the next request reads
    through a null pointer. *)
Theorem mirror_init_failed_size :
  let m := (vr_mirror_init (mirrors0 [false])).2 in
  vr_mirrors m = None /\ mir_fault (mirror_add req7 m router5).1.2 = true.
Proof. by vm_compute. Qed.

End MirrorExamples.
