(* ===== verification/Vrouter.v ===== *)
(** * Life cycle and run-time parameters of the router (dp-core/vrouter.c)

    The router is a list of modules, each with a function that sets it up and one that tears
    it down.  Module [Vrouter] models how vrouter.c calls them, and the requests that read and
    set parameters; it is stated for any list of modules over any state.  [StartLaws] in
    [VrouterProofs.v] is what the modules promise, [VrouterTables.v] an instance. *)

From stdpp Require Import gmap strings.
From S2P Require Import Prelude Bits Queue Message.

Module Vrouter.

(** ** Modules *)

(** What a call of [vr_module_error] says. *)
Record report := mk_report { rep_error : Z; rep_func : string; rep_line : Z; rep_data : Z }.

(** The fields of [struct vr_module] that change. *)
Record module_error := mk_merr { error : Z; error_func : option string; error_line : Z; error_data : Z }.
Definition merr0 : module_error := mk_merr 0 None 0 0.

(** What is printed. *)
Inductive line :=
  | L_module_init (i ret : Z)
  | L_init_failed (name : string) (e : module_error)
  | L_reset_start
  | L_reset_done (ret : Z).

Section life.
Context {R : Type}.

(** A set-up also returns the reports that it made, in their order.  Nothing comes back from a
    function that follows a null pointer. *)
Record vr_module := mk_module {
  mod_name : string;
  init : R -> option (Z * list report * R);
  exit : bool -> R -> option R;
  shut : option (R -> option R)
}.

Record state := mk_state {
  router : R;
  module_errors : list module_error;
  module_under_init : option nat;
  vrouter_host : bool;
  vr_not_ready : bool;
  console : list line
}.

Definition set_router (r : R) (s : state) : state :=
  mk_state r (module_errors s) (module_under_init s) (vrouter_host s) (vr_not_ready s) (console s).
Definition set_errors l (s : state) : state :=
  mk_state (router s) l (module_under_init s) (vrouter_host s) (vr_not_ready s) (console s).
Definition set_under o (s : state) : state :=
  mk_state (router s) (module_errors s) o (vrouter_host s) (vr_not_ready s) (console s).
Definition set_host h (s : state) : state :=
  mk_state (router s) (module_errors s) (module_under_init s) h (vr_not_ready s) (console s).
Definition say l (s : state) : state :=
  mk_state (router s) (module_errors s) (module_under_init s) (vrouter_host s) (vr_not_ready s) (console s ++ [l]).

Definition set_ready b (r : R) (s : state) : state :=
  mk_state r (module_errors s) (module_under_init s) (vrouter_host s) b (console s).

(** The modules; does the host hand out its functions; its function that waits for deferred
    calls, if it has one; [vr_not_ready] as the modules read it; and the [memset] of the router. *)
Context (modules : list vr_module) (vrouter_get_host : bool) (hos_soft_reset : option (R -> option R))
  (set_not_ready : bool -> R -> R) (memset_router : R -> R).

Definition vr_module_error (rep : report) (s : state) : Z * state :=
  (rep_error rep,
   match module_under_init s with
   | None => s
   | Some i =>
       match module_errors s !! i with
       | Some m =>
           if error m =? 0
           then set_errors (<[i := mk_merr (rep_error rep) (Some (rep_func rep)) (rep_line rep) (rep_data rep)]> (module_errors s)) s
           else s
       | None => s
       end
   end).

Definition vr_module_debug_dump (s : state) : state :=
  match module_under_init s with
  | None => s
  | Some i =>
      match modules !! i, module_errors s !! i with
      | Some m, Some e => set_errors (<[i := mk_merr 0 None (-1) 0]> (module_errors s)) (say (L_init_failed (mod_name m) e) s)
      | _, _ => s
      end
  end.

Fixpoint shut_modules (l : list vr_module) (r : R) : option R :=
  match l with
  | [] => Some r
  | m :: l' => r1 ← match shut m with Some f => f r | None => Some r end; shut_modules l' r1
  end.

Fixpoint exit_modules (soft_reset : bool) (l : list vr_module) (r : R) : option R :=
  match l with
  | [] => Some r
  | m :: l' => r1 ← exit m soft_reset r; exit_modules soft_reset l' r1
  end.

(** [vr_soft_reset] is a field of [vrouter_host]. *)
Definition vrouter_exit (soft_reset : bool) (s : state) : option state :=
  r1 ← shut_modules modules (router s);
  let r2 := set_not_ready true r1 in
  r3 ← (if vrouter_host s then match hos_soft_reset with Some f => f r2 | None => Some r2 end else None);
  r4 ← exit_modules soft_reset (rev modules) r3;
  Some (set_ready true (if soft_reset then r4 else memset_router r4) s).

Definition run_init (m : vr_module) (s : state) : option (Z * state) :=
  '(ret, reps, r) ← init m (router s);
  Some (ret, foldl (fun s rep => (vr_module_error rep s).2) (set_router r s) reps).

Fixpoint init_modules (i : nat) (l : list vr_module) (s : state) : option (Z * state) :=
  match l with
  | [] => Some (0, s)
  | m :: l' =>
      '(ret, s1) ← run_init m (set_under (Some i) s);
      if ret =? 0 then init_modules (S i) l' s1 else Some (ret, say (L_module_init (Z.of_nat i) ret) s1)
  end.

Definition vrouter_init (s : state) : option (Z * state) :=
  let s0 := set_host vrouter_get_host s in
  '(ret, s1) ← (if vrouter_get_host then init_modules 0 modules s0 else Some (- ENOMEM, s0));
  if ret =? 0 then Some (0, set_ready false (set_not_ready false (router s1)) (set_under None s1))
  else s2 ← vrouter_exit false s1; Some (ret, set_under None (vr_module_debug_dump s2)).

Definition vrouter_soft_reset (s : state) : option (Z * state) :=
  s1 ← vrouter_exit true s; vrouter_init s1.

(** A request to reset the router, and the code it is answered with. *)
Definition vrouter_ops_reset (s : state) : option (Z * state) :=
  '(ret, s1) ← vrouter_soft_reset (say L_reset_start s);
  Some (ret, say (L_reset_done ret) s1).
End life.
Arguments vr_module : clear implicits.
Arguments state : clear implicits.

(** ** Parameters that can be set at run time *)

(** The variables of the source, and the fields of a request or response with their names. *)
Record tunables := mk_tun {
  vr_perfr : Z; vr_perfs : Z; vr_from_vm_mss_adj : Z; vr_to_vm_mss_adj : Z; vr_perfr1 : Z; vr_perfr2 : Z;
  vr_perfr3 : Z; vr_perfp : Z; vr_perfq1 : Z; vr_perfq2 : Z; vr_perfq3 : Z; vr_udp_coff : Z;
  vr_flow_hold_limit : Z; vr_mudp : Z
}.

(** What the host does with logs.  It may allocate the list of types that it returns. *)
Class LogHost (L : Type) := {
  hos_set_log_level : Z -> L -> L;
  hos_set_log_type : Z -> bool -> L -> L;
  hos_get_log_level : L -> Z;
  hos_get_enabled_log_types : L -> mem -> list Z * mem
}.

(** Linux keeps nothing. *)
#[export] Instance lh_log : LogHost unit := {
  hos_set_log_level _ l := l;
  hos_set_log_type _ _ l := l;
  hos_get_log_level _ := 0;
  hos_get_enabled_log_types _ m := ([], m)
}.

(** Sizes that are fixed when the router starts, and numbers of used entries. *)
Record sizes := mk_sizes {
  vo_interfaces : Z; vo_vrfs : Z; vo_mpls_labels : Z; vo_nexthops : Z; vo_bridge_entries : Z; vo_oflow_bridge_entries : Z;
  vo_flow_entries : Z; vo_oflow_entries : Z; vo_mirror_entries : Z;
  vo_flow_used_entries : Z; vo_flow_used_oentries : Z; vo_bridge_used_entries : Z; vo_bridge_used_oentries : Z
}.

Record vrouter_ops := mk_ops {
  h_op : sandesh_op;
  vo_sizes : sizes;
  vo_tun : tunables;
  vo_build_info : list Z;
  vo_log_level : Z;
  vo_log_type_enable : list Z;
  vo_log_type_disable : list Z
}.

Section ops.
Context {L : Type} `{LogHost L}.
(** [ContrailBuildInfo], and the size of a request. *)
Context (ContrailBuildInfo : list Z) (req_size : Z).

Record world := mk_world { w_sizes : sizes; w_tun : tunables; w_log : L; w_mem : mem }.

(** The blocks of a response: the structure and the string. *)
Definition vrouter_ops_destroy (req info : Z) (m : mem) : mem := m_free req (m_free info m).

Definition vrouter_ops_get (m : mem) : option (Z * Z) * mem :=
  match m_alloc req_size m with
  | (None, m1) => (None, m1)
  | (Some req, m1) =>
      match m_alloc (zlen ContrailBuildInfo) m1 with
      | (None, m2) => (None, m_free req m2)
      | (Some info, m2) => (Some (req, info), m2)
      end
  end.

(** The code and the response that are sent.  The fields have 32 bits, with a sign. *)
Definition vrouter_ops_get_process (op : sandesh_op) (w : world) : Z * option vrouter_ops * world :=
  match op with
  | SANDESH_OP_GET =>
      match vrouter_ops_get (w_mem w) with
      | (None, m1) => (- ENOMEM, None, mk_world (w_sizes w) (w_tun w) (w_log w) m1)
      | (Some (req, info), m1) =>
          let '(types, m2) := hos_get_enabled_log_types (w_log w) m1 in
          let t := w_tun w in
          (0, Some (mk_ops SANDESH_OP_ADD (w_sizes w)
                     (mk_tun (vr_perfr t) (vr_perfs t) (vr_from_vm_mss_adj t) (vr_to_vm_mss_adj t) (vr_perfr1 t) (vr_perfr2 t) (vr_perfr3 t)
                             (vr_perfp t) (vr_perfq1 t) (vr_perfq2 t) (vr_perfq3 t) (vr_udp_coff t) (s32 (vr_flow_hold_limit t)) (vr_mudp t))
                     ContrailBuildInfo (hos_get_log_level (w_log w)) types []),
           mk_world (w_sizes w) (w_tun w) (w_log w) (vrouter_ops_destroy req info m2))
      end
  | _ => (- EOPNOTSUPP, None, w)
  end.

(** -1 stands for no value. *)
Definition given (v old : Z) : Z := if v =? -1 then old else v.

Definition vrouter_ops_add_process (req : vrouter_ops) (w : world) : Z * world :=
  let l1 := if vo_log_level req =? 0 then w_log w else hos_set_log_level (vo_log_level req) (w_log w) in
  let l2 := foldl (fun l ty => hos_set_log_type ty true l) l1 (vo_log_type_enable req) in
  let l3 := foldl (fun l ty => hos_set_log_type ty false l) l2 (vo_log_type_disable req) in
  let r := vo_tun req in
  let t := w_tun w in
  (0, mk_world (w_sizes w)
        (mk_tun (given (vr_perfr r) (vr_perfr t)) (given (vr_perfs r) (vr_perfs t))
                (given (vr_from_vm_mss_adj r) (vr_from_vm_mss_adj t)) (given (vr_to_vm_mss_adj r) (vr_to_vm_mss_adj t))
                (given (vr_perfr1 r) (vr_perfr1 t)) (given (vr_perfr2 r) (vr_perfr2 t)) (given (vr_perfr3 r) (vr_perfr3 t))
                (given (vr_perfp r) (vr_perfp t)) (given (vr_perfq1 r) (vr_perfq1 t)) (given (vr_perfq2 r) (vr_perfq2 t))
                (given (vr_perfq3 r) (vr_perfq3 t)) (given (vr_udp_coff r) (vr_udp_coff t))
                (if vr_flow_hold_limit r =? -1 then vr_flow_hold_limit t else u32 (vr_flow_hold_limit r))
                (given (vr_mudp r) (vr_mudp t)))
        l3 (w_mem w)).
End ops.
Arguments world : clear implicits.
End Vrouter.
