(* ===== verification/VrouterProofs.v ===== *)
(** * The life cycle of the router, for modules that keep their promises

    [StartLaws] states what the set-up and tear-down of each module promise to the next, and
    [ResetLaws] the same of a reset; a start of the router then either leaves every module set up, or every module torn down and
    the first error of the one that failed on the console.  The parameters that a request sets
    are those that the next request reads. *)

From stdpp Require Import gmap strings.
From S2P Require Import Prelude Bits Queue Message Vrouter.

Module VrouterProofs.
Import Vrouter.

Section life.
Context {R : Type} (modules : list (vr_module R)) (hos_soft_reset : option (R -> option R))
  (set_not_ready : bool -> R -> R) (memset_router : R -> R).

Abbreviation barrier r := (match hos_soft_reset with Some f => f (set_not_ready true r) | None => Some (set_not_ready true r) end).

(** [up k]: the first [k] modules are set up.  [ok]: some are, and a tear-down may begin.
    [gone k]: the modules from [k] on are torn down. *)
Class StartLaws := {
  up : nat -> R -> Prop;
  ok : R -> Prop;
  gone : nat -> R -> Prop;
  up_ok : forall k r, up k r -> ok r;
  up_ready : forall r, up (length modules) r -> up (length modules) (set_not_ready false r);
  init_law : forall k m r, modules !! k = Some m -> up k r ->
    exists ret reps r', init m r = Some (ret, reps, r') /\ if ret =? 0 then up (S k) r' else ok r';
  shut_law : forall k m f r, modules !! k = Some m -> shut m = Some f -> ok r -> exists r', f r = Some r' /\ ok r';
  begin_law : forall r, ok r -> exists r', barrier r = Some r' /\ gone (length modules) r';
  exit_law : forall k m r, modules !! k = Some m -> gone (S k) r -> exists r', exit m false r = Some r' /\ gone k r'
}.

(** A reset that keeps the tables.  [cleared k]: the modules from [k] on are empty. *)
Class ResetLaws := {
  ready : R -> Prop;
  cleared : nat -> R -> Prop;
  soft_shut_law : forall k m f r, modules !! k = Some m -> shut m = Some f -> ready r -> exists r', f r = Some r' /\ ready r';
  soft_begin_law : forall r, ready r -> exists r', barrier r = Some r' /\ cleared (length modules) r';
  soft_exit_law : forall k m r, modules !! k = Some m -> cleared (S k) r -> exists r', exit m true r = Some r' /\ cleared k r'
}.

(** ** Tearing down *)

Lemma shut_all (P : R -> Prop) l r :
  (forall m f r, m ∈ l -> shut m = Some f -> P r -> exists r', f r = Some r' /\ P r') ->
  P r -> exists r', shut_modules l r = Some r' /\ P r'.
Proof.
  revert r. induction l as [|m l IH]; intros r Hl Hr; cbn [shut_modules]; [by exists r|].
  assert (Hm : exists r1, match shut m with Some f => f r | None => Some r end = Some r1 /\ P r1).
  { destruct (shut m) as [f|] eqn:Es; [|by exists r]. apply (Hl m); [set_solver|done|done]. }
  destruct Hm as (r1 & -> & H1). cbn [mbind option_bind]. apply IH; [|done]. intros m' f r' Hin. apply Hl. set_solver.
Qed.

Lemma shut_all_up (P : R -> Prop) r :
  (forall k m f r, modules !! k = Some m -> shut m = Some f -> P r -> exists r', f r = Some r' /\ P r') ->
  P r -> exists r', shut_modules modules r = Some r' /\ P r'.
Proof.
  intros Hl. apply shut_all. intros m f r' [k Hk]%list_elem_of_lookup_1. by apply (Hl k).
Qed.

Lemma exit_all (P : nat -> R -> Prop) soft l r :
  (forall k m r, l !! k = Some m -> P (S k) r -> exists r', exit m soft r = Some r' /\ P k r') ->
  P (length l) r -> exists r', exit_modules soft (rev l) r = Some r' /\ P 0%nat r'.
Proof.
  revert r. induction l as [|m l IH] using rev_ind; intros r Hl Hr; [by exists r|].
  rewrite rev_app_distr. cbn [rev app exit_modules]. rewrite length_app in Hr. cbn in Hr. rewrite Nat.add_1_r in Hr.
  destruct (Hl (length l) m r) as (r1 & -> & H1); [by apply list_lookup_middle|done|].
  cbn [mbind option_bind]. apply IH; [|done]. intros k m' r' Hk. apply Hl. by apply lookup_app_l_Some.
Qed.

Lemma exit_full `{!StartLaws} (s : state R) : vrouter_host s = true -> ok (router s) ->
  exists r, vrouter_exit modules hos_soft_reset set_not_ready memset_router false s = Some (set_ready true (memset_router r) s) /\ gone 0 r.
Proof.
  intros Hh Hr. unfold vrouter_exit. destruct (shut_all_up ok _ shut_law Hr) as (r1 & -> & H1). cbn [mbind option_bind].
  rewrite Hh. destruct (begin_law r1 H1) as (r2 & -> & H2). cbn [mbind option_bind].
  destruct (exit_all gone false modules r2 exit_law H2) as (r3 & -> & H3). cbn [mbind option_bind]. by exists r3.
Qed.

Lemma exit_soft `{!ResetLaws} (s : state R) : vrouter_host s = true -> ready (router s) ->
  exists r, vrouter_exit modules hos_soft_reset set_not_ready memset_router true s = Some (set_ready true r s) /\ cleared 0 r.
Proof.
  intros Hh Hr. unfold vrouter_exit. destruct (shut_all_up ready _ soft_shut_law Hr) as (r1 & -> & H1). cbn [mbind option_bind].
  rewrite Hh. destruct (soft_begin_law r1 H1) as (r2 & -> & H2). cbn [mbind option_bind].
  destruct (exit_all cleared true modules r2 soft_exit_law H2) as (r3 & -> & H3). cbn [mbind option_bind]. by exists r3.
Qed.

(** ** Setting up *)

Context `{!StartLaws}.

(** The first report of a set-up is kept, unless an older one is. *)
Definition first_report (e : module_error) (reps : list report) : module_error :=
  foldl (fun e rep => if error e =? 0 then mk_merr (rep_error rep) (Some (rep_func rep)) (rep_line rep) (rep_data rep) else e) e reps.

Lemma reports_spec (reps : list report) (i : nat) e (s : state R) :
  module_under_init s = Some i -> module_errors s !! i = Some e ->
  foldl (fun s rep => (vr_module_error rep s).2) s reps = set_errors (<[i := first_report e reps]> (module_errors s)) s.
Proof.
  revert e s. induction reps as [|rep reps IH]; intros e s Hu He; cbn [foldl first_report].
  { rewrite list_insert_id by done. by destruct s. }
  unfold vr_module_error at 2. cbn [snd]. rewrite Hu, He.
  pose proof (lookup_lt_Some _ _ _ He). unfold first_report. cbn [foldl]. destruct (error e =? 0).
  - rewrite (IH (mk_merr (rep_error rep) (Some (rep_func rep)) (rep_line rep) (rep_data rep))); [|done|by apply list_lookup_insert_eq].
    unfold set_errors. cbn. by rewrite list_insert_insert_eq.
  - by apply IH.
Qed.

(** What a failed start prints: the module, and its first error. *)
Definition complaint (i : nat) (name : string) (ret : Z) (e : module_error) : list line :=
  [L_module_init (Z.of_nat i) ret; L_init_failed name e].

Lemma run_init_spec k m (s : state R) e : modules !! k = Some m -> up k (router s) -> module_under_init s = Some k -> module_errors s !! k = Some e ->
  exists ret reps r', init m (router s) = Some (ret, reps, r') /\
    run_init m s = Some (ret, set_errors (<[k := first_report e reps]> (module_errors s)) (set_router r' s)) /\
    (if ret =? 0 then up (S k) r' else ok r').
Proof.
  intros Hm Hr Hu He. unfold run_init. destruct (init_law k m (router s) Hm Hr) as (ret & reps & r' & Hi & Hup).
  exists ret, reps, r'. split; [done|]. rewrite Hi. cbn [mbind option_bind]. split; [|done]. f_equal. f_equal.
  by apply (reports_spec reps k e (set_router r' s)).
Qed.

(** The errors of the modules before [k], which are set up, may have changed. *)
Lemma init_all (s0 : state R) l : forall (s : state R) k,
  l = drop k modules -> (k <= length modules)%nat ->
  vrouter_host s = true -> console s = console s0 -> up k (router s) -> length (module_errors s) = length modules ->
  (forall j, (k <= j)%nat -> module_errors s !! j = module_errors s0 !! j) ->
  exists ret s', init_modules k l s = Some (ret, s') /\ vrouter_host s' = true /\ length (module_errors s') = length modules /\
    (if ret =? 0 then up (length modules) (router s') /\ console s' = console s0
     else ok (router s') /\ exists i m e r reps r', modules !! i = Some m /\ up i r /\ init m r = Some (ret, reps, r') /\
            module_errors s0 !! i = Some e /\ module_errors s' !! i = Some (first_report e reps) /\ module_under_init s' = Some i /\
            console s' = console s0 ++ [L_module_init (Z.of_nat i) ret]).
Proof.
  induction l as [|m l IH]; intros s k El Hk Hh Hc Hr Hl He; cbn [init_modules].
  { exists 0, s. apply (f_equal length) in El. rewrite length_drop in El. cbn in El.
    replace k with (length modules) in Hr by lia. done. }
  assert (Hm : modules !! k = Some m) by (rewrite <- (Nat.add_0_r k), <- lookup_drop; by rewrite <- El).
  pose proof (lookup_lt_Some _ _ _ Hm) as Hlt.
  destruct (lookup_lt_is_Some_2 (module_errors s) k) as [e Hek]; [lia|].
  destruct (run_init_spec k m (set_under (Some k) s) e Hm Hr eq_refl Hek) as (ret & reps & r' & Hi & -> & Hup). cbn [mbind option_bind].
  destruct (ret =? 0) eqn:Hz.
  - apply IH; cbn; try done.
    + rewrite (drop_S modules m k) in El by done. by simplify_eq.
    + by rewrite length_insert.
    + intros j Hj. rewrite list_lookup_insert_ne by lia. apply He. lia.
  - eexists ret, _. split; [done|]. rewrite Hz. cbn. rewrite length_insert, Hc. split_and!; try done.
    exists k, m, e, (router s), reps, r'. split_and!; try done; [by rewrite <- He|]. apply list_lookup_insert_eq. lia.
Qed.

Abbreviation start := (vrouter_init modules true hos_soft_reset set_not_ready memset_router).

Lemma start_spec (s : state R) :
  up 0 (router s) -> length (module_errors s) = length modules ->
  exists ret s', start s = Some (ret, s') /\ module_under_init s' = None /\ length (module_errors s') = length modules /\
    vr_not_ready s' = negb (ret =? 0) /\
    if ret =? 0 then console s' = console s /\ up (length modules) (router s') /\ exists r, router s' = set_not_ready false r
    else exists i m e r reps r' r'', modules !! i = Some m /\ up i r /\ init m r = Some (ret, reps, r') /\ module_errors s !! i = Some e /\
           console s' = console s ++ complaint i (mod_name m) ret (first_report e reps) /\
           gone 0 r'' /\ router s' = memset_router r''.
Proof.
  intros Hr Hl. unfold vrouter_init.
  destruct (init_all s modules (set_host true s) 0) as (ret & s1 & -> & Hh & Hl1 & Hx); [done|lia|done|done|done|done|done|].
  cbn [mbind option_bind]. destruct (ret =? 0) eqn:Hz.
  - apply Z.eqb_eq in Hz as ->. destruct Hx as [Hup Hc]. eexists 0, _. split; [done|]. cbn. split_and!; try done; [by apply up_ready|by eexists].
  - destruct Hx as (Hok & i & m & e & r & reps & r' & Hm & Hi & Hin & He & He1 & Hu & Hc).
    destruct (exit_full s1 Hh Hok) as (r2 & -> & Hg). cbn [mbind option_bind]. eexists ret, _. split; [done|]. rewrite Hz.
    unfold vr_module_debug_dump. cbn. rewrite Hu, Hm, He1. cbn. rewrite length_insert. split_and!; try done.
    exists i, m, e, r, reps, r', r2. split_and!; try done. rewrite Hc. by rewrite <- (assoc_L (++)).
Qed.

End life.

(** ** Parameters *)

Section ops.
Context {L : Type} `{LogHost L} (info : list Z) (req_size : Z).

(** What a response shows. *)
Definition shown (w : world L) : tunables :=
  let t := w_tun w in
  mk_tun (vr_perfr t) (vr_perfs t) (vr_from_vm_mss_adj t) (vr_to_vm_mss_adj t) (vr_perfr1 t) (vr_perfr2 t) (vr_perfr3 t)
    (vr_perfp t) (vr_perfq1 t) (vr_perfq2 t) (vr_perfq3 t) (vr_udp_coff t) (s32 (vr_flow_hold_limit t)) (vr_mudp t).

Definition override (r t : tunables) : tunables :=
  mk_tun (given (vr_perfr r) (vr_perfr t)) (given (vr_perfs r) (vr_perfs t)) (given (vr_from_vm_mss_adj r) (vr_from_vm_mss_adj t))
    (given (vr_to_vm_mss_adj r) (vr_to_vm_mss_adj t)) (given (vr_perfr1 r) (vr_perfr1 t)) (given (vr_perfr2 r) (vr_perfr2 t))
    (given (vr_perfr3 r) (vr_perfr3 t)) (given (vr_perfp r) (vr_perfp t)) (given (vr_perfq1 r) (vr_perfq1 t))
    (given (vr_perfq2 r) (vr_perfq2 t)) (given (vr_perfq3 r) (vr_perfq3 t)) (given (vr_udp_coff r) (vr_udp_coff t))
    (given (vr_flow_hold_limit r) (vr_flow_hold_limit t)) (given (vr_mudp r) (vr_mudp t)).

Lemma get_alloc m : mem_ok m ->
  let '(o, m1) := vrouter_ops_get info req_size m in
  mem_ok m1 /\ match o with
  | None => m_live m1 = m_live m /\ m_oracle m <> []
  | Some (req, blk) => m_live (vrouter_ops_destroy req blk m1) = m_live m
  end.
Proof.
  intros Hm. unfold vrouter_ops_get. destruct (m_alloc req_size m) as [[req|] m1] eqn:E1;
    destruct (m_alloc_spec _ _ _ _ Hm E1) as [Hm1 S1].
  2: { split; [done|]. split; [by apply S1|]. intros Ho. unfold m_alloc in E1. by rewrite Ho in E1. }
  destruct S1 as (-> & Hn1 & Hf1 & Hl1). destruct (m_alloc (zlen info) m1) as [[blk|] m2] eqn:E2;
    destruct (m_alloc_spec _ _ _ _ Hm1 E2) as [Hm2 S2].
  - destruct S2 as (-> & _ & Hf2 & Hl2). split; [done|]. unfold vrouter_ops_destroy, m_free. cbn. rewrite Hl2, delete_insert_id by done.
    by rewrite Hl1, delete_insert_id.
  - destruct S2 as [Hl2 _]. split; [by apply mem_ok_free|]. split.
    + cbn. rewrite Hl2, Hl1. by rewrite delete_insert_id.
    + intros Ho. unfold m_alloc in E1, E2. rewrite Ho in E1. simplify_eq.
Qed.

(** What a request sets, the next request to read shows, and what it leaves out (-1) stays as
    it was shown before; the request to read gives back the memory it took, and only a shortage of
    memory keeps it from answering. *)
Theorem ops_set_get req w :
  mem_ok (w_mem w) -> - 2 ^ 31 <= vr_flow_hold_limit (vo_tun req) < 2 ^ 31 ->
  (forall l m, (hos_get_enabled_log_types l m).2 = m) ->
  let '(ret, w1) := vrouter_ops_add_process req w in
  let '(code, resp, w2) := vrouter_ops_get_process info req_size SANDESH_OP_GET w1 in
  ret = 0 /\ m_live (w_mem w2) = m_live (w_mem w) /\ w_tun w2 = w_tun w1 /\
  ((code = - ENOMEM /\ resp = None /\ m_oracle (w_mem w) <> []) \/
   exists x, code = 0 /\ resp = Some x /\ vo_tun x = override (vo_tun req) (shown w) /\ vo_sizes x = w_sizes w).
Proof.
  intros Hm Hq Hlog. unfold vrouter_ops_add_process, vrouter_ops_get_process. cbn [w_mem w_log w_tun w_sizes].
  pose proof (get_alloc (w_mem w) Hm) as Ha. destruct (vrouter_ops_get info req_size (w_mem w)) as [[[r b]|] m1].
  - destruct Ha as [_ Ha]. match goal with |- context [hos_get_enabled_log_types ?l m1] => pose proof (Hlog l m1) as E; destruct (hos_get_enabled_log_types l m1) as [types m2] end.
    cbn in E. subst m2. split; [done|]. split; [done|]. split; [done|]. right. eexists. split; [done|]. split; [done|]. split; [|done].
    cbn. unfold override, shown. cbn. f_equal. unfold given. destruct (_ =? -1); [done|]. by apply s32_u32.
  - destruct Ha as [_ [Ha Ho]]. split; [done|]. split; [done|]. split; [done|]. by left.
Qed.
End ops.

End VrouterProofs.
