(* ===== verification/VrouterTables.v ===== *)
(** * A router of five modules (dp-core/vrouter.c, with the tables of the others)

    The modules that keep nexthops, and the maps of code points, started, reset and torn down
    together as vrouter.c does it: each one with the functions that its own file models.  The
    references that they hold on nexthops are all dropped, whichever set-up fails. *)

From stdpp Require Import gmap strings.
From S2P Require Import Prelude Bits NhIface Nexthop Pool Queue Message IndexTable Mpls Vxlan Qos QosProofs.
From S2P Require Import Mirror MirrorProofs Vrouter VrouterProofs.

Module VrouterTables.
Import Vrouter VrouterProofs.

Record tables := mk_tables {
  t_nh : Nexthop.router;
  t_mpls : Mpls.mpls;
  t_mirror : Mirror.mirrors;
  t_vxlan : Vxlan.vxlan;
  t_qos : Qos.qos
}.

Definition set_nh x (r : tables) : tables := mk_tables x (t_mpls r) (t_mirror r) (t_vxlan r) (t_qos r).
Definition set_qos x (r : tables) : tables := mk_tables (t_nh r) (t_mpls r) (t_mirror r) (t_vxlan r) x.
Definition set_mpls (x : Mpls.mpls * Nexthop.router) (r : tables) : tables :=
  mk_tables x.2 x.1 (t_mirror r) (t_vxlan r) (t_qos r).
Definition set_mirror (x : Mirror.mirrors * Nexthop.router) (r : tables) : tables :=
  mk_tables x.2 (t_mpls r) x.1 (t_vxlan r) (t_qos r).
Definition set_vxlan (x : Vxlan.vxlan * Nexthop.router) (r : tables) : tables :=
  mk_tables x.2 (t_mpls r) (t_mirror r) x.1 (t_qos r).

(** ** The modules *)

Section modules.
(** The sizes of the tables of nexthops and labels, whether there is memory for that of labels,
    and the size of a page. *)
Context (vr_nexthops vr_mpls_labels : Z) (ilm_mem : bool) (page_shift : Z).

Definition vr_nexthop_init (r : tables) : option (Z * list report * tables) :=
  let '(ret, s) := Nexthop.nh_table_init vr_nexthops (t_nh r) in
  Some (ret,
        if ret =? 0 then []
        else match Nexthop.vr_nexthops s with
             | None => [mk_report ret "nh_table_init" 3177 (u32 (Nexthop.vr_max_nexthops s * 8))]
             | Some _ => [mk_report ret "nh_table_init" 3183 0]
             end,
        set_nh s r).

Definition vr_nexthop_exit (soft_reset : bool) (r : tables) : option tables :=
  Some (set_nh (Nexthop.nh_table_exit soft_reset (t_nh r)) r).

Definition mpls_init (r : tables) : option (Z * list report * tables) :=
  let '(ret, m) := Mpls.vr_mpls_init vr_mpls_labels ilm_mem (t_mpls r) in
  Some (ret, if ret =? 0 then [] else [mk_report ret "vr_mpls_init" 448 (s32 (8 * Mpls.vr_max_labels m))], set_mpls (m, t_nh r) r).

Definition mirror_init (r : tables) : option (Z * list report * tables) :=
  let '(ret, m) := Mirror.vr_mirror_init (t_mirror r) in
  Some (ret, if ret =? 0 then [] else [mk_report ret "vr_mirror_init" 536 (u32 (8 * Mirror.vr_max_mirror_indices m))], set_mirror (m, t_nh r) r).

Definition vxlan_init (r : tables) : option (Z * list report * tables) :=
  let '(ret, x) := Vxlan.vr_vxlan_init page_shift (t_vxlan r) in
  Some (ret, if ret =? 0 then [] else [mk_report ret "vr_vxlan_init" 272 0], set_vxlan (x, t_nh r) r).

(** The array of maps is there when the one of classes fails. *)
Definition qos_init (r : tables) : option (Z * list report * tables) :=
  let '(ret, q) := Qos.vr_qos_init (t_qos r) in
  Some (ret,
        if ret =? 0 then []
        else match Qos.vr_qos_map q with
             | None => [mk_report ret "vr_qos_init" 833 (Qos.vr_qos_map_entries * 8)]
             | Some _ => [mk_report ret "vr_qos_init" 841 (Qos.vr_fc_map_entries * 4)]
             end,
        set_qos q r).

Definition table_modules : list (vr_module tables) :=
  [mk_module "Nexthop" vr_nexthop_init vr_nexthop_exit None;
   mk_module "Mpls" mpls_init (fun soft r => Some (set_mpls (Mpls.vr_mpls_exit soft (t_mpls r) (t_nh r)) r)) None;
   mk_module "Mirror" mirror_init (fun soft r => Some (set_mirror (Mirror.vr_mirror_exit soft (t_mirror r) (t_nh r)) r)) None;
   mk_module "Vxlan" vxlan_init (fun _ r => Some (set_vxlan (Vxlan.vr_vxlan_exit (t_vxlan r) (t_nh r)) r)) None;
   mk_module "QOS" qos_init (fun soft r => Some (set_qos (Qos.vr_qos_exit soft (t_qos r)) r)) None].
End modules.

(** [vr_not_ready] is one variable; the files that read it have it in their state. *)
Definition nh_ready (b : bool) (s : Nexthop.router) : Nexthop.router :=
  Nexthop.mk_router (Nexthop.nh_heap s) (Nexthop.nh_freed s) (Nexthop.vr_nexthops s) (Nexthop.vr_max_nexthops s)
    (Nexthop.ip4_default_nh s) b (Nexthop.nh_deferred s) (Nexthop.nh_next s) (Nexthop.nh_oracle s) (Nexthop.nh_vifs s) (Nexthop.nh_fault s).
Definition mirror_ready (b : bool) (m : Mirror.mirrors) : Mirror.mirrors :=
  Mirror.mk_mirrors (Mirror.vr_max_mirror_indices m) (Mirror.vr_mirrors m) (Mirror.mir_heap m) (Mirror.mir_next m)
    (Mirror.mir_deferred m) (Mirror.mir_oracle m) b (Mirror.mir_fault m).
Definition set_not_ready (b : bool) (r : tables) : tables :=
  mk_tables (nh_ready b (t_nh r)) (t_mpls r) (mirror_ready b (t_mirror r)) (t_vxlan r) (t_qos r).

(** The deferred calls all run. *)
Definition lh_soft_reset (r : tables) : option tables :=
  Some (mk_tables (Nat.iter (length (Nexthop.nh_deferred (t_nh r))) Nexthop.run_deferred (t_nh r)) (t_mpls r)
          (Nat.iter (length (Mirror.mir_deferred (t_mirror r))) Mirror.run_deferred (t_mirror r)) (t_vxlan r)
          (Nat.iter (length (Qos.qos_deferred (t_qos r))) Qos.run_deferred (t_qos r))).

(** What [memset] sets to zero; the default nexthop is a variable of its own. *)
Definition memset_router (r : tables) : tables :=
  mk_tables (Nexthop.set_table None 0 (t_nh r))
    (Mpls.mk_mpls 0 None (Mpls.hos_mpls (t_mpls r)) (Mpls.hw_log (t_mpls r)))
    (Mirror.set_slots 0 None (t_mirror r)) (Vxlan.mk_vxlan None (Vxlan.vx_mem (t_vxlan r)))
    (Qos.set_maps None (Qos.set_fcs None (t_qos r))).
End VrouterTables.
