(* ===== verification/VrouterRun.v ===== *)
(** * The router of five modules: what a start, a reset and a tear-down leave

    The modules keep the promises of [StartLaws] and [ResetLaws]; with the theorems of
    [VrouterProofs.v] that gives what the router as a whole does. *)

From stdpp Require Import gmap strings.
From S2P Require Import Prelude Bits NhIface Nexthop Pool Queue Message IndexTable Mpls Vxlan Qos QosProofs.
From S2P Require Import Mirror MirrorProofs Vrouter VrouterProofs VrouterTables.

Module VrouterRun.
Import Vrouter VrouterProofs VrouterTables.
Import Nexthop(inv, refs, evolves).
Import MirrorProofs QosProofs.

(** ** Nexthops, with what dropping references leaves alone *)

Definition nh_frame (t : option (list (option nhp))) (mx : Z) (d : option nhp) (s : Nexthop.router) : Prop :=
  Nexthop.vr_nexthops s = t /\ Nexthop.vr_max_nexthops s = mx /\ Nexthop.ip4_default_nh s = d.

Lemma frame_evolves t mx d s s' : evolves s s' -> nh_frame t mx d s -> nh_frame t mx d s'.
Proof. intros [Ht Hm Hd _ _] (<- & <- & <-). done. Qed.

Section frame.
Context (t : option (list (option nhp))) (mx : Z) (d : option nhp).

#[local] Program Instance frame_refs : NhRefs Nexthop.router := {
  refs_held l s := inv l s /\ nh_frame t mx d s;
  refs_room l s := zlen (refs l s) < UINT_MAX
}.
Next Obligation. cbn. intros l l' s Hp [Hi Hf]. split; [exact (@refs_perm _ _ Nexthop.router_refs l l' s Hp Hi)|done]. Qed.
Next Obligation.
  cbn. intros l rid i s s' p [Hi Hf] Hr Hg. split; [exact (@refs_get _ _ Nexthop.router_refs l rid i s s' p Hi Hr Hg)|].
  apply (frame_evolves _ _ _ s); [|done]. change s' with (Some p, s').2. rewrite <- Hg. apply Nexthop.get_evolves.
Qed.
Next Obligation.
  cbn. intros l rid i s s' [Hi Hf] Hg. split; [exact (@refs_get_none _ _ Nexthop.router_refs l rid i s s' Hi Hg)|].
  apply (frame_evolves _ _ _ s); [|done]. change s' with (@None nhp, s').2. rewrite <- Hg. apply Nexthop.get_evolves.
Qed.
Next Obligation.
  intros l s p [Hi Hf]. split; [exact (@refs_put _ _ Nexthop.router_refs l s p Hi)|].
  apply (frame_evolves _ _ _ s); [apply Nexthop.put_evolves|done].
Qed.

(** ** Labels *)

Definition mpls_fit (m : Mpls.mpls) : Prop :=
  match Mpls.vr_ilm m with Some ilm => zlen ilm = Mpls.vr_max_labels m /\ 0 < Mpls.vr_max_labels m | None => True end.

Lemma mpls_exit_fit soft m (s : Nexthop.router) ext :
  mpls_fit m -> refs_held (Mpls.label_refs m ++ ext) s ->
  let ms := Mpls.vr_mpls_exit soft m s in
  mpls_fit ms.1 /\ Mpls.label_refs ms.1 = [] /\ refs_held ext ms.2 /\ (soft = false -> Mpls.vr_ilm ms.1 = None).
Proof.
  intros Hf Hh ms. unfold mpls_fit in Hf. destruct (Mpls.vr_ilm m) as [ilm|] eqn:Ei.
  - assert (Hok : Mpls.mpls_ok m) by (unfold Mpls.mpls_ok; rewrite Ei; by apply Hf).
    destruct (Mpls.mpls_exit_refs soft m s ext Hok Hh) as (H1 & H2 & H3). fold ms in H1, H2, H3.
    assert (Hs : soft = false -> Mpls.vr_ilm ms.1 = None).
    { intros ->. unfold ms, Mpls.vr_mpls_exit. rewrite Ei. rewrite (proj2 (Z.eqb_neq _ _)) by lia. cbn [orb].
      by destruct (foldl Mpls.mpls_exit_step (m, s) _) as [m1 s1]. }
    assert (Hmx : soft = true -> Mpls.vr_max_labels ms.1 = Mpls.vr_max_labels m).
    { intros ->. unfold ms, Mpls.vr_mpls_exit. destruct (_ || _); [done|].
      pose proof (Mpls.exit_fold (seqZ 0 (Mpls.vr_max_labels m)) m s Hok ltac:(apply NoDup_seqZ) ltac:(intros i Hi%elem_of_seqZ; lia)) as Hx.
      destruct (foldl Mpls.mpls_exit_step (m, s) _) as [m1 s1]. by destruct Hx as (_ & ? & _). }
    split; [|done]. unfold mpls_fit, Mpls.mpls_ok in *. destruct (Mpls.vr_ilm ms.1); [|done].
    destruct soft; [|by specialize (Hs eq_refl)]. split; [done|]. rewrite Hmx by done. lia.
  - unfold ms, Mpls.vr_mpls_exit. rewrite Ei, orb_true_r. unfold mpls_fit, Mpls.label_refs in *. cbn. by rewrite Ei in *.
Qed.

(** ** Mirrors *)

Definition mirror_fit (m : Mirror.mirrors) : Prop :=
  let m' := match Mirror.vr_mirrors m with Some _ => m | None => Mirror.set_slots 0 None m end in
  mirror_inv m' /\ mirror_tight m'.

Lemma mirror_exit_fit soft m (s : Nexthop.router) ext :
  mirror_fit m -> refs_held (mirror_refs m ++ ext) s ->
  let ms := Mirror.vr_mirror_exit soft m s in
  mirror_fit ms.1 /\ mirror_refs ms.1 = [] /\ refs_held ext ms.2 /\ (soft = false -> Mirror.vr_mirrors ms.1 = None).
Proof.
  intros Hf Hh ms. unfold mirror_fit in Hf. destruct (Mirror.vr_mirrors m) as [t0|] eqn:Et.
  - destruct Hf as [Hi Hti]. destruct (mirror_exit_refs soft m s ext Hi Hti Hh) as (H1 & H2 & H3 & H4). fold ms in H1, H2, H3, H4.
    split; [|split; [done|]; split; [done|]].
    + unfold mirror_fit. destruct (Mirror.vr_mirrors ms.1) eqn:Em; [done|].
      assert (E : Mirror.set_slots 0 None ms.1 = ms.1); [|by rewrite E].
      pose proof (mi_len _ H1) as Hl. rewrite Em in Hl. destruct ms as [[] ?]. cbn in *. by subst.
    + intros ->. unfold ms, Mirror.vr_mirror_exit. rewrite Et. by destruct (foldl _ _ _) as [m1 s1].
  - unfold ms, Mirror.vr_mirror_exit, mirror_refs, mirror_view, mirror_fit in *. rewrite Et in *. destruct soft; cbn; rewrite ?Et; done.
Qed.

(** ** Identifiers *)

Inductive vx_holds (x : Vxlan.vxlan) : list nhp -> Prop :=
  | vx_none : Vxlan.vr_vxlan_table x = None -> vx_holds x []
  | vx_some m : Vxlan.vxview x m -> vx_holds x (Vxlan.vnid_refs m).

Lemma vxlan_exit_fit x l (s : Nexthop.router) ext :
  vx_holds x l -> refs_held (l ++ ext) s ->
  let xs := Vxlan.vr_vxlan_exit x s in Vxlan.vr_vxlan_table xs.1 = None /\ refs_held ext xs.2.
Proof.
  intros Hx Hh. destruct Hx as [E|m Hv].
  - unfold Vxlan.vr_vxlan_exit. by rewrite E.
  - pose proof (Vxlan.vxlan_exit_drops x m s ext Hv Hh) as Hd. by destruct (Vxlan.vr_vxlan_exit x s).
Qed.
End frame.

(** ** Setting up *)

Lemma mpls_init_fit labels memok m :
  mpls_fit m -> Mpls.label_refs m = [] -> 0 < labels ->
  let '(ret, m') := Mpls.vr_mpls_init labels memok m in
  mpls_fit m' /\ Mpls.label_refs m' = [] /\ (ret = 0 -> is_Some (Mpls.vr_ilm m')).
Proof.
  intros Hf Hn Hl. unfold Mpls.vr_mpls_init. destruct (Mpls.vr_ilm m) eqn:E; [by rewrite E; eauto|].
  destruct memok; [|by split_and!]. unfold mpls_fit, Mpls.label_refs. cbn. rewrite zlen_replicate, empty_slots.
  split_and!; eauto; lia.
Qed.

Lemma no_replicate n i (p : nhp) : zget (replicate n (@None nhp)) i <> Some (Some p).
Proof. intros Hz. pose proof (zget_replicate_default n (@None nhp) i) as Hd. by rewrite Hz in Hd. Qed.

Lemma mirror_init_fit m :
  mirror_fit m -> mirror_refs m = [] ->
  let '(ret, m') := Mirror.vr_mirror_init m in
  mirror_fit m' /\ mirror_refs m' = [] /\ (ret = 0 -> is_Some (Mirror.vr_mirrors m')).
Proof.
  intros Hf Hn. unfold Mirror.vr_mirror_init. destruct (Mirror.vr_mirrors m) eqn:E; [by rewrite E; eauto|].
  unfold mirror_fit in *. rewrite E in Hf. destruct Hf as [[Hl Hp Hnh Hft] Ht]. cbn in Hp, Hft.
  unfold Mirror.mir_alloc. destruct (match Mirror.mir_oracle m with [] => true | b :: _ => b end).
  - cbn [Mirror.set_slots Mirror.vr_mirrors].
    assert (Hz : zlen (replicate (Z.to_nat Mirror.VR_MAX_MIRROR_INDICES) (@None Z)) = Mirror.VR_MAX_MIRROR_INDICES) by (by rewrite zlen_replicate).
    set (n := Z.to_nat Mirror.VR_MAX_MIRROR_INDICES) in *. clearbody n.
    destruct (pool_clear None (Some (replicate n None)) _ _ _ Hp (empty_slots _)) as [Hp' Ht'].
    split; [split|split; [|by eexists]].
    + split; cbn; [done|done| |done]. intros t0 i p e [= <-] Hzi. by apply no_replicate in Hzi.
    + by apply Ht'.
    + unfold mirror_refs, mirror_view. cbn. clear. by induction n.
  - cbn. split; [|done]. split; [by split|done].
Qed.

Lemma create_mem_ok {V} ps len vargs m : mem_ok m -> mem_ok (@IndexTable.vr_itable_create V ps len vargs m).2.
Proof.
  intros Hm. unfold IndexTable.vr_itable_create. destruct (32 <? len); [done|]. destruct (zlen vargs <? 2); [done|].
  destruct (m_alloc 32 m) as [[a|] m1] eqn:E1; destruct (m_alloc_spec _ _ _ _ Hm E1) as [H1 _]; [|done].
  destruct (m_alloc (zlen vargs * 4) m1) as [[b|] m2] eqn:E2; destruct (m_alloc_spec _ _ _ _ H1 E2) as [H2 _]; [|cbn; auto with vr].
  destruct (m_alloc (zlen vargs * 4) m2) as [[c|] m3] eqn:E3; destruct (m_alloc_spec _ _ _ _ H2 E3) as [H3 _]; [|cbn; auto with vr].
  repeat case_match; cbn; auto with vr.
Qed.

Lemma vxlan_init_fit ps x :
  mem_ok (Vxlan.vx_mem x) -> vx_holds x [] -> 0 <= ps <= 31 ->
  let '(ret, x') := Vxlan.vr_vxlan_init ps x in
  mem_ok (Vxlan.vx_mem x') /\ vx_holds x' [] /\ (ret = 0 -> is_Some (Vxlan.vr_vxlan_table x')).
Proof.
  intros Hm Hx Hp. unfold Vxlan.vr_vxlan_init. destruct (Vxlan.vr_vxlan_table x) eqn:E; [by rewrite E; eauto|].
  pose proof (IndexTable.itbl_create_spec (V := nhp) ps 24 [12; 12] (Vxlan.vx_mem x) Hm Hp ltac:(lia) ltac:(repeat constructor; lia)) as Hc.
  pose proof (create_mem_ok (V := nhp) ps 24 [12; 12] (Vxlan.vx_mem x) Hm) as Hk. unfold Vxlan.VR_VXLAN_INDEX_LEN.
  destruct (IndexTable.vr_itable_create ps 24 [12; 12] (Vxlan.vx_mem x)) as [[t|] a].
  - split; [done|]. split; [|by eexists]. assert (E0 : Vxlan.vnid_refs ∅ = []) by (unfold Vxlan.vnid_refs; by rewrite map_to_list_empty). rewrite <- E0. apply vx_some. exists t. split; [done|].
    destruct Hc as (Hok & Hl & _ & Hg). split; [done|]. split; [done|]. split; [|apply map_Forall_empty]. intros i. by rewrite lookup_empty, Hg.
  - split; [done|]. split; [by constructor|done].
Qed.

(** Memory that is freed is not handed out again. *)
Lemma exit_mem_ok {V S} (func : Z -> V -> S -> S) sts : forall top ptr index sm,
  mem_ok sm.2 -> mem_ok (IndexTable.__vr_itable_exit func sts top ptr index sm).2.
Proof.
  assert (Hs : forall visit l i sm, (forall j c sm, mem_ok sm.2 -> mem_ok (visit j c sm).2) -> mem_ok sm.2 ->
    mem_ok (@IndexTable.exit_slots V S visit i l sm).2).
  { intros visit l. induction l as [|c l IH]; intros i sm Hv Hm; cbn [IndexTable.exit_slots]; [done|].
    apply IH; [done|]. destruct (IndexTable.is_null c); auto. }
  induction sts as [|st sts IH]; intros top ptr index sm Hm; [done|]. cbn [IndexTable.__vr_itable_exit].
  destruct sts as [|st' sts].
  - destruct ptr as [| |blk l]; try done. destruct (IndexTable.exit_slots _ 0 l sm) as [s m] eqn:E. apply mem_ok_free.
    change m with (s, m).2. rewrite <- E. apply Hs; [|done]. intros j c sm0 H0. by destruct c.
  - destruct ptr as [| |blk l]; try done.
    match goal with |- context [IndexTable.exit_slots ?v 0 l sm] => assert (H1 : mem_ok (IndexTable.exit_slots v 0 l sm).2) by (apply Hs; [intros; by apply IH|done]);
      destruct (IndexTable.exit_slots v 0 l sm) as [s m] end. destruct top; [by apply mem_ok_free|done].
Qed.

Lemma vxlan_exit_mem {NS} `{NhOps NS} x (s : NS) : mem_ok (Vxlan.vx_mem x) -> mem_ok (Vxlan.vx_mem (Vxlan.vr_vxlan_exit x s).1).
Proof.
  intros Hm. unfold Vxlan.vr_vxlan_exit, IndexTable.vr_itable_delete. destruct (Vxlan.vr_vxlan_table x) as [t|]; [|done].
  match goal with |- context [IndexTable.__vr_itable_exit ?f ?a ?b ?c ?d ?e] => pose proof (exit_mem_ok f a b c d e Hm) as Hx; destruct (IndexTable.__vr_itable_exit f a b c d e) as [s1 m1] end.
  cbn. auto with vr.
Qed.

(** ** Nexthops *)

Definition startable (ext : list nhp) (s : Nexthop.router) : Prop :=
  (Nexthop.vr_max_nexthops s = 0 \/ is_Some (Nexthop.vr_nexthops s)) /\
  (is_Some (Nexthop.ip4_default_nh s) \/ zlen (refs ext s) < UINT_MAX).

Lemma discard_table s : is_Some (Nexthop.vr_nexthops s) -> is_Some (Nexthop.vr_nexthops (Nexthop.nh_allocate_discard s).2).
Proof.
  intros [t Ht]. unfold Nexthop.nh_allocate_discard, Nexthop.new_object, Nexthop.host_alloc.
  destruct (match Nexthop.nh_oracle s with [] => true | b :: _ => b end); cbn; [|by rewrite Ht; eexists].
  unfold Nexthop.vrouter_add_nexthop. repeat case_match; cbn; rewrite ?Ht; eauto.
  unfold Nexthop.__vrouter_set_nexthop. cbn. rewrite ?Ht. repeat case_match; cbn; eauto.
Qed.

Lemma nh_init_table n s : Nexthop.vr_max_nexthops s = 0 \/ is_Some (Nexthop.vr_nexthops s) ->
  let '(ret, s') := Nexthop.nh_table_init n s in ret = 0 -> is_Some (Nexthop.vr_nexthops s').
Proof.
  intros Hs. unfold Nexthop.nh_table_init. destruct (Z.eqb_spec (Nexthop.vr_max_nexthops s) 0) as [E|E].
  - unfold Nexthop.host_alloc. destruct (match Nexthop.nh_oracle s with [] => true | b :: _ => b end); [|by cbn].
    rewrite Z.eqb_refl. match goal with |- context [Nexthop.set_table ?t ?k ?r] => set (s1 := Nexthop.set_table t k r) end.
    assert (H1 : is_Some (Nexthop.vr_nexthops s1)) by (by eexists).
    destruct (Nexthop.ip4_default_nh s1); [done|]. pose proof (discard_table s1 H1) as Hd. by destruct (Nexthop.nh_allocate_discard s1).
  - assert (H1 : is_Some (Nexthop.vr_nexthops s)) by (by destruct Hs). rewrite Z.eqb_refl.
    destruct (Nexthop.ip4_default_nh s); [done|]. pose proof (discard_table s H1) as Hd. by destruct (Nexthop.nh_allocate_discard s).
Qed.

Lemma nh_init_kept n s : is_Some (Nexthop.ip4_default_nh s) -> Nexthop.vr_max_nexthops s <> 0 -> Nexthop.nh_table_init n s = (0, s).
Proof.
  intros [p Hp] Hm. unfold Nexthop.nh_table_init. rewrite (proj2 (Z.eqb_neq _ _)) by done. by rewrite Z.eqb_refl, Hp.
Qed.

Lemma nh_init_inv ext n s : inv ext s -> 0 <= n -> startable ext s -> inv ext (Nexthop.nh_table_init n s).2.
Proof.
  intros Hi Hn [Hs Hd]. destruct (decide (zlen (refs ext s) < UINT_MAX)) as [Hr|Hr]; [by apply Nexthop.init_inv|].
  destruct Hd as [Hd|]; [|done]. destruct (Z.eq_dec (Nexthop.vr_max_nexthops s) 0) as [E|E]; [|by rewrite nh_init_kept].
  destruct Hd as [p Hp]. unfold Nexthop.nh_table_init. rewrite E, Z.eqb_refl.
  assert (Hnil : Nexthop.table_refs (Some (replicate (Z.to_nat n) None)) = []) by apply empty_slots.
  destruct (Nexthop.new_table_inv ext (Some (replicate (Z.to_nat n) None)) n s Hi E Hnil) as [H1 _].
  { intros t [= <-]. split; [rewrite zlen_replicate; lia|]. intros i q. apply no_replicate. }
  destruct (Nexthop.new_table_inv ext None n s Hi E eq_refl ltac:(done)) as [H2 _]. cbn zeta in H1, H2.
  destruct (Nexthop.host_alloc s) as [b s0] eqn:Ea. assert (Hd0 : Nexthop.ip4_default_nh s0 = Some p) by (by unfold Nexthop.host_alloc in Ea; simplify_eq/=).
  destruct b; cbn [fst snd] in *; [|done]. rewrite Z.eqb_refl. change (Nexthop.ip4_default_nh (Nexthop.set_table ?t ?k s0)) with (Nexthop.ip4_default_nh s0).
  by rewrite Hd0.
Qed.

(** ** The router *)

Section run.
Context (nexthops labels : Z) (ilm_mem : bool) (page_shift : Z)
  (nexthops_pos : 0 <= nexthops) (labels_pos : 0 < labels) (page_ok : 0 <= page_shift <= 31).
(** The references that routes and packets hold. *)
Context (ext : list nhp).

Abbreviation mods := (table_modules nexthops labels ilm_mem page_shift).

(** Some modules are set up, others are not. *)
Record fit (r : tables) : Prop := {
  fit_mpls : mpls_fit (t_mpls r);
  fit_mirror : mirror_fit (t_mirror r);
  fit_mem : mem_ok (Vxlan.vx_mem (t_vxlan r));
  fit_qos : qos_inv (t_qos r);
  fit_refs : exists lv, vx_holds (t_vxlan r) lv /\
    inv (Mpls.label_refs (t_mpls r) ++ mirror_refs (t_mirror r) ++ lv ++ ext) (t_nh r)
}.

(** The tables of labels, mirrors and identifiers hold nothing. *)
Record emptied (r : tables) : Prop := {
  em_mpls : Mpls.label_refs (t_mpls r) = [];
  em_mirror : mirror_refs (t_mirror r) = [];
  em_vxlan : vx_holds (t_vxlan r) [];
  em_refs : inv ext (t_nh r)
}.

Definition present (k : nat) (r : tables) : Prop :=
  match k with
  | 0 => is_Some (Nexthop.vr_nexthops (t_nh r))
  | 1 => is_Some (Mpls.vr_ilm (t_mpls r))
  | 2 => is_Some (Mirror.vr_mirrors (t_mirror r))
  | 3 => is_Some (Vxlan.vr_vxlan_table (t_vxlan r))
  | _ => is_Some (Qos.vr_qos_map (t_qos r)) /\ is_Some (Qos.vr_fc_table (t_qos r))
  end%nat.

Definition absent (k : nat) (r : tables) : Prop :=
  match k with
  | 0 => Nexthop.vr_nexthops (t_nh r) = None
  | 1 => Mpls.vr_ilm (t_mpls r) = None
  | 2 => Mirror.vr_mirrors (t_mirror r) = None
  | 3 => Vxlan.vr_vxlan_table (t_vxlan r) = None
  | _ => Qos.vr_qos_map (t_qos r) = None /\ Qos.vr_fc_table (t_qos r) = None
  end%nat.

Abbreviation frame_of s := (nh_frame (Nexthop.vr_nexthops s) (Nexthop.vr_max_nexthops s) (Nexthop.ip4_default_nh s)).

Lemma frame_refl s : frame_of s s.
Proof. done. Qed.

(** ** One module is torn down or emptied *)

Lemma mpls_down soft r : fit r -> let r' := set_mpls (Mpls.vr_mpls_exit soft (t_mpls r) (t_nh r)) r in
  fit r' /\ Mpls.label_refs (t_mpls r') = [] /\ (soft = false -> absent 1 r') /\ frame_of (t_nh r) (t_nh r').
Proof.
  intros [H1 H2 H3 H4 (lv & Hv & Hi)] r'.
  destruct (mpls_exit_fit _ _ _ soft (t_mpls r) (t_nh r) _ H1 (conj Hi (frame_refl _))) as (F1 & F2 & [F3 F4] & F5).
  split; [|done]. split; try done. exists lv. split; [done|]. cbn. by rewrite F2.
Qed.

Lemma mirror_down soft r : fit r -> let r' := set_mirror (Mirror.vr_mirror_exit soft (t_mirror r) (t_nh r)) r in
  fit r' /\ mirror_refs (t_mirror r') = [] /\ (soft = false -> absent 2 r') /\ frame_of (t_nh r) (t_nh r').
Proof.
  intros [H1 H2 H3 H4 (lv & Hv & Hi)] r'.
  assert (Hi' : inv (mirror_refs (t_mirror r) ++ Mpls.label_refs (t_mpls r) ++ lv ++ ext) (t_nh r)).
  { eapply Nexthop.inv_perm; [|exact Hi]. apply Permutation_app_swap_app. }
  destruct (mirror_exit_fit _ _ _ soft (t_mirror r) (t_nh r) _ H2 (conj Hi' (frame_refl _))) as (F1 & F2 & [F3 F4] & F5).
  split; [|done]. split; try done. exists lv. split; [done|]. cbn. by rewrite F2.
Qed.

Lemma vxlan_down r : fit r -> let r' := set_vxlan (Vxlan.vr_vxlan_exit (t_vxlan r) (t_nh r)) r in
  fit r' /\ absent 3 r' /\ frame_of (t_nh r) (t_nh r').
Proof.
  intros [H1 H2 H3 H4 (lv & Hv & Hi)] r'.
  assert (Hi' : inv (lv ++ Mpls.label_refs (t_mpls r) ++ mirror_refs (t_mirror r) ++ ext) (t_nh r)).
  { eapply Nexthop.inv_perm; [|exact Hi]. rewrite !(assoc_L (++) (Mpls.label_refs _)). apply Permutation_app_swap_app. }
  destruct (vxlan_exit_fit _ _ _ (t_vxlan r) lv (t_nh r) _ Hv (conj Hi' (frame_refl _))) as (F1 & [F3 F4]).
  split; [|done]. split; try done; [by apply vxlan_exit_mem|]. exists []. split; [by constructor|]. done.
Qed.

Lemma qos_down soft r : fit r -> let r' := set_qos (Qos.vr_qos_exit soft (t_qos r)) r in
  fit r' /\ (soft = false -> absent 4 r').
Proof.
  intros [H1 H2 H3 H4 H5] r'. destruct (vr_qos_exit_inv soft (t_qos r) H4) as [F1 _]. split; [by split|].
  intros ->. split; [|done]. cbn. destruct (Qos.vr_qos_map (t_qos r)) eqn:E; [done|]. cbn. by rewrite E.
Qed.

Lemma nexthop_down soft r : fit r -> let r' := set_nh (Nexthop.nh_table_exit soft (t_nh r)) r in fit r' /\ (soft = false -> absent 0 r').
Proof.
  intros [H1 H2 H3 H4 (lv & Hv & Hi)] r'. split.
  - split; try done. exists lv. split; [done|]. by apply Nexthop.table_exit_inv.
  - intros ->. cbn. unfold Nexthop.nh_table_exit. by destruct (Nexthop.vr_nexthops (t_nh r)) eqn:E.
Qed.

(** ** Deferred calls run *)

Lemma iter_keeps {A} (P : A -> Prop) (f : A -> A) n x : (forall x, P x -> P (f x)) -> P x -> P (Nat.iter n f x).
Proof. intros Hf Hx. induction n as [|n IH]; [done|]. cbn. by apply Hf. Qed.

Lemma deferred_frame t mx d s : nh_frame t mx d s -> nh_frame t mx d (Nexthop.run_deferred s).
Proof.
  intros Hf. unfold Nexthop.run_deferred. destruct (Nexthop.nh_deferred s) as [|p l]; [done|].
  apply (frame_evolves _ _ _ (Nexthop.set_deferred l s)); [apply Nexthop.free_evolves|done].
Qed.

Lemma ready_inv l b s : inv l s -> inv l (nh_ready b s).
Proof. intros Hi. by apply (Nexthop.inv_same l s). Qed.

Lemma mirror_deferred_fit m : mirror_fit m -> mirror_fit (Mirror.run_deferred m) /\ mirror_refs (Mirror.run_deferred m) = mirror_refs m.
Proof.
  unfold mirror_fit. intros [Hi Ht].
  assert (E : Mirror.vr_mirrors (Mirror.run_deferred m) = Mirror.vr_mirrors m).
  { unfold Mirror.run_deferred, Mirror.vr_mirror_defer_delete, Mirror.mir_free. by repeat case_match. }
  destruct (Mirror.vr_mirrors m) eqn:Em.
  - rewrite E. destruct (mirror_deferred_inv m Hi) as (? & ? & Hv). unfold mirror_refs. rewrite Hv. auto.
  - rewrite E. destruct (mirror_deferred_inv _ Hi) as (H1 & H2 & _). unfold mirror_refs, mirror_view. rewrite E, Em.
    assert (Ex : Mirror.set_slots 0 None (Mirror.run_deferred m) = Mirror.run_deferred (Mirror.set_slots 0 None m)).
    { unfold Mirror.run_deferred, Mirror.vr_mirror_defer_delete, Mirror.mir_free. cbn. by repeat case_match. }
    rewrite Ex. auto.
Qed.

Lemma barrier_fit r : fit r -> exists r', lh_soft_reset (set_not_ready true r) = Some r' /\ fit r' /\ frame_of (t_nh r) (t_nh r').
Proof.
  intros [H1 H2 H3 H4 (lv & Hv & Hi)]. eexists. split; [reflexivity|]. cbn [set_not_ready t_nh t_mirror t_qos t_mpls t_vxlan].
  destruct (iter_keeps (fun m => mirror_fit m /\ mirror_refs m = mirror_refs (t_mirror r)) Mirror.run_deferred
    (length (Mirror.mir_deferred (mirror_ready true (t_mirror r)))) (mirror_ready true (t_mirror r))) as [F2 E2].
  { intros m [Hm <-]. by apply mirror_deferred_fit. }
  { split; [|reflexivity]. unfold mirror_fit in *. cbn [mirror_ready Mirror.vr_mirrors].
    destruct (Mirror.vr_mirrors (t_mirror r)) eqn:Em; destruct H2 as [[L P Q B] T]; split; try exact T; split; assumption. }
  split; [split; cbn [t_nh t_mpls t_mirror t_vxlan t_qos]; try done|].
  - apply iter_keeps; [|done]. intros q Hq. by apply qos_deferred_inv.
  - exists lv. split; [done|]. rewrite E2. apply iter_keeps; [intros s Hs; by apply Nexthop.run_deferred_inv|by apply ready_inv].
  - cbn [t_nh]. apply iter_keeps; [apply deferred_frame|done].
Qed.

(** ** The promises of the modules *)

(** [N]: what is kept of the table of nexthops. *)
Record started (N : Nexthop.router -> Prop) (k : nat) (r : tables) : Prop := {
  st_fit : fit r;
  st_empty : emptied r;
  st_start : k = 0%nat -> startable ext (t_nh r);
  st_present : forall j, (j < k)%nat -> present j r;
  st_nh : N (t_nh r)
}.

Definition torn (k : nat) (r : tables) : Prop := fit r /\ forall j, (k <= j < 5)%nat -> absent j r.

Definition kept (N : Nexthop.router -> Prop) : Prop :=
  (forall b s, N s -> N (nh_ready b s)) /\
  (forall s, N s -> inv ext s -> startable ext s -> let '(ret, s') := Nexthop.nh_table_init nexthops s in ret = 0 -> N s').

Lemma emptied_fit r : mpls_fit (t_mpls r) -> mirror_fit (t_mirror r) -> mem_ok (Vxlan.vx_mem (t_vxlan r)) -> qos_inv (t_qos r) ->
  emptied r -> fit r.
Proof. intros ? ? ? ? [E1 E2 E3 E4]. split; try done. exists []. by rewrite E1, E2. Qed.

Lemma present_S k r r' : (forall j, (j < k)%nat -> present j r) -> (forall j, (j < k)%nat -> present j r -> present j r') -> present k r' ->
  forall j, (j < S k)%nat -> present j r'.
Proof. intros H1 H2 H3 j Hj. destruct (decide (j = k)) as [->|]; [done|]. apply H2; [lia|]. apply H1. lia. Qed.

Lemma nexthop_up N r : kept N -> started N 0 r ->
  exists ret reps r', vr_nexthop_init nexthops r = Some (ret, reps, r') /\ if ret =? 0 then started N 1 r' else fit r'.
Proof.
  intros [_ HN] [[F1 F2 F3 F4 _] [E1 E2 E3 E4] Hs Hp Hn]. unfold vr_nexthop_init. specialize (Hs eq_refl).
  pose proof (nh_init_inv ext nexthops (t_nh r) E4 nexthops_pos Hs) as Hi.
  pose proof (nh_init_table nexthops (t_nh r) (proj1 Hs)) as Ht. specialize (HN _ Hn E4 Hs).
  destruct (Nexthop.nh_table_init nexthops (t_nh r)) as [ret s]. cbn in Hi.
  assert (He : emptied (set_nh s r)) by (by split). assert (Hf : fit (set_nh s r)) by (by apply emptied_fit).
  eexists ret, _, _. split; [done|]. destruct (Z.eqb_spec ret 0); [|done]. split; try done; [|by apply HN].
  intros j Hj. assert (j = 0%nat) as -> by lia. by apply Ht.
Qed.

Lemma mpls_up N r : started N 1 r ->
  exists ret reps r', mpls_init labels ilm_mem r = Some (ret, reps, r') /\ if ret =? 0 then started N 2 r' else fit r'.
Proof.
  intros [[F1 F2 F3 F4 _] [E1 E2 E3 E4] _ Hp Hn]. unfold mpls_init.
  pose proof (mpls_init_fit labels ilm_mem (t_mpls r) F1 E1 labels_pos) as Hi. destruct (Mpls.vr_mpls_init labels ilm_mem (t_mpls r)) as [ret m].
  destruct Hi as (G1 & G2 & G3). assert (He : emptied (set_mpls (m, t_nh r) r)) by (by split).
  assert (Hf : fit (set_mpls (m, t_nh r) r)) by (by apply emptied_fit).
  eexists ret, _, _. split; [done|]. destruct (Z.eqb_spec ret 0) as [->|]; [|done]. split; try done.
  apply (present_S 1 r); [done| |by apply G3]. intros j Hj Hpj. destruct j as [|[]]; first [exact Hpj|lia].
Qed.

Lemma mirror_up N r : started N 2 r ->
  exists ret reps r', mirror_init r = Some (ret, reps, r') /\ if ret =? 0 then started N 3 r' else fit r'.
Proof.
  intros [[F1 F2 F3 F4 _] [E1 E2 E3 E4] _ Hp Hn]. unfold mirror_init.
  pose proof (mirror_init_fit (t_mirror r) F2 E2) as Hi. destruct (Mirror.vr_mirror_init (t_mirror r)) as [ret m].
  destruct Hi as (G1 & G2 & G3). assert (He : emptied (set_mirror (m, t_nh r) r)) by (by split).
  assert (Hf : fit (set_mirror (m, t_nh r) r)) by (by apply emptied_fit).
  eexists ret, _, _. split; [done|]. destruct (Z.eqb_spec ret 0) as [->|]; [|done]. split; try done.
  apply (present_S 2 r); [done| |by apply G3]. intros j Hj Hpj. destruct j as [|[|[]]]; first [exact Hpj|lia].
Qed.

Lemma vxlan_up N r : started N 3 r ->
  exists ret reps r', vxlan_init page_shift r = Some (ret, reps, r') /\ if ret =? 0 then started N 4 r' else fit r'.
Proof.
  intros [[F1 F2 F3 F4 _] [E1 E2 E3 E4] _ Hp Hn]. unfold vxlan_init.
  pose proof (vxlan_init_fit page_shift (t_vxlan r) F3 E3 page_ok) as Hi. destruct (Vxlan.vr_vxlan_init page_shift (t_vxlan r)) as [ret x].
  destruct Hi as (G1 & G2 & G3). assert (He : emptied (set_vxlan (x, t_nh r) r)) by (by split).
  assert (Hf : fit (set_vxlan (x, t_nh r) r)) by (by apply emptied_fit).
  eexists ret, _, _. split; [done|]. destruct (Z.eqb_spec ret 0) as [->|]; [|done]. split; try done.
  apply (present_S 3 r); [done| |by apply G3]. intros j Hj Hpj. destruct j as [|[|[|[]]]]; first [exact Hpj|lia].
Qed.

Lemma qos_up N r : started N 4 r ->
  exists ret reps r', qos_init r = Some (ret, reps, r') /\ if ret =? 0 then started N 5 r' else fit r'.
Proof.
  intros [[F1 F2 F3 F4 _] [E1 E2 E3 E4] _ Hp Hn]. unfold qos_init.
  pose proof (vr_qos_init_inv (t_qos r) F4) as Hi. destruct (Qos.vr_qos_init (t_qos r)) as [ret q].
  destruct Hi as (G1 & _ & G3). assert (He : emptied (set_qos q r)) by (by split).
  assert (Hf : fit (set_qos q r)) by (by apply emptied_fit).
  eexists ret, _, _. split; [done|]. destruct (Z.eqb_spec ret 0) as [->|]; [|done]. split; try done.
  apply (present_S 4 r); [done| |by apply G3]. intros j Hj Hpj. destruct j as [|[|[|[|[]]]]]; first [exact Hpj|lia].
Qed.

Lemma ready_fit b r : fit r -> fit (set_not_ready b r).
Proof.
  intros [H1 H2 H3 H4 (lv & Hv & Hi)]. split; try done.
  - unfold mirror_fit in *. cbn [set_not_ready t_mirror mirror_ready Mirror.vr_mirrors].
    destruct (Mirror.vr_mirrors (t_mirror r)) eqn:Em; destruct H2 as [[L P Q B] T]; split; try exact T; split; assumption.
  - exists lv. split; [done|]. by apply ready_inv.
Qed.

Lemma ready_started N b k r : kept N -> started N k r -> started N k (set_not_ready b r).
Proof.
  intros [HN _] [F [E1 E2 E3 E4] Hs Hp Hn]. split; [by apply ready_fit|by split; [..|apply ready_inv]|done|done|by apply HN].
Qed.

Lemma torn_below k r r' : torn (S k) r -> fit r' -> absent k r' -> (forall j, (S k <= j < 5)%nat -> absent j r -> absent j r') -> torn k r'.
Proof.
  intros [_ Ha] Hf Hk Hj. split; [done|]. intros j Hr. destruct (decide (j = k)) as [->|]; [done|]. apply Hj; [lia|]. apply Ha. lia.
Qed.

(** A module is torn down after those behind it. *)
Lemma down_torn k m r : mods !! k = Some m -> torn (S k) r -> exists r', exit m false r = Some r' /\ torn k r'.
Proof.
  intros Hm Ht. pose proof (proj1 Ht) as Hf. destruct k as [|[|[|[|[|k]]]]]; cbn in Hm; simplify_eq; (eexists; split; [reflexivity|]).
  - destruct (nexthop_down false r Hf) as [F A]. apply (torn_below 0 r); try done; [by apply A|].
    intros j Hj. destruct j as [|[|[|[|]]]]; first [lia|done].
  - destruct (mpls_down false r Hf) as (F & _ & A & _). apply (torn_below 1 r); try done; [by apply A|].
    intros j Hj. destruct j as [|[|[|[|]]]]; first [lia|done].
  - destruct (mirror_down false r Hf) as (F & _ & A & _). apply (torn_below 2 r); try done; [by apply A|].
    intros j Hj. destruct j as [|[|[|[|]]]]; first [lia|done].
  - destruct (vxlan_down r Hf) as (F & A & _). apply (torn_below 3 r); try done.
    intros j Hj. destruct j as [|[|[|[|]]]]; first [lia|done].
  - destruct (qos_down false r Hf) as [F A]. apply (torn_below 4 r); try done; [by apply A|]. intros j Hj. lia.
Qed.

#[refine] Instance start_laws N (HN : kept N) : StartLaws mods (Some lh_soft_reset) set_not_ready :=
  {| up := started N; ok := fit; gone := torn |}.
Proof.
  - intros k r Hr. apply Hr.
  - intros r Hr. by apply ready_started.
  - intros k m r Hm Hr. destruct k as [|[|[|[|[|k]]]]]; cbn in Hm; simplify_eq; cbn [init].
    + by apply nexthop_up.
    + by apply mpls_up.
    + by apply mirror_up.
    + by apply vxlan_up.
    + by apply qos_up.
  - intros k m g r Hm Hg. exfalso. destruct k as [|[|[|[|[|k]]]]]; cbn in Hm; simplify_eq; done.
  - intros r Hr. destruct (barrier_fit r Hr) as (r' & Hb & Hf & _). exists r'. split; [done|]. split; [done|]. cbn. lia.
  - apply down_torn.
Defined.

(** ** A reset *)

Definition nh_live (s : Nexthop.router) : Prop :=
  is_Some (Nexthop.vr_nexthops s) /\ is_Some (Nexthop.ip4_default_nh s) /\ Nexthop.vr_max_nexthops s <> 0.

(** The table holds nothing but the nexthop that discards. *)
Definition only_discard (s : Nexthop.router) : Prop :=
  forall t i p, Nexthop.vr_nexthops s = Some t -> zget t i = Some (Some p) -> i = NH_DISCARD_ID.

Definition clear (k : nat) (r : tables) : Prop :=
  match k with
  | 0 => only_discard (t_nh r)
  | 1 => Mpls.label_refs (t_mpls r) = []
  | 2 => mirror_refs (t_mirror r) = []
  | 3 => Vxlan.vr_vxlan_table (t_vxlan r) = None
  | _ => True
  end%nat.

Definition clear_from (k : nat) (r : tables) : Prop := fit r /\ nh_live (t_nh r) /\ forall j, (k <= j)%nat -> clear j r.

Lemma live_frame s s' : frame_of s s' -> nh_live s -> nh_live s'.
Proof. unfold nh_live. by intros (-> & -> & ->). Qed.

Lemma clear_below k r r' : clear_from (S k) r -> fit r' -> nh_live (t_nh r') -> clear k r' ->
  (forall j, (S k <= j)%nat -> clear j r -> clear j r') -> clear_from k r'.
Proof.
  intros (_ & _ & Ha) Hf Hl Hk Hj. split; [done|]. split; [done|]. intros j Hr. destruct (decide (j = k)) as [->|]; [done|]. apply Hj; [lia|]. apply Ha. lia.
Qed.

Lemma del_default p s : Nexthop.ip4_default_nh (Nexthop.nh_del p s) = Nexthop.ip4_default_nh s.
Proof.
  unfold Nexthop.nh_del. destruct (Nexthop.nh_load p s) as [nh|]; [|done]. destruct (_ <=? _); [done|].
  assert (E : Nexthop.ip4_default_nh (Nexthop.__vrouter_set_nexthop (Nexthop.nh_id nh) None s).2 = Nexthop.ip4_default_nh s).
  { unfold Nexthop.__vrouter_set_nexthop. by repeat case_match. }
  rewrite <- E. apply Nexthop.put_evolves.
Qed.

Lemma loop_default soft idx s : Nexthop.ip4_default_nh (foldl (Nexthop.nh_table_exit_step soft) s idx) = Nexthop.ip4_default_nh s.
Proof.
  revert s. induction idx as [|i idx IH]; intros s; [done|]. cbn [foldl]. rewrite IH. unfold Nexthop.nh_table_exit_step.
  destruct (_ && _); [done|]. destruct (Nexthop.__vrouter_get_nexthop i s); [apply del_default|done].
Qed.

Lemma soft_nexthops l s : inv l s -> nh_live s ->
  nh_live (Nexthop.nh_table_exit true s) /\ only_discard (Nexthop.nh_table_exit true s).
Proof.
  intros Hi ([t Ht] & Hd & Hm). unfold Nexthop.nh_table_exit. rewrite Ht. pose proof (Nexthop.inv_max _ _ Hi t Ht) as Hz.
  destruct (Nexthop.exit_loop_inv l true s t (length t) Hi Ht) as (t' & _ & Ht' & Hm' & Hl & Hs); [lia|].
  unfold zlen in Hz. rewrite Hz in *. set (s1 := foldl _ _ _) in *.
  assert (Hdef : Nexthop.ip4_default_nh s1 = Nexthop.ip4_default_nh s) by apply loop_default.
  split; [split; [by eexists|rewrite Hdef, Hm'; done]|]. intros t0 i p E Hzi. rewrite Ht' in E. injection E as <-. rewrite Hs in Hzi.
  case_decide as Hc; [done|]. apply zget_range in Hzi as Hr. unfold zlen in Hr. destruct (decide (i = NH_DISCARD_ID)); [done|].
  exfalso. apply Hc. split; [lia|]. by intros [_ ?].
Qed.

Lemma soft_cleared k m r : mods !! k = Some m -> clear_from (S k) r -> exists r', exit m true r = Some r' /\ clear_from k r'.
Proof.
  intros Hm Hc. pose proof Hc as (Hf & Hl & _). destruct k as [|[|[|[|[|k]]]]]; cbn in Hm; simplify_eq; (eexists; split; [reflexivity|]).
  - destruct (nexthop_down true r Hf) as [F _]. destruct (fit_refs _ Hf) as (lv & _ & Hi). destruct (soft_nexthops _ _ Hi Hl).
    apply (clear_below 0 r); try done. intros j Hj. destruct j as [|[|[|[|]]]]; first [lia|done].
  - destruct (mpls_down true r Hf) as (F & A & _ & Hfr). apply (clear_below 1 r); try done; [by apply (live_frame (t_nh r))|].
    intros j Hj. destruct j as [|[|[|[|]]]]; first [lia|done].
  - destruct (mirror_down true r Hf) as (F & A & _ & Hfr). apply (clear_below 2 r); try done; [by apply (live_frame (t_nh r))|].
    intros j Hj. destruct j as [|[|[|[|]]]]; first [lia|done].
  - destruct (vxlan_down r Hf) as (F & A & Hfr). apply (clear_below 3 r); try done; [by apply (live_frame (t_nh r))|].
    intros j Hj. destruct j as [|[|[|[|]]]]; first [lia|done].
  - destruct (qos_down true r Hf) as [F _]. by apply (clear_below 4 r).
Qed.

#[refine] Instance reset_laws : ResetLaws mods (Some lh_soft_reset) set_not_ready :=
  {| ready r := fit r /\ nh_live (t_nh r); cleared := clear_from |}.
Proof.
  - intros k m g r Hm Hg. exfalso. destruct k as [|[|[|[|[|k]]]]]; cbn in Hm; simplify_eq; done.
  - intros r [Hr Hl]. destruct (barrier_fit r Hr) as (r' & Hb & Hf & Hfr). exists r'. split; [done|]. split; [done|].
    split; [by apply (live_frame (t_nh r))|]. intros j Hj. cbn in Hj. destruct j as [|[|[|[|]]]]; first [lia|done].
  - apply soft_cleared.
Defined.

(** ** The router as a whole *)

Abbreviation boot := (vrouter_init mods true (Some lh_soft_reset) set_not_ready memset_router).
Abbreviation reset := (vrouter_soft_reset mods true (Some lh_soft_reset) set_not_ready memset_router).

(** Nothing is there, and nobody but routes and packets holds a nexthop. *)
Definition shut_down (r : tables) : Prop :=
  Nexthop.vr_nexthops (t_nh r) = None /\ Nexthop.vr_max_nexthops (t_nh r) = 0 /\ Mpls.vr_ilm (t_mpls r) = None /\
  Mirror.vr_mirrors (t_mirror r) = None /\ Vxlan.vr_vxlan_table (t_vxlan r) = None /\
  Qos.vr_qos_map (t_qos r) = None /\ Qos.vr_fc_table (t_qos r) = None /\ inv ext (t_nh r).

Lemma vx_holds_none x l : vx_holds x l -> Vxlan.vr_vxlan_table x = None -> l = [].
Proof. intros [|m (t & Ht & _)] E; congruence. Qed.

Lemma torn_shut r : torn 0 r -> shut_down (memset_router r).
Proof.
  intros [[H1 H2 H3 H4 (lv & Hv & Hi)] Ha]. unfold shut_down. cbn. split_and!; try done.
  pose proof (Ha 0%nat ltac:(lia)) as A0. pose proof (Ha 1%nat ltac:(lia)) as A1. pose proof (Ha 2%nat ltac:(lia)) as A2.
  pose proof (Ha 3%nat ltac:(lia)) as A3. cbn in A0, A1, A2, A3.
  rewrite (vx_holds_none _ _ Hv A3) in Hi. unfold Mpls.label_refs, mirror_refs, mirror_view in Hi. rewrite A1, A2 in Hi. cbn in Hi.
  destruct Hi as [Hu Hal Hc Hd Hs Hids Hmx Hn Hf Hobj].
  assert (Er : refs ext (Nexthop.set_table None 0 (t_nh r)) = refs ext (t_nh r)) by (unfold refs; cbn; by rewrite A0).
  split; rewrite ?Er; try done.
Qed.

Lemma cleared_started r : clear_from 0 r -> started (fun s => nh_live s /\ only_discard s) 0 r.
Proof.
  intros (Hf & Hl & Hc). pose proof (Hc 0%nat ltac:(lia)) as C0. pose proof (Hc 1%nat ltac:(lia)) as C1. pose proof (Hc 2%nat ltac:(lia)) as C2.
  pose proof (Hc 3%nat ltac:(lia)) as C3. cbn in C0, C1, C2, C3. split; try done.
  - destruct (fit_refs _ Hf) as (lv & Hv & Hi). rewrite (vx_holds_none _ _ Hv C3), C1, C2 in Hi. split; try done. by constructor.
  - intros _. destruct Hl as (Ht & Hd & _). split; [by right|by left].
  - intros j Hj. lia.
Qed.

Lemma live_kept : kept (fun s => nh_live s /\ only_discard s).
Proof.
  split; [done|]. intros s [Hl Ho] _ _. pose proof Hl as (Ht & Hd & Hm). by rewrite (nh_init_kept nexthops s Hd Hm).
Qed.

Lemma any_kept : kept (fun _ => True).
Proof. split; [done|]. intros s _ _ _. by destruct (Nexthop.nh_table_init nexthops s). Qed.

(** The router before its first start, and after a tear-down. *)
Record cold (r : tables) : Prop := {
  cold_shut : shut_down r;
  cold_mirror : mirror_fit (t_mirror r);
  cold_mem : mem_ok (Vxlan.vx_mem (t_vxlan r));
  cold_qos : qos_inv (t_qos r);
  cold_room : zlen (refs ext (t_nh r)) < UINT_MAX
}.

Lemma cold_started r : cold r -> started (fun _ => True) 0 r.
Proof.
  intros [(E0 & E1 & E2 & E3 & E4 & _ & _ & Hi) H1 H2 H3 H4].
  assert (He : emptied r).
  { split; [unfold Mpls.label_refs; by rewrite E2|unfold mirror_refs, mirror_view; by rewrite E3|by constructor|done]. }
  split; try done.
  - apply emptied_fit; try done. unfold mpls_fit. by rewrite E2.
  - intros _. split; [by left|by right].
  - intros j Hj. lia.
Qed.

(** A failed start names the module and the first error that it reported. *)
Definition complains (s s' : state tables) (ret : Z) : Prop :=
  exists i m e reps, mods !! i = Some m /\ module_errors s !! i = Some e /\ (exists r r', init m r = Some (ret, reps, r')) /\
    console s' = console s ++ complaint i (mod_name m) ret (first_report e reps).

(** C19: A start of the router that is made of the five modules of nexthops, labels, mirrors,
    identifiers and code points ([table_modules]; the modules of statistics, interfaces, routes
    and flows of dp-core/vrouter.c are not among them), with a host present: whatever requests for
    memory of these modules fail, it ends with their tables there and empty and the router ready,
    or with the error of one module on the console, their tables gone and the router not ready;
    either way the counts of references to nexthops are exact.  Outside this the code does worse:
    [start_without_host], and [stats_block_unchecked] for the module of statistics. *)
Theorem router_start_spec (s : state tables) :
  cold (router s) -> length (module_errors s) = 5%nat ->
  exists ret s', boot s = Some (ret, s') /\ module_under_init s' = None /\ vr_not_ready s' = negb (ret =? 0) /\
    if ret =? 0 then (forall j, (j < 5)%nat -> present j (router s')) /\ emptied (router s') /\ console s' = console s
    else shut_down (router s') /\ complains s s' ret.
Proof.
  intros Hc Hl. destruct (start_spec _ _ _ memset_router (H := start_laws _ any_kept) s (cold_started _ Hc) Hl) as (ret & s' & Hs & Hu & _ & Hn & Hx).
  exists ret, s'. split; [done|]. split; [done|]. split; [done|]. destruct (ret =? 0).
  - destruct Hx as (Hco & [_ He _ Hp _] & _). done.
  - destruct Hx as (i & m & e & r & reps & r' & r'' & Hm & _ & Hi & He & Hco & Hg & Hr). split; [rewrite Hr; by apply torn_shut|].
    exists i, m, e, reps. split; [done|]. split; [done|]. split; [by exists r, r'|done].
Qed.

(** A tear-down leaves nothing, whichever modules were set up. *)
Theorem router_exit_spec (s : state tables) : fit (router s) -> vrouter_host s = true ->
  exists s', vrouter_exit mods (Some lh_soft_reset) set_not_ready memset_router false s = Some s' /\ shut_down (router s') /\ vr_not_ready s' = true.
Proof.
  intros Hf Hh. destruct (exit_full _ _ _ memset_router (H := start_laws _ any_kept) s Hh Hf) as (r & -> & Hg).
  eexists. split; [done|]. split; [by apply torn_shut|done].
Qed.

(** C18: A reset, in whatever state requests have left the tables, drops every reference that
    labels, mirrors, identifiers and the table of nexthops hold and leaves the tables there, the
    table of nexthops with nothing but the discard nexthop; or, when the memory that a module asks
    for again is refused, tears the whole router down. *)
Theorem router_reset_spec (s : state tables) :
  fit (router s) -> nh_live (t_nh (router s)) -> vrouter_host s = true -> length (module_errors s) = 5%nat ->
  exists ret s', reset s = Some (ret, s') /\ module_under_init s' = None /\ vr_not_ready s' = negb (ret =? 0) /\
    if ret =? 0 then (forall j, (j < 5)%nat -> present j (router s')) /\ emptied (router s') /\ only_discard (t_nh (router s')) /\
                     console s' = console s
    else shut_down (router s') /\ complains s s' ret.
Proof.
  intros Hf Hl Hh Hle. unfold vrouter_soft_reset.
  destruct (exit_soft _ _ _ memset_router (H := reset_laws) s Hh (conj Hf Hl)) as (r0 & -> & Hc). cbn [mbind option_bind].
  destruct (start_spec _ _ _ memset_router (H := start_laws _ live_kept) (set_ready true r0 s) (cleared_started _ Hc) Hle)
    as (ret & s' & Hs & Hu & _ & Hn & Hx).
  exists ret, s'. split; [done|]. split; [done|]. split; [done|]. destruct (ret =? 0).
  - destruct Hx as (Hco & [_ He _ Hp [_ Ho]] & _). done.
  - destruct Hx as (i & m & e & r & reps & r' & r'' & Hm & _ & Hi & He & Hco & Hg & Hr). split; [rewrite Hr; by apply torn_shut|].
    exists i, m, e, reps. split; [done|]. split; [done|]. split; [by exists r, r'|done].
Qed.
End run.
End VrouterRun.
