(* ===== verification/VrouterExamples.v ===== *)
(** * Statistics and the life of a small router, and what goes wrong *)

From stdpp Require Import gmap strings.
From S2P Require Import Prelude Bits Queue Message IndexTable NhIface Nexthop Mpls Vxlan Pool Qos QosProofs.
From S2P Require Import Mirror MirrorProofs VifState Stats StatsProofs Vrouter VrouterProofs VrouterTables.
From S2P Require Import VrouterRun.

Module StatsExamples.
Import VifState(Cpus, vr_num_cpus).
Import Stats StatsProofs.

#[local] Instance two_cpus_stats : Cpus := 2.

Definition empty (cpu : Z) (oracle : list bool) : router := mk_router None None (fun _ => 0) cpu oracle.

Definition ran_to {A} (m : option (A * router)) (d : router) : router := match m with Some (_, r) => r | None => d end.

(** Set up on CPU 0; a flow queue is taken there and freed on CPU 1, a mirror is taken on CPU 1,
    and a packet is dropped. *)
Definition r0 : router := ran_to (vr_stats_init (empty 0 [])) (empty 0 []).
Definition r1 : router := ran_to (lh_zalloc 64 VR_FLOW_QUEUE_OBJECT r0) r0.
Definition on_cpu1 (r : router) : router := mk_router (vr_pdrop_stats r) (malloc_blocks r) (live r) 1 [].
Definition r2 : router := on_cpu1 r1.
Definition r3 : router := default r2 (lh_free VR_FLOW_QUEUE_OBJECT r2).
Definition r4 : router := ran_to (lh_zalloc 96 VR_MIRROR_OBJECT r3) r3.
Definition r5 : router := default r4 (count_drop 1 VP_DROP_PULL r4).
Definition d5 : Z -> Z := more_drops VP_DROP_PULL (fun _ => 0).

Lemma some_default {A} (o : option A) d : (if o then true else false) = true -> o = Some (default d o).
Proof. by destruct o. Qed.

Lemma some_pair {A} (o : option (A * router)) d x : fst <$> o = Some x -> o = Some (x, ran_to o d).
Proof. destruct o as [[y r]|]; [|done]. by intros [= ->]. Qed.

Lemma cpu_in (c : Z) : (0 <=? c) && (c <? 2) = true -> 0 <= c < vr_num_cpus.
Proof. intros E. apply andb_true_iff in E as [E1 E2]. apply Z.leb_le in E1. apply Z.ltb_lt in E2. done. Qed.

Lemma stats_run : sreach 400 500 r5 d5.
Proof.
  assert (R0 : sreach 400 500 r0 (fun _ => 0)).
  { apply (sreach_start _ _ 0 0); [by apply cpu_in|]. unfold r0. apply some_pair. vm_compute. reflexivity. }
  assert (R1 : sreach 400 500 r1 (fun _ => 0)).
  { eapply sreach_step; [exact R0|]. apply (sstep_alloc _ _ 64 VR_FLOW_QUEUE_OBJECT _ _ true); [done|]. unfold r1. apply some_pair. vm_compute. reflexivity. }
  assert (R2 : sreach 400 500 r2 (fun _ => 0)) by (eapply sreach_step; [exact R1|]; apply sstep_host; by apply cpu_in).
  assert (R3 : sreach 400 500 r3 (fun _ => 0)).
  { eapply sreach_step; [exact R2|]. apply (sstep_free _ _ VR_FLOW_QUEUE_OBJECT); [done|]. unfold r3. apply some_default. vm_compute. reflexivity. }
  assert (R4 : sreach 400 500 r4 (fun _ => 0)).
  { eapply sreach_step; [exact R3|]. apply (sstep_alloc _ _ 96 VR_MIRROR_OBJECT _ _ true); [done|]. unfold r4. apply some_pair. vm_compute. reflexivity. }
  eapply sreach_step; [exact R4|]. apply (sstep_drop _ _ 1 VP_DROP_PULL); [by apply cpu_in|done|]. unfold r5. apply some_default. vm_compute. reflexivity.
Qed.

(** ** Witnesses *)

Lemma mem_stats_exact_witness : exists x r', vr_mem_stats_get 500 r5 = Some (0, Some x, r') /\
  vms_mirror_object x = s64 (live r5 VR_MIRROR_OBJECT) /\ vms_mirror_object x = 1 /\ vms_mem_stats_req_object x = 1.
Proof.
  destruct (mem_stats_exact 400 500 r5 d5 stats_run) as (ret & resp & r' & Hg & _ & [(_ & _ & Hm)|(x & -> & -> & Hx & _)]).
  - exfalso. apply Hm. vm_compute. reflexivity.
  - rewrite Forall_forall in Hx.
    assert (Hf : vms_mirror_object x = s64 (live r5 VR_MIRROR_OBJECT)).
    { apply (Hx (vms_mirror_object, VR_MIRROR_OBJECT)). unfold mem_fields. repeat (apply elem_of_cons; first [left; reflexivity|right]). }
    assert (Hq : vms_mem_stats_req_object x = s64 (live r5 VR_MEM_STATS_REQ_OBJECT + 1)).
    { apply (Hx (vms_mem_stats_req_object, VR_MEM_STATS_REQ_OBJECT)). unfold mem_fields. repeat (apply elem_of_cons; first [left; reflexivity|right]). }
    exists x, r'. split; [exact Hg|]. split; [exact Hf|]. rewrite Hf, Hq. by vm_compute.
Defined.

Lemma drop_stats_exact_witness : exists x r', vr_drop_stats_get 400 (u32 (0 - 1)) r5 = Some (0, Some x, r') /\ shows_drops r5 d5 (u32 (0 - 1)) x.
Proof.
  destruct (drop_stats_exact 400 500 r5 d5 0 stats_run) as (ret & resp & r' & Hg & [(_ & _ & Hm)|(x & -> & -> & Hx)]).
  - exfalso. apply Hm. vm_compute. reflexivity.
  - exists x, r'. split; [exact Hg|exact Hx].
Defined.

Lemma stats_exit_gives_back_witness : exists r', vr_stats_exit false r5 = Some r' /\ malloc_blocks r' = None.
Proof.
  destruct (stats_exit_gives_back 400 500 r5 d5 stats_run) as (r' & Hr & _ & Hb & _). exists r'. split; [exact Hr|exact Hb].
Defined.

(** ** What goes wrong *)

(** The block of the CPU that sets up the module is not tested: without memory for it the code
    writes through a null pointer. *)
Example stats_block_unchecked : vr_malloc_stats_init (empty 0 [true; false]) = None.
Proof. vm_compute. reflexivity. Qed.

(** Without memory for the block of another CPU the set-up succeeds, and the first request for
    the statistics reads through a null pointer. *)
Example stats_missing_block_faults :
  fst <$> vr_stats_init (empty 0 [true; true; false]) = Some 0 /\
  vr_mem_stats_get 500 (ran_to (vr_stats_init (empty 0 [true; true; false])) (empty 0 [])) = None.
Proof. vm_compute. by split. Qed.

(** A request other than a get is refused and then served: two answers. *)
Example stats_answered_twice : (fun x => fst (fst x)) <$> vr_mem_stats_req_process 500 SANDESH_OP_ADD r5 = Some [- EOPNOTSUPP; 0].
Proof. vm_compute. reflexivity. Qed.

(** Five kinds of memory are shown in no field. *)
Example stats_not_reported :
  filter (fun o => o ∉ mem_fields.*2) (seqZ 0 VR_VROUTER_MAX_OBJECT) =
  [VR_FLOW_DEFER_DATA_OBJECT; VR_INTERFACE_REQ_TO_LCORE_ERRORS_OBJECT; VR_INTERFACE_TO_LCORE_ERRORS_OBJECT; VR_LOG_TYPES_OBJECT; VR_BITMAP_OBJECT].
Proof. vm_compute. reflexivity. Qed.

End StatsExamples.

Module VrouterExamples.
Import Vrouter VrouterProofs VrouterTables VrouterRun.

(** Four nexthops, sixteen labels, pages of 4096 bytes.  [vx_oracle]: which requests for memory of
    the table of identifiers succeed. *)
Definition cold_tables (vx_oracle : list bool) : tables :=
  mk_tables (Nexthop.router0 []) (Mpls.mk_mpls 0 None false []) (Mirror.mk_mirrors 0 None ∅ 1 [] [] true false)
    (Vxlan.mk_vxlan None (mk_mem 1 ∅ vx_oracle)) (QosProofs.qos0 []).

Definition cold_state vx_oracle : state tables := mk_state (cold_tables vx_oracle) (replicate 5 merr0) None false true [].

Abbreviation small_modules := (table_modules 4 16 true 12).
Abbreviation start_small := (vrouter_init small_modules true (Some lh_soft_reset) set_not_ready memset_router).
Abbreviation reset_small := (vrouter_soft_reset small_modules true (Some lh_soft_reset) set_not_ready memset_router).

Lemma small_mirrors : mirror_fit (t_mirror (cold_tables [])).
Proof.
  unfold mirror_fit. cbn. split; [split; cbn; [done| |done|done]|].
  - split; [constructor|intros p Hp; by apply not_elem_of_nil in Hp|]. intros p [e He]. by vm_compute in He.
  - intros p [e He]. by vm_compute in He.
Qed.

Lemma cold_small : cold [] (cold_tables []).
Proof.
  split; [|exact small_mirrors| |apply QosProofs.qos0_inv|by vm_compute].
  - unfold shut_down. cbn. split_and!; try done. apply Nexthop.router0_inv.
  - intros b [x Hx]. cbn in Hx. by vm_compute in Hx.
Qed.

Lemma router_start_spec_witness :
  exists ret s', start_small (cold_state []) = Some (ret, s') /\ module_under_init s' = None /\ vr_not_ready s' = negb (ret =? 0) /\
    if ret =? 0 then (forall j, (j < 5)%nat -> present j (router s')) /\ emptied [] (router s') /\ console s' = []
    else shut_down [] (router s') /\ complains 4 16 true 12 (cold_state []) s' ret.
Proof. exact (router_start_spec 4 16 true 12 ltac:(lia) ltac:(lia) ltac:(lia) [] (cold_state []) cold_small eq_refl). Defined.

(** ** A router with a label *)

Definition run_state (x : option (Z * state tables)) : state tables := match x with Some (_, s) => s | None => cold_state [] end.

Definition up1 : state tables := run_state (start_small (cold_state [])).
Definition nh1 : Nexthop.router := t_nh (router up1).
(** Label 5 is mapped to the discard nexthop, which is the block 1. *)
Definition mpls2 : Mpls.mpls := (Mpls.__vrouter_set_label 5 (Some 1) (t_mpls (router up1))).2.
Definition up2 : state tables := set_router (set_mpls (mpls2, (Nexthop.vrouter_get_nexthop 0 0 nh1).2) (router up1)) up1.

Lemma pair_of_some {A B} (a a' : A) (b b' : B) : Some (a, b) = Some (a', b') -> a = a' /\ b = b'.
Proof. by intros [= -> ->]. Qed.

Lemma some_run x (ret : Z) : fst <$> x = Some ret -> x = Some (ret, run_state x).
Proof. destruct x as [[r s]|]; [|done]. by intros [= ->]. Qed.

Lemma up1_runs : start_small (cold_state []) = Some (0, up1).
Proof. unfold up1. apply some_run. vm_compute. reflexivity. Qed.

Lemma up1_started : started [] (fun _ => True) 5 (router up1).
Proof.
  destruct (start_spec _ _ _ memset_router (H := start_laws 4 16 true 12 ltac:(lia) ltac:(lia) ltac:(lia) [] _ (any_kept 4 []))
    (cold_state []) (cold_started [] _ cold_small) eq_refl) as (ret & s' & Hs & _ & _ & _ & Hx).
  destruct (pair_of_some _ _ _ _ (eq_trans (eq_sym up1_runs) Hs)) as [<- <-]. change (0 =? 0) with true in Hx.
  destruct Hx as (_ & Hx & _). exact Hx.
Qed.

(** A label takes a reference to a nexthop. *)
Lemma label_fit r m p : started [] (fun _ => True) 5 r -> mpls_fit m -> Mpls.label_refs m = [p] ->
  (Nexthop.vrouter_get_nexthop 0 0 (t_nh r)).1 = Some p -> zlen (Nexthop.refs [] (t_nh r)) < UINT_MAX ->
  fit [] (set_mpls (m, (Nexthop.vrouter_get_nexthop 0 0 (t_nh r)).2) r).
Proof.
  intros [[F1 F2 F3 F4 _] [E1 E2 E3 E4] _ _ _] Hm Hl Hg Hr. split; try done. exists []. split; [done|]. cbn [set_mpls t_mpls t_mirror t_nh fst snd].
  rewrite E2, Hl. cbn [app]. apply (@refs_get _ _ Nexthop.router_refs [] 0 0 (t_nh r) _ p E4 Hr).
  change (nh_get 0 0 (t_nh r)) with (Nexthop.vrouter_get_nexthop 0 0 (t_nh r)). destruct (Nexthop.vrouter_get_nexthop 0 0 (t_nh r)) as [o s1].
  cbn in Hg |- *. by subst o.
Qed.

Lemma up2_fit : fit [] (router up2).
Proof.
  apply (label_fit (router up1) mpls2 1 up1_started).
  - vm_compute. by split.
  - vm_compute. reflexivity.
  - vm_compute. reflexivity.
  - vm_compute. reflexivity.
Qed.

Lemma up2_live : nh_live (t_nh (router up2)).
Proof. split_and!; vm_compute; [by eexists|by eexists|done]. Qed.

Lemma router_reset_spec_witness :
  Mpls.label_refs (t_mpls (router up2)) = [1] /\
  exists ret s', reset_small up2 = Some (ret, s') /\ module_under_init s' = None /\ vr_not_ready s' = negb (ret =? 0) /\
    if ret =? 0 then (forall j, (j < 5)%nat -> present j (router s')) /\ emptied [] (router s') /\ only_discard (t_nh (router s')) /\
                     console s' = console up2
    else shut_down [] (router s') /\ complains 4 16 true 12 up2 s' ret.
Proof.
  split; [by vm_compute|].
  exact (router_reset_spec 4 16 true 12 ltac:(lia) ltac:(lia) ltac:(lia) [] up2 up2_fit up2_live eq_refl eq_refl).
Defined.

(** The reset returns 0. *)
Example reset_succeeds : fst <$> reset_small up2 = Some 0.
Proof. by vm_compute. Qed.

(** ** Shortages *)

(** No memory for the table of identifiers: four modules are torn down again, and the console
    says why. *)
Example start_fails :
  (fun x => (fst x, console (snd x), Nexthop.vr_nexthops (t_nh (router (snd x))))) <$> start_small (cold_state [false]) =
  Some (- ENOMEM, [L_module_init 3 (- ENOMEM); L_init_failed "Vxlan" (mk_merr (- ENOMEM) (Some "vr_vxlan_init") 272 0)], None).
Proof. by vm_compute. Qed.

(** A reset gives the table of identifiers back and asks for it again: without memory the
    running router is lost. *)
Definition no_memory (s : state tables) : state tables :=
  let r := router s in let x := t_vxlan r in
  set_router (mk_tables (t_nh r) (t_mpls r) (t_mirror r)
    (Vxlan.mk_vxlan (Vxlan.vr_vxlan_table x) (mk_mem (m_next (Vxlan.vx_mem x)) (m_live (Vxlan.vx_mem x)) [false])) (t_qos r)) s.

Example reset_loses_router :
  (fun x => (fst x, vr_not_ready (snd x), Nexthop.vr_nexthops (t_nh (router (snd x))))) <$> reset_small (no_memory up2) = Some (- ENOMEM, true, None).
Proof. by vm_compute. Qed.

(** Without a host the start fails, and the tear-down reads a field of the host. *)
Example start_without_host :
  vrouter_init small_modules false (Some lh_soft_reset) set_not_ready memset_router (cold_state []) = None.
Proof. by vm_compute. Qed.

(** ** Parameters *)

Definition all_unset : tunables := mk_tun (-1) (-1) (-1) (-1) (-1) (-1) (-1) (-1) (-1) (-1) (-1) (-1) (-1) (-1).
Definition some_sizes : sizes := mk_sizes 4352 4096 5120 65536 262144 53248 524288 105472 255 0 0 0 0.
Definition linux : world unit := mk_world some_sizes (mk_tun 1 1 1 1 0 1 1 1 0 0 0 0 4096 0) tt mem0.
(** MPLS over UDP is switched on. *)
Definition mudp_req : vrouter_ops :=
  mk_ops SANDESH_OP_ADD some_sizes (mk_tun (-1) (-1) (-1) (-1) (-1) (-1) (-1) (-1) (-1) (-1) (-1) (-1) (-1) 1) [] 0 [] [].

Lemma ops_set_get_witness :
  let '(ret, w1) := vrouter_ops_add_process mudp_req linux in
  let '(code, resp, w2) := vrouter_ops_get_process [49; 46; 48] 200 SANDESH_OP_GET w1 in
  ret = 0 /\ m_live (w_mem w2) = m_live (w_mem linux) /\ w_tun w2 = w_tun w1 /\
  ((code = - ENOMEM /\ resp = None /\ m_oracle (w_mem linux) <> []) \/
   exists x, code = 0 /\ resp = Some x /\ vo_tun x = override (vo_tun mudp_req) (shown linux) /\ vo_sizes x = w_sizes linux).
Proof. apply (ops_set_get [49; 46; 48] 200 mudp_req linux); [exact mem0_ok|cbn; lia|done]. Defined.

(** The string of the build is sent without its terminating zero, in a block of its length. *)
Example build_info_unterminated :
  (fun x => vo_build_info x) <$> (vrouter_ops_get_process [49; 46; 48] 200 SANDESH_OP_GET linux).1.2 = Some [49; 46; 48].
Proof. by vm_compute. Qed.

(** A host that allocates the list of log types, as DPDK does: every request to read leaks it. *)
Definition dpdk_like : LogHost unit := {|
  hos_set_log_level _ l := l;
  hos_set_log_type _ _ l := l;
  hos_get_log_level _ := 7;
  hos_get_enabled_log_types _ m := ([1], (m_alloc 4 m).2)
|}.

Example log_types_leak :
  size (m_live (w_mem (vrouter_ops_get_process (H := dpdk_like) [49; 46; 48] 200 SANDESH_OP_GET linux).2)) = 1%nat.
Proof. by vm_compute. Qed.
End VrouterExamples.
